(* ===== verification/_CoqProject ===== *)
-Q . S2P
Prelude.v
NativeProtocol.v
Floats.v
FloatRange.v
Sha256.v
Json.v
JsonFacts.v
Models.v
Samples.v
ModelFacts.v
Grading.v
Stats.v
Aggregate.v
Oracle.v
OracleFacts.v
Text.v
Submission.v
Worker.v
WorkerFacts.v
Job.v
Base64.v
Sql.v
Dispatch.v
DispatchFacts.v
JobFacts.v
Pipeline.v
OneShot.v
Fixture.v
FixtureFacts.v
Launch.v
LaunchFacts.v
Elf.v
ElfFacts.v
Effects.v
Artifact.v
ArtifactFacts.v
Replay.v
ReplayFacts.v
Admission.v
AdmissionFacts.v
Repository.v
Lexer.v
Corpus.v
CorpusFacts.v
Qualification.v
QualificationFacts.v
NativeEvidence.v
NativeEvidenceFacts.v
