(* ===== verification/Prelude.v ===== *)
(** * Verification of BPE, a grader for eBPF programs written by models

    The program ([src/src/bpe/], Python) turns the response of a model to a task into a
    benchmark result: it extracts the candidate source, prepares a closed evaluation
    job, admits the job to an execution service by a signed one-shot authorization,
    checks what the execution reports, scores the evidence and aggregates the scores
    of a whole experiment.  Everything is identified by digests of canonical JSON.

    ** Parts and files

    - [Prelude]: exceptions as values ([result], [raise .. when ..], [let* ..]), loops
      that raise, insertion sort, ordering of strings, the shared tactics.
    - [NativeProtocol] ([inert_native_protocol.py]): the transcript of the native
      launcher.  [decode_record], [validate_success_frame], [validate_error_frame] and
      [parse_inert_native_transcript] are the functions of these names; [ValidRun] is a
      step relation of the launcher that the parser is proved to accept exactly.
    - [Floats], [FloatRange]: Python's binary64 arithmetic with round-to-nearest-even.
    - [Sha256], [Json], [JsonFacts], [Text] ([canonical.py]): SHA-256, the canonical
      encoder, the strict decoder on text and on bytes, and their round trip.
    - [Models], [ModelFacts] ([models.py], [identity.py]): a record per model class,
      [validate_X] for what constructing an [X] checks, [X_json] for its JSON image.
      [Samples] holds concrete values.
    - [Grading] ([grading.py]): [score_evidence], its contract check and the reward.
    - [Stats], [Aggregate] ([aggregate.py]): pass@k, percentiles, the cluster
      bootstrap, membership, anchoring, task scores and the report.
    - [Oracle], [OracleFacts] ([oracle.py]): differential comparison of two traces.
    - [Submission] ([submission.py]): extraction of the candidate source.
    - [Worker], [WorkerFacts] ([capabilities.py], [worker_protocol.py],
      [worker_cli.py]): the capability-only worker and the host's acceptance check.
    - [Job], [JobFacts] ([job.py]): evaluation plans, derived contracts, manifests.
    - [Base64], [Sql], [Dispatch], [DispatchFacts] ([dispatch.py]): authorizations and
      the durable claim ledger as a state machine over its tables.
    - [Pipeline]: theorems that span preparation, scoring, aggregation and dispatch.
    - [OneShot], [Fixture], [FixtureFacts] ([inert_fixture.py]): signed intents for the
      inert fixture and their claim ledger with its tombstones; [OneShot] is the
      one-shot table both inert ledgers use.
    - [Launch], [LaunchFacts] ([inert_launch.py]): launch attempts, each authenticated
      against the claim ledger and consumed once.
    - [Elf], [ElfFacts], [Effects], [Artifact], [ArtifactFacts]
      ([inert_artifact.py]): the checks on the launcher image, and the descriptor code
      that copies it into a sealed file, in a state-and-exception monad.
    - [Replay], [ReplayFacts] ([replay.py]): replay bundles as directory trees,
      their writer, their inspection and rescoring.
    - [Admission], [AdmissionFacts] ([admission.py], [build_scoring_contract] of
      [task.py]): the role matrix of a task and its admission from replays.
    - [Repository], [Lexer], [Corpus], [CorpusFacts] ([corpus.py]): repository
      identities, the C tokenizer, manifests and the static contamination audit
      ([audit_corpus]) between a training corpus and a frozen benchmark.
    - [Qualification], [QualificationFacts] ([qualification.py]): the plan of anchors
      and witnesses that a grader must rank and kill, and [qualify_grader].
    - [NativeEvidence], [NativeEvidenceFacts] ([inert_native_qualification.py]): the
      report of a native qualification run, whose five cases are replayed through the
      transcript parser of [NativeProtocol].

    ** How the code is rendered

    A function that may raise returns [result E A]; the error of a validator is the
    message of the code without the values interpolated in it.  A [str] is the string
    of its UTF-8 bytes, [bytes] is a string, [int] is [Z], [float] is [float64]; a
    [dict] is an association list in insertion order.  A SQLite table is the list of
    its rows with the constraints of its [CREATE TABLE] statement; a transaction maps
    a ledger to the ledger it commits and its result.

    What is not in the repository is a parameter: the Ed25519 check of the
    [cryptography] package ([ed25519_verify]), the uniform draws of Python's
    random generator and its logarithm, the answers of the host platform ([Host]), the path resolution
    of the platform ([canonical_path]), the validation library reading stored JSON
    into a model ([parse_receipt], [parse_attempt], [Readers], [read]), the Unicode and URL
    functions of Python's library ([TextOps], and the table [decimal] of decimal
    digits), and the system calls of the descriptor code (the class [OS], with
    [OSLaws] for what the kernel documents).  The wall clock and the nonce generator are arguments.

    ** What the theorems show

    - protocols: the transcript parser accepts exactly the runs of the launcher's
      step relation, and an accepted transcript was cleaned up; the worker always
      answers one closed frame, the host accepts exactly the canonical success
      response, and the two ends agree;
    - content identity: the canonical encoding round-trips, so equal digests mean
      equal content or a SHA-256 collision; a base64url value has one spelling;
    - scoring: the grader is total on validated input, success is the conjunction of
      every required check of the contract, infrastructure failures are never scored,
      later failures never pay less, all under binary64 rounding;
    - statistics: pass@k is the fraction of winning draws, bootstrap intervals lie in
      the unit interval, aggregation needs the complete anchored design;
    - oracle: masks, map deltas and the verdict, specified without their code;
    - jobs: the blob table, which plans have a contract, and that success under a
      prepared job covers the whole plan;
    - dispatch: over every history of the ledger each authorization is claimed at
      most once, receipts are durable and unforgeable, retries form bounded linear
      lineages, and a claim succeeds exactly when it should;
    - inert ledgers: an intent is consumed at most once and its consumption is
      terminal, a claim succeeds exactly when it should, a committed receipt can be
      recovered, and every launch rests on its own committed claim;
    - launcher image: exactly which ELF images are accepted, what that guarantees of
      the loaded image, that the reading and writing loops terminate, that a stable
      read returns the file, and that preflight owns exactly one descriptor when it
      succeeds and none when it fails;
    - replay: what is written verifies and reads back as it was, what verifies is
      sound and closed, and two bundles under one anchor agree in every file;
    - admission: an admitted task behaves as its design predicts, the role matrix is
      decided exactly and independently of order, admitted replays bind the task;
    - qualification: a qualified grader ranks every task strictly and kills exactly
      the planned witnesses, on exactly the precommitted attempts; tasks share
      nothing; supplied bundles are sealed; reward orderings are accepted exactly
      when they can be ranked;
    - contamination: accepted repository identities are canonical, tokens are the
      whole visible text without its comments, and the audit always reports and
      passes exactly the clean inputs ([clean]);
    - native qualification: a case can be built exactly from the fixed run of its name,
      and a report that validates certifies five such runs of one sealed launcher,
      under the runtime built from the commit it names;
    - composition: runs of prepared jobs always pass the aggregator's membership
      check; a dispatch expectation vouches for the job's content.

    Where the code departs from its documentation a theorem exhibits it
    ([slashed_ids_collide], [bootstrap_interval_can_reverse],
    [semantics_reward_can_exceed_success], [verifier_failure_can_pay_more],
    [artifact_path_exact], [preflight_fails_while_handling]).

    ** Fuel

    Recursion is structural except in the JSON decoder, whose fuel is the length of
    the text ([strict_json_loads_terminates] shows it is enough), in the complexity
    walks of the worker and of replay, whose fuel is the node limit plus two
    ([complexity_check_exact] shows it never runs out), and in the descriptor loops,
    which have one unit per byte still to read or write
    ([descriptor_loops_terminate]).  Three more loops have enough fuel by their own
    lemmas: the ranking of anchors, one unit per anchor
    ([orderings_accepted_iff_rankable]), the removal of [.git] suffixes, one per byte
    ([drop_git_done]), and the token scan, one per character
    ([find_tokens_covers]).

    ** Not modelled

    File-system and process I/O: reading and writing bundle directories ([task.py],
    the bundle half of [job.py], [ingress.py]), the pinning of descriptors, the target
    reservation and the rollback of [replay.py], opening databases, the Linux system
    calls of [cgroup.py] and [inert_orchestration.py], the command lines [cli.py] and
    the tables of [schemas.py].  [sha256_file], coercions of the validation library
    (records are already typed) and CPython's recursion limit are outside the model.
    The loading of corpora from closed directories ([load_corpus]) is I/O as well. *)

From Stdlib Require Import ZArith Lia.
From stdpp Require Import base tactics list strings gmap sorting.

(** ** Exceptions as values

    A Python function that may raise is modelled as a function into
    [result E A]: [Ok v] is a normal return, [Err e] a raised exception. *)
Inductive result (E A : Type) : Type :=
| Ok (a : A)
| Err (e : E).
Arguments Ok {E A} a.
Arguments Err {E A} e.

#[export] Instance result_eq_dec {E A} (HE : EqDecision E) (HA : EqDecision A) :
  EqDecision (result E A).
Proof.
  intros x y; destruct x as [a|e], y as [b|e']; try (right; congruence).
  - destruct (decide (a = b)); [left|right]; congruence.
  - destruct (decide (e = e')); [left|right]; congruence.
Defined.

Definition bind_result {E A B} (m : result E A) (k : A -> result E B) : result E B :=
  match m with Ok a => k a | Err e => Err e end.

Declare Scope bpe_scope.
Delimit Scope bpe_scope with bpe.
Open Scope bpe_scope.

(** [raise e when c ;; k] is the guard [if c: raise e] followed by [k];
    [let* x := m in k] runs [m] and propagates its exception. *)
Notation "'raise' e 'when' c ;; k" :=
  (if c then Err e else k)
    (at level 10, e at level 99, c at level 99, k at level 200, only parsing) : bpe_scope.
Notation "'let*' x := m 'in' k" :=
  (bind_result m (fun x => k))
    (at level 10, x pattern, m at level 99, k at level 200, only parsing) : bpe_scope.

Definition is_ok {E A} (r : result E A) : bool :=
  match r with Ok _ => true | Err _ => false end.

(** A list comprehension whose body may raise: left to right, first exception wins. *)
Fixpoint map_result {E A B} (f : A -> result E B) (l : list A) : result E (list B) :=
  match l with
  | [] => Ok []
  | x :: l => let* y := f x in let* ys := map_result f l in Ok (y :: ys)
  end.

(** A [for] loop that only checks: raise at the first element that fails. *)
Fixpoint for_each {E A} (f : A -> result E unit) (l : list A) : result E unit :=
  match l with
  | [] => Ok tt
  | x :: l => let* _ := f x in for_each f l
  end.

Lemma bind_ok {E A B} (m : result E A) (k : A -> result E B) b :
  bind_result m k = Ok b <-> exists a, m = Ok a /\ k a = Ok b.
Proof. destruct m; cbn; split; [eauto|intros (? & [= <-] & ?)|done|intros (? & ? & ?)]; done. Qed.

Lemma ok_inj {E A} (a b : A) : @Ok E A a = Ok b -> a = b.
Proof. by intros [= ->]. Qed.

(** A computation that runs to a value with [P] returns such a value. *)
Lemma is_ok_inv {E A} (r : result E A) : is_ok r = true -> exists a, r = Ok a.
Proof. destruct r; [eauto|done]. Qed.
Lemma is_ok_unit {E} (r : result E unit) : is_ok r = true -> r = Ok tt.
Proof. by destruct r as [[]|]. Qed.

Lemma run_ok {E A} (r : result E A) (P : A -> Prop) :
  match r with Ok a => P a | Err _ => False end -> exists a, r = Ok a /\ P a.
Proof. destruct r; [eauto|done]. Qed.

Lemma map_result_ok {E A B} (f : A -> result E B) l k :
  map_result f l = Ok k <-> Forall2 (fun x y => f x = Ok y) l k.
Proof.
  revert k. induction l as [|x l IH]; intros k; cbn.
  - split; [intros [= <-]; constructor|]. by inversion 1.
  - rewrite bind_ok. setoid_rewrite bind_ok. split.
    + intros (y & Hy & ys & Hys & [= <-]). constructor; [done|]. by apply IH.
    + inversion 1 as [|? y ? k' Hx Hl]; subst. apply IH in Hl. eauto 7.
Qed.

Lemma map_result_total {E A B} (f : A -> result E B) (P : A -> B -> Prop) l :
  (forall x, x ∈ l -> exists y, f x = Ok y /\ P x y) ->
  exists ys, map_result f l = Ok ys /\ Forall2 P l ys.
Proof.
  induction l as [|x l IH]; intros H; cbn; [by exists []|].
  destruct (H x) as (y & -> & Hy); [by left|].
  destruct IH as (ys & -> & Hys); [intros z Hz; apply H; by right|].
  exists (y :: ys). split; [done|by constructor].
Qed.

Lemma map_result_length {E A B} (f : A -> result E B) l k :
  map_result f l = Ok k -> length k = length l.
Proof. rewrite map_result_ok. intros H. symmetry. by eapply Forall2_length. Qed.

Lemma for_each_ok {E A} (f : A -> result E unit) l :
  for_each f l = Ok tt <-> Forall (fun x => f x = Ok tt) l.
Proof.
  induction l as [|x l IH]; cbn; [by split; constructor|].
  rewrite Forall_cons, bind_ok, <-IH. split; [intros ([] & ? & ?)|intros [? ?]]; eauto.
Qed.

Lemma forall2_left {A B} (P : A -> B -> Prop) l k x : Forall2 P l k -> x ∈ l -> exists y, y ∈ k /\ P x y.
Proof.
  intros H (i & Hi)%list_elem_of_lookup. destruct (Forall2_lookup_l _ _ _ _ _ H Hi) as (y & Hy & Hp). exists y.
  split; [by eapply list_elem_of_lookup_2|done].
Qed.
Lemma forall2_right {A B} (P : A -> B -> Prop) l k y : Forall2 P l k -> y ∈ k -> exists x, x ∈ l /\ P x y.
Proof. intros H%Forall2_flip Hy. destruct (forall2_left _ _ _ _ H Hy) as (x & Hx & Hp). eauto. Qed.

(** Case analysis on the guards of a model function in a hypothesis
    [f args = Ok v]: every guard is decided, failing branches disappear. *)
Ltac ok_step :=
  match goal with
  | H : Err _ = Ok _ |- _ => discriminate H
  | H : Ok _ = Err _ |- _ => discriminate H
  | H : Ok ?a = Ok ?b |- _ => injection H; clear H; intros
  | H : bind_result _ _ = Ok _ |- _ =>
      apply bind_ok in H; let x := fresh "v" in let E := fresh "E" in
      destruct H as (x & E & H); cbn beta in H
  | H : (if ?c then _ else _) = Ok _ |- _ => let E := fresh "E" in destruct c eqn:E
  | H : match ?m with _ => _ end = Ok _ |- _ => let E := fresh "E" in destruct m eqn:E
  end.
Ltac ok_inv := repeat (ok_step; try discriminate); subst.

(** The same from the outside in, one guard at a time: for validators with many guards. *)
Lemma raise_ok {E A} (c : bool) (e : E) (k : result E A) v :
  (if c then Err e else k) = Ok v -> c = false /\ k = Ok v.
Proof. by destruct c. Qed.
Lemma field_ok {E A} (c : bool) (e : E) (k : result E A) v :
  (if c then k else Err e) = Ok v -> c = true /\ k = Ok v.
Proof. by destruct c. Qed.
Lemma field_only_ok {E} (c : bool) (e : E) : (if c then Ok tt else Err e) = Ok tt <-> c = true.
Proof. by destruct c. Qed.
Ltac peel H :=
  repeat (let E := fresh "E" in
  match type of H with
  | (if _ then Err _ else _) = Ok _ => apply raise_ok in H as [E H]
  | (if _ then _ else Err _) = Ok _ => apply field_ok in H as [E H]
  | bind_result _ _ = Ok _ =>
      let x := fresh "v" in apply bind_ok in H as (x & E & H); cbn beta in H;
      match type of x with unit => destruct x | _ => idtac end
  end).

(** ** Booleans *)
Lemma bool_decide_neg_false P `{Decision P} : negb (bool_decide P) = false <-> P.
Proof. rewrite negb_false_iff. apply bool_decide_eq_true. Qed.

Lemma cons_eq_inv {A} (x y : A) l k : x :: l = y :: k -> x = y /\ l = k.
Proof. by intros [= -> ->]. Qed.

(** Turn boolean tests of the code into propositions. *)
Ltac bool_prop :=
  repeat match goal with
  | H : _ || _ = false |- _ => apply orb_false_iff in H; destruct H
  | H : _ && _ = true |- _ => apply andb_true_iff in H; destruct H
  | H : _ && _ = false |- _ => apply andb_false_iff in H
  | H : _ || _ = true |- _ => apply orb_true_iff in H
  | H : negb (bool_decide _) = false |- _ => apply bool_decide_neg_false in H
  | H : negb _ = false |- _ => apply negb_false_iff in H
  | H : negb _ = true |- _ => apply negb_true_iff in H
  | H : bool_decide _ = true |- _ => apply bool_decide_eq_true in H
  | H : bool_decide _ = false |- _ => apply bool_decide_eq_false in H
  | H : (_ <=? _)%nat = true |- _ => apply Nat.leb_le in H
  | H : (_ <=? _)%nat = false |- _ => apply Nat.leb_gt in H
  | H : (_ =? _)%Z = true |- _ => apply Z.eqb_eq in H
  | H : (_ =? _)%Z = false |- _ => apply Z.eqb_neq in H
  | H : (_ <=? _)%Z = true |- _ => apply Z.leb_le in H
  | H : (_ <=? _)%Z = false |- _ => apply Z.leb_gt in H
  | H : (_ <? _)%Z = true |- _ => apply Z.ltb_lt in H
  | H : (_ <? _)%Z = false |- _ => apply Z.ltb_ge in H
  end.

(** A guard [p and q] that did not fire, as an implication. *)
Lemma guard_implies (P : Prop) `{Decision P} b :
  bool_decide P && b = false -> P -> b = false.
Proof. intros Hb HP. by rewrite bool_decide_true in Hb. Qed.

Lemma guard_implies2 (P Q : Prop) `{Decision P, Decision Q} b :
  (bool_decide P && bool_decide Q) && b = false -> P -> Q -> b = false.
Proof. intros Hb HP HQ. by rewrite !bool_decide_true in Hb. Qed.

Lemma guard_intro (P : Prop) `{Decision P} b :
  (P -> b = false) -> bool_decide P && b = false.
Proof. case_bool_decide; auto. Qed.

Lemma guard_intro2 (P Q : Prop) `{Decision P, Decision Q} b :
  (P -> Q -> b = false) -> (bool_decide P && bool_decide Q) && b = false.
Proof. repeat case_bool_decide; auto. Qed.

(** ** Python idioms *)

(** [len(xs) == len(set(xs))] *)
Definition unique {A} `{EqDecision A} (l : list A) : bool :=
  bool_decide (length l = length (remove_dups l)).

Lemma remove_dups_length_le {A} `{EqDecision A} (l : list A) :
  length (remove_dups l) <= length l.
Proof. induction l as [|x l IH]; cbn; [done|]. case_decide; cbn; lia. Qed.

Lemma unique_NoDup {A} `{EqDecision A} (l : list A) : unique l = true <-> NoDup l.
Proof.
  unfold unique. rewrite bool_decide_eq_true. split.
  - induction l as [|x l IH]; cbn; [constructor|].
    pose proof (remove_dups_length_le l).
    case_decide as Hin; cbn; intros Hl; [lia|].
    constructor; [done|]. apply IH. lia.
  - induction 1 as [|x l Hx Hl IH]; cbn; [done|].
    case_decide as Hin; [done|]. cbn. by rewrite IH.
Qed.

(** A dict literal or a dict built once: association list, looked up by key.
    For a literal with distinct keys this is Python's [dict.get]. *)
Fixpoint dict_get {K V} `{EqDecision K} (d : list (K * V)) (k : K) : option V :=
  match d with
  | [] => None
  | (k', v) :: d => if decide (k = k') then Some v else dict_get d k
  end.

Lemma dict_get_In {K V} `{EqDecision K} (d : list (K * V)) k v :
  dict_get d k = Some v -> (k, v) ∈ d.
Proof.
  induction d as [|[k' v'] d IH]; cbn; [done|].
  destruct (decide (k = k')) as [->|]; intros H.
  - injection H as ->. by left.
  - right; auto.
Qed.

(** [d[k] = v]: in place when the key is there, at the end otherwise. *)
Fixpoint dict_set {K V} `{EqDecision K} (k : K) (v : V) (d : list (K * V)) : list (K * V) :=
  match d with
  | [] => [(k, v)]
  | (k', v') :: d => if decide (k = k') then (k', v) :: d else (k', v') :: dict_set k v d
  end.

(** A dict comprehension: the assignments in order. *)
Definition dict_of {K V} `{EqDecision K} (kvs : list (K * V)) : list (K * V) :=
  fold_left (fun d kv => dict_set kv.1 kv.2 d) kvs [].

Section DictFacts.
Context {K V : Type} `{EqDecision K}.
Implicit Types (d kvs : list (K * V)) (k : K) (v : V).

Lemma dict_get_set k v d k' :
  dict_get (dict_set k v d) k' = if decide (k' = k) then Some v else dict_get d k'.
Proof.
  induction d as [|[j w] d IH]; cbn; [done|].
  destruct (decide (k = j)) as [->|Hne]; cbn; [|rewrite IH]; repeat case_decide; congruence.
Qed.

Lemma dict_set_keys k v d k' : k' ∈ (dict_set k v d).*1 <-> k' = k \/ k' ∈ d.*1.
Proof.
  induction d as [|[j w] d IH]; cbn; [set_solver|].
  destruct (decide (k = j)) as [->|Hne]; cbn; [|rewrite elem_of_cons, IH]; set_solver.
Qed.

Lemma dict_set_NoDup k v d : NoDup d.*1 -> NoDup (dict_set k v d).*1.
Proof.
  induction d as [|[j w] d IH]; cbn; [intros; apply NoDup_singleton|].
  rewrite NoDup_cons. intros [Hj Hd]. destruct (decide (k = j)) as [->|Hne]; cbn; constructor; auto.
  rewrite dict_set_keys. naive_solver.
Qed.

Lemma dict_of_NoDup_keys kvs : NoDup (dict_of kvs).*1.
Proof.
  unfold dict_of. assert (H : forall d, NoDup d.*1 ->
    NoDup (fold_left (fun d kv => dict_set kv.1 kv.2 d) kvs d).*1).
  { induction kvs as [|[k v] kvs IH]; intros d Hd; cbn; [done|]. apply IH. by apply dict_set_NoDup. }
  apply H. constructor.
Qed.

Lemma dict_set_fresh k v d : k ∉ d.*1 -> dict_set k v d = d ++ [(k, v)].
Proof.
  induction d as [|[j w] d IH]; cbn; [done|]. rewrite not_elem_of_cons. intros [Hk Hd].
  rewrite decide_False by done. by rewrite IH.
Qed.

(** With distinct keys the comprehension is the list of its items. *)
Lemma dict_of_id kvs : NoDup kvs.*1 -> dict_of kvs = kvs.
Proof.
  intros Hnd. unfold dict_of.
  assert (H : forall d, NoDup (d ++ kvs).*1 ->
    fold_left (fun d kv => dict_set kv.1 kv.2 d) kvs d = d ++ kvs).
  { clear Hnd. induction kvs as [|[k v] kvs IH]; intros d Hd; cbn; [by rewrite app_nil_r|].
    rewrite dict_set_fresh.
    - rewrite IH; [by rewrite <-app_assoc|]. by rewrite <-app_assoc.
    - rewrite fmap_app, NoDup_app in Hd. destruct Hd as (_ & Hd & _).
      intros Hk. apply (Hd k Hk). cbn. by left. }
  apply (H []). done.
Qed.

Lemma dict_get_Some kvs k v : NoDup kvs.*1 -> dict_get kvs k = Some v <-> (k, v) ∈ kvs.
Proof.
  intros Hnd. split; [apply dict_get_In|].
  induction kvs as [|[j w] kvs IH]; cbn; [by rewrite elem_of_nil|].
  cbn in Hnd. apply NoDup_cons in Hnd as [Hj Hnd].
  intros [Hkv|Hkv]%elem_of_cons; [injection Hkv as -> ->; by rewrite decide_True|].
  rewrite decide_False; [auto|]. intros ->. apply Hj. by apply (list_elem_of_fmap_2 fst) in Hkv.
Qed.

Lemma dict_get_None kvs k : dict_get kvs k = None <-> k ∉ kvs.*1.
Proof.
  induction kvs as [|[j w] kvs IH]; cbn; [set_solver|].
  rewrite not_elem_of_cons. destruct (decide (k = j)); naive_solver.
Qed.
End DictFacts.

(** [next((x for x in xs if p(x)), None)] *)
Definition find_first {A} (p : A -> bool) (l : list A) : option A := List.find p l.

Lemma find_first_Some {A} (p : A -> bool) l x :
  find_first p l = Some x <->
  exists l1 l2, l = l1 ++ x :: l2 /\ p x = true /\ Forall (fun y => p y = false) l1.
Proof.
  unfold find_first. induction l as [|y l IH]; cbn.
  - split; [done|]. intros ([|] & l2 & H & _); discriminate H.
  - destruct (p y) eqn:Hy.
    + split; [intros [= ->]; by exists [], l|].
      intros ([|z l1] & l2 & H & Hx & Hf); injection H as -> ->; [done|].
      apply Forall_cons in Hf as [Hz _]. congruence.
    + rewrite IH. split.
      * intros (l1 & l2 & -> & Hx & Hf). exists (y :: l1), l2. split_and!; [done..|by constructor].
      * intros ([|z l1] & l2 & H & Hx & Hf); injection H as -> ->; [congruence|].
        apply Forall_cons in Hf as [_ Hf]. eauto.
Qed.

Lemma find_first_None {A} (p : A -> bool) l :
  find_first p l = None <-> Forall (fun y => p y = false) l.
Proof.
  unfold find_first. induction l as [|y l IH]; cbn; [by split; constructor|].
  rewrite Forall_cons, <-IH. destruct (p y); naive_solver.
Qed.

(** [sorted]: stable insertion by the strict order [ltb] ([y < x]). *)
Section SortBy.
Context {A : Type} (ltb : A -> A -> bool).

Fixpoint insert_by (x : A) (l : list A) : list A :=
  match l with
  | [] => [x]
  | y :: l' => if ltb y x then y :: insert_by x l' else x :: l
  end.

Fixpoint sort_by (l : list A) : list A :=
  match l with
  | [] => []
  | x :: l => insert_by x (sort_by l)
  end.

Lemma insert_by_perm x l : insert_by x l ≡ₚ x :: l.
Proof. induction l as [|y l IH]; cbn; [done|]. destruct (ltb y x); [|done]. rewrite IH. apply perm_swap. Qed.

Lemma sort_by_perm l : sort_by l ≡ₚ l.
Proof. induction l as [|x l IH]; cbn; [done|]. by rewrite insert_by_perm, IH. Qed.

Lemma sort_by_elem l y : y ∈ sort_by l <-> y ∈ l.
Proof. by rewrite sort_by_perm. Qed.

Lemma sort_by_length l : length (sort_by l) = length l.
Proof. by rewrite sort_by_perm. Qed.

(** On a list without repetitions and a strict total order, [sorted] is strictly
    increasing. *)
Context (ltb_trans : forall x y z, ltb x y = true -> ltb y z = true -> ltb x z = true)
        (ltb_total : forall x y, ltb x y = false -> x = y \/ ltb y x = true).

Lemma insert_by_sorted x l :
  x ∉ l -> StronglySorted (fun a b => ltb a b = true) l ->
  StronglySorted (fun a b => ltb a b = true) (insert_by x l).
Proof.
  intros Hx Hs. induction Hs as [|y l Hs IH Hy]; cbn; [by repeat constructor|].
  apply not_elem_of_cons in Hx as [Hne Hx]. destruct (ltb y x) eqn:E.
  - constructor; [by apply IH|]. rewrite Forall_forall. intros z Hz.
    rewrite insert_by_perm in Hz. apply elem_of_cons in Hz as [->|Hz]; [done|].
    by apply (proj1 (Forall_forall _ _) Hy).
  - destruct (ltb_total _ _ E) as [->|Hlt]; [done|]. constructor; [by constructor|].
    constructor; [done|]. eapply Forall_impl; [exact Hy|]. cbn. intros z. by apply ltb_trans.
Qed.

Lemma sort_by_sorted l : NoDup l -> StronglySorted (fun a b => ltb a b = true) (sort_by l).
Proof.
  induction l as [|x l IH]; cbn; [constructor|]. intros [Hx Hl]%NoDup_cons.
  apply insert_by_sorted; [by rewrite sort_by_perm|by apply IH].
Qed.
End SortBy.

(** ** [str < str]: lexicographic, a strict total order *)
Lemma ascii_compare_lt_trans a b c :
  Ascii.compare a b = Lt -> Ascii.compare b c = Lt -> Ascii.compare a c = Lt.
Proof. unfold Ascii.compare. rewrite !N.compare_lt_iff. lia. Qed.

Lemma string_compare_trans x : forall y z,
  String.compare x y = Lt -> String.compare y z = Lt -> String.compare x z = Lt.
Proof.
  induction x as [|a x IH]; intros [|b y] [|c z]; cbn; try done.
  destruct (Ascii.compare a b) eqn:Hab; [|intros _|done].
  - apply Ascii.compare_eq_iff in Hab as ->. destruct (Ascii.compare b c); try done. apply IH.
  - destruct (Ascii.compare b c) eqn:Hbc; [|intros _|done].
    + apply Ascii.compare_eq_iff in Hbc as ->. by rewrite Hab.
    + by rewrite (ascii_compare_lt_trans _ _ _ Hab Hbc).
Qed.

Lemma string_ltb_lt x y : String.ltb x y = true <-> String.compare x y = Lt.
Proof. unfold String.ltb. by destruct (String.compare x y). Qed.

Lemma string_ltb_trans x y z :
  String.ltb x y = true -> String.ltb y z = true -> String.ltb x z = true.
Proof. rewrite !string_ltb_lt. apply string_compare_trans. Qed.

Lemma string_ltb_total x y : String.ltb x y = false -> x = y \/ String.ltb y x = true.
Proof.
  unfold String.ltb. rewrite (String.compare_antisym x y). destruct (String.compare y x) eqn:E; cbn; try done.
  - apply String.compare_eq_iff in E. auto.
  - auto.
Qed.

Lemma string_ltb_irrefl x : String.ltb x x = false.
Proof.
  unfold String.ltb. pose proof (String.compare_antisym x x) as H. by destruct (String.compare x x).
Qed.

(** ** [IntEnum]: the member list in declaration order and the member values *)
Class IntEnum (A : Type) := {
  enum_eq_dec :: EqDecision A;
  enum_members : list A;
  enum_int : A -> Z;
  enum_complete : forall a, a ∈ enum_members;
  enum_distinct : NoDup (enum_int <$> enum_members)
}.

(** [E(raw)]: the member with that value, [None] for [ValueError]. *)
Definition enum_of_int {A} `{IntEnum A} (z : Z) : option A :=
  find_first (fun a => enum_int a =? z)%Z enum_members.

Section IntEnumFacts.
Context {A : Type} `{IntEnum A}.

Lemma enum_of_int_sound z (a : A) : enum_of_int z = Some a -> enum_int a = z.
Proof. intros Hf. apply List.find_some in Hf as [_ Hf]. lia. Qed.

Lemma enum_int_inj (a b : A) : enum_int a = enum_int b -> a = b.
Proof.
  intros Hab.
  assert (Hinj : forall l : list A, NoDup (enum_int <$> l) -> a ∈ l -> b ∈ l -> a = b).
  { induction l as [|x l IH]; cbn; [by rewrite elem_of_nil|].
    rewrite NoDup_cons, !elem_of_cons, list_elem_of_fmap. intros [Hx Hl].
    intros [->|Ha] [->|Hb]; auto; exfalso; apply Hx; eauto. }
  apply (Hinj enum_members); auto using enum_distinct, enum_complete.
Qed.

Lemma enum_of_int_int (a : A) : enum_of_int (enum_int a) = Some a.
Proof.
  unfold enum_of_int, find_first.
  destruct (List.find _ _) as [b|] eqn:Hf.
  - f_equal. apply List.find_some in Hf as [_ Hf]. apply enum_int_inj. lia.
  - pose proof (List.find_none _ _ Hf a) as Hn.
    rewrite <-list_elem_of_In, Z.eqb_refl in Hn. by specialize (Hn (enum_complete a)).
Qed.
End IntEnumFacts.

Ltac solve_int_enum :=
  solve [ intros []; rewrite list_elem_of_In; cbn; tauto
        | apply (bool_decide_unpack _); vm_compute; exact I ].

(** ** Bytes and big-endian integers *)
Abbreviation byte := Byte.byte.

Definition byte_Z (b : byte) : Z := Z.of_N (Byte.to_N b).

Definition byte_of_Z (z : Z) : byte :=
  match Byte.of_N (Z.to_N (z mod 256)) with Some b => b | None => Byte.x00 end.

#[export] Instance byte_eq_dec : EqDecision byte := Byte.byte_eq_dec.

(** [int.from_bytes(bs, "big")], the [>H], [>I] and [>Q] conversions of [struct]. *)
Definition be_int (bs : list byte) : Z :=
  fold_left (fun acc b => acc * 256 + byte_Z b)%Z bs 0%Z.

(** [z.to_bytes(n, "big")] *)
Fixpoint be_bytes (n : nat) (z : Z) : list byte :=
  match n with
  | O => []
  | S n => be_bytes n (z / 256) ++ [byte_of_Z z]
  end.

Lemma byte_Z_range b : (0 <= byte_Z b < 256)%Z.
Proof. unfold byte_Z. pose proof (Byte.to_N_bounded b). lia. Qed.

Lemma byte_of_Z_Z b : byte_of_Z (byte_Z b) = b.
Proof.
  unfold byte_of_Z. rewrite Z.mod_small by apply byte_Z_range.
  unfold byte_Z. by rewrite N2Z.id, Byte.of_to_N.
Qed.

Lemma byte_Z_of_Z z : byte_Z (byte_of_Z z) = (z mod 256)%Z.
Proof.
  unfold byte_of_Z. pose proof (Z.mod_pos_bound z 256).
  destruct (Byte.of_N _) as [b|] eqn:Hb.
  - apply Byte.to_of_N in Hb. unfold byte_Z. rewrite Hb. lia.
  - apply Byte.of_N_None_iff in Hb. lia.
Qed.

Lemma be_int_snoc bs b : be_int (bs ++ [b]) = (be_int bs * 256 + byte_Z b)%Z.
Proof. unfold be_int. by rewrite fold_left_app. Qed.

Lemma length_be_bytes n z : length (be_bytes n z) = n.
Proof. revert z. induction n as [|n IH]; intros z; cbn; [done|]. rewrite length_app, IH. cbn. lia. Qed.

Lemma be_int_bytes n z : be_int (be_bytes n z) = (z mod 256 ^ Z.of_nat n)%Z.
Proof.
  revert z. induction n as [|n IH]; intros z.
  - cbn. by rewrite Z.mod_1_r.
  - cbn [be_bytes]. rewrite be_int_snoc, IH, byte_Z_of_Z.
    rewrite Nat2Z.inj_succ, Z.pow_succ_r by lia.
    rewrite Z.rem_mul_r by lia. lia.
Qed.

Lemma be_bytes_int bs : be_bytes (length bs) (be_int bs) = bs.
Proof.
  induction bs as [|b bs IH] using rev_ind; [done|].
  rewrite length_app, be_int_snoc. replace (length bs + length [b]) with (S (length bs)) by (cbn; lia).
  cbn [be_bytes]. pose proof (byte_Z_range b) as Hb.
  rewrite Z.div_add_l, Z.div_small, Z.add_0_r, IH by lia.
  do 2 f_equal. rewrite <-(byte_of_Z_Z b) at 2. unfold byte_of_Z.
  by rewrite Z.add_comm, Z_mod_plus_full.
Qed.

Lemma be_int_range bs : (0 <= be_int bs < 256 ^ Z.of_nat (length bs))%Z.
Proof.
  rewrite <-(be_bytes_int bs) at 1 2. rewrite be_int_bytes.
  apply Z.mod_pos_bound. lia.
Qed.

(** ** Automation

    [eauto with bpe] closes the recurring side conditions (ranges of bytes and of
    big-endian integers, distinct dict keys); [autorewrite with bpe] normalizes
    encodings, lengths and lookups. *)
Create HintDb bpe.
Create Rewrite HintDb bpe.
#[export] Hint Resolve byte_Z_range be_int_range dict_of_NoDup_keys dict_set_NoDup
  enum_complete enum_distinct : bpe.
#[export] Hint Rewrite @dict_get_set length_be_bytes be_bytes_int be_int_bytes byte_of_Z_Z
  @sort_by_length @sort_by_elem @length_imap : bpe.
