(* ===== verification/NativeProtocol.v ===== *)
(** * Transcript parser of the native launcher ([src/bpe/inert_native_protocol.py])

    The launcher speaks a one-way protocol over a [SOCK_SEQPACKET] socket: at
    most eight 64-byte records, decoded here field by field, then checked
    against the success state machine and the exact error grammar.

    - enumerations and constants: [NativeFrameType] .. [ERROR_GRAMMAR];
    - [decode_record], [validate_success_frame], [validate_error_frame] and
      [parse_inert_native_transcript] are the functions of the same names;
    - [encode_frame] is the wire image of a frame, the inverse of the decoder;
    - [ValidRun] is the abstract specification: a step relation of the launcher
      emitting success frames and stopping in success or in one error frame;
    - the theorems say that the parser accepts exactly the byte images of those
      runs, and what an accepted transcript proves about cleanup.

    Python's [type(...) is] checks are discharged by the types of the model. *)
From Stdlib Require Import ZArith Lia.
From stdpp Require Import base tactics list strings relations.
From S2P Require Import Prelude.
Local Open Scope Z_scope.

Module NativeProtocol.

(** ** Constants *)
Definition PROTOCOL_MAGIC : list byte :=
  [Byte.x42; Byte.x50; Byte.x45; Byte.x49; Byte.x46; Byte.x58; Byte.x31; Byte.x00].
Definition PROTOCOL_VERSION : Z := 1.
Definition PROTOCOL_FRAME_SIZE : Z := 64.
Definition PROTOCOL_PAYLOAD_SIZE : Z := 40.
Definition PROTOCOL_MAX_FRAMES : Z := 8.
Definition PROTOCOL_MAX_ERRNO : Z := 4095.
Definition LINUX_MAX_PID : Z := Z.shiftl 1 22 - 1.
Definition CLONE_PIDFD : Z := 0x00001000.
Definition CLONE_INTO_CGROUP : Z := 0x200000000.
Definition REQUIRED_CLONE_FLAGS : Z := Z.lor CLONE_PIDFD CLONE_INTO_CGROUP.
Definition CLD_KILLED : Z := 2.
Definition CLD_STOPPED : Z := 5.
Definition SIGKILL : Z := 9.
Definition SIGSTOP : Z := 19.

(** ** Enumerations *)
Inductive NativeFrameType :=
| HELLO | FT_CHILD_READY | CHILD_SIGNALED | CHILD_OBSERVED | FINAL | ERROR.

Inductive NativeStatus := ST_OK | FAILED.

Inductive NativeStage :=
| STARTUP | DESCRIPTOR_VALIDATION | CGROUP_VALIDATION | FIXTURE_SETUP | CLONE3
| CHILD_READY | PIDFD_SIGNAL | CGROUP_KILL | CHILD_OBSERVATION | CHILD_REAP
| CLEANUP | PROTOCOL.

Inductive NativeReason :=
| NONE | BAD_ARGC | BAD_ARGV | NONEMPTY_ENVIRONMENT | BAD_DESCRIPTOR_LAYOUT
| BAD_STDIO | BAD_CONTROL_SOCKET | BAD_CGROUP_DESCRIPTOR | CGROUP_NOT_EMPTY
| PROTOCOL_INPUT | PEER_CLOSED | RESOURCE_EXHAUSTED | CLONE3_UNAVAILABLE
| CLONE3_REJECTED | PIDFD_UNAVAILABLE | CHILD_SETUP_FAILED | PIDFD_SIGNAL_FAILED
| CGROUP_KILL_FAILED | CHILD_OBSERVATION_FAILED | CHILD_REAP_FAILED | TIMEOUT
| CLEANUP_INCOMPLETE | IO_FAILURE | INTERNAL.

Inductive NativeExitCode :=
| EXIT_OK | EXIT_STARTUP | EXIT_PROTOCOL | EXIT_KERNEL | EXIT_TIMEOUT
| EXIT_CLEANUP | EXIT_INTERNAL.

#[export] Instance NativeFrameType_eq_dec : EqDecision NativeFrameType.
Proof. solve_decision. Defined.
#[export] Instance NativeStatus_eq_dec : EqDecision NativeStatus.
Proof. solve_decision. Defined.
#[export] Instance NativeStage_eq_dec : EqDecision NativeStage.
Proof. solve_decision. Defined.
#[export] Instance NativeReason_eq_dec : EqDecision NativeReason.
Proof. solve_decision. Defined.
#[export] Instance NativeExitCode_eq_dec : EqDecision NativeExitCode.
Proof. solve_decision. Defined.

Definition NativeFrameType_value (t : NativeFrameType) : Z :=
  match t with
  | HELLO => 1 | FT_CHILD_READY => 2 | CHILD_SIGNALED => 3
  | CHILD_OBSERVED => 4 | FINAL => 5 | ERROR => 6
  end.
Definition NativeStatus_value (s : NativeStatus) : Z :=
  match s with ST_OK => 0 | FAILED => 1 end.
Definition NativeStage_value (s : NativeStage) : Z :=
  match s with
  | STARTUP => 1 | DESCRIPTOR_VALIDATION => 2 | CGROUP_VALIDATION => 3
  | FIXTURE_SETUP => 4 | CLONE3 => 5 | CHILD_READY => 6 | PIDFD_SIGNAL => 7
  | CGROUP_KILL => 8 | CHILD_OBSERVATION => 9 | CHILD_REAP => 10
  | CLEANUP => 11 | PROTOCOL => 12
  end.
Definition NativeReason_value (r : NativeReason) : Z :=
  match r with
  | NONE => 0 | BAD_ARGC => 1 | BAD_ARGV => 2 | NONEMPTY_ENVIRONMENT => 3
  | BAD_DESCRIPTOR_LAYOUT => 4 | BAD_STDIO => 5 | BAD_CONTROL_SOCKET => 6
  | BAD_CGROUP_DESCRIPTOR => 7 | CGROUP_NOT_EMPTY => 8 | PROTOCOL_INPUT => 9
  | PEER_CLOSED => 10 | RESOURCE_EXHAUSTED => 11 | CLONE3_UNAVAILABLE => 12
  | CLONE3_REJECTED => 13 | PIDFD_UNAVAILABLE => 14 | CHILD_SETUP_FAILED => 15
  | PIDFD_SIGNAL_FAILED => 16 | CGROUP_KILL_FAILED => 17
  | CHILD_OBSERVATION_FAILED => 18 | CHILD_REAP_FAILED => 19 | TIMEOUT => 20
  | CLEANUP_INCOMPLETE => 21 | IO_FAILURE => 22 | INTERNAL => 23
  end.
Definition NativeExitCode_value (c : NativeExitCode) : Z :=
  match c with
  | EXIT_OK => 0 | EXIT_STARTUP => 64 | EXIT_PROTOCOL => 65 | EXIT_KERNEL => 66
  | EXIT_TIMEOUT => 67 | EXIT_CLEANUP => 68 | EXIT_INTERNAL => 69
  end.

#[export] Program Instance NativeFrameType_enum : IntEnum NativeFrameType := {|
  enum_members := [HELLO; FT_CHILD_READY; CHILD_SIGNALED; CHILD_OBSERVED; FINAL; ERROR];
  enum_int := NativeFrameType_value |}.
Solve Obligations with solve_int_enum.
#[export] Program Instance NativeStatus_enum : IntEnum NativeStatus := {|
  enum_members := [ST_OK; FAILED];
  enum_int := NativeStatus_value |}.
Solve Obligations with solve_int_enum.
#[export] Program Instance NativeStage_enum : IntEnum NativeStage := {|
  enum_members := [STARTUP; DESCRIPTOR_VALIDATION; CGROUP_VALIDATION; FIXTURE_SETUP;
    CLONE3; CHILD_READY; PIDFD_SIGNAL; CGROUP_KILL; CHILD_OBSERVATION; CHILD_REAP;
    CLEANUP; PROTOCOL];
  enum_int := NativeStage_value |}.
Solve Obligations with solve_int_enum.
#[export] Program Instance NativeReason_enum : IntEnum NativeReason := {|
  enum_members := [NONE; BAD_ARGC; BAD_ARGV; NONEMPTY_ENVIRONMENT; BAD_DESCRIPTOR_LAYOUT;
    BAD_STDIO; BAD_CONTROL_SOCKET; BAD_CGROUP_DESCRIPTOR; CGROUP_NOT_EMPTY;
    PROTOCOL_INPUT; PEER_CLOSED; RESOURCE_EXHAUSTED; CLONE3_UNAVAILABLE;
    CLONE3_REJECTED; PIDFD_UNAVAILABLE; CHILD_SETUP_FAILED; PIDFD_SIGNAL_FAILED;
    CGROUP_KILL_FAILED; CHILD_OBSERVATION_FAILED; CHILD_REAP_FAILED; TIMEOUT;
    CLEANUP_INCOMPLETE; IO_FAILURE; INTERNAL];
  enum_int := NativeReason_value |}.
Solve Obligations with solve_int_enum.

(** [NativeResultFlag] *)
Definition CLONE3_INTO_CGROUP : Z := Z.shiftl 1 0.
Definition PIDFD_CREATED : Z := Z.shiftl 1 1.
Definition PIDFD_STOP_SENT : Z := Z.shiftl 1 2.
Definition PIDFD_STOP_OBSERVED : Z := Z.shiftl 1 3.
Definition LIVE_CGROUP_KILL : Z := Z.shiftl 1 4.
Definition PIDFD_EXIT_OBSERVED : Z := Z.shiftl 1 5.
Definition CHILD_REAPED : Z := Z.shiftl 1 6.
Definition CGROUP_EMPTY : Z := Z.shiftl 1 7.
Definition BUILTIN_NOEXEC : Z := Z.shiftl 1 8.

Definition ACHIEVED_RESULT_MASK : Z :=
  Z.lor (Z.lor (Z.lor (Z.lor (Z.lor (Z.lor (Z.lor (Z.lor
    CLONE3_INTO_CGROUP PIDFD_CREATED) PIDFD_STOP_SENT) PIDFD_STOP_OBSERVED)
    LIVE_CGROUP_KILL) PIDFD_EXIT_OBSERVED) CHILD_REAPED) CGROUP_EMPTY) BUILTIN_NOEXEC.

(** ** Records *)
Record InertNativeSocketRecord := {
  payload : list byte;
  message_truncated : bool;
  control_truncated : bool;
  ancillary_present : bool
}.

Record InertNativeFrame := {
  frame_type : NativeFrameType;
  sequence : Z;
  status : NativeStatus;
  stage : NativeStage;
  reason : NativeReason;
  system_errno : Z;
  value0 : Z;
  value1 : Z
}.

#[export] Instance InertNativeFrame_eq_dec : EqDecision InertNativeFrame.
Proof. solve_decision. Defined.

Record InertNativeTranscript := {
  succeeded : bool;
  frames : list InertNativeFrame;
  launcher_exit_code : NativeExitCode;
  launcher_pid : Z;
  child_pid : option Z;
  achieved_result_mask : Z;
  elapsed_ns : option Z;
  failure_stage : option NativeStage;
  failure_reason : option NativeReason;
  failure_errno : option Z
}.

(** ** Protocol tables *)
Definition SUCCESS_TYPES : list NativeFrameType :=
  [HELLO; FT_CHILD_READY; CHILD_SIGNALED; CHILD_OBSERVED; FINAL].
Definition SUCCESS_STAGES : list NativeStage :=
  [STARTUP; CHILD_READY; PIDFD_SIGNAL; CHILD_OBSERVATION; CLEANUP].

Definition grammar_key : Type := Z * NativeReason * NativeStage.

Definition ERROR_GRAMMAR : list (grammar_key * list Z) := [
  ((0, BAD_DESCRIPTOR_LAYOUT, DESCRIPTOR_VALIDATION), [0x000]);
  ((0, BAD_CGROUP_DESCRIPTOR, DESCRIPTOR_VALIDATION), [0x000]);
  ((0, BAD_CGROUP_DESCRIPTOR, CGROUP_VALIDATION), [0x000]);
  ((0, CGROUP_NOT_EMPTY, CGROUP_VALIDATION), [0x000]);
  ((0, INTERNAL, STARTUP), [0x000]);
  ((0, IO_FAILURE, PROTOCOL), [0x000]);
  ((0, CLEANUP_INCOMPLETE, CLEANUP), [0x000]);
  ((1, INTERNAL, FIXTURE_SETUP), [0x000]);
  ((1, RESOURCE_EXHAUSTED, FIXTURE_SETUP), [0x000]);
  ((1, RESOURCE_EXHAUSTED, CLONE3), [0x000]);
  ((1, CLONE3_UNAVAILABLE, CLONE3), [0x000]);
  ((1, CLONE3_REJECTED, CLONE3), [0x000]);
  ((1, PIDFD_UNAVAILABLE, CLONE3), [0x0C1]);
  ((1, CHILD_SETUP_FAILED, CHILD_READY), [0x0C3]);
  ((1, CHILD_OBSERVATION_FAILED, CHILD_READY), [0x0C3]);
  ((1, TIMEOUT, CHILD_READY), [0x0C3]);
  ((1, PROTOCOL_INPUT, PROTOCOL), [0x000; 0x0C3; 0x1C3]);
  ((1, IO_FAILURE, FIXTURE_SETUP), [0x000; 0x0C3]);
  ((1, IO_FAILURE, CHILD_READY), [0x0C3; 0x1C3]);
  ((1, IO_FAILURE, PROTOCOL), [0x1C3]);
  ((1, CLEANUP_INCOMPLETE, CLEANUP),
    [0x000; 0x001; 0x041; 0x081; 0x0C1; 0x003; 0x043; 0x083; 0x0C3; 0x103; 0x143; 0x183; 0x1C3]);
  ((2, PIDFD_SIGNAL_FAILED, PIDFD_SIGNAL), [0x1C3]);
  ((2, CHILD_OBSERVATION_FAILED, PIDFD_SIGNAL), [0x1C7; 0x1CF]);
  ((2, TIMEOUT, PIDFD_SIGNAL), [0x1C7]);
  ((2, PROTOCOL_INPUT, PROTOCOL), [0x1C7; 0x1CF]);
  ((2, IO_FAILURE, PIDFD_SIGNAL), [0x1C7; 0x1CF]);
  ((2, IO_FAILURE, PROTOCOL), [0x1CF]);
  ((2, CLEANUP_INCOMPLETE, CLEANUP),
    [0x103; 0x143; 0x183; 0x1C3; 0x107; 0x147; 0x187; 0x1C7; 0x10F; 0x14F; 0x18F; 0x1CF]);
  ((3, CGROUP_KILL_FAILED, CGROUP_KILL), [0x1CF]);
  ((3, CHILD_OBSERVATION_FAILED, CHILD_OBSERVATION), [0x1DF]);
  ((3, TIMEOUT, CHILD_OBSERVATION), [0x1DF]);
  ((3, PROTOCOL_INPUT, PROTOCOL), [0x1CF; 0x1DF; 0x1FF]);
  ((3, IO_FAILURE, CGROUP_KILL), [0x1CF]);
  ((3, IO_FAILURE, CHILD_OBSERVATION), [0x1DF; 0x1FF]);
  ((3, IO_FAILURE, PROTOCOL), [0x1FF]);
  ((3, CLEANUP_INCOMPLETE, CLEANUP),
    [0x10F; 0x14F; 0x18F; 0x1CF; 0x11F; 0x15F; 0x19F; 0x1DF; 0x1BF; 0x1FF]);
  ((4, CHILD_REAP_FAILED, CHILD_REAP), [0x1FF]);
  ((4, INTERNAL, CLEANUP), [0x1FF]);
  ((4, PROTOCOL_INPUT, PROTOCOL), [0x1FF]);
  ((4, IO_FAILURE, CLEANUP), [0x1FF]);
  ((4, CLEANUP_INCOMPLETE, CLEANUP), [0x1BF; 0x1FF])
].

Definition ZERO_ERRNO_ERROR_KEYS : list grammar_key :=
  List.filter (fun k => bool_decide (k.1.2 ∈ [CGROUP_NOT_EMPTY; PROTOCOL_INPUT; TIMEOUT]))
    (ERROR_GRAMMAR.*1)
  ++ [(1, CHILD_OBSERVATION_FAILED, CHILD_READY); (4, INTERNAL, CLEANUP)].

Definition ZERO_ERRNO_ERROR_STATES : list (grammar_key * Z) :=
  [((2, CHILD_OBSERVATION_FAILED, PIDFD_SIGNAL), 0x1CF)].

Definition LINUX_ENOSYS : Z := 38.
Definition LINUX_CLONE_RESOURCE_ERRNOS : list Z := [11; 12; 23; 24].
Definition LINUX_CLASSIFIED_CLONE_ERRNOS : list Z :=
  LINUX_CLONE_RESOURCE_ERRNOS ++ [LINUX_ENOSYS].

Definition NONZERO_ERRNO_ERROR_STATES : list (grammar_key * Z) := [
  ((0, IO_FAILURE, PROTOCOL), 0x000);
  ((1, IO_FAILURE, PROTOCOL), 0x1C3);
  ((2, IO_FAILURE, PROTOCOL), 0x1CF);
  ((3, IO_FAILURE, PROTOCOL), 0x1FF);
  ((1, IO_FAILURE, FIXTURE_SETUP), 0x000);
  ((1, IO_FAILURE, FIXTURE_SETUP), 0x0C3);
  ((1, IO_FAILURE, CHILD_READY), 0x1C3);
  ((2, IO_FAILURE, PIDFD_SIGNAL), 0x1C7);
  ((3, IO_FAILURE, CGROUP_KILL), 0x1CF);
  ((3, IO_FAILURE, CHILD_OBSERVATION), 0x1FF);
  ((4, IO_FAILURE, CLEANUP), 0x1FF);
  ((1, RESOURCE_EXHAUSTED, FIXTURE_SETUP), 0x000);
  ((3, CGROUP_KILL_FAILED, CGROUP_KILL), 0x1CF);
  ((0, CLEANUP_INCOMPLETE, CLEANUP), 0x000);
  ((1, CLEANUP_INCOMPLETE, CLEANUP), 0x000);
  ((1, CLEANUP_INCOMPLETE, CLEANUP), 0x0C1);
  ((1, CLEANUP_INCOMPLETE, CLEANUP), 0x0C3);
  ((1, CLEANUP_INCOMPLETE, CLEANUP), 0x1C3);
  ((2, CLEANUP_INCOMPLETE, CLEANUP), 0x1C3);
  ((2, CLEANUP_INCOMPLETE, CLEANUP), 0x1C7);
  ((2, CLEANUP_INCOMPLETE, CLEANUP), 0x1CF);
  ((3, CLEANUP_INCOMPLETE, CLEANUP), 0x1CF);
  ((3, CLEANUP_INCOMPLETE, CLEANUP), 0x1DF);
  ((3, CLEANUP_INCOMPLETE, CLEANUP), 0x1FF);
  ((4, CLEANUP_INCOMPLETE, CLEANUP), 0x1FF)
].

(** ** Decoding one record *)
Definition exit_code_for_reason (r : NativeReason) : result string NativeExitCode :=
  let v := NativeReason_value r in
  let between lo hi := (NativeReason_value lo <=? v) && (v <=? NativeReason_value hi) in
  if between BAD_ARGC CGROUP_NOT_EMPTY then Ok EXIT_STARTUP
  else if between PROTOCOL_INPUT PEER_CLOSED then Ok EXIT_PROTOCOL
  else if between RESOURCE_EXHAUSTED CHILD_REAP_FAILED then Ok EXIT_KERNEL
  else if decide (r = TIMEOUT) then Ok EXIT_TIMEOUT
  else if decide (r = CLEANUP_INCOMPLETE) then Ok EXIT_CLEANUP
  else if decide (r = IO_FAILURE) then Ok EXIT_KERNEL
  else if decide (r = INTERNAL) then Ok EXIT_INTERNAL
  else Err "native error frame has no failure reason".

(** [bs[lo:lo+n]] *)
Definition slice (lo n : nat) (bs : list byte) : list byte := take n (drop lo bs).

(** The [>8sHHIQIIIIQQ8s] layout: field offsets and widths. *)
Definition decode_record (r : InertNativeSocketRecord) : result string InertNativeFrame :=
  raise "native record was truncated"
    when (message_truncated r || control_truncated r) ;;
  raise "native record carried ancillary data" when ancillary_present r ;;
  raise "native record has an invalid size"
    when negb (Z.of_nat (length (payload r)) =? PROTOCOL_FRAME_SIZE) ;;
  let p := payload r in
  let magic := slice 0 8 p in
  let version := be_int (slice 8 2 p) in
  let frame_type_raw := be_int (slice 10 2 p) in
  let payload_size := be_int (slice 12 4 p) in
  let seq := be_int (slice 16 8 p) in
  let status_raw := be_int (slice 24 4 p) in
  let stage_raw := be_int (slice 28 4 p) in
  let reason_raw := be_int (slice 32 4 p) in
  let errno := be_int (slice 36 4 p) in
  let v0 := be_int (slice 40 8 p) in
  let v1 := be_int (slice 48 8 p) in
  let reserved := slice 56 8 p in
  raise "native record has invalid magic" when negb (bool_decide (magic = PROTOCOL_MAGIC)) ;;
  raise "native record has an invalid version" when negb (version =? PROTOCOL_VERSION) ;;
  raise "native record has an invalid payload size"
    when negb (payload_size =? PROTOCOL_PAYLOAD_SIZE) ;;
  raise "native record has nonzero reserved bytes"
    when negb (bool_decide (reserved = replicate 8 Byte.x00)) ;;
  raise "native record errno exceeds the fixed bound" when (PROTOCOL_MAX_ERRNO <? errno) ;;
  match enum_of_int frame_type_raw, enum_of_int status_raw,
        enum_of_int stage_raw, enum_of_int reason_raw with
  | Some t, Some s, Some g, Some w =>
      Ok {| frame_type := t; sequence := seq; status := s; stage := g; reason := w;
            system_errno := errno; value0 := v0; value1 := v1 |}
  | _, _, _, _ => Err "native record contains an unknown enum"
  end.

(** ** Validating the success frames and the terminal error frame *)

(** [_SUCCESS_TYPES[index]] and [_SUCCESS_STAGES[index]] are only evaluated for
    [index < 5]; the [lookup] below is [Some] there. *)
Definition validate_success_frame (f : InertNativeFrame) (index : nat) : result string unit :=
  raise "native success frames are out of order"
    when negb (bool_decide (SUCCESS_TYPES !! index = Some (frame_type f))) ;;
  raise "native success frame has failure status"
    when negb (bool_decide (status f = ST_OK)) ;;
  raise "native success frame has the wrong stage"
    when negb (bool_decide (SUCCESS_STAGES !! index = Some (stage f))) ;;
  raise "native success frame contains failure fields"
    when (negb (bool_decide (reason f = NONE)) || negb (system_errno f =? 0)) ;;
  match index with
  | 0%nat =>
      raise "native hello frame has invalid values"
        when (negb ((1 <=? value0 f) && (value0 f <=? LINUX_MAX_PID)) || negb (value1 f =? 0)) ;;
      Ok tt
  | 1%nat =>
      raise "native child-ready frame has an invalid pid"
        when negb ((1 <=? value0 f) && (value0 f <=? LINUX_MAX_PID)) ;;
      raise "native child-ready frame has invalid clone3 flags"
        when negb (value1 f =? REQUIRED_CLONE_FLAGS) ;;
      Ok tt
  | 2%nat =>
      raise "native child-signaled frame is invalid"
        when (negb (value0 f =? CLD_STOPPED) || negb (value1 f =? SIGSTOP)) ;;
      Ok tt
  | 3%nat =>
      raise "native child-observed frame is invalid"
        when (negb (value0 f =? CLD_KILLED) || negb (value1 f =? SIGKILL)) ;;
      Ok tt
  | _ =>
      raise "native final frame is invalid"
        when (negb (value0 f =? ACHIEVED_RESULT_MASK) || (value1 f =? 0)) ;;
      Ok tt
  end.

Definition validate_error_frame (f : InertNativeFrame) (prefix_length : Z) (returncode : Z) :
    result string NativeExitCode :=
  raise "native error frame has success status"
    when negb (bool_decide (status f = FAILED)) ;;
  raise "native error frame has no failure reason" when bool_decide (reason f = NONE) ;;
  raise "native error frame has unknown result flags"
    when negb (Z.land (value0 f) (Z.lnot ACHIEVED_RESULT_MASK) =? 0) ;;
  raise "native error frame has a nonzero reserved value" when negb (value1 f =? 0) ;;
  let key : grammar_key := (prefix_length, reason f, stage f) in
  match dict_get ERROR_GRAMMAR key with
  | None => Err "native error reason and stage are impossible after its success prefix"
  | Some allowed_masks =>
      raise "native error mask is impossible for its prefix, reason, and stage"
        when negb (bool_decide (value0 f ∈ allowed_masks)) ;;
      raise "native error errno is impossible for its prefix, reason, and stage"
        when (bool_decide (key ∈ ZERO_ERRNO_ERROR_KEYS) && negb (system_errno f =? 0)) ;;
      let error_state := (key, value0 f) in
      raise "native error errno is impossible for its exact achieved state"
        when (bool_decide (error_state ∈ ZERO_ERRNO_ERROR_STATES)
              && negb (system_errno f =? 0)) ;;
      raise "native clone3-unavailable errno is impossible"
        when (bool_decide (reason f = CLONE3_UNAVAILABLE)
              && negb (system_errno f =? LINUX_ENOSYS)) ;;
      raise "native clone3 resource errno is impossible"
        when (bool_decide (reason f = RESOURCE_EXHAUSTED) && bool_decide (stage f = CLONE3)
              && negb (bool_decide (system_errno f ∈ LINUX_CLONE_RESOURCE_ERRNOS))) ;;
      raise "native clone3-rejected errno is impossible"
        when (bool_decide (reason f = CLONE3_REJECTED)
              && ((system_errno f =? 0)
                  || bool_decide (system_errno f ∈ LINUX_CLASSIFIED_CLONE_ERRNOS))) ;;
      raise "native pidfd-signal errno is impossible"
        when (bool_decide (reason f = PIDFD_SIGNAL_FAILED) && (system_errno f =? 0)) ;;
      raise "native I/O failure is missing its required Linux errno"
        when (bool_decide (error_state ∈ NONZERO_ERRNO_ERROR_STATES)
              && (system_errno f =? 0)) ;;
      let* expected_exit := exit_code_for_reason (reason f) in
      raise "native error exit code does not match its reason"
        when negb (returncode =? NativeExitCode_value expected_exit) ;;
      Ok expected_exit
  end.

(** ** The whole transcript *)

(** First loop of [parse_inert_native_transcript]: decode, require contiguous sequence. *)
Fixpoint decode_records (index : nat) (rs : list InertNativeSocketRecord) :
    result string (list InertNativeFrame) :=
  match rs with
  | [] => Ok []
  | r :: rs =>
      let* f := decode_record r in
      raise "native frame sequence is not contiguous"
        when negb (sequence f =? Z.of_nat index) ;;
      let* fs := decode_records (S index) rs in
      Ok (f :: fs)
  end.

(** Second loop: the success state machine with its early return on an error frame.
    [all] is the full frame list, [todo] the frames from [index] on. *)
Fixpoint scan_frames (all : list InertNativeFrame) (returncode pid : Z)
    (index : nat) (child : option Z) (todo : list InertNativeFrame) :
    result string (InertNativeTranscript + option Z) :=
  match todo with
  | [] => Ok (inr child)
  | f :: todo =>
      if decide (frame_type f = ERROR) then
        raise "native error frame followed a final frame"
          when (length SUCCESS_TYPES <=? index)%nat ;;
        raise "native error frame is not terminal"
          when negb (Z.of_nat index =? Z.of_nat (length all) - 1) ;;
        let* exit_code := validate_error_frame f (Z.of_nat index) returncode in
        Ok (inl {| succeeded := false; frames := all; launcher_exit_code := exit_code;
                   launcher_pid := pid; child_pid := child;
                   achieved_result_mask := value0 f; elapsed_ns := None;
                   failure_stage := Some (stage f); failure_reason := Some (reason f);
                   failure_errno := Some (system_errno f) |})
      else
        raise "native transcript continued after success"
          when (length SUCCESS_TYPES <=? index)%nat ;;
        let* _ := validate_success_frame f index in
        match index with
        | 0%nat =>
            raise "native hello pid does not match the spawned launcher"
              when negb (value0 f =? pid) ;;
            scan_frames all returncode pid (S index) child todo
        | 1%nat =>
            raise "native child pid must differ from the launcher pid"
              when (value0 f =? pid) ;;
            scan_frames all returncode pid (S index) (Some (value0 f)) todo
        | _ => scan_frames all returncode pid (S index) child todo
        end
  end.

Definition parse_inert_native_transcript (records : list InertNativeSocketRecord)
    (returncode : Z) (eof_observed : bool) (expected_launcher_pid : Z) :
    result string InertNativeTranscript :=
  raise "native transcript must include an observed socket EOF" when negb eof_observed ;;
  raise "expected native launcher pid is invalid"
    when negb ((1 <=? expected_launcher_pid) && (expected_launcher_pid <=? LINUX_MAX_PID)) ;;
  let count := Z.of_nat (length records) in
  raise "native transcript is empty" when (count =? 0) ;;
  raise "native transcript exceeds the frame bound" when (PROTOCOL_MAX_FRAMES <? count) ;;
  let* fs := decode_records 0 records in
  let* out := scan_frames fs returncode expected_launcher_pid 0 None fs in
  match out with
  | inl transcript => Ok transcript
  | inr child =>
      raise "native success transcript is incomplete"
        when negb (bool_decide (length fs = length SUCCESS_TYPES)) ;;
      raise "native success transcript has a nonzero exit code"
        when negb (returncode =? NativeExitCode_value EXIT_OK) ;;
      match last fs with
      | Some final =>
          Ok {| succeeded := true; frames := fs; launcher_exit_code := EXIT_OK;
                launcher_pid := expected_launcher_pid; child_pid := child;
                achieved_result_mask := value0 final; elapsed_ns := Some (value1 final);
                failure_stage := None; failure_reason := None; failure_errno := None |}
      | None => Err "IndexError: list index out of range"
      end
  end.

(** ** Wire image and well-formed frames *)
Definition frame_fields (f : InertNativeFrame) : list (list byte) :=
  [ PROTOCOL_MAGIC; be_bytes 2 PROTOCOL_VERSION; be_bytes 2 (enum_int (frame_type f));
    be_bytes 4 PROTOCOL_PAYLOAD_SIZE; be_bytes 8 (sequence f);
    be_bytes 4 (enum_int (status f)); be_bytes 4 (enum_int (stage f));
    be_bytes 4 (enum_int (reason f)); be_bytes 4 (system_errno f);
    be_bytes 8 (value0 f); be_bytes 8 (value1 f); replicate 8 Byte.x00 ].

Definition encode_frame (f : InertNativeFrame) : list byte := concat (frame_fields f).

Definition clean_record (f : InertNativeFrame) : InertNativeSocketRecord :=
  {| payload := encode_frame f; message_truncated := false;
     control_truncated := false; ancillary_present := false |}.

Definition u64 (z : Z) : Prop := 0 <= z < 2 ^ 64.

Definition wf_frame (f : InertNativeFrame) : Prop :=
  u64 (sequence f) /\ 0 <= system_errno f <= PROTOCOL_MAX_ERRNO
  /\ u64 (value0 f) /\ u64 (value1 f).

(** ** Abstract specification: the launcher as a step relation

    The launcher emits its success frames in order; a state is what has been
    emitted and the child pid announced so far. *)
Record launcher_state := { emitted : list InertNativeFrame; announced_child : option Z }.

Definition success_frame (t : NativeFrameType) (g : NativeStage) (n v0 v1 : Z) :
    InertNativeFrame :=
  {| frame_type := t; sequence := n; status := ST_OK; stage := g; reason := NONE;
     system_errno := 0; value0 := v0; value1 := v1 |}.

Definition valid_pid (p : Z) : Prop := 1 <= p <= LINUX_MAX_PID.

Inductive launcher_step (pid : Z) : launcher_state -> launcher_state -> Prop :=
| emit_hello fs ch :
    length fs = 0%nat -> valid_pid pid ->
    launcher_step pid (Build_launcher_state fs ch)
      (Build_launcher_state (fs ++ [success_frame HELLO STARTUP 0 pid 0]) ch)
| emit_ready fs ch c :
    length fs = 1%nat -> valid_pid c -> c <> pid ->
    launcher_step pid (Build_launcher_state fs ch)
      (Build_launcher_state
         (fs ++ [success_frame FT_CHILD_READY CHILD_READY 1 c REQUIRED_CLONE_FLAGS]) (Some c))
| emit_signaled fs ch :
    length fs = 2%nat ->
    launcher_step pid (Build_launcher_state fs ch)
      (Build_launcher_state
         (fs ++ [success_frame CHILD_SIGNALED PIDFD_SIGNAL 2 CLD_STOPPED SIGSTOP]) ch)
| emit_observed fs ch :
    length fs = 3%nat ->
    launcher_step pid (Build_launcher_state fs ch)
      (Build_launcher_state
         (fs ++ [success_frame CHILD_OBSERVED CHILD_OBSERVATION 3 CLD_KILLED SIGKILL]) ch)
| emit_final fs ch ns :
    length fs = 4%nat -> 0 < ns < 2 ^ 64 ->
    launcher_step pid (Build_launcher_state fs ch)
      (Build_launcher_state
         (fs ++ [success_frame FINAL CLEANUP 4 ACHIEVED_RESULT_MASK ns]) ch).

Definition launcher_init : launcher_state := {| emitted := []; announced_child := None |}.
Definition launcher_reaches (pid : Z) (s : launcher_state) : Prop :=
  rtc (launcher_step pid) launcher_init s.

(** The errno constraints of the error grammar, stated once per class of errors. *)
Definition errno_admissible (n : Z) (f : InertNativeFrame) : Prop :=
  let key : grammar_key := (n, reason f, stage f) in
  (key ∈ ZERO_ERRNO_ERROR_KEYS \/ (key, value0 f) ∈ ZERO_ERRNO_ERROR_STATES ->
     system_errno f = 0)
  /\ (reason f = PIDFD_SIGNAL_FAILED \/ (key, value0 f) ∈ NONZERO_ERRNO_ERROR_STATES ->
     system_errno f <> 0)
  /\ (reason f = CLONE3_UNAVAILABLE -> system_errno f = LINUX_ENOSYS)
  /\ (reason f = RESOURCE_EXHAUSTED -> stage f = CLONE3 ->
      system_errno f ∈ LINUX_CLONE_RESOURCE_ERRNOS)
  /\ (reason f = CLONE3_REJECTED ->
      system_errno f <> 0 /\ system_errno f ∉ LINUX_CLASSIFIED_CLONE_ERRNOS).

(** The terminal error frame a launcher may emit after [n] success frames. *)
Definition error_admissible (n : Z) (f : InertNativeFrame) (code : NativeExitCode) : Prop :=
  frame_type f = ERROR /\ status f = FAILED /\ value1 f = 0
  /\ (exists masks, dict_get ERROR_GRAMMAR (n, reason f, stage f) = Some masks
                    /\ value0 f ∈ masks)
  /\ errno_admissible n f
  /\ exit_code_for_reason (reason f) = Ok code.

(** The transcript of a run that stopped with the terminal error frame [f]. *)
Definition error_transcript (pid : Z) (s : launcher_state) (f : InertNativeFrame)
    (code : NativeExitCode) : InertNativeTranscript :=
  {| succeeded := false; frames := emitted s ++ [f]; launcher_exit_code := code;
     launcher_pid := pid; child_pid := announced_child s;
     achieved_result_mask := value0 f; elapsed_ns := None;
     failure_stage := Some (stage f); failure_reason := Some (reason f);
     failure_errno := Some (system_errno f) |}.

(** The transcript of a complete run whose last frame is [fin]. *)
Definition success_transcript (pid : Z) (s : launcher_state) (fin : InertNativeFrame) :
    InertNativeTranscript :=
  {| succeeded := true; frames := emitted s; launcher_exit_code := EXIT_OK;
     launcher_pid := pid; child_pid := announced_child s;
     achieved_result_mask := value0 fin; elapsed_ns := Some (value1 fin);
     failure_stage := None; failure_reason := None; failure_errno := None |}.

Inductive ValidRun (pid rc : Z) : list InertNativeFrame -> InertNativeTranscript -> Prop :=
| run_success s fin :
    launcher_reaches pid s -> length (emitted s) = 5%nat -> last (emitted s) = Some fin ->
    rc = NativeExitCode_value EXIT_OK ->
    ValidRun pid rc (emitted s) (success_transcript pid s fin)
| run_error s f code :
    launcher_reaches pid s -> (length (emitted s) < 5)%nat ->
    wf_frame f -> sequence f = Z.of_nat (length (emitted s)) ->
    error_admissible (Z.of_nat (length (emitted s))) f code ->
    rc = NativeExitCode_value code ->
    ValidRun pid rc (emitted s ++ [f]) (error_transcript pid s f code).

(** ** Decoder: exactly the wire images of well-formed frames *)
Lemma slice_drop lo n p : slice lo n p ++ drop (lo + n) p = drop lo p.
Proof. unfold slice. rewrite <-drop_drop. apply take_drop. Qed.

Lemma length_slice lo n p : (lo + n <= length p)%nat -> length (slice lo n p) = n.
Proof. intros. unfold slice. rewrite length_take, length_drop. lia. Qed.

Lemma slice_concat (i : nat) (xs : list (list byte)) x lo n :
  xs !! i = Some x -> lo = length (concat (take i xs)) -> n = length x ->
  slice lo n (concat xs) = x.
Proof.
  intros Hx -> ->. rewrite <-(take_drop_middle xs i x Hx) at 2.
  unfold slice. rewrite concat_app, drop_app_length. cbn.
  by rewrite take_app_length.
Qed.

Lemma payload_slices p : length p = 64%nat ->
  p = concat [slice 0 8 p; slice 8 2 p; slice 10 2 p; slice 12 4 p; slice 16 8 p;
              slice 24 4 p; slice 28 4 p; slice 32 4 p; slice 36 4 p; slice 40 8 p;
              slice 48 8 p; slice 56 8 p].
Proof.
  intros Hp. cbn [concat]. assert (H64 : drop 64 p = []) by (apply drop_ge; lia).
  rewrite <-H64. do 12 (rewrite slice_drop; cbn [Nat.add]). done.
Qed.

Lemma be_bytes_slice p lo n : (lo + n <= length p)%nat ->
  be_bytes n (be_int (slice lo n p)) = slice lo n p.
Proof. intros H. rewrite <-(length_slice lo n p H) at 1. apply be_bytes_int. Qed.

Lemma be_int_slice_range p lo n : (lo + n <= length p)%nat ->
  0 <= be_int (slice lo n p) < 256 ^ Z.of_nat n.
Proof. intros H. pose proof (be_int_range (slice lo n p)). by rewrite length_slice in *. Qed.

Lemma decode_record_sound r f :
  decode_record r = Ok f -> wf_frame f /\ r = clean_record f.
Proof.
  unfold decode_record. intros H. ok_inv. bool_prop.
  assert (Hl : length (payload r) = 64%nat) by (unfold PROTOCOL_FRAME_SIZE in *; lia).
  repeat match goal with H : enum_of_int _ = Some _ |- _ => apply enum_of_int_sound in H end.
  split.
  - unfold wf_frame, u64; cbn.
    pose proof (be_int_slice_range (payload r) 16 8).
    pose proof (be_int_slice_range (payload r) 36 4).
    pose proof (be_int_slice_range (payload r) 40 8).
    pose proof (be_int_slice_range (payload r) 48 8). lia.
  - destruct r as [p mt ct an]; cbn [payload message_truncated control_truncated ancillary_present] in *.
    unfold clean_record. f_equal; try done.
    unfold encode_frame. rewrite (payload_slices p Hl) at 1. f_equal.
    unfold frame_fields; cbn [frame_type sequence status stage reason system_errno value0 value1].
    repeat match goal with H : enum_int _ = _ |- _ => rewrite H; clear H end.
    rewrite !be_bytes_slice by lia.
    repeat match goal with
      | H : be_int (slice _ _ p) = ?k |- context [be_bytes _ ?k] =>
          rewrite <-H, be_bytes_slice by lia; clear H
      end.
    congruence.
Qed.

Lemma length_frame_fields f :
  (fun x => length x) <$> frame_fields f = [8; 2; 2; 4; 8; 4; 4; 4; 4; 8; 8; 8]%nat.
Proof. unfold frame_fields; cbn [fmap list_fmap]. by rewrite !length_be_bytes. Qed.

Lemma length_concat_take (f : InertNativeFrame) i :
  length (concat (take i (frame_fields f)))
  = sum_list (take i [8; 2; 2; 4; 8; 4; 4; 4; 4; 8; 8; 8]%nat).
Proof.
  rewrite <-(length_frame_fields f), <-fmap_take.
  generalize (take i (frame_fields f)). induction l; cbn; [done|]. rewrite length_app; lia.
Qed.

Lemma frame_field_slice f i x lo n :
  frame_fields f !! i = Some x ->
  lo = sum_list (take i [8; 2; 2; 4; 8; 4; 4; 4; 4; 8; 8; 8]%nat) -> n = length x ->
  slice lo n (encode_frame f) = x.
Proof. intros Hx Hlo Hn. apply (slice_concat i); auto. by rewrite length_concat_take. Qed.

Lemma length_encode_frame f : length (encode_frame f) = 64%nat.
Proof.
  unfold encode_frame. rewrite <-(firstn_all (frame_fields f)), length_concat_take.
  done.
Qed.

(** Each numeric field of the wire image reads back as the value that was written. *)
Lemma be_int_field f i z lo n :
  frame_fields f !! i = Some (be_bytes n z) ->
  lo = sum_list (take i [8; 2; 2; 4; 8; 4; 4; 4; 4; 8; 8; 8]%nat) ->
  0 <= z < 256 ^ Z.of_nat n ->
  be_int (slice lo n (encode_frame f)) = z.
Proof.
  intros Hx Hlo Hz. rewrite (frame_field_slice f i (be_bytes n z)) by (auto; by rewrite length_be_bytes).
  rewrite be_int_bytes. by apply Z.mod_small.
Qed.

Lemma enum_ranges f :
  0 <= enum_int (frame_type f) < 256 /\ 0 <= enum_int (status f) < 256
  /\ 0 <= enum_int (stage f) < 256 /\ 0 <= enum_int (reason f) < 256.
Proof.
  split_and!; [case (frame_type f)|case (frame_type f)|case (status f)|case (status f)
    |case (stage f)|case (stage f)|case (reason f)|case (reason f)]; cbn; lia.
Qed.

Lemma decode_record_complete f : wf_frame f -> decode_record (clean_record f) = Ok f.
Proof.
  intros (Hs & He & H0 & H1). unfold u64 in *. unfold decode_record, clean_record; cbn [payload
    message_truncated control_truncated ancillary_present].
  rewrite length_encode_frame.
  rewrite (frame_field_slice f 0 PROTOCOL_MAGIC 0 8), (frame_field_slice f 11 (replicate 8 Byte.x00) 56 8) by done.
  rewrite (be_int_field f 1 PROTOCOL_VERSION 8 2), (be_int_field f 3 PROTOCOL_PAYLOAD_SIZE 12 4),
    (be_int_field f 2 (enum_int (frame_type f)) 10 2), (be_int_field f 4 (sequence f) 16 8),
    (be_int_field f 5 (enum_int (status f)) 24 4), (be_int_field f 6 (enum_int (stage f)) 28 4),
    (be_int_field f 7 (enum_int (reason f)) 32 4), (be_int_field f 8 (system_errno f) 36 4),
    (be_int_field f 9 (value0 f) 40 8), (be_int_field f 10 (value1 f) 48 8)
    by (done || (pose proof (enum_ranges f); unfold PROTOCOL_MAX_ERRNO in *; lia)).
  rewrite !enum_of_int_int. rewrite !bool_decide_true by done.
  replace (PROTOCOL_MAX_ERRNO <? system_errno f) with false by lia.
  by destruct f.
Qed.

(** ** The two loops against the step relation *)
Fixpoint sequenced (i : nat) (fs : list InertNativeFrame) : Prop :=
  match fs with
  | [] => True
  | f :: fs => sequence f = Z.of_nat i /\ wf_frame f /\ sequenced (S i) fs
  end.

Lemma sequenced_app i fs gs :
  sequenced i (fs ++ gs) <-> sequenced i fs /\ sequenced (i + length fs) gs.
Proof.
  revert i. induction fs as [|f fs IH]; intros i; cbn.
  - rewrite Nat.add_0_r. tauto.
  - rewrite IH, Nat.add_succ_r. tauto.
Qed.

Lemma decode_records_ok i rs fs :
  decode_records i rs = Ok fs <-> rs = clean_record <$> fs /\ sequenced i fs.
Proof.
  revert i fs. induction rs as [|r rs IH]; intros i fs; cbn.
  - split; [intros [= <-]; done|]. by intros [?%eq_sym%fmap_nil_inv _]; subst.
  - split.
    + intros H. ok_inv. bool_prop. apply decode_record_sound in E as [? ->].
      apply IH in E1 as [-> ?]. cbn. auto.
    + destruct fs as [|f fs]; intros [Hrs Hs]; [done|]. injection Hrs as -> Hrs.
      destruct Hs as (Hi & Hw & Hs).
      rewrite decode_record_complete by done; cbn. rewrite Hi, Z.eqb_refl; cbn.
      rewrite (proj2 (IH (S i) fs)) by auto. done.
Qed.

(** One iteration of the second loop on a non-error frame is one launcher step. *)
Definition next_child (index : nat) (child : option Z) (f : InertNativeFrame) : option Z :=
  if decide (index = 1%nat) then Some (value0 f) else child.

Definition success_checks (pid : Z) (index : nat) (f : InertNativeFrame) : bool :=
  negb (length SUCCESS_TYPES <=? index)%nat
  && bool_decide (validate_success_frame f index = Ok tt)
  && match index with
     | 0%nat => value0 f =? pid
     | 1%nat => negb (value0 f =? pid)
     | _ => true
     end.

Lemma success_checks_step pid fs ch f :
  valid_pid pid -> sequence f = Z.of_nat (length fs) -> wf_frame f ->
  success_checks pid (length fs) f = true <->
  launcher_step pid (Build_launcher_state fs ch)
    (Build_launcher_state (fs ++ [f]) (next_child (length fs) ch f)).
Proof.
  intros Hpid Hseq (_ & _ & _ & Hv). unfold u64, success_checks, next_child in *. split.
  - intros H. bool_prop.
    assert (length fs < 5)%nat by (cbn in *; lia).
    unfold validate_success_frame in *. ok_inv.
    all: destruct f as [t n st g r e v0 v1]; cbn in *; subst.
    all: bool_prop; try (match goal with n : nat |- _ => destruct n; [|lia] end).
    all: cbn in *; bool_prop; simplify_eq/=.
    all: econstructor; eauto; try lia.
    all: unfold valid_pid; lia.
  - inversion 1 as [? ? Hl|? ? c Hl|? ? Hl|? ? Hl|? ? ns Hl]; subst;
      match goal with H : fs ++ _ = fs ++ _ |- _ => apply app_inv_head in H; injection H as <- end;
      rewrite Hl; unfold valid_pid in *; cbn; unfold validate_success_frame; cbn; try done.
    + by rewrite !(proj2 (Z.leb_le _ _)), Z.eqb_refl by lia.
    + rewrite !(proj2 (Z.leb_le _ _)) by lia. cbn. apply negb_true_iff. lia.
    + by rewrite (proj2 (Z.eqb_neq ns 0)) by lia.
Qed.

(** Facts about every (key, mask) of the grammar are checked by evaluation. *)
Lemma grammar_forall (P : grammar_key -> Z -> bool) :
  forallb (fun e => forallb (P e.1) e.2) ERROR_GRAMMAR = true ->
  forall k masks m, dict_get ERROR_GRAMMAR k = Some masks -> m ∈ masks -> P k m = true.
Proof.
  intros HP k masks m Hk Hm. apply dict_get_In in Hk.
  rewrite forallb_forall in HP. rewrite list_elem_of_In in Hk. specialize (HP _ Hk). cbn in HP.
  rewrite forallb_forall in HP. apply HP. by rewrite <-list_elem_of_In.
Qed.

Lemma grammar_masks_known k masks m :
  dict_get ERROR_GRAMMAR k = Some masks -> m ∈ masks ->
  Z.land m (Z.lnot ACHIEVED_RESULT_MASK) = 0.
Proof.
  intros Hk Hm. apply Z.eqb_eq.
  by apply (grammar_forall (fun _ m => Z.land m (Z.lnot ACHIEVED_RESULT_MASK) =? 0)) with k masks.
Qed.

Lemma exit_code_none code : exit_code_for_reason NONE = Ok code -> False.
Proof. discriminate. Qed.

Lemma validate_error_frame_ok f n rc code :
  frame_type f = ERROR ->
  validate_error_frame f n rc = Ok code <->
  error_admissible n f code /\ rc = NativeExitCode_value code.
Proof.
  intros Ht. unfold error_admissible, errno_admissible. split.
  - unfold validate_error_frame. intros H. ok_inv.
    repeat match goal with
    | H : (bool_decide _ && bool_decide _) && _ = false |- _ =>
        generalize (guard_implies2 _ _ _ H); clear H; intros H
    | H : bool_decide _ && _ = false |- _ =>
        generalize (guard_implies _ _ H); clear H; intros H
    end.
    bool_prop. split_and!; eauto.
    + intros [Hk|Hk]; [specialize (E5 Hk)|specialize (E6 Hk)]; by bool_prop.
    + intros [Hk|Hk]; [specialize (E10 Hk)|specialize (E11 Hk)]; by bool_prop.
    + intros Hk. specialize (E7 Hk). by bool_prop.
    + intros Hk Hg. specialize (E8 Hk Hg). by bool_prop.
    + intros Hk. specialize (E9 Hk). by bool_prop.
  - intros ((_ & Hst & Hv1 & (masks & Hk & Hm) & (Hz & Hnz & Hen & Hres & Hrej) & Hc) & ->).
    unfold validate_error_frame. rewrite Hst, Hv1, Hk, Hc.
    rewrite (grammar_masks_known _ _ _ Hk Hm).
    assert (reason f <> NONE) by (intros Hr; rewrite Hr in Hc; discriminate).
    rewrite (bool_decide_true (FAILED = FAILED)), (bool_decide_false (reason f = NONE)),
      (bool_decide_true (value0 f ∈ masks)) by done.
    cbn [negb Z.eqb bind_result].
    repeat match goal with
    | |- (if (bool_decide ?P && bool_decide ?Q) && ?b then _ else _) = _ =>
        rewrite (guard_intro2 P Q b)
    | |- (if bool_decide ?P && ?b then _ else _) = _ => rewrite (guard_intro P b)
    end; try (by rewrite Z.eqb_refl); try done; intros Hg.
    + apply Z.eqb_neq; auto.
    + apply Z.eqb_neq; auto.
    + destruct (Hrej Hg) as [? ?]. apply orb_false_iff.
      split; [by apply Z.eqb_neq|by apply bool_decide_eq_false].
    + intros Hs. by rewrite bool_decide_true by auto.
    + by rewrite Hen.
    + by rewrite Hz by auto.
    + by rewrite Hz by auto.
Qed.

Lemma scan_success_cons all rc pid i ch f todo out :
  frame_type f <> ERROR ->
  scan_frames all rc pid i ch (f :: todo) = Ok out <->
  success_checks pid i f = true
  /\ scan_frames all rc pid (S i) (next_child i ch f) todo = Ok out.
Proof.
  intros Ht. cbn [scan_frames]. rewrite decide_False by done.
  unfold success_checks, next_child.
  destruct (length SUCCESS_TYPES <=? i)%nat; cbn [negb andb]; [split; [done|by intros []]|].
  destruct (validate_success_frame f i) as [[]|e]; cbn [bind_result].
  - rewrite bool_decide_true by done. cbn [andb].
    destruct i as [|[|i]]; cbn; [| |tauto].
    + destruct (value0 f =? pid); cbn; naive_solver.
    + destruct (value0 f =? pid); cbn; naive_solver.
  - split; [done|]. rewrite bool_decide_false by done. by intros [].
Qed.

Lemma scan_error_cons all rc pid i ch f todo out :
  frame_type f = ERROR -> length all = (i + S (length todo))%nat ->
  scan_frames all rc pid i ch (f :: todo) = Ok out <->
  exists code, todo = [] /\ (i < 5)%nat /\ error_admissible (Z.of_nat i) f code
    /\ rc = NativeExitCode_value code
    /\ out = inl {| succeeded := false; frames := all; launcher_exit_code := code;
                    launcher_pid := pid; child_pid := ch;
                    achieved_result_mask := value0 f; elapsed_ns := None;
                    failure_stage := Some (stage f); failure_reason := Some (reason f);
                    failure_errno := Some (system_errno f) |}.
Proof.
  intros Ht Hlen. cbn [scan_frames]. rewrite decide_True by done. split.
  - intros H. ok_inv. bool_prop. apply validate_error_frame_ok in E1 as [? ?]; [|done].
    eexists. split_and!; eauto. apply length_zero_iff_nil. lia.
  - intros (code & -> & Hi & Ha & -> & ->).
    rewrite (proj2 (Nat.leb_gt _ _)) by (cbn; lia).
    cbn [length] in Hlen. rewrite Hlen, (proj2 (Z.eqb_eq _ _)) by lia. cbn [negb].
    by rewrite (proj2 (validate_error_frame_ok _ _ _ code Ht)).
Qed.

Lemma launcher_step_shape pid fs ch s :
  launcher_step pid (Build_launcher_state fs ch) s ->
  exists f, s = Build_launcher_state (fs ++ [f]) (next_child (length fs) ch f)
            /\ frame_type f <> ERROR.
Proof.
  unfold next_child.
  inversion 1 as [? ? Hl|? ? c Hl|? ? Hl|? ? Hl|? ? ns Hl]; subst; rewrite Hl; cbn;
    (eexists; split; [apply f_equal2; [reflexivity|cbn; reflexivity]|done]).
Qed.

Lemma launcher_reaches_app pid s s' :
  rtc (launcher_step pid) s s' -> exists fs, emitted s' = emitted s ++ fs.
Proof.
  induction 1 as [s|s1 s2 s3 H12 _ [fs IH]]; [exists []; by rewrite app_nil_r|].
  destruct s1 as [fs1 ch1]. apply launcher_step_shape in H12 as (f & -> & _). cbn in *.
  exists (f :: fs). by rewrite IH, <-app_assoc.
Qed.

Lemma launcher_reaches_nil pid fs ch s :
  rtc (launcher_step pid) (Build_launcher_state fs ch) s -> emitted s = fs ->
  s = Build_launcher_state fs ch.
Proof.
  intros H Hs. inversion H as [|? s2 ? H12 H23]; subst; [done|].
  apply launcher_step_shape in H12 as (f & -> & _).
  apply launcher_reaches_app in H23 as [gs Hg]. cbn in Hg.
  apply (f_equal length) in Hg. rewrite !length_app in Hg. cbn in Hg. lia.
Qed.

Lemma launcher_reaches_cons pid fs ch s f rest :
  rtc (launcher_step pid) (Build_launcher_state fs ch) s -> emitted s = fs ++ f :: rest ->
  let s1 := Build_launcher_state (fs ++ [f]) (next_child (length fs) ch f) in
  launcher_step pid (Build_launcher_state fs ch) s1
  /\ rtc (launcher_step pid) s1 s /\ frame_type f <> ERROR.
Proof.
  intros H Hs. inversion H as [|? s2 ? H12 H23]; subst.
  - cbn in Hs. apply (f_equal length) in Hs. rewrite length_app in Hs. cbn in Hs. lia.
  - pose proof (launcher_step_shape _ _ _ _ H12) as (g & -> & Hg).
    pose proof (launcher_reaches_app _ _ _ H23) as [gs Hgs]. cbn in Hgs.
    rewrite Hs, <-app_assoc in Hgs. apply app_inv_head in Hgs. by injection Hgs as <- _.
Qed.

Lemma reaches_too_long pid fs ch s f :
  rtc (launcher_step pid) (Build_launcher_state fs ch) s -> fs = emitted s ++ [f] -> False.
Proof.
  intros H Hs. apply launcher_reaches_app in H as [gs Hg]. cbn in Hg.
  rewrite Hg in Hs. apply (f_equal length) in Hs. rewrite !length_app in Hs. cbn in Hs. lia.
Qed.

Definition scan_spec (pid rc : Z) (s0 : launcher_state) (all : list InertNativeFrame)
    (out : InertNativeTranscript + option Z) : Prop :=
  match out with
  | inr ch => rtc (launcher_step pid) s0 (Build_launcher_state all ch)
  | inl t => exists s f code,
      rtc (launcher_step pid) s0 s
      /\ all = emitted s ++ [f] /\ (length (emitted s) < 5)%nat
      /\ error_admissible (Z.of_nat (length (emitted s))) f code
      /\ rc = NativeExitCode_value code /\ t = error_transcript pid s f code
  end.

(** The second loop refines the step relation, from any point on. *)
Lemma scan_frames_ok rc pid fs ch todo out :
  valid_pid pid -> sequenced (length fs) todo ->
  scan_frames (fs ++ todo) rc pid (length fs) ch todo = Ok out <->
  scan_spec pid rc (Build_launcher_state fs ch) (fs ++ todo) out.
Proof.
  intros Hpid. revert fs ch. induction todo as [|f todo IH]; intros fs ch Hseq.
  - cbn. rewrite app_nil_r. split.
    + intros [= <-]. cbn. constructor.
    + destruct out as [t|ch']; cbn.
      * intros (s & f & code & Hr & Hs & _). by destruct (reaches_too_long _ _ _ _ _ Hr Hs).
      * intros Hr. apply launcher_reaches_nil in Hr; [|done]. by injection Hr as ->.
  - destruct Hseq as (Hf & Hwf & Hseq).
    destruct (decide (frame_type f = ERROR)) as [Ht|Ht].
    + rewrite scan_error_cons by (rewrite ?length_app; done). split.
      * intros (code & -> & Hi & Ha & -> & ->).
        exists (Build_launcher_state fs ch), f, code. split_and!; cbn; auto; constructor.
      * destruct out as [t|ch']; cbn.
        -- intros (s & g & code & Hr & Hs & Hl & Ha & -> & ->).
           destruct (launcher_reaches_app _ _ _ Hr) as [gs Hg]; cbn in Hg.
           destruct gs as [|g' gs].
           ++ rewrite app_nil_r in Hg. apply launcher_reaches_nil in Hr; [|done]. subst s. cbn in *.
              apply app_inv_head in Hs. injection Hs as <- ->. eauto 10.
           ++ apply (launcher_reaches_cons _ _ _ _ g' gs) in Hr as (_ & _ & Hne); [|done].
              rewrite Hg, <-app_assoc in Hs. apply app_inv_head in Hs.
              injection Hs as -> _. done.
        -- intros Hr. by apply (launcher_reaches_cons _ _ _ _ f todo) in Hr as (_ & _ & Hne).
    + rewrite scan_success_cons by done.
      rewrite (success_checks_step pid fs ch f) by done.
      specialize (IH (fs ++ [f]) (next_child (length fs) ch f)).
      rewrite length_app, Nat.add_1_r, <-app_assoc in IH. cbn in IH. rewrite IH by done.
      set (s1 := Build_launcher_state (fs ++ [f]) (next_child (length fs) ch f)). split.
      * intros [Hs H]. destruct out as [t|ch']; cbn in *.
        -- destruct H as (s & g & code & Hr & H). exists s, g, code. split; [|done].
           by eapply rtc_l.
        -- by eapply rtc_l.
      * destruct out as [t|ch']; cbn.
        -- intros (s & g & code & Hr & Hs & H).
           destruct (launcher_reaches_app _ _ _ Hr) as [gs Hg]; cbn in Hg.
           rewrite Hg, <-app_assoc in Hs. apply app_inv_head in Hs.
           destruct gs as [|g' gs]; injection Hs as <- Hs.
           { by destruct H as (_ & (? & _) & _). }
           apply (launcher_reaches_cons _ _ _ _ f gs) in Hr as (? & ? & _); [|done].
           split; [done|]. exists s, g, code. split_and!; try done; try apply H.
           by rewrite Hg, <-app_assoc, Hs.
        -- intros Hr. apply (launcher_reaches_cons _ _ _ _ f todo) in Hr as (? & ? & _); done.
Qed.

Lemma success_frame_wf t g n v0 v1 :
  u64 n -> u64 v0 -> u64 v1 -> wf_frame (success_frame t g n v0 v1).
Proof. unfold wf_frame, PROTOCOL_MAX_ERRNO; cbn [sequence system_errno value0 value1 success_frame]. auto with lia. Qed.

Lemma constants_u64 :
  u64 REQUIRED_CLONE_FLAGS /\ u64 CLD_STOPPED /\ u64 SIGSTOP /\ u64 CLD_KILLED
  /\ u64 SIGKILL /\ u64 ACHIEVED_RESULT_MASK /\ u64 LINUX_MAX_PID.
Proof. unfold u64. split_and!; vm_compute; congruence. Qed.

(** Every reachable state has emitted a numbered list of well-formed frames. *)
Lemma launcher_reaches_sequenced pid s :
  launcher_reaches pid s -> sequenced 0 (emitted s).
Proof.
  unfold launcher_reaches. intros H. remember launcher_init as s0 eqn:H0.
  assert (Hs : sequenced 0 (emitted s0)) by (by subst). clear H0.
  induction H as [s|s1 s2 s3 H12 H23 IH]; [done|]. apply IH. clear IH H23.
  inversion H12 as [? ? Hl Hp|? ? c Hl Hp|? ? Hl|? ? Hl|? ? ns Hl Hn]; subst; cbn [emitted] in *;
    rewrite sequenced_app, Hl; cbn [sequenced Nat.add]; split_and!; try done;
    apply success_frame_wf; try apply constants_u64.
  all: pose proof constants_u64 as (_ & _ & _ & _ & _ & _ & Hm).
  all: unfold u64, valid_pid in *; lia.
Qed.

Lemma ValidRun_sequenced pid rc fs t : ValidRun pid rc fs t -> sequenced 0 fs.
Proof.
  destruct 1 as [s fin Hr|s f code Hr Hl Hw Hq _ _]; [by eapply launcher_reaches_sequenced|].
  rewrite sequenced_app. cbn. split_and!; auto. by eapply launcher_reaches_sequenced.
Qed.

Lemma ValidRun_frames pid rc fs t : ValidRun pid rc fs t -> frames t = fs.
Proof. by destruct 1. Qed.

Lemma ValidRun_length pid rc fs t : ValidRun pid rc fs t -> (1 <= length fs <= 5)%nat.
Proof. destruct 1; rewrite ?length_app; cbn; lia. Qed.

Lemma last_frame_exists {A} (l : list A) n : length l = S n -> exists x, last l = Some x.
Proof. destruct l as [|x l] using rev_ind; [done|]. rewrite last_snoc; eauto. Qed.

(** The parser accepts exactly the specified runs; all other lemmas about
    accepted transcripts start from this characterisation. *)
Lemma parse_characterisation records rc eof pid t :
  parse_inert_native_transcript records rc eof pid = Ok t <->
  eof = true /\ valid_pid pid
  /\ exists fs, records = clean_record <$> fs /\ ValidRun pid rc fs t.
Proof.
  split.
  - unfold parse_inert_native_transcript. intros H. ok_inv; bool_prop.
    all: assert (Hpid : valid_pid pid) by (unfold valid_pid; lia).
    all: match goal with H : decode_records _ _ = Ok _ |- _ =>
           apply decode_records_ok in H as [-> Hs] end.
    all: match goal with H : scan_frames ?all _ _ _ _ _ = Ok _ |- _ =>
           apply (scan_frames_ok rc pid [] None all) in H; [|done|done]; cbn in H end.
    + destruct E4 as (s & f & code & Hr & -> & Hl & Ha & -> & ->).
      split_and!; auto. eexists; split; [done|].
      apply sequenced_app in Hs as [_ (Hq & Hw & _)]. by constructor.
    + split_and!; auto. eexists; split; [done|].
      by apply (run_success pid _ (Build_launcher_state v _)).
  - intros (-> & Hpid & fs & -> & HV). unfold parse_inert_native_transcript.
    pose proof (ValidRun_length _ _ _ _ HV) as Hlen.
    unfold valid_pid in Hpid. rewrite !(proj2 (Z.leb_le _ _)) by lia. cbn [negb andb].
    rewrite length_fmap, (proj2 (Z.eqb_neq _ _)), (proj2 (Z.ltb_ge _ _))
      by (unfold PROTOCOL_MAX_FRAMES; lia).
    pose proof (ValidRun_sequenced _ _ _ _ HV) as Hq.
    rewrite (proj2 (decode_records_ok 0 _ fs)) by done. cbn [bind_result].
    inversion HV as [s fin Hr Hl Hlast|s f code Hr Hl Hw Hf Ha]; subst.
    + rewrite (proj2 (scan_frames_ok _ pid [] None (emitted s) (inr (announced_child s))
                        Hpid Hq)) by (by destruct s).
      cbn [bind_result]. rewrite bool_decide_true by done. cbn. by rewrite Hlast.
    + rewrite (proj2 (scan_frames_ok _ pid [] None (emitted s ++ [f])
                        (inl (error_transcript pid s f code)) Hpid Hq)); [done|].
      exists s, f, code. by split_and!.
Qed.

(** ** What an accepted transcript proves *)
Definition has_bits (bits mask : Z) : bool := Z.land mask bits =? bits.

(** The grammar never lets a run end, outside the cleanup failure, with a cloned
    child that was not reaped or a cgroup that is not empty. *)
Lemma grammar_cleanup n r g masks m code :
  dict_get ERROR_GRAMMAR (n, r, g) = Some masks -> m ∈ masks ->
  exit_code_for_reason r = Ok code -> code <> EXIT_CLEANUP ->
  has_bits CLONE3_INTO_CGROUP m = true ->
  has_bits (Z.lor CHILD_REAPED CGROUP_EMPTY) m = true.
Proof.
  intros Hk Hm Hc Hne Hb.
  pose proof (grammar_forall (fun k m =>
    bool_decide (exit_code_for_reason k.1.2 = Ok EXIT_CLEANUP)
    || negb (has_bits CLONE3_INTO_CGROUP m)
    || has_bits (Z.lor CHILD_REAPED CGROUP_EMPTY) m) ltac:(by vm_compute) _ _ _ Hk Hm) as HP.
  cbn in HP. rewrite Hb, orb_false_r in HP.
  rewrite bool_decide_false in HP by (rewrite Hc; congruence). done.
Qed.

(** After the child-ready frame the achieved mask records the isolation facts. *)
Lemma grammar_child_isolated n r g masks m :
  dict_get ERROR_GRAMMAR (n, r, g) = Some masks -> m ∈ masks -> 2 <= n ->
  has_bits (Z.lor (Z.lor CLONE3_INTO_CGROUP PIDFD_CREATED) BUILTIN_NOEXEC) m = true.
Proof.
  intros Hk Hm Hn.
  pose proof (grammar_forall (fun k m => negb (2 <=? k.1.1) ||
    has_bits (Z.lor (Z.lor CLONE3_INTO_CGROUP PIDFD_CREATED) BUILTIN_NOEXEC) m)
    ltac:(by vm_compute) _ _ _ Hk Hm) as HP.
  cbn [fst snd] in HP. by rewrite (proj2 (Z.leb_le 2 n)) in HP.
Qed.

(** A complete run ends with the final frame; a child pid is announced from the
    second frame on, and only then. *)
Lemma launcher_reaches_shape pid s : launcher_reaches pid s ->
  ((length (emitted s) < 2)%nat -> announced_child s = None)
  /\ (forall c, announced_child s = Some c -> valid_pid c /\ c <> pid)
  /\ (length (emitted s) = 5%nat -> exists ns, 0 < ns < 2 ^ 64 /\
        last (emitted s) = Some (success_frame FINAL CLEANUP 4 ACHIEVED_RESULT_MASK ns)).
Proof.
  unfold launcher_reaches. intros H. remember launcher_init as s0 eqn:H0.
  assert (Hs : ((length (emitted s0) < 2)%nat -> announced_child s0 = None)
    /\ (forall c, announced_child s0 = Some c -> valid_pid c /\ c <> pid)
    /\ (length (emitted s0) = 5%nat -> exists ns, 0 < ns < 2 ^ 64 /\
          last (emitted s0) = Some (success_frame FINAL CLEANUP 4 ACHIEVED_RESULT_MASK ns)))
    by (subst; done). clear H0.
  induction H as [s|s1 s2 s3 H12 H23 IH]; [done|]. apply IH. clear IH H23.
  destruct Hs as (Hn & Hc & _).
  inversion H12 as [? ? Hl|? ? c Hl|? ? Hl|? ? Hl|? ? ns Hl]; subst; cbn [emitted announced_child] in *;
    rewrite length_app, Hl; cbn; split_and!; intros; try lia; auto with lia.
  - by simplify_eq.
  - rewrite last_snoc. eauto.
Qed.

(** C1. The transcript parser is a refinement of the launcher's step relation: it
    returns [t] exactly when end-of-file was observed, the launcher pid is a
    possible Linux pid, and the socket records are, byte for byte, the wire
    images of a frame sequence that the launcher can emit with that exit code
    and whose summary is [t]. *)
Theorem parse_accepts_exactly_launcher_runs records rc eof pid t :
  parse_inert_native_transcript records rc eof pid = Ok t <->
  eof = true /\ valid_pid pid
  /\ exists fs, records = clean_record <$> fs /\ ValidRun pid rc fs t.
Proof. apply parse_characterisation. Qed.

(** Cleanup safety: in every accepted transcript whose exit code is not the
    cleanup failure, a child that entered the cgroup was reaped and the cgroup
    ended empty. *)
Theorem accepted_transcript_cleaned_up records rc eof pid t :
  parse_inert_native_transcript records rc eof pid = Ok t ->
  launcher_exit_code t <> EXIT_CLEANUP ->
  has_bits CLONE3_INTO_CGROUP (achieved_result_mask t) = true ->
  has_bits (Z.lor CHILD_REAPED CGROUP_EMPTY) (achieved_result_mask t) = true.
Proof.
  intros (_ & _ & fs & _ & HV)%parse_characterisation Hne Hb.
  destruct HV as [s fin Hr Hl Hlast _|s f code _ _ _ _ Ha _]; cbn in *.
  - apply launcher_reaches_shape in Hr as (_ & _ & Hfin). destruct (Hfin Hl) as (ns & _ & Hx).
    rewrite Hlast in Hx. by injection Hx as ->.
  - destruct Ha as (_ & _ & _ & (masks & Hk & Hm) & _ & Hc). by eapply grammar_cleanup.
Qed.

(** Isolation evidence: an accepted transcript that names a child pid names a
    possible pid different from the launcher's, and its mask records that the
    child was cloned into the cgroup with a pidfd and runs the built-in,
    exec-free fixture. *)
Theorem accepted_child_isolated records rc eof pid t c :
  parse_inert_native_transcript records rc eof pid = Ok t -> child_pid t = Some c ->
  valid_pid c /\ c <> pid /\
  has_bits (Z.lor (Z.lor CLONE3_INTO_CGROUP PIDFD_CREATED) BUILTIN_NOEXEC)
    (achieved_result_mask t) = true.
Proof.
  intros (_ & _ & fs & _ & HV)%parse_characterisation Hc.
  destruct HV as [s fin Hr Hl Hlast _|s f code Hr Hl _ _ Ha _]; cbn in *;
    apply launcher_reaches_shape in Hr as (Hn & Hsome & Hfin);
    destruct (Hsome c Hc) as [? ?]; split_and!; auto.
  - destruct (Hfin Hl) as (ns & _ & Hx). rewrite Hlast in Hx. by injection Hx as ->.
  - destruct Ha as (_ & _ & _ & (masks & Hk & Hm) & _ & _).
    eapply grammar_child_isolated; eauto.
    destruct (decide (length (emitted s) < 2)%nat) as [Hlt|]; [|lia].
    rewrite (Hn Hlt) in Hc. discriminate.
Qed.

Lemma exit_code_failure r code : exit_code_for_reason r = Ok code -> NativeExitCode_value code <> 0.
Proof. destruct r; cbn; intros [= <-]; cbn; lia. Qed.

(** The exit status is bound: an accepted transcript reports exactly the exit
    code that was collected, it reports success exactly when that code is zero,
    and only then does it carry an elapsed time, while a failure always carries
    stage, reason and errno. *)
Theorem accepted_exit_status_exact records rc eof pid t :
  parse_inert_native_transcript records rc eof pid = Ok t ->
  rc = NativeExitCode_value (launcher_exit_code t)
  /\ (succeeded t = true <-> rc = 0)
  /\ (succeeded t = true <-> is_Some (elapsed_ns t))
  /\ (succeeded t = false <->
        is_Some (failure_stage t) /\ is_Some (failure_reason t) /\ is_Some (failure_errno t)).
Proof.
  intros (_ & _ & fs & _ & HV)%parse_characterisation.
  destruct HV as [s fin _ _ _ ->|s f code _ _ _ _ Ha ->]; cbn.
  - split_and!; try done; split; intros H; first [done | by eexists | by destruct H as [[] _]].
  - destruct Ha as (_ & _ & _ & _ & _ & Hc%exit_code_failure).
    split_and!; try done; split; intros H; first [done | by destruct H | by split_and!; eexists].
Qed.

Lemma launcher_reaches_no_error pid s :
  launcher_reaches pid s -> Forall (fun f => frame_type f <> ERROR) (emitted s).
Proof.
  unfold launcher_reaches. intros H. remember launcher_init as s0 eqn:H0.
  assert (Hs : Forall (fun f => frame_type f <> ERROR) (emitted s0)) by (by subst). clear H0.
  induction H as [s|[fs ch] s2 s3 H12 H23 IH]; [done|]. apply IH.
  apply launcher_step_shape in H12 as (f & -> & Hf). cbn in *.
  apply Forall_app; auto.
Qed.

(** Only the last frame of a run can be an error frame. *)
Lemma ValidRun_error_last pid rc fs f g gs t :
  ValidRun pid rc (fs ++ f :: g :: gs) t -> frame_type f <> ERROR.
Proof.
  intros HV. inversion HV as [s fin Hr _ _ _ Hs|s e code Hr _ _ _ _ _ Hs]; subst;
    apply launcher_reaches_no_error in Hr.
  - rewrite Hs in Hr. by apply Forall_app in Hr as [_ [Hf _]%Forall_cons].
  - destruct (exists_last (l := g :: gs)) as (hs & x & Hx); [done|]. rewrite Hx in Hs.
    rewrite app_comm_cons, app_assoc in Hs. apply app_inj_tail in Hs as [Hs _].
    rewrite Hs in Hr. by apply Forall_app in Hr as [_ [Hf _]%Forall_cons].
Qed.

Lemma clean_record_inj f g :
  wf_frame f -> wf_frame g -> clean_record f = clean_record g -> f = g.
Proof.
  intros Hf%decode_record_complete Hg%decode_record_complete Heq.
  rewrite Heq, Hg in Hf. by injection Hf.
Qed.

Lemma clean_records_inj i j fs gs :
  sequenced i fs -> sequenced j gs -> clean_record <$> fs = clean_record <$> gs -> fs = gs.
Proof.
  revert i j gs. induction fs as [|f fs IH]; intros i j [|g gs] Hf Hg Heq; try done.
  destruct Hf as (_ & Hwf & Hf), Hg as (_ & Hwg & Hg).
  rewrite !fmap_cons in Heq. apply cons_eq_inv in Heq as [Hp Hr].
  apply (f_equal2 cons); [by apply clean_record_inj|by eapply IH].
Qed.

(** Transcripts are prefix-free: no accepted record sequence can be extended to
    another accepted one, whatever exit codes and pids are claimed for the two. *)
Theorem accepted_transcripts_prefix_free rs r rest rc rc' pid pid' t :
  parse_inert_native_transcript rs rc true pid = Ok t ->
  is_ok (parse_inert_native_transcript (rs ++ r :: rest) rc' true pid') = false.
Proof.
  intros (_ & _ & fs & -> & HV)%parse_characterisation.
  destruct (parse_inert_native_transcript _ rc' _ _) as [t'|] eqn:Hp; [|done]. exfalso.
  apply parse_characterisation in Hp as (_ & _ & gs & Hgs & HV').
  symmetry in Hgs. apply fmap_app_inv in Hgs as (fs' & gs' & Hfs & Hrest & ->).
  pose proof (ValidRun_sequenced _ _ _ _ HV) as Hsf.
  pose proof (ValidRun_sequenced _ _ _ _ HV') as [Hsg _]%sequenced_app.
  apply (clean_records_inj 0 0) in Hfs as ->; [|done..].
  destruct gs' as [|g gs']; [done|].
  inversion HV as [s fin Hr Hl _ _|s f code Hr _ _ _ (Hf & _) _]; subst.
  - apply ValidRun_length in HV'. rewrite length_app, Hl in HV'. cbn in HV'. lia.
  - rewrite <-app_assoc in HV'. by apply ValidRun_error_last in HV'.
Qed.

(** The record codec is exact: a record decodes to [f] precisely when [f] is
    within the field widths and errno bound and the record is the untruncated,
    ancillary-free wire image of [f]; so decoding and encoding are inverse and
    no two records decode to the same frame. *)
Theorem decode_record_exact r f :
  decode_record r = Ok f <-> wf_frame f /\ r = clean_record f.
Proof.
  split; [apply decode_record_sound|]. intros [Hf ->]. by apply decode_record_complete.
Qed.

(** ** Concrete transcripts *)
Definition sample_error_frame : InertNativeFrame :=
  {| frame_type := ERROR; sequence := 2; status := FAILED; stage := PIDFD_SIGNAL;
     reason := TIMEOUT; system_errno := 0; value0 := 0x1C7; value1 := 0 |}.

Definition sample_frames : list InertNativeFrame :=
  [ success_frame HELLO STARTUP 0 100 0;
    success_frame FT_CHILD_READY CHILD_READY 1 101 REQUIRED_CLONE_FLAGS;
    sample_error_frame ].

Definition sample_transcript : InertNativeTranscript :=
  error_transcript 100
    {| emitted := take 2 sample_frames; announced_child := Some 101 |}
    sample_error_frame EXIT_TIMEOUT.

Example sample_parses :
  parse_inert_native_transcript (clean_record <$> sample_frames) 67 true 100
  = Ok sample_transcript.
Proof. by vm_compute. Qed.

Lemma accepted_transcript_cleaned_up_witness :
  has_bits (Z.lor CHILD_REAPED CGROUP_EMPTY) (achieved_result_mask sample_transcript) = true.
Proof.
  apply (accepted_transcript_cleaned_up (clean_record <$> sample_frames) 67 true 100);
    [vm_compute; reflexivity|discriminate|vm_compute; reflexivity].
Defined.

Lemma accepted_child_isolated_witness :
  valid_pid 101 /\ 101 <> 100 /\
  has_bits (Z.lor (Z.lor CLONE3_INTO_CGROUP PIDFD_CREATED) BUILTIN_NOEXEC)
    (achieved_result_mask sample_transcript) = true.
Proof.
  apply (accepted_child_isolated (clean_record <$> sample_frames) 67 true 100);
    vm_compute; reflexivity.
Defined.

Lemma accepted_exit_status_exact_witness :
  67 = NativeExitCode_value (launcher_exit_code sample_transcript)
  /\ (succeeded sample_transcript = true <-> 67 = 0)
  /\ (succeeded sample_transcript = true <-> is_Some (elapsed_ns sample_transcript))
  /\ (succeeded sample_transcript = false <->
        is_Some (failure_stage sample_transcript) /\ is_Some (failure_reason sample_transcript)
        /\ is_Some (failure_errno sample_transcript)).
Proof.
  apply (accepted_exit_status_exact (clean_record <$> sample_frames) 67 true 100).
  vm_compute; reflexivity.
Defined.

Lemma accepted_transcripts_prefix_free_witness :
  is_ok (parse_inert_native_transcript
    ((clean_record <$> sample_frames) ++ [clean_record sample_error_frame]) 67 true 100) = false.
Proof.
  apply (accepted_transcripts_prefix_free (clean_record <$> sample_frames) _ [] 67 67 100 100
           sample_transcript).
  vm_compute; reflexivity.
Defined.

End NativeProtocol.
