(* ===== verification/Floats.v ===== *)
(** * Python [float]: IEEE-754 binary64 arithmetic

    The scorer and the aggregator compute with Python floats.  A finite float is
    its canonical dyadic value; every operation is the exact rational operation
    followed by [round64], round-to-nearest-even on a 53-bit significand with
    gradual underflow, which is how IEEE-754 defines it.  Signed zero, the
    infinities and NaN are separate constructors.

    The lemmas are what the rest of the development uses: [round64] is monotone,
    odd, exact on representable values and accurate to half an ulp. *)
From Stdlib Require Import String List ZArith QArith Qabs Qround Qpower Lia Lqa Qminmax Setoid Morphisms.
From S2P Require Import Prelude.
Local Open Scope Q_scope.

(** ** Rounding a rational to the nearest integer, ties to even *)
Definition nearest_even (q : Q) : Z :=
  let d := Zpos (Qden q) in
  let f := (Qnum q / d)%Z in
  let r := (Qnum q mod d)%Z in
  match (2 * r ?= d)%Z with
  | Lt => f
  | Gt => (f + 1)%Z
  | Eq => if Z.even f then f else (f + 1)%Z
  end.

(** The IEEE specification of that rounding. *)
Definition is_nearest (q : Q) (z : Z) : Prop :=
  let err := q - inject_Z z in
  (- (1 # 2) <= err <= 1 # 2) /\ (err == 1 # 2 \/ err == - (1 # 2) -> Z.even z = true).

Lemma Qsplit n d :
  n # d == inject_Z (n / Zpos d) + (n mod Zpos d # d).
Proof.
  unfold Qeq, Qplus, inject_Z; cbn [Qnum Qden].
  pose proof (Z.div_mod n (Zpos d) ltac:(lia)) as Hdm. nia.
Qed.

Lemma nearest_even_spec q : is_nearest q (nearest_even q).
Proof.
  unfold is_nearest, nearest_even; cbv zeta. destruct q as [n d]; cbn [Qnum Qden].
  pose proof (Z.mod_pos_bound n (Zpos d) ltac:(lia)) as Hr.
  pose proof (Qsplit n d) as Hs. set (f := (n / Zpos d)%Z) in *.
  set (r := (n mod Zpos d)%Z) in *.
  assert (H0 : 0 <= r # d) by (unfold Qle; cbn [Qnum Qden]; lia).
  assert (H1 : r # d < 1) by (unfold Qlt; cbn [Qnum Qden]; lia).
  assert (Hf1 : inject_Z (f + 1) == inject_Z f + 1) by (rewrite inject_Z_plus; reflexivity).
  destruct (2 * r ?= Zpos d)%Z eqn:Hc.
  - apply Z.compare_eq in Hc. assert (Ht : r # d == 1 # 2) by (unfold Qeq; cbn [Qnum Qden]; lia).
    destruct (Z.even f) eqn:He; rewrite ?Hf1, Hs, Ht; (split; [split; lra|]); intros _; [exact He|].
    now rewrite Z.even_add, He.
  - change (2 * r < Zpos d)%Z in Hc. assert (Ht : r # d < 1 # 2) by (unfold Qlt; cbn [Qnum Qden]; lia).
    rewrite Hs. split; [split; lra|]. intros [H|H]; exfalso; lra.
  - change (2 * r > Zpos d)%Z in Hc. assert (Ht : 1 # 2 < r # d) by (unfold Qlt; cbn [Qnum Qden]; lia).
    rewrite Hs, Hf1. split; [split; lra|]. intros [H|H]; exfalso; lra.
Qed.

Lemma inject_Z_succ z : inject_Z (z + 1) == inject_Z z + 1.
Proof. rewrite inject_Z_plus. reflexivity. Qed.

Lemma inject_Z_lt_le a b : (a < b)%Z -> inject_Z a + 1 <= inject_Z b.
Proof.
  intros H. change 1 with (inject_Z 1). rewrite <-inject_Z_plus, <-Zle_Qle. lia.
Qed.

Lemma is_nearest_monotone p q a b :
  p <= q -> is_nearest p a -> is_nearest q b -> (a <= b)%Z.
Proof.
  intros Hpq [Ha Hae] [Hb Hbe]. cbv zeta in *. destruct (Z_le_gt_dec a b) as [|Hgt]; [assumption|exfalso].
  pose proof (inject_Z_lt_le b a ltac:(lia)) as Hab.
  assert (Hpa : p - inject_Z a == - (1 # 2)) by lra.
  assert (Hqb : q - inject_Z b == 1 # 2) by lra.
  assert (Hab1 : inject_Z a == inject_Z (b + 1)) by (rewrite inject_Z_succ; lra).
  rewrite inject_Z_injective in Hab1. subst a.
  specialize (Hae (or_intror Hpa)). specialize (Hbe (or_introl Hqb)).
  rewrite Z.even_add, Hbe in Hae. discriminate.
Qed.

Lemma nearest_even_le p q : p <= q -> (nearest_even p <= nearest_even q)%Z.
Proof. intros H. eapply is_nearest_monotone; eauto using nearest_even_spec. Qed.

#[export] Instance nearest_even_proper : Proper (Qeq ==> eq) nearest_even.
Proof.
  intros p q Hpq.
  apply Z.le_antisymm; apply nearest_even_le; rewrite Hpq; apply Qle_refl.
Qed.

Lemma nearest_even_Z z : nearest_even (inject_Z z) = z.
Proof.
  assert (Hz : is_nearest (inject_Z z) z).
  { unfold is_nearest; cbv zeta. split; [split; lra|]. intros [H|H]; exfalso; lra. }
  apply Z.le_antisymm; eapply is_nearest_monotone; eauto using nearest_even_spec; apply Qle_refl.
Qed.

Lemma nearest_even_opp q : nearest_even (- q) = (- nearest_even q)%Z.
Proof.
  assert (H : is_nearest (- q) (- nearest_even q)).
  { destruct (nearest_even_spec q) as [He Ht]. unfold is_nearest; cbv zeta in *. rewrite inject_Z_opp.
    split; [split; lra|]. intros H. rewrite Z.even_opp. apply Ht. destruct H; [right|left]; lra. }
  apply Z.le_antisymm; eapply is_nearest_monotone; eauto using nearest_even_spec; apply Qle_refl.
Qed.

(** ** Powers of two and the binary exponent of a positive rational *)
Definition pow2 (e : Z) : Q := Qpower 2 e.

Lemma pow2_pos e : 0 < pow2 e.
Proof. apply Qpower_0_lt. reflexivity. Qed.

Lemma pow2_add a b : pow2 (a + b) == pow2 a * pow2 b.
Proof. apply Qpower_plus. discriminate. Qed.

Lemma pow2_Z n : (0 <= n)%Z -> pow2 n == inject_Z (2 ^ n).
Proof. intros Hn. unfold pow2. symmetry. apply Zpower_Qpower. assumption. Qed.

Lemma pow2_le a b : (a <= b)%Z -> pow2 a <= pow2 b.
Proof. intros H. apply Qpower_le_compat_l; [assumption|discriminate]. Qed.

Lemma pow2_lt a b : (a < b)%Z -> pow2 a < pow2 b.
Proof. intros H. apply Qpower_lt_compat_l; [assumption|reflexivity]. Qed.

Lemma pow2_succ e : pow2 (e + 1) == 2 * pow2 e.
Proof. rewrite pow2_add. unfold pow2 at 2. cbn [Qpower Qpower_positive pow_pos]. lra. Qed.

Lemma pow2_opp e : pow2 (- e) * pow2 e == 1.
Proof. rewrite <-pow2_add. now replace (- e + e)%Z with 0%Z by lia. Qed.

(** [floor(log2(q))] for [q > 0] *)
Definition ilog2 (q : Q) : Z :=
  let k := (Z.log2 (Qnum q) - Z.log2 (Zpos (Qden q)))%Z in
  if Qle_bool (pow2 k) q then k else (k - 1)%Z.

Lemma ilog2_spec q : 0 < q -> pow2 (ilog2 q) <= q < pow2 (ilog2 q + 1).
Proof.
  destruct q as [n d]. intros Hq. assert (Hn : (0 < n)%Z) by (unfold Qlt in Hq; cbn in Hq; lia).
  unfold ilog2; cbn [Qnum Qden]. set (k := (Z.log2 n - Z.log2 (Zpos d))%Z).
  pose proof (Z.log2_spec n Hn) as [Hn1 Hn2].
  pose proof (Z.log2_spec (Zpos d) ltac:(lia)) as [Hd1 Hd2].
  pose proof (Z.log2_nonneg n). pose proof (Z.log2_nonneg (Zpos d)).
  assert (HD : 0 < inject_Z (Zpos d)) by reflexivity.
  assert (Hval : (n # d) * inject_Z (Zpos d) == inject_Z n).
  { unfold Qeq, Qmult, inject_Z; cbn [Qnum Qden]. lia. }
  assert (HN : pow2 (Z.log2 n) <= inject_Z n < 2 * pow2 (Z.log2 n)).
  { rewrite <-pow2_succ, !pow2_Z, <-Zle_Qle, <-Zlt_Qlt by lia. now split. }
  assert (HDD : pow2 (Z.log2 (Zpos d)) <= inject_Z (Zpos d) < 2 * pow2 (Z.log2 (Zpos d))).
  { rewrite <-pow2_succ, !pow2_Z, <-Zle_Qle, <-Zlt_Qlt by lia. now split. }
  assert (Hk : pow2 k * pow2 (Z.log2 (Zpos d)) == pow2 (Z.log2 n)).
  { rewrite <-pow2_add. now replace (k + Z.log2 (Zpos d))%Z with (Z.log2 n) by lia. }
  assert (Hk1 : pow2 (k - 1) * 2 == pow2 k).
  { replace k with (k - 1 + 1)%Z at 2 by lia. rewrite pow2_succ. lra. }
  pose proof (pow2_pos k). pose proof (pow2_pos (Z.log2 (Zpos d))).
  set (q := n # d) in *. set (D := inject_Z (Zpos d)) in *. set (N := inject_Z n) in *.
  set (P := pow2 (Z.log2 (Zpos d))) in *.
  destruct (Qle_bool (pow2 k) q) eqn:Hb.
  - apply Qle_bool_iff in Hb. split; [assumption|]. rewrite pow2_succ. nra.
  - assert (Hlt : q < pow2 k).
    { apply Qnot_le_lt. intros Hle. apply Qle_bool_iff in Hle. congruence. }
    replace (k - 1 + 1)%Z with k by lia. split; [nra|assumption].
Qed.

Lemma ilog2_unique q k : pow2 k <= q -> q < pow2 (k + 1) -> ilog2 q = k.
Proof.
  intros H1 H2. assert (Hq : 0 < q) by (pose proof (pow2_pos k); lra).
  destruct (ilog2_spec q Hq) as [H3 H4].
  destruct (Z.lt_trichotomy (ilog2 q) k) as [Hlt|[|Hlt]]; [|assumption|]; exfalso.
  - pose proof (pow2_le (ilog2 q + 1) k ltac:(lia)). lra.
  - pose proof (pow2_le (k + 1) (ilog2 q) ltac:(lia)). lra.
Qed.

#[export] Instance pow2_eq_proper : Proper (eq ==> Qeq) pow2.
Proof. intros ? ? ->. reflexivity. Qed.

(** ** Rounding to binary64 *)
(** Exponent of the unit in the last place: 53-bit significand, minimum [-1074]. *)
Definition ulp_exp (k : Z) : Z := Z.max (k - 52) (-1074).

Definition round_at (e : Z) (q : Q) : Q := inject_Z (nearest_even (q / pow2 e)) * pow2 e.

Definition round64 (q : Q) : Q :=
  if Qeq_bool q 0 then 0 else round_at (ulp_exp (ilog2 (Qabs q))) q.

Lemma pow2_div_le e p q : p <= q -> p / pow2 e <= q / pow2 e.
Proof.
  intros H. pose proof (pow2_pos e) as He. unfold Qdiv.
  apply Qmult_le_compat_r; [assumption|]. apply Qinv_le_0_compat. lra.
Qed.

Lemma round_at_le e p q : p <= q -> round_at e p <= round_at e q.
Proof.
  intros H. pose proof (pow2_pos e) as He. unfold round_at. apply Qmult_le_compat_r; [|lra].
  rewrite <-Zle_Qle. apply nearest_even_le. now apply pow2_div_le.
Qed.

Lemma round_at_multiple e z : round_at e (inject_Z z * pow2 e) == inject_Z z * pow2 e.
Proof.
  unfold round_at. pose proof (pow2_pos e). rewrite Qdiv_mult_l by lra.
  now rewrite nearest_even_Z.
Qed.

Lemma round_at_opp e q : round_at e (- q) == - round_at e q.
Proof.
  unfold round_at. assert (H : - q / pow2 e == - (q / pow2 e)) by (unfold Qdiv; lra).
  rewrite H, nearest_even_opp, inject_Z_opp. lra.
Qed.

Lemma round_at_error e q : Qabs (round_at e q - q) <= (1 # 2) * pow2 e.
Proof.
  pose proof (pow2_pos e) as He. destruct (nearest_even_spec (q / pow2 e)) as [Hn _].
  cbv zeta in Hn. assert (Hq : q == (q / pow2 e) * pow2 e) by (field; lra).
  unfold round_at. set (t := q / pow2 e) in *. set (z := inject_Z (nearest_even t)) in *.
  apply Qabs_Qle_condition. rewrite Hq. nra.
Qed.

Lemma ilog2_eq p q : 0 < p -> p == q -> ilog2 p = ilog2 q.
Proof.
  intros Hp Hpq. symmetry. destruct (ilog2_spec p Hp). apply ilog2_unique; lra.
Qed.

#[export] Instance round_at_proper e : Proper (Qeq ==> Qeq) (round_at e).
Proof. intros p q H. unfold round_at. now rewrite H. Qed.

Lemma round64_zero q : q == 0 -> round64 q == 0.
Proof. intros H. unfold round64. now rewrite (proj2 (Qeq_bool_iff q 0)) by assumption. Qed.

Lemma Qeq_bool_0_false q : ~ q == 0 -> Qeq_bool q 0 = false.
Proof. intros H. destruct (Qeq_bool q 0) eqn:E; [|reflexivity]. now apply Qeq_bool_iff in E. Qed.

Lemma round64_pos q : 0 < q -> round64 q = round_at (ulp_exp (ilog2 q)) q.
Proof.
  intros H. unfold round64. rewrite Qeq_bool_0_false by lra.
  now rewrite (ilog2_eq (Qabs q) q) by (try apply Qabs_pos; rewrite ?Qabs_pos; lra).
Qed.

Lemma round64_opp q : round64 (- q) == - round64 q.
Proof.
  unfold round64. destruct (Qeq_bool q 0) eqn:E.
  - apply Qeq_bool_iff in E. rewrite (proj2 (Qeq_bool_iff (- q) 0)) by lra. lra.
  - apply Qeq_bool_neq in E. rewrite Qeq_bool_0_false by lra.
    rewrite (ilog2_eq (Qabs (- q)) (Qabs q)).
    + apply round_at_opp.
    + destruct (Qlt_le_dec 0 q).
      * rewrite Qabs_opp, Qabs_pos; lra.
      * rewrite Qabs_pos; lra.
    + apply Qabs_opp.
Qed.

#[export] Instance round64_proper : Proper (Qeq ==> Qeq) round64.
Proof.
  intros p q H. unfold round64. destruct (Qeq_bool p 0) eqn:E.
  - apply Qeq_bool_iff in E. rewrite (proj2 (Qeq_bool_iff q 0)) by lra. reflexivity.
  - apply Qeq_bool_neq in E. rewrite Qeq_bool_0_false by lra.
    rewrite (ilog2_eq (Qabs p) (Qabs q)), H; [reflexivity| |now rewrite H].
    destruct (Qlt_le_dec 0 p); [rewrite Qabs_pos|rewrite Qabs_neg]; lra.
Qed.

(** A positive value rounds within the binade that contains it. *)
Lemma round64_binade q k : pow2 k <= q -> q < pow2 (k + 1) -> (-1075 < k)%Z ->
  pow2 k <= round64 q <= pow2 (k + 1).
Proof.
  intros H1 H2 Hk. assert (Hq : 0 < q) by (pose proof (pow2_pos k); lra).
  rewrite round64_pos, (ilog2_unique q k) by assumption. set (e := ulp_exp k).
  assert (He : (e <= k)%Z) by (unfold e, ulp_exp; lia).
  assert (Hm : forall j, (e <= j)%Z -> round_at e (pow2 j) == pow2 j).
  { intros j Hj. replace j with ((j - e) + e)%Z by lia.
    rewrite pow2_add, (pow2_Z (j - e)) by lia. apply round_at_multiple. }
  split; [rewrite <-(Hm k)|rewrite <-(Hm (k + 1)%Z)]; try lia; apply round_at_le; lra.
Qed.

Lemma round64_tiny q : 0 < q -> q < pow2 (-1074) -> 0 <= round64 q <= pow2 (-1074).
Proof.
  intros Hq Hlt. rewrite round64_pos by assumption.
  destruct (ilog2_spec q Hq) as [Hk _].
  assert (Hl : (ilog2 q < -1074)%Z).
  { destruct (Z_lt_le_dec (ilog2 q) (-1074)) as [|Hle]; [assumption|].
    apply pow2_le in Hle. lra. }
  replace (ulp_exp (ilog2 q)) with (-1074)%Z by (unfold ulp_exp; lia).
  split.
  - rewrite <-(Qmult_0_l (pow2 (-1074))). change 0 with (inject_Z 0) at 1.
    rewrite <-round_at_multiple. apply round_at_le. change (inject_Z 0) with 0. lra.
  - rewrite <-(Qmult_1_l (pow2 (-1074))). change 1 with (inject_Z 1).
    rewrite <-round_at_multiple. apply round_at_le. change (inject_Z 1) with 1. lra.
Qed.

Lemma ilog2_normal q : pow2 (-1074) <= q -> (-1075 < ilog2 q)%Z.
Proof.
  intros H. pose proof (pow2_pos (-1074)).
  destruct (ilog2_spec q ltac:(lra)) as [_ H2].
  destruct (Z_lt_le_dec (-1075) (ilog2 q)) as [|Hle]; [assumption|].
  pose proof (pow2_le (ilog2 q + 1) (-1074) ltac:(lia)). lra.
Qed.

Lemma round64_own_binade q : pow2 (-1074) <= q ->
  pow2 (ilog2 q) <= round64 q <= pow2 (ilog2 q + 1).
Proof.
  intros H. pose proof (pow2_pos (-1074)).
  destruct (ilog2_spec q ltac:(lra)) as [H1 H2].
  apply round64_binade; auto using ilog2_normal.
Qed.

Lemma round64_nonneg q : 0 <= q -> 0 <= round64 q.
Proof.
  intros H. destruct (Qlt_le_dec 0 q) as [Hq|Hq]; [|rewrite round64_zero; lra].
  destruct (Qlt_le_dec q (pow2 (-1074))) as [Ht|Ht]; [now apply round64_tiny|].
  apply round64_own_binade in Ht. pose proof (pow2_pos (ilog2 q)). lra.
Qed.

Lemma ilog2_le p q : 0 < p -> p <= q -> (ilog2 p <= ilog2 q)%Z.
Proof.
  intros Hp Hpq. destruct (ilog2_spec p Hp) as [H1 _].
  destruct (ilog2_spec q ltac:(lra)) as [_ H2].
  destruct (Z_le_gt_dec (ilog2 p) (ilog2 q)) as [|Hgt]; [assumption|].
  pose proof (pow2_le (ilog2 q + 1) (ilog2 p) ltac:(lia)). lra.
Qed.

Lemma round64_le_pos p q : 0 < p -> p <= q -> round64 p <= round64 q.
Proof.
  intros Hp Hpq. pose proof (ilog2_le p q Hp Hpq) as Hk.
  destruct (Z.eq_dec (ulp_exp (ilog2 p)) (ulp_exp (ilog2 q))) as [He|He].
  - rewrite !round64_pos by lra. rewrite He. now apply round_at_le.
  - assert (Hlt : (ilog2 p < ilog2 q)%Z) by (destruct (Z.eq_dec (ilog2 p) (ilog2 q)); congruence || lia).
    assert (Hq : pow2 (-1074) <= q).
    { destruct (ilog2_spec q ltac:(lra)) as [H1 _]. unfold ulp_exp in He.
      pose proof (pow2_le (-1074) (ilog2 q) ltac:(lia)). lra. }
    pose proof (round64_own_binade q Hq) as Hbq.
    destruct (Qlt_le_dec p (pow2 (-1074))) as [Ht|Ht].
    + pose proof (round64_tiny p Hp Ht). unfold ulp_exp in He.
      pose proof (pow2_le (-1074) (ilog2 q) ltac:(lia)). lra.
    + pose proof (round64_own_binade p Ht).
      pose proof (pow2_le (ilog2 p + 1) (ilog2 q) ltac:(lia)). lra.
Qed.

(** Rounding is monotone. *)
Lemma round64_le p q : p <= q -> round64 p <= round64 q.
Proof.
  intros Hpq. destruct (Qlt_le_dec 0 p) as [Hp|Hp]; [now apply round64_le_pos|].
  destruct (Qlt_le_dec q 0) as [Hq|Hq].
  - pose proof (round64_le_pos (- q) (- p) ltac:(lra) ltac:(lra)) as H.
    rewrite !round64_opp in H. lra.
  - pose proof (round64_nonneg q Hq). pose proof (round64_nonneg (- p) ltac:(lra)) as H0.
    rewrite round64_opp in H0. lra.
Qed.

(** Values a binary64 can hold, and that rounding leaves them alone. *)
Definition representable (q : Q) : Prop :=
  exists m e, q == inject_Z m * pow2 e /\ (Z.abs m <= 2 ^ 53)%Z /\ (-1074 <= e)%Z.

Lemma round64_exact_pos m e : (0 < m <= 2 ^ 53)%Z -> (-1074 <= e)%Z ->
  round64 (inject_Z m * pow2 e) == inject_Z m * pow2 e.
Proof.
  intros Hm He. set (q := inject_Z m * pow2 e).
  pose proof (pow2_pos e) as Hp.
  assert (Hm0 : 1 <= inject_Z m) by (change 1 with (inject_Z 1); rewrite <-Zle_Qle; lia).
  assert (Hq : 0 < q) by (unfold q; nra).
  destruct (Z.eq_dec m (2 ^ 53)) as [->|Hne].
  - assert (Hq2 : q == pow2 (e + 53)).
    { unfold q. rewrite (pow2_add e 53), (pow2_Z 53) by lia. lra. }
    rewrite Hq2. pose proof (pow2_pos (e + 53)).
    rewrite round64_pos, (ilog2_unique _ (e + 53)) by (try apply pow2_lt; lra || lia).
    replace (e + 53)%Z with (e + 53 - ulp_exp (e + 53) + ulp_exp (e + 53))%Z at 2 3 by lia.
    rewrite pow2_add, (pow2_Z (_ - _)) by (unfold ulp_exp; lia). apply round_at_multiple.
  - rewrite round64_pos by assumption.
    assert (Hk : (ilog2 q < e + 53)%Z).
    { destruct (ilog2_spec q Hq) as [H1 _].
      destruct (Z_lt_le_dec (ilog2 q) (e + 53)) as [|Hle]; [assumption|].
      apply pow2_le in Hle. rewrite (pow2_add e 53), (pow2_Z 53) in Hle by lia.
      assert (Hm53 : inject_Z m + 1 <= inject_Z (2 ^ 53)) by (apply inject_Z_lt_le; lia).
      unfold q in *. nra. }
    set (u := ulp_exp (ilog2 q)). assert (Hu : (u <= e)%Z) by (unfold u, ulp_exp; lia).
    assert (Hqu : q == inject_Z (m * 2 ^ (e - u)) * pow2 u).
    { unfold q. rewrite inject_Z_mult, <-pow2_Z, <-Qmult_assoc, <-pow2_add by lia.
      now replace (e - u + u)%Z with e by lia. }
    rewrite Hqu. apply round_at_multiple.
Qed.

Lemma round64_exact q : representable q -> round64 q == q.
Proof.
  intros (m & e & -> & Hm & He).
  destruct (Z.lt_trichotomy m 0) as [Hlt|[->|Hgt]].
  - assert (H : inject_Z m * pow2 e == - (inject_Z (- m) * pow2 e)) by (rewrite inject_Z_opp; lra).
    rewrite H, round64_opp, round64_exact_pos by lia. reflexivity.
  - change (inject_Z 0) with 0. rewrite round64_zero; lra.
  - apply round64_exact_pos; lia.
Qed.

Lemma representable_Z z : (Z.abs z <= 2 ^ 53)%Z -> representable (inject_Z z).
Proof. intros H. exists z, 0%Z. split; [|lia]. unfold pow2; cbn. lra. Qed.

Lemma representable_opp q : representable q -> representable (- q).
Proof. intros (m & e & Hq & Hm & He). exists (- m)%Z, e. rewrite inject_Z_opp. split; [lra|lia]. Qed.

#[export] Instance representable_proper : Proper (Qeq ==> iff) representable.
Proof. intros p q H. unfold representable. now setoid_rewrite H. Qed.

(** What rounding produces is representable. *)
Lemma round64_representable q : representable (round64 q).
Proof.
  assert (Hpos : forall q, 0 < q -> representable (round64 q)).
  { clear q. intros q Hq. rewrite round64_pos by assumption.
    set (u := ulp_exp (ilog2 q)). unfold round_at.
    exists (nearest_even (q / pow2 u)), u. split; [reflexivity|].
    split; [|unfold u, ulp_exp; lia].
    assert (H0 : (0 <= nearest_even (q / pow2 u))%Z).
    { rewrite <-(nearest_even_Z 0). apply nearest_even_le. change (inject_Z 0) with 0.
      pose proof (pow2_pos u). apply Qle_shift_div_l; lra. }
    assert (H1 : (nearest_even (q / pow2 u) <= 2 ^ 53)%Z); [|lia].
    rewrite <-(nearest_even_Z (2 ^ 53)). apply nearest_even_le.
    pose proof (pow2_pos u). apply Qle_shift_div_r; [assumption|].
    rewrite <-pow2_Z, <-pow2_add by lia. destruct (ilog2_spec q Hq) as [_ H2].
    pose proof (pow2_le (ilog2 q + 1) (53 + u) ltac:(unfold u, ulp_exp; lia)). lra. }
  destruct (Qlt_le_dec 0 q) as [Hq|Hq]; [auto|].
  destruct (Qlt_le_dec q 0) as [Hq'|Hq'].
  - rewrite <-(Qopp_involutive q), round64_opp. apply representable_opp, Hpos. lra.
  - rewrite round64_zero by lra. apply (representable_Z 0). lia.
Qed.

(** Half an ulp below one is [2^-54]. *)
Lemma round64_error_unit q : 0 <= q <= 1 -> Qabs (round64 q - q) <= pow2 (-54).
Proof.
  intros [H0 H1]. pose proof (pow2_pos (-54)).
  destruct (Qlt_le_dec 0 q) as [Hq|Hq].
  2: { rewrite round64_zero by lra. rewrite Qabs_neg; lra. }
  destruct (Qlt_le_dec q 1) as [Hlt|Hge].
  2: { assert (Hq1 : q == inject_Z 1) by (change (inject_Z 1) with 1; lra).
       rewrite Hq1, (round64_exact (inject_Z 1)) by (apply representable_Z; lia).
       rewrite Qabs_pos; lra. }
  rewrite round64_pos by assumption. eapply Qle_trans; [apply round_at_error|].
  assert (Hk : (ilog2 q < 0)%Z).
  { destruct (ilog2_spec q Hq) as [H2 _].
    destruct (Z_lt_le_dec (ilog2 q) 0) as [|Hle]; [assumption|].
    apply pow2_le in Hle. unfold pow2 at 1 in Hle; cbn in Hle. lra. }
  pose proof (pow2_le (ulp_exp (ilog2 q)) (-53) ltac:(unfold ulp_exp; lia)) as Hu.
  assert (H53 : pow2 (-53) == 2 * pow2 (-54)) by reflexivity. lra.
Qed.

(** ** The data type of Python floats *)
Inductive float64 : Type :=
| Fin (m e : Z)       (* the value m * 2^e; canonical when m is odd or m = e = 0 *)
| NegZero
| Inf (neg : bool)
| NaN.

#[export] Instance float64_eq_dec : base.EqDecision float64.
Proof. intros x y. unfold base.Decision. decide equality; try apply Z.eq_dec; apply Bool.bool_dec. Defined.

Definition fzero : float64 := Fin 0 0.
Definition fone : float64 := Fin 1 0.

Definition is_finite (x : float64) : bool :=
  match x with Fin _ _ | NegZero => true | Inf _ | NaN => false end.

(** The rational value of a finite float (0 for the others). *)
Definition fq (x : float64) : Q :=
  match x with Fin m e => inject_Z m * pow2 e | _ => 0 end.

(** Sign bit. *)
Definition fsign (x : float64) : bool :=
  match x with Fin m _ => (m <? 0)%Z | NegZero => true | Inf s => s | NaN => false end.

Definition signed_zero (neg : bool) : float64 := if neg then NegZero else fzero.

(** Canonical significand: strip the trailing zero bits. *)
Fixpoint strip (p : positive) (e : Z) : positive * Z :=
  match p with xO p' => strip p' (e + 1) | _ => (p, e) end.

Definition dyadic (z e : Z) : float64 :=
  match z with
  | Z0 => fzero
  | Zpos p => let '(m, e') := strip p e in Fin (Zpos m) e'
  | Zneg p => let '(m, e') := strip p e in Fin (Zneg m) e'
  end.

Definition Qneg (q : Q) : bool := (Qnum q <? 0)%Z.

(** Correct rounding of an exact result, with overflow to infinity. *)
Definition of_Q (q : Q) : float64 :=
  if Qeq_bool q 0 then fzero
  else
    let u := ulp_exp (ilog2 (Qabs q)) in
    let z := nearest_even (q / pow2 u) in
    if (z =? 0)%Z then signed_zero (Qneg q)
    else if Qle_bool (pow2 1024) (Qabs (inject_Z z * pow2 u)) then Inf (Qneg q)
    else dyadic z u.

Definition fneg (x : float64) : float64 :=
  match x with
  | Fin m e => if (m =? 0)%Z then NegZero else Fin (- m) e
  | NegZero => fzero
  | Inf s => Inf (negb s)
  | NaN => NaN
  end.

Definition fadd (x y : float64) : float64 :=
  match x, y with
  | NaN, _ | _, NaN => NaN
  | Inf a, Inf b => if Bool.eqb a b then Inf a else NaN
  | Inf a, _ => Inf a
  | _, Inf b => Inf b
  | NegZero, NegZero => NegZero
  | _, _ => of_Q (fq x + fq y)
  end.

Definition fsub (x y : float64) : float64 := fadd x (fneg y).

Definition is_zero (x : float64) : bool :=
  match x with Fin m _ => (m =? 0)%Z | NegZero => true | _ => false end.

Definition fmul (x y : float64) : float64 :=
  let s := xorb (fsign x) (fsign y) in
  match x, y with
  | NaN, _ | _, NaN => NaN
  | Inf _, _ => if is_zero y then NaN else Inf s
  | _, Inf _ => if is_zero x then NaN else Inf s
  | _, _ => if is_zero x || is_zero y then signed_zero s else of_Q (fq x * fq y)
  end.

(** [x / y]; division by zero raises. *)
Definition fdiv (x y : float64) : result string float64 :=
  if is_zero y then Err "ZeroDivisionError: float division by zero"%string
  else
    let s := xorb (fsign x) (fsign y) in
    Ok match x, y with
       | NaN, _ | _, NaN => NaN
       | Inf _, Inf _ => NaN
       | Inf _, _ => Inf s
       | _, Inf _ => signed_zero s
       | _, _ => if is_zero x then signed_zero s else of_Q (fq x / fq y)
       end.

(** Python's [==], [<=], [<] on floats. *)
Definition fcompare (x y : float64) : option comparison :=
  match x, y with
  | NaN, _ | _, NaN => None
  | Inf a, Inf b => Some (if Bool.eqb a b then Eq else if a then Lt else Gt)
  | Inf a, _ => Some (if a then Lt else Gt)
  | _, Inf b => Some (if b then Gt else Lt)
  | _, _ => Some (fq x ?= fq y)
  end.
Definition feqb (x y : float64) : bool :=
  match fcompare x y with Some Eq => true | _ => false end.
Definition fleb (x y : float64) : bool :=
  match fcompare x y with Some Eq | Some Lt => true | _ => false end.
Definition fltb (x y : float64) : bool :=
  match fcompare x y with Some Lt => true | _ => false end.

(** Integer operands: [float(n)], the true division [n / d] of two integers. *)
Definition of_Z (z : Z) : float64 := of_Q (inject_Z z).

Definition itruediv (n d : Z) : result string float64 :=
  match d with
  | Z0 => Err "ZeroDivisionError: division by zero"%string
  | Zpos p => match of_Q (n # p) with
              | Inf _ => Err "OverflowError: integer division result too large for a float"%string
              | x => Ok x
              end
  | Zneg p => match of_Q (- n # p) with
              | Inf _ => Err "OverflowError: integer division result too large for a float"%string
              | x => Ok x
              end
  end.

(** [sum(xs)] over floats: left to right from [0.0] (CPython 3.11). *)
Definition fsum (xs : list float64) : float64 := fold_left fadd xs fzero.

(** A canonical, representable float: what Python can hold. *)
Definition wf_float (x : float64) : Prop :=
  match x with
  | Fin m e => (Z.odd m = true /\ representable (inject_Z m * pow2 e)) \/ (m = 0 /\ e = 0)%Z
  | _ => True
  end.

(** ** Value lemmas: on finite operands the operations round the exact result *)
Lemma strip_value p e : let '(m, e') := strip p e in
  inject_Z (Zpos m) * pow2 e' == inject_Z (Zpos p) * pow2 e /\ Z.odd (Zpos m) = true.
Proof.
  revert e. induction p as [p IH|p IH|]; intros e; cbn [strip]; try (split; reflexivity).
  specialize (IH (e + 1)%Z). destruct (strip p (e + 1)) as [m e']. destruct IH as [IH Ho].
  split; [|assumption]. rewrite IH, pow2_succ, (Pos2Z.inj_xO p), inject_Z_mult.
  change (inject_Z 2) with 2. lra.
Qed.

Lemma zero_value e : inject_Z 0 * pow2 e == 0.
Proof. change (inject_Z 0) with 0. lra. Qed.

Lemma dyadic_fq z e : fq (dyadic z e) == inject_Z z * pow2 e.
Proof.
  destruct z as [|p|p]; cbn [dyadic].
  - cbn [fq fzero]. now rewrite !zero_value.
  - pose proof (strip_value p e) as H. destruct (strip p e). cbn [fq]. apply H.
  - pose proof (strip_value p e) as H. destruct (strip p e) as [m e']. cbn [fq]. destruct H as [H _].
    rewrite <-!Pos2Z.opp_pos, !inject_Z_opp. lra.
Qed.

Lemma dyadic_finite z e : is_finite (dyadic z e) = true.
Proof. destruct z as [|p|p]; cbn [dyadic]; [reflexivity| |]; now destruct (strip p e). Qed.

Lemma dyadic_wf z e : representable (inject_Z z * pow2 e) -> wf_float (dyadic z e).
Proof.
  intros H. destruct z as [|p|p]; cbn [dyadic].
  - now right.
  - pose proof (strip_value p e) as Hs. destruct (strip p e) as [m e']. destruct Hs as [Hs Ho].
    left. split; [assumption|]. now rewrite Hs.
  - pose proof (strip_value p e) as Hs. destruct (strip p e) as [m e']. destruct Hs as [Hs Ho].
    left. split; [assumption|].
    assert (Hv : inject_Z (Zneg m) * pow2 e' == inject_Z (Zneg p) * pow2 e).
    { rewrite <-!Pos2Z.opp_pos, !inject_Z_opp. lra. }
    now rewrite Hv.
Qed.

Lemma round64_abs_le q b : representable b -> Qabs q <= b -> Qabs (round64 q) <= b.
Proof.
  intros Hb Hq. apply Qabs_Qle_condition in Hq. apply Qabs_Qle_condition.
  pose proof (round64_le _ _ (proj1 Hq)) as H1. pose proof (round64_le _ _ (proj2 Hq)) as H2.
  rewrite round64_opp, (round64_exact b Hb) in H1. rewrite (round64_exact b Hb) in H2. lra.
Qed.

Lemma representable_pow2 k : (-1074 <= k)%Z -> representable (pow2 k).
Proof. intros H. exists 1%Z, k. split; [change (inject_Z 1) with 1; lra|lia]. Qed.

(** No overflow below [2^1000]: far above anything the program computes. *)
Lemma of_Q_value q : Qabs q <= pow2 1000 ->
  is_finite (of_Q q) = true /\ fq (of_Q q) == round64 q.
Proof.
  intros Hq. unfold of_Q, round64. destruct (Qeq_bool q 0) eqn:E; [split; [reflexivity|apply zero_value]|].
  pose proof (round64_abs_le q (pow2 1000) (representable_pow2 1000 ltac:(lia)) Hq) as Hr.
  unfold round64 in Hr. rewrite E in Hr. unfold round_at in *.
  set (u := ulp_exp (ilog2 (Qabs q))) in *. set (z := nearest_even (q / pow2 u)) in *.
  destruct (Z.eqb_spec z 0) as [Hz|Hz].
  - rewrite Hz. change (inject_Z 0) with 0. unfold signed_zero. destruct (Qneg q); cbn; split; lra || reflexivity.
  - destruct (Qle_bool (pow2 1024) _) eqn:Hb.
    + apply Qle_bool_iff in Hb. pose proof (pow2_lt 1000 1024 ltac:(lia)). lra.
    + split; [apply dyadic_finite|apply dyadic_fq].
Qed.

Lemma of_Q_wf q : wf_float (of_Q q).
Proof.
  unfold of_Q. destruct (Qeq_bool q 0) eqn:E; [now right|].
  destruct (Z.eqb_spec (nearest_even (q / pow2 (ulp_exp (ilog2 (Qabs q))))) 0).
  { unfold signed_zero. destruct (Qneg q); [exact I|now right]. }
  destruct (Qle_bool _ _); [exact I|]. apply dyadic_wf.
  pose proof (round64_representable q) as H. unfold round64 in H. now rewrite E in H.
Qed.

Lemma fadd_value x y : is_finite x = true -> is_finite y = true ->
  Qabs (fq x + fq y) <= pow2 1000 ->
  is_finite (fadd x y) = true /\ fq (fadd x y) == round64 (fq x + fq y).
Proof.
  intros Hx Hy Hb.
  destruct x, y; try discriminate; cbn [fadd]; try now apply of_Q_value.
  cbn. split; [reflexivity|]. rewrite round64_zero; lra.
Qed.

Lemma fneg_value x : is_finite x = true -> is_finite (fneg x) = true /\ fq (fneg x) == - fq x.
Proof.
  destruct x as [m e| | |]; try discriminate; intros _; cbn; [|split; lra || reflexivity].
  destruct (Z.eqb_spec m 0) as [->|]; cbn [is_finite fq]; split; try reflexivity.
  rewrite inject_Z_opp. lra.
Qed.

Lemma fsub_value x y : is_finite x = true -> is_finite y = true ->
  Qabs (fq x - fq y) <= pow2 1000 ->
  is_finite (fsub x y) = true /\ fq (fsub x y) == round64 (fq x - fq y).
Proof.
  intros Hx Hy Hb. destruct (fneg_value y Hy) as [Hf Hv]. unfold fsub.
  destruct (fadd_value x (fneg y) Hx Hf) as [H1 H2].
  - rewrite Hv. exact Hb.
  - split; [assumption|]. rewrite H2, Hv. reflexivity.
Qed.

Lemma is_zero_value x : is_finite x = true -> is_zero x = true <-> fq x == 0.
Proof.
  destruct x as [m e| | |]; try discriminate; intros _; cbn; [|easy].
  rewrite Z.eqb_eq. split; [intros ->; apply zero_value|].
  intros H. apply Qmult_integral in H. pose proof (pow2_pos e). destruct H as [H|H]; [|lra].
  now apply (inject_Z_injective m 0) in H.
Qed.

Lemma signed_zero_value s : is_finite (signed_zero s) = true /\ fq (signed_zero s) == 0.
Proof. destruct s; split; reflexivity || apply zero_value. Qed.

Lemma fmul_value x y : is_finite x = true -> is_finite y = true ->
  Qabs (fq x * fq y) <= pow2 1000 ->
  is_finite (fmul x y) = true /\ fq (fmul x y) == round64 (fq x * fq y).
Proof.
  intros Hx Hy Hb. unfold fmul. set (s := xorb _ _).
  assert (Hmain : is_finite (if (is_zero x || is_zero y)%bool then signed_zero s
                             else of_Q (fq x * fq y)) = true
    /\ fq (if (is_zero x || is_zero y)%bool then signed_zero s else of_Q (fq x * fq y))
       == round64 (fq x * fq y)).
  { destruct (is_zero x || is_zero y)%bool eqn:E; [|now apply of_Q_value].
    destruct (signed_zero_value s) as [H1 H2]. split; [assumption|]. rewrite H2.
    rewrite round64_zero; [reflexivity|]. apply Bool.orb_true_iff in E.
    destruct E as [E|E]; apply is_zero_value in E; auto; rewrite E; lra. }
  destruct x, y; try discriminate; exact Hmain.
Qed.

Lemma fdiv_value x y : is_finite x = true -> is_finite y = true -> ~ fq y == 0 ->
  Qabs (fq x / fq y) <= pow2 1000 ->
  exists z, fdiv x y = Ok z /\ is_finite z = true /\ fq z == round64 (fq x / fq y).
Proof.
  intros Hx Hy Hy0 Hb. unfold fdiv.
  destruct (is_zero y) eqn:Ey; [now apply is_zero_value in Ey|].
  set (s := xorb _ _).
  assert (Hmain : is_finite (if is_zero x then signed_zero s else of_Q (fq x / fq y)) = true
    /\ fq (if is_zero x then signed_zero s else of_Q (fq x / fq y)) == round64 (fq x / fq y)).
  { destruct (is_zero x) eqn:E; [|now apply of_Q_value].
    destruct (signed_zero_value s) as [H1 H2]. split; [assumption|]. rewrite H2.
    rewrite round64_zero; [reflexivity|]. apply is_zero_value in E; auto. rewrite E.
    unfold Qdiv. lra. }
  destruct x, y; try discriminate; eexists; (split; [reflexivity|exact Hmain]).
Qed.

Lemma wf_float_representable x : wf_float x -> representable (fq x).
Proof.
  destruct x as [m e| | |]; cbn; try (intros _; apply (representable_Z 0); lia).
  intros [[_ H]|[-> ->]]; [assumption|]. apply (representable_Z 0). lia.
Qed.

Lemma round64_fq x : wf_float x -> round64 (fq x) == fq x.
Proof. intros H. now apply round64_exact, wf_float_representable. Qed.

Lemma fadd_wf x y : wf_float (fadd x y).
Proof.
  destruct x, y; cbn [fadd]; try exact I; try apply of_Q_wf.
  destruct (Bool.eqb _ _); exact I.
Qed.

Lemma fmul_wf x y : wf_float (fmul x y).
Proof.
  assert (Hz : forall s, wf_float (signed_zero s)) by (intros []; cbn; auto).
  unfold fmul. destruct x, y; cbn [is_zero]; try exact I;
    repeat match goal with |- context [if ?c then _ else _] => destruct c end;
    auto using of_Q_wf; exact I.
Qed.

Lemma fdiv_wf x y z : fdiv x y = Ok z -> wf_float z.
Proof.
  assert (Hz : forall s, wf_float (signed_zero s)) by (intros []; cbn; auto).
  unfold fdiv. destruct (is_zero y); [discriminate|]. intros [= <-].
  destruct x, y; try exact I; auto;
    repeat match goal with |- context [if ?c then _ else _] => destruct c end;
    auto using of_Q_wf.
Qed.

(** Comparisons on finite floats are comparisons of values. *)
Lemma fleb_value x y : is_finite x = true -> is_finite y = true ->
  fleb x y = true <-> fq x <= fq y.
Proof.
  intros Hx Hy. unfold fleb. rewrite Qle_alt.
  destruct x, y; try discriminate; cbn [fcompare]; destruct (fq _ ?= fq _); split; congruence || reflexivity.
Qed.

Lemma fltb_value x y : is_finite x = true -> is_finite y = true ->
  fltb x y = true <-> fq x < fq y.
Proof.
  intros Hx Hy. unfold fltb. rewrite Qlt_alt.
  destruct x, y; try discriminate; cbn [fcompare]; destruct (fq _ ?= fq _); split; congruence || reflexivity.
Qed.

Lemma feqb_value x y : is_finite x = true -> is_finite y = true ->
  feqb x y = true <-> fq x == fq y.
Proof.
  intros Hx Hy. unfold feqb. rewrite Qeq_alt.
  destruct x, y; try discriminate; cbn [fcompare]; destruct (fq _ ?= fq _); split; congruence || reflexivity.
Qed.

Lemma feqb_trans x y z : feqb x y = true -> feqb y z = true -> feqb x z = true.
Proof.
  assert (H : forall a b : Q, (match a ?= b with Eq => true | _ => false end) = true <-> a == b).
  { intros a b. rewrite Qeq_alt. destruct (a ?= b); split; congruence || reflexivity. }
  unfold feqb. destruct x as [| |[]|], y as [| |[]|], z as [| |[]|]; cbn [fcompare Bool.eqb];
    try discriminate; try reflexivity; rewrite !H; apply Qeq_trans.
Qed.

(** ** Which values are Python floats, decided *)
Definition is_float64 (x : float64) : bool :=
  match x with
  | Fin m e =>
      (Z.odd m && (Z.abs m <? 2 ^ 53) && (-1074 <=? e) && (Z.log2 (Z.abs m) + e <? 1024))%Z%bool
      || ((m =? 0) && (e =? 0))%Z%bool
  | _ => true
  end.

Lemma is_float64_wf x : is_float64 x = true -> wf_float x.
Proof.
  destruct x as [m e| | |]; cbn [is_float64 wf_float]; try (intros; exact I).
  rewrite !Bool.orb_true_iff, !Bool.andb_true_iff.
  intros [[[[Ho Hm] He] _]|[Hm He]]; [left|right; lia].
  split; [assumption|]. exists m, e. split; [reflexivity|lia].
Qed.

Lemma odd_representable m e : Z.odd m = true -> representable (inject_Z m * pow2 e) ->
  (Z.abs m < 2 ^ 53 /\ -1074 <= e)%Z.
Proof.
  intros Ho (m' & e' & Hq & Hm & He).
  assert (Hodd : forall k, (m <> 2 * k)%Z).
  { intros k ->. rewrite Z.odd_mul in Ho. discriminate. }
  destruct (Z_lt_le_dec e e') as [Hlt|Hle].
  - exfalso. apply (Hodd (m' * 2 ^ (e' - e - 1))%Z).
    assert (H : inject_Z m == inject_Z (2 * (m' * 2 ^ (e' - e - 1)))).
    { rewrite !inject_Z_mult, <-pow2_Z by lia.
      assert (Hs : pow2 e' == pow2 e * (2 * pow2 (e' - e - 1))).
      { rewrite <-pow2_succ, <-pow2_add. apply pow2_eq_proper. lia. }
      rewrite Hs in Hq. pose proof (pow2_pos e). change (inject_Z 2) with 2.
      apply (Qmult_inj_r _ _ (pow2 e)); lra. }
    unfold inject_Z, Qeq in H. cbn in H. lia.
  - assert (H : (m * 2 ^ (e - e') = m')%Z).
    { assert (H : inject_Z (m * 2 ^ (e - e')) == inject_Z m').
      { rewrite inject_Z_mult, <-pow2_Z by lia.
        assert (Hs : pow2 e == pow2 (e - e') * pow2 e').
        { rewrite <-pow2_add. apply pow2_eq_proper. lia. }
        rewrite Hs in Hq. pose proof (pow2_pos e'). apply (Qmult_inj_r _ _ (pow2 e')); lra. }
      unfold inject_Z, Qeq in H. cbn in H. lia. }
    split; [|lia]. assert (Hp : (1 <= 2 ^ (e - e'))%Z) by (pose proof (Z.pow_pos_nonneg 2 (e - e')); lia).
    assert (Habs : (Z.abs m <= Z.abs m')%Z).
    { rewrite <-H, Z.abs_mul. rewrite (Z.abs_eq (2 ^ (e - e'))) by lia. nia. }
    assert (Z.abs m <> 2 ^ 53)%Z; [|lia].
    intros Hm53. destruct (Z.abs_eq_or_opp m) as [Ha|Ha].
    + apply (Hodd (2 ^ 52)%Z). lia.
    + apply (Hodd (- 2 ^ 52)%Z). lia.
Qed.

(** Far from overflow, the decided and the stated notion agree. *)
Lemma wf_is_float64 x : wf_float x -> Qabs (fq x) <= pow2 1000 -> is_float64 x = true.
Proof.
  destruct x as [m e| | |]; cbn [wf_float is_float64]; try reflexivity.
  intros [[Ho Hr]|[-> ->]] Hb; [|now rewrite Bool.orb_true_r].
  destruct (odd_representable m e Ho Hr) as [Hm He].
  rewrite Ho. rewrite (proj2 (Z.ltb_lt _ _) Hm), (proj2 (Z.leb_le _ _) He). cbn [andb].
  rewrite (proj2 (Z.ltb_lt _ _)); [reflexivity|].
  assert (Hm0 : (0 < Z.abs m)%Z) by (destruct m; cbn in *; lia || discriminate).
  destruct (Z_lt_le_dec (Z.log2 (Z.abs m) + e) 1024) as [|Hge]; [assumption|exfalso].
  pose proof (Z.log2_spec _ Hm0) as [Hl _]. pose proof (Z.log2_nonneg (Z.abs m)) as Hn.
  cbn [fq] in Hb. rewrite Qabs_Qmult in Hb. rewrite (Qabs_pos (pow2 e)) in Hb by (pose proof (pow2_pos e); lra).
  assert (Ha : Qabs (inject_Z m) == inject_Z (Z.abs m)) by reflexivity. rewrite Ha in Hb.
  assert (H1 : pow2 (Z.log2 (Z.abs m)) <= inject_Z (Z.abs m)).
  { rewrite pow2_Z by lia. now rewrite <-Zle_Qle. }
  assert (H2 : pow2 (Z.log2 (Z.abs m)) * pow2 e <= inject_Z (Z.abs m) * pow2 e).
  { apply Qmult_le_compat_r; [assumption|]. pose proof (pow2_pos e). lra. }
  rewrite <-pow2_add in H2. pose proof (pow2_lt 1000 (Z.log2 (Z.abs m) + e) ltac:(lia)). lra.
Qed.

(** Rounding never leaves [1] from just above it: [1 + 2^-54] is below the tie. *)
Lemma round64_near_one q : 0 <= q <= 1 + pow2 (-54) -> 0 <= round64 q <= 1.
Proof.
  intros [H0 H1]. split; [now apply round64_nonneg|].
  apply (Qle_trans _ (round64 (1 + pow2 (-54)))); [now apply round64_le|].
  apply Qle_bool_iff. vm_compute. reflexivity.
Qed.
