(* ===== verification/FloatRange.v ===== *)
(** * Floats in an interval

    Interval facts about binary64 arithmetic that the reward, the estimators and
    the bootstrap share: products with a fraction, sums of bounded terms in step,
    quotients of such sums. *)
From Stdlib Require Import ZArith QArith Qabs Lqa Lia.
From stdpp Require Import base tactics list.
From S2P Require Import Prelude Floats.
Local Open Scope Q_scope.

(** A float with value in [[lo, hi]], as Python holds it. *)
Record in_range (lo hi : Q) (x : float64) : Prop := {
  ir_wf : wf_float x;
  ir_finite : is_finite x = true;
  ir_range : lo <= fq x <= hi
}.

Lemma pow2_1000_big : 2 <= pow2 1000.
Proof. change 2 with (pow2 1) at 1. apply pow2_le. lia. Qed.

Lemma in_range_weaken lo hi lo' hi' x :
  in_range lo hi x -> lo' <= lo -> hi <= hi' -> in_range lo' hi' x.
Proof. intros [? ? ?] ? ?. constructor; [done..|lra]. Qed.

(** [cap * fraction] stays between 0 and the cap. *)
Lemma fmul_fraction c x : in_range 0 1 c -> in_range 0 1 x -> in_range 0 (fq c) (fmul c x).
Proof.
  intros [Hcw Hcf Hc] [Hxw Hxf Hx]. pose proof pow2_1000_big.
  assert (Hq : 0 <= fq c * fq x <= fq c) by nra.
  destruct (fmul_value c x) as [Hf Hv]; [done..|apply Qabs_Qle_condition; lra|].
  constructor; [apply fmul_wf|done|]. rewrite Hv. split; [apply round64_nonneg; lra|].
  apply (Qle_trans _ (round64 (fq c))); [apply round64_le; lra|]. by rewrite round64_fq; [lra|].
Qed.

(** ** Sums of bounded terms *)

(** A non-negative term of a sum, at most [2^20]. *)
Definition term (x : float64) : Prop := in_range 0 (pow2 20) x.

(** The state of a running sum after at most [k] terms. *)
Definition running (k : Z) (x : float64) : Prop := in_range 0 (inject_Z (k * 2 ^ 20)) x.

Lemma running_bound k : (0 <= k < 2 ^ 30)%Z ->
  representable (inject_Z (k * 2 ^ 20)) /\ inject_Z (k * 2 ^ 20) <= pow2 999.
Proof.
  intros Hk. split; [apply representable_Z; lia|]. rewrite pow2_Z by lia. rewrite <-Zle_Qle.
  transitivity (2 ^ 50)%Z; [|apply Z.pow_le_mono_r]; lia.
Qed.

Lemma running_zero : running 0 fzero.
Proof. constructor; [by right|done|]. split; vm_compute; discriminate. Qed.

Lemma running_step k a w :
  running k a -> term w -> (0 <= k < 2 ^ 30 - 1)%Z ->
  running (k + 1) (fadd a w) /\ fq (fadd a w) == round64 (fq a + fq w)
  /\ fq a <= fq (fadd a w) /\ fq w <= fq (fadd a w).
Proof.
  intros [Hwa Hfa Ha] [Hww Hfw Hw] Hk.
  destruct (running_bound (k + 1)) as (Hr & Hp); [lia|].
  assert (Hs : inject_Z ((k + 1) * 2 ^ 20) == inject_Z (k * 2 ^ 20) + pow2 20).
  { rewrite (pow2_Z 20), <-inject_Z_plus by lia. by replace (k * 2 ^ 20 + 2 ^ 20)%Z with ((k + 1) * 2 ^ 20)%Z by lia. }
  pose proof (pow2_le 999 1000 ltac:(lia)).
  destruct (fadd_value a w) as [Hf Hv]; [done|done|rewrite Qabs_pos; lra|].
  assert (Ha' : fq a <= fq (fadd a w)).
  { rewrite Hv. rewrite <-(round64_fq a Hwa) at 1. apply round64_le. lra. }
  assert (Hw' : fq w <= fq (fadd a w)).
  { rewrite Hv. rewrite <-(round64_fq w Hww) at 1. apply round64_le. lra. }
  split_and!; try done. constructor; [apply fadd_wf|done|]. split; [lra|].
  rewrite Hv, <-(round64_exact _ Hr). apply round64_le. lra.
Qed.

(** Two sums in step, term by term ordered, stay ordered. *)
Lemma running_sums k a b xs ys :
  running k a -> running k b -> fq a <= fq b ->
  Forall2 (fun x y => term x /\ term y /\ fq x <= fq y) xs ys ->
  (0 <= k)%Z -> (k + Z.of_nat (length ys) < 2 ^ 30)%Z ->
  let sa := fold_left fadd xs a in let sb := fold_left fadd ys b in
  running (k + Z.of_nat (length ys)) sa /\ running (k + Z.of_nat (length ys)) sb
  /\ fq sa <= fq sb /\ fq b <= fq sb.
Proof.
  intros Ha Hb Hab Hf. revert k a b Ha Hb Hab.
  induction Hf as [|x y xs ys (Hx & Hy & Hxy) Hf IH]; intros k a b Ha Hb Hab Hk Hl; cbn in *.
  { rewrite Z.add_0_r. split_and!; [done..|lra]. }
  destruct (running_step k a x) as (Ha' & Hav & _ & _); [done..|lia|].
  destruct (running_step k b y) as (Hb' & Hbv & Hbb & _); [done..|lia|].
  destruct (IH (k + 1)%Z (fadd a x) (fadd b y)) as (H1 & H2 & H3 & H4); try done; try lia.
  { rewrite Hav, Hbv. apply round64_le. lra. }
  replace (k + Z.of_nat (S (length ys)))%Z with (k + 1 + Z.of_nat (length ys))%Z by lia.
  split_and!; [done..|lra].
Qed.

Lemma fsum_pos y ys :
  Forall term (y :: ys) -> 0 < fq y -> (Z.of_nat (length (y :: ys)) < 2 ^ 30)%Z ->
  0 < fq (fsum (y :: ys)).
Proof.
  intros [Hy Hys]%Forall_cons H0 Hl. cbn in Hl. unfold fsum. cbn [fold_left].
  destruct (running_step 0 fzero y) as (Hr & _ & _ & Hge); [apply running_zero|done|lia|].
  destruct (running_sums 1 (fadd fzero y) (fadd fzero y) ys ys) as (_ & _ & _ & Hle); try done; try lia; [lra| |lra].
  clear Hl. induction Hys as [|z zs Hz Hzs IH]; constructor; [|done]. split_and!; [done..|lra].
Qed.

(** A quotient of two ordered sums is in [[0, 1]]. *)
Lemma fdiv_unit a b k :
  running k a -> running k b -> fq a <= fq b -> 0 < fq b ->
  exists x, fdiv a b = Ok x /\ in_range 0 1 x.
Proof.
  intros [_ Hfa Ha] [_ Hfb Hb] Hab Hpos.
  assert (Hq : 0 <= fq a / fq b <= 1).
  { split; [apply Qle_shift_div_l|apply Qle_shift_div_r]; lra. }
  pose proof pow2_1000_big.
  destruct (fdiv_value a b) as (x & Hx & Hxf & Hxv); [done..|lra|rewrite Qabs_pos; lra|].
  exists x. split; [done|]. constructor; [by eapply fdiv_wf|done|]. rewrite Hxv.
  split; [apply round64_nonneg; lra|]. apply (Qle_trans _ (round64 1)); [apply round64_le; lra|].
  rewrite round64_exact; [lra|]. apply (representable_Z 1). lia.
Qed.

(** A bounded value scaled by a fraction. *)
Lemma fmul_scale b w x :
  in_range 0 b w -> b <= pow2 999 -> in_range 0 1 x -> in_range 0 (fq w) (fmul w x).
Proof.
  intros [Hww Hwf Hw] Hb [Hxw Hxf Hx]. pose proof (pow2_le 999 1000 ltac:(lia)).
  assert (Hq : 0 <= fq w * fq x <= fq w) by nra.
  destruct (fmul_value w x) as [Hf Hv]; [done..|apply Qabs_Qle_condition; lra|].
  constructor; [apply fmul_wf|done|]. rewrite Hv. split; [apply round64_nonneg; lra|].
  apply (Qle_trans _ (round64 (fq w))); [apply round64_le; lra|]. by rewrite round64_fq; [lra|].
Qed.

(** [float(n)] is exact for counts. *)
Lemma of_Z_exact n : (0 <= n <= 2 ^ 53)%Z ->
  in_range (inject_Z n) (inject_Z n) (of_Z n).
Proof.
  intros Hn. unfold of_Z. destruct (of_Q_value (inject_Z n)) as [Hf Hv].
  { rewrite Qabs_pos; [|change 0 with (inject_Z 0); rewrite <-Zle_Qle; lia].
    rewrite pow2_Z by lia. rewrite <-Zle_Qle. transitivity (2 ^ 53)%Z; [lia|]. apply Z.pow_le_mono_r; lia. }
  constructor; [apply of_Q_wf|done|]. rewrite Hv, round64_exact; [lra|]. apply representable_Z. lia.
Qed.

(** Interpolation between two values of the unit interval stays in it. *)
Lemma interpolate_unit lo hi r :
  in_range 0 1 lo -> in_range 0 1 hi -> in_range 0 1 r ->
  in_range 0 1 (fadd (fmul lo (fsub fone r)) (fmul hi r)).
Proof.
  intros Hlo Hhi Hr. pose proof pow2_1000_big. pose proof (pow2_pos (-54)).
  assert (H1 : fq fone == 1) by (vm_compute; reflexivity).
  assert (Hu : in_range 0 1 (fsub fone r) /\ fq (fsub fone r) <= 1 - fq r + pow2 (-54)).
  { destruct Hr as [? ? ?]. destruct (fsub_value fone r) as [Hf Hv]; [done..|apply Qabs_Qle_condition; lra|].
    pose proof (round64_error_unit (fq fone - fq r) ltac:(lra)) as He. apply Qabs_Qle_condition in He.
    split; [constructor; [apply fadd_wf|done|]|rewrite Hv; lra].
    rewrite Hv. split; [apply round64_nonneg; lra|].
    apply (Qle_trans _ (round64 1)); [apply round64_le; lra|].
    rewrite round64_exact; [lra|]. apply (representable_Z 1). lia. }
  destruct Hu as [Hu Herr].
  assert (Ha : in_range 0 (fq (fsub fone r)) (fmul lo (fsub fone r))).
  { destruct Hlo as [? ? ?], Hu as [? ? ?]. assert (0 <= fq lo * fq (fsub fone r) <= fq (fsub fone r)) by nra.
    destruct (fmul_value lo (fsub fone r)) as [Hf Hv]; [done..|apply Qabs_Qle_condition; lra|].
    constructor; [apply fmul_wf|done|]. rewrite Hv. split; [apply round64_nonneg; lra|].
    apply (Qle_trans _ (round64 (fq (fsub fone r)))); [apply round64_le; lra|]. by rewrite round64_fq; [lra|]. }
  assert (Hb : in_range 0 (fq r) (fmul hi r)).
  { destruct Hhi as [? ? ?], Hr as [? ? ?]. assert (0 <= fq hi * fq r <= fq r) by nra.
    destruct (fmul_value hi r) as [Hf Hv]; [done..|apply Qabs_Qle_condition; lra|].
    constructor; [apply fmul_wf|done|]. rewrite Hv. split; [apply round64_nonneg; lra|].
    apply (Qle_trans _ (round64 (fq r))); [apply round64_le; lra|]. by rewrite round64_fq; [lra|]. }
  destruct Ha as [_ Haf Ha], Hb as [_ Hbf Hb], Hu as [_ _ Hu], Hr as [_ _ Hr].
  destruct (fadd_value (fmul lo (fsub fone r)) (fmul hi r)) as [Hf Hv]; [done..|apply Qabs_Qle_condition; lra|].
  constructor; [apply fadd_wf|done|]. rewrite Hv. apply round64_near_one. lra.
Qed.
