(* ===== verification/Sha256.v ===== *)
(** * SHA-256, the content hash ([src/bpe/canonical.py], [sha256_bytes])

    [hashlib.sha256] on a byte string, as FIPS 180-4 defines it: 32-bit words are
    integers with explicit wrap-around, a message is a string of bytes.  The
    digest is printed as 64 lowercase hexadecimal digits ([hexdigest]).  Nothing
    is assumed about the function; theorems about digests say "equal digests come
    from equal inputs, or these two inputs are a collision". *)
From Stdlib Require Import ZArith List String Ascii.
From S2P Require Import Prelude.
Import ListNotations.
Local Open Scope Z_scope.

Module Sha256.

(** Truncation to 32 bits, [z mod 2^32]. *)
Definition w32 (z : Z) : Z := Z.land z 0xffffffff.
Definition add32 (x y : Z) : Z := w32 (x + y).
Definition rotr (n x : Z) : Z :=
  Z.lor (Z.shiftr x n) (w32 (Z.shiftl x (32 - n))).

Definition Ch (x y z : Z) : Z := Z.lxor (Z.land x y) (Z.land (Z.lxor x 0xffffffff) z).
Definition Maj (x y z : Z) : Z := Z.lxor (Z.lxor (Z.land x y) (Z.land x z)) (Z.land y z).
Definition Sigma0 (x : Z) : Z := Z.lxor (Z.lxor (rotr 2 x) (rotr 13 x)) (rotr 22 x).
Definition Sigma1 (x : Z) : Z := Z.lxor (Z.lxor (rotr 6 x) (rotr 11 x)) (rotr 25 x).
Definition sigma0 (x : Z) : Z := Z.lxor (Z.lxor (rotr 7 x) (rotr 18 x)) (Z.shiftr x 3).
Definition sigma1 (x : Z) : Z := Z.lxor (Z.lxor (rotr 17 x) (rotr 19 x)) (Z.shiftr x 10).

(** The constants of the standard are the first 32 bits of the fractional parts of
    roots of the first primes: cube roots of 64 of them for the rounds, square
    roots of 8 for the initial state. *)
Definition primes (n : nat) : list Z :=
  let divides d m := m mod d =? 0 in
  firstn n (filter (fun m => forallb (fun d => negb (divides d m)) (map Z.of_nat (seq 2 (Z.to_nat m - 2))))
                   (map Z.of_nat (seq 2 310))).

(** [floor (m^(1/3))], one bit at a time. *)
Definition cube_root (m : Z) : Z :=
  fold_left (fun r bit => let r' := Z.lor r (Z.shiftl 1 bit) in if r' ^ 3 <=? m then r' else r)
            (rev (map Z.of_nat (seq 0 36))) 0.

Definition K : list Z := Eval vm_compute in map (fun p => w32 (cube_root (Z.shiftl p 96))) (primes 64).
Definition H0 : list Z := Eval vm_compute in map (fun p => w32 (Z.sqrt (Z.shiftl p 64))) (primes 8).

(** Padding: [0x80], zeros, and the 64-bit big-endian bit length. *)
Definition byte_codes (s : string) : list Z :=
  map (fun c => Z.of_N (N_of_ascii c)) (list_ascii_of_string s).

Definition be8 (z : Z) : list Z :=
  map (fun i => Z.shiftr z (8 * i) mod 256) [7; 6; 5; 4; 3; 2; 1; 0].

Definition pad (bs : list Z) : list Z :=
  let n := Z.of_nat (List.length bs) in
  bs ++ [0x80] ++ repeat 0 (Z.to_nat ((55 - n) mod 64)) ++ be8 (8 * n).

Fixpoint words (bs : list Z) : list Z :=
  match bs with
  | a :: b :: c :: d :: rest => (((a * 256 + b) * 256 + c) * 256 + d) :: words rest
  | _ => []
  end.

(** Message schedule: [w] holds the last sixteen words, newest last. *)
Fixpoint schedule (n : nat) (w : list Z) : list Z :=
  match n with
  | O => []
  | S n =>
      match w with
      | w0 :: rest =>
          let next := add32 (add32 (sigma1 (nth 14 w 0)) (nth 9 w 0))
                            (add32 (sigma0 (nth 1 w 0)) w0) in
          w0 :: schedule n (rest ++ [next])
      | [] => []
      end
  end.

Definition round (st : list Z) (kw : Z * Z) : list Z :=
  match st with
  | [a; b; c; d; e; f; g; h] =>
      let t1 := add32 (add32 (add32 h (Sigma1 e)) (add32 (Ch e f g) (fst kw))) (snd kw) in
      let t2 := add32 (Sigma0 a) (Maj a b c) in
      [add32 t1 t2; a; b; c; add32 d t1; e; f; g]
  | _ => st
  end.

Definition compress (st : list Z) (block : list Z) : list Z :=
  map (fun p => add32 (fst p) (snd p))
    (combine st (fold_left round (combine K (schedule 64 block)) st)).

Fixpoint blocks (fuel : nat) (st ws : list Z) : list Z :=
  match fuel with
  | O => st
  | S fuel =>
      match ws with
      | [] => st
      | _ => blocks fuel (compress st (firstn 16 ws)) (skipn 16 ws)
      end
  end.

Definition hex_digit (z : Z) : ascii :=
  match z with
  | 0 => "0" | 1 => "1" | 2 => "2" | 3 => "3" | 4 => "4" | 5 => "5" | 6 => "6" | 7 => "7"
  | 8 => "8" | 9 => "9" | 10 => "a" | 11 => "b" | 12 => "c" | 13 => "d" | 14 => "e"
  | _ => "f"
  end%char.

Definition hex32 (z : Z) : list ascii :=
  map (fun i => hex_digit (Z.shiftr z (4 * i) mod 16)) [7; 6; 5; 4; 3; 2; 1; 0].

Definition sha256_bytes (data : string) : string :=
  let ws := words (pad (byte_codes data)) in
  string_of_list_ascii
    (flat_map hex32 (blocks (List.length ws) H0 ws)).

(** Two different inputs with one digest. *)
Definition collision (a b : string) : Prop := a <> b /\ sha256_bytes a = sha256_bytes b.

Example sha256_empty : sha256_bytes "" =
  "e3b0c44298fc1c149afbf4c8996fb92427ae41e4649b934ca495991b7852b855"%string.
Proof. vm_compute. reflexivity. Qed.

Example sha256_abc : sha256_bytes "abc" =
  "ba7816bf8f01cfea414140de5dae2223b00361a396177a9cb410ff61f20015ad"%string.
Proof. vm_compute. reflexivity. Qed.

Example sha256_two_blocks :
  sha256_bytes "abcdbcdecdefdefgefghfghighijhijkijkljklmklmnlmnomnopnopq" =
  "248d6a61d20638b8e5c026930c3e6039a33ce45964ff2167f6ecedd419db06c1"%string.
Proof. vm_compute. reflexivity. Qed.

End Sha256.
