(* ===== verification/Json.v ===== *)
(** * Canonical JSON ([src/bpe/canonical.py])

    A Python [str] is a [string] of its UTF-8 bytes (a lone surrogate, which
    Python strings may hold, is its three-byte generalised encoding; such strings
    are not encodable).  [json] is the JSON-compatible data that [canonical_data]
    returns: objects are association lists in insertion order.

    - [canonical_json_bytes] is the canonical encoder: sorted keys, no spaces,
      non-ASCII text verbatim, one final newline, non-finite floats refused;
    - [strict_json_loads] is the strict decoder on text: duplicate keys and
      non-finite numbers refused, nothing but whitespace after the value;
    - [float_repr]/[py_float] are [repr] and [float] of the standard library;
    - [sha256_json] hashes the canonical encoding.

    The decoder's recursion is bounded by the length of the text, which every
    recursive call shortens; CPython's own recursion limit is not modelled. *)
From Stdlib Require Import ZArith QArith String Ascii List Lia.
From stdpp Require Import base tactics list strings.
From S2P Require Import Prelude Floats Sha256.
Local Open Scope string_scope.
Local Open Scope Z_scope.

Module Json.
Import Sha256.

Inductive json :=
| JNull
| JBool (b : bool)
| JInt (z : Z)
| JFloat (f : float64)
| JStr (s : string)
| JArr (l : list json)
| JObj (kvs : list (string * json)).

(** ** Characters *)
Definition code (c : ascii) : Z := Z.of_N (N_of_ascii c).
Definition chr (z : Z) : ascii := ascii_of_N (Z.to_N z).
Definition char_str (c : ascii) : string := String c EmptyString.

(** A generalised-UTF-8 encoded surrogate [U+D800 .. U+DFFF]: [ED A0..BF xx]. *)
Fixpoint has_surrogate (s : string) : bool :=
  match s with
  | EmptyString => false
  | String a rest =>
      match rest with
      | String b _ => ((code a =? 0xED) && (0xA0 <=? code b)) || has_surrogate rest
      | EmptyString => false
      end
  end.

(** ** Encoding strings ([json.encoder.encode_basestring]) *)
Definition escape_char (c : ascii) : string :=
  let k := code c in
  if k =? 34 then String "\" (char_str (chr 34))
  else if k =? 92 then "\\"
  else if k =? 8 then "\b"
  else if k =? 9 then "\t"
  else if k =? 10 then "\n"
  else if k =? 12 then "\f"
  else if k =? 13 then "\r"
  else if k <? 32 then
    "\u00" ++ char_str (hex_digit (k / 16)) ++ char_str (hex_digit (k mod 16))
  else char_str c.

Fixpoint escape (s : string) : string :=
  match s with
  | EmptyString => EmptyString
  | String c s => escape_char c ++ escape s
  end.

Definition quote : string := char_str (chr 34).
Definition encode_string (s : string) : string := quote ++ escape s ++ quote.

(** ** Numbers *)
Fixpoint digits_of (fuel : nat) (z : Z) (acc : string) : string :=
  match fuel with
  | O => acc
  | S fuel =>
      let acc := String (chr (48 + z mod 10)) acc in
      if z / 10 =? 0 then acc else digits_of fuel (z / 10) acc
  end.

(** [int.__repr__]: a binary digit of fuel per decimal digit is plenty. *)
Definition string_of_Z (z : Z) : string :=
  (if z <? 0 then "-" else "") ++ digits_of (S (Z.to_nat (Z.log2 (Z.abs z)))) (Z.abs z) "".

(** CPython refuses to convert integers of more than 4300 decimal digits. *)
Definition INT_MAX_STR_DIGITS : Z := 4300.
Definition int_convertible (z : Z) : bool :=
  if Z.log2 (Z.abs z) <? 14000 then true    (* 2^14000 < 10^4300 *)
  else Z.abs z <? 10 ^ INT_MAX_STR_DIGITS.

Definition is_digit (c : ascii) : bool := (48 <=? code c) && (code c <=? 57).

(** The longest prefix of digits, its value (appended to [acc]) and length. *)
Fixpoint scan_digits (acc n : Z) (s : string) : Z * Z * string :=
  match s with
  | String c rest =>
      if is_digit c then scan_digits (acc * 10 + (code c - 48)) (n + 1) rest else (acc, n, s)
  | EmptyString => (acc, n, s)
  end.

(** A number token: sign, digits as one integer, how many of them follow the
    point, the exponent, and whether it had a fraction or an exponent. *)
Record number := { num_neg : bool; num_int_digits : Z; num_man : Z; num_frac : Z; num_exp : Z; num_is_float : bool }.

Definition scan_exponent (s : string) : option (Z * string) :=
  match s with
  | String c rest =>
      if (code c =? 101) || (code c =? 69) then
        let '(neg, rest) :=
          match rest with
          | String d rest' =>
              if code d =? 45 then (true, rest')
              else if code d =? 43 then (false, rest') else (false, rest)
          | EmptyString => (false, rest)
          end in
        let '(e, n, rest) := scan_digits 0 0 rest in
        if n =? 0 then None else Some (if neg : bool then - e else e, rest)
      else None
  | EmptyString => None
  end.

Definition scan_fraction (man : Z) (s : string) : option (Z * Z * string) :=
  match s with
  | String c rest =>
      if code c =? 46 then
        let '(man', n, rest) := scan_digits man 0 rest in
        if n =? 0 then None else Some (man', n, rest)
      else None
  | EmptyString => None
  end.

Definition scan_sign (s : string) : bool * string :=
  match s with
  | String c rest => if code c =? 45 then (true, rest) else (false, s)
  | EmptyString => (false, s)
  end.

(** The integer part: a lone [0], or digits that do not start with [0]. *)
Definition scan_int (s : string) : option (Z * Z * string) :=
  match s with
  | String c rest =>
      if code c =? 48 then Some (0, 1, rest)
      else if is_digit c then Some (scan_digits 0 0 s) else None
  | EmptyString => None
  end.

Definition scan_tail (neg : bool) (man n : Z) (s : string) : number * string :=
  let '(man, frac, s, isf) :=
    match scan_fraction man s with
    | Some (m, k, r) => (m, k, r, true)
    | None => (man, 0, s, false)
    end in
  let '(e, s, isf) :=
    match scan_exponent s with
    | Some (e, r) => (e, r, true)
    | None => (0, s, isf)
    end in
  ({| num_neg := neg; num_int_digits := n; num_man := man; num_frac := frac;
      num_exp := e; num_is_float := isf |}, s).

(** [_match_number_unicode]: maximal munch of the JSON number grammar. *)
Definition scan_number (s : string) : option (number * string) :=
  let '(neg, s) := scan_sign s in
  match scan_int s with
  | Some (man, n, s) => Some (scan_tail neg man n s)
  | None => None
  end.

(** [float(text)] of a number token: correctly rounded decimal to binary. *)
Definition number_float (n : number) : float64 :=
  if num_man n =? 0 then signed_zero (num_neg n)
  else
    of_Q (inject_Z (if num_neg n then - num_man n else num_man n)
          * Qpower 10 (num_exp n - num_frac n))%Q.

Definition py_float (s : string) : option float64 :=
  match scan_number s with
  | Some (n, EmptyString) => if num_is_float n then Some (number_float n) else None
  | _ => None
  end.

(** [repr] of a positive finite float: the shortest digit string that reads back,
    nearest to the exact value, in fixed or exponent notation. *)
Definition decimal_point (q : Q) : Z :=
  let k0 := (ilog2 q * 30103) / 100000 in
  if Qle_bool (Qpower 10 (k0 + 1)) q then k0 + 2
  else if Qle_bool (Qpower 10 k0) q then k0 + 1 else k0.

Fixpoint zeros (n : nat) : string :=
  match n with O => EmptyString | S n => String "0" (zeros n) end.

Definition format_repr (digits : Z) (decpt : Z) : string :=
  let ds := string_of_Z digits in
  let n := Z.of_nat (String.length ds) in
  if (-4 <? decpt) && (decpt <=? 16) then
    if decpt <=? 0 then "0." ++ zeros (Z.to_nat (- decpt)) ++ ds
    else if decpt <? n then
      String.substring 0 (Z.to_nat decpt) ds ++ "."
        ++ String.substring (Z.to_nat decpt) (Z.to_nat (n - decpt)) ds
    else ds ++ zeros (Z.to_nat (decpt - n)) ++ ".0"
  else
    let e := decpt - 1 in
    let es := string_of_Z (Z.abs e) in
    let man :=
      match ds with
      | String c EmptyString => ds
      | String c rest => String c ("." ++ rest)
      | EmptyString => ds
      end in
    man ++ "e" ++ (if e <? 0 then "-" else "+")
      ++ (if Z.abs e <? 10 then "0" ++ es else es).

(** Drop trailing zero digits (a carry such as 9.99 -> 10.0 leaves some). *)
Fixpoint strip_zeros (fuel : nat) (d : Z) : Z :=
  match fuel with
  | O => d
  | S fuel => if d mod 10 =? 0 then strip_zeros fuel (d / 10) else d
  end.

(** Candidate texts with [n] significant digits, the nearer one first. *)
Definition repr_candidates (q : Q) (k : Z) (n : Z) : list string :=
  let scaled := (q * Qpower 10 (n - k))%Q in
  let lo := (Qnum scaled / Zpos (Qden scaled)) in
  let near := nearest_even scaled in
  let far := if near =? lo then lo + 1 else lo in
  let text d :=
    if d =? 10 ^ n then format_repr 1 (k + 1)
    else format_repr (strip_zeros (Z.to_nat n) d) k in
  [text near; text far].

Definition reads_back (f : float64) (t : string) : bool := bool_decide (py_float t = Some f).

Fixpoint repr_search (fuel : nat) (n : Z) (f : float64) (sign : string) (q : Q) (k : Z) :
    option string :=
  match fuel with
  | O => None
  | S fuel =>
      match List.find (reads_back f) (map (fun t => sign ++ t) (repr_candidates q k n)) with
      | Some t => Some t
      | None => repr_search fuel (n + 1) f sign q k
      end
  end.

(** [float.__repr__] on finite floats: 17 significant digits always suffice. *)
Definition float_repr (f : float64) : option string :=
  match f with
  | NegZero => Some "-0.0"
  | Fin m e =>
      if bool_decide (f = fzero) then Some "0.0"
      else
        let q := Qred (Qabs.Qabs (fq f)) in
        repr_search 17 1 f (if m <? 0 then "-" else "") q (decimal_point q)
  | _ => None
  end.

Example repr_tenth : float_repr (of_Q (1 # 10)) = Some "0.1". Proof. by vm_compute. Qed.
Example repr_sum : float_repr (fadd (of_Q (1 # 10)) (of_Q (2 # 10))) = Some "0.30000000000000004".
Proof. by vm_compute. Qed.
Example repr_big : float_repr (of_Z 123456789012345678) = Some "1.2345678901234568e+17".
Proof. by vm_compute. Qed.
Example repr_small : float_repr (of_Q (-1 # 100000)) = Some "-1e-05". Proof. by vm_compute. Qed.
Example repr_one : float_repr fone = Some "1.0". Proof. by vm_compute. Qed.
Example repr_e16 : float_repr (of_Z 10000000000000000) = Some "1e+16". Proof. by vm_compute. Qed.

(** ** The canonical encoder *)
Fixpoint insert_kv {A} (k : string) (a : A) (l : list (string * A)) : list (string * A) :=
  match l with
  | [] => [(k, a)]
  | (k', a') :: l' => if String.leb k k' then (k, a) :: l else (k', a') :: insert_kv k a l'
  end.

(** [sorted(d.items())]: by key, which is unique. *)
Fixpoint sort_kv {A} (l : list (string * A)) : list (string * A) :=
  match l with
  | [] => []
  | (k, a) :: l => insert_kv k a (sort_kv l)
  end.

Definition encode_member (kv : string * string) : string :=
  encode_string kv.1 ++ ":" ++ kv.2.

(** [json.dumps(v, ensure_ascii=False, allow_nan=False, sort_keys=True,
    separators=(",", ":"))] *)
Fixpoint dumps (v : json) : result string string :=
  match v with
  | JNull => Ok "null"
  | JBool b => Ok (if b then "true" else "false")
  | JInt z =>
      if int_convertible z then Ok (string_of_Z z)
      else Err "Exceeds the limit (4300 digits) for integer string conversion"
  | JFloat f =>
      match float_repr f with
      | Some t => Ok t
      | None => Err "Out of range float values are not JSON compliant"
      end
  | JStr s => Ok (encode_string s)
  | JArr l =>
      let* ts := (fix go (l : list json) : result string (list string) :=
                    match l with
                    | [] => Ok []
                    | v :: l => let* t := dumps v in let* ts := go l in Ok (t :: ts)
                    end) l in
      Ok ("[" ++ String.concat "," ts ++ "]")
  | JObj kvs =>
      let* ts := (fix go (l : list (string * json)) : result string (list (string * string)) :=
                    match l with
                    | [] => Ok []
                    | (k, v) :: l => let* t := dumps v in let* ts := go l in Ok ((k, t) :: ts)
                    end) kvs in
      Ok ("{" ++ String.concat "," (encode_member <$> sort_kv ts) ++ "}")
  end.

Definition newline : string := char_str (chr 10).

(** [canonical_json_bytes]: UTF-8 encoding fails on surrogates. *)
Definition canonical_json_bytes (v : json) : result string string :=
  let* text := dumps v in
  raise "cannot encode canonical JSON" when has_surrogate text ;;
  Ok (text ++ newline).

Definition sha256_json (v : json) : result string string :=
  let* b := canonical_json_bytes v in Ok (sha256_bytes b).

Lemma sha256_json_of v b : canonical_json_bytes v = Ok b -> sha256_json v = Ok (sha256_bytes b).
Proof. unfold sha256_json. intros ->. reflexivity. Qed.

(** ** The strict decoder *)
Definition is_ws (c : ascii) : bool :=
  (code c =? 32) || (code c =? 9) || (code c =? 10) || (code c =? 13).

Fixpoint skip_ws (s : string) : string :=
  match s with
  | String c rest => if is_ws c then skip_ws rest else s
  | EmptyString => s
  end.

Definition hex_value (c : ascii) : option Z :=
  let k := code c in
  if (48 <=? k) && (k <=? 57) then Some (k - 48)
  else if (97 <=? k) && (k <=? 102) then Some (k - 87)
  else if (65 <=? k) && (k <=? 70) then Some (k - 55)
  else None.

Definition hex4 (a b c d : ascii) : option Z :=
  match hex_value a, hex_value b, hex_value c, hex_value d with
  | Some a, Some b, Some c, Some d => Some (((a * 16 + b) * 16 + c) * 16 + d)
  | _, _, _, _ => None
  end.

(** Generalised UTF-8 of one code point. *)
Definition utf8 (u : Z) : string :=
  if u <? 0x80 then char_str (chr u)
  else if u <? 0x800 then
    String (chr (0xC0 + u / 64)) (char_str (chr (0x80 + u mod 64)))
  else if u <? 0x10000 then
    String (chr (0xE0 + u / 4096))
      (String (chr (0x80 + (u / 64) mod 64)) (char_str (chr (0x80 + u mod 64))))
  else
    String (chr (0xF0 + u / 262144))
      (String (chr (0x80 + (u / 4096) mod 64))
        (String (chr (0x80 + (u / 64) mod 64)) (char_str (chr (0x80 + u mod 64))))).

Definition is_high (u : Z) : bool := (0xD800 <=? u) && (u <=? 0xDBFF).
Definition is_low (u : Z) : bool := (0xDC00 <=? u) && (u <=? 0xDFFF).
Definition join_surrogates (h l : Z) : Z := 0x10000 + (h - 0xD800) * 1024 + (l - 0xDC00).

Definition simple_escape (c : ascii) : option ascii :=
  let k := code c in
  if k =? 34 then Some c else if k =? 92 then Some c else if k =? 47 then Some c
  else if k =? 98 then Some (chr 8) else if k =? 102 then Some (chr 12)
  else if k =? 110 then Some (chr 10) else if k =? 114 then Some (chr 13)
  else if k =? 116 then Some (chr 9) else None.

Definition prepend (p : string) (r : option (string * string)) : option (string * string) :=
  match r with Some (s, rest) => Some (p ++ s, rest) | None => None end.

(** [scanstring], after the opening quote: the content and the text after the
    closing quote. *)
Fixpoint scan_string (s : string) : option (string * string) :=
  match s with
  | EmptyString => None
  | String c rest =>
      if code c =? 34 then Some ("", rest)
      else if code c =? 92 then
        match rest with
        | EmptyString => None
        | String e rest1 =>
            if code e =? 117 then
              match rest1 with
              | String a (String b (String c' (String d rest4))) =>
                  match hex4 a b c' d with
                  | None => None
                  | Some u =>
                      let lone := prepend (utf8 u) (scan_string rest4) in
                      if is_high u then
                        match rest4 with
                        | String x (String y (String a2 (String b2 (String c2 (String d2 rest5))))) =>
                            if (code x =? 92) && (code y =? 117) then
                              match hex4 a2 b2 c2 d2 with
                              | None => None
                              | Some u2 =>
                                  if is_low u2
                                  then prepend (utf8 (join_surrogates u u2)) (scan_string rest5)
                                  else lone
                              end
                            else lone
                        | _ => lone
                        end
                      else lone
                  end
              | _ => None
              end
            else
              match simple_escape e with
              | Some c' => prepend (char_str c') (scan_string rest1)
              | None => None
              end
        end
      else if code c <? 32 then None
      else prepend (char_str c) (scan_string rest)
  end.

(** [_reject_duplicate_keys] *)
Fixpoint reject_duplicate_keys (seen : list string) (pairs : list (string * json)) :
    result string (list (string * json)) :=
  match pairs with
  | [] => Ok []
  | (k, v) :: rest =>
      raise ("duplicate JSON key: " ++ k) when bool_decide (k ∈ seen) ;;
      let* d := reject_duplicate_keys (k :: seen) rest in
      Ok ((k, v) :: d)
  end.

Definition JSON_INVALID : string := "invalid JSON".

(** Literals, the constants refused by [_reject_nonfinite_constant], and numbers. *)
Definition parse_scalar (s : string) : result string (json * string) :=
  let after n := String.substring n (String.length s - n) s in
  if String.prefix "null" s then Ok (JNull, after 4%nat)
  else if String.prefix "true" s then Ok (JBool true, after 4%nat)
  else if String.prefix "false" s then Ok (JBool false, after 5%nat)
  else if String.prefix "NaN" s then Err "non-finite JSON number: NaN"
  else if String.prefix "Infinity" s then Err "non-finite JSON number: Infinity"
  else if String.prefix "-Infinity" s then Err "non-finite JSON number: -Infinity"
  else
    match scan_number s with
    | None => Err JSON_INVALID
    | Some (n, rest) =>
        if num_is_float n then
          let f := number_float n in
          raise "non-finite JSON number" when negb (is_finite f) ;;
          Ok (JFloat f, rest)
        else
          raise JSON_INVALID when (INT_MAX_STR_DIGITS <? num_int_digits n) ;;
          Ok (JInt (if num_neg n then - num_man n else num_man n), rest)
    end.

Fixpoint parse_value (fuel : nat) (s : string) : result string (json * string) :=
  match fuel with
  | O => Err JSON_INVALID
  | S fuel =>
      match s with
      | EmptyString => Err JSON_INVALID
      | String c rest =>
          if code c =? 34 then
            match scan_string rest with
            | Some (str, rest) => Ok (JStr str, rest)
            | None => Err JSON_INVALID
            end
          else if code c =? 91 then
            match skip_ws rest with
            | String d rest' =>
                if code d =? 93 then Ok (JArr [], rest')
                else let* p := parse_elements fuel (String d rest') in
                     Ok (JArr p.1, p.2)
            | EmptyString => Err JSON_INVALID
            end
          else if code c =? 123 then
            match skip_ws rest with
            | String d rest' =>
                if code d =? 125 then Ok (JObj [], rest')
                else let* p := parse_members fuel (String d rest') in
                     let* kvs := reject_duplicate_keys [] p.1 in
                     Ok (JObj kvs, p.2)
            | EmptyString => Err JSON_INVALID
            end
          else parse_scalar s
      end
  end
with parse_elements (fuel : nat) (s : string) : result string (list json * string) :=
  match fuel with
  | O => Err JSON_INVALID
  | S fuel =>
      let* p := parse_value fuel s in
      match skip_ws p.2 with
      | String c rest =>
          if code c =? 93 then Ok ([p.1], rest)
          else if code c =? 44 then
            let* q := parse_elements fuel (skip_ws rest) in
            Ok (p.1 :: q.1, q.2)
          else Err JSON_INVALID
      | EmptyString => Err JSON_INVALID
      end
  end
with parse_members (fuel : nat) (s : string) : result string (list (string * json) * string) :=
  match fuel with
  | O => Err JSON_INVALID
  | S fuel =>
      match s with
      | String c rest =>
          raise JSON_INVALID when negb (code c =? 34) ;;
          match scan_string rest with
          | None => Err JSON_INVALID
          | Some (key, rest) =>
              match skip_ws rest with
              | String c1 rest1 =>
                  raise JSON_INVALID when negb (code c1 =? 58) ;;
                  let* p := parse_value fuel (skip_ws rest1) in
                  match skip_ws p.2 with
                  | String c2 rest2 =>
                      if code c2 =? 125 then Ok ([(key, p.1)], rest2)
                      else if code c2 =? 44 then
                        let* q := parse_members fuel (skip_ws rest2) in
                        Ok ((key, p.1) :: q.1, q.2)
                      else Err JSON_INVALID
                  | EmptyString => Err JSON_INVALID
                  end
              | EmptyString => Err JSON_INVALID
              end
          end
      | EmptyString => Err JSON_INVALID
      end
  end.

(** [strict_json_loads] on text. *)
Definition strict_json_loads (text : string) : result string json :=
  let* p := parse_value (S (2 * String.length text)) (skip_ws text) in
  match skip_ws p.2 with
  | EmptyString => Ok p.1
  | _ => Err JSON_INVALID
  end.

Definition sample_json : json :=
  JObj [("b", JArr [JInt (-12); JFloat (of_Q (5 # 2)); JNull]);
        ("a", JStr (String (chr 34) (String (chr 10) "é")));
        ("c", JObj [])].

Example sample_loads :
  match canonical_json_bytes sample_json with
  | Ok t => strict_json_loads t
  | Err e => Err e
  end = Ok (JObj [("a", JStr (String (chr 34) (String (chr 10) "é")));
        ("b", JArr [JInt (-12); JFloat (of_Q (5 # 2)); JNull]);
        ("c", JObj [])]).
Proof. vm_compute. reflexivity. Qed.

End Json.
