(* ===== verification/JsonFacts.v ===== *)
(** * Correctness of canonical JSON

    Round trip: whatever the canonical encoder emits, the strict decoder reads
    back as the same data with its keys sorted; hence the canonical encoding is
    injective up to key order and a content digest identifies its content up to
    a SHA-256 collision. *)
From Stdlib Require Import ZArith QArith String Ascii List Lia.
From stdpp Require Import base tactics list strings.
From S2P Require Import Prelude Floats Sha256 Json.
Local Open Scope string_scope.
Local Open Scope Z_scope.

Module JsonFacts.
Import Sha256 Json.

#[local] Arguments String.append : simpl nomatch.

(** ** Strings *)
Lemma str_app_assoc (a b c : string) : (a ++ b) ++ c = a ++ (b ++ c).
Proof. induction a as [|x a IH]; cbn; [done|by rewrite IH]. Qed.

Lemma str_app_nil (a : string) : a ++ "" = a.
Proof. induction a as [|x a IH]; cbn; [done|by rewrite IH]. Qed.

Lemma str_length_app (a b : string) :
  String.length (a ++ b) = (String.length a + String.length b)%nat.
Proof. induction a as [|x a IH]; cbn; [done|by rewrite IH]. Qed.

(** Scanning one escaped character gives the character back. *)
Lemma scan_escape_char c s :
  scan_string (escape_char c ++ s) = prepend (char_str c) (scan_string s).
Proof. destruct c as [[] [] [] [] [] [] [] []]; reflexivity. Qed.

Lemma scan_escape s rest : scan_string (escape s ++ quote ++ rest) = Some (s, rest).
Proof.
  induction s as [|c s IH]; [done|]. cbn [escape].
  by rewrite str_app_assoc, scan_escape_char, IH.
Qed.

(** ** Number tokens are read by maximal munch *)
Definition delimiter (s : string) : Prop :=
  match s with
  | EmptyString => True
  | String c _ => is_ws c = true \/ code c = 44 \/ code c = 93 \/ code c = 125
  end.

Lemma delimiter_not_number c s : delimiter (String c s) ->
  is_digit c = false /\ code c <> 46 /\ code c <> 101 /\ code c <> 69 /\ code c <> 43 /\ code c <> 45.
Proof.
  cbn. unfold is_ws, is_digit. intros H.
  assert (Hc : code c = 32 \/ code c = 9 \/ code c = 10 \/ code c = 13 \/ code c = 44
               \/ code c = 93 \/ code c = 125).
  { destruct H as [H|H]; [|tauto]. rewrite !orb_true_iff, !Z.eqb_eq in H. tauto. }
  rewrite andb_false_iff, !Z.leb_gt. lia.
Qed.

Lemma scan_digits_app acc n t rest : delimiter rest ->
  scan_digits acc n (t ++ rest) =
  let '(a, k, r) := scan_digits acc n t in (a, k, r ++ rest).
Proof.
  intros Hd. revert acc n. induction t as [|c t IH]; intros acc n; cbn.
  - destruct rest as [|c rest]; [done|]. apply delimiter_not_number in Hd as [Hc _].
    cbn. by rewrite Hc.
  - destruct (is_digit c); [apply IH|done].
Qed.

Lemma scan_fraction_app m t rest : delimiter rest ->
  scan_fraction m (t ++ rest) =
  match scan_fraction m t with Some (a, k, r) => Some (a, k, r ++ rest) | None => None end.
Proof.
  intros Hd. destruct t as [|c t]; cbn.
  - destruct rest as [|c rest]; [done|]. apply delimiter_not_number in Hd as (_ & Hc & _).
    cbn. by rewrite (proj2 (Z.eqb_neq _ _) Hc).
  - destruct (code c =? 46); [|done]. rewrite scan_digits_app by done.
    destruct (scan_digits m 0 t) as [[a k] r]. by destruct (k =? 0).
Qed.

Lemma scan_exponent_app t rest : delimiter rest ->
  scan_exponent (t ++ rest) =
  match scan_exponent t with Some (e, r) => Some (e, r ++ rest) | None => None end.
Proof.
  intros Hd. destruct t as [|c t]; cbn.
  - destruct rest as [|c rest]; [done|].
    apply delimiter_not_number in Hd as (_ & _ & H1 & H2 & _).
    cbn. by rewrite (proj2 (Z.eqb_neq _ _) H1), (proj2 (Z.eqb_neq _ _) H2).
  - destruct ((code c =? 101) || (code c =? 69)); [|done].
    destruct t as [|d t]; cbn [String.append].
    + destruct rest as [|d rest]; [done|].
      pose proof (delimiter_not_number _ _ Hd) as (H0 & _ & _ & _ & H1 & H2).
      rewrite (proj2 (Z.eqb_neq _ _) H1), (proj2 (Z.eqb_neq _ _) H2). cbn. by rewrite H0.
    + destruct (code d =? 45); [|destruct (code d =? 43)].
      * rewrite scan_digits_app by done. destruct (scan_digits 0 0 t) as [[a k] r].
        by destruct (k =? 0).
      * rewrite scan_digits_app by done. destruct (scan_digits 0 0 t) as [[a k] r].
        by destruct (k =? 0).
      * change (String d (t ++ rest)) with (String d t ++ rest).
        rewrite scan_digits_app by done. destruct (scan_digits 0 0 (String d t)) as [[a k] r].
        by destruct (k =? 0).
Qed.

Lemma scan_tail_app neg man n t rest : delimiter rest ->
  scan_tail neg man n (t ++ rest) =
  let '(num, r) := scan_tail neg man n t in (num, r ++ rest).
Proof.
  intros Hd. unfold scan_tail. rewrite scan_fraction_app by done.
  destruct (scan_fraction man t) as [[[m' k'] r']|]; rewrite scan_exponent_app by done;
    [destruct (scan_exponent r') as [[e re]|]|destruct (scan_exponent t) as [[e re]|]]; done.
Qed.

Lemma scan_number_app t rest n r : delimiter rest ->
  scan_number t = Some (n, r) -> scan_number (t ++ rest) = Some (n, r ++ rest).
Proof.
  intros Hd. unfold scan_number.
  assert (Hsign : t <> "" -> scan_sign (t ++ rest) = let '(neg, s) := scan_sign t in (neg, s ++ rest)).
  { destruct t as [|c t]; [done|]. cbn. by destruct (code c =? 45). }
  destruct (decide (t = "")) as [->|Hne]; [done|]. rewrite Hsign by done. clear Hsign.
  destruct (scan_sign t) as [neg [|d s]]; [done|]. cbn [String.append scan_int].
  destruct (code d =? 48); [|destruct (is_digit d); [|done]].
  - rewrite scan_tail_app by done. destruct (scan_tail _ _ _ s). by intros [= <- <-].
  - change (String d (s ++ rest)) with (String d s ++ rest). rewrite scan_digits_app by done.
    destruct (scan_digits 0 0 (String d s)) as [[a k] s2]. rewrite scan_tail_app by done.
    destruct (scan_tail neg a k s2). by intros [= <- <-].
Qed.

(** ** Integers *)
Lemma code_chr z : 0 <= z < 256 -> code (chr z) = z.
Proof. intros H. unfold code, chr. rewrite N_ascii_embedding by lia. lia. Qed.

Lemma digit_char z : 0 <= z < 10 ->
  is_digit (chr (48 + z)) = true /\ code (chr (48 + z)) = 48 + z.
Proof. intros H. unfold is_digit. rewrite code_chr by lia. split; [|done]. lia. Qed.

Lemma digits_of_scan fuel z acc : 0 <= z < 2 ^ Z.of_nat (S fuel) ->
  exists k, 0 < k /\ (z = 0 /\ k = 1 \/ 10 ^ (k - 1) <= z)
    /\ (forall a n, scan_digits a n (digits_of (S fuel) z acc)
                    = scan_digits (a * 10 ^ k + z) (n + k) acc)
    /\ exists c s, digits_of (S fuel) z acc = String c s /\ is_digit c = true
                   /\ (0 < z -> code c <> 48) /\ (z = 0 -> c = chr 48 /\ s = acc).
Proof.
  revert z acc. induction fuel as [|fuel IH]; intros z acc Hz.
  - change (2 ^ Z.of_nat 1) with 2 in Hz. exists 1.
    pose proof (Z.mod_pos_bound z 10 ltac:(lia)) as Hm.
    destruct (digit_char (z mod 10) Hm) as [Hd Hc].
    assert (Hz10 : z / 10 = 0) by (apply Z.div_small; lia).
    assert (Hzm : z mod 10 = z) by (apply Z.mod_small; lia).
    cbn [digits_of]. rewrite Hz10. cbn [Z.eqb]. rewrite Hzm in *. split_and!; [lia|lia| |].
    + intros a n. cbn [scan_digits]. rewrite Hd, Hc, Z.pow_1_r. f_equal; lia.
    + do 2 eexists. split_and!; [done|done|lia|by intros ->].
  - remember (S fuel) as f eqn:Hf. cbn [digits_of].
    pose proof (Z.mod_pos_bound z 10 ltac:(lia)) as Hm.
    destruct (digit_char (z mod 10) Hm) as [Hd Hc].
    pose proof (Z.div_mod z 10 ltac:(lia)) as Hdm.
    destruct (Z.eqb_spec (z / 10) 0) as [Hz10|Hz10].
    + exists 1. assert (Hzm : z mod 10 = z) by lia. rewrite Hzm in *. split_and!; [lia|lia| |].
      * intros a n. cbn [scan_digits]. rewrite Hd, Hc, Z.pow_1_r. f_equal; lia.
      * do 2 eexists. split_and!; [done|done|lia|by intros ->].
    + subst f. rewrite Nat2Z.inj_succ, Z.pow_succ_r in Hz by lia.
      destruct (IH (z / 10) (String (chr (48 + z mod 10)) acc)) as (k & Hk & Hlow & Hscan & c & s & Hcs & Hdig & Hn & _).
      { split; [apply Z.div_pos; lia|]. apply Z.div_lt_upper_bound; lia. }
      assert (Hlow' : 10 ^ (k - 1) <= z / 10) by lia. clear Hlow.
      exists (k + 1). replace (k + 1 - 1) with k by lia.
      assert (Hk10 : 10 ^ k = 10 * 10 ^ (k - 1)).
      { rewrite <-Z.pow_succ_r by lia. f_equal. lia. }
      split_and!; [lia|right; lia| |].
      * intros a n. rewrite Hscan. cbn [scan_digits]. rewrite Hd, Hc, Z.pow_add_r, Z.pow_1_r by lia.
        f_equal; lia.
      * exists c, s. split_and!; [done|done| |lia]. intros _. apply Hn. lia.
Qed.

Definition int_number (z k : Z) : number :=
  {| num_neg := z <? 0; num_int_digits := k; num_man := Z.abs z; num_frac := 0;
     num_exp := 0; num_is_float := false |}.

Lemma int_convertible_spec z : int_convertible z = true -> Z.abs z < 10 ^ INT_MAX_STR_DIGITS.
Proof.
  unfold int_convertible. destruct (Z.log2 (Z.abs z) <? 14000) eqn:Hl; [intros _|apply Z.ltb_lt].
  apply Z.ltb_lt in Hl. destruct (Z.eq_dec (Z.abs z) 0) as [->|Hz]; [by apply Z.pow_pos_nonneg|].
  apply Z.log2_lt_pow2 in Hl; [|lia]. eapply Z.lt_trans; [exact Hl|].
  change 14000 with (140 * 100). change INT_MAX_STR_DIGITS with (43 * 100).
  rewrite !Z.pow_mul_r by lia. apply Z.pow_lt_mono_l; lia.
Qed.

Lemma scan_string_of_Z z : int_convertible z = true ->
  exists k, k <= INT_MAX_STR_DIGITS /\ scan_number (string_of_Z z) = Some (int_number z k, "").
Proof.
  intros Hc%int_convertible_spec.
  assert (Hf : 0 <= Z.abs z < 2 ^ Z.of_nat (S (Z.to_nat (Z.log2 (Z.abs z))))).
  { split; [lia|]. rewrite Nat2Z.inj_succ, Z2Nat.id by apply Z.log2_nonneg.
    destruct (Z.eq_dec (Z.abs z) 0) as [->|]; [done|]. apply Z.log2_spec. lia. }
  destruct (digits_of_scan _ _ "" Hf) as (k & Hk & Hlow & Hscan & c & s & Hcs & Hdig & Hnz & Hz0).
  unfold string_of_Z, scan_number, scan_int, int_number.
  assert (Hkmax : k <= INT_MAX_STR_DIGITS).
  { destruct Hlow as [[_ ->]|Hlow]; [done|].
    assert (10 ^ (k - 1) < 10 ^ INT_MAX_STR_DIGITS) as Hp by lia.
    apply Z.pow_lt_mono_r_iff in Hp; [lia|done|done]. }
  exists k. split; [done|].
  specialize (Hscan 0 0). rewrite Hcs in *. cbn [scan_digits] in Hscan.
  assert (Hsign : scan_sign ((if z <? 0 then "-" else "") ++ String c s) = (z <? 0, String c s)).
  { unfold is_digit in Hdig. bool_prop. destruct (z <? 0); cbn; [done|].
    by rewrite (proj2 (Z.eqb_neq (code c) 45)) by lia. }
  rewrite Hsign. destruct (Z.eq_dec (Z.abs z) 0) as [Hz|Hz].
  - destruct (Hz0 Hz) as [-> ->]. rewrite Hz. cbn. destruct Hlow as [[_ ->]|Hlow]; [done|].
    exfalso. assert (0 < 10 ^ (k - 1)) by (apply Z.pow_pos_nonneg; lia). lia.
  - rewrite (proj2 (Z.eqb_neq (code c) 48)) by (apply Hnz; lia). rewrite Hdig.
    cbn [scan_digits]. rewrite Hdig in *. rewrite Hscan. cbn. done.
Qed.

(** ** Scalars *)
Lemma substring_all s : String.substring 0 (String.length s) s = s.
Proof. induction s as [|c s IH]; cbn; [done|by rewrite IH]. Qed.

Lemma prefix_head a p c s : String.prefix (String a p) (String c s) = true -> a = c.
Proof. cbn. by destruct (ascii_dec a c). Qed.

(** A number token starts with a digit, or a minus sign and a digit. *)
Lemma scan_number_head c s p : scan_number (String c s) = Some p ->
  is_digit c = true \/ code c = 45 /\ exists d s', s = String d s' /\ is_digit d = true.
Proof.
  unfold scan_number. cbn. destruct (Z.eqb_spec (code c) 45) as [Hc|Hc]; cbn.
  - destruct s as [|d s]; cbn; [done|]. intros H. right. split; [done|].
    exists d, s. split; [done|]. unfold is_digit in *.
    destruct (Z.eqb_spec (code d) 48) as [->|]; [done|].
    by destruct ((48 <=? code d) && (code d <=? 57)).
  - destruct (Z.eqb_spec (code c) 48) as [Hz|Hz].
    + intros _. left. unfold is_digit. by rewrite Hz.
    + destruct (is_digit c); [auto|done].
Qed.

Lemma parse_scalar_number c s p : scan_number (String c s) = Some p ->
  parse_scalar (String c s) =
  (let '(n, rest) := p in
   if num_is_float n then
     if negb (is_finite (number_float n)) then Err "non-finite JSON number"
     else Ok (JFloat (number_float n), rest)
   else if INT_MAX_STR_DIGITS <? num_int_digits n then Err JSON_INVALID
   else Ok (JInt (if num_neg n then - num_man n else num_man n), rest)).
Proof.
  intros Hs. pose proof (scan_number_head _ _ _ Hs) as Hh. unfold parse_scalar.
  assert (Hp : forall a q, is_digit a = false -> code a <> 45 ->
    String.prefix (String a q) (String c s) = false).
  { intros a q Ha Ha'. destruct (String.prefix _ _) eqn:E; [|done].
    apply prefix_head in E as ->. destruct Hh as [?|[? _]]; congruence. }
  rewrite !Hp by done.
  assert (Hinf : String.prefix "-Infinity" (String c s) = false).
  { destruct (String.prefix _ _) eqn:E; [|done]. pose proof (prefix_head _ _ _ _ E) as <-.
    destruct Hh as [Hd|(_ & d & s' & -> & Hd)]; [by vm_compute in Hd|].
    cbn [String.prefix] in E. destruct (ascii_dec "-" "-"); [|done].
    destruct (ascii_dec "I" d) as [<-|]; [by vm_compute in Hd|done]. }
  rewrite Hinf, Hs. by destruct p.
Qed.

(** ** Data: induction, well-formedness, key order *)
Section JsonInd.
Context (P : json -> Prop).
Context (Pnull : P JNull) (Pbool : forall b, P (JBool b)) (Pint : forall z, P (JInt z))
  (Pfloat : forall f, P (JFloat f)) (Pstr : forall s, P (JStr s))
  (Parr : forall l, Forall P l -> P (JArr l))
  (Pobj : forall kvs, Forall (fun kv => P kv.2) kvs -> P (JObj kvs)).

Fixpoint json_ind' (v : json) : P v :=
  match v with
  | JNull => Pnull
  | JBool b => Pbool b
  | JInt z => Pint z
  | JFloat f => Pfloat f
  | JStr s => Pstr s
  | JArr l => Parr l ((fix go l : Forall P l :=
      match l with
      | [] => Forall_nil_2 P
      | x :: l => Forall_cons_2 P x l (json_ind' x) (go l)
      end) l)
  | JObj kvs => Pobj kvs ((fix go l : Forall (fun kv => P kv.2) l :=
      match l with
      | [] => Forall_nil_2 _
      | kv :: l => Forall_cons_2 _ kv l (json_ind' kv.2) (go l)
      end) kvs)
  end.
End JsonInd.

(** Every dict has distinct keys. *)
Fixpoint wf_json (v : json) : Prop :=
  match v with
  | JArr l => (fix go l := match l with [] => True | v :: l => wf_json v /\ go l end) l
  | JObj kvs =>
      NoDup (kvs.*1)
      /\ (fix go (l : list (string * json)) :=
            match l with [] => True | kv :: l => wf_json kv.2 /\ go l end) kvs
  | _ => True
  end.

(** The same data with every dict in key order. *)
Fixpoint canon (v : json) : json :=
  match v with
  | JArr l => JArr (map canon l)
  | JObj kvs => JObj (sort_kv (map (fun kv => (kv.1, canon kv.2)) kvs))
  | v => v
  end.

Lemma wf_json_arr l : wf_json (JArr l) <-> Forall wf_json l.
Proof. cbn. induction l as [|v l IH]; [by split; constructor|]. by rewrite Forall_cons, IH. Qed.

Lemma wf_json_obj kvs :
  wf_json (JObj kvs) <-> NoDup (kvs.*1) /\ Forall (fun kv => wf_json kv.2) kvs.
Proof.
  cbn. f_equiv. induction kvs as [|kv l IH]; [by split; constructor|]. by rewrite Forall_cons, IH.
Qed.

(** The nested loops of [dumps] are [map_result]. *)
Lemma dumps_arr l :
  dumps (JArr l) = bind_result (map_result dumps l)
    (fun ts => Ok ("[" ++ String.concat "," ts ++ "]")).
Proof.
  cbn [dumps]. f_equal. induction l as [|v l IH]; [done|]. cbn. by rewrite IH.
Qed.

Definition dump_member (kv : string * json) : result string (string * string) :=
  bind_result (dumps kv.2) (fun t => Ok (kv.1, t)).

Lemma dumps_obj kvs :
  dumps (JObj kvs) = bind_result (map_result dump_member kvs)
    (fun ts => Ok ("{" ++ String.concat "," (encode_member <$> sort_kv ts) ++ "}")).
Proof.
  cbn [dumps]. f_equal. induction kvs as [|[k v] l IH]; [done|]. cbn. unfold dump_member.
  cbn. destruct (dumps v); cbn; [|done]. by rewrite IH.
Qed.

(** ** Sorting by key *)
Section SortForall2.
Context {A B : Type} (R : A -> B -> Prop).
Definition same_key (x : string * A) (y : string * B) : Prop := x.1 = y.1 /\ R x.2 y.2.

Lemma insert_kv_Forall2 k a b l m :
  R a b -> Forall2 same_key l m -> Forall2 same_key (insert_kv k a l) (insert_kv k b m).
Proof.
  intros Hab. induction 1 as [|[k1 a1] [k2 b2] l m [Hk Hr] Hlm IH]; cbn.
  - by repeat constructor.
  - cbn in Hk. subst k2. destruct (String.leb k k1); constructor; try done.
    by constructor.
Qed.

Lemma sort_kv_Forall2 l m : Forall2 same_key l m -> Forall2 same_key (sort_kv l) (sort_kv m).
Proof.
  induction 1 as [|[k1 a1] [k2 b2] l m [Hk Hr] Hlm IH]; [done|]. cbn in *. subst k2.
  by apply insert_kv_Forall2.
Qed.
End SortForall2.

Lemma insert_kv_perm {A} k (a : A) l : insert_kv k a l ≡ₚ (k, a) :: l.
Proof.
  induction l as [|[k' a'] l IH]; cbn; [done|]. destruct (String.leb k k'); [done|].
  rewrite IH. constructor.
Qed.

Lemma sort_kv_perm {A} (l : list (string * A)) : sort_kv l ≡ₚ l.
Proof.
  induction l as [|[k a] l IH]; cbn; [done|]. by rewrite insert_kv_perm, IH.
Qed.

Lemma reject_duplicate_keys_ok seen kvs :
  NoDup (kvs.*1) -> (forall k, k ∈ kvs.*1 -> k ∉ seen) -> reject_duplicate_keys seen kvs = Ok kvs.
Proof.
  revert seen. induction kvs as [|[k v] kvs IH]; intros seen Hnd Hs; [done|].
  cbn in *. apply NoDup_cons in Hnd as [Hk Hnd].
  rewrite bool_decide_false by (apply Hs; by left).
  rewrite IH; [done|done|]. intros k' Hk'. apply not_elem_of_cons. split.
  - by intros ->.
  - apply Hs. by right.
Qed.

Lemma reject_duplicate_keys_inv seen kvs d :
  reject_duplicate_keys seen kvs = Ok d -> d = kvs /\ NoDup (kvs.*1) /\ (forall k, k ∈ kvs.*1 -> k ∉ seen).
Proof.
  revert seen d. induction kvs as [|[k v] kvs IH]; intros seen d; cbn.
  - intros [= <-]. split_and!; [done|constructor|]. intros k. by rewrite elem_of_nil.
  - intros H. ok_inv. bool_prop. apply IH in E0 as (-> & Hnd & Hs). split_and!; [done| |].
    + constructor; [|done]. intros Hk. specialize (Hs k Hk). by apply Hs; left.
    + intros k' [->|Hk']%elem_of_cons; [done|]. specialize (Hs k' Hk').
      by apply not_elem_of_cons in Hs as [_ ?].
Qed.

(** ** The round trip *)
Definition parses (t : string) (v : json) : Prop :=
  forall fuel rest, (String.length t <= fuel)%nat -> delimiter rest ->
    parse_value fuel (t ++ rest) = Ok (v, rest).

(** The first character of an encoding: neither blank nor a closing bracket. *)
Definition value_head (t : string) : Prop :=
  exists c s, t = String c s /\ is_ws c = false /\ code c <> 93 /\ code c <> 125.

Lemma number_value_head t p : scan_number t = Some p -> value_head t.
Proof.
  destruct t as [|c t]; [done|]. intros H%scan_number_head. exists c, t.
  unfold is_digit, is_ws in *. split; [done|].
  assert (Hc : code c = 45 \/ 48 <= code c <= 57) by (destruct H as [H|[H _]]; bool_prop; lia).
  split; [|lia]. rewrite !orb_false_iff, !Z.eqb_neq. lia.
Qed.

Lemma number_parses t n v : scan_number t = Some (n, "") ->
  (num_is_float n = true /\ is_finite (number_float n) = true /\ v = JFloat (number_float n)
   \/ num_is_float n = false /\ num_int_digits n <= INT_MAX_STR_DIGITS
      /\ v = JInt (if num_neg n then - num_man n else num_man n)) ->
  parses t v.
Proof.
  intros Hs Hv fuel rest Hf Hd.
  pose proof (scan_number_app _ rest _ _ Hd Hs) as Hs'. cbn in Hs'.
  destruct t as [|c t]; [done|]. cbn in *. destruct fuel as [|fuel]; [lia|]. cbn.
  pose proof (scan_number_head _ _ _ Hs) as Hh. unfold is_digit in Hh.
  assert (Hc : code c = 45 \/ 48 <= code c <= 57) by (destruct Hh as [H|[H _]]; bool_prop; lia).
  rewrite !(proj2 (Z.eqb_neq _ _)) by lia.
  rewrite (parse_scalar_number _ _ _ Hs').
  destruct Hv as [(-> & -> & ->)|(-> & Hl & ->)]; [done|].
  by rewrite (proj2 (Z.ltb_ge _ _) Hl).
Qed.

Lemma float_repr_reads f t : float_repr f = Some t ->
  is_finite f = true /\ exists n, scan_number t = Some (n, "") /\ num_is_float n = true
                                  /\ number_float n = f.
Proof.
  assert (Hrb : forall t, reads_back f t = true ->
    exists n, scan_number t = Some (n, "") /\ num_is_float n = true /\ number_float n = f).
  { intros t'. unfold reads_back, py_float. intros H. bool_prop.
    destruct (scan_number t') as [[n [|]]|]; try done. exists n.
    destruct (num_is_float n); [|done]. by injection H as ->. }
  assert (Hsearch : forall fuel n sg q k, repr_search fuel n f sg q k = Some t -> reads_back f t = true).
  { induction fuel as [|fuel IH]; intros n sg q k; cbn [repr_search]; [done|].
    destruct (List.find _ _) as [t'|] eqn:Hf; [|apply IH].
    intros [= <-]. by apply List.find_some in Hf as [_ Hf]. }
  unfold float_repr. destruct f as [m e| | |]; try done.
  - case_bool_decide as Hz.
    + intros [= <-]. rewrite Hz. split; [done|]. eexists. split_and!; [by vm_compute|done|done].
    + intros H. split; [done|]. apply Hrb. by eapply Hsearch.
  - intros [= <-]. split; [done|]. eexists. split_and!; [by vm_compute|done|done].
Qed.

Lemma skip_ws_head t rest : value_head t -> skip_ws (t ++ rest) = t ++ rest.
Proof. intros (c & s & -> & Hw & _). cbn. by rewrite Hw. Qed.

Lemma quote_head k s : value_head (encode_string k ++ s).
Proof. unfold encode_string, quote. do 2 eexists. split_and!; done. Qed.

(** Evaluate the character tests on literal characters. *)
Ltac char_eval :=
  repeat match goal with
  | |- context [is_ws (Ascii ?a ?b ?c ?d ?e ?f ?g ?h)] =>
      let x := constr:(is_ws (Ascii a b c d e f g h)) in
      let v := eval vm_compute in x in change x with v
  | |- context [code (Ascii ?a ?b ?c ?d ?e ?f ?g ?h)] =>
      let x := constr:(code (Ascii a b c d e f g h)) in
      let v := eval vm_compute in x in change x with v
  end; cbn [Z.eqb Pos.eqb negb].

Lemma concat_cons2 (t t2 : string) ts :
  String.concat "," (t :: t2 :: ts) = t ++ "," ++ String.concat "," (t2 :: ts).
Proof. done. Qed.

Lemma concat_head t ts : value_head t -> value_head (String.concat "," (t :: ts)).
Proof. intros (c & s & -> & Hc). destruct ts; exists c; eexists; split; done. Qed.

(** Elements of an array: the joined texts parse back in order. *)
Lemma elements_parse ts vs : Forall2 (fun t v => parses t v /\ value_head t) ts vs -> ts <> [] ->
  forall fuel rest,
    (String.length (String.concat "," ts) < fuel)%nat ->
    parse_elements fuel (String.concat "," ts ++ "]" ++ rest) = Ok (vs, rest).
Proof.
  induction 1 as [|t v ts vs [Ht Hh] Hts IH]; [done|]. intros _ fuel rest Hf.
  destruct fuel as [|fuel]; [lia|]. cbn [parse_elements].
  destruct ts as [|t2 ts].
  - inversion Hts; subst. cbn [String.concat] in *. rewrite Ht; [done|lia|by cbn; auto].
  - inversion Hts as [|? v2 ? vs' [_ Hh2] Hts']; subst.
    apply (concat_head _ ts) in Hh2. rewrite concat_cons2 in *. specialize (IH ltac:(done)).
    remember (String.concat "," (t2 :: ts)) as more eqn:Hmore. clear Hmore.
    rewrite !str_length_app in Hf. rewrite !str_app_assoc.
    rewrite Ht; [|lia|by cbn; auto]. cbn [bind_result fst snd String.append skip_ws]. char_eval.
    rewrite (skip_ws_head _ (String "]" rest)) by done.
    cbn [String.append] in IH. rewrite IH by (cbn in Hf; lia). done.
Qed.

Lemma encode_member_app k t tail :
  encode_member (k, t) ++ tail = String (chr 34) (escape k ++ quote ++ ":" ++ t ++ tail).
Proof. unfold encode_member, encode_string. cbn [fst snd]. by rewrite !str_app_assoc. Qed.

Lemma encode_member_length k t :
  (String.length t < String.length (encode_member (k, t)))%nat.
Proof. unfold encode_member, encode_string. rewrite !str_length_app. cbn. lia. Qed.

Lemma encode_member_head k t : value_head (encode_member (k, t)).
Proof. unfold encode_member, encode_string, quote. cbn. do 2 eexists. split_and!; done. Qed.

(** Members of an object. *)
Lemma members_parse kts kvs :
  Forall2 (same_key (fun t v => parses t v /\ value_head t)) kts kvs -> kts <> [] ->
  forall fuel rest,
    (String.length (String.concat "," (encode_member <$> kts)) < fuel)%nat ->
    parse_members fuel (String.concat "," (encode_member <$> kts) ++ "}" ++ rest) = Ok (kvs, rest).
Proof.
  induction 1 as [|[k t] [k' v] kts kvs [Hk [Ht Hh]] Hts IH]; [done|]. intros _ fuel rest Hf.
  cbn in Hk, Ht, Hh. subst k'. pose proof (encode_member_length k t) as Hl.
  destruct fuel as [|fuel]; [lia|]. cbn [parse_members].
  destruct kts as [|[k2 t2] kts].
  - inversion Hts; subst. cbn [fmap list_fmap String.concat] in *. rewrite encode_member_app.
    rewrite code_chr by lia. cbn [Z.eqb Pos.eqb negb]. rewrite scan_escape.
    cbn [String.append skip_ws]. char_eval. rewrite skip_ws_head by done.
    rewrite Ht; [done|lia|by cbn; auto].
  - assert (Hh2 : value_head (String.concat "," (encode_member <$> (k2, t2) :: kts)))
      by apply concat_head, encode_member_head.
    specialize (IH ltac:(done)). rewrite !fmap_cons in *. rewrite concat_cons2 in *.
    remember (String.concat "," (encode_member (k2, t2) :: (encode_member <$> kts))) as more eqn:Hmore.
    clear Hmore. rewrite !str_length_app in Hf. rewrite !str_app_assoc, encode_member_app.
    rewrite code_chr by lia. cbn [Z.eqb Pos.eqb negb]. rewrite scan_escape.
    cbn [String.append skip_ws]. char_eval. rewrite skip_ws_head by done.
    rewrite Ht; [|lia|by cbn; auto]. cbn [bind_result fst snd String.append skip_ws]. char_eval.
    rewrite (skip_ws_head _ (String "}" rest)) by done. cbn [String.append] in IH.
    rewrite IH by (cbn in Hf; lia). done.
Qed.

Lemma literal_parses t v : t ∈ ["null"; "true"; "false"] ->
  v = (if bool_decide (t = "null") then JNull else JBool (bool_decide (t = "true"))) ->
  parses t v /\ value_head t.
Proof.
  intros Ht ->.
  repeat apply elem_of_cons in Ht as [->|Ht]; [| | |by apply elem_of_nil in Ht]; split;
    try (do 2 eexists; split_and!; done);
    intros [|fuel] rest Hf _; cbn in Hf; try lia; cbn [parse_value String.append]; char_eval;
    unfold parse_scalar; cbn; rewrite ?Nat.sub_0_r, substring_all; by destruct rest.
Qed.

Lemma string_parses s : parses (encode_string s) (JStr s) /\ value_head (encode_string s).
Proof.
  split; [|rewrite <-(str_app_nil (encode_string s)); apply quote_head].
  intros fuel rest Hf _. unfold encode_string in *. rewrite !str_app_assoc.
  unfold quote at 1. unfold quote at 1 in Hf. cbn in Hf. destruct fuel as [|fuel]; [lia|].
  cbn [String.append char_str parse_value]. rewrite code_chr by lia. cbn [Z.eqb Pos.eqb].
  by rewrite scan_escape.
Qed.

Lemma array_parses ts vs : Forall2 (fun t v => parses t v /\ value_head t) ts vs ->
  parses ("[" ++ String.concat "," ts ++ "]") (JArr vs).
Proof.
  intros Hts fuel rest Hf _. rewrite !str_length_app in Hf. cbn in Hf.
  destruct fuel as [|fuel]; [lia|]. rewrite !str_app_assoc.
  cbn [String.append parse_value]. char_eval.
  destruct Hts as [|t v ts vs [Ht Hh] Hts]; [done|].
  rewrite skip_ws_head by by apply concat_head.
  pose proof (concat_head _ ts Hh) as (c & s & Hc & _ & Hne & _).
  rewrite Hc. cbn [String.append]. rewrite (proj2 (Z.eqb_neq _ _) Hne).
  change (String c (s ++ String "]" rest)) with (String c s ++ "]" ++ rest). rewrite <-Hc.
  rewrite (elements_parse (t :: ts) (v :: vs)); [done|by constructor|done|lia].
Qed.

Lemma object_parses kts kvs :
  Forall2 (same_key (fun t v => parses t v /\ value_head t)) kts kvs -> NoDup (kvs.*1) ->
  parses ("{" ++ String.concat "," (encode_member <$> kts) ++ "}") (JObj kvs).
Proof.
  intros Hts Hnd fuel rest Hf _. rewrite !str_length_app in Hf. cbn in Hf.
  destruct fuel as [|fuel]; [lia|]. rewrite !str_app_assoc.
  cbn [String.append parse_value]. char_eval.
  destruct Hts as [|[k t] [k' v] kts kvs [Hk [Ht Hh]] Hts]; [done|].
  pose proof (concat_head _ (encode_member <$> kts) (encode_member_head k t)) as Hhead.
  rewrite <-fmap_cons in Hhead. rewrite skip_ws_head by done.
  destruct Hhead as (c & s & Hc & _ & _ & Hne). rewrite Hc. cbn [String.append].
  rewrite (proj2 (Z.eqb_neq _ _) Hne).
  change (String c (s ++ String "}" rest)) with (String c s ++ "}" ++ rest). rewrite <-Hc.
  rewrite (members_parse ((k, t) :: kts) ((k', v) :: kvs)); [|by constructor|done|lia].
  cbn [bind_result fst snd]. rewrite reject_duplicate_keys_ok; [done|done|].
  intros k0 _. apply not_elem_of_nil.
Qed.

Lemma array_head s : value_head ("[" ++ s).
Proof. do 2 eexists. split_and!; done. Qed.
Lemma object_head s : value_head ("{" ++ s).
Proof. do 2 eexists. split_and!; done. Qed.

(** The encoder's text of [v] is read back as [canon v]. *)
Lemma dumps_parses v : forall t, wf_json v -> dumps v = Ok t -> parses t (canon v) /\ value_head t.
Proof.
  induction v as [|b|z|f|s|l IH|kvs IH] using json_ind'; intros t Hwf.
  - intros [= <-]. by apply literal_parses; [left|].
  - intros [= <-]. destruct b; apply literal_parses; try done; rewrite list_elem_of_In; cbn; tauto.
  - cbn [dumps]. intros H. ok_inv.
    destruct (scan_string_of_Z z E) as (k & Hk & Hs). split; [|by eapply number_value_head].
    eapply number_parses; [done|]. right. split_and!; [done|done|]. cbn. f_equal.
    destruct (Z.ltb_spec z 0); lia.
  - cbn [dumps]. intros H. ok_inv. apply float_repr_reads in E as (Hf & n & Hs & Hn & <-).
    split; [|by eapply number_value_head]. eapply number_parses; [done|]. auto.
  - intros [= <-]. apply string_parses.
  - rewrite dumps_arr. intros H. ok_inv. split; [|apply array_head]. cbn [canon].
    apply array_parses. apply map_result_ok in E. apply wf_json_arr in Hwf.
    induction E as [|x y l ys Hxy Hl IHl]; [constructor|].
    apply Forall_cons in IH as [IHx IHr], Hwf as [Hwx Hwr].
    constructor; [by apply IHx|by apply IHl].
  - rewrite dumps_obj. intros H. ok_inv. split; [|apply object_head]. cbn [canon].
    apply wf_json_obj in Hwf as [Hnd Hwf]. apply object_parses.
    + apply sort_kv_Forall2. apply map_result_ok in E. clear Hnd.
      induction E as [|[k x] [k' y] l ys Hxy Hl IHl]; [constructor|].
      apply Forall_cons in IH as [IHx IHr], Hwf as [Hwx Hwr].
      unfold dump_member in Hxy. cbn in Hxy. ok_inv. simplify_eq.
      constructor; [|by apply IHl]. split; [done|]. by apply IHx.
    + rewrite sort_kv_perm. rewrite <-list_fmap_compose. done.
Qed.

Lemma skip_ws_newline : skip_ws newline = "".
Proof. done. Qed.

Lemma canonical_roundtrip_lemma v b :
  wf_json v -> canonical_json_bytes v = Ok b -> strict_json_loads b = Ok (canon v).
Proof.
  intros Hwf H. unfold canonical_json_bytes in H. ok_inv.
  apply dumps_parses in E as [Hp Hh]; [|done].
  unfold strict_json_loads. rewrite skip_ws_head by done.
  rewrite Hp; [done|rewrite str_length_app; cbn; lia|by left].
Qed.

Lemma canonical_injective_lemma v1 v2 b :
  wf_json v1 -> wf_json v2 -> canonical_json_bytes v1 = Ok b -> canonical_json_bytes v2 = Ok b ->
  canon v1 = canon v2.
Proof.
  intros H1 H2 E1%canonical_roundtrip_lemma E2%canonical_roundtrip_lemma; [|done..].
  rewrite E1 in E2. by injection E2.
Qed.

(** Equal digests: equal content, or an explicit SHA-256 collision. *)
Lemma sha256_json_binding v1 v2 h :
  wf_json v1 -> wf_json v2 -> sha256_json v1 = Ok h -> sha256_json v2 = Ok h ->
  canon v1 = canon v2 \/
  exists b1 b2, canonical_json_bytes v1 = Ok b1 /\ canonical_json_bytes v2 = Ok b2
                /\ collision b1 b2.
Proof.
  unfold sha256_json. intros W1 W2 H1 H2.
  destruct (canonical_json_bytes v1) as [b1|] eqn:E1; [|done].
  destruct (canonical_json_bytes v2) as [b2|] eqn:E2; [|done]. cbn in *.
  injection H1 as <-. injection H2 as H2.
  destruct (decide (b1 = b2)) as [->|Hne]; [left; by eapply canonical_injective_lemma|].
  right. exists b1, b2. by split_and!.
Qed.

(** ** What the decoder accepts *)
Lemma parse_wf fuel :
  (forall s v r, parse_value fuel s = Ok (v, r) -> wf_json v)
  /\ (forall s vs r, parse_elements fuel s = Ok (vs, r) -> Forall wf_json vs)
  /\ (forall s kvs r, parse_members fuel s = Ok (kvs, r) -> Forall (fun kv => wf_json kv.2) kvs).
Proof.
  induction fuel as [|fuel (IHv & IHe & IHm)]; [by split_and!|]. split_and!.
  - intros s v r. cbn [parse_value]. destruct s as [|c s]; [done|].
    intros H. ok_inv; simplify_eq; try done.
    + apply wf_json_arr. destruct v0; cbn in *. by eapply IHe.
    + apply wf_json_obj. split; constructor.
    + destruct v0 as [kvs r']; cbn in *.
      match goal with H : reject_duplicate_keys _ _ = _ |- _ =>
        apply reject_duplicate_keys_inv in H as (-> & Hnd & _) end.
      apply wf_json_obj. split; [done|]. by eapply IHm.
    + unfold parse_scalar in H. ok_inv; by simplify_eq.
  - intros s vs r. cbn [parse_elements]. intros H. ok_inv; simplify_eq; destruct v as [v r1]; cbn in *.
    + constructor; [by eapply IHv|constructor].
    + destruct v0 as [vs' r2]; cbn in *. constructor; [by eapply IHv|by eapply IHe].
  - intros s kvs r. cbn [parse_members]. intros H. ok_inv; simplify_eq; destruct v as [v r1]; cbn in *.
    + constructor; [by eapply IHv|constructor].
    + destruct v0 as [vs' r2]; cbn in *. constructor; [by eapply IHv|by eapply IHm].
Qed.

(** ** The decoder's fuel is enough

    Every call of the decoder consumes input, so fuel linear in the text is never
    the reason a decode fails. *)
Lemma skip_ws_length s : (String.length (skip_ws s) <= String.length s)%nat.
Proof. induction s as [|c s IH]; cbn; [lia|]. destruct (is_ws c); cbn; lia. Qed.

Lemma scan_digits_length acc n s :
  (String.length (scan_digits acc n s).2 <= String.length s)%nat.
Proof.
  revert acc n. induction s as [|c s IH]; intros acc n; cbn; [lia|].
  destruct (is_digit c); cbn; [|lia]. etrans; [apply IH|lia].
Qed.

Lemma substring_length n m s :
  (n + m <= String.length s)%nat -> String.length (String.substring n m s) = m.
Proof.
  revert n m. induction s as [|c s IH]; intros [|n] [|m]; cbn; intros H; try lia.
  - f_equal. apply (IH 0%nat). lia.
  - apply IH. lia.
  - apply IH. lia.
Qed.

Lemma prefix_length p s : String.prefix p s = true -> (String.length p <= String.length s)%nat.
Proof.
  revert s. induction p as [|a p IH]; intros s; cbn; [lia|].
  destruct s as [|b s]; [done|]. cbn. destruct (ascii_dec a b); [|done]. intros H%IH. lia.
Qed.

Lemma scan_fraction_length man s m k r :
  scan_fraction man s = Some (m, k, r) -> (String.length r <= String.length s)%nat.
Proof.
  unfold scan_fraction. intros H. repeat case_match; simplify_eq; cbn;
  match goal with E : scan_digits ?a ?n ?s = _ |- _ =>
    pose proof (scan_digits_length a n s) as Hl; rewrite E in Hl; cbn in *; lia end.
Qed.

Lemma scan_exponent_length s e r :
  scan_exponent s = Some (e, r) -> (String.length r <= String.length s)%nat.
Proof.
  unfold scan_exponent. intros H. repeat case_match; simplify_eq; cbn;
  match goal with E : scan_digits ?a ?n ?s = _ |- _ =>
    pose proof (scan_digits_length a n s) as Hl; rewrite E in Hl; cbn in *; lia end.
Qed.

Lemma scan_tail_length neg man n s :
  (String.length (scan_tail neg man n s).2 <= String.length s)%nat.
Proof.
  unfold scan_tail.
  destruct (scan_fraction man s) as [[[m k] r]|] eqn:Hf; [apply scan_fraction_length in Hf|];
  (destruct (scan_exponent _) as [[e r']|] eqn:He; [apply scan_exponent_length in He|]); cbn; lia.
Qed.

Lemma scan_int_length s m n r :
  scan_int s = Some (m, n, r) -> (String.length r < String.length s)%nat.
Proof.
  unfold scan_int. destruct s as [|c s]; [done|].
  destruct (code c =? 48); [intros [= <- <- <-]; cbn; lia|].
  destruct (is_digit c) eqn:Hd; [|done]. cbn [scan_digits]. rewrite Hd.
  match goal with |- context[scan_digits ?a ?n s] => pose proof (scan_digits_length a n s) as Hl;
    destruct (scan_digits a n s) as [[? ?] ?] end.
  intros [= <- <- <-]. cbn in *. lia.
Qed.

Lemma scan_number_length s n r :
  scan_number s = Some (n, r) -> (String.length r < String.length s)%nat.
Proof.
  unfold scan_number. intros H.
  assert (Hs : (String.length (scan_sign s).2 <= String.length s)%nat).
  { unfold scan_sign. repeat case_match; cbn; lia. }
  destruct (scan_sign s) as [neg s']; cbn in Hs.
  destruct (scan_int s') as [[[m k] r']|] eqn:Hi; [|done].
  apply scan_int_length in Hi. pose proof (scan_tail_length neg m k r') as Ht.
  injection H as H. rewrite H in Ht. cbn in Ht. lia.
Qed.

Lemma scan_string_length s v r :
  scan_string s = Some (v, r) -> (String.length r < String.length s)%nat.
Proof.
  remember (String.length s) as n eqn:Hn. revert s v r Hn.
  induction n as [n IH] using lt_wf_ind. intros s v r ->.
  assert (Hp : forall pre s' v r, (String.length s' < String.length s)%nat ->
     prepend pre (scan_string s') = Some (v, r) -> (String.length r < String.length s')%nat).
  { intros pre s' v' r' Hlt H. unfold prepend in H. repeat case_match; simplify_eq.
    by eapply IH. }
  clear IH. destruct s as [|c s]; [done|]. cbn [scan_string]. cbn zeta. intros H.
  repeat match type of H with
  | Some (_, ?r) = Some (_, _) => injection H; intros; subst; cbn; lia
  | None = Some _ => discriminate H
  | prepend _ (scan_string _) = Some _ => apply Hp in H; cbn in *; lia
  | match ?x with _ => _ end = Some _ => destruct x
  end.
Qed.

Lemma parse_scalar_length s v r :
  parse_scalar s = Ok (v, r) -> (String.length r < String.length s)%nat.
Proof.
  assert (Ha : forall n, (1 <= n)%nat -> (n <= String.length s)%nat ->
     (String.length (String.substring n (String.length s - n) s) < String.length s)%nat).
  { intros n H1 H2. rewrite substring_length by lia. lia. }
  unfold parse_scalar. intros H. ok_inv; simplify_eq.
  1-3: by match goal with H : String.prefix _ _ = true |- _ =>
         apply prefix_length in H; cbn in H; apply Ha; lia end.
  all: by eapply scan_number_length.
Qed.

(** Turn every decoder equation in the context into its length inequality. *)
Ltac lengths IHv IHe IHm :=
  repeat match goal with
  | H : parse_value _ _ = Ok ?p |- _ => destruct p; apply IHv in H
  | H : parse_elements _ _ = Ok ?p |- _ => destruct p; apply IHe in H
  | H : parse_members _ _ = Ok ?p |- _ => destruct p; apply IHm in H
  | H : scan_string _ = Some _ |- _ => apply scan_string_length in H
  | H : parse_scalar _ = Ok _ |- _ => apply parse_scalar_length in H
  | H : skip_ws ?s = _ |- _ =>
      let Hk := fresh "Hk" in
      pose proof (skip_ws_length s) as Hk; rewrite H in Hk; clear H
  | H : (_ < String.length (skip_ws ?s))%nat |- _ =>
      pose proof (Nat.lt_le_trans _ _ _ H (skip_ws_length s)); clear H
  end; cbn [fst snd String.length] in *; lia.

Lemma parse_consumes fuel :
  (forall s v r, parse_value fuel s = Ok (v, r) -> (String.length r < String.length s)%nat)
  /\ (forall s v r, parse_elements fuel s = Ok (v, r) -> (String.length r < String.length s)%nat)
  /\ (forall s v r, parse_members fuel s = Ok (v, r) -> (String.length r < String.length s)%nat).
Proof.
  induction fuel as [|fuel (IHv & IHe & IHm)]; [by split_and!|]. split_and!.
  - intros s v r. cbn [parse_value]. destruct s as [|c s]; [done|].
    intros H. ok_inv; simplify_eq; lengths IHv IHe IHm.
  - intros s vs r. cbn [parse_elements]. intros H. ok_inv; simplify_eq; lengths IHv IHe IHm.
  - intros s kvs r. cbn [parse_members]. intros H. ok_inv; simplify_eq; lengths IHv IHe IHm.
Qed.

Lemma parse_elements_step fuel s :
  parse_elements (S fuel) s =
  let* p := parse_value fuel s in
  match skip_ws p.2 with
  | String c rest =>
      if code c =? 93 then Ok ([p.1], rest)
      else if code c =? 44 then
        let* q := parse_elements fuel (skip_ws rest) in Ok (p.1 :: q.1, q.2)
      else Err JSON_INVALID
  | EmptyString => Err JSON_INVALID
  end.
Proof. done. Qed.

Lemma parse_members_step fuel s :
  parse_members (S fuel) s =
  match s with
  | String c rest =>
      raise JSON_INVALID when negb (code c =? 34) ;;
      match scan_string rest with
      | None => Err JSON_INVALID
      | Some (key, rest) =>
          match skip_ws rest with
          | String c1 rest1 =>
              raise JSON_INVALID when negb (code c1 =? 58) ;;
              let* p := parse_value fuel (skip_ws rest1) in
              match skip_ws p.2 with
              | String c2 rest2 =>
                  if code c2 =? 125 then Ok ([(key, p.1)], rest2)
                  else if code c2 =? 44 then
                    let* q := parse_members fuel (skip_ws rest2) in Ok ((key, p.1) :: q.1, q.2)
                  else Err JSON_INVALID
              | EmptyString => Err JSON_INVALID
              end
          | EmptyString => Err JSON_INVALID
          end
      end
  | EmptyString => Err JSON_INVALID
  end.
Proof. done. Qed.

Lemma parse_fuel_succ fuel :
  (forall s, (2 * String.length s < fuel)%nat -> parse_value (S fuel) s = parse_value fuel s)
  /\ (forall s, (2 * String.length s + 1 < fuel)%nat ->
        parse_elements (S fuel) s = parse_elements fuel s)
  /\ (forall s, (2 * String.length s + 1 < fuel)%nat ->
        parse_members (S fuel) s = parse_members fuel s).
Proof.
  induction fuel as [|fuel (IHv & IHe & IHm)]; [split_and!; intros; lia|].
  pose proof (parse_consumes fuel) as (Cv & _ & _). pose proof skip_ws_length as Hw.
  split_and!; intros s Hs.
  - destruct s as [|c s]; [done|].
    change (parse_value (S (S fuel)) (String c s)) with
      (if code c =? 34 then
         match scan_string s with Some (str, rest) => Ok (JStr str, rest) | None => Err JSON_INVALID end
       else if code c =? 91 then
         match skip_ws s with
         | String d rest' =>
             if code d =? 93 then Ok (JArr [], rest')
             else let* p := parse_elements (S fuel) (String d rest') in Ok (JArr p.1, p.2)
         | EmptyString => Err JSON_INVALID
         end
       else if code c =? 123 then
         match skip_ws s with
         | String d rest' =>
             if code d =? 125 then Ok (JObj [], rest')
             else let* p := parse_members (S fuel) (String d rest') in
                  let* kvs := reject_duplicate_keys [] p.1 in Ok (JObj kvs, p.2)
         | EmptyString => Err JSON_INVALID
         end
       else parse_scalar (String c s)).
    cbn [parse_value]. specialize (Hw s). cbn [String.length] in Hs.
    destruct (skip_ws s) as [|d r]; [done|]. cbn [String.length] in Hw.
    rewrite IHe, IHm by (cbn [String.length]; lia). done.
  - rewrite (parse_elements_step (S fuel)), (parse_elements_step fuel), IHv by lia.
    destruct (parse_value fuel s) as [[v r]|] eqn:Hv; [|done]. cbn [bind_result fst snd].
    apply Cv in Hv. pose proof (Hw r). destruct (skip_ws r) as [|c r1]; [done|].
    specialize (Hw r1). cbn [String.length] in *. by rewrite IHe by lia.
  - rewrite (parse_members_step (S fuel)), (parse_members_step fuel).
    destruct s as [|c s]; [done|]. destruct (scan_string s) as [[k r]|] eqn:Hk; [|done].
    apply scan_string_length in Hk. pose proof (Hw r). destruct (skip_ws r) as [|c1 r1]; [done|].
    pose proof (Hw r1). cbn [String.length] in *. rewrite IHv by lia.
    destruct (parse_value fuel _) as [[v r2]|] eqn:Hv; [|done]. cbn [bind_result fst snd].
    apply Cv in Hv. pose proof (Hw r2). destruct (skip_ws r2) as [|c2 r3]; [done|].
    specialize (Hw r3). cbn [String.length] in *. by rewrite IHm by lia.
Qed.

Lemma parse_value_fuel fuel s :
  (2 * String.length s < fuel)%nat ->
  parse_value fuel s = parse_value (S (2 * String.length s)) s.
Proof.
  induction 1 as [|fuel Hf IH]; [done|]. rewrite <-IH. by apply parse_fuel_succ.
Qed.

(** C3. Canonical JSON round trip: whatever the canonical encoder emits for data
    whose dicts have distinct keys, the strict decoder reads back as exactly that
    data, with the keys of every dict in sorted order. *)
Theorem canonical_json_roundtrip v b :
  wf_json v -> canonical_json_bytes v = Ok b -> strict_json_loads b = Ok (canon v).
Proof. apply canonical_roundtrip_lemma. Qed.

Lemma sample_json_wf : wf_json sample_json.
Proof. split; [apply (bool_decide_unpack _); vm_compute; exact I|]. cbn. by split_and!; constructor. Defined.

Lemma canonical_json_roundtrip_witness :
  exists b, canonical_json_bytes sample_json = Ok b /\ strict_json_loads b = Ok (canon sample_json).
Proof.
  eexists. split; [vm_compute; reflexivity|].
  apply (canonical_json_roundtrip sample_json); [apply sample_json_wf|vm_compute; reflexivity].
Defined.

(** A content digest identifies its content: two JSON values with the same
    [sha256_json] are equal up to the order of dict keys, or their canonical
    encodings are an explicit SHA-256 collision. *)
Theorem sha256_json_identifies v1 v2 h :
  wf_json v1 -> wf_json v2 -> sha256_json v1 = Ok h -> sha256_json v2 = Ok h ->
  canon v1 = canon v2 \/
  exists b1 b2, canonical_json_bytes v1 = Ok b1 /\ canonical_json_bytes v2 = Ok b2
                /\ collision b1 b2.
Proof. apply sha256_json_binding. Qed.

Lemma sha256_json_identifies_witness :
  let v1 := JObj [("a", JInt 1); ("b", JNull)] in
  let v2 := JObj [("b", JNull); ("a", JInt 1)] in
  canon v1 = canon v2 \/
  exists b1 b2, canonical_json_bytes v1 = Ok b1 /\ canonical_json_bytes v2 = Ok b2
                /\ collision b1 b2.
Proof.
  cbv zeta. eapply sha256_json_identifies.
  1,2: split; [apply (bool_decide_unpack _); vm_compute; exact I|cbn; tauto].
  - vm_compute. reflexivity.
  - vm_compute. reflexivity.
Defined.

(** The strict decoder never returns data with a duplicate dict key, at any
    depth. *)
Theorem strict_json_loads_no_duplicate_keys t v :
  strict_json_loads t = Ok v -> wf_json v.
Proof.
  unfold strict_json_loads. intros H. ok_inv. destruct v0 as [v r]; cbn.
  by eapply (proj1 (parse_wf _)).
Qed.

Definition nested_text : string :=
  "{" ++ String (chr 34) ("x" ++ String (chr 34) (":{" ++ String (chr 34) ("y" ++ String (chr 34) ":1}}"))).

Lemma strict_json_loads_no_duplicate_keys_witness :
  strict_json_loads nested_text = Ok (JObj [("x", JObj [("y", JInt 1)])])
  /\ wf_json (JObj [("x", JObj [("y", JInt 1)])]).
Proof.
  split; [vm_compute; reflexivity|].
  apply (strict_json_loads_no_duplicate_keys nested_text). vm_compute. reflexivity.
Defined.

(** The strict decoder terminates on every text: any fuel above the decoder's
    own bound, twice the length of the text, gives the same result, so a decode
    never fails for lack of fuel. *)
Theorem strict_json_loads_terminates text fuel :
  (2 * String.length text < fuel)%nat ->
  strict_json_loads text =
  let* p := parse_value fuel (skip_ws text) in
  match skip_ws p.2 with EmptyString => Ok p.1 | _ => Err JSON_INVALID end.
Proof.
  intros Hf. unfold strict_json_loads. pose proof (skip_ws_length text) as Hw.
  rewrite (parse_value_fuel (S (2 * String.length text))), (parse_value_fuel fuel) by lia. done.
Qed.

Lemma strict_json_loads_terminates_witness :
  strict_json_loads " [1, 2]" = Ok (JArr [JInt 1; JInt 2])
  /\ (let* p := parse_value 1000 (skip_ws " [1, 2]") in
      match skip_ws p.2 with EmptyString => Ok p.1 | _ => Err JSON_INVALID end)
     = Ok (JArr [JInt 1; JInt 2]).
Proof.
  split; [vm_compute; reflexivity|].
  rewrite <-(strict_json_loads_terminates " [1, 2]" 1000); [vm_compute; reflexivity|cbn; lia].
Defined.

End JsonFacts.
