(* ===== verification/Models.v ===== *)
(** * Data contracts ([src/bpe/models.py], [src/bpe/identity.py])

    One record per model class, with the fields of the class in order; a field
    whose type is a one-value [Literal] (a schema version) is a constant of the
    JSON image and not a field.  A Python [dict] is an association list in
    insertion order.

    [validate_X] is what constructing an [X] checks: the annotations of the
    fields first, nested models included, then the [model_validator].  A failing
    annotation raises [field_error name]; the validators raise the messages of
    the code.  [X_json] is [canonical_data] of an [X]: the value that
    [sha256_json] hashes. *)
From Stdlib Require Import ZArith QArith String Ascii Lia.
From stdpp Require Import base tactics list strings.
From S2P Require Import Prelude Floats Sha256 Json.
Local Open Scope string_scope.
Local Open Scope Z_scope.

Module Models.
Import Json.

(** ** Annotated field types *)
Definition field_error (name : string) : string := "invalid field: " ++ name.

(** [check_field name ok ;; k]: the annotation of a field, then the rest. *)
Notation "'check_field' n b ;; k" :=
  (if b then k else Err (field_error n))
    (at level 10, n at level 9, b at level 9, k at level 200, only parsing) : bpe_scope.

Definition is_lower_hex (c : ascii) : bool :=
  is_digit c || ((97 <=? code c) && (code c <=? 102)).

Definition is_alnum (c : ascii) : bool :=
  is_digit c || ((97 <=? code c) && (code c <=? 122)) || ((65 <=? code c) && (code c <=? 90)).

Fixpoint str_forall (p : ascii -> bool) (s : string) : bool :=
  match s with
  | EmptyString => true
  | String c s => p c && str_forall p s
  end.

(** [^[0-9a-f]{n}$] *)
Definition is_hex (n : nat) (s : string) : bool :=
  (String.length s =? n)%nat && str_forall is_lower_hex s.

Definition is_sha256 (s : string) : bool := is_hex 64 s.
Definition is_commit (s : string) : bool := is_hex 40 s.

(** A character of [[a-zA-Z0-9._/@:+-]] *)
Definition is_id_char (c : ascii) : bool :=
  is_alnum c || bool_decide (c ∈ ["."; "_"; "/"; "@"; ":"; "+"; "-"]%char).

(** [^[a-zA-Z0-9][a-zA-Z0-9._/@:+-]{0,127}$] *)
Definition is_stable_id (s : string) : bool :=
  match s with
  | EmptyString => false
  | String c rest => is_alnum c && str_forall is_id_char rest && (String.length rest <=? 127)%nat
  end.

(** [len] of a [str]: the code points, the bytes that do not continue one. *)
Fixpoint str_len (s : string) : Z :=
  match s with
  | EmptyString => 0
  | String c s => (if (128 <=? code c) && (code c <=? 191) then 0 else 1) + str_len s
  end.

Definition len_between (lo hi : Z) (s : string) : bool := (lo <=? str_len s) && (str_len s <=? hi).

Definition opt_ok {A} (p : A -> bool) (o : option A) : bool :=
  match o with Some a => p a | None => true end.

Definition dict_ok {V} (p : V -> bool) (d : list (string * V)) : bool :=
  unique (d.*1) && forallb (fun kv => p kv.2) d.

(** A [float] field with bounds, [allow_inf_nan=False]. *)
Definition float_between (lo hi x : float64) : bool :=
  is_float64 x && is_finite x && fleb lo x && fleb x hi.

(** [Field(gt=0, le=1_000_000)] *)
Definition weight_ok (x : float64) : bool :=
  is_float64 x && is_finite x && fltb fzero x && fleb x (of_Z 1000000).

(** [_finite_json_value] *)
Fixpoint finite_json_value (v : json) : bool :=
  match v with
  | JFloat f => is_finite f
  | JArr l => (fix go l := match l with [] => true | v :: l => finite_json_value v && go l end) l
  | JObj kvs =>
      (fix go (l : list (string * json)) :=
         match l with [] => true | kv :: l => finite_json_value kv.2 && go l end) kvs
  | _ => true
  end.

(** ** Enumerations *)
Inductive Stage := INGEST | COMPILE | OBJECT_POLICY | VERIFIER | FUNCTIONAL | SEMANTICS.
Inductive Outcome := PASS | FAIL | TIMEOUT | SKIPPED | INFRA_ERROR | UNSUPPORTED.
Inductive Origin := ORIGIN_MICROVM | ORIGIN_NATIVE_LINUX | ORIGIN_RECORDED | ORIGIN_SYNTHETIC.
Inductive Isolation := ISO_MICROVM | ISO_NATIVE_LINUX | ISO_SYNTHETIC.
Inductive Diagnostic := diag_none | diag_raw | diag_bpfix.
Inductive Family := repair | generation.

#[export] Instance Stage_eq_dec : EqDecision Stage.
Proof. solve_decision. Defined.
#[export] Instance Outcome_eq_dec : EqDecision Outcome.
Proof. solve_decision. Defined.
#[export] Instance Origin_eq_dec : EqDecision Origin.
Proof. solve_decision. Defined.
#[export] Instance Isolation_eq_dec : EqDecision Isolation.
Proof. solve_decision. Defined.
#[export] Instance Diagnostic_eq_dec : EqDecision Diagnostic.
Proof. solve_decision. Defined.
#[export] Instance Family_eq_dec : EqDecision Family.
Proof. solve_decision. Defined.

Definition Stage_value (s : Stage) : string :=
  match s with
  | INGEST => "ingest" | COMPILE => "compile" | OBJECT_POLICY => "object_policy"
  | VERIFIER => "verifier" | FUNCTIONAL => "functional" | SEMANTICS => "semantics"
  end.
Definition Outcome_value (o : Outcome) : string :=
  match o with
  | PASS => "pass" | FAIL => "fail" | TIMEOUT => "timeout" | SKIPPED => "skipped"
  | INFRA_ERROR => "infra_error" | UNSUPPORTED => "unsupported"
  end.
Definition Origin_value (o : Origin) : string :=
  match o with
  | ORIGIN_MICROVM => "microvm" | ORIGIN_NATIVE_LINUX => "native_linux"
  | ORIGIN_RECORDED => "recorded" | ORIGIN_SYNTHETIC => "synthetic"
  end.
Definition Isolation_value (i : Isolation) : string :=
  match i with
  | ISO_MICROVM => "microvm" | ISO_NATIVE_LINUX => "native_linux" | ISO_SYNTHETIC => "synthetic"
  end.
Definition Diagnostic_value (d : Diagnostic) : string :=
  match d with diag_none => "none" | diag_raw => "raw" | diag_bpfix => "bpfix" end.
Definition Family_value (f : Family) : string :=
  match f with repair => "repair" | generation => "generation" end.

Definition STAGE_ORDER : list Stage :=
  [INGEST; COMPILE; OBJECT_POLICY; VERIFIER; FUNCTIONAL; SEMANTICS].

(** The stages whose result is a set of evidence checks. *)
Definition CHECKED_STAGES : list Stage := [OBJECT_POLICY; FUNCTIONAL; SEMANTICS].

(** ** Artifact and file references *)
Record ArtifactRef := {
  art_sha256 : string;
  art_size_bytes : Z;
  art_media_type : string
}.

#[export] Instance ArtifactRef_eq_dec : EqDecision ArtifactRef.
Proof. solve_decision. Defined.

Definition ArtifactRef_ok (a : ArtifactRef) : bool :=
  is_sha256 (art_sha256 a) && (0 <=? art_size_bytes a) && len_between 1 127 (art_media_type a).

Record FileRef := {
  file_path : string;
  file_sha256 : string;
  file_size_bytes : Z
}.

(** [str.split("/")] *)
Fixpoint split_slash (s : string) : list string :=
  match s with
  | EmptyString => [""]
  | String c rest =>
      if code c =? 47 then "" :: split_slash rest
      else match split_slash rest with
           | p :: ps => String c p :: ps
           | [] => [String c ""]
           end
  end.

(** [PurePosixPath(value)]: whether it has a root, and its components; empty
    and [.] components disappear. *)
Definition starts_with_slash (s : string) : bool :=
  match s with String c _ => code c =? 47 | EmptyString => false end.

Definition relative_parts (s : string) : list string :=
  filter (fun p => p <> "" /\ p <> ".") (split_slash s).

(** [str(PurePosixPath(value))] of a relative path. *)
Definition relative_str (s : string) : string :=
  match relative_parts s with [] => "." | ps => String.concat "/" ps end.

(** [FileRef.path_must_be_relative_and_normalized] *)
Definition path_must_be_relative_and_normalized (value : string) : result string string :=
  raise "artifact paths must be normalized relative paths"
    when starts_with_slash value || bool_decide (".." ∈ relative_parts value)
         || bool_decide ("." ∈ relative_parts value) ;;
  raise "artifact paths must use normalized POSIX syntax"
    when negb (bool_decide (relative_str value = value)) || starts_with_slash value ;;
  Ok value.

Definition validate_FileRef (f : FileRef) : result string unit :=
  check_field "path" (len_between 1 512 (file_path f)) ;;
  let* _ := path_must_be_relative_and_normalized (file_path f) in
  check_field "sha256" (is_sha256 (file_sha256 f)) ;;
  check_field "size_bytes" (0 <=? file_size_bytes f) ;;
  Ok tt.

(** ** Evidence *)
Record CheckEvidence := {
  chk_check_id : string;
  chk_outcome : Outcome;
  chk_required : bool;
  chk_weight : float64;
  chk_reason_code : string;
  chk_message : string;
  chk_facts : list (string * json);
  chk_artifacts : list (string * ArtifactRef)
}.

Definition validate_CheckEvidence (c : CheckEvidence) : result string unit :=
  check_field "check_id" (is_stable_id (chk_check_id c)) ;;
  check_field "outcome" (bool_decide (chk_outcome c ∈ [PASS; FAIL; TIMEOUT])) ;;
  check_field "weight" (weight_ok (chk_weight c)) ;;
  check_field "reason_code" (is_stable_id (chk_reason_code c)) ;;
  check_field "message" (len_between 0 4096 (chk_message c)) ;;
  check_field "facts" (dict_ok finite_json_value (chk_facts c)) ;;
  check_field "artifacts" (dict_ok ArtifactRef_ok (chk_artifacts c)) ;;
  Ok tt.

Record StageEvidence := {
  st_stage : Stage;
  st_outcome : Outcome;
  st_reason_code : string;
  st_message : string;
  st_duration_ms : Z;
  st_exit_code : option Z;
  st_checks : list CheckEvidence;
  st_facts : list (string * json);
  st_artifacts : list (string * ArtifactRef)
}.

Definition required_checks (s : StageEvidence) : list CheckEvidence :=
  filter (fun c => chk_required c = true) (st_checks s).

Definition failed_checks (s : StageEvidence) : list CheckEvidence :=
  filter (fun c => chk_outcome c <> PASS) (required_checks s).

(** Truth value of a sequence. *)
Definition nonempty {A} (l : list A) : bool := match l with [] => false | _ => true end.

(** [StageEvidence.checks_must_agree_with_stage] *)
Definition checks_must_agree_with_stage (s : StageEvidence) : result string unit :=
  let required := required_checks s in
  let failed := failed_checks s in
  raise "check IDs must be unique within a stage"
    when negb (unique (chk_check_id <$> st_checks s)) ;;
  raise ("a passing " ++ Stage_value (st_stage s) ++ " stage requires evidence checks")
    when bool_decide (st_outcome s = PASS) && bool_decide (st_stage s ∈ CHECKED_STAGES)
         && negb (nonempty required) ;;
  raise "a passing stage cannot contain a failed required check"
    when bool_decide (st_outcome s = PASS) && nonempty failed ;;
  raise "a failed checked stage needs a failed required check"
    when bool_decide (st_outcome s = FAIL) && nonempty required && negb (nonempty failed) ;;
  raise "a skipped stage cannot claim checks or artifacts"
    when bool_decide (st_outcome s = SKIPPED)
         && (nonempty (st_checks s) || nonempty (st_artifacts s)) ;;
  Ok tt.

Definition validate_StageEvidence (s : StageEvidence) : result string unit :=
  check_field "reason_code" (is_stable_id (st_reason_code s)) ;;
  check_field "message" (len_between 0 4096 (st_message s)) ;;
  check_field "duration_ms" (0 <=? st_duration_ms s) ;;
  check_field "checks" (Z.of_nat (length (st_checks s)) <=? 4096) ;;
  let* _ := for_each validate_CheckEvidence (st_checks s) in
  check_field "facts" (dict_ok finite_json_value (st_facts s)) ;;
  check_field "artifacts" (dict_ok ArtifactRef_ok (st_artifacts s)) ;;
  checks_must_agree_with_stage s.

(** [StageEvidence.required_fraction]: [sum] adds left to right from the integer
    0, and an empty [passed] is the integer 0. *)
Definition required_fraction (s : StageEvidence) : result string float64 :=
  let required := required_checks s in
  if negb (nonempty required) then
    Ok (if bool_decide (st_outcome s = PASS) then fone else fzero)
  else
    let total := fsum (chk_weight <$> required) in
    let passed := fsum (chk_weight <$> filter (fun c => chk_outcome c = PASS) required) in
    fdiv passed total.

Record EnvironmentFingerprint := {
  env_environment_id : string;
  env_isolation : Isolation;
  env_architecture : string;
  env_kernel_release : string;
  env_kernel_image_sha256 : string;
  env_kernel_config_sha256 : string;
  env_kernel_btf_sha256 : string;
  env_rootfs_sha256 : string;
  env_snapshot_sha256 : option string;
  env_clang_version : string;
  env_clang_sha256 : string;
  env_libbpf_version : string;
  env_libbpf_commit : string;
  env_bpfix_commit : option string;
  env_runner_sha256 : string;
  env_compile_recipe_sha256 : string;
  env_normalizer_version : string;
  env_normalizer_sha256 : string;
  env_public_sdk_sha256 : string;
  env_resource_limits_sha256 : string
}.

(** [EnvironmentFingerprint.microvm_requires_snapshot_identity] *)
Definition microvm_requires_snapshot_identity (e : EnvironmentFingerprint) : result string unit :=
  raise "microVM environments require a snapshot digest"
    when bool_decide (env_isolation e = ISO_MICROVM) && bool_decide (env_snapshot_sha256 e = None) ;;
  Ok tt.

Definition validate_EnvironmentFingerprint (e : EnvironmentFingerprint) : result string unit :=
  check_field "environment_id" (is_stable_id (env_environment_id e)) ;;
  check_field "architecture" (is_stable_id (env_architecture e)) ;;
  check_field "kernel_release" (len_between 1 256 (env_kernel_release e)) ;;
  check_field "kernel_image_sha256" (is_sha256 (env_kernel_image_sha256 e)) ;;
  check_field "kernel_config_sha256" (is_sha256 (env_kernel_config_sha256 e)) ;;
  check_field "kernel_btf_sha256" (is_sha256 (env_kernel_btf_sha256 e)) ;;
  check_field "rootfs_sha256" (is_sha256 (env_rootfs_sha256 e)) ;;
  check_field "snapshot_sha256" (opt_ok is_sha256 (env_snapshot_sha256 e)) ;;
  check_field "clang_version" (len_between 1 256 (env_clang_version e)) ;;
  check_field "clang_sha256" (is_sha256 (env_clang_sha256 e)) ;;
  check_field "libbpf_version" (len_between 1 128 (env_libbpf_version e)) ;;
  check_field "libbpf_commit" (is_commit (env_libbpf_commit e)) ;;
  check_field "bpfix_commit" (opt_ok is_commit (env_bpfix_commit e)) ;;
  check_field "runner_sha256" (is_sha256 (env_runner_sha256 e)) ;;
  check_field "compile_recipe_sha256" (is_sha256 (env_compile_recipe_sha256 e)) ;;
  check_field "normalizer_version" (is_stable_id (env_normalizer_version e)) ;;
  check_field "normalizer_sha256" (is_sha256 (env_normalizer_sha256 e)) ;;
  check_field "public_sdk_sha256" (is_sha256 (env_public_sdk_sha256 e)) ;;
  check_field "resource_limits_sha256" (is_sha256 (env_resource_limits_sha256 e)) ;;
  microvm_requires_snapshot_identity e.

Record EvaluationRequest := {
  req_request_id : string;
  req_experiment_id : string;
  req_experiment_manifest_sha256 : string;
  req_model_id : string;
  req_model_artifact_sha256 : string;
  req_checkpoint_id : string;
  req_checkpoint_artifact_sha256 : string;
  req_sampling_config_sha256 : string;
  req_episode_id : string;
  req_suite_id : string;
  req_suite_manifest_sha256 : string;
  req_task_id : string;
  req_task_version : string;
  req_task_bundle_sha256 : string;
  req_candidate : ArtifactRef;
  req_environment_id : string;
  req_training_seed : Z;
  req_sample_index : Z;
  req_generation_seed : Z;
  req_attempt_index : Z;
  req_diagnostic_condition : Diagnostic;
  req_parent_request_id : option string
}.

Definition validate_EvaluationRequest (r : EvaluationRequest) : result string unit :=
  check_field "request_id" (is_stable_id (req_request_id r)) ;;
  check_field "experiment_id" (is_stable_id (req_experiment_id r)) ;;
  check_field "experiment_manifest_sha256" (is_sha256 (req_experiment_manifest_sha256 r)) ;;
  check_field "model_id" (is_stable_id (req_model_id r)) ;;
  check_field "model_artifact_sha256" (is_sha256 (req_model_artifact_sha256 r)) ;;
  check_field "checkpoint_id" (is_stable_id (req_checkpoint_id r)) ;;
  check_field "checkpoint_artifact_sha256" (is_sha256 (req_checkpoint_artifact_sha256 r)) ;;
  check_field "sampling_config_sha256" (is_sha256 (req_sampling_config_sha256 r)) ;;
  check_field "episode_id" (is_stable_id (req_episode_id r)) ;;
  check_field "suite_id" (is_stable_id (req_suite_id r)) ;;
  check_field "suite_manifest_sha256" (is_sha256 (req_suite_manifest_sha256 r)) ;;
  check_field "task_id" (is_stable_id (req_task_id r)) ;;
  check_field "task_version" (is_stable_id (req_task_version r)) ;;
  check_field "task_bundle_sha256" (is_sha256 (req_task_bundle_sha256 r)) ;;
  check_field "candidate" (ArtifactRef_ok (req_candidate r)) ;;
  check_field "environment_id" (is_stable_id (req_environment_id r)) ;;
  check_field "training_seed" (0 <=? req_training_seed r) ;;
  check_field "sample_index" (0 <=? req_sample_index r) ;;
  check_field "generation_seed" (0 <=? req_generation_seed r) ;;
  check_field "attempt_index" (0 <=? req_attempt_index r) ;;
  check_field "parent_request_id" (opt_ok is_stable_id (req_parent_request_id r)) ;;
  Ok tt.

(** ** JSON images of the evidence *)
Definition jopt {A} (f : A -> json) (o : option A) : json :=
  match o with Some a => f a | None => JNull end.

Definition jdict {V} (f : V -> json) (d : list (string * V)) : json :=
  JObj (map (fun kv => (kv.1, f kv.2)) d).

Definition ArtifactRef_json (a : ArtifactRef) : json :=
  JObj [("sha256", JStr (art_sha256 a)); ("size_bytes", JInt (art_size_bytes a));
        ("media_type", JStr (art_media_type a))].

Definition CheckEvidence_json (c : CheckEvidence) : json :=
  JObj [("check_id", JStr (chk_check_id c)); ("outcome", JStr (Outcome_value (chk_outcome c)));
        ("required", JBool (chk_required c)); ("weight", JFloat (chk_weight c));
        ("reason_code", JStr (chk_reason_code c)); ("message", JStr (chk_message c));
        ("facts", JObj (chk_facts c)); ("artifacts", jdict ArtifactRef_json (chk_artifacts c))].

Definition StageEvidence_json (s : StageEvidence) : json :=
  JObj [("stage", JStr (Stage_value (st_stage s))); ("outcome", JStr (Outcome_value (st_outcome s)));
        ("reason_code", JStr (st_reason_code s)); ("message", JStr (st_message s));
        ("duration_ms", JInt (st_duration_ms s)); ("exit_code", jopt JInt (st_exit_code s));
        ("checks", JArr (map CheckEvidence_json (st_checks s)));
        ("facts", JObj (st_facts s)); ("artifacts", jdict ArtifactRef_json (st_artifacts s))].

Definition EnvironmentFingerprint_json (e : EnvironmentFingerprint) : json :=
  JObj [("schema_version", JStr "bpe.environment.v1");
        ("environment_id", JStr (env_environment_id e));
        ("isolation", JStr (Isolation_value (env_isolation e)));
        ("architecture", JStr (env_architecture e));
        ("kernel_release", JStr (env_kernel_release e));
        ("kernel_image_sha256", JStr (env_kernel_image_sha256 e));
        ("kernel_config_sha256", JStr (env_kernel_config_sha256 e));
        ("kernel_btf_sha256", JStr (env_kernel_btf_sha256 e));
        ("rootfs_sha256", JStr (env_rootfs_sha256 e));
        ("snapshot_sha256", jopt JStr (env_snapshot_sha256 e));
        ("clang_version", JStr (env_clang_version e));
        ("clang_sha256", JStr (env_clang_sha256 e));
        ("libbpf_version", JStr (env_libbpf_version e));
        ("libbpf_commit", JStr (env_libbpf_commit e));
        ("bpfix_commit", jopt JStr (env_bpfix_commit e));
        ("runner_sha256", JStr (env_runner_sha256 e));
        ("compile_recipe_sha256", JStr (env_compile_recipe_sha256 e));
        ("normalizer_version", JStr (env_normalizer_version e));
        ("normalizer_sha256", JStr (env_normalizer_sha256 e));
        ("public_sdk_sha256", JStr (env_public_sdk_sha256 e));
        ("resource_limits_sha256", JStr (env_resource_limits_sha256 e))].

Definition EvaluationRequest_json (r : EvaluationRequest) : json :=
  JObj [("schema_version", JStr "bpe.request.v1");
        ("request_id", JStr (req_request_id r));
        ("experiment_id", JStr (req_experiment_id r));
        ("experiment_manifest_sha256", JStr (req_experiment_manifest_sha256 r));
        ("model_id", JStr (req_model_id r));
        ("model_artifact_sha256", JStr (req_model_artifact_sha256 r));
        ("checkpoint_id", JStr (req_checkpoint_id r));
        ("checkpoint_artifact_sha256", JStr (req_checkpoint_artifact_sha256 r));
        ("sampling_config_sha256", JStr (req_sampling_config_sha256 r));
        ("episode_id", JStr (req_episode_id r));
        ("suite_id", JStr (req_suite_id r));
        ("suite_manifest_sha256", JStr (req_suite_manifest_sha256 r));
        ("task_id", JStr (req_task_id r));
        ("task_version", JStr (req_task_version r));
        ("task_bundle_sha256", JStr (req_task_bundle_sha256 r));
        ("candidate", ArtifactRef_json (req_candidate r));
        ("environment_id", JStr (req_environment_id r));
        ("training_seed", JInt (req_training_seed r));
        ("sample_index", JInt (req_sample_index r));
        ("generation_seed", JInt (req_generation_seed r));
        ("attempt_index", JInt (req_attempt_index r));
        ("diagnostic_condition", JStr (Diagnostic_value (req_diagnostic_condition r)));
        ("parent_request_id", jopt JStr (req_parent_request_id r))].

(** ** Grader identity ([identity.py]) *)
Definition STRICT_SCORING_POLICY_ID : string := "strict-success-v1".

Definition grader_id_for (request : EvaluationRequest) (environment : EnvironmentFingerprint)
    (harness_commit : string) : result string string :=
  let* environment_sha256 := sha256_json (EnvironmentFingerprint_json environment) in
  sha256_json
    (JObj [("schema_version", JStr "bpe.grader-id.v1");
           ("strict_scoring_policy_id", JStr STRICT_SCORING_POLICY_ID);
           ("suite_id", JStr (req_suite_id request));
           ("suite_manifest_sha256", JStr (req_suite_manifest_sha256 request));
           ("environment_sha256", JStr environment_sha256);
           ("harness_commit", JStr harness_commit)]).

Record EvaluationEvidence := {
  ev_origin : Origin;
  ev_request : EvaluationRequest;
  ev_environment : EnvironmentFingerprint;
  ev_harness_commit : string;
  ev_grader_id : string;
  ev_stages : list StageEvidence;
  ev_observation_artifacts : list (string * ArtifactRef)
}.

(** The loop of [validate_pipeline] with its local [stopped]. *)
Fixpoint pipeline_loop (stopped : bool) (stages : list StageEvidence) : result string unit :=
  match stages with
  | [] => Ok tt
  | item :: stages =>
      raise "stages after the first non-pass result must be skipped"
        when stopped && negb (bool_decide (st_outcome item = SKIPPED)) ;;
      raise "a stage cannot be skipped before the pipeline stops"
        when negb stopped && bool_decide (st_outcome item = SKIPPED) ;;
      pipeline_loop (if bool_decide (st_outcome item = PASS) then stopped else true) stages
  end.

(** [EvaluationEvidence.validate_pipeline] *)
Definition validate_pipeline (e : EvaluationEvidence) : result string unit :=
  let request := ev_request e in
  let environment := ev_environment e in
  raise "request and evidence environment IDs differ"
    when negb (bool_decide (req_environment_id request = env_environment_id environment)) ;;
  raise "bpfix diagnostic evidence requires a pinned bpfix commit"
    when bool_decide (req_diagnostic_condition request = diag_bpfix)
         && bool_decide (env_bpfix_commit environment = None) ;;
  raise "evidence must contain every stage in canonical order"
    when negb (bool_decide (st_stage <$> ev_stages e = STAGE_ORDER)) ;;
  raise "microVM evidence requires a microVM fingerprint"
    when bool_decide (ev_origin e = ORIGIN_MICROVM)
         && negb (bool_decide (env_isolation environment = ISO_MICROVM)) ;;
  raise "synthetic evidence requires a synthetic fingerprint"
    when bool_decide (ev_origin e = ORIGIN_SYNTHETIC)
         && negb (bool_decide (env_isolation environment = ISO_SYNTHETIC)) ;;
  raise "native Linux evidence requires a native Linux fingerprint"
    when bool_decide (ev_origin e = ORIGIN_NATIVE_LINUX)
         && negb (bool_decide (env_isolation environment = ISO_NATIVE_LINUX)) ;;
  let* grader_id := grader_id_for request environment (ev_harness_commit e) in
  raise "grader_id does not bind this task, harness, and environment"
    when negb (bool_decide (ev_grader_id e = grader_id)) ;;
  pipeline_loop false (ev_stages e).

Definition validate_EvaluationEvidence (e : EvaluationEvidence) : result string unit :=
  let* _ := validate_EvaluationRequest (ev_request e) in
  let* _ := validate_EnvironmentFingerprint (ev_environment e) in
  check_field "harness_commit" (is_commit (ev_harness_commit e)) ;;
  check_field "grader_id" (is_sha256 (ev_grader_id e)) ;;
  let* _ := for_each validate_StageEvidence (ev_stages e) in
  check_field "observation_artifacts" (dict_ok ArtifactRef_ok (ev_observation_artifacts e)) ;;
  validate_pipeline e.

Definition EvaluationEvidence_json (e : EvaluationEvidence) : json :=
  JObj [("schema_version", JStr "bpe.evidence.v1");
        ("origin", JStr (Origin_value (ev_origin e)));
        ("request", EvaluationRequest_json (ev_request e));
        ("environment", EnvironmentFingerprint_json (ev_environment e));
        ("harness_commit", JStr (ev_harness_commit e));
        ("grader_id", JStr (ev_grader_id e));
        ("stages", JArr (map StageEvidence_json (ev_stages e)));
        ("observation_artifacts", jdict ArtifactRef_json (ev_observation_artifacts e))].

(** ** Scoring contract, reward policy, grade *)
Record ExpectedCheck := {
  ec_stage : Stage;
  ec_check_id : string;
  ec_required : bool;
  ec_weight : float64;
  ec_input_artifacts : list (string * ArtifactRef)
}.

Definition validate_ExpectedCheck (c : ExpectedCheck) : result string unit :=
  check_field "stage" (bool_decide (ec_stage c ∈ CHECKED_STAGES)) ;;
  check_field "check_id" (is_stable_id (ec_check_id c)) ;;
  check_field "weight" (weight_ok (ec_weight c)) ;;
  check_field "input_artifacts"
    (dict_ok ArtifactRef_ok (ec_input_artifacts c)
     && forallb is_stable_id (ec_input_artifacts c).*1) ;;
  Ok tt.

Record ScoringContract := {
  sc_task_id : string;
  sc_task_version : string;
  sc_task_bundle_sha256 : string;
  sc_checks : list ExpectedCheck
}.

(** [ScoringContract.check_manifest_is_complete_and_unique] *)
Definition check_manifest_is_complete_and_unique (c : ScoringContract) : result string unit :=
  raise "scoring-contract check identities must be unique"
    when negb (unique ((fun k => (ec_stage k, ec_check_id k)) <$> sc_checks c)) ;;
  for_each
    (fun stage =>
       raise ("scoring contract requires a required " ++ Stage_value stage ++ " check")
         when negb (existsb (fun k => bool_decide (ec_stage k = stage) && ec_required k)
                            (sc_checks c)) ;;
       Ok tt)
    CHECKED_STAGES.

Definition validate_ScoringContract (c : ScoringContract) : result string unit :=
  check_field "task_id" (is_stable_id (sc_task_id c)) ;;
  check_field "task_version" (is_stable_id (sc_task_version c)) ;;
  check_field "task_bundle_sha256" (is_sha256 (sc_task_bundle_sha256 c)) ;;
  check_field "checks"
    ((3 <=? Z.of_nat (length (sc_checks c))) && (Z.of_nat (length (sc_checks c)) <=? 8192)) ;;
  let* _ := for_each validate_ExpectedCheck (sc_checks c) in
  check_manifest_is_complete_and_unique c.

Definition ExpectedCheck_json (c : ExpectedCheck) : json :=
  JObj [("stage", JStr (Stage_value (ec_stage c))); ("check_id", JStr (ec_check_id c));
        ("required", JBool (ec_required c)); ("weight", JFloat (ec_weight c));
        ("input_artifacts", jdict ArtifactRef_json (ec_input_artifacts c))].

Definition ScoringContract_json (c : ScoringContract) : json :=
  JObj [("schema_version", JStr "bpe.scoring-contract.v1");
        ("strict_policy_id", JStr STRICT_SCORING_POLICY_ID);
        ("task_id", JStr (sc_task_id c)); ("task_version", JStr (sc_task_version c));
        ("task_bundle_sha256", JStr (sc_task_bundle_sha256 c));
        ("checks", JArr (map ExpectedCheck_json (sc_checks c)))].

Record RewardPolicy := {
  rp_policy_id : string;
  rp_description : string;
  rp_ingest_failure_reward : float64;
  rp_compile_failure_reward : float64;
  rp_object_policy_failure_reward : float64;
  rp_verifier_failure_reward : float64;
  rp_functional_reward_cap : float64;
  rp_semantics_reward_cap : float64;
  rp_success_reward : float64;
  rp_explicit_hack_reward : float64;
  rp_explicit_hack_reason_prefix : string
}.

(** [itertools.pairwise] *)
Fixpoint pairwise {A} (l : list A) : list (A * A) :=
  match l with
  | x :: (y :: _) as l' => (x, y) :: pairwise l'
  | _ => []
  end.

Definition reward_sequence (p : RewardPolicy) : list float64 :=
  [rp_ingest_failure_reward p; rp_compile_failure_reward p; rp_object_policy_failure_reward p;
   rp_verifier_failure_reward p; rp_functional_reward_cap p; rp_semantics_reward_cap p;
   rp_success_reward p].

(** [RewardPolicy.rewards_must_be_monotonic] *)
Definition rewards_must_be_monotonic (p : RewardPolicy) : result string unit :=
  raise "stage rewards must be monotonically non-decreasing"
    when existsb (fun lr => fltb lr.2 lr.1) (pairwise (reward_sequence p)) ;;
  Ok tt.

Definition fminus_one : float64 := Fin (-1) 0.

Definition validate_RewardPolicy (p : RewardPolicy) : result string unit :=
  check_field "policy_id" (is_stable_id (rp_policy_id p)) ;;
  check_field "description" (len_between 1 1024 (rp_description p)) ;;
  check_field "ingest_failure_reward" (float_between fminus_one fone (rp_ingest_failure_reward p)) ;;
  check_field "compile_failure_reward" (float_between fminus_one fone (rp_compile_failure_reward p)) ;;
  check_field "object_policy_failure_reward"
    (float_between fminus_one fone (rp_object_policy_failure_reward p)) ;;
  check_field "verifier_failure_reward"
    (float_between fminus_one fone (rp_verifier_failure_reward p)) ;;
  check_field "functional_reward_cap" (float_between fzero fone (rp_functional_reward_cap p)) ;;
  check_field "semantics_reward_cap" (float_between fzero fone (rp_semantics_reward_cap p)) ;;
  check_field "success_reward" (float_between fzero fone (rp_success_reward p)) ;;
  check_field "explicit_hack_reward" (float_between fminus_one fzero (rp_explicit_hack_reward p)) ;;
  check_field "explicit_hack_reason_prefix" (is_stable_id (rp_explicit_hack_reason_prefix p)) ;;
  rewards_must_be_monotonic p.

Definition RewardPolicy_json (p : RewardPolicy) : json :=
  JObj [("schema_version", JStr "bpe.reward-policy.v1");
        ("policy_id", JStr (rp_policy_id p)); ("description", JStr (rp_description p));
        ("ingest_failure_reward", JFloat (rp_ingest_failure_reward p));
        ("compile_failure_reward", JFloat (rp_compile_failure_reward p));
        ("object_policy_failure_reward", JFloat (rp_object_policy_failure_reward p));
        ("verifier_failure_reward", JFloat (rp_verifier_failure_reward p));
        ("functional_reward_cap", JFloat (rp_functional_reward_cap p));
        ("semantics_reward_cap", JFloat (rp_semantics_reward_cap p));
        ("success_reward", JFloat (rp_success_reward p));
        ("explicit_hack_reward", JFloat (rp_explicit_hack_reward p));
        ("explicit_hack_reason_prefix", JStr (rp_explicit_hack_reason_prefix p))].

Record Grade := {
  gr_policy_id : string;
  gr_grader_id : string;
  gr_task_id : string;
  gr_candidate_sha256 : string;
  gr_evidence_sha256 : string;
  gr_contract_sha256 : string;
  gr_comparable : bool;
  gr_strict_success : option bool;
  gr_benchmark_score : option float64;
  gr_training_reward : option float64;
  gr_first_failure : option Stage;
  gr_failure_reason : option string;
  gr_stage_outcomes : list (Stage * Outcome)
}.

Definition is_none {A} (o : option A) : bool := match o with None => true | Some _ => false end.

(** [set(a) == set(b)] *)
Definition same_set {A} `{EqDecision A} (a b : list A) : bool :=
  bool_decide (Forall (fun x => x ∈ b) a) && bool_decide (Forall (fun x => x ∈ a) b).

Definition INFRA_OUTCOMES : list Outcome := [INFRA_ERROR; UNSUPPORTED].

(** [dict[key]]: [KeyError] when the key is missing. *)
Definition dict_index {K V} `{EqDecision K} (d : list (K * V)) (k : K) : result string V :=
  match dict_get d k with Some v => Ok v | None => Err "KeyError" end.

(** [next((stage for stage in STAGE_ORDER if outcomes[stage] != PASS), None)] *)
Fixpoint first_non_pass_in (order : list Stage) (d : list (Stage * Outcome)) :
    result string (option (Stage * Outcome)) :=
  match order with
  | [] => Ok None
  | s :: order =>
      let* o := dict_index d s in
      if bool_decide (o <> PASS) then Ok (Some (s, o)) else first_non_pass_in order d
  end.

(** [Grade.comparable_fields_are_consistent] *)
Definition comparable_fields_are_consistent (g : Grade) : result string unit :=
  raise "grade must include every canonical stage outcome"
    when negb (same_set (gr_stage_outcomes g).*1 STAGE_ORDER) ;;
  let some_none :=
    is_none (gr_strict_success g) || is_none (gr_benchmark_score g) || is_none (gr_training_reward g) in
  let all_none :=
    is_none (gr_strict_success g) && is_none (gr_benchmark_score g) && is_none (gr_training_reward g) in
  raise "comparable grades require success, benchmark, and reward values"
    when gr_comparable g && some_none ;;
  raise "incomparable grades cannot carry score values"
    when negb (gr_comparable g) && negb all_none ;;
  let score_is x :=
    match gr_benchmark_score g with Some s => feqb s x | None => false end in
  raise "strict success must have benchmark score 1"
    when bool_decide (gr_strict_success g = Some true) && negb (score_is fone) ;;
  raise "strict failure must have benchmark score 0"
    when bool_decide (gr_strict_success g = Some false) && negb (score_is fzero) ;;
  let* first_non_pass := first_non_pass_in STAGE_ORDER (gr_stage_outcomes g) in
  if bool_decide (gr_strict_success g = Some true) then
    raise "strict success cannot contain failure fields"
      when negb (is_none first_non_pass) || negb (is_none (gr_first_failure g))
           || opt_ok (fun r => negb (bool_decide (r = ""))) (gr_failure_reason g)
              && negb (is_none (gr_failure_reason g)) ;;
    Ok tt
  else
    match first_non_pass with
    | None => Err "non-success grade requires a non-passing stage"
    | Some (stage, first_outcome) =>
        raise "failure fields must identify the earliest non-passing stage"
          when negb (bool_decide (gr_first_failure g = Some stage))
               || is_none (gr_failure_reason g) ;;
        raise "infrastructure outcomes are not comparable"
          when gr_comparable g && bool_decide (first_outcome ∈ INFRA_OUTCOMES) ;;
        raise "incomparable grade requires an infrastructure outcome"
          when negb (gr_comparable g) && negb (bool_decide (first_outcome ∈ INFRA_OUTCOMES)) ;;
        Ok tt
    end.

Definition validate_Grade (g : Grade) : result string unit :=
  check_field "policy_id" (is_stable_id (gr_policy_id g)) ;;
  check_field "grader_id" (is_sha256 (gr_grader_id g)) ;;
  check_field "task_id" (is_stable_id (gr_task_id g)) ;;
  check_field "candidate_sha256" (is_sha256 (gr_candidate_sha256 g)) ;;
  check_field "evidence_sha256" (is_sha256 (gr_evidence_sha256 g)) ;;
  check_field "contract_sha256" (is_sha256 (gr_contract_sha256 g)) ;;
  check_field "benchmark_score" (opt_ok (float_between fzero fone) (gr_benchmark_score g)) ;;
  check_field "training_reward" (opt_ok (float_between fminus_one fone) (gr_training_reward g)) ;;
  check_field "failure_reason" (opt_ok is_stable_id (gr_failure_reason g)) ;;
  check_field "stage_outcomes" (unique (gr_stage_outcomes g).*1) ;;
  comparable_fields_are_consistent g.

(** Calling a model class: the instance if it validates. *)
Definition construct {A} (validate : A -> result string unit) (a : A) : result string A :=
  let* _ := validate a in Ok a.

Lemma construct_ok {A} (v : A -> result string unit) a b :
  construct v a = Ok b <-> v a = Ok tt /\ b = a.
Proof.
  unfold construct. rewrite bind_ok. split; [intros ([] & ? & [= <-])|intros [? ->]]; eauto.
Qed.

Lemma map_construct_ok {A} (v : A -> result string unit) l k :
  map_result (construct v) l = Ok k <-> k = l /\ Forall (fun x => v x = Ok tt) l.
Proof.
  rewrite map_result_ok. revert k. induction l as [|x l IH]; intros k.
  - split; [by intros ->%Forall2_nil_inv_l|]. intros [-> _]. constructor.
  - split.
    + intros (y & k' & Hy & Hk & ->)%Forall2_cons_inv_l. apply construct_ok in Hy as [Hv ->].
      apply IH in Hk as [-> Hf]. by repeat constructor.
    + intros [-> [Hv Hf]%Forall_cons]. constructor; [by apply construct_ok|]. by apply IH.
Qed.

Definition Grade_json (g : Grade) : json :=
  JObj [("schema_version", JStr "bpe.grade.v1");
        ("policy_id", JStr (gr_policy_id g)); ("grader_id", JStr (gr_grader_id g));
        ("task_id", JStr (gr_task_id g)); ("candidate_sha256", JStr (gr_candidate_sha256 g));
        ("evidence_sha256", JStr (gr_evidence_sha256 g));
        ("contract_sha256", JStr (gr_contract_sha256 g));
        ("comparable", JBool (gr_comparable g));
        ("strict_success", jopt JBool (gr_strict_success g));
        ("benchmark_score", jopt JFloat (gr_benchmark_score g));
        ("training_reward", jopt JFloat (gr_training_reward g));
        ("first_failure", jopt (fun s => JStr (Stage_value s)) (gr_first_failure g));
        ("failure_reason", jopt JStr (gr_failure_reason g));
        ("stage_outcomes",
          JObj (map (fun so => (Stage_value so.1, JStr (Outcome_value so.2))) (gr_stage_outcomes g)))].

(** ** Tasks and private graders *)
Record CandidateContract := {
  cc_max_response_bytes : Z;
  cc_allow_markdown_fence : bool
}.

Definition CandidateContract_ok (c : CandidateContract) : bool :=
  (0 <? cc_max_response_bytes c) && (cc_max_response_bytes c <=? 1024 * 1024).

Record ProgramContract := {
  pc_program_type : string;
  pc_section : string;
  pc_entrypoint : string;
  pc_max_programs : Z
}.

Definition ProgramContract_ok (p : ProgramContract) : bool :=
  is_stable_id (pc_program_type p) && is_stable_id (pc_section p)
  && is_stable_id (pc_entrypoint p) && (1 <=? pc_max_programs p) && (pc_max_programs p <=? 16).

Record PublicTask := {
  pt_task_id : string;
  pt_version : string;
  pt_family : Family;
  pt_prompt : FileRef;
  pt_starter_source : option FileRef;
  pt_candidate_contract : CandidateContract;
  pt_program : ProgramContract;
  pt_public_sdk_id : string;
  pt_environment_id : string;
  pt_max_attempts : Z;
  pt_whole_attempt_timeout_seconds : Z
}.

Definition validate_opt {A} (v : A -> result string unit) (o : option A) : result string unit :=
  match o with Some a => v a | None => Ok tt end.

(** [PublicTask.family_matches_starter_source] *)
Definition family_matches_starter_source (t : PublicTask) : result string unit :=
  raise "repair tasks require starter source"
    when bool_decide (pt_family t = repair) && is_none (pt_starter_source t) ;;
  raise "generation tasks cannot expose starter source"
    when bool_decide (pt_family t = generation) && negb (is_none (pt_starter_source t)) ;;
  Ok tt.

Definition validate_PublicTask (t : PublicTask) : result string unit :=
  check_field "task_id" (is_stable_id (pt_task_id t)) ;;
  check_field "version" (is_stable_id (pt_version t)) ;;
  let* _ := validate_FileRef (pt_prompt t) in
  let* _ := validate_opt validate_FileRef (pt_starter_source t) in
  check_field "candidate_contract" (CandidateContract_ok (pt_candidate_contract t)) ;;
  check_field "program" (ProgramContract_ok (pt_program t)) ;;
  check_field "public_sdk_id" (is_stable_id (pt_public_sdk_id t)) ;;
  check_field "environment_id" (is_stable_id (pt_environment_id t)) ;;
  check_field "max_attempts" ((1 <=? pt_max_attempts t) && (pt_max_attempts t <=? 16)) ;;
  check_field "whole_attempt_timeout_seconds"
    ((1 <=? pt_whole_attempt_timeout_seconds t) && (pt_whole_attempt_timeout_seconds t <=? 600)) ;;
  family_matches_starter_source t.

Record Provenance := {
  pv_repository : string;
  pv_commit : string;
  pv_source_path : string;
  pv_license : string;
  pv_original_sha256 : string
}.

Definition Provenance_ok (p : Provenance) : bool :=
  len_between 1 512 (pv_repository p) && is_commit (pv_commit p)
  && len_between 1 1024 (pv_source_path p) && len_between 1 128 (pv_license p)
  && is_sha256 (pv_original_sha256 p).

Record MutationRecord := {
  mu_operator : string;
  mu_operator_version : string;
  mu_seed : Z;
  mu_parameters : list (string * json)
}.

Definition MutationRecord_ok (m : MutationRecord) : bool :=
  is_stable_id (mu_operator m) && is_stable_id (mu_operator_version m) && (0 <=? mu_seed m)
  && dict_ok finite_json_value (mu_parameters m).

Record AssertionSpec := {
  as_assertion_id : string;
  as_kind : string;
  as_required : bool;
  as_weight : float64;
  as_expected : option json
}.

Definition AssertionSpec_ok (a : AssertionSpec) : bool :=
  is_stable_id (as_assertion_id a) && is_stable_id (as_kind a) && weight_ok (as_weight a)
  && opt_ok finite_json_value (as_expected a).

Record FunctionalCase := {
  fc_case_id : string;
  fc_driver : string;
  fc_input_ref : FileRef;
  fc_assertions : list AssertionSpec
}.

Definition validate_FunctionalCase (c : FunctionalCase) : result string unit :=
  check_field "case_id" (is_stable_id (fc_case_id c)) ;;
  check_field "driver" (is_stable_id (fc_driver c)) ;;
  let* _ := validate_FileRef (fc_input_ref c) in
  check_field "assertions" (nonempty (fc_assertions c) && forallb AssertionSpec_ok (fc_assertions c)) ;;
  Ok tt.

Record SemanticObligation := {
  so_obligation_id : string;
  so_kind : string;
  so_description : string;
  so_required : bool
}.

Definition SemanticObligation_ok (o : SemanticObligation) : bool :=
  is_stable_id (so_obligation_id o) && is_stable_id (so_kind o) && len_between 1 1024 (so_description o).

Inductive ControlKind := no_op | delete_operation | hardcode | zero_work | other_control.

Record NegativeControl := {
  nc_control_id : string;
  nc_kind : ControlKind;
  nc_source : FileRef;
  nc_expected_first_failure : Stage
}.

Definition validate_NegativeControl (c : NegativeControl) : result string unit :=
  check_field "control_id" (is_stable_id (nc_control_id c)) ;;
  validate_FileRef (nc_source c).

Inductive Split := split_train | split_development | split_calibration | split_validation | split_sealed_eval.

Record PrivateGrader := {
  pg_task_id : string;
  pg_task_version : string;
  pg_split : Split;
  pg_root_cause : option string;
  pg_contamination_group : string;
  pg_provenance : Provenance;
  pg_mutation : option MutationRecord;
  pg_reference_source : FileRef;
  pg_valid_alternatives : list FileRef;
  pg_qualification_partial_fixes : list FileRef;
  pg_functional_cases : list FunctionalCase;
  pg_semantic_obligations : list SemanticObligation;
  pg_negative_controls : list NegativeControl
}.

(** [PrivateGrader.control_ids_must_be_unique] *)
Definition control_ids_must_be_unique (g : PrivateGrader) : result string unit :=
  raise "negative control IDs must be unique"
    when negb (unique (nc_control_id <$> pg_negative_controls g)) ;;
  Ok tt.

Definition validate_PrivateGrader (g : PrivateGrader) : result string unit :=
  check_field "task_id" (is_stable_id (pg_task_id g)) ;;
  check_field "task_version" (is_stable_id (pg_task_version g)) ;;
  check_field "root_cause" (opt_ok is_stable_id (pg_root_cause g)) ;;
  check_field "contamination_group" (is_stable_id (pg_contamination_group g)) ;;
  check_field "provenance" (Provenance_ok (pg_provenance g)) ;;
  check_field "mutation" (opt_ok MutationRecord_ok (pg_mutation g)) ;;
  let* _ := validate_FileRef (pg_reference_source g) in
  check_field "valid_alternatives" (nonempty (pg_valid_alternatives g)) ;;
  let* _ := for_each validate_FileRef (pg_valid_alternatives g) in
  check_field "qualification_partial_fixes" (length (pg_qualification_partial_fixes g) <=? 16)%nat ;;
  let* _ := for_each validate_FileRef (pg_qualification_partial_fixes g) in
  check_field "functional_cases" (nonempty (pg_functional_cases g)) ;;
  let* _ := for_each validate_FunctionalCase (pg_functional_cases g) in
  check_field "semantic_obligations"
    (nonempty (pg_semantic_obligations g) && forallb SemanticObligation_ok (pg_semantic_obligations g)) ;;
  check_field "negative_controls" (4 <=? length (pg_negative_controls g))%nat ;;
  let* _ := for_each validate_NegativeControl (pg_negative_controls g) in
  control_ids_must_be_unique g.

(** ** Replay manifests and anchors *)
Record ReplayManifest := {
  rm_evidence : ArtifactRef;
  rm_grade : ArtifactRef;
  rm_contract : ArtifactRef;
  rm_events : ArtifactRef;
  rm_policy : ArtifactRef;
  rm_artifacts : list (string * ArtifactRef)
}.

Definition validate_ReplayManifest (m : ReplayManifest) : result string unit :=
  check_field "evidence" (ArtifactRef_ok (rm_evidence m)) ;;
  check_field "grade" (ArtifactRef_ok (rm_grade m)) ;;
  check_field "contract" (ArtifactRef_ok (rm_contract m)) ;;
  check_field "events" (ArtifactRef_ok (rm_events m)) ;;
  check_field "policy" (ArtifactRef_ok (rm_policy m)) ;;
  check_field "artifacts" (dict_ok ArtifactRef_ok (rm_artifacts m)) ;;
  Ok tt.

Definition ReplayManifest_json (m : ReplayManifest) : json :=
  JObj [("schema_version", JStr "bpe.replay.v1");
        ("evidence", ArtifactRef_json (rm_evidence m)); ("grade", ArtifactRef_json (rm_grade m));
        ("contract", ArtifactRef_json (rm_contract m)); ("events", ArtifactRef_json (rm_events m));
        ("policy", ArtifactRef_json (rm_policy m));
        ("artifacts", jdict ArtifactRef_json (rm_artifacts m))].

Record ReplayAnchor := {
  ra_manifest_sha256 : string;
  ra_evidence_sha256 : string;
  ra_grade_sha256 : string;
  ra_contract_sha256 : string;
  ra_policy_sha256 : string
}.

#[export] Instance ReplayAnchor_eq_dec : EqDecision ReplayAnchor.
Proof. solve_decision. Defined.

Definition ReplayAnchor_ok (a : ReplayAnchor) : bool :=
  is_sha256 (ra_manifest_sha256 a) && is_sha256 (ra_evidence_sha256 a)
  && is_sha256 (ra_grade_sha256 a) && is_sha256 (ra_contract_sha256 a)
  && is_sha256 (ra_policy_sha256 a).

Record ReplayAnchorRegistry := {
  rr_registry_id : string;
  rr_issuer : string;
  rr_experiment_manifest_sha256 : string;
  rr_anchors : list ReplayAnchor
}.

(** [ReplayAnchorRegistry.manifest_anchors_are_unique] *)
Definition manifest_anchors_are_unique (r : ReplayAnchorRegistry) : result string unit :=
  raise "replay manifest anchors must be unique"
    when negb (unique (ra_manifest_sha256 <$> rr_anchors r)) ;;
  Ok tt.

Definition validate_ReplayAnchorRegistry (r : ReplayAnchorRegistry) : result string unit :=
  check_field "registry_id" (is_stable_id (rr_registry_id r)) ;;
  check_field "issuer" (is_stable_id (rr_issuer r)) ;;
  check_field "experiment_manifest_sha256" (is_sha256 (rr_experiment_manifest_sha256 r)) ;;
  check_field "anchors" (nonempty (rr_anchors r) && forallb ReplayAnchor_ok (rr_anchors r)) ;;
  manifest_anchors_are_unique r.

Definition ReplayAnchor_json (a : ReplayAnchor) : json :=
  JObj [("manifest_sha256", JStr (ra_manifest_sha256 a));
        ("evidence_sha256", JStr (ra_evidence_sha256 a));
        ("grade_sha256", JStr (ra_grade_sha256 a));
        ("contract_sha256", JStr (ra_contract_sha256 a));
        ("policy_sha256", JStr (ra_policy_sha256 a))].

Definition ReplayAnchorRegistry_json (r : ReplayAnchorRegistry) : json :=
  JObj [("schema_version", JStr "bpe.replay-anchor-registry.v1");
        ("registry_id", JStr (rr_registry_id r)); ("issuer", JStr (rr_issuer r));
        ("experiment_manifest_sha256", JStr (rr_experiment_manifest_sha256 r));
        ("anchors", JArr (map ReplayAnchor_json (rr_anchors r)))].

(** ** Suites and experiments *)
Record SuiteTask := {
  stk_task_id : string;
  stk_task_version : string;
  stk_task_bundle_sha256 : string;
  stk_evaluation_plan_sha256 : string;
  stk_scoring_contract_sha256 : string;
  stk_family : Family;
  stk_root_cause : option string;
  stk_program_type : string;
  stk_cluster_id : string
}.

Definition SuiteTask_ok (t : SuiteTask) : bool :=
  is_stable_id (stk_task_id t) && is_stable_id (stk_task_version t)
  && is_sha256 (stk_task_bundle_sha256 t) && is_sha256 (stk_evaluation_plan_sha256 t)
  && is_sha256 (stk_scoring_contract_sha256 t) && opt_ok is_stable_id (stk_root_cause t)
  && is_stable_id (stk_program_type t) && is_stable_id (stk_cluster_id t).

Record SuiteManifest := {
  su_suite_id : string;
  su_environment_id : string;
  su_family : Family;
  su_root_cause_taxonomy : list string;
  su_tasks : list SuiteTask
}.

Definition represented_causes (s : SuiteManifest) : list string := omap stk_root_cause (su_tasks s).

(** [SuiteManifest.task_identities_are_unique] *)
Definition task_identities_are_unique (s : SuiteManifest) : result string unit :=
  raise "suite task identities must be unique" when negb (unique (stk_task_id <$> su_tasks s)) ;;
  raise "suite root-cause taxonomy must be unique" when negb (unique (su_root_cause_taxonomy s)) ;;
  let* _ :=
    for_each
      (fun task =>
         raise "suite cannot mix benchmark families"
           when negb (bool_decide (stk_family task = su_family s)) ;;
         raise "repair suite tasks require a root cause"
           when bool_decide (stk_family task = repair) && is_none (stk_root_cause task) ;;
         raise "generation suite tasks cannot claim a repair root cause"
           when bool_decide (stk_family task = generation) && negb (is_none (stk_root_cause task)) ;;
         Ok tt)
      (su_tasks s) in
  raise "repair suite tasks must cover the frozen root-cause taxonomy"
    when bool_decide (su_family s = repair)
         && negb (same_set (represented_causes s) (su_root_cause_taxonomy s)) ;;
  raise "generation suites cannot declare a repair root-cause taxonomy"
    when bool_decide (su_family s = generation) && nonempty (su_root_cause_taxonomy s) ;;
  Ok tt.

Definition validate_SuiteManifest (s : SuiteManifest) : result string unit :=
  check_field "suite_id" (is_stable_id (su_suite_id s)) ;;
  check_field "environment_id" (is_stable_id (su_environment_id s)) ;;
  check_field "root_cause_taxonomy" (forallb is_stable_id (su_root_cause_taxonomy s)) ;;
  check_field "tasks"
    (nonempty (su_tasks s) && (Z.of_nat (length (su_tasks s)) <=? 100000)
     && forallb SuiteTask_ok (su_tasks s)) ;;
  task_identities_are_unique s.

Definition SuiteTask_json (t : SuiteTask) : json :=
  JObj [("task_id", JStr (stk_task_id t)); ("task_version", JStr (stk_task_version t));
        ("task_bundle_sha256", JStr (stk_task_bundle_sha256 t));
        ("evaluation_plan_sha256", JStr (stk_evaluation_plan_sha256 t));
        ("scoring_contract_sha256", JStr (stk_scoring_contract_sha256 t));
        ("family", JStr (Family_value (stk_family t)));
        ("root_cause", jopt JStr (stk_root_cause t));
        ("program_type", JStr (stk_program_type t)); ("cluster_id", JStr (stk_cluster_id t))].

Definition SuiteManifest_json (s : SuiteManifest) : json :=
  JObj [("schema_version", JStr "bpe.suite.v1"); ("suite_id", JStr (su_suite_id s));
        ("strict_policy_id", JStr STRICT_SCORING_POLICY_ID);
        ("environment_id", JStr (su_environment_id s));
        ("family", JStr (Family_value (su_family s)));
        ("root_cause_taxonomy", JArr (map JStr (su_root_cause_taxonomy s)));
        ("tasks", JArr (map SuiteTask_json (su_tasks s)))].

Record SeedPlan := {
  sp_training_seed : Z;
  sp_checkpoint_id : string;
  sp_checkpoint_artifact_sha256 : string;
  sp_generation_seeds : list Z
}.

Definition all_nonneg (l : list Z) : bool := forallb (fun z => 0 <=? z) l.

(** [SeedPlan.generation_seeds_are_unique] *)
Definition generation_seeds_are_unique (p : SeedPlan) : result string unit :=
  raise "generation seeds must be unique within a training seed"
    when negb (unique (sp_generation_seeds p)) ;;
  Ok tt.

Definition validate_SeedPlan (p : SeedPlan) : result string unit :=
  check_field "training_seed" (0 <=? sp_training_seed p) ;;
  check_field "checkpoint_id" (is_stable_id (sp_checkpoint_id p)) ;;
  check_field "checkpoint_artifact_sha256" (is_sha256 (sp_checkpoint_artifact_sha256 p)) ;;
  check_field "generation_seeds"
    (nonempty (sp_generation_seeds p) && all_nonneg (sp_generation_seeds p)) ;;
  generation_seeds_are_unique p.

Definition SeedPlan_json (p : SeedPlan) : json :=
  JObj [("training_seed", JInt (sp_training_seed p)); ("checkpoint_id", JStr (sp_checkpoint_id p));
        ("checkpoint_artifact_sha256", JStr (sp_checkpoint_artifact_sha256 p));
        ("generation_seeds", JArr (map JInt (sp_generation_seeds p)))].

Record ExperimentManifest := {
  ex_experiment_id : string;
  ex_suite_id : string;
  ex_suite_manifest_sha256 : string;
  ex_model_id : string;
  ex_model_artifact_sha256 : string;
  ex_sampling_config_sha256 : string;
  ex_diagnostic_condition : Diagnostic;
  ex_reward_policy_id : string;
  ex_reward_policy_sha256 : string;
  ex_environment_sha256 : string;
  ex_harness_commit : string;
  ex_expected_grader_id : string;
  ex_seed_plans : list SeedPlan;
  ex_reported_k : list Z
}.

Definition plan_samples (p : SeedPlan) : Z := Z.of_nat (length (sp_generation_seeds p)).

(** [ExperimentManifest.sampling_design_is_well_formed] *)
Definition sampling_design_is_well_formed (e : ExperimentManifest) : result string unit :=
  let plans := ex_seed_plans e in
  raise "experiment training seeds must be unique" when negb (unique (sp_training_seed <$> plans)) ;;
  raise "training seeds must use distinct checkpoint artifacts"
    when negb (unique (sp_checkpoint_id <$> plans))
         || negb (unique (sp_checkpoint_artifact_sha256 <$> plans)) ;;
  match remove_dups (plan_samples <$> plans) with
  | [samples_per_seed] =>
      raise "reported k values must be unique" when negb (unique (ex_reported_k e)) ;;
      raise "reported k cannot exceed the predeclared sample count"
        when existsb (fun k => samples_per_seed <? k) (ex_reported_k e) ;;
      Ok tt
  | _ => Err "every training seed must predeclare the same sample count"
  end.

Definition validate_ExperimentManifest (e : ExperimentManifest) : result string unit :=
  check_field "experiment_id" (is_stable_id (ex_experiment_id e)) ;;
  check_field "suite_id" (is_stable_id (ex_suite_id e)) ;;
  check_field "suite_manifest_sha256" (is_sha256 (ex_suite_manifest_sha256 e)) ;;
  check_field "model_id" (is_stable_id (ex_model_id e)) ;;
  check_field "model_artifact_sha256" (is_sha256 (ex_model_artifact_sha256 e)) ;;
  check_field "sampling_config_sha256" (is_sha256 (ex_sampling_config_sha256 e)) ;;
  check_field "reward_policy_id" (is_stable_id (ex_reward_policy_id e)) ;;
  check_field "reward_policy_sha256" (is_sha256 (ex_reward_policy_sha256 e)) ;;
  check_field "environment_sha256" (is_sha256 (ex_environment_sha256 e)) ;;
  check_field "harness_commit" (is_commit (ex_harness_commit e)) ;;
  check_field "expected_grader_id" (is_sha256 (ex_expected_grader_id e)) ;;
  check_field "seed_plans" (nonempty (ex_seed_plans e)) ;;
  let* _ := for_each validate_SeedPlan (ex_seed_plans e) in
  check_field "reported_k"
    (nonempty (ex_reported_k e) && forallb (fun k => 1 <=? k) (ex_reported_k e)) ;;
  sampling_design_is_well_formed e.

(** [ExperimentManifest.samples_per_task_seed] *)
Definition samples_per_task_seed (e : ExperimentManifest) : result string Z :=
  match ex_seed_plans e with p :: _ => Ok (plan_samples p) | [] => Err "IndexError" end.

Definition ExperimentManifest_json (e : ExperimentManifest) : json :=
  JObj [("schema_version", JStr "bpe.experiment.v1");
        ("experiment_id", JStr (ex_experiment_id e)); ("suite_id", JStr (ex_suite_id e));
        ("suite_manifest_sha256", JStr (ex_suite_manifest_sha256 e));
        ("model_id", JStr (ex_model_id e));
        ("model_artifact_sha256", JStr (ex_model_artifact_sha256 e));
        ("sampling_config_sha256", JStr (ex_sampling_config_sha256 e));
        ("diagnostic_condition", JStr (Diagnostic_value (ex_diagnostic_condition e)));
        ("reward_policy_id", JStr (ex_reward_policy_id e));
        ("reward_policy_sha256", JStr (ex_reward_policy_sha256 e));
        ("environment_sha256", JStr (ex_environment_sha256 e));
        ("harness_commit", JStr (ex_harness_commit e));
        ("expected_grader_id", JStr (ex_expected_grader_id e));
        ("seed_plans", JArr (map SeedPlan_json (ex_seed_plans e)));
        ("reported_k", JArr (map JInt (ex_reported_k e)))].

(** ** Attempts *)
Record AttemptRecord := {
  at_experiment_id : string;
  at_model_id : string;
  at_model_artifact_sha256 : string;
  at_checkpoint_id : string;
  at_checkpoint_artifact_sha256 : string;
  at_sampling_config_sha256 : string;
  at_reward_policy_sha256 : string;
  at_episode_id : string;
  at_task_id : string;
  at_task_version : string;
  at_task_bundle_sha256 : string;
  at_family : Family;
  at_root_cause : option string;
  at_program_type : string;
  at_cluster_id : string;
  at_training_seed : Z;
  at_sample_index : Z;
  at_generation_seed : Z;
  at_turn_index : Z;
  at_replay_manifest_sha256 : string;
  at_evidence : EvaluationEvidence;
  at_grade : Grade
}.

(** [dict == dict]: same keys, same values, whatever the order. *)
Definition dict_eqb {K V} `{EqDecision K, EqDecision V} (a b : list (K * V)) : bool :=
  same_set a.*1 b.*1
  && forallb (fun kv => bool_decide (dict_get b kv.1 = dict_get a kv.1)) a.

(** [{item.stage: item.outcome for item in stages}] *)
Definition stage_outcomes_of (stages : list StageEvidence) : list (Stage * Outcome) :=
  dict_of ((fun s => (st_stage s, st_outcome s)) <$> stages).

(** [AttemptRecord.identities_match_evidence_and_grade] *)
Definition identities_match_evidence_and_grade (a : AttemptRecord) : result string unit :=
  let request := ev_request (at_evidence a) in
  let grade := at_grade a in
  raise "attempt experiment identity does not match evidence"
    when negb (bool_decide (at_experiment_id a = req_experiment_id request)) ;;
  raise "attempt generation provenance does not match evidence"
    when negb (bool_decide
      ((at_model_id a, at_model_artifact_sha256 a, at_checkpoint_id a,
        at_checkpoint_artifact_sha256 a, at_sampling_config_sha256 a, at_episode_id a)
       = (req_model_id request, req_model_artifact_sha256 request, req_checkpoint_id request,
          req_checkpoint_artifact_sha256 request, req_sampling_config_sha256 request,
          req_episode_id request))) ;;
  raise "attempt task identity does not match evidence"
    when negb (bool_decide
      ((at_task_id a, at_task_version a, at_task_bundle_sha256 a)
       = (req_task_id request, req_task_version request, req_task_bundle_sha256 request))) ;;
  raise "attempt task identity does not match grade"
    when negb (bool_decide (gr_task_id grade = at_task_id a)) ;;
  raise "attempt grader identity does not match evidence"
    when negb (bool_decide (gr_grader_id grade = ev_grader_id (at_evidence a))) ;;
  raise "attempt candidate identity does not match evidence"
    when negb (bool_decide (gr_candidate_sha256 grade = art_sha256 (req_candidate request))) ;;
  let* evidence_sha256 := sha256_json (EvaluationEvidence_json (at_evidence a)) in
  raise "attempt grade does not bind the supplied evidence"
    when negb (bool_decide (gr_evidence_sha256 grade = evidence_sha256)) ;;
  raise "attempt grade outcomes do not match the supplied evidence"
    when negb (dict_eqb (gr_stage_outcomes grade) (stage_outcomes_of (ev_stages (at_evidence a)))) ;;
  raise "attempt generation seed does not match the request"
    when negb (req_generation_seed request =? at_generation_seed a) ;;
  raise "attempt training seed does not match the request"
    when negb (req_training_seed request =? at_training_seed a) ;;
  raise "attempt sample index does not match the request"
    when negb (req_sample_index request =? at_sample_index a) ;;
  raise "attempt turn index does not match the request"
    when negb (req_attempt_index request =? at_turn_index a) ;;
  raise "turn zero cannot have a parent request"
    when (at_turn_index a =? 0) && negb (is_none (req_parent_request_id request)) ;;
  raise "interactive turns require a parent request"
    when (0 <? at_turn_index a) && is_none (req_parent_request_id request) ;;
  Ok tt.

Definition validate_AttemptRecord (a : AttemptRecord) : result string unit :=
  check_field "experiment_id" (is_stable_id (at_experiment_id a)) ;;
  check_field "model_id" (is_stable_id (at_model_id a)) ;;
  check_field "model_artifact_sha256" (is_sha256 (at_model_artifact_sha256 a)) ;;
  check_field "checkpoint_id" (is_stable_id (at_checkpoint_id a)) ;;
  check_field "checkpoint_artifact_sha256" (is_sha256 (at_checkpoint_artifact_sha256 a)) ;;
  check_field "sampling_config_sha256" (is_sha256 (at_sampling_config_sha256 a)) ;;
  check_field "reward_policy_sha256" (is_sha256 (at_reward_policy_sha256 a)) ;;
  check_field "episode_id" (is_stable_id (at_episode_id a)) ;;
  check_field "task_id" (is_stable_id (at_task_id a)) ;;
  check_field "task_version" (is_stable_id (at_task_version a)) ;;
  check_field "task_bundle_sha256" (is_sha256 (at_task_bundle_sha256 a)) ;;
  check_field "root_cause" (opt_ok is_stable_id (at_root_cause a)) ;;
  check_field "program_type" (is_stable_id (at_program_type a)) ;;
  check_field "cluster_id" (is_stable_id (at_cluster_id a)) ;;
  check_field "training_seed" (0 <=? at_training_seed a) ;;
  check_field "sample_index" (0 <=? at_sample_index a) ;;
  check_field "generation_seed" (0 <=? at_generation_seed a) ;;
  check_field "turn_index" (0 <=? at_turn_index a) ;;
  check_field "replay_manifest_sha256" (is_sha256 (at_replay_manifest_sha256 a)) ;;
  let* _ := validate_EvaluationEvidence (at_evidence a) in
  let* _ := validate_Grade (at_grade a) in
  identities_match_evidence_and_grade a.

(** ** Benchmark reports *)
Record SliceScore := {
  sl_name : string;
  sl_task_count : Z;
  sl_pass_at_k : option float64
}.

Definition SliceScore_ok (s : SliceScore) : bool :=
  is_stable_id (sl_name s) && (0 <=? sl_task_count s)
  && opt_ok (float_between fzero fone) (sl_pass_at_k s).

Record TrainingSeedScore := {
  ts_training_seed : Z;
  ts_checkpoint_id : string;
  ts_checkpoint_artifact_sha256 : string;
  ts_task_count : Z;
  ts_pass_at_k : float64
}.

Definition TrainingSeedScore_ok (s : TrainingSeedScore) : bool :=
  (0 <=? ts_training_seed s) && is_stable_id (ts_checkpoint_id s)
  && is_sha256 (ts_checkpoint_artifact_sha256 s) && (1 <=? ts_task_count s)
  && float_between fzero fone (ts_pass_at_k s).

Inductive BootstrapMethod := root_cause_cluster_bayesian | cluster_bayesian.

Record BenchmarkReport := {
  br_experiment_id : string;
  br_experiment_manifest_sha256 : string;
  br_replay_anchor_registry_sha256 : option string;
  br_suite_id : string;
  br_suite_manifest_sha256 : string;
  br_family : Family;
  br_grader_id : string;
  br_reward_policy_id : string;
  br_reward_policy_sha256 : string;
  br_environment_id : string;
  br_environment_sha256 : string;
  br_harness_commit : string;
  br_diagnostic_condition : Diagnostic;
  br_model_id : string;
  br_model_artifact_sha256 : string;
  br_sampling_config_sha256 : string;
  br_k : Z;
  br_samples_per_task_seed : Z;
  br_eligible_task_count : Z;
  br_eligible_training_seed_count : Z;
  br_training_seeds : list Z;
  br_eligible_attempt_count : Z;
  br_excluded_attempt_count : Z;
  br_pass_at_k : option float64;
  br_root_cause_macro_pass_at_k : option float64;
  br_bootstrap_95 : option (float64 * float64);
  br_bootstrap_method : BootstrapMethod;
  br_bootstrap_samples : Z;
  br_bootstrap_seed : Z;
  br_by_root_cause : list SliceScore;
  br_by_program_type : list SliceScore;
  br_training_seed_results : list TrainingSeedScore;
  br_failure_stage_counts : list (Stage * Z);
  br_notes : list string
}.

Definition zsum (l : list Z) : Z := foldr Z.add 0 l.

(** An [int] operand of a [float] operation. *)
Definition float_of_int (z : Z) : result string float64 :=
  let f := of_Z z in
  raise "OverflowError: int too large to convert to float" when negb (is_finite f) ;;
  Ok f.

(** [sum(float terms) / n] for an [int] n; the sum of no terms is the [int] 0. *)
Definition mean (terms : list float64) (n : Z) : result string float64 :=
  match terms with
  | [] => itruediv 0 n
  | _ => let* d := float_of_int n in fdiv (fsum terms) d
  end.

(** [abs(a - b) > 1e-12] *)
Definition fabs (x : float64) : float64 := if fsign x then fneg x else x.
Definition differs (a b : float64) : bool := fltb (of_Q (1 # 1000000000000)) (fabs (fsub a b)).

(** [item.task_count * item.pass_at_k for item in slices if item.pass_at_k is not None] *)
Definition weighted_terms (slices : list SliceScore) : result string (list float64) :=
  map_result (fun tp => let* t := float_of_int tp.1 in Ok (fmul t tp.2))
    (omap (fun s => (fun p => (sl_task_count s, p)) <$> sl_pass_at_k s) slices).

(** The last block of [report_fields_are_consistent]: the slices reproduce the
    headline rates. *)
Definition slices_reproduce_headline (r : BenchmarkReport) (headline : float64) :
    result string unit :=
  raise "program-type slices do not partition the task set"
    when negb (zsum (sl_task_count <$> br_by_program_type r) =? br_eligible_task_count r) ;;
  let* terms := weighted_terms (br_by_program_type r) in
  let* program_micro := mean terms (br_eligible_task_count r) in
  let* seed_micro := mean (ts_pass_at_k <$> br_training_seed_results r)
                          (Z.of_nat (length (br_training_seed_results r))) in
  raise "report slices do not reproduce the headline pass rate"
    when differs program_micro headline || differs seed_micro headline ;;
  if bool_decide (br_family r = repair) then
    raise "root-cause slices do not partition the task set"
      when negb (zsum (sl_task_count <$> br_by_root_cause r) =? br_eligible_task_count r) ;;
    let* root_macro := mean (omap sl_pass_at_k (br_by_root_cause r))
                            (Z.of_nat (length (br_by_root_cause r))) in
    match br_root_cause_macro_pass_at_k r with
    | None => Err "AssertionError"
    | Some claimed_root_macro =>
        raise "root-cause slices do not reproduce the macro rate"
          when differs root_macro claimed_root_macro ;;
        Ok tt
    end
  else Ok tt.

(** [BenchmarkReport.report_fields_are_consistent] *)
Definition report_fields_are_consistent (r : BenchmarkReport) : result string unit :=
  let tasks := br_eligible_task_count r in
  raise "bootstrap interval bounds are reversed"
    when match br_bootstrap_95 r with Some (lo, hi) => fltb hi lo | None => false end ;;
  raise "an empty report cannot contain pass rates"
    when (tasks =? 0)
         && (negb (is_none (br_pass_at_k r)) || negb (is_none (br_root_cause_macro_pass_at_k r))) ;;
  raise "a non-empty report requires a micro pass rate"
    when negb (tasks =? 0) && is_none (br_pass_at_k r) ;;
  raise "a non-empty report requires a bootstrap interval"
    when (0 <? tasks) && is_none (br_bootstrap_95 r) ;;
  raise "a non-empty report requires training-seed results"
    when (0 <? tasks) && (br_eligible_training_seed_count r =? 0) ;;
  let* _ :=
    if (0 <? tasks) && bool_decide (br_family r = repair) then
      raise "repair reports require root-cause metrics"
        when is_none (br_root_cause_macro_pass_at_k r) || negb (nonempty (br_by_root_cause r)) ;;
      Ok tt
    else
      raise "generation reports cannot claim repair root-cause metrics"
        when bool_decide (br_family r = generation)
             && (negb (is_none (br_root_cause_macro_pass_at_k r)) || nonempty (br_by_root_cause r)) ;;
      Ok tt in
  raise "training seed count does not match the recorded seeds"
    when negb (Z.of_nat (length (br_training_seeds r)) =? br_eligible_training_seed_count r) ;;
  raise "training seeds must be unique" when negb (unique (br_training_seeds r)) ;;
  raise "training-seed result identities do not match the report"
    when negb (bool_decide (ts_training_seed <$> br_training_seed_results r = br_training_seeds r)) ;;
  raise "training-seed task counts do not match the report"
    when existsb (fun s => negb (ts_task_count s =? tasks)) (br_training_seed_results r) ;;
  let expected_attempts := tasks * br_eligible_training_seed_count r * br_samples_per_task_seed r in
  raise "eligible attempt count does not match the frozen sample design"
    when negb (br_eligible_attempt_count r =? expected_attempts) ;;
  raise "failure-stage counts exceed eligible attempts"
    when br_eligible_attempt_count r <? zsum (br_failure_stage_counts r).*2 ;;
  if 0 <? tasks then
    match br_pass_at_k r with
    | None => Err "AssertionError"
    | Some headline => slices_reproduce_headline r headline
    end
  else Ok tt.

Definition validate_BenchmarkReport (r : BenchmarkReport) : result string unit :=
  let rate := float_between fzero fone in
  check_field "experiment_id" (is_stable_id (br_experiment_id r)) ;;
  check_field "experiment_manifest_sha256" (is_sha256 (br_experiment_manifest_sha256 r)) ;;
  check_field "replay_anchor_registry_sha256" (opt_ok is_sha256 (br_replay_anchor_registry_sha256 r)) ;;
  check_field "suite_id" (is_stable_id (br_suite_id r)) ;;
  check_field "suite_manifest_sha256" (is_sha256 (br_suite_manifest_sha256 r)) ;;
  check_field "grader_id" (is_sha256 (br_grader_id r)) ;;
  check_field "reward_policy_id" (is_stable_id (br_reward_policy_id r)) ;;
  check_field "reward_policy_sha256" (is_sha256 (br_reward_policy_sha256 r)) ;;
  check_field "environment_id" (is_stable_id (br_environment_id r)) ;;
  check_field "environment_sha256" (is_sha256 (br_environment_sha256 r)) ;;
  check_field "harness_commit" (is_commit (br_harness_commit r)) ;;
  check_field "model_id" (is_stable_id (br_model_id r)) ;;
  check_field "model_artifact_sha256" (is_sha256 (br_model_artifact_sha256 r)) ;;
  check_field "sampling_config_sha256" (is_sha256 (br_sampling_config_sha256 r)) ;;
  check_field "k" (1 <=? br_k r) ;;
  check_field "samples_per_task_seed" (1 <=? br_samples_per_task_seed r) ;;
  check_field "eligible_task_count" (0 <=? br_eligible_task_count r) ;;
  check_field "eligible_training_seed_count" (0 <=? br_eligible_training_seed_count r) ;;
  check_field "training_seeds" (all_nonneg (br_training_seeds r)) ;;
  check_field "eligible_attempt_count" (0 <=? br_eligible_attempt_count r) ;;
  check_field "excluded_attempt_count" (0 <=? br_excluded_attempt_count r) ;;
  check_field "pass_at_k" (opt_ok rate (br_pass_at_k r)) ;;
  check_field "root_cause_macro_pass_at_k" (opt_ok rate (br_root_cause_macro_pass_at_k r)) ;;
  check_field "bootstrap_95" (opt_ok (fun b => rate b.1 && rate b.2) (br_bootstrap_95 r)) ;;
  check_field "bootstrap_samples" (0 <? br_bootstrap_samples r) ;;
  check_field "bootstrap_seed" (0 <=? br_bootstrap_seed r) ;;
  check_field "by_root_cause" (forallb SliceScore_ok (br_by_root_cause r)) ;;
  check_field "by_program_type" (forallb SliceScore_ok (br_by_program_type r)) ;;
  check_field "training_seed_results" (forallb TrainingSeedScore_ok (br_training_seed_results r)) ;;
  check_field "failure_stage_counts"
    (unique (br_failure_stage_counts r).*1 && all_nonneg (br_failure_stage_counts r).*2) ;;
  report_fields_are_consistent r.

End Models.
