(* ===== verification/Samples.v ===== *)
(** * Concrete data

    One environment, task, contract, policy and a family of evaluation runs, on
    which the definitions compute; the theorems with hypotheses are applied to
    them.  [reward_v1] is the stored policy [policies/reward-v1.json]. *)
From Stdlib Require Import ZArith QArith String Ascii.
From stdpp Require Import base list strings.
From S2P Require Import Prelude Floats Sha256 Json Models.
Local Open Scope string_scope.
Local Open Scope Z_scope.

Module Samples.
Import Sha256 Json Models.

Definition unwrap (r : result string string) : string := match r with Ok s => s | Err e => e end.

(** Sixty-four (or forty) hex digits from a label. *)
Definition digest (label : string) : string := sha256_bytes label.
Definition commit (label : string) : string := String.substring 0 40 (digest label).

(** The resource profile and the snapshot components the environment binds. *)
Definition limits_document : json :=
  JObj [("schema_version", JStr "bpe.execution-resource-profile.v1");
        ("profile_id", JStr "limits-1"); ("wall_timeout_ms", JInt 30000);
        ("cpu_time_seconds", JInt 20); ("memory_bytes", JInt 268435456);
        ("swap_bytes", JInt 0); ("pids_max", JInt 64); ("open_files_max", JInt 64);
        ("file_size_bytes", JInt 1048576); ("stack_bytes", JInt 8388608); ("stdout_bytes", JInt 65536);
        ("stderr_bytes", JInt 65536); ("tmpfs_bytes", JInt 16777216); ("tmpfs_inodes", JInt 1024);
        ("network_enabled", JBool false); ("core_dumps_enabled", JBool false)].
Definition snapshot_document : json :=
  JObj [("vm_state_sha256", JStr (digest "vm_state")); ("memory_sha256", JStr (digest "memory"));
        ("kernel_image_sha256", JStr (digest "image")); ("kernel_config_sha256", JStr (digest "config"));
        ("kernel_btf_sha256", JStr (digest "btf")); ("rootfs_sha256", JStr (digest "rootfs"));
        ("block_device_config_sha256", JStr (digest "block")); ("vsock_config_sha256", JStr (digest "vsock"))].

Definition environment : EnvironmentFingerprint := Eval vm_compute in {|
  env_environment_id := "env-1"; env_isolation := ISO_MICROVM; env_architecture := "x86_64";
  env_kernel_release := "6.8.0"; env_kernel_image_sha256 := digest "image";
  env_kernel_config_sha256 := digest "config"; env_kernel_btf_sha256 := digest "btf";
  env_rootfs_sha256 := digest "rootfs"; env_snapshot_sha256 := Some (unwrap (sha256_json snapshot_document));
  env_clang_version := "18.1"; env_clang_sha256 := digest "clang"; env_libbpf_version := "1.4";
  env_libbpf_commit := commit "libbpf"; env_bpfix_commit := None;
  env_runner_sha256 := digest "runner"; env_compile_recipe_sha256 := digest "recipe";
  env_normalizer_version := "n1"; env_normalizer_sha256 := digest "normalizer";
  env_public_sdk_sha256 := digest "sdk"; env_resource_limits_sha256 := unwrap (sha256_json limits_document) |}.

Definition input_ref : ArtifactRef := Eval vm_compute in
  {| art_sha256 := digest "input"; art_size_bytes := 5; art_media_type := "application/json" |}.

Definition contract : ScoringContract := Eval vm_compute in
  let k stage id w inputs :=
    {| ec_stage := stage; ec_check_id := id; ec_required := true; ec_weight := w;
       ec_input_artifacts := inputs |} in
  {| sc_task_id := "task-1"; sc_task_version := "v1"; sc_task_bundle_sha256 := digest "bundle";
     sc_checks :=
       [k OBJECT_POLICY "policy" fone [];
        k FUNCTIONAL "case-1" (of_Z 3) [];
        k FUNCTIONAL "case-2" fone
          [("input", input_ref)];
        k SEMANTICS "obligation-1" fone []] |}.

Definition reward_v1 : RewardPolicy := Eval vm_compute in {|
  rp_policy_id := "reward-v1";
  rp_description := "Phase 0 shaping: behavior and anti-hack semantics dominate; benchmark success remains binary.";
  rp_ingest_failure_reward := Fin (-1) 0;
  rp_compile_failure_reward := Fin (-1) (-1);
  rp_object_policy_failure_reward := Fin (-1) (-2);
  rp_verifier_failure_reward := fzero;
  rp_functional_reward_cap := of_Q (1 # 10);
  rp_semantics_reward_cap := of_Q (6 # 10);
  rp_success_reward := fone;
  rp_explicit_hack_reward := Fin (-1) 0;
  rp_explicit_hack_reason_prefix := "HACK_" |}.

Definition check (id : string) (o : Outcome) (w : float64) (arts : list (string * ArtifactRef)) :
    CheckEvidence :=
  {| chk_check_id := id; chk_outcome := o; chk_required := true; chk_weight := w;
     chk_reason_code := "OK"; chk_message := ""; chk_facts := []; chk_artifacts := arts |}.

Definition stage (s : Stage) (o : Outcome) (checks : list CheckEvidence) : StageEvidence :=
  {| st_stage := s; st_outcome := o; st_reason_code := "R"; st_message := ""; st_duration_ms := 5;
     st_exit_code := Some 0; st_checks := checks; st_facts := []; st_artifacts := [] |}.

(** The checks of the contract, with the outcome of [case-2] and of the obligation. *)
Definition functional_checks (o : Outcome) : list CheckEvidence :=
  [check "case-1" PASS (of_Z 3) [];
   check "case-2" o fone
     [("input", input_ref)]].

Definition early_stages : list StageEvidence :=
  [stage INGEST PASS []; stage COMPILE PASS [];
   stage OBJECT_POLICY PASS [check "policy" PASS fone []]; stage VERIFIER PASS []].

Definition success_stages : list StageEvidence :=
  (early_stages ++ [stage FUNCTIONAL PASS (functional_checks PASS);
                    stage SEMANTICS PASS [check "obligation-1" PASS fone []]])%list.

Definition functional_failure_stages : list StageEvidence :=
  (early_stages ++ [stage FUNCTIONAL FAIL (functional_checks FAIL); stage SEMANTICS SKIPPED []])%list.

(** The semantics stage timed out after its checks had passed. *)
Definition semantics_timeout_stages : list StageEvidence :=
  (early_stages ++ [stage FUNCTIONAL PASS (functional_checks PASS);
                    stage SEMANTICS TIMEOUT [check "obligation-1" PASS fone []]])%list.

Definition verifier_failure_stages : list StageEvidence :=
  [stage INGEST PASS []; stage COMPILE PASS [];
   stage OBJECT_POLICY PASS [check "policy" PASS fone []]; stage VERIFIER FAIL [];
   stage FUNCTIONAL SKIPPED []; stage SEMANTICS SKIPPED []].

Definition infra_stages : list StageEvidence :=
  [stage INGEST PASS []; stage COMPILE INFRA_ERROR []; stage OBJECT_POLICY SKIPPED [];
   stage VERIFIER SKIPPED []; stage FUNCTIONAL SKIPPED []; stage SEMANTICS SKIPPED []].

(** A request of sample [index] of training seed 0 in a given suite and experiment. *)
Definition request_for (suite_sha experiment_sha : string) (index gen_seed : Z) (label : string) :
    EvaluationRequest := {|
  req_request_id := "req-" ++ label; req_experiment_id := "exp-1";
  req_experiment_manifest_sha256 := experiment_sha;
  req_model_id := "model-1"; req_model_artifact_sha256 := digest "model";
  req_checkpoint_id := "ckpt-1"; req_checkpoint_artifact_sha256 := digest "ckpt";
  req_sampling_config_sha256 := digest "sampling"; req_episode_id := "ep-" ++ label;
  req_suite_id := "suite-1"; req_suite_manifest_sha256 := suite_sha; req_task_id := "task-1";
  req_task_version := "v1"; req_task_bundle_sha256 := digest "bundle";
  req_candidate := {| art_sha256 := digest "candidate"; art_size_bytes := 9; art_media_type := "text/x-c" |};
  req_environment_id := "env-1"; req_training_seed := 0; req_sample_index := index;
  req_generation_seed := gen_seed; req_attempt_index := 0; req_diagnostic_condition := diag_none;
  req_parent_request_id := None |}.

Definition request : EvaluationRequest := Eval vm_compute in request_for (digest "suite") (digest "experiment") 0 7 "a".

Definition harness_commit : string := Eval vm_compute in commit "harness".

Definition evidence_with (req : EvaluationRequest) (stages : list StageEvidence) : EvaluationEvidence := {|
  ev_origin := ORIGIN_MICROVM; ev_request := req; ev_environment := environment;
  ev_harness_commit := harness_commit;
  ev_grader_id := unwrap (grader_id_for req environment harness_commit);
  ev_stages := stages; ev_observation_artifacts := [] |}.

Definition success_evidence : EvaluationEvidence :=
  Eval vm_compute in evidence_with request success_stages.
Definition functional_failure_evidence : EvaluationEvidence :=
  Eval vm_compute in evidence_with request functional_failure_stages.
Definition semantics_timeout_evidence : EvaluationEvidence :=
  Eval vm_compute in evidence_with request semantics_timeout_stages.
Definition verifier_failure_evidence : EvaluationEvidence :=
  Eval vm_compute in evidence_with request verifier_failure_stages.
Definition infra_evidence : EvaluationEvidence :=
  Eval vm_compute in evidence_with request infra_stages.

Example samples_validate :
  map validate_EvaluationEvidence
    [success_evidence; functional_failure_evidence; semantics_timeout_evidence;
     verifier_failure_evidence; infra_evidence] = replicate 5 (Ok tt)
  /\ validate_ScoringContract contract = Ok tt /\ validate_RewardPolicy reward_v1 = Ok tt.
Proof. vm_compute. split_and!; reflexivity. Qed.

End Samples.
