(* ===== verification/ModelFacts.v ===== *)
(** * Facts about the data contracts

    What the validators of [Models] accept, stated without their code: artifact
    paths, the shape of a pipeline, suites, experiments and attempts; and that
    every digest the code computes is a well-formed [Sha256] field. *)
From Stdlib Require Import ZArith QArith String Ascii Lia.
From stdpp Require Import base tactics list strings.
From S2P Require Import Prelude Floats Sha256 Json JsonFacts Models Samples.
Local Open Scope string_scope.
Local Open Scope Z_scope.

Module ModelFacts.
Import Sha256 Json JsonFacts Models Samples.

(** ** Digests are [Sha256] fields *)
Lemma str_forall_list p l : str_forall p (string_of_list_ascii l) = forallb p l.
Proof. induction l as [|c l IH]; cbn; [done|]. by rewrite IH. Qed.

Lemma str_forall_app q s t : str_forall q (s ++ t) = str_forall q s && str_forall q t.
Proof.
  induction s as [|c s IH]; [done|].
  change (q c && str_forall q (s ++ t) = q c && str_forall q s && str_forall q t). by rewrite IH, andb_assoc.
Qed.

Lemma length_string_of_list l : String.length (string_of_list_ascii l) = length l.
Proof. induction l as [|c l IH]; cbn; [done|]. by rewrite IH. Qed.

Lemma hex_digit_lower z : is_lower_hex (hex_digit z) = true.
Proof. destruct z as [|p|p]; [done| |done]. do 4 (destruct p as [p|p|]; try done). Qed.

Lemma round_length st kw : length (Sha256.round st kw) = length st.
Proof. do 9 (destruct st as [|? st]; [done|]). done. Qed.

Lemma fold_round_length l st : length (fold_left Sha256.round l st) = length st.
Proof.
  revert st. induction l as [|kw l IH]; intros st; [done|].
  change (length (fold_left Sha256.round l (Sha256.round st kw)) = length st).
  rewrite IH. apply round_length.
Qed.

Lemma compress_length st b : length (compress st b) = length st.
Proof.
  unfold compress. rewrite List.length_map, List.length_combine, fold_round_length. lia.
Qed.

Lemma blocks_length fuel st ws : length (blocks fuel st ws) = length st.
Proof.
  revert st ws. induction fuel as [|fuel IH]; intros st ws; [done|].
  destruct ws as [|w ws]; [done|]. change (blocks (S fuel) st (w :: ws)) with
    (blocks fuel (compress st (firstn 16 (w :: ws))) (skipn 16 (w :: ws))).
  rewrite IH. apply compress_length.
Qed.

Lemma is_sha256_bytes d : is_sha256 (sha256_bytes d) = true.
Proof.
  unfold is_sha256, is_hex, sha256_bytes. set (st := blocks _ _ _).
  assert (Hl : length st = 8%nat) by apply blocks_length. clearbody st.
  rewrite length_string_of_list, str_forall_list, andb_true_iff. split.
  - do 8 (destruct st as [|? st]; [done|]). by destruct st.
  - clear Hl. induction st as [|z st IH]; [done|]. cbn [flat_map]. rewrite forallb_app, IH, andb_true_r.
    unfold hex32. cbn [map forallb]. by rewrite !hex_digit_lower.
Qed.

Lemma stable_id_chars s : is_stable_id s = true -> str_forall is_id_char s = true.
Proof.
  destruct s as [|c s]; cbn; [done|]. rewrite !andb_true_iff. intros [[Hc Hs] _]. split; [|done].
  unfold is_id_char. by rewrite Hc.
Qed.

Lemma sha256_json_is_sha256 v h : sha256_json v = Ok h -> is_sha256 h = true.
Proof. unfold sha256_json. intros H. ok_inv. apply is_sha256_bytes. Qed.

(** ** Pipelines *)

(** A run of the six stages: some pass, then at most one stops the pipeline with
    a verdict, and everything after it is skipped. *)
Inductive pipeline_run : list StageEvidence -> Prop :=
| run_done : pipeline_run []
| run_pass s rest : st_outcome s = PASS -> pipeline_run rest -> pipeline_run (s :: rest)
| run_stop s rest :
    st_outcome s <> PASS -> st_outcome s <> SKIPPED ->
    Forall (fun t => st_outcome t = SKIPPED) rest -> pipeline_run (s :: rest).

Lemma pipeline_loop_stopped l :
  pipeline_loop true l = Ok tt <-> Forall (fun t => st_outcome t = SKIPPED) l.
Proof.
  induction l as [|s l IH]; cbn; [by split; constructor|]. rewrite Forall_cons, <-IH.
  case_bool_decide as Hs; cbn; [|by split; [|intros []]].
  rewrite Hs. cbn. split; [auto|]. by intros [].
Qed.

Lemma pipeline_loop_run l : pipeline_loop false l = Ok tt <-> pipeline_run l.
Proof.
  induction l as [|s l IH]; cbn; [by split; constructor|].
  case_bool_decide as Hs; cbn.
  { split; [done|]. inversion 1; congruence. }
  case_bool_decide as Hp.
  - rewrite IH. split; [by apply run_pass|]. inversion 1; congruence.
  - rewrite pipeline_loop_stopped. split; [by apply run_stop|]. inversion 1; congruence.
Qed.

(** Everything validation establishes about evidence. *)
Record valid_evidence (e : EvaluationEvidence) : Prop := {
  ve_task_id : is_stable_id (req_task_id (ev_request e)) = true;
  ve_candidate : is_sha256 (art_sha256 (req_candidate (ev_request e))) = true;
  ve_grader : is_sha256 (ev_grader_id e) = true;
  ve_grader_id : grader_id_for (ev_request e) (ev_environment e) (ev_harness_commit e)
                 = Ok (ev_grader_id e);
  ve_stages : Forall (fun s => validate_StageEvidence s = Ok tt) (ev_stages e);
  ve_order : st_stage <$> ev_stages e = STAGE_ORDER;
  ve_run : pipeline_run (ev_stages e)
}.

Lemma validate_EvaluationEvidence_ok e :
  validate_EvaluationEvidence e = Ok tt -> valid_evidence e.
Proof.
  unfold validate_EvaluationEvidence. intros H. ok_inv.
  repeat match goal with u : unit |- _ => destruct u end.
  match goal with H : for_each validate_StageEvidence _ = _ |- _ => apply for_each_ok in H end.
  match goal with H : validate_pipeline _ = _ |- _ => unfold validate_pipeline in H end. ok_inv. bool_prop.
  match goal with H : validate_EvaluationRequest _ = _ |- _ => unfold validate_EvaluationRequest in H end.
  ok_inv. unfold ArtifactRef_ok in *. bool_prop.
  constructor; try done. by apply pipeline_loop_run.
Qed.

Lemma stage_order_NoDup : NoDup STAGE_ORDER.
Proof. apply (bool_decide_unpack _). vm_compute. exact I. Qed.

Lemma stage_outcomes_list l :
  st_stage <$> l = STAGE_ORDER ->
  stage_outcomes_of l = (fun s => (st_stage s, st_outcome s)) <$> l.
Proof.
  intros Ho. apply dict_of_id. rewrite <-list_fmap_compose.
  change (NoDup (st_stage <$> l)). rewrite Ho. apply stage_order_NoDup.
Qed.

Lemma stage_outcomes_get l s :
  st_stage <$> l = STAGE_ORDER -> s ∈ l ->
  dict_get (stage_outcomes_of l) (st_stage s) = Some (st_outcome s).
Proof.
  intros Ho Hs. rewrite stage_outcomes_list by done. apply dict_get_Some.
  - rewrite <-list_fmap_compose. change (NoDup (st_stage <$> l)). rewrite Ho. apply stage_order_NoDup.
  - apply (list_elem_of_fmap_2 (fun s => (st_stage s, st_outcome s))). done.
Qed.

Lemma first_non_pass_in_stages l d :
  Forall (fun s => dict_get d (st_stage s) = Some (st_outcome s)) l ->
  first_non_pass_in (st_stage <$> l) d
  = Ok ((fun s => (st_stage s, st_outcome s))
          <$> find_first (fun s => bool_decide (st_outcome s <> PASS)) l).
Proof.
  unfold find_first. induction 1 as [|s l Hs Hl IH]; cbn; [done|].
  unfold dict_index. rewrite Hs. cbn. by case_bool_decide.
Qed.

(** ** Artifact paths *)
#[local] Arguments String.append : simpl nomatch.

Definition no_slash (p : string) : Prop := str_forall (fun c => negb (code c =? 47)) p = true.

Lemma split_slash_nonempty s : split_slash s <> [].
Proof. destruct s as [|c s]; cbn; [done|]. destruct (code c =? 47); [done|]. by destruct (split_slash s). Qed.

Lemma split_slash_no_slash s : Forall no_slash (split_slash s).
Proof.
  induction s as [|c s IH]; cbn; [by repeat constructor|].
  destruct (code c =? 47) eqn:Hc; [by constructor|].
  destruct (split_slash s) as [|p ps]; [by repeat constructor; unfold no_slash; cbn; rewrite Hc|].
  apply Forall_cons in IH as [Hp Hps]. constructor; [|done]. unfold no_slash in *. cbn. by rewrite Hc.
Qed.

Lemma concat_slash_split s : String.concat "/" (split_slash s) = s.
Proof.
  induction s as [|c s IH]; cbn; [done|].
  pose proof (split_slash_nonempty s) as Hne. destruct (code c =? 47) eqn:Hc.
  - destruct (split_slash s) as [|p ps]; [done|].
    change (String.concat "/" ("" :: p :: ps)) with ("/" ++ String.concat "/" (p :: ps)).
    rewrite IH. cbn. f_equal. apply Z.eqb_eq in Hc.
    rewrite <-(ascii_N_embedding c). unfold code in Hc. by replace (N_of_ascii c) with 47%N by lia.
  - destruct (split_slash s) as [|p [|q ps]]; [done| |]; cbn in *; by rewrite IH.
Qed.

Lemma split_slash_app p s :
  no_slash p ->
  split_slash (p ++ String "/" s) = p :: split_slash s.
Proof.
  induction p as [|c p IH]; intros Hp; [done|]. unfold no_slash in Hp. cbn in Hp.
  apply andb_true_iff in Hp as [Hc%negb_true_iff Hp]. cbn. rewrite Hc. by rewrite IH.
Qed.

Lemma split_slash_id p : no_slash p -> split_slash p = [p].
Proof.
  induction p as [|c p IH]; intros Hp; [done|]. unfold no_slash in Hp. cbn in Hp.
  apply andb_true_iff in Hp as [Hc%negb_true_iff Hp]. cbn. rewrite Hc. by rewrite IH.
Qed.

Lemma split_slash_concat ps :
  ps <> [] -> Forall no_slash ps -> split_slash (String.concat "/" ps) = ps.
Proof.
  induction ps as [|p [|q ps] IH]; intros Hne Hf; [done| |]; apply Forall_cons in Hf as [Hp Hps].
  - by apply split_slash_id.
  - change (String.concat "/" (p :: q :: ps)) with (p ++ String "/" (String.concat "/" (q :: ps))).
    rewrite split_slash_app by done. by rewrite IH.
Qed.

(** A name of a directory entry: not empty, neither [.] nor [..]. *)
Definition plain_component (p : string) : Prop := p <> "" /\ p <> "." /\ p <> "..".

Lemma relative_parts_plain v :
  Forall plain_component (split_slash v) -> relative_parts v = split_slash v.
Proof.
  unfold relative_parts. induction 1 as [|p ps (? & ? & ?) Hps IH]; [done|].
  rewrite filter_cons, decide_True by done. by rewrite IH.
Qed.

Lemma starts_with_slash_split v : starts_with_slash v = true -> "" ∈ split_slash v.
Proof. destruct v as [|c v]; cbn; [done|]. intros ->. by left. Qed.

(** Artifact paths: the path validator accepts exactly the relative paths
    whose components are plain names (no empty component, no [.], no [..], no
    leading slash), and the single path [.]; it returns the path unchanged. *)
Theorem artifact_path_exact v r :
  path_must_be_relative_and_normalized v = Ok r <->
  r = v /\ (v = "." \/ Forall plain_component (split_slash v)).
Proof.
  unfold path_must_be_relative_and_normalized. split.
  - intros H. ok_inv. bool_prop. split; [done|].
    match goal with H : relative_str _ = _ |- _ => rename H into Hstr end. unfold relative_str in Hstr.
    destruct (relative_parts r) as [|p ps] eqn:Hp; [by left|right].
    assert (Hs : split_slash r = p :: ps).
    { rewrite <-Hstr. apply split_slash_concat; [done|]. rewrite <-Hp. unfold relative_parts.
      apply Forall_forall. intros x Hx%list_elem_of_filter.
      eapply Forall_forall; [apply split_slash_no_slash|apply Hx]. }
    rewrite Hs, <-Hp. apply Forall_forall. intros x Hx.
    pose proof Hx as Hx'. unfold relative_parts in Hx'. apply list_elem_of_filter in Hx' as [[? ?] _].
    split_and!; [done..|]. intros ->. rewrite Hp in Hx. done.
  - intros [-> [->|Hv]]; [vm_compute; reflexivity|].
    assert (Hno : forall x, ~ plain_component x -> x ∉ split_slash v).
    { intros x Hx Hin. apply Hx. by eapply Forall_forall. }
    assert (Hsl : starts_with_slash v = false).
    { destruct (starts_with_slash v) eqn:E; [|done]. apply starts_with_slash_split in E.
      exfalso. eapply Hno; [|done]. by intros []. }
    unfold relative_str. rewrite relative_parts_plain by done.
    rewrite !bool_decide_false by (apply Hno; unfold plain_component; tauto).
    rewrite Hsl. cbn [orb]. destruct (split_slash v) as [|p ps] eqn:E; [by apply split_slash_nonempty in E|].
    rewrite <-E, concat_slash_split, bool_decide_true by done. done.
Qed.

(** The pipeline validator of evidence, on every branch: it accepts exactly
    the evidence whose environment identities agree, whose diagnostic condition
    and origin fit the environment, whose grader id is the one derived from the
    request, environment and harness, and whose stages are the six canonical
    stages in order forming a run (passes, one stopping verdict, skips). *)
Theorem validate_pipeline_exact e :
  validate_pipeline e = Ok tt <->
  req_environment_id (ev_request e) = env_environment_id (ev_environment e)
  /\ (req_diagnostic_condition (ev_request e) = diag_bpfix ->
      env_bpfix_commit (ev_environment e) <> None)
  /\ st_stage <$> ev_stages e = STAGE_ORDER
  /\ (ev_origin e = ORIGIN_MICROVM -> env_isolation (ev_environment e) = ISO_MICROVM)
  /\ (ev_origin e = ORIGIN_SYNTHETIC -> env_isolation (ev_environment e) = ISO_SYNTHETIC)
  /\ (ev_origin e = ORIGIN_NATIVE_LINUX -> env_isolation (ev_environment e) = ISO_NATIVE_LINUX)
  /\ grader_id_for (ev_request e) (ev_environment e) (ev_harness_commit e) = Ok (ev_grader_id e)
  /\ pipeline_run (ev_stages e).
Proof.
  unfold validate_pipeline. rewrite <-pipeline_loop_run. split.
  - intros H. ok_inv.
    repeat match goal with
    | H : bool_decide _ && _ = false |- _ => pose proof (guard_implies _ _ H); clear H
    end. bool_prop. split_and!; try done; intros; repeat match goal with
    | H : ?P -> _ = false, HP : ?P |- _ => specialize (H HP) end; bool_prop; congruence.
  - intros (-> & Hb & -> & Hm & Hs & Hn & -> & Hr).
    cbn [bind_result]. rewrite !guard_intro; [by rewrite !bool_decide_true|..]; intros H.
    1-3: by rewrite bool_decide_true by auto.
    by rewrite bool_decide_false by auto.
Qed.


(** ** What a grader id binds *)

(** The canonical encodings of two values are an explicit SHA-256 collision. *)
Definition encodings_collide (v1 v2 : json) : Prop :=
  exists b1 b2, canonical_json_bytes v1 = Ok b1 /\ canonical_json_bytes v2 = Ok b2 /\ collision b1 b2.

Lemma flat_object_wf kvs :
  NoDup kvs.*1 -> Forall (fun kv => match kv.2 with JArr _ | JObj _ => False | _ => True end) kvs ->
  wf_json (JObj kvs).
Proof.
  intros Hnd Hf. apply wf_json_obj. split; [done|]. eapply Forall_impl; [exact Hf|].
  intros [k []]; cbn; done.
Qed.

Lemma EnvironmentFingerprint_json_wf e : wf_json (EnvironmentFingerprint_json e).
Proof.
  apply flat_object_wf; [apply (bool_decide_unpack _); vm_compute; exact I|].
  unfold EnvironmentFingerprint_json.
  destruct (env_snapshot_sha256 e), (env_bpfix_commit e); repeat constructor.
Qed.

Lemma Isolation_value_inj a b : Isolation_value a = Isolation_value b -> a = b.
Proof. destruct a, b; done. Qed.

(** Equal images agree on every key, up to the order of nested keys. *)
Lemma canon_object_get a b k :
  NoDup a.*1 -> NoDup b.*1 -> canon (JObj a) = canon (JObj b) ->
  canon <$> dict_get a k = canon <$> dict_get b k.
Proof.
  assert (Hmap : forall (l : list (string * json)),
    dict_get (map (fun kv => (kv.1, canon kv.2)) l) k = canon <$> dict_get l k).
  { induction l as [|[j v] l IH]; cbn; [done|]. by case_decide. }
  assert (Hkeys : forall (l : list (string * json)), (map (fun kv => (kv.1, canon kv.2)) l).*1 = l.*1).
  { intros l. change (map ?f l) with (f <$> l). by rewrite <-list_fmap_compose. }
  intros Ha Hb H. cbn [canon] in H. injection H as H. rewrite <-!Hmap.
  apply option_eq. intros v. rewrite !dict_get_Some by by rewrite Hkeys.
  rewrite <-(sort_kv_perm (map _ a)), H. by rewrite sort_kv_perm.
Qed.

Definition fields_of (v : json) : list (string * json) := match v with JObj kvs => kvs | _ => [] end.

(** Read the equation of one field off two images that agree key by key. *)
Ltac same_field H k :=
  let Hk := fresh "Hk" in pose proof (H k) as Hk; vm_compute in Hk; injection Hk as Hk.
Ltac same_option H k :=
  let Hk := fresh "Hk" in pose proof (H k) as Hk; vm_compute in Hk; apply (inj Some) in Hk.

(** The JSON image of an environment determines it. *)
Lemma EnvironmentFingerprint_json_inj e1 e2 :
  canon (EnvironmentFingerprint_json e1) = canon (EnvironmentFingerprint_json e2) -> e1 = e2.
Proof.
  intros H. assert (Hg : forall k,
    canon <$> dict_get (fields_of (EnvironmentFingerprint_json e1)) k
    = canon <$> dict_get (fields_of (EnvironmentFingerprint_json e2)) k).
  { intros k. apply canon_object_get; [| |exact H]; apply (bool_decide_unpack _); vm_compute; exact I. }
  clear H. destruct e1 as [i1 iso1 a1 k1 ki1 kc1 kb1 rf1 sn1 cv1 cs1 lv1 lc1 bc1 rn1 cr1 nv1 ns1 ps1 rl1].
  destruct e2 as [i2 iso2 a2 k2 ki2 kc2 kb2 rf2 sn2 cv2 cs2 lv2 lc2 bc2 rn2 cr2 nv2 ns2 ps2 rl2].
  same_field Hg "environment_id". same_field Hg "architecture". same_field Hg "kernel_release".
  same_field Hg "kernel_image_sha256". same_field Hg "kernel_config_sha256".
  same_field Hg "kernel_btf_sha256". same_field Hg "rootfs_sha256". same_field Hg "clang_version".
  same_field Hg "clang_sha256". same_field Hg "libbpf_version". same_field Hg "libbpf_commit".
  same_field Hg "runner_sha256". same_field Hg "compile_recipe_sha256".
  same_field Hg "normalizer_version". same_field Hg "normalizer_sha256".
  same_field Hg "public_sdk_sha256". same_field Hg "resource_limits_sha256".
  assert (sn1 = sn2) as <- by (same_option Hg "snapshot_sha256"; destruct sn1, sn2; congruence).
  assert (bc1 = bc2) as <- by (same_option Hg "bpfix_commit"; destruct bc1, bc2; congruence).
  assert (iso1 = iso2) as <- by (same_option Hg "isolation"; destruct iso1, iso2; done || discriminate).
  clear Hg. subst. reflexivity.
Qed.

Definition grader_document (r : EvaluationRequest) (env_sha harness : string) : json :=
  JObj [("schema_version", JStr "bpe.grader-id.v1");
        ("strict_scoring_policy_id", JStr STRICT_SCORING_POLICY_ID);
        ("suite_id", JStr (req_suite_id r));
        ("suite_manifest_sha256", JStr (req_suite_manifest_sha256 r));
        ("environment_sha256", JStr env_sha);
        ("harness_commit", JStr harness)].

(** A grader id binds the suite, the harness and the whole environment: two
    runs with the same grader id have the same suite id and manifest digest, the
    same harness commit and equal environment fingerprints, or an explicit SHA-256
    collision between their environments or between their identity documents. *)
Theorem grader_id_binds r1 env1 h1 r2 env2 h2 id :
  grader_id_for r1 env1 h1 = Ok id -> grader_id_for r2 env2 h2 = Ok id ->
  (req_suite_id r1 = req_suite_id r2
   /\ req_suite_manifest_sha256 r1 = req_suite_manifest_sha256 r2 /\ h1 = h2 /\ env1 = env2)
  \/ encodings_collide (EnvironmentFingerprint_json env1) (EnvironmentFingerprint_json env2)
  \/ exists d1 d2, encodings_collide (grader_document r1 d1 h1) (grader_document r2 d2 h2).
Proof.
  unfold grader_id_for. intros (d1 & Hd1 & H1)%bind_ok (d2 & Hd2 & H2)%bind_ok.
  destruct (sha256_json_binding (grader_document r1 d1 h1) (grader_document r2 d2 h2) id)
    as [Hc|Hc]; [| |exact H1|exact H2| |by right; right; exists d1, d2].
  1-2: apply flat_object_wf; [apply (bool_decide_unpack _); vm_compute; exact I|repeat constructor].
  vm_compute in Hc. injection Hc as Hd Hh Hs Hm. subst d2.
  destruct (sha256_json_binding _ _ _ (EnvironmentFingerprint_json_wf env1)
              (EnvironmentFingerprint_json_wf env2) Hd1 Hd2) as [He|He]; [|by right; left].
  left. apply EnvironmentFingerprint_json_inj in He. done.
Qed.

Lemma grader_id_binds_witness :
  let r := Samples.request in
  let env := Samples.environment in
  let h := Samples.harness_commit in
  (req_suite_id r = req_suite_id r
   /\ req_suite_manifest_sha256 r = req_suite_manifest_sha256 r /\ h = h /\ env = env)
  \/ encodings_collide (EnvironmentFingerprint_json env) (EnvironmentFingerprint_json env)
  \/ exists d1 d2, encodings_collide (grader_document r d1 h) (grader_document r d2 h).
Proof. cbv zeta. eapply grader_id_binds; vm_compute; reflexivity. Defined.

End ModelFacts.
