(* ===== verification/Grading.v ===== *)
(** * Scoring and reward shaping ([src/bpe/grading.py])

    [score_evidence] is the grader: it revalidates its three arguments, checks the
    evidence against the scoring contract, and builds the [Grade], whose own
    validation is part of the call.  The sections after the definitions prove what
    the grade means: when it is a success, that scoring is total on validated
    input, the bounds and the order of the training reward under binary64
    rounding. *)
From Stdlib Require Import ZArith QArith Qabs Lqa String Ascii Lia.
From stdpp Require Import base tactics list strings.
From S2P Require Import Prelude Floats FloatRange Sha256 Json JsonFacts Models Samples ModelFacts.
Local Open Scope string_scope.
Local Open Scope Z_scope.

Module Grading.
Import Json JsonFacts Models Samples ModelFacts.

(** [_first_non_pass] *)
Definition first_non_pass (e : EvaluationEvidence) : option StageEvidence :=
  find_first (fun s => bool_decide (st_outcome s <> PASS)) (ev_stages e).

(** [_training_reward] *)
Definition training_reward (e : EvaluationEvidence) (p : RewardPolicy)
    (first_failure_stage : option Stage) (first_failure_reason : option string)
    (explicit_hack : bool) : result string float64 :=
  match first_failure_stage with
  | None => Ok (rp_success_reward p)
  | Some stage =>
      let reason_is_hack :=
        match first_failure_reason with
        | Some r => negb (bool_decide (r = "")) && String.prefix (rp_explicit_hack_reason_prefix p) r
        | None => false
        end in
      if explicit_hack || reason_is_hack then Ok (rp_explicit_hack_reward p)
      else
        let failed_fraction :=
          match find_first (fun s => bool_decide (st_stage s = stage)) (ev_stages e) with
          | Some failed => required_fraction failed
          | None => Err "StopIteration"
          end in
        match stage with
        | INGEST => Ok (rp_ingest_failure_reward p)
        | COMPILE => Ok (rp_compile_failure_reward p)
        | OBJECT_POLICY => Ok (rp_object_policy_failure_reward p)
        | VERIFIER => Ok (rp_verifier_failure_reward p)
        | FUNCTIONAL =>
            let* fraction := failed_fraction in
            Ok (fmul (rp_functional_reward_cap p) fraction)
        | SEMANTICS =>
            let* fraction := failed_fraction in
            let span := fsub (rp_semantics_reward_cap p) (rp_functional_reward_cap p) in
            Ok (fadd (rp_functional_reward_cap p) (fmul span fraction))
        end
  end.

(** [expected_by_stage[stage]]: the contract's checks of a stage, by id. *)
Definition expected_for (c : ScoringContract) (stage : Stage) : list (string * ExpectedCheck) :=
  dict_of ((fun k => (ec_check_id k, k)) <$> filter (fun k => ec_stage k = stage) (sc_checks c)).

(** [{check.check_id: check for check in stage_evidence.checks}] *)
Definition actual_checks (s : StageEvidence) : list (string * CheckEvidence) :=
  dict_of ((fun k => (chk_check_id k, k)) <$> st_checks s).

(** One expected check against the recorded one. *)
Definition validate_check (actual : list (string * CheckEvidence))
    (item : string * ExpectedCheck) : result string unit :=
  let '(check_id, expected_check) := item in
  let* actual_check := dict_index actual check_id in
  raise ("check metadata differs from contract: " ++ check_id)
    when negb (bool_decide (chk_required actual_check = ec_required expected_check))
         || negb (feqb (chk_weight actual_check) (ec_weight expected_check)) ;;
  for_each
    (fun ar : string * ArtifactRef =>
       raise ("check input artifact differs from contract: " ++ check_id ++ "/" ++ ar.1)
         when negb (bool_decide (dict_get (chk_artifacts actual_check) ar.1 = Some ar.2)) ;;
       Ok tt)
    (ec_input_artifacts expected_check).

(** The body of the stage loop of [_validate_contract]. *)
Definition validate_stage (c : ScoringContract) (s : StageEvidence) : result string unit :=
  if bool_decide (st_outcome s = SKIPPED) then Ok tt
  else
    let expected := expected_for c (st_stage s) in
    let actual := actual_checks s in
    if bool_decide (st_outcome s ∈ INFRA_OUTCOMES) && negb (nonempty actual) then Ok tt
    else
      raise (Stage_value (st_stage s) ++ " evidence check set does not match contract")
        when negb (same_set actual.*1 expected.*1) ;;
      for_each (validate_check actual) expected.

(** [_validate_contract] *)
Definition validate_contract (e : EvaluationEvidence) (c : ScoringContract) : result string unit :=
  let request := ev_request e in
  raise "scoring contract does not match the evidence task identity"
    when negb (bool_decide
      ((req_task_id request, req_task_version request, req_task_bundle_sha256 request)
       = (sc_task_id c, sc_task_version c, sc_task_bundle_sha256 c))) ;;
  for_each (validate_stage c) (ev_stages e).

(** The [explicit_hack] scan: a required check that did not pass and whose reason
    has the policy's prefix. *)
Definition explicit_hack (e : EvaluationEvidence) (p : RewardPolicy) : bool :=
  existsb
    (fun s =>
       existsb
         (fun k => chk_required k && bool_decide (chk_outcome k <> PASS)
                   && String.prefix (rp_explicit_hack_reason_prefix p) (chk_reason_code k))
         (st_checks s))
    (ev_stages e).

(** [score_evidence] *)
Definition score_evidence (e : EvaluationEvidence) (c : ScoringContract) (p : RewardPolicy) :
    result string Grade :=
  let* _ := validate_EvaluationEvidence e in
  let* _ := validate_ScoringContract c in
  let* _ := validate_RewardPolicy p in
  let* _ := validate_contract e c in
  let* evidence_sha256 := sha256_json (EvaluationEvidence_json e) in
  let* contract_sha256 := sha256_json (ScoringContract_json c) in
  let stage_outcomes := stage_outcomes_of (ev_stages e) in
  let first := first_non_pass e in
  let grade comparable strict score reward :=
    {| gr_policy_id := rp_policy_id p;
       gr_grader_id := ev_grader_id e;
       gr_task_id := req_task_id (ev_request e);
       gr_candidate_sha256 := art_sha256 (req_candidate (ev_request e));
       gr_evidence_sha256 := evidence_sha256;
       gr_contract_sha256 := contract_sha256;
       gr_comparable := comparable;
       gr_strict_success := strict;
       gr_benchmark_score := score;
       gr_training_reward := reward;
       gr_first_failure := st_stage <$> first;
       gr_failure_reason := st_reason_code <$> first;
       gr_stage_outcomes := stage_outcomes |} in
  if match first with Some s => bool_decide (st_outcome s ∈ INFRA_OUTCOMES) | None => false end
  then construct validate_Grade (grade false None None None)
  else
    let success := is_none first in
    let* reward :=
      training_reward e p (st_stage <$> first) (st_reason_code <$> first) (explicit_hack e p) in
    construct validate_Grade
      (grade true (Some success) (Some (if success then fone else fzero)) (Some reward)).

(** ** Floats in fields *)
Section FloatFields.
Local Open Scope Q_scope.

Lemma float_between_inv lo hi x :
  float_between lo hi x = true -> is_finite lo = true -> is_finite hi = true ->
  wf_float x /\ is_finite x = true /\ fq lo <= fq x <= fq hi.
Proof.
  unfold float_between. rewrite !andb_true_iff. intros (((Hw & Hf) & Hl) & Hh) Flo Fhi.
  apply fleb_value in Hl, Hh; try done. split_and!; try done. by apply is_float64_wf.
Qed.

Lemma float_between_intro lo hi x :
  is_float64 x = true -> is_finite x = true -> is_finite lo = true -> is_finite hi = true ->
  fq lo <= fq x <= fq hi -> float_between lo hi x = true.
Proof.
  intros Hw Hf Flo Fhi [Hl Hh]. unfold float_between. rewrite Hw, Hf.
  apply fleb_value in Hl, Hh; try done. by rewrite Hl, Hh.
Qed.

Definition million : Q := inject_Z 1000000.

Lemma million_value : is_finite (of_Z 1000000) = true /\ fq (of_Z 1000000) == million.
Proof. split; vm_compute; reflexivity. Qed.

Lemma weight_ok_inv w :
  weight_ok w = true -> wf_float w /\ is_finite w = true /\ 0 < fq w <= million.
Proof.
  unfold weight_ok. rewrite !andb_true_iff. intros (((Hw & Hf) & Hl) & Hh).
  destruct million_value as [Fm Vm]. apply (fltb_value fzero w eq_refl Hf) in Hl.
  apply (fleb_value w _ Hf Fm) in Hh. rewrite Vm in Hh. change (fq fzero) with (0 * 1) in Hl.
  split_and!; [by apply is_float64_wf|exact Hf|lra|exact Hh].
Qed.

(** An accumulator of a weighted sum after at most [k] weights. *)
Record accumulator (k : Z) (a : float64) : Prop := {
  acc_wf : wf_float a;
  acc_finite : is_finite a = true;
  acc_range : 0 <= fq a <= inject_Z k * million
}.

Lemma small_count_million k : (0 <= k < 2 ^ 30)%Z ->
  inject_Z k * million == inject_Z (k * 1000000) /\ representable (inject_Z (k * 1000000))
  /\ inject_Z k * million <= pow2 999.
Proof.
  intros Hk. assert (He : inject_Z k * million == inject_Z (k * 1000000)).
  { unfold million. by rewrite inject_Z_mult. }
  split_and!; [done|apply representable_Z; lia|]. rewrite He, pow2_Z by lia. rewrite <-Zle_Qle.
  transitivity (2 ^ 50)%Z; [|apply Z.pow_le_mono_r]; lia.
Qed.

Lemma accumulate k a w :
  accumulator k a -> weight_ok w = true -> (0 <= k < 2 ^ 30 - 1)%Z ->
  accumulator (k + 1) (fadd a w) /\ fq a <= fq (fadd a w) /\ 0 < fq (fadd a w).
Proof.
  intros [Hwa Hfa [Ha0 Hak]] (Hww & Hfw & Hw0 & Hw1)%weight_ok_inv Hk.
  destruct (small_count_million (k + 1)) as (He & Hr & Hp); [lia|].
  assert (Hs : inject_Z (k + 1) * million == inject_Z k * million + million).
  { rewrite inject_Z_plus. change (inject_Z 1) with 1. lra. }
  assert (Hb : 0 <= fq a + fq w <= inject_Z (k + 1) * million) by lra.
  destruct (fadd_value a w) as [Hf Hv]; [done|done| |].
  { rewrite Qabs_pos by lra. pose proof (pow2_le 999 1000 ltac:(lia)). lra. }
  assert (Hle : fq (fadd a w) <= inject_Z (k + 1) * million).
  { rewrite Hv, He. rewrite <-(round64_exact _ Hr). apply round64_le. rewrite <-He. lra. }
  assert (Ha : fq a <= fq (fadd a w)).
  { rewrite Hv. rewrite <-(round64_fq a Hwa) at 1. apply round64_le. lra. }
  assert (Hw : fq w <= fq (fadd a w)).
  { rewrite Hv. rewrite <-(round64_fq w Hww) at 1. apply round64_le. lra. }
  split_and!; [constructor; [apply fadd_wf|done|lra]|done|lra].
Qed.

(** Adding up the weights of all checks and of those that pass [p] in step. *)
Lemma accumulate_all (p : CheckEvidence -> Prop) `{forall c, Decision (p c)} cs k a b :
  Forall (fun c => weight_ok (chk_weight c) = true) cs ->
  accumulator k a -> accumulator k b -> fq a <= fq b ->
  (0 <= k)%Z -> (k + Z.of_nat (length cs) < 2 ^ 30)%Z ->
  let pa := fold_left fadd (chk_weight <$> filter p cs) a in
  let tb := fold_left fadd (chk_weight <$> cs) b in
  accumulator (k + Z.of_nat (length cs)) pa /\ accumulator (k + Z.of_nat (length cs)) tb
  /\ fq pa <= fq tb /\ fq b <= fq tb.
Proof.
  revert k a b. induction cs as [|c cs IH]; intros k a b Hw Ha Hb Hab Hk Hl; cbn in *.
  { rewrite Z.add_0_r. split_and!; [done..|lra]. }
  apply Forall_cons in Hw as [Hc Hw].
  destruct (accumulate k b (chk_weight c)) as (Hb' & Hbb & _); [done..|lia|].
  replace (k + Z.of_nat (S (length cs)))%Z with ((k + 1) + Z.of_nat (length cs))%Z by lia.
  assert (Hweak : accumulator (k + 1) a).
  { destruct Ha as [? ? [? Hak]]. constructor; [done..|]. split; [done|].
    rewrite inject_Z_plus. change (inject_Z 1) with 1.
    assert (0 <= million) by (vm_compute; discriminate). lra. }
  case_decide; cbn.
  - destruct (accumulate k a (chk_weight c)) as (Ha' & _ & _); [done..|lia|].
    destruct (IH (k + 1)%Z (fadd a (chk_weight c)) (fadd b (chk_weight c))) as (? & ? & ? & ?); try done; try lia.
    + destruct Ha as [? ? ?], Hb as [? ? [? Hbk]]. apply weight_ok_inv in Hc as (? & ? & ? & ?).
      destruct (small_count_million (k + 1)) as (_ & _ & Hp); [lia|].
      pose proof (pow2_le 999 1000 ltac:(lia)).
      assert (inject_Z (k + 1) * million == inject_Z k * million + million).
      { rewrite inject_Z_plus. change (inject_Z 1) with 1. lra. }
      destruct (fadd_value a (chk_weight c)) as [_ ->]; [done..|rewrite Qabs_pos; lra|].
      destruct (fadd_value b (chk_weight c)) as [_ ->]; [done..|rewrite Qabs_pos; lra|].
      apply round64_le. lra.
    + split_and!; [done..|lra].
  - destruct (IH (k + 1)%Z a (fadd b (chk_weight c))) as (? & ? & ? & ?); try done; try lia; [lra|].
    split_and!; [done..|lra].
Qed.

Lemma fsum_weights_pos cs c :
  Forall (fun c => weight_ok (chk_weight c) = true) (c :: cs) ->
  (Z.of_nat (length (c :: cs)) < 2 ^ 30)%Z ->
  0 < fq (fsum (chk_weight <$> c :: cs)).
Proof.
  intros [Hc Hw]%Forall_cons Hl. cbn in Hl.
  assert (H0 : accumulator 0 fzero).
  { constructor; [by right|done|]. split; vm_compute; discriminate. }
  destruct (accumulate 0 fzero (chk_weight c)) as (H1 & _ & Hp); [done..|lia|].
  destruct (accumulate_all (fun _ => True) cs 1 (fadd fzero (chk_weight c)) (fadd fzero (chk_weight c)))
    as (_ & _ & _ & Hle); [done..|lra|lia|lia|].
  unfold fsum. cbn [fmap list_fmap fold_left]. lra.
Qed.

(** [required_fraction] of a validated stage: a float in [[0, 1]]. *)
Lemma required_fraction_range s :
  validate_StageEvidence s = Ok tt ->
  exists x, required_fraction s = Ok x /\ wf_float x /\ is_finite x = true /\ 0 <= fq x <= 1.
Proof.
  intros H. unfold validate_StageEvidence in H. ok_inv. bool_prop.
  match goal with H : for_each _ _ = Ok _ |- _ => destruct v; apply for_each_ok in H; rename H into Hc end.
  unfold required_fraction. destruct (required_checks s) as [|c cs] eqn:Hr; cbn [nonempty negb].
  { case_bool_decide; eexists; (split; [reflexivity|]); (split; [by apply is_float64_wf|]);
      (split; [reflexivity|]); split; vm_compute; discriminate. }
  assert (Hw : Forall (fun c => weight_ok (chk_weight c) = true) (c :: cs)).
  { rewrite <-Hr. apply Forall_forall. intros x Hx. unfold required_checks in Hx.
    apply list_elem_of_filter in Hx as [_ Hx]. rewrite Forall_forall in Hc. apply Hc in Hx. unfold validate_CheckEvidence in Hx. by ok_inv. }
  assert (Hl : (Z.of_nat (length (c :: cs)) < 2 ^ 30)%Z).
  { rewrite <-Hr. unfold required_checks. pose proof (length_filter (fun c => chk_required c = true) (st_checks s)). lia. }
  pose proof (fsum_weights_pos cs c Hw Hl) as Hpos.
  assert (H0 : accumulator 0 fzero).
  { constructor; [by right|done|]. split; vm_compute; discriminate. }
  destruct (accumulate_all (fun c => chk_outcome c = PASS) (c :: cs) 0 fzero fzero)
    as ([_ Hpf [Hp0 _]] & [_ Htf [_ Htk]] & Hle & _); [done..|lra|lia|lia|].
  unfold fsum in Hpos. fold fsum in *.
  set (t := fold_left fadd (chk_weight <$> c :: cs) fzero) in *.
  set (q := fold_left fadd (chk_weight <$> filter _ (c :: cs)) fzero) in *.
  assert (Hq : 0 <= fq q / fq t <= 1).
  { split; [apply Qle_shift_div_l|apply Qle_shift_div_r]; lra. }
  destruct (fdiv_value q t) as (x & Hx & Hxf & Hxv); [done..|lra| |].
  { rewrite Qabs_pos by lra. pose proof (pow2_le 0 1000 ltac:(lia)) as Hp. change (pow2 0) with 1 in Hp. lra. }
  exists x. split_and!; [exact Hx|by eapply fdiv_wf|done|rewrite Hxv; apply round64_nonneg; lra|].
  rewrite Hxv. apply (Qle_trans _ (round64 1)); [apply round64_le; lra|].
  rewrite round64_exact; [lra|]. apply (representable_Z 1). lia.
Qed.
End FloatFields.

(** ** The reward arithmetic *)
Section RewardRange.
Local Open Scope Q_scope.

Lemma float_between_unit x : float_between fzero fone x = true -> in_range 0 1 x.
Proof.
  intros (? & ? & Hr)%float_between_inv; [|done..]. constructor; [done..|].
  change (fq fzero) with (0 * 1) in Hr. change (fq fone) with (1 * 1) in Hr. lra.
Qed.

Lemma float_between_signed x : float_between fminus_one fone x = true -> in_range (-1) 1 x.
Proof.
  intros (? & ? & Hr)%float_between_inv; [|done..]. constructor; [done..|].
  change (fq fminus_one) with (-1 * 1) in Hr. change (fq fone) with (1 * 1) in Hr. lra.
Qed.

Lemma float_between_hack x : float_between fminus_one fzero x = true -> in_range (-1) 0 x.
Proof.
  intros (? & ? & Hr)%float_between_inv; [|done..]. constructor; [done..|].
  change (fq fminus_one) with (-1 * 1) in Hr. change (fq fzero) with (0 * 1) in Hr. lra.
Qed.

Lemma in_range_between x : in_range (-1) 1 x -> float_between fminus_one fone x = true.
Proof.
  intros [Hw Hf Hr]. pose proof pow2_1000_big. apply float_between_intro; [|done..|].
  - apply wf_is_float64; [done|]. apply Qabs_Qle_condition. lra.
  - change (fq fminus_one) with (-1 * 1). change (fq fone) with (1 * 1). lra.
Qed.

(** The semantics reward [f + (s - f) * fraction]: at least [f], never above 1. *)
Lemma semantics_formula f s x :
  in_range 0 1 f -> in_range 0 1 s -> in_range 0 1 x -> fq f <= fq s ->
  in_range (fq f) 1 (fadd f (fmul (fsub s f) x)).
Proof.
  intros Hf Hs Hx Hle. pose proof pow2_1000_big. pose proof (pow2_pos (-54)).
  assert (Hspan : in_range 0 1 (fsub s f) /\ fq (fsub s f) <= fq s - fq f + pow2 (-54)).
  { destruct Hf as [? ? ?], Hs as [? ? ?].
    destruct (fsub_value s f) as [Hsf Hsv]; [done..|apply Qabs_Qle_condition; lra|].
    pose proof (round64_error_unit (fq s - fq f) ltac:(lra)) as He. apply Qabs_Qle_condition in He.
    split; [constructor; [apply fadd_wf|done|]|rewrite Hsv; lra].
    rewrite Hsv. split; [apply round64_nonneg; lra|].
    apply (Qle_trans _ (round64 1)); [apply round64_le; lra|].
    rewrite round64_exact; [lra|]. apply (representable_Z 1). lia. }
  destruct Hspan as [Hspan Herr]. pose proof (fmul_fraction _ _ Hspan Hx) as [_ Hpf Hp].
  destruct Hf as [Hfw Hff Hf], Hs as [_ _ Hs], Hspan as [_ _ Hspan].
  destruct (fadd_value f (fmul (fsub s f) x)) as [Haf Hav]; [done..|apply Qabs_Qle_condition; lra|].
  constructor; [apply fadd_wf|done|]. rewrite Hav. split.
  - rewrite <-(round64_fq f Hfw) at 1. apply round64_le. lra.
  - apply round64_near_one. lra.
Qed.

(** What a validated policy promises. *)
Record valid_policy (p : RewardPolicy) : Prop := {
  vp_id : is_stable_id (rp_policy_id p) = true;
  vp_ingest : in_range (-1) 1 (rp_ingest_failure_reward p);
  vp_compile : in_range (-1) 1 (rp_compile_failure_reward p);
  vp_object : in_range (-1) 1 (rp_object_policy_failure_reward p);
  vp_verifier : in_range (-1) 1 (rp_verifier_failure_reward p);
  vp_functional : in_range 0 1 (rp_functional_reward_cap p);
  vp_semantics : in_range 0 1 (rp_semantics_reward_cap p);
  vp_success : in_range 0 1 (rp_success_reward p);
  vp_hack : in_range (-1) 0 (rp_explicit_hack_reward p);
  vp_monotone :
    fq (rp_ingest_failure_reward p) <= fq (rp_compile_failure_reward p)
    /\ fq (rp_compile_failure_reward p) <= fq (rp_object_policy_failure_reward p)
    /\ fq (rp_object_policy_failure_reward p) <= fq (rp_verifier_failure_reward p)
    /\ fq (rp_verifier_failure_reward p) <= fq (rp_functional_reward_cap p)
    /\ fq (rp_functional_reward_cap p) <= fq (rp_semantics_reward_cap p)
    /\ fq (rp_semantics_reward_cap p) <= fq (rp_success_reward p)
}.

Lemma not_fltb_le x y : is_finite x = true -> is_finite y = true -> fltb y x = false -> fq x <= fq y.
Proof.
  intros Hx Hy Hlt. destruct (Qlt_le_dec (fq y) (fq x)) as [H|H]; [|done].
  apply fltb_value in H; [|done..]. congruence.
Qed.

Lemma validate_RewardPolicy_ok p : validate_RewardPolicy p = Ok tt -> valid_policy p.
Proof.
  unfold validate_RewardPolicy, rewards_must_be_monotonic. intros H. ok_inv.
  repeat match goal with
  | H : float_between fminus_one fone _ = true |- _ => apply float_between_signed in H
  | H : float_between fzero fone _ = true |- _ => apply float_between_unit in H
  | H : float_between fminus_one fzero _ = true |- _ => apply float_between_hack in H
  end.
  match goal with H : existsb _ _ = false |- _ => rename H into Hmono end.
  cbn [reward_sequence pairwise existsb fst snd] in Hmono. bool_prop.
  constructor; try done.
  repeat match goal with H : in_range _ _ ?x |- _ => destruct H as [_ H _] end.
  split_and!; by apply not_fltb_le.
Qed.
End RewardRange.

(** ** Scoring validated evidence *)
Lemma first_non_pass_spec e s :
  first_non_pass e = Some s ->
  s ∈ ev_stages e /\ st_outcome s <> PASS.
Proof.
  intros (l1 & l2 & He & Hp & _)%find_first_Some. bool_prop. split; [|done].
  rewrite He. apply elem_of_app. right. by left.
Qed.

Lemma first_non_pass_none e :
  first_non_pass e = None <-> Forall (fun s => st_outcome s = PASS) (ev_stages e).
Proof.
  unfold first_non_pass. rewrite find_first_None. apply Forall_proper; [|done].
  intros s. rewrite bool_decide_eq_false. split; [apply dec_stable|]. by intros -> ?.
Qed.

(** In a run the first stage that did not pass was not skipped. *)
Lemma first_non_pass_not_skipped e s :
  pipeline_run (ev_stages e) -> first_non_pass e = Some s -> st_outcome s <> SKIPPED.
Proof.
  unfold first_non_pass, find_first. induction 1 as [|t l Ht Hl IH|t l Hp Hs Hl]; cbn; [done| |].
  - by rewrite bool_decide_false by (intros ?; congruence).
  - rewrite bool_decide_true by done. by intros [= <-].
Qed.

Lemma validated_stage_reason s : validate_StageEvidence s = Ok tt -> is_stable_id (st_reason_code s) = true.
Proof. unfold validate_StageEvidence. intros H. by ok_inv. Qed.

Lemma stable_id_nonempty s : is_stable_id s = true -> s <> "".
Proof. by intros H ->. Qed.

(** The stage that [training_reward] looks up by name is the failing stage. *)
Lemma failing_stage_lookup e s :
  st_stage <$> ev_stages e = STAGE_ORDER -> s ∈ ev_stages e ->
  find_first (fun t => bool_decide (st_stage t = st_stage s)) (ev_stages e) = Some s.
Proof.
  intros Ho Hs. assert (Hnd : NoDup (st_stage <$> ev_stages e)) by (rewrite Ho; apply stage_order_NoDup).
  clear Ho. induction (ev_stages e) as [|t l IH]; [by apply elem_of_nil in Hs|].
  cbn in Hnd. apply NoDup_cons in Hnd as [Ht Hnd]. unfold find_first in *. cbn.
  apply elem_of_cons in Hs as [->|Hs]; [by rewrite bool_decide_true|].
  rewrite bool_decide_false; [by apply IH|]. intros He. apply Ht. rewrite He.
  by apply (list_elem_of_fmap_2 st_stage).
Qed.

(** The training reward of a scored run is defined and lies in [[-1, 1]]. *)
Lemma training_reward_range e p hack :
  valid_evidence e -> valid_policy p ->
  let first := first_non_pass e in
  exists r, training_reward e p (st_stage <$> first) (st_reason_code <$> first) hack = Ok r
            /\ in_range (-1) 1 r.
Proof.
  intros He Hp. cbv zeta. destruct (first_non_pass e) as [s|] eqn:Hf; cbn [fmap option_fmap option_map].
  2: { eexists; split; [done|]. eapply in_range_weaken; [apply (vp_success p Hp)|lra|lra]. }
  apply first_non_pass_spec in Hf as [Hs _]. cbn [training_reward].
  destruct (hack || _).
  { eexists; split; [done|]. eapply in_range_weaken; [apply (vp_hack p Hp)|lra|lra]. }
  rewrite (failing_stage_lookup e s (ve_order e He) Hs).
  destruct (required_fraction_range s) as (x & -> & Hxw & Hxf & Hx).
  { pose proof (ve_stages e He) as Hv. rewrite Forall_forall in Hv. auto. }
  assert (Hxr : in_range 0 1 x) by by constructor.
  cbn [bind_result]. destruct (st_stage s); eexists; (split; [reflexivity|]); try apply Hp.
  - pose proof (fmul_fraction _ _ (vp_functional p Hp) Hxr) as Hm.
    destruct (vp_functional p Hp) as [_ _ Hc]. eapply in_range_weaken; [exact Hm|lra|lra].
  - pose proof (semantics_formula _ _ _ (vp_functional p Hp) (vp_semantics p Hp) Hxr) as Hm.
    destruct (vp_monotone p Hp) as (_ & _ & _ & _ & Hle & _).
    destruct (vp_functional p Hp) as [_ _ Hc]. eapply in_range_weaken; [exact (Hm Hle)|lra|lra].
Qed.

(** The grade built for evidence, a contract digest and a policy, before its own
    validation. *)
Definition grade_of (e : EvaluationEvidence) (p : RewardPolicy) (he hc : string)
    (comparable : bool) (strict : option bool) (score reward : option float64) : Grade :=
  {| gr_policy_id := rp_policy_id p;
     gr_grader_id := ev_grader_id e;
     gr_task_id := req_task_id (ev_request e);
     gr_candidate_sha256 := art_sha256 (req_candidate (ev_request e));
     gr_evidence_sha256 := he;
     gr_contract_sha256 := hc;
     gr_comparable := comparable;
     gr_strict_success := strict;
     gr_benchmark_score := score;
     gr_training_reward := reward;
     gr_first_failure := st_stage <$> first_non_pass e;
     gr_failure_reason := st_reason_code <$> first_non_pass e;
     gr_stage_outcomes := stage_outcomes_of (ev_stages e) |}.

Lemma score_evidence_eq e c p :
  score_evidence e c p =
  let* _ := validate_EvaluationEvidence e in
  let* _ := validate_ScoringContract c in
  let* _ := validate_RewardPolicy p in
  let* _ := validate_contract e c in
  let* he := sha256_json (EvaluationEvidence_json e) in
  let* hc := sha256_json (ScoringContract_json c) in
  let first := first_non_pass e in
  if match first with Some s => bool_decide (st_outcome s ∈ INFRA_OUTCOMES) | None => false end
  then construct validate_Grade (grade_of e p he hc false None None None)
  else
    let* reward :=
      training_reward e p (st_stage <$> first) (st_reason_code <$> first) (explicit_hack e p) in
    construct validate_Grade
      (grade_of e p he hc true (Some (is_none first)) (Some (if is_none first then fone else fzero))
         (Some reward)).
Proof. reflexivity. Qed.

(** Every field annotation of the grade holds. *)
Lemma grade_of_fields e p he hc comparable strict (score reward : option float64) :
  valid_evidence e -> valid_policy p -> is_sha256 he = true -> is_sha256 hc = true ->
  opt_ok (float_between fzero fone) score = true ->
  opt_ok (float_between fminus_one fone) reward = true ->
  let g := grade_of e p he hc comparable strict score reward in
  validate_Grade g = comparable_fields_are_consistent g.
Proof.
  intros He Hp Hhe Hhc Hs Hr. unfold validate_Grade. cbn [grade_of gr_policy_id gr_grader_id gr_task_id
    gr_candidate_sha256 gr_evidence_sha256 gr_contract_sha256 gr_benchmark_score gr_training_reward
    gr_failure_reason gr_stage_outcomes].
  rewrite (vp_id p Hp), (ve_grader e He), (ve_task_id e He), (ve_candidate e He), Hhe, Hhc, Hs, Hr.
  assert (Hf : opt_ok is_stable_id (st_reason_code <$> first_non_pass e) = true).
  { destruct (first_non_pass e) as [s|] eqn:Hf; [|done]. apply first_non_pass_spec in Hf as [Hin _].
    pose proof (ve_stages e He) as Hv. rewrite Forall_forall in Hv. cbn. by apply validated_stage_reason, Hv. }
  assert (Hu : unique (stage_outcomes_of (ev_stages e)).*1 = true) by apply unique_NoDup, dict_of_NoDup_keys.
  by rewrite Hf, Hu.
Qed.

Lemma stage_outcomes_keys e :
  valid_evidence e -> (stage_outcomes_of (ev_stages e)).*1 = STAGE_ORDER.
Proof.
  intros He. rewrite stage_outcomes_list by apply He. rewrite <-list_fmap_compose. apply He.
Qed.

Lemma stage_outcomes_first e :
  valid_evidence e ->
  first_non_pass_in STAGE_ORDER (stage_outcomes_of (ev_stages e))
  = Ok ((fun s => (st_stage s, st_outcome s)) <$> first_non_pass e).
Proof.
  intros He. rewrite <-(ve_order e He) at 1. apply first_non_pass_in_stages.
  apply Forall_forall. intros s Hs. apply stage_outcomes_get; [apply He|done].
Qed.

Lemma grade_of_comparable e p he hc reward :
  valid_evidence e ->
  (forall s, first_non_pass e = Some s -> st_outcome s ∉ INFRA_OUTCOMES) ->
  comparable_fields_are_consistent
    (grade_of e p he hc true (Some (is_none (first_non_pass e)))
       (Some (if is_none (first_non_pass e) then fone else fzero)) (Some reward)) = Ok tt.
Proof.
  intros He Hni. unfold comparable_fields_are_consistent, grade_of.
  cbn [gr_stage_outcomes gr_strict_success gr_benchmark_score gr_training_reward gr_comparable
       gr_first_failure gr_failure_reason].
  rewrite stage_outcomes_keys, stage_outcomes_first by done.
  destruct (first_non_pass e) as [s|]; [|reflexivity].
  cbn. rewrite (bool_decide_false (st_outcome s ∈ _)) by auto.
  rewrite (bool_decide_true (Some (st_stage s) = _)) by done. reflexivity.
Qed.

Lemma grade_of_incomparable e p he hc s :
  valid_evidence e -> first_non_pass e = Some s -> st_outcome s ∈ INFRA_OUTCOMES ->
  comparable_fields_are_consistent (grade_of e p he hc false None None None) = Ok tt.
Proof.
  intros He Hf Hin. unfold comparable_fields_are_consistent, grade_of.
  cbn [gr_stage_outcomes gr_strict_success gr_benchmark_score gr_training_reward gr_comparable
       gr_first_failure gr_failure_reason].
  rewrite stage_outcomes_keys, stage_outcomes_first by done. rewrite Hf.
  cbn. rewrite (bool_decide_true (st_outcome s ∈ _)) by done.
  rewrite (bool_decide_true (Some (st_stage s) = _)) by done. reflexivity.
Qed.

(** The grade of a run that was scored, in one equation. *)
Definition infra_stop (e : EvaluationEvidence) : bool :=
  match first_non_pass e with Some s => bool_decide (st_outcome s ∈ INFRA_OUTCOMES) | None => false end.

Lemma score_evidence_defined e c p he hc :
  validate_EvaluationEvidence e = Ok tt -> validate_ScoringContract c = Ok tt ->
  validate_RewardPolicy p = Ok tt -> validate_contract e c = Ok tt ->
  sha256_json (EvaluationEvidence_json e) = Ok he -> sha256_json (ScoringContract_json c) = Ok hc ->
  exists g, score_evidence e c p = Ok g /\
    if infra_stop e then g = grade_of e p he hc false None None None
    else exists r,
      training_reward e p (st_stage <$> first_non_pass e) (st_reason_code <$> first_non_pass e)
        (explicit_hack e p) = Ok r
      /\ in_range (-1) 1 r
      /\ g = grade_of e p he hc true (Some (is_none (first_non_pass e)))
               (Some (if is_none (first_non_pass e) then fone else fzero)) (Some r).
Proof.
  intros H1 H2 H3 H4 H5 H6. rewrite score_evidence_eq, H1, H2, H3, H4, H5, H6. cbn [bind_result]. cbv zeta.
  apply validate_EvaluationEvidence_ok in H1 as He. apply validate_RewardPolicy_ok in H3 as Hp.
  apply sha256_json_is_sha256 in H5, H6. change (match first_non_pass e with
    | Some s => bool_decide (st_outcome s ∈ INFRA_OUTCOMES) | None => false end) with (infra_stop e).
  destruct (infra_stop e) eqn:Hi.
  - eexists. split; [|reflexivity]. unfold construct. rewrite grade_of_fields by done.
    unfold infra_stop in Hi. destruct (first_non_pass e) as [s|] eqn:Hf; [|done]. bool_prop.
    by erewrite grade_of_incomparable.
  - destruct (training_reward_range e p (explicit_hack e p) He Hp) as (r & Hr & Hrange). cbv zeta in Hr.
    rewrite Hr. cbn [bind_result]. eexists. split; [|by exists r]. unfold construct.
    rewrite grade_of_fields; [|done..| |by apply in_range_between].
    + rewrite grade_of_comparable; [done|done|]. intros s Hf.
      unfold infra_stop in Hi. rewrite Hf in Hi. by bool_prop.
    + by destruct (is_none _); vm_compute.
Qed.

(** Inversion of a successful scoring call. *)
Lemma score_evidence_inv e c p g :
  score_evidence e c p = Ok g ->
  exists he hc,
    validate_EvaluationEvidence e = Ok tt /\ validate_ScoringContract c = Ok tt
    /\ validate_RewardPolicy p = Ok tt /\ validate_contract e c = Ok tt
    /\ sha256_json (EvaluationEvidence_json e) = Ok he
    /\ sha256_json (ScoringContract_json c) = Ok hc
    /\ if infra_stop e then g = grade_of e p he hc false None None None
       else exists r,
         training_reward e p (st_stage <$> first_non_pass e) (st_reason_code <$> first_non_pass e)
           (explicit_hack e p) = Ok r
         /\ in_range (-1) 1 r
         /\ g = grade_of e p he hc true (Some (is_none (first_non_pass e)))
                  (Some (if is_none (first_non_pass e) then fone else fzero)) (Some r).
Proof.
  intros H. pose proof H as H'. rewrite score_evidence_eq in H'.
  apply bind_ok in H' as ([] & H1 & H'). apply bind_ok in H' as ([] & H2 & H').
  apply bind_ok in H' as ([] & H3 & H'). apply bind_ok in H' as ([] & H4 & H').
  apply bind_ok in H' as (he & H5 & H'). apply bind_ok in H' as (hc & H6 & _).
  destruct (score_evidence_defined e c p he hc) as (g' & Hg & Hshape); try done.
  rewrite H in Hg. injection Hg as ->. exists he, hc. done.
Qed.

(** A scoring call that is known to succeed without its digests being computed:
    the validators accept and both documents have a canonical encoding. *)
Definition scorable (e : EvaluationEvidence) (c : ScoringContract) (p : RewardPolicy) : bool :=
  is_ok (validate_EvaluationEvidence e) && is_ok (validate_ScoringContract c)
  && is_ok (validate_RewardPolicy p) && is_ok (validate_contract e c)
  && is_ok (canonical_json_bytes (EvaluationEvidence_json e))
  && is_ok (canonical_json_bytes (ScoringContract_json c)).

Lemma scorable_ok e c p :
  scorable e c p = true ->
  exists he hc g, score_evidence e c p = Ok g /\
    if infra_stop e then g = grade_of e p he hc false None None None
    else exists r,
      training_reward e p (st_stage <$> first_non_pass e) (st_reason_code <$> first_non_pass e)
        (explicit_hack e p) = Ok r
      /\ g = grade_of e p he hc true (Some (is_none (first_non_pass e)))
               (Some (if is_none (first_non_pass e) then fone else fzero)) (Some r).
Proof.
  unfold scorable. rewrite !andb_true_iff. intros (((((H1 & H2) & H3) & H4) & H5) & H6).
  apply is_ok_unit in H1, H2, H3, H4. apply is_ok_inv in H5 as [be He]. apply is_ok_inv in H6 as [bc Hc].
  apply sha256_json_of in He, Hc.
  destruct (score_evidence_defined e c p _ _ H1 H2 H3 H4 He Hc) as (g & Hg & Hs).
  eexists _, _, g. split; [done|].
  destruct (infra_stop e); [done|]. destruct Hs as (r & Hr & _ & ->). eauto.
Qed.

Lemma scorable_success e c p :
  scorable e c p = true -> first_non_pass e = None ->
  exists g, score_evidence e c p = Ok g /\ gr_strict_success g = Some true.
Proof.
  intros (he & hc & g & Hg & Hs)%scorable_ok Hf. unfold infra_stop in Hs. rewrite Hf in Hs.
  destruct Hs as (r & _ & ->). eauto.
Qed.

Lemma scorable_failure e c p s r :
  scorable e c p = true -> first_non_pass e = Some s -> st_outcome s ∉ INFRA_OUTCOMES ->
  training_reward e p (Some (st_stage s)) (Some (st_reason_code s)) (explicit_hack e p) = Ok r ->
  exists g, score_evidence e c p = Ok g /\ gr_comparable g = true
            /\ gr_strict_success g = Some false /\ gr_training_reward g = Some r.
Proof.
  intros (he & hc & g & Hg & Hs)%scorable_ok Hf Hi Hr. unfold infra_stop in Hs.
  rewrite Hf, bool_decide_false in Hs by done. destruct Hs as (r' & Hr' & ->).
  cbn [fmap option_fmap option_map] in Hr'. rewrite Hr in Hr'. injection Hr' as <-. eauto.
Qed.

Lemma scorable_infra e c p s :
  scorable e c p = true -> first_non_pass e = Some s -> st_outcome s ∈ INFRA_OUTCOMES ->
  exists g, score_evidence e c p = Ok g /\ gr_comparable g = false.
Proof.
  intros (he & hc & g & Hg & Hs)%scorable_ok Hf Hi. unfold infra_stop in Hs.
  rewrite Hf, bool_decide_true in Hs by done. subst g. eauto.
Qed.

(** ** What success means *)

(** A recorded check meets the expected check of the contract. *)
Record meets (k : ExpectedCheck) (a : CheckEvidence) : Prop := {
  meets_id : chk_check_id a = ec_check_id k;
  meets_required : chk_required a = ec_required k;
  meets_weight : feqb (chk_weight a) (ec_weight k) = true;
  meets_artifacts : forall name ref, (name, ref) ∈ ec_input_artifacts k ->
                    dict_get (chk_artifacts a) name = Some ref
}.

Lemma contract_keys_unique c :
  validate_ScoringContract c = Ok tt ->
  NoDup ((fun k => (ec_stage k, ec_check_id k)) <$> sc_checks c).
Proof.
  unfold validate_ScoringContract, check_manifest_is_complete_and_unique. intros H. ok_inv. bool_prop.
  by apply unique_NoDup.
Qed.

Lemma expected_for_list c stage :
  NoDup ((fun k => (ec_stage k, ec_check_id k)) <$> sc_checks c) ->
  expected_for c stage
  = (fun k => (ec_check_id k, k)) <$> filter (fun k => ec_stage k = stage) (sc_checks c).
Proof.
  intros Hnd. apply dict_of_id. rewrite <-list_fmap_compose.
  change (NoDup (ec_check_id <$> filter (fun k => ec_stage k = stage) (sc_checks c))).
  induction (sc_checks c) as [|k l IH]; [constructor|].
  cbn in Hnd. apply NoDup_cons in Hnd as [Hk Hnd]. rewrite filter_cons. case_decide as Hs; [|by apply IH].
  cbn. constructor; [|by apply IH]. intros (j & Hj & [Hjs Hjin]%list_elem_of_filter)%list_elem_of_fmap.
  apply Hk. apply list_elem_of_fmap. exists j. split; [|done]. by rewrite Hs, Hjs, Hj.
Qed.

Lemma actual_checks_list s :
  validate_StageEvidence s = Ok tt ->
  actual_checks s = (fun k => (chk_check_id k, k)) <$> st_checks s
  /\ NoDup (actual_checks s).*1.
Proof.
  intros H. split; [|apply dict_of_NoDup_keys]. apply dict_of_id. rewrite <-list_fmap_compose.
  change (NoDup (chk_check_id <$> st_checks s)).
  unfold validate_StageEvidence, checks_must_agree_with_stage in H. ok_inv. bool_prop.
  by apply unique_NoDup.
Qed.

Lemma validate_check_meets s k a :
  validate_StageEvidence s = Ok tt ->
  validate_check (actual_checks s) (ec_check_id k, k) = Ok tt ->
  dict_get (actual_checks s) (ec_check_id k) = Some a ->
  a ∈ st_checks s /\ meets k a.
Proof.
  intros Hs Hv Ha. destruct (actual_checks_list s Hs) as [Heq _].
  unfold validate_check, dict_index in Hv. rewrite Ha in Hv. cbn in Hv. ok_inv. bool_prop.
  apply dict_get_In in Ha. rewrite Heq in Ha. apply list_elem_of_fmap in Ha as (a' & Hpair & Hin).
  injection Hpair as Hid <-. split; [done|]. constructor; [done..|].
  intros name ref Href. apply for_each_ok in Hv. rewrite Forall_forall in Hv.
  specialize (Hv _ Href). cbn in Hv. ok_inv. by bool_prop.
Qed.

(** Every check of a stage the contract covers is met, when the stage ran. *)
Lemma validated_stage_meets c s :
  validate_ScoringContract c = Ok tt -> validate_StageEvidence s = Ok tt ->
  validate_stage c s = Ok tt -> st_outcome s <> SKIPPED -> st_outcome s ∉ INFRA_OUTCOMES ->
  (forall k, k ∈ sc_checks c -> ec_stage k = st_stage s -> exists a, a ∈ st_checks s /\ meets k a)
  /\ (forall a, a ∈ st_checks s ->
        exists k, k ∈ sc_checks c /\ ec_stage k = st_stage s /\ meets k a).
Proof.
  intros Hc Hs Hv Hsk Hinf. unfold validate_stage in Hv. rewrite !bool_decide_false in Hv by done.
  cbn [andb] in Hv. destruct (same_set _ _) eqn:Hset; [|done]. cbn [negb] in Hv.
  unfold same_set in Hset. apply andb_true_iff in Hset as [Hae%bool_decide_eq_true Hea%bool_decide_eq_true].
  apply for_each_ok in Hv. rewrite Forall_forall in Hv. rewrite Forall_forall in Hae. rewrite Forall_forall in Hea.
  pose proof (expected_for_list c (st_stage s) (contract_keys_unique c Hc)) as Hexp.
  destruct (actual_checks_list s Hs) as [Hact Hnd].
  assert (Hmeet : forall k a, k ∈ sc_checks c -> ec_stage k = st_stage s ->
     dict_get (actual_checks s) (ec_check_id k) = Some a -> a ∈ st_checks s /\ meets k a).
  { intros k a Hk Hst Ha. apply validate_check_meets; [done| |done]. apply Hv. rewrite Hexp.
    apply list_elem_of_fmap. exists k. split; [done|]. by apply list_elem_of_filter. }
  split.
  - intros k Hk Hst. assert (Hin : ec_check_id k ∈ (expected_for c (st_stage s)).*1).
    { rewrite Hexp, <-list_fmap_compose. apply (list_elem_of_fmap_2 ec_check_id).
      by apply list_elem_of_filter. }
    apply Hea in Hin. destruct (dict_get (actual_checks s) (ec_check_id k)) as [a|] eqn:Ha.
    + exists a. by apply Hmeet.
    + by apply dict_get_None in Ha.
  - intros a Ha. assert (Hin : (chk_check_id a, a) ∈ actual_checks s).
    { rewrite Hact. by apply (list_elem_of_fmap_2 (fun k => (chk_check_id k, k))). }
    pose proof Hin as Hget. apply dict_get_Some in Hget; [|done].
    apply (list_elem_of_fmap_2 fst) in Hin. apply Hae in Hin. rewrite Hexp, <-list_fmap_compose in Hin.
    apply list_elem_of_fmap in Hin as (k & Hid & [Hst Hk]%list_elem_of_filter). cbn in Hid.
    exists k. rewrite Hid in Hget. split_and!; [done..|]. by apply Hmeet.
Qed.

(** ** Claims *)

(** C2. Scoring is total: on evidence, a contract and a policy that validate,
    with evidence that matches the contract and digests that can be computed,
    [score_evidence] returns a grade.  No consistency check of the grade itself
    can fire, whatever the floating-point rounding of the reward. *)
Theorem score_evidence_total e c p he hc :
  validate_EvaluationEvidence e = Ok tt -> validate_ScoringContract c = Ok tt ->
  validate_RewardPolicy p = Ok tt -> validate_contract e c = Ok tt ->
  sha256_json (EvaluationEvidence_json e) = Ok he -> sha256_json (ScoringContract_json c) = Ok hc ->
  exists g, score_evidence e c p = Ok g /\ validate_Grade g = Ok tt.
Proof.
  intros H1 H2 H3 H4 H5 H6.
  destruct (score_evidence_defined e c p he hc H1 H2 H3 H4 H5 H6) as (g & Hg & _).
  exists g. split; [done|]. rewrite score_evidence_eq, H1, H2, H3, H4, H5, H6 in Hg.
  cbn [bind_result] in Hg. cbv zeta in Hg. unfold construct in Hg. ok_inv;
  by match goal with u : unit |- _ => destruct u end.
Qed.

Lemma score_evidence_total_witness :
  exists g, score_evidence Samples.functional_failure_evidence Samples.contract Samples.reward_v1 = Ok g
            /\ validate_Grade g = Ok tt.
Proof.
  eapply score_evidence_total; [vm_compute; reflexivity..|eapply sha256_json_of; vm_compute; reflexivity
    |eapply sha256_json_of; vm_compute; reflexivity].
Defined.

Lemma stage_in_order (e : EvaluationEvidence) stage :
  valid_evidence e -> exists s, s ∈ ev_stages e /\ st_stage s = stage.
Proof.
  intros He. assert (Hin : stage ∈ st_stage <$> ev_stages e).
  { rewrite (ve_order e He). destruct stage; rewrite list_elem_of_In; cbn; tauto. }
  apply list_elem_of_fmap in Hin as (s & -> & Hs). eauto.
Qed.

(** A required check of a stage that passed has passed. *)
Lemma passing_stage_checks s a :
  validate_StageEvidence s = Ok tt -> st_outcome s = PASS -> a ∈ st_checks s ->
  chk_required a = true -> chk_outcome a = PASS.
Proof.
  unfold validate_StageEvidence, checks_must_agree_with_stage. intros H Hp Ha Hr.
  ok_inv. bool_prop. apply dec_stable. intros Hne.
  match goal with H : context[nonempty (failed_checks s)] |- _ =>
    rewrite bool_decide_true in H by done end.
  assert (Hin : a ∈ failed_checks s).
  { unfold failed_checks, required_checks. apply list_elem_of_filter. split; [done|].
    by apply list_elem_of_filter. }
  destruct (failed_checks s) as [|x l]; [by apply elem_of_nil in Hin|]. cbn in *. intuition discriminate.
Qed.

(** Strict success, and what it gives for each check of the contract. *)
Lemma strict_success_checks e c p g :
  score_evidence e c p = Ok g ->
  gr_strict_success g = Some true <->
  Forall (fun s => st_outcome s = PASS) (ev_stages e)
  /\ (forall k, k ∈ sc_checks c ->
        exists s a, s ∈ ev_stages e /\ st_stage s = ec_stage k /\ a ∈ st_checks s /\ meets k a
                    /\ (ec_required k = true -> chk_outcome a = PASS)).
Proof.
  intros (he & hc & He & Hc & _ & Hk & _ & _ & Hg)%score_evidence_inv.
  apply validate_EvaluationEvidence_ok in He as Hv.
  assert (Hs : gr_strict_success g = Some true <-> first_non_pass e = None).
  { unfold infra_stop in Hg. destruct (first_non_pass e) as [s|]; [case_bool_decide|];
      [subst g|destruct Hg as (r & _ & _ & ->)..]; cbn; split; intros; simplify_eq; done. }
  rewrite Hs, first_non_pass_none. split; [intros Hpass; split; [done|]|by intros []].
  intros k Hin. destruct (stage_in_order e (ec_stage k) Hv) as (s & Hsin & Hst).
  pose proof (proj1 (Forall_forall _ _) Hpass s Hsin) as Hsp. cbn in Hsp.
  pose proof (proj1 (Forall_forall _ _) (ve_stages e Hv) s Hsin) as Hsv. cbn in Hsv.
  unfold validate_contract in Hk. ok_inv. apply for_each_ok in Hk.
  pose proof (proj1 (Forall_forall _ _) Hk s Hsin) as Hck. cbn in Hck.
  assert (Hinf : st_outcome s ∉ INFRA_OUTCOMES) by (rewrite Hsp; by apply (bool_decide_unpack _)).
  destruct (validated_stage_meets c s Hc Hsv Hck) as [Hmeet _]; [congruence|done|].
  destruct (Hmeet k Hin (eq_sym Hst)) as (a & Ha & Hm).
  exists s, a. split_and!; try done. intros Hreq. eapply passing_stage_checks; try done.
  by rewrite (meets_required _ _ Hm).
Qed.

(** C10. Benchmark success is the hard conjunction: a grade is a strict success
    exactly when all six stages passed, and then every check of the scoring
    contract was recorded in its stage with the contract's weight, requirement
    and input artifacts, and every required one passed. *)
Theorem strict_success_is_hard_conjunction e c p g :
  score_evidence e c p = Ok g ->
  gr_strict_success g = Some true <->
  Forall (fun s => st_outcome s = PASS) (ev_stages e)
  /\ (forall k, k ∈ sc_checks c ->
        exists s a, s ∈ ev_stages e /\ st_stage s = ec_stage k /\ a ∈ st_checks s /\ meets k a
                    /\ (ec_required k = true -> chk_outcome a = PASS)).
Proof. exact (strict_success_checks e c p g). Qed.

Lemma strict_success_is_hard_conjunction_witness :
  exists g, score_evidence Samples.success_evidence Samples.contract Samples.reward_v1 = Ok g
    /\ gr_strict_success g = Some true
    /\ (forall k, k ∈ sc_checks Samples.contract ->
        exists s a, s ∈ ev_stages Samples.success_evidence /\ st_stage s = ec_stage k /\ a ∈ st_checks s
                    /\ meets k a /\ (ec_required k = true -> chk_outcome a = PASS)).
Proof.
  destruct (scorable_success Samples.success_evidence Samples.contract Samples.reward_v1) as (g & Hg & Ht);
    [vm_compute; reflexivity..|].
  exists g. split; [exact Hg|]. split; [exact Ht|].
  apply (proj1 (strict_success_is_hard_conjunction _ _ _ _ Hg) Ht).
Defined.

(** Infrastructure failures are never scored: a grade is incomparable
    exactly when the earliest stage that did not pass has an infrastructure
    outcome; an incomparable grade carries no success, score or reward, and a
    comparable one carries all three with the score [1.0] or [0.0] of its
    verdict.  The failure fields always name the earliest stage that did not
    pass and its reason. *)
Theorem infrastructure_never_scored e c p g :
  score_evidence e c p = Ok g ->
  (gr_comparable g = false <->
     exists s, first_non_pass e = Some s /\ st_outcome s ∈ INFRA_OUTCOMES)
  /\ (gr_comparable g = false ->
        gr_strict_success g = None /\ gr_benchmark_score g = None /\ gr_training_reward g = None)
  /\ (gr_comparable g = true ->
        exists b r, gr_strict_success g = Some b /\ gr_training_reward g = Some r
                    /\ gr_benchmark_score g = Some (if b then fone else fzero))
  /\ gr_first_failure g = st_stage <$> first_non_pass e
  /\ gr_failure_reason g = st_reason_code <$> first_non_pass e.
Proof.
  intros (he & hc & He & _ & _ & _ & _ & _ & Hg)%score_evidence_inv.
  destruct (infra_stop e) eqn:Hi; unfold infra_stop in Hi.
  - subst g. cbn. destruct (first_non_pass e) as [s|]; [|done]. bool_prop.
    split_and!; try done. split; [eauto|done].
  - destruct Hg as (r & _ & _ & ->). cbn. split_and!; try done; [|eauto].
    split; [done|]. intros (s & Hs & Hin). rewrite Hs in Hi. by bool_prop.
Qed.

Lemma infrastructure_never_scored_witness :
  exists g, score_evidence Samples.infra_evidence Samples.contract Samples.reward_v1 = Ok g
    /\ gr_comparable g = false
    /\ gr_strict_success g = None /\ gr_benchmark_score g = None /\ gr_training_reward g = None.
Proof.
  destruct (scorable_infra Samples.infra_evidence Samples.contract Samples.reward_v1
              (Samples.stage COMPILE INFRA_ERROR [])) as (g & Hg & Hc);
    [vm_compute; reflexivity..|by apply (bool_decide_unpack _); vm_compute|].
  exists g. split; [exact Hg|]. split; [exact Hc|].
  apply (infrastructure_never_scored _ _ _ _ Hg). exact Hc.
Defined.

(** The benchmark result does not depend on the reward policy: two policies
    give grades that agree on everything but the policy id and the training
    reward. *)
Theorem benchmark_independent_of_policy e c p1 p2 g1 g2 :
  score_evidence e c p1 = Ok g1 -> score_evidence e c p2 = Ok g2 ->
  gr_comparable g1 = gr_comparable g2 /\ gr_strict_success g1 = gr_strict_success g2
  /\ gr_benchmark_score g1 = gr_benchmark_score g2 /\ gr_first_failure g1 = gr_first_failure g2
  /\ gr_failure_reason g1 = gr_failure_reason g2 /\ gr_stage_outcomes g1 = gr_stage_outcomes g2
  /\ gr_grader_id g1 = gr_grader_id g2 /\ gr_task_id g1 = gr_task_id g2
  /\ gr_candidate_sha256 g1 = gr_candidate_sha256 g2
  /\ gr_evidence_sha256 g1 = gr_evidence_sha256 g2 /\ gr_contract_sha256 g1 = gr_contract_sha256 g2.
Proof.
  intros (he & hc & _ & _ & _ & _ & Hhe & Hhc & Hg1)%score_evidence_inv
         (he' & hc' & _ & _ & _ & _ & Hhe' & Hhc' & Hg2)%score_evidence_inv.
  rewrite Hhe in Hhe'. rewrite Hhc in Hhc'. injection Hhe' as <-. injection Hhc' as <-.
  destruct (infra_stop e); [subst g1 g2|destruct Hg1 as (? & _ & _ & ->), Hg2 as (? & _ & _ & ->)];
    by split_and!.
Qed.

Definition flat_policy : RewardPolicy := {|
  rp_policy_id := "flat"; rp_description := "no shaping";
  rp_ingest_failure_reward := fzero; rp_compile_failure_reward := fzero;
  rp_object_policy_failure_reward := fzero; rp_verifier_failure_reward := fzero;
  rp_functional_reward_cap := fzero; rp_semantics_reward_cap := fzero; rp_success_reward := fone;
  rp_explicit_hack_reward := fzero; rp_explicit_hack_reason_prefix := "HACK_" |}.

Definition tenth : float64 := Eval vm_compute in of_Q (1 # 10).
Definition six_tenths : float64 := Eval vm_compute in of_Q (6 # 10).

(** The sample run that fails its second functional case, scored. *)
Definition functional_failure_stage : StageEvidence :=
  Samples.stage FUNCTIONAL FAIL (Samples.functional_checks FAIL).

Lemma functional_failure_scored :
  exists g, score_evidence Samples.functional_failure_evidence Samples.contract Samples.reward_v1 = Ok g
    /\ gr_comparable g = true /\ gr_strict_success g = Some false
    /\ gr_training_reward g = Some (fmul tenth (Fin 3 (-2))).
Proof.
  apply (scorable_failure _ _ _ functional_failure_stage);
    [vm_compute; reflexivity..|by apply (bool_decide_unpack _); vm_compute|vm_compute; reflexivity].
Qed.

Lemma benchmark_independent_of_policy_witness :
  exists g1 g2,
    score_evidence Samples.functional_failure_evidence Samples.contract Samples.reward_v1 = Ok g1
    /\ score_evidence Samples.functional_failure_evidence Samples.contract flat_policy = Ok g2
    /\ gr_strict_success g1 = gr_strict_success g2 /\ gr_training_reward g1 <> gr_training_reward g2.
Proof.
  destruct functional_failure_scored as (g1 & Hg1 & _ & _ & Hr1).
  destruct (scorable_failure Samples.functional_failure_evidence Samples.contract flat_policy
              functional_failure_stage fzero) as (g2 & Hg2 & _ & _ & Hr2);
    [vm_compute; reflexivity..|by apply (bool_decide_unpack _); vm_compute|vm_compute; reflexivity|].
  exists g1, g2. split; [exact Hg1|]. split; [exact Hg2|].
  split; [apply (benchmark_independent_of_policy _ _ _ _ _ _ Hg1 Hg2)|].
  rewrite Hr1, Hr2. apply (bool_decide_unpack (Some (fmul tenth (Fin 3 (-2))) <> Some fzero)).
  vm_compute. exact I.
Defined.

(** ** The order of rewards *)
Section RewardOrder.
Local Open Scope Q_scope.

(** The run was classified as a hack: by a failed required check or by the reason
    of the failing stage. *)
Definition hack_classified (e : EvaluationEvidence) (p : RewardPolicy) (s : StageEvidence) : bool :=
  explicit_hack e p || String.prefix (rp_explicit_hack_reason_prefix p) (st_reason_code s).

(** The interval of rewards of a stage's failure. *)
Definition reward_floor (p : RewardPolicy) (stage : Stage) : Q :=
  match stage with
  | INGEST => fq (rp_ingest_failure_reward p)
  | COMPILE => fq (rp_compile_failure_reward p)
  | OBJECT_POLICY => fq (rp_object_policy_failure_reward p)
  | VERIFIER => fq (rp_verifier_failure_reward p)
  | FUNCTIONAL => 0
  | SEMANTICS => fq (rp_functional_reward_cap p)
  end.
Definition reward_ceiling (p : RewardPolicy) (stage : Stage) : Q :=
  match stage with
  | FUNCTIONAL => fq (rp_functional_reward_cap p)
  | SEMANTICS => 1
  | _ => reward_floor p stage
  end.

Lemma scored_failure_reward e c p g s :
  score_evidence e c p = Ok g -> first_non_pass e = Some s -> gr_comparable g = true ->
  exists r, gr_training_reward g = Some r /\
    if hack_classified e p s then r = rp_explicit_hack_reward p
    else is_finite r = true /\ reward_floor p (st_stage s) <= fq r <= reward_ceiling p (st_stage s).
Proof.
  intros (he & hc & He & _ & Hp & _ & _ & _ & Hg)%score_evidence_inv Hs Hcmp.
  apply validate_EvaluationEvidence_ok in He. apply validate_RewardPolicy_ok in Hp.
  destruct (infra_stop e); [by subst g|]. destruct Hg as (r & Hr & _ & ->). exists r. split; [done|].
  rewrite Hs in Hr. cbn [fmap option_fmap option_map training_reward] in Hr.
  apply first_non_pass_spec in Hs as [Hin _].
  pose proof (proj1 (Forall_forall _ _) (ve_stages e He) s Hin) as Hv. cbn in Hv.
  rewrite (bool_decide_false (st_reason_code s = "")) in Hr
    by by apply stable_id_nonempty, validated_stage_reason.
  cbn [negb andb] in Hr. unfold hack_classified. destruct (explicit_hack e p || _); [by injection Hr|].
  rewrite (failing_stage_lookup e s (ve_order e He) Hin) in Hr.
  destruct (required_fraction_range s Hv) as (x & Hx & Hxw & Hxf & Hxr). rewrite Hx in Hr.
  assert (Hxi : in_range 0 1 x) by by constructor.
  cbn [bind_result] in Hr. destruct (st_stage s); injection Hr as <-; cbn [reward_floor reward_ceiling].
  1-4: match goal with |- is_finite ?f = true /\ _ =>
         assert (Hi : in_range (-1) 1 f) by apply Hp; destruct Hi; split; [done|lra] end.
  - destruct (fmul_fraction _ _ (vp_functional p Hp) Hxi). done.
  - destruct (vp_monotone p Hp) as (_ & _ & _ & _ & Hle & _).
    destruct (semantics_formula _ _ _ (vp_functional p Hp) (vp_semantics p Hp) Hxi Hle). done.
Qed.

(** The reward of a failure, by the stage that failed: the configured value
    for the first four stages, between 0 and the functional cap for a functional
    failure, at least the functional cap and at most 1 for a semantics failure;
    a hack is paid exactly the hack reward, which is never positive. *)
Theorem failure_reward_ranges e c p g s :
  score_evidence e c p = Ok g -> first_non_pass e = Some s -> gr_comparable g = true ->
  exists r, gr_training_reward g = Some r /\
    if hack_classified e p s then r = rp_explicit_hack_reward p /\ fq r <= 0
    else reward_floor p (st_stage s) <= fq r <= reward_ceiling p (st_stage s).
Proof.
  intros Hsc Hs Hcmp. destruct (scored_failure_reward e c p g s Hsc Hs Hcmp) as (r & Hr & Hrange).
  exists r. split; [done|]. destruct (hack_classified e p s); [|by destruct Hrange].
  split; [done|]. rewrite Hrange. apply score_evidence_inv in Hsc as (? & ? & _ & _ & Hp & _).
  apply validate_RewardPolicy_ok in Hp. destruct (vp_hack p Hp) as [_ _ [_ Hh]]. exact Hh.
Qed.

Lemma failure_reward_ranges_witness :
  exists g r,
    score_evidence Samples.functional_failure_evidence Samples.contract Samples.reward_v1 = Ok g
    /\ gr_training_reward g = Some r
    /\ 0 <= fq r <= fq (rp_functional_reward_cap Samples.reward_v1).
Proof.
  destruct functional_failure_scored as (g & Hg & Hc & _ & _).
  destruct (failure_reward_ranges Samples.functional_failure_evidence Samples.contract Samples.reward_v1 g
              functional_failure_stage Hg) as (r & Hr & H).
  - vm_compute. reflexivity.
  - exact Hc.
  - exists g, r. split; [exact Hg|]. split; [exact Hr|].
    replace (hack_classified _ _ _) with false in H by (vm_compute; reflexivity). exact H.
Defined.

Definition stage_index (s : Stage) : nat :=
  match s with
  | INGEST => 0 | COMPILE => 1 | OBJECT_POLICY => 2 | VERIFIER => 3 | FUNCTIONAL => 4 | SEMANTICS => 5
  end.

Lemma floors_ordered p s1 s2 :
  valid_policy p -> fq (rp_verifier_failure_reward p) <= 0 ->
  (stage_index s1 < stage_index s2)%nat -> reward_ceiling p s1 <= reward_floor p s2.
Proof.
  intros Hp Hv Hlt. destruct (vp_monotone p Hp) as (H1 & H2 & H3 & H4 & H5 & H6).
  destruct (vp_functional p Hp) as [_ _ Hf].
  destruct s1, s2; cbn [stage_index] in Hlt; try lia; cbn [reward_ceiling reward_floor]; lra.
Qed.

(** Getting further never pays less: under a policy whose verifier-failure
    reward is not positive, of two scored runs that are not hacks the one whose
    first failing stage is later has the larger or equal training reward. *)
Theorem later_failure_never_pays_less e1 c1 g1 s1 e2 c2 g2 s2 p :
  score_evidence e1 c1 p = Ok g1 -> score_evidence e2 c2 p = Ok g2 ->
  first_non_pass e1 = Some s1 -> first_non_pass e2 = Some s2 ->
  gr_comparable g1 = true -> gr_comparable g2 = true ->
  hack_classified e1 p s1 = false -> hack_classified e2 p s2 = false ->
  (stage_index (st_stage s1) < stage_index (st_stage s2))%nat ->
  fq (rp_verifier_failure_reward p) <= 0 ->
  exists r1 r2, gr_training_reward g1 = Some r1 /\ gr_training_reward g2 = Some r2
                /\ fleb r1 r2 = true.
Proof.
  intros H1 H2 Hs1 Hs2 C1 C2 K1 K2 Hlt Hv.
  destruct (scored_failure_reward _ _ _ _ _ H1 Hs1 C1) as (r1 & Hr1 & R1).
  destruct (scored_failure_reward _ _ _ _ _ H2 Hs2 C2) as (r2 & Hr2 & R2).
  rewrite K1 in R1. rewrite K2 in R2. destruct R1 as [F1 R1], R2 as [F2 R2].
  apply score_evidence_inv in H1 as (? & ? & _ & _ & Hp & _). apply validate_RewardPolicy_ok in Hp.
  pose proof (floors_ordered p _ _ Hp Hv Hlt). exists r1, r2. split_and!; [done..|].
  apply fleb_value; [done..|]. lra.
Qed.

Lemma later_failure_never_pays_less_witness :
  exists g1 g2 r1 r2,
    score_evidence Samples.verifier_failure_evidence Samples.contract Samples.reward_v1 = Ok g1
    /\ score_evidence Samples.functional_failure_evidence Samples.contract Samples.reward_v1 = Ok g2
    /\ gr_training_reward g1 = Some r1 /\ gr_training_reward g2 = Some r2 /\ fleb r1 r2 = true.
Proof.
  destruct functional_failure_scored as (g2 & Hg2 & Hc2 & _ & _).
  destruct (scorable_failure Samples.verifier_failure_evidence Samples.contract Samples.reward_v1
              (Samples.stage VERIFIER FAIL []) fzero) as (g1 & Hg1 & Hc1 & _);
    [vm_compute; reflexivity..|by apply (bool_decide_unpack _); vm_compute|vm_compute; reflexivity|].
  destruct (later_failure_never_pays_less _ _ g1 (Samples.stage VERIFIER FAIL []) _ _ g2
    functional_failure_stage Samples.reward_v1 Hg1 Hg2
    ltac:(vm_compute; reflexivity) ltac:(vm_compute; reflexivity) Hc1 Hc2
    ltac:(vm_compute; reflexivity) ltac:(vm_compute; reflexivity) ltac:(cbn; lia)
    ltac:(vm_compute; discriminate)) as (r1 & r2 & H1 & H2 & H3).
  exists g1, g2, r1, r2. split; [exact Hg1|]. split; [exact Hg2|].
  split; [exact H1|]. split; [exact H2|exact H3].
Defined.
End RewardOrder.

(** ** The stored policy, and two policies that validate *)

(** The reward table of [docs/grading.md] holds for the stored policy
    [reward-v1] and every possible required fraction: a semantics failure is paid
    between [0.1] and [0.6], the bounds included, after rounding. *)
Theorem reward_v1_semantics_range e c g s :
  score_evidence e c Samples.reward_v1 = Ok g -> first_non_pass e = Some s ->
  gr_comparable g = true -> st_stage s = SEMANTICS -> hack_classified e Samples.reward_v1 s = false ->
  exists r, gr_training_reward g = Some r /\ fleb tenth r = true /\ fleb r six_tenths = true.
Proof.
  intros (he & hc & He & _ & _ & _ & _ & _ & Hg)%score_evidence_inv Hs Hcmp Hst Hh.
  apply validate_EvaluationEvidence_ok in He.
  destruct (infra_stop e); [by subst g|]. destruct Hg as (r & Hr & _ & ->). exists r. split; [done|].
  rewrite Hs in Hr. cbn [fmap option_fmap option_map training_reward] in Hr.
  apply first_non_pass_spec in Hs as [Hin _].
  pose proof (proj1 (Forall_forall _ _) (ve_stages e He) s Hin) as Hv. cbn in Hv.
  unfold hack_classified in Hh. apply orb_false_iff in Hh as [Hx Hpre].
  rewrite Hx, Hpre, andb_false_r in Hr. cbn [orb] in Hr.
  rewrite (failing_stage_lookup e s (ve_order e He) Hin), Hst in Hr.
  destruct (required_fraction_range s Hv) as (x & Hf & Hxw & Hxf & Hxr). rewrite Hf in Hr.
  cbn [bind_result] in Hr. apply ok_inj in Hr. rewrite <-Hr. clear Hr.
  change (rp_functional_reward_cap Samples.reward_v1) with (of_Q (1 # 10)).
  change (rp_semantics_reward_cap Samples.reward_v1) with (of_Q (6 # 10)).
  replace (of_Q (1 # 10)) with tenth by (vm_compute; reflexivity).
  replace (fsub (of_Q (6 # 10)) tenth) with (Fin 1 (-1)) by (vm_compute; reflexivity).
  destruct (fmul_fraction (Fin 1 (-1)) x) as [Hpw Hpf Hp]; [|by constructor|].
  { constructor; [by apply is_float64_wf|done|]. split; vm_compute; discriminate. }
  assert (Ht : (0 <= fq tenth <= 1)%Q) by (split; vm_compute; discriminate).
  change (fq (Fin 1 (-1))) with (1 * (1 # 2))%Q in Hp. pose proof pow2_1000_big.
  destruct (fadd_value tenth (fmul (Fin 1 (-1)) x)) as [Haf Hav];
    [done..|apply Qabs_Qle_condition; lra|].
  split; apply fleb_value; try done; rewrite Hav.
  - rewrite <-(round64_fq tenth) at 1 by by apply is_float64_wf. apply round64_le. lra.
  - apply (Qle_trans _ (round64 (fq tenth + (1 # 2)))); [apply round64_le; lra|].
    apply Qle_bool_iff. vm_compute. reflexivity.
Qed.

Lemma reward_v1_semantics_range_witness :
  exists g r, score_evidence Samples.semantics_timeout_evidence Samples.contract Samples.reward_v1 = Ok g
    /\ gr_training_reward g = Some r /\ fleb tenth r = true /\ fleb r six_tenths = true.
Proof.
  destruct (scorable_failure Samples.semantics_timeout_evidence Samples.contract Samples.reward_v1
              (Samples.stage SEMANTICS TIMEOUT [Samples.check "obligation-1" PASS fone []])
              six_tenths) as (g & Hg & Hc & _);
    [vm_compute; reflexivity..|by apply (bool_decide_unpack _); vm_compute|vm_compute; reflexivity|].
  destruct (reward_v1_semantics_range Samples.semantics_timeout_evidence Samples.contract g
    (Samples.stage SEMANTICS TIMEOUT [Samples.check "obligation-1" PASS fone []])
    Hg ltac:(vm_compute; reflexivity) Hc
    ltac:(vm_compute; reflexivity) ltac:(vm_compute; reflexivity)) as (r & H1 & H2).
  exists g, r. split; [exact Hg|]. split; [exact H1|exact H2].
Defined.

(** A policy whose semantics cap equals its success reward; its functional cap is
    [3 * 2^-54] and the other [1/2 + 3 * 2^-53]. *)
Definition rounding_policy : RewardPolicy := {|
  rp_policy_id := "rounding"; rp_description := "caps one rounding error apart";
  rp_ingest_failure_reward := Fin (-1) 0; rp_compile_failure_reward := Fin (-1) (-1);
  rp_object_policy_failure_reward := Fin (-1) (-2); rp_verifier_failure_reward := fzero;
  rp_functional_reward_cap := Fin 3 (-54);
  rp_semantics_reward_cap := Fin 4503599627370499 (-53);
  rp_success_reward := Fin 4503599627370499 (-53);
  rp_explicit_hack_reward := Fin (-1) 0; rp_explicit_hack_reason_prefix := "HACK_" |}.

(** Rounding can push the semantics reward above its cap, and above the
    success reward: with [rounding_policy], which validates, a run whose semantics
    stage timed out after its checks passed fails the benchmark and is still paid
    more than [success_reward]. *)
Theorem semantics_reward_can_exceed_success :
  exists g r,
    validate_RewardPolicy rounding_policy = Ok tt
    /\ score_evidence Samples.semantics_timeout_evidence Samples.contract rounding_policy = Ok g
    /\ gr_strict_success g = Some false /\ gr_training_reward g = Some r
    /\ fltb (rp_semantics_reward_cap rounding_policy) r = true
    /\ fltb (rp_success_reward rounding_policy) r = true.
Proof.
  destruct (scorable_failure Samples.semantics_timeout_evidence Samples.contract rounding_policy
              (Samples.stage SEMANTICS TIMEOUT [Samples.check "obligation-1" PASS fone []])
              (Fin 1125899906842625 (-51))) as (g & Hg & _ & Hs & Hr);
    [vm_compute; reflexivity..|by apply (bool_decide_unpack _); vm_compute|vm_compute; reflexivity|].
  exists g, (Fin 1125899906842625 (-51)). split; [vm_compute; reflexivity|].
  split_and!; [done..|vm_compute; reflexivity|vm_compute; reflexivity].
Qed.

(** A monotone reward sequence with a positive verifier-failure reward. *)
Definition verifier_bonus_policy : RewardPolicy := {|
  rp_policy_id := "verifier-bonus"; rp_description := "verifier rejections earn a tenth";
  rp_ingest_failure_reward := Fin (-1) 0; rp_compile_failure_reward := Fin (-1) (-1);
  rp_object_policy_failure_reward := Fin (-1) (-2); rp_verifier_failure_reward := tenth;
  rp_functional_reward_cap := tenth; rp_semantics_reward_cap := six_tenths;
  rp_success_reward := fone; rp_explicit_hack_reward := Fin (-1) 0;
  rp_explicit_hack_reason_prefix := "HACK_" |}.

(** The validator's monotone sequence compares the verifier reward with the
    functional cap, not with what a functional failure is paid: with
    [verifier_bonus_policy], which validates, a run rejected by the verifier is
    paid more than one that loads and passes three quarters of its functional
    weight. *)
Theorem verifier_failure_can_pay_more :
  exists g1 g2 r1 r2,
    validate_RewardPolicy verifier_bonus_policy = Ok tt
    /\ score_evidence Samples.verifier_failure_evidence Samples.contract verifier_bonus_policy = Ok g1
    /\ score_evidence Samples.functional_failure_evidence Samples.contract verifier_bonus_policy = Ok g2
    /\ gr_training_reward g1 = Some r1 /\ gr_training_reward g2 = Some r2 /\ fltb r2 r1 = true.
Proof.
  destruct (scorable_failure Samples.verifier_failure_evidence Samples.contract verifier_bonus_policy
              (Samples.stage VERIFIER FAIL []) tenth) as (g1 & Hg1 & _ & _ & Hr1);
    [vm_compute; reflexivity..|by apply (bool_decide_unpack _); vm_compute|vm_compute; reflexivity|].
  destruct (scorable_failure Samples.functional_failure_evidence Samples.contract verifier_bonus_policy
              functional_failure_stage (fmul tenth (Fin 3 (-2)))) as (g2 & Hg2 & _ & _ & Hr2);
    [vm_compute; reflexivity..|by apply (bool_decide_unpack _); vm_compute|vm_compute; reflexivity|].
  exists g1, g2, tenth, (fmul tenth (Fin 3 (-2))). split; [vm_compute; reflexivity|].
  split_and!; [done..|vm_compute; reflexivity].
Qed.

(** [required_fraction] of a validated stage never raises and is a float in
    [[0, 1]], whatever the weights and their rounding. *)
Theorem required_fraction_in_unit s :
  validate_StageEvidence s = Ok tt ->
  exists x, required_fraction s = Ok x /\ fleb fzero x = true /\ fleb x fone = true.
Proof.
  intros (x & Hx & _ & Hf & [H0 H1])%required_fraction_range. exists x. split; [done|].
  split; apply fleb_value; [done..|change (fq fzero) with (0 * 1)%Q; lra|done|done|].
  change (fq fone) with (1 * 1)%Q. lra.
Qed.

Lemma required_fraction_in_unit_witness :
  let s := Samples.stage FUNCTIONAL FAIL (Samples.functional_checks FAIL) in
  exists x, required_fraction s = Ok x /\ fleb fzero x = true /\ fleb x fone = true.
Proof. cbv zeta. apply required_fraction_in_unit. vm_compute. reflexivity. Defined.

End Grading.
