(* ===== verification/Stats.v ===== *)
(** * Estimators ([src/bpe/aggregate.py], the numeric part)

    [pass_at_k_estimate], [percentile] and the Bayesian cluster bootstrap, in
    binary64.  The bootstrap is a function of the sequence of its exponential draws;
    [expovariate] is how the standard library makes one from the uniform generator and
    the logarithm, which are parameters. *)
From Stdlib Require Import ZArith QArith Qabs Lqa String Ascii Lia Qround.
From stdpp Require Import base tactics list strings sets.
From S2P Require Import Prelude Floats FloatRange Json JsonFacts Models.
Local Open Scope string_scope.
Local Open Scope Z_scope.

Module Stats.
Import Json JsonFacts Models.

(** ** [math.comb] *)
Fixpoint pascal_next (prev : Z) (row : list Z) : list Z :=
  match row with
  | [] => [prev]
  | x :: row => (prev + x) :: pascal_next x row
  end.

Fixpoint pascal_row (n : nat) : list Z :=
  match n with
  | O => [1]
  | S n => pascal_next 0 (pascal_row n)
  end.

Definition comb (n k : Z) : Z := nth (Z.to_nat k) (pascal_row (Z.to_nat n)) 0.

Example comb_10_4 : comb 10 4 = 210. Proof. reflexivity. Qed.

(** [pass_at_k_estimate] *)
Definition pass_at_k_estimate (n c k : Z) : result string float64 :=
  raise "successful samples must be between zero and n" when negb ((0 <=? c) && (c <=? n)) ;;
  raise "k must be between one and n" when negb ((1 <=? k) && (k <=? n)) ;;
  if n - c <? k then Ok fone
  else
    let* ratio := itruediv (comb (n - c) k) (comb n k) in
    Ok (fsub fone ratio).

(** ** [_percentile] *)

(** [sorted] on floats. *)
Definition fsort (l : list float64) : list float64 := sort_by fltb l.

(** [math.floor], [math.ceil] of a finite float *)
Definition ffloor (x : float64) : Z := Qfloor (fq x).
Definition fceil (x : float64) : Z := Qceiling (fq x).

(** [values[i]] for [i >= 0] *)
Definition index {A} (l : list A) (i : Z) : result string A :=
  match l !! Z.to_nat i with
  | Some x => Ok x
  | None => Err "IndexError: list index out of range"
  end.

Definition percentile (values : list float64) (fraction : float64) : result string float64 :=
  raise "cannot calculate a percentile of no values" when negb (nonempty values) ;;
  let ordered := fsort values in
  let* count := float_of_int (Z.of_nat (length ordered) - 1) in
  let position := fmul count fraction in
  let lower_index := ffloor position in
  let upper_index := fceil position in
  if lower_index =? upper_index then index ordered lower_index
  else
    let* lower_float := float_of_int lower_index in
    let remainder := fsub position lower_float in
    let* lo := index ordered lower_index in
    let* hi := index ordered upper_index in
    Ok (fadd (fmul lo (fsub fone remainder)) (fmul hi remainder)).

(** ** [_cluster_bootstrap_interval] *)

(** [defaultdict(list)], filled in order. *)
Definition group_by {K A} `{EqDecision K} (key : A -> K) (l : list A) : list (K * list A) :=
  fold_left
    (fun d x => dict_set (key x) (default [] (dict_get d (key x)) ++ [x])%list d) l [].

(** [sorted] on strings: by code point, as bytes of UTF-8. *)
Definition sort_strings (l : list string) : list string :=
  (sort_kv ((fun s => (s, tt)) <$> l)).*1.

(** [sorted] on integers. *)
Definition zsort (l : list Z) : list Z := sort_by Z.ltb l.

(** [task.root_cause or "generation"] *)
Definition stratum_of (t : SuiteTask) : string :=
  match stk_root_cause t with
  | Some r => if bool_decide (r = "") then "generation" else r
  | None => "generation"
  end.

(** [Random.expovariate(1.0)] for the uniform draw [u]: [-log(1.0 - u) / 1.0], and the
    division by one is exact. *)
Definition expovariate (log : float64 -> float64) (u : float64) : float64 := fneg (log (fsub fone u)).

Section Bootstrap.
(** The draws of [rng.expovariate(1.0)], in order. *)
Variable draws : nat -> float64.

(** [scores_by_seed[training_seed][task_id]] *)
Definition score_of (scores_by_seed : list (Z * list (string * float64))) (seed : Z) (task : string) :
    result string float64 :=
  let* scores := dict_index scores_by_seed seed in dict_index scores task.

(** The weights drawn for a list of names, from draw [i] on. *)
Definition draw_weights {K} (i : nat) (names : list K) : list (K * float64) :=
  imap (fun j name => (name, draws (i + j)%nat)) names.

(** [cluster_weights[task.cluster_id] * seed_weights[training_seed]] for every
    task of a stratum and every training seed, with its score. *)
Definition weighted_scores (scores_by_seed : list (Z * list (string * float64)))
    (cluster_weights : list (string * float64)) (seed_weights : list (Z * float64))
    (tasks : list SuiteTask) (training_seeds : list Z) : result string (list (float64 * float64)) :=
  map_result
    (fun ts : SuiteTask * Z =>
       let '(task, training_seed) := ts in
       let* cw := dict_index cluster_weights (stk_cluster_id task) in
       let* sw := dict_index seed_weights training_seed in
       let* score := score_of scores_by_seed training_seed (stk_task_id task) in
       Ok (fmul cw sw, score))
    (task ← tasks; (fun s => (task, s)) <$> training_seeds).

(** One replicate; [strata] sorted by name, the task counts are their lengths. *)
Definition replicate_mean (scores_by_seed : list (Z * list (string * float64)))
    (strata : list (string * list SuiteTask)) (cluster_weights : list (string * float64))
    (seed_weights : list (Z * float64)) (training_seeds : list Z) (total_task_count : Z) :
    result string float64 :=
  let* roots :=
    map_result
      (fun st : string * list SuiteTask =>
         let* ws := weighted_scores scores_by_seed cluster_weights seed_weights st.2 training_seeds in
         let* root_mean := fdiv (fsum ((fun w => fmul w.1 w.2) <$> ws)) (fsum ws.*1) in
         let* root_tasks := float_of_int (Z.of_nat (length st.2)) in
         Ok (fmul root_mean root_tasks))
      strata in
  let* total := float_of_int total_task_count in
  fdiv (fold_left fadd roots fzero) total.

Definition cluster_bootstrap_interval (scores_by_seed : list (Z * list (string * float64)))
    (suite_tasks : list SuiteTask) (samples : nat) : result string (float64 * float64) :=
  let strata := group_by stratum_of suite_tasks in
  let sorted_strata := sort_kv strata in
  let cluster_ids := sort_strings (remove_dups (stk_cluster_id <$> suite_tasks)) in
  let training_seeds := zsort scores_by_seed.*1 in
  let stride := (length cluster_ids + length training_seeds)%nat in
  let* replicates :=
    map_result
      (fun r =>
         let cluster_weights := draw_weights (r * stride) cluster_ids in
         let seed_weights := draw_weights (r * stride + length cluster_ids) training_seeds in
         replicate_mean scores_by_seed sorted_strata cluster_weights seed_weights training_seeds
           (Z.of_nat (length suite_tasks)))
      (seq 0 samples) in
  let* low := percentile replicates (of_Q (25 # 1000)) in
  let* high := percentile replicates (of_Q (975 # 1000)) in
  Ok (low, high).
End Bootstrap.

(** ** Binomials count subsets *)
Definition binom (n k : nat) : Z := nth k (pascal_row n) 0.

Lemma pascal_next_nth p row k :
  nth k (pascal_next p row) 0 = match k with O => p | S k => nth k row 0 end + nth k row 0.
Proof.
  revert p k. induction row as [|x row IH]; intros p [|k]; cbn; try lia;
    destruct k; cbn; rewrite ?IH; cbn; lia.
Qed.

Lemma binom_0_l k : binom 0 (S k) = 0.
Proof. unfold binom. cbn. by destruct k. Qed.

Lemma binom_SS n k : binom (S n) (S k) = binom n k + binom n (S k).
Proof. apply pascal_next_nth. Qed.

Lemma binom_0_r n : binom n 0 = 1.
Proof. induction n as [|n IH]; [done|]. unfold binom in *. cbn [pascal_row]. rewrite pascal_next_nth. lia. Qed.

Lemma binom_nonneg n k : 0 <= binom n k.
Proof.
  revert k. induction n as [|n IH]; intros [|k]; rewrite ?binom_0_r, ?binom_0_l, ?binom_SS; try lia.
  pose proof (IH k). pose proof (IH (S k)). lia.
Qed.

Lemma binom_pos n k : (k <= n)%nat -> 0 < binom n k.
Proof.
  revert k. induction n as [|n IH]; intros [|k] Hk; rewrite ?binom_0_r, ?binom_SS; try lia.
  pose proof (IH k ltac:(lia)). pose proof (binom_nonneg n (S k)). lia.
Qed.

Lemma binom_mono n m k : (n <= m)%nat -> binom n k <= binom m k.
Proof.
  induction 1 as [|m Hm IH]; [lia|]. destruct k as [|k]; [by rewrite !binom_0_r|].
  rewrite binom_SS. pose proof (binom_nonneg m k). lia.
Qed.

Lemma comb_binom n k : 0 <= n -> 0 <= k -> comb n k = binom (Z.to_nat n) (Z.to_nat k).
Proof. done. Qed.

(** All ways of drawing [k] of the elements of [l], in order. *)
Fixpoint draw {A} (k : nat) (l : list A) : list (list A) :=
  match k, l with
  | O, _ => [[]]
  | S _, [] => []
  | S k', x :: l' => ((fun d => x :: d) <$> draw k' l') ++ draw k l'
  end%list.

Lemma draw_count {A} k (l : list A) : Z.of_nat (length (draw k l)) = binom (length l) k.
Proof.
  revert k. induction l as [|x l IH]; intros [|k]; cbn [draw length].
  - done.
  - by rewrite binom_0_l.
  - by rewrite binom_0_r.
  - rewrite length_app, length_fmap, binom_SS, <-!IH. lia.
Qed.

(** The draws without a success, for samples that succeeded or not. *)
Definition all_fail (d : list bool) : Prop := Forall (fun b => b = false) d.
#[global] Instance all_fail_dec d : Decision (all_fail d).
Proof. unfold all_fail. apply _. Defined.

Definition successes (l : list bool) : nat := length (filter (fun b => b = true) l).

Lemma successes_cons b l : successes (b :: l) = ((if b then 1 else 0) + successes l)%nat.
Proof. unfold successes. rewrite filter_cons. by destruct b. Qed.

Lemma successes_le l : (successes l <= length l)%nat.
Proof. apply length_filter. Qed.

Lemma filter_draw_cons (b : bool) (ds : list (list bool)) :
  filter all_fail ((fun d => b :: d) <$> ds) = if b then [] else (fun d => b :: d) <$> filter all_fail ds.
Proof.
  induction ds as [|d ds IH]; [by destruct b|]. rewrite fmap_cons, !filter_cons, IH.
  destruct b.
  - rewrite decide_False; [done|]. unfold all_fail. by rewrite Forall_cons; intros [].
  - destruct (decide (all_fail d)) as [Hd|Hd].
    + by rewrite decide_True by (constructor; done).
    + rewrite decide_False; [done|]. unfold all_fail. by rewrite Forall_cons; intros [].
Qed.

Lemma failing_draws_count k l :
  Z.of_nat (length (filter all_fail (draw k l))) = binom (length l - successes l) k.
Proof.
  revert k. induction l as [|b l IH]; intros [|k]; cbn [draw].
  - done.
  - by rewrite binom_0_l.
  - rewrite filter_cons, decide_True by constructor. by rewrite binom_0_r.
  - rewrite filter_app, length_app, filter_draw_cons, Nat2Z.inj_add, (IH (S k)).
    pose proof (successes_le l). rewrite successes_cons. cbn [length]. destruct b.
    + by replace (S (length l) - (1 + successes l))%nat with (length l - successes l)%nat by lia.
    + rewrite length_fmap, IH. replace (S (length l) - (0 + successes l))%nat
        with (S (length l - successes l)) by lia. by rewrite binom_SS.
Qed.

(** ** The estimator *)
Section Estimator.
Local Open Scope Q_scope.

Lemma of_Q_unit q : 0 <= q <= 1 -> is_finite (of_Q q) = true /\ fq (of_Q q) == round64 q.
Proof.
  intros Hq. apply of_Q_value. rewrite Qabs_pos by lra.
  pose proof (pow2_le 0 1000 ltac:(lia)) as H. change (pow2 0) with 1 in H. lra.
Qed.

Lemma itruediv_unit n d : (0 <= n <= Z.pos d)%Z ->
  itruediv n (Z.pos d) = Ok (of_Q (n # d)) /\ is_finite (of_Q (n # d)) = true
  /\ fq (of_Q (n # d)) == round64 (n # d).
Proof.
  intros Hn. assert (Hq : 0 <= n # d <= 1) by (split; unfold Qle; cbn; lia).
  destruct (of_Q_unit _ Hq) as [Hf Hv]. split_and!; [|done..]. unfold itruediv.
  destruct (of_Q (n # d)); done.
Qed.

(** [1 - ratio] rounded twice stays in [[0, 1]] and within [2^-53]. *)
Lemma one_minus q : 0 <= q <= 1 ->
  let x := fsub fone (of_Q q) in
  wf_float x /\ is_finite x = true /\ 0 <= fq x <= 1 /\ Qabs (fq x - (1 - q)) <= pow2 (-53).
Proof.
  intros Hq. cbv zeta. destruct (of_Q_unit q Hq) as [Hf Hv].
  assert (Hr : 0 <= round64 q <= 1).
  { split; [apply round64_nonneg; lra|]. apply (Qle_trans _ (round64 1)); [apply round64_le; lra|].
    rewrite round64_exact; [lra|]. apply (representable_Z 1). lia. }
  assert (H1 : fq fone == 1) by (vm_compute; reflexivity).
  pose proof (pow2_le 1 1000 ltac:(lia)) as Hb. change (pow2 1) with 2 in Hb.
  destruct (fsub_value fone (of_Q q)) as [Hsf Hsv]; [done|done|apply Qabs_Qle_condition; lra|].
  assert (Hu : 0 <= fq fone - fq (of_Q q) <= 1) by lra.
  pose proof (round64_error_unit _ Hu) as He1. pose proof (round64_error_unit _ Hq) as He2.
  rewrite <-Hsv in He1. rewrite <-Hv in He2. apply Qabs_Qle_condition in He1, He2.
  assert (Hp : pow2 (-53) == 2 * pow2 (-54)) by (rewrite <-pow2_succ; reflexivity).
  split_and!; [apply fadd_wf|done|rewrite Hsv; apply round64_nonneg; lra| |].
  - rewrite Hsv. apply (Qle_trans _ (round64 1)); [apply round64_le; lra|].
    rewrite round64_exact; [lra|]. apply (representable_Z 1). lia.
  - apply Qabs_Qle_condition. lra.
Qed.

(** The fraction of the draws of [k] samples that contain a success. *)
Definition success_fraction (k : nat) (l : list bool) : Q :=
  1 - (Z.of_nat (length (filter all_fail (draw k l))) # Z.to_pos (binom (length l) k)).

(** What the estimator computes on the samples of a task. *)
Lemma estimate_value l k :
  (1 <= k <= length l)%nat ->
  exists x, pass_at_k_estimate (Z.of_nat (length l)) (Z.of_nat (successes l)) (Z.of_nat k) = Ok x
    /\ wf_float x /\ is_finite x = true /\ 0 <= fq x <= 1
    /\ Qabs (fq x - success_fraction k l) <= pow2 (-53).
Proof.
  intros Hk. pose proof (successes_le l) as Hc. unfold pass_at_k_estimate, success_fraction.
  rewrite (proj2 (Z.leb_le 0 _)), (proj2 (Z.leb_le (Z.of_nat (successes l)) _)),
    (proj2 (Z.leb_le 1 _)), (proj2 (Z.leb_le (Z.of_nat k) _)) by lia. cbn [andb negb].
  rewrite failing_draws_count. pose proof (binom_pos (length l) k ltac:(lia)) as Hpos.
  pose proof (pow2_pos (-53)). destruct (Z.ltb_spec (Z.of_nat (length l) - Z.of_nat (successes l)) (Z.of_nat k)) as [Hlt|Hge].
  - exists fone. assert (H1 : fq fone == 1) by (vm_compute; reflexivity).
    assert (H0 : binom (length l - successes l) k = 0%Z).
    { assert (Hz : (length l - successes l < k)%nat) by lia. revert Hz.
      generalize (length l - successes l)%nat. clear. intros n. revert k.
      induction n as [|n IH]; intros [|k] Hn; try lia; [apply binom_0_l|].
      rewrite binom_SS, !IH by lia. done. }
    rewrite H0. assert (Hz : (0 # Z.to_pos (binom (length l) k)) == 0) by reflexivity.
    split_and!; [done|by apply is_float64_wf|done|lra|lra|]. apply Qabs_Qle_condition. lra.
  - rewrite !comb_binom by lia. rewrite Nat2Z.id, Nat2Z.id.
    replace (Z.to_nat (Z.of_nat (length l) - Z.of_nat (successes l))) with (length l - successes l)%nat by lia.
    pose proof (binom_nonneg (length l - successes l) k). pose proof (binom_mono (length l - successes l) (length l) k ltac:(lia)).
    destruct (binom (length l) k) as [|d|d]; [lia| |lia]. cbn [Z.to_pos].
    destruct (itruediv_unit (binom (length l - successes l) k) d) as (-> & _ & _); [lia|].
    cbn [bind_result]. eexists. split; [reflexivity|]. apply one_minus. unfold Qle; cbn. lia.
Qed.
End Estimator.

(** C14. [pass_at_k_estimate] is the unbiased estimator: on the outcomes of the
    samples of a task and any [1 <= k <= n] it returns, within two roundings
    ([2^-53]), the exact fraction of the [k]-element draws of the samples that
    contain at least one success; the result is in [[0, 1]]. *)
Theorem pass_at_k_is_draw_fraction l k :
  (1 <= k <= length l)%nat ->
  exists x, pass_at_k_estimate (Z.of_nat (length l)) (Z.of_nat (successes l)) (Z.of_nat k) = Ok x
    /\ fleb fzero x = true /\ fleb x fone = true
    /\ (Qabs (fq x - success_fraction k l) <= pow2 (-53))%Q.
Proof.
  intros Hk. destruct (estimate_value l k Hk) as (x & Hx & _ & Hf & [H0 H1] & He).
  exists x. split_and!; [done| | |done]; apply fleb_value; try done; eapply Qle_trans; try done;
    vm_compute; discriminate.
Qed.

Lemma pass_at_k_is_draw_fraction_witness :
  exists x, pass_at_k_estimate 5 2 3 = Ok x
    /\ fleb fzero x = true /\ fleb x fone = true
    /\ (Qabs (fq x - success_fraction 3 [true; false; false; true; false]) <= pow2 (-53))%Q.
Proof. apply (pass_at_k_is_draw_fraction [true; false; false; true; false] 3). cbn. lia. Defined.

(** ** Percentiles stay in the unit interval *)
Lemma fsort_length l : length (fsort l) = length l.
Proof. apply sort_by_length. Qed.
Lemma fsort_elem l x : x ∈ fsort l <-> x ∈ l.
Proof. apply sort_by_elem. Qed.
Lemma zsort_length l : length (zsort l) = length l.
Proof. apply sort_by_length. Qed.
Lemma zsort_elem l z : z ∈ zsort l <-> z ∈ l.
Proof. apply sort_by_elem. Qed.

Lemma index_in {A} (l : list A) i : 0 <= i < Z.of_nat (length l) -> exists x, index l i = Ok x /\ x ∈ l.
Proof.
  intros Hi. unfold index. destruct (lookup_lt_is_Some_2 l (Z.to_nat i)) as [x Hx]; [lia|].
  rewrite Hx. exists x. split; [done|]. by eapply list_elem_of_lookup_2.
Qed.

Lemma float_of_int_exact n : 0 <= n <= 2 ^ 53 ->
  float_of_int n = Ok (of_Z n) /\ in_range (inject_Z n) (inject_Z n) (of_Z n).
Proof.
  intros Hn. pose proof (of_Z_exact n Hn) as Hr. split; [|done]. unfold float_of_int.
  destruct Hr as [_ -> _]. done.
Qed.

Lemma percentile_unit values f :
  values <> [] -> Z.of_nat (length values) < 2 ^ 30 ->
  (forall x, x ∈ values -> in_range 0 1 x) -> in_range 0 1 f ->
  exists x, percentile values f = Ok x /\ in_range 0 1 x.
Proof.
  intros Hne Hl Hv Hf. unfold percentile. destruct values as [|v0 vs] eqn:Evs; [done|]. rewrite <-Evs in *.
  replace (nonempty values) with true by by rewrite Evs. cbn [negb]. rewrite fsort_length.
  assert (Hlen : 1 <= Z.of_nat (length values)) by (rewrite Evs; cbn; lia).
  clear Evs v0 vs. set (n := Z.of_nat (length values) - 1) in *.
  destruct (float_of_int_exact n) as [-> Hn]; [lia|]. cbn [bind_result].
  assert (Hb : (inject_Z n <= pow2 999)%Q).
  { rewrite pow2_Z by lia. rewrite <-Zle_Qle. transitivity (2 ^ 50); [lia|]. apply Z.pow_le_mono_r; lia. }
  assert (Hn0 : (0 <= inject_Z n)%Q) by (change 0%Q with (inject_Z 0); rewrite <-Zle_Qle; lia).
  assert (Hpos : in_range 0 (fq (of_Z n)) (fmul (of_Z n) f)).
  { apply (fmul_scale (inject_Z n)); [|done..]. eapply in_range_weaken; [exact Hn|done|lra]. }
  set (pos := fmul (of_Z n) f) in *. destruct Hn as [_ _ Hn], Hpos as [Hpw Hpf Hp].
  assert (Hpn : (0 <= fq pos <= inject_Z n)%Q) by lra.
  assert (Hlo : 0 <= ffloor pos <= n).
  { unfold ffloor. split; [rewrite <-(Qfloor_Z 0)|rewrite <-(Qfloor_Z n)]; apply Qfloor_resp_le, Hpn. }
  assert (Hhi : 0 <= fceil pos <= n).
  { unfold fceil. split; [rewrite <-(Qceiling_Z 0)|rewrite <-(Qceiling_Z n)]; apply Qceiling_resp_le, Hpn. }
  assert (Hidx : forall i, 0 <= i <= n -> exists x, index (fsort values) i = Ok x /\ in_range 0 1 x).
  { intros i Hi. destruct (index_in (fsort values) i) as (x & Hx & Hin); [rewrite fsort_length; lia|].
    exists x. split; [done|]. by apply Hv, fsort_elem. }
  destruct (Z.eqb_spec (ffloor pos) (fceil pos)) as [He|Hne']; [by apply Hidx|].
  destruct (float_of_int_exact (ffloor pos)) as [-> Hfl]; [lia|]. cbn [bind_result].
  destruct (Hidx (ffloor pos) Hlo) as (lo & -> & Hlor). destruct (Hidx (fceil pos) Hhi) as (hi & -> & Hhir).
  cbn [bind_result]. eexists. split; [reflexivity|]. apply interpolate_unit; [done..|].
  destruct Hfl as [_ Hff Hfv]. pose proof (Qfloor_le (fq pos)) as Hq1. pose proof (Qlt_floor (fq pos)) as Hq2.
  fold (ffloor pos) in Hq1, Hq2. rewrite inject_Z_plus in Hq2. change (inject_Z 1) with 1%Q in Hq2.
  pose proof pow2_1000_big.
  destruct (fsub_value pos (of_Z (ffloor pos))) as [Hsf Hsv]; [done..|apply Qabs_Qle_condition; lra|].
  constructor; [apply fadd_wf|done|]. rewrite Hsv. split; [apply round64_nonneg; lra|].
  apply (Qle_trans _ (round64 1)); [apply round64_le; lra|]. rewrite round64_exact; [lra|].
  apply (representable_Z 1). lia.
Qed.

(** ** The bootstrap interval stays in the unit interval *)
Definition group_total {K A} (d : list (K * list A)) : nat := sum_list (length <$> d.*2).

Lemma dict_set_total {K A} `{EqDecision K} (k : K) (x : A) d :
  group_total (dict_set k (default [] (dict_get d k) ++ [x])%list d) = S (group_total d).
Proof.
  unfold group_total. induction d as [|[j v] d IH]; cbn; [done|].
  destruct (decide (k = j)) as [->|Hne]; cbn.
  - rewrite length_app. cbn. lia.
  - rewrite IH. lia.
Qed.

Lemma dict_set_values {K V} `{EqDecision K} (k : K) (v : V) d (P : V -> Prop) :
  P v -> Forall (fun kv => P kv.2) d -> Forall (fun kv => P kv.2) (dict_set k v d).
Proof.
  intros Hv. induction 1 as [|[j w] d Hj Hd IH]; cbn; [by repeat constructor|].
  destruct (decide (k = j)); by constructor.
Qed.

Lemma group_by_spec {K A} `{EqDecision K} (key : A -> K) l :
  group_total (group_by key l) = length l
  /\ Forall (fun kv => kv.2 <> [] /\ forall x, x ∈ kv.2 -> x ∈ l) (group_by key l).
Proof.
  unfold group_by. induction l as [|x l [IHt IHf]] using rev_ind; [by split; [|constructor]|].
  rewrite fold_left_app. cbn [fold_left]. split; [by rewrite dict_set_total, IHt, length_app, Nat.add_comm|].
  apply (dict_set_values _ _ _ (fun v => v <> [] /\ forall y, y ∈ v -> y ∈ (l ++ [x])%list)).
  - split; [intros []%app_eq_nil; done|]. intros y [Hy|Hy]%elem_of_app; apply elem_of_app; [left|right; done].
    destruct (dict_get _ (key x)) as [g|] eqn:Hg; cbn in Hy; [|by apply elem_of_nil in Hy].
    apply dict_get_In in Hg. rewrite Forall_forall in IHf. by apply (IHf _ Hg).
  - eapply Forall_impl; [exact IHf|]. intros kv [Hn Hin]. split; [done|].
    intros y Hy. apply elem_of_app. left. auto.
Qed.

Lemma sort_strings_elem l s : s ∈ sort_strings l <-> s ∈ l.
Proof.
  unfold sort_strings. rewrite sort_kv_perm, <-list_fmap_compose.
  change (s ∈ (fun x => x) <$> l <-> s ∈ l). by rewrite list_fmap_id.
Qed.

(** An exponential draw: zero, or far from the ends of the float range. *)
Definition drawn (x : float64) : Prop := in_range 0 (pow2 6) x /\ ((fq x == 0)%Q \/ (pow2 (-60) <= fq x)%Q).

Lemma positive_product a b :
  in_range (pow2 (-60)) (pow2 6) a -> in_range (pow2 (-60)) (pow2 6) b ->
  in_range (pow2 (-120)) (pow2 20) (fmul a b).
Proof.
  intros [_ Haf Ha] [_ Hbf Hb]. pose proof (pow2_pos (-60)).
  assert (H1 : (pow2 (-120) == pow2 (-60) * pow2 (-60))%Q) by (rewrite <-pow2_add; reflexivity).
  assert (H2 : (pow2 12 == pow2 6 * pow2 6)%Q) by (rewrite <-pow2_add; reflexivity).
  pose proof (pow2_le 12 20 ltac:(lia)). pose proof (pow2_le 20 1000 ltac:(lia)).
  assert (Hq : (pow2 (-120) <= fq a * fq b <= pow2 12)%Q) by nra.
  pose proof (pow2_pos (-120)).
  destruct (fmul_value a b) as [Hf Hv]; [done..|apply Qabs_Qle_condition; lra|].
  constructor; [apply fmul_wf|done|]. rewrite Hv. split.
  - rewrite <-(round64_exact (pow2 (-120))) at 1; [apply round64_le; lra|apply representable_pow2; lia].
  - apply (Qle_trans _ (round64 (pow2 20))); [apply round64_le; lra|].
    rewrite round64_exact; [lra|apply representable_pow2; lia].
Qed.

(** A product of draws vanishes only with one of them. *)
Lemma product_drawn a b : drawn a -> drawn b ->
  in_range 0 (pow2 20) (fmul a b) /\ ((fq (fmul a b) == 0)%Q -> (fq a == 0)%Q \/ (fq b == 0)%Q).
Proof.
  intros [Ra Da] [Rb Db]. pose proof (pow2_pos (-120)) as Hp. pose proof (pow2_pos 20).
  assert (Hz : (fq a * fq b == 0)%Q -> in_range 0 (pow2 20) (fmul a b)).
  { intros Hq. destruct Ra as [_ Haf _], Rb as [_ Hbf _]. pose proof (pow2_pos 1000).
    destruct (fmul_value a b) as [Hf Hv]; [done..|apply Qabs_Qle_condition; lra|].
    constructor; [apply fmul_wf|done|]. rewrite Hv, Hq, round64_zero; lra. }
  destruct Da as [Za|Pa]; [split; [apply Hz; rewrite Za; lra|auto]|].
  destruct Db as [Zb|Pb]; [split; [apply Hz; rewrite Zb; lra|auto]|].
  assert (Hr : in_range (pow2 (-120)) (pow2 20) (fmul a b)).
  { destruct Ra as [? ? ?], Rb as [? ? ?]. apply positive_product; constructor; done || lra. }
  split; [by apply (in_range_weaken _ _ _ _ _ Hr); lra|]. destruct Hr as [_ _ ?]. lra.
Qed.

Definition ZERO_DIVISION : string := "ZeroDivisionError: float division by zero".

Section BootstrapRange.
Variable draws : nat -> float64.
Hypothesis draws_drawn : forall i, drawn (draws i).

(** Some draw of the generator is zero. *)
Definition zero_draw : Prop := exists i, (fq (draws i) == 0)%Q.
(** The value is in the unit interval; the only exception is a division by zero, and
    only after a zero draw. *)
Definition unit_or_zero_draw (r : result string float64) : Prop :=
  match r with Ok x => in_range 0 1 x | Err e => e = ZERO_DIVISION /\ zero_draw end.

Lemma map_result_except {A B} (f : A -> result string B) (P : A -> B -> Prop) (Q : string -> Prop) l :
  (forall x, x ∈ l -> match f x with Ok y => P x y | Err e => Q e end) ->
  match map_result f l with Ok ys => Forall2 P l ys | Err e => Q e end.
Proof.
  induction l as [|x l IH]; intros H; cbn; [constructor|]. pose proof (H x ltac:(by left)) as Hx.
  destruct (f x) as [y|e]; cbn; [|done]. specialize (IH (fun x' Hx' => H x' ltac:(by right))).
  destruct (map_result f l); cbn; [by constructor|done].
Qed.

Lemma draw_weights_get {K} `{EqDecision K} i (names : list K) name :
  name ∈ names -> exists w, dict_index (draw_weights draws i names) name = Ok w
                            /\ drawn w /\ ((fq w == 0)%Q -> zero_draw).
Proof.
  unfold draw_weights, dict_index. revert i. induction names as [|n names IH]; intros i; [by rewrite elem_of_nil|].
  rewrite imap_cons. cbn [dict_get]. destruct (decide (name = n)) as [->|Hne].
  { intros _. eexists. split_and!; [done|apply draws_drawn|]. intros ?. by eexists. }
  intros [->|Hin]%elem_of_cons; [done|]. destruct (IH (S i) Hin) as (w & Hw & Hr). exists w. split; [|done].
  replace (imap _ names) with (imap (fun j name => (name, draws (S i + j)%nat)) names); [done|].
  apply imap_ext. intros j x _. cbn. do 2 f_equal. lia.
Qed.

(** Every declared seed has a score in the unit interval for every task. *)
Definition complete_scores (scores : list (Z * list (string * float64))) (tasks : list SuiteTask) : Prop :=
  forall seed task, seed ∈ scores.*1 -> task ∈ tasks ->
    exists x, score_of scores seed (stk_task_id task) = Ok x /\ in_range 0 1 x.

Lemma weighted_scores_ok scores i j cluster_ids seeds tasks :
  tasks <> [] -> seeds <> [] ->
  (forall t, t ∈ tasks -> stk_cluster_id t ∈ cluster_ids) ->
  (forall s t, s ∈ seeds -> t ∈ tasks ->
     exists x, score_of scores s (stk_task_id t) = Ok x /\ in_range 0 1 x) ->
  exists ws,
    weighted_scores scores (draw_weights draws i cluster_ids) (draw_weights draws j seeds) tasks seeds = Ok ws
    /\ ws <> [] /\ length ws = (length tasks * length seeds)%nat
    /\ Forall (fun w => in_range 0 (pow2 20) w.1 /\ in_range 0 1 w.2 /\ ((fq w.1 == 0)%Q -> zero_draw)) ws.
Proof.
  intros Ht Hs Hc Hsc. unfold weighted_scores. set (pairs := task ← tasks; _).
  assert (Hlen : length pairs = (length tasks * length seeds)%nat).
  { unfold pairs. clear. induction tasks as [|t ts IH]; cbn; [done|].
    rewrite length_app, length_fmap, IH. done. }
  destruct (map_result_total
    (fun ts : SuiteTask * Z =>
       let '(task, training_seed) := ts in
       let* cw := dict_index (draw_weights draws i cluster_ids) (stk_cluster_id task) in
       let* sw := dict_index (draw_weights draws j seeds) training_seed in
       let* score := score_of scores training_seed (stk_task_id task) in
       Ok (fmul cw sw, score))
    (fun _ w => in_range 0 (pow2 20) w.1 /\ in_range 0 1 w.2 /\ ((fq w.1 == 0)%Q -> zero_draw)) pairs) as (ws & Hws & Hf).
  { intros [t s] (t' & Hin & Ht')%list_elem_of_bind.
    apply list_elem_of_fmap in Hin as (s' & [= -> ->] & Hs').
    destruct (draw_weights_get i cluster_ids (stk_cluster_id t')) as (cw & -> & Hcw & Zc); [auto|].
    destruct (draw_weights_get j seeds s') as (sw & -> & Hsw & Zs); [done|].
    destruct (Hsc s' t') as (x & -> & Hx); [done..|].
    destruct (product_drawn cw sw Hcw Hsw) as [Hr Hz].
    eexists. split; [reflexivity|]. split_and!; [done..|]. intros [?|?]%Hz; auto. }
  exists ws. pose proof (Forall2_length _ _ _ Hf) as Hl. split_and!; [exact Hws| |lia|].
  - intros ->. rewrite Hlen in Hl. destruct tasks, seeds; cbn in Hl; done || lia.
  - clear -Hf. induction Hf; by constructor.
Qed.
(** [root_mean * count] for an exact count. *)
Lemma mean_times_count m c n :
  in_range 0 1 m -> in_range n n c -> (0 <= n)%Q -> (n <= pow2 999)%Q -> in_range 0 n (fmul m c).
Proof.
  intros [_ Hmf Hm] [Hcw Hcf Hc] Hn Hb. pose proof (pow2_le 999 1000 ltac:(lia)).
  assert (Hq : (0 <= fq m * fq c <= fq c)%Q) by nra.
  destruct (fmul_value m c) as [Hf Hv]; [done..|apply Qabs_Qle_condition; lra|].
  constructor; [apply fmul_wf|done|]. rewrite Hv. split; [apply round64_nonneg; lra|].
  apply (Qle_trans _ (round64 (fq c))); [apply round64_le; lra|]. rewrite round64_fq; [lra|done].
Qed.

(** The mean of one stratum. *)
Lemma stratum_mean_unit ws :
  ws <> [] -> Z.of_nat (length ws) < 2 ^ 30 ->
  Forall (fun w => in_range 0 (pow2 20) w.1 /\ in_range 0 1 w.2 /\ ((fq w.1 == 0)%Q -> zero_draw)) ws ->
  unit_or_zero_draw (fdiv (fsum ((fun w => fmul w.1 w.2) <$> ws)) (fsum ws.*1)).
Proof.
  intros Hne Hl Hws.
  assert (Hterm : Forall (fun w : float64 * float64 => term w.1 /\ term (fmul w.1 w.2) /\ (fq (fmul w.1 w.2) <= fq w.1)%Q) ws).
  { eapply Forall_impl; [exact Hws|]. intros [w x] (Hw & Hx & _); cbn [fst snd] in *.
    pose proof (fmul_scale (pow2 20) w x Hw ltac:(apply pow2_le; lia) Hx) as Hm.
    destruct Hw as [? ? Hw], Hm as [? ? Hm]. split_and!; [by constructor| |lra]. constructor; [done..|lra]. }
  assert (Hw1 : Forall term ws.*1) by (clear -Hterm; induction Hterm as [|w ws (? & ? & ?) Hws IH]; by constructor).
  destruct (running_sums 0 fzero fzero ((fun w => fmul w.1 w.2) <$> ws) ws.*1) as (Ha & Hb & Hab & Hpos).
  - apply running_zero.
  - apply running_zero.
  - lra.
  - clear -Hterm. induction Hterm as [|w ws (? & ? & ?) Hws IH]; cbn; constructor; done.
  - lia.
  - rewrite length_fmap. lia.
  - fold (fsum ((fun w => fmul w.1 w.2) <$> ws)) in Ha, Hab. fold (fsum ws.*1) in Hb, Hab, Hpos.
    destruct (Qlt_le_dec 0 (fq (fsum ws.*1))) as [Hd|Hd].
    + destruct (fdiv_unit _ _ _ Ha Hb Hab Hd) as (m & -> & Hm). exact Hm.
    + assert (Hz : (fq (fsum ws.*1) == 0)%Q) by (destruct Hb as [_ _ Hb]; lra).
      unfold fdiv. rewrite (proj2 (is_zero_value _ (ir_finite _ _ _ Hb)) Hz). split; [done|].
      destruct ws as [|w ws]; [done|]. apply Forall_cons in Hws as [(Hw & _ & Hzero) _]. apply Hzero.
      destruct (Qlt_le_dec 0 (fq w.1)) as [Hp|?]; [|destruct Hw as [_ _ ?]; lra].
      pose proof (fsum_pos w.1 ws.*1 Hw1 Hp ltac:(cbn [length] in *; by rewrite length_fmap)).
      rewrite fmap_cons in Hz. lra.
Qed.

(** Adding up stratum means weighted by their task counts. *)
Lemma strata_sum_bound roots sizes a m :
  Forall2 (fun r n => in_range 0 (inject_Z (Z.of_nat n)) r) roots sizes ->
  in_range 0 (inject_Z (Z.of_nat m)) a -> Z.of_nat (m + sum_list sizes) < 2 ^ 50 ->
  in_range 0 (inject_Z (Z.of_nat (m + sum_list sizes))) (fold_left fadd roots a).
Proof.
  intros Hf. revert a m. induction Hf as [|r n roots sizes Hr Hf IH]; intros a m Ha Hm; cbn in *.
  { by rewrite Nat.add_0_r. }
  replace (m + (n + sum_list sizes))%nat with ((m + n) + sum_list sizes)%nat in * by lia.
  apply IH; [|done]. destruct Ha as [_ Haf Ha], Hr as [_ Hrf Hr].
  assert (He : (inject_Z (Z.of_nat (m + n)) == inject_Z (Z.of_nat m) + inject_Z (Z.of_nat n))%Q).
  { by rewrite <-inject_Z_plus, Nat2Z.inj_add. }
  assert (Hb : (inject_Z (Z.of_nat (m + n)) <= pow2 1000)%Q).
  { rewrite pow2_Z by lia. rewrite <-Zle_Qle. transitivity (2 ^ 50); [lia|]. apply Z.pow_le_mono_r; lia. }
  destruct (fadd_value a r) as [Hff Hfv]; [done..|apply Qabs_Qle_condition; lra|].
  constructor; [apply fadd_wf|done|]. rewrite Hfv. split; [apply round64_nonneg; lra|].
  apply (Qle_trans _ (round64 (inject_Z (Z.of_nat (m + n))))); [apply round64_le; lra|].
  rewrite round64_exact; [lra|]. apply representable_Z. lia.
Qed.

(** One term of a replicate: the mean of a stratum times its number of tasks. *)
Lemma stratum_term scores i j cluster_ids seeds n kv :
  Z.of_nat n < 2 ^ 20 -> Z.of_nat (length seeds) < 2 ^ 10 -> seeds <> [] -> (length kv.2 <= n)%nat ->
  kv.2 <> [] /\ (forall t, t ∈ kv.2 -> stk_cluster_id t ∈ cluster_ids)
    /\ (forall s t, s ∈ seeds -> t ∈ kv.2 -> exists x, score_of scores s (stk_task_id t) = Ok x /\ in_range 0 1 x) ->
  match (let* ws := weighted_scores scores (draw_weights draws i cluster_ids) (draw_weights draws j seeds) (kv : string * list SuiteTask).2 seeds in
         let* root_mean := fdiv (fsum ((fun w => fmul w.1 w.2) <$> ws)) (fsum ws.*1) in
         let* root_tasks := float_of_int (Z.of_nat (length kv.2)) in
         Ok (fmul root_mean root_tasks)) with
  | Ok r => in_range 0 (inject_Z (Z.of_nat (length kv.2))) r
  | Err e => e = ZERO_DIVISION /\ zero_draw
  end.
Proof.
  intros Hn Hs' Hs Hsize (Hne & Hc & Hsc).
  destruct (weighted_scores_ok scores i j cluster_ids seeds kv.2 Hne Hs Hc Hsc) as (ws & -> & Hwne & Hwl & Hws).
  cbn [bind_result]. pose proof (stratum_mean_unit ws Hwne ltac:(nia) Hws) as Hm.
  destruct (fdiv _ _) as [m|e]; cbn [bind_result]; [|exact Hm].
  destruct (float_of_int_exact (Z.of_nat (length kv.2))) as [-> Hk]; [lia|]. cbn [bind_result].
  assert (Hb : (inject_Z (Z.of_nat (length kv.2)) <= pow2 999)%Q).
  { rewrite pow2_Z by lia. rewrite <-Zle_Qle. transitivity (2 ^ 50); [lia|]. apply Z.pow_le_mono_r; lia. }
  assert (H0 : (0 <= inject_Z (Z.of_nat (length kv.2)))%Q) by (change 0%Q with (inject_Z 0); rewrite <-Zle_Qle; lia).
  apply (mean_times_count _ _ _ Hm Hk H0 Hb).
Qed.

(** [weighted_sum / total_task_count] *)
Lemma count_mean_unit a n : (0 < n)%nat -> in_range 0 (inject_Z (Z.of_nat n)) a ->
  in_range (inject_Z (Z.of_nat n)) (inject_Z (Z.of_nat n)) (of_Z (Z.of_nat n)) ->
  unit_or_zero_draw (fdiv a (of_Z (Z.of_nat n))).
Proof.
  intros Hn [_ Hsf Hsr] [_ Htf Htr]. pose proof pow2_1000_big.
  assert (H1 : (1 <= inject_Z (Z.of_nat n))%Q) by (change 1%Q with (inject_Z 1); rewrite <-Zle_Qle; lia).
  assert (Hq : (0 <= fq a / fq (of_Z (Z.of_nat n)) <= 1)%Q).
  { split; [apply Qle_shift_div_l|apply Qle_shift_div_r]; lra. }
  destruct (fdiv_value a (of_Z (Z.of_nat n))) as (x & Hx & Hxf & Hxv); [done..|lra|rewrite Qabs_pos; lra|].
  rewrite Hx. constructor; [by eapply fdiv_wf|done|].
  - rewrite Hxv. split; [apply round64_nonneg; lra|]. apply (Qle_trans _ (round64 1)); [apply round64_le; lra|].
    rewrite round64_exact; [lra|]. apply (representable_Z 1). lia.
Qed.

Lemma replicate_mean_unit scores i j cluster_ids seeds strata n :
  (0 < n)%nat -> Z.of_nat n < 2 ^ 20 -> Z.of_nat (length seeds) < 2 ^ 10 -> seeds <> [] ->
  sum_list (length <$> strata.*2) = n ->
  Forall (fun kv : string * list SuiteTask => kv.2 <> []
    /\ (forall t, t ∈ kv.2 -> stk_cluster_id t ∈ cluster_ids)
    /\ (forall s t, s ∈ seeds -> t ∈ kv.2 ->
          exists x, score_of scores s (stk_task_id t) = Ok x /\ in_range 0 1 x)) strata ->
  unit_or_zero_draw (replicate_mean scores strata (draw_weights draws i cluster_ids) (draw_weights draws j seeds)
              seeds (Z.of_nat n)).
Proof.
  intros Hn Hn' Hs' Hs Hsum Hst. unfold replicate_mean.
  assert (Hsize : forall kv, kv ∈ strata -> (length kv.2 <= n)%nat).
  { intros kv Hkv. rewrite <-Hsum. clear -Hkv. induction strata as [|k st IH]; [by apply elem_of_nil in Hkv|].
    cbn. apply elem_of_cons in Hkv as [->|Hkv]; [lia|]. specialize (IH Hkv). lia. }
  assert (Hterm : forall kv, kv ∈ strata -> _)
    by (intros kv Hkv; exact (stratum_term scores i j cluster_ids seeds n kv Hn' Hs' Hs (Hsize kv Hkv) (proj1 (Forall_forall _ _) Hst kv Hkv))).
  match goal with |- context [map_result ?f strata] =>
    pose proof (map_result_except f (fun kv r => in_range 0 (inject_Z (Z.of_nat (length kv.2))) r)
      (fun e => e = ZERO_DIVISION /\ zero_draw) strata) as Hroots; destruct (map_result f strata) as [roots|e] end;
    cbn [bind_result unit_or_zero_draw].
  2: { by apply Hroots. }
  assert (Hr : Forall2 (fun kv r => in_range 0 (inject_Z (Z.of_nat (length kv.2))) r) strata roots)
    by (by apply Hroots).
  destruct (float_of_int_exact (Z.of_nat n)) as [-> Htot]; [lia|]. cbn [bind_result].
  assert (Hsumr : in_range 0 (inject_Z (Z.of_nat n)) (fold_left fadd roots fzero)).
  { pose proof (strata_sum_bound roots (length <$> strata.*2) fzero 0) as Hb. rewrite Hsum in Hb. apply Hb; [| |lia].
    - clear -Hr. induction Hr; cbn; constructor; done.
    - constructor; [by right|done|]. split; vm_compute; discriminate. }
  by apply count_mean_unit.
Qed.

(** A replicate over the strata of a suite. *)
Lemma replicate_of_suite scores tasks strata i j :
  tasks <> [] -> Z.of_nat (length tasks) < 2 ^ 20 -> scores <> [] -> Z.of_nat (length scores) < 2 ^ 10 ->
  complete_scores scores tasks -> sum_list (length <$> strata.*2) = length tasks ->
  Forall (fun kv : string * list SuiteTask => kv.2 <> [] /\ forall x, x ∈ kv.2 -> x ∈ tasks) strata ->
  unit_or_zero_draw (replicate_mean scores strata
    (draw_weights draws i (sort_strings (remove_dups (stk_cluster_id <$> tasks))))
    (draw_weights draws j (zsort scores.*1)) (zsort scores.*1) (Z.of_nat (length tasks))).
Proof.
  intros Ht Ht' Hs Hs' Hc Htot Hgr. apply replicate_mean_unit; try done.
  - destruct tasks; [done|]. cbn. lia.
  - rewrite zsort_length, length_fmap. done.
  - intros He%(f_equal length). rewrite zsort_length, length_fmap in He. by destruct scores.
  - eapply Forall_impl; [exact Hgr|]. intros kv [Hne Hin]. split_and!; [done| |].
    + intros t Hkt. apply sort_strings_elem, elem_of_remove_dups.
      apply (list_elem_of_fmap_2 stk_cluster_id). auto.
    + intros s t Hsin Hkt. apply Hc; [by apply zsort_elem|auto].
Qed.

Lemma fraction_unit n d : 0 <= n <= Z.pos d -> in_range 0 1 (of_Q (n # d)).
Proof.
  intros Hnd. assert (Hq : (0 <= n # d <= 1)%Q) by (split; unfold Qle; cbn; lia).
  destruct (of_Q_unit _ Hq) as [Hf Hv]. constructor; [apply of_Q_wf|done|]. rewrite Hv.
  split; [apply round64_nonneg; lra|]. apply (Qle_trans _ (round64 1)); [apply round64_le; lra|].
  rewrite round64_exact; [lra|]. apply (representable_Z 1). lia.
Qed.

Lemma interval_unit scores tasks samples :
  tasks <> [] -> Z.of_nat (length tasks) < 2 ^ 20 ->
  scores <> [] -> Z.of_nat (length scores) < 2 ^ 10 ->
  complete_scores scores tasks ->
  (0 < samples)%nat -> Z.of_nat samples < 2 ^ 30 ->
  match cluster_bootstrap_interval draws scores tasks samples with
  | Ok (lo, hi) => in_range 0 1 lo /\ in_range 0 1 hi
  | Err e => e = ZERO_DIVISION /\ zero_draw
  end.
Proof.
  intros Ht Ht' Hs Hs' Hc Hn Hn'. unfold cluster_bootstrap_interval.
  destruct (group_by_spec stratum_of tasks) as [Htot Hgr].
  set (strata := sort_kv (group_by stratum_of tasks)).
  assert (Htot' : sum_list (length <$> strata.*2) = length tasks).
  { rewrite <-Htot. unfold group_total, strata. by rewrite sort_kv_perm. }
  assert (Hgr' : Forall (fun kv => kv.2 <> [] /\ forall x, x ∈ kv.2 -> x ∈ tasks) strata).
  { unfold strata. by rewrite sort_kv_perm. }
  match goal with |- context [map_result ?f (seq 0 samples)] =>
    pose proof (map_result_except f (fun _ x => in_range 0 1 x) (fun e => e = ZERO_DIVISION /\ zero_draw) (seq 0 samples)) as Hreps;
    destruct (map_result f (seq 0 samples)) as [reps|e]; cbn [bind_result] end.
  2: { apply Hreps. intros r _. by apply replicate_of_suite. }
  assert (Hr' : Forall2 (fun _ x => in_range 0 1 x) (seq 0 samples) reps)
    by (apply Hreps; intros r _; by apply replicate_of_suite).
  pose proof (Forall2_length _ _ _ Hr') as Hl. rewrite length_seq in Hl.
  assert (Hr : forall x, x ∈ reps -> in_range 0 1 x).
  { apply Forall_forall. clear -Hr'. induction Hr'; by constructor. }
  assert (Hne : reps <> []) by (intros ->; cbn in Hl; lia).
  destruct (percentile_unit reps (of_Q (25 # 1000)) Hne) as (lo & -> & Hlo); [lia|done|apply fraction_unit; lia|].
  destruct (percentile_unit reps (of_Q (975 # 1000)) Hne) as (hi & -> & Hhi); [lia|done|apply fraction_unit; lia|].
  by cbn [bind_result].
Qed.
End BootstrapRange.

(** ** The draws of the standard library *)
(** A value of [random.random()]: the documentation gives multiples of [2^-53] in
    [[0.0, 1.0)]. *)
Definition uniform (u : float64) : Prop :=
  wf_float u /\ is_finite u = true /\ exists k, 0 <= k < 2 ^ 53 /\ (fq u == inject_Z k * pow2 (-53))%Q.

(** What is used of the natural logarithm [math.log] at the values [1.0 - random()]:
    [1 - x <= - ln x <= 53 ln 2] up to rounding, and [log(1.0)] is zero. *)
Definition natural_log (log : float64 -> float64) : Prop :=
  forall x m, 1 <= m <= 2 ^ 53 -> wf_float x -> is_finite x = true -> (fq x == inject_Z m * pow2 (-53))%Q ->
    wf_float (log x) /\ is_finite (log x) = true /\ ((1 - fq x) * (1 # 2) <= - fq (log x) <= 37)%Q
    /\ (m = 2 ^ 53 -> (fq (log x) == 0)%Q).

Lemma representable_dyadic k : Z.abs k <= 2 ^ 53 -> representable (inject_Z k * pow2 (-53)).
Proof. intros H. exists k, (-53). split; [done|lia]. Qed.

Lemma one_is_dyadic : (inject_Z (2 ^ 53) * pow2 (-53) == 1)%Q.
Proof. vm_compute. reflexivity. Qed.

Lemma fsub_dyadic x y k m : is_finite x = true -> is_finite y = true ->
  (fq x == inject_Z k * pow2 (-53))%Q -> (fq y == inject_Z m * pow2 (-53))%Q -> Z.abs (k - m) <= 2 ^ 53 ->
  is_finite (fsub x y) = true /\ (fq (fsub x y) == inject_Z (k - m) * pow2 (-53))%Q.
Proof.
  intros Hx Hy Ex Ey Hb. pose proof pow2_1000_big. pose proof (pow2_pos (-53)). pose proof one_is_dyadic.
  assert (Hq : (fq x - fq y == inject_Z (k - m) * pow2 (-53))%Q).
  { rewrite Ex, Ey. unfold Z.sub. rewrite inject_Z_plus, inject_Z_opp. ring. }
  assert (Hab : (- inject_Z (2 ^ 53) <= inject_Z (k - m) <= inject_Z (2 ^ 53))%Q)
    by (rewrite <-inject_Z_opp, <-!Zle_Qle; lia).
  destruct (fsub_value x y Hx Hy) as [Hf Hv]; [rewrite Hq; apply Qabs_Qle_condition; nra|].
  split; [done|]. rewrite Hv, Hq. apply round64_exact. by apply representable_dyadic.
Qed.

Lemma fneg_wf x : wf_float x -> wf_float (fneg x).
Proof.
  destruct x as [m e| |b|]; cbn; [|by right|done..]. destruct (Z.eqb_spec m 0); [done|]. intros [[Ho Hr]|[? _]]; [|done]. left.
  split; [by rewrite Z.odd_opp|]. apply representable_opp in Hr. eapply representable_proper; [|exact Hr].
  rewrite inject_Z_opp. lra.
Qed.

Lemma expovariate_drawn log u : natural_log log -> uniform u ->
  drawn (expovariate log u) /\ ((fq (expovariate log u) == 0)%Q -> (fq u == 0)%Q).
Proof.
  intros Hlog (Hw & Hf & k & Hk & Eu). pose proof one_is_dyadic as H1. pose proof (pow2_pos (-53)).
  destruct (fsub_dyadic fone u (2 ^ 53) k) as [Hsf Hsv]; [done|done|by rewrite H1|done|lia|].
  destruct (Hlog (fsub fone u) (2 ^ 53 - k)) as (Lw & Lf & Lr & L1); [lia|apply fadd_wf|done|done|].
  destruct (fneg_value (log (fsub fone u)) Lf) as [Nf Nv]. unfold expovariate.
  assert (Ek : (1 - fq (fsub fone u) == inject_Z k * pow2 (-53))%Q).
  { rewrite Hsv. unfold Z.sub. rewrite inject_Z_plus, inject_Z_opp. lra. }
  assert (Hk0 : (0 <= inject_Z k)%Q) by (change 0%Q with (inject_Z 0); rewrite <-Zle_Qle; lia).
  assert (Hkp : k <> 0 -> (pow2 (-53) <= inject_Z k * pow2 (-53))%Q).
  { intros ?. assert (1 <= inject_Z k)%Q by (change 1%Q with (inject_Z 1); rewrite <-Zle_Qle; lia). nra. }
  assert (Hkq : (0 <= inject_Z k * pow2 (-53))%Q) by nra.
  assert (H60 : (2 * pow2 (-60) <= pow2 (-53))%Q) by (vm_compute; discriminate).
  assert (H64 : (37 <= pow2 6)%Q) by (vm_compute; discriminate).
  split; [split|].
  - constructor; [by apply fneg_wf|done|]. rewrite Nv. lra.
  - rewrite Nv. destruct (decide (k = 0)) as [->|Hne]; [left; rewrite L1 by lia; lra|right]. specialize (Hkp Hne). lra.
  - rewrite Nv. intros Hz. destruct (decide (k = 0)) as [->|Hne]; [rewrite Eu; change (inject_Z 0) with 0%Q; lra|].
    specialize (Hkp Hne). lra.
Qed.

(** C39. The bootstrap interval is a pair of rates: for a non-empty suite of fewer than
    [2^20] tasks, between one and [2^10 - 1] training seeds that all have a score in
    [[0, 1]] for every task, and between one and [2^30 - 1] replicates, both bounds are in
    [[0, 1]] after all roundings.  The weights are those of [random.expovariate] over any
    uniform generator; the only exception the computation can raise is a division by
    zero, and only when the generator has returned exactly [0.0]. *)
Theorem bootstrap_interval_in_unit log random scores tasks samples :
  natural_log log -> (forall i, uniform (random i)) ->
  tasks <> [] -> Z.of_nat (length tasks) < 2 ^ 20 ->
  scores <> [] -> Z.of_nat (length scores) < 2 ^ 10 ->
  complete_scores scores tasks ->
  (0 < samples)%nat -> Z.of_nat samples < 2 ^ 30 ->
  match cluster_bootstrap_interval (fun i => expovariate log (random i)) scores tasks samples with
  | Ok (lo, hi) => in_range 0 1 lo /\ in_range 0 1 hi
  | Err e => e = ZERO_DIVISION /\ exists i, (fq (random i) == 0)%Q
  end.
Proof.
  intros Hlog Hu Ht Ht' Hs Hs' Hc Hn Hn'. set (draws := fun i => expovariate log (random i)).
  assert (Hd : forall i, drawn (draws i)) by (intros i; by apply expovariate_drawn).
  pose proof (interval_unit draws Hd scores tasks samples Ht Ht' Hs Hs' Hc Hn Hn') as H.
  destruct (cluster_bootstrap_interval draws scores tasks samples) as [[lo hi]|e]; [exact H|].
  destruct H as [-> (i & Hi)]. split; [done|]. exists i. by apply (expovariate_drawn log).
Qed.

Definition sample_task : SuiteTask := {|
  stk_task_id := "task-1"; stk_task_version := "v1"; stk_task_bundle_sha256 := "";
  stk_evaluation_plan_sha256 := ""; stk_scoring_contract_sha256 := ""; stk_family := repair;
  stk_root_cause := Some "bounds"; stk_program_type := "xdp"; stk_cluster_id := "c1" |}.

(** A generator that always returns one half, and a crude logarithm. *)
Definition sample_random (_ : nat) : float64 := of_Q (1 # 2).
Definition sample_log (x : float64) : float64 := fsub x fone.

Lemma sample_log_ok : natural_log sample_log.
Proof.
  intros x m Hm Hw Hf Ex. pose proof one_is_dyadic as H1. pose proof (pow2_pos (-53)).
  destruct (fsub_dyadic x fone m (2 ^ 53)) as [Hsf Hsv]; [done|done|done|by rewrite H1|lia|].
  assert (Hv : (fq (sample_log x) == fq x - 1)%Q).
  { unfold sample_log. rewrite Hsv, Ex. unfold Z.sub. rewrite inject_Z_plus, inject_Z_opp. lra. }
  assert (Hr : (0 <= inject_Z m <= inject_Z (2 ^ 53))%Q) by (change 0%Q with (inject_Z 0); rewrite <-!Zle_Qle; lia).
  assert (Hx : (0 <= fq x <= 1)%Q) by (rewrite Ex; nra).
  split_and!; [apply fadd_wf|done|rewrite Hv; lra..|]. intros ->. rewrite Hv, Ex, H1. lra.
Qed.

Lemma bootstrap_interval_in_unit_witness :
  exists lo hi,
    cluster_bootstrap_interval (fun i => expovariate sample_log (sample_random i)) [(0, [("task-1", fone)])] [sample_task] 2
      = Ok (lo, hi)
    /\ in_range 0 1 lo /\ in_range 0 1 hi.
Proof.
  assert (H1 : in_range 0 1 fone).
  { constructor; [by apply is_float64_wf|done|]. split; vm_compute; discriminate. }
  pose proof (bootstrap_interval_in_unit sample_log sample_random [(0, [("task-1", fone)])] [sample_task] 2) as H.
  destruct (is_ok_inv (cluster_bootstrap_interval (fun i => expovariate sample_log (sample_random i))
    [(0, [("task-1", fone)])] [sample_task] 2)) as [[lo hi] E]; [vm_compute; reflexivity|].
  rewrite E in H. exists lo, hi. split; [exact E|]. apply H; [exact sample_log_ok| |discriminate|cbn; lia|discriminate|cbn; lia| |lia|lia].
  - intros i. split; [apply of_Q_wf|]. split; [vm_compute; reflexivity|].
    exists (2 ^ 52). split; [lia|]. vm_compute. reflexivity.
  - intros seed task Hs Ht. apply list_elem_of_singleton in Hs as ->. apply list_elem_of_singleton in Ht as ->.
    exists fone. split; [vm_compute; reflexivity|exact H1].
Defined.

(** Interpolation can reverse the interval: five replicates that all equal
    [0.6], the score of one success in five samples at [k = 3], give a lower bound
    strictly above the upper bound. *)
Theorem bootstrap_interval_can_reverse :
  exists score lo hi,
    pass_at_k_estimate 5 1 3 = Ok score
    /\ cluster_bootstrap_interval (fun _ => fone) [(0, [("task-1", score)])] [sample_task] 5 = Ok (lo, hi)
    /\ fltb hi lo = true.
Proof. eexists _, _, _. do 2 (split; [vm_compute; reflexivity|]). vm_compute. reflexivity. Qed.

End Stats.
