(* ===== verification/Aggregate.v ===== *)
(** * Aggregation of attempts ([src/bpe/aggregate.py])

    [aggregate_attempts] with its parts: the identity of the run, the membership
    of every attempt in the frozen suite and experiment, the eligible attempts,
    the task scores and the report.  A message that interpolates values keeps its
    constant text and the identifiers it names; the draws of the bootstrap's
    random generator are a parameter. *)
From Stdlib Require Import ZArith QArith String Ascii Lia.
From stdpp Require Import base tactics list strings sets.
From S2P Require Import Prelude Floats FloatRange Sha256 Json JsonFacts Models Samples ModelFacts Grading Stats.
Local Open Scope string_scope.
Local Open Scope Z_scope.

Module Aggregate.
Import Json JsonFacts Models ModelFacts Stats.

(** [_single_value]: the one element of the set of values. *)
Definition single_value {T} `{EqDecision T} (label : string) (values : list T) : result string T :=
  match remove_dups values with
  | [v] => Ok v
  | _ => Err ("attempts mix " ++ label)
  end.

(** The values every attempt of a run shares. *)
Record RunIdentity := {
  run_experiment_id : string;
  run_model_id : string;
  run_sampling_config_sha256 : string;
  run_grader_id : string;
  run_reward_policy_id : string;
  run_environment_id : string;
  run_diagnostic_condition : Diagnostic;
  run_suite_digest : string
}.

Definition at_request (a : AttemptRecord) : EvaluationRequest := ev_request (at_evidence a).

(** [_validate_run_identity] *)
Definition validate_run_identity (records : list AttemptRecord) (suite : SuiteManifest)
    (experiment : ExperimentManifest) : result string RunIdentity :=
  let* experiment_id := single_value "experiment IDs" (at_experiment_id <$> records) in
  let* model_id := single_value "model IDs" (at_model_id <$> records) in
  let* model_artifact_sha256 :=
    single_value "model artifact digests" (at_model_artifact_sha256 <$> records) in
  let* sampling_config_sha256 :=
    single_value "sampling configurations" (at_sampling_config_sha256 <$> records) in
  let* grader_id := single_value "grader IDs" ((fun r => gr_grader_id (at_grade r)) <$> records) in
  let* reward_policy_id :=
    single_value "reward policy IDs" ((fun r => gr_policy_id (at_grade r)) <$> records) in
  let* reward_policy_sha256 :=
    single_value "reward policy digests" (at_reward_policy_sha256 <$> records) in
  let* environment_id :=
    single_value "environment IDs" ((fun r => req_environment_id (at_request r)) <$> records) in
  let* diagnostic_condition :=
    single_value "diagnostic conditions"
      ((fun r => req_diagnostic_condition (at_request r)) <$> records) in
  let* environment_digests :=
    map_result (fun r => sha256_json (EnvironmentFingerprint_json (ev_environment (at_evidence r))))
      records in
  let* environment_sha256 := single_value "environment fingerprints" environment_digests in
  let* harness_commit :=
    single_value "harness commits" ((fun r => ev_harness_commit (at_evidence r)) <$> records) in
  let* suite_id := single_value "suite IDs" ((fun r => req_suite_id (at_request r)) <$> records) in
  let* suite_digest := sha256_json (SuiteManifest_json suite) in
  let* recorded_suite_digest :=
    single_value "suite manifest digests"
      ((fun r => req_suite_manifest_sha256 (at_request r)) <$> records) in
  let* experiment_digest := sha256_json (ExperimentManifest_json experiment) in
  let* recorded_experiment_id :=
    single_value "request experiment IDs" ((fun r => req_experiment_id (at_request r)) <$> records) in
  let* recorded_experiment_digest :=
    single_value "experiment manifest digests"
      ((fun r => req_experiment_manifest_sha256 (at_request r)) <$> records) in
  raise ("attempt suite does not match " ++ su_suite_id suite)
    when negb (bool_decide (suite_id = su_suite_id suite)) ;;
  raise "attempts do not bind the supplied frozen suite manifest"
    when negb (bool_decide (recorded_suite_digest = suite_digest)) ;;
  raise ("attempt environment does not match suite environment " ++ su_environment_id suite)
    when negb (bool_decide (environment_id = su_environment_id suite)) ;;
  raise "experiment manifest does not bind the supplied frozen suite"
    when negb (bool_decide (ex_suite_id experiment = su_suite_id suite))
         || negb (bool_decide (ex_suite_manifest_sha256 experiment = suite_digest)) ;;
  raise "attempts do not match the supplied experiment identity"
    when negb (bool_decide (recorded_experiment_id = ex_experiment_id experiment))
         || negb (bool_decide (experiment_id = ex_experiment_id experiment)) ;;
  raise "attempts do not bind the supplied frozen experiment manifest"
    when negb (bool_decide (recorded_experiment_digest = experiment_digest)) ;;
  raise "attempt run configuration does not match the experiment manifest"
    when negb (bool_decide (model_id = ex_model_id experiment))
         || negb (bool_decide (model_artifact_sha256 = ex_model_artifact_sha256 experiment))
         || negb (bool_decide (sampling_config_sha256 = ex_sampling_config_sha256 experiment))
         || negb (bool_decide (diagnostic_condition = ex_diagnostic_condition experiment))
         || negb (bool_decide (reward_policy_id = ex_reward_policy_id experiment))
         || negb (bool_decide (reward_policy_sha256 = ex_reward_policy_sha256 experiment))
         || negb (bool_decide (environment_sha256 = ex_environment_sha256 experiment))
         || negb (bool_decide (harness_commit = ex_harness_commit experiment))
         || negb (bool_decide (grader_id = ex_expected_grader_id experiment)) ;;
  Ok {| run_experiment_id := experiment_id; run_model_id := model_id;
        run_sampling_config_sha256 := sampling_config_sha256; run_grader_id := grader_id;
        run_reward_policy_id := reward_policy_id; run_environment_id := environment_id;
        run_diagnostic_condition := diagnostic_condition; run_suite_digest := suite_digest |}.

(** ** Membership *)

(** The local variables of the loop of [_validate_attempt_membership]. *)
Record Seen := {
  seen_samples : list (string * Z * Z * Z);
  seen_request_ids : list string;
  seen_replays : list string;
  seen_turn_zero_seeds : list (string * Z * Z);
  episodes_by_sample : list (string * Z * Z * string);
  episode_records : list (string * Z * Z * list AttemptRecord)
}.

Definition nothing_seen : Seen := {|
  seen_samples := []; seen_request_ids := []; seen_replays := []; seen_turn_zero_seeds := [];
  episodes_by_sample := []; episode_records := [] |}.

Definition tasks_by_id (suite : SuiteManifest) : list (string * SuiteTask) :=
  dict_of ((fun t => (stk_task_id t, t)) <$> su_tasks suite).
Definition plans_by_seed (experiment : ExperimentManifest) : list (Z * SeedPlan) :=
  dict_of ((fun p => (sp_training_seed p, p)) <$> ex_seed_plans experiment).

Definition sample_identity (r : AttemptRecord) : string * Z * Z * Z :=
  (at_task_id r, at_training_seed r, at_sample_index r, at_turn_index r).
Definition episode_identity (r : AttemptRecord) : string * Z * Z :=
  (at_task_id r, at_training_seed r, at_sample_index r).
Definition generation_identity (r : AttemptRecord) : string * Z * Z :=
  (at_task_id r, at_training_seed r, at_generation_seed r).

Definition task_identity (t : SuiteTask) :=
  (stk_task_version t, stk_task_bundle_sha256 t, stk_scoring_contract_sha256 t, stk_family t,
   stk_root_cause t, stk_program_type t, stk_cluster_id t).
Definition attempt_identity (r : AttemptRecord) :=
  (at_task_version r, at_task_bundle_sha256 r, gr_contract_sha256 (at_grade r), at_family r,
   at_root_cause r, at_program_type r, at_cluster_id r).

(** One turn of the loop body. *)
Definition see_attempt (suite : SuiteManifest) (experiment : ExperimentManifest) (st : Seen)
    (r : AttemptRecord) : result string Seen :=
  match dict_get (tasks_by_id suite) (at_task_id r) with
  | None => Err ("attempt references task outside frozen suite: " ++ at_task_id r)
  | Some task =>
  raise ("attempt metadata does not match frozen suite task " ++ at_task_id r)
    when negb (bool_decide (attempt_identity r = task_identity task)) ;;
  match dict_get (plans_by_seed experiment) (at_training_seed r) with
  | None => Err ("attempt uses undeclared training seed for " ++ at_task_id r)
  | Some seed_plan =>
  raise "attempt checkpoint does not match training seed"
    when negb (bool_decide (at_checkpoint_id r = sp_checkpoint_id seed_plan)) ;;
  raise "attempt checkpoint digest does not match training seed"
    when negb (bool_decide (at_checkpoint_artifact_sha256 r = sp_checkpoint_artifact_sha256 seed_plan)) ;;
  raise "duplicate sample identity" when bool_decide (sample_identity r ∈ seen_samples st) ;;
  raise ("duplicate request ID: " ++ req_request_id (at_request r))
    when bool_decide (req_request_id (at_request r) ∈ seen_request_ids st) ;;
  raise ("duplicate replay manifest: " ++ at_replay_manifest_sha256 r)
    when bool_decide (at_replay_manifest_sha256 r ∈ seen_replays st) ;;
  let* turn_zero_seeds :=
    if at_turn_index r =? 0 then
      raise "sample index is outside the experiment seed plan"
        when Z.of_nat (length (sp_generation_seeds seed_plan)) <=? at_sample_index r ;;
      let* planned := index (sp_generation_seeds seed_plan) (at_sample_index r) in
      raise "generation seed does not match the experiment plan"
        when negb (at_generation_seed r =? planned) ;;
      raise "duplicate turn-zero generation seed"
        when bool_decide (generation_identity r ∈ seen_turn_zero_seeds st) ;;
      Ok (generation_identity r :: seen_turn_zero_seeds st)
    else Ok (seen_turn_zero_seeds st) in
  let prior_episode :=
    default (at_episode_id r) (dict_get (episodes_by_sample st) (episode_identity r)) in
  raise "sample is split across episode IDs" when negb (bool_decide (prior_episode = at_episode_id r)) ;;
  Ok {| seen_samples := sample_identity r :: seen_samples st;
        seen_request_ids := req_request_id (at_request r) :: seen_request_ids st;
        seen_replays := at_replay_manifest_sha256 r :: seen_replays st;
        seen_turn_zero_seeds := turn_zero_seeds;
        episodes_by_sample := dict_set (episode_identity r) prior_episode (episodes_by_sample st);
        episode_records :=
          dict_set (episode_identity r)
            (default [] (dict_get (episode_records st) (episode_identity r)) ++ [r])%list
            (episode_records st) |}
  end
  end.

Fixpoint see_attempts (suite : SuiteManifest) (experiment : ExperimentManifest) (st : Seen)
    (records : list AttemptRecord) : result string Seen :=
  match records with
  | [] => Ok st
  | r :: records =>
      let* st := see_attempt suite experiment st r in see_attempts suite experiment st records
  end.

(** [sorted(episode, key=lambda record: record.turn_index)], stable. *)
Definition sort_turns (l : list AttemptRecord) : list AttemptRecord :=
  sort_by (fun x r => at_turn_index x <? at_turn_index r) l.

(** [list(range(n))] *)
Definition zrange (n : nat) : list Z := Z.of_nat <$> seq 0 n.

Definition validate_episode (episode : list AttemptRecord) : result string unit :=
  let ordered := sort_turns episode in
  raise "episode has non-contiguous turns"
    when negb (bool_decide (at_turn_index <$> ordered = zrange (length ordered))) ;;
  for_each
    (fun pc : AttemptRecord * AttemptRecord =>
       raise "episode has broken parent linkage"
         when negb (bool_decide (req_parent_request_id (at_request pc.2)
                                 = Some (req_request_id (at_request pc.1)))) ;;
       Ok tt)
    (pairwise ordered).

(** [_validate_attempt_membership] *)
Definition validate_attempt_membership (records : list AttemptRecord) (suite : SuiteManifest)
    (experiment : ExperimentManifest) : result string unit :=
  let* st := see_attempts suite experiment nothing_seen records in
  for_each (fun e => validate_episode e.2) (episode_records st).

(** ** Eligible attempts *)
Definition turn_zero (records : list AttemptRecord) : list AttemptRecord :=
  filter (fun r => at_turn_index r = 0) records.

(** Whether an attempt's replay is one the registry anchors. *)
Definition anchored (registry : ReplayAnchorRegistry) (r : AttemptRecord) : result string bool :=
  let anchors := dict_of ((fun a => (ra_manifest_sha256 a, a)) <$> rr_anchors registry) in
  match dict_get anchors (at_replay_manifest_sha256 r) with
  | None => Ok false
  | Some a =>
      if negb (bool_decide (ra_evidence_sha256 a = gr_evidence_sha256 (at_grade r))) then Ok false
      else
        let* grade_sha256 := sha256_json (Grade_json (at_grade r)) in
        Ok (bool_decide (ra_grade_sha256 a = grade_sha256)
            && bool_decide (ra_contract_sha256 a = gr_contract_sha256 (at_grade r))
            && bool_decide (ra_policy_sha256 a = at_reward_policy_sha256 r))
  end.

(** [_eligible_turn_zero] *)
Definition eligible_turn_zero (records : list AttemptRecord) (include_nonbenchmark : bool)
    (trusted_replay_registry : option ReplayAnchorRegistry) : result string (list AttemptRecord) :=
  if include_nonbenchmark then Ok (turn_zero records)
  else
    raise "strict anchored aggregation accepts only microVM turn-zero evidence"
      when existsb (fun r => negb (bool_decide (ev_origin (at_evidence r) = ORIGIN_MICROVM)))
             (turn_zero records) ;;
    match trusted_replay_registry with
    | None => Err "strict anchored aggregation requires a replay-anchor registry"
    | Some registry =>
        let* flags := map_result (anchored registry) (turn_zero records) in
        raise "strict aggregation requires externally anchored replays" when negb (forallb id flags) ;;
        Ok (turn_zero records)
    end.

(** ** Task scores *)
Definition attempts_of (eligible : list AttemptRecord) (task_id : string) (training_seed : Z) :
    list AttemptRecord :=
  default [] (dict_get (group_by (fun r => (at_task_id r, at_training_seed r)) eligible)
                (task_id, training_seed)).

Definition succeeded (r : AttemptRecord) : bool := bool_decide (gr_strict_success (at_grade r) = Some true).

(** The score of one task under one training seed. *)
Definition seed_score (eligible : list AttemptRecord) (k expected_samples : Z) (task_id : string)
    (training_seed : Z) : result string float64 :=
  let attempts := attempts_of eligible task_id training_seed in
  raise ("infrastructure failure makes " ++ task_id ++ " incomplete")
    when existsb (fun r => negb (gr_comparable (at_grade r))) attempts ;;
  raise (task_id ++ ": the frozen sample design requires exactly the declared attempts")
    when negb (Z.of_nat (length attempts) =? expected_samples) ;;
  let sample_indices := zsort (at_sample_index <$> attempts) in
  raise (task_id ++ ": sample indices must be contiguous from zero")
    when negb (bool_decide (sample_indices = zrange (length sample_indices))) ;;
  let successes := Z.of_nat (length (filter (fun r => succeeded r = true) attempts)) in
  pass_at_k_estimate (Z.of_nat (length attempts)) successes k.

(** The loop of [_task_scores]: the mean per task, and every seed's scores. *)
Fixpoint score_tasks (eligible : list AttemptRecord) (training_seeds : list Z) (k expected_samples : Z)
    (tasks : list SuiteTask) (result_scores : list (string * float64))
    (by_seed : list (Z * list (string * float64))) :
    result string (list (string * float64) * list (Z * list (string * float64))) :=
  match tasks with
  | [] => Ok (result_scores, by_seed)
  | task :: tasks =>
      let id := stk_task_id task in
      let* seed_scores := map_result (seed_score eligible k expected_samples id) training_seeds in
      let by_seed :=
        fold_left
          (fun d (sx : Z * float64) =>
             dict_set sx.1 (dict_set id sx.2 (default [] (dict_get d sx.1))) d)
          (zip training_seeds seed_scores) by_seed in
      let* average := mean seed_scores (Z.of_nat (length seed_scores)) in
      score_tasks eligible training_seeds k expected_samples tasks (dict_set id average result_scores) by_seed
  end.

(** [_task_scores] *)
Definition task_scores (eligible : list AttemptRecord) (suite : SuiteManifest)
    (expected_training_seeds : list Z) (k expected_samples : Z) :
    result string (list (string * float64) * list (Z * list (string * float64))) :=
  score_tasks eligible expected_training_seeds k expected_samples (su_tasks suite) []
    (dict_of ((fun s => (s, [])) <$> expected_training_seeds)).

(** [_slice_scores] *)
Definition slice_scores (scores : list (string * float64)) (suite_tasks : list SuiteTask)
    (getter : SuiteTask -> string) : result string (list SliceScore) :=
  let* graded := map_result (fun t => let* x := dict_index scores (stk_task_id t) in Ok (getter t, x))
                   suite_tasks in
  let grouped := (fun g : string * list (string * float64) => (g.1, g.2.*2)) <$> group_by fst graded in
  map_result
    (fun g : string * list float64 =>
       let* rate := mean g.2 (Z.of_nat (length g.2)) in
       construct (fun s => check_field "slice" (SliceScore_ok s) ;; Ok tt)
         {| sl_name := g.1; sl_task_count := Z.of_nat (length g.2); sl_pass_at_k := Some rate |})
    (sort_kv grouped).

(** ** The report *)
Definition NOTES (include_nonbenchmark : bool) : list string :=
  ["Every frozen-suite task and declared training seed has the exact frozen sample count.";
   "Only independent turn-0 attempts contribute to pass@k; repair turns are excluded.";
   (if include_nonbenchmark
    then "This diagnostic report may include non-microVM or unanchored evidence."
    else "Replay manifests were checked against an externally supplied registry and the pinned microVM identity.");
   "Phase 0 cannot produce official results because it has neither authoritative kernel execution nor authenticated evaluator attestations.";
   "The Bayesian interval shares original-program cluster weights across strata."].

(** [sorted(plans, key=lambda item: item.training_seed)] *)
Definition sort_plans (l : list SeedPlan) : list SeedPlan :=
  sort_by (fun x p => sp_training_seed x <? sp_training_seed p) l.

Definition training_seed_result (scores_by_seed : list (Z * list (string * float64))) (task_count : Z)
    (plan : SeedPlan) : result string TrainingSeedScore :=
  let* scores := dict_index scores_by_seed (sp_training_seed plan) in
  let* rate := mean scores.*2 (Z.of_nat (length scores)) in
  construct (fun s => check_field "training_seed_result" (TrainingSeedScore_ok s) ;; Ok tt)
    {| ts_training_seed := sp_training_seed plan; ts_checkpoint_id := sp_checkpoint_id plan;
       ts_checkpoint_artifact_sha256 := sp_checkpoint_artifact_sha256 plan;
       ts_task_count := task_count; ts_pass_at_k := rate |}.

(** [Counter(record.grade.first_failure for record in eligible if ... is not None)] *)
Definition failure_counts (eligible : list AttemptRecord) : list (Stage * Z) :=
  (fun g : Stage * list Stage => (g.1, Z.of_nat (length g.2)))
    <$> group_by (fun s => s) (omap (fun r => gr_first_failure (at_grade r)) eligible).

(** The registry checks at the head of [aggregate_attempts]; returns its digest. *)
Definition check_registry (experiment : ExperimentManifest) (include_nonbenchmark : bool)
    (registry : option ReplayAnchorRegistry) (trusted_digest : option string) :
    result string (option string) :=
  let* _ := validate_opt validate_ReplayAnchorRegistry registry in
  let* registry_digest :=
    match registry with
    | None => Ok None
    | Some r =>
        let* experiment_sha256 := sha256_json (ExperimentManifest_json experiment) in
        raise "replay-anchor registry does not bind the experiment manifest"
          when negb (bool_decide (rr_experiment_manifest_sha256 r = experiment_sha256)) ;;
        let* digest := sha256_json (ReplayAnchorRegistry_json r) in Ok (Some digest)
    end in
  raise "strict anchored aggregation requires a registry and its external trusted digest"
    when negb include_nonbenchmark && (is_none registry || is_none trusted_digest) ;;
  raise "replay-anchor registry does not match its external trusted digest"
    when negb (is_none trusted_digest) && negb (bool_decide (registry_digest = trusted_digest)) ;;
  Ok registry_digest.

(** [aggregate_attempts]; [draws] is the sequence of the bootstrap's generator for
    the given seed. *)
Definition aggregate_attempts (draws : nat -> float64) (records : list AttemptRecord)
    (suite : SuiteManifest) (experiment : ExperimentManifest) (k : Z) (include_nonbenchmark : bool)
    (bootstrap_samples bootstrap_seed : Z) (registry : option ReplayAnchorRegistry)
    (trusted_digest : option string) : result string BenchmarkReport :=
  raise "k must be a positive integer" when k <? 1 ;;
  raise "bootstrap_samples must be a positive integer" when bootstrap_samples <? 1 ;;
  raise "bootstrap_seed must be a non-negative integer" when bootstrap_seed <? 0 ;;
  let* _ := validate_SuiteManifest suite in
  let* _ := validate_ExperimentManifest experiment in
  let* registry_digest := check_registry experiment include_nonbenchmark registry trusted_digest in
  raise "k was not predeclared in the frozen experiment manifest"
    when negb (bool_decide (k ∈ ex_reported_k experiment)) ;;
  let seeds := zsort (sp_training_seed <$> ex_seed_plans experiment) in
  let* expected_samples := samples_per_task_seed experiment in
  let* _ := for_each validate_AttemptRecord records in
  raise "cannot aggregate an empty attempt set" when negb (nonempty records) ;;
  let* run := validate_run_identity records suite experiment in
  let* _ := validate_attempt_membership records suite experiment in
  let* eligible := eligible_turn_zero records include_nonbenchmark registry in
  let* scores := task_scores eligible suite seeds k expected_samples in
  let '(scores_by_task, scores_by_seed) := scores in
  let* pass_at_k := mean scores_by_task.*2 (Z.of_nat (length scores_by_task)) in
  let* by_root_cause :=
    if bool_decide (su_family suite = repair)
    then slice_scores scores_by_task (su_tasks suite) stratum_of else Ok [] in
  let* by_program_type := slice_scores scores_by_task (su_tasks suite) stk_program_type in
  let* root_cause_macro :=
    if nonempty by_root_cause then
      let* m := mean (omap sl_pass_at_k by_root_cause) (Z.of_nat (length by_root_cause)) in Ok (Some m)
    else Ok None in
  let* training_seed_results :=
    map_result (training_seed_result scores_by_seed (Z.of_nat (length (su_tasks suite))))
      (sort_plans (ex_seed_plans experiment)) in
  let* experiment_sha256 := sha256_json (ExperimentManifest_json experiment) in
  let* interval :=
    cluster_bootstrap_interval draws scores_by_seed (su_tasks suite) (Z.to_nat bootstrap_samples) in
  construct validate_BenchmarkReport {|
    br_experiment_id := run_experiment_id run;
    br_experiment_manifest_sha256 := experiment_sha256;
    br_replay_anchor_registry_sha256 := registry_digest;
    br_suite_id := su_suite_id suite;
    br_suite_manifest_sha256 := run_suite_digest run;
    br_family := su_family suite;
    br_grader_id := run_grader_id run;
    br_reward_policy_id := run_reward_policy_id run;
    br_reward_policy_sha256 := ex_reward_policy_sha256 experiment;
    br_environment_id := run_environment_id run;
    br_environment_sha256 := ex_environment_sha256 experiment;
    br_harness_commit := ex_harness_commit experiment;
    br_diagnostic_condition := run_diagnostic_condition run;
    br_model_id := run_model_id run;
    br_model_artifact_sha256 := ex_model_artifact_sha256 experiment;
    br_sampling_config_sha256 := run_sampling_config_sha256 run;
    br_k := k;
    br_samples_per_task_seed := expected_samples;
    br_eligible_task_count := Z.of_nat (length scores_by_task);
    br_eligible_training_seed_count := Z.of_nat (length seeds);
    br_training_seeds := seeds;
    br_eligible_attempt_count := Z.of_nat (length eligible);
    br_excluded_attempt_count := Z.of_nat (length records) - Z.of_nat (length eligible);
    br_pass_at_k := Some pass_at_k;
    br_root_cause_macro_pass_at_k := root_cause_macro;
    br_bootstrap_95 := Some interval;
    br_bootstrap_method :=
      if bool_decide (su_family suite = repair) then root_cause_cluster_bayesian else cluster_bayesian;
    br_bootstrap_samples := bootstrap_samples;
    br_bootstrap_seed := bootstrap_seed;
    br_by_root_cause := by_root_cause;
    br_by_program_type := by_program_type;
    br_training_seed_results := training_seed_results;
    br_failure_stage_counts := failure_counts eligible;
    br_notes := NOTES include_nonbenchmark |}.

(** ** Grouping *)
Lemma group_by_snoc {K A} `{EqDecision K} (key : A -> K) l x :
  group_by key (l ++ [x])%list
  = dict_set (key x) (default [] (dict_get (group_by key l) (key x)) ++ [x])%list (group_by key l).
Proof. unfold group_by. by rewrite fold_left_app. Qed.

Lemma group_by_get {K A} `{EqDecision K} (key : A -> K) l k :
  default [] (dict_get (group_by key l) k) = filter (fun x => key x = k) l
  /\ (dict_get (group_by key l) k = None <-> filter (fun x => key x = k) l = []).
Proof.
  induction l as [|x l [IH1 IH2]] using rev_ind; [done|].
  rewrite group_by_snoc, dict_get_set, filter_app, filter_cons, filter_nil.
  destruct (decide (k = key x)) as [->|Hne].
  - rewrite decide_True by done. cbn. rewrite IH1. split; [done|]. split; [done|].
    intros []%app_eq_nil. done.
  - rewrite decide_False by done. rewrite app_nil_r. done.
Qed.

Lemma attempts_of_filter eligible task seed :
  attempts_of eligible task seed
  = filter (fun r => (at_task_id r, at_training_seed r) = (task, seed)) eligible.
Proof. apply group_by_get. Qed.

(** ** Membership: what the loop establishes *)

(** One attempt is a member of the frozen suite and experiment. *)
Record member (suite : SuiteManifest) (experiment : ExperimentManifest) (r : AttemptRecord) : Prop := {
  member_task : exists t, t ∈ su_tasks suite /\ stk_task_id t = at_task_id r
                          /\ attempt_identity r = task_identity t;
  member_plan : exists p, p ∈ ex_seed_plans experiment /\ sp_training_seed p = at_training_seed r
    /\ at_checkpoint_id r = sp_checkpoint_id p
    /\ at_checkpoint_artifact_sha256 r = sp_checkpoint_artifact_sha256 p
    /\ (at_turn_index r = 0 ->
        at_sample_index r < Z.of_nat (length (sp_generation_seeds p))
        /\ sp_generation_seeds p !! Z.to_nat (at_sample_index r) = Some (at_generation_seed r))
}.

(** The loop invariant after the attempts [done]. *)
Record seen_invariant (suite : SuiteManifest) (experiment : ExperimentManifest)
    (done : list AttemptRecord) (st : Seen) : Prop := {
  si_samples : seen_samples st = rev (sample_identity <$> done) /\ NoDup (sample_identity <$> done);
  si_requests : seen_request_ids st = rev ((fun r => req_request_id (at_request r)) <$> done)
                /\ NoDup ((fun r => req_request_id (at_request r)) <$> done);
  si_replays : seen_replays st = rev (at_replay_manifest_sha256 <$> done)
               /\ NoDup (at_replay_manifest_sha256 <$> done);
  si_turn_zero : seen_turn_zero_seeds st = rev (generation_identity <$> turn_zero done)
                 /\ NoDup (generation_identity <$> turn_zero done);
  si_episode_ids : forall r, r ∈ done ->
    dict_get (episodes_by_sample st) (episode_identity r) = Some (at_episode_id r);
  si_episodes : episode_records st = group_by episode_identity done;
  si_members : Forall (member suite experiment) done
}.

Lemma NoDup_snoc_rev {A} (l : list A) x : NoDup l -> x ∉ rev l -> NoDup (l ++ [x])%list.
Proof.
  intros Hl Hx. apply NoDup_app. split_and!; [done| |apply NoDup_singleton].
  intros y Hy ->%list_elem_of_singleton. apply Hx. rewrite list_elem_of_In, <-in_rev, <-list_elem_of_In. done.
Qed.

Lemma dict_of_keyed {K A} `{EqDecision K} (key : A -> K) l k x :
  dict_get (dict_of ((fun a => (key a, a)) <$> l)) k = Some x -> x ∈ l /\ key x = k.
Proof.
  unfold dict_of. assert (H : forall d, (forall k x, dict_get d k = Some x -> x ∈ l /\ key x = k) ->
    forall l', (forall y, y ∈ l' -> y ∈ l) ->
    forall k x, dict_get (fold_left (fun d kv => dict_set kv.1 kv.2 d) ((fun a => (key a, a)) <$> l') d) k = Some x ->
    x ∈ l /\ key x = k).
  { intros d Hd l'. revert d Hd. induction l' as [|y l' IH]; intros d Hd Hin; cbn; [done|].
    apply IH; [|set_solver]. intros j z. rewrite dict_get_set. case_decide as Hj; [|apply Hd].
    intros [= <-]. split; [apply Hin; by left|done]. }
  apply (H []); [done|done].
Qed.

Lemma see_attempt_step suite experiment done_ st r st' :
  seen_invariant suite experiment done_ st -> see_attempt suite experiment st r = Ok st' ->
  0 <= at_sample_index r ->
  seen_invariant suite experiment (done_ ++ [r])%list st'.
Proof.
  intros [[Hs1 Hs2] [Hq1 Hq2] [Hp1 Hp2] [Hz1 Hz2] He1 He2 Hm] H Hidx. unfold see_attempt in H.
  destruct (dict_get (tasks_by_id suite) (at_task_id r)) as [task|] eqn:Ht; [|done].
  destruct (negb (bool_decide (attempt_identity r = task_identity task))) eqn:G1; [done|].
  destruct (dict_get (plans_by_seed experiment) (at_training_seed r)) as [plan|] eqn:Hplan; [|done].
  destruct (negb (bool_decide (at_checkpoint_id r = _))) eqn:G2; [done|].
  destruct (negb (bool_decide (at_checkpoint_artifact_sha256 r = _))) eqn:G3; [done|].
  destruct (bool_decide (sample_identity r ∈ _)) eqn:G4; [done|].
  destruct (bool_decide (req_request_id (at_request r) ∈ _)) eqn:G5; [done|].
  destruct (bool_decide (at_replay_manifest_sha256 r ∈ _)) eqn:G6; [done|].
  apply bind_ok in H as (z & Hz & H). cbv zeta in H.
  destruct (negb (bool_decide (default _ _ = _))) eqn:G7; [done|].
  apply ok_inj in H. subst st'. bool_prop.
  apply dict_of_keyed in Ht as [Htin Htid]. apply dict_of_keyed in Hplan as [Hpin Hpid].
  assert (Hturn : z = rev (generation_identity <$> turn_zero (done_ ++ [r])%list)
    /\ NoDup (generation_identity <$> turn_zero (done_ ++ [r])%list)
    /\ (at_turn_index r = 0 -> at_sample_index r < Z.of_nat (length (sp_generation_seeds plan))
        /\ sp_generation_seeds plan !! Z.to_nat (at_sample_index r) = Some (at_generation_seed r))).
  { unfold turn_zero in *. rewrite filter_app, filter_cons, filter_nil.
    destruct (Z.eqb_spec (at_turn_index r) 0) as [H0|H0].
    - rewrite decide_True by done. rewrite fmap_app. cbn [fmap list_fmap].
      destruct (Z.leb_spec (Z.of_nat (length (sp_generation_seeds plan))) (at_sample_index r)); [done|].
      apply bind_ok in Hz as (planned & Hpl & Hz). unfold index in Hpl.
      destruct (sp_generation_seeds plan !! _) as [pl|] eqn:Hlk; [|done]. apply ok_inj in Hpl. subst pl.
      destruct (Z.eqb_spec (at_generation_seed r) planned) as [<-|]; [|done]. cbn [negb] in Hz.
      destruct (bool_decide (generation_identity r ∈ _)) eqn:G8; [done|]. apply ok_inj in Hz. bool_prop.
      rewrite rev_app_distr. split_and!; [by rewrite <-Hz, <-Hz1| |done].
      apply NoDup_snoc_rev; [done|]. by rewrite <-Hz1.
    - rewrite decide_False by done. rewrite app_nil_r. apply ok_inj in Hz. by split_and!; [congruence|..]. }
  destruct Hturn as (Hzr & Hzn & Hzp).
  constructor; cbn [seen_samples seen_request_ids seen_replays seen_turn_zero_seeds episodes_by_sample episode_records].
  - rewrite fmap_app, rev_app_distr. cbn. rewrite Hs1. split; [done|]. apply NoDup_snoc_rev; [done|congruence].
  - rewrite fmap_app, rev_app_distr. cbn. rewrite Hq1. split; [done|]. apply NoDup_snoc_rev; [done|congruence].
  - rewrite fmap_app, rev_app_distr. cbn. rewrite Hp1. split; [done|]. apply NoDup_snoc_rev; [done|congruence].
  - done.
  - intros x Hx. rewrite dict_get_set. apply elem_of_app in Hx as [Hx|Hx%list_elem_of_singleton].
    + destruct (decide (episode_identity x = episode_identity r)) as [Heq|Hne]; [|by apply He1].
      rewrite <-(He1 x Hx), Heq. destruct (dict_get _ (episode_identity r)) as [ep|] eqn:Hd; cbn in *; [done|].
      rewrite <-Heq in Hd. by rewrite (He1 x Hx) in Hd.
    + subst x. rewrite decide_True by done. congruence.
  - by rewrite group_by_snoc, He2.
  - apply Forall_app. split; [done|]. constructor; [|constructor].
    constructor; [by exists task|exists plan; by split_and!].
Qed.

Lemma see_attempts_invariant suite experiment records done_ st st' :
  seen_invariant suite experiment done_ st ->
  Forall (fun r => 0 <= at_sample_index r) records ->
  see_attempts suite experiment st records = Ok st' ->
  seen_invariant suite experiment (done_ ++ records)%list st'.
Proof.
  revert done_ st. induction records as [|r records IH]; intros done_ st Hi Hr H; cbn in H.
  - apply ok_inj in H as <-. by rewrite app_nil_r.
  - apply bind_ok in H as (st1 & H1 & H). apply Forall_cons in Hr as [Hr0 Hr].
    rewrite cons_middle, (app_assoc done_ [r] records). eapply IH; [|done|done]. by eapply see_attempt_step.
Qed.

(** ** Episodes *)
Lemma pairwise_elem {A} (l : list A) i x y :
  l !! i = Some x -> l !! S i = Some y -> (x, y) ∈ pairwise l.
Proof.
  revert i. induction l as [|a l IH]; intros i Hx Hy; [done|].
  destruct l as [|b l]; [by destruct i|]. destruct i as [|i].
  - cbn in Hx, Hy. simplify_eq. by left.
  - right. by apply (IH i).
Qed.

Lemma zrange_lookup n i : (i < n)%nat -> zrange n !! i = Some (Z.of_nat i).
Proof. intros Hi. unfold zrange. rewrite list_lookup_fmap, lookup_seq_lt by done. done. Qed.

Lemma episode_linked episode r :
  validate_episode episode = Ok tt -> r ∈ episode -> 0 < at_turn_index r ->
  exists q, q ∈ episode /\ at_turn_index q = at_turn_index r - 1
            /\ req_parent_request_id (at_request r) = Some (req_request_id (at_request q)).
Proof.
  unfold validate_episode. intros H Hr Hpos.
  destruct (negb _) eqn:Hturns; [done|]. apply bool_decide_neg_false in Hturns. apply for_each_ok in H.
  rewrite <-(sort_by_perm _ episode : sort_turns episode ≡ₚ episode) in Hr. apply list_elem_of_lookup in Hr as [i Hi].
  pose proof (lookup_lt_Some _ _ _ Hi) as Hlt.
  assert (Ht : at_turn_index r = Z.of_nat i).
  { assert (Hl : (at_turn_index <$> sort_turns episode) !! i = Some (at_turn_index r)).
    { by rewrite list_lookup_fmap, Hi. }
    rewrite Hturns, zrange_lookup in Hl by done. congruence. }
  destruct i as [|i]; [lia|].
  destruct (lookup_lt_is_Some_2 (sort_turns episode) i) as [q Hq]; [lia|].
  exists q. split_and!.
  - rewrite <-(sort_by_perm _ episode : sort_turns episode ≡ₚ episode). by eapply list_elem_of_lookup_2.
  - assert (Hl : (at_turn_index <$> sort_turns episode) !! i = Some (at_turn_index q)).
    { by rewrite list_lookup_fmap, Hq. }
    rewrite Hturns, zrange_lookup in Hl by lia. assert (Z.of_nat i = at_turn_index q) by congruence. lia.
  - pose proof (proj1 (Forall_forall _ _) H _ (pairwise_elem _ _ _ _ Hq Hi)) as Hlink. cbn in Hlink.
    destruct (negb _) eqn:E; [done|]. by apply bool_decide_neg_false in E.
Qed.

Lemma seen_invariant_start suite experiment : seen_invariant suite experiment [] nothing_seen.
Proof. constructor; cbn; try (split; [done|constructor]); [by intros r Hr%elem_of_nil|done|constructor]. Qed.

Lemma membership_inv records suite experiment :
  Forall (fun r => 0 <= at_sample_index r) records ->
  validate_attempt_membership records suite experiment = Ok tt ->
  exists st, seen_invariant suite experiment records st
             /\ Forall (fun e => validate_episode e.2 = Ok tt) (episode_records st).
Proof.
  intros Hr H. unfold validate_attempt_membership in H. apply bind_ok in H as (st & Hst & H).
  exists st. split; [|by apply for_each_ok in H].
  by apply (see_attempts_invariant suite experiment records [] nothing_seen st); [apply seen_invariant_start|..].
Qed.

Lemma NoDup_fmap_eq {A B} (f : A -> B) l x y :
  NoDup (f <$> l) -> x ∈ l -> y ∈ l -> f x = f y -> x = y.
Proof.
  induction l as [|a l IH]; cbn; [by intros _ ?%elem_of_nil|].
  rewrite NoDup_cons, !elem_of_cons. intros [Ha Hl] [->|Hx] [->|Hy] He; auto; exfalso; apply Ha.
  - rewrite He. by apply list_elem_of_fmap_2.
  - rewrite <-He. by apply list_elem_of_fmap_2.
Qed.

(** What membership guarantees: attempts that pass it have pairwise distinct
    sample identities, request ids and replay manifests; every attempt is of a task
    of the frozen suite with that task's exact metadata, under a declared training
    seed with its checkpoint, with the planned generation seed at turn zero; and
    every later turn links by its parent request to the previous turn of the same
    episode. *)
Theorem membership_guarantees records suite experiment :
  Forall (fun r => 0 <= at_sample_index r) records ->
  validate_attempt_membership records suite experiment = Ok tt ->
  NoDup (sample_identity <$> records)
  /\ NoDup ((fun r => req_request_id (at_request r)) <$> records)
  /\ NoDup (at_replay_manifest_sha256 <$> records)
  /\ Forall (member suite experiment) records
  /\ (forall r, r ∈ records -> 0 < at_turn_index r ->
        exists q, q ∈ records /\ episode_identity q = episode_identity r
          /\ at_episode_id q = at_episode_id r /\ at_turn_index q = at_turn_index r - 1
          /\ req_parent_request_id (at_request r) = Some (req_request_id (at_request q))).
Proof.
  intros Hr H. destruct (membership_inv _ _ _ Hr H) as (st & Hi & He).
  destruct Hi as [[_ Hs] [_ Hq] [_ Hp] _ Hep Hgr Hm]. split_and!; try done.
  intros r Hin Hpos.
  destruct (group_by_get episode_identity records (episode_identity r)) as [Hg Hnone].
  destruct (dict_get (group_by episode_identity records) (episode_identity r)) as [ep|] eqn:Hd.
  2:{ exfalso. assert (Hemp : r ∈ filter (fun x => episode_identity x = episode_identity r) records).
      { by apply list_elem_of_filter. }
      rewrite (proj1 Hnone eq_refl) in Hemp. by apply elem_of_nil in Hemp. }
  cbn in Hg. apply dict_get_In in Hd. rewrite <-Hgr in Hd.
  pose proof (proj1 (Forall_forall _ _) He _ Hd) as Hv. cbn in Hv.
  destruct (episode_linked ep r Hv) as (q & Hqin & Hqt & Hql); [by rewrite Hg; apply list_elem_of_filter|done|].
  rewrite Hg in Hqin. apply list_elem_of_filter in Hqin as [Hqe Hqin].
  exists q. split_and!; try done. pose proof (Hep q Hqin) as Hq1. pose proof (Hep r Hin) as Hr1.
  rewrite Hqe in Hq1. congruence.
Qed.

(** ** A complete run to compute on: one task, one training seed, two samples *)
Definition sample_suite : SuiteManifest := Eval vm_compute in {|
  su_suite_id := "suite-1"; su_environment_id := "env-1"; su_family := repair;
  su_root_cause_taxonomy := ["bounds"];
  su_tasks := [{|
    stk_task_id := "task-1"; stk_task_version := "v1"; stk_task_bundle_sha256 := Samples.digest "bundle";
    stk_evaluation_plan_sha256 := Samples.digest "plan";
    stk_scoring_contract_sha256 := Samples.unwrap (sha256_json (ScoringContract_json Samples.contract));
    stk_family := repair; stk_root_cause := Some "bounds"; stk_program_type := "xdp";
    stk_cluster_id := "cluster-1" |}] |}.

Definition suite_sha : string := Eval vm_compute in Samples.unwrap (sha256_json (SuiteManifest_json sample_suite)).

Definition sample_experiment : ExperimentManifest := Eval vm_compute in {|
  ex_experiment_id := "exp-1"; ex_suite_id := "suite-1"; ex_suite_manifest_sha256 := suite_sha;
  ex_model_id := "model-1"; ex_model_artifact_sha256 := Samples.digest "model";
  ex_sampling_config_sha256 := Samples.digest "sampling"; ex_diagnostic_condition := diag_none;
  ex_reward_policy_id := "reward-v1";
  ex_reward_policy_sha256 := Samples.unwrap (sha256_json (RewardPolicy_json Samples.reward_v1));
  ex_environment_sha256 := Samples.unwrap (sha256_json (EnvironmentFingerprint_json Samples.environment));
  ex_harness_commit := Samples.harness_commit;
  ex_expected_grader_id :=
    Samples.unwrap (grader_id_for (Samples.request_for suite_sha "" 0 7 "a") Samples.environment
                      Samples.harness_commit);
  ex_seed_plans := [{| sp_training_seed := 0; sp_checkpoint_id := "ckpt-1";
                       sp_checkpoint_artifact_sha256 := Samples.digest "ckpt";
                       sp_generation_seeds := [7; 9] |}];
  ex_reported_k := [1; 2] |}.

Definition experiment_sha : string := Eval vm_compute in
  Samples.unwrap (sha256_json (ExperimentManifest_json sample_experiment)).

Definition no_grade : Grade := {|
  gr_policy_id := ""; gr_grader_id := ""; gr_task_id := ""; gr_candidate_sha256 := "";
  gr_evidence_sha256 := ""; gr_contract_sha256 := ""; gr_comparable := false; gr_strict_success := None;
  gr_benchmark_score := None; gr_training_reward := None; gr_first_failure := None;
  gr_failure_reason := None; gr_stage_outcomes := [] |}.

Definition sample_attempt (i gen_seed : Z) (label : string) (stages : list StageEvidence) : AttemptRecord :=
  let e := Samples.evidence_with (Samples.request_for suite_sha experiment_sha i gen_seed label) stages in {|
  at_experiment_id := "exp-1"; at_model_id := "model-1"; at_model_artifact_sha256 := Samples.digest "model";
  at_checkpoint_id := "ckpt-1"; at_checkpoint_artifact_sha256 := Samples.digest "ckpt";
  at_sampling_config_sha256 := Samples.digest "sampling";
  at_reward_policy_sha256 := ex_reward_policy_sha256 sample_experiment;
  at_episode_id := "ep-" ++ label; at_task_id := "task-1"; at_task_version := "v1";
  at_task_bundle_sha256 := Samples.digest "bundle"; at_family := repair; at_root_cause := Some "bounds";
  at_program_type := "xdp"; at_cluster_id := "cluster-1"; at_training_seed := 0; at_sample_index := i;
  at_generation_seed := gen_seed; at_turn_index := 0;
  at_replay_manifest_sha256 := Samples.digest ("replay-" ++ label); at_evidence := e;
  at_grade := match Grading.score_evidence e Samples.contract Samples.reward_v1 with
              | Ok g => g | Err _ => no_grade end |}.

Definition sample_attempts : list AttemptRecord := Eval vm_compute in
  [sample_attempt 0 7 "a" Samples.success_stages;
   sample_attempt 1 9 "b" Samples.functional_failure_stages].

Definition sample_registry : ReplayAnchorRegistry := Eval vm_compute in {|
  rr_registry_id := "registry-1"; rr_issuer := "issuer-1";
  rr_experiment_manifest_sha256 := experiment_sha;
  rr_anchors := (fun r => {|
    ra_manifest_sha256 := at_replay_manifest_sha256 r;
    ra_evidence_sha256 := gr_evidence_sha256 (at_grade r);
    ra_grade_sha256 := Samples.unwrap (sha256_json (Grade_json (at_grade r)));
    ra_contract_sha256 := gr_contract_sha256 (at_grade r);
    ra_policy_sha256 := at_reward_policy_sha256 r |}) <$> sample_attempts |}.

Definition registry_sha : string := Eval vm_compute in
  Samples.unwrap (sha256_json (ReplayAnchorRegistry_json sample_registry)).

(** The strict aggregation of the run, with constant bootstrap draws. *)
Abbreviation sample_report :=
  (aggregate_attempts (fun _ => fone) sample_attempts sample_suite sample_experiment 1 false 20 0
    (Some sample_registry) (Some registry_sha)) (only parsing).

Example sample_report_ok :
  match sample_report with
  | Ok r => br_pass_at_k r = Some (Fin 1 (-1)) /\ br_eligible_attempt_count r = 2
  | Err _ => False
  end.
Proof. vm_compute. split; reflexivity. Qed.

Lemma membership_guarantees_witness :
  NoDup (sample_identity <$> sample_attempts) /\ Forall (member sample_suite sample_experiment) sample_attempts.
Proof.
  destruct (membership_guarantees sample_attempts sample_suite sample_experiment) as (H1 & _ & _ & H4 & _).
  - repeat constructor; vm_compute; discriminate.
  - vm_compute. reflexivity.
  - split; assumption.
Defined.

(** ** Inversion of a successful aggregation *)
Lemma aggregate_inv draws records suite experiment k incl samples seed registry trusted report :
  aggregate_attempts draws records suite experiment k incl samples seed registry trusted = Ok report ->
  exists run n eligible scores digest,
    validate_SuiteManifest suite = Ok tt /\ validate_ExperimentManifest experiment = Ok tt
    /\ check_registry experiment incl registry trusted = Ok digest
    /\ k ∈ ex_reported_k experiment /\ samples_per_task_seed experiment = Ok n
    /\ Forall (fun r => validate_AttemptRecord r = Ok tt) records
    /\ validate_run_identity records suite experiment = Ok run
    /\ validate_attempt_membership records suite experiment = Ok tt
    /\ eligible_turn_zero records incl registry = Ok eligible
    /\ task_scores eligible suite (zsort (sp_training_seed <$> ex_seed_plans experiment)) k n = Ok scores
    /\ validate_BenchmarkReport report = Ok tt
    /\ br_eligible_attempt_count report = Z.of_nat (length eligible)
    /\ br_grader_id report = run_grader_id run.
Proof.
  unfold aggregate_attempts. intros H.
  destruct (k <? 1); [done|]. destruct (samples <? 1); [done|]. destruct (seed <? 0); [done|].
  apply bind_ok in H as ([] & H1 & H). apply bind_ok in H as ([] & H2 & H).
  apply bind_ok in H as (digest & H3 & H). destruct (negb (bool_decide (k ∈ _))) eqn:Hk; [done|].
  cbv zeta in H. apply bind_ok in H as (n & H4 & H). apply bind_ok in H as ([] & H5 & H).
  destruct (negb (nonempty records)); [done|].
  apply bind_ok in H as (run & H6 & H). apply bind_ok in H as ([] & H7 & H).
  apply bind_ok in H as (eligible & H8 & H). apply bind_ok in H as ([sbt sbs] & H9 & H).
  do 6 (apply bind_ok in H as (? & _ & H)). apply bind_ok in H as (interval & _ & H).
  apply construct_ok in H as [Hv ->].
  exists run, n, eligible, (sbt, sbs), digest. apply bool_decide_neg_false in Hk. apply for_each_ok in H5.
  split_and!; done.
Qed.

Lemma eligible_is_turn_zero records incl registry eligible :
  eligible_turn_zero records incl registry = Ok eligible -> eligible = turn_zero records.
Proof. unfold eligible_turn_zero. intros H. by ok_inv. Qed.

Lemma score_tasks_inv eligible seeds k n tasks acc by_seed scores :
  score_tasks eligible seeds k n tasks acc by_seed = Ok scores ->
  forall t s, t ∈ tasks -> s ∈ seeds -> exists x, seed_score eligible k n (stk_task_id t) s = Ok x.
Proof.
  revert acc by_seed. induction tasks as [|task tasks IH]; intros acc by_seed H t s; cbn in H;
    [by intros ?%elem_of_nil|].
  apply bind_ok in H as (xs & Hxs & H). apply bind_ok in H as (avg & _ & H).
  rewrite elem_of_cons. intros [->|Ht] Hs; [|by eapply IH].
  apply map_result_ok in Hxs. clear -Hxs Hs. induction Hxs as [|a b l m Hab Hl IHl]; [by apply elem_of_nil in Hs|].
  apply elem_of_cons in Hs as [->|Hs]; eauto.
Qed.

Lemma seed_score_inv eligible k n id s x :
  seed_score eligible k n id s = Ok x ->
  let attempts := filter (fun r => (at_task_id r, at_training_seed r) = (id, s)) eligible in
  Forall (fun r => gr_comparable (at_grade r) = true) attempts
  /\ Z.of_nat (length attempts) = n
  /\ (forall i, 0 <= i < n -> exists r, r ∈ attempts /\ at_sample_index r = i)
  /\ pass_at_k_estimate n (Z.of_nat (length (filter (fun r => succeeded r = true) attempts))) k = Ok x.
Proof.
  unfold seed_score. rewrite attempts_of_filter. cbv zeta. set (attempts := filter _ eligible).
  intros H. destruct (existsb _ attempts) eqn:E1; [done|].
  destruct (Z.eqb_spec (Z.of_nat (length attempts)) n) as [Hn|]; [|done]. cbn [negb] in H.
  destruct (negb (bool_decide _)) eqn:E2; [done|]. apply bool_decide_neg_false in E2.
  rewrite zsort_length, length_fmap in E2. split_and!; [|done| |by rewrite Hn in H].
  - apply Forall_forall. intros r Hr. destruct (gr_comparable (at_grade r)) eqn:Hc; [done|].
    exfalso. assert (Ht : existsb (fun r => negb (gr_comparable (at_grade r))) attempts = true).
    { apply existsb_exists. exists r. rewrite <-list_elem_of_In, Hc. done. }
    congruence.
  - intros i Hi. assert (Hin : i ∈ zsort (at_sample_index <$> attempts)).
    { rewrite E2. unfold zrange. apply list_elem_of_fmap. exists (Z.to_nat i). split; [lia|].
      apply elem_of_seq. lia. }
    apply zsort_elem, list_elem_of_fmap in Hin as (r & -> & Hr). eauto.
Qed.

Lemma validated_attempt_sample_index r : validate_AttemptRecord r = Ok tt -> 0 <= at_sample_index r.
Proof. unfold validate_AttemptRecord. intros H. ok_inv. by bool_prop. Qed.

(** C7. Nothing is silently dropped: when an aggregation succeeds, every task of
    the frozen suite, every declared training seed and every planned sample index
    has exactly one turn-zero attempt among the records, and it is comparable.  The turn-zero attempts
    are as many as the report's task, seed and sample counts multiply to. *)
Theorem aggregation_is_complete draws records suite experiment k incl samples seed registry trusted report :
  aggregate_attempts draws records suite experiment k incl samples seed registry trusted = Ok report ->
  exists n, samples_per_task_seed experiment = Ok n
    /\ Z.of_nat (length (turn_zero records))
       = br_eligible_task_count report * br_eligible_training_seed_count report * n
    /\ forall t p i, t ∈ su_tasks suite -> p ∈ ex_seed_plans experiment -> 0 <= i < n ->
       exists r, r ∈ records
         /\ sample_identity r = (stk_task_id t, sp_training_seed p, i, 0)
         /\ gr_comparable (at_grade r) = true
         /\ (forall r', r' ∈ records -> sample_identity r' = sample_identity r -> r' = r).
Proof.
  intros H. pose proof H as H'.
  apply aggregate_inv in H as (run & n & eligible & scores & digest & _ & _ & _ & _ & Hn & Hval & _ & Hmem & Hel
    & Hsc & Hrep & Hcount & _).
  apply eligible_is_turn_zero in Hel as ->. exists n. split; [done|].
  assert (Hnn : Forall (fun r => 0 <= at_sample_index r) records).
  { eapply Forall_impl; [exact Hval|]. apply validated_attempt_sample_index. }
  destruct (membership_inv _ _ _ Hnn Hmem) as (st & [[_ Hnd] _ _ _ _ _ _] & _).
  split.
  - rewrite <-Hcount. assert (Hs : br_samples_per_task_seed report = n).
    { unfold aggregate_attempts in H'. destruct (k <? 1); [done|]. destruct (samples <? 1); [done|].
      destruct (seed <? 0); [done|]. do 3 (apply bind_ok in H' as (? & _ & H')).
      destruct (negb _); [done|]. cbv zeta in H'. apply bind_ok in H' as (n' & Hn' & H').
      rewrite Hn in Hn'. apply ok_inj in Hn' as <-. apply bind_ok in H' as (? & _ & H').
      destruct (negb _); [done|]. do 3 (apply bind_ok in H' as (? & _ & H')).
      apply bind_ok in H' as ([? ?] & _ & H'). do 7 (apply bind_ok in H' as (? & _ & H')).
      apply construct_ok in H' as [_ ->]. done. }
    rewrite <-Hs. unfold validate_BenchmarkReport, report_fields_are_consistent in Hrep. ok_inv; by bool_prop.
  - intros t p i Ht Hp Hi.
    destruct (score_tasks_inv _ _ _ _ _ _ _ _ Hsc t (sp_training_seed p)) as [x Hx]; [done| |].
    { apply zsort_elem. by apply list_elem_of_fmap_2. }
    apply seed_score_inv in Hx as (Hcmp & _ & Hidx & _). destruct (Hidx i Hi) as (r & Hr & Hri).
    pose proof (proj1 (Forall_forall _ _) Hcmp r Hr) as Hrc. cbn in Hrc.
    apply list_elem_of_filter in Hr as [Hk Hr]. injection Hk as Hk1 Hk2.
    unfold turn_zero in Hr. apply list_elem_of_filter in Hr as [H0 Hr].
    exists r. split_and!; [done| |done|].
    + unfold sample_identity. by rewrite Hk1, Hk2, Hri, H0.
    + intros r' Hr' He. by eapply (NoDup_fmap_eq sample_identity records).
Qed.

Lemma aggregation_is_complete_witness :
  exists report, sample_report = Ok report
    /\ Z.of_nat (length (turn_zero sample_attempts))
       = br_eligible_task_count report * br_eligible_training_seed_count report * 2.
Proof.
  destruct sample_report as [report|] eqn:Hr; [|pose proof sample_report_ok as Hok; rewrite Hr in Hok; destruct Hok].
  exists report. split; [reflexivity|].
  destruct (aggregation_is_complete _ _ _ _ _ _ _ _ _ _ _ Hr) as (n & Hn & Hc & _).
  assert (H2 : samples_per_task_seed sample_experiment = Ok 2) by reflexivity.
  rewrite H2 in Hn. apply ok_inj in Hn. rewrite <-Hn in Hc. exact Hc.
Defined.

(** C11. Strict aggregation trusts only anchored replays: without the diagnostic
    switch a report exists only under a registry whose digest is the externally
    trusted one and which binds the experiment manifest, and then every turn-zero
    attempt is microVM evidence whose replay manifest, evidence, grade, contract
    and policy digests are those of one of the registry's anchors. *)
Theorem strict_aggregation_is_anchored draws records suite experiment k samples seed registry trusted report :
  aggregate_attempts draws records suite experiment k false samples seed registry trusted = Ok report ->
  exists reg digest,
    registry = Some reg /\ trusted = Some digest
    /\ sha256_json (ReplayAnchorRegistry_json reg) = Ok digest
    /\ sha256_json (ExperimentManifest_json experiment) = Ok (rr_experiment_manifest_sha256 reg)
    /\ forall r, r ∈ turn_zero records ->
       ev_origin (at_evidence r) = ORIGIN_MICROVM
       /\ exists a, a ∈ rr_anchors reg
          /\ ra_manifest_sha256 a = at_replay_manifest_sha256 r
          /\ ra_evidence_sha256 a = gr_evidence_sha256 (at_grade r)
          /\ sha256_json (Grade_json (at_grade r)) = Ok (ra_grade_sha256 a)
          /\ ra_contract_sha256 a = gr_contract_sha256 (at_grade r)
          /\ ra_policy_sha256 a = at_reward_policy_sha256 r.
Proof.
  intros (run & n & eligible & scores & d & _ & _ & Hreg & _ & _ & _ & _ & _ & Hel & _)%aggregate_inv.
  unfold check_registry in Hreg. destruct registry as [reg|]; [|by ok_inv].
  destruct trusted as [digest|]; [|by ok_inv; bool_prop]. exists reg, digest.
  apply bind_ok in Hreg as ([] & _ & Hreg). apply bind_ok in Hreg as (rd & Hrd & Hreg).
  apply bind_ok in Hrd as (esha & He & Hrd). destruct (negb _) eqn:G1 in Hrd; [done|].
  apply bool_decide_neg_false in G1. apply bind_ok in Hrd as (dg & Hdg & Hrd). apply ok_inj in Hrd. subst rd.
  cbn in Hreg. destruct (negb (bool_decide (Some dg = Some digest))) eqn:G2; [done|].
  apply bool_decide_neg_false in G2. injection G2 as ->.
  split_and!; try done; [by rewrite G1|]. clear Hreg.
  unfold eligible_turn_zero in Hel. destruct (existsb _ (turn_zero records)) eqn:G3; [done|].
  apply bind_ok in Hel as (flags & Hfl & Hel). destruct (negb (forallb _ flags)) eqn:G4; [done|].
  apply negb_false_iff in G4. intros r Hr. split.
  - apply dec_stable. intros Hne. assert (Ht : existsb (fun r => negb (bool_decide (ev_origin (at_evidence r)
      = ORIGIN_MICROVM))) (turn_zero records) = true); [|congruence].
    apply existsb_exists. exists r. rewrite <-list_elem_of_In. split; [done|]. by rewrite bool_decide_false.
  - apply map_result_ok in Hfl.
    assert (Hanch : anchored reg r = Ok true).
    { clear -Hfl G4 Hr. induction Hfl as [|x b l bs Hxb Hl IH]; [by apply elem_of_nil in Hr|].
      cbn in G4. apply andb_true_iff in G4 as [Hb G4]. unfold id in Hb. subst b.
      apply elem_of_cons in Hr as [->|Hr]; auto. }
    unfold anchored in Hanch. destruct (dict_get _ _) as [a|] eqn:Ha; [|done].
    destruct (negb _) eqn:G5; [done|]. apply bool_decide_neg_false in G5.
    apply bind_ok in Hanch as (gsha & Hg & Hb). apply ok_inj in Hb. bool_prop.
    apply dict_of_keyed in Ha as [Hin Hman]. exists a. split_and!; try done. congruence.
Qed.

Lemma strict_aggregation_is_anchored_witness :
  exists reg digest,
    Some sample_registry = Some reg /\ Some registry_sha = Some digest
    /\ sha256_json (ReplayAnchorRegistry_json reg) = Ok digest.
Proof.
  destruct sample_report as [report|] eqn:Hr;
    [|pose proof sample_report_ok as Hok; rewrite Hr in Hok; destruct Hok].
  destruct (strict_aggregation_is_anchored _ _ _ _ _ _ _ _ _ _ Hr) as (reg & digest & H1 & H2 & H3 & _).
  exists reg, digest. split; [exact H1|]. split; [exact H2|exact H3].
Defined.

Lemma single_value_all {T} `{EqDecision T} label (values : list T) v :
  single_value label values = Ok v -> Forall (fun x => x = v) values.
Proof.
  unfold single_value. destruct (remove_dups values) as [|w [|? ?]] eqn:E; try done. intros H.
  apply ok_inj in H. subst w. apply Forall_forall. intros x Hx.
  apply elem_of_remove_dups in Hx. rewrite E in Hx. by apply list_elem_of_singleton.
Qed.

Lemma Forall_fmap_eq {A B} (f : A -> B) l v r : Forall (fun x => x = v) (f <$> l) -> r ∈ l -> f r = v.
Proof.
  intros H Hr. apply (proj1 (Forall_forall _ _) H). by apply list_elem_of_fmap_2.
Qed.

(** One run, one configuration: every attempt of a successful aggregation was
    generated and graded under the configuration of the frozen experiment: its
    model, sampling, diagnostic condition, reward policy, harness and grader, an
    environment with the experiment's digest, the frozen suite's manifest digest and
    the experiment's own manifest digest. *)
Theorem aggregation_binds_configuration draws records suite experiment k incl samples seed registry trusted report r :
  aggregate_attempts draws records suite experiment k incl samples seed registry trusted = Ok report ->
  r ∈ records ->
  at_model_id r = ex_model_id experiment
  /\ at_model_artifact_sha256 r = ex_model_artifact_sha256 experiment
  /\ at_sampling_config_sha256 r = ex_sampling_config_sha256 experiment
  /\ req_diagnostic_condition (at_request r) = ex_diagnostic_condition experiment
  /\ gr_policy_id (at_grade r) = ex_reward_policy_id experiment
  /\ at_reward_policy_sha256 r = ex_reward_policy_sha256 experiment
  /\ sha256_json (EnvironmentFingerprint_json (ev_environment (at_evidence r)))
     = Ok (ex_environment_sha256 experiment)
  /\ ev_harness_commit (at_evidence r) = ex_harness_commit experiment
  /\ gr_grader_id (at_grade r) = ex_expected_grader_id experiment
  /\ sha256_json (SuiteManifest_json suite) = Ok (req_suite_manifest_sha256 (at_request r))
  /\ sha256_json (ExperimentManifest_json experiment) = Ok (req_experiment_manifest_sha256 (at_request r)).
Proof.
  intros (run & n & eligible & scores & d & _ & _ & _ & _ & _ & _ & Hid & _)%aggregate_inv Hr.
  unfold validate_run_identity in Hid.
  do 9 (apply bind_ok in Hid as (? & ?%single_value_all & Hid)).
  apply bind_ok in Hid as (envs & Henvs & Hid).
  do 3 (apply bind_ok in Hid as (? & ?%single_value_all & Hid)).
  apply bind_ok in Hid as (sdig & Hsd & Hid). apply bind_ok in Hid as (? & ?%single_value_all & Hid).
  apply bind_ok in Hid as (edig & Hed & Hid).
  do 2 (apply bind_ok in Hid as (? & ?%single_value_all & Hid)).
  assert (Henv : exists e, sha256_json (EnvironmentFingerprint_json (ev_environment (at_evidence r))) = Ok e /\ e ∈ envs).
  { apply map_result_ok in Henvs. clear -Henvs Hr. induction Henvs as [|a b l m Hab Hl IH]; [by apply elem_of_nil in Hr|].
    apply elem_of_cons in Hr as [->|Hr]; [exists b; split; [done|by left]|].
    destruct (IH Hr) as (e & He & Hin). exists e. split; [done|by right]. }
  destruct Henv as (env & -> & Henv).
  repeat match goal with
  | H : Forall (fun x => x = _) (_ <$> records) |- _ => apply (Forall_fmap_eq _ _ _ r) in H; [|done]
  | H : Forall (fun x => x = _) envs |- _ => apply (proj1 (Forall_forall _ _) H) in Henv; clear H
  end.
  ok_inv. bool_prop. rewrite Hsd, Hed. split_and!; congruence.
Qed.

Lemma aggregation_binds_configuration_witness :
  Forall (fun r => gr_grader_id (at_grade r) = ex_expected_grader_id sample_experiment) sample_attempts.
Proof.
  apply Forall_forall. intros r Hin.
  destruct sample_report as [report|] eqn:Hr;
    [|pose proof sample_report_ok as Hok; rewrite Hr in Hok; destruct Hok].
  apply (aggregation_binds_configuration _ _ _ _ _ _ _ _ _ _ _ _ Hr). exact Hin.
Defined.

End Aggregate.
