(* ===== verification/Oracle.v ===== *)
(** * Differential oracle ([src/bpe/oracle.py])

    Contracts, raw traces, normalization and the derived report.  An observation
    is hex text, as in the code; [fromhex]/[tohex] convert it to bytes.  The
    assertion and observation unions of the code are a record of the shared fields
    and an inductive for the part that depends on [kind].

    [derive_oracle_report] compares two traces; the constructor of the report
    revalidates it by recomputing every digest, every comparison and the first
    divergence. *)
From Stdlib Require Import ZArith QArith String Ascii Lia.
From stdpp Require Import base tactics list strings sets.
From S2P Require Import Prelude Floats Sha256 Json JsonFacts Models ModelFacts Stats.
Local Open Scope string_scope.
Local Open Scope Z_scope.

Module Oracle.
Import Sha256 Json JsonFacts Models ModelFacts Stats.

Definition MAX_ORACLE_CASES : Z := 256.
Definition MAX_ASSERTIONS_PER_CASE : Z := 256.
Definition MAX_COLLECTION_ITEMS : Z := 16384.
Definition MAX_OBSERVATION_BYTES : Z := 16 * 1024 * 1024.
Definition MAX_TRACE_OBSERVATION_BYTES : Z := 128 * 1024 * 1024.
Definition MAX_NORMALIZATIONS_PER_CASE : Z := 256.

Definition zlen {A} (l : list A) : Z := Z.of_nat (length l).

(** ** Hex text *)

(** [^(?:[0-9a-f]{2})*$] *)
Definition is_hex_bytes (s : string) : bool :=
  Nat.even (String.length s) && str_forall is_lower_hex s
  && (Z.of_nat (String.length s) <=? MAX_OBSERVATION_BYTES * 2).
Definition is_nonempty_hex_bytes (s : string) : bool :=
  is_hex_bytes s && (2 <=? String.length s)%nat.

(** [bytearray.fromhex] on hex pairs *)
Fixpoint fromhex (s : string) : option (list byte) :=
  match s with
  | EmptyString => Some []
  | String a (String b rest) =>
      match hex_value a, hex_value b, fromhex rest with
      | Some x, Some y, Some bs => Some (byte_of_Z (16 * x + y) :: bs)
      | _, _, _ => None
      end
  | String _ EmptyString => None
  end.

Fixpoint tohex (bs : list byte) : string :=
  match bs with
  | [] => ""
  | b :: bs =>
      String (hex_digit (byte_Z b / 16)) (String (hex_digit (byte_Z b mod 16)) (tohex bs))
  end.

(** ** Contracts *)
Record ContentIdentity := {
  ci_sha256 : string;
  ci_size_bytes : Z;
  ci_media_type : string
}.

#[export] Instance ContentIdentity_eq_dec : EqDecision ContentIdentity.
Proof. solve_decision. Defined.

Definition ContentIdentity_ok (c : ContentIdentity) : bool :=
  is_sha256 (ci_sha256 c) && (1 <=? ci_size_bytes c) && (ci_size_bytes c <=? MAX_OBSERVATION_BYTES)
  && len_between 1 127 (ci_media_type c).

(** [XdpCaseInput]: the driver and the repeat count are literals. *)
Record XdpCaseInput := { xi_fixture : ContentIdentity }.

#[export] Instance XdpCaseInput_eq_dec : EqDecision XdpCaseInput.
Proof. solve_decision. Defined.

Inductive CounterMode := final | delta.

#[export] Instance CounterMode_eq_dec : EqDecision CounterMode.
Proof. solve_decision. Defined.

(** What an assertion looks at: the seven classes of [XdpAssertion]. *)
Inductive AssertionKind :=
| Retval
| PacketBytes
| ContextBytes
| MapSnapshot (map_id : string)
| MapDelta (map_id : string)
| OrderedEvents (stream_id : string)
| Counter (counter_id : string) (mode : CounterMode).

#[export] Instance AssertionKind_eq_dec : EqDecision AssertionKind.
Proof. solve_decision. Defined.

(** The [kind] discriminator. *)
Definition kind_value (k : AssertionKind) : string :=
  match k with
  | Retval => "retval" | PacketBytes => "packet_bytes" | ContextBytes => "context_bytes"
  | MapSnapshot _ => "map_snapshot" | MapDelta _ => "map_delta"
  | OrderedEvents _ => "ordered_events" | Counter _ _ => "counter"
  end.

Definition mode_value (m : CounterMode) : string := match m with final => "final" | delta => "delta" end.

Record XdpAssertion := {
  xa_assertion_id : string;
  xa_required : bool;
  xa_weight : float64;
  xa_kind : AssertionKind
}.

Definition kind_ok (k : AssertionKind) : bool :=
  match k with
  | MapSnapshot i | MapDelta i | OrderedEvents i | Counter i _ => is_stable_id i
  | _ => true
  end.

Definition XdpAssertion_ok (a : XdpAssertion) : bool :=
  is_stable_id (xa_assertion_id a) && weight_ok (xa_weight a) && kind_ok (xa_kind a).

Record ByteRange := { rg_offset : Z; rg_length : Z }.
Definition rg_end (r : ByteRange) : Z := rg_offset r + rg_length r.

(** [ByteRange] with [end_must_fit_global_bound] *)
Definition validate_ByteRange (r : ByteRange) : result string unit :=
  check_field "offset" ((0 <=? rg_offset r) && (rg_offset r <=? MAX_OBSERVATION_BYTES)) ;;
  check_field "length" ((1 <=? rg_length r) && (rg_length r <=? MAX_OBSERVATION_BYTES)) ;;
  raise "normalization byte range exceeds the observation bound"
    when MAX_OBSERVATION_BYTES <? rg_end r ;;
  Ok tt.

Inductive Component := comp_bytes | comp_key | comp_value | comp_record.

#[export] Instance Component_eq_dec : EqDecision Component.
Proof. solve_decision. Defined.

Definition component_value (c : Component) : string :=
  match c with
  | comp_bytes => "bytes" | comp_key => "key" | comp_value => "value" | comp_record => "record"
  end.

Record MaskByteRanges := {
  mk_normalization_id : string;
  mk_assertion_id : string;
  mk_component : Component;
  mk_ranges : list ByteRange
}.

(** Order of the position pairs [(start, end)]. *)
Definition position_ltb (a b : Z * Z) : bool :=
  (a.1 <? b.1) || ((a.1 =? b.1) && (a.2 <? b.2)).

Definition positions (rs : list ByteRange) : list (Z * Z) := (fun r => (rg_offset r, rg_end r)) <$> rs.

(** [any(left_end > right_start for ... in pairwise(positions))] *)
Definition overlapping (ps : list (Z * Z)) : bool :=
  existsb (fun lr : (Z * Z) * (Z * Z) => lr.2.1 <? lr.1.2) (pairwise ps).

(** [MaskByteRanges.ranges_are_canonical_and_disjoint] *)
Definition ranges_are_canonical_and_disjoint (m : MaskByteRanges) : result string unit :=
  let ps := positions (mk_ranges m) in
  raise "normalization byte ranges must be sorted"
    when negb (bool_decide (ps = sort_by position_ltb ps)) ;;
  raise "normalization byte ranges must not overlap" when overlapping ps ;;
  Ok tt.

Definition validate_MaskByteRanges (m : MaskByteRanges) : result string unit :=
  check_field "normalization_id" (is_stable_id (mk_normalization_id m)) ;;
  check_field "assertion_id" (is_stable_id (mk_assertion_id m)) ;;
  check_field "ranges" ((1 <=? zlen (mk_ranges m)) && (zlen (mk_ranges m) <=? 256)) ;;
  let* _ := for_each validate_ByteRange (mk_ranges m) in
  ranges_are_canonical_and_disjoint m.

Record XdpOracleCase := {
  oc_case_id : string;
  oc_input : XdpCaseInput;
  oc_assertions : list XdpAssertion;
  oc_normalizations : list MaskByteRanges
}.

(** The components of an assertion a rule may mask. *)
Definition allowed_components (k : AssertionKind) : list Component :=
  match k with
  | PacketBytes | ContextBytes => [comp_bytes]
  | MapSnapshot _ | MapDelta _ => [comp_key; comp_value]
  | OrderedEvents _ => [comp_record]
  | _ => []
  end.

(** [targets]: the kind with its named part. *)
Definition target_of (a : XdpAssertion) : AssertionKind := xa_kind a.

Definition assertion_by_id (c : XdpOracleCase) : list (string * XdpAssertion) :=
  dict_of ((fun a => (xa_assertion_id a, a)) <$> oc_assertions c).

(** The loop over the rules, with its dict [occupied]. *)
Fixpoint occupy (by_id : list (string * XdpAssertion))
    (occupied : list (string * Component * list (Z * Z))) (rules : list MaskByteRanges) :
    result string (list (string * Component * list (Z * Z))) :=
  match rules with
  | [] => Ok occupied
  | rule :: rules =>
      match dict_get by_id (mk_assertion_id rule) with
      | None => Err "normalization targets an undeclared assertion"
      | Some target =>
          raise "normalization component is incompatible with assertion kind"
            when negb (bool_decide (mk_component rule ∈ allowed_components (xa_kind target))) ;;
          let slot := (mk_assertion_id rule, mk_component rule) in
          occupy by_id
            (dict_set slot (default [] (dict_get occupied slot) ++ positions (mk_ranges rule))%list occupied)
            rules
      end
  end.

Definition sorted_strings (l : list string) : bool :=
  bool_decide (l = sort_by String.ltb l).

(** [XdpOracleCase.declarations_are_closed_and_unambiguous] *)
Definition declarations_are_closed_and_unambiguous (c : XdpOracleCase) : result string unit :=
  raise "oracle assertion IDs must be unique within a case"
    when negb (bool_decide (length (assertion_by_id c) = length (oc_assertions c))) ;;
  raise "each oracle case requires at least one required assertion"
    when negb (existsb xa_required (oc_assertions c)) ;;
  raise "oracle assertion targets must be unique within a case"
    when negb (unique (target_of <$> oc_assertions c)) ;;
  let normalization_ids := mk_normalization_id <$> oc_normalizations c in
  raise "normalization IDs must be unique within a case" when negb (unique normalization_ids) ;;
  raise "normalization rules must be sorted by normalization ID"
    when negb (sorted_strings normalization_ids) ;;
  let* occupied := occupy (assertion_by_id c) [] (oc_normalizations c) in
  raise "normalization rules overlap for one assertion component"
    when existsb (fun slot : string * Component * list (Z * Z) =>
                    overlapping (sort_by position_ltb slot.2)) occupied ;;
  Ok tt.

Definition validate_XdpOracleCase (c : XdpOracleCase) : result string unit :=
  check_field "case_id" (is_stable_id (oc_case_id c)) ;;
  check_field "input" (ContentIdentity_ok (xi_fixture (oc_input c))) ;;
  check_field "assertions"
    ((1 <=? zlen (oc_assertions c)) && (zlen (oc_assertions c) <=? MAX_ASSERTIONS_PER_CASE)
     && forallb XdpAssertion_ok (oc_assertions c)) ;;
  check_field "normalizations" (zlen (oc_normalizations c) <=? MAX_NORMALIZATIONS_PER_CASE) ;;
  let* _ := for_each validate_MaskByteRanges (oc_normalizations c) in
  declarations_are_closed_and_unambiguous c.

(** The fields that identify a contract or a trace. *)
Record OracleIdentity := {
  oi_task_id : string;
  oi_task_version : string;
  oi_task_bundle_sha256 : string;
  oi_evaluation_plan_sha256 : string;
  oi_grader_id : string;
  oi_environment_id : string;
  oi_environment_sha256 : string;
  oi_harness_commit : string
}.

#[export] Instance OracleIdentity_eq_dec : EqDecision OracleIdentity.
Proof. solve_decision. Defined.

Definition OracleIdentity_ok (i : OracleIdentity) : bool :=
  is_stable_id (oi_task_id i) && is_stable_id (oi_task_version i)
  && is_sha256 (oi_task_bundle_sha256 i) && is_sha256 (oi_evaluation_plan_sha256 i)
  && is_sha256 (oi_grader_id i) && is_stable_id (oi_environment_id i)
  && is_sha256 (oi_environment_sha256 i) && is_commit (oi_harness_commit i).

Record XdpOracleContract := {
  oct_identity : OracleIdentity;
  oct_normalizer_version : string;
  oct_normalizer_sha256 : string;
  oct_reference_program : ContentIdentity;
  oct_cases : list XdpOracleCase
}.

(** [XdpOracleContract] with [case_ids_are_unique] *)
Definition validate_XdpOracleContract (c : XdpOracleContract) : result string unit :=
  check_field "identity" (OracleIdentity_ok (oct_identity c)) ;;
  check_field "normalizer_version" (is_stable_id (oct_normalizer_version c)) ;;
  check_field "normalizer_sha256" (is_sha256 (oct_normalizer_sha256 c)) ;;
  check_field "reference_program" (ContentIdentity_ok (oct_reference_program c)) ;;
  check_field "cases" ((1 <=? zlen (oct_cases c)) && (zlen (oct_cases c) <=? MAX_ORACLE_CASES)) ;;
  let* _ := for_each validate_XdpOracleCase (oct_cases c) in
  raise "oracle case IDs must be unique" when negb (unique (oc_case_id <$> oct_cases c)) ;;
  Ok tt.

(** ** Raw traces *)
Record MapEntry := { me_key : string; me_value : string }.

#[export] Instance MapEntry_eq_dec : EqDecision MapEntry.
Proof. solve_decision. Defined.

Definition MapEntry_ok (e : MapEntry) : bool :=
  is_nonempty_hex_bytes (me_key e) && is_nonempty_hex_bytes (me_value e).

Definition entries_field_ok (l : list MapEntry) : bool :=
  (zlen l <=? MAX_COLLECTION_ITEMS) && forallb MapEntry_ok l.

Record MapStateTrace := {
  mst_map_id : string;
  mst_before : list MapEntry;
  mst_after : list MapEntry
}.

(** [MapStateTrace.entries_are_sorted_and_unique] *)
Definition entries_are_sorted_and_unique (m : MapStateTrace) : result string unit :=
  for_each
    (fun le : string * list MapEntry =>
       raise ("map " ++ le.1 ++ " entries must be sorted by key bytes")
         when negb (sorted_strings (me_key <$> le.2)) ;;
       raise ("map " ++ le.1 ++ " keys must be unique") when negb (unique (me_key <$> le.2)) ;;
       Ok tt)
    [("before", mst_before m); ("after", mst_after m)].

Definition validate_MapStateTrace (m : MapStateTrace) : result string unit :=
  check_field "map_id" (is_stable_id (mst_map_id m)) ;;
  check_field "before" (entries_field_ok (mst_before m)) ;;
  check_field "after" (entries_field_ok (mst_after m)) ;;
  entries_are_sorted_and_unique m.

Record EventStreamTrace := { es_stream_id : string; es_records : list string }.

Definition EventStreamTrace_ok (e : EventStreamTrace) : bool :=
  is_stable_id (es_stream_id e) && (zlen (es_records e) <=? MAX_COLLECTION_ITEMS)
  && forallb is_nonempty_hex_bytes (es_records e).

Record CounterTrace := { ct_counter_id : string; ct_before : Z; ct_after : Z }.

Definition unsigned (bits z : Z) : bool := (0 <=? z) && (z <=? 2 ^ bits - 1).

Definition CounterTrace_ok (c : CounterTrace) : bool :=
  is_stable_id (ct_counter_id c) && unsigned 64 (ct_before c) && unsigned 64 (ct_after c).

Record XdpRawObservation := {
  ro_retval : Z;
  ro_packet_bytes : option string;
  ro_context_bytes : option string;
  ro_maps : list MapStateTrace;
  ro_events : list EventStreamTrace;
  ro_counters : list CounterTrace
}.

(** [len(text) // 2] *)
Definition hex_size (s : string) : Z := Z.of_nat (String.length s) / 2.

(** [XdpRawObservation.byte_size] *)
Definition byte_size (o : XdpRawObservation) : Z :=
  zsum (hex_size <$> omap id [ro_packet_bytes o; ro_context_bytes o])
  + zsum ((fun e => Z.of_nat (String.length (me_key e) + String.length (me_value e)) / 2)
            <$> (m ← ro_maps o; (mst_before m ++ mst_after m)%list))
  + zsum (hex_size <$> (e ← ro_events o; es_records e)).

(** [XdpRawObservation.named_collections_are_sorted_and_unique] *)
Definition named_collections_are_sorted_and_unique (o : XdpRawObservation) : result string unit :=
  let* _ :=
    for_each
      (fun li : string * list string =>
         raise (li.1 ++ " traces must be sorted by identifier") when negb (sorted_strings li.2) ;;
         raise (li.1 ++ " trace identifiers must be unique") when negb (unique li.2) ;;
         Ok tt)
      [("map", mst_map_id <$> ro_maps o); ("event stream", es_stream_id <$> ro_events o);
       ("counter", ct_counter_id <$> ro_counters o)] in
  raise "raw observation exceeds the aggregate byte bound"
    when MAX_OBSERVATION_BYTES <? byte_size o ;;
  Ok tt.

Definition validate_XdpRawObservation (o : XdpRawObservation) : result string unit :=
  check_field "retval" (unsigned 32 (ro_retval o)) ;;
  check_field "packet_bytes" (opt_ok is_hex_bytes (ro_packet_bytes o)) ;;
  check_field "context_bytes" (opt_ok is_hex_bytes (ro_context_bytes o)) ;;
  check_field "maps" (zlen (ro_maps o) <=? MAX_COLLECTION_ITEMS) ;;
  let* _ := for_each validate_MapStateTrace (ro_maps o) in
  check_field "events"
    ((zlen (ro_events o) <=? MAX_COLLECTION_ITEMS) && forallb EventStreamTrace_ok (ro_events o)) ;;
  check_field "counters"
    ((zlen (ro_counters o) <=? MAX_COLLECTION_ITEMS) && forallb CounterTrace_ok (ro_counters o)) ;;
  named_collections_are_sorted_and_unique o.

Record XdpCaseTrace := {
  xt_case_id : string;
  xt_input : XdpCaseInput;
  xt_observation : XdpRawObservation
}.

Inductive Role := candidate | reference.

#[export] Instance Role_eq_dec : EqDecision Role.
Proof. solve_decision. Defined.

Definition role_value (r : Role) : string := match r with candidate => "candidate" | reference => "reference" end.

Record XdpTrace := {
  tr_role : Role;
  tr_identity : OracleIdentity;
  tr_program : ContentIdentity;
  tr_cases : list XdpCaseTrace
}.

Definition validate_XdpCaseTrace (c : XdpCaseTrace) : result string unit :=
  check_field "case_id" (is_stable_id (xt_case_id c)) ;;
  check_field "input" (ContentIdentity_ok (xi_fixture (xt_input c))) ;;
  validate_XdpRawObservation (xt_observation c).

(** [XdpTrace] with [case_ids_are_unique] *)
Definition validate_XdpTrace (t : XdpTrace) : result string unit :=
  check_field "identity" (OracleIdentity_ok (tr_identity t)) ;;
  check_field "program" (ContentIdentity_ok (tr_program t)) ;;
  check_field "cases" ((1 <=? zlen (tr_cases t)) && (zlen (tr_cases t) <=? MAX_ORACLE_CASES)) ;;
  let* _ := for_each validate_XdpCaseTrace (tr_cases t) in
  raise "trace case IDs must be unique" when negb (unique (xt_case_id <$> tr_cases t)) ;;
  raise "trace exceeds the aggregate observation byte bound"
    when MAX_TRACE_OBSERVATION_BYTES <? zsum ((fun c => byte_size (xt_observation c)) <$> tr_cases t) ;;
  Ok tt.

(** ** Normalized observations *)
Inductive ChangeKind := inserted | updated | deleted.

#[export] Instance ChangeKind_eq_dec : EqDecision ChangeKind.
Proof. solve_decision. Defined.

Definition change_value (k : ChangeKind) : string :=
  match k with inserted => "inserted" | updated => "updated" | deleted => "deleted" end.

Record MapChange := {
  mc_kind : ChangeKind;
  mc_key : string;
  mc_before : option string;
  mc_after : option string
}.

#[export] Instance MapChange_eq_dec : EqDecision MapChange.
Proof. solve_decision. Defined.

(** [MapChange.values_match_change_kind] *)
Definition values_match_change_kind (c : MapChange) : result string unit :=
  raise "inserted map changes require only an after value"
    when bool_decide (mc_kind c = inserted) && (negb (is_none (mc_before c)) || is_none (mc_after c)) ;;
  raise "deleted map changes require only a before value"
    when bool_decide (mc_kind c = deleted) && (is_none (mc_before c) || negb (is_none (mc_after c))) ;;
  raise "updated map changes require two different values"
    when bool_decide (mc_kind c = updated)
         && (is_none (mc_before c) || is_none (mc_after c) || bool_decide (mc_before c = mc_after c)) ;;
  Ok tt.

Definition validate_MapChange (c : MapChange) : result string unit :=
  check_field "key" (is_nonempty_hex_bytes (mc_key c)) ;;
  check_field "before" (opt_ok is_nonempty_hex_bytes (mc_before c)) ;;
  check_field "after" (opt_ok is_nonempty_hex_bytes (mc_after c)) ;;
  values_match_change_kind c.

(** The value part of the seven observation classes. *)
Inductive ObservationValue :=
| RetvalValue (value : Z)
| PacketValue (value : string)
| ContextValue (value : string)
| MapSnapshotValue (map_id : string) (entries : list MapEntry)
| MapDeltaValue (map_id : string) (changes : list MapChange)
| EventsValue (stream_id : string) (records : list string)
| CounterValue (counter_id : string) (mode : CounterMode) (value : Z).

#[export] Instance ObservationValue_eq_dec : EqDecision ObservationValue.
Proof. solve_decision. Defined.

Record AssertionObservation := { ao_assertion_id : string; ao_value : ObservationValue }.

#[export] Instance AssertionObservation_eq_dec : EqDecision AssertionObservation.
Proof. solve_decision. Defined.

Definition ao_kind (o : AssertionObservation) : string :=
  match ao_value o with
  | RetvalValue _ => "retval" | PacketValue _ => "packet_bytes" | ContextValue _ => "context_bytes"
  | MapSnapshotValue _ _ => "map_snapshot" | MapDeltaValue _ _ => "map_delta"
  | EventsValue _ _ => "ordered_events" | CounterValue _ _ _ => "counter"
  end.

(** The validators of the observation classes. *)
Definition validate_AssertionObservation (o : AssertionObservation) : result string unit :=
  check_field "assertion_id" (is_stable_id (ao_assertion_id o)) ;;
  match ao_value o with
  | RetvalValue v => check_field "value" (unsigned 32 v) ;; Ok tt
  | PacketValue v | ContextValue v => check_field "value" (is_hex_bytes v) ;; Ok tt
  | MapSnapshotValue m entries =>
      check_field "map_id" (is_stable_id m) ;;
      check_field "entries" (entries_field_ok entries) ;;
      raise "normalized map entries must be sorted and unique"
        when negb (sorted_strings (me_key <$> entries)) || negb (unique (me_key <$> entries)) ;;
      Ok tt
  | MapDeltaValue m changes =>
      check_field "map_id" (is_stable_id m) ;;
      check_field "changes" (zlen changes <=? MAX_COLLECTION_ITEMS) ;;
      let* _ := for_each validate_MapChange changes in
      raise "map changes must be sorted and unique by key"
        when negb (sorted_strings (mc_key <$> changes)) || negb (unique (mc_key <$> changes)) ;;
      Ok tt
  | EventsValue s records =>
      check_field "stream_id" (is_stable_id s) ;;
      check_field "records"
        ((zlen records <=? MAX_COLLECTION_ITEMS) && forallb is_nonempty_hex_bytes records) ;;
      Ok tt
  | CounterValue c _ v =>
      check_field "counter_id" (is_stable_id c) ;;
      check_field "value" ((- 2 ^ 64 + 1 <=? v) && (v <=? 2 ^ 64 - 1)) ;;
      Ok tt
  end.

Record NormalizedObservation := {
  nz_case_id : string;
  nz_input : XdpCaseInput;
  nz_assertions : list AssertionObservation;
  nz_normalizations_applied : list string
}.

#[export] Instance NormalizedObservation_eq_dec : EqDecision NormalizedObservation.
Proof. solve_decision. Defined.

(** [NormalizedObservation] with [identities_are_unique] *)
Definition validate_NormalizedObservation (n : NormalizedObservation) : result string unit :=
  check_field "case_id" (is_stable_id (nz_case_id n)) ;;
  check_field "input" (ContentIdentity_ok (xi_fixture (nz_input n))) ;;
  check_field "assertions"
    ((1 <=? zlen (nz_assertions n)) && (zlen (nz_assertions n) <=? MAX_ASSERTIONS_PER_CASE)) ;;
  let* _ := for_each validate_AssertionObservation (nz_assertions n) in
  check_field "normalizations_applied"
    ((zlen (nz_normalizations_applied n) <=? MAX_NORMALIZATIONS_PER_CASE)
     && forallb is_stable_id (nz_normalizations_applied n)) ;;
  raise "normalized assertion observations must be unique"
    when negb (unique (ao_assertion_id <$> nz_assertions n)) ;;
  raise "applied normalization IDs must be unique" when negb (unique (nz_normalizations_applied n)) ;;
  raise "applied normalization IDs must be sorted"
    when negb (sorted_strings (nz_normalizations_applied n)) ;;
  Ok tt.

(** ** Normalization *)

(** [data[offset:end] = bytes(length)] inside the data *)
Definition zero_range (r : ByteRange) (data : list byte) : list byte :=
  imap (fun i b => if (rg_offset r <=? Z.of_nat i) && (Z.of_nat i <? rg_end r) then Byte.x00 else b) data.

Definition mask_range (id : string) (data : list byte) (r : ByteRange) : result string (list byte) :=
  raise ("normalization " ++ id ++ " exceeds observed bytes") when zlen data <? rg_end r ;;
  Ok (zero_range r data).

(** A loop that threads a value through a fallible body. *)
Fixpoint fold_result {A B} (f : A -> B -> result string A) (a : A) (l : list B) : result string A :=
  match l with
  | [] => Ok a
  | b :: l => let* a := f a b in fold_result f a l
  end.

(** [_mask_bytes] *)
Definition mask_bytes (value : string) (rules : list MaskByteRanges) : result string string :=
  match fromhex value with
  | None => Err "non-hexadecimal number found in fromhex() arg"
  | Some data =>
      let* data :=
        fold_result (fun data rule => fold_result (mask_range (mk_normalization_id rule)) data (mk_ranges rule))
          data rules in
      Ok (tohex data)
  end.

(** [_rules_for] *)
Definition rules_for (c : XdpOracleCase) (assertion_id : string) (component : Component) :
    list MaskByteRanges :=
  filter (fun r => mk_assertion_id r = assertion_id /\ mk_component r = component) (oc_normalizations c).

(** [_normalized_entries] *)
Definition normalized_entries (entries : list MapEntry) (key_rules value_rules : list MaskByteRanges) :
    result string (list MapEntry) :=
  let* normalized :=
    map_result
      (fun e =>
         let* key := mask_bytes (me_key e) key_rules in
         let* value := mask_bytes (me_value e) value_rules in
         construct (fun e => check_field "entry" (MapEntry_ok e) ;; Ok tt)
           {| me_key := key; me_value := value |})
      entries in
  let ordered := sort_by (fun a b => String.ltb (me_key a) (me_key b)) normalized in
  raise "normalization collapses distinct map keys" when negb (unique (me_key <$> ordered)) ;;
  Ok ordered.

(** [_map_delta]: one change per key of either side, in key order. *)
Definition entries_dict (l : list MapEntry) : list (string * string) :=
  dict_of ((fun e => (me_key e, me_value e)) <$> l).

Definition change_at (before after : list (string * string)) (key : string) : option MapChange :=
  match dict_get before key, dict_get after key with
  | None, new => Some {| mc_kind := inserted; mc_key := key; mc_before := None; mc_after := new |}
  | Some old, None => Some {| mc_kind := deleted; mc_key := key; mc_before := Some old; mc_after := None |}
  | Some old, Some new =>
      if bool_decide (old <> new)
      then Some {| mc_kind := updated; mc_key := key; mc_before := Some old; mc_after := Some new |}
      else None
  end.

Definition delta_keys (before after : list (string * string)) : list string :=
  sort_by String.ltb (remove_dups (before.*1 ++ after.*1)%list).

Definition map_delta (before after : list MapEntry) : result string (list MapChange) :=
  let b := entries_dict before in
  let a := entries_dict after in
  map_result (construct validate_MapChange) (omap (change_at b a) (delta_keys b a)).

(** [_expected_named_components], by kind *)
Definition expected_maps (c : XdpOracleCase) : list string :=
  omap (fun a => match xa_kind a with MapSnapshot m | MapDelta m => Some m | _ => None end) (oc_assertions c).
Definition expected_streams (c : XdpOracleCase) : list string :=
  omap (fun a => match xa_kind a with OrderedEvents s => Some s | _ => None end) (oc_assertions c).
Definition expected_counters (c : XdpOracleCase) : list string :=
  omap (fun a => match xa_kind a with Counter s _ => Some s | _ => None end) (oc_assertions c).

(** [_validate_observation_shape] *)
Definition validate_observation_shape (c : XdpOracleCase) (t : XdpCaseTrace) : result string unit :=
  let o := xt_observation t in
  let expects k := existsb (fun a => bool_decide (xa_kind a = k)) (oc_assertions c) in
  raise "packet observation presence does not match the contract"
    when negb (eqb (negb (is_none (ro_packet_bytes o))) (expects PacketBytes)) ;;
  raise "context observation presence does not match the contract"
    when negb (eqb (negb (is_none (ro_context_bytes o))) (expects ContextBytes)) ;;
  raise "map observations do not exactly match declared assertions"
    when negb (same_set (mst_map_id <$> ro_maps o) (expected_maps c)) ;;
  raise "event observations do not exactly match declared assertions"
    when negb (same_set (es_stream_id <$> ro_events o) (expected_streams c)) ;;
  raise "counter observations do not exactly match declared assertions"
    when negb (same_set (ct_counter_id <$> ro_counters o) (expected_counters c)) ;;
  Ok tt.

(** One iteration of the assertion loop of [_normalize_case]. *)
Definition observe (c : XdpOracleCase) (raw : XdpRawObservation) (a : XdpAssertion) :
    result string AssertionObservation :=
  let id := xa_assertion_id a in
  let maps := dict_of ((fun m => (mst_map_id m, m)) <$> ro_maps raw) in
  let events := dict_of ((fun e => (es_stream_id e, e)) <$> ro_events raw) in
  let counters := dict_of ((fun n => (ct_counter_id n, n)) <$> ro_counters raw) in
  let normalized_state map_id :=
    let* state := dict_index maps map_id in
    let key_rules := rules_for c id comp_key in
    let value_rules := rules_for c id comp_value in
    let* before := normalized_entries (mst_before state) key_rules value_rules in
    let* after := normalized_entries (mst_after state) key_rules value_rules in
    Ok (before, after) in
  let* value :=
    match xa_kind a with
    | Retval => Ok (RetvalValue (ro_retval raw))
    | PacketBytes =>
        match ro_packet_bytes raw with
        | None => Err "packet bytes are missing"
        | Some bytes => let* v := mask_bytes bytes (rules_for c id comp_bytes) in Ok (PacketValue v)
        end
    | ContextBytes =>
        match ro_context_bytes raw with
        | None => Err "context bytes are missing"
        | Some bytes => let* v := mask_bytes bytes (rules_for c id comp_bytes) in Ok (ContextValue v)
        end
    | MapSnapshot m =>
        let* ba := normalized_state m in Ok (MapSnapshotValue m ba.2)
    | MapDelta m =>
        let* ba := normalized_state m in
        let* changes := map_delta ba.1 ba.2 in Ok (MapDeltaValue m changes)
    | OrderedEvents s =>
        let* stream := dict_index events s in
        let rules := rules_for c id comp_record in
        let* records := map_result (fun r => mask_bytes r rules) (es_records stream) in
        Ok (EventsValue s records)
    | Counter n mode =>
        let* counter := dict_index counters n in
        Ok (CounterValue n mode
              (match mode with final => ct_after counter | delta => ct_after counter - ct_before counter end))
    end in
  construct validate_AssertionObservation {| ao_assertion_id := id; ao_value := value |}.

(** [_normalize_case] *)
Definition normalize_case (c : XdpOracleCase) (t : XdpCaseTrace) : result string NormalizedObservation :=
  let* _ := validate_observation_shape c t in
  let* observations := map_result (observe c (xt_observation t)) (oc_assertions c) in
  construct validate_NormalizedObservation
    {| nz_case_id := oc_case_id c; nz_input := oc_input c; nz_assertions := observations;
       nz_normalizations_applied := mk_normalization_id <$> oc_normalizations c |}.

(** [_validate_trace] *)
Definition validate_trace (c : XdpOracleContract) (t : XdpTrace) (role : Role) : result string unit :=
  raise ("expected a " ++ role_value role ++ " trace") when negb (bool_decide (tr_role t = role)) ;;
  raise (role_value role ++ " trace identity does not match the oracle contract")
    when negb (bool_decide (tr_identity t = oct_identity c)) ;;
  raise "reference trace does not use the contracted reference program"
    when bool_decide (role = reference) && negb (bool_decide (tr_program t = oct_reference_program c)) ;;
  raise (role_value role ++ " trace has missing or extra cases")
    when negb (bool_decide (length (tr_cases t) = length (oct_cases c))) ;;
  for_each
    (fun eo : XdpOracleCase * XdpCaseTrace =>
       raise (role_value role ++ " trace case order or identity differs")
         when negb (bool_decide (xt_case_id eo.2 = oc_case_id eo.1)) ;;
       raise (role_value role ++ " trace input identity differs")
         when negb (bool_decide (xt_input eo.2 = oc_input eo.1)) ;;
       validate_observation_shape eo.1 eo.2)
    (zip (oct_cases c) (tr_cases t)).

(** ** JSON images *)
Definition ContentIdentity_json (c : ContentIdentity) : json :=
  JObj [("sha256", JStr (ci_sha256 c)); ("size_bytes", JInt (ci_size_bytes c));
        ("media_type", JStr (ci_media_type c))].

Definition XdpCaseInput_json (i : XdpCaseInput) : json :=
  JObj [("fixture", ContentIdentity_json (xi_fixture i)); ("driver", JStr "bpf_prog_run/xdp@1");
        ("repeat", JInt 1)].

Definition XdpAssertion_json (a : XdpAssertion) : json :=
  JObj (app [("assertion_id", JStr (xa_assertion_id a)); ("required", JBool (xa_required a));
             ("weight", JFloat (xa_weight a)); ("kind", JStr (kind_value (xa_kind a)))]
            match xa_kind a with
            | MapSnapshot m | MapDelta m => [("map_id", JStr m)]
            | OrderedEvents s => [("stream_id", JStr s)]
            | Counter n mode => [("counter_id", JStr n); ("mode", JStr (mode_value mode))]
            | _ => []
            end).

Definition MaskByteRanges_json (m : MaskByteRanges) : json :=
  JObj [("kind", JStr "mask_byte_ranges"); ("normalization_id", JStr (mk_normalization_id m));
        ("assertion_id", JStr (mk_assertion_id m)); ("component", JStr (component_value (mk_component m)));
        ("ranges", JArr (map (fun r => JObj [("offset", JInt (rg_offset r)); ("length", JInt (rg_length r))])
                             (mk_ranges m)))].

Definition XdpOracleCase_json (c : XdpOracleCase) : json :=
  JObj [("case_id", JStr (oc_case_id c)); ("input", XdpCaseInput_json (oc_input c));
        ("assertions", JArr (map XdpAssertion_json (oc_assertions c)));
        ("normalizations", JArr (map MaskByteRanges_json (oc_normalizations c)))].

Definition identity_fields (i : OracleIdentity) : list (string * json) :=
  [("task_id", JStr (oi_task_id i)); ("task_version", JStr (oi_task_version i));
   ("task_bundle_sha256", JStr (oi_task_bundle_sha256 i));
   ("evaluation_plan_sha256", JStr (oi_evaluation_plan_sha256 i));
   ("grader_id", JStr (oi_grader_id i)); ("environment_id", JStr (oi_environment_id i));
   ("environment_sha256", JStr (oi_environment_sha256 i));
   ("harness_commit", JStr (oi_harness_commit i))].

Definition XdpOracleContract_json (c : XdpOracleContract) : json :=
  JObj (app [("schema_version", JStr "bpe.xdp-oracle-contract.v1");
             ("profile", JStr "xdp-differential-oracle-v1")]
        (app (identity_fields (oct_identity c))
            [("normalizer_version", JStr (oct_normalizer_version c));
             ("normalizer_sha256", JStr (oct_normalizer_sha256 c));
             ("reference_program", ContentIdentity_json (oct_reference_program c));
             ("cases", JArr (map XdpOracleCase_json (oct_cases c)))])).

Definition MapEntry_json (e : MapEntry) : json :=
  JObj [("key", JStr (me_key e)); ("value", JStr (me_value e))].

Definition XdpRawObservation_json (o : XdpRawObservation) : json :=
  JObj [("retval", JInt (ro_retval o)); ("packet_bytes", jopt JStr (ro_packet_bytes o));
        ("context_bytes", jopt JStr (ro_context_bytes o));
        ("maps", JArr (map (fun m => JObj [("map_id", JStr (mst_map_id m));
                                           ("before", JArr (map MapEntry_json (mst_before m)));
                                           ("after", JArr (map MapEntry_json (mst_after m)))]) (ro_maps o)));
        ("events", JArr (map (fun e => JObj [("stream_id", JStr (es_stream_id e));
                                             ("records", JArr (map JStr (es_records e)))]) (ro_events o)));
        ("counters", JArr (map (fun n => JObj [("counter_id", JStr (ct_counter_id n));
                                               ("before", JInt (ct_before n)); ("after", JInt (ct_after n))])
                               (ro_counters o)))].

Definition XdpTrace_json (t : XdpTrace) : json :=
  JObj (app [("schema_version", JStr "bpe.xdp-trace.v1");
             ("profile", JStr "xdp-bpf-prog-test-run-trace-v1"); ("role", JStr (role_value (tr_role t)))]
        (app (identity_fields (tr_identity t))
            [("program", ContentIdentity_json (tr_program t));
             ("cases", JArr (map (fun c => JObj [("case_id", JStr (xt_case_id c));
                                                 ("input", XdpCaseInput_json (xt_input c));
                                                 ("observation", XdpRawObservation_json (xt_observation c))])
                                 (tr_cases t)))])).

Definition MapChange_json (c : MapChange) : json :=
  JObj [("kind", JStr (change_value (mc_kind c))); ("key", JStr (mc_key c));
        ("before", jopt JStr (mc_before c)); ("after", jopt JStr (mc_after c))].

Definition AssertionObservation_json (o : AssertionObservation) : json :=
  JObj (app [("kind", JStr (ao_kind o)); ("assertion_id", JStr (ao_assertion_id o))]
    match ao_value o with
    | RetvalValue v => [("value", JInt v)]
    | PacketValue v | ContextValue v => [("value", JStr v)]
    | MapSnapshotValue m es => [("map_id", JStr m); ("entries", JArr (map MapEntry_json es))]
    | MapDeltaValue m cs => [("map_id", JStr m); ("changes", JArr (map MapChange_json cs))]
    | EventsValue s rs => [("stream_id", JStr s); ("records", JArr (map JStr rs))]
    | CounterValue n mode v =>
        [("counter_id", JStr n); ("mode", JStr (mode_value mode)); ("value", JInt v)]
    end).

Definition NormalizedObservation_json (n : NormalizedObservation) : json :=
  JObj [("case_id", JStr (nz_case_id n)); ("input", XdpCaseInput_json (nz_input n));
        ("assertions", JArr (map AssertionObservation_json (nz_assertions n)));
        ("normalizations_applied", JArr (map JStr (nz_normalizations_applied n)))].

(** ** Reports *)
Record AssertionComparison := {
  ac_assertion_id : string;
  ac_kind : string;
  ac_required : bool;
  ac_weight : float64;
  ac_matched : bool;
  ac_expected_sha256 : string;
  ac_actual_sha256 : string
}.

#[export] Instance AssertionComparison_eq_dec : EqDecision AssertionComparison.
Proof. solve_decision. Defined.

Definition ASSERTION_KINDS : list string :=
  ["retval"; "packet_bytes"; "context_bytes"; "map_snapshot"; "map_delta"; "ordered_events"; "counter"].

Definition AssertionComparison_ok (a : AssertionComparison) : bool :=
  is_stable_id (ac_assertion_id a) && bool_decide (ac_kind a ∈ ASSERTION_KINDS) && weight_ok (ac_weight a)
  && is_sha256 (ac_expected_sha256 a) && is_sha256 (ac_actual_sha256 a).

(** [all(item.matched for item in assertions if item.required)] *)
Definition required_match (l : list AssertionComparison) : bool :=
  forallb (fun a => implb (ac_required a) (ac_matched a)) l.

Record OracleCaseResult := {
  cr_case_id : string;
  cr_input : XdpCaseInput;
  cr_candidate_observation_sha256 : string;
  cr_reference_observation_sha256 : string;
  cr_assertions : list AssertionComparison;
  cr_passed : bool
}.

#[export] Instance OracleCaseResult_eq_dec : EqDecision OracleCaseResult.
Proof. solve_decision. Defined.

(** [OracleCaseResult] with [pass_flag_matches_required_assertions] *)
Definition validate_OracleCaseResult (r : OracleCaseResult) : result string unit :=
  check_field "case_id" (is_stable_id (cr_case_id r)) ;;
  check_field "input" (ContentIdentity_ok (xi_fixture (cr_input r))) ;;
  check_field "candidate_observation_sha256" (is_sha256 (cr_candidate_observation_sha256 r)) ;;
  check_field "reference_observation_sha256" (is_sha256 (cr_reference_observation_sha256 r)) ;;
  check_field "assertions"
    ((1 <=? zlen (cr_assertions r)) && (zlen (cr_assertions r) <=? MAX_ASSERTIONS_PER_CASE)
     && forallb AssertionComparison_ok (cr_assertions r)) ;;
  raise "case pass flag does not match required assertion results"
    when negb (eqb (cr_passed r) (required_match (cr_assertions r))) ;;
  Ok tt.

Record FirstDivergence := {
  fd_case_index : Z;
  fd_assertion_index : Z;
  fd_case_id : string;
  fd_assertion_id : string;
  fd_kind : string;
  fd_expected_sha256 : string;
  fd_actual_sha256 : string
}.

#[export] Instance FirstDivergence_eq_dec : EqDecision FirstDivergence.
Proof. solve_decision. Defined.

Definition validate_FirstDivergence (d : FirstDivergence) : result string unit :=
  check_field "case_index" ((0 <=? fd_case_index d) && (fd_case_index d <? MAX_ORACLE_CASES)) ;;
  check_field "assertion_index"
    ((0 <=? fd_assertion_index d) && (fd_assertion_index d <? MAX_ASSERTIONS_PER_CASE)) ;;
  check_field "case_id" (is_stable_id (fd_case_id d)) ;;
  check_field "assertion_id" (is_stable_id (fd_assertion_id d)) ;;
  check_field "kind" (bool_decide (fd_kind d ∈ ASSERTION_KINDS)) ;;
  check_field "expected_sha256" (is_sha256 (fd_expected_sha256 d)) ;;
  check_field "actual_sha256" (is_sha256 (fd_actual_sha256 d)) ;;
  Ok tt.

Record OracleReport := {
  or_contract_sha256 : string;
  or_candidate_trace_sha256 : string;
  or_reference_trace_sha256 : string;
  or_identity : OracleIdentity;
  or_normalizer_version : string;
  or_normalizer_sha256 : string;
  or_candidate_program : ContentIdentity;
  or_reference_program : ContentIdentity;
  or_candidate_observations : list NormalizedObservation;
  or_reference_observations : list NormalizedObservation;
  or_cases : list OracleCaseResult;
  or_strict_success : bool;
  or_first_divergence : option FirstDivergence
}.

#[export] Instance OracleReport_eq_dec : EqDecision OracleReport.
Proof. solve_decision. Defined.

(** The inner loop of [derived_fields_are_internally_consistent], over
    [zip(candidate.assertions, reference.assertions, result.assertions)] with the
    running [expected_first]. *)
Fixpoint check_assertions (case_index : Z) (case_id : string) (j : Z)
    (first : option FirstDivergence)
    (l : list (AssertionObservation * AssertionObservation * AssertionComparison)) :
    result string (option FirstDivergence) :=
  match l with
  | [] => Ok first
  | (actual, expected, comparison) :: l =>
      raise "oracle report assertion identities or kinds differ"
        when negb (bool_decide (ao_assertion_id actual = ao_assertion_id expected)
                   && bool_decide (ao_assertion_id expected = ac_assertion_id comparison)
                   && bool_decide (ao_kind actual = ao_kind expected)
                   && bool_decide (ao_kind expected = ac_kind comparison)) ;;
      let* actual_sha256 := sha256_json (AssertionObservation_json actual) in
      let* expected_sha256 := sha256_json (AssertionObservation_json expected) in
      raise "oracle assertion comparison is inconsistent"
        when negb (bool_decide (ac_actual_sha256 comparison = actual_sha256))
             || negb (bool_decide (ac_expected_sha256 comparison = expected_sha256))
             || negb (eqb (ac_matched comparison) (bool_decide (actual = expected))) ;;
      let* first :=
        if is_none first && ac_required comparison && negb (ac_matched comparison) then
          let* d := construct validate_FirstDivergence
            {| fd_case_index := case_index; fd_assertion_index := j; fd_case_id := case_id;
               fd_assertion_id := ac_assertion_id comparison; fd_kind := ac_kind comparison;
               fd_expected_sha256 := expected_sha256; fd_actual_sha256 := actual_sha256 |} in
          Ok (Some d)
        else Ok first in
      check_assertions case_index case_id (j + 1) first l
  end.

(** The outer loop, over the zipped cases. *)
Fixpoint check_cases (i : Z) (first : option FirstDivergence)
    (l : list (NormalizedObservation * NormalizedObservation * OracleCaseResult)) :
    result string (option FirstDivergence) :=
  match l with
  | [] => Ok first
  | (cand, ref, res) :: l =>
      raise "oracle report case identities or inputs differ"
        when negb (bool_decide (nz_case_id cand = nz_case_id ref) && bool_decide (nz_case_id ref = cr_case_id res)
                   && bool_decide (nz_input cand = nz_input ref) && bool_decide (nz_input ref = cr_input res)) ;;
      let* cand_sha256 := sha256_json (NormalizedObservation_json cand) in
      raise "candidate observation digest is inconsistent"
        when negb (bool_decide (cr_candidate_observation_sha256 res = cand_sha256)) ;;
      let* ref_sha256 := sha256_json (NormalizedObservation_json ref) in
      raise "reference observation digest is inconsistent"
        when negb (bool_decide (cr_reference_observation_sha256 res = ref_sha256)) ;;
      raise "oracle report assertion collections differ in length"
        when negb (bool_decide (length (nz_assertions cand) = length (nz_assertions ref))
                   && bool_decide (length (nz_assertions ref) = length (cr_assertions res))) ;;
      let* first :=
        check_assertions i (cr_case_id res) 0 first
          (zip (zip (nz_assertions cand) (nz_assertions ref)) (cr_assertions res)) in
      check_cases (i + 1) first l
  end.

(** [OracleReport.derived_fields_are_internally_consistent] *)
Definition derived_fields_are_internally_consistent (r : OracleReport) : result string unit :=
  raise "oracle report case collections differ in length"
    when negb (bool_decide (length (or_candidate_observations r) = length (or_reference_observations r))
               && bool_decide (length (or_reference_observations r) = length (or_cases r))) ;;
  let* expected_first :=
    check_cases 0 None
      (zip (zip (or_candidate_observations r) (or_reference_observations r)) (or_cases r)) in
  raise "strict-success flag does not match required assertions"
    when negb (eqb (or_strict_success r) (forallb cr_passed (or_cases r))) ;;
  raise "first divergence is not the first required mismatch"
    when negb (bool_decide (or_first_divergence r = expected_first)) ;;
  Ok tt.

Definition cases_bound (n : Z) : bool := (1 <=? n) && (n <=? MAX_ORACLE_CASES).

Definition validate_OracleReport (r : OracleReport) : result string unit :=
  check_field "contract_sha256" (is_sha256 (or_contract_sha256 r)) ;;
  check_field "candidate_trace_sha256" (is_sha256 (or_candidate_trace_sha256 r)) ;;
  check_field "reference_trace_sha256" (is_sha256 (or_reference_trace_sha256 r)) ;;
  check_field "identity" (OracleIdentity_ok (or_identity r)) ;;
  check_field "normalizer_version" (is_stable_id (or_normalizer_version r)) ;;
  check_field "normalizer_sha256" (is_sha256 (or_normalizer_sha256 r)) ;;
  check_field "candidate_program" (ContentIdentity_ok (or_candidate_program r)) ;;
  check_field "reference_program" (ContentIdentity_ok (or_reference_program r)) ;;
  check_field "candidate_observations" (cases_bound (zlen (or_candidate_observations r))) ;;
  let* _ := for_each validate_NormalizedObservation (or_candidate_observations r) in
  check_field "reference_observations" (cases_bound (zlen (or_reference_observations r))) ;;
  let* _ := for_each validate_NormalizedObservation (or_reference_observations r) in
  check_field "cases" (cases_bound (zlen (or_cases r))) ;;
  let* _ := for_each validate_OracleCaseResult (or_cases r) in
  let* _ := validate_opt validate_FirstDivergence (or_first_divergence r) in
  derived_fields_are_internally_consistent r.

(** ** Derivation *)

(** The inner loop of [derive_oracle_report]: the comparisons of one case and the
    running [first_divergence]. *)
Fixpoint compare_assertions (case_index : Z) (case_id : string) (j : Z)
    (first : option FirstDivergence)
    (l : list (XdpAssertion * AssertionObservation * AssertionObservation)) :
    result string (list AssertionComparison * option FirstDivergence) :=
  match l with
  | [] => Ok ([], first)
  | (declaration, actual, expected) :: l =>
      let* actual_sha256 := sha256_json (AssertionObservation_json actual) in
      let* expected_sha256 := sha256_json (AssertionObservation_json expected) in
      let matched := bool_decide (actual = expected) in
      let* comparison :=
        construct (fun a => check_field "comparison" (AssertionComparison_ok a) ;; Ok tt)
          {| ac_assertion_id := xa_assertion_id declaration; ac_kind := kind_value (xa_kind declaration);
             ac_required := xa_required declaration; ac_weight := xa_weight declaration;
             ac_matched := matched; ac_expected_sha256 := expected_sha256;
             ac_actual_sha256 := actual_sha256 |} in
      let* first :=
        if is_none first && xa_required declaration && negb matched then
          let* d := construct validate_FirstDivergence
            {| fd_case_index := case_index; fd_assertion_index := j; fd_case_id := case_id;
               fd_assertion_id := xa_assertion_id declaration; fd_kind := kind_value (xa_kind declaration);
               fd_expected_sha256 := expected_sha256; fd_actual_sha256 := actual_sha256 |} in
          Ok (Some d)
        else Ok first in
      let* rest := compare_assertions case_index case_id (j + 1) first l in
      Ok (comparison :: rest.1, rest.2)
  end.

Fixpoint compare_cases (i : Z) (first : option FirstDivergence)
    (l : list (XdpOracleCase * NormalizedObservation * NormalizedObservation)) :
    result string (list OracleCaseResult * option FirstDivergence) :=
  match l with
  | [] => Ok ([], first)
  | (case, actual, expected) :: l =>
      let* compared :=
        compare_assertions i (oc_case_id case) 0 first
          (zip (zip (oc_assertions case) (nz_assertions actual)) (nz_assertions expected)) in
      let* actual_sha256 := sha256_json (NormalizedObservation_json actual) in
      let* expected_sha256 := sha256_json (NormalizedObservation_json expected) in
      let* res :=
        construct validate_OracleCaseResult
          {| cr_case_id := oc_case_id case; cr_input := oc_input case;
             cr_candidate_observation_sha256 := actual_sha256;
             cr_reference_observation_sha256 := expected_sha256;
             cr_assertions := compared.1; cr_passed := required_match compared.1 |} in
      let* rest := compare_cases (i + 1) compared.2 l in
      Ok (res :: rest.1, rest.2)
  end.

(** [derive_oracle_report] *)
Definition derive_oracle_report (contract : XdpOracleContract) (candidate_trace reference_trace : XdpTrace) :
    result string OracleReport :=
  let* _ := validate_XdpOracleContract contract in
  let* _ := validate_XdpTrace candidate_trace in
  let* _ := validate_XdpTrace reference_trace in
  let* _ := validate_trace contract candidate_trace candidate in
  let* _ := validate_trace contract reference_trace reference in
  let* candidate_observations :=
    map_result (fun ct => normalize_case ct.1 ct.2) (zip (oct_cases contract) (tr_cases candidate_trace)) in
  let* reference_observations :=
    map_result (fun ct => normalize_case ct.1 ct.2) (zip (oct_cases contract) (tr_cases reference_trace)) in
  let* compared :=
    compare_cases 0 None
      (zip (zip (oct_cases contract) candidate_observations) reference_observations) in
  let* contract_sha256 := sha256_json (XdpOracleContract_json contract) in
  let* candidate_trace_sha256 := sha256_json (XdpTrace_json candidate_trace) in
  let* reference_trace_sha256 := sha256_json (XdpTrace_json reference_trace) in
  construct validate_OracleReport
    {| or_contract_sha256 := contract_sha256;
       or_candidate_trace_sha256 := candidate_trace_sha256;
       or_reference_trace_sha256 := reference_trace_sha256;
       or_identity := oct_identity contract;
       or_normalizer_version := oct_normalizer_version contract;
       or_normalizer_sha256 := oct_normalizer_sha256 contract;
       or_candidate_program := tr_program candidate_trace;
       or_reference_program := tr_program reference_trace;
       or_candidate_observations := candidate_observations;
       or_reference_observations := reference_observations;
       or_cases := compared.1;
       or_strict_success := forallb cr_passed compared.1;
       or_first_divergence := compared.2 |}.

(** [verify_oracle_report] *)
Definition verify_oracle_report (contract : XdpOracleContract) (candidate_trace reference_trace : XdpTrace)
    (report : OracleReport) : result string OracleReport :=
  let* _ := validate_OracleReport report in
  let* derived := derive_oracle_report contract candidate_trace reference_trace in
  raise "oracle report is not the deterministic derivation" when negb (bool_decide (report = derived)) ;;
  Ok report.

End Oracle.
