(* ===== verification/OracleFacts.v ===== *)
(** * Properties of the differential oracle

    Masking, map deltas and the report of [Oracle], specified without their code. *)
From Stdlib Require Import ZArith QArith String Ascii Lia.
From stdpp Require Import base tactics list strings sets.
From S2P Require Import Prelude Floats Sha256 Json JsonFacts Models ModelFacts Samples Oracle.
Local Open Scope string_scope.
Local Open Scope Z_scope.

Module OracleFacts.
Import Sha256 Json JsonFacts Models ModelFacts Oracle.

(** ** Hex text *)
Lemma hex_value_digit z : 0 <= z < 16 -> hex_value (hex_digit z) = Some z.
Proof.
  intros Hz. destruct (Z.eq_dec z 0) as [->|]; [done|].
  assert (H : z = 1 \/ z = 2 \/ z = 3 \/ z = 4 \/ z = 5 \/ z = 6 \/ z = 7 \/ z = 8 \/ z = 9 \/ z = 10
    \/ z = 11 \/ z = 12 \/ z = 13 \/ z = 14 \/ z = 15) by lia.
  repeat destruct H as [->|H]; try done. by subst.
Qed.

Lemma fromhex_tohex bs : fromhex (tohex bs) = Some bs.
Proof.
  induction bs as [|b bs IH]; [done|]. cbn [tohex fromhex]. pose proof (byte_Z_range b) as Hb.
  rewrite !hex_value_digit, IH.
  - do 2 f_equal. rewrite <-Z.div_mod by lia. apply byte_of_Z_Z.
  - apply Z.mod_pos_bound. lia.
  - split; [apply Z.div_pos; lia|]. apply Z.div_lt_upper_bound; lia.
Qed.

(** ** Masking *)
Definition covers (r : ByteRange) (i : nat) : bool :=
  (rg_offset r <=? Z.of_nat i) && (Z.of_nat i <? rg_end r).

(** Some range of some rule covers position [i]. *)
Definition covered (rules : list MaskByteRanges) (i : nat) : bool :=
  existsb (fun rule => existsb (fun r => covers r i) (mk_ranges rule)) rules.

(** Every range lies inside [n] bytes. *)
Definition ranges_fit (rules : list MaskByteRanges) (n : Z) : Prop :=
  Forall (fun rule => Forall (fun r => rg_end r <= n) (mk_ranges rule)) rules.

(** The data with the covered positions zeroed. *)
Definition masked (rules : list MaskByteRanges) (data : list byte) : list byte :=
  imap (fun i b => if covered rules i then Byte.x00 else b) data.

Definition zero_where (p : nat -> bool) (data : list byte) : list byte :=
  imap (fun i b => if p i then Byte.x00 else b) data.

Lemma zero_where_compose p q data :
  zero_where q (zero_where p data) = zero_where (fun i => p i || q i) data.
Proof.
  apply list_eq. intros i. unfold zero_where. rewrite !list_lookup_imap.
  destruct (data !! i); cbn; [|done]. by destruct (p i), (q i).
Qed.

Lemma zero_where_false data : zero_where (fun _ => false) data = data.
Proof.
  apply list_eq. intros i. unfold zero_where. rewrite list_lookup_imap. by destruct (data !! i).
Qed.

Lemma zero_where_length p data : length (zero_where p data) = length data.
Proof. apply length_imap. Qed.

Lemma mask_ranges_exact id data rs out :
  fold_result (mask_range id) data rs = Ok out <->
  Forall (fun r => rg_end r <= zlen data) rs
  /\ out = zero_where (fun i => existsb (fun r => covers r i) rs) data.
Proof.
  revert data. induction rs as [|r rs IH]; intros data; cbn [fold_result existsb].
  - rewrite zero_where_false. split; [intros [= <-]; split; [constructor|done]|]. by intros [_ ->].
  - unfold mask_range at 1. destruct (Z.ltb_spec (zlen data) (rg_end r)) as [Hlt|Hge]; cbn [bind_result].
    + split; [done|]. intros [Hf _]. apply Forall_cons in Hf as [Hf _]. lia.
    + change (zero_range r data) with (zero_where (covers r) data). rewrite IH, Forall_cons.
      unfold zlen. rewrite zero_where_length, zero_where_compose. tauto.
Qed.

Lemma mask_rules_exact data rules out :
  fold_result (fun data rule => fold_result (mask_range (mk_normalization_id rule)) data (mk_ranges rule))
    data rules = Ok out <->
  ranges_fit rules (zlen data) /\ out = masked rules data.
Proof.
  change (masked rules data) with (zero_where (covered rules) data). unfold ranges_fit, covered.
  revert data. induction rules as [|rule rules IH]; intros data; cbn [fold_result existsb].
  - rewrite zero_where_false. split; [intros [= <-]; split; [constructor|done]|]. by intros [_ ->].
  - rewrite bind_ok. setoid_rewrite mask_ranges_exact. setoid_rewrite IH. rewrite Forall_cons. split.
    + intros (d & [H1 ->] & H2 & ->). unfold zlen in *. rewrite zero_where_length in H2.
      rewrite zero_where_compose. done.
    + intros [[H1 H2] ->]. eexists. split; [split; [done|reflexivity]|].
      unfold zlen in *. rewrite zero_where_length, zero_where_compose. done.
Qed.

Lemma mask_bytes_iff value rules out data :
  fromhex value = Some data ->
  mask_bytes value rules = Ok out <-> ranges_fit rules (zlen data) /\ out = tohex (masked rules data).
Proof.
  intros Hd. unfold mask_bytes. rewrite Hd, bind_ok. setoid_rewrite mask_rules_exact. split.
  - intros (d & [H1 ->] & [= <-]). done.
  - intros [H1 ->]. eexists. split; [split; [done|reflexivity]|done].
Qed.

(** Masking is exact: on hex text of bytes [data] it succeeds precisely when
    every declared range lies inside the data, and then returns the same bytes with
    exactly the covered positions replaced by zero; the length never changes. *)
Theorem mask_bytes_exact value rules out data :
  fromhex value = Some data ->
  mask_bytes value rules = Ok out <->
  ranges_fit rules (zlen data)
  /\ exists data', fromhex out = Some data' /\ out = tohex data' /\ length data' = length data
     /\ forall i b, data !! i = Some b ->
          data' !! i = Some (if covered rules i then Byte.x00 else b).
Proof.
  intros Hd. rewrite (mask_bytes_iff _ _ _ data) by done. split.
  - intros [Hf ->]. split; [done|]. exists (masked rules data). unfold masked.
    rewrite fromhex_tohex, length_imap. split_and!; try done.
    intros i b Hb. by rewrite list_lookup_imap, Hb.
  - intros (Hf & data' & _ & -> & Hl & Hb). split; [done|]. f_equal. apply list_eq. intros i.
    unfold masked. rewrite list_lookup_imap. destruct (data !! i) as [b|] eqn:E; cbn; [auto|].
    apply lookup_ge_None. apply lookup_ge_None in E. lia.
Qed.

Definition sample_mask : MaskByteRanges := {|
  mk_normalization_id := "n1"; mk_assertion_id := "a1"; mk_component := comp_bytes;
  mk_ranges := [{| rg_offset := 1; rg_length := 2 |}] |}.

Lemma mask_bytes_exact_witness :
  mask_bytes "aabbccdd" [sample_mask] = Ok "aa0000dd"
  /\ ranges_fit [sample_mask] 4.
Proof.
  split; [vm_compute; reflexivity|].
  apply (mask_bytes_exact "aabbccdd" [sample_mask] "aa0000dd" [Byte.xaa; Byte.xbb; Byte.xcc; Byte.xdd]);
    vm_compute; reflexivity.
Defined.

Lemma tohex_inj a b : tohex a = tohex b -> a = b.
Proof. intros H%(f_equal fromhex). rewrite !fromhex_tohex in H. by injection H. Qed.

(** What a masked comparison compares: two observed byte strings normalize to
    the same text exactly when they have the same length and agree at every position
    no declared range covers, so a mask can hide nothing else. *)
Theorem masked_equal_iff_agree_outside v1 v2 rules o1 o2 d1 d2 :
  fromhex v1 = Some d1 -> fromhex v2 = Some d2 ->
  mask_bytes v1 rules = Ok o1 -> mask_bytes v2 rules = Ok o2 ->
  o1 = o2 <->
  length d1 = length d2 /\ forall i, covered rules i = false -> d1 !! i = d2 !! i.
Proof.
  intros H1 H2 M1 M2. apply (mask_bytes_iff _ _ _ d1) in M1 as [_ ->]; [|done].
  apply (mask_bytes_iff _ _ _ d2) in M2 as [_ ->]; [|done]. split.
  - intros He%tohex_inj. split.
    + apply (f_equal length) in He. unfold masked in He. by rewrite !length_imap in He.
    + intros i Hi. apply (f_equal (lookup i)) in He. unfold masked in He.
      rewrite !list_lookup_imap, Hi in He. destruct (d1 !! i), (d2 !! i); cbn in He; congruence.
  - intros [Hl Ha]. f_equal. apply list_eq. intros i. unfold masked. rewrite !list_lookup_imap.
    destruct (covered rules i) eqn:Hi; [|by rewrite Ha].
    destruct (d1 !! i) eqn:E1, (d2 !! i) eqn:E2; cbn; try done.
    + apply lookup_lt_Some in E1. apply lookup_ge_None in E2. lia.
    + apply lookup_lt_Some in E2. apply lookup_ge_None in E1. lia.
Qed.

Lemma masked_equal_iff_agree_outside_witness :
  "aa0000dd" = "aa0000dd" <->
  length [Byte.xaa; Byte.xbb; Byte.xcc; Byte.xdd] = length [Byte.xaa; Byte.x01; Byte.x02; Byte.xdd]
  /\ forall i, covered [sample_mask] i = false ->
       [Byte.xaa; Byte.xbb; Byte.xcc; Byte.xdd] !! i = [Byte.xaa; Byte.x01; Byte.x02; Byte.xdd] !! i.
Proof.
  apply (masked_equal_iff_agree_outside "aabbccdd" "aa0102dd" [sample_mask]); vm_compute; reflexivity.
Defined.

(** ** Map deltas *)

(** A change of the map from [b] to [a]: the values before and after differ, and
    the kind says which of them exist. *)
Definition is_change (b a : list (string * string)) (c : MapChange) : Prop :=
  mc_before c = dict_get b (mc_key c) /\ mc_after c = dict_get a (mc_key c)
  /\ mc_before c <> mc_after c
  /\ mc_kind c = match mc_before c, mc_after c with
                 | None, _ => inserted | Some _, None => deleted | Some _, Some _ => updated
                 end.

Lemma delta_keys_elem b a k : k ∈ delta_keys b a <-> dict_get b k <> None \/ dict_get a k <> None.
Proof.
  unfold delta_keys. rewrite sort_by_elem, elem_of_remove_dups, elem_of_app.
  rewrite !dict_get_None. split.
  - intros [H|H]; [left|right]; tauto.
  - intros [H|H]; [left|right]; by apply dec_stable.
Qed.

Lemma change_at_spec b a k c :
  k ∈ delta_keys b a -> change_at b a k = Some c <-> mc_key c = k /\ is_change b a c.
Proof.
  rewrite delta_keys_elem. unfold change_at, is_change. intros Hk.
  destruct (dict_get b k) as [old|] eqn:Hb, (dict_get a k) as [new|] eqn:Ha.
  - case_bool_decide as Hne.
    + split.
      * intros [= <-]. cbn. rewrite Hb, Ha. split_and!; try done. congruence.
      * intros (<- & H1 & H2 & _ & H3). destruct c as [ck kk cb ca]; cbn in *. rewrite Hb in H1. rewrite Ha in H2. by subst.
    + split; [done|]. intros (<- & H1 & H2 & H3 & _). rewrite Hb in H1. rewrite Ha in H2.
      rewrite H1, H2 in H3. congruence.
  - split.
    + intros [= <-]. cbn. by rewrite Hb, Ha.
    + intros (<- & H1 & H2 & _ & H3). destruct c as [ck kk cb ca]; cbn in *. rewrite Hb in H1. rewrite Ha in H2. by subst.
  - split.
    + intros [= <-]. cbn. by rewrite Hb, Ha.
    + intros (<- & H1 & H2 & _ & H3). destruct c as [ck kk cb ca]; cbn in *. rewrite Hb in H1. rewrite Ha in H2. by subst.
  - naive_solver.
Qed.

Lemma change_at_key b a k c : change_at b a k = Some c -> mc_key c = k.
Proof. unfold change_at. intros H. repeat case_match; by simplify_eq. Qed.

Lemma map_result_construct {A} (v : A -> result string unit) l out :
  map_result (construct v) l = Ok out -> out = l.
Proof.
  rewrite map_result_ok. induction 1 as [|x y l k Hxy Hl IH]; [done|].
  apply construct_ok in Hxy as [_ ->]. congruence.
Qed.

(** Replaying changes on a map. *)
Definition dict_del (k : string) (d : list (string * string)) : list (string * string) :=
  filter (fun kv => kv.1 <> k) d.
Definition apply_change (d : list (string * string)) (c : MapChange) : list (string * string) :=
  match mc_after c with
  | Some v => dict_set (mc_key c) v d
  | None => dict_del (mc_key c) d
  end.

Lemma dict_get_del k d k' : dict_get (dict_del k d) k' = if decide (k' = k) then None else dict_get d k'.
Proof.
  unfold dict_del. induction d as [|[j v] d IH]; [by case_decide|].
  rewrite filter_cons. cbn [fst]. destruct (decide (j <> k)) as [Hj|Hj]; cbn; rewrite ?IH;
    repeat case_decide; subst; try done; exfalso; auto.
Qed.

Lemma apply_change_get d c k :
  dict_get (apply_change d c) k = if decide (k = mc_key c) then mc_after c else dict_get d k.
Proof. unfold apply_change. destruct (mc_after c) eqn:E; rewrite ?dict_get_set, ?dict_get_del; done. Qed.

Lemma apply_changes_get cs d k :
  NoDup (mc_key <$> cs) ->
  dict_get (fold_left apply_change cs d) k =
  match find_first (fun c => bool_decide (mc_key c = k)) cs with
  | Some c => mc_after c
  | None => dict_get d k
  end.
Proof.
  revert d. unfold find_first. induction cs as [|c cs IH]; intros d Hnd; cbn; [done|].
  cbn in Hnd. apply NoDup_cons in Hnd as [Hc Hnd]. rewrite IH by done. case_bool_decide as Hk.
  - destruct (List.find _ cs) as [c'|] eqn:Hf.
    + exfalso. apply Hc. apply List.find_some in Hf as [Hin Hb]. bool_prop. rewrite Hk, <-Hb.
      apply list_elem_of_fmap_2. by apply list_elem_of_In.
    + rewrite apply_change_get. by rewrite decide_True.
  - destruct (List.find _ cs); [done|]. rewrite apply_change_get. by rewrite decide_False by congruence.
Qed.


Lemma omap_changes_NoDup b a ks : NoDup ks -> NoDup (mc_key <$> omap (change_at b a) ks).
Proof.
  induction 1 as [|k ks Hk Hnd IH]; cbn; [constructor|].
  destruct (change_at b a k) as [c|] eqn:Hc; [|done]. cbn. constructor; [|done].
  apply change_at_key in Hc as ->. intros (c' & -> & Hc')%list_elem_of_fmap. apply Hk.
  apply list_elem_of_omap in Hc' as (k' & Hk' & Hc'). apply change_at_key in Hc'. by subst.
Qed.

(** Map deltas are exact: the changes of [_map_delta] are precisely the keys
    whose value differs between the two snapshots, each once, with the kind its
    values imply; replaying them on the first snapshot gives the second one. *)
Theorem map_delta_exact before after changes :
  map_delta before after = Ok changes ->
  NoDup (mc_key <$> changes)
  /\ (forall c, c ∈ changes <-> is_change (entries_dict before) (entries_dict after) c)
  /\ (forall k, dict_get (fold_left apply_change changes (entries_dict before)) k
                = dict_get (entries_dict after) k).
Proof.
  unfold map_delta. set (b := entries_dict before). set (a := entries_dict after).
  intros ->%map_result_construct.
  assert (Hnd : NoDup (mc_key <$> omap (change_at b a) (delta_keys b a))).
  { apply omap_changes_NoDup. unfold delta_keys. rewrite sort_by_perm. apply NoDup_remove_dups. }
  assert (Hin : forall c, c ∈ omap (change_at b a) (delta_keys b a) <-> is_change b a c).
  { intros c. rewrite list_elem_of_omap. split.
    - intros (k & Hk & Hc). by apply (change_at_spec b a k c Hk) in Hc as [_ ?].
    - intros Hc. assert (Hk : mc_key c ∈ delta_keys b a).
      { apply delta_keys_elem. destruct Hc as (H1 & H2 & H3 & _). rewrite <-H1, <-H2.
        destruct (mc_before c), (mc_after c); auto; done. }
      exists (mc_key c). split; [done|]. by apply change_at_spec. }
  split_and!; [done..|]. intros k. rewrite apply_changes_get by done.
  destruct (find_first _ _) as [c|] eqn:Hf.
  - apply find_first_Some in Hf as (l1 & l2 & Hl & Hb & _). bool_prop. subst k.
    assert (Hc : c ∈ omap (change_at b a) (delta_keys b a)) by (rewrite Hl; apply elem_of_app; right; by left).
    apply Hin in Hc as (_ & -> & _). done.
  - apply find_first_None in Hf. destruct (decide (k ∈ delta_keys b a)) as [Hk|Hk].
    + destruct (change_at b a k) as [c|] eqn:Hc.
      * exfalso. assert (Hc' : c ∈ omap (change_at b a) (delta_keys b a)) by (apply list_elem_of_omap; eauto).
        pose proof (proj1 (Forall_forall _ _) Hf c Hc') as Hne. cbn in Hne. bool_prop.
        apply change_at_key in Hc. congruence.
      * unfold change_at in Hc. repeat case_match; simplify_eq; try done. f_equal.
        match goal with H : bool_decide _ = false |- _ => apply bool_decide_eq_false in H; by apply dec_stable in H end.
    + rewrite delta_keys_elem in Hk. destruct (dict_get b k), (dict_get a k); naive_solver.
Qed.

Lemma map_delta_exact_witness :
  let before := [{| me_key := "01"; me_value := "aa" |}; {| me_key := "02"; me_value := "bb" |}] in
  let after := [{| me_key := "02"; me_value := "cc" |}; {| me_key := "03"; me_value := "dd" |}] in
  exists changes, map_delta before after = Ok changes /\ length changes = 3%nat /\ NoDup (mc_key <$> changes).
Proof.
  cbv zeta. eexists. split; [vm_compute; reflexivity|]. split; [reflexivity|].
  eapply (map_delta_exact [{| me_key := "01"; me_value := "aa" |}; {| me_key := "02"; me_value := "bb" |}]
    [{| me_key := "02"; me_value := "cc" |}; {| me_key := "03"; me_value := "dd" |}]).
  vm_compute. reflexivity.
Defined.

(** ** Reports *)

(** Positions of the required assertions whose observations differ, in order. *)
Definition case_mismatches (i : Z) (j : Z)
    (l : list (XdpAssertion * AssertionObservation * AssertionObservation)) : list (Z * Z) :=
  concat (imap (fun n x => let '(d, actual, expected) := x in
            if xa_required d && negb (bool_decide (actual = expected)) then [(i, j + Z.of_nat n)] else []) l).

Fixpoint mismatches (i : Z) (l : list (XdpOracleCase * NormalizedObservation * NormalizedObservation)) :
    list (Z * Z) :=
  match l with
  | [] => []
  | (case, actual, expected) :: l =>
      (case_mismatches i 0 (zip (zip (oc_assertions case) (nz_assertions actual)) (nz_assertions expected))
       ++ mismatches (i + 1) l)%list
  end.

Definition position_of (d : FirstDivergence) : Z * Z := (fd_case_index d, fd_assertion_index d).

Lemma case_mismatches_cons i j d actual expected l :
  case_mismatches i j ((d, actual, expected) :: l)
  = ((if xa_required d && negb (bool_decide (actual = expected)) then [(i, j)] else [])
     ++ case_mismatches i (j + 1) l)%list.
Proof.
  unfold case_mismatches. rewrite imap_cons. cbn [concat]. rewrite Z.add_0_r. do 2 f_equal.
  apply imap_ext. intros n [[? ?] ?] _. cbn. by replace (j + Z.of_nat (S n)) with (j + 1 + Z.of_nat n) by lia.
Qed.

(** The comparisons of a case: one per declaration, matched exactly when the
    observations are equal; the first divergence is the first mismatch. *)
Lemma compare_assertions_spec i id j first l comparisons first' :
  compare_assertions i id j first l = Ok (comparisons, first') ->
  position_of <$> first' = match first with
                           | Some d => Some (position_of d)
                           | None => head (case_mismatches i j l)
                           end
  /\ (required_match comparisons = true <-> case_mismatches i j l = []).
Proof.
  revert j first comparisons first'. induction l as [|[[d actual] expected] l IH]; intros j first comparisons first' H.
  - cbn in H. apply ok_inj in H. injection H as <- <-. by destruct first.
  - cbn [compare_assertions] in H. apply bind_ok in H as (asha & _ & H). apply bind_ok in H as (esha & _ & H).
    apply bind_ok in H as (cmp & [_ Hc]%construct_ok & H). apply bind_ok in H as (first1 & Hf & H). apply bind_ok in H as ([cs f'] & Hr & H).
    apply ok_inj in H. cbn in H. injection H as <- <-. apply IH in Hr as [Hp Hm]. rewrite case_mismatches_cons.
    assert (Hreq : required_match (cmp :: cs) = implb (xa_required d) (bool_decide (actual = expected)) && required_match cs).
    { cbn. by rewrite Hc. }
    rewrite Hreq. destruct first as [f|]; cbn [is_none andb] in Hf.
    + apply ok_inj in Hf as <-. split; [done|].
      destruct (xa_required d), (bool_decide (actual = expected)); cbn; tauto || (split; done).
    + destruct (xa_required d); cbn [andb] in Hf.
      * destruct (bool_decide (actual = expected)); cbn [negb] in Hf.
        -- apply ok_inj in Hf as <-. cbn. done.
        -- apply bind_ok in Hf as (fd & [_ Hfd]%construct_ok & Hf).
           apply ok_inj in Hf. rewrite <-Hf in Hp. cbn. rewrite Hp, Hfd. done.
      * apply ok_inj in Hf as <-. cbn. done.
Qed.

Lemma compare_cases_spec i first l results first' :
  compare_cases i first l = Ok (results, first') ->
  position_of <$> first' = match first with
                           | Some d => Some (position_of d)
                           | None => head (mismatches i l)
                           end
  /\ (forallb cr_passed results = true <-> mismatches i l = []).
Proof.
  revert i first results first'. induction l as [|[[case actual] expected] l IH]; intros i first results first' H.
  - cbn in H. apply ok_inj in H. injection H as <- <-. by destruct first.
  - cbn [compare_cases] in H. apply bind_ok in H as ([cs f1] & Hc & H). apply compare_assertions_spec in Hc as [Hp1 Hm1].
    apply bind_ok in H as (asha & _ & H). apply bind_ok in H as (esha & _ & H).
    apply bind_ok in H as (res & [_ Hres]%construct_ok & H). apply bind_ok in H as ([rs f2] & Hr & H). apply ok_inj in H. cbn in H.
    injection H as <- <-. cbn [snd] in Hr. apply IH in Hr as [Hp2 Hm2]. cbn [mismatches].
    set (cm := case_mismatches i 0 _) in *. split.
    + rewrite Hp2. destruct f1 as [d|]; cbn in Hp1.
      * destruct first; [done|]. destruct cm; cbn in *; congruence.
      * destruct first; [done|]. by destruct cm.
    + cbn [forallb]. replace (cr_passed res) with (required_match cs) by by rewrite Hres.
      rewrite andb_true_iff, Hm1, Hm2. split; [intros [-> ->]; done|]. apply app_eq_nil.
Qed.

(** The verdict of a derived report. *)
Lemma derive_inv contract ct rt report :
  derive_oracle_report contract ct rt = Ok report ->
  let cobs := or_candidate_observations report in
  let robs := or_reference_observations report in
  map_result (fun p => normalize_case p.1 p.2) (zip (oct_cases contract) (tr_cases ct)) = Ok cobs
  /\ map_result (fun p => normalize_case p.1 p.2) (zip (oct_cases contract) (tr_cases rt)) = Ok robs
  /\ (exists results first, compare_cases 0 None (zip (zip (oct_cases contract) cobs) robs) = Ok (results, first)
      /\ or_cases report = results /\ or_strict_success report = forallb cr_passed results
      /\ or_first_divergence report = first)
  /\ validate_trace contract ct candidate = Ok tt /\ validate_trace contract rt reference = Ok tt
  /\ validate_OracleReport report = Ok tt.
Proof.
  unfold derive_oracle_report. intros H.
  do 3 (apply bind_ok in H as (_ & _ & H)). apply bind_ok in H as ([] & H1 & H). apply bind_ok in H as ([] & H2 & H).
  apply bind_ok in H as (co & Hco & H). apply bind_ok in H as (ro & Hro & H).
  apply bind_ok in H as ([rs f] & Hc & H). do 3 (apply bind_ok in H as (? & _ & H)).
  apply construct_ok in H as [Hv ->].
  cbv zeta. split_and!; try done. by exists rs, f.
Qed.

(** What a trace shows of a contract: it recorded exactly the contract's cases, on their
    inputs and in their order, and [observations] are their normalizations. *)
Definition observes (contract : XdpOracleContract) (trace : XdpTrace) (observations : list NormalizedObservation) : Prop :=
  (fun t => (xt_case_id t, xt_input t)) <$> tr_cases trace = (fun c => (oc_case_id c, oc_input c)) <$> oct_cases contract
  /\ length observations = length (oct_cases contract)
  /\ forall i c t o, oct_cases contract !! i = Some c -> tr_cases trace !! i = Some t -> observations !! i = Some o ->
       normalize_case c t = Ok o.

Lemma matched_cases {A B} (P : A * B -> result string unit) (f : A -> string * XdpCaseInput) (g : B -> string * XdpCaseInput) l k :
  length k = length l -> for_each P (zip l k) = Ok tt -> (forall x y, P (x, y) = Ok tt -> g y = f x) -> g <$> k = f <$> l.
Proof.
  intros Hl HP Hfg. revert k Hl HP. induction l as [|x l IH]; intros [|y k] Hl HP; try done.
  cbn in HP. apply bind_ok in HP as ([] & Hx & HP). cbn. rewrite (Hfg _ _ Hx), IH; [done| |done]. by injection Hl.
Qed.

Lemma trace_observes contract trace role obs :
  validate_trace contract trace role = Ok tt ->
  map_result (fun p => normalize_case p.1 p.2) (zip (oct_cases contract) (tr_cases trace)) = Ok obs ->
  observes contract trace obs.
Proof.
  unfold validate_trace. intros H Hobs. do 3 apply raise_ok in H as [_ H]. apply raise_ok in H as [Hl%bool_decide_neg_false H].
  pose proof (map_result_length _ _ _ Hobs) as Hlen. rewrite length_zip_with, Hl, Nat.min_id in Hlen. split_and!; [|done|].
  - eapply matched_cases; [exact Hl|exact H|]. intros c t Hct. cbn in Hct.
    apply raise_ok in Hct as [E1%bool_decide_neg_false Hct]. apply raise_ok in Hct as [E2%bool_decide_neg_false _]. congruence.
  - intros i c t o Hc Ht Ho. apply map_result_ok in Hobs.
    destruct (Forall2_lookup_r _ _ _ _ _ Hobs Ho) as ([c' t'] & Hz & E). cbn in E.
    by apply lookup_zip_with_Some in Hz as (? & ? & [= -> ->] & Hc' & Ht'); simplify_eq.
Qed.

(** C5. The oracle's verdict: a report is derived only from two traces that recorded
    exactly the cases of the contract; with the normalizations of the candidate's and of
    the reference's trace, case by case, the report is a strict success exactly when no
    required assertion's observations differ between the two, and its first divergence is
    the first required mismatch in case and assertion order (none when it succeeds). *)
Theorem oracle_verdict contract ct rt report :
  derive_oracle_report contract ct rt = Ok report ->
  exists candidate_obs reference_obs,
    observes contract ct candidate_obs /\ observes contract rt reference_obs
    /\ or_candidate_observations report = candidate_obs /\ or_reference_observations report = reference_obs
    /\ let bad := mismatches 0 (zip (zip (oct_cases contract) candidate_obs) reference_obs) in
       (or_strict_success report = true <-> bad = []) /\ position_of <$> or_first_divergence report = head bad.
Proof.
  intros (Hco & Hro & (rs & f & Hc & _ & Hs & Hf) & Vc & Vr & _)%derive_inv. do 2 eexists.
  split; [by eapply trace_observes|]. split; [by eapply trace_observes|]. do 2 (split; [done|]). cbv zeta.
  apply compare_cases_spec in Hc as [Hp Hm]. rewrite Hs, Hf. done.
Qed.

(** A program agrees with itself: when candidate and reference traces recorded
    the same cases, the derived report is a strict success without divergence. *)
Theorem oracle_accepts_identical_behaviour contract ct rt report :
  derive_oracle_report contract ct rt = Ok report -> tr_cases ct = tr_cases rt ->
  or_strict_success report = true /\ or_first_divergence report = None.
Proof.
  intros (Hco & Hro & (rs & f & Hc & _ & Hs & Hf) & _)%derive_inv Heq.
  rewrite Heq in Hco. rewrite Hco in Hro. apply ok_inj in Hro. rewrite <-Hro in Hc.
  apply compare_cases_spec in Hc as [Hp Hm].
  assert (Hno : forall i cs obs, mismatches i (zip (zip cs obs) obs) = []).
  { intros i cs obs. revert i cs. induction obs as [|o obs IH]; intros i [|c cs]; cbn; try done.
    rewrite IH, app_nil_r. clear. generalize 0. generalize (oc_assertions c) as ds.
    induction (nz_assertions o) as [|a l IHa]; intros [|d ds] j; try done.
    cbn [zip zip_with]. rewrite case_mismatches_cons, bool_decide_true, andb_false_r by done. apply IHa. }
  rewrite Hno in Hp, Hm. rewrite Hs, Hf. split; [by apply Hm|]. by destruct f.
Qed.

(** Report verification is exact: a supplied report is accepted, and returned
    unchanged, exactly when it is the deterministic derivation from the contract and
    the two traces. *)
Theorem verify_accepts_exactly_derivation contract ct rt report r :
  verify_oracle_report contract ct rt report = Ok r <->
  r = report /\ derive_oracle_report contract ct rt = Ok report.
Proof.
  unfold verify_oracle_report. split.
  - intros H. apply bind_ok in H as (_ & _ & H). apply bind_ok in H as (d & Hd & H).
    destruct (negb _) eqn:E; [done|]. apply bool_decide_neg_false in E. apply ok_inj in H. by subst.
  - intros [-> Hd]. pose proof (derive_inv _ _ _ _ Hd) as (_ & _ & _ & _ & _ & Hv).
    rewrite Hv, Hd. cbn [bind_result]. by rewrite bool_decide_true.
Qed.

(** A contract with one case that observes the return value, the packet with a
    masked byte, and a map delta; two runs that agree up to the mask, and one that
    returns another value. *)
Definition sample_content (label : string) : ContentIdentity :=
  {| ci_sha256 := Samples.digest label; ci_size_bytes := 64; ci_media_type := "application/octet-stream" |}.

Definition fixture_content : ContentIdentity := Eval vm_compute in sample_content "fixture".
Definition reference_content : ContentIdentity := Eval vm_compute in sample_content "reference".
Definition candidate_content : ContentIdentity := Eval vm_compute in sample_content "candidate".

Definition sample_oracle_identity : OracleIdentity := Eval vm_compute in {|
  oi_task_id := "task-1"; oi_task_version := "v1"; oi_task_bundle_sha256 := Samples.digest "bundle";
  oi_evaluation_plan_sha256 := Samples.digest "plan"; oi_grader_id := Samples.digest "grader";
  oi_environment_id := "env-1"; oi_environment_sha256 := Samples.digest "env";
  oi_harness_commit := Samples.commit "harness" |}.

Definition sample_assertion (id : string) (k : AssertionKind) : XdpAssertion :=
  {| xa_assertion_id := id; xa_required := true; xa_weight := fone; xa_kind := k |}.

Definition sample_case : XdpOracleCase := {|
  oc_case_id := "case-1"; oc_input := {| xi_fixture := fixture_content |};
  oc_assertions := [sample_assertion "a1" PacketBytes; sample_assertion "a2" Retval;
                    sample_assertion "a3" (MapDelta "m1")];
  oc_normalizations := [sample_mask] |}.

Definition sample_contract : XdpOracleContract := {|
  oct_identity := sample_oracle_identity; oct_normalizer_version := "n1";
  oct_normalizer_sha256 := Samples.digest "normalizer";
  oct_reference_program := reference_content; oct_cases := [sample_case] |}.

Definition sample_observation (retval : Z) (packet : string) : XdpCaseTrace := {|
  xt_case_id := "case-1"; xt_input := {| xi_fixture := fixture_content |};
  xt_observation := {|
    ro_retval := retval; ro_packet_bytes := Some packet; ro_context_bytes := None;
    ro_maps := [{| mst_map_id := "m1"; mst_before := [{| me_key := "01"; me_value := "aa" |}];
                   mst_after := [{| me_key := "01"; me_value := "ab" |}] |}];
    ro_events := []; ro_counters := [] |} |}.

Definition sample_trace (role : Role) (program : ContentIdentity) (c : XdpCaseTrace) : XdpTrace := {|
  tr_role := role; tr_identity := sample_oracle_identity; tr_program := program; tr_cases := [c] |}.

Abbreviation reference_run := (sample_trace reference reference_content (sample_observation 2 "aabbccdd")).
Abbreviation candidate_run retval packet := (sample_trace candidate candidate_content (sample_observation retval packet)).

Lemma oracle_verdict_witness :
  (exists report, derive_oracle_report sample_contract (candidate_run 2 "aa0102dd") reference_run = Ok report
     /\ or_strict_success report = true)
  /\ exists report, derive_oracle_report sample_contract (candidate_run 1 "aa0102dd") reference_run = Ok report
     /\ or_strict_success report <> true /\ (position_of <$> or_first_divergence report = Some (0, 1)).
Proof.
  split.
  - destruct (run_ok (derive_oracle_report sample_contract (candidate_run 2 "aa0102dd") reference_run)
      (fun r => mismatches 0 (zip (zip (oct_cases sample_contract) (or_candidate_observations r))
                                  (or_reference_observations r)) = [])) as (report & E & H).
    { vm_compute. reflexivity. }
    exists report. split; [exact E|]. destruct (oracle_verdict _ _ _ _ E) as (co & ro & _ & _ & <- & <- & Hs & _).
    apply Hs. exact H.
  - destruct (run_ok (derive_oracle_report sample_contract (candidate_run 1 "aa0102dd") reference_run)
      (fun r => mismatches 0 (zip (zip (oct_cases sample_contract) (or_candidate_observations r))
                                  (or_reference_observations r)) = [(0, 1)])) as (report & E & H).
    { vm_compute. reflexivity. }
    exists report. split; [exact E|]. destruct (oracle_verdict _ _ _ _ E) as (co & ro & _ & _ & <- & <- & Hs & Hp).
    rewrite H in Hs, Hp.
    split; [|exact Hp]. intros Ht. apply Hs in Ht. discriminate Ht.
Defined.

Lemma oracle_accepts_identical_behaviour_witness :
  exists report, derive_oracle_report sample_contract (candidate_run 2 "aabbccdd") reference_run = Ok report
     /\ or_strict_success report = true /\ or_first_divergence report = None.
Proof.
  destruct (run_ok (derive_oracle_report sample_contract (candidate_run 2 "aabbccdd") reference_run)
    (fun _ => True)) as (report & E & _).
  { vm_compute. exact I. }
  exists report. split; [exact E|]. apply (oracle_accepts_identical_behaviour _ _ _ _ E). reflexivity.
Defined.

End OracleFacts.
