(* ===== verification/Text.v ===== *)
(** * Bytes and text

    The decoders of the standard library that the program applies to bytes: strict
    UTF-8 ([bytes.decode]), and the encoding detection with which [json.loads] reads
    bytes ([json.detect_encoding], then decoding with the [surrogatepass] handler).
    A text is the [string] of its generalised UTF-8 bytes, as in [Json], so decoding
    UTF-8 is a test and decoding UTF-16 and UTF-32 re-encodes. *)
From Stdlib Require Import ZArith String Ascii Lia.
From stdpp Require Import base tactics list strings.
From S2P Require Import Prelude Floats Sha256 Json.
Local Open Scope string_scope.
Local Open Scope Z_scope.

Module Text.
Import Json.

Definition is_cont (c : ascii) : bool := (0x80 <=? code c) && (code c <=? 0xBF).

(** The lead byte and the first continuation byte of a three-byte sequence; with
    [surrogates], [U+D800 .. U+DFFF] is let through. *)
Definition lead3 (surrogates : bool) (a b : ascii) : bool :=
  if code a =? 0xE0 then (0xA0 <=? code b) && (code b <=? 0xBF)
  else if code a =? 0xED then (0x80 <=? code b) && (code b <=? (if surrogates then 0xBF else 0x9F))
  else (0xE1 <=? code a) && (code a <=? 0xEF) && is_cont b.
Definition lead4 (a b : ascii) : bool :=
  if code a =? 0xF0 then (0x90 <=? code b) && (code b <=? 0xBF)
  else if code a =? 0xF4 then (0x80 <=? code b) && (code b <=? 0x8F)
  else (0xF1 <=? code a) && (code a <=? 0xF3) && is_cont b.

(** Whether UTF-8 decoding succeeds: [errors="strict"], or [surrogatepass]. *)
Fixpoint utf8_ok (surrogates : bool) (s : string) : bool :=
  match s with
  | EmptyString => true
  | String a s1 =>
      if code a <? 0x80 then utf8_ok surrogates s1
      else
        match s1 with
        | EmptyString => false
        | String b s2 =>
            if (0xC2 <=? code a) && (code a <=? 0xDF) then is_cont b && utf8_ok surrogates s2
            else
              match s2 with
              | EmptyString => false
              | String c s3 =>
                  if code a <? 0xF0 then lead3 surrogates a b && is_cont c && utf8_ok surrogates s3
                  else
                    match s3 with
                    | EmptyString => false
                    | String d s4 =>
                        lead4 a b && is_cont c && is_cont d && utf8_ok surrogates s4
                    end
              end
        end
  end.

(** [raw.decode("utf-8", errors="strict")] *)
Definition decode_utf8 (raw : string) : option string := if utf8_ok false raw then Some raw else None.

(** ** UTF-16 and UTF-32 *)
Definition unit16 (little : bool) (a b : ascii) : Z :=
  if little then code a + 256 * code b else 256 * code a + code b.

(** The 16-bit units, or [None] on a truncated one. *)
Fixpoint units16 (little : bool) (s : string) : option (list Z) :=
  match s with
  | EmptyString => Some []
  | String a (String b s) =>
      match units16 little s with Some us => Some (unit16 little a b :: us) | None => None end
  | _ => None
  end.

(** Surrogate pairs are joined, lone surrogates passed. *)
Fixpoint text16 (us : list Z) : string :=
  match us with
  | [] => ""
  | u :: rest =>
      match rest with
      | l :: rest' =>
          if is_high u && is_low l then utf8 (join_surrogates u l) ++ text16 rest'
          else utf8 u ++ text16 rest
      | [] => utf8 u
      end
  end.

Fixpoint text32 (little : bool) (s : string) : option string :=
  match s with
  | EmptyString => Some ""
  | String a (String b (String c (String d s))) =>
      let u := if little then unit16 true a b + 65536 * unit16 true c d
               else 65536 * unit16 false a b + unit16 false c d in
      if u <=? 0x10FFFF then
        match text32 little s with Some t => Some (utf8 u ++ t) | None => None end
      else None
  | _ => None
  end.

(** ** [json.detect_encoding] *)
Inductive Encoding := utf_8 | utf_8_sig | utf_16 | utf_16_be | utf_16_le | utf_32 | utf_32_be | utf_32_le.

Definition byte_at (s : string) (i : nat) : Z :=
  match String.get i s with Some c => code c | None => 0 end.
Definition starts_with (bs : list Z) (s : string) : bool :=
  (length bs <=? String.length s)%nat && forallb (fun ib => byte_at s ib.1 =? ib.2) (imap pair bs).

Definition detect_encoding (b : string) : Encoding :=
  if starts_with [0; 0; 0xFE; 0xFF] b || starts_with [0xFF; 0xFE; 0; 0] b then utf_32
  else if starts_with [0xFE; 0xFF] b || starts_with [0xFF; 0xFE] b then utf_16
  else if starts_with [0xEF; 0xBB; 0xBF] b then utf_8_sig
  else if (4 <=? String.length b)%nat then
    if byte_at b 0 =? 0 then (if byte_at b 1 =? 0 then utf_32_be else utf_16_be)
    else if byte_at b 1 =? 0 then
      (if (byte_at b 2 =? 0) && (byte_at b 3 =? 0) then utf_32_le else utf_16_le)
    else utf_8
  else if (String.length b =? 2)%nat then
    if byte_at b 0 =? 0 then utf_16_be else if byte_at b 1 =? 0 then utf_16_le else utf_8
  else utf_8.

Definition drop_bytes (n : nat) (s : string) : string := String.substring n (String.length s - n) s.

(** [b.decode(encoding, "surrogatepass")]; the codecs [utf-16] and [utf-32] are only
    selected when a byte-order mark is present, which they consume. *)
Definition decode_as (e : Encoding) (b : string) : option string :=
  let utf8_text s := if utf8_ok true s then Some s else None in
  match e with
  | utf_8 => utf8_text b
  | utf_8_sig => utf8_text (drop_bytes 3 b)
  | utf_16 => text16 <$> units16 (byte_at b 0 =? 0xFF) (drop_bytes 2 b)
  | utf_16_be => text16 <$> units16 false b
  | utf_16_le => text16 <$> units16 true b
  | utf_32 => text32 (byte_at b 0 =? 0xFF) (drop_bytes 4 b)
  | utf_32_be => text32 false b
  | utf_32_le => text32 true b
  end.

(** [strict_json_loads] on bytes. *)
Definition strict_json_loads_bytes (raw : string) : result string json :=
  match decode_as (detect_encoding raw) raw with
  | Some text => strict_json_loads text
  | None => Err JSON_INVALID
  end.

(** ** Facts *)
Lemma utf8_ok_app f a b : utf8_ok f a = true -> utf8_ok f (a ++ b) = utf8_ok f b.
Proof.
  remember (String.length a) as n eqn:Hn. revert a Hn. induction n as [n IH] using lt_wf_ind.
  intros a Hn Ha. destruct a as [|x a1]; [done|]. cbn [String.length] in Hn.
  change (String x a1 ++ b) with (String x (a1 ++ b)). cbn [utf8_ok] in Ha |- *.
  destruct (code x <? 0x80); [by eapply (IH (String.length a1)); [lia|..]|].
  destruct a1 as [|y a2]; [done|]. change (String y a2 ++ b) with (String y (a2 ++ b)). cbn [String.length] in Hn.
  destruct ((0xC2 <=? code x) && (code x <=? 0xDF)).
  { apply andb_true_iff in Ha as [-> Ha]. cbn [andb]. by eapply (IH (String.length a2)); [lia|..]. }
  destruct a2 as [|z a3]; [done|]. change (String z a3 ++ b) with (String z (a3 ++ b)). cbn [String.length] in Hn.
  destruct (code x <? 0xF0).
  { rewrite !andb_true_iff in Ha. destruct Ha as [[-> ->] Ha]. cbn [andb].
    by eapply (IH (String.length a3)); [lia|..]. }
  destruct a3 as [|w a4]; [done|]. change (String w a4 ++ b) with (String w (a4 ++ b)). cbn [String.length] in Hn.
  rewrite !andb_true_iff in Ha. destruct Ha as [[[-> ->] ->] Ha]. cbn [andb].
  by eapply (IH (String.length a4)); [lia|..].
Qed.

Definition is_ascii (c : ascii) : bool := code c <? 0x80.
Fixpoint ascii_text (s : string) : bool :=
  match s with EmptyString => true | String c s => is_ascii c && ascii_text s end.

Lemma ascii_utf8 f s : ascii_text s = true -> utf8_ok f s = true.
Proof.
  induction s as [|c s IH]; [done|]. cbn. unfold is_ascii. destruct (code c <? 128); [|done]. exact IH.
Qed.

Lemma utf8_ok_strict_pass s : utf8_ok false s = true -> utf8_ok true s = true.
Proof.
  remember (String.length s) as n eqn:Hn. revert s Hn. induction n as [n IH] using lt_wf_ind.
  intros s Hn H. destruct s as [|x s1]; [done|]. cbn [String.length utf8_ok] in *.
  destruct (code x <? 0x80); [by eapply (IH (String.length s1)); [lia|..]|].
  destruct s1 as [|y s2]; [done|]. cbn [String.length] in Hn.
  destruct ((0xC2 <=? code x) && (code x <=? 0xDF)).
  { apply andb_true_iff in H as [-> H]. cbn [andb]. by eapply (IH (String.length s2)); [lia|..]. }
  destruct s2 as [|z s3]; [done|]. cbn [String.length] in Hn. destruct (code x <? 0xF0).
  { rewrite !andb_true_iff in H. destruct H as [[H1 ->] H].
    assert (lead3 true x y = true) as ->.
    { unfold lead3 in *. destruct (code x =? 0xE0); [done|]. destruct (code x =? 0xED); [|done].
      rewrite andb_true_iff, !Z.leb_le in *. lia. }
    cbn [andb]. by eapply (IH (String.length s3)); [lia|..]. }
  destruct s3 as [|w s4]; [done|]. cbn [String.length] in Hn.
  rewrite !andb_true_iff in H. destruct H as [[[-> ->] ->] H]. cbn [andb].
  by eapply (IH (String.length s4)); [lia|..].
Qed.
End Text.
