(* ===== verification/Submission.v ===== *)
(** * Extraction of the candidate source ([src/bpe/submission.py])

    Plain C, or exactly one isolated fence.  The regular expression
    [\A\s*```(?:c|C)\s*\n(?P<source>.*?)\n```\s*\Z] is the backtracking search it
    denotes: the greedy blank run after the tag is tried from the longest, the source
    from the shortest. *)
From Stdlib Require Import ZArith String Ascii Lia.
From stdpp Require Import base tactics list strings.
From S2P Require Import Prelude Floats Sha256 Json JsonFacts Models ModelFacts Text.
Local Open Scope string_scope.
Local Open Scope Z_scope.

Module Submission.
Import Json JsonFacts Models ModelFacts Text.

(** ** White space of [str]: [\s] and [str.strip] *)
Definition is_space (c : ascii) : bool :=
  ((9 <=? code c) && (code c <=? 13)) || ((28 <=? code c) && (code c <=? 32)).
(** [U+0085], [U+00A0] *)
Definition is_space2 (a b : ascii) : bool := (code a =? 0xC2) && ((code b =? 0x85) || (code b =? 0xA0)).
(** [U+1680], [U+2000 .. U+200A], [U+2028], [U+2029], [U+202F], [U+205F], [U+3000] *)
Definition is_space3 (a b c : ascii) : bool :=
  ((code a =? 0xE1) && (code b =? 0x9A) && (code c =? 0x80))
  || ((code a =? 0xE2) && (code b =? 0x80)
      && (((0x80 <=? code c) && (code c <=? 0x8A)) || (code c =? 0xA8) || (code c =? 0xA9) || (code c =? 0xAF)))
  || ((code a =? 0xE2) && (code b =? 0x81) && (code c =? 0x9F))
  || ((code a =? 0xE3) && (code b =? 0x80) && (code c =? 0x80)).

(** What remains after each prefix of the leading blank run, from the whole text on. *)
Fixpoint space_suffixes (s : string) : list string :=
  s :: match s with
       | EmptyString => []
       | String a s1 =>
           if is_space a then space_suffixes s1
           else
             match s1 with
             | EmptyString => []
             | String b s2 =>
                 if is_space2 a b then space_suffixes s2
                 else
                   match s2 with
                   | EmptyString => []
                   | String c s3 => if is_space3 a b c then space_suffixes s3 else []
                   end
             end
       end.

(** The text after its leading blanks. *)
Definition skip_space (s : string) : string := List.last (space_suffixes s) s.
(** [not text.strip()] *)
Definition is_blank (s : string) : bool := bool_decide (skip_space s = "").

(** ** Fences *)
Definition tick : ascii := "`".

(** [text.count("```")]: occurrences that do not overlap, from the left. *)
Fixpoint count_fences (s : string) : Z :=
  match s with
  | EmptyString => 0
  | String a s1 =>
      match s1 with
      | EmptyString => 0
      | String b s2 =>
          match s2 with
          | EmptyString => 0
          | String c s3 =>
              if bool_decide (a = tick) && bool_decide (b = tick) && bool_decide (c = tick)
              then 1 + count_fences s3
              else count_fences s1
          end
      end
  end.

Definition FENCE : string := "```".

(** What follows a literal prefix. *)
Fixpoint strip_prefix (p s : string) : option string :=
  match p, s with
  | EmptyString, _ => Some s
  | String a p, String b s => if bool_decide (a = b) then strip_prefix p s else None
  | _, _ => None
  end.

(** [(?P<source>.*?)\n```\s*\Z]: the shortest source. *)
Fixpoint close_fence (s : string) : option string :=
  match strip_prefix (newline ++ FENCE) s with
  | Some rest =>
      if is_blank rest then Some ""
      else match s with EmptyString => None | String c s => (String c) <$> close_fence s end
  | None => match s with EmptyString => None | String c s => (String c) <$> close_fence s end
  end.

(** [\n(?P<source>.*?)\n```\s*\Z] *)
Definition after_newline (s : string) : option string :=
  match strip_prefix newline s with Some rest => close_fence rest | None => None end.

(** The first success of a list of attempts. *)
Fixpoint first_some {A B} (f : A -> option B) (l : list A) : option B :=
  match l with
  | [] => None
  | x :: l => match f x with Some y => Some y | None => first_some f l end
  end.

(** [_FENCE.fullmatch(text)] and its group [source]. *)
Definition match_fence (text : string) : option string :=
  match strip_prefix FENCE (skip_space text) with
  | Some (String c rest) =>
      if bool_decide (c = "c"%char) || bool_decide (c = "C"%char)
      then first_some after_newline (rev (space_suffixes rest))
      else None
  | _ => None
  end.

Definition has_nul (s : string) : bool := negb (str_forall (fun c => negb (code c =? 0)) s).

(** [extract_c_source] *)
Definition extract_c_source (raw : string) (max_bytes : Z) (allow_fence : bool) : result string string :=
  raise "response exceeds the byte limit" when max_bytes <? Z.of_nat (String.length raw) ;;
  match decode_utf8 raw with
  | None => Err "response is not valid UTF-8"
  | Some text =>
      raise "response contains a NUL byte" when has_nul text ;;
      if count_fences text =? 0 then
        raise "response is empty" when is_blank text ;;
        Ok raw
      else
        raise "Markdown fences are disabled for this task" when negb allow_fence ;;
        raise "response must contain exactly one Markdown fence" when negb (count_fences text =? 2) ;;
        match match_fence text with
        | None => Err "response must contain exactly one C fence and only whitespace outside it"
        | Some source =>
            raise "C fence is empty" when is_blank source ;;
            Ok source
        end
  end.

Definition lf : string := newline.
Example extract_fenced :
  extract_c_source (" " ++ lf ++ "```c " ++ lf ++ lf ++ " int x;" ++ lf ++ "```" ++ lf) 100 true = Ok " int x;".
Proof. vm_compute. reflexivity. Qed.
Example extract_empty_fence : extract_c_source ("```c" ++ lf ++ lf ++ "```") 100 true = Err "C fence is empty".
Proof. vm_compute. reflexivity. Qed.

(** ** Strings cut at a character *)
#[local] Arguments String.append : simpl nomatch.

Lemma strip_prefix_spec p s t : strip_prefix p s = Some t <-> s = p ++ t.
Proof.
  revert s. induction p as [|a p IH]; intros s.
  - split; [by intros [= ->]|by intros ->].
  - destruct s as [|b s]; cbn; [by split|]. case_bool_decide as Hab.
    + subst b. rewrite IH. split; [by intros ->|by intros [= ->]].
    + split; [done|]. intros [= -> ?]. done.
Qed.

Lemma utf8_step b a s :
  utf8_ok b (String a s) =
  if code a <? 0x80 then utf8_ok b s
  else match s with
       | EmptyString => false
       | String a2 s2 =>
           if (0xC2 <=? code a) && (code a <=? 0xDF) then is_cont a2 && utf8_ok b s2
           else match s2 with
                | EmptyString => false
                | String a3 s3 =>
                    if code a <? 0xF0 then lead3 b a a2 && is_cont a3 && utf8_ok b s3
                    else match s3 with
                         | EmptyString => false
                         | String a4 s4 => lead4 a a2 && is_cont a3 && is_cont a4 && utf8_ok b s4
                         end
                end
       end.
Proof. reflexivity. Qed.

(** A text splits before an ASCII character, and only there. *)
Lemma utf8_ok_cut b s c t :
  code c < 0x80 -> utf8_ok b (s ++ String c t) = utf8_ok b s && utf8_ok b t.
Proof.
  intros Hc.
  assert (Hcont : is_cont c = false) by (unfold is_cont; lia).
  assert (Hl3 : forall a, lead3 b a c = false).
  { intros a. unfold lead3. rewrite Hcont, andb_false_r. repeat case_match; lia. }
  assert (Hl4 : forall a, lead4 a c = false).
  { intros a. unfold lead4. rewrite Hcont, andb_false_r. repeat case_match; lia. }
  assert (Hlt : (code c <? 0x80) = true) by lia.
  remember (String.length s) as n eqn:Hn. revert s Hn.
  induction (lt_wf n) as [n _ IH]. intros s ->.
  assert (IH' : forall s', (String.length s' < String.length s)%nat ->
    utf8_ok b (s' ++ String c t) = utf8_ok b s' && utf8_ok b t) by (intros; by eapply IH).
  clear IH. destruct s as [|a1 s1]; [cbn [String.append utf8_ok andb]; by rewrite Hlt|].
  change (String a1 s1 ++ String c t) with (String a1 (s1 ++ String c t)). rewrite !(utf8_step b a1).
  destruct (code a1 <? 128); [apply IH'; cbn; lia|].
  destruct s1 as [|a2 s2].
  { cbn [String.append]. rewrite Hcont, Hl3, Hl4. by repeat case_match. }
  change (String a2 s2 ++ String c t) with (String a2 (s2 ++ String c t)).
  destruct (_ && _); [rewrite IH' by (cbn; lia); by rewrite andb_assoc|].
  destruct s2 as [|a3 s3].
  { cbn [String.append]. rewrite Hcont, !andb_false_r. by repeat case_match. }
  change (String a3 s3 ++ String c t) with (String a3 (s3 ++ String c t)).
  destruct (code a1 <? 240); [rewrite IH' by (cbn; lia); by rewrite !andb_assoc|].
  destruct s3 as [|a4 s4]; cbn [String.append]; [by rewrite Hcont, !andb_false_r|].
  rewrite IH' by (cbn; lia). by rewrite !andb_assoc.
Qed.

(** ** Counting fences *)
Lemma count_fences_step a s :
  count_fences (String a s) =
  match strip_prefix FENCE (String a s) with Some rest => 1 + count_fences rest | None => count_fences s end.
Proof.
  destruct s as [|b [|c s]]; cbn -[count_fences]; repeat case_bool_decide; try done; subst;
    cbn [count_fences]; repeat case_bool_decide; subst; try done.
Qed.

Lemma count_fences_nonneg s : 0 <= count_fences s.
Proof.
  remember (String.length s) as n eqn:Hn. revert s Hn.
  induction (lt_wf n) as [n _ IH]. intros [|a s] ->; [done|].
  rewrite count_fences_step. destruct (strip_prefix _ _) as [rest|] eqn:Hs.
  - apply strip_prefix_spec in Hs. injection Hs as _ Hs. subst s.
    assert (0 <= count_fences rest); [|lia]. eapply IH; [|done]. cbn. lia.
  - eapply IH; [|done]. cbn. lia.
Qed.

(** Dropping one character loses at most the fence that starts there. *)
Lemma count_fences_cons a s : count_fences s <= count_fences (String a s) <= 1 + count_fences s.
Proof.
  revert a. remember (String.length s) as n eqn:Hn. revert s Hn.
  induction (lt_wf n) as [n _ IH]. intros s -> a.
  rewrite count_fences_step. destruct (strip_prefix FENCE (String a s)) as [rest|] eqn:Hs; [|lia].
  apply strip_prefix_spec in Hs. injection Hs as _ Hs. subst s.
  destruct rest as [|c rest]; [split; vm_compute; done|].
  change ("``" ++ String c rest) with (String tick (String tick (String c rest))) in *.
  assert (H1 := IH (String.length rest) ltac:(cbn; lia) rest eq_refl).
  rewrite (count_fences_step tick (String tick _)). cbn [strip_prefix FENCE].
  rewrite !bool_decide_true by done. case_bool_decide as Hc.
  - subst c. specialize (H1 tick). unfold tick in *. lia.
  - rewrite (count_fences_step tick). cbn [strip_prefix FENCE]. rewrite bool_decide_true by done.
    rewrite (bool_decide_false (_ = c)) by done. lia.
Qed.

(** The occurrences in two parts are occurrences in the whole. *)
Lemma count_fences_app s t : count_fences s + count_fences t <= count_fences (s ++ t).
Proof.
  remember (String.length s) as n eqn:Hn. revert s Hn.
  induction (lt_wf n) as [n _ IH]. intros [|a s] ->; [cbn; lia|].
  change (String a s ++ t) with (String a (s ++ t)). rewrite count_fences_step.
  destruct (strip_prefix FENCE (String a s)) as [rest|] eqn:Hs.
  - apply strip_prefix_spec in Hs. injection Hs as -> Hs. subst s.
    rewrite count_fences_step.
    change (String _ (("``" ++ rest) ++ t)) with (FENCE ++ (rest ++ t)).
    rewrite (proj2 (strip_prefix_spec FENCE _ (rest ++ t))) by done.
    assert (H := IH (String.length rest) ltac:(cbn; lia) rest eq_refl). lia.
  - assert (H := IH (String.length s) ltac:(cbn; lia) s eq_refl).
    assert (H' := count_fences_cons a (s ++ t)). lia.
Qed.

Lemma no_fence s a b : count_fences s = 0 -> s <> a ++ FENCE ++ b.
Proof.
  intros Hs ->. assert (H := count_fences_app a (FENCE ++ b)). assert (H' := count_fences_app FENCE b).
  assert (0 <= count_fences a) by apply count_fences_nonneg.
  assert (0 <= count_fences b) by apply count_fences_nonneg.
  change (count_fences FENCE) with 1 in H'. lia.
Qed.

(** ** Blank runs *)
(** One white-space character. *)
Definition is_white (w : string) : bool :=
  match w with
  | String a EmptyString => is_space a
  | String a (String b EmptyString) => is_space2 a b
  | String a (String b (String c EmptyString)) => is_space3 a b c
  | _ => false
  end.

Lemma white_suffixes w t : is_white w = true -> space_suffixes (w ++ t) = (w ++ t) :: space_suffixes t.
Proof.
  destruct w as [|a [|b [|c [|??]]]]; intros Hw; try done; cbn -[is_space is_space2 is_space3] in Hw |- *.
  - by rewrite Hw.
  - replace (is_space a) with false by (unfold is_space2, is_space in *; lia). by rewrite Hw.
  - replace (is_space a) with false by (unfold is_space3, is_space in *; lia).
    replace (is_space2 a b) with false by (unfold is_space3, is_space2 in *; lia). by rewrite Hw.
Qed.

Lemma white_utf8 e w t : is_white w = true -> utf8_ok e (w ++ t) = utf8_ok e t.
Proof.
  destruct w as [|a [|b [|c [|??]]]]; intros Hw; try done; cbn -[is_space is_space2 is_space3] in Hw;
    cbn [String.append]; rewrite utf8_step.
  - unfold is_space in Hw. by replace (code a <? 128) with true by lia.
  - unfold is_space2 in Hw. replace (code a <? 128) with false by lia.
    replace (_ && _) with true by lia. by replace (is_cont b) with true by (unfold is_cont; lia).
  - unfold is_space3 in Hw. replace (code a <? 128) with false by lia.
    replace (_ && _) with false by lia. replace (code a <? 240) with true by lia.
    replace (lead3 e a b) with true.
    { by replace (is_cont c) with true by (unfold is_cont; lia). }
    unfold lead3, is_cont. repeat case_match; lia.
Qed.

Lemma white_nonempty w t : is_white w = true -> (String.length t < String.length (w ++ t))%nat.
Proof. destruct w; [done|]. rewrite str_length_app. cbn. lia. Qed.

(** A text starts with a white-space character, or its blank run is empty. *)
Variant blank_view : string -> Prop :=
| BlankRun w t : is_white w = true -> blank_view (w ++ t)
| BlankEnd s : space_suffixes s = [s] -> blank_view s.

Lemma blank_view_of s : blank_view s.
Proof.
  destruct s as [|a s1]; [by apply BlankEnd|].
  destruct (is_space a) eqn:H1; [by apply (BlankRun (String a "") s1)|].
  destruct s1 as [|b s2]; [apply BlankEnd; cbn -[is_space]; by rewrite H1|].
  destruct (is_space2 a b) eqn:H2; [by apply (BlankRun (String a (String b "")) s2)|].
  destruct s2 as [|c s3]; [apply BlankEnd; cbn -[is_space is_space2]; by rewrite H1, H2|].
  destruct (is_space3 a b c) eqn:H3; [by apply (BlankRun (String a (String b (String c ""))) s3)|].
  apply BlankEnd. cbn -[is_space is_space2 is_space3]. by rewrite H1, H2, H3.
Qed.

Lemma blank_ind (P : string -> Prop) :
  (forall w t, is_white w = true -> P t -> P (w ++ t)) -> (forall s, space_suffixes s = [s] -> P s) ->
  forall s, P s.
Proof.
  intros Hrun Hend s. remember (String.length s) as n eqn:Hn. revert s Hn.
  induction (lt_wf n) as [n _ IH]. intros s ->. destruct (blank_view_of s) as [w t Hw|s Hs]; [|by apply Hend].
  apply Hrun; [done|]. eapply IH; [|done]. by apply white_nonempty.
Qed.

Lemma skip_space_run w t : is_white w = true -> skip_space (w ++ t) = skip_space t.
Proof.
  intros Hw. unfold skip_space. rewrite white_suffixes by done.
  assert (forall d l, l <> [] -> List.last ((w ++ t) :: l) d = List.last l t) as Hlast.
  { intros d [|x l] ?; [done|]. cbn [List.last]. clear. revert x. induction l; intros x; [done|]. apply IHl. }
  apply Hlast. by destruct t.
Qed.

Lemma is_blank_run w t : is_white w = true -> is_blank (w ++ t) = is_blank t.
Proof. intros Hw. unfold is_blank. by rewrite skip_space_run. Qed.

(** A suffix of the blank run is what follows a blank prefix. *)
Lemma space_suffix_spec s : forall x, x ∈ space_suffixes s ->
  exists w, s = w ++ x /\ is_blank w = true /\ forall e, utf8_ok e s = utf8_ok e x.
Proof.
  induction s as [w t Hw IH|s Hs] using blank_ind; intros x.
  - rewrite white_suffixes by done. rewrite elem_of_cons. intros [->|(v & Ht & Hv & He)%IH]; [by exists ""|].
    exists (w ++ v). split_and!.
    + by rewrite str_app_assoc, <- Ht.
    + by rewrite is_blank_run.
    + intros e. rewrite <- He. by apply white_utf8.
  - rewrite Hs, list_elem_of_singleton. intros ->. by exists "".
Qed.

Lemma skip_space_suffix s : skip_space s ∈ space_suffixes s.
Proof.
  induction s as [w t Hw IH|s Hs] using blank_ind.
  - rewrite skip_space_run, white_suffixes by done. rewrite elem_of_cons. by right.
  - unfold skip_space. rewrite Hs. by apply list_elem_of_singleton.
Qed.

(** ** The fenced form *)
Lemma close_fence_spec s src :
  close_fence s = Some src -> exists rest, s = src ++ newline ++ FENCE ++ rest /\ is_blank rest = true.
Proof.
  revert src. induction s as [|c s IH]; intros src; [done|].
  cbn [close_fence]. assert (Hnext : String c <$> close_fence s = Some src ->
    exists rest, String c s = src ++ newline ++ FENCE ++ rest /\ is_blank rest = true).
  { destruct (close_fence s) as [src'|]; [|done]. intros [= <-].
    destruct (IH src' eq_refl) as (rest & -> & ?). by exists rest. }
  destruct (strip_prefix _ _) as [rest|] eqn:Hs; [|done].
  destruct (is_blank rest) eqn:Hb; [|done]. intros [= <-]. exists rest.
  apply strip_prefix_spec in Hs. by rewrite Hs, str_app_assoc.
Qed.

Lemma first_some_elem {A B} (f : A -> option B) l y : first_some f l = Some y -> exists x, x ∈ l /\ f x = Some y.
Proof.
  induction l as [|x l IH]; [done|]. cbn. destruct (f x) eqn:Hx.
  - intros [= <-]. exists x. split; [left|done].
  - intros (z & ? & ?)%IH. exists z. split; [by right|done].
Qed.

(** [raw] is [source] in one isolated C fence. *)
Definition fenced (raw source : string) : Prop :=
  exists pre tag gap post,
    raw = pre ++ FENCE ++ tag ++ gap ++ newline ++ source ++ newline ++ FENCE ++ post
    /\ (tag = "c" \/ tag = "C") /\ is_blank pre = true /\ is_blank gap = true /\ is_blank post = true.

Lemma match_fence_fenced text src : match_fence text = Some src -> fenced text src.
Proof.
  unfold match_fence. destruct (space_suffix_spec _ _ (skip_space_suffix text)) as (pre & Ht & Hpre & _).
  destruct (strip_prefix FENCE _) as [[|c rest]|] eqn:Hs; [done| |done].
  apply strip_prefix_spec in Hs. destruct (_ || _) eqn:Hc; [|done].
  intros (x & Hx & Hsrc)%first_some_elem. apply list_elem_of_In, in_rev, list_elem_of_In in Hx.
  apply space_suffix_spec in Hx as (gap & -> & Hgap & _).
  unfold after_newline in Hsrc. destruct (strip_prefix newline x) as [y|] eqn:Hy; [|done].
  apply strip_prefix_spec in Hy. apply close_fence_spec in Hsrc as (post & -> & Hpost).
  exists pre, (String c ""), gap, post. split_and!; try done.
  - by rewrite Ht, Hs, Hy.
  - apply orb_true_iff in Hc. rewrite !bool_decide_eq_true in Hc. destruct Hc as [->| ->]; [by left|by right].
Qed.

Lemma first_some_split {A B} (f : A -> option B) l y :
  first_some f l = Some y <->
  exists l1 x l2, l = (l1 ++ x :: l2)%list /\ Forall (fun x => f x = None) l1 /\ f x = Some y.
Proof.
  induction l as [|x l IH]; cbn.
  - split; [done|]. intros (l1 & x & l2 & H & _). by destruct l1.
  - destruct (f x) eqn:Hx.
    + split.
      * intros [= <-]. by exists [], x, l.
      * intros ([|x' l1] & z & l2 & [= <- ->] & Hn & Hz); [congruence|]. apply Forall_cons in Hn as [??]. congruence.
    + rewrite IH. split.
      * intros (l1 & z & l2 & -> & ? & ?). exists (x :: l1), z, l2. split_and!; [done|by constructor|done].
      * intros ([|x' l1] & z & l2 & [= <- ->] & Hn & Hz); [congruence|].
        apply Forall_cons in Hn as [??]. by exists l1, z, l2.
Qed.

Definition nl : ascii := chr 10.

Lemma code_nl : code nl = 10.
Proof. reflexivity. Qed.

Lemma close_fence_step c s :
  close_fence (String c s) =
  match strip_prefix (newline ++ FENCE) (String c s) with
  | Some rest => if is_blank rest then Some "" else String c <$> close_fence s
  | None => String c <$> close_fence s
  end.
Proof. reflexivity. Qed.

Lemma close_fence_here post : is_blank post = true -> close_fence (newline ++ FENCE ++ post) = Some "".
Proof.
  intros Hp. change (newline ++ FENCE ++ post) with (String nl (FENCE ++ post)). rewrite close_fence_step.
  change (String nl (FENCE ++ post)) with ((newline ++ FENCE) ++ post).
  rewrite (proj2 (strip_prefix_spec (newline ++ FENCE) _ post)) by done. by rewrite Hp.
Qed.

Lemma close_fence_total s post : is_blank post = true -> close_fence (s ++ newline ++ FENCE ++ post) <> None.
Proof.
  intros Hp. induction s as [|c s IH]; [change (close_fence (newline ++ FENCE ++ post) <> None); by rewrite close_fence_here|].
  change (String c s ++ ?x) with (String c (s ++ x)). rewrite close_fence_step.
  destruct (close_fence (s ++ _)) as [src|]; [|done]. by repeat case_match.
Qed.

(** A source without fences is closed where it ends. *)
Lemma strip_fence_none s t : count_fences s = 0 -> strip_prefix FENCE (s ++ String nl t) = None.
Proof.
  intros Hs. destruct (strip_prefix FENCE (s ++ String nl t)) as [rest|] eqn:He; [|done]. exfalso.
  apply strip_prefix_spec in He. destruct s as [|a [|b [|c s]]]; [done|done|done|].
  injection He as -> -> -> _. by apply (no_fence _ "" s) in Hs.
Qed.

Lemma close_fence_source s post :
  is_blank post = true -> count_fences s = 0 -> close_fence (s ++ newline ++ FENCE ++ post) = Some s.
Proof.
  intros Hp. induction s as [|c s IH]; intros Hs; [by apply close_fence_here|].
  assert (Hs' : count_fences s = 0).
  { assert (H := count_fences_cons c s). assert (H' := count_fences_nonneg s). lia. }
  change (String c s ++ ?x) with (String c (s ++ x)). rewrite close_fence_step, (IH Hs').
  change (newline ++ FENCE) with (String nl FENCE). cbn [strip_prefix].
  change (newline ++ FENCE ++ post) with (String nl (FENCE ++ post)).
  rewrite strip_fence_none by done. by case_bool_decide.
Qed.

(** ** The blank run of a text in parts *)
Lemma blank_end_empty s : space_suffixes s = [s] -> is_blank s = true -> s = "".
Proof. unfold is_blank, skip_space. intros ->. by rewrite bool_decide_eq_true. Qed.

Lemma suffixes_blank_app g t : is_blank g = true ->
  exists l, space_suffixes (g ++ t) = (l ++ space_suffixes t)%list.
Proof.
  induction g as [w g Hw IH|g Hg] using blank_ind.
  - rewrite is_blank_run by done. intros (l & Hl)%IH. rewrite str_app_assoc, white_suffixes by done.
    rewrite Hl. by eexists (_ :: l).
  - intros ->%(blank_end_empty _ Hg). by exists [].
Qed.

Lemma suffixes_text_app s t : is_blank s = false ->
  space_suffixes (s ++ String nl t) = (fun x => x ++ String nl t) <$> space_suffixes s.
Proof.
  induction s as [w s Hw IH|s Hs] using blank_ind.
  - rewrite is_blank_run by done. intros Hb. rewrite str_app_assoc, (white_suffixes w (s ++ _)), (white_suffixes w s) by done.
    rewrite (IH Hb), fmap_cons. by rewrite str_app_assoc.
  - intros Hb. assert (s <> "") by (intros ->; done). rewrite Hs. clear Hb.
    change ((fun x => x ++ String nl t) <$> [s]) with [s ++ String nl t].
    destruct s as [|a [|b [|c s]]]; [done|..]; cbn -[is_space is_space2 is_space3 nl] in Hs |- *;
      destruct (is_space a); try done.
    + replace (is_space2 a nl) with false by (unfold is_space2; rewrite code_nl; lia).
      destruct t as [|c t]; [done|]. by replace (is_space3 a nl c) with false by (unfold is_space3; rewrite code_nl; lia).
    + destruct (is_space2 a b); [done|].
      by replace (is_space3 a b nl) with false by (unfold is_space3; rewrite code_nl; lia).
    + destruct (is_space2 a b); [done|]. by destruct (is_space3 a b c), s.
Qed.

(** Each suffix of a blank run starts its own. *)
Lemma suffixes_at s : forall l1 x l2, space_suffixes s = (l1 ++ x :: l2)%list -> x :: l2 = space_suffixes x.
Proof.
  induction s as [w t Hw IH|s Hs] using blank_ind; intros l1 x l2.
  - intros H. assert (H' := H). rewrite white_suffixes in H by done.
    destruct l1 as [|y l1]; injection H as ? H; [subst x; by rewrite white_suffixes, H by done|].
    by eapply IH.
  - rewrite Hs. destruct l1 as [|y [|??]]; [|done|done]. intros [= <- <-]. by rewrite Hs.
Qed.

(** The first line is not blank. *)
Definition first_line_text (s : string) : Prop := forall w x, s = w ++ newline ++ x -> is_blank w = false.

Lemma first_line_suffixes s :
  first_line_text s <-> Forall (fun x => strip_prefix newline x = None) (space_suffixes s).
Proof.
  rewrite Forall_forall. split.
  - intros H x (w & -> & Hw & _)%space_suffix_spec.
    destruct (strip_prefix newline x) as [y|] eqn:Hy; [|done]. apply strip_prefix_spec in Hy as ->.
    specialize (H w y eq_refl). congruence.
  - intros H w x ->. destruct (is_blank w) eqn:Hw; [|done].
    destruct (suffixes_blank_app w (newline ++ x) Hw) as (l & Hl).
    specialize (H (newline ++ x)). rewrite Hl in H. rewrite (proj2 (strip_prefix_spec newline _ x)) in H by done.
    discriminate H. rewrite elem_of_app, white_suffixes by done. right. left.
Qed.

(** ** What the regular expression matches *)
Lemma after_newline_source s post :
  is_blank post = true -> count_fences s = 0 ->
  after_newline (newline ++ s ++ newline ++ FENCE ++ post) = Some s.
Proof.
  intros Hp Hs. unfold after_newline. rewrite (proj2 (strip_prefix_spec newline _ (s ++ newline ++ FENCE ++ post))) by done.
  by apply close_fence_source.
Qed.

Lemma fence_tail post : newline ++ FENCE ++ post = String nl (FENCE ++ post).
Proof. reflexivity. Qed.

(** The greedy gap leaves no blank line in front of the source. *)
Lemma match_fence_first_line text src :
  is_blank src = false -> match_fence text = Some src -> first_line_text src.
Proof.
  intros Hb Hm. apply first_line_suffixes. unfold match_fence in Hm.
  destruct (strip_prefix FENCE _) as [[|c rest]|]; [done| |done].
  destruct (_ || _); [|done]. apply first_some_split in Hm as (l1 & x & l2 & Hl & Hnone & Hx).
  apply (f_equal (@rev _)) in Hl. rewrite rev_involutive, rev_app_distr in Hl. cbn [rev] in Hl.
  rewrite <- app_assoc in Hl. cbn [app] in Hl. apply suffixes_at in Hl.
  unfold after_newline in Hx. destruct (strip_prefix newline x) as [y|] eqn:Hy; [|done].
  apply strip_prefix_spec in Hy as ->. apply close_fence_spec in Hx as (post & -> & Hp).
  rewrite (white_suffixes newline) in Hl by done. apply (f_equal (@tail _)) in Hl. cbn [tail] in Hl.
  rewrite (fence_tail post), suffixes_text_app in Hl by done.
  apply Forall_forall. intros x Hx. destruct (strip_prefix newline x) as [y|] eqn:Hy; [|done]. exfalso.
  apply strip_prefix_spec in Hy as ->. rewrite Forall_forall in Hnone.
  assert (Hin : (newline ++ y) ++ String nl (FENCE ++ post) ∈ l1).
  { apply list_elem_of_In, in_rev, list_elem_of_In. rewrite Hl. by apply (list_elem_of_fmap_2 (fun x => x ++ _)). }
  specialize (Hnone _ Hin). unfold after_newline in Hnone.
  rewrite (proj2 (strip_prefix_spec newline _ (y ++ newline ++ FENCE ++ post))) in Hnone by done.
  by apply close_fence_total in Hnone.
Qed.

Lemma skip_space_blank p t : is_blank p = true -> skip_space (p ++ t) = skip_space t.
Proof.
  induction p as [w p Hw IH|p Hp] using blank_ind.
  - rewrite is_blank_run by done. intros Hb. rewrite str_app_assoc, skip_space_run by done. by apply IH.
  - by intros ->%(blank_end_empty _ Hp).
Qed.

Lemma suffix_nonempty s x : is_blank s = false -> x ∈ space_suffixes s -> x <> "".
Proof.
  intros Hb (w & -> & Hw & _)%space_suffix_spec ->. revert Hb. unfold is_blank.
  rewrite skip_space_blank by done. done.
Qed.

Lemma match_fence_complete text src :
  count_fences src = 0 -> is_blank src = false -> fenced text src -> first_line_text src ->
  match_fence text = Some src.
Proof.
  intros Hs Hb (pre & tag & gap & post & -> & Htag & Hpre & Hgap & Hpost) Hline%first_line_suffixes.
  set (rest := gap ++ newline ++ src ++ newline ++ FENCE ++ post).
  unfold match_fence. rewrite skip_space_blank by done.
  change (skip_space (FENCE ++ tag ++ rest)) with (FENCE ++ tag ++ rest).
  rewrite (proj2 (strip_prefix_spec FENCE _ (tag ++ rest))) by done.
  assert (Hfirst : first_some after_newline (rev (space_suffixes rest)) = Some src); [|by destruct Htag as [->| ->]].
  apply first_some_split. destruct (suffixes_blank_app gap (newline ++ src ++ newline ++ FENCE ++ post) Hgap) as (l & Hl).
  fold rest in Hl. rewrite (white_suffixes newline) in Hl by done.
  rewrite (fence_tail post), suffixes_text_app in Hl by done. rewrite Hl, rev_app_distr. cbn [rev]. rewrite <- app_assoc.
  eexists _, _, _. split; [reflexivity|]. split; [|by apply after_newline_source].
  apply Forall_forall. intros x Hx. apply list_elem_of_In, in_rev, list_elem_of_In in Hx.
  apply list_elem_of_fmap in Hx as (y & -> & Hy).
  rewrite Forall_forall in Hline. assert (Hne := suffix_nonempty _ _ Hb Hy). specialize (Hline y Hy). unfold after_newline.
  destruct y as [|c y]; [done|]. cbn in Hline. cbn. by destruct (bool_decide _).
Qed.

(** ** The candidate source *)
(** What may be handed to the compiler as it is. *)
Definition plain_source (s : string) : Prop :=
  utf8_ok false s = true /\ has_nul s = false /\ is_blank s = false /\ forall a b, s <> a ++ FENCE ++ b.

Lemma no_fence_iff s : count_fences s = 0 <-> forall a b, s <> a ++ FENCE ++ b.
Proof.
  split; [intros; by apply no_fence|].
  induction s as [|c s IH]; [done|]. intros H. rewrite count_fences_step.
  destruct (strip_prefix FENCE (String c s)) as [rest|] eqn:He.
  - apply strip_prefix_spec in He. by destruct (H "" rest).
  - apply IH. intros a b ->. by apply (H (String c a) b).
Qed.

Lemma fenced_parts raw src : fenced raw src ->
  (utf8_ok false raw = true -> utf8_ok false src = true) /\ (has_nul raw = false -> has_nul src = false)
  /\ 2 + count_fences src <= count_fences raw.
Proof.
  intros (pre & tag & gap & post & -> & Htag & _). split_and!.
  - change (FENCE ++ ?x) with (String tick ("``" ++ x)) at 1. rewrite utf8_ok_cut by done.
    rewrite andb_true_iff. intros [_ H]. change ("``" ++ ?x) with (String tick (String tick x)) in H.
    assert (H' : utf8_ok false (gap ++ String nl (src ++ String nl (FENCE ++ post))) = true) by (by destruct Htag as [->| ->]).
    rewrite !utf8_ok_cut in H' by done. rewrite !andb_true_iff in H'. tauto.
  - unfold has_nul. rewrite !str_forall_app, !negb_false_iff, !andb_true_iff. tauto.
  - pose proof count_fences_nonneg as Hn.
    assert (H1 := count_fences_app pre (FENCE ++ tag ++ gap ++ newline ++ src ++ newline ++ FENCE ++ post)).
    assert (H2 := count_fences_app FENCE (tag ++ gap ++ newline ++ src ++ newline ++ FENCE ++ post)).
    assert (H3 := count_fences_app tag (gap ++ newline ++ src ++ newline ++ FENCE ++ post)).
    assert (H4 := count_fences_app gap (newline ++ src ++ newline ++ FENCE ++ post)).
    assert (H5 := count_fences_app newline (src ++ newline ++ FENCE ++ post)).
    assert (H6 := count_fences_app src (newline ++ FENCE ++ post)).
    assert (H7 := count_fences_app newline (FENCE ++ post)).
    assert (H8 := count_fences_app FENCE post). change (count_fences FENCE) with 1 in *.
    assert (Ha := Hn pre). assert (Hb := Hn tag). assert (Hc := Hn gap). assert (Hd := Hn post).
    change (count_fences newline) with 0 in *. lia.
Qed.

(** C40. Extraction never repairs: with a response within the byte limit, [out] is
    extracted if and only if it is acceptable as plain C - strict UTF-8, no NUL, not
    blank, no fence inside - and the response is [out] byte for byte, or, where fences
    are allowed, [out] in one isolated C fence with only white space around it, the
    source starting at its first line that is not blank.  So the extracted source is
    unique and extracting it again changes nothing. *)
Theorem extraction_exact raw max_bytes allow_fence out :
  Z.of_nat (String.length raw) <= max_bytes ->
  extract_c_source raw max_bytes allow_fence = Ok out <->
  utf8_ok false raw = true /\ has_nul raw = false /\ plain_source out
  /\ (raw = out \/ allow_fence = true /\ fenced raw out /\ count_fences raw = 2 /\ first_line_text out).
Proof.
  intros Hlen. unfold extract_c_source, decode_utf8.
  replace (max_bytes <? _) with false by lia.
  destruct (utf8_ok false raw) eqn:Hu; [|by split; [|intros [? _]]].
  destruct (has_nul raw) eqn:Hnul; [by split; [|intros (_ & ? & _)]|].
  destruct (Z.eqb_spec (count_fences raw) 0) as [H0|H0].
  - destruct (is_blank raw) eqn:Hb.
    + split; [done|]. intros (_ & _ & (_ & _ & Hb' & _) & [->|(_ & _ & ? & _)]); [congruence|lia].
    + split.
      * intros [= <-]. split_and!; [done|done| |by left]. split_and!; [done|done|done|]. by apply no_fence_iff.
      * intros (_ & _ & _ & [->|(_ & _ & ? & _)]); [done|lia].
  - destruct allow_fence; cbn [negb].
    2: { split; [done|]. intros (_ & _ & (_ & _ & _ & Hf) & [->|(? & _)]); [|done]. by apply no_fence_iff in Hf. }
    destruct (Z.eqb_spec (count_fences raw) 2) as [H2|H2]; cbn [negb].
    2: { split; [done|]. intros (_ & _ & (_ & _ & _ & Hf) & [->|(_ & _ & ? & _)]); [|done]. by apply no_fence_iff in Hf. }
    split.
    + destruct (match_fence raw) as [src|] eqn:Hm; [|done]. destruct (is_blank src) eqn:Hb; [done|]. intros [= <-].
      assert (Hf := match_fence_fenced _ _ Hm). destruct (fenced_parts _ _ Hf) as (Hsu & Hsn & Hc).
      assert (Hn := count_fences_nonneg src).
      split_and!; [done|done| |right; split_and!; [done..|by eapply match_fence_first_line]].
      split_and!; [auto|auto|done|]. apply no_fence_iff. lia.
    + intros (_ & _ & (_ & _ & Hb & Hf) & [->|(_ & Hfe & _ & Hl)]); [by apply no_fence_iff in Hf|].
      rewrite (match_fence_complete _ _ (proj2 (no_fence_iff _) Hf) Hb Hfe Hl). by rewrite Hb.
Qed.

Lemma extraction_exact_witness :
  extract_c_source (lf ++ "```c " ++ lf ++ lf ++ " int x;" ++ lf ++ "```" ++ lf) 100 true = Ok " int x;"
  /\ fenced (lf ++ "```c " ++ lf ++ lf ++ " int x;" ++ lf ++ "```" ++ lf) " int x;".
Proof.
  assert (H : extract_c_source (lf ++ "```c " ++ lf ++ lf ++ " int x;" ++ lf ++ "```" ++ lf) 100 true = Ok " int x;")
    by (vm_compute; reflexivity).
  split; [exact H|].
  apply extraction_exact in H; [|vm_compute; discriminate].
  destruct H as (_ & _ & _ & [H|(_ & H & _)]); [discriminate H|exact H].
Defined.

End Submission.
