(* ===== verification/Worker.v ===== *)
(** * The capability-only worker
      ([src/bpe/capabilities.py], [src/bpe/worker_protocol.py], [src/bpe/worker_cli.py])

    The probe, the request handler, the one-frame server and the host-side
    acceptance of its output.  The host facts the probe reads are the record [Host].
    Standard streams are values: what [readline] returns (or that it raised), and
    whether writing and flushing standard output succeeds.  Redirecting a failed
    descriptor to the null device has no effect on the values modelled.  CPython's
    recursion limit is not modelled: JSON nested deeper than the limit is refused by
    the complexity check instead, with the same error code. *)
From Stdlib Require Import ZArith String Ascii Lia.
From stdpp Require Import base tactics list strings.
From S2P Require Import Prelude Floats Sha256 Json Models Text.
Local Open Scope string_scope.
Local Open Scope Z_scope.

Module Worker.
Import Sha256 Json Models Text.

(** ** Capabilities *)
Record WorkerCapabilities := {
  wc_platform : string;
  wc_architecture : string;
  wc_kernel_release : string;
  wc_clang_path : option string;
  wc_bpftool_path : option string;
  wc_btf_available : bool;
  wc_compiler_prerequisites_present : bool;
  wc_loader_prerequisites_present : bool;
  wc_reasons : list string
}.

#[export] Instance WorkerCapabilities_eq_dec : EqDecision WorkerCapabilities.
Proof. solve_decision. Defined.

(** A [str] with length bounds; pydantic refuses lone surrogates in it. *)
Definition text_between (lo hi : Z) (s : string) : bool := len_between lo hi s && negb (has_surrogate s).

Definition WorkerCapabilities_ok (c : WorkerCapabilities) : bool :=
  text_between 1 64 (wc_platform c) && text_between 1 64 (wc_architecture c)
  && text_between 1 256 (wc_kernel_release c)
  && opt_ok (text_between 1 4096) (wc_clang_path c) && opt_ok (text_between 1 4096) (wc_bpftool_path c)
  && (Z.of_nat (length (wc_reasons c)) <=? 32) && forallb (text_between 1 512) (wc_reasons c).

Definition WorkerCapabilities_json (c : WorkerCapabilities) : json :=
  JObj [("schema_version", JStr "bpe.worker-capabilities.v1"); ("platform", JStr (wc_platform c));
        ("architecture", JStr (wc_architecture c)); ("kernel_release", JStr (wc_kernel_release c));
        ("clang_path", jopt JStr (wc_clang_path c)); ("bpftool_path", jopt JStr (wc_bpftool_path c));
        ("btf_available", JBool (wc_btf_available c));
        ("compiler_prerequisites_present", JBool (wc_compiler_prerequisites_present c));
        ("loader_prerequisites_present", JBool (wc_loader_prerequisites_present c));
        ("worker_execution_implemented", JBool false); ("can_compile_bpf", JBool false);
        ("can_load_bpf", JBool false); ("official_benchmark_eligible", JBool false);
        ("reasons", JArr (map JStr (wc_reasons c)))].

(** What [probe_capabilities] reads of the host. *)
Record Host := {
  host_system : string;      (* [platform.system().lower()] *)
  host_machine : string;
  host_release : string;
  host_clang : option string;
  host_bpftool : option string;
  host_btf_file : bool
}.

Definition PHASE_0_REASON : string :=
  "the Phase 0 worker reports host prerequisites only; candidate compilation and "
  ++ "loading are not implemented".
Definition NATIVE_REASON : string :=
  "native loader prerequisites are present, but native runs would be nonofficial diagnostics only".

(** Truth of an optional string. *)
Definition truthy (o : option string) : bool := match o with Some s => negb (bool_decide (s = "")) | None => false end.

(** [probe_capabilities]; the constructor validates. *)
Definition probe_capabilities (h : Host) : result string WorkerCapabilities :=
  let linux := bool_decide (host_system h = "linux") in
  let clang := negb (is_none (host_clang h)) in
  let bpftool := negb (is_none (host_bpftool h)) in
  let btf_available := linux && host_btf_file h in
  let compiler_prerequisites := linux && clang in
  let loader_prerequisites := linux && bpftool && btf_available in
  let reasons :=
    ([PHASE_0_REASON]
     ++ (if negb linux then ["the Linux kernel verifier is unavailable on this host"] else [])
     ++ (if negb (truthy (host_clang h)) then ["the pinned Clang 18 entrypoint was not found"] else [])
     ++ (if negb (truthy (host_bpftool h)) then ["bpftool was not found"] else [])
     ++ (if linux && negb btf_available then ["kernel BTF is unavailable"] else [])
     ++ (if loader_prerequisites
         then [NATIVE_REASON] else []))%list in
  construct (fun c => check_field "capabilities" (WorkerCapabilities_ok c) ;; Ok tt)
    {| wc_platform := host_system h; wc_architecture := host_machine h; wc_kernel_release := host_release h;
       wc_clang_path := host_clang h; wc_bpftool_path := host_bpftool h; wc_btf_available := btf_available;
       wc_compiler_prerequisites_present := compiler_prerequisites;
       wc_loader_prerequisites_present := loader_prerequisites; wc_reasons := reasons |}.

(** ** Requests and responses *)
Inductive WorkerProtocolErrorCode :=
| INVALID_REQUEST | UNSUPPORTED_METHOD | CAPABILITY_PROBE_FAILED | INVALID_ENCODING
| INVALID_FRAME | INVALID_JSON | FRAME_TOO_LARGE | INTERNAL_ERROR.

#[export] Instance WorkerProtocolErrorCode_eq_dec : EqDecision WorkerProtocolErrorCode.
Proof. solve_decision. Defined.

Definition ERROR_CODES : list (string * WorkerProtocolErrorCode) :=
  [("invalid_request", INVALID_REQUEST); ("unsupported_method", UNSUPPORTED_METHOD);
   ("capability_probe_failed", CAPABILITY_PROBE_FAILED); ("invalid_encoding", INVALID_ENCODING);
   ("invalid_frame", INVALID_FRAME); ("invalid_json", INVALID_JSON);
   ("frame_too_large", FRAME_TOO_LARGE); ("internal_error", INTERNAL_ERROR)].

Definition code_value (c : WorkerProtocolErrorCode) : string :=
  match c with
  | INVALID_REQUEST => "invalid_request" | UNSUPPORTED_METHOD => "unsupported_method"
  | CAPABILITY_PROBE_FAILED => "capability_probe_failed" | INVALID_ENCODING => "invalid_encoding"
  | INVALID_FRAME => "invalid_frame" | INVALID_JSON => "invalid_json"
  | FRAME_TOO_LARGE => "frame_too_large" | INTERNAL_ERROR => "internal_error"
  end.

(** [CapabilitiesRequest]: its one free field. *)
Record CapabilitiesRequest := { cr_request_id : string }.

Definition CapabilitiesRequest_json (r : CapabilitiesRequest) : json :=
  JObj [("schema_version", JStr "bpe.worker-request.v1"); ("request_id", JStr (cr_request_id r));
        ("method", JStr "capabilities")].

Record WorkerProtocolError := { we_code : WorkerProtocolErrorCode; we_message : string }.

Inductive WorkerResponse :=
| CapabilitiesSuccessResponse (request_id request_sha256 : string) (capabilities : WorkerCapabilities)
| WorkerErrorResponse (request_id request_sha256 : option string) (error : WorkerProtocolError).

#[export] Instance WorkerProtocolError_eq_dec : EqDecision WorkerProtocolError.
Proof. solve_decision. Defined.
#[export] Instance WorkerResponse_eq_dec : EqDecision WorkerResponse.
Proof. solve_decision. Defined.

Definition WorkerResponse_json (r : WorkerResponse) : json :=
  match r with
  | CapabilitiesSuccessResponse id sha c =>
      JObj [("schema_version", JStr "bpe.worker-response.v1"); ("request_id", JStr id);
            ("request_sha256", JStr sha); ("status", JStr "success");
            ("capabilities", WorkerCapabilities_json c)]
  | WorkerErrorResponse id sha e =>
      JObj [("schema_version", JStr "bpe.worker-response.v1"); ("request_id", jopt JStr id);
            ("request_sha256", jopt JStr sha); ("status", JStr "error");
            ("error", JObj [("code", JStr (code_value (we_code e))); ("message", JStr (we_message e))])]
  end.

(** [WorkerProtocolError] with [message_must_be_single_line] *)
Definition single_line (s : string) : bool := str_forall (fun c => (32 <=? code c) && negb (code c =? 127)) s.
Definition WorkerProtocolError_ok (e : WorkerProtocolError) : bool :=
  text_between 1 512 (we_message e) && single_line (we_message e).

Definition WorkerResponse_ok (r : WorkerResponse) : bool :=
  match r with
  | CapabilitiesSuccessResponse id sha c => is_stable_id id && is_sha256 sha && WorkerCapabilities_ok c
  | WorkerErrorResponse id sha e =>
      opt_ok is_stable_id id && opt_ok is_sha256 sha && WorkerProtocolError_ok e
  end.

(** ** Validating untyped data in strict mode *)
Definition as_str (p : string -> bool) (v : json) : option string :=
  match v with JStr s => if p s then Some s else None | _ => None end.
Definition as_literal (s : string) (v : json) : option unit :=
  match v with JStr t => if bool_decide (t = s) then Some tt else None | _ => None end.
Definition as_bool (v : json) : option bool := match v with JBool b => Some b | _ => None end.
Definition as_false (v : json) : option unit := match v with JBool false => Some tt | _ => None end.
(** [T | None] *)
Definition as_optional {A} (f : json -> option A) (v : json) : option (option A) :=
  match v with JNull => Some None | _ => Some <$> f v end.

(** A dict with exactly the keys of the model: every field required, extra forbidden. *)
Definition as_object (keys : list string) (v : json) : option (string -> json) :=
  match v with
  | JObj kvs =>
      if same_set kvs.*1 keys then Some (fun k => default JNull (dict_get kvs k)) else None
  | _ => None
  end.

Definition REQUEST_KEYS : list string := ["schema_version"; "request_id"; "method"].

(** [CapabilitiesRequest.model_validate(value, strict=True)] *)
Definition CapabilitiesRequest_of (v : json) : option CapabilitiesRequest :=
  field ← as_object REQUEST_KEYS v;
  _ ← as_literal "bpe.worker-request.v1" (field "schema_version");
  id ← as_str is_stable_id (field "request_id");
  _ ← as_literal "capabilities" (field "method");
  Some {| cr_request_id := id |}.

(** [_has_unsupported_method] over [_UnknownMethodRequest] *)
Definition has_unsupported_method (v : json) : bool :=
  match (field ← as_object REQUEST_KEYS v;
         _ ← as_literal "bpe.worker-request.v1" (field "schema_version");
         _ ← as_str is_stable_id (field "request_id");
         as_str is_stable_id (field "method")) with
  | Some m => negb (bool_decide (m = "capabilities"))
  | None => false
  end.

Definition CAPABILITY_KEYS : list string :=
  ["schema_version"; "platform"; "architecture"; "kernel_release"; "clang_path"; "bpftool_path";
   "btf_available"; "compiler_prerequisites_present"; "loader_prerequisites_present";
   "worker_execution_implemented"; "can_compile_bpf"; "can_load_bpf"; "official_benchmark_eligible";
   "reasons"].

(** [WorkerCapabilities] from a dict; [json_reasons_are_frozen] accepts a list. *)
Definition WorkerCapabilities_of (v : json) : option WorkerCapabilities :=
  field ← as_object CAPABILITY_KEYS v;
  _ ← as_literal "bpe.worker-capabilities.v1" (field "schema_version");
  platform ← as_str (text_between 1 64) (field "platform");
  architecture ← as_str (text_between 1 64) (field "architecture");
  release ← as_str (text_between 1 256) (field "kernel_release");
  clang ← as_optional (as_str (text_between 1 4096)) (field "clang_path");
  bpftool ← as_optional (as_str (text_between 1 4096)) (field "bpftool_path");
  btf ← as_bool (field "btf_available");
  compiler ← as_bool (field "compiler_prerequisites_present");
  loader ← as_bool (field "loader_prerequisites_present");
  _ ← as_false (field "worker_execution_implemented");
  _ ← as_false (field "can_compile_bpf");
  _ ← as_false (field "can_load_bpf");
  _ ← as_false (field "official_benchmark_eligible");
  reasons ← (match field "reasons" with JArr l => mapM (as_str (text_between 1 512)) l | _ => None end);
  if Z.of_nat (length reasons) <=? 32 then
    Some {| wc_platform := platform; wc_architecture := architecture; wc_kernel_release := release;
            wc_clang_path := clang; wc_bpftool_path := bpftool; wc_btf_available := btf;
            wc_compiler_prerequisites_present := compiler; wc_loader_prerequisites_present := loader;
            wc_reasons := reasons |}
  else None.

(** [WorkerProtocolError] with [parse_known_code] *)
Definition WorkerProtocolError_of (v : json) : option WorkerProtocolError :=
  field ← as_object ["code"; "message"] v;
  name ← as_str (fun _ => true) (field "code");
  code ← dict_get ERROR_CODES name;
  message ← as_str (fun s => text_between 1 512 s && single_line s) (field "message");
  Some {| we_code := code; we_message := message |}.

Definition SUCCESS_KEYS : list string :=
  ["schema_version"; "request_id"; "request_sha256"; "status"; "capabilities"].
Definition ERROR_KEYS : list string :=
  ["schema_version"; "request_id"; "request_sha256"; "status"; "error"].

(** [validate_worker_response]: the union discriminated by [status] *)
Definition validate_worker_response (v : json) : option WorkerResponse :=
  match v with
  | JObj kvs =>
      match dict_get kvs "status" with
      | Some (JStr status) =>
          if bool_decide (status = "success") then
            field ← as_object SUCCESS_KEYS v;
            _ ← as_literal "bpe.worker-response.v1" (field "schema_version");
            id ← as_str is_stable_id (field "request_id");
            sha ← as_str is_sha256 (field "request_sha256");
            capabilities ← WorkerCapabilities_of (field "capabilities");
            Some (CapabilitiesSuccessResponse id sha capabilities)
          else if bool_decide (status = "error") then
            field ← as_object ERROR_KEYS v;
            _ ← as_literal "bpe.worker-response.v1" (field "schema_version");
            id ← as_optional (as_str is_stable_id) (field "request_id");
            sha ← as_optional (as_str is_sha256) (field "request_sha256");
            error ← WorkerProtocolError_of (field "error");
            Some (WorkerErrorResponse id sha error)
          else None
      | _ => None
      end
  | _ => None
  end.

(** ** The request handler *)

(** [_safe_request_id] *)
Definition safe_request_id (v : json) : option string :=
  match v with
  | JObj kvs => as_str is_stable_id (default JNull (dict_get kvs "request_id"))
  | _ => None
  end.

(** [_safe_request_sha256] *)
Definition safe_request_sha256 (v : json) : option string :=
  match sha256_json v with Ok h => Some h | Err _ => None end.

Definition error_response (id sha : option string) (c : WorkerProtocolErrorCode) (message : string) :
    WorkerResponse :=
  WorkerErrorResponse id sha {| we_code := c; we_message := message |}.

(** [handle_worker_request] with the capabilities left to the probe. *)
Definition handle_worker_request (h : Host) (v : json) : result string WorkerResponse :=
  let request_id := safe_request_id v in
  let request_sha256 := safe_request_sha256 v in
  match CapabilitiesRequest_of v with
  | None =>
      Ok (if has_unsupported_method v then
            error_response request_id request_sha256 UNSUPPORTED_METHOD
              "only the capabilities method is available in Phase 0"
          else
            error_response request_id request_sha256 INVALID_REQUEST
              "request does not match the Phase 0 capability protocol")
  | Some request =>
      let* sha := match request_sha256 with
                  | Some sha => Ok sha
                  | None => sha256_json (CapabilitiesRequest_json request)
                  end in
      Ok (match probe_capabilities h with
          | Ok c => CapabilitiesSuccessResponse (cr_request_id request) sha c
          | Err _ =>
              error_response (Some (cr_request_id request)) (Some sha) CAPABILITY_PROBE_FAILED
                "the worker capability probe did not produce a valid snapshot"
          end)
  end.

(** ** The one-frame server *)
Definition MAX_REQUEST_BYTES : Z := 16 * 1024.
Definition MAX_RESPONSE_BYTES : Z := 32 * 1024.
Definition MAX_JSON_DEPTH : Z := 32.
Definition MAX_JSON_NODES : Z := 4096.

Definition EXIT_OK : Z := 0.
Definition EXIT_PROTOCOL_ERROR : Z := 2.
Definition EXIT_INTERNAL_ERROR : Z := 3.
Definition EXIT_IO_ERROR : Z := 4.

(** [_FrameFailure]: the code and the message. *)
Definition FrameFailure : Type := WorkerProtocolErrorCode * string.

Definition COMPLEXITY : FrameFailure := (INVALID_JSON, "request JSON exceeds the structural complexity limit").
Definition SURROGATE : FrameFailure :=
  (INVALID_JSON, "request JSON strings must contain only Unicode scalar values").
Definition TOO_LARGE : FrameFailure := (FRAME_TOO_LARGE, "request frame exceeds the 16384-byte limit").

(** [_validate_json_string] *)
Definition validate_json_string (s : string) : result FrameFailure unit :=
  raise SURROGATE when has_surrogate s ;; Ok tt.

(** The loop of [_validate_json_complexity]; the top of the stack is the head of the
    list, so children are pushed in reverse. *)
Fixpoint walk_json (fuel : nat) (stack : list (json * Z)) (nodes : Z) : option (result FrameFailure unit) :=
  match fuel with
  | O => None
  | S fuel =>
      match stack with
      | [] => Some (Ok tt)
      | (current, depth) :: stack =>
          let nodes := nodes + 1 in
          if (MAX_JSON_DEPTH <? depth) || (MAX_JSON_NODES <? nodes) then Some (Err COMPLEXITY)
          else
            match current with
            | JObj kvs =>
                match for_each (fun kv => validate_json_string kv.1) kvs with
                | Ok _ => walk_json fuel (rev ((fun kv => (kv.2, depth + 1)) <$> kvs) ++ stack)%list nodes
                | Err e => Some (Err e)
                end
            | JArr l => walk_json fuel (rev ((fun v => (v, depth + 1)) <$> l) ++ stack)%list nodes
            | JStr s =>
                match validate_json_string s with
                | Ok _ => walk_json fuel stack nodes
                | Err e => Some (Err e)
                end
            | _ => walk_json fuel stack nodes
            end
      end
  end.

(** [_validate_json_complexity]; the node limit is reached after at most 4097 pops. *)
Definition validate_json_complexity (v : json) : result FrameFailure unit :=
  default (Err COMPLEXITY) (walk_json (Z.to_nat (MAX_JSON_NODES + 2)) [(v, 0)] 0).

Fixpoint ends_with (c : Z) (s : string) : bool :=
  match s with
  | EmptyString => false
  | String a EmptyString => code a =? c
  | String _ s => ends_with c s
  end.
Fixpoint count_char (c : Z) (s : string) : Z :=
  match s with
  | EmptyString => 0
  | String a s => (if code a =? c then 1 else 0) + count_char c s
  end.
(** [raw[:-1]] *)
Fixpoint drop_last (s : string) : string :=
  match s with
  | EmptyString => EmptyString
  | String _ EmptyString => EmptyString
  | String a s => String a (drop_last s)
  end.

Definition blen (s : string) : Z := Z.of_nat (String.length s).

(** The part of [_read_frame] after [stdin.readline] returned [raw]; [None] is end of
    file. *)
Definition read_frame (raw : string) : result FrameFailure (option json) :=
  if bool_decide (raw = "") then Ok None
  else
  raise TOO_LARGE when MAX_REQUEST_BYTES + 1 <? blen raw ;;
  raise (if MAX_REQUEST_BYTES <? blen raw then TOO_LARGE
         else (INVALID_FRAME, "request frame must end with one LF byte"))
    when negb (ends_with 10 raw) ;;
  let payload := drop_last raw in
  raise TOO_LARGE when MAX_REQUEST_BYTES <? blen payload ;;
  raise (INVALID_FRAME, "request frame must contain JSON followed by one LF byte")
    when bool_decide (payload = "") || ends_with 13 payload ;;
  match decode_utf8 payload with
  | None => Err (INVALID_ENCODING, "request frame must be strict UTF-8")
  | Some text =>
      match strict_json_loads text with
      | Err _ => Err (INVALID_JSON, "request frame is not strict JSON")
      | Ok value => let* _ := validate_json_complexity value in Ok (Some value)
      end
  end.

(** [stdin.readline(n)]: up to and including the first line feed, at most [n] bytes. *)
Fixpoint readline (n : nat) (s : string) : string :=
  match n, s with
  | S n, String c s => if code c =? 10 then String c EmptyString else String c (readline n s)
  | _, _ => EmptyString
  end.

(** [_encode_response]; [None] is any exception. *)
Definition encode_response (r : WorkerResponse) : option string :=
  if WorkerResponse_ok r then
    match canonical_json_bytes (WorkerResponse_json r) with
    | Ok raw => if MAX_RESPONSE_BYTES <? blen raw then None else Some raw
    | Err _ => None
    end
  else None.

(** Standard output: it takes the whole response, or it fails (a write raises or is short,
    or the flush raises) after some bytes of it went out. *)
Inductive Stdout := stdout_ok | stdout_fails (after : nat).

(** [_write_response]: what reached standard output and whether all of it did. *)
Definition write_response (stdout : Stdout) (r : WorkerResponse) : option (string * bool) :=
  raw ← encode_response r;
  Some match stdout with
       | stdout_ok => (raw, true)
       | stdout_fails after => (String.substring 0 after raw, false)
       end.

Definition transport_error (c : WorkerProtocolErrorCode) (message : string) : WorkerResponse :=
  error_response None None c message.

(** [serve_one]: the exit status and the bytes written.  [stdin] is the input stream,
    [None] when reading raises. *)
Definition serve_one (h : Host) (stdin : option string) (stdout : Stdout) : Z * string :=
  let finish (r : WorkerResponse) (status : Z) (k : Z * string) :=
    match write_response stdout r with
    | None => k
    | Some (out, written) => ((if written then status else EXIT_IO_ERROR), out)
    end in
  match stdin with
  | None =>
      finish (transport_error INTERNAL_ERROR "worker transport failed before dispatch")
        EXIT_INTERNAL_ERROR (EXIT_INTERNAL_ERROR, "")
  | Some input =>
      match read_frame (readline (Z.to_nat (MAX_REQUEST_BYTES + 2)) input) with
      | Err (c, message) =>
          finish (transport_error c message) EXIT_PROTOCOL_ERROR (EXIT_INTERNAL_ERROR, "")
      | Ok None => (EXIT_OK, "")
      | Ok (Some value) =>
          let '(response, status) :=
            match handle_worker_request h value with
            | Ok r => (r, EXIT_OK)
            | Err _ => (transport_error INTERNAL_ERROR "worker request handling failed", EXIT_INTERNAL_ERROR)
            end in
          finish response status
            (finish (transport_error INTERNAL_ERROR "worker response serialization failed")
               EXIT_INTERNAL_ERROR (EXIT_INTERNAL_ERROR, ""))
      end
  end.

(** ** The host side *)

(** [validate_correlated_worker_response]; [None] is [ValidationError]. *)
Definition validate_correlated_worker_response (request : CapabilitiesRequest) (v : json) :
    result string (option WorkerResponse) :=
  match validate_worker_response v with
  | None => Ok None
  | Some response =>
      let '(id, sha) := match response with
                        | CapabilitiesSuccessResponse id sha _ => (Some id, Some sha)
                        | WorkerErrorResponse id sha _ => (id, sha)
                        end in
      let* expected := sha256_json (CapabilitiesRequest_json request) in
      raise "worker response does not bind the outstanding request"
        when negb (bool_decide (id = Some (cr_request_id request))) || negb (bool_decide (sha = Some expected)) ;;
      Ok (Some response)
  end.

(** [validate_worker_subprocess_result]: the success response, as its three fields. *)
Definition validate_worker_subprocess_result (request : CapabilitiesRequest)
    (returncode : Z) (raw stderr : string) : result string (string * string * WorkerCapabilities) :=
  raise "worker process did not exit successfully" when negb (returncode =? 0) ;;
  raise "worker process produced unexpected stderr" when negb (bool_decide (stderr = "")) ;;
  raise "worker process produced no response" when bool_decide (raw = "") ;;
  raise "worker response exceeds the fixed byte limit" when MAX_RESPONSE_BYTES <? blen raw ;;
  raise "worker stdout must contain exactly one response frame"
    when negb (ends_with 10 raw) || negb (count_char 10 raw =? 1) ;;
  match strict_json_loads_bytes raw with
  | Err _ => Err "worker response is not strict protocol JSON"
  | Ok value =>
      let* validated := validate_correlated_worker_response request value in
      match validated with
      | None => Err "worker response is not strict protocol JSON"
      | Some response =>
          match canonical_json_bytes (WorkerResponse_json response) with
          | Err _ => Err "worker response is not strict protocol JSON"
          | Ok canonical =>
              raise "worker response is not canonical protocol JSON"
                when negb (bool_decide (canonical = raw)) ;;
              match response with
              | CapabilitiesSuccessResponse id sha c => Ok (id, sha, c)
              | WorkerErrorResponse _ _ _ => Err "worker returned an error response"
              end
          end
      end
  end.

End Worker.
