(* ===== verification/WorkerFacts.v ===== *)
(** * Correctness of the worker protocol

    The iterative complexity check is the recursive measure it bounds; the host
    accepts exactly the canonical bytes of a success response that binds its request;
    the server answers every input with one valid frame, and its answer to a valid
    request is one the host accepts. *)
From Stdlib Require Import ZArith String Ascii Lia.
From stdpp Require Import base tactics list strings.
From S2P Require Import Prelude Floats Sha256 Json JsonFacts Models ModelFacts Text Worker.
Local Open Scope string_scope.
Local Open Scope Z_scope.

Module WorkerFacts.
Import Sha256 Json JsonFacts Models Text Worker.

(** ** The complexity check *)

(** The number of values, the nesting depth (a scalar or an empty container has depth
    0), and whether all text is made of scalar values. *)
Fixpoint json_nodes (v : json) : Z :=
  match v with
  | JArr l => 1 + foldr (fun w n => json_nodes w + n) 0 l
  | JObj kvs => 1 + foldr (fun kv n => json_nodes kv.2 + n) 0 kvs
  | _ => 1
  end.

Fixpoint json_depth (v : json) : Z :=
  match v with
  | JArr l => foldr (fun w n => Z.max (1 + json_depth w) n) 0 l
  | JObj kvs => foldr (fun kv n => Z.max (1 + json_depth kv.2) n) 0 kvs
  | _ => 0
  end.

Fixpoint scalar_text (v : json) : bool :=
  match v with
  | JStr s => negb (has_surrogate s)
  | JArr l => forallb scalar_text l
  | JObj kvs => forallb (fun kv => negb (has_surrogate kv.1) && scalar_text kv.2) kvs
  | _ => true
  end.

Definition stack_nodes (stack : list (json * Z)) : Z := foldr (fun vd n => json_nodes vd.1 + n) 0 stack.

Lemma stack_nodes_app a b : stack_nodes (a ++ b)%list = stack_nodes a + stack_nodes b.
Proof. unfold stack_nodes. induction a as [|x a IH]; cbn; [done|]. lia. Qed.

Lemma stack_nodes_perm a b : a ≡ₚ b -> stack_nodes a = stack_nodes b.
Proof. unfold stack_nodes. induction 1; cbn in *; lia. Qed.

Lemma json_nodes_pos v : 1 <= json_nodes v.
Proof.
  induction v as [| | | | |l IH|kvs IH] using json_ind'; cbn; try lia.
  - assert (0 <= foldr (fun w n => json_nodes w + n) 0 l); [|lia]. induction IH; cbn; lia.
  - assert (0 <= foldr (fun (kv : string * json) n => json_nodes kv.2 + n) 0 kvs); [|lia]. induction IH; cbn in *; lia.
Qed.

(** A value at a depth of the walk is within the limits. *)
Definition within_limits (vd : json * Z) : Prop :=
  vd.2 + json_depth vd.1 <= MAX_JSON_DEPTH /\ scalar_text vd.1 = true.

Definition acceptable (stack : list (json * Z)) (nodes : Z) : Prop :=
  Forall within_limits stack /\ nodes + stack_nodes stack <= MAX_JSON_NODES.

Lemma array_within l d :
  within_limits (JArr l, d) <-> d <= MAX_JSON_DEPTH /\ Forall within_limits ((fun v => (v, d + 1)) <$> l).
Proof.
  unfold within_limits. cbn [fst snd json_depth scalar_text]. induction l as [|v l IH]; cbn.
  - rewrite Z.add_0_r. split; [intros []; by split; [|constructor]|intros []; done].
  - rewrite Forall_cons, andb_true_iff. cbn. split.
    + intros [H1 [H2 H3]]. destruct (proj1 IH) as [H4 H5]; [split; [lia|done]|]. split_and!; try done; lia.
    + intros (H1 & [H2 H3] & H4). destruct (proj2 IH) as [H5 H6]; [done|]. split_and!; try done. lia.
Qed.

Lemma object_within kvs d :
  within_limits (JObj kvs, d) <->
  d <= MAX_JSON_DEPTH /\ Forall (fun kv => has_surrogate kv.1 = false) kvs
  /\ Forall within_limits ((fun kv => (kv.2, d + 1)) <$> kvs).
Proof.
  unfold within_limits. cbn [fst snd json_depth scalar_text]. induction kvs as [|[k v] l IH]; cbn.
  - rewrite Z.add_0_r. split; [intros []; by split_and!; [|constructor..]|intros (? & _); done].
  - rewrite !Forall_cons, !andb_true_iff, negb_true_iff. cbn. split.
    + intros [H1 [[H2 H3] H4]]. destruct (proj1 IH) as (H5 & H6 & H7); [split; [lia|done]|].
      split_and!; try done; lia.
    + intros (H1 & [H2 H3] & [H4 H5] & H6). destruct (proj2 IH) as [H7 H8]; [done|]. split_and!; try done. lia.
Qed.

Lemma keys_checked (kvs : list (string * json)) :
  for_each (fun kv => validate_json_string kv.1) kvs = Ok tt <-> Forall (fun kv => has_surrogate kv.1 = false) kvs.
Proof.
  rewrite for_each_ok. unfold validate_json_string. apply Forall_iff. intros [k v]. cbn.
  by destruct (has_surrogate k).
Qed.

Lemma walk_json_exact fuel : forall stack nodes,
  0 <= nodes <= MAX_JSON_NODES -> MAX_JSON_NODES + 2 - nodes <= Z.of_nat fuel ->
  exists r, walk_json fuel stack nodes = Some r /\ (r = Ok tt <-> acceptable stack nodes).
Proof.
  induction fuel as [|fuel IH]; intros stack nodes Hn Hf; [lia|]. cbn [walk_json].
  destruct stack as [|[v d] stack].
  { exists (Ok tt). split; [done|]. unfold acceptable. cbn. split; [intros _|done]. split; [constructor|lia]. }
  pose proof (json_nodes_pos v) as Hv.
  assert (Hs : 0 <= stack_nodes stack).
  { clear. induction stack as [|[w e] s IHs]; cbn; [done|]. pose proof (json_nodes_pos w). unfold stack_nodes in IHs. lia. }
  destruct ((MAX_JSON_DEPTH <? d) || (MAX_JSON_NODES <? nodes + 1)) eqn:Hlim.
  { exists (Err COMPLEXITY). split; [done|]. split; [done|]. intros [Hw Hc]. apply Forall_cons in Hw as [[Hd _] _].
    cbn in Hd, Hc. unfold stack_nodes in Hs. assert (Hdep : 0 <= json_depth v).
    { clear. destruct v as [| | | | |l|l]; cbn; try done; induction l; cbn; lia. }
    apply orb_true_iff in Hlim as [H%Z.ltb_lt|H%Z.ltb_lt]; lia. }
  apply orb_false_iff in Hlim as [Hd%Z.ltb_ge Hm%Z.ltb_ge].
  assert (Hstep : forall kids,
     json_nodes v = 1 + stack_nodes kids -> (within_limits (v, d) <-> Forall within_limits kids) ->
     exists r, walk_json fuel (rev kids ++ stack)%list (nodes + 1) = Some r
               /\ (r = Ok tt <-> acceptable ((v, d) :: stack) nodes)).
  { intros kids Hk Hw. destruct (IH (rev kids ++ stack)%list (nodes + 1)) as (r & Hr & Hiff); [lia|lia|].
    exists r. split; [done|]. rewrite Hiff. unfold acceptable.
    rewrite Forall_app, Forall_cons, stack_nodes_app, (stack_nodes_perm (rev kids) kids)
      by (symmetry; apply Permutation_rev).
    assert (Hrev : Forall within_limits (rev kids) <-> Forall within_limits kids)
      by by rewrite <-(Permutation_rev kids).
    rewrite Hrev, <-Hw. cbn [stack_nodes foldr fst]. fold (stack_nodes stack). rewrite Hk. split; intros [? ?]; split; done || lia. }
  destruct v as [| | | |s|l|kvs].
  1-4: apply (Hstep []); [done|]; unfold within_limits; cbn; split; [constructor|split; [lia|done]].
  - unfold validate_json_string. destruct (has_surrogate s) eqn:Hsur.
    + exists (Err SURROGATE). split; [done|]. split; [done|]. intros [[[_ Hw] _]%Forall_cons _]. cbn in Hw.
      by rewrite Hsur in Hw.
    + apply (Hstep []); [done|]. unfold within_limits. cbn. rewrite Hsur. split; [constructor|split; [lia|done]].
  - apply (Hstep ((fun v => (v, d + 1)) <$> l)).
    + cbn [json_nodes]. f_equal. unfold stack_nodes. by rewrite foldr_fmap.
    + rewrite array_within. tauto.
  - destruct (for_each (fun kv : string * json => validate_json_string kv.1) kvs) as [[]|e] eqn:Hk.
    + apply keys_checked in Hk. apply (Hstep ((fun kv => (kv.2, d + 1)) <$> kvs)).
      * cbn [json_nodes]. f_equal. unfold stack_nodes. by rewrite foldr_fmap.
      * rewrite object_within. tauto.
    + exists (Err e). split; [done|]. split; [done|]. intros [[Hw _]%Forall_cons _].
      apply object_within in Hw as (_ & Hw & _). apply keys_checked in Hw. congruence.
Qed.

(** The iterative complexity check terminates and is exact: the walk with its
    explicit stack never runs out of its fuel (one step per value up to the limit),
    and it accepts a value if and only if the value nests at most 32 deep, has at most
    4096 values, and holds no lone surrogate in any string or key. *)
Theorem complexity_check_exact v :
  (exists r, walk_json (Z.to_nat (MAX_JSON_NODES + 2)) [(v, 0)] 0 = Some r)
  /\ (validate_json_complexity v = Ok tt <->
      json_depth v <= MAX_JSON_DEPTH /\ json_nodes v <= MAX_JSON_NODES /\ scalar_text v = true).
Proof.
  destruct (walk_json_exact (Z.to_nat (MAX_JSON_NODES + 2)) [(v, 0)] 0) as (r & Hr & Hiff).
  { unfold MAX_JSON_NODES. lia. }
  { unfold MAX_JSON_NODES. rewrite Z2Nat.id; lia. }
  split; [by exists r|]. unfold validate_json_complexity. rewrite Hr. cbn [default]. unfold id. rewrite Hiff.
  unfold acceptable, within_limits. rewrite Forall_singleton. cbn. rewrite Z.add_0_r. tauto.
Qed.

(** ** The text of messages without numbers *)
Lemma count_char_app c a b : count_char c (a ++ b) = count_char c a + count_char c b.
Proof.
  induction a as [|x a IH]; [done|]. change (String x a ++ b) with (String x (a ++ b)).
  cbn [count_char]. rewrite IH. lia.
Qed.

Lemma escape_char_newline c : count_char 10 (escape_char c) = 0.
Proof. destruct c as [[] [] [] [] [] [] [] []]; reflexivity. Qed.

Lemma escape_newline s : count_char 10 (escape s) = 0.
Proof.
  induction s as [|c s IH]; [done|]. cbn [escape]. by rewrite count_char_app, escape_char_newline, IH.
Qed.

Lemma escape_char_ascii c : (code c <? 0x80) = true -> ascii_text (escape_char c) = true.
Proof. destruct c as [[] [] [] [] [] [] [] []]; intros H; try discriminate H; reflexivity. Qed.

Lemma escape_char_high c : (code c <? 0x80) = false -> escape_char c = char_str c.
Proof. destruct c as [[] [] [] [] [] [] [] []]; intros H; try discriminate H; reflexivity. Qed.

Lemma escape_high c s : (code c <? 0x80) = false -> escape (String c s) = String c (escape s).
Proof. intros H. cbn [escape]. by rewrite (escape_char_high c H). Qed.

Lemma cont_high c : 0x80 <= code c -> (code c <? 0x80) = false.
Proof. intros. by apply Z.ltb_ge. Qed.

Lemma is_cont_high c : is_cont c = true -> (code c <? 0x80) = false.
Proof. unfold is_cont. rewrite andb_true_iff, Z.leb_le. intros [H _]. by apply cont_high. Qed.

Lemma lead3_high f a b : lead3 f a b = true -> (code b <? 0x80) = false.
Proof.
  unfold lead3. intros H. apply cont_high. repeat case_match; rewrite ?andb_true_iff, ?Z.leb_le in H; try lia.
  destruct H as [_ H]. unfold is_cont in H. rewrite andb_true_iff, !Z.leb_le in H. lia.
Qed.

Lemma lead4_high a b : lead4 a b = true -> (code b <? 0x80) = false.
Proof.
  unfold lead4. intros H. apply cont_high. repeat case_match; rewrite ?andb_true_iff, ?Z.leb_le in H; try lia.
  destruct H as [_ H]. unfold is_cont in H. rewrite andb_true_iff, !Z.leb_le in H. lia.
Qed.

Lemma escape_utf8 f s : utf8_ok f s = true -> utf8_ok f (escape s) = true.
Proof.
  remember (String.length s) as n eqn:Hn. revert s Hn. induction n as [n IH] using lt_wf_ind.
  intros s Hn H. destruct s as [|x s1]; [done|]. cbn [String.length utf8_ok] in Hn, H.
  destruct (code x <? 0x80) eqn:Hx.
  { cbn [escape]. rewrite utf8_ok_app by by apply ascii_utf8, escape_char_ascii.
    by eapply (IH (String.length s1)); [lia|..]. }
  rewrite (escape_high x s1 Hx). cbn [utf8_ok]. rewrite Hx.
  destruct s1 as [|y s2]; [done|]. cbn [String.length] in Hn.
  destruct ((0xC2 <=? code x) && (code x <=? 0xDF)).
  { apply andb_true_iff in H as [Hy H]. rewrite escape_high by by apply is_cont_high. rewrite Hy. cbn [andb].
    by eapply (IH (String.length s2)); [lia|..]. }
  destruct s2 as [|z s3]; [done|]. cbn [String.length] in Hn. destruct (code x <? 0xF0).
  { rewrite !andb_true_iff in H. destruct H as [[Hy Hz] H].
    rewrite escape_high by by eapply lead3_high. rewrite escape_high by by apply is_cont_high.
    rewrite Hy, Hz. cbn [andb]. by eapply (IH (String.length s3)); [lia|..]. }
  destruct s3 as [|w s4]; [done|]. cbn [String.length] in Hn.
  rewrite !andb_true_iff in H. destruct H as [[[Hy Hz] Hw] H].
  rewrite escape_high by by eapply lead4_high. rewrite !escape_high by by apply is_cont_high.
  rewrite Hy, Hz, Hw. cbn [andb]. by eapply (IH (String.length s4)); [lia|..].
Qed.

(** Values without floats, all of whose strings and keys satisfy [p]. *)
Fixpoint text_only (p : string -> bool) (v : json) : bool :=
  match v with
  | JInt z => int_convertible z
  | JFloat _ => false
  | JStr s => p s
  | JArr l => forallb (text_only p) l
  | JObj kvs => forallb (fun kv => p kv.1 && text_only p kv.2) kvs
  | _ => true
  end.

(** A property of texts that holds of the encoded strings and the punctuation, and is
    closed under concatenation, holds of the encoding of such values. *)
Section Encoded.
Context (p : string -> bool) (Q : string -> Prop).
Context (Qstr : forall s, p s = true -> Q (encode_string s)) (Qapp : forall a b, Q a -> Q b -> Q (a ++ b))
        (Qlit : Forall Q [""; ","; ":"; "["; "]"; "{"; "}"; "null"; "true"; "false"])
        (Qint : forall z, Q (string_of_Z z)).

Lemma concat_closed ts : Forall Q ts -> Q (String.concat "," ts).
Proof.
  rewrite !Forall_cons in Qlit. induction 1 as [|t ts Ht Hts IH]; [apply Qlit|].
  destruct ts as [|t2 ts]; [done|]. rewrite concat_cons2. apply Qapp; [done|]. apply Qapp; [apply Qlit|done].
Qed.

Lemma dumps_closed v : text_only p v = true -> exists t, dumps v = Ok t /\ Q t.
Proof.
  pose proof Qlit as L. rewrite !Forall_cons in L. destruct L as (_ & _ & Lc & L1 & L2 & L3 & L4 & Ln & Lt & Lf & _).
  induction v as [|b|z| |s|l IH|kvs IH] using json_ind'; intros Hp; try discriminate Hp.
  - by eexists.
  - eexists. split; [reflexivity|]. by destruct b.
  - cbn in Hp |- *. rewrite Hp. eauto.
  - eexists. split; [reflexivity|]. by apply Qstr.
  - rewrite dumps_arr. cbn in Hp. assert (H : exists ts, map_result dumps l = Ok ts /\ Forall Q ts).
    { induction IH as [|v l Hv _ IHl]; [by exists []|]. cbn in Hp. apply andb_true_iff in Hp as [Hpv Hp].
      destruct (Hv Hpv) as (t & Ht & Qt), (IHl Hp) as (ts & Hts & Qts). exists (t :: ts). cbn.
      rewrite Ht, Hts. split; [done|by constructor]. }
    destruct H as (ts & -> & Qts). eexists. split; [reflexivity|].
    apply Qapp; [done|]. apply Qapp; [|done]. by apply concat_closed.
  - rewrite dumps_obj. cbn in Hp.
    assert (H : exists ts, map_result dump_member kvs = Ok ts /\ Forall (fun kt => Q (encode_member kt)) ts).
    { induction IH as [|[k v] l Hv _ IHl]; [by exists []|]. cbn in Hp. apply andb_true_iff in Hp as [Hpv Hp].
      apply andb_true_iff in Hpv as [Hk Hpv]. destruct (Hv Hpv) as (t & Ht & Qt), (IHl Hp) as (ts & Hts & Qts).
      exists ((k, t) :: ts). cbn [map_result]. unfold dump_member at 1. cbn [fst snd] in Ht |- *.
      rewrite Ht. cbn [bind_result]. rewrite Hts. split; [done|]. constructor; [|done].
      unfold encode_member. cbn [fst snd]. apply Qapp; [by apply Qstr|]. by apply Qapp. }
    destruct H as (ts & -> & Qts). eexists. split; [reflexivity|].
    apply Qapp; [done|]. apply Qapp; [|done]. apply concat_closed. rewrite (sort_kv_perm ts), Forall_fmap. done.
Qed.
End Encoded.

(** The decimal text of an integer: digits and a sign. *)
Lemma digits_ascii fuel z acc : ascii_text acc = true -> count_char 10 acc = 0 ->
  ascii_text (digits_of fuel z acc) = true /\ count_char 10 (digits_of fuel z acc) = 0.
Proof.
  revert z acc. induction fuel as [|fuel IH]; intros z acc Ha Hc; cbn [digits_of]; [done|].
  pose proof (Z.mod_pos_bound z 10 ltac:(lia)) as Hm. destruct (digit_char (z mod 10) Hm) as [Hd Hv].
  unfold is_digit in Hd. apply andb_true_iff in Hd as [Hd1%Z.leb_le Hd2%Z.leb_le].
  assert (Ha' : ascii_text (String (chr (48 + z mod 10)) acc) = true)
    by (cbn; unfold is_ascii; by rewrite (proj2 (Z.ltb_lt _ _)) by lia).
  assert (Hc' : count_char 10 (String (chr (48 + z mod 10)) acc) = 0)
    by (cbn [count_char]; by rewrite (proj2 (Z.eqb_neq _ _)) by lia).
  destruct (z / 10 =? 0); [done|by apply IH].
Qed.
Lemma string_of_Z_ascii z : ascii_text (string_of_Z z) = true /\ count_char 10 (string_of_Z z) = 0.
Proof.
  unfold string_of_Z. destruct (digits_ascii (S (Z.to_nat (Z.log2 (Z.abs z)))) (Z.abs z) "") as [Ha Hc]; [done..|].
  destruct (z <? 0); [|done]. change ("-" ++ ?s) with (String "-" s). cbn [ascii_text count_char]. by rewrite Ha, Hc.
Qed.

Lemma dumps_newline v : text_only (fun _ => true) v = true -> exists t, dumps v = Ok t /\ count_char 10 t = 0.
Proof.
  apply dumps_closed.
  - intros s _. unfold encode_string. by rewrite !count_char_app, escape_newline.
  - intros a b Ha Hb. rewrite count_char_app. lia.
  - by repeat constructor.
  - apply string_of_Z_ascii.
Qed.

Lemma dumps_utf8 f v : text_only (utf8_ok f) v = true -> exists t, dumps v = Ok t /\ utf8_ok f t = true.
Proof.
  apply dumps_closed.
  - intros s Hs. unfold encode_string. rewrite utf8_ok_app by by destruct f.
    rewrite utf8_ok_app by by apply escape_utf8. by destruct f.
  - intros a b Ha Hb. by rewrite utf8_ok_app.
  - destruct f; by repeat constructor.
  - intros z. apply ascii_utf8, string_of_Z_ascii.
Qed.

(** Strictly valid text holds no surrogate. *)
Lemma cont_no_surrogate c s : code c <> 0xED -> has_surrogate s = false -> has_surrogate (String c s) = false.
Proof.
  intros Hc Hs. destruct s as [|d s]; [done|]. cbn [has_surrogate] in *.
  rewrite (proj2 (Z.eqb_neq _ _) Hc). exact Hs.
Qed.

Lemma strict_no_surrogate s : utf8_ok false s = true -> has_surrogate s = false.
Proof.
  assert (Hcont : forall c, is_cont c = true -> code c <> 0xED).
  { intros c. unfold is_cont. rewrite andb_true_iff, !Z.leb_le. lia. }
  remember (String.length s) as n eqn:Hn. revert s Hn. induction n as [n IH] using lt_wf_ind.
  intros s Hn H. destruct s as [|x s1]; [done|]. cbn [String.length utf8_ok] in Hn, H.
  destruct (code x <? 0x80) eqn:Hx.
  { apply Z.ltb_lt in Hx. apply cont_no_surrogate; [lia|]. by eapply (IH (String.length s1)); [lia|..]. }
  destruct s1 as [|y s2]; [done|]. cbn [String.length] in Hn.
  destruct ((0xC2 <=? code x) && (code x <=? 0xDF)) eqn:H2.
  { apply andb_true_iff in H as [Hy H]. rewrite andb_true_iff, !Z.leb_le in H2.
    apply cont_no_surrogate; [lia|]. apply cont_no_surrogate; [by apply Hcont|].
    by eapply (IH (String.length s2)); [lia|..]. }
  destruct s2 as [|z s3]; [done|]. cbn [String.length] in Hn. destruct (code x <? 0xF0) eqn:H3.
  { rewrite !andb_true_iff in H. destruct H as [[Hy Hz] H].
    assert (Hrest : has_surrogate (String z s3) = false).
    { apply cont_no_surrogate; [by apply Hcont|]. by eapply (IH (String.length s3)); [lia|..]. }
    assert (Hy' : code y <> 0xED /\ (code x = 0xED -> code y < 0xA0)).
    { unfold lead3, is_cont in Hy. repeat case_match; rewrite ?andb_true_iff, ?Z.leb_le in Hy; lia. }
    cbn [has_surrogate]. replace ((code x =? 0xED) && (0xA0 <=? code y)) with false.
    - cbn [orb]. exact (cont_no_surrogate y (String z s3) (proj1 Hy') Hrest).
    - symmetry. destruct (Z.eqb_spec (code x) 0xED); [|done]. cbn. apply Z.leb_gt. tauto. }
  destruct s3 as [|w s4]; [done|]. cbn [String.length] in Hn.
  rewrite !andb_true_iff in H. destruct H as [[[Hy Hz] Hw] H]. apply Z.ltb_ge in H3.
  apply cont_no_surrogate; [lia|]. apply cont_no_surrogate.
  { unfold lead4, is_cont in Hy. repeat case_match; rewrite ?andb_true_iff, ?Z.leb_le in Hy; lia. }
  apply cont_no_surrogate; [by apply Hcont|]. apply cont_no_surrogate; [by apply Hcont|].
  by eapply (IH (String.length s4)); [lia|..].
Qed.

(** ** Reading canonical messages back *)
Lemma same_set_spec {A} `{EqDecision A} (a b : list A) : same_set a b = true <-> forall x, x ∈ a <-> x ∈ b.
Proof.
  unfold same_set. rewrite andb_true_iff, !bool_decide_eq_true, !Forall_forall. naive_solver.
Qed.

Lemma canon_members kvs : NoDup kvs.*1 ->
  exists l, canon (JObj kvs) = JObj l /\ NoDup l.*1 /\ (forall k, k ∈ l.*1 <-> k ∈ kvs.*1)
    /\ forall k v, dict_get kvs k = Some v -> dict_get l k = Some (canon v).
Proof.
  intros Hnd. set (m := map (fun kv : string * json => (kv.1, canon kv.2)) kvs).
  exists (sort_kv m). split; [reflexivity|].
  assert (Hm : m.*1 = kvs.*1) by (subst m; induction kvs as [|[k v] l IH]; cbn; [done|f_equal; apply IH; by inversion Hnd]).
  assert (Hp : sort_kv m ≡ₚ m) by apply sort_kv_perm.
  assert (Hnd' : NoDup (sort_kv m).*1) by by rewrite Hp, Hm.
  split_and!; [done|by intros k; rewrite Hp, Hm|]. intros k v Hk. apply dict_get_Some; [done|]. rewrite Hp.
  apply dict_get_In in Hk. subst m. apply list_elem_of_In, in_map_iff. exists (k, v). split; [done|by apply list_elem_of_In].
Qed.

Lemma canon_as_object kvs keys :
  NoDup kvs.*1 -> same_set kvs.*1 keys = true ->
  exists f, as_object keys (canon (JObj kvs)) = Some f
            /\ forall k v, dict_get kvs k = Some v -> f k = canon v.
Proof.
  intros Hnd Hs. destruct (canon_members kvs Hnd) as (l & -> & _ & Hk & Hget). unfold as_object.
  replace (same_set l.*1 keys) with true.
  - eexists. split; [reflexivity|]. intros k v H. cbv beta. by rewrite (Hget k v H).
  - symmetry. apply same_set_spec. intros k. rewrite Hk. by apply same_set_spec.
Qed.

Lemma as_str_ok p s : p s = true -> as_str p (JStr s) = Some s.
Proof. intros H. cbn. by rewrite H. Qed.

Lemma as_optional_ok p o : opt_ok p o = true -> as_optional (as_str p) (canon (jopt JStr o)) = Some o.
Proof. destruct o as [s|]; [|done]. cbn. by intros ->. Qed.

Lemma reasons_ok p l : forallb p l = true -> mapM (as_str p) (map canon (map JStr l)) = Some l.
Proof.
  intros H. apply mapM_Some. induction l as [|s l IH]; [constructor|].
  cbn [map forallb] in *. apply andb_true_iff in H as [Hs Hl]. constructor; [by apply as_str_ok|by apply IH].
Qed.

Ltac read_object :=
  let f := fresh "field" in let Hf := fresh "Hf" in
  match goal with |- context[as_object ?keys (canon (JObj ?kvs))] =>
    destruct (canon_as_object kvs keys) as (f & -> & Hf);
      [by apply (bool_decide_unpack _)|reflexivity|]
  end; cbn [mbind option_bind];
  repeat match goal with |- context[f ?k] => rewrite (Hf k _ eq_refl) end; clear f Hf.

Lemma capabilities_read c :
  WorkerCapabilities_ok c = true -> WorkerCapabilities_of (canon (WorkerCapabilities_json c)) = Some c.
Proof.
  unfold WorkerCapabilities_ok. rewrite !andb_true_iff.
  intros ((((((H1 & H2) & H3) & H4) & H5) & H6) & H7).
  unfold WorkerCapabilities_of, WorkerCapabilities_json. read_object.
  rewrite !(as_optional_ok (text_between 1 4096)) by done.
  cbn [canon as_literal as_bool as_false]. rewrite !as_str_ok by done.
  rewrite reasons_ok by done. cbn. rewrite H6. by destruct c.
Qed.

Lemma error_read e :
  WorkerProtocolError_ok e = true ->
  WorkerProtocolError_of (canon (JObj [("code", JStr (code_value (we_code e))); ("message", JStr (we_message e))])) = Some e.
Proof.
  intros H. unfold WorkerProtocolError_of. read_object. cbn [canon]. rewrite !as_str_ok by done.
  cbn [mbind option_bind]. destruct e as [c m]. by destruct c.
Qed.

(** The status a canonical response is discriminated by. *)
Lemma response_status r :
  exists l, canon (WorkerResponse_json r) = JObj l
    /\ dict_get l "status" = Some (JStr (match r with CapabilitiesSuccessResponse _ _ _ => "success"
                                         | WorkerErrorResponse _ _ _ => "error" end)).
Proof.
  destruct r as [id sha c|id sha e].
  - destruct (canon_members (match WorkerResponse_json (CapabilitiesSuccessResponse id sha c) with JObj k => k | _ => [] end))
      as (l & Hl & _ & _ & Hg); [by apply (bool_decide_unpack _)|]. exists l. split; [exact Hl|].
    by apply (Hg "status" (JStr "success")).
  - destruct (canon_members (match WorkerResponse_json (WorkerErrorResponse id sha e) with JObj k => k | _ => [] end))
      as (l & Hl & _ & _ & Hg); [by apply (bool_decide_unpack _)|]. exists l. split; [exact Hl|].
    by apply (Hg "status" (JStr "error")).
Qed.

Lemma response_read r :
  WorkerResponse_ok r = true -> validate_worker_response (canon (WorkerResponse_json r)) = Some r.
Proof.
  intros H. destruct (response_status r) as (l & Hl & Hs). rewrite Hl.
  unfold validate_worker_response. rewrite Hs, <-Hl. clear l Hl Hs. destruct r as [id sha c|id sha e]; cbn [WorkerResponse_ok] in H;
    [rewrite bool_decide_true by done|rewrite bool_decide_false, bool_decide_true by done].
  - rewrite !andb_true_iff in H. destruct H as [[H1 H2] H3]. cbn [WorkerResponse_json]. read_object.
    rewrite capabilities_read by done. cbn [canon as_literal]. rewrite !as_str_ok by done. done.
  - rewrite !andb_true_iff in H. destruct H as [[H1 H2] H3]. cbn [WorkerResponse_json]. read_object.
    rewrite !as_optional_ok, error_read by done. done.
Qed.

(** What a validated response satisfies. *)
Lemma option_bind_Some {A B} (o : option A) (f : A -> option B) b :
  (o ≫= f) = Some b -> exists a, o = Some a /\ f a = Some b.
Proof. destruct o; [eauto|done]. Qed.

Lemma as_str_Some p v s : as_str p v = Some s -> v = JStr s /\ p s = true.
Proof. destruct v; cbn; try done. destruct (p s0) eqn:E; [|done]. by intros [= ->]. Qed.

Lemma as_optional_Some p v o : as_optional (as_str p) v = Some o -> opt_ok p o = true.
Proof.
  unfold as_optional. destruct v; try done; [by intros [= <-]|]. cbn. destruct (p s) eqn:E; [|done].
  by intros [= <-].
Qed.

Ltac unbind H :=
  repeat match type of H with
  | (_ ≫= _) = Some _ => apply option_bind_Some in H; let x := fresh "x" in let E := fresh "E" in destruct H as (x & E & H)
  end.

Lemma capabilities_of_ok v c : WorkerCapabilities_of v = Some c -> WorkerCapabilities_ok c = true.
Proof.
  unfold WorkerCapabilities_of. intros H. unbind H.
  destruct (Z.of_nat (length _) <=? 32) eqn:Hn; [|done]. injection H as <-.
  repeat match goal with
  | H : as_str _ _ = Some _ |- _ => apply as_str_Some in H as [_ H]
  | H : as_optional _ _ = Some _ |- _ => apply as_optional_Some in H
  end.
  unfold WorkerCapabilities_ok. cbn. rewrite E1, E2, E3, E4, E5, Hn. cbn.
  case_match; try done. apply mapM_Some in E13. apply forallb_forall. intros s Hs%list_elem_of_In.
  clear -E13 Hs. induction E13 as [|v t l ts Hv Hts IH]; [by apply elem_of_nil in Hs|].
  apply as_str_Some in Hv as [_ Hv]. apply elem_of_cons in Hs as [->|Hs]; auto.
Qed.

Lemma error_of_ok v e : WorkerProtocolError_of v = Some e -> WorkerProtocolError_ok e = true.
Proof. unfold WorkerProtocolError_of. intros H. unbind H. injection H as <-. by apply as_str_Some in E2 as [_ E2]. Qed.

Lemma response_of_ok v r : validate_worker_response v = Some r -> WorkerResponse_ok r = true.
Proof.
  unfold validate_worker_response. destruct v as [| | | | | |kvs]; try done.
  destruct (dict_get kvs "status") as [[| | | |st| |]|]; try done.
  destruct (bool_decide (st = "success")); [|destruct (bool_decide (st = "error")); [|done]]; intros H; unbind H;
    injection H as <-; cbn [WorkerResponse_ok].
  - apply as_str_Some in E1 as [_ ->], E2 as [_ ->]. by apply capabilities_of_ok in E3 as ->.
  - apply as_optional_Some in E1 as ->, E2 as ->. by apply error_of_ok in E3 as ->.
Qed.

Lemma response_wf r : wf_json (WorkerResponse_json r).
Proof.
  destruct r as [id sha c|id sha e]; cbn [WorkerResponse_json]; apply wf_json_obj;
    (split; [by apply (bool_decide_unpack _)|]); rewrite !Forall_cons; cbn [snd].
  - split_and!; try done. unfold WorkerCapabilities_json. apply wf_json_obj.
    split; [by apply (bool_decide_unpack _)|]. rewrite !Forall_cons; cbn [snd]. split_and!; try done.
    1-2: by destruct (wc_clang_path c), (wc_bpftool_path c).
    apply wf_json_arr. induction (wc_reasons c); by constructor.
  - split_and!; try done; [by destruct id|by destruct sha|]. apply wf_json_obj.
    split; [by apply (bool_decide_unpack _)|]. by repeat constructor.
Qed.

(** The text fields of a response satisfy [p]. *)
Definition response_text (p : string -> bool) (r : WorkerResponse) : bool := text_only p (WorkerResponse_json r).

Lemma response_text_true r : response_text (fun _ => true) r = true.
Proof.
  unfold response_text. destruct r as [id sha c|id sha e]; [|by destruct id, sha]. cbn.
  destruct (wc_clang_path c), (wc_bpftool_path c); cbn; rewrite andb_true_r; induction (wc_reasons c); done.
Qed.

Lemma ends_with_newline t : ends_with 10 (t ++ newline) = true.
Proof.
  induction t as [|c t IH]; [done|]. change (String c t ++ newline) with (String c (t ++ newline)).
  destruct (t ++ newline) eqn:E; [by destruct t|]. exact IH.
Qed.

(** A canonical response is one line that starts with a brace and a quote. *)
Lemma response_frame r raw :
  canonical_json_bytes (WorkerResponse_json r) = Ok raw ->
  ends_with 10 raw = true /\ count_char 10 raw = 1 /\ detect_encoding raw = utf_8 /\ raw <> "".
Proof.
  unfold canonical_json_bytes. destruct (dumps_newline _ (response_text_true r)) as (t & Ht & Hc).
  rewrite Ht. cbn [bind_result]. destruct (has_surrogate t); [done|]. intros [= <-].
  split; [apply ends_with_newline|]. rewrite count_char_app, Hc. split; [done|].
  assert (Hhead : exists t', t = String "{" (String (chr 34) t')).
  { destruct r as [id sha c|id sha e]; cbn [WorkerResponse_json] in Ht; rewrite dumps_obj in Ht;
      apply bind_ok in Ht as (ts & Hts & [= <-]); apply map_result_ok in Hts;
      (destruct (sort_kv ts) as [|[k v] l] eqn:Hs;
        [pose proof (sort_kv_perm ts) as Hp; rewrite Hs in Hp; apply Permutation_nil in Hp; subst ts; inversion Hts|]);
      destruct l; eexists; reflexivity. }
  destruct Hhead as [t' ->]. split; [|done].
  change (String "{" (String (chr 34) t') ++ newline) with (String "{" (String (chr 34) (t' ++ newline))).
  unfold detect_encoding, starts_with. cbn. rewrite !andb_false_r. cbn. by repeat case_match.
Qed.

(** ** What the host accepts *)
Lemma host_acceptance request rc raw err id sha c :
  validate_worker_subprocess_result request rc raw err = Ok (id, sha, c) <->
  rc = 0 /\ err = "" /\ id = cr_request_id request
  /\ sha256_json (CapabilitiesRequest_json request) = Ok sha
  /\ is_stable_id id = true /\ WorkerCapabilities_ok c = true
  /\ canonical_json_bytes (WorkerResponse_json (CapabilitiesSuccessResponse id sha c)) = Ok raw
  /\ blen raw <= MAX_RESPONSE_BYTES /\ utf8_ok true raw = true.
Proof.
  unfold validate_worker_subprocess_result. split.
  - intros H. peel H. destruct (strict_json_loads_bytes raw) as [value|] eqn:Hv; [|done]. peel H.
    destruct v as [response|]; [|done]. unfold validate_correlated_worker_response in E4.
    destruct (validate_worker_response value) as [r|] eqn:Hr; [|done]. apply response_of_ok in Hr.
    destruct (canonical_json_bytes (WorkerResponse_json response)) as [canonical|] eqn:Hc; [|done]. peel H.
    apply bool_decide_neg_false in E5. subst canonical.
    assert (r = response) as ->.
    { destruct r; peel E4; by injection E4. }
    destruct response as [id' sha' c'|]; [|done]. injection H as -> -> ->. peel E4.
    apply negb_false_iff, Z.eqb_eq in E. apply bool_decide_neg_false in E0. apply Z.ltb_ge in E2.
    apply orb_false_iff in E6 as [E6%bool_decide_neg_false E7%bool_decide_neg_false].
    injection E6 as ->. injection E7 as ->. cbn [WorkerResponse_ok] in Hr. rewrite !andb_true_iff in Hr.
    destruct Hr as [[H1 H2] H3]. split_and!; try done.
    destruct (response_frame _ _ Hc) as (_ & _ & Hd & _). unfold strict_json_loads_bytes in Hv.
    rewrite Hd in Hv. cbn in Hv. by destruct (utf8_ok true raw).
  - intros (-> & -> & -> & Hsha & Hid & Hok & Hc & Hlen & Hu).
    destruct (response_frame _ _ Hc) as (He & Hn & Hd & Hne).
    cbn [Z.eqb negb]. rewrite bool_decide_true by done. cbn [negb]. rewrite bool_decide_false by done.
    rewrite (proj2 (Z.ltb_ge _ _) Hlen), He, Hn. cbn [negb Z.eqb Pos.eqb orb].
    unfold strict_json_loads_bytes. rewrite Hd. cbn [decode_as]. rewrite Hu.
    rewrite (canonical_roundtrip_lemma _ _ (response_wf _) Hc).
    unfold validate_correlated_worker_response. rewrite response_read.
    + rewrite Hsha. cbn [bind_result]. rewrite !bool_decide_true by done. cbn [negb orb bind_result].
      rewrite Hc, bool_decide_true by done. done.
    + cbn [WorkerResponse_ok]. rewrite Hid, Hok. by rewrite (ModelFacts.sha256_json_is_sha256 _ _ Hsha).
Qed.

(** C8. The host acceptance boundary is exact: a finished worker process is accepted
    with capabilities [c] if and only if it exited with status 0, wrote nothing to
    standard error, and its standard output is, byte for byte, the canonical encoding
    of the success response that carries the id and the digest of the outstanding
    request and valid capabilities, within the size limit.  No other byte string -
    reordered keys, extra frames, another encoding - is accepted, and by the type of
    the response no accepted capability claims execution. *)
Theorem host_acceptance_exact request rc raw err id sha c :
  validate_worker_subprocess_result request rc raw err = Ok (id, sha, c) <->
  rc = 0 /\ err = "" /\ id = cr_request_id request
  /\ sha256_json (CapabilitiesRequest_json request) = Ok sha
  /\ is_stable_id id = true /\ WorkerCapabilities_ok c = true
  /\ canonical_json_bytes (WorkerResponse_json (CapabilitiesSuccessResponse id sha c)) = Ok raw
  /\ blen raw <= MAX_RESPONSE_BYTES /\ utf8_ok true raw = true.
Proof. apply host_acceptance. Qed.

(** ** What the server emits *)
Definition FRAME_FAILURES : list FrameFailure :=
  [TOO_LARGE; (INVALID_FRAME, "request frame must end with one LF byte");
   (INVALID_FRAME, "request frame must contain JSON followed by one LF byte");
   (INVALID_ENCODING, "request frame must be strict UTF-8"); (INVALID_JSON, "request frame is not strict JSON");
   COMPLEXITY; SURROGATE].

Lemma walk_json_errors fuel : forall stack nodes e,
  walk_json fuel stack nodes = Some (Err e) -> e = COMPLEXITY \/ e = SURROGATE.
Proof.
  assert (Hkeys : forall (kvs : list (string * json)) e,
    for_each (fun kv => validate_json_string kv.1) kvs = Err e -> e = SURROGATE).
  { induction kvs as [|[k v] l IH]; intros e; cbn; [done|]. unfold validate_json_string at 1.
    destruct (has_surrogate k); cbn; [by intros [= <-]|apply IH]. }
  induction fuel as [|fuel IH]; intros stack nodes e; cbn [walk_json]; [done|].
  destruct stack as [|[v d] stack]; [done|].
  destruct ((MAX_JSON_DEPTH <? d) || (MAX_JSON_NODES <? nodes + 1)); [intros [= <-]; auto|].
  destruct v as [| | | |s|l|kvs]; eauto.
  - unfold validate_json_string. destruct (has_surrogate s); [intros [= <-]; auto|eauto].
  - destruct (for_each _ kvs) eqn:E; [eauto|]. intros [= <-]. right. by eapply Hkeys.
Qed.

Lemma read_frame_errors raw e : read_frame raw = Err e -> e ∈ FRAME_FAILURES.
Proof.
  unfold read_frame, FRAME_FAILURES. rewrite !elem_of_cons. case_bool_decide; [done|].
  destruct (MAX_REQUEST_BYTES + 1 <? blen raw); [intros [= <-]; auto|].
  destruct (negb (ends_with 10 raw)); [destruct (MAX_REQUEST_BYTES <? blen raw); intros [= <-]; auto|].
  cbv zeta. destruct (MAX_REQUEST_BYTES <? blen (drop_last raw)); [intros [= <-]; auto|].
  destruct (bool_decide (drop_last raw = "") || _); [intros [= <-]; auto|].
  destruct (decode_utf8 _); [|intros [= <-]; auto]. destruct (strict_json_loads _) as [v|]; [|intros [= <-]; auto 6].
  destruct (validate_json_complexity v) as [|e'] eqn:E; [done|]. intros [= <-].
  unfold validate_json_complexity in E. destruct (walk_json _ _ _) as [r|] eqn:Hw; cbn in E.
  - subst r. apply walk_json_errors in Hw as [->| ->]; auto 8.
  - injection E as <-. auto 8.
Qed.

(** Every transport error has an encoding. *)
Lemma transport_errors_encode e :
  e ∈ FRAME_FAILURES -> exists raw, encode_response (transport_error e.1 e.2) = Some raw.
Proof.
  intros He. assert (H : Forall (fun e => is_Some (encode_response (transport_error e.1 e.2))) FRAME_FAILURES).
  { repeat constructor; eexists; vm_compute; reflexivity. }
  by apply (proj1 (Forall_forall _ _) H) in He.
Qed.

Lemma internal_errors_encode message :
  message ∈ ["worker transport failed before dispatch"; "worker request handling failed";
             "worker response serialization failed"] ->
  exists raw, encode_response (transport_error INTERNAL_ERROR message) = Some raw.
Proof.
  intros Hm. assert (H : Forall (fun m => is_Some (encode_response (transport_error INTERNAL_ERROR m)))
    ["worker transport failed before dispatch"; "worker request handling failed";
     "worker response serialization failed"]).
  { repeat constructor; eexists; vm_compute; reflexivity. }
  by apply (proj1 (Forall_forall _ _) H) in Hm.
Qed.

(** One frame that carries the response [r]. *)
Record frame (r : WorkerResponse) (out : string) : Prop := {
  fr_valid : WorkerResponse_ok r = true;
  fr_read : strict_json_loads out = Ok (canon (WorkerResponse_json r))
            /\ validate_worker_response (canon (WorkerResponse_json r)) = Some r;
  fr_line : ends_with 10 out = true /\ count_char 10 out = 1;
  fr_size : blen out <= MAX_RESPONSE_BYTES
}.

Lemma encode_frame r raw : encode_response r = Some raw -> frame r raw.
Proof.
  unfold encode_response. destruct (WorkerResponse_ok r) eqn:Hok; [|done].
  destruct (canonical_json_bytes _) as [t|] eqn:Hc; [|done].
  destruct (MAX_RESPONSE_BYTES <? blen t) eqn:Hl; [done|]. intros [= <-]. apply Z.ltb_ge in Hl.
  destruct (response_frame _ _ Hc) as (H1 & H2 & _). constructor; try done.
  split; [by apply canonical_roundtrip_lemma; [apply response_wf|]|by apply response_read].
Qed.

Definition is_error (r : WorkerResponse) : bool :=
  match r with WorkerErrorResponse _ _ _ => true | _ => false end.

(** C38. The server is closed: whatever bytes arrive, and even if reading fails, it
    terminates with no output only on an empty input, and otherwise writes exactly one
    line, within the size limit, that decodes and validates as one protocol response;
    a status other than 0 comes with an error response and is 2 (protocol) or 3
    (internal).  When standard output fails, wherever it does, the status is 4 and what
    went out is the beginning of that line. *)
Theorem serve_one_closed h stdin :
  (let '(status, out) := serve_one h stdin stdout_ok in
   (stdin = Some "" /\ status = EXIT_OK /\ out = "")
   \/ exists r, frame r out
        /\ (status = EXIT_OK \/ is_error r = true /\ (status = EXIT_PROTOCOL_ERROR \/ status = EXIT_INTERNAL_ERROR)))
  /\ forall after, serve_one h stdin (stdout_fails after)
       = ((if bool_decide (stdin = Some "") then EXIT_OK else EXIT_IO_ERROR),
          String.substring 0 after (serve_one h stdin stdout_ok).2).
Proof.
  assert (Hinternal : forall m, m ∈ ["worker transport failed before dispatch"; "worker request handling failed";
      "worker response serialization failed"] -> exists raw, encode_response (transport_error INTERNAL_ERROR m) = Some raw)
    by apply internal_errors_encode.
  unfold serve_one, write_response. destruct stdin as [input|].
  2: { rewrite bool_decide_false by done. destruct (Hinternal "worker transport failed before dispatch") as [raw Hr]; [by left|].
       rewrite Hr. cbn [mbind option_bind]. split; [|done]. right. eexists. split; [by apply encode_frame|]. auto. }
  destruct (read_frame (readline _ input)) as [[value|]|[c m]] eqn:Hf.
  - assert (Hin : Some input <> Some "") by by (intros [= ->]; discriminate Hf).
    rewrite (bool_decide_false _ Hin).
    destruct (match handle_worker_request h value with Ok r => (r, EXIT_OK) | Err _ =>
      (transport_error INTERNAL_ERROR "worker request handling failed", EXIT_INTERNAL_ERROR) end) as [r st] eqn:Hh.
    assert (Hst : st = EXIT_OK \/ is_error r = true /\ st = EXIT_INTERNAL_ERROR).
    { destruct (handle_worker_request h value); injection Hh as <- <-; auto. }
    destruct (encode_response r) as [raw|] eqn:Hr; cbn [mbind option_bind].
    + split; [|done]. right. exists r. split; [by apply encode_frame|]. destruct Hst as [|[]]; auto.
    + destruct (Hinternal "worker response serialization failed") as [raw Hr']; [by right; right; left|].
      rewrite Hr'. cbn [mbind option_bind]. split; [|done]. right. eexists. split; [by apply encode_frame|]. auto.
  - assert (input = "") as ->.
    { unfold read_frame in Hf. case_bool_decide as Hb;
        [|peel Hf; destruct (decode_utf8 _); [|done]; destruct (strict_json_loads _); [|done]; by peel Hf].
      destruct input as [|a input]; [done|]. exfalso.
      change (Z.to_nat (MAX_REQUEST_BYTES + 2)) with (S (Z.to_nat (MAX_REQUEST_BYTES + 1))) in Hb.
      cbn [readline] in Hb. by destruct (code a =? 10). }
    rewrite bool_decide_true by done. split; [auto|]. by intros [].
  - assert (Hin : Some input <> Some "") by by (intros [= ->]; discriminate Hf).
    rewrite (bool_decide_false _ Hin). apply read_frame_errors in Hf.
    destruct (transport_errors_encode _ Hf) as [raw Hr]. cbn [fst snd] in Hr. rewrite Hr. cbn [mbind option_bind].
    split; [|done]. right. eexists. split; [by apply encode_frame|]. auto.
Qed.

(** ** The worker and the host together *)
Lemma readline_frame t n :
  count_char 10 t = 0 -> (String.length t < n)%nat -> readline n (t ++ newline) = t ++ newline.
Proof.
  revert n. induction t as [|c t IH]; intros [|n] Hc Hn; cbn [String.length] in Hn; try lia; [done|].
  change (String c t ++ newline) with (String c (t ++ newline)). cbn [readline count_char] in *.
  assert (0 <= count_char 10 t) by (clear; induction t as [|d t IH]; cbn; [done|]; case_match; lia).
  destruct (code c =? 10); [lia|]. f_equal. apply IH; lia.
Qed.

Lemma drop_last_frame t : drop_last (t ++ newline) = t.
Proof.
  induction t as [|c t IH]; [done|]. change (String c t ++ newline) with (String c (t ++ newline)).
  cbn [drop_last]. destruct (t ++ newline) eqn:E; [by destruct t|]. by rewrite IH.
Qed.

Lemma stable_id_ascii s : is_stable_id s = true -> ascii_text s = true.
Proof.
  assert (Hid : forall c, is_id_char c = true -> is_ascii c = true).
  { intros c. destruct c as [[] [] [] [] [] [] [] []]; intros H; try reflexivity; vm_compute in H; discriminate H. }
  assert (Hall : forall s, str_forall is_id_char s = true -> ascii_text s = true).
  { induction s0 as [|c s0 IH]; cbn; [done|]. rewrite !andb_true_iff. intros [Hc Hs]. split; auto. }
  destruct s as [|c s]; [done|]. cbn. rewrite !andb_true_iff. intros [[Hc Hs] _].
  split; [|by apply Hall]. apply Hid. unfold is_id_char. by rewrite Hc.
Qed.

Lemma stable_id_length s : is_stable_id s = true -> (String.length s <= 128)%nat.
Proof. destruct s as [|c s]; [done|]. cbn. rewrite !andb_true_iff, Nat.leb_le. lia. Qed.

(** Ids need no escapes. *)
Lemma escape_id s : str_forall is_id_char s = true -> escape s = s.
Proof.
  assert (Hc : forall c, is_id_char c = true -> escape_char c = char_str c).
  { intros c. destruct c as [[] [] [] [] [] [] [] []]; intros H; try reflexivity; vm_compute in H; discriminate H. }
  induction s as [|c s IH]; cbn [str_forall escape]; [done|]. rewrite andb_true_iff. intros [H1 H2].
  rewrite (Hc c H1), (IH H2). done.
Qed.

Lemma ends_with_app c a b : b <> "" -> ends_with c (a ++ b) = ends_with c b.
Proof.
  intros Hb. induction a as [|x a IH]; [done|]. change (String x a ++ b) with (String x (a ++ b)).
  cbn [ends_with]. destruct (a ++ b) eqn:E; [by destruct a|]. exact IH.
Qed.

Section Exchange.
Context (request : CapabilitiesRequest) (Hid : is_stable_id (cr_request_id request) = true).

Definition request_head : string := Eval vm_compute in
  "{" ++ encode_string "method" ++ ":" ++ encode_string "capabilities" ++ "," ++ encode_string "request_id" ++ ":" ++ quote.
Definition request_tail : string := Eval vm_compute in
  quote ++ "," ++ encode_string "schema_version" ++ ":" ++ encode_string "bpe.worker-request.v1" ++ "}".

Lemma request_dumps :
  dumps (CapabilitiesRequest_json request) = Ok (request_head ++ cr_request_id request ++ request_tail).
Proof.
  assert (H : dumps (CapabilitiesRequest_json request)
    = Ok ("{" ++ (encode_member ("method", encode_string "capabilities") ++ ","
          ++ encode_member ("request_id", encode_string (cr_request_id request)) ++ ","
          ++ encode_member ("schema_version", encode_string "bpe.worker-request.v1")) ++ "}")) by reflexivity.
  rewrite H. unfold encode_member at 2. cbn [fst snd]. unfold encode_string at 3.
  rewrite (escape_id (cr_request_id request)) by by apply ModelFacts.stable_id_chars.
  rewrite !str_app_assoc. reflexivity.
Qed.

Lemma request_frame_read :
  exists input, canonical_json_bytes (CapabilitiesRequest_json request) = Ok input
    /\ read_frame (readline (Z.to_nat (MAX_REQUEST_BYTES + 2)) input)
       = Ok (Some (canon (CapabilitiesRequest_json request))).
Proof.
  set (t := request_head ++ cr_request_id request ++ request_tail).
  assert (Ha : ascii_text (cr_request_id request) = true) by by apply stable_id_ascii.
  assert (Hn : count_char 10 t = 0).
  { destruct (dumps_newline (CapabilitiesRequest_json request)) as (t' & Ht & Hc); [reflexivity|].
    rewrite request_dumps in Ht. injection Ht as <-. exact Hc. }
  assert (Hu : utf8_ok false t = true).
  { subst t. rewrite utf8_ok_app by reflexivity. rewrite utf8_ok_app by by apply ascii_utf8. reflexivity. }
  assert (Hl : (String.length t <= 1000)%nat).
  { subst t. rewrite !str_length_app. apply stable_id_length in Hid.
    assert (String.length request_head <= 400 /\ String.length request_tail <= 400)%nat by (vm_compute; lia). lia. }
  exists (t ++ newline). unfold canonical_json_bytes. rewrite request_dumps. fold t. cbn [bind_result].
  rewrite (strict_no_surrogate t Hu). split; [done|].
  assert (Hmax : Z.to_nat (MAX_REQUEST_BYTES + 2) = Z.to_nat 16386) by done.
  rewrite readline_frame by (done || (rewrite Hmax; lia)).
  assert (Hlen : blen (t ++ newline) <= 1001).
  { unfold blen. rewrite str_length_app. change (String.length newline) with 1%nat. lia. }
  unfold read_frame. rewrite bool_decide_false
    by (intros Hx; apply (f_equal String.length) in Hx; rewrite str_length_app in Hx; cbn in Hx; lia).
  unfold MAX_REQUEST_BYTES.
  replace (16 * 1024 + 1 <? blen (t ++ newline)) with false by (symmetry; apply Z.ltb_ge; lia).
  rewrite ends_with_newline, drop_last_frame. cbn [negb]. cbv zeta.
  replace (16 * 1024 <? blen t) with false by (symmetry; apply Z.ltb_ge; unfold blen; lia).
  replace (ends_with 13 t) with false by (subst t; by rewrite <-str_app_assoc, ends_with_app).
  rewrite bool_decide_false by by (subst t). cbn [orb]. unfold decode_utf8. rewrite Hu.
  assert (Hload : strict_json_loads t = Ok (canon (CapabilitiesRequest_json request))).
  { destruct (dumps_parses (CapabilitiesRequest_json request) t) as [Hp Hh]; [|exact request_dumps|].
    - apply wf_json_obj. split; [by apply (bool_decide_unpack _)|by repeat constructor].
    - unfold strict_json_loads. rewrite <-(str_app_nil t) at 2. rewrite skip_ws_head by done.
      rewrite Hp; [done|lia|done]. }
  rewrite Hload.
  assert (Hcx : validate_json_complexity (canon (CapabilitiesRequest_json request)) = Ok tt).
  { destruct (walk_json_exact (Z.to_nat (MAX_JSON_NODES + 2)) [(canon (CapabilitiesRequest_json request), 0)] 0)
      as (r & Hr & Hiff); [by unfold MAX_JSON_NODES|unfold MAX_JSON_NODES; rewrite Z2Nat.id; lia|].
    unfold validate_json_complexity. rewrite Hr. cbn [default]. unfold id. apply Hiff. split; [|done].
    constructor; [|constructor]. split; [done|]. cbn [fst].
    change (canon (CapabilitiesRequest_json request)) with
      (JObj [("method", JStr "capabilities"); ("request_id", JStr (cr_request_id request));
             ("schema_version", JStr "bpe.worker-request.v1")]).
    cbn [scalar_text forallb fst snd]. rewrite (strict_no_surrogate (cr_request_id request)) by by apply ascii_utf8.
    reflexivity. }
  rewrite Hcx. done.
Qed.

Lemma request_read : CapabilitiesRequest_of (canon (CapabilitiesRequest_json request)) = Some request.
Proof.
  unfold CapabilitiesRequest_of, CapabilitiesRequest_json. read_object. cbn [canon as_literal].
  rewrite !as_str_ok by done. cbn. by destruct request.
Qed.

Lemma request_digest :
  sha256_json (canon (CapabilitiesRequest_json request)) = sha256_json (CapabilitiesRequest_json request).
Proof.
  unfold sha256_json, canonical_json_bytes.
  replace (dumps (canon (CapabilitiesRequest_json request))) with (dumps (CapabilitiesRequest_json request))
    by reflexivity. done.
Qed.
End Exchange.

(** The strings the probe reports are text: strictly valid UTF-8. *)
Definition host_text (h : Host) : bool :=
  utf8_ok false (host_system h) && utf8_ok false (host_machine h) && utf8_ok false (host_release h)
  && opt_ok (utf8_ok false) (host_clang h) && opt_ok (utf8_ok false) (host_bpftool h).

Lemma probed_response_text h c id sha :
  host_text h = true -> probe_capabilities h = Ok c -> is_stable_id id = true -> is_sha256 sha = true ->
  WorkerCapabilities_ok c = true /\ response_text (utf8_ok false) (CapabilitiesSuccessResponse id sha c) = true.
Proof.
  unfold host_text. rewrite !andb_true_iff. intros ((((H1 & H2) & H3) & H4) & H5) Hp Hid Hsha.
  unfold probe_capabilities in Hp. cbv zeta in Hp. apply construct_ok in Hp as [Hok ->]. peel Hok.
  split; [done|]. unfold response_text. cbn [WorkerResponse_json text_only forallb fst snd].
  assert (Hsha' : utf8_ok false sha = true).
  { apply ascii_utf8. unfold is_sha256, is_hex in Hsha. apply andb_true_iff in Hsha as [_ Hsha].
    clear -Hsha. induction sha as [|c s IH]; [done|]. cbn in Hsha |- *. apply andb_true_iff in Hsha as [Hc Hs].
    rewrite (IH Hs), andb_true_r. destruct c as [[] [] [] [] [] [] [] []]; try reflexivity; vm_compute in Hc; discriminate Hc. }
  rewrite (ascii_utf8 false id), Hsha' by by apply stable_id_ascii.
  unfold WorkerCapabilities_json. cbn [text_only forallb fst snd wc_platform wc_architecture wc_kernel_release
    wc_clang_path wc_bpftool_path]. rewrite H1, H2, H3.
  assert (Hopt : forall o, opt_ok (utf8_ok false) o = true -> text_only (utf8_ok false) (jopt JStr o) = true)
    by by intros [].
  rewrite !Hopt by done. cbn [wc_reasons]. by repeat case_match.
Qed.

Lemma success_encodes r :
  WorkerResponse_ok r = true -> response_text (utf8_ok false) r = true ->
  exists raw, canonical_json_bytes (WorkerResponse_json r) = Ok raw /\ utf8_ok true raw = true.
Proof.
  intros Hok Ht. destruct (dumps_utf8 false _ Ht) as (t & Hd & Hu). exists (t ++ newline).
  unfold canonical_json_bytes. rewrite Hd. cbn [bind_result]. rewrite (strict_no_surrogate t Hu). split; [done|].
  rewrite utf8_ok_app by by apply utf8_ok_strict_pass. reflexivity.
Qed.

(** C13. The two ends agree: on a host whose probe succeeds and whose strings are text,
    the server answers the canonical frame of any valid request with status 0 and a
    response that the host accepts, with exactly the probed capabilities - whenever
    that response fits the transport limit of 32 KiB. *)
Theorem worker_and_host_agree request h c :
  is_stable_id (cr_request_id request) = true -> host_text h = true -> probe_capabilities h = Ok c ->
  (forall sha raw, sha256_json (CapabilitiesRequest_json request) = Ok sha ->
     canonical_json_bytes (WorkerResponse_json
       (CapabilitiesSuccessResponse (cr_request_id request) sha c)) = Ok raw ->
     blen raw <= MAX_RESPONSE_BYTES) ->
  exists input sha,
    canonical_json_bytes (CapabilitiesRequest_json request) = Ok input
    /\ (let '(status, out) := serve_one h (Some input) stdout_ok in
        validate_worker_subprocess_result request status out "" = Ok (cr_request_id request, sha, c)).
Proof.
  intros Hid Hh Hp Hfit. destruct (request_frame_read request Hid) as (input & Hin & Hread).
  pose proof (sha256_json_of _ _ Hin) as Hsha. set (sha := sha256_bytes input) in Hsha.
  assert (Hs : is_sha256 sha = true) by by apply ModelFacts.sha256_json_is_sha256 in Hsha.
  destruct (probed_response_text h c (cr_request_id request) sha Hh Hp Hid Hs) as [Hok Htext].
  assert (Hrok : WorkerResponse_ok (CapabilitiesSuccessResponse (cr_request_id request) sha c) = true)
    by (cbn [WorkerResponse_ok]; by rewrite Hid, Hs, Hok).
  destruct (success_encodes _ Hrok Htext) as (raw & Hraw & Hu). specialize (Hfit _ _ Hsha Hraw).
  exists input, sha. split; [done|]. unfold serve_one. rewrite Hread. unfold handle_worker_request.
  rewrite request_read by done. unfold safe_request_sha256. rewrite request_digest, Hsha, Hp. cbn [bind_result].
  unfold write_response, encode_response. rewrite Hrok, Hraw, (proj2 (Z.ltb_ge _ _) Hfit).
  cbn [mbind option_bind]. by apply host_acceptance.
Qed.

Definition sample_host : Host := {|
  host_system := "linux"; host_machine := "x86_64"; host_release := "6.8.0"; host_clang := Some "/usr/bin/clang-18";
  host_bpftool := None; host_btf_file := true |}.

Definition sample_capabilities : WorkerCapabilities := Eval vm_compute in {|
  wc_platform := "linux"; wc_architecture := "x86_64"; wc_kernel_release := "6.8.0";
  wc_clang_path := Some "/usr/bin/clang-18"; wc_bpftool_path := None; wc_btf_available := true;
  wc_compiler_prerequisites_present := true; wc_loader_prerequisites_present := false;
  wc_reasons := [PHASE_0_REASON; "bpftool was not found"] |}.

Definition request_sha : string := Eval vm_compute in
  match sha256_json (CapabilitiesRequest_json {| cr_request_id := "r-1" |}) with Ok h => h | Err e => e end.

Lemma sample_response_fits sha raw :
  sha256_json (CapabilitiesRequest_json {| cr_request_id := "r-1" |}) = Ok sha ->
  canonical_json_bytes (WorkerResponse_json (CapabilitiesSuccessResponse "r-1" sha sample_capabilities)) = Ok raw ->
  blen raw <= MAX_RESPONSE_BYTES.
Proof.
  assert (Hs : sha256_json (CapabilitiesRequest_json {| cr_request_id := "r-1" |}) = Ok request_sha)
    by (vm_compute; reflexivity).
  rewrite Hs. intros H Hc. apply ok_inj in H. subst sha.
  assert (Hb : match canonical_json_bytes (WorkerResponse_json
      (CapabilitiesSuccessResponse "r-1" request_sha sample_capabilities)) with
    | Ok r => blen r <=? MAX_RESPONSE_BYTES | Err _ => false end = true) by (vm_compute; reflexivity).
  rewrite Hc in Hb. by apply Z.leb_le.
Qed.

Lemma worker_and_host_agree_witness :
  exists input sha,
    canonical_json_bytes (CapabilitiesRequest_json {| cr_request_id := "r-1" |}) = Ok input
    /\ (let '(status, out) := serve_one sample_host (Some input) stdout_ok in
        validate_worker_subprocess_result {| cr_request_id := "r-1" |} status out ""
        = Ok ("r-1", sha, sample_capabilities)).
Proof.
  apply (worker_and_host_agree {| cr_request_id := "r-1" |} sample_host sample_capabilities);
    [reflexivity|reflexivity|vm_compute; reflexivity|exact sample_response_fits].
Defined.

End WorkerFacts.
