(* ===== verification/Job.v ===== *)
(** * Prepared evaluation jobs ([src/bpe/job.py])

    The evaluation plan, the scoring contract derived from it, the job manifest that
    binds request, suite, experiment, environment, policy, plan and contract to each
    other, and the blob table.  Writing and reading bundle directories is not
    modelled; a loaded job is the value [LoadedEvaluationJob] that the reader
    returns. *)
From Stdlib Require Import ZArith QArith String Ascii Lia.
From stdpp Require Import base tactics list strings.
From S2P Require Import Prelude Floats Sha256 Json Models.
Local Open Scope string_scope.
Local Open Scope Z_scope.

Module Job.
Import Sha256 Json Models.

Definition MAX_JOB_BLOBS : Z := 256.
Definition MAX_JOB_BLOB_BYTES : Z := 16 * 1024 * 1024.
Definition MAX_JOB_TOTAL_BLOB_BYTES : Z := 128 * 1024 * 1024.

Record JobBlobRef := { jb_sha256 : string; jb_size_bytes : Z }.

#[export] Instance JobBlobRef_eq_dec : EqDecision JobBlobRef.
Proof. solve_decision. Defined.

Definition JobBlobRef_ok (b : JobBlobRef) : bool :=
  is_sha256 (jb_sha256 b) && (1 <=? jb_size_bytes b) && (jb_size_bytes b <=? MAX_JOB_BLOB_BYTES).

Definition count_between {A} (lo hi : Z) (l : list A) : bool :=
  (lo <=? Z.of_nat (length l)) && (Z.of_nat (length l) <=? hi).

Record EvaluationFunctionalCase := {
  efc_case_id : string;
  efc_input : ArtifactRef;
  efc_assertions : list AssertionSpec
}.

(** [EvaluationFunctionalCase] with [assertion_ids_are_unique] *)
Definition validate_EvaluationFunctionalCase (c : EvaluationFunctionalCase) : result string unit :=
  check_field "case_id" (is_stable_id (efc_case_id c)) ;;
  check_field "input" (ArtifactRef_ok (efc_input c)) ;;
  check_field "assertions"
    (count_between 1 256 (efc_assertions c) && forallb AssertionSpec_ok (efc_assertions c)) ;;
  raise "functional assertion IDs must be unique within a case"
    when negb (unique (as_assertion_id <$> efc_assertions c)) ;;
  Ok tt.

Record EvaluationPlan := {
  ep_task_id : string;
  ep_task_version : string;
  ep_family : Family;
  ep_public_task_sha256 : string;
  ep_private_grader_sha256 : string;
  ep_task_bundle_sha256 : string;
  ep_environment_id : string;
  ep_candidate_contract : CandidateContract;
  ep_program : ProgramContract;
  ep_public_sdk_id : string;
  ep_max_attempts : Z;
  ep_whole_attempt_timeout_seconds : Z;
  ep_functional_cases : list EvaluationFunctionalCase;
  ep_semantic_obligations : list SemanticObligation
}.

(** [EvaluationPlan.identities_are_unique] *)
Definition plan_identities_are_unique (p : EvaluationPlan) : result string unit :=
  raise "evaluation-plan v1 supports exactly one XDP program"
    when negb (bool_decide (pc_program_type (ep_program p) = "xdp"))
         || negb (bool_decide (pc_section (ep_program p) = "xdp"))
         || negb (pc_max_programs (ep_program p) =? 1) ;;
  raise "evaluation-plan candidates must be post-extraction plain C source"
    when cc_allow_markdown_fence (ep_candidate_contract p) ;;
  let* expected_bundle :=
    sha256_json (JObj [("schema_version", JStr "bpe.task-bundle.v1");
                       ("public_sha256", JStr (ep_public_task_sha256 p));
                       ("private_sha256", JStr (ep_private_grader_sha256 p))]) in
  raise "evaluation-plan task bundle digest is inconsistent"
    when negb (bool_decide (ep_task_bundle_sha256 p = expected_bundle)) ;;
  raise "evaluation-plan functional case IDs must be unique"
    when negb (unique (efc_case_id <$> ep_functional_cases p)) ;;
  raise "evaluation-plan semantic obligation IDs must be unique"
    when negb (unique (so_obligation_id <$> ep_semantic_obligations p)) ;;
  Ok tt.

Definition validate_EvaluationPlan (p : EvaluationPlan) : result string unit :=
  check_field "task_id" (is_stable_id (ep_task_id p)) ;;
  check_field "task_version" (is_stable_id (ep_task_version p)) ;;
  check_field "public_task_sha256" (is_sha256 (ep_public_task_sha256 p)) ;;
  check_field "private_grader_sha256" (is_sha256 (ep_private_grader_sha256 p)) ;;
  check_field "task_bundle_sha256" (is_sha256 (ep_task_bundle_sha256 p)) ;;
  check_field "environment_id" (is_stable_id (ep_environment_id p)) ;;
  check_field "candidate_contract" (CandidateContract_ok (ep_candidate_contract p)) ;;
  check_field "program" (ProgramContract_ok (ep_program p)) ;;
  check_field "public_sdk_id" (is_stable_id (ep_public_sdk_id p)) ;;
  check_field "max_attempts" ((1 <=? ep_max_attempts p) && (ep_max_attempts p <=? 16)) ;;
  check_field "whole_attempt_timeout_seconds"
    ((1 <=? ep_whole_attempt_timeout_seconds p) && (ep_whole_attempt_timeout_seconds p <=? 600)) ;;
  check_field "functional_cases" (count_between 1 256 (ep_functional_cases p)) ;;
  let* _ := for_each validate_EvaluationFunctionalCase (ep_functional_cases p) in
  check_field "semantic_obligations"
    (count_between 1 1024 (ep_semantic_obligations p)
     && forallb SemanticObligation_ok (ep_semantic_obligations p)) ;;
  plan_identities_are_unique p.

(** ** JSON image of a plan *)
Definition CandidateContract_json (c : CandidateContract) : json :=
  JObj [("format", JStr "single_c_source"); ("max_response_bytes", JInt (cc_max_response_bytes c));
        ("fixed_filename", JStr "candidate.c"); ("allow_markdown_fence", JBool (cc_allow_markdown_fence c))].
Definition ProgramContract_json (p : ProgramContract) : json :=
  JObj [("program_type", JStr (pc_program_type p)); ("section", JStr (pc_section p));
        ("entrypoint", JStr (pc_entrypoint p)); ("max_programs", JInt (pc_max_programs p))].
Definition AssertionSpec_json (a : AssertionSpec) : json :=
  JObj [("assertion_id", JStr (as_assertion_id a)); ("kind", JStr (as_kind a));
        ("required", JBool (as_required a)); ("weight", JFloat (as_weight a));
        ("expected", jopt id (as_expected a))].
Definition SemanticObligation_json (o : SemanticObligation) : json :=
  JObj [("obligation_id", JStr (so_obligation_id o)); ("kind", JStr (so_kind o));
        ("description", JStr (so_description o)); ("required", JBool (so_required o))].
Definition EvaluationFunctionalCase_json (c : EvaluationFunctionalCase) : json :=
  JObj [("case_id", JStr (efc_case_id c)); ("input", ArtifactRef_json (efc_input c));
        ("assertions", JArr (map AssertionSpec_json (efc_assertions c)))].
Definition EvaluationPlan_json (p : EvaluationPlan) : json :=
  JObj [("schema_version", JStr "bpe.evaluation-plan.v1"); ("profile", JStr "xdp-bpf-prog-test-run-v1");
        ("task_id", JStr (ep_task_id p)); ("task_version", JStr (ep_task_version p));
        ("family", JStr (Family_value (ep_family p)));
        ("public_task_sha256", JStr (ep_public_task_sha256 p));
        ("private_grader_sha256", JStr (ep_private_grader_sha256 p));
        ("task_bundle_sha256", JStr (ep_task_bundle_sha256 p));
        ("environment_id", JStr (ep_environment_id p));
        ("candidate_contract", CandidateContract_json (ep_candidate_contract p));
        ("program", ProgramContract_json (ep_program p)); ("public_sdk_id", JStr (ep_public_sdk_id p));
        ("max_attempts", JInt (ep_max_attempts p));
        ("whole_attempt_timeout_seconds", JInt (ep_whole_attempt_timeout_seconds p));
        ("functional_cases", JArr (map EvaluationFunctionalCase_json (ep_functional_cases p)));
        ("semantic_obligations", JArr (map SemanticObligation_json (ep_semantic_obligations p)));
        ("strict_scoring_policy_id", JStr STRICT_SCORING_POLICY_ID)].

(** ** The scoring contract of a plan *)
Definition expected_check (stage : Stage) (id : string) (required : bool) (weight : float64)
    (inputs : list (string * ArtifactRef)) : ExpectedCheck :=
  {| ec_stage := stage; ec_check_id := id; ec_required := required; ec_weight := weight;
     ec_input_artifacts := inputs |}.

Definition object_checks : list ExpectedCheck :=
  (fun id => expected_check OBJECT_POLICY id true fone [])
    <$> ["object/entrypoint"; "object/program-type"; "object/section"; "object/program-count"].

Definition functional_id (case_id assertion_id : string) : string :=
  "functional/" ++ case_id ++ "/" ++ assertion_id.
Definition semantics_id (obligation_id : string) : string := "semantics/" ++ obligation_id.

Definition functional_checks (p : EvaluationPlan) : list ExpectedCheck :=
  c ← ep_functional_cases p;
  (fun a => expected_check FUNCTIONAL (functional_id (efc_case_id c) (as_assertion_id a))
              (as_required a) (as_weight a) [("input", efc_input c)]) <$> efc_assertions c.

Definition semantic_checks (p : EvaluationPlan) : list ExpectedCheck :=
  (fun o => expected_check SEMANTICS (semantics_id (so_obligation_id o)) (so_required o) fone [])
    <$> ep_semantic_obligations p.

(** [scoring_contract_for_plan]; constructing a check validates it, and so does
    constructing the contract. *)
Definition scoring_contract_for_plan (p : EvaluationPlan) : result string ScoringContract :=
  let* objects := map_result (construct validate_ExpectedCheck) object_checks in
  let* functional := map_result (construct validate_ExpectedCheck) (functional_checks p) in
  let* semantic := map_result (construct validate_ExpectedCheck) (semantic_checks p) in
  construct validate_ScoringContract
    {| sc_task_id := ep_task_id p; sc_task_version := ep_task_version p;
       sc_task_bundle_sha256 := ep_task_bundle_sha256 p;
       sc_checks := (objects ++ functional ++ semantic)%list |}.

(** [==] of contracts: floats by value, dicts by key. *)
Definition ExpectedCheck_eqb (a b : ExpectedCheck) : bool :=
  bool_decide (ec_stage a = ec_stage b) && bool_decide (ec_check_id a = ec_check_id b)
  && eqb (ec_required a) (ec_required b) && feqb (ec_weight a) (ec_weight b)
  && dict_eqb (ec_input_artifacts a) (ec_input_artifacts b).

Fixpoint list_eqb {A} (eqb : A -> A -> bool) (a b : list A) : bool :=
  match a, b with
  | [], [] => true
  | x :: a, y :: b => eqb x y && list_eqb eqb a b
  | _, _ => false
  end.

Definition ScoringContract_eqb (a b : ScoringContract) : bool :=
  bool_decide (sc_task_id a = sc_task_id b) && bool_decide (sc_task_version a = sc_task_version b)
  && bool_decide (sc_task_bundle_sha256 a = sc_task_bundle_sha256 b)
  && list_eqb ExpectedCheck_eqb (sc_checks a) (sc_checks b).

(** ** Building a plan from a task *)

(** The fields of [TaskBundle] ([src/bpe/task.py]) that a plan is made from. *)
Record TaskBundle := {
  tb_public : PublicTask;
  tb_private : PrivateGrader;
  tb_public_sha256 : string;
  tb_private_sha256 : string;
  tb_bundle_sha256 : string
}.

(** [build_evaluation_plan]; the message lists the unsupported drivers in order. *)
Definition build_evaluation_plan (b : TaskBundle) : result string EvaluationPlan :=
  let public := tb_public b in
  let private := tb_private b in
  raise "evaluation-plan v1 supports exactly one XDP program"
    when negb (bool_decide (pc_program_type (pt_program public) = "xdp"))
         || negb (bool_decide (pc_section (pt_program public) = "xdp"))
         || negb (pc_max_programs (pt_program public) =? 1) ;;
  let unsupported :=
    filter (fun d => d <> "bpf_prog_run/xdp@1") (fc_driver <$> pg_functional_cases private) in
  raise ("evaluation-plan v1 does not support task drivers: "
         ++ String.concat ", " (sort_by String.ltb (remove_dups unsupported)))
    when nonempty unsupported ;;
  let* cases :=
    map_result
      (fun c =>
         construct validate_EvaluationFunctionalCase
           {| efc_case_id := fc_case_id c;
              efc_input := {| art_sha256 := file_sha256 (fc_input_ref c);
                              art_size_bytes := file_size_bytes (fc_input_ref c);
                              art_media_type := "application/octet-stream" |};
              efc_assertions := fc_assertions c |})
      (pg_functional_cases private) in
  construct validate_EvaluationPlan
    {| ep_task_id := pt_task_id public; ep_task_version := pt_version public;
       ep_family := pt_family public; ep_public_task_sha256 := tb_public_sha256 b;
       ep_private_grader_sha256 := tb_private_sha256 b; ep_task_bundle_sha256 := tb_bundle_sha256 b;
       ep_environment_id := pt_environment_id public;
       ep_candidate_contract :=
         {| cc_max_response_bytes := cc_max_response_bytes (pt_candidate_contract public);
            cc_allow_markdown_fence := false |};
       ep_program := pt_program public; ep_public_sdk_id := pt_public_sdk_id public;
       ep_max_attempts := pt_max_attempts public;
       ep_whole_attempt_timeout_seconds := pt_whole_attempt_timeout_seconds public;
       ep_functional_cases := cases; ep_semantic_obligations := pg_semantic_obligations private |}.

(** ** The blob table *)

(** The loop of [_physical_blob_table] over its dict [by_digest]. *)
Fixpoint collect_blobs (by_digest : list (string * Z)) (refs : list ArtifactRef) :
    result string (list (string * Z)) :=
  match refs with
  | [] => Ok by_digest
  | r :: refs =>
      raise "one blob digest is paired with inconsistent sizes"
        when match dict_get by_digest (art_sha256 r) with
             | Some previous => negb (previous =? art_size_bytes r)
             | None => false
             end ;;
      collect_blobs (dict_set (art_sha256 r) (art_size_bytes r) by_digest) refs
  end.

Definition item_ltb (a b : string * Z) : bool :=
  String.ltb a.1 b.1 || (bool_decide (a.1 = b.1) && (a.2 <? b.2)).

(** [_physical_blob_table] *)
Definition physical_blob_table (refs : list ArtifactRef) : result string (list JobBlobRef) :=
  let* by_digest := collect_blobs [] refs in
  map_result
    (fun item => construct (fun b => check_field "blob" (JobBlobRef_ok b) ;; Ok tt)
                   {| jb_sha256 := item.1; jb_size_bytes := item.2 |})
    (sort_by item_ltb by_digest).

(** ** Job manifests *)
Record EvaluationJobManifest := {
  jm_request : EvaluationRequest;
  jm_request_sha256 : string;
  jm_suite : SuiteManifest;
  jm_suite_sha256 : string;
  jm_experiment : ExperimentManifest;
  jm_experiment_sha256 : string;
  jm_environment : EnvironmentFingerprint;
  jm_environment_sha256 : string;
  jm_reward_policy : RewardPolicy;
  jm_reward_policy_sha256 : string;
  jm_harness_commit : string;
  jm_expected_grader_id : string;
  jm_restore_nonce : string;
  jm_plan : EvaluationPlan;
  jm_plan_sha256 : string;
  jm_contract : ScoringContract;
  jm_contract_sha256 : string;
  jm_blobs : list JobBlobRef;
  jm_total_blob_bytes : Z
}.

(** The candidate and the functional inputs. *)
Definition required_references (request : EvaluationRequest) (p : EvaluationPlan) : list ArtifactRef :=
  req_candidate request :: (efc_input <$> ep_functional_cases p).

Definition differ {A} `{EqDecision A} (a b : A) : bool := negb (bool_decide (a = b)).

(** The first declared digest that is not the digest of its embedded value. *)
Fixpoint check_digests (l : list (string * string * string)) : result string unit :=
  match l with
  | [] => Ok tt
  | (declared, actual, label) :: l =>
      raise ("job " ++ label ++ " digest does not match its embedded value") when differ declared actual ;;
      check_digests l
  end.

(** The part of the validator that relates the request to the experiment's seeds. *)
Definition check_seed_plan (r : EvaluationRequest) (x : ExperimentManifest) (p : EvaluationPlan) :
    result string unit :=
  match dict_get (dict_of ((fun sp => (sp_training_seed sp, sp)) <$> ex_seed_plans x)) (req_training_seed r) with
  | None => Err "job request uses a training seed outside the experiment"
  | Some seed_plan =>
      raise "job request checkpoint differs from its training seed plan"
        when differ (req_checkpoint_id r) (sp_checkpoint_id seed_plan)
             || differ (req_checkpoint_artifact_sha256 r) (sp_checkpoint_artifact_sha256 seed_plan) ;;
      raise "job request sample index is outside the experiment"
        when Z.of_nat (length (sp_generation_seeds seed_plan)) <=? req_sample_index r ;;
      raise "job request generation seed differs from the experiment"
        when differ (Some (req_generation_seed r))
                    (sp_generation_seeds seed_plan !! Z.to_nat (req_sample_index r)) ;;
      raise "job request attempt index exceeds the task limit" when ep_max_attempts p <=? req_attempt_index r ;;
      raise "job request parent linkage does not match its attempt index"
        when negb (eqb (req_attempt_index r =? 0) (is_none (req_parent_request_id r))) ;;
      Ok tt
  end.

(** The part that looks the task up in the frozen suite. *)
Definition check_suite_task (m : EvaluationJobManifest) : result string unit :=
  match filter (fun t => stk_task_id t = req_task_id (jm_request m)) (su_tasks (jm_suite m)) with
  | [task] =>
      raise "job task plan or contract differs from the frozen suite"
        when differ (stk_task_version task, stk_task_bundle_sha256 task, stk_evaluation_plan_sha256 task,
                     stk_scoring_contract_sha256 task, stk_family task, stk_program_type task)
                    (ep_task_version (jm_plan m), ep_task_bundle_sha256 (jm_plan m), jm_plan_sha256 m,
                     jm_contract_sha256 m, ep_family (jm_plan m), pc_program_type (ep_program (jm_plan m))) ;;
      Ok tt
  | _ => Err "job request task is not uniquely present in the suite"
  end.

Definition ZERO_NONCE : string := "0000000000000000000000000000000000000000000000000000000000000000".

(** [EvaluationJobManifest.all_embedded_identities_are_cross_bound]; the strict policy
    ids are one literal, so the comparison of them never fires. *)
Definition all_embedded_identities_are_cross_bound (m : EvaluationJobManifest) : result string unit :=
  let r := jm_request m in
  let env := jm_environment m in
  let x := jm_experiment m in
  let p := jm_plan m in
  let c := jm_contract m in
  raise "evaluation job preparation requires a microVM environment"
    when differ (env_isolation env) ISO_MICROVM ;;
  raise "restore nonce cannot use the all-zero placeholder"
    when bool_decide (jm_restore_nonce m = ZERO_NONCE) ;;
  raise "job request and environment IDs differ"
    when differ (req_environment_id r) (env_environment_id env) ;;
  raise "job plan and environment IDs differ" when differ (ep_environment_id p) (env_environment_id env) ;;
  raise "bpfix evaluation jobs require a pinned bpfix commit"
    when bool_decide (req_diagnostic_condition r = diag_bpfix) && is_none (env_bpfix_commit env) ;;
  let task_identity := (req_task_id r, req_task_version r, req_task_bundle_sha256 r) in
  raise "job request, plan, and scoring-contract task identities differ"
    when differ task_identity (ep_task_id p, ep_task_version p, ep_task_bundle_sha256 p)
         || differ task_identity (sc_task_id c, sc_task_version c, sc_task_bundle_sha256 c) ;;
  let* derived := scoring_contract_for_plan p in
  raise "job scoring contract is not exactly derived from its plan"
    when negb (ScoringContract_eqb c derived) ;;
  raise "evaluation candidate must use the text/x-c media type"
    when differ (art_media_type (req_candidate r)) "text/x-c" ;;
  raise "evaluation candidate exceeds the task candidate byte limit"
    when cc_max_response_bytes (ep_candidate_contract p) <? art_size_bytes (req_candidate r) ;;
  let* request_sha := sha256_json (EvaluationRequest_json r) in
  let* suite_sha := sha256_json (SuiteManifest_json (jm_suite m)) in
  let* experiment_sha := sha256_json (ExperimentManifest_json x) in
  let* environment_sha := sha256_json (EnvironmentFingerprint_json env) in
  let* policy_sha := sha256_json (RewardPolicy_json (jm_reward_policy m)) in
  let* plan_sha := sha256_json (EvaluationPlan_json p) in
  let* contract_sha := sha256_json (ScoringContract_json c) in
  let* _ :=
    check_digests
      [(jm_request_sha256 m, request_sha, "request"); (jm_suite_sha256 m, suite_sha, "suite");
       (jm_experiment_sha256 m, experiment_sha, "experiment");
       (jm_environment_sha256 m, environment_sha, "environment");
       (jm_reward_policy_sha256 m, policy_sha, "reward policy"); (jm_plan_sha256 m, plan_sha, "plan");
       (jm_contract_sha256 m, contract_sha, "contract")] in
  raise "job request does not bind the embedded experiment"
    when differ (req_experiment_id r) (ex_experiment_id x)
         || differ (req_experiment_manifest_sha256 r) (jm_experiment_sha256 m) ;;
  raise "job request and experiment do not bind the embedded suite"
    when differ (req_suite_id r) (su_suite_id (jm_suite m))
         || differ (req_suite_manifest_sha256 r) (jm_suite_sha256 m)
         || differ (ex_suite_id x) (su_suite_id (jm_suite m))
         || differ (ex_suite_manifest_sha256 x) (jm_suite_sha256 m) ;;
  raise "job request generation configuration differs from experiment"
    when differ (req_model_id r) (ex_model_id x)
         || differ (req_model_artifact_sha256 r) (ex_model_artifact_sha256 x)
         || differ (req_sampling_config_sha256 r) (ex_sampling_config_sha256 x)
         || differ (req_diagnostic_condition r) (ex_diagnostic_condition x) ;;
  raise "job experiment or suite does not bind the environment"
    when differ (ex_environment_sha256 x) (jm_environment_sha256 m)
         || differ (su_environment_id (jm_suite m)) (env_environment_id env) ;;
  raise "job reward or strict scoring policy identity differs"
    when differ (ex_reward_policy_id x) (rp_policy_id (jm_reward_policy m))
         || differ (ex_reward_policy_sha256 x) (jm_reward_policy_sha256 m) ;;
  raise "job harness or grader identity differs from experiment"
    when differ (jm_harness_commit m) (ex_harness_commit x)
         || differ (jm_expected_grader_id m) (ex_expected_grader_id x) ;;
  let* grader_id := grader_id_for r env (jm_harness_commit m) in
  raise "job grader identity does not bind request and environment"
    when differ (jm_expected_grader_id m) grader_id ;;
  let* _ := check_seed_plan r x p in
  let* _ := check_suite_task m in
  let* expected_blobs := physical_blob_table (required_references r p) in
  raise "job blob table must exactly cover candidate and functional inputs"
    when differ (jm_blobs m) expected_blobs ;;
  raise "job total blob bytes do not match the exact blob table"
    when differ (jm_total_blob_bytes m) (zsum (jb_size_bytes <$> expected_blobs)) ;;
  Ok tt.

Definition validate_EvaluationJobManifest (m : EvaluationJobManifest) : result string unit :=
  let* _ := validate_EvaluationRequest (jm_request m) in
  check_field "request_sha256" (is_sha256 (jm_request_sha256 m)) ;;
  let* _ := validate_SuiteManifest (jm_suite m) in
  check_field "suite_sha256" (is_sha256 (jm_suite_sha256 m)) ;;
  let* _ := validate_ExperimentManifest (jm_experiment m) in
  check_field "experiment_sha256" (is_sha256 (jm_experiment_sha256 m)) ;;
  let* _ := validate_EnvironmentFingerprint (jm_environment m) in
  check_field "environment_sha256" (is_sha256 (jm_environment_sha256 m)) ;;
  let* _ := validate_RewardPolicy (jm_reward_policy m) in
  check_field "reward_policy_sha256" (is_sha256 (jm_reward_policy_sha256 m)) ;;
  check_field "harness_commit" (is_commit (jm_harness_commit m)) ;;
  check_field "expected_grader_id" (is_sha256 (jm_expected_grader_id m)) ;;
  check_field "restore_nonce" (is_sha256 (jm_restore_nonce m)) ;;
  let* _ := validate_EvaluationPlan (jm_plan m) in
  check_field "plan_sha256" (is_sha256 (jm_plan_sha256 m)) ;;
  let* _ := validate_ScoringContract (jm_contract m) in
  check_field "contract_sha256" (is_sha256 (jm_contract_sha256 m)) ;;
  check_field "blobs" (count_between 1 MAX_JOB_BLOBS (jm_blobs m) && forallb JobBlobRef_ok (jm_blobs m)) ;;
  check_field "total_blob_bytes"
    ((1 <=? jm_total_blob_bytes m) && (jm_total_blob_bytes m <=? MAX_JOB_TOTAL_BLOB_BYTES)) ;;
  all_embedded_identities_are_cross_bound m.

Definition JobBlobRef_json (b : JobBlobRef) : json :=
  JObj [("sha256", JStr (jb_sha256 b)); ("size_bytes", JInt (jb_size_bytes b))].

Definition EvaluationJobManifest_json (m : EvaluationJobManifest) : json :=
  JObj [("schema_version", JStr "bpe.evaluation-job.v1"); ("status", JStr "prepared");
        ("request", EvaluationRequest_json (jm_request m)); ("request_sha256", JStr (jm_request_sha256 m));
        ("suite", SuiteManifest_json (jm_suite m)); ("suite_sha256", JStr (jm_suite_sha256 m));
        ("experiment", ExperimentManifest_json (jm_experiment m));
        ("experiment_sha256", JStr (jm_experiment_sha256 m));
        ("environment", EnvironmentFingerprint_json (jm_environment m));
        ("environment_sha256", JStr (jm_environment_sha256 m));
        ("reward_policy", RewardPolicy_json (jm_reward_policy m));
        ("reward_policy_sha256", JStr (jm_reward_policy_sha256 m));
        ("harness_commit", JStr (jm_harness_commit m));
        ("expected_grader_id", JStr (jm_expected_grader_id m));
        ("restore_nonce", JStr (jm_restore_nonce m)); ("plan", EvaluationPlan_json (jm_plan m));
        ("plan_sha256", JStr (jm_plan_sha256 m)); ("contract", ScoringContract_json (jm_contract m));
        ("contract_sha256", JStr (jm_contract_sha256 m));
        ("blobs", JArr (map JobBlobRef_json (jm_blobs m)));
        ("total_blob_bytes", JInt (jm_total_blob_bytes m)); ("execution_authorized", JBool false);
        ("authoritative", JBool false)].

(** [build_evaluation_job_manifest] *)
Definition build_evaluation_job_manifest (request : EvaluationRequest) (suite : SuiteManifest)
    (experiment : ExperimentManifest) (environment : EnvironmentFingerprint) (reward_policy : RewardPolicy)
    (restore_nonce : string) (plan : EvaluationPlan) (contract : ScoringContract) :
    result string EvaluationJobManifest :=
  let* blobs := physical_blob_table (required_references request plan) in
  let* request_sha := sha256_json (EvaluationRequest_json request) in
  let* suite_sha := sha256_json (SuiteManifest_json suite) in
  let* experiment_sha := sha256_json (ExperimentManifest_json experiment) in
  let* environment_sha := sha256_json (EnvironmentFingerprint_json environment) in
  let* policy_sha := sha256_json (RewardPolicy_json reward_policy) in
  let* grader_id := grader_id_for request environment (ex_harness_commit experiment) in
  let* plan_sha := sha256_json (EvaluationPlan_json plan) in
  let* contract_sha := sha256_json (ScoringContract_json contract) in
  construct validate_EvaluationJobManifest
    {| jm_request := request; jm_request_sha256 := request_sha; jm_suite := suite;
       jm_suite_sha256 := suite_sha; jm_experiment := experiment; jm_experiment_sha256 := experiment_sha;
       jm_environment := environment; jm_environment_sha256 := environment_sha;
       jm_reward_policy := reward_policy; jm_reward_policy_sha256 := policy_sha;
       jm_harness_commit := ex_harness_commit experiment; jm_expected_grader_id := grader_id;
       jm_restore_nonce := restore_nonce; jm_plan := plan; jm_plan_sha256 := plan_sha;
       jm_contract := contract; jm_contract_sha256 := contract_sha; jm_blobs := blobs;
       jm_total_blob_bytes := zsum (jb_size_bytes <$> blobs) |}.

(** ** Loaded jobs *)
Record LoadedJobBlob := { lb_reference : JobBlobRef; lb_content : string }.

Record LoadedEvaluationJob := {
  lj_manifest : EvaluationJobManifest;
  lj_manifest_sha256 : string;
  lj_anchored : bool;
  lj_blobs : list LoadedJobBlob
}.

(** [LoadedEvaluationJob.blob_bytes]; [None] is [KeyError]. *)
Definition blob_bytes (j : LoadedEvaluationJob) (digest : string) : option string :=
  lb_content <$> find_first (fun b => bool_decide (jb_sha256 (lb_reference b) = digest)) (lj_blobs j).

End Job.
