(* ===== verification/Base64.v ===== *)
(** * Unpadded base64url ([_decode_base64url] of [src/bpe/dispatch.py])

    The same function is in [src/bpe/inert_fixture.py].  [base64.b64decode] with
    [validate=True] reads groups of four digits; a last group of two or three
    digits carries one or two bytes and drops its low bits; the re-encoding check
    of the code then rejects text whose dropped bits are not zero. *)
From Stdlib Require Import ZArith String Ascii Lia.
From stdpp Require Import base tactics list strings.
From S2P Require Import Prelude Json Models.
Local Open Scope string_scope.
Local Open Scope Z_scope.

Module Base64.
Import Json Models.

(** A digit of the alphabet [A-Za-z0-9-_] and its value. *)
Definition b64_value (c : ascii) : option Z :=
  let z := code c in
  if (65 <=? z) && (z <=? 90) then Some (z - 65)
  else if (97 <=? z) && (z <=? 122) then Some (z - 71)
  else if (48 <=? z) && (z <=? 57) then Some (z + 4)
  else if z =? 45 then Some 62
  else if z =? 95 then Some 63
  else None.

Definition b64_char (d : Z) : ascii :=
  chr (if d <? 26 then d + 65 else if d <? 52 then d + 71 else if d <? 62 then d - 4
       else if d =? 62 then 45 else 95).

Fixpoint b64_digits (s : string) : option (list Z) :=
  match s with
  | EmptyString => Some []
  | String c s =>
      match b64_value c, b64_digits s with
      | Some d, Some ds => Some (d :: ds)
      | _, _ => None
      end
  end.

Fixpoint b64_text (ds : list Z) : string :=
  match ds with
  | [] => EmptyString
  | d :: ds => String (b64_char d) (b64_text ds)
  end.

(** [binascii.a2b_base64] on the padded text. *)
Fixpoint b64_bytes (ds : list Z) : option (list byte) :=
  match ds with
  | [] => Some []
  | [_] => None
  | [a; b] => Some [byte_of_Z (a * 4 + b / 16)]
  | [a; b; c] => Some [byte_of_Z (a * 4 + b / 16); byte_of_Z (b mod 16 * 16 + c / 4)]
  | a :: b :: c :: d :: rest =>
      match b64_bytes rest with
      | Some bs => Some (byte_of_Z (a * 4 + b / 16) :: byte_of_Z (b mod 16 * 16 + c / 4)
                         :: byte_of_Z (c mod 4 * 64 + d) :: bs)
      | None => None
      end
  end.

(** [base64.urlsafe_b64encode(bs).rstrip("=")], as digits *)
Fixpoint b64_encode (bs : list byte) : list Z :=
  match bs with
  | [] => []
  | [x] => [byte_Z x / 4; byte_Z x mod 4 * 16]
  | [x; y] => [byte_Z x / 4; byte_Z x mod 4 * 16 + byte_Z y / 16; byte_Z y mod 16 * 4]
  | x :: y :: z :: rest =>
      byte_Z x / 4 :: byte_Z x mod 4 * 16 + byte_Z y / 16
      :: byte_Z y mod 16 * 4 + byte_Z z / 64 :: byte_Z z mod 64 :: b64_encode rest
  end.

Definition encode_base64url (bs : list byte) : string := b64_text (b64_encode bs).

(** [_decode_base64url] *)
Definition decode_base64url (value : string) (expected_bytes : nat) (label : string) :
    result string (list byte) :=
  raise (label ++ " must be unpadded base64url") when bool_decide (value = "") ;;
  match b64_digits value with
  | None => Err (label ++ " must be unpadded base64url")
  | Some ds =>
      match b64_bytes ds with
      | None => Err (label ++ " must be unpadded base64url")
      | Some decoded =>
          raise (label ++ " has the wrong decoded length")
            when negb (length decoded =? expected_bytes)%nat ;;
          raise (label ++ " is not canonical base64url")
            when negb (bool_decide (encode_base64url decoded = value)) ;;
          Ok decoded
      end
  end.

(** ** The codec is exact *)
Definition digit (d : Z) : Prop := 0 <= d < 64.

Lemma alphabet_code_chr z : 0 <= z < 256 -> code (chr z) = z.
Proof.
  intros Hz. unfold code, chr. rewrite N_ascii_embedding; lia.
Qed.

Lemma b64_value_char d : digit d -> b64_value (b64_char d) = Some d.
Proof.
  intros Hd. unfold digit in Hd. unfold b64_value, b64_char.
  destruct (Z.ltb_spec d 26); [|destruct (Z.ltb_spec d 52); [|destruct (Z.ltb_spec d 62);
    [|destruct (Z.eqb_spec d 62)]]]; rewrite alphabet_code_chr by lia.
  all: repeat match goal with |- context [?a <=? ?b] => destruct (Z.leb_spec a b); try lia; cbn [andb] end.
  all: f_equal; lia.
Qed.

Lemma b64_digits_text ds : Forall digit ds -> b64_digits (b64_text ds) = Some ds.
Proof. induction 1 as [|d ds Hd _ IH]; cbn; [done|]. by rewrite b64_value_char, IH. Qed.

(** Induction over whole groups of three bytes. *)
Lemma triple_ind (P : list byte -> Prop) :
  P [] -> (forall x, P [x]) -> (forall x y, P [x; y]) ->
  (forall x y z rest, P rest -> P (x :: y :: z :: rest)) -> forall bs, P bs.
Proof.
  intros H0 H1 H2 H3 bs. assert (H : forall n bs, (length bs <= n)%nat -> P bs).
  { clear bs. induction n as [|n IH]; intros [|x [|y [|z bs]]] Hl; cbn in Hl; auto; try lia.
    apply H3, IH. lia. }
  eauto.
Qed.

(** Bounds on the two parts of a byte split at a power of two. *)
Lemma byte_split b m k : 0 < m -> 256 = m * k ->
  0 <= byte_Z b mod m < m /\ 0 <= byte_Z b / m < k /\ byte_Z b = m * (byte_Z b / m) + byte_Z b mod m.
Proof.
  intros Hm Hk. pose proof (byte_Z_range b). split; [apply Z.mod_pos_bound; lia|]. split; [|apply Z.div_mod; lia].
  split; [apply Z.div_pos; lia|]. apply Z.div_lt_upper_bound; lia.
Qed.

Ltac split_byte b m k := pose proof (byte_split b m k ltac:(lia) ltac:(lia)).

Lemma b64_encode_digits bs : Forall digit (b64_encode bs).
Proof.
  unfold digit. induction bs as [|x|x y|x y z rest IH] using triple_ind; cbn [b64_encode]; [done|..].
  - split_byte x 4 64. repeat (apply Forall_cons; split); [cbv beta; lia..|done].
  - split_byte x 4 64. split_byte y 16 16. repeat (apply Forall_cons; split); [cbv beta; lia..|done].
  - split_byte x 4 64. split_byte y 16 16. split_byte z 64 4. repeat (apply Forall_cons; split); [cbv beta; lia..|done].
Qed.

Lemma div_join a b m : 0 < m -> 0 <= b < m -> (a * m + b) / m = a.
Proof. intros Hm Hb. rewrite Z.div_add_l, Z.div_small by lia. lia. Qed.

Lemma mod_join a b m : 0 < m -> 0 <= b < m -> (a * m + b) mod m = b.
Proof. intros Hm Hb. rewrite Z.add_comm, Z_mod_plus_full. by apply Z.mod_small. Qed.

Lemma b64_bytes_encode bs : b64_bytes (b64_encode bs) = Some bs.
Proof.
  induction bs as [|x|x y|x y z rest IH] using triple_ind; cbn [b64_encode b64_bytes]; [done|..].
  - split_byte x 4 64. rewrite Z.div_mul by lia.
    rewrite <-(byte_of_Z_Z x) at 3. do 3 f_equal. lia.
  - split_byte x 4 64. split_byte y 16 16. rewrite div_join, mod_join, Z.div_mul by lia.
    rewrite <-(byte_of_Z_Z x) at 3. rewrite <-(byte_of_Z_Z y) at 3. repeat f_equal; lia.
  - split_byte x 4 64. split_byte y 16 16. split_byte z 64 4.
    rewrite IH, !div_join, !mod_join by lia.
    rewrite <-(byte_of_Z_Z x) at 3. rewrite <-(byte_of_Z_Z y) at 3. rewrite <-(byte_of_Z_Z z) at 3.
    repeat f_equal; lia.
Qed.

Lemma b64_encode_nonempty bs : encode_base64url bs = "" -> bs = [].
Proof. destruct bs as [|x [|y [|z rest]]]; done. Qed.

Lemma decode_base64url_inv value n label bs :
  decode_base64url value n label = Ok bs -> value = encode_base64url bs /\ length bs = n /\ bs <> [].
Proof.
  unfold decode_base64url. intros H. ok_inv. bool_prop. subst. split_and!; [done|by apply Nat.eqb_eq|].
  intros ->. done.
Qed.

(** Signatures and keys have one spelling: [_decode_base64url] returns [bs]
    exactly when the text is the canonical encoding of [bs] and [bs] is a nonempty
    string of the expected length; so two texts never decode to the same bytes. *)
Theorem decode_base64url_exact value n label bs :
  decode_base64url value n label = Ok bs <->
  value = encode_base64url bs /\ length bs = n /\ bs <> [].
Proof.
  split; [apply decode_base64url_inv|]. unfold decode_base64url.
  - intros (-> & Hl & Hne). rewrite bool_decide_false by (intros ?%b64_encode_nonempty; done).
    unfold encode_base64url. rewrite b64_digits_text by apply b64_encode_digits. rewrite b64_bytes_encode, Hl, Nat.eqb_refl.
    by rewrite bool_decide_true.
Qed.

End Base64.
