(* ===== verification/Sql.v ===== *)
(** * Tables of a durable ledger

    The ledgers of [src/bpe/dispatch.py], [src/bpe/inert_fixture.py] and
    [src/bpe/inert_launch.py] are SQLite tables.  A table is the list of its rows
    in insertion order; the constraints of its [CREATE TABLE] statement are an
    instance of [SqlTable].  An [INSERT] that violates a constraint raises
    [sqlite3.IntegrityError] and changes nothing.

    As in SQLite, a [UNIQUE] constraint does not apply to a row in which one of its
    columns is [NULL]: a key is the list of its column values, or [None]. *)
From Stdlib Require Import ZArith String Lia.
From stdpp Require Import base tactics list strings.
From S2P Require Import Prelude.

Lemma existsb_false {A} (f : A -> bool) (t : list A) : existsb f t = false <-> forall x, x ∈ t -> f x = false.
Proof.
  rewrite <- not_true_iff_false, existsb_exists. setoid_rewrite <- list_elem_of_In. split.
  - intros H x Hx. destruct (f x) eqn:E; [|done]. exfalso. eauto.
  - intros H (x & Hx & Hf). rewrite H in Hf by done. done.
Qed.

(** What a [CREATE TABLE] statement declares about single rows and pairs of rows. *)
Class SqlTable (row : Type) := {
  row_check : row -> bool;
  row_keys : list (row -> option (list string))
}.

Section Table.
Context {row : Type} `{SqlTable row}.
Implicit Types (t : list row) (r : row).

(** Some row of [t] has the (non-null) key [k] of [r]. *)
Definition key_taken t r (k : row -> option (list string)) : bool :=
  match k r with
  | None => false
  | Some v => existsb (fun r' => bool_decide (k r' = Some v)) t
  end.

(** [INSERT INTO]: [references] says whether the foreign keys of the row resolve. *)
Definition sql_insert (references : bool) t r : option (list row) :=
  if row_check r && references && negb (existsb (key_taken t r) row_keys)
  then Some (t ++ [r]) else None.

(** The invariant the constraints maintain. *)
Definition keys_distinct t : Prop :=
  forall k, k ∈ row_keys -> forall i j r1 r2 v,
    t !! i = Some r1 -> t !! j = Some r2 -> k r1 = Some v -> k r2 = Some v -> i = j.

Definition table_ok t : Prop := Forall (fun r => row_check r = true) t /\ keys_distinct t.

Lemma table_ok_nil : table_ok [].
Proof. split; [constructor|]. intros k _ i j r1 r2 v Hi. by rewrite lookup_nil in Hi. Qed.

Lemma key_taken_false t r k :
  key_taken t r k = false <-> forall r' v, r' ∈ t -> k r = Some v -> k r' <> Some v.
Proof.
  unfold key_taken. destruct (k r) as [v|]; [|naive_solver].
  rewrite <-not_true_iff_false, existsb_exists. setoid_rewrite bool_decide_eq_true.
  setoid_rewrite <-list_elem_of_In. naive_solver.
Qed.

Lemma sql_insert_Some b t r t' :
  sql_insert b t r = Some t' <->
  t' = t ++ [r] /\ row_check r = true /\ b = true
  /\ (forall k, k ∈ row_keys -> key_taken t r k = false).
Proof.
  assert (Hall : negb (existsb (key_taken t r) row_keys) = true
                 <-> forall k, k ∈ row_keys -> key_taken t r k = false).
  { rewrite negb_true_iff, <-not_true_iff_false, existsb_exists. setoid_rewrite <-list_elem_of_In.
    split; [intros Hn k Hk; destruct (key_taken t r k) eqn:E; [|done]; exfalso; eauto|].
    intros Hn (k & Hk & Ht). rewrite Hn in Ht; done. }
  unfold sql_insert. rewrite <-Hall.
  destruct (row_check r), b, (negb _); cbn; naive_solver.
Qed.

(** A successful [INSERT] keeps the invariant. *)
Lemma sql_insert_ok b t r t' : table_ok t -> sql_insert b t r = Some t' -> table_ok t'.
Proof.
  intros [Hc Hk] (-> & Hr & _ & Hn)%sql_insert_Some. split.
  - apply Forall_app. split; [done|by constructor].
  - intros k Hin i j r1 r2 v Hi Hj H1 H2. specialize (Hn k Hin). rewrite key_taken_false in Hn.
    apply lookup_app_Some in Hi as [Hi|[Hi Hi']]; apply lookup_app_Some in Hj as [Hj|[Hj Hj']].
    + eauto.
    + apply list_lookup_singleton_Some in Hj' as [_ <-]. apply list_elem_of_lookup_2 in Hi. naive_solver.
    + apply list_lookup_singleton_Some in Hi' as [_ <-]. apply list_elem_of_lookup_2 in Hj. naive_solver.
    + apply list_lookup_singleton_Some in Hi' as [Hi' _]. apply list_lookup_singleton_Some in Hj' as [Hj' _]. lia.
Qed.

(** [PRAGMA integrity_check] on the table: no row violates a constraint. *)
Fixpoint keys_distinctb t : bool :=
  match t with
  | [] => true
  | r :: t => negb (existsb (key_taken t r) row_keys) && keys_distinctb t
  end.

Definition table_okb t : bool := forallb row_check t && keys_distinctb t.

Lemma keys_distinctb_iff t : keys_distinctb t = true <-> keys_distinct t.
Proof.
  induction t as [|r t IH]; cbn.
  - split; [|done]. intros _ k _ i j r1 r2 v Hi. by rewrite lookup_nil in Hi.
  - rewrite andb_true_iff, IH, negb_true_iff, <- not_true_iff_false, existsb_exists.
    setoid_rewrite <- list_elem_of_In. split.
    + intros [Hn Hk] k Hin i j r1 r2 v Hi Hj H1 H2.
      assert (Ht : key_taken t r k = false) by (destruct (key_taken t r k) eqn:E; [exfalso|done]; eauto).
      rewrite key_taken_false in Ht.
      destruct i as [|i], j as [|j]; cbn in Hi, Hj; [done| | |f_equal; eauto].
      * injection Hi as <-. apply list_elem_of_lookup_2 in Hj. naive_solver.
      * injection Hj as <-. apply list_elem_of_lookup_2 in Hi. naive_solver.
    + intros Hk. split.
      * intros (k & Hin & Ht). unfold key_taken in Ht. destruct (k r) as [v|] eqn:Hr; [|done].
        apply existsb_exists in Ht as (r' & Hr' & Hv%bool_decide_eq_true).
        apply list_elem_of_In, list_elem_of_lookup_1 in Hr' as (i & Hi).
        assert (0%nat = S i) by (eapply (Hk k Hin 0%nat (S i) r r' v); done). lia.
      * intros k Hin i j r1 r2 v Hi Hj H1 H2. assert (S i = S j) by (eapply (Hk k Hin); done). lia.
Qed.

Lemma table_okb_iff t : table_okb t = true <-> table_ok t.
Proof.
  unfold table_okb, table_ok. rewrite andb_true_iff, keys_distinctb_iff, forallb_forall, Forall_forall.
  by setoid_rewrite list_elem_of_In.
Qed.

(** A key column without [NULL] has pairwise distinct values. *)
Lemma keys_distinct_NoDup t (f : row -> string) :
  keys_distinct t -> (fun r => Some [f r]) ∈ row_keys -> NoDup (f <$> t).
Proof.
  intros Hk Hin. apply NoDup_alt. intros i j x Hi Hj.
  apply list_lookup_fmap_Some in Hi as (r1 & -> & Hi). apply list_lookup_fmap_Some in Hj as (r2 & Hx & Hj).
  eapply (Hk _ Hin i j r1 r2); cbn; eauto. by rewrite Hx.
Qed.

(** Two rows with one key are one row. *)
Lemma keys_distinct_eq t k r1 r2 v :
  keys_distinct t -> k ∈ row_keys -> r1 ∈ t -> r2 ∈ t -> k r1 = Some v -> k r2 = Some v -> r1 = r2.
Proof.
  intros Hk Hin [i Hi]%list_elem_of_lookup_1 [j Hj]%list_elem_of_lookup_1 H1 H2.
  assert (i = j) by eauto. subst. congruence.
Qed.

(** [SELECT ... WHERE key = v]: the row with a key value. *)
Definition select_by (f : row -> string) t (v : string) : option row :=
  find_first (fun r => bool_decide (f r = v)) t.

Lemma select_by_Some f t v r : select_by f t v = Some r -> r ∈ t /\ f r = v.
Proof.
  unfold select_by. intros (l1 & l2 & -> & Hb & _)%find_first_Some. bool_prop.
  split; [|done]. apply elem_of_app. right. by left.
Qed.

Lemma select_by_None f t v : select_by f t v = None <-> forall r, r ∈ t -> f r <> v.
Proof. unfold select_by. rewrite find_first_None, Forall_forall. by setoid_rewrite bool_decide_eq_false. Qed.

Lemma select_by_elem f t r :
  keys_distinct t -> (fun r => Some [f r]) ∈ row_keys -> r ∈ t -> select_by f t (f r) = Some r.
Proof.
  intros Hk Hin Hr. destruct (select_by f t (f r)) as [r'|] eqn:E.
  - apply select_by_Some in E as [Hr' He]. f_equal.
    eapply (keys_distinct_eq t _ r' r [f r]); [done|exact Hin|done|done|by cbn; rewrite He|done].
  - unfold select_by in E. apply find_first_None in E. rewrite Forall_forall in E.
    specialize (E r Hr). cbn in E. by bool_prop.
Qed.
End Table.
#[export] Hint Resolve table_ok_nil sql_insert_ok : bpe.
