(* ===== verification/Dispatch.v ===== *)
(** * One-shot dispatch admission ([src/bpe/dispatch.py])

    Execution profiles, signed authorizations, trust stores and the durable claim
    ledger.  Ed25519 is the third-party [cryptography] package: the check of a
    signature is the parameter [ed25519_verify key signature message] of the
    definitions that use it ([false] stands for [InvalidSignature] and for a key
    that [from_public_bytes] rejects).  The wall clock and the nonce generator are
    arguments: the values that one call reads.

    The ledger is the pair of its tables: the high-water mark of
    [dispatch_state] and the rows of [dispatch_claims].  A transaction is a
    function from a ledger to the ledger it commits and the value it returns or
    the exception it raises; a rollback returns the ledger unchanged.  Opening the
    database file, checking its schema and failures of SQLite itself are not
    modelled. *)
From Stdlib Require Import ZArith String Ascii Lia.
From stdpp Require Import base tactics list strings.
From S2P Require Import Prelude Sha256 Json Models Job Base64 Sql.
Local Open Scope string_scope.
Local Open Scope Z_scope.

Module Dispatch.
Import Sha256 Json Models Job Base64.

Definition MAX_AUTHORIZATION_LIFETIME_SECONDS : Z := 15 * 60.
Definition nul : string := String (chr 0) EmptyString.
Definition DISPATCH_SIGNING_DOMAIN : string :=
  "BPE" ++ nul ++ "dispatch-authorization" ++ nul ++ "v1" ++ nul.

Definition within (lo hi z : Z) : bool := (lo <=? z) && (z <=? hi).

(** ["0" * 64] *)
Definition ZERO_SHA256 : string := "0000000000000000000000000000000000000000000000000000000000000000".
Definition ONE_SHA256 : string := "1111111111111111111111111111111111111111111111111111111111111111".

(** ** Exceptions *)
Inductive DispatchError :=
| DispatchAuthorizationError (message : string)
| DispatchLedgerError (message : string)
| DispatchAlreadyClaimed (message : string)
| DispatchExpectationError (message : string)
| ValueError (message : string).

(** [try: r except ValueError: raise e] *)
Definition except_value {A} (r : result string A) (e : DispatchError) : result DispatchError A :=
  match r with Ok a => Ok a | Err _ => Err e end.

(** A [ValueError] that no handler catches. *)
Definition lift_value {A} (r : result string A) : result DispatchError A :=
  match r with Ok a => Ok a | Err m => Err (ValueError m) end.

(** ** Execution profiles *)
Record ExecutionResourceProfile := {
  rs_profile_id : string;
  rs_wall_timeout_ms : Z;
  rs_cpu_time_seconds : Z;
  rs_memory_bytes : Z;
  rs_pids_max : Z;
  rs_open_files_max : Z;
  rs_file_size_bytes : Z;
  rs_stack_bytes : Z;
  rs_stdout_bytes : Z;
  rs_stderr_bytes : Z;
  rs_tmpfs_bytes : Z;
  rs_tmpfs_inodes : Z
}.

(** [ExecutionResourceProfile.limits_are_coherent] *)
Definition limits_are_coherent (r : ExecutionResourceProfile) : result string unit :=
  raise "CPU time cannot exceed the whole wall-clock limit"
    when rs_wall_timeout_ms r <? rs_cpu_time_seconds r * 1000 ;;
  raise "stack limit cannot exceed the memory limit" when rs_memory_bytes r <? rs_stack_bytes r ;;
  raise "one file cannot exceed the entire tmpfs limit" when rs_tmpfs_bytes r <? rs_file_size_bytes r ;;
  Ok tt.

Definition validate_ExecutionResourceProfile (r : ExecutionResourceProfile) : result string unit :=
  check_field "profile_id" (is_stable_id (rs_profile_id r)) ;;
  check_field "wall_timeout_ms" (within 100 600000 (rs_wall_timeout_ms r)) ;;
  check_field "cpu_time_seconds" (within 1 600 (rs_cpu_time_seconds r)) ;;
  check_field "memory_bytes" (within (64 * 1024 * 1024) (64 * 1024 ^ 3) (rs_memory_bytes r)) ;;
  check_field "pids_max" (within 1 4096 (rs_pids_max r)) ;;
  check_field "open_files_max" (within 8 65536 (rs_open_files_max r)) ;;
  check_field "file_size_bytes" (within 1024 (1024 ^ 3) (rs_file_size_bytes r)) ;;
  check_field "stack_bytes" (within (64 * 1024) (64 * 1024 ^ 2) (rs_stack_bytes r)) ;;
  check_field "stdout_bytes" (within 0 (16 * 1024 ^ 2) (rs_stdout_bytes r)) ;;
  check_field "stderr_bytes" (within 0 (16 * 1024 ^ 2) (rs_stderr_bytes r)) ;;
  check_field "tmpfs_bytes" (within (1024 ^ 2) (16 * 1024 ^ 3) (rs_tmpfs_bytes r)) ;;
  check_field "tmpfs_inodes" (within 16 1000000 (rs_tmpfs_inodes r)) ;;
  limits_are_coherent r.

Definition ExecutionResourceProfile_json (r : ExecutionResourceProfile) : json :=
  JObj [("schema_version", JStr "bpe.execution-resource-profile.v1");
        ("profile_id", JStr (rs_profile_id r)); ("wall_timeout_ms", JInt (rs_wall_timeout_ms r));
        ("cpu_time_seconds", JInt (rs_cpu_time_seconds r)); ("memory_bytes", JInt (rs_memory_bytes r));
        ("swap_bytes", JInt 0); ("pids_max", JInt (rs_pids_max r));
        ("open_files_max", JInt (rs_open_files_max r)); ("file_size_bytes", JInt (rs_file_size_bytes r));
        ("stack_bytes", JInt (rs_stack_bytes r)); ("stdout_bytes", JInt (rs_stdout_bytes r));
        ("stderr_bytes", JInt (rs_stderr_bytes r)); ("tmpfs_bytes", JInt (rs_tmpfs_bytes r));
        ("tmpfs_inodes", JInt (rs_tmpfs_inodes r)); ("network_enabled", JBool false);
        ("core_dumps_enabled", JBool false)].

Record SnapshotComponents := {
  sn_vm_state_sha256 : string;
  sn_memory_sha256 : string;
  sn_kernel_image_sha256 : string;
  sn_kernel_config_sha256 : string;
  sn_kernel_btf_sha256 : string;
  sn_rootfs_sha256 : string;
  sn_block_device_config_sha256 : string;
  sn_vsock_config_sha256 : string
}.

Definition SnapshotComponents_ok (s : SnapshotComponents) : bool :=
  is_sha256 (sn_vm_state_sha256 s) && is_sha256 (sn_memory_sha256 s)
  && is_sha256 (sn_kernel_image_sha256 s) && is_sha256 (sn_kernel_config_sha256 s)
  && is_sha256 (sn_kernel_btf_sha256 s) && is_sha256 (sn_rootfs_sha256 s)
  && is_sha256 (sn_block_device_config_sha256 s) && is_sha256 (sn_vsock_config_sha256 s).

Definition SnapshotComponents_json (s : SnapshotComponents) : json :=
  JObj [("vm_state_sha256", JStr (sn_vm_state_sha256 s)); ("memory_sha256", JStr (sn_memory_sha256 s));
        ("kernel_image_sha256", JStr (sn_kernel_image_sha256 s));
        ("kernel_config_sha256", JStr (sn_kernel_config_sha256 s));
        ("kernel_btf_sha256", JStr (sn_kernel_btf_sha256 s)); ("rootfs_sha256", JStr (sn_rootfs_sha256 s));
        ("block_device_config_sha256", JStr (sn_block_device_config_sha256 s));
        ("vsock_config_sha256", JStr (sn_vsock_config_sha256 s))].

Record ExecutionProfile := {
  xp_profile_id : string;
  xp_worker_pool_audience : string;
  xp_environment : EnvironmentFingerprint;
  xp_environment_sha256 : string;
  xp_resources : ExecutionResourceProfile;
  xp_resource_profile_sha256 : string;
  xp_firecracker_version : string;
  xp_firecracker_sha256 : string;
  xp_jailer_sha256 : string;
  xp_guest_agent_sha256 : string;
  xp_seccomp_policy_sha256 : string;
  xp_jailer_config_sha256 : string;
  xp_snapshot : SnapshotComponents;
  xp_snapshot_components_sha256 : string;
  xp_host_kernel_release : string;
  xp_host_kernel_sha256 : string;
  xp_host_architecture : string;
  xp_cpu_vendor : string;
  xp_cpu_model : string;
  xp_cpu_template : option string;
  xp_cpu_features : list string;
  xp_snapshot_compatibility_profile : string
}.

(** [tuple(sorted(set(xs))) == xs] *)
Definition sorted_set (l : list string) : bool :=
  bool_decide (sort_by String.ltb (remove_dups l) = l).

(** [ExecutionProfile.profile_is_cross_bound_and_nonexecuting] *)
Definition profile_is_cross_bound_and_nonexecuting (p : ExecutionProfile) : result string unit :=
  let env := xp_environment p in
  let snap := xp_snapshot p in
  raise "execution profile v1 requires a microVM environment"
    when negb (bool_decide (env_isolation env = ISO_MICROVM)) ;;
  raise "execution profile environment lacks a snapshot identity"
    when is_none (env_snapshot_sha256 env) ;;
  let* env_sha := sha256_json (EnvironmentFingerprint_json env) in
  raise "execution profile environment digest is inconsistent"
    when negb (bool_decide (xp_environment_sha256 p = env_sha)) ;;
  let* resources_sha := sha256_json (ExecutionResourceProfile_json (xp_resources p)) in
  raise "execution profile resource digest is inconsistent"
    when negb (bool_decide (xp_resource_profile_sha256 p = resources_sha)) ;;
  raise "environment does not bind the typed resource profile"
    when negb (bool_decide (env_resource_limits_sha256 env = xp_resource_profile_sha256 p)) ;;
  let* snapshot_sha := sha256_json (SnapshotComponents_json snap) in
  raise "execution profile snapshot-component digest is inconsistent"
    when negb (bool_decide (xp_snapshot_components_sha256 p = snapshot_sha)) ;;
  raise "environment snapshot digest does not bind its components"
    when negb (bool_decide (env_snapshot_sha256 env = Some (xp_snapshot_components_sha256 p))) ;;
  raise "execution profile snapshot differs from its environment"
    when negb (bool_decide (sn_kernel_image_sha256 snap = env_kernel_image_sha256 env))
         || negb (bool_decide (sn_kernel_config_sha256 snap = env_kernel_config_sha256 env))
         || negb (bool_decide (sn_kernel_btf_sha256 snap = env_kernel_btf_sha256 env))
         || negb (bool_decide (sn_rootfs_sha256 snap = env_rootfs_sha256 env)) ;;
  raise "execution profile host architecture differs from environment"
    when negb (bool_decide (xp_host_architecture p = env_architecture env)) ;;
  raise "CPU features must be unique and sorted" when negb (sorted_set (xp_cpu_features p)) ;;
  Ok tt.

Definition validate_ExecutionProfile (p : ExecutionProfile) : result string unit :=
  check_field "profile_id" (is_stable_id (xp_profile_id p)) ;;
  check_field "worker_pool_audience" (is_stable_id (xp_worker_pool_audience p)) ;;
  let* _ := validate_EnvironmentFingerprint (xp_environment p) in
  check_field "environment_sha256" (is_sha256 (xp_environment_sha256 p)) ;;
  let* _ := validate_ExecutionResourceProfile (xp_resources p) in
  check_field "resource_profile_sha256" (is_sha256 (xp_resource_profile_sha256 p)) ;;
  check_field "firecracker_version" (len_between 1 128 (xp_firecracker_version p)) ;;
  check_field "firecracker_sha256" (is_sha256 (xp_firecracker_sha256 p)) ;;
  check_field "jailer_sha256" (is_sha256 (xp_jailer_sha256 p)) ;;
  check_field "guest_agent_sha256" (is_sha256 (xp_guest_agent_sha256 p)) ;;
  check_field "seccomp_policy_sha256" (is_sha256 (xp_seccomp_policy_sha256 p)) ;;
  check_field "jailer_config_sha256" (is_sha256 (xp_jailer_config_sha256 p)) ;;
  check_field "snapshot" (SnapshotComponents_ok (xp_snapshot p)) ;;
  check_field "snapshot_components_sha256" (is_sha256 (xp_snapshot_components_sha256 p)) ;;
  check_field "host_kernel_release" (len_between 1 256 (xp_host_kernel_release p)) ;;
  check_field "host_kernel_sha256" (is_sha256 (xp_host_kernel_sha256 p)) ;;
  check_field "host_architecture" (is_stable_id (xp_host_architecture p)) ;;
  check_field "cpu_vendor" (is_stable_id (xp_cpu_vendor p)) ;;
  check_field "cpu_model" (len_between 1 256 (xp_cpu_model p)) ;;
  check_field "cpu_template" (opt_ok is_stable_id (xp_cpu_template p)) ;;
  check_field "cpu_features"
    (within 1 256 (Z.of_nat (length (xp_cpu_features p))) && forallb is_stable_id (xp_cpu_features p)) ;;
  check_field "snapshot_compatibility_profile" (is_stable_id (xp_snapshot_compatibility_profile p)) ;;
  profile_is_cross_bound_and_nonexecuting p.

Definition ExecutionProfile_json (p : ExecutionProfile) : json :=
  JObj [("schema_version", JStr "bpe.execution-profile.v1");
        ("profile_id", JStr (xp_profile_id p)); ("worker_pool_audience", JStr (xp_worker_pool_audience p));
        ("environment", EnvironmentFingerprint_json (xp_environment p));
        ("environment_sha256", JStr (xp_environment_sha256 p));
        ("resources", ExecutionResourceProfile_json (xp_resources p));
        ("resource_profile_sha256", JStr (xp_resource_profile_sha256 p));
        ("firecracker_version", JStr (xp_firecracker_version p));
        ("firecracker_sha256", JStr (xp_firecracker_sha256 p)); ("jailer_sha256", JStr (xp_jailer_sha256 p));
        ("guest_agent_sha256", JStr (xp_guest_agent_sha256 p));
        ("seccomp_policy_sha256", JStr (xp_seccomp_policy_sha256 p));
        ("jailer_config_sha256", JStr (xp_jailer_config_sha256 p));
        ("snapshot", SnapshotComponents_json (xp_snapshot p));
        ("snapshot_components_sha256", JStr (xp_snapshot_components_sha256 p));
        ("host_kernel_release", JStr (xp_host_kernel_release p));
        ("host_kernel_sha256", JStr (xp_host_kernel_sha256 p));
        ("host_architecture", JStr (xp_host_architecture p)); ("vcpu_count", JInt 1);
        ("smt_enabled", JBool false); ("cpu_vendor", JStr (xp_cpu_vendor p));
        ("cpu_model", JStr (xp_cpu_model p)); ("cpu_template", jopt JStr (xp_cpu_template p));
        ("cpu_features", JArr (map JStr (xp_cpu_features p)));
        ("snapshot_compatibility_profile", JStr (xp_snapshot_compatibility_profile p));
        ("execution_implemented", JBool false); ("authoritative_ready", JBool false)].

(** ** Signed authorizations *)
Inductive DispatchPurpose := training | development | calibration | validation | sealed_eval | benchmark.

#[export] Instance DispatchPurpose_eq_dec : EqDecision DispatchPurpose.
Proof. solve_decision. Defined.

Definition DispatchPurpose_value (p : DispatchPurpose) : string :=
  match p with
  | training => "training" | development => "development" | calibration => "calibration"
  | validation => "validation" | sealed_eval => "sealed_eval" | benchmark => "benchmark"
  end.

(** What an authorization is bound to: the ten fields that the payload, the
    expectation and the receipt share. *)
Record DispatchExpectation := {
  dx_job_manifest_sha256 : string;
  dx_request_sha256 : string;
  dx_experiment_sha256 : string;
  dx_environment_sha256 : string;
  dx_execution_profile_sha256 : string;
  dx_resource_profile_sha256 : string;
  dx_purpose : DispatchPurpose;
  dx_worker_pool_audience : string;
  dx_policy_id : string;
  dx_policy_sha256 : string
}.

#[export] Instance DispatchExpectation_eq_dec : EqDecision DispatchExpectation.
Proof. solve_decision. Defined.

Definition binding_fields (b : DispatchExpectation) : list (string * json) :=
  [("job_manifest_sha256", JStr (dx_job_manifest_sha256 b)); ("request_sha256", JStr (dx_request_sha256 b));
   ("experiment_sha256", JStr (dx_experiment_sha256 b));
   ("environment_sha256", JStr (dx_environment_sha256 b));
   ("execution_profile_sha256", JStr (dx_execution_profile_sha256 b));
   ("resource_profile_sha256", JStr (dx_resource_profile_sha256 b));
   ("purpose", JStr (DispatchPurpose_value (dx_purpose b)));
   ("worker_pool_audience", JStr (dx_worker_pool_audience b)); ("policy_id", JStr (dx_policy_id b));
   ("policy_sha256", JStr (dx_policy_sha256 b))].

Definition binding_ok (b : DispatchExpectation) : bool :=
  is_sha256 (dx_job_manifest_sha256 b) && is_sha256 (dx_request_sha256 b)
  && is_sha256 (dx_experiment_sha256 b) && is_sha256 (dx_environment_sha256 b)
  && is_sha256 (dx_execution_profile_sha256 b) && is_sha256 (dx_resource_profile_sha256 b)
  && is_stable_id (dx_worker_pool_audience b) && is_stable_id (dx_policy_id b)
  && is_sha256 (dx_policy_sha256 b).

Record DispatchAuthorizationPayload := {
  pl_authorization_id : string;
  pl_dispatch_nonce : string;
  pl_binding : DispatchExpectation;
  pl_issued_at_unix : Z;
  pl_not_before_unix : Z;
  pl_expires_at_unix : Z;
  pl_retry_index : Z;
  pl_retry_of_authorization_id : option string;
  pl_retry_of_claim_sha256 : option string
}.

#[export] Instance DispatchAuthorizationPayload_eq_dec : EqDecision DispatchAuthorizationPayload.
Proof. solve_decision. Defined.

(** The retry index and its two parent fields disagree. *)
Definition lineage_differs (index : Z) (parent_id parent_claim : option string) : bool :=
  ((index =? 0) && (negb (is_none parent_id) || negb (is_none parent_claim)))
  || ((0 <? index) && (is_none parent_id || is_none parent_claim)).

(** [DispatchAuthorizationPayload.time_and_retry_lineage_are_closed] *)
Definition time_and_retry_lineage_are_closed (p : DispatchAuthorizationPayload) : result string unit :=
  raise "authorization times must be ordered"
    when negb ((pl_issued_at_unix p <=? pl_not_before_unix p)
               && (pl_not_before_unix p <? pl_expires_at_unix p)) ;;
  raise "authorization validity exceeds the fixed lifetime"
    when MAX_AUTHORIZATION_LIFETIME_SECONDS <? pl_expires_at_unix p - pl_issued_at_unix p ;;
  raise "dispatch nonce cannot use the all-zero placeholder"
    when bool_decide (pl_dispatch_nonce p = ZERO_SHA256) ;;
  raise "retry index, parent authorization, and parent claim must agree"
    when lineage_differs (pl_retry_index p) (pl_retry_of_authorization_id p) (pl_retry_of_claim_sha256 p) ;;
  raise "an authorization cannot name itself as its retry parent"
    when bool_decide (pl_retry_of_authorization_id p = Some (pl_authorization_id p)) ;;
  raise "retry parent claim cannot use the all-zero placeholder"
    when bool_decide (pl_retry_of_claim_sha256 p = Some ZERO_SHA256) ;;
  Ok tt.

Definition validate_DispatchAuthorizationPayload (p : DispatchAuthorizationPayload) : result string unit :=
  check_field "authorization_id" (is_stable_id (pl_authorization_id p)) ;;
  check_field "dispatch_nonce" (is_sha256 (pl_dispatch_nonce p)) ;;
  check_field "bindings" (binding_ok (pl_binding p)) ;;
  check_field "issued_at_unix" (0 <=? pl_issued_at_unix p) ;;
  check_field "not_before_unix" (0 <=? pl_not_before_unix p) ;;
  check_field "expires_at_unix" (0 <=? pl_expires_at_unix p) ;;
  check_field "retry_index" (within 0 16 (pl_retry_index p)) ;;
  check_field "retry_of_authorization_id" (opt_ok is_stable_id (pl_retry_of_authorization_id p)) ;;
  check_field "retry_of_claim_sha256" (opt_ok is_sha256 (pl_retry_of_claim_sha256 p)) ;;
  time_and_retry_lineage_are_closed p.

Definition DispatchAuthorizationPayload_json (p : DispatchAuthorizationPayload) : json :=
  JObj (app [("schema_version", JStr "bpe.dispatch-authorization-payload.v1");
             ("authorization_id", JStr (pl_authorization_id p));
             ("dispatch_nonce", JStr (pl_dispatch_nonce p))]
       (app (binding_fields (pl_binding p))
            [("issued_at_unix", JInt (pl_issued_at_unix p)); ("not_before_unix", JInt (pl_not_before_unix p));
             ("expires_at_unix", JInt (pl_expires_at_unix p)); ("retry_index", JInt (pl_retry_index p));
             ("retry_of_authorization_id", jopt JStr (pl_retry_of_authorization_id p));
             ("retry_of_claim_sha256", jopt JStr (pl_retry_of_claim_sha256 p))])).

(** [_dispatch_binding_sha256] *)
Definition dispatch_binding_sha256 (b : DispatchExpectation) : result string string :=
  sha256_json (JObj (("schema_version", JStr "bpe.dispatch-binding.v1") :: binding_fields b)).

(** [^[A-Za-z0-9_-]{n}[last]$]: every character a digit, the last one of [last]. *)
Definition base64url_field (n : nat) (last : list ascii) (s : string) : bool :=
  (String.length s =? S n)%nat && negb (is_none (b64_digits s))
  && match String.get n s with Some c => bool_decide (c ∈ last) | None => false end.

Definition PUBLIC_KEY_LAST : list ascii :=
  ["A"; "E"; "I"; "M"; "Q"; "U"; "Y"; "c"; "g"; "k"; "o"; "s"; "w"; "0"; "4"; "8"]%char.
Definition SIGNATURE_LAST : list ascii := ["A"; "Q"; "g"; "w"]%char.

Record SignedDispatchAuthorization := {
  sa_key_id : string;
  sa_payload : DispatchAuthorizationPayload;
  sa_payload_sha256 : string;
  sa_signature_base64url : string
}.

#[export] Instance SignedDispatchAuthorization_eq_dec : EqDecision SignedDispatchAuthorization.
Proof. solve_decision. Defined.

(** [SignedDispatchAuthorization] with [signature_is_unpadded_base64url] and
    [payload_digest_is_exact] *)
Definition validate_SignedDispatchAuthorization (a : SignedDispatchAuthorization) : result string unit :=
  check_field "key_id" (is_stable_id (sa_key_id a)) ;;
  let* _ := validate_DispatchAuthorizationPayload (sa_payload a) in
  check_field "payload_sha256" (is_sha256 (sa_payload_sha256 a)) ;;
  check_field "signature_base64url" (base64url_field 85 SIGNATURE_LAST (sa_signature_base64url a)) ;;
  let* _ := decode_base64url (sa_signature_base64url a) 64 "signature" in
  let* payload_sha := sha256_json (DispatchAuthorizationPayload_json (sa_payload a)) in
  raise "signed authorization payload digest is inconsistent"
    when negb (bool_decide (sa_payload_sha256 a = payload_sha)) ;;
  Ok tt.

Definition SignedDispatchAuthorization_json (a : SignedDispatchAuthorization) : json :=
  JObj [("schema_version", JStr "bpe.signed-dispatch-authorization.v1"); ("algorithm", JStr "Ed25519");
        ("key_id", JStr (sa_key_id a)); ("payload", DispatchAuthorizationPayload_json (sa_payload a));
        ("payload_sha256", JStr (sa_payload_sha256 a));
        ("signature_base64url", JStr (sa_signature_base64url a))].

(** ** Trust stores *)
Record DispatchTrustKey := {
  tk_key_id : string;
  tk_public_key_base64url : string;
  tk_valid_from_unix : Z;
  tk_valid_until_unix : Z;
  tk_revoked : bool
}.

(** [DispatchTrustKey] with [public_key_is_unpadded_base64url] and
    [key_interval_is_nonempty] *)
Definition validate_DispatchTrustKey (k : DispatchTrustKey) : result string unit :=
  check_field "key_id" (is_stable_id (tk_key_id k)) ;;
  check_field "public_key_base64url" (base64url_field 42 PUBLIC_KEY_LAST (tk_public_key_base64url k)) ;;
  let* _ := decode_base64url (tk_public_key_base64url k) 32 "public key" in
  check_field "valid_from_unix" (0 <=? tk_valid_from_unix k) ;;
  check_field "valid_until_unix" (0 <=? tk_valid_until_unix k) ;;
  raise "dispatch trust-key validity interval is empty"
    when tk_valid_until_unix k <=? tk_valid_from_unix k ;;
  Ok tt.

Definition DispatchTrustKey_json (k : DispatchTrustKey) : json :=
  JObj [("key_id", JStr (tk_key_id k)); ("algorithm", JStr "Ed25519");
        ("public_key_base64url", JStr (tk_public_key_base64url k));
        ("valid_from_unix", JInt (tk_valid_from_unix k)); ("valid_until_unix", JInt (tk_valid_until_unix k));
        ("revoked", JBool (tk_revoked k))].

Record DispatchTrustStore := {
  ts_trust_store_id : string;
  ts_keys : list DispatchTrustKey
}.

(** [DispatchTrustStore.key_identities_are_unique] *)
Definition key_identities_are_unique (s : DispatchTrustStore) : result string unit :=
  raise "dispatch trust-store key IDs must be unique" when negb (unique (tk_key_id <$> ts_keys s)) ;;
  raise "dispatch trust-store public keys must be unique"
    when negb (unique (tk_public_key_base64url <$> ts_keys s)) ;;
  Ok tt.

Definition validate_DispatchTrustStore (s : DispatchTrustStore) : result string unit :=
  check_field "trust_store_id" (is_stable_id (ts_trust_store_id s)) ;;
  check_field "keys" (within 1 64 (Z.of_nat (length (ts_keys s)))) ;;
  let* _ := for_each validate_DispatchTrustKey (ts_keys s) in
  key_identities_are_unique s.

Definition DispatchTrustStore_json (s : DispatchTrustStore) : json :=
  JObj [("schema_version", JStr "bpe.dispatch-trust-store.v1");
        ("trust_store_id", JStr (ts_trust_store_id s));
        ("keys", JArr (map DispatchTrustKey_json (ts_keys s)))].

(** [dispatch_authorization_signing_bytes] *)
Definition dispatch_authorization_signing_bytes (p : DispatchAuthorizationPayload) : result string string :=
  let* _ := validate_DispatchAuthorizationPayload p in
  let* encoded := canonical_json_bytes (DispatchAuthorizationPayload_json p) in
  Ok (DISPATCH_SIGNING_DOMAIN ++ encoded).

(** [_validate_expectation]: the bindings in an otherwise fixed payload *)
Definition validate_expectation (x : DispatchExpectation) : result string unit :=
  validate_DispatchAuthorizationPayload
    {| pl_authorization_id := "expectation-probe"; pl_dispatch_nonce := ONE_SHA256; pl_binding := x;
       pl_issued_at_unix := 0; pl_not_before_unix := 0; pl_expires_at_unix := 1; pl_retry_index := 0;
       pl_retry_of_authorization_id := None; pl_retry_of_claim_sha256 := None |}.

Record VerifiedDispatchAuthorization := {
  vd_authorization : SignedDispatchAuthorization;
  vd_authorization_sha256 : string;
  vd_payload_sha256 : string;
  vd_trust_store_id : string;
  vd_trust_store_sha256 : string;
  vd_verified_at_unix : Z
}.

(** ** Expectations of a loaded job *)
#[export] Instance EnvironmentFingerprint_eq_dec : EqDecision EnvironmentFingerprint.
Proof. solve_decision. Defined.

Definition blob_identity (b : JobBlobRef) : string * Z := (jb_sha256 b, jb_size_bytes b).

(** The loop over the loaded blobs, with its set [loaded_blobs] and its byte total. *)
Fixpoint check_loaded_blobs (expected loaded : list (string * Z)) (total : Z) (blobs : list LoadedJobBlob) :
    result string (list (string * Z) * Z) :=
  match blobs with
  | [] => Ok (loaded, total)
  | b :: blobs =>
      check_field "reference" (JobBlobRef_ok (lb_reference b)) ;;
      let identity := blob_identity (lb_reference b) in
      let size := Z.of_nat (String.length (lb_content b)) in
      raise "loaded job blob identity or content differs"
        when negb (bool_decide (identity ∈ expected)) || bool_decide (identity ∈ loaded)
             || negb (size =? jb_size_bytes (lb_reference b))
             || negb (bool_decide (sha256_bytes (lb_content b) = jb_sha256 (lb_reference b))) ;;
      check_loaded_blobs expected (loaded ++ [identity])%list (total + size) blobs
  end.

(** [dispatch_expectation_for] *)
Definition dispatch_expectation_for (loaded : LoadedEvaluationJob) (profile : ExecutionProfile)
    (expected_job_manifest_sha256 : string) (purpose : DispatchPurpose)
    (worker_pool_audience policy_id policy_sha256 : string) : result DispatchError DispatchExpectation :=
  let manifest := lj_manifest loaded in
  let* _ :=
    except_value (let* _ := validate_EvaluationJobManifest manifest in validate_ExecutionProfile profile)
                 (DispatchExpectationError "dispatch job or profile is invalid") in
  raise (DispatchExpectationError "dispatch job is not anchored by an expected digest")
    when negb (lj_anchored loaded) ;;
  raise (DispatchExpectationError "dispatch job anchor differs from its manifest")
    when differ (lj_manifest_sha256 loaded) expected_job_manifest_sha256 ;;
  let* manifest_sha := lift_value (sha256_json (EvaluationJobManifest_json manifest)) in
  raise (DispatchExpectationError "dispatch job anchor differs from its manifest")
    when differ (lj_manifest_sha256 loaded) manifest_sha ;;
  let expected := blob_identity <$> jm_blobs manifest in
  let* found :=
    except_value (check_loaded_blobs expected [] 0 (lj_blobs loaded))
                 (DispatchExpectationError "dispatch loaded-job blob set is invalid") in
  raise (DispatchExpectationError "dispatch loaded-job blob set is incomplete")
    when negb (same_set found.1 expected) || negb (found.2 =? jm_total_blob_bytes manifest) ;;
  raise (DispatchExpectationError "dispatch execution profile differs from the anchored job environment")
    when differ (xp_environment profile) (jm_environment manifest)
         || differ (xp_environment_sha256 profile) (jm_environment_sha256 manifest) ;;
  raise (DispatchExpectationError "dispatch execution profile differs from the trusted worker audience")
    when differ (xp_worker_pool_audience profile) worker_pool_audience ;;
  raise (DispatchExpectationError "dispatch resource timeout exceeds the anchored evaluation plan")
    when ep_whole_attempt_timeout_seconds (jm_plan manifest) * 1000
         <? rs_wall_timeout_ms (xp_resources profile) ;;
  let* profile_sha := lift_value (sha256_json (ExecutionProfile_json profile)) in
  let x := {| dx_job_manifest_sha256 := lj_manifest_sha256 loaded;
              dx_request_sha256 := jm_request_sha256 manifest;
              dx_experiment_sha256 := jm_experiment_sha256 manifest;
              dx_environment_sha256 := jm_environment_sha256 manifest;
              dx_execution_profile_sha256 := profile_sha;
              dx_resource_profile_sha256 := xp_resource_profile_sha256 profile;
              dx_purpose := purpose; dx_worker_pool_audience := worker_pool_audience;
              dx_policy_id := policy_id; dx_policy_sha256 := policy_sha256 |} in
  let* _ :=
    except_value (validate_expectation x) (DispatchExpectationError "trusted dispatch policy inputs are invalid") in
  Ok x.

(** ** Receipts and ledger rows *)
Record DispatchAdmissionReceipt := {
  rc_authorization_id : string;
  rc_authorization_sha256 : string;
  rc_authorization_payload_sha256 : string;
  rc_signature_key_id : string;
  rc_trust_store_id : string;
  rc_trust_store_sha256 : string;
  rc_claim_id : string;
  rc_claim_nonce : string;
  rc_claimed_at_unix : Z;
  rc_dispatch_nonce : string;
  rc_binding : DispatchExpectation;
  rc_retry_index : Z;
  rc_retry_of_authorization_id : option string;
  rc_retry_of_claim_sha256 : option string
}.

#[export] Instance DispatchAdmissionReceipt_eq_dec : EqDecision DispatchAdmissionReceipt.
Proof. solve_decision. Defined.

(** [DispatchAdmissionReceipt.claim_identity_is_nonplaceholder] *)
Definition claim_identity_is_nonplaceholder (r : DispatchAdmissionReceipt) : result string unit :=
  raise "dispatch claim identities cannot use all-zero placeholders"
    when bool_decide (rc_claim_id r = ZERO_SHA256) || bool_decide (rc_claim_nonce r = ZERO_SHA256)
         || bool_decide (rc_dispatch_nonce r = ZERO_SHA256) ;;
  raise "dispatch receipt retry lineage is inconsistent"
    when lineage_differs (rc_retry_index r) (rc_retry_of_authorization_id r) (rc_retry_of_claim_sha256 r) ;;
  Ok tt.

Definition validate_DispatchAdmissionReceipt (r : DispatchAdmissionReceipt) : result string unit :=
  check_field "authorization_id" (is_stable_id (rc_authorization_id r)) ;;
  check_field "authorization_sha256" (is_sha256 (rc_authorization_sha256 r)) ;;
  check_field "authorization_payload_sha256" (is_sha256 (rc_authorization_payload_sha256 r)) ;;
  check_field "signature_key_id" (is_stable_id (rc_signature_key_id r)) ;;
  check_field "trust_store_id" (is_stable_id (rc_trust_store_id r)) ;;
  check_field "trust_store_sha256" (is_sha256 (rc_trust_store_sha256 r)) ;;
  check_field "claim_id" (is_sha256 (rc_claim_id r)) ;;
  check_field "claim_nonce" (is_sha256 (rc_claim_nonce r)) ;;
  check_field "claimed_at_unix" (0 <=? rc_claimed_at_unix r) ;;
  check_field "dispatch_nonce" (is_sha256 (rc_dispatch_nonce r)) ;;
  check_field "bindings" (binding_ok (rc_binding r)) ;;
  check_field "retry_index" (within 0 16 (rc_retry_index r)) ;;
  check_field "retry_of_authorization_id" (opt_ok is_stable_id (rc_retry_of_authorization_id r)) ;;
  check_field "retry_of_claim_sha256" (opt_ok is_sha256 (rc_retry_of_claim_sha256 r)) ;;
  claim_identity_is_nonplaceholder r.

Definition DispatchAdmissionReceipt_json (r : DispatchAdmissionReceipt) : json :=
  JObj (app [("schema_version", JStr "bpe.dispatch-admission-receipt.v1");
             ("status", JStr "claimed_not_executed"); ("authorization_id", JStr (rc_authorization_id r));
             ("authorization_sha256", JStr (rc_authorization_sha256 r));
             ("authorization_payload_sha256", JStr (rc_authorization_payload_sha256 r));
             ("signature_key_id", JStr (rc_signature_key_id r)); ("trust_store_id", JStr (rc_trust_store_id r));
             ("trust_store_sha256", JStr (rc_trust_store_sha256 r)); ("claim_id", JStr (rc_claim_id r));
             ("claim_nonce", JStr (rc_claim_nonce r)); ("claimed_at_unix", JInt (rc_claimed_at_unix r));
             ("dispatch_nonce", JStr (rc_dispatch_nonce r))]
       (app (binding_fields (rc_binding r))
            [("retry_index", JInt (rc_retry_index r));
             ("retry_of_authorization_id", jopt JStr (rc_retry_of_authorization_id r));
             ("retry_of_claim_sha256", jopt JStr (rc_retry_of_claim_sha256 r));
             ("signature_verified", JBool true); ("execution_started", JBool false);
             ("authoritative", JBool false)])).

(** A row of [dispatch_claims] *)
Record ClaimRow := {
  cl_authorization_id : string;
  cl_authorization_sha256 : string;
  cl_payload_sha256 : string;
  cl_signature_key_id : string;
  cl_trust_store_id : string;
  cl_trust_store_sha256 : string;
  cl_dispatch_nonce : string;
  cl_claim_id : string;
  cl_claim_nonce : string;
  cl_claimed_at_unix : Z;
  cl_receipt_sha256 : string;
  cl_job_manifest_sha256 : string;
  cl_binding_sha256 : string;
  cl_policy_id : string;
  cl_policy_sha256 : string;
  cl_retry_index : Z;
  cl_retry_of_authorization_id : option string;
  cl_retry_of_claim_sha256 : option string
}.

#[export] Instance ClaimRow_eq_dec : EqDecision ClaimRow.
Proof. solve_decision. Defined.

(** The [CHECK] constraints of [_CREATE_LEDGER_TABLE] *)
Definition claim_row_check (r : ClaimRow) : bool :=
  let len64 s := str_len s =? 64 in
  len64 (cl_authorization_sha256 r) && len64 (cl_payload_sha256 r) && len64 (cl_trust_store_sha256 r)
  && len64 (cl_dispatch_nonce r) && len64 (cl_claim_id r) && len64 (cl_claim_nonce r)
  && len64 (cl_receipt_sha256 r) && len64 (cl_job_manifest_sha256 r) && len64 (cl_binding_sha256 r)
  && len64 (cl_policy_sha256 r) && (0 <=? cl_claimed_at_unix r) && (0 <=? cl_retry_index r)
  && opt_ok len64 (cl_retry_of_claim_sha256 r)
  && (((cl_retry_index r =? 0) && is_none (cl_retry_of_authorization_id r)
       && is_none (cl_retry_of_claim_sha256 r))
      || ((0 <? cl_retry_index r) && negb (is_none (cl_retry_of_authorization_id r))
          && negb (is_none (cl_retry_of_claim_sha256 r)))).

(** Its [PRIMARY KEY] and [UNIQUE] constraints *)
Definition claim_row_keys : list (ClaimRow -> option (list string)) :=
  [(fun r => Some [cl_authorization_id r]);
   (fun r => Some [cl_authorization_sha256 r]);
   (fun r => Some [cl_dispatch_nonce r]);
   (fun r => Some [cl_claim_id r]);
   (fun r => Some [cl_claim_nonce r]);
   (fun r => Some [cl_receipt_sha256 r]);
   (fun r => a ← cl_retry_of_authorization_id r; Some [a]);
   (fun r => c ← cl_retry_of_claim_sha256 r; Some [c]);
   (fun r => Some [cl_authorization_id r; cl_receipt_sha256 r])].

#[export] Instance claim_table : SqlTable ClaimRow := {
  row_check := claim_row_check;
  row_keys := claim_row_keys
}.

(** Its [FOREIGN KEY]: a row with both parent columns references an existing row. *)
Definition claim_references (t : list ClaimRow) (r : ClaimRow) : bool :=
  match cl_retry_of_authorization_id r, cl_retry_of_claim_sha256 r with
  | Some a, Some c =>
      existsb (fun p => bool_decide (cl_authorization_id p = a) && bool_decide (cl_receipt_sha256 p = c)) t
  | _, _ => true
  end.

(** The tables of the ledger; [dispatch_state] has its one row. *)
Record DispatchClaimLedger := {
  clock_high_water_unix : Z;
  dispatch_claims : list ClaimRow
}.

(** The ledger that [DispatchClaimLedger.__init__] creates. *)
Definition new_ledger : DispatchClaimLedger := {| clock_high_water_unix := 0; dispatch_claims := [] |}.

(** A transaction: the committed ledger and the outcome. *)
Definition outcome (A : Type) : Type := DispatchClaimLedger * result DispatchError A.

Definition set_clock (l : DispatchClaimLedger) (t : Z) : DispatchClaimLedger :=
  {| clock_high_water_unix := t; dispatch_claims := dispatch_claims l |}.

(** The row of a receipt: the column list of the [INSERT] and of [expected_row]. *)
Definition row_of (receipt : DispatchAdmissionReceipt) (receipt_sha256 binding_sha256 : string) : ClaimRow := {|
  cl_authorization_id := rc_authorization_id receipt;
  cl_authorization_sha256 := rc_authorization_sha256 receipt;
  cl_payload_sha256 := rc_authorization_payload_sha256 receipt;
  cl_signature_key_id := rc_signature_key_id receipt;
  cl_trust_store_id := rc_trust_store_id receipt;
  cl_trust_store_sha256 := rc_trust_store_sha256 receipt;
  cl_dispatch_nonce := rc_dispatch_nonce receipt;
  cl_claim_id := rc_claim_id receipt;
  cl_claim_nonce := rc_claim_nonce receipt;
  cl_claimed_at_unix := rc_claimed_at_unix receipt;
  cl_receipt_sha256 := receipt_sha256;
  cl_job_manifest_sha256 := dx_job_manifest_sha256 (rc_binding receipt);
  cl_binding_sha256 := binding_sha256;
  cl_policy_id := dx_policy_id (rc_binding receipt);
  cl_policy_sha256 := dx_policy_sha256 (rc_binding receipt);
  cl_retry_index := rc_retry_index receipt;
  cl_retry_of_authorization_id := rc_retry_of_authorization_id receipt;
  cl_retry_of_claim_sha256 := rc_retry_of_claim_sha256 receipt
|}.

Definition receipt_for (v : VerifiedDispatchAuthorization) (claim_id claim_nonce : string) (claimed_at : Z) :
    DispatchAdmissionReceipt :=
  let p := sa_payload (vd_authorization v) in {|
  rc_authorization_id := pl_authorization_id p;
  rc_authorization_sha256 := vd_authorization_sha256 v;
  rc_authorization_payload_sha256 := vd_payload_sha256 v;
  rc_signature_key_id := sa_key_id (vd_authorization v);
  rc_trust_store_id := vd_trust_store_id v;
  rc_trust_store_sha256 := vd_trust_store_sha256 v;
  rc_claim_id := claim_id;
  rc_claim_nonce := claim_nonce;
  rc_claimed_at_unix := claimed_at;
  rc_dispatch_nonce := pl_dispatch_nonce p;
  rc_binding := pl_binding p;
  rc_retry_index := pl_retry_index p;
  rc_retry_of_authorization_id := pl_retry_of_authorization_id p;
  rc_retry_of_claim_sha256 := pl_retry_of_claim_sha256 p
|}.

(** The [SELECT 1 FROM dispatch_claims WHERE ...] that looks for a consumed identity. *)
Definition claim_conflict (t : list ClaimRow) (r : DispatchAdmissionReceipt) (receipt_sha256 : string) : bool :=
  existsb
    (fun row =>
       bool_decide (cl_authorization_id row = rc_authorization_id r)
       || bool_decide (cl_authorization_sha256 row = rc_authorization_sha256 r)
       || bool_decide (cl_dispatch_nonce row = rc_dispatch_nonce r)
       || bool_decide (cl_claim_id row = rc_claim_id r)
       || bool_decide (cl_claim_nonce row = rc_claim_nonce r)
       || bool_decide (cl_receipt_sha256 row = receipt_sha256)
       || (negb (is_none (rc_retry_of_authorization_id r))
           && bool_decide (cl_retry_of_authorization_id row = rc_retry_of_authorization_id r))
       || (negb (is_none (rc_retry_of_claim_sha256 r))
           && bool_decide (cl_retry_of_claim_sha256 row = rc_retry_of_claim_sha256 r))) t.

(** The retry parent is committed, one index lower, with the same bindings, claimed
    before the retry was issued, and named by its receipt digest. *)
Definition parent_matches (t : list ClaimRow) (p : DispatchAuthorizationPayload) (binding_sha256 : string)
    (parent_id : string) : bool :=
  match select_by cl_authorization_id t parent_id with
  | None => false
  | Some parent =>
      (cl_retry_index parent =? pl_retry_index p - 1)
      && bool_decide (cl_binding_sha256 parent = binding_sha256)
      && (cl_claimed_at_unix parent <=? pl_issued_at_unix p)
      && bool_decide (pl_retry_of_claim_sha256 p = Some (cl_receipt_sha256 parent))
  end.

Definition retry_rejected (t : list ClaimRow) (p : DispatchAuthorizationPayload) (binding_sha256 : string)
    (parent : option string) : bool :=
  match parent with
  | Some parent_id => negb (parent_matches t p binding_sha256 parent_id)
  | None => false
  end.

(** The transaction of [DispatchClaimLedger.claim_authorization], from
    [BEGIN IMMEDIATE] on. *)
Definition claim_transaction (v : VerifiedDispatchAuthorization) (binding_sha256 claim_id claim_nonce : string)
    (claimed_at : Z) (l : DispatchClaimLedger) : outcome DispatchAdmissionReceipt :=
  let p := sa_payload (vd_authorization v) in
  if claimed_at <? 0 then (l, Err (DispatchLedgerError "worker clock returned an invalid Unix time"))
  else if claimed_at <? clock_high_water_unix l then
    (l, Err (DispatchLedgerError "worker clock moved behind its durable high-water mark"))
  else
    let l1 := set_clock l claimed_at in
    if negb ((pl_not_before_unix p <=? claimed_at) && (claimed_at <? pl_expires_at_unix p)) then
      (l1, Err (DispatchLedgerError "authorization is outside its validity window at durable claim"))
    else
      match construct validate_DispatchAdmissionReceipt (receipt_for v claim_id claim_nonce claimed_at) with
      | Err _ => (l1, Err (DispatchLedgerError "dispatch claim identity is invalid"))
      | Ok receipt =>
          match sha256_json (DispatchAdmissionReceipt_json receipt) with
          | Err m => (l, Err (ValueError m))
          | Ok receipt_sha256 =>
              if claim_conflict (dispatch_claims l1) receipt receipt_sha256 then
                (l1, Err (DispatchAlreadyClaimed
                            "dispatch authorization, nonce, claim, or retry parent was already consumed"))
              else if retry_rejected (dispatch_claims l1) p binding_sha256 (rc_retry_of_authorization_id receipt) then
                (l1, Err (DispatchLedgerError
                            ("dispatch retry parent or claim receipt is missing, misbound, "
                             ++ "predates its claim, or has the wrong index")))
              else
                let row := row_of receipt receipt_sha256 binding_sha256 in
                match sql_insert (claim_references (dispatch_claims l1) row) (dispatch_claims l1) row with
                | None => (l, Err (DispatchLedgerError "dispatch claim violated ledger integrity"))
                | Some rows =>
                    ({| clock_high_water_unix := claimed_at; dispatch_claims := rows |}, Ok receipt)
                end
          end
      end.

(** [DispatchClaimLedger._advance_clock] *)
Definition advance_clock (observed : Z) (l : DispatchClaimLedger) : outcome unit :=
  if observed <? 0 then (l, Err (DispatchLedgerError "worker clock returned an invalid Unix time"))
  else if observed <? clock_high_water_unix l then
    (l, Err (DispatchLedgerError "worker clock moved behind its durable high-water mark"))
  else (set_clock l observed, Ok tt).

(** [DispatchClaimLedger.verify_committed_receipt] *)
Definition verify_committed_receipt (receipt : DispatchAdmissionReceipt) (l : DispatchClaimLedger) :
    result DispatchError string :=
  let* receipt_sha256 :=
    except_value (let* r := construct validate_DispatchAdmissionReceipt receipt in
                  sha256_json (DispatchAdmissionReceipt_json r))
                 (DispatchLedgerError "dispatch admission receipt is invalid") in
  let* binding_sha256 := lift_value (dispatch_binding_sha256 (rc_binding receipt)) in
  raise (DispatchLedgerError "dispatch admission receipt is not committed in this ledger")
    when negb (bool_decide (select_by cl_authorization_id (dispatch_claims l) (rc_authorization_id receipt)
                            = Some (row_of receipt receipt_sha256 binding_sha256))) ;;
  Ok receipt_sha256.

(** [DispatchClaimLedger.claim_count] *)
Definition claim_count (l : DispatchClaimLedger) : Z := Z.of_nat (length (dispatch_claims l)).

(** ** Verification and admission *)
Section Admission.
Context (ed25519_verify : list byte -> list byte -> string -> bool).

(** [_verify_dispatch_authorization] *)
Definition verify_authorization (a : SignedDispatchAuthorization) (store : DispatchTrustStore)
    (x : DispatchExpectation) (now : Z) (enforce_validity : bool) :
    result DispatchError VerifiedDispatchAuthorization :=
  raise (DispatchAuthorizationError "verification time must be a nonnegative integer") when now <? 0 ;;
  let* _ :=
    except_value (let* _ := validate_SignedDispatchAuthorization a in
                  let* _ := validate_DispatchTrustStore store in
                  validate_expectation x)
                 (DispatchAuthorizationError "dispatch authorization inputs are invalid") in
  let p := sa_payload a in
  raise (DispatchAuthorizationError "dispatch authorization bindings differ")
    when negb (bool_decide (pl_binding p = x)) ;;
  raise (DispatchAuthorizationError "dispatch authorization is outside its validity window")
    when enforce_validity && negb ((pl_not_before_unix p <=? now) && (now <? pl_expires_at_unix p)) ;;
  match filter (fun k => tk_key_id k = sa_key_id a) (ts_keys store) with
  | [key] =>
      raise (DispatchAuthorizationError "dispatch signing key is revoked") when tk_revoked key ;;
      raise (DispatchAuthorizationError "dispatch authorization is outside the signing key validity window")
        when negb ((tk_valid_from_unix key <=? pl_issued_at_unix p)
                   && (pl_expires_at_unix p <=? tk_valid_until_unix key)) ;;
      let* _ :=
        except_value
          (let* public_key := decode_base64url (tk_public_key_base64url key) 32 "public key" in
           let* signature := decode_base64url (sa_signature_base64url a) 64 "signature" in
           let* message := dispatch_authorization_signing_bytes p in
           raise "invalid signature" when negb (ed25519_verify public_key signature message) ;;
           Ok tt)
          (DispatchAuthorizationError "dispatch authorization signature is invalid") in
      let* authorization_sha256 := lift_value (sha256_json (SignedDispatchAuthorization_json a)) in
      let* payload_sha256 := lift_value (sha256_json (DispatchAuthorizationPayload_json p)) in
      let* trust_store_sha256 := lift_value (sha256_json (DispatchTrustStore_json store)) in
      Ok {| vd_authorization := a; vd_authorization_sha256 := authorization_sha256;
            vd_payload_sha256 := payload_sha256; vd_trust_store_id := ts_trust_store_id store;
            vd_trust_store_sha256 := trust_store_sha256; vd_verified_at_unix := now |}
  | _ => Err (DispatchAuthorizationError "dispatch signing key is not trusted")
  end.

(** [verify_dispatch_authorization] *)
Definition verify_dispatch_authorization (a : SignedDispatchAuthorization) (store : DispatchTrustStore)
    (x : DispatchExpectation) (now : Z) : result DispatchError VerifiedDispatchAuthorization :=
  verify_authorization a store x now true.

(** The part of [claim_authorization] between its two transactions. *)
Definition prepare_claim (a : SignedDispatchAuthorization) (store : DispatchTrustStore)
    (x : DispatchExpectation) (verification_time : Z) :
    result DispatchError (VerifiedDispatchAuthorization * string) :=
  let* v := verify_dispatch_authorization a store x verification_time in
  let* binding_sha256 :=
    lift_value (dispatch_binding_sha256 (pl_binding (sa_payload (vd_authorization v)))) in
  Ok (v, binding_sha256).

(** [DispatchClaimLedger.claim_authorization]: the clock is read twice, at
    [verification_time] and inside the transaction at [claimed_at]. *)
Definition claim_authorization (a : SignedDispatchAuthorization) (store : DispatchTrustStore)
    (x : DispatchExpectation) (claim_id claim_nonce : string) (verification_time claimed_at : Z)
    (l : DispatchClaimLedger) : outcome DispatchAdmissionReceipt :=
  match advance_clock verification_time l with
  | (l, Err e) => (l, Err e)
  | (l, Ok _) =>
      match prepare_claim a store x verification_time with
      | Err e => (l, Err e)
      | Ok (v, binding_sha256) => claim_transaction v binding_sha256 claim_id claim_nonce claimed_at l
      end
  end.

(** [admit_dispatch] on an opened ledger *)
Definition admit_dispatch (a : SignedDispatchAuthorization) (store : DispatchTrustStore)
    (x : DispatchExpectation) (claim_id claim_nonce : string) (first_time verification_time claimed_at : Z)
    (l : DispatchClaimLedger) : outcome DispatchAdmissionReceipt :=
  match verify_authorization a store x first_time false with
  | Err e => (l, Err e)
  | Ok _ =>
      match advance_clock first_time l with
      | (l, Err e) => (l, Err e)
      | (l, Ok _) => claim_authorization a store x claim_id claim_nonce verification_time claimed_at l
      end
  end.
End Admission.

End Dispatch.
