(* ===== verification/DispatchFacts.v ===== *)
(** * What the claim ledger guarantees

    Histories of the ledger at the granularity of its transactions: every
    interleaving of [claim_authorization] and [admit_dispatch] calls by any number
    of processes, crashes between transactions included, is such a history. *)
From Stdlib Require Import ZArith String Ascii Lia.
From stdpp Require Import base tactics list strings.
From S2P Require Import Prelude Sha256 Json JsonFacts Models ModelFacts Samples Base64 Sql Dispatch.
Local Open Scope string_scope.
Local Open Scope Z_scope.

Module DispatchFacts.
Import Sha256 Json JsonFacts Models ModelFacts Base64 Dispatch.

(** ** Images of records *)

(** Two objects with the same keys in the same order and one canonical form have
    values with one canonical form. *)
Lemma canon_same_keys a b :
  a.*1 = b.*1 -> NoDup a.*1 -> canon (JObj a) = canon (JObj b) -> canon <$> a.*2 = canon <$> b.*2.
Proof.
  intros Hk Ha H. assert (Hb : NoDup b.*1) by by rewrite <-Hk.
  assert (Hg : forall k, canon <$> dict_get a k = canon <$> dict_get b k) by (intros; by apply canon_object_get).
  clear H. revert b Hk Hb Hg. induction a as [|[k v] a IH]; intros [|[k' v'] b] Hk Hb Hg; try done.
  cbn in Hk, Ha, Hb. injection Hk as <- Hk. apply NoDup_cons in Ha as [Hka Ha]. apply NoDup_cons in Hb as [Hkb Hb].
  cbn. f_equal.
  - specialize (Hg k). cbn in Hg. rewrite !decide_True in Hg by done. cbn in Hg. by injection Hg.
  - apply IH; [done..|]. intros j. specialize (Hg j). cbn in Hg. destruct (decide (j = k)) as [->|]; [|done].
    rewrite !(proj2 (dict_get_None _ _)) by done. done.
Qed.

Lemma DispatchPurpose_value_inj p q : DispatchPurpose_value p = DispatchPurpose_value q -> p = q.
Proof. destruct p, q; done. Qed.

Lemma jopt_str_inj a b : canon (jopt JStr a) = canon (jopt JStr b) -> a = b.
Proof. destruct a, b; cbn; congruence. Qed.

Lemma DispatchAdmissionReceipt_json_inj r1 r2 :
  canon (DispatchAdmissionReceipt_json r1) = canon (DispatchAdmissionReceipt_json r2) -> r1 = r2.
Proof.
  intros H. apply canon_same_keys in H; [|done|apply (bool_decide_unpack _); vm_compute; exact I].
  destruct r1 as [? ? ? ? ? ? ? ? ? ? [] ? oa1 oc1], r2 as [? ? ? ? ? ? ? ? ? ? [] ? oa2 oc2].
  cbn -[canon DispatchPurpose_value jopt] in H.
  assert (Hopt : forall a b : option string, canon (jopt JStr a) = canon (jopt JStr b) -> a = b)
    by exact jopt_str_inj.
  injection H. intros. cbn [canon] in *. simplify_eq.
  repeat match goal with
  | H : canon (jopt JStr _) = canon (jopt JStr _) |- _ => apply Hopt in H
  | H : DispatchPurpose_value _ = DispatchPurpose_value _ |- _ => apply DispatchPurpose_value_inj in H
  end. by subst.
Qed.

Lemma DispatchAdmissionReceipt_json_wf r : wf_json (DispatchAdmissionReceipt_json r).
Proof.
  apply flat_object_wf; [apply (bool_decide_unpack _); vm_compute; exact I|].
  destruct (rc_retry_of_authorization_id r), (rc_retry_of_claim_sha256 r); repeat constructor.
Qed.

(** Equal receipt digests come from one receipt or from an explicit collision. *)
Lemma receipt_digest_binds r1 r2 h :
  sha256_json (DispatchAdmissionReceipt_json r1) = Ok h ->
  sha256_json (DispatchAdmissionReceipt_json r2) = Ok h ->
  r1 = r2 \/ encodings_collide (DispatchAdmissionReceipt_json r1) (DispatchAdmissionReceipt_json r2).
Proof.
  intros H1 H2. destruct (sha256_json_binding _ _ _ (DispatchAdmissionReceipt_json_wf r1)
    (DispatchAdmissionReceipt_json_wf r2) H1 H2) as [Hc|Hc]; [left|by right].
  by apply DispatchAdmissionReceipt_json_inj.
Qed.

(** ** Lengths as SQLite counts them *)
Lemma lower_hex_ascii c : is_lower_hex c = true -> code c < 128.
Proof. unfold is_lower_hex, is_digit. intros H. repeat (bool_prop; destruct_or?); lia. Qed.

Lemma str_len_ascii s : str_forall is_lower_hex s = true -> str_len s = Z.of_nat (String.length s).
Proof.
  induction s as [|c s IH]; [done|]. cbn [str_forall str_len String.length]. intros [Hc Hs]%andb_true_iff.
  rewrite IH by done. pose proof (lower_hex_ascii c Hc). 
  destruct (Z.leb_spec 128 (code c)); cbn [andb]; lia.
Qed.

Lemma sha256_len s : is_sha256 s = true -> (str_len s =? 64) = true.
Proof.
  unfold is_sha256, is_hex. intros [Hl Hs]%andb_true_iff. rewrite str_len_ascii by done.
  apply Nat.eqb_eq in Hl. by rewrite Hl.
Qed.

(** ** Authenticated authorizations *)
Section Ledger.
Context (ed25519_verify : list byte -> list byte -> string -> bool).

(** [v] is the result of a successful verification. *)
Definition authentic (v : VerifiedDispatchAuthorization) : Prop :=
  exists store x now,
    verify_dispatch_authorization ed25519_verify (vd_authorization v) store x now = Ok v.

Lemma except_value_ok {A} (r : result string A) e a : except_value r e = Ok a <-> r = Ok a.
Proof. destruct r; cbn; split; congruence. Qed.
Lemma lift_value_ok {A} (r : result string A) a : lift_value r = Ok a <-> r = Ok a.
Proof. destruct r; cbn; split; congruence. Qed.

(** Everything a successful verification has checked. *)
Lemma verify_inv a store x now enforce v :
  verify_authorization ed25519_verify a store x now enforce = Ok v ->
  vd_authorization v = a /\ vd_trust_store_id v = ts_trust_store_id store
  /\ validate_SignedDispatchAuthorization a = Ok tt /\ validate_DispatchTrustStore store = Ok tt
  /\ pl_binding (sa_payload a) = x
  /\ (enforce = true -> pl_not_before_unix (sa_payload a) <= now < pl_expires_at_unix (sa_payload a))
  /\ sha256_json (SignedDispatchAuthorization_json a) = Ok (vd_authorization_sha256 v)
  /\ sha256_json (DispatchAuthorizationPayload_json (sa_payload a)) = Ok (vd_payload_sha256 v)
  /\ sha256_json (DispatchTrustStore_json store) = Ok (vd_trust_store_sha256 v)
  /\ exists key public_key signature message,
       filter (fun k => tk_key_id k = sa_key_id a) (ts_keys store) = [key]
       /\ tk_revoked key = false
       /\ tk_valid_from_unix key <= pl_issued_at_unix (sa_payload a)
       /\ pl_expires_at_unix (sa_payload a) <= tk_valid_until_unix key
       /\ decode_base64url (tk_public_key_base64url key) 32 "public key" = Ok public_key
       /\ decode_base64url (sa_signature_base64url a) 64 "signature" = Ok signature
       /\ dispatch_authorization_signing_bytes (sa_payload a) = Ok message
       /\ ed25519_verify public_key signature message = true.
Proof.
  unfold verify_authorization. intros H. destruct (now <? 0); [done|].
  apply bind_ok in H as ([] & Hin & H). rewrite except_value_ok in Hin.
  apply bind_ok in Hin as ([] & Ha & Hin). apply bind_ok in Hin as ([] & Hs & _).
  destruct (negb (bool_decide _)) eqn:Hb; [done|]. apply bool_decide_neg_false in Hb.
  destruct (enforce && _) eqn:Hw; [done|].
  destruct (filter _ _) as [|key [|]] eqn:Hk; [done| |done].
  destruct (tk_revoked key) eqn:Hr; [done|]. destruct (negb ((tk_valid_from_unix key <=? _) && _)) eqn:Hv; [done|].
  apply bind_ok in H as ([] & Hsig & H). rewrite except_value_ok in Hsig.
  apply bind_ok in Hsig as (pk & Hpk & Hsig). apply bind_ok in Hsig as (sg & Hsg & Hsig).
  apply bind_ok in Hsig as (m & Hm & Hsig). destruct (negb (ed25519_verify _ _ _)) eqn:He; [done|].
  do 3 (let y := fresh "h" in let E := fresh "E" in apply bind_ok in H as (y & E & H); rewrite lift_value_ok in E).
  apply ok_inj in H as <-. cbn. split_and!; try done.
  - intros ->. cbn in Hw. bool_prop. lia.
  - bool_prop. exists key, pk, sg, m. by split_and!.
Qed.

Lemma authentic_inv v :
  authentic v ->
  validate_DispatchAuthorizationPayload (sa_payload (vd_authorization v)) = Ok tt
  /\ is_sha256 (vd_authorization_sha256 v) = true /\ is_sha256 (vd_payload_sha256 v) = true
  /\ is_sha256 (vd_trust_store_sha256 v) = true.
Proof.
  intros (store & x & now & H). apply verify_inv in H as (_ & _ & Ha & _ & _ & _ & H1 & H2 & H3 & _).
  split_and!; try (by eapply sha256_json_is_sha256).
  unfold validate_SignedDispatchAuthorization in Ha. destruct (is_stable_id _); [|done].
  by apply bind_ok in Ha as ([] & ? & _).
Qed.

(** ** Histories *)

(** One transaction by some process; the label is the receipt it committed. *)
Inductive step : DispatchClaimLedger -> option DispatchAdmissionReceipt -> DispatchClaimLedger -> Prop :=
| step_advance t l l' r : advance_clock t l = (l', r) -> step l None l'
| step_failed v b claim_id nonce t l l' e :
    authentic v -> dispatch_binding_sha256 (pl_binding (sa_payload (vd_authorization v))) = Ok b ->
    claim_transaction v b claim_id nonce t l = (l', Err e) -> step l None l'
| step_claimed v b claim_id nonce t l l' receipt :
    authentic v -> dispatch_binding_sha256 (pl_binding (sa_payload (vd_authorization v))) = Ok b ->
    claim_transaction v b claim_id nonce t l = (l', Ok receipt) -> step l (Some receipt) l'.

(** The ledgers reachable from a new one, with the receipts committed so far in order. *)
Inductive run : list DispatchAdmissionReceipt -> DispatchClaimLedger -> Prop :=
| run_new : run [] new_ledger
| run_quiet h l l' : run h l -> step l None l' -> run h l'
| run_claim h l receipt l' : run h l -> step l (Some receipt) l' -> run (h ++ [receipt])%list l'.

(** ** One transaction *)

(** What the conflict query and the parent query have established when they let a
    receipt through. *)
Record admissible (v : VerifiedDispatchAuthorization) (b claim_id nonce : string) (t : Z)
    (l : DispatchClaimLedger) (receipt : DispatchAdmissionReceipt) (sha : string) : Prop := {
  ad_receipt : receipt = receipt_for v claim_id nonce t;
  ad_valid : validate_DispatchAdmissionReceipt receipt = Ok tt;
  ad_clock : 0 <= t /\ clock_high_water_unix l <= t;
  ad_window : pl_not_before_unix (sa_payload (vd_authorization v)) <= t
              < pl_expires_at_unix (sa_payload (vd_authorization v));
  ad_digest : sha256_json (DispatchAdmissionReceipt_json receipt) = Ok sha;
  ad_fresh : claim_conflict (dispatch_claims l) receipt sha = false;
  ad_parent : forall parent_id, pl_retry_of_authorization_id (sa_payload (vd_authorization v)) = Some parent_id ->
    parent_matches (dispatch_claims l) (sa_payload (vd_authorization v)) b parent_id = true
}.

Definition claimed (l : DispatchClaimLedger) (t : Z) (row : ClaimRow) : DispatchClaimLedger :=
  {| clock_high_water_unix := t; dispatch_claims := (dispatch_claims l ++ [row])%list |}.

(** A transaction either commits one admissible row, or leaves the claims as they
    were and the clock no lower. *)
Lemma claim_transaction_inv v b claim_id nonce t l l' r :
  claim_transaction v b claim_id nonce t l = (l', r) ->
  (exists receipt sha, r = Ok receipt /\ admissible v b claim_id nonce t l receipt sha
     /\ sql_insert (claim_references (dispatch_claims l) (row_of receipt sha b)) (dispatch_claims l)
          (row_of receipt sha b) = Some (dispatch_claims l')
     /\ l' = claimed l t (row_of receipt sha b))
  \/ (exists e, r = Err e) /\ dispatch_claims l' = dispatch_claims l
     /\ clock_high_water_unix l <= clock_high_water_unix l' /\ (l' = l \/ clock_high_water_unix l' = t /\ 0 <= t).
Proof.
  unfold claim_transaction. set (p := sa_payload (vd_authorization v)).
  destruct (Z.ltb_spec t 0); [intros [= <- <-]; right; eauto 6 with lia|].
  destruct (Z.ltb_spec t (clock_high_water_unix l)); [intros [= <- <-]; right; eauto 6 with lia|].
  assert (Hq : forall (e : DispatchError), (set_clock l t, Err e) = (l', r) ->
    (exists e, r = Err e) /\ dispatch_claims l' = dispatch_claims l
    /\ clock_high_water_unix l <= clock_high_water_unix l' /\ (l' = l \/ clock_high_water_unix l' = t /\ 0 <= t)).
  { intros e [= <- <-]. cbn. split_and!; eauto. }
  destruct (negb (_ && _)) eqn:Hw; [by intros ?%Hq; right|].
  destruct (construct _ _) as [receipt|] eqn:Hc; [|by intros ?%Hq; right]. apply construct_ok in Hc as [Hv ->].
  destruct (sha256_json _) as [sha|] eqn:Hs; [|intros [= <- <-]; right; eauto 6 with lia].
  destruct (claim_conflict _ _ _) eqn:Hf; [by intros ?%Hq; right|].
  destruct (retry_rejected _ _ _ _) eqn:Hp; [by intros ?%Hq; right|].
  destruct (sql_insert _ _ _) as [rows|] eqn:Hi; intros [= <- <-]; [|right; eauto 6 with lia].
  subst p. left. eexists _, sha. split; [done|]. bool_prop. split_and!.
  - split; [done|done|lia|split; lia|done|done|]. intros parent Hpar. cbn in Hp. rewrite Hpar in Hp.
    by apply negb_false_iff in Hp.
  - done.
  - apply sql_insert_Some in Hi as (-> & _). done.
Qed.

(** ** The constraints of the table never fire *)
Lemma receipt_row_check r sha b :
  validate_DispatchAdmissionReceipt r = Ok tt -> is_sha256 sha = true -> is_sha256 b = true ->
  claim_row_check (row_of r sha b) = true.
Proof.
  unfold validate_DispatchAdmissionReceipt, claim_identity_is_nonplaceholder, binding_ok, within.
  intros H Hs Hb. ok_inv. bool_prop.
  unfold claim_row_check. cbn. rewrite !sha256_len by done. cbn.
  assert (Hl : opt_ok (fun s => str_len s =? 64) (rc_retry_of_claim_sha256 r) = true).
  { destruct (rc_retry_of_claim_sha256 r); cbn in *; [by apply sha256_len|done]. }
  rewrite Hl. rewrite !(proj2 (Z.leb_le _ _)) by done. cbn.
  match goal with H : lineage_differs _ _ _ = false |- _ => unfold lineage_differs in H end.
  destruct (Z.eqb_spec (rc_retry_index r) 0), (Z.ltb_spec 0 (rc_retry_index r)),
    (rc_retry_of_authorization_id r), (rc_retry_of_claim_sha256 r); cbn in *; done || lia.
Qed.

(** The conflict query covers every [UNIQUE] constraint. *)
Lemma no_conflict_keys t r sha b k :
  claim_conflict t r sha = false -> k ∈ claim_row_keys -> key_taken t (row_of r sha b) k = false.
Proof.
  unfold claim_conflict. rewrite <-not_true_iff_false, existsb_exists. intros Hn Hk.
  apply key_taken_false. intros row v Hrow Hv Hv'. apply Hn. exists row. rewrite <-list_elem_of_In. split; [done|].
  rewrite list_elem_of_In in Hk. cbn in Hk. rewrite !orb_true_iff, !andb_true_iff, !bool_decide_eq_true.
  repeat destruct Hk as [<-|Hk]; [..|done]; cbn in Hv, Hv'; try (simplify_eq; tauto).
  - destruct (rc_retry_of_authorization_id r) as [a|], (cl_retry_of_authorization_id row); cbn in *; simplify_eq. tauto.
  - destruct (rc_retry_of_claim_sha256 r) as [a|], (cl_retry_of_claim_sha256 row); cbn in *; simplify_eq. tauto.
Qed.

Lemma parent_matches_inv t p b parent_id :
  parent_matches t p b parent_id = true ->
  exists parent, parent ∈ t /\ cl_authorization_id parent = parent_id
    /\ cl_retry_index parent = pl_retry_index p - 1 /\ cl_binding_sha256 parent = b
    /\ cl_claimed_at_unix parent <= pl_issued_at_unix p
    /\ pl_retry_of_claim_sha256 p = Some (cl_receipt_sha256 parent).
Proof.
  unfold parent_matches. destruct (select_by _ _ _) as [parent|] eqn:Hs; [|done].
  apply select_by_Some in Hs as [Hin Hid]. intros H. bool_prop. eauto 8.
Qed.

Lemma admissible_references v b claim_id nonce t l receipt sha :
  admissible v b claim_id nonce t l receipt sha ->
  claim_references (dispatch_claims l) (row_of receipt sha b) = true.
Proof.
  intros [-> Hv _ _ _ _ Hp]. unfold claim_references. cbn.
  destruct (pl_retry_of_authorization_id _) as [a|] eqn:Ha; [|done].
  destruct (parent_matches_inv _ _ _ _ (Hp a eq_refl)) as (parent & Hin & Hid & _ & _ & _ & ->).
  apply existsb_exists. exists parent. rewrite <-list_elem_of_In. split; [done|]. by rewrite !bool_decide_true.
Qed.

Lemma admissible_insert v b claim_id nonce t l receipt sha :
  is_sha256 b = true -> admissible v b claim_id nonce t l receipt sha ->
  sql_insert (claim_references (dispatch_claims l) (row_of receipt sha b)) (dispatch_claims l)
    (row_of receipt sha b) = Some (dispatch_claims l ++ [row_of receipt sha b])%list.
Proof.
  intros Hb Ha. apply sql_insert_Some. split; [done|]. split_and!.
  - apply receipt_row_check; [by apply Ha| |done]. eapply sha256_json_is_sha256, Ha.
  - eapply admissible_references, Ha.
  - intros k Hk. apply no_conflict_keys; [by apply Ha|done].
Qed.

(** C6. A claim succeeds exactly when it should: with the binding digest of the
    authorization, the transaction commits a receipt precisely when the clock has not
    moved back, the validity window holds at the durable claim, the receipt is well
    formed and none of its identities was consumed, and a retry names its committed
    parent. The ledger then gains exactly that receipt's row; no constraint of the
    table can reject a claim that passed the code's own queries. *)
Theorem claim_succeeds_exactly v b claim_id nonce t l l' receipt :
  is_sha256 b = true ->
  claim_transaction v b claim_id nonce t l = (l', Ok receipt) <->
  exists sha, admissible v b claim_id nonce t l receipt sha /\ l' = claimed l t (row_of receipt sha b).
Proof.
  intros Hb. split.
  - intros [(r & sha & Hr & Ha & _ & ->)|[(e & He) _]]%claim_transaction_inv; [|done].
    injection Hr as ->. eauto.
  - intros (sha & Ha & ->). pose proof (admissible_insert _ _ _ _ _ _ _ _ Hb Ha) as Hi.
    destruct Ha as [-> Hv [H0 Hc] Hw Hs Hf Hp]. unfold claim_transaction.
    destruct (Z.ltb_spec t 0); [lia|]. destruct (Z.ltb_spec t (clock_high_water_unix l)); [lia|].
    destruct (negb (_ && _)) eqn:Hn; [exfalso; apply negb_true_iff, andb_false_iff in Hn; lia|].
    rewrite (proj2 (construct_ok _ _ _) (conj Hv eq_refl)), Hs. cbn [set_clock dispatch_claims]. rewrite Hf.
    destruct (retry_rejected _ _ _ _) eqn:Hr; [|by rewrite Hi]. exfalso. cbn in Hr.
    destruct (pl_retry_of_authorization_id _) as [a|]; [|done]. cbn in Hr. by rewrite (Hp a eq_refl) in Hr.
Qed.

(** ** The invariant of reachable ledgers *)

(** [row] is the committed row of receipt [r]. *)
Definition committed (r : DispatchAdmissionReceipt) (row : ClaimRow) : Prop :=
  validate_DispatchAdmissionReceipt r = Ok tt
  /\ exists sha b, sha256_json (DispatchAdmissionReceipt_json r) = Ok sha
       /\ dispatch_binding_sha256 (rc_binding r) = Ok b /\ row = row_of r sha b.

(** A retry row hangs below its committed parent. *)
Definition has_parent (rows : list ClaimRow) (row : ClaimRow) : Prop :=
  forall parent_id, cl_retry_of_authorization_id row = Some parent_id ->
  exists parent, parent ∈ rows /\ cl_authorization_id parent = parent_id
    /\ cl_retry_of_claim_sha256 row = Some (cl_receipt_sha256 parent)
    /\ cl_retry_index row = cl_retry_index parent + 1
    /\ cl_binding_sha256 row = cl_binding_sha256 parent
    /\ cl_claimed_at_unix parent <= cl_claimed_at_unix row.

Record ledger_inv (h : list DispatchAdmissionReceipt) (l : DispatchClaimLedger) : Prop := {
  li_table : table_ok (dispatch_claims l);
  li_rows : Forall2 committed h (dispatch_claims l);
  li_clock : 0 <= clock_high_water_unix l
             /\ Forall (fun row => cl_claimed_at_unix row <= clock_high_water_unix l) (dispatch_claims l);
  li_lineage : Forall (has_parent (dispatch_claims l)) (dispatch_claims l)
}.

Lemma has_parent_mono rows extra row : has_parent rows row -> has_parent (rows ++ extra)%list row.
Proof.
  intros H a Ha. destruct (H a Ha) as (p & Hin & Hp). exists p. split; [|done].
  apply elem_of_app. by left.
Qed.

(** A transaction that commits no claim keeps the invariant. *)
Lemma ledger_inv_quiet h l l' :
  ledger_inv h l -> dispatch_claims l' = dispatch_claims l ->
  clock_high_water_unix l <= clock_high_water_unix l' -> ledger_inv h l'.
Proof.
  intros [Ht Hr [H0 Hc] Hl] Heq Hclock. split; rewrite ?Heq; try done. split; [lia|].
  eapply Forall_impl; [exact Hc|]. cbn. intros; lia.
Qed.

Lemma payload_times p :
  validate_DispatchAuthorizationPayload p = Ok tt ->
  pl_issued_at_unix p <= pl_not_before_unix p < pl_expires_at_unix p
  /\ pl_expires_at_unix p - pl_issued_at_unix p <= MAX_AUTHORIZATION_LIFETIME_SECONDS
  /\ 0 <= pl_retry_index p <= 16.
Proof.
  unfold validate_DispatchAuthorizationPayload, time_and_retry_lineage_are_closed, within. intros H.
  ok_inv. bool_prop. lia.
Qed.

Lemma ledger_inv_claim h v b claim_id nonce t l receipt sha :
  authentic v -> dispatch_binding_sha256 (pl_binding (sa_payload (vd_authorization v))) = Ok b ->
  ledger_inv h l -> admissible v b claim_id nonce t l receipt sha ->
  ledger_inv (h ++ [receipt])%list (claimed l t (row_of receipt sha b)).
Proof.
  intros Hv Hb [Ht Hr [H0 Hc] Hl] Ha. assert (Hb' : is_sha256 b = true) by by eapply sha256_json_is_sha256.
  pose proof (admissible_insert _ _ _ _ _ _ _ _ Hb' Ha) as Hi.
  destruct (authentic_inv v Hv) as (Hpl & _). apply payload_times in Hpl as (Htimes & _).
  destruct Ha as [-> Hval [Ht0 Hclk] Hw Hs Hf Hp]. split; cbn [claimed dispatch_claims clock_high_water_unix].
  - by eapply sql_insert_ok.
  - apply Forall2_app; [done|]. constructor; [|constructor]. split; [done|]. by exists sha, b.
  - split; [done|]. apply Forall_app. split; [|by constructor].
    eapply Forall_impl; [exact Hc|]. cbn. intros; lia.
  - apply Forall_app. split; [by eapply Forall_impl; [exact Hl|]; intros; apply has_parent_mono|].
    constructor; [|constructor]. intros a Hpar. cbn in Hpar.
    destruct (parent_matches_inv _ _ _ _ (Hp a Hpar)) as (parent & Hin & Hid & Hx & Hbind & Hclaim & Hsha).
    exists parent. cbn. split_and!; try done; [apply elem_of_app; by left|lia|lia].
Qed.

Lemma advance_clock_inv t l l' r :
  advance_clock t l = (l', r) ->
  dispatch_claims l' = dispatch_claims l /\ clock_high_water_unix l <= clock_high_water_unix l'.
Proof.
  unfold advance_clock. destruct (t <? 0); [by intros [= <- _]|].
  destruct (Z.ltb_spec t (clock_high_water_unix l)); intros [= <- _]; cbn; split; done || lia.
Qed.

Lemma run_inv h l : run h l -> ledger_inv h l.
Proof.
  induction 1 as [|h l l' _ IH Hs|h l receipt l' _ IH Hs].
  - split; cbn; [apply table_ok_nil|constructor|split; [done|constructor]|constructor].
  - inversion Hs as [t ? ? r Ha|v b cid nonce t ? ? e Hv Hb Hc|]; subst.
    + apply advance_clock_inv in Ha as [? ?]. by eapply ledger_inv_quiet.
    + apply claim_transaction_inv in Hc as [(? & ? & ? & _)|(_ & ? & ? & _)]; [done|]. by eapply ledger_inv_quiet.
  - inversion Hs as [| |v b cid nonce t ? ? ? Hv Hb Hc]; subst.
    apply claim_transaction_inv in Hc as [(r & sha & [= <-] & Ha & _ & ->)|((e & ?) & _)]; [|done].
    by eapply ledger_inv_claim.
Qed.

(** ** One-shot consumption *)
Lemma committed_columns h rows {B} (f : DispatchAdmissionReceipt -> B) (g : ClaimRow -> B) :
  (forall r sha b, g (row_of r sha b) = f r) -> Forall2 committed h rows -> f <$> h = g <$> rows.
Proof.
  intros Hg. induction 1 as [|r row h rows (_ & sha & b & _ & _ & ->) _ IH]; cbn; [done|].
  by rewrite Hg, IH.
Qed.

(** C4. One-shot dispatch: over the whole life of a ledger, under any interleaving of
    claims, failed claims and clock updates by any number of processes, the committed
    receipts have pairwise distinct authorization ids, signed envelopes, dispatch
    nonces, claim ids and claim nonces; so no authorization is ever claimed twice. *)
Theorem authorizations_claimed_once h l :
  run h l ->
  NoDup (rc_authorization_id <$> h) /\ NoDup (rc_authorization_sha256 <$> h)
  /\ NoDup (rc_dispatch_nonce <$> h) /\ NoDup (rc_claim_id <$> h) /\ NoDup (rc_claim_nonce <$> h).
Proof.
  intros [[_ Hk] Hr _ _]%run_inv.
  assert (Hcol : forall (f : DispatchAdmissionReceipt -> string) (g : ClaimRow -> string),
    (forall r sha b, g (row_of r sha b) = f r) -> (fun row => Some [g row]) ∈ claim_row_keys -> NoDup (f <$> h)).
  { intros f g Hg Hin. rewrite (committed_columns h _ f g Hg Hr). by apply keys_distinct_NoDup. }
  split_and!; [apply (Hcol _ cl_authorization_id)|apply (Hcol _ cl_authorization_sha256)
    |apply (Hcol _ cl_dispatch_nonce)|apply (Hcol _ cl_claim_id)|apply (Hcol _ cl_claim_nonce)];
    try done; apply list_elem_of_In; cbn; tauto.
Qed.

(** C12. Receipts are durable and cannot be forged: a receipt committed at any point of
    the ledger's life verifies against every later ledger and returns its digest; and
    a receipt that verifies was committed, or it is an explicit SHA-256 collision with
    a committed one. *)
Theorem receipts_verify_exactly h l r :
  run h l ->
  (r ∈ h -> exists d, sha256_json (DispatchAdmissionReceipt_json r) = Ok d /\ verify_committed_receipt r l = Ok d)
  /\ (forall d, verify_committed_receipt r l = Ok d ->
      r ∈ h \/ exists r', r' ∈ h
        /\ encodings_collide (DispatchAdmissionReceipt_json r) (DispatchAdmissionReceipt_json r')).
Proof.
  intros [[_ Hk] Hr _ _]%run_inv. unfold verify_committed_receipt. split.
  - intros [i Hi]%list_elem_of_lookup_1. destruct (Forall2_lookup_l _ _ _ _ _ Hr Hi) as (row & Hrow & Hval & sha & b & Hs & Hb & ->).
    exists sha. split; [done|]. rewrite (proj2 (construct_ok _ _ _) (conj Hval eq_refl)). cbn [bind_result]. rewrite Hs.
    cbn [except_value bind_result]. rewrite Hb. cbn [lift_value bind_result].
    change (rc_authorization_id r) with (cl_authorization_id (row_of r sha b)).
    rewrite select_by_elem; [by rewrite bool_decide_true|done|by left|by eapply list_elem_of_lookup_2].
  - intros d H. apply bind_ok in H as (sha & Hs & H). rewrite except_value_ok in Hs.
    apply bind_ok in Hs as (r0 & [_ ->]%construct_ok & Hs). apply bind_ok in H as (b & _ & H).
    destruct (negb _) eqn:Hn; [done|]. apply bool_decide_neg_false, select_by_Some in Hn as [Hin _].
    apply list_elem_of_lookup_1 in Hin as [i Hi].
    destruct (Forall2_lookup_r _ _ _ _ _ Hr Hi) as (r' & Hr' & _ & sha' & b' & Hs' & _ & Heq).
    assert (sha' = sha) as -> by by injection Heq. apply list_elem_of_lookup_2 in Hr'.
    destruct (receipt_digest_binds r r' sha Hs Hs') as [->|Hc]; eauto.
Qed.

(** ** Retry lineages *)

(** [chain] is the list of ancestors of [r], nearest first, down to a first attempt. *)
Inductive lineage (h : list DispatchAdmissionReceipt) :
    list DispatchAdmissionReceipt -> DispatchAdmissionReceipt -> Prop :=
| lineage_first r :
    r ∈ h -> rc_retry_index r = 0 -> rc_retry_of_authorization_id r = None -> lineage h [] r
| lineage_retry r parent chain d :
    r ∈ h -> lineage h chain parent ->
    rc_retry_of_authorization_id r = Some (rc_authorization_id parent) ->
    sha256_json (DispatchAdmissionReceipt_json parent) = Ok d -> rc_retry_of_claim_sha256 r = Some d ->
    rc_retry_index r = rc_retry_index parent + 1 ->
    dispatch_binding_sha256 (rc_binding r) = dispatch_binding_sha256 (rc_binding parent) ->
    rc_claimed_at_unix parent <= rc_claimed_at_unix r ->
    lineage h (parent :: chain) r.

Lemma receipt_index r :
  validate_DispatchAdmissionReceipt r = Ok tt ->
  0 <= rc_retry_index r <= 16
  /\ (rc_retry_index r = 0 <-> rc_retry_of_authorization_id r = None).
Proof.
  unfold validate_DispatchAdmissionReceipt, claim_identity_is_nonplaceholder, within. intros H. ok_inv. bool_prop.
  split; [lia|]. match goal with H : lineage_differs _ _ _ = false |- _ => unfold lineage_differs in H end.
  destruct (Z.eqb_spec (rc_retry_index r) 0), (Z.ltb_spec 0 (rc_retry_index r)),
    (rc_retry_of_authorization_id r), (rc_retry_of_claim_sha256 r); cbn in *; done || lia.
Qed.

Lemma committed_receipt h l r :
  ledger_inv h l -> r ∈ h -> exists row, row ∈ dispatch_claims l /\ committed r row.
Proof.
  intros [_ Hr _ _] [i Hi]%list_elem_of_lookup_1.
  destruct (Forall2_lookup_l _ _ _ _ _ Hr Hi) as (row & Hrow & Hc). apply list_elem_of_lookup_2 in Hrow. eauto.
Qed.

Lemma committed_row h l row :
  ledger_inv h l -> row ∈ dispatch_claims l -> exists r, r ∈ h /\ committed r row.
Proof.
  intros [_ Hr _ _] [i Hi]%list_elem_of_lookup_1.
  destruct (Forall2_lookup_r _ _ _ _ _ Hr Hi) as (r & Hrow & Hc). apply list_elem_of_lookup_2 in Hrow. eauto.
Qed.

Lemma lineage_exists h l n : ledger_inv h l -> forall r, r ∈ h -> rc_retry_index r = Z.of_nat n ->
  exists chain, lineage h chain r /\ length chain = n.
Proof.
  intros Hinv. induction n as [|n IH]; intros r Hin Hn;
    destruct (committed_receipt h l r Hinv Hin) as (row & Hrow & Hval & sha & b & Hs & Hb & ->);
    destruct (receipt_index r Hval) as [Hrange Hzero].
  - exists []. split; [|done]. constructor; [done|lia|]. apply Hzero. lia.
  - destruct (rc_retry_of_authorization_id r) as [a|] eqn:Ha; [|exfalso; pose proof (proj2 Hzero eq_refl); lia].
    pose proof (proj1 (Forall_forall _ _) (li_lineage _ _ Hinv) _ Hrow a Ha)
      as (prow & Hprow & Hid & Hsha & Hidx & Hbind & Hclaim).
    destruct (committed_row h l prow Hinv Hprow) as (parent & Hp & _ & psha & pb & Hps & Hpb & ->).
    cbn in *. destruct (IH parent Hp) as (chain & Hchain & Hl); [lia|].
    exists (parent :: chain). split; [|cbn; lia].
    apply (lineage_retry h r parent chain psha); try done; [by rewrite Ha, <-Hid|by rewrite Hb, Hpb, Hbind].
Qed.

Definition binding_json (b : DispatchExpectation) : json :=
  JObj (("schema_version", JStr "bpe.dispatch-binding.v1") :: binding_fields b).

Lemma binding_json_inj b1 b2 : canon (binding_json b1) = canon (binding_json b2) -> b1 = b2.
Proof.
  intros H. apply canon_same_keys in H; [|done|apply (bool_decide_unpack _); vm_compute; exact I].
  destruct b1, b2. cbn -[DispatchPurpose_value] in H. injection H. intros. simplify_eq.
  repeat match goal with
  | H : DispatchPurpose_value _ = DispatchPurpose_value _ |- _ => apply DispatchPurpose_value_inj in H
  end. by subst.
Qed.

Lemma binding_digest_binds b1 b2 d :
  dispatch_binding_sha256 b1 = Ok d -> dispatch_binding_sha256 b2 = Ok d ->
  b1 = b2 \/ encodings_collide (binding_json b1) (binding_json b2).
Proof.
  intros H1 H2. assert (Hwf : forall b, wf_json (binding_json b)).
  { intros b. apply flat_object_wf; [apply (bool_decide_unpack _); vm_compute; exact I|repeat constructor]. }
  destruct (sha256_json_binding _ _ _ (Hwf b1) (Hwf b2) H1 H2) as [Hc|Hc]; [left|by right].
  by apply binding_json_inj.
Qed.

(** All receipts of a lineage share the digest of their bindings. *)
Lemma lineage_same_digest h chain r a :
  lineage h chain r -> a ∈ chain -> dispatch_binding_sha256 (rc_binding a) = dispatch_binding_sha256 (rc_binding r).
Proof.
  induction 1 as [|r parent chain d _ _ IH _ _ _ _ Hb _]; [by rewrite elem_of_nil|].
  intros [->|Ha]%elem_of_cons; [done|]. rewrite Hb. auto.
Qed.

(** C9. Retries form bounded, linear, faithful lineages: every committed receipt has
    a chain of committed ancestors, exactly as long as its retry index and at most
    sixteen, each named by authorization id and receipt digest and claimed no later;
    all of them are for the same job, request, experiment, environment, profile,
    purpose, audience and policy (or two binding documents are an explicit SHA-256
    collision); and no parent is ever retried twice. *)
Theorem retry_lineage_bounded h l r :
  run h l -> r ∈ h ->
  (exists chain, lineage h chain r /\ Z.of_nat (length chain) = rc_retry_index r /\ (length chain <= 16)%nat
     /\ Forall (fun a => rc_binding a = rc_binding r
                         \/ encodings_collide (binding_json (rc_binding a)) (binding_json (rc_binding r))) chain)
  /\ (forall r', r' ∈ h -> rc_retry_of_authorization_id r <> None ->
      rc_retry_of_authorization_id r' = rc_retry_of_authorization_id r -> r' = r).
Proof.
  intros Hrun%run_inv Hin. destruct (committed_receipt h l r Hrun Hin) as (row & Hrow & Hval & sha & b & Hs & Hb & Heq).
  destruct (receipt_index r Hval) as [Hrange _]. split.
  - destruct (lineage_exists h l (Z.to_nat (rc_retry_index r)) Hrun r Hin) as (chain & Hc & Hl); [lia|].
    exists chain. split_and!; [done|lia|lia|]. apply Forall_forall. intros a Ha.
    apply (binding_digest_binds _ _ b); [|done]. by rewrite (lineage_same_digest h chain r a).
  - intros r' Hin' Hsome Hsame. subst row.
    destruct (committed_receipt h l r' Hrun Hin') as (row' & Hrow' & _ & sha' & b' & Hs' & _ & ->).
    destruct (rc_retry_of_authorization_id r) as [a|] eqn:Ha; [|done].
    assert (Hrr : row_of r' sha' b' = row_of r sha b).
    { eapply (keys_distinct_eq _ (fun row => a ← cl_retry_of_authorization_id row; Some [a]) _ _ [a]);
        [apply Hrun|apply list_elem_of_In; cbn; tauto|done|done|cbn; by rewrite Hsame|cbn; by rewrite Ha]. }
    apply (f_equal cl_authorization_id) in Hrr. cbn in Hrr.
    destruct Hrun as [[_ Hk] Hr _ _].
    assert (Hnd : NoDup (rc_authorization_id <$> h)).
    { rewrite (committed_columns h _ rc_authorization_id cl_authorization_id) by done.
      apply keys_distinct_NoDup; [done|]. apply list_elem_of_In. cbn. tauto. }
    apply list_elem_of_lookup_1 in Hin as [i Hi]. apply list_elem_of_lookup_1 in Hin' as [j Hj].
    assert (j = i) as ->; [|congruence].
    eapply (NoDup_lookup _ _ _ (rc_authorization_id r) Hnd); rewrite list_lookup_fmap; [rewrite Hj|rewrite Hi]; cbn; congruence.
Qed.

(** ** What a successful claim proves *)

Lemma prepare_claim_inv a store x t v b :
  prepare_claim ed25519_verify a store x t = Ok (v, b) ->
  verify_dispatch_authorization ed25519_verify a store x t = Ok v
  /\ dispatch_binding_sha256 (pl_binding (sa_payload (vd_authorization v))) = Ok b.
Proof.
  intros (v' & Hv & H)%bind_ok. apply bind_ok in H as (b' & Hb & H). apply ok_inj in H. injection H as -> ->.
  by rewrite lift_value_ok in Hb.
Qed.

(** The transactions of a call that returned a receipt. *)
Lemma claim_authorization_inv a store x claim_id nonce t1 t2 l l' r :
  claim_authorization ed25519_verify a store x claim_id nonce t1 t2 l = (l', Ok r) ->
  exists l1 v b, advance_clock t1 l = (l1, Ok tt)
    /\ verify_dispatch_authorization ed25519_verify a store x t1 = Ok v
    /\ dispatch_binding_sha256 (pl_binding (sa_payload (vd_authorization v))) = Ok b
    /\ claim_transaction v b claim_id nonce t2 l1 = (l', Ok r).
Proof.
  unfold claim_authorization. destruct (advance_clock t1 l) as [l1 [[]|e]]; [|done].
  destruct (prepare_claim _ _ _ _ _) as [[v b]|e] eqn:Hv; [|done]. apply prepare_claim_inv in Hv as [Hv Hb].
  intros H. by exists l1, v, b.
Qed.

(** A claim is authorized: [claim_authorization] commits a receipt only for an
    authorization whose ten bindings are those of the expectation, inside its validity
    window both when it is verified and when it is durably claimed, at most fifteen
    minutes after it was issued, and whose Ed25519 signature over the domain-separated
    canonical payload verifies under a trusted, unrevoked key valid for the whole
    window; when it raises, no claim is recorded. *)
Theorem claim_is_authorized a store x claim_id nonce t1 t2 l l' r :
  claim_authorization ed25519_verify a store x claim_id nonce t1 t2 l = (l', r) ->
  match r with
  | Err _ => dispatch_claims l' = dispatch_claims l
  | Ok receipt =>
      let p := sa_payload a in
      rc_binding receipt = x /\ pl_binding p = x /\ rc_authorization_id receipt = pl_authorization_id p
      /\ pl_not_before_unix p <= t1 < pl_expires_at_unix p /\ pl_not_before_unix p <= t2 < pl_expires_at_unix p
      /\ t2 <= pl_issued_at_unix p + 900
      /\ exists key public_key signature encoded,
           key ∈ ts_keys store /\ tk_key_id key = sa_key_id a /\ tk_revoked key = false
           /\ tk_valid_from_unix key <= pl_issued_at_unix p /\ pl_expires_at_unix p <= tk_valid_until_unix key
           /\ tk_public_key_base64url key = encode_base64url public_key
           /\ sa_signature_base64url a = encode_base64url signature
           /\ canonical_json_bytes (DispatchAuthorizationPayload_json p) = Ok encoded
           /\ ed25519_verify public_key signature (DISPATCH_SIGNING_DOMAIN ++ encoded) = true
  end.
Proof.
  destruct r as [receipt|e].
  2: { unfold claim_authorization. destruct (advance_clock t1 l) as [l1 [[]|e1]] eqn:Ha;
         apply advance_clock_inv in Ha as [Hl1 _]; [|by intros [= <- <-]].
       destruct (prepare_claim _ _ _ _ _) as [[v b]|e1]; [|by intros [= <- <-]].
       intros [(? & ? & ? & _)|(_ & Hc & _)]%claim_transaction_inv; [done|by rewrite Hc]. }
  intros (l1 & v & b & _ & Hv & _ & Hc)%claim_authorization_inv.
  apply claim_transaction_inv in Hc as [(r & sha & Hr & Had & _ & _)|((e & ?) & _)]; [|done].
  injection Hr as ->.
  apply verify_inv in Hv as (<- & _ & Hsa & _ & Hx & Hw & _ & _ & _ & (key & pk & sg & m & Hk & Hrev & Hf & Hu & Hpk & Hsg & Hm & Hver)).
  destruct Had as [-> _ _ Hw2 _ _ _]. cbv zeta. cbn [receipt_for rc_binding rc_authorization_id].
  apply bind_ok in Hm as ([] & Hpv & Hm). apply bind_ok in Hm as (enc & Henc & Hm). apply ok_inj in Hm as <-.
  apply payload_times in Hpv as (Ht & Hlife & _). unfold MAX_AUTHORIZATION_LIFETIME_SECONDS in Hlife.
  specialize (Hw eq_refl). split_and!; try done; try lia.
  assert (Hkin : key ∈ filter (fun k => tk_key_id k = sa_key_id (vd_authorization v)) (ts_keys store)) by (rewrite Hk; by left).
  apply list_elem_of_filter in Hkin as [Hid Hkin].
  apply decode_base64url_inv in Hpk as (Hpk & _), Hsg as (Hsg & _).
  exists key, pk, sg, enc. by split_and!.
Qed.

(** ** Calls are histories *)
Lemma claim_authorization_run h a store x claim_id nonce t1 t2 l l' r :
  run h l -> claim_authorization ed25519_verify a store x claim_id nonce t1 t2 l = (l', r) ->
  run (match r with Ok receipt => h ++ [receipt] | Err _ => h end)%list l'.
Proof.
  intros Hrun. unfold claim_authorization. destruct (advance_clock t1 l) as [l1 r1] eqn:Ha.
  assert (Hrun1 : run h l1) by (eapply run_quiet; [exact Hrun|by eapply step_advance]).
  destruct r1 as [[]|e]; [|by intros [= <- <-]].
  destruct (prepare_claim _ _ _ _ _) as [[v b]|e] eqn:Hv; [|by intros [= <- <-]].
  apply prepare_claim_inv in Hv as [Hv Hb].
  assert (Hauth : authentic v).
  { exists store, x, t1. by destruct (verify_inv _ _ _ _ _ _ Hv) as (-> & _). }
  intros Hc. destruct r as [receipt|e].
  - eapply run_claim; [exact Hrun1|by eapply step_claimed].
  - eapply run_quiet; [exact Hrun1|by eapply step_failed].
Qed.

Lemma admit_dispatch_run h a store x claim_id nonce t0 t1 t2 l l' r :
  run h l -> admit_dispatch ed25519_verify a store x claim_id nonce t0 t1 t2 l = (l', r) ->
  run (match r with Ok receipt => h ++ [receipt] | Err _ => h end)%list l'.
Proof.
  intros Hrun. unfold admit_dispatch. destruct (verify_authorization _ _ _ _ _ _); [|by intros [= <- <-]].
  destruct (advance_clock t0 l) as [l1 r1] eqn:Ha.
  assert (Hrun1 : run h l1) by (eapply run_quiet; [exact Hrun|by eapply step_advance]).
  destruct r1 as [[]|e]; [|by intros [= <- <-]]. by apply claim_authorization_run.
Qed.
End Ledger.

(** ** A first attempt and its retry *)
Definition always_valid (key signature : list byte) (message : string) : bool := true.

Fixpoint repeat_char (n : nat) (c : ascii) : string :=
  match n with O => EmptyString | S n => String c (repeat_char n c) end.

Definition sample_binding : DispatchExpectation := {|
  dx_job_manifest_sha256 := Samples.digest "job"; dx_request_sha256 := Samples.digest "request";
  dx_experiment_sha256 := Samples.digest "experiment"; dx_environment_sha256 := Samples.digest "env";
  dx_execution_profile_sha256 := Samples.digest "profile"; dx_resource_profile_sha256 := Samples.digest "resources";
  dx_purpose := training; dx_worker_pool_audience := "pool-1"; dx_policy_id := "policy-1";
  dx_policy_sha256 := Samples.digest "policy" |}.

Definition sample_payload (id nonce : string) (issued index : Z) (parent : option (string * string)) :
    DispatchAuthorizationPayload := {|
  pl_authorization_id := id; pl_dispatch_nonce := nonce; pl_binding := sample_binding;
  pl_issued_at_unix := issued; pl_not_before_unix := issued; pl_expires_at_unix := issued + 600;
  pl_retry_index := index; pl_retry_of_authorization_id := fst <$> parent;
  pl_retry_of_claim_sha256 := snd <$> parent |}.

Definition sign (p : DispatchAuthorizationPayload) : SignedDispatchAuthorization := {|
  sa_key_id := "key-1"; sa_payload := p;
  sa_payload_sha256 := Samples.unwrap (sha256_json (DispatchAuthorizationPayload_json p));
  sa_signature_base64url := repeat_char 86 "A" |}.

Definition sample_store : DispatchTrustStore := {|
  ts_trust_store_id := "store-1";
  ts_keys := [{| tk_key_id := "key-1"; tk_public_key_base64url := repeat_char 43 "A";
                 tk_valid_from_unix := 0; tk_valid_until_unix := 5000; tk_revoked := false |}] |}.

Definition first_authorization : SignedDispatchAuthorization :=
  sign (sample_payload "auth-1" (repeat_char 64 "b") 1000 0 None).
Definition retry_authorization (parent : DispatchAdmissionReceipt) : SignedDispatchAuthorization :=
  sign (sample_payload "auth-2" (repeat_char 64 "c") 2000 1
          (Some ("auth-1", Samples.unwrap (sha256_json (DispatchAdmissionReceipt_json parent))))).

Abbreviation sample_claim a label t l :=
  (claim_authorization always_valid a sample_store sample_binding (Samples.digest (char_str label))
     (repeat_char 64 label) t (t + 1) l).

(** Two claims in sequence, as a history. *)
Lemma two_claims a1 (a2 : DispatchAdmissionReceipt -> SignedDispatchAuthorization) c1 c2 t1 t2
    (P : DispatchAdmissionReceipt -> Prop) :
  match sample_claim a1 c1 t1 new_ledger with
  | (l1, Ok r1) => match sample_claim (a2 r1) c2 t2 l1 with (_, Ok r2) => P r2 | _ => False end
  | _ => False
  end ->
  exists l1 r1 l2 r2, sample_claim a1 c1 t1 new_ledger = (l1, Ok r1)
    /\ run always_valid [r1; r2] l2 /\ P r2.
Proof.
  destruct (sample_claim a1 c1 t1 new_ledger) as [l1 [r1|]] eqn:E1; [|done].
  destruct (sample_claim (a2 r1) c2 t2 l1) as [l2 [r2|]] eqn:E2; [|done]. intros HP.
  pose proof (claim_authorization_run _ [] _ _ _ _ _ _ _ _ _ _ (run_new _) E1) as H1.
  pose proof (claim_authorization_run _ _ _ _ _ _ _ _ _ _ _ _ H1 E2) as H2. by exists l1, r1, l2, r2.
Qed.

Lemma sample_history :
  exists l1 r1 l2 r2, sample_claim first_authorization "d" 1000 new_ledger = (l1, Ok r1)
    /\ run always_valid [r1; r2] l2 /\ rc_retry_index r2 = 1.
Proof.
  apply (two_claims first_authorization retry_authorization "d" "e" 1000 2000 (fun r => rc_retry_index r = 1)).
  vm_compute. reflexivity.
Qed.

Lemma claim_succeeds_exactly_witness :
  exists v b claim_id nonce t l l' receipt sha,
    is_sha256 b = true /\ claim_transaction v b claim_id nonce t l = (l', Ok receipt)
    /\ admissible v b claim_id nonce t l receipt sha.
Proof.
  destruct sample_history as (l1 & r1 & _ & _ & E & _).
  destruct (claim_authorization_inv _ _ _ _ _ _ _ _ _ _ _ E) as (l & v & b & _ & _ & Hb & Hc).
  apply sha256_json_is_sha256 in Hb.
  destruct (proj1 (claim_succeeds_exactly v b _ _ _ _ _ _ Hb) Hc) as (sha & Ha & _).
  do 9 eexists. split; [exact Hb|]. split; [exact Hc|exact Ha].
Defined.

Lemma authorizations_claimed_once_witness :
  exists r1 r2 l, run always_valid [r1; r2] l /\ NoDup (rc_authorization_id <$> [r1; r2]).
Proof.
  destruct sample_history as (_ & r1 & l & r2 & _ & H & _). exists r1, r2, l. split; [exact H|].
  apply (authorizations_claimed_once always_valid [r1; r2] l H).
Defined.

Lemma receipts_verify_exactly_witness :
  exists r1 r2 l d, run always_valid [r1; r2] l /\ verify_committed_receipt r1 l = Ok d.
Proof.
  destruct sample_history as (_ & r1 & l & r2 & _ & H & _).
  destruct (proj1 (receipts_verify_exactly always_valid [r1; r2] l r1 H)) as (d & _ & Hd); [by left|].
  exists r1, r2, l, d. by split.
Defined.

Lemma retry_lineage_bounded_witness :
  exists r1 r2 l chain, run always_valid [r1; r2] l /\ lineage [r1; r2] chain r2 /\ length chain = 1%nat.
Proof.
  destruct sample_history as (_ & r1 & l & r2 & _ & H & H1).
  destruct (proj1 (retry_lineage_bounded always_valid [r1; r2] l r2 H ltac:(right; by left))) as (chain & Hc & Hl & _).
  exists r1, r2, l, chain. split_and!; [exact H|exact Hc|lia].
Defined.

Lemma claim_is_authorized_witness :
  exists l1 r1, sample_claim first_authorization "d" 1000 new_ledger = (l1, Ok r1)
    /\ rc_binding r1 = sample_binding.
Proof.
  destruct sample_history as (l1 & r1 & _ & _ & E & _). exists l1, r1. split; [exact E|].
  exact (proj1 (claim_is_authorized always_valid _ _ _ _ _ _ _ _ _ _ E)).
Defined.

End DispatchFacts.
