(* ===== verification/JobFacts.v ===== *)
(** * Correctness of prepared jobs

    The blob table is the exact, sorted set of the referenced blobs; a contract
    derived from a plan exists for plans with short slash-free ids, and success
    under the contract of a valid job means that every assertion and obligation of
    the plan was recorded; a valid job fits the aggregator and the dispatcher. *)
From Stdlib Require Import ZArith QArith String Ascii Lia.
From stdpp Require Import base tactics list strings sorting.
From S2P Require Import Prelude Floats Sha256 Json JsonFacts Models ModelFacts Samples Grading Aggregate Job.
Local Open Scope string_scope.
Local Open Scope Z_scope.

Module JobFacts.
Import Sha256 Json Models Grading Job.

(** ** The blob table *)

(** The blob a reference names. *)
Definition blob_of (r : ArtifactRef) : JobBlobRef :=
  {| jb_sha256 := art_sha256 r; jb_size_bytes := art_size_bytes r |}.

Lemma collect_blobs_spec refs : forall acc,
  let named k v := dict_get acc k = Some v
                   \/ exists r, r ∈ refs /\ art_sha256 r = k /\ art_size_bytes r = v in
  match collect_blobs acc refs with
  | Ok d => (NoDup acc.*1 -> NoDup d.*1) /\ forall k v, dict_get d k = Some v <-> named k v
  | Err _ => exists k v1 v2, named k v1 /\ named k v2 /\ v1 <> v2
  end.
Proof.
  induction refs as [|r refs IH]; intros acc; cbn zeta; cbn [collect_blobs].
  { split; [done|]. intros k v. split; [auto|]. intros [H|(r & Hr & _)]; [done|by apply elem_of_nil in Hr]. }
  destruct (match dict_get acc (art_sha256 r) with Some p => negb (p =? art_size_bytes r) | None => false end) eqn:G.
  - destruct (dict_get acc (art_sha256 r)) as [p|] eqn:Hp; [|done]. apply negb_true_iff, Z.eqb_neq in G.
    exists (art_sha256 r), p, (art_size_bytes r). split_and!; [by left| |done].
    right. exists r. split_and!; [by left|done..].
  - assert (Hstep : forall k v, (dict_get (dict_set (art_sha256 r) (art_size_bytes r) acc) k = Some v
        \/ exists q, q ∈ refs /\ art_sha256 q = k /\ art_size_bytes q = v)
      <-> (dict_get acc k = Some v \/ exists q, q ∈ r :: refs /\ art_sha256 q = k /\ art_size_bytes q = v)).
    { intros k v. rewrite dict_get_set. setoid_rewrite elem_of_cons.
      destruct (decide (k = art_sha256 r)) as [->|Hne]; [|naive_solver].
      destruct (dict_get acc (art_sha256 r)) as [p|]; [apply negb_false_iff, Z.eqb_eq in G as ->|]; naive_solver. }
    specialize (IH (dict_set (art_sha256 r) (art_size_bytes r) acc)). cbn zeta in IH.
    destruct (collect_blobs _ refs) as [d|].
    + destruct IH as [IH1 IH2]. split; [intros H; by apply IH1, dict_set_NoDup|].
      intros k v. by rewrite IH2, Hstep.
    + destruct IH as (k & v1 & v2 & H1 & H2 & Hne). exists k, v1, v2. by rewrite <-!Hstep.
Qed.

Lemma item_ltb_trans a b c : item_ltb a b = true -> item_ltb b c = true -> item_ltb a c = true.
Proof.
  unfold item_ltb. rewrite !orb_true_iff, !andb_true_iff, !bool_decide_eq_true, !Z.ltb_lt.
  intros [H1|[H1 ?]] [H2|[H2 ?]].
  - left. by eapply string_ltb_trans.
  - left. by rewrite <-H2.
  - left. by rewrite H1.
  - right. split; [congruence|lia].
Qed.

Lemma item_ltb_total a b : item_ltb a b = false -> a = b \/ item_ltb b a = true.
Proof.
  unfold item_ltb. rewrite orb_false_iff, !orb_true_iff, !andb_true_iff, !bool_decide_eq_true, !Z.ltb_lt.
  intros [H1 H2]. destruct (string_ltb_total _ _ H1) as [He|]; [|auto].
  rewrite bool_decide_true in H2 by done. cbn in H2. apply Z.ltb_ge in H2.
  destruct (decide (a.2 = b.2)) as [Hs|]; [|right; right; split; [congruence|lia]].
  left. destruct a, b. cbn in *. congruence.
Qed.

(** Items with distinct keys that are sorted as pairs are sorted by key. *)
Lemma item_sorted_keys (l : list (string * Z)) :
  NoDup l.*1 -> StronglySorted (fun a b => item_ltb a b = true) l ->
  StronglySorted (fun a b => String.ltb a.1 b.1 = true) l.
Proof.
  intros Hnd Hs. induction Hs as [|x l Hs IH Hx]; constructor.
  - apply IH. cbn in Hnd. by apply NoDup_cons_1_2 in Hnd.
  - cbn in Hnd. apply NoDup_cons in Hnd as [Hk _]. rewrite Forall_forall in Hx |- *. intros y Hy.
    specialize (Hx y Hy). unfold item_ltb in Hx. apply orb_true_iff in Hx as [Hx|Hx]; [done|].
    apply andb_true_iff in Hx as [Hx _]. apply bool_decide_eq_true in Hx.
    exfalso. apply Hk. rewrite Hx. by apply (list_elem_of_fmap_2 fst).
Qed.

Abbreviation by_digest := (fun a b : JobBlobRef => String.ltb (jb_sha256 a) (jb_sha256 b) = true).

(** Two strictly sorted tables with the same blobs are one. *)
Lemma blob_tables_eq (a b : list JobBlobRef) :
  StronglySorted by_digest a -> StronglySorted by_digest b -> (forall x, x ∈ a <-> x ∈ b) -> a = b.
Proof.
  assert (Hanti : forall x y, by_digest x y -> by_digest y x -> False).
  { intros x y H1 H2. pose proof (string_ltb_trans _ _ _ H1 H2) as H. by rewrite string_ltb_irrefl in H. }
  assert (Hnd : forall l, StronglySorted by_digest l -> NoDup l).
  { induction 1 as [|x l _ IH Hx]; constructor; [|done]. intros Hin.
    apply (proj1 (Forall_forall _ _) Hx) in Hin. by rewrite string_ltb_irrefl in Hin. }
  intros Ha Hb Hab. eapply (StronglySorted_unique_strong (fun a b => by_digest a b)); [|done|done|].
  - intros x y _ _ H1 H2. by destruct (Hanti x y).
  - apply NoDup_Permutation; auto.
Qed.

Definition item_blob (i : string * Z) : JobBlobRef := {| jb_sha256 := i.1; jb_size_bytes := i.2 |}.

Lemma map_item_blob d :
  map_result (fun item => construct (fun b => check_field "blob" (JobBlobRef_ok b) ;; Ok tt) (item_blob item)) d
  = Ok (item_blob <$> d) <-> Forall (fun b => JobBlobRef_ok b = true) (item_blob <$> d).
Proof.
  rewrite map_result_ok. induction d as [|i d IH]; cbn; [by split; constructor|].
  rewrite Forall2_cons, Forall_cons, IH, construct_ok.
  destruct (JobBlobRef_ok _); cbn; naive_solver.
Qed.

Lemma collected_sorted d :
  NoDup d.*1 -> StronglySorted by_digest (item_blob <$> sort_by item_ltb d).
Proof.
  intros Hnd. assert (Hs : StronglySorted (fun a b => String.ltb a.1 b.1 = true) (sort_by item_ltb d)).
  { apply item_sorted_keys; [by rewrite sort_by_perm|].
    apply (sort_by_sorted item_ltb item_ltb_trans item_ltb_total). by apply NoDup_fmap_1 in Hnd. }
  induction Hs as [|x l Hs IH Hx]; cbn; constructor; [done|].
  rewrite Forall_fmap. by eapply Forall_impl.
Qed.

Lemma physical_blob_table_spec refs table :
  physical_blob_table refs = Ok table <->
  (forall b, b ∈ table <-> exists r, r ∈ refs /\ b = blob_of r)
  /\ StronglySorted (fun a b => String.ltb (jb_sha256 a) (jb_sha256 b) = true) table
  /\ Forall (fun b => JobBlobRef_ok b = true) table.
Proof.
  unfold physical_blob_table. pose proof (collect_blobs_spec refs []) as Hspec. cbn zeta in Hspec.
  destruct (collect_blobs [] refs) as [d|]; cbn [bind_result].
  - destruct Hspec as [Hnd Hget]. specialize (Hnd (NoDup_nil_2 (A:=string))).
    assert (Hmem : forall b, b ∈ item_blob <$> sort_by item_ltb d <-> exists r, r ∈ refs /\ b = blob_of r).
    { intros b. rewrite list_elem_of_fmap. setoid_rewrite sort_by_elem. split.
      - intros ([k v] & -> & Hi). apply (dict_get_Some _ _ _ Hnd), Hget in Hi as [[=]|(r & Hr & <- & <-)]. eauto.
      - intros (r & Hr & ->). exists (art_sha256 r, art_size_bytes r). split; [done|].
        apply (dict_get_Some _ _ _ Hnd), Hget. eauto. }
    pose proof (collected_sorted d Hnd) as Hs.
    change (map_result _ (sort_by item_ltb d)) with
      (map_result (fun item => construct (fun b => check_field "blob" (JobBlobRef_ok b) ;; Ok tt) (item_blob item))
        (sort_by item_ltb d)).
    split.
    + intros H. assert (table = item_blob <$> sort_by item_ltb d) as ->.
      { apply map_result_ok in H. clear -H. induction H as [|i b d' t Hi _ IH]; [done|].
        apply construct_ok in Hi as [_ ->]. cbn. by f_equal. }
      apply map_item_blob in H. done.
    + intros (Ht & Hts & Hok). assert (table = item_blob <$> sort_by item_ltb d) as ->.
      { apply blob_tables_eq; [done..|]. intros x. by rewrite Ht, Hmem. }
      by apply map_item_blob.
  - split; [done|]. intros (Ht & Hs & _). destruct Hspec as (k & v1 & v2 & [[=]|(r1 & H1 & <- & <-)] & [[=]|(r2 & H2 & Hk & <-)] & Hne).
    exfalso. apply Hne. assert (Hin : blob_of r1 ∈ table /\ blob_of r2 ∈ table) by (split; apply Ht; eauto).
    destruct Hin as [Hi1 Hi2]. clear -Hs Hi1 Hi2 Hk. induction Hs as [|x l Hs IH Hx]; [by apply elem_of_nil in Hi1|].
    rewrite Forall_forall in Hx. apply elem_of_cons in Hi1 as [E1|Hi1], Hi2 as [E2|Hi2].
    + rewrite <-E2 in E1. by injection E1.
    + specialize (Hx _ Hi2). rewrite <-E1 in Hx. cbn in Hx. by rewrite Hk, string_ltb_irrefl in Hx.
    + specialize (Hx _ Hi1). rewrite <-E2 in Hx. cbn in Hx. by rewrite Hk, string_ltb_irrefl in Hx.
    + auto.
Qed.

Lemma physical_blob_table_members refs table :
  physical_blob_table refs = Ok table -> forall b, b ∈ table <-> exists r, r ∈ refs /\ b = blob_of r.
Proof. by intros [H _]%physical_blob_table_spec. Qed.

(** The blob table of a list of references is their exact set: a list is the
    table if and only if it holds precisely the digest and size of each reference,
    is strictly ordered by digest (so no digest occurs twice), and every entry is
    within the size limits.  In particular the table is undefined exactly when two
    references give one digest two sizes or an entry is out of bounds. *)
Theorem physical_blob_table_exact refs table :
  physical_blob_table refs = Ok table <->
  (forall b, b ∈ table <-> exists r, r ∈ refs /\ b = blob_of r)
  /\ StronglySorted (fun a b => String.ltb (jb_sha256 a) (jb_sha256 b) = true) table
  /\ Forall (fun b => JobBlobRef_ok b = true) table.
Proof. apply physical_blob_table_spec. Qed.

(** ** The contract of a plan *)
Lemma scoring_contract_inv p c :
  scoring_contract_for_plan p = Ok c <->
  Forall (fun k => validate_ExpectedCheck k = Ok tt) (functional_checks p)
  /\ Forall (fun k => validate_ExpectedCheck k = Ok tt) (semantic_checks p)
  /\ validate_ScoringContract c = Ok tt
  /\ c = {| sc_task_id := ep_task_id p; sc_task_version := ep_task_version p;
            sc_task_bundle_sha256 := ep_task_bundle_sha256 p;
            sc_checks := (object_checks ++ functional_checks p ++ semantic_checks p)%list |}.
Proof.
  unfold scoring_contract_for_plan.
  assert (Ho : map_result (construct validate_ExpectedCheck) object_checks = Ok object_checks)
    by (vm_compute; reflexivity).
  rewrite Ho. cbn [bind_result]. rewrite bind_ok. setoid_rewrite bind_ok. setoid_rewrite map_construct_ok.
  setoid_rewrite construct_ok. split.
  - intros (f & [-> Hf] & s & [-> Hs] & Hv & ->). split_and!; assumption || reflexivity.
  - intros (Hf & Hs & Hv & ->). eexists. split; [split; [reflexivity|exact Hf]|].
    eexists. split; [split; [reflexivity|exact Hs]|]. split; [exact Hv|reflexivity].
Qed.

(** A check of the run stands for a check of the plan: same stage, id, requirement,
    weight and input artifacts, and passed if it is required. *)
Definition recorded (e : EvaluationEvidence) (k : ExpectedCheck) : Prop :=
  exists s a, s ∈ ev_stages e /\ st_stage s = ec_stage k /\ a ∈ st_checks s
    /\ chk_check_id a = ec_check_id k /\ chk_required a = ec_required k
    /\ feqb (chk_weight a) (ec_weight k) = true
    /\ (forall name ref, (name, ref) ∈ ec_input_artifacts k -> dict_get (chk_artifacts a) name = Some ref)
    /\ (ec_required k = true -> chk_outcome a = PASS).

Lemma list_eqb_elem {A} (eqb : A -> A -> bool) a : forall b y,
  list_eqb eqb a b = true -> y ∈ b -> exists x, x ∈ a /\ eqb x y = true.
Proof.
  induction a as [|x a IH]; intros [|z b] y; cbn; try done; [by intros _ ?%elem_of_nil|].
  intros [Hx Hl]%andb_true_iff [->|Hy]%elem_of_cons; [exists x; split; [by left|done]|].
  destruct (IH _ _ Hl Hy) as (w & Hw & He). exists w. split; [by right|done].
Qed.

Lemma eqb_recorded e k k' s a :
  ExpectedCheck_eqb k' k = true -> NoDup (ec_input_artifacts k).*1 ->
  s ∈ ev_stages e -> st_stage s = ec_stage k' -> a ∈ st_checks s -> meets k' a ->
  (ec_required k' = true -> chk_outcome a = PASS) -> recorded e k.
Proof.
  unfold ExpectedCheck_eqb, dict_eqb. rewrite !andb_true_iff, !bool_decide_eq_true.
  intros ((((Hst & Hid) & Hreq%eqb_prop) & Hw) & Hset & Hin) Hnd Hs Hstage Ha Hm Hpass.
  exists s, a. destruct Hm as [M1 M2 M3 M4]. split_and!; try congruence.
  - by eapply feqb_trans.
  - intros name ref Href. apply M4. rewrite forallb_forall in Hin.
    assert (Hk : name ∈ (ec_input_artifacts k').*1).
    { unfold same_set in Hset. apply andb_true_iff in Hset as [_ Hset%bool_decide_eq_true].
      rewrite Forall_forall in Hset. apply Hset. by apply (list_elem_of_fmap_2 fst) in Href. }
    destruct (dict_get (ec_input_artifacts k') name) as [ref'|] eqn:Hg; [|by apply dict_get_None in Hg].
    pose proof (dict_get_In _ _ _ Hg) as Hi. pose proof (proj1 (list_elem_of_In _ _) Hi) as Hi'.
    specialize (Hin _ Hi'). cbn in Hin. apply bool_decide_eq_true in Hin. rewrite Hg in Hin.
    apply (dict_get_Some _ _ _ Hnd) in Href. congruence.
  - intros. apply Hpass. congruence.
Qed.

(** ** What a valid manifest guarantees *)
Record bound_job (m : EvaluationJobManifest) : Prop := {
  bj_request : validate_EvaluationRequest (jm_request m) = Ok tt;
  bj_suite : validate_SuiteManifest (jm_suite m) = Ok tt;
  bj_experiment : validate_ExperimentManifest (jm_experiment m) = Ok tt;
  bj_environment : validate_EnvironmentFingerprint (jm_environment m) = Ok tt;
  bj_policy : validate_RewardPolicy (jm_reward_policy m) = Ok tt;
  bj_plan : validate_EvaluationPlan (jm_plan m) = Ok tt;
  bj_contract : validate_ScoringContract (jm_contract m) = Ok tt;
  bj_microvm : env_isolation (jm_environment m) = ISO_MICROVM;
  bj_nonce : jm_restore_nonce m <> ZERO_NONCE;
  bj_environment_id : req_environment_id (jm_request m) = env_environment_id (jm_environment m)
    /\ ep_environment_id (jm_plan m) = env_environment_id (jm_environment m)
    /\ su_environment_id (jm_suite m) = env_environment_id (jm_environment m);
  bj_task : req_task_id (jm_request m) = ep_task_id (jm_plan m)
    /\ req_task_version (jm_request m) = ep_task_version (jm_plan m)
    /\ req_task_bundle_sha256 (jm_request m) = ep_task_bundle_sha256 (jm_plan m);
  bj_derived : exists d, scoring_contract_for_plan (jm_plan m) = Ok d
    /\ ScoringContract_eqb (jm_contract m) d = true;
  bj_digests : sha256_json (EvaluationRequest_json (jm_request m)) = Ok (jm_request_sha256 m)
    /\ sha256_json (SuiteManifest_json (jm_suite m)) = Ok (jm_suite_sha256 m)
    /\ sha256_json (ExperimentManifest_json (jm_experiment m)) = Ok (jm_experiment_sha256 m)
    /\ sha256_json (EnvironmentFingerprint_json (jm_environment m)) = Ok (jm_environment_sha256 m)
    /\ sha256_json (RewardPolicy_json (jm_reward_policy m)) = Ok (jm_reward_policy_sha256 m)
    /\ sha256_json (EvaluationPlan_json (jm_plan m)) = Ok (jm_plan_sha256 m)
    /\ sha256_json (ScoringContract_json (jm_contract m)) = Ok (jm_contract_sha256 m);
  bj_binds_experiment : req_experiment_id (jm_request m) = ex_experiment_id (jm_experiment m)
    /\ req_experiment_manifest_sha256 (jm_request m) = jm_experiment_sha256 m;
  bj_binds_suite : req_suite_id (jm_request m) = su_suite_id (jm_suite m)
    /\ req_suite_manifest_sha256 (jm_request m) = jm_suite_sha256 m
    /\ ex_suite_manifest_sha256 (jm_experiment m) = jm_suite_sha256 m;
  bj_generation : req_model_id (jm_request m) = ex_model_id (jm_experiment m)
    /\ req_model_artifact_sha256 (jm_request m) = ex_model_artifact_sha256 (jm_experiment m)
    /\ req_sampling_config_sha256 (jm_request m) = ex_sampling_config_sha256 (jm_experiment m)
    /\ req_diagnostic_condition (jm_request m) = ex_diagnostic_condition (jm_experiment m);
  bj_frozen : ex_environment_sha256 (jm_experiment m) = jm_environment_sha256 m
    /\ ex_reward_policy_sha256 (jm_experiment m) = jm_reward_policy_sha256 m
    /\ ex_reward_policy_id (jm_experiment m) = rp_policy_id (jm_reward_policy m)
    /\ jm_harness_commit m = ex_harness_commit (jm_experiment m)
    /\ jm_expected_grader_id m = ex_expected_grader_id (jm_experiment m)
    /\ grader_id_for (jm_request m) (jm_environment m) (jm_harness_commit m) = Ok (jm_expected_grader_id m);
  bj_seed : check_seed_plan (jm_request m) (jm_experiment m) (jm_plan m) = Ok tt;
  bj_suite_task : check_suite_task m = Ok tt;
  bj_blobs : physical_blob_table (required_references (jm_request m) (jm_plan m)) = Ok (jm_blobs m);
  bj_total : jm_total_blob_bytes m = zsum (jb_size_bytes <$> jm_blobs m)
    /\ jm_total_blob_bytes m <= MAX_JOB_TOTAL_BLOB_BYTES
}.

Lemma differ_false {A} `{EqDecision A} (a b : A) : differ a b = false -> a = b.
Proof. unfold differ. apply bool_decide_neg_false. Qed.
Lemma differ_same {A} `{EqDecision A} (a : A) : differ a a = false.
Proof. unfold differ. by rewrite bool_decide_true. Qed.

Lemma check_digests_ok l :
  check_digests l = Ok tt <-> Forall (fun x => x.1.1 = x.1.2) l.
Proof.
  induction l as [|[[d a] label] l IH]; cbn; [by split; constructor|].
  rewrite Forall_cons, <-IH. cbn. destruct (differ d a) eqn:E.
  - split; [done|]. intros [-> _]. by rewrite differ_same in E.
  - apply differ_false in E as ->. by split; [|intros []].
Qed.

Lemma validate_job_bound m : validate_EvaluationJobManifest m = Ok tt -> bound_job m.
Proof.
  unfold validate_EvaluationJobManifest. intros H. peel H.
  unfold all_embedded_identities_are_cross_bound in H. cbv zeta in H. peel H.
  clear H.
  repeat match goal with
  | H : _ || _ = false |- _ => apply orb_false_iff in H; destruct H
  | H : negb (ScoringContract_eqb _ _) = false |- _ => apply negb_false_iff in H
  | H : differ _ _ = false |- _ => apply differ_false in H
  end.
  apply check_digests_ok in E35. rewrite !Forall_cons in E35. cbn [fst snd] in E35.
  destruct E35 as (D1 & D2 & D3 & D4 & D5 & D6 & D7 & _).
  apply bool_decide_eq_false in E19. apply andb_true_iff in E17 as [_ E17%Z.leb_le].
  repeat match goal with H : (_, _, _) = (_, _, _) |- _ => injection H; clear H; intros end.
  constructor; try assumption; try (split_and!; congruence).
  - eauto.
  - congruence.
Qed.

(** ** Success under the contract of a prepared job *)
Lemma input_artifacts_distinct p k :
  k ∈ (object_checks ++ functional_checks p ++ semantic_checks p)%list -> NoDup (ec_input_artifacts k).*1.
Proof.
  rewrite !elem_of_app. intros [H|[H|H]].
  - unfold object_checks in H. apply list_elem_of_fmap in H as (id & -> & _). constructor.
  - unfold functional_checks in H. apply list_elem_of_bind in H as (c & (a & -> & _)%list_elem_of_fmap & _).
    apply NoDup_singleton.
  - unfold semantic_checks in H. apply list_elem_of_fmap in H as (o & -> & _). constructor.
Qed.

Lemma job_success_recorded m e p g k :
  validate_EvaluationJobManifest m = Ok tt -> score_evidence e (jm_contract m) p = Ok g ->
  gr_strict_success g = Some true ->
  k ∈ (object_checks ++ functional_checks (jm_plan m) ++ semantic_checks (jm_plan m))%list -> recorded e k.
Proof.
  intros Hm%validate_job_bound Hg Hs Hk. destruct (bj_derived m Hm) as (d & Hd & Heq).
  apply scoring_contract_inv in Hd as (_ & _ & _ & ->).
  unfold ScoringContract_eqb in Heq. rewrite !andb_true_iff in Heq. destruct Heq as [_ Heq].
  destruct (list_eqb_elem _ _ _ _ Heq Hk) as (k' & Hk' & Hkk).
  apply (strict_success_checks e _ p g Hg) in Hs as [_ Hall].
  destruct (Hall k' Hk') as (s & a & Hsin & Hst & Ha & Hm' & Hp).
  eapply eqb_recorded; try done. by eapply input_artifacts_distinct.
Qed.

(** C15. Benchmark success of a prepared job means the whole task was tested: when a
    manifest validates and a run scored under its contract is a strict success,
    the run recorded, as passed if required, the four object checks, one check per
    assertion of each functional case of the plan, with the assertion's weight and
    the case's input artifact, and one check per semantic obligation. *)
Theorem job_success_covers_plan m e p g :
  validate_EvaluationJobManifest m = Ok tt -> score_evidence e (jm_contract m) p = Ok g ->
  gr_strict_success g = Some true ->
  Forall (recorded e) object_checks
  /\ (forall c a, c ∈ ep_functional_cases (jm_plan m) -> a ∈ efc_assertions c ->
        recorded e (expected_check FUNCTIONAL (functional_id (efc_case_id c) (as_assertion_id a))
                      (as_required a) (as_weight a) [("input", efc_input c)]))
  /\ (forall o, o ∈ ep_semantic_obligations (jm_plan m) ->
        recorded e (expected_check SEMANTICS (semantics_id (so_obligation_id o)) (so_required o) fone [])).
Proof.
  intros Hm Hg Hs. assert (Hrec := fun k => job_success_recorded m e p g k Hm Hg Hs). split_and!.
  - apply Forall_forall. intros k Hk. apply Hrec. rewrite !elem_of_app. by left.
  - intros c a Hc Ha. apply Hrec. rewrite !elem_of_app. right. left. unfold functional_checks.
    apply list_elem_of_bind. exists c. split; [|done]. apply list_elem_of_fmap. eauto.
  - intros o Ho. apply Hrec. rewrite !elem_of_app. right. right. unfold semantic_checks.
    apply list_elem_of_fmap. eauto.
Qed.

(** ** When a plan has a contract *)
(** An id with a literal prefix is stable when it is short enough. *)
Lemma prefixed_stable_id pre s :
  is_stable_id pre = true -> str_forall is_id_char s = true ->
  is_stable_id (pre ++ s) = true <-> (String.length (pre ++ s) <= 128)%nat.
Proof.
  destruct pre as [|c pre]; [done|]. intros Hp Hs. cbn in Hp. rewrite !andb_true_iff in Hp.
  destruct Hp as [[Hc Hp] _].
  change (is_alnum c && str_forall is_id_char (pre ++ s) && (String.length (pre ++ s) <=? 127)%nat = true
          <-> (S (String.length (pre ++ s)) <= 128)%nat).
  rewrite ModelFacts.str_forall_app, Hc, Hp, Hs. cbn [andb]. rewrite Nat.leb_le. lia.
Qed.

Definition functional_ids (p : EvaluationPlan) : list string := ec_check_id <$> functional_checks p.
Definition semantics_ids (p : EvaluationPlan) : list string := ec_check_id <$> semantic_checks p.

Lemma validated_plan_cases p :
  validate_EvaluationPlan p = Ok tt ->
  Forall (fun c => validate_EvaluationFunctionalCase c = Ok tt) (ep_functional_cases p)
  /\ Forall (fun o => SemanticObligation_ok o = true) (ep_semantic_obligations p)
  /\ NoDup (efc_case_id <$> ep_functional_cases p) /\ NoDup (so_obligation_id <$> ep_semantic_obligations p)
  /\ is_stable_id (ep_task_id p) = true /\ is_stable_id (ep_task_version p) = true
  /\ is_sha256 (ep_task_bundle_sha256 p) = true.
Proof.
  unfold validate_EvaluationPlan. intros H. peel H. unfold plan_identities_are_unique in H. peel H.
  repeat match goal with
  | H : negb (unique _) = false |- _ => apply negb_false_iff, unique_NoDup in H
  | H : _ && _ = true |- _ => apply andb_true_iff in H; destruct H
  | H : for_each _ _ = Ok _ |- _ => apply for_each_ok in H
  | H : forallb _ (ep_semantic_obligations _) = true |- _ =>
      rewrite forallb_forall in H; setoid_rewrite <-list_elem_of_In in H; rewrite <-Forall_forall in H
  end.
  done.
Qed.

(** The checks a plan makes have valid fields but for the length of their ids. *)
Lemma functional_check_valid p k :
  validate_EvaluationPlan p = Ok tt -> k ∈ functional_checks p ->
  validate_ExpectedCheck k = Ok tt <-> (String.length (ec_check_id k) <= 128)%nat.
Proof.
  intros (Hc & _)%validated_plan_cases Hk. unfold functional_checks in Hk.
  apply list_elem_of_bind in Hk as (c & (a & -> & Ha)%list_elem_of_fmap & Hin).
  apply (proj1 (Forall_forall _ _) Hc) in Hin. unfold validate_EvaluationFunctionalCase in Hin. peel Hin.
  apply andb_true_iff in E1 as [_ E1]. rewrite forallb_forall in E1.
  specialize (E1 a (proj1 (list_elem_of_In _ _) Ha)). unfold AssertionSpec_ok in E1.
  rewrite !andb_true_iff in E1. destruct E1 as (((Hid & _) & Hw) & _).
  unfold validate_ExpectedCheck. cbn [expected_check ec_stage ec_check_id ec_weight ec_input_artifacts].
  rewrite bool_decide_true by by (right; left). rewrite Hw.
  replace (dict_ok _ _ && _) with true by (unfold dict_ok; cbn [forallb snd]; by rewrite E0).
  unfold functional_id.
  rewrite <-(prefixed_stable_id "functional/" (efc_case_id c ++ "/" ++ as_assertion_id a)); [|done|].
  - apply field_only_ok.
  - rewrite !ModelFacts.str_forall_app, !andb_true_iff. split_and!; [by apply ModelFacts.stable_id_chars|done|by apply ModelFacts.stable_id_chars].
Qed.

Lemma semantic_check_valid p k :
  validate_EvaluationPlan p = Ok tt -> k ∈ semantic_checks p ->
  validate_ExpectedCheck k = Ok tt <-> (String.length (ec_check_id k) <= 128)%nat.
Proof.
  intros (_ & Ho & _)%validated_plan_cases Hk. unfold semantic_checks in Hk.
  apply list_elem_of_fmap in Hk as (o & -> & Hin). apply (proj1 (Forall_forall _ _) Ho) in Hin.
  unfold SemanticObligation_ok in Hin. rewrite !andb_true_iff in Hin. destruct Hin as [[Hid _] _].
  unfold validate_ExpectedCheck. cbn [expected_check ec_stage ec_check_id ec_weight ec_input_artifacts].
  rewrite bool_decide_true by by (right; right; left).
  replace (weight_ok fone) with true by (vm_compute; reflexivity). unfold semantics_id.
  rewrite <-(prefixed_stable_id "semantics/" (so_obligation_id o)); [|done|by apply ModelFacts.stable_id_chars].
  apply field_only_ok.
Qed.

Abbreviation check_key := (fun k => (ec_stage k, ec_check_id k)).

Lemma staged_keys stage l :
  Forall (fun k => ec_stage k = stage) l -> check_key <$> l = pair stage <$> (ec_check_id <$> l).
Proof. induction 1 as [|k l Hk _ IH]; cbn; [done|]. by rewrite Hk, IH. Qed.

Lemma staged_NoDup stage l :
  Forall (fun k => ec_stage k = stage) l -> NoDup (check_key <$> l) <-> NoDup (ec_check_id <$> l).
Proof. intros H. rewrite (staged_keys stage l H). split; [apply NoDup_fmap_1|apply NoDup_fmap_2, _]. Qed.

Lemma staged_disjoint stage stage' l l' x :
  Forall (fun k => ec_stage k = stage) l -> Forall (fun k => ec_stage k = stage') l' -> stage <> stage' ->
  x ∈ check_key <$> l -> x ∉ check_key <$> l'.
Proof.
  intros H H' Hne (k & -> & Hk)%list_elem_of_fmap (k' & Heq & Hk')%list_elem_of_fmap.
  apply Hne. injection Heq as Hs _. rewrite Forall_forall in H, H'. rewrite <-(H k Hk), <-(H' k' Hk'). done.
Qed.

Lemma plan_checks_staged p :
  Forall (fun k => ec_stage k = OBJECT_POLICY) object_checks
  /\ Forall (fun k => ec_stage k = FUNCTIONAL) (functional_checks p)
  /\ Forall (fun k => ec_stage k = SEMANTICS) (semantic_checks p).
Proof.
  split_and!; [by repeat constructor|..]; apply Forall_forall; intros k Hk.
  - unfold functional_checks in Hk. by apply list_elem_of_bind in Hk as (c & (a & -> & _)%list_elem_of_fmap & _).
  - unfold semantic_checks in Hk. by apply list_elem_of_fmap in Hk as (o & -> & _).
Qed.

Lemma semantics_id_inj o o' : semantics_id o = semantics_id o' -> o = o'.
Proof. unfold semantics_id. intros H. by injection H. Qed.

Lemma plan_keys_unique p :
  validate_EvaluationPlan p = Ok tt ->
  NoDup (check_key <$> (object_checks ++ functional_checks p ++ semantic_checks p)%list)
  <-> NoDup (functional_ids p).
Proof.
  intros (_ & _ & _ & Ho & _)%validated_plan_cases.
  destruct (plan_checks_staged p) as (S1 & S2 & S3).
  assert (Hsem : NoDup (check_key <$> semantic_checks p)).
  { apply (staged_NoDup SEMANTICS); [done|]. unfold semantic_checks. rewrite <-list_fmap_compose.
    change (NoDup ((fun o => semantics_id (so_obligation_id o)) <$> ep_semantic_obligations p)).
    rewrite (list_fmap_compose so_obligation_id semantics_id). apply NoDup_fmap_2; [|done].
    intros ??. apply semantics_id_inj. }
  assert (Hobj : NoDup (check_key <$> object_checks)) by by apply (bool_decide_unpack _).
  rewrite !fmap_app, !NoDup_app. unfold functional_ids. rewrite <-(staged_NoDup FUNCTIONAL) by done.
  split; [by intros (_ & _ & ? & _)|]. intros Hf. split_and!; try done.
  - intros x Hx [H|H]%elem_of_app; revert H;
      [by eapply (staged_disjoint OBJECT_POLICY FUNCTIONAL)|by eapply (staged_disjoint OBJECT_POLICY SEMANTICS)].
  - intros x Hx. by eapply (staged_disjoint FUNCTIONAL SEMANTICS).
Qed.

(** Splitting at the first slash recovers a slash-free case id. *)
Lemma functional_id_inj c a c' a' :
  ModelFacts.no_slash c -> ModelFacts.no_slash c' -> functional_id c a = functional_id c' a' -> c = c' /\ a = a'.
Proof.
  unfold functional_id, ModelFacts.no_slash. intros Hc Hc' H.
  assert (H' : c ++ String "/" a = c' ++ String "/" a') by by injection H. clear H. revert c' Hc' H'.
  induction c as [|x c IH]; intros [|x' c'] Hc' H'.
  - by injection H'.
  - injection H' as <- _. done.
  - injection H' as -> _. done.
  - apply andb_true_iff in Hc as [_ Hc]. apply andb_true_iff in Hc' as [_ Hc'].
    injection H' as <- H'. destruct (IH Hc c' Hc' H') as [-> ->]. done.
Qed.

Lemma slash_free_ids_unique p :
  validate_EvaluationPlan p = Ok tt ->
  Forall (fun c => ModelFacts.no_slash (efc_case_id c)) (ep_functional_cases p) -> NoDup (functional_ids p).
Proof.
  intros (Hv & _ & Hc & _)%validated_plan_cases Hs. unfold functional_ids, functional_checks.
  induction (ep_functional_cases p) as [|c l IH]; [constructor|].
  apply Forall_cons in Hv as [Hv1 Hv], Hs as [Hs1 Hs]. cbn in Hc. apply NoDup_cons in Hc as [Hc1 Hc].
  cbn [mbind list_bind]. rewrite fmap_app. apply NoDup_app. split_and!; [| |by apply IH].
  - rewrite <-list_fmap_compose. unfold validate_EvaluationFunctionalCase in Hv1. peel Hv1.
    apply negb_false_iff, unique_NoDup in E2.
    change (NoDup ((fun a => functional_id (efc_case_id c) (as_assertion_id a)) <$> efc_assertions c)).
    rewrite (list_fmap_compose as_assertion_id (functional_id (efc_case_id c))).
    apply NoDup_fmap_2; [|done]. intros a a' H. by apply functional_id_inj in H as [_ ->].
  - intros x (k & -> & (a & -> & _)%list_elem_of_fmap)%list_elem_of_fmap
      (k' & Heq & (c' & (a' & -> & _)%list_elem_of_fmap & Hin)%list_elem_of_bind)%list_elem_of_fmap.
    cbn in Heq. apply functional_id_inj in Heq as [Heq _]; [|done|by apply (proj1 (Forall_forall _ _) Hs)].
    apply Hc1. rewrite Heq. by apply (list_elem_of_fmap_2 efc_case_id).
Qed.

(** The required-check test of the contract, on the checks of a plan. *)
Lemma plan_stage_required p stage (l : list ExpectedCheck) :
  (forall k, k ∈ (object_checks ++ functional_checks p ++ semantic_checks p)%list ->
             ec_stage k = stage <-> k ∈ l) ->
  (forall k, k ∈ l -> k ∈ (object_checks ++ functional_checks p ++ semantic_checks p)%list) ->
  existsb (fun k => bool_decide (ec_stage k = stage) && ec_required k)
    (object_checks ++ functional_checks p ++ semantic_checks p)%list = true
  <-> exists k, k ∈ l /\ ec_required k = true.
Proof.
  intros Hst Hsub. rewrite existsb_exists. setoid_rewrite <-list_elem_of_In.
  setoid_rewrite andb_true_iff. setoid_rewrite bool_decide_eq_true. split.
  - intros (k & Hk & Hs & Hr). exists k. split; [by apply Hst|done].
  - intros (k & Hk & Hr). exists k. split_and!; [by apply Hsub|by apply Hst; [apply Hsub|]|done].
Qed.

Lemma plan_manifest_complete p c :
  validate_EvaluationPlan p = Ok tt ->
  sc_checks c = (object_checks ++ functional_checks p ++ semantic_checks p)%list ->
  check_manifest_is_complete_and_unique c = Ok tt <->
  NoDup (functional_ids p)
  /\ (exists k, k ∈ functional_checks p /\ ec_required k = true)
  /\ (exists k, k ∈ semantic_checks p /\ ec_required k = true).
Proof.
  intros Hp Hc. unfold check_manifest_is_complete_and_unique. rewrite Hc.
  rewrite <-(plan_keys_unique p Hp), <-unique_NoDup.
  destruct (plan_checks_staged p) as (S1 & S2 & S3). rewrite Forall_forall in S1, S2, S3.
  rewrite <-(plan_stage_required p FUNCTIONAL), <-(plan_stage_required p SEMANTICS).
  2-5: intros k; rewrite !elem_of_app; specialize (S1 k); specialize (S2 k); specialize (S3 k); cbv beta in S1, S2, S3.
  2-5: try tauto.
  2-3: intros [H|[H|H]]; split; intros; (solve [auto] || (exfalso; intuition congruence)).
  assert (Hobj : existsb (fun k => bool_decide (ec_stage k = OBJECT_POLICY) && ec_required k)
    (object_checks ++ functional_checks p ++ semantic_checks p)%list = true).
  { apply existsb_exists. eexists. split; [by left|by vm_compute]. }
  destruct (unique _); [cbn [negb]|by split; [|intros []]].
  unfold CHECKED_STAGES. cbn [for_each]. rewrite Hobj. cbn [negb bind_result].
  destruct (existsb (fun k => bool_decide (ec_stage k = FUNCTIONAL) && _) _); cbn [negb bind_result];
    [|by split; [|intros (? & ? & ?)]].
  destruct (existsb (fun k => bool_decide (ec_stage k = SEMANTICS) && _) _); cbn [negb bind_result]; by split; [|intros (? & ? & ?)].
Qed.

Definition check_count (p : EvaluationPlan) : Z :=
  4 + Z.of_nat (length (functional_checks p)) + Z.of_nat (length (semantic_checks p)).

(** Which plans have a scoring contract: the contract of a valid plan exists
    exactly when no check id is longer than 128 characters, the functional check
    ids are distinct, the plan makes at most 8192 checks, and it has a required
    assertion and a required obligation.  The ids are distinct whenever the case
    ids contain no slash. *)
Theorem contract_exists_exactly p :
  validate_EvaluationPlan p = Ok tt ->
  ((exists c, scoring_contract_for_plan p = Ok c) <->
   Forall (fun id => (String.length id <= 128)%nat) (functional_ids p ++ semantics_ids p)
   /\ check_count p <= 8192 /\ NoDup (functional_ids p)
   /\ (exists k, k ∈ functional_checks p /\ ec_required k = true)
   /\ (exists k, k ∈ semantic_checks p /\ ec_required k = true))
  /\ (Forall (fun c => ModelFacts.no_slash (efc_case_id c)) (ep_functional_cases p) ->
      NoDup (functional_ids p)).
Proof.
  intros Hp. split; [|by apply slash_free_ids_unique].
  destruct (validated_plan_cases p Hp) as (_ & _ & _ & _ & Ht & Hver & Hb).
  assert (Hf : Forall (fun k => validate_ExpectedCheck k = Ok tt) (functional_checks p)
               <-> Forall (fun id => (String.length id <= 128)%nat) (functional_ids p)).
  { unfold functional_ids. rewrite Forall_fmap, !Forall_forall.
    split; intros H k Hk; apply (functional_check_valid p k Hp Hk), (H k Hk). }
  assert (Hs : Forall (fun k => validate_ExpectedCheck k = Ok tt) (semantic_checks p)
               <-> Forall (fun id => (String.length id <= 128)%nat) (semantics_ids p)).
  { unfold semantics_ids. rewrite Forall_fmap, !Forall_forall.
    split; intros H k Hk; apply (semantic_check_valid p k Hp Hk), (H k Hk). }
  setoid_rewrite scoring_contract_inv. rewrite Forall_app, <-Hf, <-Hs.
  set (c := {| sc_task_id := ep_task_id p; sc_task_version := ep_task_version p;
               sc_task_bundle_sha256 := ep_task_bundle_sha256 p;
               sc_checks := (object_checks ++ functional_checks p ++ semantic_checks p)%list |}).
  rewrite <-(plan_manifest_complete p c Hp eq_refl).
  assert (Hlen : Z.of_nat (length (sc_checks c)) = check_count p).
  { unfold check_count. subst c. cbn [sc_checks]. rewrite !length_app. change (length object_checks) with 4%nat. lia. }
  assert (Hvalid : validate_ScoringContract c = Ok tt <->
    check_count p <= 8192
    /\ Forall (fun k => validate_ExpectedCheck k = Ok tt) (functional_checks p ++ semantic_checks p)
    /\ check_manifest_is_complete_and_unique c = Ok tt).
  { unfold validate_ScoringContract. rewrite Hlen. cbn [sc_task_id sc_task_version sc_task_bundle_sha256 c].
    rewrite Ht, Hver, Hb.
    assert (3 <= check_count p) as H3%Z.leb_le by (unfold check_count; lia). rewrite H3. cbn [andb].
    destruct (Z.leb_spec (check_count p) 8192); [|by split; [|intros []; lia]].
    rewrite bind_ok.
    assert (Hobj : Forall (fun k => validate_ExpectedCheck k = Ok tt) object_checks)
      by (repeat constructor; by vm_compute).
    split; [intros ([] & [_ H1]%for_each_ok%Forall_app & H2); done|].
    intros (_ & H1 & H2). exists tt. split; [|done]. apply for_each_ok, Forall_app. done. }
  rewrite Forall_app in Hvalid. split.
  - intros (c' & H1 & H2 & H3 & ->). fold c in H3. apply Hvalid in H3. tauto.
  - intros ((H1 & H2) & H3 & H4). exists c. split_and!; try done. apply Hvalid. tauto.
Qed.

(** ** A prepared job to compute on *)
Definition sample_case (case_id : string) (assertion_ids : list string) : EvaluationFunctionalCase := {|
  efc_case_id := case_id; efc_input := Samples.input_ref;
  efc_assertions := (fun id => {| as_assertion_id := id; as_kind := "retval"; as_required := true;
                                  as_weight := fone; as_expected := Some (JInt 2) |}) <$> assertion_ids |}.

Definition sample_bundle : string := Eval vm_compute in
  Samples.unwrap (sha256_json (JObj [("schema_version", JStr "bpe.task-bundle.v1");
                                     ("public_sha256", JStr (Samples.digest "public"));
                                     ("private_sha256", JStr (Samples.digest "private"))])).

Definition sample_plan (cases : list EvaluationFunctionalCase) : EvaluationPlan := Eval vm_compute in {|
  ep_task_id := "task-1"; ep_task_version := "v1"; ep_family := repair;
  ep_public_task_sha256 := Samples.digest "public"; ep_private_grader_sha256 := Samples.digest "private";
  ep_task_bundle_sha256 := sample_bundle; ep_environment_id := "env-1";
  ep_candidate_contract := {| cc_max_response_bytes := 65536; cc_allow_markdown_fence := false |};
  ep_program := {| pc_program_type := "xdp"; pc_section := "xdp"; pc_entrypoint := "prog"; pc_max_programs := 1 |};
  ep_public_sdk_id := "sdk-1"; ep_max_attempts := 2; ep_whole_attempt_timeout_seconds := 60;
  ep_functional_cases := cases;
  ep_semantic_obligations := [{| so_obligation_id := "o1"; so_kind := "behavior"; so_description := "keeps state";
                                 so_required := true |}] |}.

(** Two cases whose check ids are both [functional/a/b/c]. *)
Definition colliding_plan : EvaluationPlan := sample_plan [sample_case "a/b" ["c"]; sample_case "a" ["b/c"]].

(** Task ids may contain slashes, and joining them with slashes is not
    injective: [colliding_plan] has distinct case ids and one assertion per case and
    validates, but its two functional checks get the same id, so
    [scoring_contract_for_plan] raises and no job can be prepared for it. *)
Theorem slashed_ids_collide :
  validate_EvaluationPlan colliding_plan = Ok tt
  /\ scoring_contract_for_plan colliding_plan = Err "scoring-contract check identities must be unique".
Proof. split; vm_compute; reflexivity. Qed.

Definition small_plan : EvaluationPlan := Eval vm_compute in sample_plan [sample_case "c1" ["a1"; "a2"]].

Lemma small_plan_valid : validate_EvaluationPlan small_plan = Ok tt.
Proof. vm_compute. reflexivity. Qed.

Lemma contract_exists_exactly_witness : exists c, scoring_contract_for_plan small_plan = Ok c.
Proof.
  apply (proj1 (contract_exists_exactly small_plan small_plan_valid)). split_and!.
  - repeat constructor; cbn; lia.
  - by apply Z.leb_le.
  - apply (proj2 (contract_exists_exactly small_plan small_plan_valid)). repeat constructor.
  - eexists. split; [by left|reflexivity].
  - eexists. split; [by left|reflexivity].
Defined.

Definition small_contract : ScoringContract := Eval vm_compute in
  match scoring_contract_for_plan small_plan with Ok c => c | Err _ => Samples.contract end.

Definition job_suite : SuiteManifest := Eval vm_compute in {|
  su_suite_id := "suite-1"; su_environment_id := "env-1"; su_family := repair;
  su_root_cause_taxonomy := ["bounds"];
  su_tasks := [{|
    stk_task_id := "task-1"; stk_task_version := "v1"; stk_task_bundle_sha256 := sample_bundle;
    stk_evaluation_plan_sha256 := Samples.unwrap (sha256_json (EvaluationPlan_json small_plan));
    stk_scoring_contract_sha256 := Samples.unwrap (sha256_json (ScoringContract_json small_contract));
    stk_family := repair; stk_root_cause := Some "bounds"; stk_program_type := "xdp";
    stk_cluster_id := "cluster-1" |}] |}.

Definition job_suite_sha : string := Eval vm_compute in
  Samples.unwrap (sha256_json (SuiteManifest_json job_suite)).

(** The sample request for the prepared task. *)
Definition job_request_for (experiment_sha : string) : EvaluationRequest :=
  let r := Samples.request_for job_suite_sha experiment_sha 0 7 "a" in {|
  req_request_id := req_request_id r; req_experiment_id := req_experiment_id r;
  req_experiment_manifest_sha256 := experiment_sha; req_model_id := req_model_id r;
  req_model_artifact_sha256 := req_model_artifact_sha256 r; req_checkpoint_id := req_checkpoint_id r;
  req_checkpoint_artifact_sha256 := req_checkpoint_artifact_sha256 r;
  req_sampling_config_sha256 := req_sampling_config_sha256 r; req_episode_id := req_episode_id r;
  req_suite_id := req_suite_id r; req_suite_manifest_sha256 := job_suite_sha; req_task_id := req_task_id r;
  req_task_version := req_task_version r; req_task_bundle_sha256 := sample_bundle;
  req_candidate := req_candidate r; req_environment_id := req_environment_id r;
  req_training_seed := 0; req_sample_index := 0; req_generation_seed := 7; req_attempt_index := 0;
  req_diagnostic_condition := diag_none; req_parent_request_id := None |}.

Definition job_experiment : ExperimentManifest := Eval vm_compute in {|
  ex_experiment_id := "exp-1"; ex_suite_id := "suite-1"; ex_suite_manifest_sha256 := job_suite_sha;
  ex_model_id := "model-1"; ex_model_artifact_sha256 := Samples.digest "model";
  ex_sampling_config_sha256 := Samples.digest "sampling"; ex_diagnostic_condition := diag_none;
  ex_reward_policy_id := "reward-v1";
  ex_reward_policy_sha256 := Samples.unwrap (sha256_json (RewardPolicy_json Samples.reward_v1));
  ex_environment_sha256 := Samples.unwrap (sha256_json (EnvironmentFingerprint_json Samples.environment));
  ex_harness_commit := Samples.harness_commit;
  ex_expected_grader_id :=
    Samples.unwrap (grader_id_for (job_request_for "") Samples.environment Samples.harness_commit);
  ex_seed_plans := [{| sp_training_seed := 0; sp_checkpoint_id := "ckpt-1";
                       sp_checkpoint_artifact_sha256 := Samples.digest "ckpt"; sp_generation_seeds := [7] |}];
  ex_reported_k := [1] |}.

Definition job_request : EvaluationRequest := Eval vm_compute in
  job_request_for (Samples.unwrap (sha256_json (ExperimentManifest_json job_experiment))).

Definition job_nonce : string := Eval vm_compute in Samples.digest "nonce".

Definition job_manifest : EvaluationJobManifest := Eval vm_compute in
  match build_evaluation_job_manifest job_request job_suite job_experiment Samples.environment
          Samples.reward_v1 job_nonce small_plan small_contract as r
        return match r with Ok _ => EvaluationJobManifest | Err _ => unit end
  with Ok m => m | Err _ => tt end.

Lemma job_manifest_valid : validate_EvaluationJobManifest job_manifest = Ok tt.
Proof. vm_compute. reflexivity. Qed.

Definition job_run : EvaluationEvidence := Eval vm_compute in
  Samples.evidence_with job_request
    [Samples.stage INGEST PASS []; Samples.stage COMPILE PASS [];
     Samples.stage OBJECT_POLICY PASS ((fun k => Samples.check (ec_check_id k) PASS fone []) <$> object_checks);
     Samples.stage VERIFIER PASS [];
     Samples.stage FUNCTIONAL PASS
       ((fun k => Samples.check (ec_check_id k) PASS fone (ec_input_artifacts k)) <$> functional_checks small_plan);
     Samples.stage SEMANTICS PASS
       ((fun k => Samples.check (ec_check_id k) PASS fone []) <$> semantic_checks small_plan)].

Lemma job_success_covers_plan_witness :
  exists g, score_evidence job_run (jm_contract job_manifest) Samples.reward_v1 = Ok g
    /\ (forall o, o ∈ ep_semantic_obligations (jm_plan job_manifest) ->
        recorded job_run (expected_check SEMANTICS (semantics_id (so_obligation_id o)) (so_required o) fone [])).
Proof.
  destruct (scorable_success job_run (jm_contract job_manifest) Samples.reward_v1) as (g & Hg & Hs);
    [vm_compute; reflexivity..|]. exists g. split; [exact Hg|].
  apply (job_success_covers_plan job_manifest job_run Samples.reward_v1 g job_manifest_valid Hg Hs).
Defined.

End JobFacts.
