(* ===== verification/Pipeline.v ===== *)
(** * Composition of preparation, scoring, aggregation and dispatch

    The validators of three components agree: a batch of first-turn runs of
    prepared jobs passes the membership check of the aggregator, and the values a
    dispatch authorization is checked against are those of the anchored job. *)
From Stdlib Require Import ZArith QArith String Ascii Lia.
From stdpp Require Import base tactics list strings.
From S2P Require Import Prelude Floats Sha256 Json Models ModelFacts Samples Grading Stats Aggregate Job Dispatch DispatchFacts JobFacts.
Local Open Scope string_scope.
Local Open Scope Z_scope.

Module Pipeline.
Import Sha256 Json Models Grading Stats Aggregate Job JobFacts.

(** ** Completeness of the membership check on first turns *)
Lemma dict_of_unique {K A} `{EqDecision K} (key : A -> K) l x :
  NoDup (key <$> l) -> x ∈ l -> dict_get (dict_of ((fun a => (key a, a)) <$> l)) (key x) = Some x.
Proof.
  intros Hnd Hx. rewrite dict_of_id by by rewrite <-list_fmap_compose.
  apply dict_get_Some; [by rewrite <-list_fmap_compose|]. by apply (list_elem_of_fmap_2 (fun a => (key a, a))).
Qed.

Lemma suite_ids_unique s : validate_SuiteManifest s = Ok tt -> NoDup (stk_task_id <$> su_tasks s).
Proof.
  unfold validate_SuiteManifest. intros H. peel H. unfold task_identities_are_unique in H. peel H.
  by apply unique_NoDup, negb_false_iff.
Qed.

Lemma experiment_seeds_unique x :
  validate_ExperimentManifest x = Ok tt ->
  NoDup (sp_training_seed <$> ex_seed_plans x)
  /\ Forall (fun p => NoDup (sp_generation_seeds p)) (ex_seed_plans x).
Proof.
  unfold validate_ExperimentManifest. intros H. peel H. unfold sampling_design_is_well_formed in H.
  cbv zeta in H. peel H. split; [by apply unique_NoDup, negb_false_iff|].
  match goal with H : for_each validate_SeedPlan _ = Ok tt |- _ => apply for_each_ok in H; rename H into Hp end.
  eapply Forall_impl; [exact Hp|]. cbn. intros p H'. unfold validate_SeedPlan in H'. peel H'.
  unfold generation_seeds_are_unique in H'. peel H'. by apply unique_NoDup, negb_false_iff.
Qed.

Section FirstTurns.
Context (suite : SuiteManifest) (experiment : ExperimentManifest).
Context (Hsuite : NoDup (stk_task_id <$> su_tasks suite))
        (Hseeds : NoDup (sp_training_seed <$> ex_seed_plans experiment))
        (Hgen : Forall (fun p => NoDup (sp_generation_seeds p)) (ex_seed_plans experiment)).

(** A first turn that belongs to the suite and experiment. *)
Definition first_turn (r : AttemptRecord) : Prop :=
  member suite experiment r /\ at_turn_index r = 0 /\ 0 <= at_sample_index r.

(** Among first turns of distinct samples no generation seed repeats. *)
Lemma first_turns_generations r r' :
  first_turn r -> first_turn r' -> generation_identity r = generation_identity r' ->
  sample_identity r = sample_identity r'.
Proof.
  intros ([_ (p & Hp & Hps & _ & _ & Hz)] & H0 & Hi) ([_ (p' & Hp' & Hps' & _ & _ & Hz')] & H0' & Hi').
  unfold generation_identity, sample_identity. intros [= Ht Hs Hg].
  destruct (Hz H0) as [_ Hl], (Hz' H0') as [_ Hl'].
  assert (p' = p) as -> by (eapply (NoDup_fmap_eq sp_training_seed); [exact Hseeds|done|done|congruence]).
  rewrite Hg in Hl. pose proof (proj1 (Forall_forall _ _) Hgen p Hp) as Hnd. cbn in Hnd.
  pose proof (NoDup_lookup _ _ _ _ Hnd Hl Hl') as Hidx. apply (f_equal Z.of_nat) in Hidx.
  rewrite !Z2Nat.id in Hidx by done. congruence.
Qed.

Lemma first_turn_seen done st r :
  seen_invariant suite experiment done st -> Forall first_turn done -> first_turn r ->
  sample_identity r ∉ sample_identity <$> done ->
  req_request_id (at_request r) ∉ (fun r => req_request_id (at_request r)) <$> done ->
  at_replay_manifest_sha256 r ∉ at_replay_manifest_sha256 <$> done ->
  (forall k, k ∈ (episodes_by_sample st).*1 -> k ∈ episode_identity <$> done) ->
  exists st', see_attempt suite experiment st r = Ok st'
    /\ forall k, k ∈ (episodes_by_sample st').*1 -> k ∈ episode_identity <$> (done ++ [r])%list.
Proof.
  intros [[S1 _] [S2 _] [S3 _] [S4 _] _ _ _] Hdone Hr F1 F2 F3 Hk.
  pose proof Hr as ([(t & Ht & Htid & Htask) (p & Hp & Hps & Hck & Hcks & Hz)] & H0 & Hi).
  destruct (Hz H0) as [Hlt Hl]. unfold see_attempt, tasks_by_id, plans_by_seed.
  rewrite <-Htid, (dict_of_unique stk_task_id) by done. rewrite Htask, bool_decide_true by done. cbn [negb].
  rewrite <-Hps, (dict_of_unique sp_training_seed) by done. rewrite !bool_decide_true by done. cbn [negb].
  assert (Hrev : forall A (x : A) l, x ∉ l -> x ∉ rev l).
  { intros A x l Hx. by rewrite list_elem_of_In, <-in_rev, <-list_elem_of_In. }
  rewrite S1, S2, S3, !bool_decide_false by by apply Hrev. rewrite H0. cbn [Z.eqb].
  replace (Z.of_nat (length (sp_generation_seeds p)) <=? at_sample_index r) with false by (symmetry; by apply Z.leb_gt).
  unfold index. rewrite Hl. cbn [bind_result]. rewrite Z.eqb_refl. cbn [negb].
  rewrite S4, bool_decide_false.
  2: { apply Hrev. intros (x & Hx & Hin)%list_elem_of_fmap. apply F1. unfold turn_zero in Hin.
       apply list_elem_of_filter in Hin as [_ Hin]. apply list_elem_of_fmap. exists x. split; [|done].
       apply first_turns_generations; [done|by apply (proj1 (Forall_forall _ _) Hdone)|done]. }
  cbn [bind_result].
  assert (Hfresh : episode_identity r ∉ (episodes_by_sample st).*1).
  { intros (x & Hx & Hin)%Hk%list_elem_of_fmap. apply F1. apply list_elem_of_fmap. exists x. split; [|done].
    apply (proj1 (Forall_forall _ _) Hdone) in Hin as (_ & Hx0 & _).
    unfold episode_identity in Hx. unfold sample_identity. congruence. }
  rewrite (proj2 (dict_get_None _ _) Hfresh). cbn [default]. rewrite bool_decide_true by done. cbn [negb].
  eexists. split; [reflexivity|]. cbn [episodes_by_sample]. intros k [->|Hin]%dict_set_keys;
    rewrite fmap_app, elem_of_app; [right; by left|left; auto].
Qed.
End FirstTurns.

(** A turn-zero run alone in its episode. *)
Lemma single_turn_episode r : at_turn_index r = 0 -> validate_episode [r] = Ok tt.
Proof. intros H. unfold validate_episode. cbn. rewrite H. by rewrite bool_decide_true. Qed.

Lemma group_by_NoDup_keys {K A} `{EqDecision K} (key : A -> K) l : NoDup (group_by key l).*1.
Proof.
  induction l as [|x l IH] using rev_ind; [constructor|]. rewrite group_by_snoc. by apply dict_set_NoDup.
Qed.

Section FirstTurnBatches.
Context (suite : SuiteManifest) (experiment : ExperimentManifest).
Context (Hsuite : NoDup (stk_task_id <$> su_tasks suite))
        (Hseeds : NoDup (sp_training_seed <$> ex_seed_plans experiment))
        (Hgen : Forall (fun p => NoDup (sp_generation_seeds p)) (ex_seed_plans experiment)).

Lemma first_turns_seen records : forall done st,
  seen_invariant suite experiment done st ->
  (forall k, k ∈ (episodes_by_sample st).*1 -> k ∈ episode_identity <$> done) ->
  Forall (first_turn suite experiment) (done ++ records)%list ->
  NoDup (sample_identity <$> (done ++ records)%list) ->
  NoDup ((fun r => req_request_id (at_request r)) <$> (done ++ records)%list) ->
  NoDup (at_replay_manifest_sha256 <$> (done ++ records)%list) ->
  exists st', see_attempts suite experiment st records = Ok st'.
Proof.
  induction records as [|r records IH]; intros done st Hinv Hk Hall N1 N2 N3; [by exists st|].
  pose proof (proj1 (Forall_app _ _ _) Hall) as [Hd [Hr _]%Forall_cons].
  assert (Hfresh : forall B (f : AttemptRecord -> B), NoDup (f <$> (done ++ r :: records)%list) -> f r ∉ f <$> done).
  { intros B f Hn Hin. rewrite fmap_app in Hn. apply NoDup_app in Hn as (_ & Hdis & _).
    apply (Hdis _ Hin). cbn. by left. }
  destruct (first_turn_seen suite experiment Hsuite Hseeds Hgen done st r) as (st1 & Hst1 & Hk1);
    [done..|by apply Hfresh|by apply (Hfresh _ (fun r => req_request_id (at_request r)))|by apply Hfresh|done|].
  cbn [see_attempts]. rewrite Hst1. cbn [bind_result].
  rewrite cons_middle, app_assoc in Hall, N1, N2, N3. eapply (IH (done ++ [r])%list); try done.
  eapply see_attempt_step; [done|done|]. apply Hr.
Qed.

Lemma first_turns_accepted records :
  Forall (first_turn suite experiment) records -> NoDup (sample_identity <$> records) ->
  NoDup ((fun r => req_request_id (at_request r)) <$> records) ->
  NoDup (at_replay_manifest_sha256 <$> records) ->
  validate_attempt_membership records suite experiment = Ok tt.
Proof.
  intros Hall N1 N2 N3. unfold validate_attempt_membership.
  destruct (first_turns_seen records [] nothing_seen) as (st & Hst); try done.
  { apply seen_invariant_start. }
  rewrite Hst. cbn [bind_result].
  assert (Hidx : Forall (fun r => 0 <= at_sample_index r) records).
  { eapply Forall_impl; [exact Hall|]. cbn. by intros r (_ & _ & ?). }
  pose proof (see_attempts_invariant suite experiment records [] nothing_seen st
    (seen_invariant_start suite experiment) Hidx Hst) as Hinv.
  cbn in Hinv. apply for_each_ok, Forall_forall. intros [k l] Hkl. cbn.
  rewrite (si_episodes _ _ _ _ Hinv) in Hkl.
  pose proof (group_by_NoDup_keys episode_identity records) as Hnd.
  apply (dict_get_Some _ _ _ Hnd) in Hkl. pose proof (group_by_get episode_identity records k) as [Hg Hn].
  rewrite Hkl in Hg, Hn. cbn in Hg.
  destruct l as [|r l]; [by destruct Hn as [_ Hn]; discriminate Hn|].
  assert (Hin : forall x, x ∈ r :: l -> x ∈ records /\ episode_identity x = k).
  { intros x Hx. rewrite Hg in Hx. apply list_elem_of_filter in Hx. tauto. }
  assert (l = []) as ->.
  { destruct l as [|q l]; [done|]. exfalso.
    destruct (Hin r) as [Hr Hrk]; [by left|]. destruct (Hin q) as [Hq Hqk]; [by right; left|].
    assert (Hturn : forall x, x ∈ records -> at_turn_index x = 0).
    { intros x Hx. apply (proj1 (Forall_forall _ _) Hall) in Hx. apply Hx. }
    assert (Heq : r = q).
    { eapply (NoDup_fmap_eq sample_identity); [exact N1|done|done|].
      unfold sample_identity. rewrite (Hturn r Hr), (Hturn q Hq).
      rewrite <-Hqk in Hrk. unfold episode_identity in Hrk. congruence. }
    subst q. assert (Hnd' : NoDup (filter (fun x => episode_identity x = k) records)).
    { apply NoDup_filter. by apply NoDup_fmap_1 in N1. }
    rewrite <-Hg in Hnd'. apply NoDup_cons in Hnd' as [Hnd' _]. apply Hnd'. by left. }
  apply single_turn_episode. destruct (Hin r) as [Hr _]; [by left|].
  apply (proj1 (Forall_forall _ _) Hall) in Hr. apply Hr.
Qed.
End FirstTurnBatches.

(** ** From a prepared job to a member attempt *)

(** An attempt record of a prepared job: its request is the job's, its grade was
    computed under the job's contract, and the task labels that the request does not
    carry were copied from the suite. *)
Inductive prepared_run (suite : SuiteManifest) (experiment : ExperimentManifest) (r : AttemptRecord) : Prop :=
| prepared_run_intro m p :
    validate_EvaluationJobManifest m = Ok tt -> jm_suite m = suite -> jm_experiment m = experiment ->
    validate_AttemptRecord r = Ok tt -> at_request r = jm_request m ->
    score_evidence (at_evidence r) (jm_contract m) p = Ok (at_grade r) ->
    (forall t, t ∈ su_tasks suite -> stk_task_id t = at_task_id r ->
      (at_family r, at_root_cause r, at_program_type r, at_cluster_id r)
      = (stk_family t, stk_root_cause t, stk_program_type t, stk_cluster_id t)) ->
    prepared_run suite experiment r.

(** The identities an attempt record takes from its request. *)
Lemma attempt_identities r :
  validate_AttemptRecord r = Ok tt ->
  at_task_id r = req_task_id (at_request r) /\ at_task_version r = req_task_version (at_request r)
  /\ at_task_bundle_sha256 r = req_task_bundle_sha256 (at_request r)
  /\ at_checkpoint_id r = req_checkpoint_id (at_request r)
  /\ at_checkpoint_artifact_sha256 r = req_checkpoint_artifact_sha256 (at_request r)
  /\ at_generation_seed r = req_generation_seed (at_request r)
  /\ at_training_seed r = req_training_seed (at_request r)
  /\ at_sample_index r = req_sample_index (at_request r)
  /\ 0 <= at_sample_index r.
Proof.
  unfold validate_AttemptRecord. intros H. peel H. unfold identities_match_evidence_and_grade in H.
  cbv zeta in H. peel H. fold (at_request r) in *.
  repeat match goal with
  | H : negb (bool_decide _) = false |- _ => apply bool_decide_neg_false in H
  | H : negb (_ =? _) = false |- _ => apply negb_false_iff, Z.eqb_eq in H
  | H : (0 <=? at_sample_index r) = true |- _ => apply Z.leb_le in H
  end.
  split_and!; try congruence; done.
Qed.

Lemma prepared_run_first_turn suite experiment r :
  prepared_run suite experiment r -> at_turn_index r = 0 -> first_turn suite experiment r.
Proof.
  intros [m p Hm <- <- Hrec Hreq Hgr Hlab] H0. split; [|split; [done|apply (attempt_identities r Hrec)]].
  apply attempt_identities in Hrec as (A1 & A2 & A3 & A4 & A5 & A6 & A7 & A8 & _).
  apply validate_job_bound in Hm. rewrite Hreq in *. constructor.
  - pose proof (bj_suite_task m Hm) as Hst. unfold check_suite_task in Hst.
    destruct (filter _ _) as [|t [|]] eqn:Hf; try done. peel Hst. apply differ_false in E.
    assert (Ht : t ∈ filter (fun t => stk_task_id t = req_task_id (jm_request m)) (su_tasks (jm_suite m)))
      by (rewrite Hf; by left).
    apply list_elem_of_filter in Ht as [Htid Ht]. exists t. split_and!; [done|congruence|].
    specialize (Hlab t Ht ltac:(congruence)). unfold attempt_identity, task_identity.
    apply score_evidence_inv in Hgr as (he & hc & _ & _ & _ & _ & _ & Hhc & Hg).
    destruct (bj_digests m Hm) as (_ & _ & _ & _ & _ & _ & Hcd). destruct (bj_task m Hm) as (T1 & T2 & T3).
    assert (Hcs : gr_contract_sha256 (at_grade r) = jm_contract_sha256 m).
    { rewrite Hhc in Hcd. injection Hcd as <-. destruct (infra_stop _); [by rewrite Hg|].
      destruct Hg as (? & _ & _ & ->). done. }
    injection E as E1 E2 E3 E4 E5 E6. injection Hlab as L1 L2 L3 L4.
    rewrite Hcs, L1, L2, L3, L4, A2, A3, T2, T3, E1, E2, E4, E5, E6. done.
  - pose proof (bj_seed m Hm) as Hs. unfold check_seed_plan in Hs.
    destruct (dict_get _ _) as [plan|] eqn:Hd; [|done]. peel Hs. apply dict_of_keyed in Hd as [Hp Hps].
    apply orb_false_iff in E as [E%differ_false E'%differ_false]. apply differ_false in E1.
    exists plan. split_and!; [done|congruence..|]. intros _. rewrite A6, A8. split; [by apply Z.leb_gt|done].
Qed.

(** Preparation and aggregation agree: a batch of graded turn-zero runs of jobs
    prepared for one suite and experiment, with distinct samples, request ids and
    replay manifests, passes the membership check of the aggregator, whatever the
    order of the batch: none of its errors can fire. *)
Theorem prepared_runs_are_members suite experiment records :
  Forall (prepared_run suite experiment) records -> Forall (fun r => at_turn_index r = 0) records ->
  NoDup (sample_identity <$> records) ->
  NoDup ((fun r => req_request_id (at_request r)) <$> records) ->
  NoDup (at_replay_manifest_sha256 <$> records) ->
  validate_attempt_membership records suite experiment = Ok tt.
Proof.
  intros Hrun H0 N1 N2 N3. destruct records as [|r records]; [done|].
  pose proof Hrun as [[m p Hm Hs Hx _ _ _ _] _]%Forall_cons. apply validate_job_bound in Hm.
  rewrite <-Hs, <-Hx. destruct (experiment_seeds_unique _ (bj_experiment m Hm)) as [Hseeds Hgen].
  apply first_turns_accepted; try done.
  - by apply suite_ids_unique, bj_suite.
  - rewrite Hs, Hx. rewrite Forall_forall in Hrun, H0 |- *. intros q Hq.
    apply prepared_run_first_turn; [by apply Hrun|by apply (H0 q)].
Qed.

(** ** From a loaded job to a dispatch expectation *)
Import Dispatch DispatchFacts.

(** The content of a loaded blob is what its reference says. *)
Definition genuine (b : LoadedJobBlob) : Prop :=
  sha256_bytes (lb_content b) = jb_sha256 (lb_reference b)
  /\ Z.of_nat (String.length (lb_content b)) = jb_size_bytes (lb_reference b).

Lemma check_loaded_blobs_ok expected blobs : forall loaded total l t,
  check_loaded_blobs expected loaded total blobs = Ok (l, t) ->
  l = (loaded ++ ((fun b => blob_identity (lb_reference b)) <$> blobs))%list
  /\ Forall (fun b => blob_identity (lb_reference b) ∈ expected /\ genuine b) blobs.
Proof.
  induction blobs as [|b blobs IH]; intros loaded total l t H; cbn [check_loaded_blobs] in H.
  - injection H as <- _. rewrite app_nil_r. by split.
  - cbv zeta in H. peel H. apply IH in H as [-> Hf].
    repeat match goal with H : _ || _ = false |- _ => apply orb_false_iff in H; destruct H end.
    repeat match goal with
    | H : negb (bool_decide _) = false |- _ => apply bool_decide_neg_false in H
    | H : negb (_ =? _) = false |- _ => apply negb_false_iff, Z.eqb_eq in H
    end.
    rewrite <-app_assoc. split; [done|]. by constructor.
Qed.

Lemma found_blob (j : LoadedEvaluationJob) b :
  Forall genuine (lj_blobs j) -> b ∈ (fun b => blob_identity (lb_reference b)) <$> lj_blobs j ->
  exists content, blob_bytes j b.1 = Some content /\ sha256_bytes content = b.1.
Proof.
  intros Hg (x & -> & Hx)%list_elem_of_fmap. unfold blob_bytes.
  destruct (find_first _ (lj_blobs j)) as [y|] eqn:Hf.
  - apply find_first_Some in Hf as (l1 & l2 & Hl & Hy & _). apply bool_decide_eq_true in Hy.
    exists (lb_content y). split; [done|]. rewrite Hl in Hg. apply Forall_app in Hg as [_ [[Hgy _] _]%Forall_cons].
    cbn [blob_identity fst] in *. congruence.
  - apply find_first_None in Hf. apply (proj1 (Forall_forall _ _) Hf) in Hx.
    apply bool_decide_eq_false in Hx. cbn in Hx. done.
Qed.

(** What a dispatch expectation vouches for: it exists only for a job that was
    anchored by the digest the caller expected, whose manifest is valid and has that
    digest, whose execution profile is valid, has the job's environment and does not
    outlast the plan's timeout; it names exactly the job's request, experiment and
    environment digests; and the loaded job holds, under its digest, the content of
    the candidate and of every functional input. *)
Theorem dispatch_expectation_sound loaded profile expected purpose audience policy_id policy_sha x :
  dispatch_expectation_for loaded profile expected purpose audience policy_id policy_sha = Ok x ->
  let m := lj_manifest loaded in
  lj_anchored loaded = true
  /\ validate_EvaluationJobManifest m = Ok tt /\ validate_ExecutionProfile profile = Ok tt
  /\ sha256_json (EvaluationJobManifest_json m) = Ok expected /\ dx_job_manifest_sha256 x = expected
  /\ sha256_json (EvaluationRequest_json (jm_request m)) = Ok (dx_request_sha256 x)
  /\ sha256_json (ExperimentManifest_json (jm_experiment m)) = Ok (dx_experiment_sha256 x)
  /\ sha256_json (EnvironmentFingerprint_json (jm_environment m)) = Ok (dx_environment_sha256 x)
  /\ sha256_json (ExecutionProfile_json profile) = Ok (dx_execution_profile_sha256 x)
  /\ xp_environment profile = jm_environment m
  /\ xp_worker_pool_audience profile = dx_worker_pool_audience x
  /\ rs_wall_timeout_ms (xp_resources profile) <= ep_whole_attempt_timeout_seconds (jm_plan m) * 1000
  /\ forall ref, ref ∈ required_references (jm_request m) (jm_plan m) ->
       exists content, blob_bytes loaded (art_sha256 ref) = Some content
                       /\ sha256_bytes content = art_sha256 ref.
Proof.
  unfold dispatch_expectation_for. cbv zeta. intros H. peel H.
  apply except_value_ok in E, E4, E10. apply lift_value_ok in E2, E9. injection H as <-.
  apply bind_ok in E as ([] & Hm & Hp). apply negb_false_iff in E0. apply differ_false in E1, E3, E7.
  apply orb_false_iff in E5 as [E5 _]. apply negb_false_iff in E5.
  apply orb_false_iff in E6 as [E6 _]. apply differ_false in E6. apply Z.ltb_ge in E8.
  pose proof (validate_job_bound _ Hm) as Hb. destruct (bj_digests _ Hb) as (D1 & _ & D3 & D4 & _).
  cbn [dx_job_manifest_sha256 dx_request_sha256 dx_experiment_sha256 dx_environment_sha256
       dx_execution_profile_sha256 dx_worker_pool_audience].
  split_and!; try done; try congruence. intros ref Href.
  destruct v0 as [found total]. apply check_loaded_blobs_ok in E4 as [-> Hf].
  apply (found_blob loaded (blob_identity (blob_of ref))).
  - eapply Forall_impl; [exact Hf|]. by intros b [_ ?].
  - unfold same_set in E5. apply andb_true_iff in E5 as [_ E5%bool_decide_eq_true]. rewrite Forall_forall in E5.
    apply E5. apply list_elem_of_fmap. exists (blob_of ref). split; [done|].
    apply (physical_blob_table_members _ _ (bj_blobs _ Hb)). eauto.
Qed.

(** ** A run and a dispatch of the sample job *)
Definition job_attempt : AttemptRecord := Eval vm_compute in {|
  at_experiment_id := "exp-1"; at_model_id := "model-1"; at_model_artifact_sha256 := Samples.digest "model";
  at_checkpoint_id := "ckpt-1"; at_checkpoint_artifact_sha256 := Samples.digest "ckpt";
  at_sampling_config_sha256 := Samples.digest "sampling";
  at_reward_policy_sha256 := ex_reward_policy_sha256 job_experiment;
  at_episode_id := "ep-a"; at_task_id := "task-1"; at_task_version := "v1";
  at_task_bundle_sha256 := sample_bundle; at_family := repair; at_root_cause := Some "bounds";
  at_program_type := "xdp"; at_cluster_id := "cluster-1"; at_training_seed := 0; at_sample_index := 0;
  at_generation_seed := 7; at_turn_index := 0; at_replay_manifest_sha256 := Samples.digest "replay-a";
  at_evidence := job_run;
  at_grade := match score_evidence job_run small_contract Samples.reward_v1 with
              | Ok g => g | Err _ => no_grade end |}.

Lemma prepared_runs_are_members_witness :
  validate_attempt_membership [job_attempt] job_suite job_experiment = Ok tt.
Proof.
  apply prepared_runs_are_members; [|by repeat constructor|by apply NoDup_singleton..].
  constructor; [|constructor]. apply (prepared_run_intro _ _ _ job_manifest Samples.reward_v1).
  - exact job_manifest_valid.
  - reflexivity.
  - reflexivity.
  - vm_compute. reflexivity.
  - reflexivity.
  - vm_compute. reflexivity.
  - intros t Ht%list_elem_of_singleton _. rewrite Ht. reflexivity.
Defined.

Lemma same_set_refl {A} `{EqDecision A} (l : list A) : same_set l l = true.
Proof. unfold same_set. apply andb_true_iff. split; apply bool_decide_eq_true; by apply Forall_forall. Qed.

(** The converse of soundness: a genuinely loaded, anchored job with a matching
    profile has an expectation. *)
Lemma dispatch_expectation_defined loaded profile sha profile_sha purpose audience policy_id policy_sha :
  let m := lj_manifest loaded in
  validate_EvaluationJobManifest m = Ok tt -> validate_ExecutionProfile profile = Ok tt ->
  lj_anchored loaded = true -> lj_manifest_sha256 loaded = sha ->
  sha256_json (EvaluationJobManifest_json m) = Ok sha ->
  check_loaded_blobs (blob_identity <$> jm_blobs m) [] 0 (lj_blobs loaded)
  = Ok (blob_identity <$> jm_blobs m, jm_total_blob_bytes m) ->
  xp_environment profile = jm_environment m -> xp_worker_pool_audience profile = audience ->
  rs_wall_timeout_ms (xp_resources profile) <= ep_whole_attempt_timeout_seconds (jm_plan m) * 1000 ->
  sha256_json (ExecutionProfile_json profile) = Ok profile_sha ->
  is_stable_id policy_id = true -> is_sha256 policy_sha = true ->
  exists x, dispatch_expectation_for loaded profile sha purpose audience policy_id policy_sha = Ok x.
Proof.
  cbv zeta. intros Hm Hp Ha Hl Hs Hb He Hw Ht Hps Hid Hpol. unfold dispatch_expectation_for. cbv zeta.
  pose proof (validate_job_bound _ Hm) as Hj. destruct (bj_digests _ Hj) as (D1 & _ & D3 & D4 & _).
  rewrite Hm. cbn [bind_result]. rewrite Hp, Ha, Hl, Hs, Hb.
  cbn [except_value lift_value bind_result negb]. rewrite !differ_same. cbn [fst snd].
  rewrite same_set_refl, Z.eqb_refl, He, differ_same. cbn [negb orb].
  assert (Hx : xp_environment_sha256 profile = jm_environment_sha256 (lj_manifest loaded)
    /\ is_stable_id (xp_worker_pool_audience profile) = true
    /\ is_sha256 (xp_resource_profile_sha256 profile) = true).
  { unfold validate_ExecutionProfile in Hp. peel Hp. split_and!; try done.
    unfold profile_is_cross_bound_and_nonexecuting in Hp. cbv zeta in Hp. peel Hp.
    match goal with H : negb (bool_decide (xp_environment_sha256 profile = ?v)) = false |- _ =>
      apply bool_decide_neg_false in H; rewrite H end. rewrite He in *. congruence. }
  destruct Hx as (-> & Haud & Hres). rewrite Hw in *. rewrite !differ_same.
  replace (_ <? _) with false by (symmetry; by apply Z.ltb_ge). rewrite Hps. cbn [lift_value bind_result].
  eexists. unfold validate_expectation, validate_DispatchAuthorizationPayload.
  apply ModelFacts.sha256_json_is_sha256 in Hs, D1, D3, D4, Hps.
  match goal with |- context[binding_ok ?b] => assert (Hok : binding_ok b = true) end.
  { unfold binding_ok. cbn. by rewrite Hs, D1, D3, D4, Hps, Hres, Haud, Hid, Hpol. }
  rewrite Hok. reflexivity.
Qed.

(** The digest of the sample manifest and the job as it is read back, with its two blobs. *)
Definition job_manifest_sha : string := Eval vm_compute in
  Samples.unwrap (sha256_json (EvaluationJobManifest_json job_manifest)).

Definition sample_loaded : LoadedEvaluationJob := {|
  lj_manifest := job_manifest; lj_manifest_sha256 := job_manifest_sha; lj_anchored := true;
  lj_blobs := (fun b => {| lb_reference := b;
                           lb_content := if jb_size_bytes b =? 9 then "candidate" else "input" |})
              <$> jm_blobs job_manifest |}.

Definition sample_profile : ExecutionProfile := Eval vm_compute in {|
  xp_profile_id := "profile-1"; xp_worker_pool_audience := "pool-1"; xp_environment := Samples.environment;
  xp_environment_sha256 := Samples.unwrap (sha256_json (EnvironmentFingerprint_json Samples.environment));
  xp_resources := {|
    rs_profile_id := "limits-1"; rs_wall_timeout_ms := 30000; rs_cpu_time_seconds := 20;
    rs_memory_bytes := 268435456; rs_pids_max := 64; rs_open_files_max := 64; rs_file_size_bytes := 1048576;
    rs_stack_bytes := 8388608; rs_stdout_bytes := 65536; rs_stderr_bytes := 65536;
    rs_tmpfs_bytes := 16777216; rs_tmpfs_inodes := 1024 |};
  xp_resource_profile_sha256 := env_resource_limits_sha256 Samples.environment;
  xp_firecracker_version := "1.7"; xp_firecracker_sha256 := Samples.digest "firecracker";
  xp_jailer_sha256 := Samples.digest "jailer"; xp_guest_agent_sha256 := Samples.digest "agent";
  xp_seccomp_policy_sha256 := Samples.digest "seccomp"; xp_jailer_config_sha256 := Samples.digest "jailer-config";
  xp_snapshot := {|
    sn_vm_state_sha256 := Samples.digest "vm_state"; sn_memory_sha256 := Samples.digest "memory";
    sn_kernel_image_sha256 := Samples.digest "image"; sn_kernel_config_sha256 := Samples.digest "config";
    sn_kernel_btf_sha256 := Samples.digest "btf"; sn_rootfs_sha256 := Samples.digest "rootfs";
    sn_block_device_config_sha256 := Samples.digest "block"; sn_vsock_config_sha256 := Samples.digest "vsock" |};
  xp_snapshot_components_sha256 := default "" (env_snapshot_sha256 Samples.environment);
  xp_host_kernel_release := "6.8.0"; xp_host_kernel_sha256 := Samples.digest "host"; xp_host_architecture := "x86_64";
  xp_cpu_vendor := "intel"; xp_cpu_model := "model"; xp_cpu_template := None; xp_cpu_features := ["avx"; "sse"];
  xp_snapshot_compatibility_profile := "compat-1" |}.

Lemma dispatch_expectation_sound_witness :
  exists x,
    dispatch_expectation_for sample_loaded sample_profile job_manifest_sha training "pool-1" "policy-1"
      ZERO_NONCE = Ok x
    /\ forall ref, ref ∈ required_references job_request small_plan ->
       exists content, blob_bytes sample_loaded (art_sha256 ref) = Some content
                       /\ sha256_bytes content = art_sha256 ref.
Proof.
  destruct (dispatch_expectation_defined sample_loaded sample_profile job_manifest_sha
    (sha256_bytes (Samples.unwrap (canonical_json_bytes (ExecutionProfile_json sample_profile))))
    training "pool-1" "policy-1" ZERO_NONCE job_manifest_valid) as (x & Hx);
    [vm_compute; reflexivity|reflexivity|reflexivity|vm_compute; reflexivity|vm_compute; reflexivity
    |reflexivity|reflexivity|by apply Z.leb_le
    |apply sha256_json_of; vm_compute; reflexivity|reflexivity|reflexivity|].
  exists x. split; [exact Hx|]. apply (dispatch_expectation_sound _ _ _ _ _ _ _ _ Hx).
Defined.

End Pipeline.
