(* ===== verification/OneShot.v ===== *)
(** * One-shot ledgers with terminal reservations

    The ledgers of [src/bpe/inert_fixture.py] and [src/bpe/inert_launch.py] have the
    same shape: a table of reservations, a table of receipts whose rows refer to the
    reservation they complete, and one state row with the identity of the ledger and
    the high-water mark of its clock.  [consume] is the transaction of both: it
    reserves the identity of the attempt first and keeps the reservation even when no
    receipt can be committed, so a failed attempt is spent.

    What distinguishes the two ledgers - columns, queries, messages - is an instance
    of [OneShotTables], a value of [Attempt] per call and a value of [Messages]. *)
From Stdlib Require Import ZArith String Lia.
From stdpp Require Import base tactics list strings.
From S2P Require Import Prelude Sql.
Local Open Scope string_scope.
Local Open Scope Z_scope.

Module OneShot.

(** What the two tables promise: the column that identifies a reservation, which a
    receipt row repeats, is unique in both, and the foreign key of a receipt row
    determines it and the time of the reservation. *)
Class OneShotTables (reservation claim : Type) `{SqlTable reservation} `{SqlTable claim} := {
  reservation_key : reservation -> string;
  claim_key : claim -> string;
  reserved_at : reservation -> Z;
  claimed_at : claim -> Z;
  refers : claim -> reservation -> bool;
  reservation_key_unique : (fun r => Some [reservation_key r]) ∈ row_keys (row := reservation);
  claim_key_unique : (fun c => Some [claim_key c]) ∈ row_keys (row := claim);
  refers_key : forall c r, refers c r = true -> claim_key c = reservation_key r /\ claimed_at c = reserved_at r
}.

Section Ledger.
Context {reservation claim : Type} `{OneShotTables reservation claim}.
Context {E receipt : Type}.

Record Ledger := {
  owner : list string;
  clock_high_water_unix : Z;
  reservations : list reservation;
  claims : list claim
}.

(** [PRAGMA integrity_check] and [PRAGMA foreign_key_check] report nothing. *)
Definition integrity_check (l : Ledger) : bool := table_okb (reservations l) && table_okb (claims l).
Definition foreign_key_check (l : Ledger) : bool :=
  forallb (fun c => existsb (refers c) (reservations l)) (claims l).

(** [_validate_schema], the part that depends on the rows; the declarations of the
    tables are fixed in the model. *)
Definition schema_trusted (identity : list string) (l : Ledger) : bool :=
  integrity_check l && foreign_key_check l
  && bool_decide (owner l = identity) && (0 <=? clock_high_water_unix l)
  && forallb (fun c => claimed_at c <=? clock_high_water_unix l) (claims l)
  && forallb (fun r => reserved_at r <=? clock_high_water_unix l) (reservations l).

(** What one call brings to its transaction. *)
Record Attempt := {
  (** the identity the ledger object was configured with *)
  at_owner : list string;
  (** the clock read in the transaction is behind an earlier authenticated time *)
  at_behind : Z -> bool;
  (** the authenticated interval is open at this time *)
  at_open : Z -> bool;
  (** the primary key of the reservation, and the reservation at this time *)
  at_key : string;
  at_reserve : Z -> reservation;
  (** an existing reservation agrees with the authenticated inputs *)
  at_matches : reservation -> bool;
  (** an existing reservation has another signed identity of this attempt *)
  at_conflict : reservation -> bool;
  (** the caller's identifier is well formed; a receipt row has it already *)
  at_caller_ok : bool;
  at_caller_conflict : claim -> bool;
  (** the receipt and its row, or an exception; a receipt row collides with it *)
  at_receipt : Z -> result string (receipt * claim);
  at_receipt_conflict : claim -> claim -> bool
}.

(** The exceptions of a transaction. *)
Record Messages := {
  untrusted : E;
  clock_invalid : E;
  clock_behind : E;
  outside : E;
  differs : E;
  terminal : E;
  identity_consumed : E;
  integrity : E;
  caller_invalid : E;
  caller_collision : E;
  construction : E;
  receipt_collision : E;
  durable_collision : E
}.

Definition set_clock (l : Ledger) (t : Z) : Ledger :=
  {| owner := owner l; clock_high_water_unix := t; reservations := reservations l; claims := claims l |}.
Definition with_reservations (l : Ledger) (rs : list reservation) : Ledger :=
  {| owner := owner l; clock_high_water_unix := clock_high_water_unix l; reservations := rs; claims := claims l |}.
Definition with_claims (l : Ledger) (cs : list claim) : Ledger :=
  {| owner := owner l; clock_high_water_unix := clock_high_water_unix l;
     reservations := reservations l; claims := cs |}.

(** The receipt half of the transaction: whatever it does, the reservation stays. *)
Definition complete (m : Messages) (a : Attempt) (now : Z) (l : Ledger) : Ledger * result E receipt :=
  if negb (at_caller_ok a) then (l, Err (caller_invalid m))
  else if existsb (at_caller_conflict a) (claims l) then (l, Err (caller_collision m))
  else
    match at_receipt a now with
    | Err _ => (l, Err (construction m))
    | Ok (receipt, row) =>
        if existsb (at_receipt_conflict a row) (claims l) then (l, Err (receipt_collision m))
        else
          match sql_insert (existsb (refers row) (reservations l)) (claims l) row with
          | None => (l, Err (durable_collision m))
          | Some cs => (with_claims l cs, Ok receipt)
          end
    end.

(** The transaction from [BEGIN IMMEDIATE] to its [COMMIT] or [ROLLBACK]. *)
Definition consume (m : Messages) (a : Attempt) (now : Z) (l : Ledger) : Ledger * result E receipt :=
  if negb (schema_trusted (at_owner a) l) then (l, Err (untrusted m))
  else if now <? 0 then (l, Err (clock_invalid m))
  else if at_behind a now || (now <? clock_high_water_unix l) then (l, Err (clock_behind m))
  else
    let l1 := set_clock l now in
    if negb (at_open a now) then (l1, Err (outside m))
    else
      match select_by reservation_key (reservations l) (at_key a) with
      | Some existing =>
          if negb (at_matches a existing) then (l, Err (differs m)) else (l1, Err (terminal m))
      | None =>
          if existsb (at_conflict a) (reservations l) then (l1, Err (identity_consumed m))
          else
            match sql_insert true (reservations l) (at_reserve a now) with
            | None => (l, Err (integrity m))
            | Some rs => complete m a now (with_reservations l1 rs)
            end
      end.

(** The ledger a provisioning creates. *)
Definition provisioned (identity : list string) : Ledger :=
  {| owner := identity; clock_high_water_unix := 0; reservations := []; claims := [] |}.

End Ledger.
Arguments Ledger : clear implicits.
Arguments Attempt : clear implicits.
Arguments Messages : clear implicits.

(** ** The transaction, case by case *)
Section Facts.
Context {reservation claim : Type} `{OneShotTables reservation claim}.
Context {E receipt : Type}.
Implicit Types (l : Ledger reservation claim) (m : Messages E) (a : Attempt reservation claim receipt).

Lemma schema_trusted_iff identity l :
  schema_trusted identity l = true <->
  table_ok (reservations l) /\ table_ok (claims l)
  /\ (forall c, c ∈ claims l -> exists r, r ∈ reservations l /\ refers c r = true)
  /\ owner l = identity /\ 0 <= clock_high_water_unix l
  /\ (forall c, c ∈ claims l -> claimed_at c <= clock_high_water_unix l)
  /\ (forall r, r ∈ reservations l -> reserved_at r <= clock_high_water_unix l).
Proof.
  unfold schema_trusted, integrity_check, foreign_key_check.
  rewrite !andb_true_iff, !table_okb_iff, !forallb_forall, bool_decide_eq_true, Z.leb_le.
  setoid_rewrite existsb_exists. setoid_rewrite <- list_elem_of_In. setoid_rewrite Z.leb_le. tauto.
Qed.

(** A ledger that passes its own validation. *)
Definition trusted l : Prop := schema_trusted (owner l) l = true.

Lemma provisioned_trusted identity : trusted (provisioned identity).
Proof.
  apply schema_trusted_iff. cbn. split_and!; try done; try apply table_ok_nil; intros ? []%not_elem_of_nil.
Qed.

(** An attempt reserves its own key at the time of the transaction. *)
Record attempt_ok a : Prop := {
  ok_key : forall t, reservation_key (at_reserve a t) = at_key a;
  ok_time : forall t, reserved_at (at_reserve a t) = t
}.

(** The identity of the attempt is reserved, with or without a receipt. *)
Definition spent (key : string) l : Prop := exists r, r ∈ reservations l /\ reservation_key r = key.

(** The three things a transaction can do to the ledger. *)
Variant consumed m a (now : Z) l : Ledger reservation claim -> result E receipt -> Prop :=
| Refused e t :
    t = clock_high_water_unix l \/ (clock_high_water_unix l <= t /\ t = now) ->
    consumed m a now l (set_clock l t) (Err e)
| Burned e :
    clock_high_water_unix l <= now ->
    sql_insert true (reservations l) (at_reserve a now) = Some (reservations l ++ [at_reserve a now])%list ->
    consumed m a now l (with_reservations (set_clock l now) (reservations l ++ [at_reserve a now])%list) (Err e)
| Committed r row :
    schema_trusted (at_owner a) l = true -> 0 <= now ->
    at_behind a now = false -> clock_high_water_unix l <= now -> at_open a now = true ->
    select_by reservation_key (reservations l) (at_key a) = None ->
    existsb (at_conflict a) (reservations l) = false ->
    sql_insert true (reservations l) (at_reserve a now) = Some (reservations l ++ [at_reserve a now])%list ->
    at_caller_ok a = true -> existsb (at_caller_conflict a) (claims l) = false ->
    at_receipt a now = Ok (r, row) -> existsb (at_receipt_conflict a row) (claims l) = false ->
    sql_insert (existsb (refers row) (reservations l ++ [at_reserve a now])%list) (claims l) row
      = Some (claims l ++ [row])%list ->
    consumed m a now l
      {| owner := owner l; clock_high_water_unix := now;
         reservations := (reservations l ++ [at_reserve a now])%list; claims := (claims l ++ [row])%list |}
      (Ok r).

Lemma set_clock_same l : set_clock l (clock_high_water_unix l) = l.
Proof. by destruct l. Qed.

Lemma consume_view m a now l : consumed m a now l (consume m a now l).1 (consume m a now l).2.
Proof.
  assert (Hsame : forall e, consumed m a now l l (Err e)).
  { intros e. rewrite <- (set_clock_same l) at 2. constructor. by left. }
  unfold consume. destruct (schema_trusted _ _) eqn:Hs; cbn [negb]; [|apply Hsame].
  destruct (Z.ltb_spec now 0); [apply Hsame|].
  destruct (at_behind a now) eqn:Hb; cbn [orb]; [apply Hsame|].
  destruct (Z.ltb_spec now (clock_high_water_unix l)); [apply Hsame|].
  assert (Hlate : forall e, consumed m a now l (set_clock l now) (Err e)).
  { intros e. constructor. by right. }
  destruct (at_open a now) eqn:Ho; cbn [negb]; [|apply Hlate].
  destruct (select_by _ _ _) as [existing|] eqn:Hsel.
  { destruct (at_matches a existing); cbn [negb]; [apply Hlate|apply Hsame]. }
  destruct (existsb (at_conflict a) _) eqn:Hc; [apply Hlate|].
  destruct (sql_insert true _ _) as [rs|] eqn:Hi; [|apply Hsame].
  assert (rs = (reservations l ++ [at_reserve a now])%list) as -> by (by apply sql_insert_Some in Hi as (-> & _)).
  assert (Hburn : forall e, consumed m a now l (with_reservations (set_clock l now) (reservations l ++ [at_reserve a now])%list) (Err e)).
  { intros e. by constructor. }
  unfold complete. destruct (at_caller_ok a) eqn:Hca; cbn [negb]; [|apply Hburn].
  destruct (existsb (at_caller_conflict a) _) eqn:Hcc; [apply Hburn|].
  destruct (at_receipt a now) as [[r row]|] eqn:Hr; [|apply Hburn].
  destruct (existsb (at_receipt_conflict a row) _) eqn:Hrc; [apply Hburn|].
  destruct (sql_insert _ _ row) as [cs|] eqn:Hci; [|apply Hburn].
  assert (cs = (claims l ++ [row])%list) as -> by (by apply sql_insert_Some in Hci as (-> & _)).
  by apply (Committed m a now l r row).
Qed.

(** When an attempt commits, and what it then writes. *)
Lemma consume_ok m a now l l' r :
  consume m a now l = (l', Ok r) <->
  schema_trusted (at_owner a) l = true /\ 0 <= now /\ at_behind a now = false
  /\ clock_high_water_unix l <= now /\ at_open a now = true
  /\ select_by reservation_key (reservations l) (at_key a) = None
  /\ existsb (at_conflict a) (reservations l) = false
  /\ sql_insert true (reservations l) (at_reserve a now) = Some (reservations l ++ [at_reserve a now])%list
  /\ at_caller_ok a = true /\ existsb (at_caller_conflict a) (claims l) = false
  /\ exists row, at_receipt a now = Ok (r, row) /\ existsb (at_receipt_conflict a row) (claims l) = false
     /\ sql_insert (existsb (refers row) (reservations l ++ [at_reserve a now])%list) (claims l) row
        = Some (claims l ++ [row])%list
     /\ l' = {| owner := owner l; clock_high_water_unix := now;
                reservations := (reservations l ++ [at_reserve a now])%list; claims := (claims l ++ [row])%list |}.
Proof.
  split.
  - intros Hc. assert (Hv := consume_view m a now l). rewrite Hc in Hv. cbn in Hv.
    inversion Hv; subst. split_and!; try done. by eexists.
  - intros (Hs & Hn & Hb & Hcl & Ho & Hsel & Hcf & Hi & Hca & Hcc & row & Hr & Hrc & Hci & ->).
    unfold consume. rewrite Hs, Hb, Ho, Hsel, Hcf, Hi. cbn [negb orb].
    rewrite !(proj2 (Z.ltb_ge _ _)) by lia.
    unfold complete. cbn [claims reservations with_reservations set_clock]. by rewrite Hca, Hcc, Hr, Hrc, Hci.
Qed.

(** Ledgers only grow. *)
Record grows l l' : Prop := {
  grows_owner : owner l' = owner l;
  grows_clock : clock_high_water_unix l <= clock_high_water_unix l';
  grows_reservations : reservations l `prefix_of` reservations l';
  grows_claims : claims l `prefix_of` claims l'
}.

#[export] Instance grows_preorder : PreOrder grows.
Proof.
  split.
  - intros l. by split.
  - intros l1 l2 l3 [Ho Hc Hr Hl] [Ho' Hc' Hr' Hl']. split; [congruence|lia|by etrans|by etrans].
Qed.

Lemma consume_grows m a now l l' r : consume m a now l = (l', r) -> grows l l'.
Proof.
  intros Hc. assert (Hv := consume_view m a now l). rewrite Hc in Hv. cbn in Hv.
  inversion Hv; subst; split; cbn; try done; try lia; by apply prefix_app_r.
Qed.

Lemma spent_grows key l l' : grows l l' -> spent key l -> spent key l'.
Proof. intros [_ _ Hr _] (r & Hin & Hk). exists r. split; [|done]. by eapply elem_of_prefix. Qed.

(** A spent attempt never commits again. *)
Lemma spent_refused m a now l l' r : trusted l -> spent (at_key a) l -> consume m a now l <> (l', Ok r).
Proof.
  intros Ht (x & Hin & Hk) (_ & _ & _ & _ & _ & Hsel & _)%consume_ok.
  apply schema_trusted_iff in Ht as ((_ & Hd) & _). rewrite <- Hk in Hsel.
  rewrite (select_by_elem _ _ _ Hd reservation_key_unique Hin) in Hsel. done.
Qed.

(** A transaction that changes a table has spent the attempt, whatever it returns. *)
Lemma consume_spends m a now l l' r :
  attempt_ok a -> consume m a now l = (l', r) ->
  spent (at_key a) l' \/ (reservations l' = reservations l /\ claims l' = claims l /\ is_ok r = false).
Proof.
  intros [Hk _] Hc. assert (Hv := consume_view m a now l). rewrite Hc in Hv. cbn in Hv.
  inversion Hv; subst; [by right| |]; left; exists (at_reserve a now); cbn; rewrite elem_of_app, Hk; split; try done; right; by left.
Qed.

(** The validation of the ledger never rejects what the ledger wrote. *)
Lemma consume_trusted m a now l l' r :
  attempt_ok a -> trusted l -> consume m a now l = (l', r) -> trusted l'.
Proof.
  intros [_ Hat] Ht Hc. assert (Hv := consume_view m a now l). rewrite Hc in Hv. cbn in Hv.
  unfold trusted in *. rewrite schema_trusted_iff in Ht |- *.
  destruct Ht as (Hr & Hcl & Hfk & _ & Hpos & Hct & Hrt).
  inversion Hv; subst; cbn.
  - split_and!; try done; try lia; intros x Hx.
    + specialize (Hct x Hx). lia.
    + specialize (Hrt x Hx). lia.
  - split_and!; try done; try lia; try by eapply sql_insert_ok.
    + intros c (x & Hx & ?)%Hfk. exists x. rewrite elem_of_app. auto.
    + intros c Hx%Hct. lia.
    + intros x. rewrite elem_of_app, list_elem_of_singleton. intros [Hx%Hrt| ->]; [lia|]. rewrite Hat. lia.
  - match goal with Hi : sql_insert (existsb _ _) _ _ = _ |- _ => pose proof Hi as (_ & _ & Href & _)%sql_insert_Some end.
    apply existsb_exists in Href as (y & Hy%list_elem_of_In & Hyr).
    assert (Hnew : reserved_at y <= now).
    { rewrite elem_of_app, list_elem_of_singleton in Hy. destruct Hy as [Hy%Hrt| ->]; [lia|]. rewrite Hat. lia. }
    split_and!; try done; try lia; try by eapply sql_insert_ok.
    + intros c. rewrite elem_of_app, list_elem_of_singleton. intros [(x & Hx & ?)%Hfk| ->]; [|by exists y].
      exists x. rewrite elem_of_app. auto.
    + intros c. rewrite elem_of_app, list_elem_of_singleton. intros [Hx%Hct| ->]; [lia|].
      apply refers_key in Hyr as [_ ->]. lia.
    + intros x. rewrite elem_of_app, list_elem_of_singleton. intros [Hx%Hrt| ->]; [lia|]. rewrite Hat. lia.
Qed.
End Facts.

End OneShot.
