(* ===== verification/Fixture.v ===== *)
(** * Signed one-shot fixture intents ([src/bpe/inert_fixture.py])

    Policies, signed intents, trust stores, expectations, claim receipts and the
    durable claim ledger, whose transaction is [OneShot.consume].

    A field whose type is a one-value [Literal] is a constant of the JSON image.  The
    twenty-four bindings that policy, payload, expectation and receipt share are the
    record [IntentBinding] (the literal ones are constants of [intent_binding_fields]).
    Parameters stand for what is not in the repository: the Ed25519 check, whether a
    path is absolute and resolves to itself ([canonical_path], the file system), and
    the JSON reader of the validation library ([parse_receipt], [model_validate_json]).
    Opening and permission-checking the database file is not modelled. *)
From Stdlib Require Import ZArith String Ascii Lia.
From stdpp Require Import base tactics list strings.
From S2P Require Import Prelude Sha256 Json Models Job Base64 Sql OneShot Dispatch.
Local Open Scope string_scope.
Local Open Scope Z_scope.

Module Fixture.
Import Sha256 Json Models Job Base64 OneShot.

Definition INERT_FIXTURE_INTENT_SIGNING_DOMAIN : string :=
  "BPE" ++ Dispatch.nul ++ "inert-fixture-intent" ++ Dispatch.nul ++ "v1" ++ Dispatch.nul.
Definition MAX_INERT_FIXTURE_INTENT_LIFETIME_SECONDS : Z := 15 * 60.
Definition CLEANUP_TIMEOUT_MS : Z := 5000.
Definition MAX_RECEIPT_BYTES : Z := 32768.

Definition is_zero_sha256 (s : string) : bool := bool_decide (s = Dispatch.ZERO_SHA256).

(** ** Exceptions *)
Inductive InertFixtureIntentError :=
| InertFixtureAuthorizationError (message : string)
| InertFixtureExpectationError (message : string)
| InertFixtureLedgerError (message : string)
| InertFixtureIntentAlreadyClaimed (message : string)
| FixtureValueError (message : string).

(** [try: r except ..: raise e] *)
Definition except_any {F A} (r : result F A) (e : InertFixtureIntentError) : result InertFixtureIntentError A :=
  match r with Ok a => Ok a | Err _ => Err e end.
(** An exception that no handler catches. *)
Definition uncaught {A} (r : result string A) : result InertFixtureIntentError A :=
  match r with Ok a => Ok a | Err m => Err (FixtureValueError m) end.

(** ** Policies *)
Record InertFixturePolicy := {
  fp_policy_id : string;
  fp_worker_pool_audience : string;
  fp_worker_instance_id : string;
  fp_claim_ledger_id : string;
  fp_launch_ledger_id : string;
  fp_delegated_root_id : string;
  fp_launcher_artifact_id : string;
  fp_launcher_artifact_sha256 : string;
  fp_launcher_seccomp_policy_id : string;
  fp_launcher_seccomp_policy_sha256 : string;
  fp_resources : Dispatch.ExecutionResourceProfile;
  fp_resource_profile_sha256 : string;
  fp_fixture_timeout_ms : Z;
  fp_total_timeout_ms : Z
}.

Definition InertFixturePolicy_json (p : InertFixturePolicy) : json :=
  JObj [("schema_version", JStr "bpe.inert-fixture-policy.v1");
        ("policy_id", JStr (fp_policy_id p)); ("worker_pool_audience", JStr (fp_worker_pool_audience p));
        ("worker_instance_id", JStr (fp_worker_instance_id p)); ("claim_ledger_id", JStr (fp_claim_ledger_id p));
        ("launch_ledger_id", JStr (fp_launch_ledger_id p));
        ("claim_scope", JStr "single-configured-worker-ledger-v1");
        ("delegated_root_id", JStr (fp_delegated_root_id p));
        ("host_platform", JStr "linux"); ("host_architecture", JStr "x86_64");
        ("purpose", JStr "inert_fixture_qualification"); ("operation", JStr "qualify-clone3-inert-noexec-v1");
        ("launcher_kind", JStr "spawned-one-shot-executable-v1");
        ("launcher_artifact_id", JStr (fp_launcher_artifact_id p));
        ("launcher_artifact_sha256", JStr (fp_launcher_artifact_sha256 p));
        ("launcher_seccomp_policy_id", JStr (fp_launcher_seccomp_policy_id p));
        ("launcher_seccomp_policy_sha256", JStr (fp_launcher_seccomp_policy_sha256 p));
        ("launcher_protocol_version", JStr "bpe.clone3-inert-launcher-protocol.v1");
        ("launcher_launch_method", JStr "fixed-one-shot-executable-v1");
        ("launcher_fd_layout", JStr "stdio-null-control-3-cgroup-4-v1");
        ("launcher_argv_environment", JStr "argc-one-empty-environment-v1");
        ("ipc_method", JStr "unix-seqpacket-fixed-frame-v1");
        ("fixture_kind", JStr "builtin-noexec-fixed-v1");
        ("fixture_protocol_id", JStr "bpe.clone3-inert-fixture-protocol.v1");
        ("process_creation_method", JStr "clone3-into-cgroup-pidfd-v1");
        ("pidfd_signal_method", JStr "pidfd-send-signal-v1");
        ("wait_method", JStr "waitid-p-pidfd-v1");
        ("deadline_method", JStr "clock-monotonic-absolute-v1");
        ("cleanup_method", JStr "cgroup-kill-events-rmdir-v1");
        ("resources", Dispatch.ExecutionResourceProfile_json (fp_resources p));
        ("resource_profile_sha256", JStr (fp_resource_profile_sha256 p));
        ("fixture_timeout_ms", JInt (fp_fixture_timeout_ms p));
        ("cleanup_timeout_ms", JInt CLEANUP_TIMEOUT_MS);
        ("total_timeout_ms", JInt (fp_total_timeout_ms p));
        ("maximum_claims", JInt 1); ("maximum_launch_attempts", JInt 1); ("retry_permitted", JBool false);
        ("launcher_process_permitted", JBool true); ("fixture_child_process_permitted", JBool true);
        ("fixture_child_exec_permitted", JBool false); ("external_fixture_executable_permitted", JBool false);
        ("candidate_access_permitted", JBool false); ("evaluation_job_access_permitted", JBool false);
        ("authoritative_ready", JBool false)].

(** [InertFixturePolicy.artifacts_resources_and_time_are_exact] *)
Definition artifacts_resources_and_time_are_exact (p : InertFixturePolicy) : result string unit :=
  raise "launcher artifact and seccomp digests cannot be placeholders"
    when is_zero_sha256 (fp_launcher_artifact_sha256 p) || is_zero_sha256 (fp_launcher_seccomp_policy_sha256 p) ;;
  let* resources_sha := sha256_json (Dispatch.ExecutionResourceProfile_json (fp_resources p)) in
  raise "the inert-fixture resource-profile digest is inconsistent"
    when negb (bool_decide (fp_resource_profile_sha256 p = resources_sha)) ;;
  raise "fixture deadline exceeds the resource profile wall deadline"
    when Dispatch.rs_wall_timeout_ms (fp_resources p) <? fp_fixture_timeout_ms p ;;
  raise "the fixed descendant-cleanup fixture requires at least two PIDs"
    when Dispatch.rs_pids_max (fp_resources p) <? 2 ;;
  raise "total timeout must exactly include fixture and cleanup deadlines"
    when negb (fp_total_timeout_ms p =? fp_fixture_timeout_ms p + CLEANUP_TIMEOUT_MS) ;;
  raise "claim and launch ledgers must have distinct identities"
    when bool_decide (fp_claim_ledger_id p = fp_launch_ledger_id p) ;;
  Ok tt.

Definition validate_InertFixturePolicy (p : InertFixturePolicy) : result string unit :=
  check_field "policy_id" (is_stable_id (fp_policy_id p)) ;;
  check_field "worker_pool_audience" (is_stable_id (fp_worker_pool_audience p)) ;;
  check_field "worker_instance_id" (is_stable_id (fp_worker_instance_id p)) ;;
  check_field "claim_ledger_id" (is_stable_id (fp_claim_ledger_id p)) ;;
  check_field "launch_ledger_id" (is_stable_id (fp_launch_ledger_id p)) ;;
  check_field "delegated_root_id" (is_stable_id (fp_delegated_root_id p)) ;;
  check_field "launcher_artifact_id" (is_stable_id (fp_launcher_artifact_id p)) ;;
  check_field "launcher_artifact_sha256" (is_sha256 (fp_launcher_artifact_sha256 p)) ;;
  check_field "launcher_seccomp_policy_id" (is_stable_id (fp_launcher_seccomp_policy_id p)) ;;
  check_field "launcher_seccomp_policy_sha256" (is_sha256 (fp_launcher_seccomp_policy_sha256 p)) ;;
  let* _ := Dispatch.validate_ExecutionResourceProfile (fp_resources p) in
  check_field "resource_profile_sha256" (is_sha256 (fp_resource_profile_sha256 p)) ;;
  check_field "fixture_timeout_ms" (Dispatch.within 5000 30000 (fp_fixture_timeout_ms p)) ;;
  check_field "total_timeout_ms" (Dispatch.within 10000 35000 (fp_total_timeout_ms p)) ;;
  artifacts_resources_and_time_are_exact p.

(** ** The bindings of an intent *)
Record IntentBinding := {
  ib_policy_id : string;
  ib_policy_sha256 : string;
  ib_worker_pool_audience : string;
  ib_worker_instance_id : string;
  ib_claim_ledger_id : string;
  ib_launch_ledger_id : string;
  ib_delegated_root_id : string;
  ib_launcher_artifact_id : string;
  ib_launcher_artifact_sha256 : string;
  ib_launcher_seccomp_policy_id : string;
  ib_launcher_seccomp_policy_sha256 : string;
  ib_resource_profile_id : string;
  ib_resource_profile_sha256 : string;
  ib_fixture_timeout_ms : Z;
  ib_total_timeout_ms : Z
}.

#[export] Instance IntentBinding_eq_dec : EqDecision IntentBinding.
Proof. solve_decision. Defined.

Definition intent_binding_fields (b : IntentBinding) : list (string * json) :=
  [("purpose", JStr "inert_fixture_qualification"); ("operation", JStr "qualify-clone3-inert-noexec-v1");
   ("policy_id", JStr (ib_policy_id b)); ("policy_sha256", JStr (ib_policy_sha256 b));
   ("worker_pool_audience", JStr (ib_worker_pool_audience b));
   ("worker_instance_id", JStr (ib_worker_instance_id b)); ("claim_ledger_id", JStr (ib_claim_ledger_id b));
   ("launch_ledger_id", JStr (ib_launch_ledger_id b));
   ("claim_scope", JStr "single-configured-worker-ledger-v1");
   ("delegated_root_id", JStr (ib_delegated_root_id b));
   ("launcher_kind", JStr "spawned-one-shot-executable-v1");
   ("launcher_artifact_id", JStr (ib_launcher_artifact_id b));
   ("launcher_artifact_sha256", JStr (ib_launcher_artifact_sha256 b));
   ("launcher_seccomp_policy_id", JStr (ib_launcher_seccomp_policy_id b));
   ("launcher_seccomp_policy_sha256", JStr (ib_launcher_seccomp_policy_sha256 b));
   ("launcher_protocol_version", JStr "bpe.clone3-inert-launcher-protocol.v1");
   ("launcher_launch_method", JStr "fixed-one-shot-executable-v1");
   ("fixture_kind", JStr "builtin-noexec-fixed-v1");
   ("fixture_protocol_id", JStr "bpe.clone3-inert-fixture-protocol.v1");
   ("resource_profile_id", JStr (ib_resource_profile_id b));
   ("resource_profile_sha256", JStr (ib_resource_profile_sha256 b));
   ("fixture_timeout_ms", JInt (ib_fixture_timeout_ms b)); ("cleanup_timeout_ms", JInt CLEANUP_TIMEOUT_MS);
   ("total_timeout_ms", JInt (ib_total_timeout_ms b))].

(** The annotations of the binding fields, the same in payload and receipt. *)
Definition intent_binding_ok (b : IntentBinding) : bool :=
  is_stable_id (ib_policy_id b) && is_sha256 (ib_policy_sha256 b)
  && is_stable_id (ib_worker_pool_audience b) && is_stable_id (ib_worker_instance_id b)
  && is_stable_id (ib_claim_ledger_id b) && is_stable_id (ib_launch_ledger_id b)
  && is_stable_id (ib_delegated_root_id b) && is_stable_id (ib_launcher_artifact_id b)
  && is_sha256 (ib_launcher_artifact_sha256 b) && is_stable_id (ib_launcher_seccomp_policy_id b)
  && is_sha256 (ib_launcher_seccomp_policy_sha256 b) && is_stable_id (ib_resource_profile_id b)
  && is_sha256 (ib_resource_profile_sha256 b) && Dispatch.within 5000 30000 (ib_fixture_timeout_ms b)
  && Dispatch.within 10000 35000 (ib_total_timeout_ms b).

(** The bindings that a policy with this digest anchors. *)
Definition binding_of_policy (p : InertFixturePolicy) (policy_sha256 : string) : IntentBinding := {|
  ib_policy_id := fp_policy_id p; ib_policy_sha256 := policy_sha256;
  ib_worker_pool_audience := fp_worker_pool_audience p;
  ib_worker_instance_id := fp_worker_instance_id p;
  ib_claim_ledger_id := fp_claim_ledger_id p; ib_launch_ledger_id := fp_launch_ledger_id p;
  ib_delegated_root_id := fp_delegated_root_id p;
  ib_launcher_artifact_id := fp_launcher_artifact_id p;
  ib_launcher_artifact_sha256 := fp_launcher_artifact_sha256 p;
  ib_launcher_seccomp_policy_id := fp_launcher_seccomp_policy_id p;
  ib_launcher_seccomp_policy_sha256 := fp_launcher_seccomp_policy_sha256 p;
  ib_resource_profile_id := Dispatch.rs_profile_id (fp_resources p);
  ib_resource_profile_sha256 := fp_resource_profile_sha256 p;
  ib_fixture_timeout_ms := fp_fixture_timeout_ms p; ib_total_timeout_ms := fp_total_timeout_ms p
|}.

(** [_inert_fixture_binding_sha256] of the bindings of a payload or a receipt *)
Definition inert_fixture_binding_sha256 (b : IntentBinding) : result string string :=
  sha256_json (JObj (app (("schema_version", JStr "bpe.inert-fixture-binding.v1") :: intent_binding_fields b)
                         [("maximum_claims", JInt 1); ("maximum_launch_attempts", JInt 1);
                          ("retry_permitted", JBool false)])).

(** ** Signed intents *)
Record InertFixtureIntentPayload := {
  ip_intent_id : string;
  ip_intent_nonce : string;
  ip_binding : IntentBinding;
  ip_issued_at_unix : Z;
  ip_not_before_unix : Z;
  ip_expires_at_unix : Z
}.

Definition InertFixtureIntentPayload_json (p : InertFixtureIntentPayload) : json :=
  JObj (app [("schema_version", JStr "bpe.inert-fixture-intent-payload.v1");
             ("intent_id", JStr (ip_intent_id p)); ("intent_nonce", JStr (ip_intent_nonce p))]
       (app (intent_binding_fields (ip_binding p))
            [("issued_at_unix", JInt (ip_issued_at_unix p)); ("not_before_unix", JInt (ip_not_before_unix p));
             ("expires_at_unix", JInt (ip_expires_at_unix p));
             ("maximum_claims", JInt 1); ("maximum_launch_attempts", JInt 1); ("retry_permitted", JBool false);
             ("launcher_process_permitted", JBool true); ("fixture_child_process_permitted", JBool true);
             ("fixture_child_exec_permitted", JBool false);
             ("external_fixture_executable_permitted", JBool false);
             ("candidate_access_permitted", JBool false); ("evaluation_job_access_permitted", JBool false);
             ("authoritative_ready", JBool false)])).

(** [InertFixtureIntentPayload.identity_and_time_are_closed] *)
Definition identity_and_time_are_closed (p : InertFixtureIntentPayload) : result string unit :=
  let b := ip_binding p in
  raise "fixture intent nonce cannot use the all-zero placeholder" when is_zero_sha256 (ip_intent_nonce p) ;;
  raise "fixture intent artifact digests cannot be placeholders"
    when is_zero_sha256 (ib_launcher_artifact_sha256 b) || is_zero_sha256 (ib_launcher_seccomp_policy_sha256 b)
         || is_zero_sha256 (ib_policy_sha256 b) ;;
  raise "fixture intent times must be ordered"
    when negb ((ip_issued_at_unix p <=? ip_not_before_unix p) && (ip_not_before_unix p <? ip_expires_at_unix p)) ;;
  raise "fixture intent validity exceeds the fixed lifetime"
    when MAX_INERT_FIXTURE_INTENT_LIFETIME_SECONDS <? ip_expires_at_unix p - ip_issued_at_unix p ;;
  raise "intent total timeout does not include both fixed deadlines"
    when negb (ib_total_timeout_ms b =? ib_fixture_timeout_ms b + CLEANUP_TIMEOUT_MS) ;;
  raise "intent claim and launch ledgers must be distinct"
    when bool_decide (ib_claim_ledger_id b = ib_launch_ledger_id b) ;;
  Ok tt.

Definition validate_InertFixtureIntentPayload (p : InertFixtureIntentPayload) : result string unit :=
  check_field "intent_id" (is_stable_id (ip_intent_id p)) ;;
  check_field "intent_nonce" (is_sha256 (ip_intent_nonce p)) ;;
  check_field "bindings" (intent_binding_ok (ip_binding p)) ;;
  check_field "issued_at_unix" (0 <=? ip_issued_at_unix p) ;;
  check_field "not_before_unix" (0 <=? ip_not_before_unix p) ;;
  check_field "expires_at_unix" (0 <=? ip_expires_at_unix p) ;;
  identity_and_time_are_closed p.

Record SignedInertFixtureIntent := {
  si_key_id : string;
  si_payload : InertFixtureIntentPayload;
  si_payload_sha256 : string;
  si_signature_base64url : string
}.

(** [SignedInertFixtureIntent] with [signature_is_unpadded_base64url] and
    [payload_digest_is_exact] *)
Definition validate_SignedInertFixtureIntent (s : SignedInertFixtureIntent) : result string unit :=
  check_field "key_id" (is_stable_id (si_key_id s)) ;;
  let* _ := validate_InertFixtureIntentPayload (si_payload s) in
  check_field "payload_sha256" (is_sha256 (si_payload_sha256 s)) ;;
  check_field "signature_base64url"
    (Dispatch.base64url_field 85 Dispatch.SIGNATURE_LAST (si_signature_base64url s)) ;;
  let* _ := decode_base64url (si_signature_base64url s) 64 "signature" in
  let* payload_sha := sha256_json (InertFixtureIntentPayload_json (si_payload s)) in
  raise "signed fixture intent payload digest is inconsistent"
    when negb (bool_decide (si_payload_sha256 s = payload_sha)) ;;
  Ok tt.

Definition SignedInertFixtureIntent_json (s : SignedInertFixtureIntent) : json :=
  JObj [("schema_version", JStr "bpe.signed-inert-fixture-intent.v1"); ("algorithm", JStr "Ed25519");
        ("key_id", JStr (si_key_id s)); ("payload", InertFixtureIntentPayload_json (si_payload s));
        ("payload_sha256", JStr (si_payload_sha256 s));
        ("signature_base64url", JStr (si_signature_base64url s))].

(** [inert_fixture_intent_signing_bytes] *)
Definition inert_fixture_intent_signing_bytes (p : InertFixtureIntentPayload) : result string string :=
  let* _ := validate_InertFixtureIntentPayload p in
  let* encoded := canonical_json_bytes (InertFixtureIntentPayload_json p) in
  Ok (INERT_FIXTURE_INTENT_SIGNING_DOMAIN ++ encoded).

(** ** Trust stores *)
Record InertFixtureIntentTrustKey := {
  ik_key_id : string;
  ik_public_key_base64url : string;
  ik_valid_from_unix : Z;
  ik_valid_until_unix : Z;
  ik_revoked : bool
}.

(** [InertFixtureIntentTrustKey] with [public_key_is_unpadded_base64url] and
    [key_interval_is_nonempty] *)
Definition validate_InertFixtureIntentTrustKey (k : InertFixtureIntentTrustKey) : result string unit :=
  check_field "key_id" (is_stable_id (ik_key_id k)) ;;
  check_field "public_key_base64url"
    (Dispatch.base64url_field 42 Dispatch.PUBLIC_KEY_LAST (ik_public_key_base64url k)) ;;
  let* _ := decode_base64url (ik_public_key_base64url k) 32 "public key" in
  check_field "valid_from_unix" (0 <=? ik_valid_from_unix k) ;;
  check_field "valid_until_unix" (0 <=? ik_valid_until_unix k) ;;
  raise "fixture-intent trust-key validity interval is empty"
    when ik_valid_until_unix k <=? ik_valid_from_unix k ;;
  Ok tt.

Definition InertFixtureIntentTrustKey_json (k : InertFixtureIntentTrustKey) : json :=
  JObj [("key_id", JStr (ik_key_id k)); ("algorithm", JStr "Ed25519");
        ("public_key_base64url", JStr (ik_public_key_base64url k));
        ("valid_from_unix", JInt (ik_valid_from_unix k)); ("valid_until_unix", JInt (ik_valid_until_unix k));
        ("revoked", JBool (ik_revoked k))].

Record InertFixtureIntentTrustStore := {
  is_trust_store_id : string;
  is_keys : list InertFixtureIntentTrustKey
}.

Definition validate_InertFixtureIntentTrustStore (s : InertFixtureIntentTrustStore) : result string unit :=
  check_field "trust_store_id" (is_stable_id (is_trust_store_id s)) ;;
  check_field "keys" (Dispatch.within 1 64 (Z.of_nat (length (is_keys s)))) ;;
  let* _ := for_each validate_InertFixtureIntentTrustKey (is_keys s) in
  raise "fixture-intent trust-store key IDs must be unique" when negb (unique (ik_key_id <$> is_keys s)) ;;
  raise "fixture-intent trust-store public keys must be unique"
    when negb (unique (ik_public_key_base64url <$> is_keys s)) ;;
  Ok tt.

Definition InertFixtureIntentTrustStore_json (s : InertFixtureIntentTrustStore) : json :=
  JObj [("schema_version", JStr "bpe.inert-fixture-intent-trust-store.v1");
        ("trust_store_id", JStr (is_trust_store_id s));
        ("keys", JArr (map InertFixtureIntentTrustKey_json (is_keys s)))].

(** ** Claim receipts *)
Record InertFixtureIntentClaimReceipt := {
  ir_intent_id : string;
  ir_intent_sha256 : string;
  ir_intent_payload_sha256 : string;
  ir_signature_key_id : string;
  ir_trust_store_id : string;
  ir_trust_store_sha256 : string;
  ir_claim_id : string;
  ir_claim_nonce : string;
  ir_claimed_at_unix : Z;
  ir_intent_nonce : string;
  ir_intent_issued_at_unix : Z;
  ir_intent_not_before_unix : Z;
  ir_intent_expires_at_unix : Z;
  ir_binding : IntentBinding
}.

#[export] Instance InertFixtureIntentClaimReceipt_eq_dec : EqDecision InertFixtureIntentClaimReceipt.
Proof. solve_decision. Defined.

Definition InertFixtureIntentClaimReceipt_json (r : InertFixtureIntentClaimReceipt) : json :=
  JObj (app [("schema_version", JStr "bpe.inert-fixture-intent-claim-receipt.v1");
             ("status", JStr "claimed_not_started"); ("intent_id", JStr (ir_intent_id r));
             ("intent_sha256", JStr (ir_intent_sha256 r));
             ("intent_payload_sha256", JStr (ir_intent_payload_sha256 r));
             ("signature_key_id", JStr (ir_signature_key_id r)); ("trust_store_id", JStr (ir_trust_store_id r));
             ("trust_store_sha256", JStr (ir_trust_store_sha256 r)); ("claim_id", JStr (ir_claim_id r));
             ("claim_nonce", JStr (ir_claim_nonce r)); ("claimed_at_unix", JInt (ir_claimed_at_unix r));
             ("intent_nonce", JStr (ir_intent_nonce r));
             ("intent_issued_at_unix", JInt (ir_intent_issued_at_unix r));
             ("intent_not_before_unix", JInt (ir_intent_not_before_unix r));
             ("intent_expires_at_unix", JInt (ir_intent_expires_at_unix r))]
       (app (intent_binding_fields (ir_binding r))
            [("maximum_claims", JInt 1); ("maximum_launch_attempts", JInt 1); ("retry_permitted", JBool false);
             ("signature_verified", JBool true); ("one_shot_claim_committed", JBool true);
             ("signed_launcher_process_permitted", JBool true);
             ("signed_fixture_child_process_permitted", JBool true);
             ("signed_fixture_child_exec_permitted", JBool false);
             ("signed_external_fixture_executable_permitted", JBool false);
             ("signed_candidate_access_permitted", JBool false);
             ("signed_evaluation_job_access_permitted", JBool false);
             ("signed_authoritative_ready", JBool false); ("separate_launch_ledger_required", JBool true);
             ("launch_authorized", JBool false); ("launch_attempt_consumed", JBool false);
             ("launcher_artifact_accessed", JBool false); ("launcher_process_created", JBool false);
             ("fixture_child_process_created", JBool false); ("fixture_child_exec_attempted", JBool false);
             ("process_created", JBool false); ("execution_started", JBool false);
             ("external_fixture_executable_accessed", JBool false); ("candidate_bytes_accessed", JBool false);
             ("evaluation_job_accessed", JBool false); ("authoritative", JBool false)])).

(** [InertFixtureIntentClaimReceipt.claim_identities_are_nonplaceholder] *)
Definition claim_identities_are_nonplaceholder (r : InertFixtureIntentClaimReceipt) : result string unit :=
  let b := ir_binding r in
  raise "fixture claim identities cannot use all-zero placeholders"
    when is_zero_sha256 (ir_claim_id r) || is_zero_sha256 (ir_claim_nonce r)
         || is_zero_sha256 (ir_intent_nonce r) ;;
  raise "fixture claim digests cannot use all-zero placeholders"
    when existsb is_zero_sha256
      [ir_intent_sha256 r; ir_intent_payload_sha256 r; ir_trust_store_sha256 r; ib_policy_sha256 b;
       ib_launcher_artifact_sha256 b; ib_launcher_seccomp_policy_sha256 b; ib_resource_profile_sha256 b] ;;
  raise "fixture claim time is outside the signed intent interval"
    when negb ((ir_intent_issued_at_unix r <=? ir_intent_not_before_unix r)
               && (ir_intent_not_before_unix r <=? ir_claimed_at_unix r)
               && (ir_claimed_at_unix r <? ir_intent_expires_at_unix r)) ;;
  raise "fixture claim intent interval exceeds the fixed lifetime"
    when MAX_INERT_FIXTURE_INTENT_LIFETIME_SECONDS
         <? ir_intent_expires_at_unix r - ir_intent_issued_at_unix r ;;
  raise "fixture claim total timeout is inconsistent"
    when negb (ib_total_timeout_ms b =? ib_fixture_timeout_ms b + CLEANUP_TIMEOUT_MS) ;;
  raise "fixture claim and launch ledgers must be distinct"
    when bool_decide (ib_claim_ledger_id b = ib_launch_ledger_id b) ;;
  Ok tt.

Definition validate_InertFixtureIntentClaimReceipt (r : InertFixtureIntentClaimReceipt) : result string unit :=
  check_field "intent_id" (is_stable_id (ir_intent_id r)) ;;
  check_field "intent_sha256" (is_sha256 (ir_intent_sha256 r)) ;;
  check_field "intent_payload_sha256" (is_sha256 (ir_intent_payload_sha256 r)) ;;
  check_field "signature_key_id" (is_stable_id (ir_signature_key_id r)) ;;
  check_field "trust_store_id" (is_stable_id (ir_trust_store_id r)) ;;
  check_field "trust_store_sha256" (is_sha256 (ir_trust_store_sha256 r)) ;;
  check_field "claim_id" (is_sha256 (ir_claim_id r)) ;;
  check_field "claim_nonce" (is_sha256 (ir_claim_nonce r)) ;;
  check_field "claimed_at_unix" (0 <=? ir_claimed_at_unix r) ;;
  check_field "intent_nonce" (is_sha256 (ir_intent_nonce r)) ;;
  check_field "intent_issued_at_unix" (0 <=? ir_intent_issued_at_unix r) ;;
  check_field "intent_not_before_unix" (0 <=? ir_intent_not_before_unix r) ;;
  check_field "intent_expires_at_unix" (0 <=? ir_intent_expires_at_unix r) ;;
  check_field "bindings" (intent_binding_ok (ir_binding r)) ;;
  claim_identities_are_nonplaceholder r.

(** [_receipt_mirrors_authenticated_payload] *)
Definition receipt_mirrors_authenticated_payload (r : InertFixtureIntentClaimReceipt)
    (p : InertFixtureIntentPayload) : bool :=
  bool_decide (ir_intent_id r = ip_intent_id p) && bool_decide (ir_intent_nonce r = ip_intent_nonce p)
  && (ir_intent_issued_at_unix r =? ip_issued_at_unix p)
  && (ir_intent_not_before_unix r =? ip_not_before_unix p)
  && (ir_intent_expires_at_unix r =? ip_expires_at_unix p) && bool_decide (ir_binding r = ip_binding p).

(** ** Expectations and verified intents *)
Record InertFixtureIntentExpectation := {
  ix_policy : InertFixturePolicy;
  ix_claim_ledger_path : string;
  ix_binding : IntentBinding
}.

Record VerifiedInertFixtureIntent := {
  vi_intent : SignedInertFixtureIntent;
  vi_intent_sha256 : string;
  vi_payload_sha256 : string;
  vi_trust_store_id : string;
  vi_trust_store_sha256 : string;
  vi_verified_at_unix : Z
}.

(** ** Tables *)
(** The columns of a reservation but its time; a claim row repeats them. *)
Record ReservationIdentity := {
  ri_intent_sha256 : string;
  ri_intent_id : string;
  ri_payload_sha256 : string;
  ri_signature_key_id : string;
  ri_trust_store_id : string;
  ri_trust_store_sha256 : string;
  ri_worker_instance_id : string;
  ri_claim_ledger_id : string;
  ri_launch_ledger_id : string;
  ri_intent_nonce : string;
  ri_policy_sha256 : string;
  ri_binding_sha256 : string
}.

#[export] Instance ReservationIdentity_eq_dec : EqDecision ReservationIdentity.
Proof. solve_decision. Defined.

(** A row of [inert_fixture_intent_reservations] *)
Record IntentReservation := {
  rv_identity : ReservationIdentity;
  rv_reserved_at_unix : Z
}.

(** A row of [inert_fixture_intent_claims]; [fixture_protocol_id] is a constant. *)
Record IntentClaim := {
  ic_identity : ReservationIdentity;
  ic_claim_id : string;
  ic_claim_nonce : string;
  ic_claimed_at_unix : Z;
  ic_receipt_sha256 : string;
  ic_receipt_json : string;
  ic_policy_id : string;
  ic_worker_pool_audience : string;
  ic_delegated_root_id : string;
  ic_launcher_artifact_id : string;
  ic_launcher_artifact_sha256 : string;
  ic_launcher_seccomp_policy_id : string;
  ic_launcher_seccomp_policy_sha256 : string;
  ic_resource_profile_id : string;
  ic_resource_profile_sha256 : string
}.

#[export] Instance IntentClaim_eq_dec : EqDecision IntentClaim.
Proof. solve_decision. Defined.

Definition len64 (s : string) : bool := str_len s =? 64.

Definition identity_columns (i : ReservationIdentity) : list string :=
  [ri_intent_sha256 i; ri_intent_id i; ri_payload_sha256 i; ri_signature_key_id i; ri_trust_store_id i;
   ri_trust_store_sha256 i; ri_worker_instance_id i; ri_claim_ledger_id i; ri_launch_ledger_id i;
   ri_intent_nonce i; ri_policy_sha256 i; ri_binding_sha256 i].

Definition identity_check (i : ReservationIdentity) : bool :=
  len64 (ri_intent_sha256 i) && len64 (ri_payload_sha256 i) && len64 (ri_trust_store_sha256 i)
  && len64 (ri_intent_nonce i) && len64 (ri_policy_sha256 i) && len64 (ri_binding_sha256 i).

(** [_CREATE_INTENT_RESERVATIONS] *)
#[export] Instance intent_reservations : SqlTable IntentReservation := {
  row_check r := identity_check (rv_identity r) && (0 <=? rv_reserved_at_unix r);
  row_keys :=
    [(fun r => Some [ri_intent_sha256 (rv_identity r)]);
     (fun r => Some [ri_intent_id (rv_identity r)]);
     (fun r => Some [ri_intent_nonce (rv_identity r)]);
     (fun r => Some (identity_columns (rv_identity r) ++ [string_of_Z (rv_reserved_at_unix r)])%list)]
}.

(** [_CREATE_INTENT_CLAIMS] *)
#[export] Instance intent_claims : SqlTable IntentClaim := {
  row_check c :=
    identity_check (ic_identity c) && len64 (ic_claim_id c) && len64 (ic_claim_nonce c)
    && len64 (ic_receipt_sha256 c) && Dispatch.within 1 MAX_RECEIPT_BYTES (Z.of_nat (String.length (ic_receipt_json c)))
    && len64 (ic_launcher_artifact_sha256 c) && len64 (ic_launcher_seccomp_policy_sha256 c)
    && len64 (ic_resource_profile_sha256 c) && (0 <=? ic_claimed_at_unix c);
  row_keys :=
    [(fun c => Some [ri_intent_id (ic_identity c)]);
     (fun c => Some [ri_intent_sha256 (ic_identity c)]);
     (fun c => Some [ri_intent_nonce (ic_identity c)]);
     (fun c => Some [ic_claim_id c]);
     (fun c => Some [ic_claim_nonce c]);
     (fun c => Some [ic_receipt_sha256 c]);
     (fun c => Some [ri_intent_id (ic_identity c); ic_receipt_sha256 c])]
}.

(** The [FOREIGN KEY] of a claim: its reservation, at the time of the claim. *)
Definition claim_refers (c : IntentClaim) (r : IntentReservation) : bool :=
  bool_decide (ic_identity c = rv_identity r) && (ic_claimed_at_unix c =? rv_reserved_at_unix r).

#[export] Instance intent_tables : OneShotTables IntentReservation IntentClaim.
Proof.
  refine {| reservation_key r := ri_intent_sha256 (rv_identity r);
            claim_key c := ri_intent_sha256 (ic_identity c);
            reserved_at := rv_reserved_at_unix; claimed_at := ic_claimed_at_unix;
            refers := claim_refers |}.
  - left.
  - right. left.
  - intros c r. unfold claim_refers. rewrite andb_true_iff, bool_decide_eq_true, Z.eqb_eq. by intros [-> ->].
Defined.

Definition IntentLedger : Type := Ledger IntentReservation IntentClaim.

(** The object [InertFixtureIntentLedger]: a path and the configured identity. *)
Record LedgerHandle := {
  lh_path : string;
  lh_ledger_id : string;
  lh_worker_instance_id : string
}.

Definition handle_owner (h : LedgerHandle) : list string := [lh_worker_instance_id h; lh_ledger_id h].

(** [_configure_identity] *)
Definition configure_identity (path ledger_id worker_instance_id : string) :
    result InertFixtureIntentError LedgerHandle :=
  raise (InertFixtureLedgerError "fixture-intent ledger path contains a NUL byte")
    when negb (str_forall (fun c => negb (code c =? 0)) path) ;;
  raise (InertFixtureLedgerError "fixture-intent ledger ID is invalid") when negb (is_stable_id ledger_id) ;;
  raise (InertFixtureLedgerError "fixture-intent worker instance ID is invalid")
    when negb (is_stable_id worker_instance_id) ;;
  Ok {| lh_path := path; lh_ledger_id := ledger_id; lh_worker_instance_id := worker_instance_id |}.

(** [InertFixtureIntentLedger.provision] on a fresh database *)
Definition provision (path ledger_id worker_instance_id : string) :
    result InertFixtureIntentError (LedgerHandle * IntentLedger) :=
  let* h := configure_identity path ledger_id worker_instance_id in
  Ok (h, provisioned (handle_owner h)).

Definition UNTRUSTED : InertFixtureIntentError :=
  InertFixtureLedgerError "fixture-intent claim ledger schema is not trusted".

Definition validate_schema (h : LedgerHandle) (l : IntentLedger) : result InertFixtureIntentError unit :=
  raise UNTRUSTED when negb (schema_trusted (handle_owner h) l) ;; Ok tt.

(** [claim_count] *)
Definition intent_claim_count (h : LedgerHandle) (l : IntentLedger) : result InertFixtureIntentError Z :=
  let* _ := validate_schema h l in Ok (Z.of_nat (length (reservations l))).

(** ** The claim transaction *)
(** [reservation_identity] *)
Definition reservation_identity (h : LedgerHandle) (v : VerifiedInertFixtureIntent) (binding_sha256 : string) :
    ReservationIdentity :=
  let p := si_payload (vi_intent v) in
  {| ri_intent_sha256 := vi_intent_sha256 v; ri_intent_id := ip_intent_id p;
     ri_payload_sha256 := vi_payload_sha256 v; ri_signature_key_id := si_key_id (vi_intent v);
     ri_trust_store_id := vi_trust_store_id v; ri_trust_store_sha256 := vi_trust_store_sha256 v;
     ri_worker_instance_id := lh_worker_instance_id h; ri_claim_ledger_id := lh_ledger_id h;
     ri_launch_ledger_id := ib_launch_ledger_id (ip_binding p); ri_intent_nonce := ip_intent_nonce p;
     ri_policy_sha256 := ib_policy_sha256 (ip_binding p); ri_binding_sha256 := binding_sha256 |}.

Definition claim_receipt_for (v : VerifiedInertFixtureIntent) (claim_id claim_nonce : string) (claimed_at : Z) :
    InertFixtureIntentClaimReceipt :=
  let p := si_payload (vi_intent v) in
  {| ir_intent_id := ip_intent_id p; ir_intent_sha256 := vi_intent_sha256 v;
     ir_intent_payload_sha256 := vi_payload_sha256 v; ir_signature_key_id := si_key_id (vi_intent v);
     ir_trust_store_id := vi_trust_store_id v; ir_trust_store_sha256 := vi_trust_store_sha256 v;
     ir_claim_id := claim_id; ir_claim_nonce := claim_nonce; ir_claimed_at_unix := claimed_at;
     ir_intent_nonce := ip_intent_nonce p; ir_intent_issued_at_unix := ip_issued_at_unix p;
     ir_intent_not_before_unix := ip_not_before_unix p; ir_intent_expires_at_unix := ip_expires_at_unix p;
     ir_binding := ip_binding p |}.

(** The row of a receipt, as it is inserted and as it is expected back. *)
Definition intent_claim_row (r : InertFixtureIntentClaimReceipt)
    (receipt_sha256 receipt_json binding_sha256 : string) : IntentClaim :=
  let b := ir_binding r in
  {| ic_identity :=
       {| ri_intent_sha256 := ir_intent_sha256 r; ri_intent_id := ir_intent_id r;
          ri_payload_sha256 := ir_intent_payload_sha256 r; ri_signature_key_id := ir_signature_key_id r;
          ri_trust_store_id := ir_trust_store_id r; ri_trust_store_sha256 := ir_trust_store_sha256 r;
          ri_worker_instance_id := ib_worker_instance_id b; ri_claim_ledger_id := ib_claim_ledger_id b;
          ri_launch_ledger_id := ib_launch_ledger_id b; ri_intent_nonce := ir_intent_nonce r;
          ri_policy_sha256 := ib_policy_sha256 b; ri_binding_sha256 := binding_sha256 |};
     ic_claim_id := ir_claim_id r; ic_claim_nonce := ir_claim_nonce r;
     ic_claimed_at_unix := ir_claimed_at_unix r; ic_receipt_sha256 := receipt_sha256;
     ic_receipt_json := receipt_json; ic_policy_id := ib_policy_id b;
     ic_worker_pool_audience := ib_worker_pool_audience b; ic_delegated_root_id := ib_delegated_root_id b;
     ic_launcher_artifact_id := ib_launcher_artifact_id b;
     ic_launcher_artifact_sha256 := ib_launcher_artifact_sha256 b;
     ic_launcher_seccomp_policy_id := ib_launcher_seccomp_policy_id b;
     ic_launcher_seccomp_policy_sha256 := ib_launcher_seccomp_policy_sha256 b;
     ic_resource_profile_id := ib_resource_profile_id b;
     ic_resource_profile_sha256 := ib_resource_profile_sha256 b |}.

(** The receipt, its digest and its bytes, within the storage bound. *)
Definition build_receipt (v : VerifiedInertFixtureIntent) (binding_sha256 claim_id claim_nonce : string)
    (claimed_at : Z) : result string (InertFixtureIntentClaimReceipt * IntentClaim) :=
  let* receipt := construct validate_InertFixtureIntentClaimReceipt (claim_receipt_for v claim_id claim_nonce claimed_at) in
  let* receipt_sha256 := sha256_json (InertFixtureIntentClaimReceipt_json receipt) in
  let* receipt_json := canonical_json_bytes (InertFixtureIntentClaimReceipt_json receipt) in
  raise "receipt exceeds its fixed storage bound"
    when negb (Dispatch.within 1 MAX_RECEIPT_BYTES (Z.of_nat (String.length receipt_json))) ;;
  Ok (receipt, intent_claim_row receipt receipt_sha256 receipt_json binding_sha256).

(** What [claim_intent] brings to its transaction. *)
Definition claim_attempt (h : LedgerHandle) (v : VerifiedInertFixtureIntent)
    (binding_sha256 claim_id claim_nonce : string) (verification_time : Z) :
    Attempt IntentReservation IntentClaim InertFixtureIntentClaimReceipt :=
  let p := si_payload (vi_intent v) in
  let identity := reservation_identity h v binding_sha256 in
  let open t := (ip_not_before_unix p <=? t) && (t <? ip_expires_at_unix p) in
  {| at_owner := handle_owner h;
     at_behind claimed_at := claimed_at <? verification_time;
     at_open := open;
     at_key := vi_intent_sha256 v;
     at_reserve claimed_at := {| rv_identity := identity; rv_reserved_at_unix := claimed_at |};
     at_matches r := bool_decide (rv_identity r = identity) && open (rv_reserved_at_unix r);
     at_conflict r := bool_decide (ri_intent_id (rv_identity r) = ip_intent_id p)
                      || bool_decide (ri_intent_nonce (rv_identity r) = ip_intent_nonce p);
     at_caller_ok := is_sha256 claim_id && negb (is_zero_sha256 claim_id);
     at_caller_conflict c := bool_decide (ic_claim_id c = claim_id);
     at_receipt := build_receipt v binding_sha256 claim_id claim_nonce;
     at_receipt_conflict row c := bool_decide (ic_claim_nonce c = ic_claim_nonce row)
                                  || bool_decide (ic_receipt_sha256 c = ic_receipt_sha256 row) |}.

Definition claim_messages : Messages InertFixtureIntentError := {|
  untrusted := UNTRUSTED;
  clock_invalid := InertFixtureLedgerError "worker clock returned an invalid Unix time";
  clock_behind :=
    InertFixtureLedgerError "worker clock moved behind its durable fixture-intent high-water mark";
  outside := InertFixtureLedgerError "fixture intent is outside its validity window at durable claim";
  differs := InertFixtureLedgerError "fixture-intent reservation differs from authenticated inputs";
  terminal :=
    InertFixtureIntentAlreadyClaimed "fixture intent was already consumed by a terminal reservation";
  identity_consumed :=
    InertFixtureIntentAlreadyClaimed "fixture intent signed identity was already consumed";
  integrity := InertFixtureLedgerError "fixture-intent claim violated ledger integrity";
  caller_invalid :=
    InertFixtureIntentAlreadyClaimed
      "fixture intent was already consumed: claim ID must be a nonzero lowercase SHA-256 value";
  caller_collision :=
    InertFixtureIntentAlreadyClaimed "fixture intent was already consumed by an identity collision";
  construction :=
    InertFixtureIntentAlreadyClaimed "fixture intent was already consumed before receipt construction";
  receipt_collision :=
    InertFixtureIntentAlreadyClaimed "fixture intent was already consumed by a receipt collision";
  durable_collision :=
    InertFixtureIntentAlreadyClaimed "fixture intent was already consumed by a durable collision"
|}.

(** [verify_committed_receipt] *)
Definition verify_intent_receipt (h : LedgerHandle) (receipt : InertFixtureIntentClaimReceipt) (l : IntentLedger) :
    result InertFixtureIntentError string :=
  let* receipt_sha256 :=
    except_any (let* r := construct validate_InertFixtureIntentClaimReceipt receipt in
                sha256_json (InertFixtureIntentClaimReceipt_json r))
               (InertFixtureLedgerError "fixture-intent claim receipt is invalid") in
  raise (InertFixtureLedgerError "fixture-intent receipt is bound to a different worker or ledger")
    when differ (ib_worker_instance_id (ir_binding receipt)) (lh_worker_instance_id h)
         || differ (ib_claim_ledger_id (ir_binding receipt)) (lh_ledger_id h) ;;
  let* binding_sha256 := uncaught (inert_fixture_binding_sha256 (ir_binding receipt)) in
  let* receipt_json := uncaught (canonical_json_bytes (InertFixtureIntentClaimReceipt_json receipt)) in
  let* _ := validate_schema h l in
  raise (InertFixtureLedgerError "fixture-intent claim receipt is not committed in this ledger")
    when negb (bool_decide
      (select_by (fun c => ri_intent_id (ic_identity c)) (claims l) (ir_intent_id receipt)
       = Some (intent_claim_row receipt receipt_sha256 receipt_json binding_sha256))) ;;
  Ok receipt_sha256.

(** ** Verification, claims and recovery *)
Section Admission.
Context (ed25519_verify : list byte -> list byte -> string -> bool).
Context (canonical_path : string -> bool).
Context (parse_receipt : string -> option InertFixtureIntentClaimReceipt).

(** The expectation in an otherwise fixed payload. *)
Definition expectation_probe (b : IntentBinding) : InertFixtureIntentPayload :=
  {| ip_intent_id := "expectation-probe"; ip_intent_nonce := Dispatch.ONE_SHA256; ip_binding := b;
     ip_issued_at_unix := 0; ip_not_before_unix := 0; ip_expires_at_unix := 1 |}.

(** [_validate_expectation] *)
Definition validate_intent_expectation (x : InertFixtureIntentExpectation) :
    result InertFixtureIntentError unit :=
  except_any
    (raise "fixture-intent expectation has an unsafe claim-ledger path"
       when negb (canonical_path (ix_claim_ledger_path x)) ;;
     let* _ := validate_InertFixturePolicy (ix_policy x) in
     let* policy_sha256 := sha256_json (InertFixturePolicy_json (ix_policy x)) in
     raise "fixture-intent expectation differs from its policy preimage"
       when negb (bool_decide (ix_binding x = binding_of_policy (ix_policy x) policy_sha256)) ;;
     validate_InertFixtureIntentPayload (expectation_probe (ix_binding x)))
    (InertFixtureExpectationError "trusted fixture-intent expectation inputs are invalid").

(** [inert_fixture_intent_expectation_for], with the local bindings the caller
    expects *)
Definition inert_fixture_intent_expectation_for (policy : InertFixturePolicy) (expected_policy_sha256 path : string)
    (audience worker claim_ledger launch_ledger root artifact artifact_sha seccomp seccomp_sha : string) :
    result InertFixtureIntentError InertFixtureIntentExpectation :=
  let* policy_sha256 :=
    except_any (let* p := construct validate_InertFixturePolicy policy in sha256_json (InertFixturePolicy_json p))
               (InertFixtureExpectationError "fixture-intent policy is invalid") in
  raise (InertFixtureExpectationError "fixture-intent policy differs from its trusted anchor")
    when negb (bool_decide (policy_sha256 = expected_policy_sha256)) ;;
  raise (InertFixtureExpectationError
           "fixture-intent policy differs from trusted local launcher or worker bindings")
    when differ
      [fp_worker_pool_audience policy; fp_worker_instance_id policy; fp_claim_ledger_id policy;
       fp_launch_ledger_id policy; fp_delegated_root_id policy; fp_launcher_artifact_id policy;
       fp_launcher_artifact_sha256 policy; fp_launcher_seccomp_policy_id policy;
       fp_launcher_seccomp_policy_sha256 policy]
      [audience; worker; claim_ledger; launch_ledger; root; artifact; artifact_sha; seccomp; seccomp_sha] ;;
  let x := {| ix_policy := policy; ix_claim_ledger_path := path;
              ix_binding := binding_of_policy policy policy_sha256 |} in
  let* _ := validate_intent_expectation x in
  Ok x.

(** [_verify_inert_fixture_intent] *)
Definition verify_intent (intent : SignedInertFixtureIntent) (store : InertFixtureIntentTrustStore)
    (x : InertFixtureIntentExpectation) (now : Z) (enforce_validity : bool) :
    result InertFixtureIntentError VerifiedInertFixtureIntent :=
  raise (InertFixtureAuthorizationError "fixture-intent verification time must be a nonnegative integer")
    when now <? 0 ;;
  let* _ :=
    except_any (let* _ := uncaught (validate_SignedInertFixtureIntent intent) in
                let* _ := uncaught (validate_InertFixtureIntentTrustStore store) in
                validate_intent_expectation x)
               (InertFixtureAuthorizationError "fixture-intent inputs are invalid") in
  let p := si_payload intent in
  raise (InertFixtureAuthorizationError "fixture-intent bindings differ")
    when negb (bool_decide (ip_binding p = ix_binding x)) ;;
  raise (InertFixtureAuthorizationError "fixture intent is outside its validity window")
    when enforce_validity && negb ((ip_not_before_unix p <=? now) && (now <? ip_expires_at_unix p)) ;;
  match filter (fun k => ik_key_id k = si_key_id intent) (is_keys store) with
  | [key] =>
      raise (InertFixtureAuthorizationError "fixture-intent signing key is revoked") when ik_revoked key ;;
      raise (InertFixtureAuthorizationError "fixture intent is outside the signing key validity window")
        when negb ((ik_valid_from_unix key <=? ip_issued_at_unix p)
                   && (ip_expires_at_unix p <=? ik_valid_until_unix key)) ;;
      let* _ :=
        except_any
          (let* public_key := decode_base64url (ik_public_key_base64url key) 32 "public key" in
           let* signature := decode_base64url (si_signature_base64url intent) 64 "signature" in
           let* message := inert_fixture_intent_signing_bytes p in
           raise "invalid signature" when negb (ed25519_verify public_key signature message) ;;
           Ok tt)
          (InertFixtureAuthorizationError "fixture-intent signature is invalid") in
      let* intent_sha256 := uncaught (sha256_json (SignedInertFixtureIntent_json intent)) in
      let* payload_sha256 := uncaught (sha256_json (InertFixtureIntentPayload_json p)) in
      let* trust_store_sha256 := uncaught (sha256_json (InertFixtureIntentTrustStore_json store)) in
      Ok {| vi_intent := intent; vi_intent_sha256 := intent_sha256; vi_payload_sha256 := payload_sha256;
            vi_trust_store_id := is_trust_store_id store; vi_trust_store_sha256 := trust_store_sha256;
            vi_verified_at_unix := now |}
  | _ => Err (InertFixtureAuthorizationError "fixture-intent signing key is not trusted")
  end.

(** [verify_inert_fixture_intent] *)
Definition verify_inert_fixture_intent (intent : SignedInertFixtureIntent) (store : InertFixtureIntentTrustStore)
    (x : InertFixtureIntentExpectation) (now : Z) : result InertFixtureIntentError VerifiedInertFixtureIntent :=
  verify_intent intent store x now true.

(** The ledger object is the one the intent and the expectation name. *)
Definition bound_elsewhere (h : LedgerHandle) (v : VerifiedInertFixtureIntent)
    (x : InertFixtureIntentExpectation) : bool :=
  let b := ip_binding (si_payload (vi_intent v)) in
  differ (ib_worker_instance_id b) (lh_worker_instance_id h) || differ (ib_claim_ledger_id b) (lh_ledger_id h)
  || differ (ix_claim_ledger_path x) (lh_path h).

(** What [claim_intent] computes before it opens the database. *)
Definition prepare_intent (h : LedgerHandle) (intent : SignedInertFixtureIntent)
    (store : InertFixtureIntentTrustStore) (x : InertFixtureIntentExpectation) (verification_time : Z) :
    result InertFixtureIntentError (VerifiedInertFixtureIntent * string) :=
  let* v := verify_inert_fixture_intent intent store x verification_time in
  raise (InertFixtureLedgerError "fixture intent is bound to a different worker or claim ledger")
    when bound_elsewhere h v x ;;
  let* binding_sha256 := uncaught (inert_fixture_binding_sha256 (ip_binding (si_payload (vi_intent v)))) in
  Ok (v, binding_sha256).

(** [claim_intent]: the clock is read at [verification_time] and, inside the
    transaction, at [claimed_at]. *)
Definition claim_intent (h : LedgerHandle) (intent : SignedInertFixtureIntent)
    (store : InertFixtureIntentTrustStore) (x : InertFixtureIntentExpectation)
    (claim_id claim_nonce : string) (verification_time claimed_at : Z) (l : IntentLedger) :
    IntentLedger * result InertFixtureIntentError InertFixtureIntentClaimReceipt :=
  match prepare_intent h intent store x verification_time with
  | Err e => (l, Err e)
  | Ok (v, binding_sha256) =>
      consume claim_messages (claim_attempt h v binding_sha256 claim_id claim_nonce verification_time) claimed_at l
  end.

(** [admit_inert_fixture_intent] *)
Definition admit_inert_fixture_intent (h : LedgerHandle) (intent : SignedInertFixtureIntent)
    (store : InertFixtureIntentTrustStore) (x : InertFixtureIntentExpectation)
    (claim_id claim_nonce : string) (first_time verification_time claimed_at : Z) (l : IntentLedger) :
    IntentLedger * result InertFixtureIntentError InertFixtureIntentClaimReceipt :=
  match verify_intent intent store x first_time true with
  | Err e => (l, Err e)
  | Ok _ =>
      if differ (lh_path h) (ix_claim_ledger_path x)
         || differ (lh_ledger_id h) (ib_claim_ledger_id (ix_binding x))
         || differ (lh_worker_instance_id h) (ib_worker_instance_id (ix_binding x))
      then (l, Err (InertFixtureLedgerError "fixture admission received a different configured claim ledger"))
      else claim_intent h intent store x claim_id claim_nonce verification_time claimed_at l
  end.

(** [recover_committed_receipt]: the reservation joined with its claim. *)
Definition recover_intent_receipt (h : LedgerHandle) (intent : SignedInertFixtureIntent)
    (store : InertFixtureIntentTrustStore) (x : InertFixtureIntentExpectation) (now : Z) (l : IntentLedger) :
    result InertFixtureIntentError InertFixtureIntentClaimReceipt :=
  let* v := verify_intent intent store x now false in
  raise (InertFixtureLedgerError "fixture intent is bound to a different worker or claim ledger")
    when bound_elsewhere h v x ;;
  let p := si_payload (vi_intent v) in
  let* binding_sha256 := uncaught (inert_fixture_binding_sha256 (ip_binding p)) in
  let* _ := validate_schema h l in
  match select_by reservation_key (reservations l) (vi_intent_sha256 v) with
  | None => Err (InertFixtureLedgerError "no recoverable receipt is committed for this fixture intent")
  | Some r =>
      raise (InertFixtureLedgerError "fixture-intent reservation differs from the authenticated intent")
        when differ (rv_identity r) (reservation_identity h v binding_sha256)
             || negb ((ip_not_before_unix p <=? rv_reserved_at_unix r)
                      && (rv_reserved_at_unix r <? ip_expires_at_unix p)) ;;
      match select_by claim_key (claims l) (reservation_key r) with
      | None =>
          Err (InertFixtureIntentAlreadyClaimed
                 "fixture intent was terminally consumed without a recoverable receipt")
      | Some c =>
          let* found :=
            except_any
              (match parse_receipt (ic_receipt_json c) with
               | None => Err "invalid"
               | Some recovered =>
                   let* _ := validate_InertFixtureIntentClaimReceipt recovered in
                   let* recovered_json := canonical_json_bytes (InertFixtureIntentClaimReceipt_json recovered) in
                   let* recovered_sha256 := sha256_json (InertFixtureIntentClaimReceipt_json recovered) in
                   Ok (recovered, recovered_json, recovered_sha256)
               end)
              (InertFixtureLedgerError "committed fixture-intent receipt bytes are invalid") in
          let '(recovered, recovered_json, recovered_sha256) := found in
          raise (InertFixtureLedgerError "committed fixture-intent receipt differs from the authenticated intent")
            when differ recovered_json (ic_receipt_json c) || differ recovered_sha256 (ic_receipt_sha256 c)
                 || differ (ir_intent_id recovered) (ip_intent_id p)
                 || differ (ir_intent_sha256 recovered) (vi_intent_sha256 v)
                 || differ (ir_intent_payload_sha256 recovered) (vi_payload_sha256 v)
                 || differ (ir_signature_key_id recovered) (si_key_id (vi_intent v))
                 || differ (ir_trust_store_id recovered) (vi_trust_store_id v)
                 || differ (ir_trust_store_sha256 recovered) (vi_trust_store_sha256 v)
                 || negb (receipt_mirrors_authenticated_payload recovered p) ;;
          let* recovered_binding := uncaught (inert_fixture_binding_sha256 (ir_binding recovered)) in
          raise (InertFixtureLedgerError "committed fixture-intent receipt differs from the authenticated intent")
            when differ recovered_binding binding_sha256 ;;
          let* committed_sha256 := verify_intent_receipt h recovered l in
          raise (InertFixtureLedgerError "recovered fixture-intent receipt failed exact ledger verification")
            when differ committed_sha256 recovered_sha256 ;;
          Ok recovered
      end
  end.
End Admission.

End Fixture.
