(* ===== verification/FixtureFacts.v ===== *)
(** * What the fixture-intent ledger guarantees

    Histories of [claim_intent] calls by any number of processes on one database,
    with any arguments and through any ledger object: an intent is consumed at most
    once, a failed claim consumes it too, the ledger never locks itself out, and a
    committed receipt can always be recovered. *)
From Stdlib Require Import ZArith String Ascii Lia.
From stdpp Require Import base tactics list strings relations.
From S2P Require Import Prelude Sha256 Json JsonFacts Models ModelFacts Samples Job Base64 Sql OneShot Dispatch DispatchFacts JobFacts Fixture.
Local Open Scope string_scope.
Local Open Scope Z_scope.

Module FixtureFacts.
Import Sha256 Json JsonFacts Models ModelFacts Job JobFacts Base64 OneShot Fixture.

(** ** Images of receipts *)
Lemma InertFixtureIntentClaimReceipt_json_inj r1 r2 :
  canon (InertFixtureIntentClaimReceipt_json r1) = canon (InertFixtureIntentClaimReceipt_json r2) -> r1 = r2.
Proof.
  intros H. apply DispatchFacts.canon_same_keys in H; [|done|apply (bool_decide_unpack _); vm_compute; exact I].
  destruct r1 as [? ? ? ? ? ? ? ? ? ? ? ? ? []], r2 as [? ? ? ? ? ? ? ? ? ? ? ? ? []].
  cbn -[canon] in H. injection H. intros. cbn [canon] in *. by simplify_eq.
Qed.

Lemma InertFixtureIntentClaimReceipt_json_wf r : wf_json (InertFixtureIntentClaimReceipt_json r).
Proof. apply flat_object_wf; [apply (bool_decide_unpack _); vm_compute; exact I|]. repeat constructor. Qed.

(** The stored bytes of a receipt determine it. *)
Lemma receipt_bytes_inj r1 r2 raw :
  canonical_json_bytes (InertFixtureIntentClaimReceipt_json r1) = Ok raw ->
  canonical_json_bytes (InertFixtureIntentClaimReceipt_json r2) = Ok raw -> r1 = r2.
Proof.
  intros H1 H2. apply InertFixtureIntentClaimReceipt_json_inj.
  eapply canonical_injective_lemma; [apply InertFixtureIntentClaimReceipt_json_wf..|exact H1|exact H2].
Qed.

Section Ledger.
Context (ed25519_verify : list byte -> list byte -> string -> bool) (canonical_path : string -> bool).
Implicit Types (h : LedgerHandle) (v : VerifiedInertFixtureIntent) (l : IntentLedger).

(** ** Verified intents *)
Lemma except_any_ok {F A} (r : result F A) e a : except_any r e = Ok a <-> r = Ok a.
Proof. destruct r; cbn; split; congruence. Qed.
Lemma uncaught_ok {A} (r : result string A) a : uncaught r = Ok a <-> r = Ok a.
Proof. destruct r; cbn; split; congruence. Qed.

(** A trusted, unrevoked key signed the intent and covers its interval. *)
Definition signed_by_trusted_key (intent : SignedInertFixtureIntent) (store : InertFixtureIntentTrustStore) : Prop :=
  exists key public_key signature message,
    filter (fun k => ik_key_id k = si_key_id intent) (is_keys store) = [key] /\ ik_revoked key = false
    /\ ik_valid_from_unix key <= ip_issued_at_unix (si_payload intent)
    /\ ip_expires_at_unix (si_payload intent) <= ik_valid_until_unix key
    /\ decode_base64url (ik_public_key_base64url key) 32 "public key" = Ok public_key
    /\ decode_base64url (si_signature_base64url intent) 64 "signature" = Ok signature
    /\ inert_fixture_intent_signing_bytes (si_payload intent) = Ok message
    /\ ed25519_verify public_key signature message = true.

(** Exactly what a verification checks. *)
Lemma verify_intent_ok intent store x now enforce v :
  verify_intent ed25519_verify canonical_path intent store x now enforce = Ok v <->
  0 <= now /\ validate_SignedInertFixtureIntent intent = Ok tt
  /\ validate_InertFixtureIntentTrustStore store = Ok tt
  /\ validate_intent_expectation canonical_path x = Ok tt /\ ip_binding (si_payload intent) = ix_binding x
  /\ (enforce = true -> ip_not_before_unix (si_payload intent) <= now < ip_expires_at_unix (si_payload intent))
  /\ signed_by_trusted_key intent store
  /\ vi_intent v = intent /\ vi_trust_store_id v = is_trust_store_id store /\ vi_verified_at_unix v = now
  /\ sha256_json (SignedInertFixtureIntent_json intent) = Ok (vi_intent_sha256 v)
  /\ sha256_json (InertFixtureIntentPayload_json (si_payload intent)) = Ok (vi_payload_sha256 v)
  /\ sha256_json (InertFixtureIntentTrustStore_json store) = Ok (vi_trust_store_sha256 v).
Proof.
  unfold verify_intent. split.
  - intros H. destruct (Z.ltb_spec now 0); [done|].
    apply bind_ok in H as ([] & Hin & H). rewrite except_any_ok in Hin.
    apply bind_ok in Hin as ([] & Ha%uncaught_ok & Hin). apply bind_ok in Hin as ([] & Hs%uncaught_ok & Hx).
    destruct (negb (bool_decide _)) eqn:Hb; [done|]. apply bool_decide_neg_false in Hb.
    destruct (enforce && _) eqn:Hw; [done|].
    destruct (filter _ _) as [|key [|]] eqn:Hk; [done| |done].
    destruct (ik_revoked key) eqn:Hr; [done|]. destruct (negb ((ik_valid_from_unix key <=? _) && _)) eqn:Hv; [done|].
    apply bind_ok in H as ([] & Hsig & H). rewrite except_any_ok in Hsig.
    apply bind_ok in Hsig as (pk & Hpk & Hsig). apply bind_ok in Hsig as (sg & Hsg & Hsig).
    apply bind_ok in Hsig as (m & Hm & Hsig). destruct (negb (ed25519_verify _ _ _)) eqn:He; [done|].
    do 3 (let y := fresh "h" in let E := fresh "E" in apply bind_ok in H as (y & E & H); rewrite uncaught_ok in E).
    apply ok_inj in H as <-. cbn. split_and!; try done.
    + intros ->. cbn in Hw. bool_prop. lia.
    + bool_prop. exists key, pk, sg, m. by split_and!.
  - intros (Hn & Ha & Hs & Hx & Hb & Hw & (key & pk & sg & m & Hk & Hr & H1 & H2 & Hpk & Hsg & Hm & He) & Hi & Ht & Hnow & E1 & E2 & E3).
    rewrite (proj2 (Z.ltb_ge _ _)) by lia. rewrite Ha, Hs. cbn [uncaught bind_result]. rewrite Hx.
    cbn [except_any bind_result]. rewrite (bool_decide_true (_ = _)) by done. cbn [negb].
    replace (enforce && _) with false.
    2: { destruct enforce; [|done]. destruct (Hw eq_refl). symmetry. apply negb_false_iff. lia. }
    rewrite Hk, Hr. replace (negb _) with false by (symmetry; apply negb_false_iff; lia).
    rewrite Hpk, Hsg, Hm. cbn [bind_result]. rewrite He. cbn [negb except_any bind_result].
    rewrite E1, E2, E3. cbn [uncaught bind_result]. f_equal. destruct v; cbn in *. by subst.
Qed.

(** What the columns of a claim need of a verified intent. *)
Record authentic v : Prop := {
  au_payload : validate_InertFixtureIntentPayload (si_payload (vi_intent v)) = Ok tt;
  au_intent : is_sha256 (vi_intent_sha256 v) = true;
  au_digest : is_sha256 (vi_payload_sha256 v) = true;
  au_store : is_sha256 (vi_trust_store_sha256 v) = true
}.

Lemma verify_intent_authentic intent store x now enforce v :
  verify_intent ed25519_verify canonical_path intent store x now enforce = Ok v -> authentic v.
Proof.
  intros (_ & Ha & _ & _ & _ & _ & _ & Hi & _ & _ & E1 & E2 & E3)%verify_intent_ok. split.
  - rewrite Hi. unfold validate_SignedInertFixtureIntent in Ha. destruct (is_stable_id _); [|done].
    by apply bind_ok in Ha as ([] & ? & _).
  - by eapply sha256_json_is_sha256.
  - by eapply sha256_json_is_sha256.
  - by eapply sha256_json_is_sha256.
Qed.

Lemma prepare_intent_ok h intent store x t v b :
  prepare_intent ed25519_verify canonical_path h intent store x t = Ok (v, b) <->
  verify_inert_fixture_intent ed25519_verify canonical_path intent store x t = Ok v
  /\ bound_elsewhere h v x = false
  /\ inert_fixture_binding_sha256 (ip_binding (si_payload (vi_intent v))) = Ok b.
Proof.
  unfold prepare_intent. rewrite bind_ok. split.
  - intros (v' & Hv & H). destruct (bound_elsewhere h v' x) eqn:Hb; [done|].
    apply bind_ok in H as (b' & Hb'%uncaught_ok & [= <- <-]). done.
  - intros (Hv & He & Hb). exists v. split; [done|]. rewrite He, Hb. done.
Qed.

Lemma bound_here h v x :
  bound_elsewhere h v x = false ->
  ib_worker_instance_id (ip_binding (si_payload (vi_intent v))) = lh_worker_instance_id h
  /\ ib_claim_ledger_id (ip_binding (si_payload (vi_intent v))) = lh_ledger_id h
  /\ ix_claim_ledger_path x = lh_path h.
Proof. unfold bound_elsewhere. intros [[H1 H2]%orb_false_iff H3]%orb_false_iff. by apply differ_false in H1, H2, H3. Qed.

(** ** The claim transaction *)
Lemma claim_attempt_ok h v b cid nonce t : attempt_ok (claim_attempt h v b cid nonce t).
Proof. by split. Qed.

(** What the queries of the transaction have established when it commits. *)
Record claimable h v (b cid nonce : string) (t1 t2 : Z) l (r : InertFixtureIntentClaimReceipt) (row : IntentClaim) : Prop := {
  cm_trusted : schema_trusted (handle_owner h) l = true;
  cm_clock : 0 <= t2 /\ t1 <= t2 /\ clock_high_water_unix l <= t2;
  cm_window : ip_not_before_unix (si_payload (vi_intent v)) <= t2 < ip_expires_at_unix (si_payload (vi_intent v));
  cm_fresh : forall x, x ∈ reservations l ->
    ri_intent_sha256 (rv_identity x) <> vi_intent_sha256 v
    /\ ri_intent_id (rv_identity x) <> ip_intent_id (si_payload (vi_intent v))
    /\ ri_intent_nonce (rv_identity x) <> ip_intent_nonce (si_payload (vi_intent v));
  cm_claim_id : is_sha256 cid = true /\ cid <> Dispatch.ZERO_SHA256;
  cm_built : build_receipt v b cid nonce t2 = Ok (r, row);
  cm_unused : forall c, c ∈ claims l ->
    ic_claim_id c <> cid /\ ic_claim_nonce c <> nonce /\ ic_receipt_sha256 c <> ic_receipt_sha256 row
}.

Definition claimed h v (b : string) (t2 : Z) l (row : IntentClaim) : IntentLedger :=
  {| owner := owner l; clock_high_water_unix := t2;
     reservations := (reservations l ++ [{| rv_identity := reservation_identity h v b; rv_reserved_at_unix := t2 |}])%list;
     claims := (claims l ++ [row])%list |}.

Lemma build_receipt_ok v b cid nonce t r row :
  build_receipt v b cid nonce t = Ok (r, row) <->
  r = claim_receipt_for v cid nonce t /\ validate_InertFixtureIntentClaimReceipt r = Ok tt
  /\ exists sha raw, sha256_json (InertFixtureIntentClaimReceipt_json r) = Ok sha
     /\ canonical_json_bytes (InertFixtureIntentClaimReceipt_json r) = Ok raw
     /\ 1 <= Z.of_nat (String.length raw) <= MAX_RECEIPT_BYTES /\ row = intent_claim_row r sha raw b.
Proof.
  unfold build_receipt. split.
  - intros H. apply bind_ok in H as (r' & [Hv ->]%construct_ok & H).
    apply bind_ok in H as (sha & Hs & H). apply bind_ok in H as (raw & Hr & H).
    destruct (negb _) eqn:Hl; [done|]. apply ok_inj in H. injection H as <- <-.
    split; [done|]. split; [done|]. exists sha, raw. unfold Dispatch.within in Hl. bool_prop. split_and!; try done; lia.
  - intros (-> & Hv & sha & raw & Hs & Hr & Hl & ->).
    rewrite (proj2 (construct_ok _ _ _) (conj Hv eq_refl)). cbn [bind_result]. rewrite Hs, Hr. cbn [bind_result].
    replace (negb _) with false; [done|]. unfold Dispatch.within. symmetry. apply negb_false_iff. lia.
Qed.

(** The foreign key of the receipt row is the reservation of the attempt. *)
Lemma receipt_row_refers h v x b cid nonce t r row :
  bound_elsewhere h v x = false -> build_receipt v b cid nonce t = Ok (r, row) ->
  claim_refers row {| rv_identity := reservation_identity h v b; rv_reserved_at_unix := t |} = true.
Proof.
  intros (Hw & Hl & _)%bound_here (-> & _ & sha & raw & _ & _ & _ & ->)%build_receipt_ok.
  unfold claim_refers, reservation_identity. cbn. rewrite Hw, Hl, Z.eqb_refl. by rewrite bool_decide_true.
Qed.

Lemma reservation_check h v b t :
  authentic v -> is_sha256 b = true -> 0 <= t ->
  row_check {| rv_identity := reservation_identity h v b; rv_reserved_at_unix := t |} = true.
Proof.
  intros [Hp Hi Hd Hs] Hb Ht. unfold validate_InertFixtureIntentPayload, intent_binding_ok in Hp.
  ok_inv. bool_prop. cbn. unfold identity_check, len64. cbn. rewrite !DispatchFacts.sha256_len by done. cbn. lia.
Qed.

Lemma claim_check v b cid nonce t r row :
  is_sha256 b = true -> build_receipt v b cid nonce t = Ok (r, row) -> row_check row = true.
Proof.
  intros Hb (_ & Hv & sha & raw & Hs%sha256_json_is_sha256 & _ & Hl & ->)%build_receipt_ok.
  unfold validate_InertFixtureIntentClaimReceipt, intent_binding_ok in Hv. ok_inv. bool_prop.
  cbn. unfold identity_check, len64, Dispatch.within. cbn. rewrite !DispatchFacts.sha256_len by done. cbn. lia.
Qed.

(** In a trusted ledger a claim repeats the identity of a reservation. *)
Lemma claim_has_reservation identity l c :
  schema_trusted identity l = true -> c ∈ claims l ->
  exists x, x ∈ reservations l /\ ic_identity c = rv_identity x.
Proof.
  intros (_ & _ & Hfk & _)%schema_trusted_iff Hc. destruct (Hfk c Hc) as (x & Hx & Hr).
  exists x. split; [done|]. cbn in Hr. unfold claim_refers in Hr. by bool_prop.
Qed.

(** No constraint of the tables rejects a claim that passed the code's own queries. *)
Lemma claimable_inserts h v x b cid nonce t1 t2 l r row :
  authentic v -> bound_elsewhere h v x = false -> is_sha256 b = true ->
  claimable h v b cid nonce t1 t2 l r row ->
  sql_insert true (reservations l) {| rv_identity := reservation_identity h v b; rv_reserved_at_unix := t2 |}
    = Some (reservations l ++ [{| rv_identity := reservation_identity h v b; rv_reserved_at_unix := t2 |}])%list
  /\ sql_insert (existsb (claim_refers row)
        (reservations l ++ [{| rv_identity := reservation_identity h v b; rv_reserved_at_unix := t2 |}])%list)
        (claims l) row = Some (claims l ++ [row])%list.
Proof.
  intros Ha Hbd Hb [Ht [Hc0 Hc] Hw Hf Hid Hbuilt Hun]. split; apply sql_insert_Some; split_and!; try done.
  - by apply reservation_check.
  - intros k Hk. apply key_taken_false. intros y w Hy Hv Hv'. destruct (Hf y Hy) as (F1 & F2 & F3).
    rewrite list_elem_of_In in Hk. cbn in Hk. repeat destruct Hk as [<-|Hk]; [..|done]; cbn in Hv, Hv'; simplify_eq; done.
  - by eapply claim_check.
  - apply existsb_exists. eexists. split; [apply list_elem_of_In, elem_of_app; right; by left|].
    by eapply receipt_row_refers.
  - intros k Hk. apply key_taken_false. intros c w Hcl Hv Hv'. destruct (Hun c Hcl) as (U1 & U2 & U3).
    destruct (claim_has_reservation _ _ _ Ht Hcl) as (y & Hy & He). destruct (Hf y Hy) as (F1 & F2 & F3).
    rewrite <- He in F1, F2, F3.
    apply build_receipt_ok in Hbuilt as (-> & _ & sha & raw & _ & _ & _ & ->). cbn in U3.
    rewrite list_elem_of_In in Hk. cbn in Hk. repeat destruct Hk as [<-|Hk]; [..|done]; cbn in Hv, Hv'; simplify_eq; done.
Qed.

Lemma claim_queries h v b cid nonce t1 t2 l r row :
  build_receipt v b cid nonce t2 = Ok (r, row) ->
  let a := claim_attempt h v b cid nonce t1 in
  claimable h v b cid nonce t1 t2 l r row <->
  schema_trusted (at_owner a) l = true /\ 0 <= t2 /\ at_behind a t2 = false
  /\ clock_high_water_unix l <= t2 /\ at_open a t2 = true
  /\ select_by reservation_key (reservations l) (at_key a) = None
  /\ existsb (at_conflict a) (reservations l) = false
  /\ at_caller_ok a = true /\ existsb (at_caller_conflict a) (claims l) = false
  /\ existsb (at_receipt_conflict a row) (claims l) = false.
Proof.
  intros Hb a. rewrite select_by_None, !existsb_false. subst a. cbn -[schema_trusted].
  assert (Hrow : ic_claim_nonce row = nonce) by (by apply build_receipt_ok in Hb as (-> & _ & ? & ? & _ & _ & _ & ->)).
  unfold is_zero_sha256. split.
  - intros [Ht [Hc0 [Hc1 Hc2]] Hw Hf [Hi Hz] _ Hun]. split_and!; try done; try lia.
    + intros y Hy. by destruct (Hf y Hy).
    + intros y Hy. destruct (Hf y Hy) as (_ & ? & ?). by rewrite !bool_decide_false.
    + rewrite Hi. by rewrite bool_decide_false.
    + intros c Hc. destruct (Hun c Hc) as (? & _). by rewrite bool_decide_false.
    + intros c Hc. destruct (Hun c Hc) as (_ & ? & ?). by rewrite !bool_decide_false by congruence.
  - intros (Ht & H0 & Hbe & Hcl & Ho & Hk & Hcf & Hca & Hcc & Hrc). bool_prop. split; try done; try lia.
    + intros y Hy. split; [by apply Hk|]. specialize (Hcf y Hy). by bool_prop.
    + intros c Hc. specialize (Hcc c Hc). specialize (Hrc c Hc). rewrite Hrow in Hrc. by bool_prop.
Qed.

Lemma claim_consumes_exactly h v x b cid nonce t1 t2 l l' r :
  authentic v -> bound_elsewhere h v x = false -> is_sha256 b = true ->
  consume claim_messages (claim_attempt h v b cid nonce t1) t2 l = (l', Ok r) <->
  exists row, claimable h v b cid nonce t1 t2 l r row /\ l' = claimed h v b t2 l row.
Proof.
  intros Ha Hbd Hb. rewrite consume_ok. split.
  - intros (Ht & H0 & Hbe & Hcl & Ho & Hk & Hcf & _ & Hca & Hcc & row & Hr & Hrc & _ & ->).
    exists row. split; [|done]. by apply claim_queries.
  - intros (row & Hc & ->). destruct (claimable_inserts _ _ _ _ _ _ _ _ _ _ _ Ha Hbd Hb Hc) as [Hi1 Hi2].
    pose proof (cm_built _ _ _ _ _ _ _ _ _ _ Hc) as Hbuilt.
    apply claim_queries in Hc as (Ht & H0 & Hbe & Hcl & Ho & Hk & Hcf & Hca & Hcc & Hrc); [|done].
    split_and!; try done. by exists row.
Qed.

(** ** Histories *)
(** One call by some process, through any ledger object and with any arguments. *)
Definition call l (r : result InertFixtureIntentError InertFixtureIntentClaimReceipt) (l' : IntentLedger) : Prop :=
  exists h intent store x cid nonce t1 t2,
    claim_intent ed25519_verify canonical_path h intent store x cid nonce t1 t2 l = (l', r).

Definition later : relation IntentLedger := rtc (fun l l' => exists r, call l r l').

(** The ledgers reachable from the provisioning, with the receipts returned so far. *)
Inductive history (identity : list string) : list InertFixtureIntentClaimReceipt -> IntentLedger -> Prop :=
| history_new : history identity [] (provisioned identity)
| history_failed rs l e l' : history identity rs l -> call l (Err e) l' -> history identity rs l'
| history_claimed rs l r l' : history identity rs l -> call l (Ok r) l' -> history identity (rs ++ [r])%list l'.

(** A call changes nothing, or it is the transaction of an authentic intent. *)
Lemma call_cases h intent store x cid nonce t1 t2 l l' r :
  claim_intent ed25519_verify canonical_path h intent store x cid nonce t1 t2 l = (l', r) ->
  (l' = l /\ is_ok r = false)
  \/ exists v b, prepare_intent ed25519_verify canonical_path h intent store x t1 = Ok (v, b)
       /\ authentic v /\ bound_elsewhere h v x = false /\ is_sha256 b = true
       /\ inert_fixture_binding_sha256 (ip_binding (si_payload (vi_intent v))) = Ok b
       /\ vi_intent v = intent /\ sha256_json (SignedInertFixtureIntent_json intent) = Ok (vi_intent_sha256 v)
       /\ consume claim_messages (claim_attempt h v b cid nonce t1) t2 l = (l', r).
Proof.
  unfold claim_intent. destruct (prepare_intent _ _ _ _ _ _ _) as [[v b]|] eqn:Hp; [|intros [= <- <-]; by left].
  intros Hc. right. exists v, b. pose proof Hp as (Hv & Hb & Hs)%prepare_intent_ok.
  pose proof Hv as (_ & _ & _ & _ & _ & _ & _ & Hi & _ & _ & E1 & _)%verify_intent_ok.
  split_and!; try done; [by eapply verify_intent_authentic|by eapply sha256_json_is_sha256].
Qed.

Lemma call_trusted l r l' : trusted l -> call l r l' -> trusted l'.
Proof.
  intros Ht (h & intent & store & x & cid & nonce & t1 & t2 & Hc).
  apply call_cases in Hc as [[-> _]|(v & b & _ & _ & _ & _ & _ & _ & _ & Hc)]; [done|].
  eapply consume_trusted; [apply claim_attempt_ok|exact Ht|exact Hc].
Qed.

Lemma call_grows l r l' : call l r l' -> grows l l'.
Proof.
  intros (h & intent & store & x & cid & nonce & t1 & t2 & Hc).
  apply call_cases in Hc as [[-> _]|(v & b & _ & _ & _ & _ & _ & _ & _ & Hc)]; [reflexivity|].
  by eapply consume_grows.
Qed.

Lemma later_grows l l' : later l l' -> grows l l'.
Proof. induction 1 as [|l1 l2 l3 (r & Hc) _ IH]; [reflexivity|]. etrans; [by eapply call_grows|done]. Qed.

Lemma later_trusted l l' : later l l' -> trusted l -> trusted l'.
Proof. induction 1 as [|l1 l2 l3 (r & Hc) _ IH]; [done|]. intros Ht. apply IH. by eapply call_trusted. Qed.

(** [row] is the committed row of receipt [r] in a ledger with this identity. *)
Definition committed (identity : list string) (r : InertFixtureIntentClaimReceipt) (row : IntentClaim) : Prop :=
  validate_InertFixtureIntentClaimReceipt r = Ok tt
  /\ identity = [ib_worker_instance_id (ir_binding r); ib_claim_ledger_id (ir_binding r)]
  /\ exists sha raw b, sha256_json (InertFixtureIntentClaimReceipt_json r) = Ok sha
       /\ canonical_json_bytes (InertFixtureIntentClaimReceipt_json r) = Ok raw
       /\ inert_fixture_binding_sha256 (ir_binding r) = Ok b /\ row = intent_claim_row r sha raw b.

Record ledger_inv identity (rs : list InertFixtureIntentClaimReceipt) l : Prop := {
  li_trusted : schema_trusted identity l = true;
  li_rows : Forall2 (committed identity) rs (claims l)
}.

Lemma history_inv identity rs l : history identity rs l -> ledger_inv identity rs l.
Proof.
  induction 1 as [|rs l e l' _ [Ht Hr] Hc|rs l r l' _ [Ht Hr] Hc].
  - split; [apply provisioned_trusted|constructor].
  - assert (Ho : owner l = identity) by (by apply schema_trusted_iff in Ht as (_ & _ & _ & ? & _)).
    pose proof (call_grows _ _ _ Hc) as [Ho' _ _ _].
    split; [rewrite <- Ho, <- Ho'; eapply call_trusted; [|exact Hc]; unfold trusted; by rewrite Ho|].
    destruct Hc as (h & intent & store & x & cid & nonce & t1 & t2 & Hc).
    apply call_cases in Hc as [[-> _]|(v & b & _ & _ & _ & _ & _ & _ & _ & Hc)]; [done|].
    pose proof (consume_view claim_messages (claim_attempt h v b cid nonce t1) t2 l) as Hv.
    rewrite Hc in Hv. cbn in Hv. by inversion Hv; subst.
  - assert (Ho : owner l = identity) by (by apply schema_trusted_iff in Ht as (_ & _ & _ & ? & _)).
    pose proof (call_grows _ _ _ Hc) as [Ho' _ _ _].
    split; [rewrite <- Ho, <- Ho'; eapply call_trusted; [|exact Hc]; unfold trusted; by rewrite Ho|].
    destruct Hc as (h & intent & store & x & cid & nonce & t1 & t2 & Hc).
    apply call_cases in Hc as [[_ ?]|(v & b & _ & Ha & Hbd & Hb & Hbs & _ & _ & Hc)]; [done|].
    apply (claim_consumes_exactly h v x b) in Hc as (row & Hcl & ->); [|done..]. cbn.
    apply Forall2_app; [done|]. constructor; [|constructor].
    destruct (bound_here _ _ _ Hbd) as (Hw & Hli & _).
    destruct Hcl as [Hst _ _ _ _ Hbuilt _]. apply schema_trusted_iff in Hst as (_ & _ & _ & Hown & _).
    apply build_receipt_ok in Hbuilt as (-> & Hval & sha & raw & Hs & Hraw & _ & ->).
    split; [done|]. split; [|by exists sha, raw, b]. cbn. rewrite Hw, Hli, <- Ho. exact Hown.
Qed.

Lemma committed_intent_columns identity rs rows {B} (f : InertFixtureIntentClaimReceipt -> B) (g : IntentClaim -> B) :
  (forall r sha raw b, g (intent_claim_row r sha raw b) = f r) -> Forall2 (committed identity) rs rows -> f <$> rs = g <$> rows.
Proof.
  intros Hg. induction 1 as [|r row rs rows (_ & _ & sha & raw & b & _ & _ & _ & ->) _ IH]; cbn; [done|].
  by rewrite Hg, IH.
Qed.

(** One-shot intents: over the whole life of a claim ledger, under any
    interleaving of calls by any number of processes, the returned receipts have
    pairwise distinct intent ids, signed envelopes, intent nonces, claim ids and claim
    nonces: no signed intent is ever claimed twice. *)
Theorem intents_claimed_once identity rs l :
  history identity rs l ->
  NoDup (ir_intent_id <$> rs) /\ NoDup (ir_intent_sha256 <$> rs) /\ NoDup (ir_intent_nonce <$> rs)
  /\ NoDup (ir_claim_id <$> rs) /\ NoDup (ir_claim_nonce <$> rs).
Proof.
  intros [(_ & [_ Hk] & _)%schema_trusted_iff Hr]%history_inv.
  assert (Hcol : forall (f : InertFixtureIntentClaimReceipt -> string) (g : IntentClaim -> string),
    (forall r sha raw b, g (intent_claim_row r sha raw b) = f r) ->
    (fun row => Some [g row]) ∈ row_keys (row := IntentClaim) -> NoDup (f <$> rs)).
  { intros f g Hg Hin. rewrite (committed_intent_columns identity rs _ f g Hg Hr). by apply keys_distinct_NoDup. }
  split_and!; [apply (Hcol _ (fun c => ri_intent_id (ic_identity c)))
    |apply (Hcol _ (fun c => ri_intent_sha256 (ic_identity c)))
    |apply (Hcol _ (fun c => ri_intent_nonce (ic_identity c)))
    |apply (Hcol _ ic_claim_id)|apply (Hcol _ ic_claim_nonce)];
    try done; apply list_elem_of_In; cbn; tauto.
Qed.

(** The reservation a transaction adds carries the identity of its intent. *)
Lemma spends_identity h v b cid nonce t1 t2 l l' r :
  consume claim_messages (claim_attempt h v b cid nonce t1) t2 l = (l', r) -> reservations l' <> reservations l ->
  {| rv_identity := reservation_identity h v b; rv_reserved_at_unix := t2 |} ∈ reservations l'.
Proof.
  intros Hc Hne. pose proof (consume_view claim_messages (claim_attempt h v b cid nonce t1) t2 l) as Hv.
  rewrite Hc in Hv. cbn in Hv. inversion Hv; subst; cbn in *; [done|..]; rewrite elem_of_app; right; by left.
Qed.

(** C32. Consumption is terminal: once a call has written anything but the clock for an
    intent - even if it raised before a receipt existed - no later call, through any
    ledger object and at any time, returns a receipt with the id, the nonce or the
    signed envelope of that intent. *)
Theorem consumption_is_terminal identity rs l h intent store x cid nonce t1 t2 l1 r1 l2 receipt l3 :
  history identity rs l ->
  claim_intent ed25519_verify canonical_path h intent store x cid nonce t1 t2 l = (l1, r1) ->
  reservations l1 <> reservations l -> later l1 l2 -> call l2 (Ok receipt) l3 ->
  ir_intent_id receipt <> ip_intent_id (si_payload intent)
  /\ ir_intent_nonce receipt <> ip_intent_nonce (si_payload intent)
  /\ sha256_json (SignedInertFixtureIntent_json intent) <> Ok (ir_intent_sha256 receipt).
Proof.
  intros Hh Hc Hne Hl (h' & intent' & store' & x' & cid' & nonce' & t1' & t2' & Hc').
  apply call_cases in Hc as [[-> _]|(v & b & _ & _ & _ & _ & _ & Hi & Hs & Hc)]; [done|].
  apply spends_identity in Hc; [|done]. apply later_grows in Hl as [_ _ Hres _].
  eapply elem_of_prefix in Hc; [|exact Hres].
  apply call_cases in Hc' as [[_ ?]|(v' & b' & _ & Ha' & Hbd' & Hb' & _ & _ & _ & Hc')]; [done|].
  apply (claim_consumes_exactly h' v' x' b') in Hc' as (row & Hcl & _); [|done..].
  destruct Hcl as [_ _ _ Hf _ Hbuilt _]. destruct (Hf _ Hc) as (F1 & F2 & F3). cbn in F1, F2, F3.
  apply build_receipt_ok in Hbuilt as (-> & _). cbn. rewrite Hi in F2, F3. rewrite Hs. split_and!; congruence.
Qed.

(** The ledger never locks itself out: on every reachable ledger the validation
    that each call starts with succeeds, and the count it reports is the number of
    consumed intents, at least one per returned receipt. *)
Theorem fixture_ledger_stays_trusted h rs l :
  history (handle_owner h) rs l ->
  validate_schema h l = Ok tt
  /\ intent_claim_count h l = Ok (Z.of_nat (length (reservations l)))
  /\ (length rs <= length (reservations l))%nat.
Proof.
  intros [Ht Hr]%history_inv. assert (Hv : validate_schema h l = Ok tt) by (unfold validate_schema; by rewrite Ht).
  split; [done|]. split; [unfold intent_claim_count; by rewrite Hv|].
  rewrite (Forall2_length _ _ _ Hr). apply schema_trusted_iff in Ht as (_ & [_ Hk] & Hfk & _).
  rewrite <- (length_fmap (fun c => ri_intent_sha256 (ic_identity c)) (claims l)).
  rewrite <- (length_fmap (fun x => ri_intent_sha256 (rv_identity x)) (reservations l)).
  apply NoDup_incl_length.
  - apply NoDup_ListNoDup. apply (keys_distinct_NoDup (claims l) (fun c => ri_intent_sha256 (ic_identity c))); [done|].
    right. left.
  - intros k Hin. apply list_elem_of_In in Hin. apply list_elem_of_In.
    apply list_elem_of_fmap in Hin as (c & -> & Hc). destruct (Hfk c Hc) as (x & Hx & [Hkey _]%refers_key).
    cbn in Hkey. rewrite Hkey. by apply (list_elem_of_fmap_2 (fun x => ri_intent_sha256 (rv_identity x))).
Qed.

Lemma claim_intent_exact_lemma h intent store x cid nonce t1 t2 l l' receipt :
  claim_intent ed25519_verify canonical_path h intent store x cid nonce t1 t2 l = (l', Ok receipt) <->
  exists v b row, prepare_intent ed25519_verify canonical_path h intent store x t1 = Ok (v, b)
    /\ claimable h v b cid nonce t1 t2 l receipt row /\ l' = claimed h v b t2 l row.
Proof.
  split.
  - intros [[_ ?]|(v & b & Hp & Ha & Hbd & Hb & _ & _ & _ & Hc)]%call_cases; [done|].
    apply (claim_consumes_exactly h v x b) in Hc as (row & Hcl & ->); [|done..]. by exists v, b, row.
  - intros (v & b & row & Hp & Hcl & ->). unfold claim_intent. rewrite Hp.
    apply prepare_intent_ok in Hp as (Hv & Hbd & Hb).
    apply (claim_consumes_exactly h v x b); [by eapply verify_intent_authentic|done|by eapply sha256_json_is_sha256|].
    by exists row.
Qed.

(** C33. A claim succeeds exactly when it should: [claim_intent] returns a receipt if
    and only if the intent verifies and names this ledger object, the ledger passes
    its validation, the clock moved back behind neither the verification nor the
    high-water mark, the intent is open at the durable claim, neither its envelope nor
    its id nor its nonce was consumed, the claim id is a fresh nonzero digest, and the
    receipt is valid, fits its bound and is new.  The ledger then gains exactly the
    reservation and the row of that receipt; no table constraint can fire. *)
Theorem claim_intent_exact h intent store x cid nonce t1 t2 l l' receipt :
  claim_intent ed25519_verify canonical_path h intent store x cid nonce t1 t2 l = (l', Ok receipt) <->
  exists v b row, prepare_intent ed25519_verify canonical_path h intent store x t1 = Ok (v, b)
    /\ claimable h v b cid nonce t1 t2 l receipt row /\ l' = claimed h v b t2 l row.
Proof. apply claim_intent_exact_lemma. Qed.

(** ** Verification and recovery of receipts *)
Lemma verify_intent_receipt_iff h rs l r d :
  history (handle_owner h) rs l ->
  verify_intent_receipt h r l = Ok d <->
  r ∈ rs /\ sha256_json (InertFixtureIntentClaimReceipt_json r) = Ok d.
Proof.
  intros [Ht Hr]%history_inv. pose proof Ht as (_ & [_ Hk] & _)%schema_trusted_iff.
  unfold verify_intent_receipt. split.
  - intros H. apply bind_ok in H as (sha & Hs%except_any_ok & H).
    apply bind_ok in Hs as (r0 & [_ ->]%construct_ok & Hs).
    destruct (_ || _); [done|]. apply bind_ok in H as (b & _ & H). apply bind_ok in H as (raw & Hraw%uncaught_ok & H).
    apply bind_ok in H as (u & _ & H). destruct (negb _) eqn:Hn; [done|]. apply ok_inj in H as <-.
    split; [|done]. apply bool_decide_neg_false, select_by_Some in Hn as [Hin _].
    apply list_elem_of_lookup_1 in Hin as [i Hi].
    destruct (Forall2_lookup_r _ _ _ _ _ Hr Hi) as (r' & Hr' & _ & _ & sha' & raw' & b' & _ & Hraw' & _ & Heq).
    assert (raw' = raw) as -> by by injection Heq. rewrite (receipt_bytes_inj r r' raw Hraw Hraw').
    by eapply list_elem_of_lookup_2.
  - intros [[i Hi]%list_elem_of_lookup_1 Hd].
    destruct (Forall2_lookup_l _ _ _ _ _ Hr Hi) as (row & Hrow & Hval & Hid & sha & raw & b & Hs & Hraw & Hb & ->).
    rewrite (proj2 (construct_ok _ _ _) (conj Hval eq_refl)). cbn [bind_result]. rewrite Hs.
    cbn [except_any bind_result]. unfold handle_owner in Hid. injection Hid as -> ->. rewrite !differ_same. cbn [orb].
    rewrite Hb, Hraw. cbn [uncaught bind_result]. unfold validate_schema. rewrite Ht. cbn [negb bind_result].
    assert (Hsel : select_by (fun c => ri_intent_id (ic_identity c)) (claims l) (ir_intent_id r)
                   = Some (intent_claim_row r sha raw b)).
    { apply list_elem_of_lookup_2 in Hrow.
      apply (select_by_elem (fun c => ri_intent_id (ic_identity c)) (claims l) _ Hk ltac:(left) Hrow). }
    rewrite Hsel, bool_decide_true by done. cbn [negb]. rewrite Hs in Hd. by injection Hd as ->.
Qed.

(** Receipts are unforgeable: at every point of the ledger's life a receipt
    verifies, with digest [d], if and only if it is one of the receipts the ledger
    returned and [d] is its digest.  (The stored bytes are compared, so not even a
    digest collision helps.) *)
Theorem intent_receipts_verify_exactly h rs l r d :
  history (handle_owner h) rs l ->
  verify_intent_receipt h r l = Ok d <->
  r ∈ rs /\ sha256_json (InertFixtureIntentClaimReceipt_json r) = Ok d.
Proof. apply verify_intent_receipt_iff. Qed.

Lemma later_history identity rs l l' :
  history identity rs l -> later l l' -> exists rs', history identity rs' l' /\ rs `prefix_of` rs'.
Proof.
  intros Hh Hl. revert rs Hh. induction Hl as [l|l1 l2 l3 (r & Hc) _ IH]; intros rs Hh; [by exists rs|].
  destruct r as [r|e].
  - destruct (IH (rs ++ [r])%list) as (rs' & Hh' & Hp); [by eapply history_claimed|].
    exists rs'. split; [done|]. etrans; [by apply prefix_app_r|done].
  - apply IH. by eapply history_failed.
Qed.

(** Verification without the validity window does not depend on the time. *)
Definition verified_at v (t : Z) : VerifiedInertFixtureIntent := {|
  vi_intent := vi_intent v; vi_intent_sha256 := vi_intent_sha256 v; vi_payload_sha256 := vi_payload_sha256 v;
  vi_trust_store_id := vi_trust_store_id v; vi_trust_store_sha256 := vi_trust_store_sha256 v;
  vi_verified_at_unix := t |}.

Lemma verify_intent_again intent store x t1 t v :
  0 <= t -> verify_inert_fixture_intent ed25519_verify canonical_path intent store x t1 = Ok v ->
  verify_intent ed25519_verify canonical_path intent store x t false = Ok (verified_at v t).
Proof.
  intros Ht (_ & H2 & H3 & H4 & H5 & _ & H7 & H8 & H9 & _ & H11 & H12 & H13)%verify_intent_ok.
  apply verify_intent_ok. cbn. by split_and!.
Qed.

Context (parse_receipt : string -> option InertFixtureIntentClaimReceipt).

(** A recovered receipt is committed and belongs to the intent. *)
Lemma recover_intent_receipt_inv h intent store x t l r :
  recover_intent_receipt ed25519_verify canonical_path parse_receipt h intent store x t l = Ok r ->
  schema_trusted (handle_owner h) l = true /\ signed_by_trusted_key intent store
  /\ ip_binding (si_payload intent) = ix_binding x
  /\ (exists d, verify_intent_receipt h r l = Ok d)
  /\ receipt_mirrors_authenticated_payload r (si_payload intent) = true
  /\ sha256_json (SignedInertFixtureIntent_json intent) = Ok (ir_intent_sha256 r)
  /\ sha256_json (InertFixtureIntentPayload_json (si_payload intent)) = Ok (ir_intent_payload_sha256 r)
  /\ sha256_json (InertFixtureIntentTrustStore_json store) = Ok (ir_trust_store_sha256 r).
Proof.
  unfold recover_intent_receipt. intros H. apply bind_ok in H as (v & Hv & H).
  apply verify_intent_ok in Hv as (_ & _ & _ & _ & Hb & _ & Hk & Hi & _ & _ & E1 & E2 & E3).
  destruct (bound_elsewhere h v x); [done|]. apply bind_ok in H as (b & _ & H). apply bind_ok in H as ([] & Hs & H).
  assert (Ht : schema_trusted (handle_owner h) l = true).
  { unfold validate_schema in Hs. by destruct (schema_trusted (handle_owner h) l). }
  destruct (select_by reservation_key _ _) as [res|]; [|done]. destruct (_ || _); [done|].
  destruct (select_by claim_key _ _) as [c|]; [|done].
  apply bind_ok in H as ([[rec raw] sha] & _ & H). destruct (_ || _) eqn:Hd; [done|].
  apply bind_ok in H as (rb & _ & H). destruct (differ rb b); [done|]. apply bind_ok in H as (d & Hver & H).
  destruct (differ d sha); [done|]. apply ok_inj in H as <-.
  repeat match goal with H : _ || _ = false |- _ => apply orb_false_iff in H as [? ?] end.
  repeat match goal with H : differ _ _ = false |- _ => apply differ_false in H end.
  rewrite Hi in *. split_and!; try done.
  - by exists d.
  - by apply negb_false_iff.
  - congruence.
  - congruence.
  - congruence.
Qed.

(** Commits survive interruptions: a receipt that a claim committed can be
    recovered from every later ledger, at any time - long after the intent expired -
    from the signed intent alone, provided the JSON reader reads the stored canonical
    bytes back as the receipt that was written. *)
Theorem committed_receipts_recoverable h rs l intent store x cid nonce t1 t2 l1 receipt l2 t raw :
  history (handle_owner h) rs l ->
  claim_intent ed25519_verify canonical_path h intent store x cid nonce t1 t2 l = (l1, Ok receipt) ->
  later l1 l2 -> 0 <= t ->
  canonical_json_bytes (InertFixtureIntentClaimReceipt_json receipt) = Ok raw -> parse_receipt raw = Some receipt ->
  recover_intent_receipt ed25519_verify canonical_path parse_receipt h intent store x t l2 = Ok receipt.
Proof.
  intros Hh Hc Hl Ht Hraw Hparse.
  assert (Hh1 : history (handle_owner h) (rs ++ [receipt])%list l1)
    by (eapply history_claimed; [exact Hh|]; by eexists _, _, _, _, _, _, _, _).
  destruct (later_history _ _ _ _ Hh1 Hl) as (rs2 & Hh2 & Hpre).
  assert (Hin : receipt ∈ rs2) by (eapply elem_of_prefix; [|exact Hpre]; apply elem_of_app; right; by left).
  apply call_cases in Hc as [[_ ?]|(v & b & Hp & Ha & Hbd & Hb & Hbs & Hi & _ & Hc)]; [done|].
  apply (claim_consumes_exactly h v x b) in Hc as (row & Hcl & ->); [|done..].
  destruct (later_grows _ _ Hl) as [_ _ Hres Hclaims]. cbn in Hres, Hclaims.
  destruct (history_inv _ _ _ Hh2) as [Htr Hrows]. pose proof Htr as ([_ Hkr] & [_ Hkc] & _)%schema_trusted_iff.
  destruct Hcl as [_ _ Hw _ _ Hbuilt _]. apply build_receipt_ok in Hbuilt as (Hrec & Hval & sha & raw' & Hs & Hraw' & _ & ->).
  rewrite Hraw in Hraw'. injection Hraw' as <-.
  apply prepare_intent_ok in Hp as (Hv & _). unfold recover_intent_receipt.
  rewrite (verify_intent_again _ _ _ _ t _ Ht Hv). cbn [bind_result].
  change (bound_elsewhere h (verified_at v t) x) with (bound_elsewhere h v x). rewrite Hbd.
  cbn [verified_at vi_intent vi_intent_sha256 vi_payload_sha256 vi_trust_store_id vi_trust_store_sha256].
  rewrite Hbs. cbn [uncaught bind_result]. unfold validate_schema. rewrite Htr. cbn [negb bind_result].
  set (res := {| rv_identity := reservation_identity h v b; rv_reserved_at_unix := t2 |}) in *.
  assert (Hsel : select_by reservation_key (reservations l2) (vi_intent_sha256 v) = Some res).
  { change (vi_intent_sha256 v) with (reservation_key res).
    apply (select_by_elem reservation_key (reservations l2) res Hkr reservation_key_unique).
    eapply elem_of_prefix; [|exact Hres]. apply elem_of_app. right. by left. }
  rewrite Hsel. change (reservation_identity h (verified_at v t) b) with (reservation_identity h v b).
  cbn [res rv_identity rv_reserved_at_unix]. rewrite differ_same. cbn [orb].
  replace (negb _) with false by (symmetry; apply negb_false_iff; lia).
  assert (Hselc : select_by claim_key (claims l2) (reservation_key res) = Some (intent_claim_row receipt sha raw b)).
  { assert (Hk : reservation_key res = claim_key (intent_claim_row receipt sha raw b)) by (by subst receipt).
    rewrite Hk. apply (select_by_elem claim_key (claims l2) _ Hkc claim_key_unique).
    eapply elem_of_prefix; [|exact Hclaims]. apply elem_of_app. right. by left. }
  rewrite Hselc. cbn [ic_receipt_json ic_receipt_sha256 intent_claim_row]. rewrite Hparse, Hval. cbn [bind_result].
  rewrite Hraw, Hs. cbn [except_any bind_result].
  assert (Hbind : ir_binding receipt = ip_binding (si_payload (vi_intent v))) by (by subst receipt).
  assert (Hver : verify_intent_receipt h receipt l2 = Ok sha) by (by apply (verify_intent_receipt_iff h rs2)).
  rewrite Hbind, Hbs, Hver. cbn [uncaught bind_result]. rewrite Hrec. unfold receipt_mirrors_authenticated_payload.
  cbn. rewrite !differ_same, !Z.eqb_refl. cbn. by rewrite !bool_decide_true by done.
Qed.
End Ledger.

(** ** Two claims of sample intents *)
Definition sample_resources : Dispatch.ExecutionResourceProfile := {|
  Dispatch.rs_profile_id := "profile-1"; Dispatch.rs_wall_timeout_ms := 60000; Dispatch.rs_cpu_time_seconds := 30;
  Dispatch.rs_memory_bytes := 134217728; Dispatch.rs_pids_max := 8; Dispatch.rs_open_files_max := 64;
  Dispatch.rs_file_size_bytes := 1048576; Dispatch.rs_stack_bytes := 8388608; Dispatch.rs_stdout_bytes := 0;
  Dispatch.rs_stderr_bytes := 0; Dispatch.rs_tmpfs_bytes := 1048576; Dispatch.rs_tmpfs_inodes := 16 |}.

Definition sample_resources_sha256 : string :=
  Eval vm_compute in Samples.unwrap (sha256_json (Dispatch.ExecutionResourceProfile_json sample_resources)).

Definition sample_policy : InertFixturePolicy := {|
  fp_policy_id := "policy-1"; fp_worker_pool_audience := "pool-1"; fp_worker_instance_id := "worker-1";
  fp_claim_ledger_id := "claims-1"; fp_launch_ledger_id := "launches-1"; fp_delegated_root_id := "root-1";
  fp_launcher_artifact_id := "launcher-1"; fp_launcher_artifact_sha256 := DispatchFacts.repeat_char 64 "a";
  fp_launcher_seccomp_policy_id := "seccomp-1";
  fp_launcher_seccomp_policy_sha256 := DispatchFacts.repeat_char 64 "b"; fp_resources := sample_resources;
  fp_resource_profile_sha256 := sample_resources_sha256;
  fp_fixture_timeout_ms := 5000; fp_total_timeout_ms := 10000 |}.

Definition sample_binding : IntentBinding :=
  Eval vm_compute in
    binding_of_policy sample_policy (Samples.unwrap (sha256_json (InertFixturePolicy_json sample_policy))).

Definition sample_expectation : InertFixtureIntentExpectation :=
  {| ix_policy := sample_policy; ix_claim_ledger_path := "/ledger/claims"; ix_binding := sample_binding |}.

Definition sample_handle : LedgerHandle :=
  {| lh_path := "/ledger/claims"; lh_ledger_id := "claims-1"; lh_worker_instance_id := "worker-1" |}.

Definition sample_intent_payload (id : string) (nonce : ascii) (issued : Z) : InertFixtureIntentPayload := {|
  ip_intent_id := id; ip_intent_nonce := DispatchFacts.repeat_char 64 nonce; ip_binding := sample_binding;
  ip_issued_at_unix := issued; ip_not_before_unix := issued; ip_expires_at_unix := issued + 600 |}.

Definition sign_intent (p : InertFixtureIntentPayload) : SignedInertFixtureIntent := {|
  si_key_id := "key-1"; si_payload := p;
  si_payload_sha256 := Samples.unwrap (sha256_json (InertFixtureIntentPayload_json p));
  si_signature_base64url := DispatchFacts.repeat_char 86 "A" |}.

Definition first_intent : SignedInertFixtureIntent :=
  Eval vm_compute in sign_intent (sample_intent_payload "intent-1" "c" 1000).
Definition second_intent : SignedInertFixtureIntent :=
  Eval vm_compute in sign_intent (sample_intent_payload "intent-2" "d" 1010).

Definition sample_intent_store : InertFixtureIntentTrustStore := {|
  is_trust_store_id := "store-1";
  is_keys := [{| ik_key_id := "key-1"; ik_public_key_base64url := DispatchFacts.repeat_char 43 "A";
                 ik_valid_from_unix := 0; ik_valid_until_unix := 5000; ik_revoked := false |}] |}.

Definition any_path (path : string) : bool := true.

Abbreviation sample_claim intent label t l :=
  (claim_intent DispatchFacts.always_valid any_path sample_handle intent sample_intent_store sample_expectation
     (DispatchFacts.repeat_char 64 label) (DispatchFacts.repeat_char 64 label) t (t + 1) l).

Lemma claims_in_sequence i1 i2 c1 c2 t1 t2 l :
  match sample_claim i1 c1 t1 l with
  | (l1, Ok r1) => match sample_claim i2 c2 t2 l1 with (_, Ok r2) => true | _ => false end
  | _ => false
  end = true ->
  exists l1 r1 l2 r2, sample_claim i1 c1 t1 l = (l1, Ok r1) /\ sample_claim i2 c2 t2 l1 = (l2, Ok r2).
Proof.
  destruct (sample_claim i1 c1 t1 l) as [l1 [r1|]] eqn:E1; [|done].
  destruct (sample_claim i2 c2 t2 l1) as [l2 [r2|]] eqn:E2; [|done]. intros _. by exists l1, r1, l2, r2.
Qed.

Lemma sample_claims :
  exists l1 r1 l2 r2,
    sample_claim first_intent "1" 1020 (provisioned (handle_owner sample_handle)) = (l1, Ok r1)
    /\ sample_claim second_intent "2" 1030 l1 = (l2, Ok r2).
Proof. apply claims_in_sequence. vm_compute. reflexivity. Qed.

Lemma sample_intent_history :
  exists l1 r1 l2 r2,
    sample_claim first_intent "1" 1020 (provisioned (handle_owner sample_handle)) = (l1, Ok r1)
    /\ sample_claim second_intent "2" 1030 l1 = (l2, Ok r2)
    /\ call DispatchFacts.always_valid any_path l1 (Ok r2) l2
    /\ history DispatchFacts.always_valid any_path (handle_owner sample_handle) [r1; r2] l2.
Proof.
  destruct sample_claims as (l1 & r1 & l2 & r2 & E1 & E2). exists l1, r1, l2, r2.
  assert (C2 : call DispatchFacts.always_valid any_path l1 (Ok r2) l2) by (repeat eexists; exact E2).
  split_and!; [exact E1|exact E2|exact C2|].
  apply (history_claimed _ _ _ [r1] l1); [|exact C2].
  apply (history_claimed _ _ _ [] (provisioned (handle_owner sample_handle))); [constructor|].
  repeat eexists. exact E1.
Qed.

Lemma intents_claimed_once_witness :
  exists r1 r2 l, history DispatchFacts.always_valid any_path (handle_owner sample_handle) [r1; r2] l
    /\ NoDup (ir_intent_id <$> [r1; r2]).
Proof.
  destruct sample_intent_history as (_ & r1 & l & r2 & _ & _ & _ & H). exists r1, r2, l. split; [exact H|].
  exact (proj1 (intents_claimed_once _ _ _ _ _ H)).
Defined.

Lemma consumption_is_terminal_witness :
  exists l1 l2 r1 r2,
    sample_claim first_intent "1" 1020 (provisioned (handle_owner sample_handle)) = (l1, Ok r1)
    /\ sample_claim second_intent "2" 1030 l1 = (l2, Ok r2) /\ ir_intent_id r2 <> "intent-1".
Proof.
  destruct sample_intent_history as (l1 & r1 & l2 & r2 & E1 & E2 & C2 & _). exists l1, l2, r1, r2.
  split; [exact E1|]. split; [exact E2|].
  refine (proj1 (consumption_is_terminal _ _ _ _ _ _ _ _ _ _ _ _ _ _ _ l1 _ _ (history_new _ _ _) E1 _ (rtc_refl _ _) C2)).
  intros Hr. pose proof (proj1 (claim_intent_exact_lemma _ _ _ _ _ _ _ _ _ _ _ _ _) E1) as (v & b & row & _ & _ & Hl).
  rewrite Hl in Hr. discriminate Hr.
Defined.

Lemma fixture_ledger_stays_trusted_witness :
  exists r1 r2 l, history DispatchFacts.always_valid any_path (handle_owner sample_handle) [r1; r2] l
    /\ validate_schema sample_handle l = Ok tt.
Proof.
  destruct sample_intent_history as (_ & r1 & l & r2 & _ & _ & _ & H). exists r1, r2, l. split; [exact H|].
  exact (proj1 (fixture_ledger_stays_trusted _ _ _ _ _ H)).
Defined.

Lemma intent_receipts_verify_exactly_witness :
  exists r1 r2 l d, history DispatchFacts.always_valid any_path (handle_owner sample_handle) [r1; r2] l
    /\ verify_intent_receipt sample_handle r1 l = Ok d.
Proof.
  destruct sample_intent_history as (_ & r1 & l & r2 & _ & _ & _ & H).
  destruct (history_inv _ _ _ _ _ H) as [_ Hrows]. apply Forall2_cons_inv_l in Hrows as (row & _ & Hc & _).
  destruct Hc as (_ & _ & sha & _ & _ & Hs & _). exists r1, r2, l, sha. split; [exact H|].
  apply (intent_receipts_verify_exactly _ _ _ _ _ _ _ H). split; [left|exact Hs].
Defined.

Lemma committed_receipts_recoverable_witness :
  exists l1 r1 l2 r2,
    sample_claim first_intent "1" 1020 (provisioned (handle_owner sample_handle)) = (l1, Ok r1)
    /\ sample_claim second_intent "2" 1030 l1 = (l2, Ok r2)
    /\ recover_intent_receipt DispatchFacts.always_valid any_path (fun _ => Some r1) sample_handle first_intent
          sample_intent_store sample_expectation 9000 l2 = Ok r1.
Proof.
  destruct sample_intent_history as (l1 & r1 & l2 & r2 & E1 & E2 & C2 & H). exists l1, r1, l2, r2.
  split; [exact E1|]. split; [exact E2|].
  destruct (history_inv _ _ _ _ _ H) as [_ Hrows]. apply Forall2_cons_inv_l in Hrows as (row & _ & Hc & _).
  destruct Hc as (_ & _ & sha & raw & _ & _ & Hraw & _).
  refine (committed_receipts_recoverable _ _ (fun _ => Some r1) _ _ _ _ _ _ _ _ _ _ _ _ l2 9000 raw (history_new _ _ _) E1 _ _ Hraw eq_refl).
  - apply rtc_once. exists (Ok r2). exact C2.
  - discriminate.
Defined.

End FixtureFacts.
