(* ===== verification/Launch.v ===== *)
(** * One-shot launch attempts ([src/bpe/inert_launch.py])

    A launch attempt is consumed for a committed claim of a signed intent, in a second
    ledger with the same transaction ([OneShot.consume]).  The claim ledger is an
    argument: the state that the authentication reads.  The parameters are those of
    [Fixture], and the JSON reader of launch receipts ([parse_attempt]). *)
From Stdlib Require Import ZArith String Ascii Lia.
From stdpp Require Import base tactics list strings.
From S2P Require Import Prelude Sha256 Json Models Job Base64 Sql Dispatch OneShot Fixture.
Local Open Scope string_scope.
Local Open Scope Z_scope.

Module Launch.
Import Sha256 Json Models Job OneShot Fixture.

(** ** Exceptions *)
Inductive InertFixtureLaunchError :=
| InertFixtureLaunchAuthorizationError (message : string)
| InertFixtureLaunchExpectationError (message : string)
| InertFixtureLaunchLedgerError (message : string)
| InertFixtureLaunchAttemptAlreadyConsumed (message : string)
| LaunchValueError (message : string).

Definition except_launch {F A} (r : result F A) (e : InertFixtureLaunchError) : result InertFixtureLaunchError A :=
  match r with Ok a => Ok a | Err _ => Err e end.
Definition uncaught_launch {A} (r : result string A) : result InertFixtureLaunchError A :=
  match r with Ok a => Ok a | Err m => Err (LaunchValueError m) end.

(** ** Launch-attempt receipts *)
Record InertFixtureLaunchAttemptReceipt := {
  lr_claim_receipt : InertFixtureIntentClaimReceipt;
  lr_claim_receipt_sha256 : string;
  lr_launch_attempt_id : string;
  lr_launch_attempt_nonce : string;
  lr_launch_attempt_consumed_at_unix : Z;
  lr_worker_instance_id : string;
  lr_claim_ledger_id : string;
  lr_launch_ledger_id : string
}.

#[export] Instance InertFixtureLaunchAttemptReceipt_eq_dec : EqDecision InertFixtureLaunchAttemptReceipt.
Proof. solve_decision. Defined.

Definition InertFixtureLaunchAttemptReceipt_json (r : InertFixtureLaunchAttemptReceipt) : json :=
  JObj [("schema_version", JStr "bpe.inert-fixture-launch-attempt-receipt.v1");
        ("status", JStr "launch_attempt_consumed_not_started");
        ("claim_receipt", InertFixtureIntentClaimReceipt_json (lr_claim_receipt r));
        ("claim_receipt_sha256", JStr (lr_claim_receipt_sha256 r));
        ("launch_attempt_id", JStr (lr_launch_attempt_id r));
        ("launch_attempt_nonce", JStr (lr_launch_attempt_nonce r));
        ("launch_attempt_consumed_at_unix", JInt (lr_launch_attempt_consumed_at_unix r));
        ("worker_instance_id", JStr (lr_worker_instance_id r));
        ("claim_ledger_id", JStr (lr_claim_ledger_id r)); ("launch_ledger_id", JStr (lr_launch_ledger_id r));
        ("original_intent_reauthenticated", JBool true); ("exact_claim_receipt_committed", JBool true);
        ("serialized_worker_clock_verified", JBool true); ("separate_launch_ledger_used", JBool true);
        ("launch_attempt_consumed", JBool true); ("retry_permitted", JBool false);
        ("launch_authorized", JBool false); ("launcher_artifact_accessed", JBool false);
        ("launcher_process_created", JBool false); ("fixture_child_process_created", JBool false);
        ("fixture_child_exec_attempted", JBool false); ("process_created", JBool false);
        ("execution_started", JBool false); ("external_fixture_executable_accessed", JBool false);
        ("candidate_bytes_accessed", JBool false); ("evaluation_job_accessed", JBool false);
        ("authoritative", JBool false)].

(** [InertFixtureLaunchAttemptReceipt.claim_and_attempt_are_exact] *)
Definition claim_and_attempt_are_exact (r : InertFixtureLaunchAttemptReceipt) : result string unit :=
  let claim := lr_claim_receipt r in
  let* claim_sha := sha256_json (InertFixtureIntentClaimReceipt_json claim) in
  raise "launch-attempt claim-receipt digest is inconsistent" when differ (lr_claim_receipt_sha256 r) claim_sha ;;
  raise "launch-attempt identities cannot use all-zero placeholders"
    when is_zero_sha256 (lr_launch_attempt_id r) || is_zero_sha256 (lr_launch_attempt_nonce r) ;;
  raise "launch-attempt evidence differs from the committed claim identity"
    when differ (lr_worker_instance_id r, lr_claim_ledger_id r, lr_launch_ledger_id r)
                (ib_worker_instance_id (ir_binding claim), ib_claim_ledger_id (ir_binding claim),
                 ib_launch_ledger_id (ir_binding claim)) ;;
  raise "claim and launch ledgers must have distinct identities"
    when bool_decide (lr_claim_ledger_id r = lr_launch_ledger_id r) ;;
  raise "launch attempt is outside the authenticated claim interval"
    when negb ((ir_claimed_at_unix claim <=? lr_launch_attempt_consumed_at_unix r)
               && (lr_launch_attempt_consumed_at_unix r <? ir_intent_expires_at_unix claim)) ;;
  Ok tt.

Definition validate_InertFixtureLaunchAttemptReceipt (r : InertFixtureLaunchAttemptReceipt) : result string unit :=
  let* _ := validate_InertFixtureIntentClaimReceipt (lr_claim_receipt r) in
  check_field "claim_receipt_sha256" (is_sha256 (lr_claim_receipt_sha256 r)) ;;
  check_field "launch_attempt_id" (is_sha256 (lr_launch_attempt_id r)) ;;
  check_field "launch_attempt_nonce" (is_sha256 (lr_launch_attempt_nonce r)) ;;
  check_field "launch_attempt_consumed_at_unix" (0 <=? lr_launch_attempt_consumed_at_unix r) ;;
  check_field "worker_instance_id" (is_stable_id (lr_worker_instance_id r)) ;;
  check_field "claim_ledger_id" (is_stable_id (lr_claim_ledger_id r)) ;;
  check_field "launch_ledger_id" (is_stable_id (lr_launch_ledger_id r)) ;;
  claim_and_attempt_are_exact r.

(** ** Expectations *)
#[export] Instance ExecutionResourceProfile_eq_dec : EqDecision Dispatch.ExecutionResourceProfile.
Proof. solve_decision. Defined.
#[export] Instance InertFixturePolicy_eq_dec : EqDecision InertFixturePolicy.
Proof. solve_decision. Defined.
#[export] Instance InertFixtureIntentExpectation_eq_dec : EqDecision InertFixtureIntentExpectation.
Proof. solve_decision. Defined.

Record InertFixtureLaunchExpectation := {
  lx_intent_expectation : InertFixtureIntentExpectation;
  lx_launch_ledger_path : string;
  lx_worker_instance_id : string;
  lx_claim_ledger_id : string;
  lx_launch_ledger_id : string
}.

Record VerifiedInertFixtureLaunchAttempt := {
  vl_intent : SignedInertFixtureIntent;
  vl_claim_receipt : InertFixtureIntentClaimReceipt;
  vl_intent_sha256 : string;
  vl_payload_sha256 : string;
  vl_trust_store_id : string;
  vl_trust_store_sha256 : string;
  vl_claim_receipt_sha256 : string;
  vl_verified_at_unix : Z
}.

(** [_launch_binding_sha256] *)
Definition launch_binding_sha256 (claim : InertFixtureIntentClaimReceipt)
    (claim_receipt_sha256 worker_instance_id claim_ledger_id launch_ledger_id : string) : result string string :=
  sha256_json
    (JObj [("schema_version", JStr "bpe.inert-fixture-launch-binding.v1");
           ("intent_id", JStr (ir_intent_id claim)); ("intent_sha256", JStr (ir_intent_sha256 claim));
           ("intent_nonce", JStr (ir_intent_nonce claim));
           ("claim_receipt_sha256", JStr claim_receipt_sha256); ("claim_id", JStr (ir_claim_id claim));
           ("claim_nonce", JStr (ir_claim_nonce claim));
           ("policy_sha256", JStr (ib_policy_sha256 (ir_binding claim)));
           ("worker_instance_id", JStr worker_instance_id); ("claim_ledger_id", JStr claim_ledger_id);
           ("launch_ledger_id", JStr launch_ledger_id); ("maximum_launch_attempts", JInt 1);
           ("retry_permitted", JBool false)]).

(** ** Tables *)
Record LaunchIdentity := {
  li_claim_receipt_sha256 : string;
  li_intent_id : string;
  li_intent_sha256 : string;
  li_payload_sha256 : string;
  li_intent_nonce : string;
  li_claim_id : string;
  li_claim_nonce : string;
  li_claimed_at_unix : Z;
  li_trust_store_sha256 : string;
  li_worker_instance_id : string;
  li_claim_ledger_id : string;
  li_launch_ledger_id : string;
  li_policy_sha256 : string;
  li_binding_sha256 : string
}.

#[export] Instance LaunchIdentity_eq_dec : EqDecision LaunchIdentity.
Proof. solve_decision. Defined.

(** A row of [inert_fixture_launch_reservations] *)
Record LaunchReservation := {
  lv_identity : LaunchIdentity;
  lv_reserved_at_unix : Z
}.

(** A row of [inert_fixture_launch_attempts] *)
Record LaunchAttemptRow := {
  la_identity : LaunchIdentity;
  la_launch_attempt_id : string;
  la_launch_attempt_nonce : string;
  la_consumed_at_unix : Z;
  la_receipt_sha256 : string;
  la_receipt_json : string
}.

#[export] Instance LaunchAttemptRow_eq_dec : EqDecision LaunchAttemptRow.
Proof. solve_decision. Defined.

Definition launch_identity_columns (i : LaunchIdentity) : list string :=
  [li_claim_receipt_sha256 i; li_intent_id i; li_intent_sha256 i; li_payload_sha256 i; li_intent_nonce i;
   li_claim_id i; li_claim_nonce i; string_of_Z (li_claimed_at_unix i); li_trust_store_sha256 i;
   li_worker_instance_id i; li_claim_ledger_id i; li_launch_ledger_id i; li_policy_sha256 i; li_binding_sha256 i].

Definition launch_identity_check (i : LaunchIdentity) : bool :=
  len64 (li_claim_receipt_sha256 i) && len64 (li_intent_sha256 i) && len64 (li_payload_sha256 i)
  && len64 (li_intent_nonce i) && len64 (li_claim_id i) && len64 (li_claim_nonce i)
  && len64 (li_trust_store_sha256 i) && len64 (li_policy_sha256 i) && len64 (li_binding_sha256 i)
  && (0 <=? li_claimed_at_unix i).

(** [_CREATE_LAUNCH_RESERVATIONS] *)
#[export] Instance launch_reservations : SqlTable LaunchReservation := {
  row_check r := launch_identity_check (lv_identity r)
                 && (li_claimed_at_unix (lv_identity r) <=? lv_reserved_at_unix r);
  row_keys :=
    [(fun r => Some [li_claim_receipt_sha256 (lv_identity r)]);
     (fun r => Some [li_intent_id (lv_identity r)]);
     (fun r => Some [li_intent_sha256 (lv_identity r)]);
     (fun r => Some [li_intent_nonce (lv_identity r)]);
     (fun r => Some [li_claim_id (lv_identity r)]);
     (fun r => Some [li_claim_nonce (lv_identity r)]);
     (fun r => Some (launch_identity_columns (lv_identity r) ++ [string_of_Z (lv_reserved_at_unix r)])%list)]
}.

(** [_CREATE_LAUNCH_ATTEMPTS] *)
#[export] Instance launch_attempts : SqlTable LaunchAttemptRow := {
  row_check a :=
    launch_identity_check (la_identity a) && len64 (la_launch_attempt_id a) && len64 (la_launch_attempt_nonce a)
    && len64 (la_receipt_sha256 a)
    && Dispatch.within 1 MAX_RECEIPT_BYTES (Z.of_nat (String.length (la_receipt_json a)))
    && (li_claimed_at_unix (la_identity a) <=? la_consumed_at_unix a);
  row_keys :=
    [(fun a => Some [li_intent_id (la_identity a)]);
     (fun a => Some [li_intent_sha256 (la_identity a)]);
     (fun a => Some [li_intent_nonce (la_identity a)]);
     (fun a => Some [li_claim_receipt_sha256 (la_identity a)]);
     (fun a => Some [li_claim_id (la_identity a)]);
     (fun a => Some [li_claim_nonce (la_identity a)]);
     (fun a => Some [la_launch_attempt_id a]);
     (fun a => Some [la_launch_attempt_nonce a]);
     (fun a => Some [la_receipt_sha256 a]);
     (fun a => Some [li_intent_id (la_identity a); li_claim_receipt_sha256 (la_identity a)])]
}.

Definition attempt_refers (a : LaunchAttemptRow) (r : LaunchReservation) : bool :=
  bool_decide (la_identity a = lv_identity r) && (la_consumed_at_unix a =? lv_reserved_at_unix r).

#[export] Instance launch_tables : OneShotTables LaunchReservation LaunchAttemptRow.
Proof.
  refine {| reservation_key r := li_claim_receipt_sha256 (lv_identity r);
            claim_key a := li_claim_receipt_sha256 (la_identity a);
            reserved_at := lv_reserved_at_unix; claimed_at := la_consumed_at_unix;
            refers := attempt_refers |}.
  - left.
  - do 3 right. left.
  - intros a r. unfold attempt_refers. rewrite andb_true_iff, bool_decide_eq_true, Z.eqb_eq. by intros [-> ->].
Defined.

Definition LaunchLedger : Type := Ledger LaunchReservation LaunchAttemptRow.

(** The object [InertFixtureLaunchLedger] *)
Record LaunchHandle := {
  hl_path : string;
  hl_ledger_id : string;
  hl_worker_instance_id : string;
  hl_claim_ledger_id : string
}.

Definition launch_owner (h : LaunchHandle) : list string :=
  [hl_worker_instance_id h; hl_claim_ledger_id h; hl_ledger_id h].

(** [_configure_identity] *)
Definition configure_launch_identity (path ledger_id worker_instance_id claim_ledger_id : string) :
    result InertFixtureLaunchError LaunchHandle :=
  raise (InertFixtureLaunchLedgerError "launch-attempt ledger path contains a NUL byte")
    when negb (str_forall (fun c => negb (code c =? 0)) path) ;;
  raise (InertFixtureLaunchLedgerError "launch-attempt ledger identity is invalid")
    when negb (forallb is_stable_id [ledger_id; worker_instance_id; claim_ledger_id]) ;;
  raise (InertFixtureLaunchLedgerError "claim and launch ledgers must have distinct identities")
    when bool_decide (ledger_id = claim_ledger_id) ;;
  Ok {| hl_path := path; hl_ledger_id := ledger_id; hl_worker_instance_id := worker_instance_id;
        hl_claim_ledger_id := claim_ledger_id |}.

(** [InertFixtureLaunchLedger.provision] on a fresh database *)
Definition provision_launch (path ledger_id worker_instance_id claim_ledger_id : string) :
    result InertFixtureLaunchError (LaunchHandle * LaunchLedger) :=
  let* h := configure_launch_identity path ledger_id worker_instance_id claim_ledger_id in
  Ok (h, provisioned (launch_owner h)).

Definition LAUNCH_UNTRUSTED : InertFixtureLaunchError :=
  InertFixtureLaunchLedgerError "launch-attempt ledger schema is not trusted".

Definition validate_launch_schema (h : LaunchHandle) (l : LaunchLedger) : result InertFixtureLaunchError unit :=
  raise LAUNCH_UNTRUSTED when negb (schema_trusted (launch_owner h) l) ;; Ok tt.

(** [attempt_count] *)
Definition attempt_count (h : LaunchHandle) (l : LaunchLedger) : result InertFixtureLaunchError Z :=
  let* _ := validate_launch_schema h l in Ok (Z.of_nat (length (reservations l))).

(** ** The transaction of [consume_launch_attempt] *)
Definition launch_identity (h : LaunchHandle) (v : VerifiedInertFixtureLaunchAttempt) (binding_sha256 : string) :
    LaunchIdentity :=
  let claim := vl_claim_receipt v in
  {| li_claim_receipt_sha256 := vl_claim_receipt_sha256 v; li_intent_id := ir_intent_id claim;
     li_intent_sha256 := vl_intent_sha256 v; li_payload_sha256 := vl_payload_sha256 v;
     li_intent_nonce := ir_intent_nonce claim; li_claim_id := ir_claim_id claim;
     li_claim_nonce := ir_claim_nonce claim; li_claimed_at_unix := ir_claimed_at_unix claim;
     li_trust_store_sha256 := vl_trust_store_sha256 v; li_worker_instance_id := hl_worker_instance_id h;
     li_claim_ledger_id := hl_claim_ledger_id h; li_launch_ledger_id := hl_ledger_id h;
     li_policy_sha256 := ib_policy_sha256 (ir_binding claim); li_binding_sha256 := binding_sha256 |}.

Definition launch_receipt_for (h : LaunchHandle) (v : VerifiedInertFixtureLaunchAttempt)
    (attempt_id attempt_nonce : string) (consumed_at : Z) : InertFixtureLaunchAttemptReceipt :=
  {| lr_claim_receipt := vl_claim_receipt v; lr_claim_receipt_sha256 := vl_claim_receipt_sha256 v;
     lr_launch_attempt_id := attempt_id; lr_launch_attempt_nonce := attempt_nonce;
     lr_launch_attempt_consumed_at_unix := consumed_at; lr_worker_instance_id := hl_worker_instance_id h;
     lr_claim_ledger_id := hl_claim_ledger_id h; lr_launch_ledger_id := hl_ledger_id h |}.

(** The receipt with its row: the identity columns come from the authenticated inputs. *)
Definition build_launch_receipt (h : LaunchHandle) (v : VerifiedInertFixtureLaunchAttempt)
    (binding_sha256 attempt_id attempt_nonce : string) (consumed_at : Z) :
    result string (InertFixtureLaunchAttemptReceipt * LaunchAttemptRow) :=
  let* receipt := construct validate_InertFixtureLaunchAttemptReceipt
                    (launch_receipt_for h v attempt_id attempt_nonce consumed_at) in
  let* receipt_sha256 := sha256_json (InertFixtureLaunchAttemptReceipt_json receipt) in
  let* receipt_json := canonical_json_bytes (InertFixtureLaunchAttemptReceipt_json receipt) in
  raise "receipt exceeds its fixed storage bound"
    when negb (Dispatch.within 1 MAX_RECEIPT_BYTES (Z.of_nat (String.length receipt_json))) ;;
  Ok (receipt, {| la_identity := launch_identity h v binding_sha256;
                  la_launch_attempt_id := attempt_id; la_launch_attempt_nonce := attempt_nonce;
                  la_consumed_at_unix := consumed_at; la_receipt_sha256 := receipt_sha256;
                  la_receipt_json := receipt_json |}).

Definition launch_attempt (h : LaunchHandle) (v : VerifiedInertFixtureLaunchAttempt)
    (binding_sha256 attempt_id attempt_nonce : string) (verification_time : Z) :
    Attempt LaunchReservation LaunchAttemptRow InertFixtureLaunchAttemptReceipt :=
  let claim := vl_claim_receipt v in
  let identity := launch_identity h v binding_sha256 in
  {| at_owner := launch_owner h;
     at_behind consumed_at := (consumed_at <? verification_time) || (consumed_at <? ir_claimed_at_unix claim);
     at_open consumed_at := negb (ir_intent_expires_at_unix claim <=? consumed_at);
     at_key := vl_claim_receipt_sha256 v;
     at_reserve consumed_at := {| lv_identity := identity; lv_reserved_at_unix := consumed_at |};
     at_matches r := bool_decide (lv_identity r = identity)
                     && (ir_claimed_at_unix claim <=? lv_reserved_at_unix r)
                     && (lv_reserved_at_unix r <? ir_intent_expires_at_unix claim);
     at_conflict r := bool_decide (li_intent_id (lv_identity r) = ir_intent_id claim)
                      || bool_decide (li_intent_sha256 (lv_identity r) = vl_intent_sha256 v)
                      || bool_decide (li_intent_nonce (lv_identity r) = ir_intent_nonce claim)
                      || bool_decide (li_claim_id (lv_identity r) = ir_claim_id claim)
                      || bool_decide (li_claim_nonce (lv_identity r) = ir_claim_nonce claim);
     at_caller_ok := is_sha256 attempt_id && negb (is_zero_sha256 attempt_id);
     at_caller_conflict a := bool_decide (la_launch_attempt_id a = attempt_id);
     at_receipt := build_launch_receipt h v binding_sha256 attempt_id attempt_nonce;
     at_receipt_conflict row a := bool_decide (la_launch_attempt_nonce a = la_launch_attempt_nonce row)
                                  || bool_decide (la_receipt_sha256 a = la_receipt_sha256 row) |}.

Definition launch_messages : Messages InertFixtureLaunchError := {|
  untrusted := LAUNCH_UNTRUSTED;
  clock_invalid := InertFixtureLaunchLedgerError "worker clock returned an invalid Unix time";
  clock_behind :=
    InertFixtureLaunchLedgerError "worker clock moved behind the claim or durable launch high-water mark";
  outside :=
    InertFixtureLaunchLedgerError "fixture intent expired before durable launch-attempt consumption";
  differs := InertFixtureLaunchLedgerError "launch reservation differs from authenticated inputs";
  terminal :=
    InertFixtureLaunchAttemptAlreadyConsumed "launch attempt was already consumed by a terminal reservation";
  identity_consumed :=
    InertFixtureLaunchAttemptAlreadyConsumed "launch claim or intent identity was already consumed";
  integrity := InertFixtureLaunchLedgerError "launch-attempt consumption violated ledger integrity";
  caller_invalid :=
    InertFixtureLaunchAttemptAlreadyConsumed
      "launch attempt was already consumed: attempt ID must be a nonzero lowercase SHA-256 value";
  caller_collision :=
    InertFixtureLaunchAttemptAlreadyConsumed "launch attempt was already consumed by an identity collision";
  construction :=
    InertFixtureLaunchAttemptAlreadyConsumed "launch attempt was already consumed before receipt construction";
  receipt_collision :=
    InertFixtureLaunchAttemptAlreadyConsumed "launch attempt was already consumed by a receipt collision";
  durable_collision :=
    InertFixtureLaunchAttemptAlreadyConsumed "launch attempt was already consumed by a durable collision"
|}.

(** The row that [verify_committed_receipt] expects for a receipt. *)
Definition launch_attempt_row (r : InertFixtureLaunchAttemptReceipt)
    (receipt_sha256 receipt_json binding_sha256 : string) : LaunchAttemptRow :=
  let claim := lr_claim_receipt r in
  {| la_identity :=
       {| li_claim_receipt_sha256 := lr_claim_receipt_sha256 r; li_intent_id := ir_intent_id claim;
          li_intent_sha256 := ir_intent_sha256 claim; li_payload_sha256 := ir_intent_payload_sha256 claim;
          li_intent_nonce := ir_intent_nonce claim; li_claim_id := ir_claim_id claim;
          li_claim_nonce := ir_claim_nonce claim; li_claimed_at_unix := ir_claimed_at_unix claim;
          li_trust_store_sha256 := ir_trust_store_sha256 claim; li_worker_instance_id := lr_worker_instance_id r;
          li_claim_ledger_id := lr_claim_ledger_id r; li_launch_ledger_id := lr_launch_ledger_id r;
          li_policy_sha256 := ib_policy_sha256 (ir_binding claim); li_binding_sha256 := binding_sha256 |};
     la_launch_attempt_id := lr_launch_attempt_id r; la_launch_attempt_nonce := lr_launch_attempt_nonce r;
     la_consumed_at_unix := lr_launch_attempt_consumed_at_unix r; la_receipt_sha256 := receipt_sha256;
     la_receipt_json := receipt_json |}.

(** [verify_committed_receipt] *)
Definition verify_launch_receipt (h : LaunchHandle) (receipt : InertFixtureLaunchAttemptReceipt) (l : LaunchLedger) :
    result InertFixtureLaunchError string :=
  let* receipt_sha256 :=
    except_launch (let* r := construct validate_InertFixtureLaunchAttemptReceipt receipt in
                   sha256_json (InertFixtureLaunchAttemptReceipt_json r))
                  (InertFixtureLaunchLedgerError "launch-attempt receipt is invalid") in
  raise (InertFixtureLaunchLedgerError "launch-attempt receipt is bound to another ledger")
    when differ (lr_worker_instance_id receipt) (hl_worker_instance_id h)
         || differ (lr_claim_ledger_id receipt) (hl_claim_ledger_id h)
         || differ (lr_launch_ledger_id receipt) (hl_ledger_id h) ;;
  let* binding_sha256 :=
    uncaught_launch (launch_binding_sha256 (lr_claim_receipt receipt) (lr_claim_receipt_sha256 receipt)
                       (lr_worker_instance_id receipt) (lr_claim_ledger_id receipt) (lr_launch_ledger_id receipt)) in
  let* receipt_json := uncaught_launch (canonical_json_bytes (InertFixtureLaunchAttemptReceipt_json receipt)) in
  let* _ := validate_launch_schema h l in
  raise (InertFixtureLaunchLedgerError "launch-attempt receipt is not committed in this ledger")
    when negb (bool_decide
      (select_by (fun a => li_intent_id (la_identity a)) (claims l) (ir_intent_id (lr_claim_receipt receipt))
       = Some (launch_attempt_row receipt receipt_sha256 receipt_json binding_sha256))) ;;
  Ok receipt_sha256.

(** ** Authentication, consumption and recovery *)
Section Admission.
Context (ed25519_verify : list byte -> list byte -> string -> bool).
Context (canonical_path : string -> bool).
Context (parse_receipt : string -> option InertFixtureIntentClaimReceipt).
Context (parse_attempt : string -> option InertFixtureLaunchAttemptReceipt).

(** [_normalized_intent_expectation] *)
Definition normalized_intent_expectation (x : InertFixtureIntentExpectation) :
    result InertFixtureLaunchError InertFixtureIntentExpectation :=
  let b := ix_binding x in
  let* normalized :=
    except_launch
      (inert_fixture_intent_expectation_for canonical_path (ix_policy x) (ib_policy_sha256 b) (ix_claim_ledger_path x)
         (ib_worker_pool_audience b) (ib_worker_instance_id b) (ib_claim_ledger_id b) (ib_launch_ledger_id b)
         (ib_delegated_root_id b) (ib_launcher_artifact_id b) (ib_launcher_artifact_sha256 b)
         (ib_launcher_seccomp_policy_id b) (ib_launcher_seccomp_policy_sha256 b))
      (InertFixtureLaunchExpectationError "launch-attempt intent expectation is invalid") in
  raise (InertFixtureLaunchExpectationError
           "launch-attempt intent expectation differs from its complete policy")
    when differ normalized x ;;
  Ok normalized.

(** [_validate_launch_ledger_path] *)
Definition validate_launch_ledger_path (path : string) : result InertFixtureLaunchError string :=
  raise (InertFixtureLaunchExpectationError "launch-ledger path must be existing, absolute, and canonical")
    when negb (str_forall (fun c => negb (code c =? 0)) path) || negb (canonical_path path) ;;
  Ok path.

(** [_validate_launch_expectation] *)
Definition validate_launch_expectation (x : InertFixtureLaunchExpectation) :
    result InertFixtureLaunchError InertFixtureLaunchExpectation :=
  let* intent_expectation := normalized_intent_expectation (lx_intent_expectation x) in
  let* launch_path := validate_launch_ledger_path (lx_launch_ledger_path x) in
  raise (InertFixtureLaunchExpectationError "claim and launch ledgers must use distinct canonical paths")
    when bool_decide (launch_path = ix_claim_ledger_path intent_expectation) ;;
  raise (InertFixtureLaunchExpectationError "launch expectation identity is invalid")
    when negb (forallb is_stable_id [lx_worker_instance_id x; lx_claim_ledger_id x; lx_launch_ledger_id x]) ;;
  let b := ix_binding intent_expectation in
  raise (InertFixtureLaunchExpectationError "launch expectation differs from the complete intent expectation")
    when differ (lx_worker_instance_id x, lx_claim_ledger_id x, lx_launch_ledger_id x)
                (ib_worker_instance_id b, ib_claim_ledger_id b, ib_launch_ledger_id b) ;;
  raise (InertFixtureLaunchExpectationError "claim and launch ledgers must have distinct identities")
    when bool_decide (lx_claim_ledger_id x = lx_launch_ledger_id x) ;;
  Ok {| lx_intent_expectation := intent_expectation; lx_launch_ledger_path := launch_path;
        lx_worker_instance_id := lx_worker_instance_id x; lx_claim_ledger_id := lx_claim_ledger_id x;
        lx_launch_ledger_id := lx_launch_ledger_id x |}.

(** [inert_fixture_launch_expectation_for] *)
Definition inert_fixture_launch_expectation_for (x : InertFixtureIntentExpectation)
    (path worker_instance_id claim_ledger_id launch_ledger_id : string) :
    result InertFixtureLaunchError InertFixtureLaunchExpectation :=
  let* normalized := normalized_intent_expectation x in
  validate_launch_expectation
    {| lx_intent_expectation := normalized; lx_launch_ledger_path := path;
       lx_worker_instance_id := worker_instance_id; lx_claim_ledger_id := claim_ledger_id;
       lx_launch_ledger_id := launch_ledger_id |}.

Definition INPUTS_INVALID : InertFixtureLaunchError :=
  InertFixtureLaunchAuthorizationError "launch-attempt authentication inputs are invalid".

(** [except InertFixtureIntentError]: a plain [ValueError] passes through. *)
Definition except_intent_error {A} (r : result InertFixtureIntentError A) : result InertFixtureLaunchError A :=
  match r with
  | Ok a => Ok a
  | Err (FixtureValueError m) => Err (LaunchValueError m)
  | Err _ => Err (InertFixtureLaunchAuthorizationError
                    "launch attempt failed original intent or committed-claim authentication")
  end.

(** [_authenticate_launch_inputs]: the time is read before, [recovery_time] inside the
    recovery of the claim from [claims] through the object [hc]. *)
Definition authenticate_launch_inputs (intent : SignedInertFixtureIntent) (store : InertFixtureIntentTrustStore)
    (x : InertFixtureLaunchExpectation) (claim : InertFixtureIntentClaimReceipt)
    (hc : LedgerHandle) (claims : IntentLedger) (now recovery_time : Z) (enforce_validity : bool) :
    result InertFixtureLaunchError VerifiedInertFixtureLaunchAttempt :=
  raise (InertFixtureLaunchAuthorizationError "launch-attempt verification time must be a nonnegative integer")
    when now <? 0 ;;
  let* x := except_launch (validate_launch_expectation x) INPUTS_INVALID in
  let* _ := except_launch (validate_InertFixtureIntentClaimReceipt claim)
              (InertFixtureLaunchAuthorizationError "launch-attempt claim receipt is invalid") in
  let* _ := except_launch (validate_SignedInertFixtureIntent intent) INPUTS_INVALID in
  let* _ := except_launch (validate_InertFixtureIntentTrustStore store) INPUTS_INVALID in
  let ix := lx_intent_expectation x in
  raise (InertFixtureLaunchAuthorizationError "launch attempt received a different configured claim ledger")
    when differ (lh_path hc) (ix_claim_ledger_path ix) || differ (lh_ledger_id hc) (lx_claim_ledger_id x)
         || differ (lh_worker_instance_id hc) (lx_worker_instance_id x) ;;
  let* verified :=
    if enforce_validity then
      let* v := except_intent_error (verify_inert_fixture_intent ed25519_verify canonical_path intent store ix now) in
      Ok (Some v)
    else Ok None in
  let* recovered :=
    except_intent_error
      (recover_intent_receipt ed25519_verify canonical_path parse_receipt hc intent store ix recovery_time claims) in
  raise (InertFixtureLaunchAuthorizationError
           "launch attempt requires the exact authenticated committed claim receipt")
    when differ recovered claim ;;
  let b := ip_binding (si_payload intent) in
  raise (InertFixtureLaunchAuthorizationError "launch-attempt worker or ledger binding differs")
    when differ (ib_worker_instance_id b, ib_claim_ledger_id b, ib_launch_ledger_id b)
                (lx_worker_instance_id x, lx_claim_ledger_id x, lx_launch_ledger_id x) ;;
  raise (InertFixtureLaunchAuthorizationError "launch-attempt clock is earlier than the committed claim")
    when enforce_validity && (now <? ir_claimed_at_unix claim) ;;
  let* intent_sha256 := uncaught_launch (sha256_json (SignedInertFixtureIntent_json intent)) in
  let* payload_sha256 := uncaught_launch (sha256_json (InertFixtureIntentPayload_json (si_payload intent))) in
  let* trust_store_sha256 := uncaught_launch (sha256_json (InertFixtureIntentTrustStore_json store)) in
  raise (InertFixtureLaunchAuthorizationError "launch-attempt intent verification provenance differs")
    when match verified with
         | Some v => differ (vi_intent_sha256 v) intent_sha256 || differ (vi_payload_sha256 v) payload_sha256
                     || differ (vi_trust_store_sha256 v) trust_store_sha256
         | None => false
         end ;;
  let* claim_receipt_sha256 := uncaught_launch (sha256_json (InertFixtureIntentClaimReceipt_json claim)) in
  Ok {| vl_intent := intent; vl_claim_receipt := claim; vl_intent_sha256 := intent_sha256;
        vl_payload_sha256 := payload_sha256;
        vl_trust_store_id := match verified with Some v => vi_trust_store_id v | None => is_trust_store_id store end;
        vl_trust_store_sha256 := trust_store_sha256; vl_claim_receipt_sha256 := claim_receipt_sha256;
        vl_verified_at_unix := now |}.

(** [verify_inert_fixture_launch_attempt] *)
Definition verify_inert_fixture_launch_attempt (intent : SignedInertFixtureIntent)
    (store : InertFixtureIntentTrustStore) (x : InertFixtureLaunchExpectation)
    (claim : InertFixtureIntentClaimReceipt) (hc : LedgerHandle) (claims : IntentLedger) (now recovery_time : Z) :
    result InertFixtureLaunchError VerifiedInertFixtureLaunchAttempt :=
  authenticate_launch_inputs intent store x claim hc claims now recovery_time true.

(** The launch-ledger object is the one the expectation names. *)
Definition launch_bound_elsewhere (h : LaunchHandle) (x : InertFixtureLaunchExpectation) : bool :=
  differ (hl_path h) (lx_launch_ledger_path x) || differ (hl_ledger_id h) (lx_launch_ledger_id x)
  || differ (hl_worker_instance_id h) (lx_worker_instance_id x)
  || differ (hl_claim_ledger_id h) (lx_claim_ledger_id x).

(** What [consume_launch_attempt] and [recover_committed_receipt] compute before they
    open the database. *)
Definition prepare_launch (h : LaunchHandle) (intent : SignedInertFixtureIntent)
    (store : InertFixtureIntentTrustStore) (x : InertFixtureLaunchExpectation)
    (claim : InertFixtureIntentClaimReceipt) (hc : LedgerHandle) (claims : IntentLedger)
    (verification_time recovery_time : Z) (enforce_validity : bool) :
    result InertFixtureLaunchError (VerifiedInertFixtureLaunchAttempt * string) :=
  let* v := authenticate_launch_inputs intent store x claim hc claims verification_time recovery_time enforce_validity in
  let* x := validate_launch_expectation x in
  raise (InertFixtureLaunchLedgerError "launch attempt is bound to a different configured launch ledger")
    when launch_bound_elsewhere h x ;;
  let* binding_sha256 :=
    uncaught_launch (launch_binding_sha256 (vl_claim_receipt v) (vl_claim_receipt_sha256 v)
                       (hl_worker_instance_id h) (hl_claim_ledger_id h) (hl_ledger_id h)) in
  Ok (v, binding_sha256).

(** [consume_launch_attempt] *)
Definition consume_launch_attempt (h : LaunchHandle) (intent : SignedInertFixtureIntent)
    (store : InertFixtureIntentTrustStore) (x : InertFixtureLaunchExpectation)
    (claim : InertFixtureIntentClaimReceipt) (hc : LedgerHandle) (claims : IntentLedger)
    (attempt_id attempt_nonce : string) (verification_time recovery_time consumed_at : Z) (l : LaunchLedger) :
    LaunchLedger * result InertFixtureLaunchError InertFixtureLaunchAttemptReceipt :=
  match prepare_launch h intent store x claim hc claims verification_time recovery_time true with
  | Err e => (l, Err e)
  | Ok (v, binding_sha256) =>
      consume launch_messages (launch_attempt h v binding_sha256 attempt_id attempt_nonce verification_time)
        consumed_at l
  end.

(** [admit_inert_fixture_launch_attempt]; the first authentication has its own times
    and its own view of the claim ledger. *)
Definition admit_inert_fixture_launch_attempt (h : LaunchHandle) (intent : SignedInertFixtureIntent)
    (store : InertFixtureIntentTrustStore) (x : InertFixtureLaunchExpectation)
    (claim : InertFixtureIntentClaimReceipt) (hc : LedgerHandle) (claims0 claims : IntentLedger)
    (attempt_id attempt_nonce : string) (t0 t0' verification_time recovery_time consumed_at : Z) (l : LaunchLedger) :
    LaunchLedger * result InertFixtureLaunchError InertFixtureLaunchAttemptReceipt :=
  match authenticate_launch_inputs intent store x claim hc claims0 t0 t0' true with
  | Err e => (l, Err e)
  | Ok _ =>
      match validate_launch_expectation x with
      | Err e => (l, Err e)
      | Ok frozen =>
          if launch_bound_elsewhere h frozen
          then (l, Err (InertFixtureLaunchLedgerError
                          "launch admission received a different configured launch ledger"))
          else consume_launch_attempt h intent store frozen claim hc claims attempt_id attempt_nonce
                 verification_time recovery_time consumed_at l
      end
  end.

(** [recover_committed_receipt] *)
Definition recover_launch_receipt (h : LaunchHandle) (intent : SignedInertFixtureIntent)
    (store : InertFixtureIntentTrustStore) (x : InertFixtureLaunchExpectation)
    (claim : InertFixtureIntentClaimReceipt) (hc : LedgerHandle) (claim_ledger : IntentLedger)
    (now recovery_time : Z) (l : LaunchLedger) :
    result InertFixtureLaunchError InertFixtureLaunchAttemptReceipt :=
  let* prepared := prepare_launch h intent store x claim hc claim_ledger now recovery_time false in
  let '(v, binding_sha256) := prepared in
  let claim := vl_claim_receipt v in
  let* _ := validate_launch_schema h l in
  match select_by reservation_key (reservations l) (vl_claim_receipt_sha256 v) with
  | None => Err (InertFixtureLaunchLedgerError "no recoverable launch-attempt receipt is committed")
  | Some r =>
      raise (InertFixtureLaunchLedgerError "launch reservation differs from authenticated inputs")
        when differ (lv_identity r) (launch_identity h v binding_sha256)
             || negb ((ir_claimed_at_unix claim <=? lv_reserved_at_unix r)
                      && (lv_reserved_at_unix r <? ir_intent_expires_at_unix claim)) ;;
      match select_by claim_key (claims l) (reservation_key r) with
      | None =>
          Err (InertFixtureLaunchAttemptAlreadyConsumed
                 "launch attempt was terminally consumed without a recoverable receipt")
      | Some a =>
          let* found :=
            except_launch
              (match parse_attempt (la_receipt_json a) with
               | None => Err "invalid"
               | Some recovered =>
                   let* _ := validate_InertFixtureLaunchAttemptReceipt recovered in
                   let* recovered_json := canonical_json_bytes (InertFixtureLaunchAttemptReceipt_json recovered) in
                   let* recovered_sha256 := sha256_json (InertFixtureLaunchAttemptReceipt_json recovered) in
                   Ok (recovered, recovered_json, recovered_sha256)
               end)
              (InertFixtureLaunchLedgerError "committed launch-attempt receipt bytes are invalid") in
          let '(recovered, recovered_json, recovered_sha256) := found in
          raise (InertFixtureLaunchLedgerError "committed launch-attempt receipt differs from authenticated inputs")
            when differ recovered_json (la_receipt_json a) || differ recovered_sha256 (la_receipt_sha256 a)
                 || differ (lr_claim_receipt recovered) claim
                 || differ (lr_claim_receipt_sha256 recovered) (vl_claim_receipt_sha256 v)
                 || differ (lr_worker_instance_id recovered) (lx_worker_instance_id x)
                 || differ (lr_claim_ledger_id recovered) (lx_claim_ledger_id x)
                 || differ (lr_launch_ledger_id recovered) (lx_launch_ledger_id x) ;;
          let* committed_sha256 := verify_launch_receipt h recovered l in
          raise (InertFixtureLaunchLedgerError
                   "recovered launch-attempt receipt failed exact ledger verification")
            when differ committed_sha256 recovered_sha256 ;;
          Ok recovered
      end
  end.
End Admission.

End Launch.
