(* ===== verification/LaunchFacts.v ===== *)
(** * What the launch ledger guarantees

    Joint histories of the two ledgers: claims and launch attempts interleave in any
    order, and a launch may have read the claim ledger at any earlier point of its
    life.  Every launch attempt belongs to one committed claim of one signed intent,
    and no claim is launched twice. *)
From Stdlib Require Import ZArith String Ascii Lia.
From stdpp Require Import base tactics list strings relations.
From S2P Require Import Prelude Sha256 Json JsonFacts Models ModelFacts Samples Job Base64 Sql Dispatch DispatchFacts JobFacts OneShot Fixture FixtureFacts Launch.
Local Open Scope string_scope.
Local Open Scope Z_scope.

Module LaunchFacts.
Import Sha256 Json JsonFacts Models ModelFacts Job JobFacts OneShot Fixture FixtureFacts Launch.

Lemma except_launch_ok {F A} (r : result F A) e a : except_launch r e = Ok a <-> r = Ok a.
Proof. destruct r; cbn; split; congruence. Qed.
Lemma uncaught_launch_ok {A} (r : result string A) a : uncaught_launch r = Ok a <-> r = Ok a.
Proof. destruct r; cbn; split; congruence. Qed.
Lemma except_intent_error_ok {A} (r : result InertFixtureIntentError A) a : except_intent_error r = Ok a <-> r = Ok a.
Proof. destruct r as [|[]]; cbn; split; congruence. Qed.

Section Ledger.
Context (ed25519_verify : list byte -> list byte -> string -> bool) (canonical_path : string -> bool).
Context (parse_receipt : string -> option InertFixtureIntentClaimReceipt).
Implicit Types (h : LaunchHandle) (v : VerifiedInertFixtureLaunchAttempt) (l : LaunchLedger).

(** ** Authenticated launches *)

(** [v] authenticates [claim] as the committed claim of [intent]. *)
Record authenticated (intent : SignedInertFixtureIntent) (store : InertFixtureIntentTrustStore)
    (claim : InertFixtureIntentClaimReceipt) (hc : LedgerHandle) (c : IntentLedger) v : Prop := {
  al_claim : vl_claim_receipt v = claim;
  al_valid : validate_InertFixtureIntentClaimReceipt claim = Ok tt;
  al_signed : signed_by_trusted_key ed25519_verify intent store;
  al_ledger : schema_trusted (handle_owner hc) c = true;
  al_committed : exists d, verify_intent_receipt hc claim c = Ok d;
  al_mirrors : receipt_mirrors_authenticated_payload claim (si_payload intent) = true;
  al_intent : sha256_json (SignedInertFixtureIntent_json intent) = Ok (ir_intent_sha256 claim)
              /\ vl_intent_sha256 v = ir_intent_sha256 claim;
  al_payload : vl_payload_sha256 v = ir_intent_payload_sha256 claim;
  al_store : vl_trust_store_sha256 v = ir_trust_store_sha256 claim;
  al_digest : sha256_json (InertFixtureIntentClaimReceipt_json claim) = Ok (vl_claim_receipt_sha256 v)
}.

Lemma authenticate_inv intent store x claim hc c now tr enforce v :
  authenticate_launch_inputs ed25519_verify canonical_path parse_receipt intent store x claim hc c now tr enforce = Ok v ->
  authenticated intent store claim hc c v
  /\ (enforce = true -> ip_not_before_unix (si_payload intent) <= now < ip_expires_at_unix (si_payload intent)
                        /\ ir_claimed_at_unix claim <= now).
Proof.
  unfold authenticate_launch_inputs. intros H. destruct (now <? 0); [done|].
  apply bind_ok in H as (x' & _ & H). apply bind_ok in H as ([] & Hval%except_launch_ok & H).
  apply bind_ok in H as (? & _ & H). apply bind_ok in H as (? & _ & H).
  destruct (_ || _); [done|]. apply bind_ok in H as (verified & Hver & H).
  apply bind_ok in H as (rec & Hrec%except_intent_error_ok & H).
  destruct (differ rec claim) eqn:Hd; [done|]. apply differ_false in Hd as ->.
  destruct (differ _ _); [done|]. destruct (enforce && _) eqn:He; [done|].
  apply bind_ok in H as (dis & His%uncaught_launch_ok & H). apply bind_ok in H as (ps & Hps%uncaught_launch_ok & H).
  apply bind_ok in H as (ts & Hts%uncaught_launch_ok & H). destruct (match verified with Some _ => _ | None => _ end); [done|].
  apply bind_ok in H as (cs & Hcs%uncaught_launch_ok & H). apply ok_inj in H as <-.
  apply recover_intent_receipt_inv in Hrec as (Ht & Hk & _ & Hcom & Hm & E1 & E2 & E3).
  split; [split; cbn; try done; try congruence; split; congruence|].
  intros ->. apply bind_ok in Hver as (vi & Hvi%except_intent_error_ok & _).
  apply verify_intent_ok in Hvi as (_ & _ & _ & _ & _ & Hw & _). specialize (Hw eq_refl).
  cbn in He. lia.
Qed.

Lemma launch_attempt_ok h v b aid nonce t : attempt_ok (launch_attempt h v b aid nonce t).
Proof. by split. Qed.

(** A call changes nothing, or it is the transaction of an authenticated launch. *)
Lemma launch_cases h intent store x claim hc c aid nonce t1 tr t2 l l' r :
  consume_launch_attempt ed25519_verify canonical_path parse_receipt h intent store x claim hc c aid nonce t1 tr t2 l
    = (l', r) ->
  (l' = l /\ is_ok r = false)
  \/ exists v b, authenticated intent store claim hc c v
       /\ ip_not_before_unix (si_payload intent) <= t1 < ip_expires_at_unix (si_payload intent)
       /\ launch_binding_sha256 claim (vl_claim_receipt_sha256 v) (hl_worker_instance_id h) (hl_claim_ledger_id h)
            (hl_ledger_id h) = Ok b
       /\ consume launch_messages (launch_attempt h v b aid nonce t1) t2 l = (l', r).
Proof.
  unfold consume_launch_attempt. destruct (prepare_launch _ _ _ _ _ _ _ _ _ _ _ _ _) as [[v b]|] eqn:Hp;
    [|intros [= <- <-]; by left].
  intros Hc. right. exists v, b. unfold prepare_launch in Hp.
  apply bind_ok in Hp as (v' & Hv & Hp). apply bind_ok in Hp as (x' & _ & Hp).
  destruct (launch_bound_elsewhere h x'); [done|].
  apply bind_ok in Hp as (b' & Hb%uncaught_launch_ok & [= <- <-]).
  apply authenticate_inv in Hv as [Ha Hw]. destruct (Hw eq_refl) as [? _]. split_and!; try done; try lia.
  by rewrite <- (al_claim _ _ _ _ _ _ Ha).
Qed.

Lemma build_launch_receipt_ok h v b aid nonce t r row :
  build_launch_receipt h v b aid nonce t = Ok (r, row) ->
  r = launch_receipt_for h v aid nonce t /\ validate_InertFixtureLaunchAttemptReceipt r = Ok tt
  /\ la_identity row = launch_identity h v b /\ la_launch_attempt_id row = aid /\ la_launch_attempt_nonce row = nonce.
Proof.
  unfold build_launch_receipt. intros H. apply bind_ok in H as (r' & [Hv ->]%construct_ok & H).
  apply bind_ok in H as (sha & Hs & H). apply bind_ok in H as (raw & Hr & H).
  destruct (negb _) eqn:Hl; [done|]. apply ok_inj in H. by injection H as <- <-.
Qed.

(** ** Joint histories *)
(** A launch call with the claim ledger as it was read. *)
Definition launch_call (c : IntentLedger) l (r : result InertFixtureLaunchError InertFixtureLaunchAttemptReceipt)
    (l' : LaunchLedger) : Prop :=
  exists h intent store x claim hc aid nonce t1 tr t2,
    consume_launch_attempt ed25519_verify canonical_path parse_receipt h intent store x claim hc c aid nonce t1 tr t2 l
      = (l', r).

(** The two ledgers of one worker, with the receipts each has returned. *)
Inductive joint (claim_owner launch_owner : list string) :
    list InertFixtureIntentClaimReceipt -> list InertFixtureLaunchAttemptReceipt ->
    IntentLedger -> LaunchLedger -> Prop :=
| joint_new : joint claim_owner launch_owner [] [] (provisioned claim_owner) (provisioned launch_owner)
| joint_claim rs ls c l r c' :
    joint claim_owner launch_owner rs ls c l -> call ed25519_verify canonical_path c r c' ->
    joint claim_owner launch_owner (match r with Ok receipt => rs ++ [receipt] | Err _ => rs end)%list ls c' l
| joint_launch rs ls c l c0 r l' :
    joint claim_owner launch_owner rs ls c l -> later ed25519_verify canonical_path c0 c -> launch_call c0 l r l' ->
    joint claim_owner launch_owner rs (match r with Ok receipt => ls ++ [receipt] | Err _ => ls end)%list c l'.

(** [row] is the committed row of a launch receipt. *)
Definition launched (r : InertFixtureLaunchAttemptReceipt) (row : LaunchAttemptRow) : Prop :=
  exists h v b, la_identity row = launch_identity h v b /\ vl_claim_receipt v = lr_claim_receipt r
    /\ vl_intent_sha256 v = ir_intent_sha256 (lr_claim_receipt r)
    /\ la_launch_attempt_id row = lr_launch_attempt_id r /\ la_launch_attempt_nonce row = lr_launch_attempt_nonce r.

(** The identity columns of a reservation are those of a claim receipt. *)
Definition reserved_for (claim : InertFixtureIntentClaimReceipt) (r : LaunchReservation) : Prop :=
  let i := lv_identity r in
  li_intent_id i = ir_intent_id claim /\ li_intent_sha256 i = ir_intent_sha256 claim
  /\ li_intent_nonce i = ir_intent_nonce claim /\ li_claim_id i = ir_claim_id claim
  /\ li_claim_nonce i = ir_claim_nonce claim.

(** [burned] are the claims that the reservations of the launch ledger have spent, with
    or without a launch receipt. *)
Record joint_inv claim_owner launch_owner rs ls (c : IntentLedger) l burned : Prop := {
  ji_claims : history ed25519_verify canonical_path claim_owner rs c;
  ji_trusted : schema_trusted launch_owner l = true;
  ji_rows : Forall2 launched ls (claims l);
  ji_committed : burned ⊆ rs;
  ji_reserved : Forall2 reserved_for burned (reservations l);
  ji_spent : lr_claim_receipt <$> ls ⊆ burned
}.

(** A receipt that verifies against some earlier state of the claim ledger was
    returned by it. *)
Lemma verified_claim_returned identity hc rs (c0 c : IntentLedger) claim d :
  history ed25519_verify canonical_path identity rs c -> later ed25519_verify canonical_path c0 c ->
  schema_trusted (handle_owner hc) c0 = true -> verify_intent_receipt hc claim c0 = Ok d -> claim ∈ rs.
Proof.
  intros Hh Hl Ht0 Hv. apply later_grows in Hl as [Ho _ _ Hcl].
  destruct (history_inv _ _ _ _ _ Hh) as [Ht Hrows].
  assert (Howner : identity = handle_owner hc).
  { apply schema_trusted_iff in Ht0 as (_ & _ & _ & Ho0 & _). apply schema_trusted_iff in Ht as (_ & _ & _ & Ho1 & _).
    congruence. }
  subst identity. unfold verify_intent_receipt in Hv.
  apply bind_ok in Hv as (sha & _ & H). destruct (_ || _); [done|]. apply bind_ok in H as (b & _ & H).
  apply bind_ok in H as (raw & Hraw%uncaught_ok & H). apply bind_ok in H as (u & _ & H).
  destruct (negb _) eqn:Hn; [done|]. apply bool_decide_neg_false, select_by_Some in Hn as [Hin _].
  eapply elem_of_prefix in Hin; [|exact Hcl]. apply list_elem_of_lookup_1 in Hin as [i Hi].
  destruct (Forall2_lookup_r _ _ _ _ _ Hrows Hi) as (r' & Hr' & _ & _ & sha' & raw' & b' & _ & Hraw' & _ & Heq).
  assert (raw' = raw) as -> by by injection Heq. rewrite (receipt_bytes_inj claim r' raw Hraw Hraw').
  by eapply list_elem_of_lookup_2.
Qed.

Lemma joint_invariant claim_owner launch_owner rs ls c l :
  joint claim_owner launch_owner rs ls c l -> exists burned, joint_inv claim_owner launch_owner rs ls c l burned.
Proof.
  induction 1 as [|rs ls c l r c' _ (burned & [Hh Ht Hr Hc Hs Hb]) Hcall
                 |rs ls c l c0 r l' _ (burned & [Hh Ht Hr Hc Hs Hb]) Hl Hcall].
  - exists []. split; [constructor|apply provisioned_trusted|constructor|done|constructor|done].
  - exists burned. split; try done.
    + destruct r; [by eapply history_claimed|by eapply history_failed].
    + destruct r; [|done]. intros y Hy%Hc. apply elem_of_app. by left.
  - destruct Hcall as (h & intent & store & x & claim & hc & aid & nonce & t1 & tr & t2 & Hcall).
    apply launch_cases in Hcall as [[-> Hf]|(v & b & Ha & _ & _ & Hcon)]; [exists burned; by destruct r|].
    assert (Ho : owner l = launch_owner) by (by apply schema_trusted_iff in Ht as (_ & _ & _ & ? & _)).
    assert (Ht' : schema_trusted launch_owner l' = true).
    { pose proof (consume_grows _ _ _ _ _ _ Hcon) as [Ho' _ _ _]. rewrite <- Ho, <- Ho'.
      eapply consume_trusted; [apply launch_attempt_ok|unfold trusted; by rewrite Ho|exact Hcon]. }
    assert (Hin : claim ∈ rs) by (destruct Ha as [_ _ _ Htc (d & Hd) _ _ _ _ _]; by eapply verified_claim_returned).
    assert (Hnew : forall t, reserved_for claim (at_reserve (launch_attempt h v b aid nonce t1) t)).
    { intros t. destruct Ha as [<- _ _ _ _ _ [_ ?] _ _ _]. by split_and!. }
    assert (Hadd : (burned ++ [claim])%list ⊆ rs) by (intros y [Hy%Hc| ->%list_elem_of_singleton]%elem_of_app; done).
    assert (Hadd' : forall t, Forall2 reserved_for (burned ++ [claim])%list
                      (reservations l ++ [at_reserve (launch_attempt h v b aid nonce t1) t])%list)
      by (intros t; apply Forall2_app; [done|]; constructor; [apply Hnew|constructor]).
    pose proof (consume_view launch_messages (launch_attempt h v b aid nonce t1) t2 l) as Hv.
    rewrite Hcon in Hv. cbn [fst snd] in Hv.
    inversion Hv as [e t _ El Er|e _ _ El Er|receipt row _ _ _ _ _ _ _ _ _ _ Hrow _ _ El Er].
    + exists burned. subst. by split.
    + exists (burned ++ [claim])%list. subst. split; try done; [by apply Hadd'|].
      intros y Hy%Hb. apply elem_of_app. by left.
    + destruct (build_launch_receipt_ok _ _ _ _ _ _ _ _ Hrow) as (-> & _ & Hid & Haid & Hno).
      exists (burned ++ [claim])%list. subst. split; try done; [|by apply Hadd'|].
      * apply Forall2_app; [done|]. constructor; [|constructor]. exists h, v, b. cbn.
        destruct Ha as [<- _ _ _ _ _ [_ ?] _ _ _]. by split_and!.
      * rewrite fmap_app. intros y [Hy%Hb|Hy]%elem_of_app; apply elem_of_app; [by left|right].
        cbn in Hy. by rewrite (al_claim _ _ _ _ _ _ Ha) in Hy.
Qed.

Lemma same_columns {A C B} (R : A -> C -> Prop) xs rows (f : A -> B) (g : C -> B) :
  (forall x row, R x row -> g row = f x) -> Forall2 R xs rows -> f <$> xs = g <$> rows.
Proof. intros Hg. induction 1 as [|x row xs rows Hr _ IH]; cbn; [done|]. by rewrite (Hg x row Hr), IH. Qed.

(** What a unique column of a table says of the values its rows were made from. *)
Lemma unique_column {A C} `{SqlTable C} (R : A -> C -> Prop) xs rows (f : A -> string) (g : C -> string) :
  table_ok rows -> Forall2 R xs rows -> (fun row => Some [g row]) ∈ row_keys (row := C) ->
  (forall x row, R x row -> g row = f x) -> NoDup (f <$> xs).
Proof. intros [_ Hk] Hr Hin Hg. rewrite (same_columns R xs rows f g Hg Hr). by apply keys_distinct_NoDup. Qed.

(** No two elements share a signed intent, its envelope, its nonce, the claim or the
    claim's nonce. *)
Definition distinct_claims (cs : list InertFixtureIntentClaimReceipt) : Prop :=
  NoDup cs /\ NoDup (ir_intent_id <$> cs) /\ NoDup (ir_intent_sha256 <$> cs) /\ NoDup (ir_intent_nonce <$> cs)
  /\ NoDup (ir_claim_id <$> cs) /\ NoDup (ir_claim_nonce <$> cs).

Lemma reservations_distinct burned rows : table_ok rows -> Forall2 reserved_for burned rows -> distinct_claims burned.
Proof.
  intros Ht Hr.
  assert (Hid : NoDup (ir_intent_id <$> burned)).
  { apply (unique_column _ _ _ _ (fun r => li_intent_id (lv_identity r)) Ht Hr); [apply list_elem_of_In; cbn; tauto|].
    by intros x row (? & _). }
  split_and!; [by eapply NoDup_fmap_1|done|..].
  - apply (unique_column _ _ _ _ (fun r => li_intent_sha256 (lv_identity r)) Ht Hr); [apply list_elem_of_In; cbn; tauto|].
    by intros x row (_ & ? & _).
  - apply (unique_column _ _ _ _ (fun r => li_intent_nonce (lv_identity r)) Ht Hr); [apply list_elem_of_In; cbn; tauto|].
    by intros x row (_ & _ & ? & _).
  - apply (unique_column _ _ _ _ (fun r => li_claim_id (lv_identity r)) Ht Hr); [apply list_elem_of_In; cbn; tauto|].
    by intros x row (_ & _ & _ & ? & _).
  - apply (unique_column _ _ _ _ (fun r => li_claim_nonce (lv_identity r)) Ht Hr); [apply list_elem_of_In; cbn; tauto|].
    by intros x row (_ & _ & _ & _ & ?).
Qed.

Lemma launches_distinct ls rows : table_ok rows -> Forall2 launched ls rows ->
  distinct_claims (lr_claim_receipt <$> ls) /\ NoDup (lr_launch_attempt_id <$> ls) /\ NoDup (lr_launch_attempt_nonce <$> ls).
Proof.
  intros Ht Hr. unfold distinct_claims. rewrite <-!list_fmap_compose.
  assert (Hid : NoDup ((ir_intent_id ∘ lr_claim_receipt) <$> ls)).
  { apply (unique_column _ _ _ _ (fun a => li_intent_id (la_identity a)) Ht Hr); [apply list_elem_of_In; cbn; tauto|].
    intros r row (h & v & b & -> & Hv & _). cbn. by rewrite Hv. }
  split_and!; [apply (NoDup_fmap_1 ir_intent_id); by rewrite <-list_fmap_compose|done|..].
  - apply (unique_column _ _ _ _ (fun a => li_intent_sha256 (la_identity a)) Ht Hr); [apply list_elem_of_In; cbn; tauto|].
    by intros r row (h & v & b & -> & _ & Hv & _).
  - apply (unique_column _ _ _ _ (fun a => li_intent_nonce (la_identity a)) Ht Hr); [apply list_elem_of_In; cbn; tauto|].
    intros r row (h & v & b & -> & Hv & _). cbn. by rewrite Hv.
  - apply (unique_column _ _ _ _ (fun a => li_claim_id (la_identity a)) Ht Hr); [apply list_elem_of_In; cbn; tauto|].
    intros r row (h & v & b & -> & Hv & _). cbn. by rewrite Hv.
  - apply (unique_column _ _ _ _ (fun a => li_claim_nonce (la_identity a)) Ht Hr); [apply list_elem_of_In; cbn; tauto|].
    intros r row (h & v & b & -> & Hv & _). cbn. by rewrite Hv.
  - apply (unique_column _ _ _ _ la_launch_attempt_id Ht Hr); [apply list_elem_of_In; cbn; tauto|].
    by intros r row (h & v & b & _ & _ & _ & Hv & _).
  - apply (unique_column _ _ _ _ la_launch_attempt_nonce Ht Hr); [apply list_elem_of_In; cbn; tauto|].
    by intros r row (h & v & b & _ & _ & _ & _ & Hv).
Qed.

(** C31. One launch per claim: over any interleaving of claims and launch attempts on
    the two ledgers of a worker, every reservation of the launch ledger - also one that
    was burned without a receipt - spends a claim receipt that the claim ledger returned,
    and no two reservations spend the same claim: they differ in the intent, its signed
    envelope, its nonce, the claim id and the claim nonce.  Every launch receipt was
    returned for one of these spent claims, and no two launch receipts share any of these
    identities, the attempt id or the attempt nonce. *)
Theorem one_launch_per_claim claim_owner launch_owner rs ls c l :
  joint claim_owner launch_owner rs ls c l ->
  exists burned,
    Forall2 reserved_for burned (reservations l) /\ burned ⊆ rs /\ distinct_claims burned
    /\ lr_claim_receipt <$> ls ⊆ burned /\ distinct_claims (lr_claim_receipt <$> ls)
    /\ NoDup (lr_launch_attempt_id <$> ls) /\ NoDup (lr_launch_attempt_nonce <$> ls).
Proof.
  intros (burned & [_ (Hres & Hrows & _)%schema_trusted_iff Hr Hc Hs Hb])%joint_invariant. exists burned.
  destruct (launches_distinct _ _ Hrows Hr) as (D1 & D2 & D3). pose proof (reservations_distinct _ _ Hres Hs).
  by split_and!.
Qed.

(** A launch attempt is consumed only for a live, claimed, signed intent: a
    receipt means that the claim ledger had returned exactly this claim for exactly
    this signed envelope, that a trusted, unrevoked key signed it, that the intent was
    open when it was authenticated and - on a clock that had not moved back behind the
    authentication or the claim - when the attempt was durably consumed, and the
    receipt names the ledger that consumed it. *)
Theorem launch_is_authorized identity rs h intent store x claim hc c aid nonce t1 tr t2 l l' receipt :
  history ed25519_verify canonical_path identity rs c ->
  consume_launch_attempt ed25519_verify canonical_path parse_receipt h intent store x claim hc c aid nonce t1 tr t2 l
    = (l', Ok receipt) ->
  lr_claim_receipt receipt = claim /\ claim ∈ rs
  /\ sha256_json (SignedInertFixtureIntent_json intent) = Ok (ir_intent_sha256 claim)
  /\ ir_intent_id claim = ip_intent_id (si_payload intent) /\ ir_binding claim = ip_binding (si_payload intent)
  /\ signed_by_trusted_key ed25519_verify intent store
  /\ ip_not_before_unix (si_payload intent) <= t1 /\ t1 <= t2 < ip_expires_at_unix (si_payload intent)
  /\ ir_claimed_at_unix claim <= t2
  /\ [lr_worker_instance_id receipt; lr_claim_ledger_id receipt; lr_launch_ledger_id receipt] = launch_owner h.
Proof.
  intros Hh [[_ ?]|(v & b & Ha & Hw & _ & Hc)]%launch_cases; [done|].
  apply consume_ok in Hc as (_ & _ & Hbe & _ & Ho & _ & _ & _ & _ & _ & row & Hb & _).
  apply build_launch_receipt_ok in Hb as (-> & _). cbn in Hbe, Ho.
  destruct Ha as [Hcl _ Hk Ht (d & Hd) Hm [Hi _] _ _ _]. rewrite Hcl in *.
  unfold receipt_mirrors_authenticated_payload in Hm. bool_prop. split_and!; try done; try lia.
  by eapply verified_claim_returned; [exact Hh|apply rtc_refl|exact Ht|exact Hd].
Qed.

Definition launch_later : relation LaunchLedger := rtc (fun l l' => exists c r, launch_call c l r l').

Lemma launch_call_grows c l r l' : launch_call c l r l' -> trusted l -> grows l l' /\ trusted l'.
Proof.
  intros (h & intent & store & x & claim & hc & aid & nonce & t1 & tr & t2 & Hcall) Ht.
  apply launch_cases in Hcall as [[-> _]|(v & b & _ & _ & _ & Hc)]; [by split|].
  split; [by eapply consume_grows|]. eapply consume_trusted; [apply launch_attempt_ok|done|exact Hc].
Qed.

Lemma launch_later_grows l l' : launch_later l l' -> trusted l -> grows l l' /\ trusted l'.
Proof.
  induction 1 as [|l1 l2 l3 (c & r & Hc) _ IH]; intros Ht; [by split|].
  destruct (launch_call_grows _ _ _ _ Hc Ht) as [Hg Ht2]. destruct (IH Ht2) as [Hg' ?]. split; [by etrans|done].
Qed.

(** A launch attempt is spent by the first call that writes it: after a call that
    added a reservation for a claim - whether or not it returned a receipt - no later
    call on the launch ledger returns a receipt for that claim. *)
Theorem launch_consumption_is_terminal co lo rs ls c0 l h intent store x claim hc c aid nonce t1 tr t2 l1 r1 l2 c2 receipt l3 :
  joint co lo rs ls c0 l ->
  consume_launch_attempt ed25519_verify canonical_path parse_receipt h intent store x claim hc c aid nonce t1 tr t2 l
    = (l1, r1) ->
  reservations l1 <> reservations l -> launch_later l1 l2 -> launch_call c2 l2 (Ok receipt) l3 ->
  lr_claim_receipt receipt <> claim.
Proof.
  intros (? & [_ Ht _ _ _ _])%joint_invariant Hc Hne Hl (h' & i' & s' & x' & claim' & hc' & aid' & n' & t1' & tr' & t2' & Hc') Heq.
  assert (Htl : trusted l) by (unfold trusted; by pose proof Ht as (_ & _ & _ & -> & _)%schema_trusted_iff).
  apply launch_cases in Hc as [[-> _]|(v & b & Ha & _ & _ & Hc)]; [done|].
  assert (Ht1 : trusted l1) by (eapply consume_trusted; [apply launch_attempt_ok|exact Htl|exact Hc]).
  destruct (consume_spends _ _ _ _ _ _ (launch_attempt_ok h v b aid nonce t1) Hc) as [Hs|[? _]]; [|done].
  destruct (launch_later_grows _ _ Hl Ht1) as [Hg Ht2]. apply (spent_grows _ _ _ Hg) in Hs.
  apply launch_cases in Hc' as [[_ ?]|(v' & b' & Ha' & _ & _ & Hc')]; [done|].
  pose proof Hc' as (_ & _ & _ & _ & _ & _ & _ & _ & _ & _ & row & Hb & _)%consume_ok.
  apply build_launch_receipt_ok in Hb as (-> & _). cbn in Heq.
  destruct Ha as [_ _ _ _ _ _ _ _ _ D1], Ha' as [Hcl' _ _ _ _ _ _ _ _ D2]. rewrite Hcl' in Heq.
  rewrite Heq, D1 in D2. injection D2 as D2. cbn in Hs. rewrite D2 in Hs.
  by apply (spent_refused launch_messages (launch_attempt h' v' b' aid' n' t1') t2' l2 l3 _ Ht2 Hs) in Hc'.
Qed.

End Ledger.

(** ** A claim and its launch *)
Definition sample_launch_expectation : InertFixtureLaunchExpectation := {|
  lx_intent_expectation := sample_expectation; lx_launch_ledger_path := "/ledger/launches";
  lx_worker_instance_id := "worker-1"; lx_claim_ledger_id := "claims-1"; lx_launch_ledger_id := "launches-1" |}.

Definition sample_launch_handle : LaunchHandle := {|
  hl_path := "/ledger/launches"; hl_ledger_id := "launches-1"; hl_worker_instance_id := "worker-1";
  hl_claim_ledger_id := "claims-1" |}.

(** A reader that knows the one receipt of the sample. *)
Definition reads (r : InertFixtureIntentClaimReceipt) (raw : string) : option InertFixtureIntentClaimReceipt :=
  if bool_decide (canonical_json_bytes (InertFixtureIntentClaimReceipt_json r) = Ok raw) then Some r else None.

Abbreviation sample_launch r intent label t c l :=
  (consume_launch_attempt DispatchFacts.always_valid any_path (reads r) sample_launch_handle intent sample_intent_store
     sample_launch_expectation r sample_handle c (DispatchFacts.repeat_char 64 label)
     (DispatchFacts.repeat_char 64 label) t t (t + 1) l).

Abbreviation new_claims := (provisioned (handle_owner sample_handle)).
Abbreviation new_launches := (provisioned (launch_owner sample_launch_handle)).

Lemma claim_then_launch i label t t' :
  match sample_claim i label t new_claims with
  | (c, Ok r) => match sample_launch r i label t' c new_launches with (_, Ok _) => true | _ => false end
  | _ => false
  end = true ->
  exists c r l s, sample_claim i label t new_claims = (c, Ok r) /\ sample_launch r i label t' c new_launches = (l, Ok s).
Proof.
  destruct (sample_claim i label t new_claims) as [c [r|]] eqn:E1; [|done].
  destruct (sample_launch r i label t' c new_launches) as [l [s|]] eqn:E2; [|done]. intros _. by exists c, r, l, s.
Qed.

Lemma sample_joint :
  exists c r l s,
    sample_claim first_intent "1" 1020 new_claims = (c, Ok r)
    /\ sample_launch r first_intent "1" 1040 c new_launches = (l, Ok s)
    /\ joint DispatchFacts.always_valid any_path (reads r) (handle_owner sample_handle)
         (launch_owner sample_launch_handle) [r] [s] c l.
Proof.
  destruct (claim_then_launch first_intent "1" 1020 1040) as (c & r & l & s & E1 & E2); [vm_compute; reflexivity|].
  exists c, r, l, s. split; [exact E1|]. split; [exact E2|].
  apply (joint_launch _ _ _ _ _ [r] [] c new_launches c (Ok s)); [|apply rtc_refl|repeat eexists; exact E2].
  apply (joint_claim _ _ _ _ _ [] [] new_claims new_launches (Ok r)); [constructor|repeat eexists; exact E1].
Qed.

Lemma one_launch_per_claim_witness :
  exists r s c l,
    joint DispatchFacts.always_valid any_path (reads r) (handle_owner sample_handle)
      (launch_owner sample_launch_handle) [r] [s] c l
    /\ exists burned, Forall2 reserved_for burned (reservations l) /\ lr_claim_receipt s ∈ burned.
Proof.
  destruct sample_joint as (c & r & l & s & _ & _ & H). exists r, s, c, l. split; [exact H|].
  destruct (one_launch_per_claim _ _ _ _ _ _ _ _ _ H) as (burned & Hf & _ & _ & Hs & _). exists burned.
  split; [exact Hf|]. apply Hs. by left.
Defined.

Lemma launch_is_authorized_witness :
  exists c r l s,
    sample_claim first_intent "1" 1020 new_claims = (c, Ok r)
    /\ sample_launch r first_intent "1" 1040 c new_launches = (l, Ok s)
    /\ lr_claim_receipt s = r.
Proof.
  destruct sample_joint as (c & r & l & s & E1 & E2 & H). exists c, r, l, s. split; [exact E1|]. split; [exact E2|].
  refine (proj1 (launch_is_authorized _ _ _ _ [r] _ _ _ _ _ _ _ _ _ _ _ _ _ _ _ _ E2)).
  destruct (joint_invariant _ _ _ _ _ _ _ _ _ H) as (burned & Hj). exact (ji_claims _ _ _ _ _ _ _ _ _ Hj).
Defined.

End LaunchFacts.
