(* ===== verification/Elf.v ===== *)
(** * The launcher image ([src/bpe/inert_artifact.py])

    The two checks that read the bytes of the launcher artifact: the fixed ELF64
    static-PIE shape ([_validate_elf64_static_pie]) and the embedded seccomp identity
    ([_require_embedded_seccomp_identity]), then what an accepted image guarantees.
    [struct.unpack_from] is modelled with its two exceptions: a range outside the
    buffer ([struct.error]) and an offset beyond [Py_ssize_t] ([OverflowError]). *)
From Stdlib Require Import ZArith String Ascii Lia.
From stdpp Require Import base tactics list strings sorting.
From S2P Require Import Prelude Text.
Local Open Scope Z_scope.

Module Elf.

(** ** Failures *)
Inductive ArtifactFailureReason :=
| unsupported_platform | unsupported_architecture | memfd_unavailable | sealing_unavailable
| trusted_procfs_unavailable | invalid_expectation | invalid_source_descriptor | unsafe_source_artifact
| artifact_too_large | source_changed | artifact_digest_mismatch | invalid_elf | seccomp_identity_mismatch
| resource_exhausted | io_failure | sealed_artifact_changed | sealed_artifact_closed.

Inductive ArtifactError :=
| Unavailable (reason : ArtifactFailureReason)
| Rejected (reason : ArtifactFailureReason)
| LifecycleError (reason : ArtifactFailureReason)
| OverflowError.

#[export] Instance ArtifactFailureReason_eq_dec : EqDecision ArtifactFailureReason.
Proof. solve_decision. Defined.
#[export] Instance ArtifactError_eq_dec : EqDecision ArtifactError.
Proof. solve_decision. Defined.

(** ** Constants *)
Definition ELF_HEADER_SIZE : Z := 64.
Definition ELF_PROGRAM_HEADER_SIZE : Z := 56.
Definition ELFCLASS64 : Z := 2.
Definition ELFDATA2LSB : Z := 1.
Definition ELFOSABI_LINUX : Z := 3.
Definition ET_DYN : Z := 3.
Definition EM_X86_64 : Z := 62.
Definition PT_NULL : Z := 0.
Definition PT_LOAD : Z := 1.
Definition PT_DYNAMIC : Z := 2.
Definition PT_INTERP : Z := 3.
Definition PT_GNU_STACK : Z := 0x6474E551.
Definition PT_GNU_RELRO : Z := 0x6474E552.
Definition PF_X : Z := 0x1.
Definition PF_W : Z := 0x2.
Definition PF_R : Z := 0x4.
Definition DT_NULL : Z := 0.
Definition DT_NEEDED : Z := 1.
Definition DT_RPATH : Z := 15.
Definition DT_FLAGS : Z := 30.
Definition DT_RUNPATH : Z := 29.
Definition DT_FLAGS_1 : Z := 0x6FFFFFFB.
Definition DF_BIND_NOW : Z := 0x8.
Definition DF_1_NOW : Z := 0x1.
Definition DF_1_PIE : Z := 0x08000000.
Definition UINT64_MAX : Z := Z.shiftl 1 64 - 1.

(** ** [struct] *)
Definition blen (content : list byte) : Z := Z.of_nat (length content).

(** [int.from_bytes(bs, "little")] *)
Definition le_int (bs : list byte) : Z := foldr (fun b acc => byte_Z b + 256 * acc) 0 bs.

(** A signed 64-bit field. *)
Definition signed64 (z : Z) : Z := if z <? Z.shiftl 1 63 then z else z - Z.shiftl 1 64.

(** Consecutive little-endian fields of the given sizes, in bytes. *)
Fixpoint unpack_fields (sizes : list nat) (bs : list byte) : list Z :=
  match sizes with
  | [] => []
  | n :: sizes => le_int (take n bs) :: unpack_fields sizes (drop n bs)
  end.

Inductive struct_exception := StructError | StructOverflow.

Definition unpack_from (sizes : list nat) (content : list byte) (offset : Z) : result struct_exception (list Z) :=
  raise StructOverflow when Z.shiftl 1 63 <=? offset ;;
  raise StructError when blen content <? offset + Z.of_nat (sum_list sizes) ;;
  Ok (unpack_fields sizes (drop (Z.to_nat offset) content)).

(** [try: ... except struct.error: raise e] *)
Definition except_struct {A} (e : ArtifactError) (r : result struct_exception A) : result ArtifactError A :=
  match r with Ok a => Ok a | Err StructError => Err e | Err StructOverflow => Err OverflowError end.

(** Python's [range(start, stop, step)] for a positive step. *)
Definition range (start stop step : Z) : list Z :=
  map (fun i => start + Z.of_nat i * step) (seq 0 (Z.to_nat ((stop - start + step - 1) / step))).

(** ** Headers and segments *)
Record ElfHeader := {
  eh_type : Z;
  eh_machine : Z;
  eh_version : Z;
  eh_entry : Z;
  eh_program_offset : Z;
  eh_flags : Z;
  eh_header_size : Z;
  eh_program_entry_size : Z;
  eh_program_count : Z
}.

Record ElfSegment := {
  segment_type : Z;
  flags : Z;
  file_offset : Z;
  virtual_address : Z;
  file_size : Z;
  memory_size : Z;
  alignment : Z
}.

Definition file_end (s : ElfSegment) : Z := file_offset s + file_size s.
Definition virtual_end (s : ElfSegment) : Z := virtual_address s + memory_size s.

Definition REJECT : ArtifactError := Rejected invalid_elf.

Definition byte_at (content : list byte) (i : nat) : Z := byte_Z (nth i content Byte.x00).

(** The identification bytes. *)
Definition check_ident (content : list byte) : result ArtifactError unit :=
  raise REJECT when blen content <? ELF_HEADER_SIZE ;;
  raise REJECT when
    negb (bool_decide (take 4 content = [Byte.x7f; Byte.x45; Byte.x4c; Byte.x46]))
    || negb (byte_at content 4 =? ELFCLASS64) || negb (byte_at content 5 =? ELFDATA2LSB)
    || negb (byte_at content 6 =? 1) || negb (byte_at content 7 =? ELFOSABI_LINUX)
    || negb (byte_at content 8 =? 0)
    || existsb (fun b => negb (byte_Z b =? 0)) (take 7 (drop 9 content)) ;;
  Ok tt.

(** The fields ["<HHIQQQIHHHHHH"] at offset 16. *)
Definition read_header (content : list byte) : result struct_exception ElfHeader :=
  let* fields := unpack_from [2; 2; 4; 8; 8; 8; 4; 2; 2; 2; 2; 2; 2]%nat content 16 in
  match fields with
  | [elf_type; machine; version; entry; program_offset; _; eflags; header_size; program_entry_size;
     program_count; _; _; _] =>
      Ok {| eh_type := elf_type; eh_machine := machine; eh_version := version; eh_entry := entry;
            eh_program_offset := program_offset; eh_flags := eflags; eh_header_size := header_size;
            eh_program_entry_size := program_entry_size; eh_program_count := program_count |}
  | _ => Err StructError
  end.

Definition check_header (content : list byte) (h : ElfHeader) : result ArtifactError unit :=
  raise REJECT when
    negb (eh_type h =? ET_DYN) || negb (eh_machine h =? EM_X86_64) || negb (eh_version h =? 1)
    || (eh_entry h =? 0) || negb (eh_flags h =? 0) || negb (eh_header_size h =? ELF_HEADER_SIZE)
    || negb (eh_program_offset h =? ELF_HEADER_SIZE)
    || negb (eh_program_entry_size h =? ELF_PROGRAM_HEADER_SIZE)
    || negb ((1 <=? eh_program_count h) && (eh_program_count h <=? 128))
    || (blen content <? eh_program_offset h + eh_program_count h * eh_program_entry_size h) ;;
  Ok tt.

(** The fields ["<IIQQQQQQ"] of one program header. *)
Definition read_segment (content : list byte) (offset : Z) : result struct_exception ElfSegment :=
  let* fields := unpack_from [4; 4; 8; 8; 8; 8; 8; 8]%nat content offset in
  match fields with
  | [stype; sflags; foffset; vaddress; _; fsize; msize; align] =>
      Ok {| segment_type := stype; flags := sflags; file_offset := foffset; virtual_address := vaddress;
            file_size := fsize; memory_size := msize; alignment := align |}
  | _ => Err StructError
  end.

(** ** The program-header loop *)
Record Segments := {
  load_segments : list ElfSegment;
  dynamic_segment : option ElfSegment;
  stack_segment : option ElfSegment;
  relro_segment : option ElfSegment
}.

Definition no_segments : Segments :=
  {| load_segments := []; dynamic_segment := None; stack_segment := None; relro_segment := None |}.

Definition is_some {A} (o : option A) : bool := match o with Some _ => true | None => false end.

Definition check_segment (content : list byte) (s : ElfSegment) : result ArtifactError unit :=
  raise REJECT when
    negb (segment_type s =? PT_NULL)
    && (negb (Z.land (flags s) (Z.lnot (Z.lor (Z.lor PF_R PF_W) PF_X)) =? 0)
        || (memory_size s <? file_size s)
        || (blen content <? file_offset s)
        || (blen content - file_offset s <? file_size s)
        || (UINT64_MAX - virtual_address s <? memory_size s)
        || (negb (alignment s =? 0) && negb (alignment s =? 1)
            && negb (Z.land (alignment s) (alignment s - 1) =? 0))
        || (negb (alignment s =? 0) && negb (alignment s =? 1)
            && negb (file_offset s mod alignment s =? virtual_address s mod alignment s))) ;;
  raise REJECT when segment_type s =? PT_INTERP ;;
  Ok tt.

Definition record_segment (st : Segments) (s : ElfSegment) : result ArtifactError Segments :=
  if segment_type s =? PT_LOAD then
    raise REJECT when
      (Z.land (flags s) PF_R =? 0)
      || (negb (Z.land (flags s) PF_W =? 0) && negb (Z.land (flags s) PF_X =? 0))
      || (file_size s =? 0) || (memory_size s =? 0) ;;
    raise REJECT when
      match last (load_segments st) with
      | Some previous => (file_offset s <? file_end previous) || (virtual_address s <? virtual_end previous)
      | None => false
      end ;;
    Ok {| load_segments := load_segments st ++ [s]; dynamic_segment := dynamic_segment st;
          stack_segment := stack_segment st; relro_segment := relro_segment st |}
  else if segment_type s =? PT_DYNAMIC then
    raise REJECT when
      is_some (dynamic_segment st) || negb (flags s =? Z.lor PF_R PF_W) || (file_size s =? 0)
      || negb (file_size s =? memory_size s) || negb (file_size s mod 16 =? 0) ;;
    Ok {| load_segments := load_segments st; dynamic_segment := Some s;
          stack_segment := stack_segment st; relro_segment := relro_segment st |}
  else if segment_type s =? PT_GNU_STACK then
    raise REJECT when is_some (stack_segment st) || negb (flags s =? Z.lor PF_R PF_W) ;;
    Ok {| load_segments := load_segments st; dynamic_segment := dynamic_segment st;
          stack_segment := Some s; relro_segment := relro_segment st |}
  else if segment_type s =? PT_GNU_RELRO then
    raise REJECT when
      is_some (relro_segment st) || negb (flags s =? PF_R) || (file_size s =? 0)
      || negb (file_size s =? memory_size s) ;;
    Ok {| load_segments := load_segments st; dynamic_segment := dynamic_segment st;
          stack_segment := stack_segment st; relro_segment := Some s |}
  else Ok st.

Fixpoint scan_segments (content : list byte) (offsets : list Z) (st : Segments) : result ArtifactError Segments :=
  match offsets with
  | [] => Ok st
  | offset :: offsets =>
      let* s := except_struct REJECT (read_segment content offset) in
      let* _ := check_segment content s in
      let* st := record_segment st s in
      scan_segments content offsets st
  end.

(** The offsets of the program headers. *)
Definition program_offsets (h : ElfHeader) : list Z :=
  map (fun index => eh_program_offset h + Z.of_nat index * eh_program_entry_size h)
      (seq 0 (Z.to_nat (eh_program_count h))).

(** [is_exactly_mapped] *)
Definition is_exactly_mapped (loads : list ElfSegment) (s : ElfSegment) : bool :=
  existsb (fun load =>
    (file_offset load <=? file_offset s) && (file_end s <=? file_end load)
    && (virtual_address load <=? virtual_address s) && (virtual_end s <=? virtual_end load)
    && (file_offset s - file_offset load =? virtual_address s - virtual_address load)
    && (Z.land (flags s) (Z.lnot (flags load)) =? 0)) loads.

(** ** The dynamic table *)
Record DynamicScan := { saw_dynamic_null : bool; saw_bind_now : bool; saw_pie_now : bool }.

(** One entry, ["<qQ"]. *)
Definition read_dynamic (content : list byte) (offset : Z) : result struct_exception (Z * Z) :=
  let* fields := unpack_from [8; 8]%nat content offset in
  match fields with
  | [tag; value] => Ok (signed64 tag, value)
  | _ => Err StructError
  end.

Fixpoint scan_dynamic (content : list byte) (offsets : list Z) (st : DynamicScan) :
    result ArtifactError DynamicScan :=
  match offsets with
  | [] => Ok st
  | offset :: offsets =>
      let* entry := except_struct REJECT (read_dynamic content offset) in
      let '(tag, value) := entry in
      raise REJECT when (tag =? DT_NEEDED) || (tag =? DT_RPATH) || (tag =? DT_RUNPATH) ;;
      let* st :=
        if tag =? DT_FLAGS then
          raise REJECT when saw_bind_now st || negb (Z.land value DF_BIND_NOW =? DF_BIND_NOW) ;;
          Ok {| saw_dynamic_null := saw_dynamic_null st; saw_bind_now := true; saw_pie_now := saw_pie_now st |}
        else if tag =? DT_FLAGS_1 then
          let required_flags := Z.lor DF_1_NOW DF_1_PIE in
          raise REJECT when saw_pie_now st || negb (Z.land value required_flags =? required_flags) ;;
          Ok {| saw_dynamic_null := saw_dynamic_null st; saw_bind_now := saw_bind_now st; saw_pie_now := true |}
        else Ok st in
      if tag =? DT_NULL
      then Ok {| saw_dynamic_null := true; saw_bind_now := saw_bind_now st; saw_pie_now := saw_pie_now st |}
      else scan_dynamic content offsets st
  end.

(** [_validate_elf64_static_pie] *)
Definition validate_elf64_static_pie (content : list byte) : result ArtifactError unit :=
  let* _ := check_ident content in
  let* h := except_struct REJECT (read_header content) in
  let* _ := check_header content h in
  let* st := scan_segments content (program_offsets h) no_segments in
  match load_segments st, dynamic_segment st, stack_segment st, relro_segment st with
  | (_ :: _) as loads, Some dynamic, Some _, Some relro =>
      let program_table_end := eh_program_offset h + eh_program_count h * eh_program_entry_size h in
      raise REJECT when
        negb (existsb (fun s => (file_offset s =? 0) && (program_table_end <=? file_end s)) loads) ;;
      raise REJECT when
        negb (existsb (fun s => negb (Z.land (flags s) PF_X =? 0) && (virtual_address s <=? eh_entry h)
                                && (eh_entry h <? virtual_address s + file_size s)) loads) ;;
      raise REJECT when negb (is_exactly_mapped loads dynamic) || negb (is_exactly_mapped loads relro) ;;
      let* d := scan_dynamic content (range (file_offset dynamic) (file_end dynamic) 16)
                  {| saw_dynamic_null := false; saw_bind_now := false; saw_pie_now := false |} in
      raise REJECT when negb (saw_dynamic_null d && saw_bind_now d && saw_pie_now d) ;;
      Ok tt
  | _, _, _, _ => Err REJECT
  end.

(** ** The embedded seccomp identity *)
Definition MISMATCH : ArtifactError := Rejected seccomp_identity_mismatch.

(** [bytes.find(marker, start)]: the first occurrence at or after [start]. *)
Fixpoint find_from (marker content : list byte) (offset : Z) : option Z :=
  if bool_decide (take (length marker) content = marker) then Some offset
  else match content with [] => None | _ :: rest => find_from marker rest (offset + 1) end.

Definition bytes_find (marker content : list byte) (start : Z) : option Z :=
  if blen content <? start then None else find_from marker (drop (Z.to_nat start) content) start.

(** The file ranges of the [PT_LOAD] program headers, read again from the bytes. *)
Fixpoint loaded_ranges (content : list byte) (offsets : list Z) : result struct_exception (list (Z * Z)) :=
  match offsets with
  | [] => Ok []
  | offset :: offsets =>
      let* head := unpack_from [4; 4; 8]%nat content offset in
      let* size := unpack_from [8]%nat content (offset + 32) in
      let* rest := loaded_ranges content offsets in
      match head, size with
      | [stype; _; foffset], [fsize] =>
          Ok (if stype =? PT_LOAD then (foffset, foffset + fsize) :: rest else rest)
      | _, _ => Err StructError
      end
  end.

Definition read_field (size : nat) (content : list byte) (offset : Z) : result struct_exception Z :=
  let* fields := unpack_from [size] content offset in
  match fields with [z] => Ok z | _ => Err StructError end.

Definition image_ranges (content : list byte) : result struct_exception (list (Z * Z)) :=
  let* program_offset := read_field 8 content 32 in
  let* program_entry_size := read_field 2 content 54 in
  let* program_count := read_field 2 content 56 in
  loaded_ranges content
    (map (fun index => program_offset + Z.of_nat index * program_entry_size) (seq 0 (Z.to_nat program_count))).

(** [text.encode("ascii") + b"\x00"] *)
Definition marker_of (text : string) : option (list byte) :=
  if Text.ascii_text text then Some (list_byte_of_string text ++ [Byte.x00]) else None.

(** [_require_embedded_seccomp_identity] *)
Definition require_embedded_seccomp_identity (content : list byte) (policy_id policy_sha256 : string) :
    result ArtifactError unit :=
  match marker_of policy_id, marker_of policy_sha256 with
  | Some id_marker, Some digest_marker =>
      match bytes_find id_marker content 0, bytes_find digest_marker content 0 with
      | Some id_offset, Some digest_offset =>
          raise MISMATCH when
            is_some (bytes_find id_marker content (id_offset + 1))
            || is_some (bytes_find digest_marker content (digest_offset + 1)) ;;
          let* ranges := except_struct MISMATCH (image_ranges content) in
          raise MISMATCH when
            negb (forallb (fun '(offset, size) =>
                    existsb (fun '(start, stop) => (start <=? offset) && (offset + size <=? stop)) ranges)
                  [(id_offset, blen id_marker); (digest_offset, blen digest_marker)]) ;;
          Ok tt
      | _, _ => Err MISMATCH
      end
  | _, _ => Err MISMATCH
  end.

End Elf.
