(* ===== verification/ElfFacts.v ===== *)
(** * Guarantees of the launcher image checks

    [static_pie] states the accepted shape without the code's loops: the program
    headers are read as one list, and every rule is about the segments of one type.
    [elf_accepted_exactly] shows the validator accepts exactly these images;
    [loaded_image_safe] and [seccomp_marker_unique] say what acceptance guarantees. *)
From Stdlib Require Import ZArith String Ascii Lia.
From stdpp Require Import base tactics list strings sorting.
From S2P Require Import Prelude Text Elf.
Local Open Scope Z_scope.

Module ElfFacts.
Import Elf.

(** ** Specification *)
Definition typed (t : Z) (segs : list ElfSegment) : list ElfSegment :=
  filter (fun s => segment_type s = t) segs.

Definition has_flag (bit : Z) (s : ElfSegment) : Prop := Z.testbit (flags s) bit = true.
Abbreviation executable := (has_flag 0).
Abbreviation writable := (has_flag 1).
Abbreviation readable := (has_flag 2).

Definition power_of_two (a : Z) : Prop := exists k, 0 <= k /\ a = 2 ^ k.

(** The shape of every used program header, in a file of [n] bytes. *)
Record segment_wf (n : Z) (s : ElfSegment) : Prop := {
  wf_flags : flags s < 8;
  wf_sizes : file_size s <= memory_size s;
  wf_in_file : file_end s <= n;
  wf_no_wrap : virtual_end s < 2 ^ 64;
  wf_alignment : alignment s = 0 \/
    power_of_two (alignment s) /\ file_offset s mod alignment s = virtual_address s mod alignment s
}.

Definition load_wf (s : ElfSegment) : Prop :=
  readable s /\ ~ (writable s /\ executable s) /\ file_size s <> 0 /\ memory_size s <> 0.

Definition dynamic_wf (s : ElfSegment) : Prop :=
  flags s = 6 /\ file_size s <> 0 /\ file_size s = memory_size s /\ (16 | file_size s).

Definition relro_wf (s : ElfSegment) : Prop :=
  flags s = 4 /\ file_size s <> 0 /\ file_size s = memory_size s.

(** [a] ends before [b] starts, in the file and in memory. *)
Definition before (a b : ElfSegment) : Prop :=
  file_end a <= file_offset b /\ virtual_end a <= virtual_address b.

(** [s] is a part of the loaded segment [load], at the same displacement and with no
    permission that [load] lacks. *)
Record part_of (load s : ElfSegment) : Prop := {
  part_file : file_offset load <= file_offset s /\ file_end s <= file_end load;
  part_memory : virtual_address load <= virtual_address s /\ virtual_end s <= virtual_end load;
  part_shift : file_offset s - file_offset load = virtual_address s - virtual_address load;
  part_flags : forall bit, has_flag bit s -> has_flag bit load
}.

(** A dynamic table: up to its terminator no dependency and no search path, and one
    entry each of the two flag words, with immediate binding and position independence. *)
Definition dynamic_table_wf (entries : list (Z * Z)) : Prop :=
  exists pre v rest bind_flags pie_flags,
    entries = pre ++ (DT_NULL, v) :: rest
    /\ Forall (fun e => e.1 ∉ [DT_NULL; DT_NEEDED; DT_RPATH; DT_RUNPATH]) pre
    /\ filter (fun e => e.1 = DT_FLAGS) pre = [(DT_FLAGS, bind_flags)] /\ Z.testbit bind_flags 3 = true
    /\ filter (fun e => e.1 = DT_FLAGS_1) pre = [(DT_FLAGS_1, pie_flags)]
    /\ Z.testbit pie_flags 0 = true /\ Z.testbit pie_flags 27 = true.

Record static_pie (content : list byte) (h : ElfHeader) (segs : list ElfSegment)
    (dynamic relro : ElfSegment) : Prop := {
  sp_ident : check_ident content = Ok tt;
  sp_header : read_header content = Ok h;
  sp_header_wf : check_header content h = Ok tt;
  sp_program : Forall2 (fun offset s => read_segment content offset = Ok s) (program_offsets h) segs;
  sp_segments : Forall (fun s => segment_type s <> PT_NULL -> segment_wf (blen content) s) segs;
  sp_no_interpreter : typed PT_INTERP segs = [];
  sp_loads : Forall load_wf (typed PT_LOAD segs);
  sp_ordered : StronglySorted before (typed PT_LOAD segs);
  sp_dynamic : typed PT_DYNAMIC segs = [dynamic] /\ dynamic_wf dynamic;
  sp_stack : exists stack, typed PT_GNU_STACK segs = [stack] /\ flags stack = 6;
  sp_relro : typed PT_GNU_RELRO segs = [relro] /\ relro_wf relro;
  sp_headers_loaded : exists load, load ∈ typed PT_LOAD segs /\ file_offset load = 0
    /\ eh_program_offset h + eh_program_count h * eh_program_entry_size h <= file_end load;
  sp_entry : exists load, load ∈ typed PT_LOAD segs /\ executable load
    /\ virtual_address load <= eh_entry h < virtual_address load + file_size load;
  sp_dynamic_loaded : exists load, load ∈ typed PT_LOAD segs /\ part_of load dynamic;
  sp_relro_loaded : exists load, load ∈ typed PT_LOAD segs /\ part_of load relro;
  sp_table : exists entries,
    Forall2 (fun offset e => read_dynamic content offset = Ok e)
      (range (file_offset dynamic) (file_end dynamic) 16) entries
    /\ dynamic_table_wf entries
}.

(** ** Reading *)
Lemma le_int_nonneg bs : 0 <= le_int bs.
Proof.
  induction bs as [|b bs IH]; [done|]. change (0 <= byte_Z b + 256 * le_int bs).
  pose proof (byte_Z_range b). lia.
Qed.

Lemma le_int_range bs : 0 <= le_int bs < 256 ^ Z.of_nat (length bs).
Proof.
  split; [apply le_int_nonneg|]. induction bs as [|b bs IH]; [done|].
  change (byte_Z b + 256 * le_int bs < 256 ^ Z.of_nat (S (length bs))).
  rewrite Nat2Z.inj_succ, Z.pow_succ_r by lia. pose proof (byte_Z_range b). lia.
Qed.

Lemma unpack_from_ok sizes content offset fs :
  unpack_from sizes content offset = Ok fs <->
  offset < 2 ^ 63 /\ offset + Z.of_nat (sum_list sizes) <= blen content
  /\ fs = unpack_fields sizes (drop (Z.to_nat offset) content).
Proof.
  unfold unpack_from. change (Z.shiftl 1 63) with (2 ^ 63).
  destruct (Z.leb_spec (2 ^ 63) offset); [split; [done|lia]|].
  destruct (Z.ltb_spec (blen content) (offset + Z.of_nat (sum_list sizes))); [split; [done|lia]|].
  split; [by intros [= <-]|by intros (_ & _ & ->)].
Qed.

Lemma read_segment_total content offset :
  offset < 2 ^ 63 -> offset + 56 <= blen content -> exists s, read_segment content offset = Ok s.
Proof.
  intros H1 H2. unfold read_segment.
  destruct (unpack_from [4; 4; 8; 8; 8; 8; 8; 8]%nat content offset) as [fs|] eqn:E.
  - apply unpack_from_ok in E as (_ & _ & ->). cbn. eauto.
  - revert E. unfold unpack_from. change (Z.shiftl 1 63) with (2 ^ 63).
    destruct (Z.leb_spec (2 ^ 63) offset); [lia|].
    destruct (Z.ltb_spec (blen content) (offset + Z.of_nat (sum_list [4; 4; 8; 8; 8; 8; 8; 8]%nat))); [cbn in *; lia|].
    done.
Qed.

Definition unsigned_fields (s : ElfSegment) : Prop :=
  0 <= flags s /\ 0 <= file_offset s /\ 0 <= virtual_address s /\ 0 <= file_size s /\ 0 <= memory_size s
  /\ 0 <= alignment s.

Lemma read_segment_unsigned content offset s : read_segment content offset = Ok s -> unsigned_fields s.
Proof.
  unfold read_segment. intros (fs & (_ & _ & ->)%unpack_from_ok & H)%bind_ok. cbn in H. injection H as <-.
  unfold unsigned_fields. cbn. by split_and!; apply le_int_nonneg.
Qed.

Lemma read_dynamic_total content offset :
  offset < 2 ^ 63 -> offset + 16 <= blen content -> exists e, read_dynamic content offset = Ok e.
Proof.
  intros H1 H2. unfold read_dynamic.
  assert (unpack_from [8; 8]%nat content offset = Ok (unpack_fields [8; 8]%nat (drop (Z.to_nat offset) content)))
    as -> by (apply unpack_from_ok; change (Z.of_nat (sum_list [8; 8]%nat)) with 16; split_and!; [lia|lia|done]).
  cbn. eauto.
Qed.

(** ** Bit tests *)
Lemma land_bit z i : 0 <= i -> (Z.land z (2 ^ i) =? 0) = negb (Z.testbit z i).
Proof.
  intros Hi. destruct (Z.eqb_spec (Z.land z (2 ^ i)) 0) as [E|E].
  - assert (Z.testbit (Z.land z (2 ^ i)) i = false) as H by (rewrite E; apply Z.bits_0).
    rewrite Z.land_spec, Z.pow2_bits_true, andb_true_r in H by done. by rewrite H.
  - destruct (Z.testbit z i) eqn:Hz; [done|]. exfalso. apply E. apply Z.bits_inj_iff'. intros j Hj.
    rewrite Z.land_spec, Z.bits_0. destruct (Z.eq_dec i j) as [->|Hne]; [by rewrite Hz|].
    by rewrite Z.pow2_bits_false, andb_false_r.
Qed.

Lemma land_mask z m : (Z.land z m =? m) = true <-> forall i, Z.testbit m i = true -> Z.testbit z i = true.
Proof.
  rewrite Z.eqb_eq. split.
  - intros E i Hi. rewrite <-E, Z.land_spec in Hi. by apply andb_true_iff in Hi as [? _].
  - intros H. apply Z.bits_inj'. intros i _. rewrite Z.land_spec.
    destruct (Z.testbit m i) eqn:Hm; [|by rewrite andb_false_r]. by rewrite (H i Hm).
Qed.

Lemma land_lnot z m : (Z.land z (Z.lnot m) =? 0) = true <-> forall i, Z.testbit z i = true -> Z.testbit m i = true.
Proof.
  rewrite Z.eqb_eq. split.
  - intros E i Hi. destruct (Z.le_gt_cases 0 i); [|by rewrite Z.testbit_neg_r in Hi].
    destruct (Z.testbit m i) eqn:Hm; [done|].
    assert (Z.testbit (Z.land z (Z.lnot m)) i = true) as H'.
    { rewrite Z.land_spec, Z.lnot_spec, Hi, Hm by done. done. }
    rewrite E, Z.bits_0 in H'. done.
  - intros H. apply Z.bits_inj'. intros i Hi. rewrite Z.land_spec, Z.lnot_spec, Z.bits_0 by done.
    destruct (Z.testbit z i) eqn:Hz; [|done]. by rewrite (H i Hz).
Qed.

(** Only the three permission bits may be set. *)
Lemma permission_mask z : 0 <= z -> (Z.land z (Z.lnot (Z.lor (Z.lor PF_R PF_W) PF_X)) =? 0) = (z <? 8).
Proof.
  intros Hz. change (Z.lor (Z.lor PF_R PF_W) PF_X) with (Z.ones 3). rewrite <-Z.ldiff_land, Z.ldiff_ones_r by done.
  rewrite Z.shiftr_div_pow2, Z.shiftl_mul_pow2 by done. change (2 ^ 3) with 8.
  pose proof (Z.div_mod z 8). pose proof (Z.mod_pos_bound z 8).
  destruct (Z.eqb_spec (z / 8 * 8) 0), (Z.ltb_spec z 8); try done; lia.
Qed.

Lemma power_of_two_mask a : 0 < a -> (Z.land a (a - 1) =? 0) = true <-> power_of_two a.
Proof.
  intros Ha. rewrite Z.eqb_eq. split.
  - intros E. exists (Z.log2 a). split; [apply Z.log2_nonneg|].
    destruct (Z.log2_spec a Ha) as [H1 H2]. destruct (Z.eq_dec a (2 ^ Z.log2 a)) as [|Hne]; [done|exfalso].
    assert (Z.testbit (Z.land a (a - 1)) (Z.log2 a) = true) as Hb.
    { rewrite Z.land_spec, Z.bit_log2 by done. cbn [andb].
      assert (Z.log2 (a - 1) = Z.log2 a) as <- by (apply Z.log2_unique; [apply Z.log2_nonneg|lia]).
      apply Z.bit_log2. assert (0 < 2 ^ Z.log2 a) by (apply Z.pow_pos_nonneg; [lia|apply Z.log2_nonneg]). lia. }
    rewrite E, Z.bits_0 in Hb. done.
  - intros (k & Hk & ->). replace (2 ^ k - 1) with (Z.ones k) by (rewrite Z.ones_equiv; lia).
    rewrite Z.land_ones by done. by apply Z_mod_same_full.
Qed.
(** ** One program header *)
Lemma check_segment_iff content s :
  unsigned_fields s ->
  check_segment content s = Ok tt <->
  (segment_type s <> PT_NULL -> segment_wf (blen content) s) /\ segment_type s <> PT_INTERP.
Proof.
  intros (H0 & H1 & H2 & H3 & H4 & H5). unfold check_segment. rewrite permission_mask by done.
  destruct (Z.eqb_spec (segment_type s) PT_NULL) as [E|E]; cbn [negb andb].
  { rewrite E. cbn. split; [|done]. done. }
  destruct (Z.eqb_spec (segment_type s) PT_INTERP) as [I|I].
  { split; [|tauto]. by destruct (_ || _). }
  match goal with |- (if ?c then _ else _) = _ <-> _ => transitivity (c = false) end.
  { by destruct (_ || _ || _ || _ || _ || _ || _). }
  change UINT64_MAX with (2 ^ 64 - 1). split.
  - intros Hc. split; [intros _|done]. bool_prop. constructor; unfold file_end, virtual_end; try lia.
    destruct (Z.eqb_spec (alignment s) 0) as [|A0]; [by left|right].
    destruct (Z.eqb_spec (alignment s) 1) as [A1|A1]; cbn [negb andb] in *.
    { rewrite A1. split; [by exists 0|by rewrite !Z.mod_1_r]. }
    repeat match goal with H : true = false \/ _ |- _ => destruct H as [H|H]; [done|] end. bool_prop.
    split; [apply power_of_two_mask; [lia|by apply Z.eqb_eq]|done].
  - intros [[F S I' W A] _]; [done|]. unfold file_end, virtual_end in *.
    rewrite !orb_false_iff. split_and!; try (apply Z.ltb_ge; lia).
    + apply negb_false_iff, Z.ltb_lt. done.
    + destruct (Z.eqb_spec (alignment s) 0); [done|]. destruct A as [|[A _]]; [done|].
      apply power_of_two_mask in A as ->; [|lia]. by rewrite andb_false_r.
    + destruct A as [->|[_ ->]]; [done|]. by rewrite Z.eqb_refl, andb_false_r.
Qed.

(** ** The program-header loop *)
Fixpoint record_all (segs : list ElfSegment) (st : Segments) : result ArtifactError Segments :=
  match segs with
  | [] => Ok st
  | s :: segs => let* st := record_segment st s in record_all segs st
  end.

Lemma record_all_snoc segs s st :
  record_all (segs ++ [s]) st = bind_result (record_all segs st) (fun st => record_segment st s).
Proof.
  revert st. induction segs as [|x segs IH]; intros st; cbn.
  - by destruct (record_segment st s).
  - destruct (record_segment st x); cbn; [apply IH|done].
Qed.

Lemma except_struct_ok {A} e (r : result struct_exception A) a : except_struct e r = Ok a <-> r = Ok a.
Proof. destruct r as [|[]]; cbn; split; congruence. Qed.

Lemma scan_segments_iff content offsets st st' :
  scan_segments content offsets st = Ok st' <->
  exists segs, Forall2 (fun offset s => read_segment content offset = Ok s) offsets segs
    /\ Forall (fun s => check_segment content s = Ok tt) segs /\ record_all segs st = Ok st'.
Proof.
  revert st. induction offsets as [|o offsets IH]; intros st; cbn.
  - split.
    + intros [= ->]. exists []. by split_and!; constructor.
    + intros (segs & H & _ & Hr). inversion H; subst. done.
  - split.
    + intros (s & Hs%except_struct_ok & ([] & Hc & (st1 & Hr & (segs & H1 & H2 & H3)%IH)%bind_ok)%bind_ok)%bind_ok.
      exists (s :: segs). cbn. rewrite Hr. split_and!; [by constructor..|done].
    + intros (segs & H1 & H2 & H3). inversion H1 as [|? s ? segs' Hs H1']; subst. apply Forall_cons in H2 as [Hc H2].
      cbn in H3. apply bind_ok in H3 as (st1 & Hr & H3). rewrite Hs. cbn. rewrite Hc. cbn. rewrite Hr. cbn.
      apply IH. eauto.
Qed.

Lemma typed_snoc t segs s : typed t (segs ++ [s]) = typed t segs ++ (if decide (segment_type s = t) then [s] else []).
Proof. unfold typed. rewrite filter_app. f_equal. Qed.

(** What the loop has recorded after the headers [segs], and the rules it has checked. *)
Definition summary (segs : list ElfSegment) : Segments :=
  {| load_segments := typed PT_LOAD segs; dynamic_segment := head (typed PT_DYNAMIC segs);
     stack_segment := head (typed PT_GNU_STACK segs); relro_segment := head (typed PT_GNU_RELRO segs) |}.

Definition at_most_one {A} (P : A -> Prop) (l : list A) : Prop := Forall P l /\ (length l <= 1)%nat.

Record shape (segs : list ElfSegment) : Prop := {
  sh_loads : Forall load_wf (typed PT_LOAD segs);
  sh_ordered : StronglySorted before (typed PT_LOAD segs);
  sh_dynamic : at_most_one dynamic_wf (typed PT_DYNAMIC segs);
  sh_stack : at_most_one (fun s => flags s = 6) (typed PT_GNU_STACK segs);
  sh_relro : at_most_one relro_wf (typed PT_GNU_RELRO segs)
}.

Lemma before_trans a b c : unsigned_fields b -> before a b -> before b c -> before a c.
Proof. unfold unsigned_fields, before, file_end, virtual_end. lia. Qed.

(** With ordered segments, following the last one is following all of them. *)
Lemma ordered_snoc loads s :
  Forall unsigned_fields loads ->
  StronglySorted before (loads ++ [s]) <->
  StronglySorted before loads /\ match last loads with Some p => before p s | None => True end.
Proof.
  intros Hu. destruct loads as [|x l _] using rev_ind.
  { cbn. split; [|by repeat constructor]. intros _. split; [constructor|done]. }
  rewrite last_snoc. split.
  - intros (H1 & H2 & H3)%StronglySorted_app. split; [done|]. rewrite Forall_forall in *.
    apply H1; [apply elem_of_app; right|]; by apply list_elem_of_singleton.
  - intros [H1 H2]. apply StronglySorted_app. split_and!; [|done|by repeat constructor].
    intros a b Ha ->%list_elem_of_singleton. apply elem_of_app in Ha as [Ha| ->%list_elem_of_singleton]; [|done].
    apply StronglySorted_app in H1 as (H1 & _). rewrite Forall_app, Forall_singleton in Hu. destruct Hu as [_ Hu].
    apply (before_trans _ x); [done| |done].
    apply H1; [done|by apply list_elem_of_singleton].
Qed.

Lemma at_most_one_snoc {A} (P : A -> Prop) l x :
  at_most_one P l -> at_most_one P (l ++ [x]) <-> is_some (head l) = false /\ P x.
Proof.
  unfold at_most_one. intros [HP Hl]. rewrite Forall_app, Forall_singleton, length_app. cbn [length].
  destruct l as [|y l]; cbn [head is_some length] in *; split; try (intros; split_and!); try done; try tauto; try lia.
Qed.

(** The test of the loop that guards each kind of header. *)
Lemma load_test s :
  unsigned_fields s ->
  (Z.land (flags s) PF_R =? 0) || (negb (Z.land (flags s) PF_W =? 0) && negb (Z.land (flags s) PF_X =? 0))
    || (file_size s =? 0) || (memory_size s =? 0) = false <-> load_wf s.
Proof.
  intros _. unfold load_wf, has_flag. change PF_R with (2 ^ 2). change PF_W with (2 ^ 1). change PF_X with (2 ^ 0).
  rewrite !land_bit, !orb_false_iff, !negb_involutive, negb_false_iff, !Z.eqb_neq, andb_false_iff by done.
  destruct (Z.testbit (flags s) 1), (Z.testbit (flags s) 0); naive_solver.
Qed.

Lemma dynamic_test s :
  negb (flags s =? Z.lor PF_R PF_W) || (file_size s =? 0) || negb (file_size s =? memory_size s)
    || negb (file_size s mod 16 =? 0) = false <-> dynamic_wf s.
Proof.
  unfold dynamic_wf. change (Z.lor PF_R PF_W) with 6.
  rewrite !orb_false_iff, !negb_false_iff, !Z.eqb_eq, Z.eqb_neq, Z.mod_divide by done. tauto.
Qed.

Lemma relro_test s :
  negb (flags s =? PF_R) || (file_size s =? 0) || negb (file_size s =? memory_size s) = false <-> relro_wf s.
Proof.
  unfold relro_wf. change PF_R with 4. rewrite !orb_false_iff, !negb_false_iff, !Z.eqb_eq, Z.eqb_neq. tauto.
Qed.

Lemma guard_ok {E A} (b : bool) (e : E) (a : A) c : (if b then Err e else Ok a) = Ok c <-> b = false /\ c = a.
Proof. destruct b; split; [done|by intros [? _]|by intros [= ->]|by intros [_ ->]]. Qed.

Lemma ordered_test loads s :
  Forall unsigned_fields loads -> StronglySorted before loads ->
  match last loads with
  | Some previous => (file_offset s <? file_end previous) || (virtual_address s <? virtual_end previous)
  | None => false
  end = false <-> StronglySorted before (loads ++ [s]).
Proof.
  intros Hu Hs. rewrite ordered_snoc by done. destruct (last loads) as [p|]; [|tauto].
  rewrite orb_false_iff, !Z.ltb_ge. unfold before. tauto.
Qed.

Lemma typed_hit t segs s : segment_type s = t -> typed t (segs ++ [s]) = typed t segs ++ [s].
Proof. intros E. rewrite typed_snoc. by destruct (decide _). Qed.
Lemma typed_miss t segs s : segment_type s <> t -> typed t (segs ++ [s]) = typed t segs.
Proof. intros E. rewrite typed_snoc. destruct (decide _); [done|]. apply app_nil_r. Qed.

Lemma typed_unsigned t segs : Forall unsigned_fields segs -> Forall unsigned_fields (typed t segs).
Proof. unfold typed. rewrite !Forall_forall. intros H s [_ Hs]%list_elem_of_filter. by apply H. Qed.

Lemma shape_iff segs :
  shape segs <-> Forall load_wf (typed PT_LOAD segs) /\ StronglySorted before (typed PT_LOAD segs)
    /\ at_most_one dynamic_wf (typed PT_DYNAMIC segs) /\ at_most_one (fun s => flags s = 6) (typed PT_GNU_STACK segs)
    /\ at_most_one relro_wf (typed PT_GNU_RELRO segs).
Proof. split; [by intros []|]. by intros (? & ? & ? & ? & ?). Qed.

Lemma head_snoc_none {A} (l : list A) x : is_some (head l) = false -> head (l ++ [x]) = Some x.
Proof. by destruct l. Qed.

(** One iteration extends the summary by the header it reads. *)
Lemma record_segment_iff segs s st' :
  Forall unsigned_fields segs -> unsigned_fields s -> shape segs ->
  record_segment (summary segs) s = Ok st' <-> st' = summary (segs ++ [s]) /\ shape (segs ++ [s]).
Proof.
  intros Hu Hs (L & O & D & S & R)%shape_iff. rewrite shape_iff. unfold record_segment, summary.
  cbn [load_segments dynamic_segment stack_segment relro_segment].
  destruct (Z.eqb_spec (segment_type s) PT_LOAD) as [E|E1].
  { rewrite (typed_hit PT_LOAD), !typed_miss by (rewrite ?E; done).
    rewrite Forall_app, Forall_singleton, <-(load_test s), <-ordered_test by (try done; by apply typed_unsigned).
    destruct (_ || _ || _ || _); [split; [done|]; intros; destruct_and!; done|].
    rewrite guard_ok. tauto. }
  destruct (Z.eqb_spec (segment_type s) PT_DYNAMIC) as [E|E2].
  { rewrite (typed_hit PT_DYNAMIC), !typed_miss by (rewrite ?E; done).
    rewrite (at_most_one_snoc _ _ _ D), <-(dynamic_test s), guard_ok, <-!orb_assoc, orb_false_iff.
    split; [intros [[Hn Ht] ->]|intros (-> & _ & _ & [Hn Ht] & _)]; rewrite (head_snoc_none _ _ Hn); tauto. }
  destruct (Z.eqb_spec (segment_type s) PT_GNU_STACK) as [E|E3].
  { rewrite (typed_hit PT_GNU_STACK), !typed_miss by (rewrite ?E; done).
    rewrite (at_most_one_snoc _ _ _ S), guard_ok, orb_false_iff, negb_false_iff, Z.eqb_eq.
    change (Z.lor PF_R PF_W) with 6.
    split; [intros [[Hn Ht] ->]|intros (-> & _ & _ & _ & [Hn Ht] & _)]; rewrite (head_snoc_none _ _ Hn); tauto. }
  destruct (Z.eqb_spec (segment_type s) PT_GNU_RELRO) as [E|E4].
  { rewrite (typed_hit PT_GNU_RELRO), !typed_miss by (rewrite ?E; done).
    rewrite (at_most_one_snoc _ _ _ R), <-(relro_test s), guard_ok, <-!orb_assoc, orb_false_iff.
    split; [intros [[Hn Ht] ->]|intros (-> & _ & _ & _ & _ & [Hn Ht])]; rewrite (head_snoc_none _ _ Hn); tauto. }
  rewrite !typed_miss by done. split; [intros [= <-]|intros [-> _]]; tauto.
Qed.

Lemma record_all_iff segs st :
  Forall unsigned_fields segs -> record_all segs no_segments = Ok st <-> st = summary segs /\ shape segs.
Proof.
  revert st. induction segs as [|s segs IH] using rev_ind; intros st Hu.
  { cbn. split; [intros [= <-]|by intros [-> _]]. split; [done|]. by apply shape_iff; split_and!; repeat constructor. }
  apply Forall_app in Hu as [Hu Hs]. rewrite Forall_singleton in Hs. rewrite record_all_snoc, bind_ok. split.
  - intros (st1 & [-> Hsh]%IH & H); [|done]. by apply record_segment_iff in H.
  - intros [-> Hsh]. exists (summary segs).
    assert (shape segs) as Hsh0; [|split; [by apply IH|by apply record_segment_iff]].
    revert Hsh. rewrite !shape_iff. unfold typed. rewrite !filter_app. unfold at_most_one.
    rewrite !Forall_app, !length_app. intros (? & (_ & ? & _)%StronglySorted_app & ? & ? & ?). split_and!; try tauto; lia.
Qed.
(** ** The dynamic table *)
Fixpoint scan_entries (entries : list (Z * Z)) (bind pie : bool) : bool :=
  match entries with
  | [] => false
  | (tag, value) :: entries =>
      if tag =? DT_NULL then bind && pie
      else if bool_decide (tag ∈ [DT_NEEDED; DT_RPATH; DT_RUNPATH]) then false
      else if tag =? DT_FLAGS then negb bind && Z.testbit value 3 && scan_entries entries true pie
      else if tag =? DT_FLAGS_1 then
        negb pie && Z.testbit value 0 && Z.testbit value 27 && scan_entries entries bind true
      else scan_entries entries bind pie
  end.

Lemma bind_mask v : (Z.land v DF_BIND_NOW =? DF_BIND_NOW) = Z.testbit v 3.
Proof.
  apply eq_true_iff_eq. rewrite land_mask. change DF_BIND_NOW with (2 ^ 3). split.
  - intros H. by apply H.
  - intros H i. destruct (Z.eq_dec 3 i) as [<-|Hne]; [done|]. by rewrite Z.pow2_bits_false.
Qed.

Lemma pie_mask v :
  (Z.land v (Z.lor DF_1_NOW DF_1_PIE) =? Z.lor DF_1_NOW DF_1_PIE) = Z.testbit v 0 && Z.testbit v 27.
Proof.
  apply eq_true_iff_eq. rewrite land_mask, andb_true_iff.
  assert (forall i, Z.testbit (Z.lor DF_1_NOW DF_1_PIE) i = Z.testbit (2 ^ 0) i || Z.testbit (2 ^ 27) i) as Hm
    by (intros i; by rewrite Z.lor_spec). split.
  - intros H. split; by apply H.
  - intros [H0 H27] i. rewrite Hm. destruct (Z.eq_dec 0 i) as [<-|H1]; [done|].
    destruct (Z.eq_dec 27 i) as [<-|H2]; [done|]. by rewrite !Z.pow2_bits_false.
Qed.

Definition accepted_scan (r : result ArtifactError DynamicScan) : bool :=
  match r with Ok d => saw_dynamic_null d && saw_bind_now d && saw_pie_now d | Err _ => false end.

Lemma scan_dynamic_entries content offsets entries bind pie :
  Forall2 (fun offset e => read_dynamic content offset = Ok e) offsets entries ->
  accepted_scan (scan_dynamic content offsets
    {| saw_dynamic_null := false; saw_bind_now := bind; saw_pie_now := pie |}) = scan_entries entries bind pie.
Proof.
  intros H. revert bind pie. induction H as [|o [tag v] offsets entries Hr _ IH]; intros bind pie; [done|].
  cbn [scan_dynamic scan_entries]. rewrite Hr. cbn [except_struct bind_result].
  destruct (Z.eqb_spec tag DT_NULL) as [->|H0]; [done|].
  destruct (Z.eqb_spec tag DT_NEEDED) as [->|H1]; [done|].
  destruct (Z.eqb_spec tag DT_RPATH) as [->|H2]; [done|].
  destruct (Z.eqb_spec tag DT_RUNPATH) as [->|H3]; [done|].
  rewrite bool_decide_eq_false_2 by (rewrite !not_elem_of_cons; split_and!; try done; apply not_elem_of_nil).
  cbn [orb saw_bind_now saw_pie_now saw_dynamic_null]. rewrite bind_mask, pie_mask.
  destruct (Z.eqb_spec tag DT_FLAGS) as [->|H4].
  { destruct bind; [done|]. destruct (Z.testbit v 3); [|done]. apply IH. }
  destruct (Z.eqb_spec tag DT_FLAGS_1) as [->|H5]; [|apply IH].
  destruct pie; [done|]. destruct (Z.testbit v 0), (Z.testbit v 27); try done. apply IH.
Qed.

(** The flag word that is still to come, or none once it was seen. *)
Definition pending (seen : bool) (tag : Z) (P : Z -> Prop) (pre : list (Z * Z)) : Prop :=
  if seen then filter (fun e => e.1 = tag) pre = []
  else exists v, filter (fun e => e.1 = tag) pre = [(tag, v)] /\ P v.

Lemma pending_skip seen tag P t v pre : t <> tag -> pending seen tag P ((t, v) :: pre) <-> pending seen tag P pre.
Proof. intros H. unfold pending. by rewrite !filter_cons_False. Qed.

Lemma pending_take seen tag P v pre :
  pending seen tag P ((tag, v) :: pre) <-> seen = false /\ P v /\ pending true tag P pre.
Proof.
  unfold pending. rewrite !filter_cons_True by done. destruct seen; [split; [done|by intros [? _]]|]. split.
  - by intros (w & [= -> ->] & ?).
  - intros (_ & ? & ->). eauto.
Qed.

Definition binds_now (v : Z) : Prop := Z.testbit v 3 = true.
Definition pie_now (v : Z) : Prop := Z.testbit v 0 = true /\ Z.testbit v 27 = true.

(** [pre] is a table prefix that supplies the flag words still pending. *)
Definition prefix_wf (bind pie : bool) (pre : list (Z * Z)) : Prop :=
  Forall (fun e => e.1 ∉ [DT_NULL; DT_NEEDED; DT_RPATH; DT_RUNPATH]) pre
  /\ pending bind DT_FLAGS binds_now pre /\ pending pie DT_FLAGS_1 pie_now pre.

Lemma prefix_cons bind pie tag v pre :
  tag <> DT_NULL ->
  prefix_wf bind pie ((tag, v) :: pre) <->
  (if bool_decide (tag ∈ [DT_NEEDED; DT_RPATH; DT_RUNPATH]) then False
   else if tag =? DT_FLAGS then bind = false /\ binds_now v /\ prefix_wf true pie pre
   else if tag =? DT_FLAGS_1 then pie = false /\ pie_now v /\ prefix_wf bind true pre
   else prefix_wf bind pie pre).
Proof.
  intros H0. unfold prefix_wf. rewrite Forall_cons. cbn [fst]. rewrite (not_elem_of_cons _ _ DT_NULL).
  case_bool_decide as H; [tauto|].
  destruct (Z.eqb_spec tag DT_FLAGS) as [->|H4].
  { rewrite pending_take, (pending_skip _ DT_FLAGS_1) by done. tauto. }
  rewrite (pending_skip _ DT_FLAGS) by done.
  destruct (Z.eqb_spec tag DT_FLAGS_1) as [->|H5]; [rewrite pending_take|rewrite pending_skip by done]; tauto.
Qed.

Lemma scan_entries_iff entries bind pie :
  scan_entries entries bind pie = true <->
  exists pre v rest, entries = pre ++ (DT_NULL, v) :: rest /\ prefix_wf bind pie pre.
Proof.
  revert bind pie. induction entries as [|[tag v] entries IH]; intros bind pie.
  { split; [done|]. by intros ([|] & ? & ? & ? & _). }
  cbn [scan_entries]. destruct (Z.eqb_spec tag DT_NULL) as [->|H0].
  { rewrite andb_true_iff. split.
    - intros [-> ->]. by exists [], v, entries.
    - intros ([|e pre] & w & rest & Heq & Hf & Hb & Hp); [destruct bind, pie; naive_solver|].
      injection Heq as <- _. apply Forall_cons in Hf as [Hf _]. destruct Hf. constructor. }
  assert ((exists pre w rest, (tag, v) :: entries = pre ++ (DT_NULL, w) :: rest /\ prefix_wf bind pie pre) <->
          exists pre w rest, entries = pre ++ (DT_NULL, w) :: rest /\ prefix_wf bind pie ((tag, v) :: pre)) as ->.
  { split.
    - intros ([|e pre] & w & rest & Heq & H); [by injection Heq|]. injection Heq as <- ->. eauto.
    - intros (pre & w & rest & -> & H). by exists ((tag, v) :: pre), w, rest. }
  setoid_rewrite (fun pre => prefix_cons bind pie tag v pre H0).
  case_bool_decide; [split; [done|naive_solver]|].
  destruct (tag =? DT_FLAGS); [|destruct (tag =? DT_FLAGS_1); [|apply IH]];
    rewrite !andb_true_iff, IH, negb_true_iff; unfold binds_now, pie_now; naive_solver.
Qed.

Lemma dynamic_table_iff entries : scan_entries entries false false = true <-> dynamic_table_wf entries.
Proof.
  rewrite scan_entries_iff. unfold prefix_wf, pending, dynamic_table_wf, binds_now, pie_now. naive_solver.
Qed.
(** ** The validator *)
Lemma existsb_elem {A} (p : A -> bool) l : existsb p l = true <-> exists x, x ∈ l /\ p x = true.
Proof. rewrite existsb_exists. by setoid_rewrite list_elem_of_In. Qed.

Lemma exactly_mapped_iff loads s :
  is_exactly_mapped loads s = true <-> exists load, load ∈ loads /\ part_of load s.
Proof.
  unfold is_exactly_mapped. rewrite existsb_elem. split; intros (load & Hl & H); exists load; split; try done.
  - rewrite !andb_true_iff, land_lnot, !Z.leb_le, Z.eqb_eq in H. destruct H as [[[[[? ?] ?] ?] ?] ?].
    by constructor.
  - destruct H as [[? ?] [? ?] ? ?]. rewrite !andb_true_iff, land_lnot, !Z.leb_le, Z.eqb_eq. by split_and!.
Qed.

Lemma entry_iff loads entry :
  existsb (fun s => negb (Z.land (flags s) PF_X =? 0) && (virtual_address s <=? entry)
                    && (entry <? virtual_address s + file_size s)) loads = true <->
  exists load, load ∈ loads /\ executable load
    /\ virtual_address load <= entry < virtual_address load + file_size load.
Proof.
  rewrite existsb_elem. change PF_X with (2 ^ 0). unfold has_flag.
  split; intros (load & Hl & H); exists load; split; try done.
  - rewrite land_bit, negb_involutive, !andb_true_iff, Z.leb_le, Z.ltb_lt in H by done. tauto.
  - rewrite land_bit, negb_involutive, !andb_true_iff, Z.leb_le, Z.ltb_lt by done. tauto.
Qed.

Lemma headers_iff loads table_end :
  existsb (fun s => (file_offset s =? 0) && (table_end <=? file_end s)) loads = true <->
  exists load, load ∈ loads /\ file_offset load = 0 /\ table_end <= file_end load.
Proof.
  rewrite existsb_elem. by setoid_rewrite andb_true_iff; setoid_rewrite Z.eqb_eq; setoid_rewrite Z.leb_le.
Qed.

(** The entries of a dynamic segment inside the file are all readable. *)
Lemma range_16 start size o :
  (16 | size) -> o ∈ range start (start + size) 16 -> start <= o /\ o + 16 <= start + size.
Proof.
  intros [k ->]. unfold range. intros (i & -> & Hi)%list_elem_of_fmap.
  apply elem_of_seq in Hi. replace (start + k * 16 - start + 16 - 1) with (15 + k * 16) in Hi by lia.
  rewrite Z.div_add in Hi by done. change (15 / 16) with 0 in Hi. lia.
Qed.

Lemma dynamic_entries content dynamic :
  blen content < 2 ^ 63 -> unsigned_fields dynamic -> file_end dynamic <= blen content -> dynamic_wf dynamic ->
  exists entries, Forall2 (fun offset e => read_dynamic content offset = Ok e)
    (range (file_offset dynamic) (file_end dynamic) 16) entries.
Proof.
  intros Hn Hu He (_ & _ & _ & Hd).
  assert (exists es, map_result (read_dynamic content) (range (file_offset dynamic) (file_end dynamic) 16) = Ok es
    /\ Forall2 (fun _ _ => True) (range (file_offset dynamic) (file_end dynamic) 16) es) as (es & H & _).
  { apply map_result_total. intros o Ho. apply range_16 in Ho; [|done]. unfold unsigned_fields, file_end in *.
    destruct (read_dynamic_total content o) as [e Hr]; [lia|lia|]. eauto. }
  exists es. by apply map_result_ok.
Qed.

Lemma Forall2_read_unsigned content offsets segs :
  Forall2 (fun offset s => read_segment content offset = Ok s) offsets segs -> Forall unsigned_fields segs.
Proof. induction 1; constructor; [by eapply read_segment_unsigned|done]. Qed.

Lemma checked_iff content segs :
  Forall unsigned_fields segs ->
  Forall (fun s => check_segment content s = Ok tt) segs <->
  Forall (fun s => segment_type s <> PT_NULL -> segment_wf (blen content) s) segs /\ typed PT_INTERP segs = [].
Proof.
  induction 1 as [|s segs Hs _ IH]; [by split; [split|]|]. unfold typed in *.
  rewrite !Forall_cons, IH, check_segment_iff by done. destruct (decide (segment_type s = PT_INTERP)) as [E|E].
  - rewrite filter_cons_True by done. split; [tauto|by intros [_ ?]].
  - rewrite filter_cons_False by done. tauto.
Qed.

(** The program headers as the loop leaves them. *)
Lemma scan_iff content offsets st :
  scan_segments content offsets no_segments = Ok st <->
  exists segs, Forall2 (fun offset s => read_segment content offset = Ok s) offsets segs
    /\ Forall (fun s => segment_type s <> PT_NULL -> segment_wf (blen content) s) segs
    /\ typed PT_INTERP segs = [] /\ st = summary segs /\ shape segs.
Proof.
  rewrite scan_segments_iff. split; intros (segs & Hr & H); exists segs;
    pose proof (Forall2_read_unsigned _ _ _ Hr) as Hu.
  - destruct H as [H1 H2]. apply checked_iff in H1; [|done]. apply record_all_iff in H2; [|done]. tauto.
  - rewrite checked_iff, record_all_iff by done. tauto.
Qed.

Lemma head_at_most_one {A} (P : A -> Prop) l x : at_most_one P l -> head l = Some x -> l = [x] /\ P x.
Proof.
  intros [HP Hl] Hh. destruct l as [|y [|z l]]; cbn in *; try done; [|lia]. injection Hh as ->.
  by rewrite Forall_singleton in HP.
Qed.

Lemma in_file content segs t s :
  Forall (fun s => segment_type s <> PT_NULL -> segment_wf (blen content) s) segs ->
  t <> PT_NULL -> s ∈ typed t segs -> segment_wf (blen content) s.
Proof.
  intros H Ht [E Hs]%list_elem_of_filter. rewrite Forall_forall in H. apply H; [done|]. by rewrite E.
Qed.

(** The part of the validator after the program headers. *)
Lemma validate_iff content :
  validate_elf64_static_pie content = Ok tt <->
  check_ident content = Ok tt /\ exists h, read_header content = Ok h /\ check_header content h = Ok tt /\
  exists st, scan_segments content (program_offsets h) no_segments = Ok st /\
  exists dynamic stack relro, dynamic_segment st = Some dynamic /\ stack_segment st = Some stack
    /\ relro_segment st = Some relro
    /\ (exists load, load ∈ load_segments st /\ file_offset load = 0
          /\ eh_program_offset h + eh_program_count h * eh_program_entry_size h <= file_end load)
    /\ (exists load, load ∈ load_segments st /\ executable load
          /\ virtual_address load <= eh_entry h < virtual_address load + file_size load)
    /\ (exists load, load ∈ load_segments st /\ part_of load dynamic)
    /\ (exists load, load ∈ load_segments st /\ part_of load relro)
    /\ accepted_scan (scan_dynamic content (range (file_offset dynamic) (file_end dynamic) 16)
         {| saw_dynamic_null := false; saw_bind_now := false; saw_pie_now := false |}) = true.
Proof.
  unfold validate_elf64_static_pie. rewrite bind_ok. split.
  - intros ([] & Hi & (h & Hh%except_struct_ok & ([] & Hc & (st & Hs & H)%bind_ok)%bind_ok)%bind_ok).
    split; [done|]. exists h. do 2 (split; [done|]). exists st. split; [done|].
    destruct (load_segments st) as [|l loads] eqn:Hl; [done|].
    destruct (dynamic_segment st) as [d|]; [|done]. destruct (stack_segment st) as [k|]; [|done].
    destruct (relro_segment st) as [r|]; [|done]. exists d, k, r. do 3 (split; [done|]).
    apply raise_ok in H as [H1%negb_false_iff%headers_iff H]. apply raise_ok in H as [H2%negb_false_iff%entry_iff H].
    apply raise_ok in H as [[H3%negb_false_iff%exactly_mapped_iff H4%negb_false_iff%exactly_mapped_iff]%orb_false_iff H].
    apply bind_ok in H as (sc & Hsc & [H5%negb_false_iff _]%raise_ok). rewrite Hsc. by split_and!.
  - intros (Hi & h & Hh & Hc & st & Hs & d & k & r & Hd & Hk & Hr & H1 & H2 & H3 & H4 & H5).
    exists tt. split; [done|]. rewrite Hh. cbn [except_struct bind_result]. rewrite Hc. cbn [bind_result]. rewrite Hs.
    cbn [bind_result]. rewrite Hd, Hk, Hr.
    destruct (load_segments st) as [|l loads]; [destruct H1 as (? & []%not_elem_of_nil & _)|].
    apply headers_iff in H1 as ->. apply entry_iff in H2 as ->. apply exactly_mapped_iff in H3 as ->.
    apply exactly_mapped_iff in H4 as ->. cbn [negb orb].
    destruct (scan_dynamic _ _ _) as [sc|]; [|done]. cbn in H5 |- *. by rewrite H5.
Qed.

(** C34. The launcher validator accepts exactly the static position-independent images:
    an image (of a size Python can represent) passes if and only if its program headers
    are those of [static_pie]. *)
Theorem elf_accepted_exactly content :
  blen content < 2 ^ 63 ->
  validate_elf64_static_pie content = Ok tt <->
  exists h segs dynamic relro, static_pie content h segs dynamic relro.
Proof.
  intros Hn. rewrite validate_iff. split.
  - intros (Hi & h & Hh & Hc & st & (segs & Hr & Hwf & Hint & -> & [L O D S R])%scan_iff
      & dynamic & stack & relro & Hd & Hk & Hrl & H1 & H2 & H3 & H4 & H5).
    destruct (head_at_most_one _ _ _ D Hd) as [Ed Wd], (head_at_most_one _ _ _ S Hk) as [Ek Wk],
      (head_at_most_one _ _ _ R Hrl) as [Er Wr].
    destruct (dynamic_entries content dynamic) as [entries He]; try done.
    { pose proof (Forall2_read_unsigned _ _ _ Hr) as Hu. apply (typed_unsigned PT_DYNAMIC) in Hu. rewrite Ed in Hu.
      by rewrite Forall_singleton in Hu. }
    { eapply (in_file content segs PT_DYNAMIC); [done|done|]. rewrite Ed. by apply list_elem_of_singleton. }
    exists h, segs, dynamic, relro. constructor; eauto.
    exists entries. split; [done|]. apply dynamic_table_iff. by rewrite <-(scan_dynamic_entries _ _ _ _ _ He).
  - intros (h & segs & dynamic & relro & [Hi Hh Hc Hr Hwf Hint L O [Ed Wd] (stack & Ek & Wk) [Er Wr] H1 H2 H3 H4
      (entries & He & Ht%dynamic_table_iff)]).
    split; [done|]. exists h. do 2 (split; [done|]). exists (summary segs). split.
    { apply scan_iff. exists segs. split_and!; try done.
      constructor; try done; rewrite ?Ed, ?Ek, ?Er; by split; [apply Forall_singleton|cbn]. }
    exists dynamic, stack, relro. cbn. rewrite Ed, Ek, Er. split_and!; try done.
    by rewrite (scan_dynamic_entries _ _ _ _ _ He).
Qed.

(** ** What acceptance guarantees *)
Definition maps_address (s : ElfSegment) (x : Z) : Prop := virtual_address s <= x < virtual_end s.

Lemma sorted_trichotomy {A} (R : A -> A -> Prop) l a b :
  StronglySorted R l -> a ∈ l -> b ∈ l -> a = b \/ R a b \/ R b a.
Proof.
  induction 1 as [|x l _ IH Hx]; [by intros []%not_elem_of_nil|]. rewrite Forall_forall in Hx.
  rewrite !elem_of_cons. intros [->|Ha] [->|Hb]; auto.
Qed.

Lemma accepted_program content h segs :
  validate_elf64_static_pie content = Ok tt -> read_header content = Ok h ->
  Forall2 (fun offset s => read_segment content offset = Ok s) (program_offsets h) segs ->
  Forall (fun s => segment_type s <> PT_NULL -> segment_wf (blen content) s) segs
  /\ shape segs /\ check_header content h = Ok tt
  /\ exists load, load ∈ typed PT_LOAD segs /\ executable load
       /\ virtual_address load <= eh_entry h < virtual_address load + file_size load.
Proof.
  intros (_ & h' & Hh' & Hc & st & (segs' & Hr' & Hwf & _ & -> & Hsh)%scan_iff & d & k & r & _ & _ & _ & _ & He & _)%validate_iff
    Hh Hr.
  assert (h' = h) as -> by congruence.
  assert (segs' = segs) as -> by (apply map_result_ok in Hr, Hr'; congruence).
  auto.
Qed.

(** An accepted image is safe to map: no address belongs to two loaded segments, so
    none is both writable and executable; every loaded byte lies in the file and no
    segment wraps the address space; and execution starts in file-backed bytes of a
    segment that is executable and not writable. *)
Theorem loaded_image_safe content h segs :
  validate_elf64_static_pie content = Ok tt -> read_header content = Ok h ->
  Forall2 (fun offset s => read_segment content offset = Ok s) (program_offsets h) segs ->
  let loads := typed PT_LOAD segs in
  (forall x a b, a ∈ loads -> b ∈ loads -> maps_address a x -> maps_address b x -> a = b)
  /\ (forall x a b, a ∈ loads -> b ∈ loads -> maps_address a x -> maps_address b x -> ~ (writable a /\ executable b))
  /\ (forall a, a ∈ loads -> file_end a <= blen content /\ virtual_end a < 2 ^ 64)
  /\ (exists a, a ∈ loads /\ executable a /\ ~ writable a
        /\ virtual_address a <= eh_entry h < virtual_address a + file_size a).
Proof.
  intros Hv Hh Hr loads. destruct (accepted_program _ _ _ Hv Hh Hr) as (Hwf & [L O _ _ _] & _ & a & Ha & Hx & He).
  rewrite Forall_forall in L.
  assert (forall x a b, a ∈ loads -> b ∈ loads -> maps_address a x -> maps_address b x -> a = b) as Hdisj.
  { intros x p q Hp Hq Mp Mq. destruct (sorted_trichotomy _ _ p q O Hp Hq) as [|[[_ ?]|[_ ?]]]; [done|..];
      unfold maps_address in *; lia. }
  split_and!; [done|..].
  - intros x p q Hp Hq Mp Mq [Hw Hx']. rewrite (Hdisj x p q) in Hw by done. destruct (L q Hq) as (_ & Hn & _). by apply Hn.
  - intros p Hp. by destruct (in_file content segs PT_LOAD p).
  - exists a. split_and!; try done; try lia. intros Hw. destruct (L a Ha) as (_ & Hn & _). by apply Hn.
Qed.

(** ** The embedded identity *)
Definition occurs (marker content : list byte) (k : nat) : Prop := take (length marker) (drop k content) = marker.

Lemma occurs_cons marker b content k : occurs marker (b :: content) (S k) <-> occurs marker content k.
Proof. done. Qed.

Lemma find_from_spec marker content offset :
  marker <> [] ->
  match find_from marker content offset with
  | Some o => exists k, o = offset + Z.of_nat k /\ occurs marker content k /\ forall j, (j < k)%nat -> ~ occurs marker content j
  | None => forall k, ~ occurs marker content k
  end.
Proof.
  intros Hm. revert offset. induction content as [|b content IH]; intros offset; cbn [find_from].
  - case_bool_decide as H; [exists 0%nat; split_and!; [lia|done|lia]|]. intros k. unfold occurs. by rewrite drop_nil.
  - case_bool_decide as H; [exists 0%nat; split_and!; [lia|done|lia]|]. specialize (IH (offset + 1)).
    destruct (find_from marker content (offset + 1)) as [o|].
    + destruct IH as (k & -> & Ho & Hj). exists (S k). split_and!; [lia|done|].
      intros [|j] Hlt; [done|]. rewrite occurs_cons. apply Hj. lia.
    + intros [|k]; [done|]. rewrite occurs_cons. apply IH.
Qed.

Lemma occurs_bound marker content k : marker <> [] -> occurs marker content k -> (k < length content)%nat.
Proof.
  intros Hm H. apply (f_equal length) in H. rewrite length_take, length_drop in H.
  destruct marker; [done|]. cbn [length] in H. lia.
Qed.

(** [bytes_find] twice: the marker occurs at one offset only. *)
Lemma find_unique marker content o :
  marker <> [] ->
  bytes_find marker content 0 = Some o /\ bytes_find marker content (o + 1) = None <->
  0 <= o /\ forall k, occurs marker content k <-> Z.of_nat k = o.
Proof.
  intros Hm. unfold bytes_find. destruct (Z.ltb_spec (blen content) 0) as [Hl|_]; [unfold blen in Hl; lia|].
  change (drop (Z.to_nat 0) content) with content. pose proof (find_from_spec marker content 0 Hm) as H1.
  split.
  - intros [E1 E2]. rewrite E1 in H1. destruct H1 as (k & -> & Hk & Hj). split; [lia|]. intros j. 
    split; [|by intros ?; replace j with k by lia]. intros Ho. destruct (Nat.lt_trichotomy j k) as [Hlt|[->|Hgt]]; [by destruct (Hj j Hlt)|lia|exfalso].
    pose proof (occurs_bound _ _ _ Hm Ho).
    destruct (Z.ltb_spec (blen content) (0 + Z.of_nat k + 1)) as [|_]; [unfold blen in *; lia|].
    pose proof (find_from_spec marker (drop (Z.to_nat (0 + Z.of_nat k + 1)) content) (0 + Z.of_nat k + 1) Hm) as H2.
    rewrite E2 in H2. apply (H2 (j - S k)%nat). unfold occurs. rewrite drop_drop. by replace (_ + _)%nat with j by lia.
  - intros [H0 Hu]. split.
    + destruct (find_from marker content 0) as [p|].
      * destruct H1 as (k & -> & Hk%Hu & _). f_equal. lia.
      * destruct (H1 (Z.to_nat o)). apply Hu. lia.
    + destruct (_ <? _); [done|].
      pose proof (find_from_spec marker (drop (Z.to_nat (o + 1)) content) (o + 1) Hm) as H2.
      destruct (find_from _ _ (o + 1)) as [p|]; [|done]. destruct H2 as (k & _ & Hk & _). unfold occurs in Hk.
      rewrite drop_drop in Hk. apply Hu in Hk. lia.
Qed.

Lemma unpack_one size content offset :
  offset < 2 ^ 63 -> offset + Z.of_nat size <= blen content ->
  unpack_from [size] content offset = Ok [le_int (take size (drop (Z.to_nat offset) content))].
Proof. intros H1 H2. apply unpack_from_ok. replace (sum_list [size]) with size by (cbn; lia). done. Qed.

Lemma read_range content offset s :
  0 <= offset < 2 ^ 62 -> read_segment content offset = Ok s ->
  exists fl, unpack_from [4; 4; 8]%nat content offset = Ok [segment_type s; fl; file_offset s]
    /\ unpack_from [8]%nat content (offset + 32) = Ok [file_size s].
Proof.
  intros Ho. unfold read_segment. intros (fs & (H1 & H2 & ->)%unpack_from_ok & H)%bind_ok.
  change (Z.of_nat (sum_list [4; 4; 8; 8; 8; 8; 8; 8]%nat)) with 56 in H2.
  cbn [unpack_fields] in H. injection H as <-. cbn [segment_type file_offset file_size].
  eexists. split.
  - apply unpack_from_ok. change (Z.of_nat (sum_list [4; 4; 8]%nat)) with 16. split_and!; [lia|lia|done].
  - rewrite unpack_one by lia. rewrite !drop_drop. do 5 f_equal. lia.
Qed.

Definition loaded_range (s : ElfSegment) : Z * Z := (file_offset s, file_end s).

Lemma loaded_ranges_exact content offsets segs :
  Forall (fun o => 0 <= o < 2 ^ 62) offsets ->
  Forall2 (fun offset s => read_segment content offset = Ok s) offsets segs ->
  loaded_ranges content offsets = Ok (map loaded_range (typed PT_LOAD segs)).
Proof.
  intros Ho H. induction H as [|o s offsets segs Hs _ IH]; [done|]. apply Forall_cons in Ho as [Ho Hos].
  cbn [loaded_ranges]. destruct (read_range _ _ _ Ho Hs) as (fl & -> & ->). cbn [bind_result]. rewrite IH by done.
  cbn [bind_result]. unfold typed. destruct (Z.eqb_spec (segment_type s) PT_LOAD).
  - by rewrite filter_cons_True.
  - by rewrite filter_cons_False.
Qed.

Lemma image_ranges_exact content h segs :
  check_header content h = Ok tt -> read_header content = Ok h ->
  Forall2 (fun offset s => read_segment content offset = Ok s) (program_offsets h) segs ->
  image_ranges content = Ok (map loaded_range (typed PT_LOAD segs)).
Proof.
  intros Hc Hh Hr. unfold read_header in Hh. apply bind_ok in Hh as (fs & (_ & H2 & ->)%unpack_from_ok & Hh).
  change (Z.of_nat (sum_list [2; 2; 4; 8; 8; 8; 4; 2; 2; 2; 2; 2; 2]%nat)) with 48 in H2.
  cbn [unpack_fields] in Hh. apply ok_inj in Hh. rewrite !drop_drop in Hh.
  change (Z.to_nat 16) with 16%nat in Hh. cbn [Nat.add] in Hh.
  unfold image_ranges, read_field. rewrite !unpack_one by lia. cbn [bind_result].
  change (Z.to_nat 32) with 32%nat. change (Z.to_nat 54) with 54%nat. change (Z.to_nat 56) with 56%nat.
  rewrite <-(loaded_ranges_exact content (program_offsets h) segs); [by subst h| |done].
  unfold check_header in Hc. apply raise_ok in Hc as [Hc _]. bool_prop. unfold program_offsets.
  apply Forall_fmap, Forall_forall. intros i Hi%elem_of_seq. cbn. change ELF_HEADER_SIZE with 64 in *.
  change ELF_PROGRAM_HEADER_SIZE with 56 in *. lia.
Qed.

Lemma marker_nonempty text m : marker_of text = Some m -> m <> [].
Proof. unfold marker_of. destruct (Text.ascii_text text); [|done]. intros [= <-]. by destruct (list_byte_of_string text). Qed.

(** The marker occurs once, inside one of the ranges. *)
Definition located (marker content : list byte) (ranges : list (Z * Z)) : bool :=
  match bytes_find marker content 0 with
  | Some o => negb (is_some (bytes_find marker content (o + 1)))
              && existsb (fun '(start, stop) => (start <=? o) && (o + blen marker <=? stop)) ranges
  | None => false
  end.

Lemma located_iff marker content segs :
  marker <> [] ->
  located marker content (map loaded_range segs) = true <->
  exists o : nat, (forall k, occurs marker content k <-> k = o)
    /\ exists load, load ∈ segs /\ file_offset load <= Z.of_nat o /\ Z.of_nat o + blen marker <= file_end load.
Proof.
  intros Hm. assert (forall o, existsb (fun '(start, stop) => (start <=? o) && (o + blen marker <=? stop))
    (map loaded_range segs) = true <->
    exists load, load ∈ segs /\ file_offset load <= o /\ o + blen marker <= file_end load) as He.
  { intros o. rewrite existsb_elem. split.
    - intros ([a b] & (s & [= -> ->] & Hs)%list_elem_of_fmap & [?%Z.leb_le ?%Z.leb_le]%andb_true_iff). eauto.
    - intros (s & Hs & H1 & H2). exists (loaded_range s). split; [by apply list_elem_of_fmap; eauto|].
      cbn. by rewrite andb_true_iff, !Z.leb_le. }
  unfold located. split.
  - destruct (bytes_find marker content 0) as [o|] eqn:E; [|done]. rewrite andb_true_iff, He. intros [H1 H2]. exists (Z.to_nat o).
    assert (bytes_find marker content (o + 1) = None) as E' by (by destruct (bytes_find marker content (o + 1))).
    destruct (proj1 (find_unique _ _ _ Hm) (conj E E')) as [H0 Hu]. rewrite Z2Nat.id by done.
    split; [|done]. intros k. rewrite Hu. lia.
  - intros (o & Hu & Hl). destruct (proj2 (find_unique _ content (Z.of_nat o) Hm)) as [-> ->].
    { split; [lia|]. intros k. rewrite Hu. lia. }
    cbn [is_some negb andb]. by apply He.
Qed.

Lemma require_located content policy_id policy_sha256 m1 m2 ranges :
  marker_of policy_id = Some m1 -> marker_of policy_sha256 = Some m2 -> image_ranges content = Ok ranges ->
  require_embedded_seccomp_identity content policy_id policy_sha256 = Ok tt <->
  located m1 content ranges = true /\ located m2 content ranges = true.
Proof.
  intros H1 H2 Hr. unfold require_embedded_seccomp_identity, located. rewrite H1, H2, Hr.
  destruct (bytes_find m1 content 0) as [o1|]; [|split; [done|by intros [? _]]].
  destruct (bytes_find m2 content 0) as [o2|]; [|split; [done|by intros [_ ?]]].
  cbn [except_struct bind_result forallb].
  destruct (is_some (bytes_find m1 content (o1 + 1))), (is_some (bytes_find m2 content (o2 + 1)));
    cbn [orb negb andb]; try (split; [done|by intros [? ?]]).
  rewrite andb_true_r. destruct (existsb _ ranges), (existsb _ ranges); cbn; split; try done; by intros [? ?].
Qed.

(** In an accepted image, the seccomp check passes exactly when each of the two
    identity markers, the NUL-terminated policy id and digest, occurs at one offset of
    the file only, inside the file-backed bytes of a loaded segment. *)
Theorem seccomp_marker_unique content h segs policy_id policy_sha256 :
  validate_elf64_static_pie content = Ok tt -> read_header content = Ok h ->
  Forall2 (fun offset s => read_segment content offset = Ok s) (program_offsets h) segs ->
  require_embedded_seccomp_identity content policy_id policy_sha256 = Ok tt <->
  Forall (fun text => exists marker (o : nat), marker_of text = Some marker
    /\ (forall k, occurs marker content k <-> k = o)
    /\ exists load, load ∈ typed PT_LOAD segs
         /\ file_offset load <= Z.of_nat o /\ Z.of_nat o + blen marker <= file_end load)
    [policy_id; policy_sha256].
Proof.
  intros Hv Hh Hr. destruct (accepted_program _ _ _ Hv Hh Hr) as (_ & _ & Hc & _).
  pose proof (image_ranges_exact _ _ _ Hc Hh Hr) as Hi. rewrite !Forall_cons, Forall_nil.
  destruct (marker_of policy_id) as [m1|] eqn:E1; [destruct (marker_of policy_sha256) as [m2|] eqn:E2|].
  - rewrite (require_located _ _ _ _ _ _ E1 E2 Hi), !located_iff by (by eapply marker_nonempty). split.
    + intros [(o1 & H1) (o2 & H2)]. split_and!; [by exists m1, o1|by exists m2, o2|done].
    + intros ((? & o1 & [= <-] & H1) & (? & o2 & [= <-] & H2) & _). split; [by exists o1|by exists o2].
  - unfold require_embedded_seccomp_identity. rewrite E1, E2. split; [done|]. by intros (_ & (? & ? & ? & _) & _).
  - unfold require_embedded_seccomp_identity. rewrite E1. split; [done|]. by intros ((? & ? & ? & _) & _).
Qed.

(** ** A sample launcher image *)
Definition le_bytes (n : nat) (z : Z) : list byte := rev (be_bytes n z).

Definition program_header (stype sflags foffset vaddress fsize msize align : Z) : list byte :=
  le_bytes 4 stype ++ le_bytes 4 sflags ++ le_bytes 8 foffset ++ le_bytes 8 vaddress ++ le_bytes 8 vaddress
  ++ le_bytes 8 fsize ++ le_bytes 8 msize ++ le_bytes 8 align.

Definition sample_policy_id : string := "bpe.inert-fixture-launcher-seccomp.v1".
Definition sample_policy_sha256 : string := "3ac1f4557845704da77f6778c886f3dd65b8ccb97d5060781cb88ee264195ddd".

Definition sample_image : list byte := Eval vm_compute in
  [Byte.x7f; Byte.x45; Byte.x4c; Byte.x46; Byte.x02; Byte.x01; Byte.x01; Byte.x03] ++ replicate 8 Byte.x00
  ++ le_bytes 2 ET_DYN ++ le_bytes 2 EM_X86_64 ++ le_bytes 4 1 ++ le_bytes 8 344 ++ le_bytes 8 64 ++ le_bytes 8 0
  ++ le_bytes 4 0 ++ le_bytes 2 64 ++ le_bytes 2 56 ++ le_bytes 2 5 ++ le_bytes 2 0 ++ le_bytes 2 0 ++ le_bytes 2 0
  ++ program_header PT_LOAD 5 0 0 448 448 0x1000
  ++ program_header PT_LOAD 6 448 (0x1000 + 448) 48 64 0x1000
  ++ program_header PT_DYNAMIC 6 448 (0x1000 + 448) 48 48 8
  ++ program_header PT_GNU_STACK 6 0 0 0 0 16
  ++ program_header PT_GNU_RELRO 4 448 (0x1000 + 448) 48 48 1
  ++ list_byte_of_string sample_policy_id ++ [Byte.x00]
  ++ list_byte_of_string sample_policy_sha256 ++ [Byte.x00; Byte.x00]
  ++ le_bytes 8 DT_FLAGS ++ le_bytes 8 DF_BIND_NOW
  ++ le_bytes 8 DT_FLAGS_1 ++ le_bytes 8 (Z.lor DF_1_NOW DF_1_PIE)
  ++ le_bytes 8 DT_NULL ++ le_bytes 8 0.

Definition sample_header : ElfHeader :=
  {| eh_type := 3; eh_machine := 62; eh_version := 1; eh_entry := 344; eh_program_offset := 64; eh_flags := 0;
     eh_header_size := 64; eh_program_entry_size := 56; eh_program_count := 5 |}.

Definition sample_segments : list ElfSegment := Eval vm_compute in
  match map_result (read_segment sample_image) (program_offsets sample_header) with Ok segs => segs | Err _ => [] end.

Lemma sample_accepted : validate_elf64_static_pie sample_image = Ok tt.
Proof. vm_compute. reflexivity. Qed.
Lemma sample_program :
  Forall2 (fun offset s => read_segment sample_image offset = Ok s) (program_offsets sample_header) sample_segments.
Proof. apply map_result_ok. vm_compute. reflexivity. Qed.

Lemma elf_accepted_exactly_witness :
  blen sample_image < 2 ^ 63 /\
  exists h segs dynamic relro, static_pie sample_image h segs dynamic relro.
Proof.
  assert (blen sample_image < 2 ^ 63) as H by reflexivity. split; [exact H|].
  apply (elf_accepted_exactly sample_image H). exact sample_accepted.
Defined.

Lemma loaded_image_safe_witness :
  exists a, a ∈ typed PT_LOAD sample_segments /\ executable a /\ ~ writable a
    /\ virtual_address a <= 344 < virtual_address a + file_size a.
Proof. apply (loaded_image_safe sample_image sample_header sample_segments sample_accepted eq_refl sample_program). Defined.

Lemma seccomp_marker_unique_witness :
  Forall (fun text => exists marker (o : nat), marker_of text = Some marker
    /\ (forall k, occurs marker sample_image k <-> k = o)
    /\ exists load, load ∈ typed PT_LOAD sample_segments
         /\ file_offset load <= Z.of_nat o /\ Z.of_nat o + blen marker <= file_end load)
    [sample_policy_id; sample_policy_sha256].
Proof.
  apply (seccomp_marker_unique sample_image sample_header sample_segments sample_policy_id sample_policy_sha256
           sample_accepted eq_refl sample_program).
  vm_compute. reflexivity.
Defined.

End ElfFacts.
