(* ===== verification/Effects.v ===== *)
(** * Effectful Python functions

    A function that calls the operating system and assigns local variables is an
    [Act S E A]: from a state (the world with the locals) to a result, which may be a
    raised exception, and the state it leaves.  [try_except] and [finally] run in the
    state the body left, also when it raised.  [triple] is the Hoare triple of such a
    function, total because [Act]s are functions; its postcondition sees both kinds of
    outcome. *)
From Stdlib Require Import ZArith.
From stdpp Require Import base tactics.
From S2P Require Import Prelude.

Definition Act (S E A : Type) : Type := S -> result E A * S.

Definition ret {S E A} (a : A) : Act S E A := fun s => (Ok a, s).
Definition throw {S E A} (e : E) : Act S E A := fun s => (Err e, s).
Definition seq_act {S E A B} (m : Act S E A) (k : A -> Act S E B) : Act S E B :=
  fun s => match m s with (Ok a, s') => k a s' | (Err e, s') => (Err e, s') end.

(** [let! x := m in k]: run [m], then [k]; [throws e when c ;; k]: the guard of [k]. *)
Notation "'let!' x := m 'in' k" :=
  (seq_act m (fun x => k)) (at level 10, x pattern, m at level 99, k at level 200, only parsing) : bpe_scope.
Notation "'throws' e 'when' c ;; k" :=
  (if c then throw e else k)
    (at level 10, e at level 99, c at level 99, k at level 200, only parsing) : bpe_scope.

(** A pure function that may raise. *)
Definition pure_act {S E A} (r : result E A) : Act S E A := fun s => (r, s).

(** [try: m  except ...: h] *)
Definition try_except {S E A} (m : Act S E A) (h : E -> Act S E A) : Act S E A :=
  fun s => match m s with (Err e, s') => h e s' | ok => ok end.

(** [try: m  finally: c], where [c] learns whether [m] raised. *)
Definition finally {S E A} (m : Act S E A) (c : bool -> Act S E unit) : Act S E A :=
  fun s => let '(r, s') := m s in
    match c (negb (is_ok r)) s' with (Ok _, s'') => (r, s'') | (Err e, s'') => (Err e, s'') end.

(** [with suppress(...): m] *)
Definition suppress {S E A} (m : Act S E A) : Act S E unit := fun s => (Ok tt, (m s).2).

(** The local variables are the second component of the state. *)
Definition get_locals {W L E} : Act (W * L) E L := fun s => (Ok s.2, s).
Definition set_locals {W L E} (f : L -> L) : Act (W * L) E unit := fun s => (Ok tt, (s.1, f s.2)).

(** An operation on the world. *)
Definition on_world {W L E A} (m : Act W E A) : Act (W * L) E A :=
  fun s => let '(r, w) := m s.1 in (r, (w, s.2)).

(** A call: the callee has locals of its own. *)
Definition call {W L L' E A} (l0 : L') (m : Act (W * L') E A) : Act (W * L) E A :=
  fun s => let '(r, s') := m (s.1, l0) in (r, (s'.1, s.2)).

(** ** Hoare triples *)
Definition triple {S E A} (P : S -> Prop) (m : Act S E A) (Q : result E A -> S -> Prop) : Prop :=
  forall s, P s -> Q (m s).1 (m s).2.

Section Triples.
Context {S E : Type}.
Implicit Types P : S -> Prop.

Lemma triple_ret {A} P (a : A) Q : (forall s, P s -> Q (Ok a) s) -> triple P (@ret S E A a) Q.
Proof. intros H s Hs. by apply H. Qed.

Lemma triple_throw {A} P (e : E) (Q : result E A -> S -> Prop) :
  (forall s, P s -> Q (Err e) s) -> triple P (throw e) Q.
Proof. intros H s Hs. by apply H. Qed.

Lemma triple_pure {A} P (r : result E A) (Q : result E A -> S -> Prop) :
  (forall s, P s -> Q r s) -> triple P (pure_act r) Q.
Proof. intros H s Hs. by apply H. Qed.

Lemma triple_seq {A B} P (m : Act S E A) R (k : A -> Act S E B) Q :
  triple P m R -> (forall a, triple (R (Ok a)) (k a) Q) -> (forall e s, R (Err e) s -> Q (Err e) s) ->
  triple P (seq_act m k) Q.
Proof.
  intros Hm Hk He s Hs. specialize (Hm s Hs). unfold seq_act.
  destruct (m s) as [[a|e] s']; cbn in *; [by apply Hk|by apply He].
Qed.

Lemma triple_try {A} P (m : Act S E A) R (h : E -> Act S E A) Q :
  triple P m R -> (forall a s, R (Ok a) s -> Q (Ok a) s) -> (forall e, triple (R (Err e)) (h e) Q) ->
  triple P (try_except m h) Q.
Proof.
  intros Hm Hk Hh s Hs. specialize (Hm s Hs). unfold try_except.
  destruct (m s) as [[a|e] s']; cbn in *; [by apply Hk|by apply Hh].
Qed.

Lemma triple_finally {A} P (m : Act S E A) R (c : bool -> Act S E unit) Q :
  triple P m R ->
  (forall r, triple (R r) (c (negb (is_ok r))) (fun u s => match u with Ok _ => Q r s | Err e => Q (Err e) s end)) ->
  triple P (finally m c) Q.
Proof.
  intros Hm Hc s Hs. specialize (Hm s Hs). unfold finally. destruct (m s) as [r s']; cbn in *.
  specialize (Hc r s' Hm). by destruct (c (negb (is_ok r)) s') as [[]].
Qed.

Lemma triple_suppress {A} P (m : Act S E A) Q : triple P m (fun _ => Q (Ok tt)) -> triple P (suppress m) Q.
Proof. intros H s Hs. by apply H. Qed.

Lemma triple_weaken {A} P P' (m : Act S E A) Q Q' :
  triple P m Q -> (forall s, P' s -> P s) -> (forall r s, Q r s -> Q' r s) -> triple P' m Q'.
Proof. intros H HP HQ s Hs. apply HQ, H. by apply HP. Qed.

Lemma triple_if {A} P (b : bool) (m k : Act S E A) Q :
  triple P m Q -> triple P k Q -> triple P (if b then m else k) Q.
Proof. by destruct b. Qed.
End Triples.
