(* ===== verification/Artifact.v ===== *)
(** * Launcher artifact preflight ([src/bpe/inert_artifact.py])

    The preflight duplicates the supplied descriptor, reads the artifact, checks its
    digest, ELF shape and seccomp identity ([Elf]), copies it to a sealed memfd and
    returns an object that owns the read-only descriptor of the copy.  The operating
    system is a parameter ([OS]): the system calls the code makes, on a world of its
    own; [errno] values are those of Linux.  [MemoryError], which may be raised
    anywhere, and the [AttributeError] of a C library without [fstatfs] are not
    modelled.  [handling] says whether the caller is inside an [except] block, which
    [sys.exception()] in [_duplicate_source_fd] can observe. *)
From Stdlib Require Import ZArith String Ascii Lia.
From stdpp Require Import base tactics list strings.
From S2P Require Import Prelude Effects Sha256 Json Models Job Fixture Launch Elf.
Local Open Scope string_scope.
Local Open Scope Z_scope.

Module Artifact.
Import Sha256 Json Models Job Fixture Launch Elf.

(** ** Constants *)
Definition F_SEAL_SEAL : Z := 0x0001.
Definition F_SEAL_SHRINK : Z := 0x0002.
Definition F_SEAL_GROW : Z := 0x0004.
Definition F_SEAL_WRITE : Z := 0x0008.
Definition F_SEAL_FUTURE_WRITE : Z := 0x0010.
Definition F_SEAL_EXEC : Z := 0x0020.
Definition REQUIRED_EXEC_SEALS : Z :=
  Z.lor (Z.lor (Z.lor (Z.lor (Z.lor F_SEAL_SEAL F_SEAL_SHRINK) F_SEAL_GROW) F_SEAL_WRITE) F_SEAL_FUTURE_WRITE)
        F_SEAL_EXEC.
Definition PROC_SUPER_MAGIC : Z := 0x9FA0.
Definition O_PATH_LINUX : Z := 0x200000.
Definition MAX_LAUNCHER_ARTIFACT_BYTES : Z := 16 * 1024 * 1024.
Definition MAX_LINUX_DESCRIPTOR : Z := Z.shiftl 1 31 - 1.
Definition ARTIFACT_READ_CHUNK_BYTES : Z := 128 * 1024.

(** [stat] and [os] on Linux. *)
Definition S_IFMT (mode : Z) : Z := Z.land mode 0xF000.
Definition S_ISREG (mode : Z) : bool := S_IFMT mode =? 0x8000.
Definition S_ISDIR (mode : Z) : bool := S_IFMT mode =? 0x4000.
Definition S_IMODE (mode : Z) : Z := Z.land mode 0xFFF.
Definition S_IXUSR : Z := 0x40.
Definition S_IWGRP : Z := 0x10.
Definition S_IWOTH : Z := 0x2.
Definition S_ISUID : Z := 0x800.
Definition S_ISGID : Z := 0x400.
Definition S_ISVTX : Z := 0x200.
Definition O_ACCMODE : Z := 3.
Definition O_RDONLY : Z := 0.
Definition SEALED_EXECUTABLE_MODE : Z := Z.lor 0x8000 0x140.

Definition EPERM : Z := 1.
Definition EIO : Z := 5.
Definition ENOMEM : Z := 12.
Definition EACCES : Z := 13.
Definition ENODEV : Z := 19.
Definition ENOTDIR : Z := 20.
Definition EINVAL : Z := 22.
Definition ENFILE : Z := 23.
Definition EMFILE : Z := 24.
Definition ENOTTY : Z := 25.
Definition ENOSPC : Z := 28.
Definition ENOSYS : Z := 38.
Definition EOPNOTSUPP : Z := 95.

Definition FIXED_SECCOMP_POLICY_ID : string := "bpe.inert-fixture-launcher-seccomp.v1".
Definition FIXED_SECCOMP_POLICY_SHA256 : string :=
  "3ac1f4557845704da77f6778c886f3dd65b8ccb97d5060781cb88ee264195ddd".

(** ** Metadata *)
Record StatBinding := {
  device : Z;
  inode : Z;
  mode : Z;
  uid : Z;
  gid : Z;
  nlink : Z;
  size : Z;
  mtime_ns : Z;
  ctime_ns : Z
}.

#[export] Instance StatBinding_eq_dec : EqDecision StatBinding.
Proof. solve_decision. Defined.

(** ** The operating system *)
Definition Sys (W A : Type) : Type := W -> result Z A * W.

Class OS (W : Type) := {
  sys_platform : string;
  machine : string;
  pointer_size : Z;
  long_size : Z;
  descriptor_operations : bool;
  geteuid : Z;
  load_libc : Sys W unit;
  dup_cloexec : Z -> Sys W Z;
  fstat : Z -> Sys W StatBinding;
  get_flags : Z -> Sys W Z;
  get_inheritable : Z -> Sys W bool;
  set_not_inheritable : Z -> Sys W unit;
  pread : Z -> Z -> Z -> Sys W (list byte);
  memfd_create_exec : Sys W Z;
  write : Z -> list byte -> Sys W Z;
  fchmod : Z -> Z -> Sys W unit;
  fsync : Z -> Sys W unit;
  add_seals : Z -> Z -> Sys W unit;
  get_seals : Z -> Sys W Z;
  open_proc_self_fd : Sys W Z;
  fstatfs_type : Z -> Sys W Z;
  open_readonly_at : Z -> Z -> Sys W Z;
  close : Z -> Sys W unit
}.

(** ** Exceptions in flight *)
Inductive exn :=
| ArtifactExn (e : ArtifactError)
| OSError (errno : Z).

Definition unavailable (r : ArtifactFailureReason) : exn := ArtifactExn (Unavailable r).
Definition rejected (r : ArtifactFailureReason) : exn := ArtifactExn (Rejected r).
Definition lifecycle (r : ArtifactFailureReason) : exn := ArtifactExn (LifecycleError r).

Definition one_of (errno : Z) (l : list Z) : bool := existsb (Z.eqb errno) l.

(** [_raise_descriptor_failure] *)
Definition descriptor_failure (errno : Z) (sealed : bool) : exn :=
  if one_of errno [EMFILE; ENFILE; ENOMEM; ENOSPC] then lifecycle resource_exhausted
  else if sealed then lifecycle sealed_artifact_changed
  else rejected invalid_source_descriptor.

(** ** Receipts *)
Definition preflight_domain : string :=
  "BPE" ++ String "000" "inert-launcher-artifact-preflight" ++ String "000" "v1" ++ String "000" "".

Record PreflightReceipt := {
  pf_preflight_id : string;
  pf_policy_id : string;
  pf_policy_sha256 : string;
  pf_worker_pool_audience : string;
  pf_worker_instance_id : string;
  pf_claim_ledger_id : string;
  pf_launch_ledger_id : string;
  pf_delegated_root_id : string;
  pf_launcher_artifact_id : string;
  pf_launcher_artifact_sha256 : string;
  pf_launcher_seccomp_policy_id : string;
  pf_launcher_seccomp_policy_sha256 : string;
  pf_source : StatBinding;
  pf_sealed_copy_sha256 : string;
  pf_sealed_copy_size_bytes : Z;
  pf_sealed_copy_mode : Z;
  pf_sealed_copy_nlink : Z;
  pf_sealed_copy_seals : Z
}.

(** The dump of a receipt without its identity. *)
Definition PreflightReceipt_fields (r : PreflightReceipt) : list (string * json) :=
  [("schema_version", JStr "bpe.linux-inert-launcher-artifact-preflight-receipt.v1");
   ("status", JStr "artifact_preflighted_not_launched");
   ("policy_id", JStr (pf_policy_id r)); ("policy_sha256", JStr (pf_policy_sha256 r));
   ("worker_pool_audience", JStr (pf_worker_pool_audience r));
   ("worker_instance_id", JStr (pf_worker_instance_id r)); ("claim_ledger_id", JStr (pf_claim_ledger_id r));
   ("launch_ledger_id", JStr (pf_launch_ledger_id r)); ("delegated_root_id", JStr (pf_delegated_root_id r));
   ("launcher_artifact_id", JStr (pf_launcher_artifact_id r));
   ("launcher_artifact_sha256", JStr (pf_launcher_artifact_sha256 r));
   ("launcher_seccomp_policy_id", JStr (pf_launcher_seccomp_policy_id r));
   ("launcher_seccomp_policy_sha256", JStr (pf_launcher_seccomp_policy_sha256 r));
   ("host_platform", JStr "linux"); ("host_architecture", JStr "x86_64");
   ("launcher_protocol_version", JStr "bpe.clone3-inert-launcher-protocol.v1");
   ("launcher_launch_method", JStr "fixed-one-shot-executable-v1");
   ("launcher_fd_layout", JStr "stdio-null-control-3-cgroup-4-v1");
   ("launcher_argv_environment", JStr "argc-one-empty-environment-v1");
   ("source_method", JStr "exact-caller-supplied-readable-fd-v1");
   ("source_device", JInt (device (pf_source r))); ("source_inode", JInt (inode (pf_source r)));
   ("source_mode", JInt (mode (pf_source r))); ("source_uid", JInt (uid (pf_source r)));
   ("source_gid", JInt (gid (pf_source r))); ("source_nlink", JInt (nlink (pf_source r)));
   ("source_size_bytes", JInt (size (pf_source r))); ("source_mtime_ns", JInt (mtime_ns (pf_source r)));
   ("source_ctime_ns", JInt (ctime_ns (pf_source r)));
   ("source_regular_file_verified", JBool true); ("source_owner_trusted", JBool true);
   ("source_not_group_other_writable", JBool true); ("source_stable_during_read", JBool true);
   ("artifact_digest_verified", JBool true); ("elf_contract", JStr "elf64-le-x86_64-static-pie-v1");
   ("elf_contract_verified", JBool true); ("embedded_seccomp_markers_verified", JBool true);
   ("sealed_copy_method", JStr "memfd-exec-complete-seals-procfd-readonly-v1");
   ("sealed_copy_sha256", JStr (pf_sealed_copy_sha256 r));
   ("sealed_copy_size_bytes", JInt (pf_sealed_copy_size_bytes r)); ("sealed_copy_mode", JInt (pf_sealed_copy_mode r));
   ("sealed_copy_nlink", JInt (pf_sealed_copy_nlink r)); ("sealed_copy_seals", JInt (pf_sealed_copy_seals r));
   ("sealed_copy_verified", JBool true); ("executable_fd_retained_at_preflight", JBool true);
   ("launch_attempt_consumed", JBool false); ("launch_authorized", JBool false);
   ("launcher_process_created", JBool false); ("fixture_child_process_created", JBool false);
   ("process_created", JBool false); ("execution_started", JBool false); ("authoritative", JBool false)].

(** [_preflight_id] *)
Definition preflight_id (fields : list (string * json)) : result string string :=
  raise "preflight identity input cannot contain its own digest"
    when bool_decide ("preflight_id" ∈ fields.*1) ;;
  let* bytes := canonical_json_bytes (JObj fields) in
  Ok (sha256_bytes (preflight_domain ++ bytes)).

Definition unsafe_permissions (permissions : Z) : bool :=
  (Z.land permissions S_IXUSR =? 0)
  || negb (Z.land permissions (Z.lor S_IWGRP S_IWOTH) =? 0)
  || negb (Z.land permissions (Z.lor (Z.lor S_ISUID S_ISGID) S_ISVTX) =? 0).

(** [artifact_and_receipt_bindings_are_exact] *)
Definition artifact_and_receipt_bindings_are_exact (r : PreflightReceipt) : result string unit :=
  raise "artifact preflight source mode is not regular" when negb (S_ISREG (mode (pf_source r))) ;;
  raise "artifact preflight source mode is unsafe" when unsafe_permissions (S_IMODE (mode (pf_source r))) ;;
  raise "artifact preflight seccomp policy ID is not fixed"
    when differ (pf_launcher_seccomp_policy_id r) FIXED_SECCOMP_POLICY_ID ;;
  raise "artifact preflight seccomp policy digest is not fixed"
    when differ (pf_launcher_seccomp_policy_sha256 r) FIXED_SECCOMP_POLICY_SHA256 ;;
  raise "artifact preflight ledger identities must be distinct"
    when bool_decide (pf_claim_ledger_id r = pf_launch_ledger_id r) ;;
  raise "sealed launcher copy differs from the verified source"
    when differ (pf_sealed_copy_sha256 r) (pf_launcher_artifact_sha256 r)
         || negb (pf_sealed_copy_size_bytes r =? size (pf_source r))
         || negb (pf_sealed_copy_mode r =? SEALED_EXECUTABLE_MODE)
         || negb (pf_sealed_copy_seals r =? REQUIRED_EXEC_SEALS) ;;
  let* id := preflight_id (PreflightReceipt_fields r) in
  raise "artifact preflight identity is inconsistent" when differ (pf_preflight_id r) id ;;
  Ok tt.

Definition validate_PreflightReceipt (r : PreflightReceipt) : result string unit :=
  let s := pf_source r in
  check_field "preflight_id" (is_sha256 (pf_preflight_id r)) ;;
  check_field "policy_id" (is_stable_id (pf_policy_id r)) ;;
  check_field "policy_sha256" (is_sha256 (pf_policy_sha256 r)) ;;
  check_field "worker_pool_audience" (is_stable_id (pf_worker_pool_audience r)) ;;
  check_field "worker_instance_id" (is_stable_id (pf_worker_instance_id r)) ;;
  check_field "claim_ledger_id" (is_stable_id (pf_claim_ledger_id r)) ;;
  check_field "launch_ledger_id" (is_stable_id (pf_launch_ledger_id r)) ;;
  check_field "delegated_root_id" (is_stable_id (pf_delegated_root_id r)) ;;
  check_field "launcher_artifact_id" (is_stable_id (pf_launcher_artifact_id r)) ;;
  check_field "launcher_artifact_sha256" (is_sha256 (pf_launcher_artifact_sha256 r)) ;;
  check_field "launcher_seccomp_policy_id" (is_stable_id (pf_launcher_seccomp_policy_id r)) ;;
  check_field "launcher_seccomp_policy_sha256" (is_sha256 (pf_launcher_seccomp_policy_sha256 r)) ;;
  check_field "source_device" (0 <=? device s) ;;
  check_field "source_inode" (1 <=? inode s) ;;
  check_field "source_mode" ((0 <=? mode s) && (mode s <=? 0xFFFF)) ;;
  check_field "source_uid" (0 <=? uid s) ;;
  check_field "source_gid" (0 <=? gid s) ;;
  check_field "source_nlink" (nlink s =? 1) ;;
  check_field "source_size_bytes" ((ELF_HEADER_SIZE <=? size s) && (size s <=? MAX_LAUNCHER_ARTIFACT_BYTES)) ;;
  check_field "source_mtime_ns" (0 <=? mtime_ns s) ;;
  check_field "source_ctime_ns" (0 <=? ctime_ns s) ;;
  check_field "sealed_copy_sha256" (is_sha256 (pf_sealed_copy_sha256 r)) ;;
  check_field "sealed_copy_size_bytes"
    ((ELF_HEADER_SIZE <=? pf_sealed_copy_size_bytes r)
     && (pf_sealed_copy_size_bytes r <=? MAX_LAUNCHER_ARTIFACT_BYTES)) ;;
  check_field "sealed_copy_mode" ((0 <=? pf_sealed_copy_mode r) && (pf_sealed_copy_mode r <=? 0xFFFF)) ;;
  check_field "sealed_copy_nlink" (pf_sealed_copy_nlink r =? 0) ;;
  check_field "sealed_copy_seals" (pf_sealed_copy_seals r =? 63) ;;
  artifact_and_receipt_bindings_are_exact r.

#[export] Instance InertFixtureLaunchExpectation_eq_dec : EqDecision InertFixtureLaunchExpectation.
Proof. solve_decision. Defined.

Section Preflight.
Context {W : Type} {os : OS W}.
Context (canonical_path : string -> bool).

(** A system call: its failure is an [OSError]. *)
Definition sys {L A} (c : Sys W A) : Act (W * L) exn A :=
  on_world (fun w => match c w with (Ok a, w') => (Ok a, w') | (Err errno, w') => (Err (OSError errno), w') end).

(** [except OSError as exc: h exc], other exceptions pass. *)
Definition except_os {L A} (m : Act (W * L) exn A) (h : Z -> exn) : Act (W * L) exn A :=
  try_except m (fun e => match e with OSError errno => throw (h errno) | e => throw e end).

(** [except LinuxInertLauncherArtifactRejected: raise e] around a pure check. *)
Definition except_rejected {A} (r : result exn A) (e : exn) : result exn A :=
  match r with Err (ArtifactExn (Rejected _)) => Err e | r => r end.

(** [_require_linux_x86_64] *)
Definition require_linux_x86_64 : result exn unit :=
  raise unavailable unsupported_platform when differ sys_platform "linux" ;;
  raise unavailable unsupported_architecture
    when differ machine "x86_64" || negb (pointer_size =? 8) || negb (long_size =? 8) ;;
  raise unavailable unsupported_architecture when negb descriptor_operations ;;
  Ok tt.

(** [_normalize_expectation] *)
Definition normalize_expectation (x : InertFixtureLaunchExpectation) : result exn InertFixtureLaunchExpectation :=
  let* frozen :=
    match inert_fixture_launch_expectation_for canonical_path (lx_intent_expectation x) (lx_launch_ledger_path x)
            (lx_worker_instance_id x) (lx_claim_ledger_id x) (lx_launch_ledger_id x) with
    | Ok frozen => Ok frozen
    | Err _ => Err (rejected invalid_expectation)
    end in
  raise rejected invalid_expectation when negb (bool_decide (frozen = x)) ;;
  let b := ix_binding (lx_intent_expectation frozen) in
  raise rejected seccomp_identity_mismatch
    when differ (ib_launcher_seccomp_policy_id b) FIXED_SECCOMP_POLICY_ID
         || differ (ib_launcher_seccomp_policy_sha256 b) FIXED_SECCOMP_POLICY_SHA256 ;;
  Ok frozen.

(** [_source_binding] *)
Definition source_binding (metadata : StatBinding) (fl : Z) (inheritable : bool) : result exn StatBinding :=
  raise rejected unsafe_source_artifact
    when negb (S_ISREG (mode metadata))
         || negb ((uid metadata =? 0) || (uid metadata =? geteuid))
         || negb (nlink metadata =? 1) || (inode metadata <? 1) || (device metadata <? 0)
         || (size metadata <? ELF_HEADER_SIZE) || (mtime_ns metadata <? 0) || (ctime_ns metadata <? 0)
         || unsafe_permissions (S_IMODE (mode metadata))
         || negb (Z.land fl O_ACCMODE =? O_RDONLY) || negb (Z.land fl O_PATH_LINUX =? 0) || inheritable ;;
  raise rejected artifact_too_large when MAX_LAUNCHER_ARTIFACT_BYTES <? size metadata ;;
  Ok metadata.

(** [_duplicate_source_fd]; its local is [duplicate].  The descriptor is closed in the
    [finally] block when [sys.exception()] is set: an exception of the body, or one the
    caller is handling. *)
Definition duplicate_source_fd_body (descriptor : Z) : Act (W * Z) exn (Z * StatBinding) :=
  let! duplicate := sys (dup_cloexec descriptor) in
  let! _ := set_locals (fun _ => duplicate) in
  let! metadata := sys (fstat duplicate) in
  let! fl := sys (get_flags duplicate) in
  let! inheritable := sys (get_inheritable duplicate) in
  let! binding := pure_act (source_binding metadata fl inheritable) in
  ret (duplicate, binding).

Definition duplicate_source_fd {L} (handling : bool) (descriptor : Z) : Act (W * L) exn (Z * StatBinding) :=
  throws rejected invalid_source_descriptor
    when (descriptor <? 0) || (MAX_LINUX_DESCRIPTOR <? descriptor) ;;
  call (-1)
    (finally
       (except_os (duplicate_source_fd_body descriptor) (fun errno => descriptor_failure errno false))
       (fun raised =>
          let! duplicate := get_locals in
          if (0 <=? duplicate) && (raised || handling) then suppress (sys (close duplicate)) else ret tt)).

(** The read loop: at most [fuel] chunks. *)
Fixpoint read_chunks {L} (fuel : nat) (descriptor total offset : Z) (short : exn) :
    Act (W * L) exn (list (list byte)) :=
  if offset <? total then
    match fuel with
    | O => throw short
    | S fuel =>
        let! chunk := sys (pread descriptor (Z.min ARTIFACT_READ_CHUNK_BYTES (total - offset)) offset) in
        throws short when bool_decide (chunk = []) ;;
        let! rest := read_chunks fuel descriptor total (offset + blen chunk) short in
        ret (chunk :: rest)
    end
  else ret [].

Definition read_failure (errno : Z) : exn :=
  if one_of errno [EMFILE; ENFILE; ENOMEM; ENOSPC] then lifecycle resource_exhausted else lifecycle io_failure.

(** The [try] body of [_read_stable_source]: chunks, and the metadata and flags before
    and after. *)
Definition read_stable_body {L} (descriptor : Z) (initial : StatBinding) :
    Act (W * L) exn (list (list byte) * (Z * bool) * (StatBinding * Z * bool)) :=
  let! initial_flags := sys (get_flags descriptor) in
  let! initial_inheritable := sys (get_inheritable descriptor) in
  let! metadata := sys (fstat descriptor) in
  let! observed_initial :=
    pure_act (except_rejected (source_binding metadata initial_flags initial_inheritable) (rejected source_changed)) in
  throws rejected source_changed when differ observed_initial initial ;;
  let! chunks := read_chunks (Z.to_nat (size initial)) descriptor (size initial) 0 (rejected source_changed) in
  let! extra := sys (pread descriptor 1 (size initial)) in
  throws rejected source_changed when negb (bool_decide (extra = [])) ;;
  let! final_metadata := sys (fstat descriptor) in
  let! final_flags := sys (get_flags descriptor) in
  let! final_inheritable := sys (get_inheritable descriptor) in
  let! final :=
    pure_act (except_rejected (source_binding final_metadata final_flags final_inheritable) (rejected source_changed)) in
  ret (chunks, (initial_flags, initial_inheritable), (final, final_flags, final_inheritable)).

(** [_read_stable_source] *)
Definition read_stable_source {L} (descriptor : Z) (initial : StatBinding) : Act (W * L) exn (list byte) :=
  let! (chunks, (initial_flags, initial_inheritable), (final, final_flags, final_inheritable)) :=
    except_os (read_stable_body descriptor initial) read_failure in
  throws rejected source_changed
    when differ final initial || negb (final_flags =? initial_flags)
         || negb (bool_decide (final_inheritable = initial_inheritable)) ;;
  let content := concat chunks in
  throws rejected source_changed when negb (blen content =? size initial) ;;
  ret content.

(** [_memfd_create] *)
Definition memfd_create {L} : Act (W * L) exn Z :=
  let! descriptor :=
    except_os (sys memfd_create_exec)
      (fun errno => if one_of errno [ENOSYS; EINVAL; EPERM; EACCES] then unavailable memfd_unavailable
                    else descriptor_failure errno true) in
  let! _ := try_except (sys (set_not_inheritable descriptor))
              (fun e => let! _ := suppress (sys (close descriptor)) in throw e) in
  ret descriptor.

(** [_open_trusted_procfd]; its local is [descriptor]. *)
Definition open_trusted_procfd_body : Act (W * Z) exn Z :=
  let! descriptor := sys open_proc_self_fd in
  let! _ := set_locals (fun _ => descriptor) in
  let! metadata := sys (fstat descriptor) in
  let! bad := if negb (S_ISDIR (mode metadata)) then ret true else sys (get_inheritable descriptor) in
  throws OSError ENOTDIR when bad ;;
  let! filesystem_type := sys (fstatfs_type descriptor) in
  throws OSError ENODEV when negb (filesystem_type =? PROC_SUPER_MAGIC) ;;
  ret descriptor.

Definition open_trusted_procfd {L} : Act (W * L) exn Z :=
  call (-1)
    (try_except open_trusted_procfd_body
       (fun e =>
          match e with
          | OSError errno =>
              let! descriptor := get_locals in
              let! _ := if 0 <=? descriptor then suppress (sys (close descriptor)) else ret tt in
              if one_of errno [EMFILE; ENFILE; ENOMEM; ENOSPC] then throw (descriptor_failure errno false)
              else throw (unavailable trusted_procfs_unavailable)
          | e => throw e
          end)).

(** [_hash_descriptor] *)
Definition hash_descriptor {L} (descriptor total : Z) : Act (W * L) exn string :=
  let! chunks := read_chunks (Z.to_nat total) descriptor total 0 (OSError EIO) in
  let! extra := sys (pread descriptor 1 total) in
  throws OSError EIO when negb (bool_decide (extra = [])) ;;
  ret (sha256_bytes (string_of_list_byte (concat chunks))).

(** [_validate_sealed_exec_fd]; the disjuncts are evaluated in order. *)
Definition validate_sealed_exec_fd {L} (descriptor : Z) (expected : StatBinding) (expected_sha256 : string)
    (rehash : bool) : Act (W * L) exn unit :=
  except_os
    (let! binding := sys (fstat descriptor) in
     let! fl := sys (get_flags descriptor) in
     let! seals := sys (get_seals descriptor) in
     throws OSError EPERM
       when differ binding expected || negb (mode binding =? SEALED_EXECUTABLE_MODE) || negb (nlink binding =? 0)
            || negb (Z.land fl O_ACCMODE =? O_RDONLY) || negb (Z.land fl O_PATH_LINUX =? 0) ;;
     let! inheritable := sys (get_inheritable descriptor) in
     throws OSError EPERM when inheritable || negb (seals =? REQUIRED_EXEC_SEALS) ;;
     if rehash then
       let! digest := hash_descriptor descriptor (size binding) in
       throws OSError EPERM when differ digest expected_sha256 ;; ret tt
     else ret tt)
    (fun errno => descriptor_failure errno true).

(** The locals of [_create_sealed_exec_copy]. *)
Record CopyFds := { writable_fd : Z; procfd : Z; exec_fd : Z }.

(** The write loop: [written < len(view)]. *)
Fixpoint write_all {L} (fuel : nat) (descriptor : Z) (view : list byte) : Act (W * L) exn unit :=
  match view with
  | [] => ret tt
  | _ =>
      match fuel with
      | O => throw (OSError EIO)
      | S fuel =>
          let! count := sys (write descriptor view) in
          throws OSError EIO when count <=? 0 ;;
          write_all fuel descriptor (drop (Z.to_nat count) view)
      end
  end.

(** Sealing the copy. *)
Definition seal_copy {L} (descriptor : Z) : Act (W * L) exn unit :=
  let! seals :=
    except_os
      (let! _ := sys (add_seals descriptor REQUIRED_EXEC_SEALS) in sys (get_seals descriptor))
      (fun errno => if one_of errno [EINVAL; ENOTTY; EOPNOTSUPP; EPERM] then unavailable sealing_unavailable
                    else descriptor_failure errno true) in
  throws unavailable sealing_unavailable when negb (seals =? REQUIRED_EXEC_SEALS) ;;
  ret tt.

Definition create_sealed_exec_copy_body (content : list byte) (expected_sha256 : string) :
    Act (W * CopyFds) exn (Z * StatBinding) :=
  let! writable := memfd_create in
  let! _ := set_locals (fun l => {| writable_fd := writable; procfd := procfd l; exec_fd := exec_fd l |}) in
  let! _ := write_all (length content) writable content in
  let! _ := sys (fchmod writable 0x140) in
  let! _ := sys (fsync writable) in
  let! _ := seal_copy writable in
  let! proc := open_trusted_procfd in
  let! _ := set_locals (fun l => {| writable_fd := writable_fd l; procfd := proc; exec_fd := exec_fd l |}) in
  let! exec := sys (open_readonly_at proc writable) in
  let! _ := set_locals (fun l => {| writable_fd := writable_fd l; procfd := procfd l; exec_fd := exec |}) in
  let! _ := sys (set_not_inheritable exec) in
  let! writable_metadata := sys (fstat writable) in
  let! exec_metadata := sys (fstat exec) in
  throws OSError EPERM
    when differ (device exec_metadata, inode exec_metadata) (device writable_metadata, inode writable_metadata)
         || negb (S_ISREG (mode exec_metadata)) || negb (S_IMODE (mode exec_metadata) =? 0x140)
         || negb (nlink exec_metadata =? 0) || negb (size exec_metadata =? blen content) ;;
  let! _ := set_locals (fun l => {| writable_fd := -1; procfd := procfd l; exec_fd := exec_fd l |}) in
  let! _ := sys (close writable) in
  let! binding := sys (fstat exec) in
  let! _ := validate_sealed_exec_fd exec binding expected_sha256 true in
  let! _ := set_locals (fun l => {| writable_fd := writable_fd l; procfd := procfd l; exec_fd := -1 |}) in
  ret (exec, binding).

Definition close_if_open {L} (descriptor : Z) : Act (W * L) exn unit :=
  if 0 <=? descriptor then suppress (sys (close descriptor)) else ret tt.

(** [_create_sealed_exec_copy] *)
Definition create_sealed_exec_copy {L} (content : list byte) (expected_sha256 : string) :
    Act (W * L) exn (Z * StatBinding) :=
  call {| writable_fd := -1; procfd := -1; exec_fd := -1 |}
    (finally
       (except_os (create_sealed_exec_copy_body content expected_sha256)
                  (fun errno => descriptor_failure errno true))
       (fun _ =>
          let! l := get_locals in
          let! _ := close_if_open (exec_fd l) in
          let! _ := close_if_open (procfd l) in
          close_if_open (writable_fd l))).

(** ** The preflight *)
Definition lift_artifact {A} (r : result ArtifactError A) : result exn A :=
  match r with Ok a => Ok a | Err e => Err (ArtifactExn e) end.

Definition receipt_with_id (x : InertFixtureLaunchExpectation) (source sealed : StatBinding) (id : string) :
    PreflightReceipt :=
  let b := ix_binding (lx_intent_expectation x) in
  {| pf_preflight_id := id; pf_policy_id := ib_policy_id b; pf_policy_sha256 := ib_policy_sha256 b;
     pf_worker_pool_audience := ib_worker_pool_audience b; pf_worker_instance_id := ib_worker_instance_id b;
     pf_claim_ledger_id := ib_claim_ledger_id b; pf_launch_ledger_id := ib_launch_ledger_id b;
     pf_delegated_root_id := ib_delegated_root_id b; pf_launcher_artifact_id := ib_launcher_artifact_id b;
     pf_launcher_artifact_sha256 := ib_launcher_artifact_sha256 b;
     pf_launcher_seccomp_policy_id := ib_launcher_seccomp_policy_id b;
     pf_launcher_seccomp_policy_sha256 := ib_launcher_seccomp_policy_sha256 b;
     pf_source := source; pf_sealed_copy_sha256 := ib_launcher_artifact_sha256 b;
     pf_sealed_copy_size_bytes := size sealed; pf_sealed_copy_mode := mode sealed;
     pf_sealed_copy_nlink := nlink sealed; pf_sealed_copy_seals := REQUIRED_EXEC_SEALS |}.

(** [_build_receipt]: the identity is over the fields without it. *)
Definition build_preflight_receipt (x : InertFixtureLaunchExpectation) (source sealed : StatBinding) :
    result exn PreflightReceipt :=
  match (let* id := preflight_id (PreflightReceipt_fields (receipt_with_id x source sealed "")) in
         construct validate_PreflightReceipt (receipt_with_id x source sealed id)) with
  | Ok r => Ok r
  | Err _ => Err (lifecycle io_failure)
  end.

(** The object [LinuxInertLauncherArtifact]. *)
Record LauncherArtifact := {
  art_receipt : PreflightReceipt;
  art_exec_fd : Z;
  art_binding : StatBinding
}.

(** The locals of [preflight_inert_launcher_artifact]. *)
Record PreflightFds := { source_fd : Z; sealed_fd : Z }.

Definition preflight_body (handling : bool) (x : InertFixtureLaunchExpectation) (launcher_artifact_fd : Z) :
    Act (W * PreflightFds) exn LauncherArtifact :=
  let! _ := pure_act require_linux_x86_64 in
  let! frozen := pure_act (normalize_expectation x) in
  let! _ := except_os (sys load_libc) (fun _ => unavailable memfd_unavailable) in
  let! (source, source_stat) := duplicate_source_fd handling launcher_artifact_fd in
  let! _ := set_locals (fun l => {| source_fd := source; sealed_fd := sealed_fd l |}) in
  let! content := read_stable_source source source_stat in
  let b := ix_binding (lx_intent_expectation frozen) in
  let expected_sha256 := ib_launcher_artifact_sha256 b in
  throws rejected artifact_digest_mismatch
    when differ (sha256_bytes (string_of_list_byte content)) expected_sha256 ;;
  let! _ := pure_act (lift_artifact (validate_elf64_static_pie content)) in
  let! _ := pure_act (lift_artifact (require_embedded_seccomp_identity content
                        (ib_launcher_seccomp_policy_id b) (ib_launcher_seccomp_policy_sha256 b))) in
  let! (sealed, sealed_stat) := create_sealed_exec_copy content expected_sha256 in
  let! _ := set_locals (fun l => {| source_fd := source_fd l; sealed_fd := sealed |}) in
  let! receipt := pure_act (build_preflight_receipt frozen source_stat sealed_stat) in
  let! _ := set_locals (fun l => {| source_fd := source_fd l; sealed_fd := -1 |}) in
  ret {| art_receipt := receipt; art_exec_fd := sealed; art_binding := sealed_stat |}.

(** [preflight_inert_launcher_artifact] *)
Definition preflight_inert_launcher_artifact {L} (handling : bool) (x : InertFixtureLaunchExpectation)
    (launcher_artifact_fd : Z) : Act (W * L) exn LauncherArtifact :=
  call {| source_fd := -1; sealed_fd := -1 |}
    (finally (preflight_body handling x launcher_artifact_fd)
       (fun _ => let! l := get_locals in
                 let! _ := close_if_open (sealed_fd l) in
                 close_if_open (source_fd l))).

(** ** The object's methods; each holds the lock throughout. *)
Definition artifact_closed (a : LauncherArtifact) : bool := art_exec_fd a <? 0.

Definition set_exec_fd (fd : Z) (a : LauncherArtifact) : LauncherArtifact :=
  {| art_receipt := art_receipt a; art_exec_fd := fd; art_binding := art_binding a |}.

(** [duplicate_executable_fd]; its local is [descriptor]. *)
Definition duplicate_executable_fd : Act (W * LauncherArtifact) exn Z :=
  let! a := get_locals in
  throws lifecycle sealed_artifact_closed when art_exec_fd a <? 0 ;;
  let sha256 := pf_launcher_artifact_sha256 (art_receipt a) in
  let! _ := validate_sealed_exec_fd (art_exec_fd a) (art_binding a) sha256 false in
  call (-1)
    (finally
       (except_os
          (let! descriptor := sys (dup_cloexec (art_exec_fd a)) in
           let! _ := set_locals (fun _ => descriptor) in
           let! _ := validate_sealed_exec_fd descriptor (art_binding a) sha256 false in
           let! _ := set_locals (fun _ => -1) in
           ret descriptor)
          (fun errno => descriptor_failure errno true))
       (fun _ => let! descriptor := get_locals in close_if_open descriptor)).

(** [close], also [__exit__] *)
Definition close_artifact : Act (W * LauncherArtifact) exn unit :=
  let! a := get_locals in
  if 0 <=? art_exec_fd a then
    let! _ := set_locals (set_exec_fd (-1)) in
    except_os (sys (close (art_exec_fd a))) (fun _ => lifecycle sealed_artifact_changed)
  else ret tt.

(** [__enter__] *)
Definition enter_artifact : Act (W * LauncherArtifact) exn LauncherArtifact :=
  let! a := get_locals in
  throws lifecycle sealed_artifact_closed when artifact_closed a ;;
  ret a.

(** [__del__] *)
Definition del_artifact : Act (W * LauncherArtifact) exn unit :=
  let! a := get_locals in
  if 0 <=? art_exec_fd a then
    let! _ := set_locals (set_exec_fd (-1)) in suppress (sys (close (art_exec_fd a)))
  else ret tt.
End Preflight.

End Artifact.
