(* ===== verification/ArtifactFacts.v ===== *)
(** * Guarantees of the launcher artifact preflight

    [OSLaws] states what the descriptor accounting relies on: which system calls
    allocate a descriptor, that [close] releases it even when it reports an error, and
    that the others leave the descriptor table alone.  Against it: the preflight owns
    exactly one descriptor when it succeeds and none when it fails; the object gives
    out fresh descriptors until it is closed; success certifies the bytes. *)
From Stdlib Require Import ZArith String Ascii Lia.
From stdpp Require Import base tactics list strings gmap.
From S2P Require Import Prelude Effects Sha256 Json Models Samples Job Fixture FixtureFacts Launch LaunchFacts Elf ElfFacts Artifact.
Local Open Scope Z_scope.

Module ArtifactFacts.
Import Sha256 Json Models Job Fixture Launch Elf Artifact.

(** ** Documented behaviour of the system calls *)
Definition leaves_open {W A} (open_fds : W -> gset Z) (c : Sys W A) : Prop :=
  forall w, open_fds (c w).2 = open_fds w.

Definition opens {W} (open_fds : W -> gset Z) (c : Sys W Z) : Prop :=
  forall w, match c w with
            | (Ok d, w') => 0 <= d /\ (d ∉ open_fds w) /\ open_fds w' = {[d]} ∪ open_fds w
            | (Err _, w') => open_fds w' = open_fds w
            end.

Definition EBADF : Z := 9.

Class OSLaws (W : Type) {os : OS W} := {
  open_fds : W -> gset Z;
  load_libc_law : leaves_open open_fds load_libc;
  fstat_law fd : leaves_open open_fds (fstat fd);
  get_flags_law fd : leaves_open open_fds (get_flags fd);
  get_inheritable_law fd : leaves_open open_fds (get_inheritable fd);
  set_not_inheritable_law fd : leaves_open open_fds (set_not_inheritable fd);
  pread_law fd n o : leaves_open open_fds (pread fd n o);
  write_law fd bs : leaves_open open_fds (write fd bs);
  fchmod_law fd m : leaves_open open_fds (fchmod fd m);
  fsync_law fd : leaves_open open_fds (fsync fd);
  add_seals_law fd z : leaves_open open_fds (add_seals fd z);
  get_seals_law fd : leaves_open open_fds (get_seals fd);
  fstatfs_law fd : leaves_open open_fds (fstatfs_type fd);
  dup_law fd : opens open_fds (dup_cloexec fd);
  memfd_law : opens open_fds memfd_create_exec;
  open_proc_law : opens open_fds open_proc_self_fd;
  open_at_law dir fd : opens open_fds (open_readonly_at dir fd);
  close_law fd w : open_fds (close fd w).2 = open_fds w ∖ {[fd]};
  closed_fd_law fd w : fd ∉ open_fds w -> (get_flags fd w).1 = Err EBADF
}.

Create HintDb fds.
#[export] Hint Resolve load_libc_law fstat_law get_flags_law get_inheritable_law set_not_inheritable_law pread_law
  write_law fchmod_law fsync_law add_seals_law get_seals_law fstatfs_law : fds.
#[export] Hint Resolve dup_law memfd_law open_proc_law open_at_law : fds.

(** ** Functions that leave the descriptors and the caller's locals alone *)
Section Accounting.
Context {W : Type} {os : OS W} {laws : OSLaws W}.

Definition keeps {L A} (m : Act (W * L) exn A) : Prop :=
  forall s, open_fds (m s).2.1 = open_fds s.1 /\ (m s).2.2 = s.2.

Lemma keeps_ret {L A} (a : A) : keeps (@ret (W * L) exn A a).
Proof. done. Qed.
Lemma keeps_throw {L A} e : keeps (@throw (W * L) exn A e).
Proof. done. Qed.
Lemma keeps_pure {L A} r : keeps (@pure_act (W * L) exn A r).
Proof. done. Qed.
Lemma keeps_get {L} : keeps (@get_locals W L exn).
Proof. done. Qed.

Lemma keeps_sys {L A} (c : Sys W A) : leaves_open open_fds c -> keeps (L := L) (sys c).
Proof.
  intros Hc [w l]. unfold sys, on_world. cbn. specialize (Hc w). by destruct (c w) as [[a|e] w'].
Qed.

Lemma keeps_seq {L A B} (m : Act (W * L) exn A) (k : A -> Act (W * L) exn B) :
  keeps m -> (forall a, keeps (k a)) -> keeps (seq_act m k).
Proof.
  intros Hm Hk s. unfold seq_act. specialize (Hm s). destruct (m s) as [[a|e] s']; cbn in *; [|done].
  destruct (Hk a s') as [-> ->]. done.
Qed.

Lemma keeps_try {L A} (m : Act (W * L) exn A) h : keeps m -> (forall e, keeps (h e)) -> keeps (try_except m h).
Proof.
  intros Hm Hh s. unfold try_except. specialize (Hm s). destruct (m s) as [[a|e] s']; cbn in *; [done|].
  destruct (Hh e s') as [-> ->]. done.
Qed.

Lemma keeps_if {L A} (b : bool) (m k : Act (W * L) exn A) : keeps m -> keeps k -> keeps (if b then m else k).
Proof. by destruct b. Qed.

Lemma keeps_except_os {L A} (m : Act (W * L) exn A) h : keeps m -> keeps (except_os m h).
Proof. intros Hm. apply keeps_try; [done|]. intros []; apply keeps_throw. Qed.
End Accounting.

#[export] Hint Resolve keeps_ret keeps_throw keeps_pure keeps_get keeps_sys keeps_except_os : fds.
Ltac keeps_tac :=
  repeat first
    [ solve [eauto with fds]
    | apply keeps_seq; [|intros ?]
    | apply keeps_if
    | apply keeps_except_os
    | match goal with |- keeps (match ?x with _ => _ end) => destruct x end ].

Section Keepers.
Context {W : Type} {os : OS W} {laws : OSLaws W} {L : Type}.

Lemma keeps_read_chunks fuel d total offset short : keeps (L := L) (read_chunks fuel d total offset short).
Proof. revert offset. induction fuel as [|fuel IH]; intros offset; cbn [read_chunks]; keeps_tac. Qed.
#[local] Hint Resolve keeps_read_chunks : fds.

Lemma keeps_write_all fuel d view : keeps (L := L) (write_all fuel d view).
Proof. revert view. induction fuel as [|fuel IH]; intros [|b view]; cbn [write_all]; keeps_tac. Qed.

Lemma keeps_read_stable d initial : keeps (L := L) (read_stable_source d initial).
Proof. unfold read_stable_source, read_stable_body. keeps_tac. Qed.

Lemma keeps_hash d total : keeps (L := L) (hash_descriptor d total).
Proof. unfold hash_descriptor. keeps_tac. Qed.
#[local] Hint Resolve keeps_hash : fds.

Lemma keeps_validate d b sha rehash : keeps (L := L) (validate_sealed_exec_fd d b sha rehash).
Proof. unfold validate_sealed_exec_fd. keeps_tac. Qed.

Lemma keeps_seal d : keeps (L := L) (seal_copy d).
Proof. unfold seal_copy. keeps_tac. Qed.
End Keepers.
#[export] Hint Resolve keeps_read_stable keeps_write_all keeps_validate keeps_seal : fds.
(** ** Functions that allocate

    [runs l o m q]: from locals [l] and open descriptors [o], [m] ends in an outcome,
    descriptors and locals with [q]. *)
Section Runs.
Context {W : Type} {os : OS W} {laws : OSLaws W} {L : Type}.
Implicit Types (l : L) (o : gset Z).

Definition runs {A} l o (m : Act (W * L) exn A) (q : result exn A -> gset Z -> L -> Prop) : Prop :=
  triple (fun s => open_fds s.1 = o /\ s.2 = l) m (fun r s => q r (open_fds s.1) s.2).

(** [m] returns a fresh descriptor [f a] when it succeeds, and nothing else. *)
Definition allocates {A} (m : Act (W * L) exn A) (f : A -> Z) : Prop :=
  forall l o, runs l o m (fun r o' l' => l' = l /\
    match r with Ok a => 0 <= f a /\ (f a ∉ o) /\ o' = {[f a]} ∪ o | Err _ => o' = o end).

Lemma runs_ret {A} l o (a : A) q : q (Ok a) o l -> runs l o (ret a) q.
Proof. intros H. by apply triple_ret; intros s [-> ->]. Qed.

Lemma runs_throw {A} l o e (q : result exn A -> gset Z -> L -> Prop) : q (Err e) o l -> runs l o (throw e) q.
Proof. intros H. by apply triple_throw; intros s [-> ->]. Qed.

Lemma runs_keeps {A} l o (m : Act (W * L) exn A) q : keeps m -> (forall r, q r o l) -> runs l o m q.
Proof. intros Hm H s [E1 E2]. destruct (Hm s) as [-> ->]. rewrite E1, E2. apply H. Qed.

Lemma runs_seq {A B} l o (m : Act (W * L) exn A) R (k : A -> Act (W * L) exn B) q :
  runs l o m R -> (forall a o' l', R (Ok a) o' l' -> runs l' o' (k a) q) ->
  (forall e o' l', R (Err e) o' l' -> q (Err e) o' l') -> runs l o (seq_act m k) q.
Proof.
  intros Hm Hk He. eapply triple_seq; [exact Hm| |intros e s; apply He].
  intros a s H. by apply (Hk a _ _ H).
Qed.

Lemma runs_seq_keeps {A B} l o (m : Act (W * L) exn A) (k : A -> Act (W * L) exn B) q :
  keeps m -> (forall a, runs l o (k a) q) -> (forall e, q (Err e) o l) -> runs l o (seq_act m k) q.
Proof.
  intros Hm Hk He. apply (runs_seq _ _ _ (fun _ o' l' => o' = o /\ l' = l)); [by apply runs_keeps|..].
  - by intros a ? ? [-> ->].
  - by intros e ? ? [-> ->].
Qed.

Lemma runs_set {A} l o f (k : unit -> Act (W * L) exn A) q :
  runs (f l) o (k tt) q -> runs l o (seq_act (set_locals f) k) q.
Proof. intros H s [E1 E2]. unfold seq_act, set_locals. apply H. by rewrite E2. Qed.

Lemma runs_get {A} l o (k : L -> Act (W * L) exn A) q : runs l o (k l) q -> runs l o (seq_act get_locals k) q.
Proof. intros H s [E1 E2]. unfold seq_act, get_locals. rewrite E2. by apply H. Qed.

Lemma opens_allocates c : opens open_fds c -> allocates (sys c) id.
Proof.
  intros Hc l o [w l'] [<- <-]. unfold sys, on_world. cbn. specialize (Hc w).
  destruct (c w) as [[d|e] w']; cbn in *; tauto.
Qed.

Lemma runs_alloc {A B} l o (m : Act (W * L) exn A) f (k : A -> Act (W * L) exn B) q :
  allocates m f ->
  (forall a, 0 <= f a -> f a ∉ o -> runs l ({[f a]} ∪ o) (k a) q) -> (forall e, q (Err e) o l) ->
  runs l o (seq_act m k) q.
Proof.
  intros Hm Hk He. eapply runs_seq; [apply Hm|..].
  - intros a ? ? (-> & H1 & H2 & ->). by apply Hk.
  - by intros e ? ? [-> ->].
Qed.

Lemma runs_close {A} l o d (k : unit -> Act (W * L) exn A) q :
  runs l (o ∖ {[d]}) (k tt) q -> (forall e, q (Err e) (o ∖ {[d]}) l) -> runs l o (seq_act (sys (close d)) k) q.
Proof.
  intros Hk He. apply (runs_seq _ _ _ (fun _ o' l' => o' = o ∖ {[d]} /\ l' = l)).
  - intros [w l'] [<- <-]. unfold sys, on_world. cbn. pose proof (close_law d w) as H.
    by destruct (close d w) as [[[]|] w'].
  - by intros [] ? ? [-> ->].
  - by intros e ? ? [-> ->].
Qed.

Definition held (d : Z) : gset Z := if 0 <=? d then {[d]} else ∅.

Lemma runs_suppress_close l o d q : q (Ok tt) (o ∖ {[d]}) l -> runs l o (suppress (sys (close d))) q.
Proof.
  intros H [w l'] [<- <-]. unfold suppress, sys, on_world. cbn. pose proof (close_law d w) as E.
  destruct (close d w) as [[[]|] w']; cbn in *; by rewrite E.
Qed.

Lemma runs_close_if_open l o d q : q (Ok tt) (o ∖ held d) l -> runs l o (close_if_open d) q.
Proof.
  intros H. unfold close_if_open, held in *. destruct (0 <=? d); [by apply runs_suppress_close|].
  apply runs_ret. by rewrite difference_empty_L in H.
Qed.

Lemma runs_except_os {A} l o (m : Act (W * L) exn A) h q :
  runs l o m q -> (forall e e' o l, q (Err e) o l -> q (Err e') o l) -> runs l o (except_os m h) q.
Proof.
  intros Hm He. eapply triple_try; [exact Hm|done|].
  intros []; apply triple_throw; intros s; by apply He.
Qed.

Lemma runs_finally {A} l o (m : Act (W * L) exn A) R c q :
  runs l o m R ->
  (forall r o' l', R r o' l' -> runs l' o' (c (negb (is_ok r)))
     (fun u o l => match u with Ok _ => q r o l | Err e => q (Err e) o l end)) ->
  runs l o (finally m c) q.
Proof.
  intros Hm Hc. eapply triple_finally; [exact Hm|]. intros r s H. by apply (Hc r _ _ H).
Qed.
End Runs.

Lemma runs_call {W} {os : OS W} {laws : OSLaws W} {L L' A} (l : L) (l0 : L') o (m : Act (W * L') exn A) q :
  runs l0 o m (fun r o' _ => q r o' l) -> runs l o (call l0 m) q.
Proof. intros H [w l'] [<- <-]. unfold call. cbn. specialize (H (w, l0)). destruct (m (w, l0)). by apply H. Qed.

Section Allocation.
Context {W : Type} {os : OS W} {laws : OSLaws W}.

Lemma runs_try {L A} (l : L) o (m : Act (W * L) exn A) R h q :
  runs l o m R -> (forall a o' l', R (Ok a) o' l' -> q (Ok a) o' l') ->
  (forall e o' l', R (Err e) o' l' -> runs l' o' (h e) q) -> runs l o (try_except m h) q.
Proof.
  intros Hm Hk Hh. eapply triple_try; [exact Hm|intros a s; apply Hk|]. intros e s H. by apply (Hh e _ _ H).
Qed.

Lemma allocates_except_os {L A} (m : Act (W * L) exn A) f h : allocates m f -> allocates (except_os m h) f.
Proof. intros Hm l o. apply runs_except_os; [apply Hm|]. tauto. Qed.

(** A descriptor closed when the step after its allocation fails. *)
Lemma fresh_closed (d : Z) (o : gset Z) : d ∉ o -> ({[d]} ∪ o) ∖ {[d]} = o.
Proof. set_solver. Qed.

Lemma memfd_create_allocates {L} : allocates (L := L) memfd_create id.
Proof.
  intros l o. unfold memfd_create. eapply runs_alloc; [apply allocates_except_os, opens_allocates; auto with fds| |done].
  unfold id. intros d Hd Ho. eapply (runs_seq _ _ _ (fun r o' l' => l' = l /\ o' = if is_ok r then {[d]} ∪ o else o)).
  - apply (runs_try _ _ _ (fun _ o' l' => o' = {[d]} ∪ o /\ l' = l)).
    + by apply runs_keeps; [auto with fds|].
    + by intros a ? ? [-> ->].
    + intros e ? ? [-> ->]. eapply (runs_seq _ _ _ (fun r o' l' => l' = l /\ o' = o)).
      * apply runs_suppress_close. split; [done|by apply fresh_closed].
      * intros a ? ? [-> ->]. by apply runs_throw.
      * by intros e' ? ? [-> ->].
  - intros a ? ? [-> ->]. by apply runs_ret.
  - by intros e ? ? [-> ->].
Qed.

(** The locals hold every descriptor the body owns. *)
Lemma held_nonneg d : 0 <= d -> held d = {[d]}.
Proof. unfold held. intros H. by destruct (Z.leb_spec 0 d); [|lia]. Qed.
Lemma held_none : held (-1) = ∅.
Proof. done. Qed.

Lemma runs_if {L A} (b : bool) (l : L) o (m k : Act (W * L) exn A) q :
  runs l o m q -> runs l o k q -> runs l o (if b then m else k) q.
Proof. apply triple_if. Qed.

(** Only system-call failures. *)
Definition raises_os {L A} (m : Act (W * L) exn A) : Prop :=
  forall s, match (m s).1 with Err (ArtifactExn _) => False | _ => True end.

Lemma raises_os_sys {L A} (c : Sys W A) : raises_os (L := L) (sys c).
Proof. intros [w l]. unfold sys, on_world. cbn. by destruct (c w) as [[|] ?]. Qed.

Lemma raises_os_seq {L A B} (m : Act (W * L) exn A) (k : A -> Act (W * L) exn B) :
  raises_os m -> (forall a, raises_os (k a)) -> raises_os (seq_act m k).
Proof.
  intros Hm Hk s. unfold seq_act. specialize (Hm s). destruct (m s) as [[a|e] s']; [apply Hk|done].
Qed.

Lemma raises_os_body : raises_os open_trusted_procfd_body.
Proof.
  unfold open_trusted_procfd_body.
  repeat first [apply raises_os_sys | apply raises_os_seq; [|intros ?] | done
               | match goal with |- raises_os (if ?b then _ else _) => destruct b end].
Qed.

Lemma runs_raises_os {L A} (l : L) o (m : Act (W * L) exn A) q :
  raises_os m -> runs l o m q -> runs l o m (fun r o l => q r o l /\ match r with Err (ArtifactExn _) => False | _ => True end).
Proof. intros Hm H s Hs. split; [by apply H|apply Hm]. Qed.

Lemma open_trusted_procfd_allocates {L} : allocates (L := L) open_trusted_procfd id.
Proof.
  intros l o. unfold open_trusted_procfd. apply runs_call.
  eapply runs_try; [apply (runs_raises_os _ _ _ (fun r o' d => match r with
    | Ok a => a = d /\ 0 <= d /\ (d ∉ o) /\ o' = {[d]} ∪ o
    | Err _ => o' ∖ held d = o end)); [apply raises_os_body|]|..].
  - unfold open_trusted_procfd_body. eapply runs_alloc; [apply opens_allocates; auto with fds| |].
    2: { intros e. unfold held. cbn. set_solver. }
    intros d Hd Ho. apply runs_set. unfold id in *.
    assert (({[d]} ∪ o) ∖ held d = o) as Hc by (rewrite held_nonneg by done; by apply fresh_closed).
    repeat first [apply runs_seq_keeps; [solve [keeps_tac]|intros ?|done] | apply runs_if; [by apply runs_throw|]].
    by apply runs_ret.
  - by intros a o' d [(-> & H1 & H2 & ->) _].
  - intros [a|errno] o' d [H []]. apply runs_get.
    eapply (runs_seq _ _ _ (fun _ o1 _ => o1 = o)); [by apply (runs_close_if_open d o' d)|..].
    + intros [] ? ? ->. by apply runs_if; apply runs_throw.
    + by intros e ? ? ->.
Qed.
End Allocation.

Ltac run_tac :=
  repeat first
    [ apply runs_set | apply runs_get
    | apply runs_seq_keeps; [solve [keeps_tac]|intros ?|]
    | apply runs_if; [apply runs_throw|] ].

Section Ownership.
Context {W : Type} {os : OS W} {laws : OSLaws W}.

Lemma runs_seq_close_if_open {L A} (l : L) o d (k : unit -> Act (W * L) exn A) q :
  runs l (o ∖ held d) (k tt) q -> runs l o (seq_act (close_if_open d) k) q.
Proof.
  intros H. apply (runs_seq _ _ _ (fun r o' l' => r = Ok tt /\ o' = o ∖ held d /\ l' = l)).
  - by apply runs_close_if_open.
  - by intros [] ? ? (_ & -> & ->).
  - by intros e ? ? [? _].
Qed.

(** The descriptors a body still owns are the ones its locals hold. *)
Definition owns {L} (fds : L -> gset Z) (o : gset Z) (o' : gset Z) (l : L) : Prop := o' ∖ fds l = o.

Lemma duplicate_source_allocates {L} d : allocates (L := L) (duplicate_source_fd false d) fst.
Proof.
  intros l o. unfold duplicate_source_fd. apply runs_if; [by apply runs_throw|]. apply runs_call.
  eapply (runs_finally _ _ _ (fun r o' l' => match r with
    | Ok a => a.1 = l' /\ 0 <= l' /\ (l' ∉ o) /\ o' = {[l']} ∪ o
    | Err _ => owns held o o' l' end)).
  - apply runs_except_os; [|by intros]. unfold duplicate_source_fd_body.
    eapply runs_alloc; [apply opens_allocates; auto with fds| |].
    2: { intros e. unfold owns. rewrite held_none. set_solver. }
    unfold id. intros f Hf Ho.
    assert (owns held o ({[f]} ∪ o) f) by (unfold owns; rewrite held_nonneg by done; by apply fresh_closed).
    run_tac; try done. by apply runs_ret.
  - intros [a|e] o' f; cbn [is_ok negb orb].
    + intros (E & H1 & H2 & ->). apply runs_get. rewrite andb_false_r.
      apply runs_ret. by rewrite E.
    + intros Ho. apply runs_get. rewrite andb_true_r.
      by apply (runs_close_if_open f o' f (fun u o2 _ => match u with Ok _ => l = l /\ o2 = o | Err _ => l = l /\ o2 = o end)).
Qed.

Definition copy_fds (l : CopyFds) : gset Z := held (exec_fd l) ∪ held (procfd l) ∪ held (writable_fd l).

Definition preflight_fds (l : PreflightFds) : gset Z := held (sealed_fd l) ∪ held (source_fd l).

Ltac fds_tac :=
  cbn; unfold copy_fds, preflight_fds; cbn [writable_fd procfd exec_fd source_fd sealed_fd];
  rewrite ?held_none, ?held_nonneg by done.

(** What the body of the copy leaves: the result apart, only what its locals hold. *)
Definition copy_post (o : gset Z) (r : result exn (Z * StatBinding)) (o' : gset Z) (l : CopyFds) : Prop :=
  match r with
  | Ok (d, _) => 0 <= d /\ (d ∉ o) /\ (d ∉ copy_fds l) /\ o' ∖ copy_fds l = {[d]} ∪ o
  | Err _ => o' ∖ copy_fds l = o
  end.

Lemma copy_body_runs content sha o :
  runs {| writable_fd := -1; procfd := -1; exec_fd := -1 |} o (create_sealed_exec_copy_body content sha) (copy_post o).
Proof.
  unfold create_sealed_exec_copy_body.
  eapply runs_alloc; [apply memfd_create_allocates| |].
  2: { intros e. fds_tac; set_solver. }
  unfold id. intros w Hw Hwo.
  run_tac; cbn [writable_fd procfd exec_fd].
  all: try (fds_tac; set_solver).
  eapply runs_alloc; [apply open_trusted_procfd_allocates| |].
  2: { intros e. fds_tac; set_solver. }
  unfold id. intros p Hp Hpo. run_tac; cbn [writable_fd procfd exec_fd].
  eapply runs_alloc; [apply opens_allocates; auto with fds| |].
  2: { intros e. fds_tac; set_solver. }
  unfold id. intros x Hx Hxo. run_tac; cbn [writable_fd procfd exec_fd].
  all: try (fds_tac; set_solver).
  apply runs_close.
  2: { intros e. fds_tac; set_solver. }
  run_tac; cbn [writable_fd procfd exec_fd].
  all: try (fds_tac; set_solver).
  apply runs_ret. fds_tac.
  split_and!; set_solver.
Qed.
Lemma create_copy_allocates {L} content sha : allocates (L := L) (create_sealed_exec_copy content sha) fst.
Proof.
  intros l o. unfold create_sealed_exec_copy. apply runs_call.
  eapply (runs_finally _ _ _ (copy_post o)).
  - apply runs_except_os; [apply copy_body_runs|by intros].
  - intros r o' k H. apply runs_get. do 2 apply runs_seq_close_if_open. apply runs_close_if_open. split; [done|].
    replace (o' ∖ held (exec_fd k) ∖ held (procfd k) ∖ held (writable_fd k)) with (o' ∖ copy_fds k)
      by (unfold copy_fds; set_solver).
    destruct r as [[d b]|e]; cbn in *; tauto.
Qed.

(** The body of the preflight, whatever the caller is handling: with [handling] set the
    source descriptor is closed already when it is returned. *)
Definition preflight_post (o : gset Z) (r : result exn LauncherArtifact) (o' : gset Z) (l : PreflightFds) : Prop :=
  match r with
  | Ok a => 0 <= art_exec_fd a /\ (art_exec_fd a ∉ o) /\ (art_exec_fd a ∉ preflight_fds l)
            /\ o' ∖ preflight_fds l = {[art_exec_fd a]} ∪ o
  | Err _ => o' ∖ preflight_fds l = o
  end.

Context (canonical_path : string -> bool).

Lemma preflight_body_runs x d o :
  runs {| source_fd := -1; sealed_fd := -1 |} o (preflight_body canonical_path false x d) (preflight_post o).
Proof.
  unfold preflight_body. run_tac; cbn [source_fd sealed_fd].
  all: try (fds_tac; set_solver).
  eapply runs_alloc; [apply duplicate_source_allocates| |].
  2: { intros e. fds_tac; set_solver. }
  intros [f b] Hf Hfo. cbn [fst] in *. run_tac; cbn [source_fd sealed_fd].
  all: try (fds_tac; set_solver).
  eapply runs_alloc; [apply create_copy_allocates| |].
  2: { intros e. fds_tac; set_solver. }
  intros [g bg] Hg Hgo. cbn [fst] in *. run_tac; cbn [source_fd sealed_fd].
  all: try (fds_tac; set_solver).
  apply runs_ret. fds_tac.
  split_and!; set_solver.
Qed.

Lemma preflight_allocates {L} x d :
  allocates (L := L) (preflight_inert_launcher_artifact canonical_path false x d) art_exec_fd.
Proof.
  intros l o. unfold preflight_inert_launcher_artifact. apply runs_call.
  eapply (runs_finally _ _ _ (preflight_post o)); [apply preflight_body_runs|].
  intros r o' k H. apply runs_get. apply runs_seq_close_if_open, runs_close_if_open. split; [done|].
  replace (o' ∖ held (sealed_fd k) ∖ held (source_fd k)) with (o' ∖ preflight_fds k)
    by (unfold preflight_fds; set_solver).
  destruct r as [a|e]; cbn in *; tauto.
Qed.
(** While the caller handles an exception, the duplicate is closed before it is used. *)
Lemma duplicate_source_handling {L} d (l : L) o :
  runs l o (duplicate_source_fd true d) (fun r o' l' => o' = o /\ l' = l /\
    match r with Ok a => 0 <= a.1 /\ a.1 ∉ o | Err _ => True end).
Proof.
  unfold duplicate_source_fd. apply runs_if; [by apply runs_throw|]. apply runs_call.
  eapply (runs_finally _ _ _ (fun r o' l' => owns held o o' l' /\
    match r with Ok a => a.1 = l' /\ 0 <= l' /\ l' ∉ o | Err _ => True end)).
  - apply runs_except_os; [|by intros ? ? ? ? [? _]]. unfold duplicate_source_fd_body.
    eapply runs_alloc; [apply opens_allocates; auto with fds| |].
    2: { intros e. split; [|done]. unfold owns. rewrite held_none. set_solver. }
    unfold id. intros f Hf Ho.
    assert (owns held o ({[f]} ∪ o) f) by (unfold owns; rewrite held_nonneg by done; by apply fresh_closed).
    run_tac; try done. by apply runs_ret.
  - intros r o' f [Ho Hr]. apply runs_get. rewrite orb_true_r, andb_true_r.
    apply (runs_close_if_open f o' f). split_and!; try done. destruct r as [a|]; [|done].
    by destruct Hr as (-> & ? & ?).
Qed.

(** While handling, a failed preflight has opened nothing that stays open: the number of
    the duplicate is closed twice, and nothing was opened under it in between. *)
Lemma preflight_restores_handling {L} x d (l : L) o :
  runs l o (preflight_inert_launcher_artifact canonical_path true x d)
    (fun r o' l' => l' = l /\ match r with Ok _ => True | Err _ => o' = o end).
Proof.
  unfold preflight_inert_launcher_artifact. apply runs_call.
  eapply (runs_finally _ _ _ (fun r o' k => match r with Ok _ => True | Err _ => o' ∖ preflight_fds k = o end)).
  2: { intros r o' k H. apply runs_get. apply runs_seq_close_if_open, runs_close_if_open. split; [done|].
       destruct r; [done|]. rewrite <-H. unfold preflight_fds. set_solver. }
  unfold preflight_body. run_tac; cbn [source_fd sealed_fd].
  all: try (fds_tac; set_solver).
  eapply runs_seq; [apply duplicate_source_handling|..].
  2: { intros e o' k (-> & -> & _). fds_tac; set_solver. }
  intros [f b] o' k (-> & -> & Hf & Hfo). cbn [fst] in *. run_tac; cbn [source_fd sealed_fd].
  all: try (fds_tac; set_solver).
  eapply runs_alloc; [apply create_copy_allocates| |].
  2: { intros e. fds_tac; set_solver. }
  intros [g bg] Hg Hgo. cbn [fst] in *. run_tac; cbn [source_fd sealed_fd].
  all: try (fds_tac; set_solver).
  by apply runs_ret.
Qed.

End Ownership.

(** ** The preflight *)
Section Preflight.
Context {W : Type} {os : OS W} {laws : OSLaws W}.
Context (canonical_path : string -> bool).

Lemma read_closed {L} f b (s : W * L) : f ∉ open_fds s.1 -> is_ok (read_stable_source f b s).1 = false.
Proof.
  intros Hf. unfold read_stable_source, read_stable_body, except_os, try_except, seq_act, sys, on_world.
  pose proof (closed_fd_law f s.1 Hf) as H. by destruct (get_flags f s.1) as [[z|e] w'].
Qed.

Lemma seq_ok {S A B} (m : Act S exn A) (k : A -> Act S exn B) s b :
  (seq_act m k s).1 = Ok b -> exists a s', m s = (Ok a, s') /\ (k a s').1 = Ok b.
Proof. unfold seq_act. destruct (m s) as [[a|e] s']; [eauto|done]. Qed.

Lemma finally_ok {S A} (m : Act S exn A) c s a : (finally m c s).1 = Ok a -> (m s).1 = Ok a.
Proof. unfold finally. destruct (m s) as [r s']. destruct (c _ s') as [[|] ?]; cbn; congruence. Qed.

Lemma call_ok {L L' A} (l0 : L') (m : Act (W * L') exn A) (s : W * L) a :
  (call l0 m s).1 = Ok a -> (m (s.1, l0)).1 = Ok a.
Proof. unfold call. by destruct (m (s.1, l0)). Qed.

Lemma preflight_raises_handling {L} x d (w : W) (l : L) :
  is_ok (preflight_inert_launcher_artifact canonical_path true x d (w, l)).1 = false.
Proof.
  destruct (preflight_inert_launcher_artifact canonical_path true x d (w, l)).1 as [a|e] eqn:E; [|done]. exfalso.
  apply call_ok, finally_ok in E. unfold preflight_body in E.
  apply seq_ok in E as (? & ? & _ & E). apply seq_ok in E as (? & ? & _ & E). apply seq_ok in E as (? & s0 & _ & E).
  apply seq_ok in E as ([f b] & s & Hd & E). apply seq_ok in E as ([] & s1 & Hs & E). injection Hs as <-.
  apply seq_ok in E as (content & s2 & Hr & _).
  assert (f ∉ open_fds s.1) as Hf.
  { destruct (duplicate_source_handling d s0.2 (open_fds s0.1) s0) as (Ho & _ & Hf); [done|].
    rewrite Hd in Ho, Hf. cbn in *. rewrite Ho. apply Hf. }
  pose proof (read_closed f b (s.1, {| source_fd := f; sealed_fd := sealed_fd s.2 |}) Hf) as Hc. by rewrite Hr in Hc.
Qed.

(** C35. Descriptor ownership: whatever the system calls answer, and whether or not the
    caller is handling an exception ([handling], which the code reads from
    [sys.exception()]), a preflight that fails leaves the descriptor table as it found
    it, and one that succeeds adds exactly the descriptor of the sealed copy, which the
    returned object holds. *)
Theorem preflight_owns_one_descriptor {L} handling x d (w : W) (l : L) :
  let outcome := preflight_inert_launcher_artifact canonical_path handling x d (w, l) in
  outcome.2.2 = l /\
  match outcome.1 with
  | Ok a => artifact_closed a = false /\ (art_exec_fd a ∉ open_fds w)
            /\ open_fds outcome.2.1 = {[art_exec_fd a]} ∪ open_fds w
  | Err _ => open_fds outcome.2.1 = open_fds w
  end.
Proof.
  intros outcome. subst outcome. destruct handling.
  - destruct (preflight_restores_handling canonical_path x d l (open_fds w) (w, l)) as [Hl H]; [done|]. split; [exact Hl|].
    pose proof (preflight_raises_handling x d w l) as Hf.
    by destruct (preflight_inert_launcher_artifact _ _ _ _ _) as [[a|e] s].
  - destruct (preflight_allocates canonical_path x d l (open_fds w) (w, l)) as [Hl H]; [done|].
    split; [exact Hl|]. destruct (preflight_inert_launcher_artifact _ _ _ _ _) as [[a|e] s]; [|exact H].
    destruct H as (H1 & H2 & H3). split_and!; [|done|done]. unfold artifact_closed. apply Z.ltb_ge. exact H1.
Qed.

(** C37. A latent defect: called while an exception is being handled, the preflight
    never succeeds.  [_duplicate_source_fd] takes [sys.exception()] for a failure of
    its own body and closes the descriptor it is about to return. *)
Theorem preflight_fails_while_handling {L} x d (w : W) (l : L) :
  is_ok (preflight_inert_launcher_artifact canonical_path true x d (w, l)).1 = false.
Proof. apply preflight_raises_handling. Qed.
End Preflight.

(** ** What a receipt certifies *)
Section Certification.
Context {W : Type} {os : OS W}.
Context (canonical_path : string -> bool).

Lemma throws_ok {S A} (b : bool) (e : exn) (k : Act S exn A) s a :
  ((if b then throw e else k) s).1 = Ok a -> b = false /\ (k s).1 = Ok a.
Proof. by destruct b. Qed.

Lemma normalize_ok x y : normalize_expectation canonical_path x = Ok y -> y = x.
Proof. unfold normalize_expectation. intros H. ok_inv. by bool_prop. Qed.

Lemma read_stable_size {L} d initial (s : W * L) content :
  (read_stable_source d initial s).1 = Ok content -> blen content = size initial.
Proof.
  unfold read_stable_source. intros ([[chunks [f0 i0]] [[fin f1] i1]] & s' & _ & H)%seq_ok.
  apply throws_ok in H as [_ H]. apply throws_ok in H as [Hs H]. injection H as <-. by bool_prop.
Qed.

Lemma build_preflight_receipt_ok x source sealed r :
  build_preflight_receipt x source sealed = Ok r ->
  validate_PreflightReceipt r = Ok tt /\ exists id, r = receipt_with_id x source sealed id.
Proof.
  unfold build_preflight_receipt, construct. destruct (preflight_id _) as [id|]; [|done]. cbn [bind_result].
  destruct (validate_PreflightReceipt _) as [[]|] eqn:E; [|done]. cbn [bind_result]. intros [= <-]. eauto.
Qed.

(** What success certifies: the bytes read from the duplicated descriptor have the
    artifact digest of the expectation, the length in the receipt, the static-PIE shape
    and the fixed seccomp identity; and the receipt validates and names the
    expectation's artifact, policy, worker and ledgers. *)
Theorem preflight_certifies {L} handling x d (s : W * L) a :
  (preflight_inert_launcher_artifact canonical_path handling x d s).1 = Ok a ->
  let r := art_receipt a in
  let b := ix_binding (lx_intent_expectation x) in
  exists source s1 content,
    (read_stable_source (L := PreflightFds) source (pf_source r) s1).1 = Ok content
    /\ sha256_bytes (string_of_list_byte content) = ib_launcher_artifact_sha256 b
    /\ blen content = size (pf_source r)
    /\ validate_elf64_static_pie content = Ok tt
    /\ require_embedded_seccomp_identity content FIXED_SECCOMP_POLICY_ID FIXED_SECCOMP_POLICY_SHA256 = Ok tt
    /\ validate_PreflightReceipt r = Ok tt
    /\ pf_launcher_artifact_id r = ib_launcher_artifact_id b
    /\ pf_launcher_artifact_sha256 r = ib_launcher_artifact_sha256 b
    /\ pf_policy_sha256 r = ib_policy_sha256 b
    /\ (pf_worker_instance_id r, pf_claim_ledger_id r, pf_launch_ledger_id r)
       = (ib_worker_instance_id b, ib_claim_ledger_id b, ib_launch_ledger_id b).
Proof.
  intros E r b. subst r. apply call_ok, finally_ok in E. unfold preflight_body in E.
  apply seq_ok in E as (? & ? & _ & E). apply seq_ok in E as (frozen & ? & Hn & E). injection Hn as Hn <-.
  apply normalize_ok in Hn as ->. apply seq_ok in E as (? & ? & _ & E).
  apply seq_ok in E as ([f st] & s0 & _ & E). apply seq_ok in E as (? & ? & Hs & E). injection Hs as <- <-.
  apply seq_ok in E as (content & s2 & Hr & E). apply throws_ok in E as [Hd%bool_decide_neg_false E].
  apply seq_ok in E as ([] & ? & Hv & E). apply seq_ok in E as ([] & ? & Hq & E).
  apply seq_ok in E as ([g sb] & ? & _ & E). apply seq_ok in E as (? & ? & _ & E).
  apply seq_ok in E as (r & ? & Hb & E). apply seq_ok in E as (? & ? & _ & E).
  injection E as <-. injection Hb as Hb _. apply build_preflight_receipt_ok in Hb as (Hval & id & ->). cbn [art_receipt].
  injection Hv as Hv _. injection Hq as Hq _.
  assert (forall A (q : result ArtifactError A) v, lift_artifact q = Ok v -> q = Ok v) as Hl
    by (intros A [v0|] v; cbn; congruence).
  apply Hl in Hv, Hq.
  exists f, (s0.1, {| source_fd := f; sealed_fd := sealed_fd s0.2 |}), content.
  assert (pf_launcher_seccomp_policy_id (receipt_with_id x st sb id) = FIXED_SECCOMP_POLICY_ID
    /\ pf_launcher_seccomp_policy_sha256 (receipt_with_id x st sb id) = FIXED_SECCOMP_POLICY_SHA256) as [H1 H2].
  { unfold validate_PreflightReceipt in Hval. cbv zeta in Hval. peel Hval.
    unfold artifact_and_receipt_bindings_are_exact in Hval. peel Hval.
    unfold differ in *. by bool_prop. }
  cbn in H1, H2. subst b. rewrite H1, H2 in Hq.
  pose proof (f_equal fst Hr) as Hc. cbn in Hc. pose proof (read_stable_size _ _ _ _ Hc). by split_and!.
Qed.
End Certification.

(** ** Reading *)
Section Reading.
Context {W : Type} {os : OS W}.

Lemma blen_nonneg bs : 0 <= blen bs.
Proof. unfold blen. lia. Qed.
Lemma blen_cons b bs : 0 < blen (b :: bs).
Proof. unfold blen. cbn. lia. Qed.

(** Each chunk is at least one byte, so [total] iterations are enough. *)
Lemma read_chunks_fuel {L} fuel more d total offset short (s : W * L) :
  (Z.to_nat (total - offset) <= fuel)%nat ->
  read_chunks (fuel + more) d total offset short s = read_chunks fuel d total offset short s.
Proof.
  revert offset s. induction fuel as [|fuel IH]; intros offset s Hf; cbn [read_chunks Nat.add].
  - destruct (Z.ltb_spec offset total); [lia|]. destruct more; cbn [read_chunks]; by destruct (Z.ltb_spec offset total); [lia|].
  - destruct (Z.ltb_spec offset total); [|done]. unfold seq_act at 1 3.
    destruct (sys _ s) as [[[|b chunk]|e] s']; cbn; [done| |done].
    unfold seq_act. rewrite IH; [done|]. pose proof (blen_cons b chunk). lia.
Qed.

(** In the worlds [J], which the calls of the read do not leave, the descriptor [d] reads
    [file]: [pread] returns a non-empty part of the requested range while there is one
    (it may return less than asked for). *)
Record reads_file (J : W -> Prop) (d : Z) (file : list byte) : Prop := {
  rf_pread n o w : J w -> 0 < n -> 0 <= o -> exists chunk w', pread d n o w = (Ok chunk, w') /\ J w'
    /\ chunk `prefix_of` take (Z.to_nat n) (drop (Z.to_nat o) file)
    /\ (chunk = [] -> drop (Z.to_nat o) file = []);
  rf_flags w : J w -> J (get_flags d w).2;
  rf_inheritable w : J w -> J (get_inheritable d w).2;
  rf_fstat w : J w -> J (fstat d w).2
}.

Lemma sys_stays {L A} (J : W -> Prop) (c : Sys W A) (s : W * L) r s' :
  (forall w, J w -> J (c w).2) -> J s.1 -> sys c s = (r, s') -> J s'.1.
Proof.
  intros Hc Hs. unfold sys, on_world. specialize (Hc s.1 Hs). by destruct (c s.1) as [[] w']; intros [= _ <-].
Qed.

Lemma read_chunks_file {L} J fuel d file total offset short (s : W * L) chunks s' :
  reads_file J d file -> J s.1 -> 0 <= offset <= total ->
  read_chunks fuel d total offset short s = (Ok chunks, s') ->
  J s'.1 /\ concat chunks = take (Z.to_nat (total - offset)) (drop (Z.to_nat offset) file).
Proof.
  intros Hd. revert offset s chunks s'.
  induction fuel as [|fuel IH]; intros offset s chunks s' HJ Ho; cbn [read_chunks].
  { destruct (Z.ltb_spec offset total); [done|]. intros [= <- <-]. by replace (total - offset) with 0 by lia. }
  destruct (Z.ltb_spec offset total); [|intros [= <- <-]; by replace (total - offset) with 0 by lia].
  unfold sys, on_world, seq_act at 1.
  destruct (rf_pread _ _ _ Hd (Z.min ARTIFACT_READ_CHUNK_BYTES (total - offset)) offset s.1 HJ)
    as (chunk & w' & -> & HJ' & Hp & He); [unfold ARTIFACT_READ_CHUNK_BYTES; lia|lia|].
  case_bool_decide as Hc; [done|]. unfold seq_act.
  destruct (read_chunks fuel _ _ _ _ _) as [[rest|e] s2] eqn:Hr; [|done]. intros [= <- <-].
  assert (length chunk <= Z.to_nat (total - offset))%nat as Hlen.
  { apply prefix_length in Hp. rewrite length_take in Hp. lia. }
  apply IH in Hr as [HJ2 Hr]; [|done|unfold blen in *; lia]. split; [done|]. cbn [concat]. rewrite Hr.
  assert (chunk `prefix_of` drop (Z.to_nat offset) file) as [tail Htail] by (etrans; [exact Hp|apply prefix_take]).
  replace (drop (Z.to_nat (offset + blen chunk)) file) with tail.
  2: { unfold blen. rewrite Z2Nat.inj_add, Nat2Z.id by lia. rewrite <-drop_drop, Htail. by rewrite drop_app_length. }
  rewrite Htail, take_app. f_equal; [by rewrite take_ge by lia|]. f_equal. unfold blen. lia.
Qed.

Lemma read_stable_inv {L} J d file initial (s : W * L) content :
  reads_file J d file -> J s.1 -> (read_stable_source d initial s).1 = Ok content ->
  exists s1 chunks s2 s3, J s1.1
    /\ read_chunks (L := L) (Z.to_nat (size initial)) d (size initial) 0 (rejected source_changed) s1 = (Ok chunks, s2)
    /\ sys (pread d 1 (size initial)) s2 = (Ok [], s3) /\ content = concat chunks.
Proof.
  intros Hd HJ. unfold read_stable_source. intros ([[chunks [f0 i0]] [[fin f1] i1]] & s' & Hb & H)%seq_ok.
  apply throws_ok in H as [_ H]. apply throws_ok in H as [_ H]. injection H as <-.
  assert ((read_stable_body d initial s).1 = Ok (chunks, (f0, i0), (fin, f1, i1))) as E.
  { unfold except_os, try_except in Hb. destruct (read_stable_body d initial s) as [[v|[|]] s0]; by inversion Hb. }
  unfold read_stable_body in E.
  apply seq_ok in E as (? & sa & Ha%(sys_stays J) & E); [|apply (rf_flags _ _ _ Hd)|done].
  apply seq_ok in E as (? & sb & Hsb%(sys_stays J) & E); [|apply (rf_inheritable _ _ _ Hd)|done].
  apply seq_ok in E as (? & sc & Hsc%(sys_stays J) & E); [|apply (rf_fstat _ _ _ Hd)|done].
  apply seq_ok in E as (? & ? & Ho & E). injection Ho as _ <-. apply throws_ok in E as [_ E].
  apply seq_ok in E as (cs & s2 & Hc & E). apply seq_ok in E as (extra & s3 & Hx & E).
  apply throws_ok in E as [He%bool_decide_neg_false E]. subst extra.
  do 4 (apply seq_ok in E as (? & ? & _ & E)). injection E as -> _ _ _ _ _. eauto 8.
Qed.

(** A stable read returns the file: when the source descriptor reads [file], short
    reads included, a successful [_read_stable_source] returns all of it and nothing
    else, however the reads were cut. *)
Theorem stable_read_returns_file {L} J d file initial (s : W * L) content :
  reads_file J d file -> J s.1 -> 0 <= size initial ->
  (read_stable_source d initial s).1 = Ok content -> content = file.
Proof.
  intros Hd HJ Hsz H. apply (read_stable_inv J _ file) in H as (s1 & chunks & s2 & s3 & HJ1 & Hc & Hx & ->); [|done..].
  destruct (read_chunks_file _ _ _ _ _ _ _ _ _ _ Hd HJ1 (conj (Z.le_refl 0) Hsz) Hc) as [HJ2 ->].
  assert (drop (Z.to_nat (size initial)) file = []) as Hend.
  { destruct (rf_pread _ _ _ Hd 1 (size initial) s2.1 HJ2) as (extra & w' & Hp & _ & _ & He); [done|done|].
    unfold sys, on_world in Hx. rewrite Hp in Hx. injection Hx as -> _. by apply He. }
  rewrite Z.sub_0_r.
  rewrite <-(take_drop (Z.to_nat (size initial)) file) at 2. by rewrite Hend, app_nil_r.
Qed.

Lemma write_all_fuel {L} fuel more d view (s : W * L) :
  (length view <= fuel)%nat -> write_all (fuel + more) d view s = write_all fuel d view s.
Proof.
  revert view s. induction fuel as [|fuel IH]; intros [|b view] s Hf; cbn [write_all Nat.add length] in *.
  - by destruct more.
  - lia.
  - done.
  - unfold seq_act. destruct (sys _ s) as [[count|e] s']; [|done]. destruct (Z.leb_spec count 0); [done|].
    apply IH. rewrite length_drop. cbn [length]. lia.
Qed.

(** C36. The descriptor loops terminate whatever the kernel answers: an iteration either
    raises or makes progress, so the fuel of the model, one unit per byte, is never
    what ends them. *)
Theorem descriptor_loops_terminate {L} d total short view (s : W * L) more :
  read_chunks (Z.to_nat total + more) d total 0 short s = read_chunks (Z.to_nat total) d total 0 short s
  /\ write_all (length view + more) d view s = write_all (length view) d view s.
Proof. split; [apply read_chunks_fuel; lia|by apply write_all_fuel]. Qed.
End Reading.

(** ** The object *)
Section Lifecycle.
Context {W : Type} {os : OS W} {laws : OSLaws W}.

Inductive artifact_call := DuplicateFd | CloseArtifact | DelArtifact.

(** A call of a method; the descriptors given out so far are recorded. *)
Definition run_call (c : artifact_call) (st : W * LauncherArtifact * list Z) : W * LauncherArtifact * list Z :=
  let '(s, handed) := st in
  match c with
  | DuplicateFd => let '(r, s') := duplicate_executable_fd s in
                   (s', match r with Ok d => d :: handed | Err _ => handed end)
  | CloseArtifact => ((close_artifact s).2, handed)
  | DelArtifact => ((del_artifact s).2, handed)
  end.

Definition run_calls (cs : list artifact_call) (st : W * LauncherArtifact * list Z) : W * LauncherArtifact * list Z :=
  fold_left (fun st c => run_call c st) cs st.

Definition change_fd (a : LauncherArtifact) (r : bool) : LauncherArtifact := if r then set_exec_fd (-1) a else a.

Lemma close_runs a o :
  held (art_exec_fd a) ## o ->
  runs a (held (art_exec_fd a) ∪ o) close_artifact (fun _ o' a' => o' = o /\ a' = change_fd a (0 <=? art_exec_fd a)).
Proof.
  intros Hd. unfold close_artifact. apply runs_get. unfold held in *. destruct (0 <=? art_exec_fd a).
  - apply runs_set. apply runs_except_os; [|done].
    intros [w l] [E1 E2]. cbn in E1, E2. subst l. unfold sys, on_world. cbn. pose proof (close_law (art_exec_fd a) w) as H.
    destruct (close (art_exec_fd a) w) as [[[]|] w']; cbn in *; (split; [|done]); rewrite H, E1; set_solver.
  - apply runs_ret. split; [set_solver|done].
Qed.

Lemma del_runs a o :
  held (art_exec_fd a) ## o ->
  runs a (held (art_exec_fd a) ∪ o) del_artifact (fun _ o' a' => o' = o /\ a' = change_fd a (0 <=? art_exec_fd a)).
Proof.
  intros Hd. unfold del_artifact. apply runs_get. unfold held in *. destruct (0 <=? art_exec_fd a).
  - apply runs_set, runs_suppress_close. split; [set_solver|done].
  - apply runs_ret. split; [set_solver|done].
Qed.

Lemma duplicate_allocates : allocates duplicate_executable_fd id.
Proof.
  intros a o. unfold duplicate_executable_fd. run_tac; try done. apply runs_call.
  eapply (runs_finally _ _ _ (fun r o' l => match r with
    | Ok d => 0 <= d /\ (d ∉ o) /\ l = -1 /\ o' = {[d]} ∪ o
    | Err _ => owns held o o' l end)).
  - apply runs_except_os; [|by intros]. eapply runs_alloc; [apply opens_allocates; auto with fds| |].
    2: { intros e. unfold owns. rewrite held_none. set_solver. }
    unfold id. intros f Hf Ho.
    assert (owns held o ({[f]} ∪ o) f) by (unfold owns; rewrite held_nonneg by done; by apply fresh_closed).
    run_tac; try done. by apply runs_ret.
  - intros r o' f H. apply runs_get, runs_close_if_open. split; [done|].
    destruct r as [d|e]; [|exact H]. destruct H as (H1 & H2 & -> & ->). rewrite held_none.
    split_and!; [done|done|set_solver].
Qed.

(** The descriptors in use: the object's, those it gave out, and the rest of the process. *)
Definition accounted (rest : gset Z) (st : W * LauncherArtifact * list Z) : Prop :=
  let '(w, a, handed) := st in
  let others := list_to_set handed ∪ rest in
  open_fds w = held (art_exec_fd a) ∪ others /\ held (art_exec_fd a) ## others
  /\ NoDup handed /\ (forall d, d ∈ handed -> 0 <= d /\ d ∉ rest).

Lemma change_fd_closed a : held (art_exec_fd (change_fd a (0 <=? art_exec_fd a))) = ∅.
Proof. unfold held. destruct (0 <=? art_exec_fd a) eqn:E; [done|]. cbn. by rewrite E. Qed.

Lemma run_call_accounted rest c st : accounted rest st -> accounted rest (run_call c st).
Proof.
  destruct st as [[w a] handed]. intros (Ho & Hd & Hn & Hh). destruct c; cbn [run_call].
  - destruct (duplicate_allocates a (open_fds w) (w, a)) as [Ha H]; [done|].
    destruct (duplicate_executable_fd (w, a)) as [[d|e] [w' a']]; cbn in *; subst a'; cycle 1.
    { by rewrite H. }
    destruct H as (H1 & H2 & H3). unfold id in *. rewrite Ho in H2, H3. split_and!.
    + rewrite H3. set_solver.
    + set_solver.
    + constructor; [|done]. set_solver.
    + intros x [->|Hx]%elem_of_cons; [split; [done|set_solver]|by apply Hh].
  - destruct (close_runs a _ Hd (w, a) (conj Ho eq_refl)) as [H1 H2].
    destruct (close_artifact (w, a)) as [r [w' a']]; cbn in *. subst a'. rewrite change_fd_closed, H1.
    split_and!; [set_solver|set_solver|done|done].
  - destruct (del_runs a _ Hd (w, a) (conj Ho eq_refl)) as [H1 H2].
    destruct (del_artifact (w, a)) as [r [w' a']]; cbn in *. subst a'. rewrite change_fd_closed, H1.
    split_and!; [set_solver|set_solver|done|done].
Qed.

(** Over any sequence of duplications, closes and finalizations of the object, the
    descriptor table is accounted for: what the object holds, the fresh and distinct
    descriptors it gave out, and the untouched rest of the process.  No descriptor is
    closed twice, leaked or taken from somewhere else. *)
Theorem artifact_lifecycle_accounted rest cs st : accounted rest st -> accounted rest (run_calls cs st).
Proof. revert st. induction cs as [|c cs IH]; intros st H; [done|]. by apply IH, run_call_accounted. Qed.

Lemma closed_call c w a handed : artifact_closed a = true -> run_call c (w, a, handed) = (w, a, handed).
Proof.
  unfold artifact_closed. intros Hc. pose proof (proj1 (Z.ltb_lt _ _) Hc).
  destruct c; cbn; unfold duplicate_executable_fd, close_artifact, del_artifact, seq_act, get_locals; cbn.
  - by rewrite Hc.
  - destruct (Z.leb_spec 0 (art_exec_fd a)); [lia|done].
  - destruct (Z.leb_spec 0 (art_exec_fd a)); [lia|done].
Qed.

Lemma close_closes w a : artifact_closed (close_artifact (w, a)).2.2 = true.
Proof.
  unfold close_artifact, seq_act, get_locals, artifact_closed. cbn.
  destruct (Z.leb_spec 0 (art_exec_fd a)); [|cbn; by apply Z.ltb_lt].
  unfold except_os, try_except, sys, on_world. cbn. by destruct (close (art_exec_fd a) w) as [[]].
Qed.

(** Closing is final, also when the [close] call itself reports an error: whatever is
    called on the object afterwards, no system call is made, no descriptor is given
    out, and every duplication raises. *)
Theorem artifact_close_is_final cs w a handed :
  let st := run_call CloseArtifact (w, a, handed) in
  run_calls cs st = st /\ (duplicate_executable_fd st.1).1 = Err (lifecycle sealed_artifact_closed).
Proof.
  cbn [run_call]. pose proof (close_closes w a) as Hc. destruct (close_artifact (w, a)) as [r [w' a']]. cbn [snd fst] in *.
  split.
  - induction cs as [|c cs IH]; [done|]. unfold run_calls in *. cbn [fold_left]. by rewrite closed_call.
  - unfold duplicate_executable_fd, seq_act, get_locals. cbn. unfold artifact_closed in Hc. by rewrite Hc.
Qed.
End Lifecycle.

(** ** A small kernel that satisfies the laws *)
Module MiniKernel.

Record Inode := { n_bytes : list byte; n_mode : Z; n_nlink : Z; n_seals : Z; n_filesystem : Z }.
Record OpenFile := { f_inode : Z; f_flags : Z }.
Record Kernel := { k_inodes : list (Z * Inode); k_fds : list (Z * OpenFile) }.

Definition with_inodes (k : Kernel) (inodes : list (Z * Inode)) : Kernel := {| k_inodes := inodes; k_fds := k_fds k |}.

Definition on_file {A} (fd : Z) (f : OpenFile -> Inode -> Sys Kernel A) : Sys Kernel A := fun k =>
  match dict_get (k_fds k) fd with
  | None => (Err EBADF, k)
  | Some file => match dict_get (k_inodes k) (f_inode file) with None => (Err EIO, k) | Some i => f file i k end
  end.

(** The lowest free descriptor from 3. *)
Definition open_new (file : OpenFile) : Sys Kernel Z := fun k =>
  match List.find (fun d => negb (bool_decide (d ∈ (k_fds k).*1))) (map Z.of_nat (seq 3 64)) with
  | Some d => (Ok d, {| k_inodes := k_inodes k; k_fds := (d, file) :: k_fds k |})
  | None => (Err EMFILE, k)
  end.

Definition stat_of (number : Z) (i : Inode) : StatBinding :=
  {| device := 1; inode := number; mode := n_mode i; uid := 0; gid := 0; nlink := n_nlink i; size := blen (n_bytes i);
     mtime_ns := 0; ctime_ns := 0 |}.

Definition update (file : OpenFile) (i : Inode) (k : Kernel) : Kernel :=
  with_inodes k (dict_set (f_inode file) i (k_inodes k)).

#[export] Instance kernel : OS Kernel := {
  sys_platform := "linux"; machine := "x86_64"; pointer_size := 8; long_size := 8; descriptor_operations := true;
  geteuid := 1000;
  load_libc := fun k => (Ok tt, k);
  dup_cloexec fd := on_file fd (fun file _ => open_new file);
  fstat fd := on_file fd (fun file i k => (Ok (stat_of (f_inode file) i), k));
  get_flags fd := on_file fd (fun file _ k => (Ok (f_flags file), k));
  get_inheritable fd := on_file fd (fun _ _ k => (Ok false, k));
  set_not_inheritable fd := on_file fd (fun _ _ k => (Ok tt, k));
  pread fd n o := on_file fd (fun _ i k => (Ok (take (Z.to_nat (Z.min n 200)) (drop (Z.to_nat o) (n_bytes i))), k));
  memfd_create_exec := fun k =>
    let number := 100 + Z.of_nat (length (k_inodes k)) in
    let i := {| n_bytes := []; n_mode := 0x81FF; n_nlink := 0; n_seals := 0; n_filesystem := 0 |} in
    open_new {| f_inode := number; f_flags := 2 |} (with_inodes k (dict_set number i (k_inodes k)));
  write fd bs := on_file fd (fun file i k =>
    let part := take 100 bs in
    (Ok (blen part), update file {| n_bytes := n_bytes i ++ part; n_mode := n_mode i; n_nlink := n_nlink i;
                                    n_seals := n_seals i; n_filesystem := n_filesystem i |} k));
  fchmod fd m := on_file fd (fun file i k =>
    (Ok tt, update file {| n_bytes := n_bytes i; n_mode := Z.lor 0x8000 m; n_nlink := n_nlink i; n_seals := n_seals i;
                           n_filesystem := n_filesystem i |} k));
  fsync fd := on_file fd (fun _ _ k => (Ok tt, k));
  add_seals fd z := on_file fd (fun file i k =>
    (Ok tt, update file {| n_bytes := n_bytes i; n_mode := n_mode i; n_nlink := n_nlink i;
                           n_seals := Z.lor (n_seals i) z; n_filesystem := n_filesystem i |} k));
  get_seals fd := on_file fd (fun _ i k => (Ok (n_seals i), k));
  open_proc_self_fd := open_new {| f_inode := 1; f_flags := 0 |};
  fstatfs_type fd := on_file fd (fun _ i k => (Ok (n_filesystem i), k));
  open_readonly_at dir fd := on_file fd (fun file _ => open_new {| f_inode := f_inode file; f_flags := 0 |});
  close fd := fun k =>
    (match dict_get (k_fds k) fd with Some _ => Ok tt | None => Err EBADF end,
     {| k_inodes := k_inodes k; k_fds := filter (fun e => e.1 <> fd) (k_fds k) |})
}.

Definition table (k : Kernel) : gset Z := list_to_set (k_fds k).*1.

Lemma on_file_leaves {A} fd (f : OpenFile -> Inode -> Sys Kernel A) :
  (forall file i, leaves_open table (f file i)) -> leaves_open table (on_file fd f).
Proof.
  intros H k. unfold on_file. destruct (dict_get (k_fds k) fd) as [file|]; [|done].
  destruct (dict_get (k_inodes k) (f_inode file)) as [i|]; [apply H|done].
Qed.

Lemma open_new_opens file : opens table (open_new file).
Proof.
  intros k. unfold open_new. destruct (List.find _ _) as [d|] eqn:E; [|done].
  apply find_some in E as [Hd Hf]. bool_prop. split_and!.
  - apply in_map_iff in Hd as (n & <- & _). lia.
  - unfold table. rewrite elem_of_list_to_set. done.
  - done.
Qed.

Lemma on_file_opens fd f : (forall file i, opens table (f file i)) -> opens table (on_file fd f).
Proof.
  intros H k. unfold on_file. destruct (dict_get (k_fds k) fd) as [file|]; [|done].
  destruct (dict_get (k_inodes k) (f_inode file)) as [i|]; [apply H|done].
Qed.

#[export] Instance kernel_laws : OSLaws Kernel.
Proof.
  refine {| open_fds := table |}.
  1: done.
  1-11: intros; by apply on_file_leaves.
  - intros fd. apply on_file_opens. intros; apply open_new_opens.
  - intros k. exact (open_new_opens {| f_inode := _; f_flags := 2 |} (with_inodes k _)).
  - apply open_new_opens.
  - intros dir fd. apply on_file_opens. intros; apply open_new_opens.
  - intros fd k. unfold table. cbn. apply set_eq. intros x.
    rewrite elem_of_difference, !elem_of_list_to_set, elem_of_singleton, !list_elem_of_fmap. split.
    + intros (e & -> & [Hn He]%list_elem_of_filter). split; [by exists e|done].
    + intros [(e & -> & He) Hn]. exists e. split; [done|]. by apply list_elem_of_filter.
  - intros fd k H. cbn. unfold on_file. destruct (dict_get (k_fds k) fd) as [file|] eqn:E; [|done].
    destruct H. apply dict_get_In in E. unfold table. apply elem_of_list_to_set, list_elem_of_fmap. by exists (fd, file).
Defined.
End MiniKernel.

(** ** A preflight of the sample image *)
Import MiniKernel.

Definition artifact_policy : InertFixturePolicy := {|
  fp_policy_id := "policy-1"; fp_worker_pool_audience := "pool-1"; fp_worker_instance_id := "worker-1";
  fp_claim_ledger_id := "claims-1"; fp_launch_ledger_id := "launches-1"; fp_delegated_root_id := "root-1";
  fp_launcher_artifact_id := "launcher-1";
  fp_launcher_artifact_sha256 := sha256_bytes (string_of_list_byte ElfFacts.sample_image);
  fp_launcher_seccomp_policy_id := FIXED_SECCOMP_POLICY_ID;
  fp_launcher_seccomp_policy_sha256 := FIXED_SECCOMP_POLICY_SHA256; fp_resources := FixtureFacts.sample_resources;
  fp_resource_profile_sha256 := FixtureFacts.sample_resources_sha256;
  fp_fixture_timeout_ms := 5000; fp_total_timeout_ms := 10000 |}.

Definition artifact_expectation : InertFixtureLaunchExpectation := Eval vm_compute in {|
  lx_intent_expectation :=
    {| ix_policy := artifact_policy; ix_claim_ledger_path := "/ledger/claims";
       ix_binding := binding_of_policy artifact_policy
                       (Samples.unwrap (sha256_json (InertFixturePolicy_json artifact_policy))) |};
  lx_launch_ledger_path := "/ledger/launches";
  lx_worker_instance_id := "worker-1"; lx_claim_ledger_id := "claims-1"; lx_launch_ledger_id := "launches-1" |}.

Definition sample_kernel : MiniKernel.Kernel := {|
  MiniKernel.k_inodes :=
    [(1, {| MiniKernel.n_bytes := []; MiniKernel.n_mode := 0x416D; MiniKernel.n_nlink := 1; MiniKernel.n_seals := 0;
            MiniKernel.n_filesystem := PROC_SUPER_MAGIC |});
     (7, {| MiniKernel.n_bytes := ElfFacts.sample_image; MiniKernel.n_mode := 0x81ED; MiniKernel.n_nlink := 1;
            MiniKernel.n_seals := 0; MiniKernel.n_filesystem := 0 |})];
  MiniKernel.k_fds := [(5, {| MiniKernel.f_inode := 7; MiniKernel.f_flags := 0 |})] |}.

Abbreviation sample_preflight handling :=
  (preflight_inert_launcher_artifact FixtureFacts.any_path handling artifact_expectation 5 (sample_kernel, tt)).

Lemma sample_preflight_succeeds : is_ok (sample_preflight false).1 = true.
Proof. vm_compute. reflexivity. Qed.

(** ** Witnesses *)
Lemma preflight_owns_one_descriptor_witness :
  exists a, (sample_preflight false).1 = Ok a
    /\ open_fds (sample_preflight false).2.1 = {[art_exec_fd a]} ∪ open_fds sample_kernel.
Proof.
  destruct (is_ok_inv _ sample_preflight_succeeds) as [a Ha]. exists a. split; [exact Ha|].
  pose proof (preflight_owns_one_descriptor FixtureFacts.any_path false artifact_expectation 5 sample_kernel tt) as H.
  cbv zeta in H. rewrite Ha in H. exact (proj2 (proj2 (proj2 H))).
Defined.

Lemma preflight_fails_while_handling_witness : is_ok (sample_preflight true).1 = false.
Proof. exact (preflight_fails_while_handling FixtureFacts.any_path artifact_expectation 5 sample_kernel tt). Defined.

Lemma preflight_certifies_witness :
  exists a source s1 content, (sample_preflight false).1 = Ok a
    /\ (read_stable_source (L := PreflightFds) source (pf_source (art_receipt a)) s1).1 = Ok content
    /\ validate_elf64_static_pie content = Ok tt.
Proof.
  destruct (is_ok_inv _ sample_preflight_succeeds) as [a Ha].
  destruct (preflight_certifies FixtureFacts.any_path false artifact_expectation 5 (sample_kernel, tt) a Ha)
    as (source & s1 & content & Hr & _ & _ & Hv & _).
  exists a, source, s1, content. exact (conj Ha (conj Hr Hv)).
Defined.

(** The worlds where descriptor 5 is the sample image. *)
Definition sample_file : OpenFile := {| f_inode := 7; f_flags := 0 |}.
Definition image_open (k : Kernel) : Prop :=
  dict_get (k_fds k) 5 = Some sample_file
  /\ exists i, dict_get (k_inodes k) 7 = Some i /\ n_bytes i = ElfFacts.sample_image.

Lemma on_file_same {A} k (f : OpenFile -> Inode -> Sys Kernel A) :
  image_open k -> exists i, n_bytes i = ElfFacts.sample_image /\ on_file 5 f k = f sample_file i k.
Proof. intros (Hf & i & Hi & Hb). exists i. split; [done|]. unfold on_file. rewrite Hf. cbn [f_inode sample_file]. by rewrite Hi. Qed.

Lemma image_reads : reads_file image_open 5 ElfFacts.sample_image.
Proof.
  split.
  - intros n o w HJ Hn Ho. unfold pread, kernel.
    destruct (on_file_same w (fun _ i k => (Ok (take (Z.to_nat (Z.min n 200)) (drop (Z.to_nat o) (n_bytes i))), k)) HJ)
      as (i & Hb & ->). rewrite Hb. eexists _, w. split_and!; [done|done| |].
    + replace (Z.to_nat (Z.min n 200)) with (Nat.min (Z.to_nat (Z.min n 200)) (Z.to_nat n)) by lia.
      rewrite <-take_take. apply prefix_take.
    + intros E. destruct (drop (Z.to_nat o) ElfFacts.sample_image) as [|b l]; [done|].
      destruct (Z.to_nat (Z.min n 200)) eqn:En; [lia|done].
  - intros w HJ. unfold get_flags, kernel. by destruct (on_file_same w (fun file _ k => (Ok (f_flags file), k)) HJ) as (i & _ & ->).
  - intros w HJ. unfold get_inheritable, kernel. by destruct (on_file_same w (fun _ _ k => (Ok (A:=bool) false, k)) HJ) as (i & _ & ->).
  - intros w HJ. unfold fstat, kernel.
    by destruct (on_file_same w (fun file i k => (Ok (stat_of (f_inode file) i), k)) HJ) as (i & _ & ->).
Qed.

Lemma sample_image_open : image_open sample_kernel.
Proof. split; [done|]. by eexists. Qed.

Definition sample_stat : StatBinding := stat_of 7
  {| n_bytes := ElfFacts.sample_image; n_mode := 0x81ED; n_nlink := 1; n_seals := 0; n_filesystem := 0 |}.

Lemma sample_read_succeeds : is_ok (read_stable_source 5 sample_stat (sample_kernel, tt)).1 = true.
Proof. vm_compute. reflexivity. Qed.

Lemma stable_read_returns_file_witness :
  exists content, (read_stable_source 5 sample_stat (sample_kernel, tt)).1 = Ok content
    /\ content = ElfFacts.sample_image.
Proof.
  destruct (is_ok_inv _ sample_read_succeeds) as [content H]. exists content. split; [exact H|].
  refine (stable_read_returns_file image_open 5 ElfFacts.sample_image sample_stat (sample_kernel, tt) content
            image_reads sample_image_open _ H).
  apply Z.leb_le. vm_compute. reflexivity.
Defined.

(** An object that holds descriptor 5. *)
Definition sample_artifact : LauncherArtifact := {|
  art_receipt := receipt_with_id artifact_expectation sample_stat sample_stat "";
  art_exec_fd := 5; art_binding := sample_stat |}.

Lemma artifact_lifecycle_accounted_witness :
  accounted ∅ (sample_kernel, sample_artifact, []) /\
  accounted ∅ (run_calls [DuplicateFd; CloseArtifact; DuplicateFd; DelArtifact] (sample_kernel, sample_artifact, [])).
Proof.
  assert (H : accounted ∅ (sample_kernel, sample_artifact, [])).
  { unfold accounted. rewrite held_nonneg by done. split_and!; [|set_solver|constructor|].
    - unfold open_fds, kernel_laws, table. cbn. set_solver.
    - intros d []%not_elem_of_nil. }
  split; [exact H|]. exact (artifact_lifecycle_accounted ∅ _ _ H).
Defined.

End ArtifactFacts.
