(* ===== verification/Replay.v ===== *)
(** * Replay bundles ([src/bpe/replay.py])

    A replay bundle is a directory tree with a manifest that names every other file by
    digest.  A tree is a value ([node]): reading goes through descriptors that are
    pinned and rechecked, so the model reads a tree that does not change meanwhile, and
    writing creates the tree in a new directory.  The JSON readers of the validation
    library are a parameter ([Readers]); a document is accepted only when the canonical
    encoding of the model it was read into is the file again.  Errors keep the label and
    the numbers of the message. *)
From Stdlib Require Import ZArith String Ascii Lia.
From stdpp Require Import base tactics list strings.
From S2P Require Import Prelude Floats Sha256 Json Models Grading Text.
Local Open Scope string_scope.
Local Open Scope Z_scope.

Module Replay.
Import Sha256 Json Models Grading Text.

(** ** Limits *)
Definition MAX_REPLAY_MANIFEST_BYTES : Z := 256 * 1024.
Definition MAX_REPLAY_JSON_DEPTH : Z := 64.
Definition MAX_REPLAY_JSON_NODES : Z := 65536.
Definition MAX_REPLAY_ARTIFACTS : Z := 256.
Definition MAX_REPLAY_FILE_BYTES : Z := 16 * 1024 * 1024.
Definition MAX_REPLAY_TOTAL_BYTES : Z := 128 * 1024 * 1024.

Definition FIXED_REPLAY_FILES : list string :=
  ["manifest.json"; "evidence.json"; "contract.json"; "grade.json"; "events.jsonl"; "policy.json"].

(** ** Errors and results *)
Inductive ReplayError :=
| Missing (label : string)
| NotRegularFile (label : string)
| NotDirectory (label : string)
| HardLinked (label : string)
| TooLarge (label : string) (limit : Z)
| SizeMismatch (label : string) (expected actual : Z)
| IntegrityMismatch (label : string)
| NotClosed (label : string)
| TooManyArtifacts
| TooManyBytes
| DuplicateArtifact (name : string)
| InconsistentMetadata (digest : string)
| ComplexityLimit (label : string)
| SurrogateText (label : string)
| InvalidMetadata (label : string)
| NotCanonical (label : string)
| EventsDiffer
| ArtifactAbsent (reference : ArtifactRef)
| MissingEvidenceArtifacts
| DigestConflict (digest : string)
| GradeMismatch
| SelfVerificationFailed
| CannotRescoreInvalid
| ValueError (message : string).

Inductive InspectionError :=
| AnchorMismatch (expected actual : string)
| InvalidReplay (e : ReplayError)
| StoredGradeDiffers
| CannotRescore (message : string).

Definition value_error {A} (r : result string A) : result ReplayError A :=
  match r with Ok a => Ok a | Err m => Err (ValueError m) end.

Record ReplayReceipt := {
  rc_manifest : ReplayManifest;
  rc_manifest_sha256 : string;
  rc_anchor : ReplayAnchor
}.

Record ReplayVerification := {
  rv_valid : bool;
  rv_anchored : bool;
  rv_manifest_sha256 : option string;
  rv_errors : list InspectionError;
  rv_rescored_grade : option Grade
}.

Record LoadedReplay := {
  lo_manifest : ReplayManifest;
  lo_evidence : EvaluationEvidence;
  lo_contract : ScoringContract;
  lo_stored_grade : Grade;
  lo_stored_policy : RewardPolicy
}.

(** ** Trees *)
Inductive node :=
| FileNode (device nlink : Z) (content : string)
| DirNode (device : Z) (entries : list (string * node))
| SpecialNode (device : Z).

Definition entries_of (n : node) : list (string * node) := match n with DirNode _ es => es | _ => [] end.

Definition nbytes (content : string) : Z := Z.of_nat (String.length content).

(** ** Building blocks *)
(** [_ref]; the constructor validates. *)
Definition ref_of (content media_type : string) : result ReplayError ArtifactRef :=
  let r := {| art_sha256 := sha256_bytes content; art_size_bytes := nbytes content; art_media_type := media_type |} in
  raise ValueError "artifact reference" when negb (ArtifactRef_ok r) ;; Ok r.

(** One event of [_event_bytes]. *)
Definition event_json (sequence : nat) (s : StageEvidence) : json :=
  JObj [("schema_version", JStr "bpe.event.v1"); ("sequence", JInt (Z.of_nat sequence));
        ("stage", JStr (Stage_value (st_stage s))); ("outcome", JStr (Outcome_value (st_outcome s)));
        ("reason_code", JStr (st_reason_code s)); ("duration_ms", JInt (st_duration_ms s))].

(** [_event_bytes] *)
Definition event_bytes (e : EvaluationEvidence) : result ReplayError string :=
  let* lines := map_result (fun es => value_error (canonical_json_bytes (event_json es.1 es.2)))
                  (imap pair (ev_stages e)) in
  Ok (String.concat "" lines).

(** [_evidence_artifact_refs] *)
Definition evidence_artifact_refs (e : EvaluationEvidence) : list ArtifactRef :=
  (req_candidate (ev_request e) :: (ev_observation_artifacts e).*2
   ++ flat_map (fun s => (st_artifacts s).*2 ++ flat_map (fun c => (chk_artifacts c).*2) (st_checks s))
        (ev_stages e))%list.

(** [_artifact_reference_for_content]; [matching] is a set. *)
Definition artifact_reference_for_content (content : string) (evidence_refs : list ArtifactRef) :
    result ReplayError ArtifactRef :=
  let digest := sha256_bytes content in
  match remove_dups (filter (fun r => art_sha256 r = digest) evidence_refs) with
  | [] => ref_of content "application/octet-stream"
  | [reference] =>
      raise SizeMismatch digest (art_size_bytes reference) (nbytes content)
        when negb (art_size_bytes reference =? nbytes content) ;;
      Ok reference
  | _ => Err (InconsistentMetadata digest)
  end.

(** The loop of [_snapshot_artifacts]. *)
Fixpoint snapshot_loop (items : list (string * string)) (snapshot : list (string * string)) (total : Z) :
    result ReplayError (list (string * string)) :=
  match items with
  | [] => Ok snapshot
  | (name, content) :: items =>
      raise DuplicateArtifact name when bool_decide (name ∈ snapshot.*1) ;;
      raise TooLarge name MAX_REPLAY_FILE_BYTES when MAX_REPLAY_FILE_BYTES <? nbytes content ;;
      let total := total + nbytes content in
      raise TooManyBytes when MAX_REPLAY_TOTAL_BYTES <? total ;;
      snapshot_loop items (snapshot ++ [(name, content)])%list total
  end.

(** [_snapshot_artifacts] *)
Definition snapshot_artifacts (artifacts : list (string * string)) : result ReplayError (list (string * string)) :=
  let items := take (Z.to_nat MAX_REPLAY_ARTIFACTS + 1) artifacts in
  raise TooManyArtifacts when MAX_REPLAY_ARTIFACTS <? Z.of_nat (length items) ;;
  snapshot_loop items [] 0.

(** ** Manifest bounds *)
Definition fixed_refs (m : ReplayManifest) : list (string * ArtifactRef) :=
  [("evidence", rm_evidence m); ("contract", rm_contract m); ("grade", rm_grade m); ("events", rm_events m);
   ("policy", rm_policy m)].

(** [d.setdefault(k, v)] with the previous value. *)
Definition setdefault {V} (d : list (string * V)) (k : string) (v : V) : list (string * V) :=
  match dict_get d k with Some _ => d | None => (d ++ [(k, v)])%list end.

(** The loops over references: each is checked against the first one with its digest. *)
Fixpoint merge_refs (refs : list (string * ArtifactRef)) (by_digest : list (string * ArtifactRef)) (bounded : bool) :
    result ReplayError (list (string * ArtifactRef)) :=
  match refs with
  | [] => Ok by_digest
  | (label, r) :: refs =>
      raise TooLarge label MAX_REPLAY_FILE_BYTES when bounded && (MAX_REPLAY_FILE_BYTES <? art_size_bytes r) ;;
      raise InconsistentMetadata (art_sha256 r)
        when match dict_get by_digest (art_sha256 r) with
             | Some previous => negb (bool_decide (previous = r))
             | None => false
             end ;;
      merge_refs refs (setdefault by_digest (art_sha256 r) r) bounded
  end.

(** [{r.sha256: r for r in artifacts}], the first one of a digest. *)
Definition first_refs (refs : list ArtifactRef) : list (string * ArtifactRef) :=
  fold_left (fun d r => setdefault d (art_sha256 r) r) refs [].

Definition sum_sizes (refs : list ArtifactRef) : Z := fold_right (fun r acc => art_size_bytes r + acc) 0 refs.

(** [_validate_manifest_bounds] *)
Definition validate_manifest_bounds (m : ReplayManifest) (manifest_size : Z) : result ReplayError unit :=
  raise TooLarge "manifest" MAX_REPLAY_MANIFEST_BYTES when MAX_REPLAY_MANIFEST_BYTES <? manifest_size ;;
  raise TooManyArtifacts when MAX_REPLAY_ARTIFACTS <? Z.of_nat (length (rm_artifacts m)) ;;
  let* _ := for_each (fun lr => raise TooLarge lr.1 MAX_REPLAY_FILE_BYTES
                                  when MAX_REPLAY_FILE_BYTES <? art_size_bytes lr.2 ;; Ok tt) (fixed_refs m) in
  let* by_digest := merge_refs (fixed_refs m) [] false in
  let* _ := merge_refs (rm_artifacts m) by_digest true in
  let total := manifest_size + sum_sizes (fixed_refs m).*2 + sum_sizes (first_refs (rm_artifacts m).*2).*2 in
  raise TooManyBytes when MAX_REPLAY_TOTAL_BYTES <? total ;;
  Ok tt.

(** [validate_replay_manifest] *)
Definition validate_replay_manifest (m : ReplayManifest) : result ReplayError ReplayManifest :=
  let* _ := value_error (validate_ReplayManifest m) in
  let* raw := value_error (canonical_json_bytes (ReplayManifest_json m)) in
  let* _ := validate_manifest_bounds m (nbytes raw) in
  Ok m.

(** ** Reading *)
(** [_read_file_at] *)
Definition read_file_at (entries : list (string * node)) (root_device : Z) (name : string) (max_bytes : Z)
    (label : string) (expected_bytes : option Z) : result ReplayError string :=
  match dict_get entries name with
  | None => Err (Missing label)
  | Some (FileNode device nlink content) =>
      raise NotRegularFile label when negb (device =? root_device) ;;
      raise HardLinked label when negb (nlink =? 1) ;;
      raise TooLarge label max_bytes when max_bytes <? nbytes content ;;
      raise SizeMismatch label (default 0 expected_bytes) (nbytes content)
        when match expected_bytes with Some n => negb (nbytes content =? n) | None => false end ;;
      Ok content
  | Some _ => Err (NotRegularFile label)
  end.

(** [_open_directory] *)
Definition open_directory (entries : list (string * node)) (root_device : Z) (name label : string) :
    result ReplayError (list (string * node)) :=
  match dict_get entries name with
  | None => Err (Missing label)
  | Some (DirNode device children) => raise NotDirectory label when negb (device =? root_device) ;; Ok children
  | Some _ => Err (NotDirectory label)
  end.

(** [_directory_entries] *)
Definition directory_entries (entries : list (string * node)) (label : string) (max_entries : nat) :
    result ReplayError (list string) :=
  raise NotClosed label when (max_entries <? length entries)%nat ;; Ok entries.*1.

(** The directory has exactly these names. *)
Definition require_entries (entries : list (string * node)) (label : string) (expected : list string) :
    result ReplayError unit :=
  let* actual := directory_entries entries label (length expected) in
  raise NotClosed label when negb (same_set actual expected) ;; Ok tt.

(** The loop of [_validate_json_complexity]. *)
Fixpoint walk_replay (label : string) (fuel : nat) (stack : list (json * Z)) (nodes : Z) : result ReplayError unit :=
  match fuel with
  | O => Err (ComplexityLimit label)
  | S fuel =>
      match stack with
      | [] => Ok tt
      | (current, depth) :: stack =>
          let nodes := nodes + 1 in
          raise ComplexityLimit label when (MAX_REPLAY_JSON_DEPTH <? depth) || (MAX_REPLAY_JSON_NODES <? nodes) ;;
          match current with
          | JObj kvs =>
              raise SurrogateText label when existsb (fun kv => has_surrogate kv.1) kvs ;;
              walk_replay label fuel (rev ((fun kv => (kv.2, depth + 1)) <$> kvs) ++ stack)%list nodes
          | JArr l => walk_replay label fuel (rev ((fun v => (v, depth + 1)) <$> l) ++ stack)%list nodes
          | JStr s => raise SurrogateText label when has_surrogate s ;; walk_replay label fuel stack nodes
          | _ => walk_replay label fuel stack nodes
          end
      end
  end.

(** [_validate_json_complexity]: the node limit stops the loop after 65537 pops. *)
Definition validate_replay_complexity (v : json) (label : string) : result ReplayError unit :=
  walk_replay label (Z.to_nat (MAX_REPLAY_JSON_NODES + 2)) [(v, 0)] 0.

(** [_parse_canonical_model] *)
Definition parse_canonical_model {T} (dump : T -> json) (read : json -> option T) (raw name : string) :
    result ReplayError T :=
  match strict_json_loads_bytes raw with
  | Err _ => Err (InvalidMetadata name)
  | Ok value =>
      let* _ := validate_replay_complexity value name in
      match read value with
      | None => Err (InvalidMetadata name)
      | Some model =>
          match canonical_json_bytes (dump model) with
          | Err _ => Err (InvalidMetadata name)
          | Ok canonical => raise NotCanonical name when negb (bool_decide (canonical = raw)) ;; Ok model
          end
      end
  end.

(** [_require_ref] *)
Definition require_ref (content label : string) (expected : ArtifactRef) : result ReplayError unit :=
  raise IntegrityMismatch label
    when negb (bool_decide (sha256_bytes content = art_sha256 expected))
         || negb (nbytes content =? art_size_bytes expected) ;;
  Ok tt.

(** [_artifact_refs_by_digest] *)
Definition artifact_refs_by_digest (m : ReplayManifest) : result ReplayError (list (string * ArtifactRef)) :=
  merge_refs (rm_artifacts m) [] false.

(** [", ".join(sorted(names))] *)
Definition artifact_label (m : ReplayManifest) (digest : string) : string :=
  "artifact " ++ String.concat ", "
    (sort_by String.ltb ((filter (fun nr : string * ArtifactRef => art_sha256 nr.2 = digest) (rm_artifacts m)).*1)).

(** ** Inspection *)
(** The readers of the validation library: [Model.model_validate] on a decoded value. *)
Record Readers := {
  read_manifest : json -> option ReplayManifest;
  read_evidence : json -> option EvaluationEvidence;
  read_contract : json -> option ScoringContract;
  read_grade : json -> option Grade;
  read_policy : json -> option RewardPolicy
}.

(** [grade == grade] *)
Definition opt_eqb {A} (eqb : A -> A -> bool) (a b : option A) : bool :=
  match a, b with Some x, Some y => eqb x y | None, None => true | _, _ => false end.

Definition Grade_eqb (a b : Grade) : bool :=
  bool_decide ((gr_policy_id a, gr_grader_id a, gr_task_id a, gr_candidate_sha256 a, gr_evidence_sha256 a,
                gr_contract_sha256 a, gr_comparable a, gr_strict_success a, gr_first_failure a, gr_failure_reason a)
               = (gr_policy_id b, gr_grader_id b, gr_task_id b, gr_candidate_sha256 b, gr_evidence_sha256 b,
                  gr_contract_sha256 b, gr_comparable b, gr_strict_success b, gr_first_failure b,
                  gr_failure_reason b))
  && opt_eqb feqb (gr_benchmark_score a) (gr_benchmark_score b)
  && opt_eqb feqb (gr_training_reward a) (gr_training_reward b)
  && dict_eqb (gr_stage_outcomes a) (gr_stage_outcomes b).

(** The files other than the manifest, in reading order. *)
Definition fixed_specs (m : ReplayManifest) : list (string * string * ArtifactRef) :=
  [("evidence.json", "evidence", rm_evidence m); ("contract.json", "contract", rm_contract m);
   ("grade.json", "grade", rm_grade m); ("events.jsonl", "events", rm_events m);
   ("policy.json", "policy", rm_policy m)].

(** The read loops: the contents, with the total of bytes read so far. *)
Fixpoint read_fixed (entries : list (string * node)) (dev : Z) (specs : list (string * string * ArtifactRef))
    (total : Z) : result ReplayError (list string * Z) :=
  match specs with
  | [] => Ok ([], total)
  | (name, label, _) :: specs =>
      let remaining := MAX_REPLAY_TOTAL_BYTES - total in
      raise TooManyBytes when remaining <? 0 ;;
      let* content := read_file_at entries dev name (Z.min MAX_REPLAY_FILE_BYTES remaining) label None in
      let* rest := read_fixed entries dev specs (total + nbytes content) in
      Ok (content :: rest.1, rest.2)
  end.

Fixpoint read_artifacts (m : ReplayManifest) (store : list (string * node)) (dev : Z)
    (refs : list (string * ArtifactRef)) (total : Z) : result ReplayError unit :=
  match refs with
  | [] => Ok tt
  | (digest, reference) :: refs =>
      let remaining := MAX_REPLAY_TOTAL_BYTES - total in
      raise TooManyBytes when remaining <? 0 ;;
      let label := artifact_label m digest in
      let* content := read_file_at store dev digest (Z.min MAX_REPLAY_FILE_BYTES remaining) label
                        (Some (art_size_bytes reference)) in
      let* _ := require_ref content label reference in
      read_artifacts m store dev refs (total + nbytes content)
  end.

(** The artifact store, when the manifest names artifacts. *)
Definition open_store (entries : list (string * node)) (dev : Z) (refs : list (string * ArtifactRef)) :
    result ReplayError (list (string * node)) :=
  let* parent := open_directory entries dev "artifacts" "artifact store parent" in
  let* _ := require_entries parent "artifact store parent" ["sha256"] in
  let* store := open_directory parent dev "sha256" "artifact store" in
  let* _ := require_entries store "artifact store" refs.*1 in
  Ok store.

Definition expected_top (m : ReplayManifest) : list string :=
  (FIXED_REPLAY_FILES ++ (if bool_decide (rm_artifacts m = []) then [] else ["artifacts"]))%list.

(** The [try] body of [_inspect_replay] after the manifest bytes are read. *)
Definition check_tree (rd : Readers) (dev : Z) (entries : list (string * node)) (raw : string) :
    result ReplayError LoadedReplay :=
  let* m := parse_canonical_model ReplayManifest_json (read_manifest rd) raw "manifest.json" in
  let* _ := validate_manifest_bounds m (nbytes raw) in
  let* _ := require_entries entries "replay root" (expected_top m) in
  let* refs := artifact_refs_by_digest m in
  let* store := if bool_decide (rm_artifacts m = []) then Ok None
                else let* s := open_store entries dev refs in Ok (Some s) in
  let* read := read_fixed entries dev (fixed_specs m) (nbytes raw) in
  match read with
  | ([evidence_raw; contract_raw; grade_raw; events_raw; policy_raw], total) =>
      let* evidence := parse_canonical_model EvaluationEvidence_json (read_evidence rd) evidence_raw "evidence.json" in
      let* contract := parse_canonical_model ScoringContract_json (read_contract rd) contract_raw "contract.json" in
      let* stored_grade := parse_canonical_model Grade_json (read_grade rd) grade_raw "grade.json" in
      let* stored_policy := parse_canonical_model RewardPolicy_json (read_policy rd) policy_raw "policy.json" in
      let* _ := for_each (fun cs => require_ref cs.1 cs.2.1.2 cs.2.2) (combine read.1 (fixed_specs m)) in
      let* events := event_bytes evidence in
      raise EventsDiffer when negb (bool_decide (events_raw = events)) ;;
      let* _ := match store with
                | Some s => read_artifacts m s dev (sort_kv refs) total
                | None => Ok tt
                end in
      let* _ := for_each (fun r => raise ArtifactAbsent r when negb (bool_decide (r ∈ (rm_artifacts m).*2)) ;; Ok tt)
                  (evidence_artifact_refs evidence) in
      Ok {| lo_manifest := m; lo_evidence := evidence; lo_contract := contract; lo_stored_grade := stored_grade;
            lo_stored_policy := stored_policy |}
  | _ => Err (ValueError "unreachable")
  end.

(** [_inspect_replay] *)
Definition inspect_replay (rd : Readers) (root : node) (expected_manifest_sha256 : option string) :
    ReplayVerification * option LoadedReplay :=
  let opened :=
    match root with
    | DirNode dev entries =>
        let* raw := read_file_at entries dev "manifest.json" MAX_REPLAY_MANIFEST_BYTES "manifest" None in
        Ok (dev, entries, raw)
    | _ => Err (NotDirectory "replay root")
    end in
  match opened with
  | Err e => ({| rv_valid := false; rv_anchored := false; rv_manifest_sha256 := None; rv_errors := [InvalidReplay e];
                 rv_rescored_grade := None |}, None)
  | Ok (dev, entries, raw) =>
      let digest := sha256_bytes raw in
      let anchored := bool_decide (expected_manifest_sha256 = Some digest) in
      let anchor_errors :=
        match expected_manifest_sha256 with
        | Some expected => if anchored then [] else [AnchorMismatch expected digest]
        | None => []
        end in
      let verification errors rescored :=
        {| rv_valid := bool_decide (length errors = 0%nat); rv_anchored := anchored;
           rv_manifest_sha256 := Some digest; rv_errors := errors; rv_rescored_grade := rescored |} in
      match check_tree rd dev entries raw with
      | Err e => (verification (anchor_errors ++ [InvalidReplay e])%list None, None)
      | Ok loaded =>
          let '(rescore_errors, rescored) :=
            match score_evidence (lo_evidence loaded) (lo_contract loaded) (lo_stored_policy loaded) with
            | Ok g => (if Grade_eqb g (lo_stored_grade loaded) then [] else [StoredGradeDiffers], Some g)
            | Err m => ([CannotRescore m], None)
            end in
          let errors := (anchor_errors ++ rescore_errors)%list in
          (verification errors rescored, if bool_decide (length errors = 0%nat) then Some loaded else None)
      end
  end.

(** [verify_replay] *)
Definition verify_replay (rd : Readers) (root : node) (expected : option string) : ReplayVerification :=
  (inspect_replay rd root expected).1.

(** [rescore_replay] *)
Definition rescore_replay (rd : Readers) (root : node) (policy : RewardPolicy) (expected : option string) :
    result ReplayError Grade :=
  match inspect_replay rd root expected with
  | (verification, Some loaded) =>
      raise CannotRescoreInvalid when negb (rv_valid verification) ;;
      let* _ := value_error (validate_RewardPolicy policy) in
      value_error (score_evidence (lo_evidence loaded) (lo_contract loaded) policy)
  | (_, None) => Err CannotRescoreInvalid
  end.

(** ** Writing *)
(** The loop that assigns a reference and a place to each artifact. *)
Fixpoint place_artifacts (items : list (string * string)) (evidence_refs : list ArtifactRef)
    (refs : list (string * ArtifactRef)) (physical : list (string * string)) :
    result ReplayError (list (string * ArtifactRef) * list (string * string)) :=
  match items with
  | [] => Ok (refs, physical)
  | (name, content) :: items =>
      let* reference := artifact_reference_for_content content evidence_refs in
      let digest := art_sha256 reference in
      raise DigestConflict digest
        when match dict_get physical digest with
             | Some prior => negb (bool_decide (prior = content))
             | None => false
             end ;;
      place_artifacts items evidence_refs (dict_set name reference refs) (setdefault physical digest content)
  end.

(** [_write_replay_tree], in a new directory: the tree it leaves and the receipt. *)
Definition write_replay_tree (dev : Z) (evidence : EvaluationEvidence) (contract : ScoringContract) (grade : Grade)
    (policy : RewardPolicy) (artifacts : list (string * string)) : result ReplayError (node * ReplayReceipt) :=
  let* evidence_bytes := value_error (canonical_json_bytes (EvaluationEvidence_json evidence)) in
  let* contract_bytes := value_error (canonical_json_bytes (ScoringContract_json contract)) in
  let* grade_bytes := value_error (canonical_json_bytes (Grade_json grade)) in
  let* policy_bytes := value_error (canonical_json_bytes (RewardPolicy_json policy)) in
  let* events_bytes := event_bytes evidence in
  let evidence_refs := evidence_artifact_refs evidence in
  let* placed := place_artifacts (sort_kv artifacts) evidence_refs [] [] in
  let '(artifact_refs, physical_artifacts) := placed in
  raise MissingEvidenceArtifacts
    when negb (forallb (fun r => bool_decide (r ∈ artifact_refs.*2)) evidence_refs) ;;
  let* evidence_ref := ref_of evidence_bytes "application/json" in
  let* contract_ref := ref_of contract_bytes "application/json" in
  let* grade_ref := ref_of grade_bytes "application/json" in
  let* events_ref := ref_of events_bytes "application/x-ndjson" in
  let* policy_ref := ref_of policy_bytes "application/json" in
  let m := {| rm_evidence := evidence_ref; rm_contract := contract_ref; rm_grade := grade_ref;
              rm_events := events_ref; rm_policy := policy_ref; rm_artifacts := artifact_refs |} in
  let* _ := value_error (validate_ReplayManifest m) in
  let* manifest_bytes := value_error (canonical_json_bytes (ReplayManifest_json m)) in
  let* _ := validate_manifest_bounds m (nbytes manifest_bytes) in
  let file content := FileNode dev 1 content in
  let store := DirNode dev (map (fun dc => (dc.1, file dc.2)) (sort_kv physical_artifacts)) in
  let anchor := {| ra_manifest_sha256 := sha256_bytes manifest_bytes;
                   ra_evidence_sha256 := sha256_bytes evidence_bytes;
                   ra_grade_sha256 := sha256_bytes grade_bytes;
                   ra_contract_sha256 := sha256_bytes contract_bytes;
                   ra_policy_sha256 := sha256_bytes policy_bytes |} in
  Ok (DirNode dev
        ((if bool_decide (physical_artifacts = []) then [] else [("artifacts", DirNode dev [("sha256", store)])])
         ++ [("evidence.json", file evidence_bytes); ("contract.json", file contract_bytes);
             ("grade.json", file grade_bytes); ("events.jsonl", file events_bytes); ("policy.json", file policy_bytes);
             ("manifest.json", file manifest_bytes)])%list,
      {| rc_manifest := m; rc_manifest_sha256 := sha256_bytes manifest_bytes; rc_anchor := anchor |}).

(** [write_replay], for a target that does not exist yet. *)
Definition write_replay (rd : Readers) (dev : Z) (evidence : EvaluationEvidence) (contract : ScoringContract)
    (grade : Grade) (policy : RewardPolicy) (artifacts : list (string * string)) :
    result ReplayError (node * ReplayReceipt) :=
  let* _ := value_error (validate_EvaluationEvidence evidence) in
  let* _ := value_error (validate_ScoringContract contract) in
  let* _ := value_error (validate_RewardPolicy policy) in
  let* _ := value_error (validate_Grade grade) in
  let* rescored := value_error (score_evidence evidence contract policy) in
  raise GradeMismatch when negb (Grade_eqb grade rescored) ;;
  let* snapshot := snapshot_artifacts artifacts in
  let* written := write_replay_tree dev evidence contract grade policy snapshot in
  let '(root, receipt) := written in
  let verification := (inspect_replay rd root (Some (rc_manifest_sha256 receipt))).1 in
  raise SelfVerificationFailed when negb (rv_valid verification) || negb (rv_anchored verification) ;;
  Ok (root, receipt).

End Replay.
