(* ===== verification/ReplayFacts.v ===== *)
(** * Guarantees of replay bundles

    What is written can be verified: the self-verification of the writer never fails,
    and the bundle reads back as exactly what was written.  What verifies is sound: the
    stored grade is the one the stored evidence earns, and every artifact the evidence
    names is there with its digest.  And bundles are tamper-evident: two bundles that
    verify against one anchor agree in every file, or exhibit a SHA-256 collision. *)
From Stdlib Require Import ZArith QArith String Ascii Lia.
From stdpp Require Import base tactics list strings.
From S2P Require Import Prelude Floats Sha256 Json JsonFacts Models ModelFacts Samples Grading Text WorkerFacts Replay.
Local Open Scope string_scope.
Local Open Scope Z_scope.

Module ReplayFacts.
Import Sha256 Json JsonFacts Models Grading Text Replay.

Lemma nbytes_nonneg s : 0 <= nbytes s.
Proof. unfold nbytes. lia. Qed.

(** ** Documents *)
Lemma parse_canonical_sound {T} (dump : T -> json) read raw name m :
  parse_canonical_model dump read raw name = Ok m -> canonical_json_bytes (dump m) = Ok raw.
Proof. unfold parse_canonical_model. intros H. ok_inv. by bool_prop; subst. Qed.

(** A document can be read back: its dicts have distinct keys, its text is UTF-8, it is
    within the structural limits, and the reader of the validation library returns the
    model that was dumped. *)
Definition readable {T} (dump : T -> json) (read : json -> option T) (name : string) (m : T) : Prop :=
  wf_json (dump m) /\ (forall raw, canonical_json_bytes (dump m) = Ok raw -> utf8_ok true raw = true)
  /\ validate_replay_complexity (canon (dump m)) name = Ok tt /\ read (canon (dump m)) = Some m.

(** Canonical encodings of objects are recognised as UTF-8. *)
Lemma canonical_object_utf8 kvs raw :
  kvs <> [] -> canonical_json_bytes (JObj kvs) = Ok raw -> detect_encoding raw = utf_8.
Proof.
  intros Hk H. unfold canonical_json_bytes in H. rewrite dumps_obj in H.
  apply bind_ok in H as (text & Ht & H). apply raise_ok in H as [_ H]. injection H as <-.
  apply bind_ok in Ht as (ts & Hts & Ht). injection Ht as <-. apply map_result_ok in Hts.
  assert (exists t, ("{" ++ String.concat "," (encode_member <$> sort_kv ts) ++ "}") = String "{" (String (chr 34) t))
    as [t ->].
  { destruct (sort_kv ts) as [|[k v] l] eqn:Hs; [|destruct l; eexists; reflexivity].
    pose proof (sort_kv_perm ts) as Hp. rewrite Hs in Hp. apply Permutation_nil in Hp. subst ts. by inversion Hts. }
  change (String "{" (String (chr 34) t) ++ newline) with (String "{" (String (chr 34) (t ++ newline))).
  unfold detect_encoding, starts_with. cbn. rewrite !andb_false_r. cbn. by repeat case_match.
Qed.

Lemma parse_readable {T} (dump : T -> json) read name m kv kvs raw :
  dump m = JObj (kv :: kvs) -> readable dump read name m -> canonical_json_bytes (dump m) = Ok raw ->
  parse_canonical_model dump read raw name = Ok m.
Proof.
  intros Hd (Hwf & Hu & Hc & Hr) Hb. unfold parse_canonical_model, strict_json_loads_bytes.
  assert (detect_encoding raw = utf_8) as -> by (eapply (canonical_object_utf8 (kv :: kvs)); [done|by rewrite <-Hd]).
  cbn [decode_as]. rewrite (Hu raw Hb), (canonical_roundtrip_lemma _ _ Hwf Hb), Hc. cbn [bind_result].
  rewrite Hr, Hb. by rewrite bool_decide_true.
Qed.

(** ** References by digest *)
Lemma setdefault_get {V} (d : list (string * V)) k v k' :
  dict_get (setdefault d k v) k' =
  match dict_get d k' with Some x => Some x | None => if decide (k' = k) then Some v else None end.
Proof.
  unfold setdefault. destruct (dict_get d k) as [x|] eqn:E.
  - destruct (dict_get d k') eqn:E'; [done|]. case_decide; [congruence|done].
  - induction d as [|[k0 v0] d IH]; cbn in *; [by repeat case_decide|].
    repeat case_decide; subst; try done; try (by apply IH). 
Qed.

Lemma setdefault_NoDup {V} (d : list (string * V)) k v : NoDup d.*1 -> NoDup (setdefault d k v).*1.
Proof.
  intros Hd. unfold setdefault. destruct (dict_get d k) eqn:E; [done|]. apply dict_get_None in E.
  rewrite fmap_app. apply NoDup_app. split_and!; [done| |apply NoDup_singleton]. cbn.
  intros x Hx ->%list_elem_of_singleton. done.
Qed.

Abbreviation add_ref := (fun (d : list (string * ArtifactRef)) r => setdefault d (art_sha256 r) r).

Lemma merge_refs_fold refs d b d' : merge_refs refs d b = Ok d' -> d' = fold_left add_ref refs.*2 d.
Proof.
  revert d. induction refs as [|[l r] refs IH]; intros d H; cbn in *; [congruence|].
  apply raise_ok in H as [_ H]. apply raise_ok in H as [_ H]. by apply IH.
Qed.

Lemma fold_refs_get refs d k r : dict_get d k = Some r -> dict_get (fold_left add_ref refs d) k = Some r.
Proof.
  revert d. induction refs as [|x refs IH]; intros d H; cbn; [done|]. apply IH. by rewrite setdefault_get, H.
Qed.

Lemma fold_refs_NoDup refs d : NoDup d.*1 -> NoDup (fold_left add_ref refs d).*1.
Proof. revert d. induction refs as [|x refs IH]; intros d H; cbn; [done|]. by apply IH, setdefault_NoDup. Qed.

(** A merge that succeeds gives every reference back under its digest. *)
Lemma merge_refs_get refs d b d' l r :
  merge_refs refs d b = Ok d' -> (l, r) ∈ refs -> dict_get d' (art_sha256 r) = Some r.
Proof.
  revert d. induction refs as [|[l0 r0] refs IH]; intros d H; [by intros []%not_elem_of_nil|]. cbn in H.
  apply raise_ok in H as [_ H]. apply raise_ok in H as [Hc H].
  intros [[= -> ->]|Hin]%elem_of_cons; [|by eapply IH].
  apply merge_refs_fold in H as ->. apply fold_refs_get. rewrite setdefault_get.
  destruct (dict_get d (art_sha256 r0)) as [p|]; [bool_prop; by subst|]. by rewrite decide_True.
Qed.

Definition agree (refs : list ArtifactRef) : Prop :=
  forall a b, a ∈ refs -> b ∈ refs -> art_sha256 a = art_sha256 b -> a = b.

Lemma merge_agree refs d b d' : merge_refs refs d b = Ok d' -> agree refs.*2.
Proof.
  intros H x y ([l1 r1] & -> & H1)%list_elem_of_fmap ([l2 r2] & -> & H2)%list_elem_of_fmap E. cbn in *.
  apply (merge_refs_get _ _ _ _ _ _ H) in H1, H2. congruence.
Qed.

Lemma merge_refs_total refs d :
  agree refs.*2 -> (forall r p, r ∈ refs.*2 -> dict_get d (art_sha256 r) = Some p -> p = r) ->
  merge_refs refs d false = Ok (fold_left add_ref refs.*2 d).
Proof.
  revert d. induction refs as [|[l r] refs IH]; intros d Ha Hd; [done|]. cbn [merge_refs andb fmap list_fmap fold_left snd].
  assert (match dict_get d (art_sha256 r) with Some p => negb (bool_decide (p = r)) | None => false end = false) as ->.
  { destruct (dict_get d (art_sha256 r)) as [p|] eqn:E; [|done].
    rewrite (Hd r p); [by rewrite bool_decide_true|by left|done]. }
  apply IH.
  - intros x y Hx Hy. apply Ha; by right.
  - intros x p Hx. rewrite setdefault_get. destruct (dict_get d (art_sha256 x)) as [q|] eqn:E.
    + intros [= <-]. apply Hd; [by right|done].
    + case_decide as Hk; [|done]. intros [= <-]. apply Ha; [by left|by right|done].
Qed.

(** The references of a manifest by digest. *)
Lemma first_refs_spec refs k r :
  agree refs -> dict_get (first_refs refs) k = Some r <-> r ∈ refs /\ art_sha256 r = k.
Proof.
  intros Ha. unfold first_refs.
  assert (forall d, (forall k r, dict_get d k = Some r -> art_sha256 r = k /\ forall x, x ∈ refs -> art_sha256 x = k -> r = x) ->
    dict_get (fold_left add_ref refs d) k = Some r <-> dict_get d k = Some r \/ (r ∈ refs /\ art_sha256 r = k)) as H.
  { induction refs as [|x refs IH]; intros d Hd; cbn [fold_left].
    - split; [by left|intros [?|[[]%not_elem_of_nil _]]; done].
    - rewrite IH.
      + rewrite setdefault_get, elem_of_cons. destruct (dict_get d k) as [p|] eqn:E.
        * split; [naive_solver|]. intros [?|[[->|?] ?]]; [by left| |by right].
          left. f_equal. by apply (Hd k p E); [left|].
        * case_decide as Hk; naive_solver.
      + intros a b Hx Hy. apply Ha; by right.
      + intros k' r'. rewrite setdefault_get. destruct (dict_get d k') as [p|] eqn:E.
        * intros [= <-]. destruct (Hd k' p E) as [H1 H2]. split; [done|]. intros y Hy. apply H2. by right.
        * case_decide as Hk; [|done]. intros [= <-]. split; [done|]. intros y Hy Ey.
          apply Ha; [by left|by right|congruence]. }
  rewrite H; [naive_solver|done].
Qed.
(** ** Placing artifacts *)
(** [content] is what [r] refers to. *)
Definition refers_to (r : ArtifactRef) (content : string) : Prop :=
  sha256_bytes content = art_sha256 r /\ nbytes content = art_size_bytes r.

Lemma ref_of_ok content media r : ref_of content media = Ok r -> refers_to r content.
Proof. unfold ref_of. intros [_ H]%raise_ok. by injection H as <-. Qed.

Lemma reference_ok content refs r : artifact_reference_for_content content refs = Ok r -> refers_to r content.
Proof.
  unfold artifact_reference_for_content.
  destruct (remove_dups _) as [|x [|y l]] eqn:E; [apply ref_of_ok| |done].
  intros [Hs H]%raise_ok. injection H as <-. bool_prop. split; [|done].
  assert (x ∈ filter (fun r => art_sha256 r = sha256_bytes content) refs) as [H _]%list_elem_of_filter.
  { apply elem_of_remove_dups. rewrite E. by left. }
  done.
Qed.

(** The references so far, the stored contents so far: each reference has its content. *)
Record placed (refs : list (string * ArtifactRef)) (physical : list (string * string)) : Prop := {
  pl_refs : NoDup refs.*1;
  pl_physical : NoDup physical.*1;
  pl_stored name r : (name, r) ∈ refs -> exists c, dict_get physical (art_sha256 r) = Some c /\ refers_to r c;
  pl_named digest c : dict_get physical digest = Some c -> exists name r, (name, r) ∈ refs /\ art_sha256 r = digest
}.

Lemma place_artifacts_placed items erefs refs physical refs' physical' :
  NoDup items.*1 -> (forall n, n ∈ items.*1 -> n ∉ refs.*1) ->
  placed refs physical -> place_artifacts items erefs refs physical = Ok (refs', physical') -> placed refs' physical'.
Proof.
  revert refs physical. induction items as [|[name content] items IH]; intros refs physical Hnd Hfr Hp; cbn [place_artifacts].
  { by intros [= <- <-]. }
  intros (r & Hr & [Hc H]%raise_ok)%bind_ok. apply reference_ok in Hr.
  rewrite dict_set_fresh in H by (apply Hfr; by left). apply NoDup_cons in Hnd as [Hn Hnd].
  assert (name ∉ refs.*1) as Hname by (apply Hfr; by left).
  apply IH in H; [done|done| |].
  - intros n Hin. rewrite fmap_app, elem_of_app. intros [?| ->%list_elem_of_singleton]; [|done].
    by apply (Hfr n); [right|].
  - destruct Hp as [P1 P2 P3 P4]. split.
    + rewrite fmap_app. apply NoDup_app. split_and!; [done| |apply NoDup_singleton].
      by intros x Hx ->%list_elem_of_singleton.
    + by apply setdefault_NoDup.
    + intros n x [Hin|[= -> ->]%list_elem_of_singleton]%elem_of_app.
      * destruct (P3 n x Hin) as (c & Hg & Hrc). exists c. by rewrite setdefault_get, Hg.
      * rewrite setdefault_get. destruct (dict_get physical (art_sha256 r)) as [p|] eqn:E.
        -- bool_prop. subst p. eauto.
        -- rewrite decide_True by done. eauto.
    + intros digest c. rewrite setdefault_get. destruct (dict_get physical digest) as [p|] eqn:E.
      * intros _. destruct (P4 _ _ E) as (n & x & Hin & Hd). exists n, x. split; [|done]. apply elem_of_app. by left.
      * case_decide as Hk; [|done]. intros _. exists name, r. split; [|done]. apply elem_of_app. right. by left.
Qed.

Lemma placed_nil : placed [] [].
Proof. split; [constructor|constructor|by intros ? ? []%not_elem_of_nil|done]. Qed.

Lemma snapshot_loop_NoDup items snapshot total s :
  NoDup snapshot.*1 -> snapshot_loop items snapshot total = Ok s -> NoDup s.*1.
Proof.
  revert snapshot total. induction items as [|[n c] items IH]; intros snapshot total Hs; cbn; [by intros [= <-]|].
  intros [Hn [_ [_ H]%raise_ok]%raise_ok]%raise_ok. apply IH in H; [done|]. rewrite fmap_app. apply NoDup_app.
  split_and!; [done| |apply NoDup_singleton]. bool_prop. by intros x Hx ->%list_elem_of_singleton.
Qed.

Lemma snapshot_NoDup artifacts s : snapshot_artifacts artifacts = Ok s -> NoDup s.*1.
Proof. unfold snapshot_artifacts. intros [_ H]%raise_ok. eapply snapshot_loop_NoDup; [|exact H]. constructor. Qed.

(** ** Bounds *)
Record within_bounds (m : ReplayManifest) (n : Z) : Prop := {
  wb_manifest : n <= MAX_REPLAY_MANIFEST_BYTES;
  wb_fixed label r : (label, r) ∈ fixed_refs m -> art_size_bytes r <= MAX_REPLAY_FILE_BYTES;
  wb_artifact name r : (name, r) ∈ rm_artifacts m -> art_size_bytes r <= MAX_REPLAY_FILE_BYTES;
  wb_agree : agree (rm_artifacts m).*2;
  wb_total : n + sum_sizes (fixed_refs m).*2 + sum_sizes (first_refs (rm_artifacts m).*2).*2 <= MAX_REPLAY_TOTAL_BYTES
}.

Lemma merge_refs_bounded refs d d' l r :
  merge_refs refs d true = Ok d' -> (l, r) ∈ refs -> art_size_bytes r <= MAX_REPLAY_FILE_BYTES.
Proof.
  revert d. induction refs as [|[l0 r0] refs IH]; intros d H; [by intros []%not_elem_of_nil|]. cbn in H.
  apply raise_ok in H as [Hs H]. apply raise_ok in H as [_ H].
  intros [[= -> ->]|Hin]%elem_of_cons; [by apply Z.ltb_ge|by eapply IH].
Qed.

Lemma bounds_ok m n : validate_manifest_bounds m n = Ok tt -> within_bounds m n.
Proof.
  unfold validate_manifest_bounds. intros H. apply raise_ok in H as [H1%Z.ltb_ge H]. apply raise_ok in H as [_ H].
  apply bind_ok in H as ([] & H2%for_each_ok & H). apply bind_ok in H as (d & _ & H).
  apply bind_ok in H as (d2 & H3 & H). apply raise_ok in H as [H4%Z.ltb_ge _].
  rewrite Forall_forall in H2. split; [done| | |by eapply merge_agree|done].
  - intros label r Hin. by apply H2 in Hin as [?%Z.ltb_ge _]%raise_ok.
  - intros name r. by apply (merge_refs_bounded _ _ _ _ _ H3).
Qed.

(** ** Reading a written tree *)
Lemma dict_get_perm {V} (a b : list (string * V)) k : a ≡ₚ b -> NoDup b.*1 -> dict_get a k = dict_get b k.
Proof.
  intros Hp Hb. assert (NoDup a.*1) as Ha by by rewrite Hp.
  destruct (dict_get b k) as [v|] eqn:E.
  - apply dict_get_Some; [done|]. rewrite Hp. by apply dict_get_In.
  - apply dict_get_None. apply dict_get_None in E. by rewrite Hp.
Qed.

Lemma dict_get_map {V U} (g : V -> U) (d : list (string * V)) k :
  dict_get (map (fun kv => (kv.1, g kv.2)) d) k = g <$> dict_get d k.
Proof. induction d as [|[k' v] d IH]; cbn; [done|]. by case_decide. Qed.

Lemma sum_sizes_perm a b : a ≡ₚ b -> sum_sizes a = sum_sizes b.
Proof. unfold sum_sizes. induction 1; cbn; lia. Qed.

Lemma sum_sizes_nonneg l : (forall r, r ∈ l -> 0 <= art_size_bytes r) -> 0 <= sum_sizes l.
Proof.
  unfold sum_sizes. induction l as [|r l IH]; intros H; cbn; [done|]. pose proof (H r ltac:(by left)).
  enough (0 <= fold_right (fun r acc => art_size_bytes r + acc) 0 l) by lia. apply IH. intros x Hx. apply H. by right.
Qed.

Lemma same_length_sets (a b : list string) : NoDup a -> NoDup b -> (forall x, x ∈ a <-> x ∈ b) -> length a = length b.
Proof. intros Ha Hb H. apply Permutation_length, NoDup_Permutation; done. Qed.

Lemma require_entries_ok entries label expected :
  NoDup entries.*1 -> NoDup expected -> (forall x, x ∈ entries.*1 <-> x ∈ expected) ->
  require_entries entries label expected = Ok tt.
Proof.
  intros H1 H2 H. unfold require_entries, directory_entries.
  assert ((length expected <? length entries)%nat = false) as ->.
  { apply Nat.ltb_ge. rewrite <-(length_fmap fst). by rewrite (same_length_sets entries.*1 expected). }
  cbn [bind_result]. apply WorkerFacts.same_set_spec in H. by rewrite H.
Qed.

Lemma read_file_ok entries dev name limit label content expected :
  dict_get entries name = Some (FileNode dev 1 content) -> nbytes content <= limit ->
  (forall n, expected = Some n -> nbytes content = n) ->
  read_file_at entries dev name limit label expected = Ok content.
Proof.
  intros Hg Hn He. unfold read_file_at. rewrite Hg, Z.eqb_refl. cbn [negb Z.eqb Pos.eqb].
  apply Z.ltb_ge in Hn as ->. destruct expected as [n|]; [|done]. by rewrite (He n), Z.eqb_refl.
Qed.

Lemma require_ref_ok content label r : refers_to r content -> require_ref content label r = Ok tt.
Proof. intros [H1 H2]. unfold require_ref. by rewrite H1, H2, bool_decide_true, Z.eqb_refl. Qed.

Lemma read_artifacts_ok m store dev refs total :
  (forall digest r, (digest, r) ∈ refs -> exists c, dict_get store digest = Some (FileNode dev 1 c) /\ refers_to r c
     /\ art_size_bytes r <= MAX_REPLAY_FILE_BYTES) ->
  total + sum_sizes refs.*2 <= MAX_REPLAY_TOTAL_BYTES -> read_artifacts m store dev refs total = Ok tt.
Proof.
  revert total. induction refs as [|[digest r] refs IH]; intros total Hr Ht; [done|]. cbn [read_artifacts].
  destruct (Hr digest r) as (c & Hg & [Hsha Hsize] & Hs); [by left|]. cbn in Ht.
  assert (0 <= sum_sizes refs.*2) as Hpos.
  { apply sum_sizes_nonneg. intros x ([d y] & -> & Hx)%list_elem_of_fmap. cbn.
    destruct (Hr d y) as (c' & _ & [_ <-] & _); [by right|]. apply nbytes_nonneg. }
  pose proof (nbytes_nonneg c). change (fold_right (fun r acc => art_size_bytes r + acc) 0 refs.*2) with (sum_sizes refs.*2) in Ht.
  destruct (Z.ltb_spec (MAX_REPLAY_TOTAL_BYTES - total) 0); [lia|].
  rewrite (read_file_ok _ _ _ _ _ c); [|done|lia|intros n [= <-]; lia]. cbn [bind_result].
  rewrite require_ref_ok by done. cbn [bind_result]. apply IH; [|lia]. intros d x Hx. apply Hr. by right.
Qed.

Lemma read_fixed_ok entries dev specs contents total :
  Forall2 (fun spec content => dict_get entries spec.1.1 = Some (FileNode dev 1 content) /\ refers_to spec.2 content
             /\ art_size_bytes spec.2 <= MAX_REPLAY_FILE_BYTES) specs contents ->
  total + sum_sizes specs.*2 <= MAX_REPLAY_TOTAL_BYTES ->
  read_fixed entries dev specs total = Ok (contents, total + sum_sizes specs.*2).
Proof.
  intros H. revert total. induction H as [|[[name label] r] content specs contents (Hg & [_ Hn] & Hs) H IH];
    intros total Ht; cbn [read_fixed]; [cbn; do 2 f_equal; lia|].
  cbn in Hg, Hn, Hs, Ht. change (fold_right (fun r acc => art_size_bytes r + acc) 0 specs.*2) with (sum_sizes specs.*2) in Ht.
  assert (0 <= sum_sizes specs.*2) as Hpos.
  { apply sum_sizes_nonneg. intros x (sp & -> & [i Hi]%list_elem_of_lookup)%list_elem_of_fmap.
    destruct (Forall2_lookup_l _ _ _ _ _ H Hi) as (y & _ & _ & [_ <-] & _). apply nbytes_nonneg. }
  pose proof (nbytes_nonneg content). destruct (Z.ltb_spec (MAX_REPLAY_TOTAL_BYTES - total) 0); [lia|].
  rewrite (read_file_ok _ _ _ _ _ content); [|done|lia|done]. cbn [bind_result].
  rewrite IH by lia. cbn [bind_result fst snd]. do 2 f_equal. cbn.
  change (fold_right (fun r acc => art_size_bytes r + acc) 0 specs.*2) with (sum_sizes specs.*2). lia.
Qed.

(** ** The round trip *)
(** Everything the inspection of a bundle reads into a model. *)
Record bundle_readable (rd : Readers) (m : ReplayManifest) (e : EvaluationEvidence) (c : ScoringContract) (g : Grade)
    (p : RewardPolicy) : Prop := {
  br_manifest : readable ReplayManifest_json (read_manifest rd) "manifest.json" m;
  br_evidence : readable EvaluationEvidence_json (read_evidence rd) "evidence.json" e;
  br_contract : readable ScoringContract_json (read_contract rd) "contract.json" c;
  br_grade : readable Grade_json (read_grade rd) "grade.json" g;
  br_policy : readable RewardPolicy_json (read_policy rd) "policy.json" p
}.

(** What a successful [_write_replay_tree] has built. *)
Record tree_written (dev : Z) (e : EvaluationEvidence) (c : ScoringContract) (g : Grade) (p : RewardPolicy)
    (entries : list (string * node)) (m : ReplayManifest) (physical : list (string * string))
    (eb cb gb evb pb mb : string) : Prop := {
  tw_evidence : canonical_json_bytes (EvaluationEvidence_json e) = Ok eb;
  tw_contract : canonical_json_bytes (ScoringContract_json c) = Ok cb;
  tw_grade : canonical_json_bytes (Grade_json g) = Ok gb;
  tw_policy : canonical_json_bytes (RewardPolicy_json p) = Ok pb;
  tw_events : event_bytes e = Ok evb;
  tw_manifest : canonical_json_bytes (ReplayManifest_json m) = Ok mb;
  tw_placed : placed (rm_artifacts m) physical;
  tw_refs r : r ∈ evidence_artifact_refs e -> r ∈ (rm_artifacts m).*2;
  tw_evidence_ref : refers_to (rm_evidence m) eb;
  tw_contract_ref : refers_to (rm_contract m) cb;
  tw_grade_ref : refers_to (rm_grade m) gb;
  tw_events_ref : refers_to (rm_events m) evb;
  tw_policy_ref : refers_to (rm_policy m) pb;
  tw_bounds : validate_manifest_bounds m (nbytes mb) = Ok tt;
  tw_entries : entries =
    ((if bool_decide (physical = []) then []
      else [("artifacts", DirNode dev [("sha256", DirNode dev
              (map (fun dc => (dc.1, FileNode dev 1 dc.2)) (sort_kv physical)))])])
     ++ [("evidence.json", FileNode dev 1 eb); ("contract.json", FileNode dev 1 cb);
         ("grade.json", FileNode dev 1 gb); ("events.jsonl", FileNode dev 1 evb); ("policy.json", FileNode dev 1 pb);
         ("manifest.json", FileNode dev 1 mb)])%list
}.

Lemma value_error_ok {A} (r : result string A) a : value_error r = Ok a -> r = Ok a.
Proof. destruct r; cbn; congruence. Qed.

Lemma write_tree_inv dev e c g p artifacts root receipt :
  NoDup artifacts.*1 -> write_replay_tree dev e c g p artifacts = Ok (root, receipt) ->
  exists entries m physical eb cb gb evb pb mb,
    tree_written dev e c g p entries m physical eb cb gb evb pb mb
    /\ root = DirNode dev entries /\ rc_manifest receipt = m /\ rc_manifest_sha256 receipt = sha256_bytes mb.
Proof.
  intros Hnd. unfold write_replay_tree.
  intros (eb & E1%value_error_ok & (cb & E2%value_error_ok & (gb & E3%value_error_ok & (pb & E4%value_error_ok & H)%bind_ok)%bind_ok)%bind_ok)%bind_ok.
  apply bind_ok in H as (evb & E5 & H). apply bind_ok in H as ([refs physical] & E6 & H).
  apply raise_ok in H as [E7%negb_false_iff H].
  apply bind_ok in H as (r1 & R1%ref_of_ok & H). apply bind_ok in H as (r2 & R2%ref_of_ok & H).
  apply bind_ok in H as (r3 & R3%ref_of_ok & H). apply bind_ok in H as (r4 & R4%ref_of_ok & H).
  apply bind_ok in H as (r5 & R5%ref_of_ok & H). apply bind_ok in H as ([] & _ & H).
  apply bind_ok in H as (mb & E8%value_error_ok & H). apply bind_ok in H as ([] & E9 & H).
  injection H as <- <-. eexists _, _, physical, eb, cb, gb, evb, pb, mb. split; [|done].
  split; try done.
  - eapply place_artifacts_placed; [| |apply placed_nil|exact E6].
    + by rewrite (sort_kv_perm artifacts).
    + intros n _. apply not_elem_of_nil.
  - intros r Hr. rewrite forallb_forall in E7. apply list_elem_of_In in Hr. apply E7 in Hr. by bool_prop.
Qed.

Section Written.
Context (rd : Readers) (dev : Z) (e : EvaluationEvidence) (c : ScoringContract) (g : Grade) (p : RewardPolicy).
Context (entries : list (string * node)) (m : ReplayManifest) (physical : list (string * string)).
Context (eb cb gb evb pb mb : string).
Hypothesis Hw : tree_written dev e c g p entries m physical eb cb gb evb pb mb.

Lemma written_empty : rm_artifacts m = [] <-> physical = [].
Proof.
  destruct (tw_placed _ _ _ _ _ _ _ _ _ _ _ _ _ _ Hw) as [_ _ P3 P4]. split; intros E.
  - destruct physical as [|[d x] l]; [done|]. destruct (P4 d x) as (n & r & Hin & _); [by cbn; rewrite decide_True|].
    rewrite E in Hin. by apply not_elem_of_nil in Hin.
  - destruct (rm_artifacts m) as [|[n r] l]; [done|]. destruct (P3 n r) as (x & Hx & _); [by left|]. by rewrite E in Hx.
Qed.

Lemma written_top :
  NoDup entries.*1 /\ forall x, x ∈ entries.*1 <-> x ∈ expected_top m.
Proof.
  rewrite (tw_entries _ _ _ _ _ _ _ _ _ _ _ _ _ _ Hw). unfold expected_top.
  rewrite (bool_decide_ext _ _ written_empty). case_bool_decide; split.
  - by apply (bool_decide_unpack _).
  - by apply WorkerFacts.same_set_spec.
  - by apply (bool_decide_unpack _).
  - by apply WorkerFacts.same_set_spec.
Qed.

Lemma written_get name content :
  (name, content) ∈ [("evidence.json", eb); ("contract.json", cb); ("grade.json", gb); ("events.jsonl", evb);
                     ("policy.json", pb); ("manifest.json", mb)] ->
  dict_get entries name = Some (FileNode dev 1 content).
Proof.
  intros H. apply dict_get_Some; [apply written_top|]. rewrite (tw_entries _ _ _ _ _ _ _ _ _ _ _ _ _ _ Hw).
  apply elem_of_app. right. apply (list_elem_of_fmap_2 (fun nc => (nc.1, FileNode dev 1 nc.2))) in H. exact H.
Qed.

Let Hb : within_bounds m (nbytes mb) := bounds_ok _ _ (tw_bounds _ _ _ _ _ _ _ _ _ _ _ _ _ _ Hw).

Lemma written_refs : artifact_refs_by_digest m = Ok (first_refs (rm_artifacts m).*2).
Proof. unfold artifact_refs_by_digest. by rewrite merge_refs_total; [|apply (wb_agree _ _ Hb)|]. Qed.

Lemma written_ref_get digest r :
  dict_get (first_refs (rm_artifacts m).*2) digest = Some r ->
  exists content, dict_get physical digest = Some content /\ refers_to r content
    /\ art_size_bytes r <= MAX_REPLAY_FILE_BYTES.
Proof.
  intros ([[n x] [-> Hin]]%list_elem_of_fmap & <-)%first_refs_spec; [|apply (wb_agree _ _ Hb)].
  destruct (pl_stored _ _ (tw_placed _ _ _ _ _ _ _ _ _ _ _ _ _ _ Hw) _ _ Hin) as (content & Hg & Hr).
  exists content. split_and!; [done|done|]. by apply (wb_artifact _ _ Hb n).
Qed.

Lemma written_store_keys d : d ∈ physical.*1 <-> d ∈ (first_refs (rm_artifacts m).*2).*1.
Proof.
  destruct (tw_placed _ _ _ _ _ _ _ _ _ _ _ _ _ _ Hw) as [_ Hnd P3 P4]. split.
  - intros ([k x] & -> & Hk)%list_elem_of_fmap. cbn. apply dict_get_Some in Hk; [|done].
    destruct (P4 _ _ Hk) as (n & r & Hin & <-).
    assert (dict_get (first_refs (rm_artifacts m).*2) (art_sha256 r) = Some r) as Hr%dict_get_In.
    { apply first_refs_spec; [apply (wb_agree _ _ Hb)|]. split; [|done]. apply list_elem_of_fmap. by exists (n, r). }
    apply list_elem_of_fmap. by exists (art_sha256 r, r).
  - intros ([k r] & -> & Hk)%list_elem_of_fmap. cbn. apply dict_get_Some in Hk; [|by apply fold_refs_NoDup; constructor].
    apply written_ref_get in Hk as (x & Hx%dict_get_In & _). apply list_elem_of_fmap. by exists (k, x).
Qed.

Lemma written_store :
  rm_artifacts m <> [] ->
  open_store entries dev (first_refs (rm_artifacts m).*2)
  = Ok (map (fun dc => (dc.1, FileNode dev 1 dc.2)) (sort_kv physical)).
Proof.
  intros Hne. assert (physical <> []) as Hp by by rewrite <-written_empty.
  unfold open_store, open_directory. rewrite (tw_entries _ _ _ _ _ _ _ _ _ _ _ _ _ _ Hw), bool_decide_false by done.
  cbn -[first_refs sort_kv require_entries]. rewrite (decide_True (P := "artifacts" = "artifacts")), Z.eqb_refl by done.
  cbn -[first_refs sort_kv require_entries].
  rewrite require_entries_ok; [|apply NoDup_singleton|apply NoDup_singleton|done]. cbn -[first_refs sort_kv require_entries].
  rewrite (decide_True (P := "sha256" = "sha256")), Z.eqb_refl by done. cbn -[first_refs sort_kv require_entries].
  assert ((map (fun dc : string * string => (dc.1, FileNode dev 1 dc.2)) (sort_kv physical)).*1 ≡ₚ physical.*1) as Hk.
  { transitivity (sort_kv physical).*1; [|by rewrite (sort_kv_perm physical)].
    induction (sort_kv physical) as [|[k x] l IH]; cbn; [done|by constructor]. }
  rewrite require_entries_ok; [done| |by apply fold_refs_NoDup; constructor|].
  - rewrite Hk. apply (pl_physical _ _ (tw_placed _ _ _ _ _ _ _ _ _ _ _ _ _ _ Hw)).
  - intros x. rewrite Hk. apply written_store_keys.
Qed.

Lemma written_read_fixed :
  read_fixed entries dev (fixed_specs m) (nbytes mb)
  = Ok ([eb; cb; gb; evb; pb], nbytes mb + sum_sizes (fixed_refs m).*2).
Proof.
  change (fixed_refs m).*2 with (fixed_specs m).*2.
  assert (forall name label content r, (name, content) ∈ [("evidence.json", eb); ("contract.json", cb); ("grade.json", gb);
    ("events.jsonl", evb); ("policy.json", pb); ("manifest.json", mb)] -> (label, r) ∈ fixed_refs m -> refers_to r content ->
    dict_get entries name = Some (FileNode dev 1 content) /\ refers_to r content /\ art_size_bytes r <= MAX_REPLAY_FILE_BYTES) as H.
  { intros name label content r H1 H2 H3. split_and!; [by apply written_get|done|]. by apply (wb_fixed _ _ Hb label). }
  apply read_fixed_ok.
  - repeat constructor; cbn [fst snd]; (eapply H; [|unfold fixed_refs|destruct Hw; eassumption]); rewrite ?elem_of_cons; eauto 10.
  - assert (0 <= sum_sizes (first_refs (rm_artifacts m).*2).*2) as Hpos.
    { apply sum_sizes_nonneg. intros r ([d x] & -> & Hx)%list_elem_of_fmap. cbn.
      apply dict_get_Some in Hx; [|by apply fold_refs_NoDup; constructor].
      apply written_ref_get in Hx as (y & _ & [_ <-] & _). apply nbytes_nonneg. }
    pose proof (wb_total _ _ Hb). change (fixed_refs m).*2 with (fixed_specs m).*2 in *. lia.
Qed.

Lemma written_read_artifacts :
  read_artifacts m (map (fun dc => (dc.1, FileNode dev 1 dc.2)) (sort_kv physical)) dev
    (sort_kv (first_refs (rm_artifacts m).*2)) (nbytes mb + sum_sizes (fixed_refs m).*2) = Ok tt.
Proof.
  assert (NoDup (first_refs (rm_artifacts m).*2).*1) as Hnd by (apply fold_refs_NoDup; constructor).
  apply read_artifacts_ok.
  - intros digest r Hin. rewrite (sort_kv_perm (first_refs _)) in Hin. apply dict_get_Some in Hin; [|done].
    apply written_ref_get in Hin as (content & Hg & Hr). exists content. split; [|done].
    rewrite (dict_get_map (FileNode dev 1)), (dict_get_perm _ physical), Hg; [done|apply sort_kv_perm|].
    apply (pl_physical _ _ (tw_placed _ _ _ _ _ _ _ _ _ _ _ _ _ _ Hw)).
  - rewrite (sum_sizes_perm (sort_kv _).*2 (first_refs (rm_artifacts m).*2).*2); [apply (wb_total _ _ Hb)|].
    by rewrite (sort_kv_perm (first_refs _)).
Qed.

Lemma written_checks :
  bundle_readable rd m e c g p ->
  check_tree rd dev entries mb
  = Ok {| lo_manifest := m; lo_evidence := e; lo_contract := c; lo_stored_grade := g; lo_stored_policy := p |}.
Proof.
  intros [B1 B2 B3 B4 B5]. pose proof Hw as [T1 T2 T3 T4 T5 T6 T7 T8 R1 R2 R3 R4 R5 T9 _].
  unfold check_tree. rewrite (parse_readable _ _ _ m _ _ _ eq_refl B1 T6). cbn [bind_result].
  rewrite T9. cbn [bind_result]. destruct written_top as [Htop1 Htop2].
  rewrite require_entries_ok; [|done|unfold expected_top; case_bool_decide; by apply (bool_decide_unpack _)|done].
  cbn [bind_result]. rewrite written_refs. cbn [bind_result].
  rewrite written_read_fixed. 
  case_bool_decide as Ha; [|rewrite (written_store Ha)]; cbn [bind_result];
  rewrite (parse_readable _ _ _ e _ _ _ eq_refl B2 T1), (parse_readable _ _ _ c _ _ _ eq_refl B3 T2),
    (parse_readable _ _ _ g _ _ _ eq_refl B4 T3), (parse_readable _ _ _ p _ _ _ eq_refl B5 T4);
  cbn [bind_result combine for_each fixed_specs fst snd]; rewrite !require_ref_ok by done; cbn [bind_result];
  rewrite T5; cbn [bind_result]; rewrite bool_decide_true by done; cbn [negb];
  rewrite ?written_read_artifacts; cbn [bind_result].
  all: match goal with |- context [for_each ?f ?l] => assert (for_each f l = Ok tt) as -> end; [|done].
  all: apply for_each_ok, Forall_forall; intros r Hr; cbn; rewrite bool_decide_true; [done|by apply T8].
Qed.

End Written.

(** ** Equality of grades *)
Lemma feqb_sym a b : feqb a b = feqb b a.
Proof.
  unfold feqb. destruct a as [| |[]|], b as [| |[]|]; cbn [fcompare Bool.eqb]; try done;
    rewrite <-Qcompare_antisym; by destruct (_ ?= _)%Q.
Qed.

Lemma dict_eqb_spec {K V} `{EqDecision K, EqDecision V} (a b : list (K * V)) :
  dict_eqb a b = true <-> forall k, dict_get a k = dict_get b k.
Proof.
  unfold dict_eqb. rewrite andb_true_iff, WorkerFacts.same_set_spec, forallb_forall. split.
  - intros [Hk Hv] k. destruct (decide (k ∈ a.*1)) as [([k' v] & -> & Hin)%list_elem_of_fmap|Hn].
    + apply list_elem_of_In, Hv in Hin. by bool_prop.
    + transitivity (@None V); [by apply dict_get_None|]. symmetry. apply dict_get_None. by rewrite <-Hk.
  - intros H. split; [|intros kv _; by rewrite bool_decide_true].
    intros k. destruct (decide (k ∈ a.*1)) as [Ha|Ha], (decide (k ∈ b.*1)) as [Hb|Hb]; try done;
      [apply dict_get_None in Hb; rewrite <-H in Hb|apply dict_get_None in Ha; rewrite H in Ha];
      by apply dict_get_None in Ha || apply dict_get_None in Hb.
Qed.

Lemma dict_eqb_sym {K V} `{EqDecision K, EqDecision V} (a b : list (K * V)) : dict_eqb a b = dict_eqb b a.
Proof. apply eq_bool_prop_intro. rewrite !Is_true_true, !dict_eqb_spec. naive_solver. Qed.

Lemma Grade_eqb_sym a b : Grade_eqb a b = Grade_eqb b a.
Proof.
  unfold Grade_eqb. rewrite dict_eqb_sym. f_equal. f_equal; [f_equal|].
  - apply bool_decide_ext. naive_solver.
  - destruct (gr_benchmark_score a), (gr_benchmark_score b); cbn; auto using feqb_sym.
  - destruct (gr_training_reward a), (gr_training_reward b); cbn; auto using feqb_sym.
Qed.

(** ** A result that is not the error [err] *)
Definition never {A} (err : ReplayError) (r : result ReplayError A) : Prop := r <> Err err.

Lemma never_bind {A B} err (r : result ReplayError A) (k : A -> result ReplayError B) :
  never err r -> (forall a, never err (k a)) -> never err (bind_result r k).
Proof. unfold never. destruct r; cbn; intros H1 H2; [done|congruence]. Qed.

Lemma never_raise {A} err e' (b : bool) (r : result ReplayError A) :
  e' <> err -> never err r -> never err (if b then Err e' else r).
Proof. unfold never. destruct b; congruence. Qed.

Lemma never_ok {A} err (a : A) : never err (Ok a).
Proof. done. Qed.

Lemma never_value_error {A} (r : result string A) err : (forall m, err <> ValueError m) -> never err (value_error r).
Proof. unfold never. destruct r; cbn; congruence. Qed.

Lemma never_map {A B} err (f : A -> result ReplayError B) l :
  (forall a, never err (f a)) -> never err (map_result f l).
Proof. intros H. induction l as [|a l IH]; cbn; [done|]. do 2 (apply never_bind; [done|intros ?]). done. Qed.

Lemma never_for_each {A} err (f : A -> result ReplayError unit) l :
  (forall a, never err (f a)) -> never err (for_each f l).
Proof. intros H. induction l as [|a l IH]; cbn; [done|]. by apply never_bind. Qed.

Create HintDb never.
#[export] Hint Resolve never_bind never_raise never_ok never_value_error never_map never_for_each : never.
#[export] Hint Extern 1 (_ <> _) => discriminate : never.
#[export] Hint Extern 2 (never _ (match ?x with _ => _ end)) => destruct x : never.

Lemma never_self_merge refs d b : never SelfVerificationFailed (merge_refs refs d b).
Proof. revert d. induction refs as [|[l r] refs IH]; intros d; cbn [merge_refs]; auto with never. Qed.

Lemma never_self_reference content refs : never SelfVerificationFailed (artifact_reference_for_content content refs).
Proof. unfold artifact_reference_for_content, ref_of. destruct (remove_dups _) as [|? []]; auto with never; done. Qed.

Lemma never_self_place items erefs refs physical :
  never SelfVerificationFailed (place_artifacts items erefs refs physical).
Proof.
  revert refs physical. induction items as [|[n c] items IH]; intros refs physical; cbn [place_artifacts]; [done|].
  apply never_bind; [apply never_self_reference|]. auto with never.
Qed.

Lemma never_self_snapshot artifacts : never SelfVerificationFailed (snapshot_artifacts artifacts).
Proof.
  unfold snapshot_artifacts. apply never_raise; [done|]. generalize (take (Z.to_nat MAX_REPLAY_ARTIFACTS + 1) artifacts) as l, (@nil (string * string)) as s, 0.
  intros l. induction l as [|[n c] l IH]; intros s t; cbn [snapshot_loop]; auto 7 with never.
Qed.

Lemma never_self_tree dev e c g p artifacts : never SelfVerificationFailed (write_replay_tree dev e c g p artifacts).
Proof.
  unfold write_replay_tree, event_bytes, ref_of, validate_manifest_bounds.
  pose proof never_self_merge. pose proof never_self_place. 
  repeat first [apply never_bind; [solve [auto 8 with never]|intros ?] | apply never_raise; [done|] | case_match].
  all: apply never_ok.
Qed.

(** ** The writer *)
Definition inputs_of (m : ReplayManifest) e c g p : LoadedReplay :=
  {| lo_manifest := m; lo_evidence := e; lo_contract := c; lo_stored_grade := g; lo_stored_policy := p |}.

Definition verified (digest : string) (rescored : Grade) : ReplayVerification :=
  {| rv_valid := true; rv_anchored := true; rv_manifest_sha256 := Some digest; rv_errors := [];
     rv_rescored_grade := Some rescored |}.

Lemma written_inspects rd dev e c g p artifacts root receipt rescored :
  NoDup artifacts.*1 -> write_replay_tree dev e c g p artifacts = Ok (root, receipt) ->
  bundle_readable rd (rc_manifest receipt) e c g p -> score_evidence e c p = Ok rescored -> Grade_eqb rescored g = true ->
  inspect_replay rd root (Some (rc_manifest_sha256 receipt))
  = (verified (rc_manifest_sha256 receipt) rescored, Some (inputs_of (rc_manifest receipt) e c g p)).
Proof.
  intros Hnd Hw Hr Hs Hg. apply write_tree_inv in Hw as (entries & m & physical & eb & cb & gb & evb & pb & mb & Ht & -> & Em & ->); [|done].
  rewrite Em in *. unfold inspect_replay.
  rewrite (read_file_ok _ _ _ _ _ mb); [|by eapply written_get; [exact Ht|rewrite !elem_of_cons; auto 8]|by apply (wb_manifest m), bounds_ok, (tw_bounds _ _ _ _ _ _ _ _ _ _ _ _ _ _ Ht)|done].
  cbn [bind_result]. rewrite (written_checks _ _ _ _ _ _ _ _ _ _ _ _ _ _ _ Ht Hr). cbn [lo_evidence lo_contract lo_stored_policy lo_stored_grade].
  rewrite Hs, Hg, (bool_decide_true (Some _ = Some _)) by done. done.
Qed.

(** C29. Everything [write_replay] writes verifies: when the documents can be read back,
    its self-verification never fails, and a bundle it returns is inspected against the
    digest of its receipt as valid and anchored, without errors, with the grade of the
    evidence, and loads exactly the evidence, contract, grade and policy given.
    Rescoring the bundle under any policy gives what the original evidence earns. *)
Theorem written_replay_verifies rd dev e c g p artifacts :
  (forall snapshot root receipt, snapshot_artifacts artifacts = Ok snapshot ->
     write_replay_tree dev e c g p snapshot = Ok (root, receipt) -> bundle_readable rd (rc_manifest receipt) e c g p) ->
  match write_replay rd dev e c g p artifacts with
  | Ok (root, receipt) =>
      let anchor := Some (rc_manifest_sha256 receipt) in
      (exists rescored, score_evidence e c p = Ok rescored
         /\ inspect_replay rd root anchor
            = (verified (rc_manifest_sha256 receipt) rescored, Some (inputs_of (rc_manifest receipt) e c g p)))
      /\ forall policy, rescore_replay rd root policy anchor
           = value_error (let* _ := validate_RewardPolicy policy in score_evidence e c policy)
  | Err err => err <> SelfVerificationFailed
  end.
Proof.
  intros Hread. destruct (write_replay _ _ _ _ _ _ _) as [[root receipt]|err] eqn:E; unfold write_replay in E.
  - apply bind_ok in E as (? & _ & E). apply bind_ok in E as (? & _ & E). apply bind_ok in E as (? & _ & E).
    apply bind_ok in E as (? & _ & E). apply bind_ok in E as (rescored & Hs%value_error_ok & E).
    apply raise_ok in E as [Hg%negb_false_iff E]. apply bind_ok in E as (snapshot & Hsn & E).
    apply bind_ok in E as ([root' receipt'] & Hw & E). apply raise_ok in E as [_ [= -> ->]].
    rewrite Grade_eqb_sym in Hg. pose proof (snapshot_NoDup _ _ Hsn) as Hnd.
    pose proof (written_inspects _ _ _ _ _ _ _ _ _ _ Hnd Hw (Hread _ _ _ Hsn Hw) Hs Hg) as Hi.
    split; [eauto|]. intros policy. unfold rescore_replay. rewrite Hi. cbn.
    by destruct (validate_RewardPolicy policy).
  - intros ->. revert E. change (never SelfVerificationFailed (write_replay rd dev e c g p artifacts)).
    unfold write_replay. do 4 (apply never_bind; [by apply never_value_error|intros _]).
    destruct (score_evidence e c p) as [rescored|] eqn:Hs; cbn [value_error bind_result]; [|done].
    destruct (Grade_eqb g rescored) eqn:Hg; [cbn [negb]|done].
    destruct (snapshot_artifacts artifacts) as [snapshot|] eqn:Hsn; cbn [bind_result];
      [|intros [= ->]; by apply (never_self_snapshot artifacts)].
    destruct (write_replay_tree dev e c g p snapshot) as [[root receipt]|] eqn:Hw; cbn [bind_result];
      [|intros [= ->]; by apply (never_self_tree dev e c g p snapshot)].
    rewrite Grade_eqb_sym in Hg. pose proof (snapshot_NoDup _ _ Hsn) as Hnd.
    by rewrite (written_inspects _ _ _ _ _ _ _ _ _ _ Hnd Hw (Hread _ _ _ eq_refl Hw) Hs Hg).
Qed.

(** ** What a tree that passes the checks contains *)
Fixpoint file_at (n : node) (path : list string) : option string :=
  match path, n with
  | [], FileNode _ _ content => Some content
  | name :: path, DirNode _ entries =>
      match dict_get entries name with Some child => file_at child path | None => None end
  | _, _ => None
  end.

(** What the manifest says about the file at a path other than the manifest's own. *)
Definition ref_at (m : ReplayManifest) (path : list string) : option ArtifactRef :=
  match path with
  | [name] => dict_get (map (fun spec => (spec.1.1, spec.2)) (fixed_specs m)) name
  | [parent; store; digest] =>
      if bool_decide (parent = "artifacts" /\ store = "sha256") then dict_get (first_refs (rm_artifacts m).*2) digest
      else None
  | _ => None
  end.

Definition holds_at (root : node) (path : list string) (r : option ArtifactRef) : Prop :=
  match r with
  | Some r => exists content, file_at root path = Some content /\ refers_to r content
  | None => file_at root path = None
  end.

Lemma read_file_inv entries dev name limit label expected content :
  read_file_at entries dev name limit label expected = Ok content ->
  exists device nlink, dict_get entries name = Some (FileNode device nlink content).
Proof.
  unfold read_file_at. destruct (dict_get entries name) as [[d n x| |]|]; [|done..].
  intros (_ & (_ & (_ & (_ & [= ->])%raise_ok)%raise_ok)%raise_ok)%raise_ok. eauto.
Qed.

Lemma require_ref_inv content label r : require_ref content label r = Ok tt -> refers_to r content.
Proof. unfold require_ref, refers_to. intros [H _]%raise_ok. by bool_prop. Qed.

Lemma require_entries_inv entries label expected :
  require_entries entries label expected = Ok tt -> forall x, x ∈ entries.*1 <-> x ∈ expected.
Proof.
  unfold require_entries, directory_entries. intros (actual & [_ [= <-]]%raise_ok & [H%negb_false_iff _]%raise_ok)%bind_ok.
  by apply WorkerFacts.same_set_spec.
Qed.

Lemma read_fixed_inv entries dev specs total contents total' :
  read_fixed entries dev specs total = Ok (contents, total') ->
  Forall2 (fun spec content => exists device nlink, dict_get entries spec.1.1 = Some (FileNode device nlink content))
    specs contents.
Proof.
  revert total contents. induction specs as [|[[name label] r] specs IH]; intros total contents; cbn [read_fixed].
  { intros [= <- _]. constructor. }
  intros (_ & (content & Hc & ([l t] & Hl & [= <- <-])%bind_ok)%bind_ok)%raise_ok. cbn in *.
  constructor; [by eapply read_file_inv|by eapply IH].
Qed.

Lemma read_artifacts_inv m store dev refs total :
  read_artifacts m store dev refs total = Ok tt -> forall digest r, (digest, r) ∈ refs ->
  exists device nlink content, dict_get store digest = Some (FileNode device nlink content) /\ refers_to r content.
Proof.
  revert total. induction refs as [|[digest r] refs IH]; intros total; cbn [read_artifacts].
  { by intros _ ? ? []%not_elem_of_nil. }
  intros (_ & (content & Hc & ([] & Hr%require_ref_inv & H)%bind_ok)%bind_ok)%raise_ok d x.
  intros [[= -> ->]|Hin]%elem_of_cons; [|by eapply IH].
  apply read_file_inv in Hc as (device & nlink & Hc). eauto 6.
Qed.

Lemma open_store_inv entries dev refs store :
  open_store entries dev refs = Ok store ->
  exists d1 d2 parent, dict_get entries "artifacts" = Some (DirNode d1 parent)
    /\ (forall x, x ∈ parent.*1 <-> x = "sha256") /\ dict_get parent "sha256" = Some (DirNode d2 store)
    /\ (forall x, x ∈ store.*1 <-> x ∈ refs.*1).
Proof.
  unfold open_store, open_directory.
  intros (parent & H1 & ([] & H2 & (s & H3 & ([] & H4 & [= <-])%bind_ok)%bind_ok)%bind_ok)%bind_ok.
  destruct (dict_get entries "artifacts") as [[| d1 es|]|]; try done. apply raise_ok in H1 as [_ [= ->]].
  destruct (dict_get parent "sha256") as [[| d2 es|]|] eqn:E; try done. apply raise_ok in H3 as [_ [= ->]].
  exists d1, d2, parent. split_and!; [done| |done|].
  - intros x. rewrite (require_entries_inv _ _ _ H2). apply list_elem_of_singleton.
  - by apply (require_entries_inv _ "artifact store").
Qed.

(** What [check_tree] has established about the tree it accepts. *)
Record tree_checked (rd : Readers) (dev : Z) (entries : list (string * node)) (raw : string) (lo : LoadedReplay) : Prop := {
  tc_parsed : parse_canonical_model ReplayManifest_json (read_manifest rd) raw "manifest.json" = Ok (lo_manifest lo);
  tc_holds path : path <> ["manifest.json"] -> holds_at (DirNode dev entries) path (ref_at (lo_manifest lo) path);
  tc_evidence : exists b, file_at (DirNode dev entries) ["evidence.json"] = Some b /\ canonical_json_bytes (EvaluationEvidence_json (lo_evidence lo)) = Ok b;
  tc_contract : exists b, file_at (DirNode dev entries) ["contract.json"] = Some b /\ canonical_json_bytes (ScoringContract_json (lo_contract lo)) = Ok b;
  tc_grade : exists b, file_at (DirNode dev entries) ["grade.json"] = Some b /\ canonical_json_bytes (Grade_json (lo_stored_grade lo)) = Ok b;
  tc_events : exists b, file_at (DirNode dev entries) ["events.jsonl"] = Some b /\ event_bytes (lo_evidence lo) = Ok b;
  tc_policy : exists b, file_at (DirNode dev entries) ["policy.json"] = Some b /\ canonical_json_bytes (RewardPolicy_json (lo_stored_policy lo)) = Ok b;
  tc_refs r : r ∈ evidence_artifact_refs (lo_evidence lo) -> ref_at (lo_manifest lo) ["artifacts"; "sha256"; art_sha256 r] = Some r;
  tc_agree : agree (rm_artifacts (lo_manifest lo)).*2
}.

Lemma fixed_ref m name label r : (name, label, r) ∈ fixed_specs m -> ref_at m [name] = Some r.
Proof.
  unfold fixed_specs at 1. rewrite !elem_of_cons.
  by intros [[= -> _ ->]|[[= -> _ ->]|[[= -> _ ->]|[[= -> _ ->]|[[= -> _ ->]|[]%not_elem_of_nil]]]]].
Qed.

Lemma fixed_ref_inv m name r : ref_at m [name] = Some r -> exists label, (name, label, r) ∈ fixed_specs m.
Proof.
  intros ([[n l] x] & [= -> ->] & H)%dict_get_In%list_elem_of_fmap. by exists l.
Qed.

Lemma ref_at_below m name x rest : ref_at m (name :: x :: rest) <> None ->
  name = "artifacts" /\ x = "sha256" /\ exists digest, rest = [digest].
Proof. destruct rest as [|d [|]]; try done. cbn [ref_at]. case_bool_decide; naive_solver. Qed.

Section Holds.
Context (dev : Z) (entries : list (string * node)) (m : ReplayManifest).
Hypothesis Htop : forall x, x ∈ entries.*1 <-> x ∈ expected_top m.
Hypothesis Hmanifest : exists d n c, dict_get entries "manifest.json" = Some (FileNode d n c).
Hypothesis Hfixed : forall name label r, (name, label, r) ∈ fixed_specs m ->
  exists d n c, dict_get entries name = Some (FileNode d n c) /\ refers_to r c.
Hypothesis Hstore : rm_artifacts m <> [] ->
  exists d1 d2 parent store, dict_get entries "artifacts" = Some (DirNode d1 parent)
    /\ (forall x, x ∈ parent.*1 <-> x = "sha256") /\ dict_get parent "sha256" = Some (DirNode d2 store)
    /\ (forall x, x ∈ store.*1 <-> x ∈ (first_refs (rm_artifacts m).*2).*1)
    /\ forall digest r, dict_get (first_refs (rm_artifacts m).*2) digest = Some r ->
         exists d n c, dict_get store digest = Some (FileNode d n c) /\ refers_to r c.

(** The names at the top: files, and the artifact store. *)
Lemma top_cases name :
  (exists label r, (name, label, r) ∈ fixed_specs m) \/ name = "manifest.json"
  \/ (name = "artifacts" /\ rm_artifacts m <> []) \/ dict_get entries name = None.
Proof.
  destruct (dict_get entries name) eqn:E; [|auto]. apply dict_get_In in E.
  assert (name ∈ entries.*1) as Hin by (apply list_elem_of_fmap; by exists (name, n)).
  apply Htop in Hin. unfold expected_top, FIXED_REPLAY_FILES in Hin. apply elem_of_app in Hin as [Hin|Hin].
  - rewrite !elem_of_cons in Hin. unfold fixed_specs.
    destruct Hin as [->|[->|[->|[->|[->|[->|[]%not_elem_of_nil]]]]]]; [auto|..];
      left; do 2 eexists; rewrite !elem_of_cons; eauto 8.
  - case_bool_decide; [by apply not_elem_of_nil in Hin|]. apply list_elem_of_singleton in Hin. auto.
Qed.

(** Below a top-level file there is nothing, and nothing is expected. *)
Lemma holds_below_file name rest d n c :
  dict_get entries name = Some (FileNode d n c) -> name <> "artifacts" -> rest <> [] ->
  holds_at (DirNode dev entries) (name :: rest) (ref_at m (name :: rest)).
Proof.
  intros Hg Hn Hr. destruct rest as [|x rest]; [done|]. destruct (ref_at m (name :: x :: rest)) eqn:E.
  - destruct (ref_at_below m name x rest) as [? _]; congruence.
  - cbn. by rewrite Hg.
Qed.

Lemma holds_store rest : rm_artifacts m <> [] -> rest <> [] ->
  holds_at (DirNode dev entries) ("artifacts" :: rest) (ref_at m ("artifacts" :: rest)).
Proof.
  intros Ha Hr. destruct (Hstore Ha) as (d1 & d2 & parent & store & G1 & P & G2 & S & R).
  destruct rest as [|x rest]; [done|]. destruct (decide (x = "sha256")) as [->|Hx].
  - destruct rest as [|digest rest]; [cbn; by rewrite G1, G2|].
    assert (forall y, dict_get store digest = Some y -> exists r, dict_get (first_refs (rm_artifacts m).*2) digest = Some r) as Hin.
    { intros y Hy%dict_get_In. destruct (dict_get (first_refs (rm_artifacts m).*2) digest) as [r|] eqn:E; [eauto|].
      apply dict_get_None in E. rewrite <-S in E. exfalso. apply E, list_elem_of_fmap. by exists (digest, y). }
    destruct rest as [|z rest].
    + unfold ref_at. rewrite bool_decide_true by done.
      destruct (dict_get (first_refs (rm_artifacts m).*2) digest) as [r|] eqn:E.
      * destruct (R _ _ E) as (d & n & c & Hc & Hrc). exists c. split; [|done]. cbn. by rewrite G1, G2, Hc.
      * cbn. rewrite G1, G2. destruct (dict_get store digest) eqn:Hs; [|done]. by destruct (Hin _ eq_refl).
    + cbn. rewrite G1, G2. destruct (dict_get store digest) eqn:Hs; [|done]. destruct (Hin _ eq_refl) as [r Hf].
      destruct (R _ _ Hf) as (d & k & c & Hc & _). rewrite Hs in Hc. by injection Hc as ->.
  - destruct (ref_at m _) eqn:E; [destruct (ref_at_below m "artifacts" x rest) as (_ & ? & _); congruence|].
    cbn. rewrite G1. destruct (dict_get parent x) eqn:Hp; [|done]. apply dict_get_In in Hp. exfalso. apply Hx, P.
    apply list_elem_of_fmap. by exists (x, n).
Qed.

Lemma holds_everywhere path : path <> ["manifest.json"] -> holds_at (DirNode dev entries) path (ref_at m path).
Proof.
  intros Hp. destruct path as [|name rest]; [done|].
  destruct (top_cases name) as [(label & r & Hf)|[->|[[-> Ha]|Hn]]].
  - destruct (Hfixed _ _ _ Hf) as (d & n & c & Hg & Hr). destruct rest as [|x rest].
    + rewrite (fixed_ref m _ _ _ Hf). exists c. cbn. by rewrite Hg.
    + eapply holds_below_file; [done| |done]. by intros ->; apply fixed_ref in Hf.
  - destruct Hmanifest as (d & n & c & Hg). destruct rest; [done|]. by eapply holds_below_file.
  - destruct rest; [|by apply holds_store]. destruct (Hstore Ha) as (d1 & d2 & parent & store & G1 & _).
    change (ref_at m ["artifacts"]) with (@None ArtifactRef). cbn. by rewrite G1.
  - destruct (ref_at m (name :: rest)) as [r|] eqn:E; [|cbn; by rewrite Hn]. exfalso. destruct rest as [|x rest].
    + apply fixed_ref_inv in E as [label Hf]. destruct (Hfixed _ _ _ Hf) as (d & n & c & Hg & _). congruence.
    + destruct (ref_at_below m name x rest) as (-> & -> & digest & ->); [congruence|]. cbn [ref_at] in E.
      rewrite bool_decide_true in E by done. destruct (decide (rm_artifacts m = [])) as [Ea|Ha]; [by rewrite Ea in E|].
      destruct (Hstore Ha) as (d1 & d2 & parent & store & G1 & _). congruence.
Qed.
End Holds.

Lemma check_tree_inv rd dev entries raw lo :
  (exists d n, dict_get entries "manifest.json" = Some (FileNode d n raw)) ->
  check_tree rd dev entries raw = Ok lo -> tree_checked rd dev entries raw lo.
Proof.
  intros (dm & nm & Hm). unfold check_tree. intros (m & P0 & H)%bind_ok. apply bind_ok in H as ([] & B & H).
  apply bounds_ok in B. apply bind_ok in H as ([] & T & H). apply bind_ok in H as (refs & R & H).
  apply bind_ok in H as (store & St & H). apply bind_ok in H as ([contents total] & Rf & H).
  pose proof (read_fixed_inv _ _ _ _ _ _ Rf) as F. unfold fixed_specs in F.
  apply Forall2_cons_inv_l in F as (eb & ? & (d1 & n1 & F1) & F & ->).
  apply Forall2_cons_inv_l in F as (cb & ? & (d2 & n2 & F2) & F & ->).
  apply Forall2_cons_inv_l in F as (gb & ? & (d3 & n3 & F3) & F & ->).
  apply Forall2_cons_inv_l in F as (vb & ? & (d4 & n4 & F4) & F & ->).
  apply Forall2_cons_inv_l in F as (pb & ? & (d5 & n5 & F5) & F & ->).
  apply Forall2_nil_inv_l in F as ->. cbn [fst snd] in *.
  apply bind_ok in H as (e & P1%parse_canonical_sound & H). apply bind_ok in H as (c & P2%parse_canonical_sound & H).
  apply bind_ok in H as (g & P3%parse_canonical_sound & H). apply bind_ok in H as (p & P4%parse_canonical_sound & H).
  apply bind_ok in H as ([] & Q%for_each_ok & H). apply bind_ok in H as (events & V & H).
  apply raise_ok in H as [E H]. bool_prop. subst events. apply bind_ok in H as ([] & A & H).
  apply bind_ok in H as ([] & X%for_each_ok & H). injection H as <-.
  assert (refs = first_refs (rm_artifacts m).*2) as -> by by apply merge_refs_fold in R.
  split; cbn [lo_manifest lo_evidence lo_contract lo_stored_grade lo_stored_policy]; [done| |..].
  all: try by (eexists; cbn [file_at]; rewrite ?F1, ?F2, ?F3, ?F4, ?F5).
  - apply holds_everywhere; [by eapply require_entries_inv|eauto| |].
    + unfold fixed_specs in Q. cbn [combine] in Q. rewrite !Forall_cons in Q. cbn [fst snd] in Q.
      destruct Q as (Q1%require_ref_inv & Q2%require_ref_inv & Q3%require_ref_inv & Q4%require_ref_inv & Q5%require_ref_inv & _).
      intros name label r. unfold fixed_specs. rewrite !elem_of_cons.
      intros [[= -> -> ->]|[[= -> -> ->]|[[= -> -> ->]|[[= -> -> ->]|[[= -> -> ->]|[]%not_elem_of_nil]]]]]; eauto 6.
    + intros Ha. rewrite bool_decide_false in St by done. apply bind_ok in St as (s & So & [= <-]).
      apply open_store_inv in So as (e1 & e2 & parent & G1 & G2 & G3 & G4). exists e1, e2, parent, s.
      split_and!; [done..|]. intros digest r Hr%dict_get_In. rewrite <-(sort_kv_perm (first_refs _)) in Hr.
      destruct (read_artifacts_inv _ _ _ _ _ A _ _ Hr) as (d & n & x & ?). eauto.
  - intros r Hr. rewrite Forall_forall in X. apply X, raise_ok in Hr as [Hr _]. bool_prop. cbn [ref_at].
    rewrite bool_decide_true by done. apply first_refs_spec; [apply (wb_agree _ _ B)|done].
  - apply (wb_agree _ _ B).
Qed.

(** ** What inspection guarantees *)
(** A bundle inspected without errors: the checks passed, the anchor matched, and the
    stored grade is the rescored one. *)
Lemma inspect_inv rd root expected v lo :
  inspect_replay rd root expected = (v, Some lo) ->
  exists dev entries raw rescored, root = DirNode dev entries
    /\ file_at root ["manifest.json"] = Some raw /\ tree_checked rd dev entries raw lo
    /\ (forall h, expected = Some h -> sha256_bytes raw = h)
    /\ score_evidence (lo_evidence lo) (lo_contract lo) (lo_stored_policy lo) = Ok rescored
    /\ Grade_eqb rescored (lo_stored_grade lo) = true /\ rv_valid v = true /\ rv_errors v = [].
Proof.
  unfold inspect_replay. destruct root as [| dev entries|]; [done| |done].
  destruct (read_file_at entries dev "manifest.json" _ _ _) as [raw|] eqn:Hm; cbn [bind_result]; [|done].
  apply read_file_inv in Hm as (d & n & Hm).
  destruct (check_tree rd dev entries raw) as [lo'|] eqn:Hc; [|done].
  destruct (score_evidence _ _ _) as [g|] eqn:Hs; [|destruct (_ ++ _)%list eqn:E; [by apply app_nil in E as []|done]].
  intros H. destruct (_ ++ _)%list eqn:E; [|done]. apply app_nil in E as [E1 E2].
  injection H as <- <-. destruct (Grade_eqb g (lo_stored_grade lo')) eqn:Hg; [|done].
  exists dev, entries, raw, g. split_and!; try done.
  - cbn. by rewrite Hm.
  - eapply check_tree_inv; [eauto|done].
  - intros h ->. case_bool_decide as Hh; [by injection Hh|done].
Qed.

Lemma inspect_valid rd root expected :
  rv_valid (inspect_replay rd root expected).1 = true ->
  exists lo, inspect_replay rd root expected = ((inspect_replay rd root expected).1, Some lo).
Proof.
  unfold inspect_replay. destruct root as [| dev entries|]; [done| |done].
  destruct (read_file_at entries dev "manifest.json" _ _ _) as [raw|]; cbn [bind_result]; [|done].
  destruct (check_tree rd dev entries raw) as [lo'|]; [|by destruct (match expected with Some _ => _ | None => _ end)].
  destruct (score_evidence _ _ _); cbn [fst rv_valid]; intros ->; eauto.
Qed.

(** C30. Verification is sound: a bundle that verifies holds exactly the files its
    manifest names, each with the digest and the size stated there, and no other file
    anywhere; the five documents - manifest, evidence, contract, grade and policy - are the
    canonical encodings of the models that were loaded, the events are those of the
    evidence, every artifact the evidence refers to is
    stored under its digest, and the stored grade is the one that the evidence, contract
    and policy in these files earn. *)
Theorem verified_replay_sound rd root expected lo :
  inspect_replay rd root expected = (verify_replay rd root expected, Some lo) ->
  (forall path, path <> ["manifest.json"] -> holds_at root path (ref_at (lo_manifest lo) path))
  /\ (exists b, file_at root ["manifest.json"] = Some b
        /\ canonical_json_bytes (ReplayManifest_json (lo_manifest lo)) = Ok b
        /\ forall h, expected = Some h -> sha256_bytes b = h)
  /\ (exists b, file_at root ["evidence.json"] = Some b /\ canonical_json_bytes (EvaluationEvidence_json (lo_evidence lo)) = Ok b)
  /\ (exists b, file_at root ["events.jsonl"] = Some b /\ event_bytes (lo_evidence lo) = Ok b)
  /\ (exists b, file_at root ["contract.json"] = Some b /\ canonical_json_bytes (ScoringContract_json (lo_contract lo)) = Ok b)
  /\ (exists b, file_at root ["policy.json"] = Some b /\ canonical_json_bytes (RewardPolicy_json (lo_stored_policy lo)) = Ok b)
  /\ (exists b, file_at root ["grade.json"] = Some b /\ canonical_json_bytes (Grade_json (lo_stored_grade lo)) = Ok b)
  /\ (forall r, r ∈ evidence_artifact_refs (lo_evidence lo) ->
        exists content, file_at root ["artifacts"; "sha256"; art_sha256 r] = Some content /\ refers_to r content)
  /\ exists rescored, score_evidence (lo_evidence lo) (lo_contract lo) (lo_stored_policy lo) = Ok rescored
       /\ Grade_eqb rescored (lo_stored_grade lo) = true.
Proof.
  intros (dev & entries & raw & g & -> & Hm & [T1 T2 T3 T4 T5 T6 T7 T8 _] & Ha & Hs & Hg & _)%inspect_inv.
  split_and!; [done| |done|done|done|done|done| |eauto].
  - exists raw. split_and!; [done|by eapply parse_canonical_sound|done].
  - intros r Hr. specialize (T2 ["artifacts"; "sha256"; art_sha256 r]). rewrite (T8 r Hr) in T2. by apply T2.
Qed.

Lemma same_or_collision r a b : refers_to r a -> refers_to r b -> a = b \/ collision a b.
Proof. intros [Ha _] [Hb _]. destruct (decide (a = b)); [by left|]. right. split; congruence. Qed.

(** The paths a manifest speaks about. *)
Definition named_paths (m : ReplayManifest) : list (list string) :=
  (((fun spec => [spec.1.1]) <$> fixed_specs m)
   ++ ((fun digest => ["artifacts"; "sha256"; digest]) <$> (first_refs (rm_artifacts m).*2).*1))%list.

Lemma ref_at_named m path r : ref_at m path = Some r -> path ∈ named_paths m.
Proof.
  intros H. apply elem_of_app. destruct path as [|name [|x rest]]; [done| |].
  - apply fixed_ref_inv in H as [label Hf]. left. apply list_elem_of_fmap. by exists (name, label, r).
  - destruct (ref_at_below m name x rest) as (-> & -> & digest & ->); [congruence|]. right. apply list_elem_of_fmap.
    exists digest. split; [done|]. apply dict_get_In in H. apply list_elem_of_fmap. by exists (digest, r).
Qed.

Lemma named_not_manifest m path : path ∈ named_paths m -> path <> ["manifest.json"].
Proof.
  intros [Hf|(d & -> & _)%list_elem_of_fmap]%elem_of_app; [|done]. intros ->. revert Hf. cbn.
  by rewrite !elem_of_cons; intros [?|[?|[?|[?|[?|[]%not_elem_of_nil]]]]].
Qed.

Lemma same_files_or_collision t1 t2 m :
  (forall path, path <> ["manifest.json"] -> holds_at t1 path (ref_at m path)) ->
  (forall path, path <> ["manifest.json"] -> holds_at t2 path (ref_at m path)) ->
  (forall path, path <> ["manifest.json"] -> file_at t1 path = file_at t2 path) \/ exists a b, collision a b.
Proof.
  intros H1 H2. destruct (decide (Forall (fun path => file_at t1 path = file_at t2 path) (named_paths m))) as [Hall|Hnot].
  - left. intros path Hp. specialize (H1 path Hp). specialize (H2 path Hp).
    destruct (ref_at m path) as [r|] eqn:E; [|cbn in *; congruence].
    rewrite Forall_forall in Hall. by eapply Hall, ref_at_named.
  - right. apply not_Forall_Exists in Hnot; [|intros ?; apply _]. apply Exists_exists in Hnot as (path & Hin & Hd).
    apply named_not_manifest in Hin as Hp. specialize (H1 path Hp). specialize (H2 path Hp).
    destruct (ref_at m path) as [r|]; [|cbn in *; congruence].
    destruct H1 as (a & Ha & Ra), H2 as (b & Hb & Rb). exists a, b.
    destruct (same_or_collision r a b Ra Rb) as [->|?]; [congruence|done].
Qed.

(** Replay bundles are tamper-evident: two trees that verify against the same
    manifest digest have the same files with the same bytes, at every path, or they
    exhibit two different byte strings with one SHA-256 digest. *)
Theorem anchored_replays_agree rd root1 root2 h :
  rv_valid (verify_replay rd root1 (Some h)) = true -> rv_valid (verify_replay rd root2 (Some h)) = true ->
  (forall path, file_at root1 path = file_at root2 path) \/ exists a b, collision a b.
Proof.
  intros (lo1 & I1)%inspect_valid (lo2 & I2)%inspect_valid.
  apply inspect_inv in I1 as (d1 & e1 & raw1 & g1 & -> & M1 & [P1 H1 _ _ _ _ _ _ _] & A1 & _).
  apply inspect_inv in I2 as (d2 & e2 & raw2 & g2 & -> & M2 & [P2 H2 _ _ _ _ _ _ _] & A2 & _).
  destruct (decide (raw1 = raw2)) as [->|Hne].
  2: { right. exists raw1, raw2. split; [done|]. by rewrite (A1 h), (A2 h). }
  assert (lo_manifest lo1 = lo_manifest lo2) as Em by congruence. rewrite <-Em in H2.
  destruct (same_files_or_collision _ _ _ H1 H2) as [Hs|Hc]; [|by right]. left. intros path.
  destruct (decide (path = ["manifest.json"])) as [->|Hp]; [congruence|by apply Hs].
Qed.

(** ** A bundle of the sample run *)
Fixpoint wf_jsonb (v : json) : bool :=
  match v with
  | JArr l => forallb wf_jsonb l
  | JObj kvs => bool_decide (NoDup kvs.*1) && forallb (fun kv => wf_jsonb kv.2) kvs
  | _ => true
  end.

Lemma wf_jsonb_sound v : wf_jsonb v = true -> wf_json v.
Proof.
  induction v as [| | | | |l IH|kvs IH] using json_ind'; try done; cbn [wf_jsonb].
  - intros H. apply wf_json_arr. rewrite Forall_forall in *. rewrite forallb_forall in H.
    intros x Hx. apply IH; [done|]. by apply H, list_elem_of_In.
  - intros [Hn%bool_decide_eq_true H]%andb_true_iff. apply wf_json_obj. split; [done|].
    rewrite Forall_forall in *. rewrite forallb_forall in H.
    intros x Hx. apply IH; [done|]. by apply H, list_elem_of_In.
Qed.

(** A reader that knows one document. *)
Definition reads_only {T} (dump : T -> json) (m : T) (v : json) : option T :=
  match canonical_json_bytes v, canonical_json_bytes (dump m) with
  | Ok a, Ok b => if bool_decide (a = b) then Some m else None
  | _, _ => None
  end.

(** Readers that know the documents of one bundle. *)
Definition readers_of m e c g p : Readers := {|
  read_manifest := reads_only ReplayManifest_json m;
  read_evidence := reads_only EvaluationEvidence_json e;
  read_contract := reads_only ScoringContract_json c;
  read_grade := reads_only Grade_json g;
  read_policy := reads_only RewardPolicy_json p
|}.

Definition readableb {T} (dump : T -> json) (read : json -> option T) (name : string) (m : T) : bool :=
  wf_jsonb (dump m)
  && match canonical_json_bytes (dump m) with Ok raw => utf8_ok true raw | Err _ => true end
  && match validate_replay_complexity (canon (dump m)) name with Ok _ => true | Err _ => false end
  && negb (is_none (read (canon (dump m)))).

Lemma readableb_sound {T} (dump : T -> json) read name m :
  (forall v x, read v = Some x -> x = m) -> readableb dump read name m = true -> readable dump read name m.
Proof.
  unfold readableb. rewrite !andb_true_iff. intros Ho [[[H1 H2] H3] H4]. split_and!; [by apply wf_jsonb_sound| | |].
  - intros raw Hr. by rewrite Hr in H2.
  - by destruct (validate_replay_complexity _ _) as [[]|].
  - destruct (read _) as [x|] eqn:E; [|done]. by rewrite (Ho _ _ E).
Qed.

Lemma reads_only_inv {T} (dump : T -> json) m v x : reads_only dump m v = Some x -> x = m.
Proof. unfold reads_only. repeat (case_match; try done). congruence. Qed.

Definition bundle_readableb (rd : Readers) m e c g p : bool :=
  readableb ReplayManifest_json (read_manifest rd) "manifest.json" m
  && readableb EvaluationEvidence_json (read_evidence rd) "evidence.json" e
  && readableb ScoringContract_json (read_contract rd) "contract.json" c
  && readableb Grade_json (read_grade rd) "grade.json" g
  && readableb RewardPolicy_json (read_policy rd) "policy.json" p.

(** Everything the witnesses need, as one computation. *)
Definition bundle_checks (dev : Z) (e : EvaluationEvidence) (c : ScoringContract) (p : RewardPolicy)
    (artifacts : list (string * string)) : bool :=
  is_ok (validate_EvaluationEvidence e) && is_ok (validate_ScoringContract c) && is_ok (validate_RewardPolicy p)
  && match snapshot_artifacts artifacts with Ok s => bool_decide (s = artifacts) | Err _ => false end
  && match score_evidence e c p with
     | Ok g =>
         is_ok (validate_Grade g) && Grade_eqb g g
         && match write_replay_tree dev e c g p artifacts with
            | Ok (_, receipt) =>
                bundle_readableb (readers_of (rc_manifest receipt) e c g p) (rc_manifest receipt) e c g p
            | Err _ => false
            end
     | Err _ => false
     end.

(** A bundle that passes can be written, and everything in it can be read back. *)
Lemma bundle_checks_sound dev e c p artifacts :
  bundle_checks dev e c p artifacts = true ->
  exists rd g root receipt,
    write_replay rd dev e c g p artifacts = Ok (root, receipt)
    /\ (forall snapshot root' receipt', snapshot_artifacts artifacts = Ok snapshot ->
          write_replay_tree dev e c g p snapshot = Ok (root', receipt') -> bundle_readable rd (rc_manifest receipt') e c g p)
    /\ inspect_replay rd root (Some (rc_manifest_sha256 receipt))
       = (verified (rc_manifest_sha256 receipt) g, Some (inputs_of (rc_manifest receipt) e c g p)).
Proof.
  intros H. unfold bundle_checks in H. rewrite !andb_true_iff in H.
  destruct H as ((((V1%is_ok_unit & V2%is_ok_unit) & V3%is_ok_unit) & Hs) & H).
  destruct (snapshot_artifacts artifacts) as [s|] eqn:Es; [|done]. apply bool_decide_eq_true in Hs as ->.
  destruct (score_evidence e c p) as [g|] eqn:Eg; [|done]. rewrite !andb_true_iff in H.
  destruct H as ((V4%is_ok_unit & Gg) & Hr).
  destruct (write_replay_tree dev e c g p artifacts) as [[root receipt]|] eqn:Hw; [|done].
  set (rd := readers_of (rc_manifest receipt) e c g p) in Hr.
  assert (bundle_readable rd (rc_manifest receipt) e c g p) as Hb.
  { unfold bundle_readableb in Hr. rewrite !andb_true_iff in Hr. destruct Hr as ((((R1 & R2) & R3) & R4) & R5).
    split; (apply readableb_sound; [|done]); intros v x; apply reads_only_inv. }
  pose proof (written_inspects _ _ _ _ _ _ _ _ _ _ (snapshot_NoDup _ _ Es) Hw Hb Eg Gg) as Hi.
  exists rd, g, root, receipt. split_and!; [| |done].
  - unfold write_replay. rewrite V1, V2, V3, V4, Eg. cbn [value_error bind_result]. rewrite Gg. cbn [negb].
    rewrite Es. cbn [bind_result]. rewrite Hw. cbn [bind_result]. by rewrite Hi.
  - intros snapshot root' receipt' [= <-]. rewrite Hw. by intros [= <- <-].
Qed.

(** A run that the verifier rejected. *)
Definition sample_evidence : EvaluationEvidence := Samples.verifier_failure_evidence.
Definition sample_artifacts : list (string * string) := [("candidate.c", "candidate"); ("case", "input")].

Lemma sample_computes : bundle_checks 7 sample_evidence Samples.contract Samples.reward_v1 sample_artifacts = true.
Proof. vm_compute. reflexivity. Qed.

Definition sample_bundle := bundle_checks_sound 7 sample_evidence Samples.contract Samples.reward_v1 sample_artifacts sample_computes.

Lemma written_replay_verifies_witness : exists rd g root receipt rescored,
  inspect_replay rd root (Some (rc_manifest_sha256 receipt))
  = (verified (rc_manifest_sha256 receipt) rescored,
     Some (inputs_of (rc_manifest receipt) sample_evidence Samples.contract g Samples.reward_v1)).
Proof.
  destruct sample_bundle as (rd & g & root & receipt & Hw & Hr & _).
  pose proof (written_replay_verifies rd 7 sample_evidence Samples.contract g Samples.reward_v1
                sample_artifacts Hr) as H.
  rewrite Hw in H. destruct H as [(rescored & Hs & Hi) _]. exists rd, g, root, receipt, rescored. exact Hi.
Defined.

Lemma verified_replay_sound_witness : exists root lo r content,
  r ∈ evidence_artifact_refs (lo_evidence lo) /\ file_at root ["artifacts"; "sha256"; art_sha256 r] = Some content
  /\ refers_to r content.
Proof.
  destruct sample_bundle as (rd & g & root & receipt & _ & _ & Hi).
  destruct (verified_replay_sound rd root (Some (rc_manifest_sha256 receipt))
              (inputs_of (rc_manifest receipt) sample_evidence Samples.contract g Samples.reward_v1)) as (_ & _ & _ & _ & _ & _ & _ & H & _).
  { unfold verify_replay. by rewrite Hi. }
  destruct (H (req_candidate (ev_request sample_evidence))) as (content & Hc); [by left|]. exists root, (inputs_of (rc_manifest receipt) sample_evidence Samples.contract g Samples.reward_v1),
    (req_candidate (ev_request sample_evidence)), content.
  split; [|exact Hc]. by left.
Defined.

Lemma anchored_replays_agree_witness : exists rd root h,
  rv_valid (verify_replay rd root (Some h)) = true
  /\ ((forall path, file_at root path = file_at root path) \/ exists a b, collision a b).
Proof.
  destruct sample_bundle as (rd & g & root & receipt & _ & _ & Hi). exists rd, root, (rc_manifest_sha256 receipt).
  assert (rv_valid (verify_replay rd root (Some (rc_manifest_sha256 receipt))) = true) as Hv
    by by unfold verify_replay; rewrite Hi.
  split; [exact Hv|]. exact (anchored_replays_agree rd root root _ Hv Hv).
Defined.

End ReplayFacts.
