(* ===== verification/Admission.v ===== *)
(** * Dynamic admission ([src/bpe/admission.py])

    A repair task is admitted when one precommitted matrix of runs behaved as the task
    promises: the reference passes repeatedly with the same behaviour, every declared
    alternative passes, the public mutant is rejected by the verifier, and every
    negative control fails exactly where it should.  The contract that is derived from
    a task ([build_scoring_contract] of [src/bpe/task.py]) and the JSON images of the
    task documents are here too.  An [AdmissionError] is its message without the
    values interpolated in it.  Stage outcomes are looked up in validated evidence,
    which has every stage, so no lookup raises. *)
From Stdlib Require Import ZArith String Ascii Lia.
From stdpp Require Import base tactics list strings.
From S2P Require Import Prelude Floats Sha256 Json Models Grading Job Replay.
Local Open Scope string_scope.
Local Open Scope Z_scope.

Module Admission.
Import Sha256 Json Models Grading Job Replay.

(** ** JSON images of the task documents *)
Definition Split_value (s : Split) : string :=
  match s with
  | split_train => "train" | split_development => "development" | split_calibration => "calibration"
  | split_validation => "validation" | split_sealed_eval => "sealed_eval"
  end.
Definition ControlKind_value (k : ControlKind) : string :=
  match k with
  | no_op => "no_op" | delete_operation => "delete_operation" | hardcode => "hardcode" | zero_work => "zero_work"
  | other_control => "other"
  end.

Definition FileRef_json (f : FileRef) : json :=
  JObj [("path", JStr (file_path f)); ("sha256", JStr (file_sha256 f)); ("size_bytes", JInt (file_size_bytes f))].
Definition PublicTask_json (t : PublicTask) : json :=
  JObj [("schema_version", JStr "bpe.public-task.v1"); ("task_id", JStr (pt_task_id t)); ("version", JStr (pt_version t));
        ("family", JStr (Family_value (pt_family t))); ("prompt", FileRef_json (pt_prompt t));
        ("starter_source", jopt FileRef_json (pt_starter_source t));
        ("candidate_contract", CandidateContract_json (pt_candidate_contract t));
        ("program", ProgramContract_json (pt_program t)); ("public_sdk_id", JStr (pt_public_sdk_id t));
        ("environment_id", JStr (pt_environment_id t)); ("max_attempts", JInt (pt_max_attempts t));
        ("whole_attempt_timeout_seconds", JInt (pt_whole_attempt_timeout_seconds t))].
Definition Provenance_json (p : Provenance) : json :=
  JObj [("repository", JStr (pv_repository p)); ("commit", JStr (pv_commit p)); ("source_path", JStr (pv_source_path p));
        ("license", JStr (pv_license p)); ("original_sha256", JStr (pv_original_sha256 p))].
Definition MutationRecord_json (m : MutationRecord) : json :=
  JObj [("operator", JStr (mu_operator m)); ("operator_version", JStr (mu_operator_version m));
        ("seed", JInt (mu_seed m)); ("parameters", JObj (mu_parameters m))].
Definition FunctionalCase_json (c : FunctionalCase) : json :=
  JObj [("case_id", JStr (fc_case_id c)); ("driver", JStr (fc_driver c)); ("input_ref", FileRef_json (fc_input_ref c));
        ("assertions", JArr (map AssertionSpec_json (fc_assertions c)))].
Definition NegativeControl_json (c : NegativeControl) : json :=
  JObj [("control_id", JStr (nc_control_id c)); ("kind", JStr (ControlKind_value (nc_kind c)));
        ("source", FileRef_json (nc_source c));
        ("expected_first_failure", JStr (Stage_value (nc_expected_first_failure c)))].
Definition PrivateGrader_json (g : PrivateGrader) : json :=
  JObj [("schema_version", JStr "bpe.private-grader.v1"); ("task_id", JStr (pg_task_id g));
        ("task_version", JStr (pg_task_version g)); ("split", JStr (Split_value (pg_split g)));
        ("root_cause", jopt JStr (pg_root_cause g)); ("contamination_group", JStr (pg_contamination_group g));
        ("provenance", Provenance_json (pg_provenance g)); ("mutation", jopt MutationRecord_json (pg_mutation g));
        ("reference_source", FileRef_json (pg_reference_source g));
        ("valid_alternatives", JArr (map FileRef_json (pg_valid_alternatives g)));
        ("qualification_partial_fixes", JArr (map FileRef_json (pg_qualification_partial_fixes g)));
        ("functional_cases", JArr (map FunctionalCase_json (pg_functional_cases g)));
        ("semantic_obligations", JArr (map SemanticObligation_json (pg_semantic_obligations g)));
        ("negative_controls", JArr (map NegativeControl_json (pg_negative_controls g)));
        ("strict_scoring_policy_id", JStr STRICT_SCORING_POLICY_ID)].

(** ** [build_scoring_contract] of [task.py] *)
Definition task_functional_checks (g : PrivateGrader) : result string (list ExpectedCheck) :=
  let* nested := map_result (fun c =>
      map_result (fun a =>
        let input := {| art_sha256 := file_sha256 (fc_input_ref c); art_size_bytes := file_size_bytes (fc_input_ref c);
                        art_media_type := "application/octet-stream" |} in
        raise "artifact reference" when negb (ArtifactRef_ok input) ;;
        construct validate_ExpectedCheck
          (expected_check FUNCTIONAL (functional_id (fc_case_id c) (as_assertion_id a)) (as_required a) (as_weight a)
             [("input", input)])) (fc_assertions c)) (pg_functional_cases g) in
  Ok (List.concat nested).

Definition task_semantic_checks (g : PrivateGrader) : result string (list ExpectedCheck) :=
  map_result (fun o => construct validate_ExpectedCheck
      (expected_check SEMANTICS (semantics_id (so_obligation_id o)) (so_required o) fone [])) (pg_semantic_obligations g).

Definition build_scoring_contract (b : TaskBundle) : result string ScoringContract :=
  let* objects := map_result (construct validate_ExpectedCheck) object_checks in
  let* functional := task_functional_checks (tb_private b) in
  let* semantic := task_semantic_checks (tb_private b) in
  construct validate_ScoringContract
    {| sc_task_id := pt_task_id (tb_public b); sc_task_version := pt_version (tb_public b);
       sc_task_bundle_sha256 := tb_bundle_sha256 b; sc_checks := (objects ++ functional ++ semantic)%list |}.

(** ** Plans and attempts *)
Inductive AdmissionRole := ORIGINAL | REVERT | ALTERNATIVE | PUBLIC_MUTANT | NEGATIVE_CONTROL.
#[export] Instance AdmissionRole_eq_dec : EqDecision AdmissionRole.
Proof. solve_decision. Defined.

Definition AdmissionRole_value (r : AdmissionRole) : string :=
  match r with
  | ORIGINAL => "original" | REVERT => "revert" | ALTERNATIVE => "alternative" | PUBLIC_MUTANT => "public_mutant"
  | NEGATIVE_CONTROL => "negative_control"
  end.

Record CandidateIdentity := { ci_sha256 : string; ci_size_bytes : Z }.
#[export] Instance CandidateIdentity_eq_dec : EqDecision CandidateIdentity.
Proof. solve_decision. Defined.
Definition CandidateIdentity_ok (c : CandidateIdentity) : bool := is_sha256 (ci_sha256 c) && (0 <=? ci_size_bytes c).
Definition CandidateIdentity_json (c : CandidateIdentity) : json :=
  JObj [("sha256", JStr (ci_sha256 c)); ("size_bytes", JInt (ci_size_bytes c))].

Record PlannedNegativeControl := {
  pn_control_id : string;
  pn_candidate : CandidateIdentity;
  pn_expected_first_failure : Stage
}.
Definition BEHAVIOR_STAGES : list Stage := [FUNCTIONAL; SEMANTICS].
Definition PlannedNegativeControl_ok (c : PlannedNegativeControl) : bool :=
  is_stable_id (pn_control_id c) && CandidateIdentity_ok (pn_candidate c)
  && bool_decide (pn_expected_first_failure c ∈ BEHAVIOR_STAGES).
Definition PlannedNegativeControl_json (c : PlannedNegativeControl) : json :=
  JObj [("control_id", JStr (pn_control_id c)); ("candidate", CandidateIdentity_json (pn_candidate c));
        ("expected_first_failure", JStr (Stage_value (pn_expected_first_failure c)))].

Record AdmissionPlan := {
  ap_task_id : string;
  ap_task_version : string;
  ap_task_bundle_sha256 : string;
  ap_scoring_contract_sha256 : string;
  ap_reward_policy_id : string;
  ap_reward_policy_sha256 : string;
  ap_environment_id : string;
  ap_environment_sha256 : string;
  ap_grader_id : string;
  ap_harness_commit : string;
  ap_original_repeats : Z;
  ap_reference_candidate : CandidateIdentity;
  ap_public_mutant_candidate : CandidateIdentity;
  ap_alternative_candidates : list CandidateIdentity;
  ap_negative_controls : list PlannedNegativeControl
}.

(** [AdmissionPlan.role_matrix_is_unique] *)
Definition role_matrix_is_unique (p : AdmissionPlan) : result string unit :=
  let alternatives := ap_alternative_candidates p in
  raise "planned alternative candidates must be unique" when negb (bool_decide (NoDup alternatives)) ;;
  raise "planned negative-control IDs must be unique"
    when negb (bool_decide (NoDup (pn_control_id <$> ap_negative_controls p))) ;;
  let control_candidates := pn_candidate <$> ap_negative_controls p in
  raise "planned negative-control candidates must be unique" when negb (bool_decide (NoDup control_candidates)) ;;
  raise "candidate identities may only repeat across original and revert roles"
    when negb (bool_decide (NoDup
           (ap_reference_candidate p :: ap_public_mutant_candidate p :: alternatives ++ control_candidates)%list)) ;;
  Ok tt.

Definition validate_AdmissionPlan (p : AdmissionPlan) : result string unit :=
  check_field "task_id" (is_stable_id (ap_task_id p)) ;;
  check_field "task_version" (is_stable_id (ap_task_version p)) ;;
  check_field "task_bundle_sha256" (is_sha256 (ap_task_bundle_sha256 p)) ;;
  check_field "scoring_contract_sha256" (is_sha256 (ap_scoring_contract_sha256 p)) ;;
  check_field "reward_policy_id" (is_stable_id (ap_reward_policy_id p)) ;;
  check_field "reward_policy_sha256" (is_sha256 (ap_reward_policy_sha256 p)) ;;
  check_field "environment_id" (is_stable_id (ap_environment_id p)) ;;
  check_field "environment_sha256" (is_sha256 (ap_environment_sha256 p)) ;;
  check_field "grader_id" (is_sha256 (ap_grader_id p)) ;;
  check_field "harness_commit" (is_commit (ap_harness_commit p)) ;;
  check_field "original_repeats" ((2 <=? ap_original_repeats p) && (ap_original_repeats p <=? 64)) ;;
  check_field "reference_candidate" (CandidateIdentity_ok (ap_reference_candidate p)) ;;
  check_field "public_mutant_candidate" (CandidateIdentity_ok (ap_public_mutant_candidate p)) ;;
  check_field "alternative_candidates"
    (count_between 1 1024 (ap_alternative_candidates p) && forallb CandidateIdentity_ok (ap_alternative_candidates p)) ;;
  check_field "negative_controls"
    (count_between 1 1024 (ap_negative_controls p) && forallb PlannedNegativeControl_ok (ap_negative_controls p)) ;;
  role_matrix_is_unique p.

Definition AdmissionPlan_json (p : AdmissionPlan) : json :=
  JObj [("schema_version", JStr "bpe.admission-plan.v1"); ("task_id", JStr (ap_task_id p));
        ("task_version", JStr (ap_task_version p)); ("task_bundle_sha256", JStr (ap_task_bundle_sha256 p));
        ("scoring_contract_sha256", JStr (ap_scoring_contract_sha256 p));
        ("reward_policy_id", JStr (ap_reward_policy_id p)); ("reward_policy_sha256", JStr (ap_reward_policy_sha256 p));
        ("environment_id", JStr (ap_environment_id p)); ("environment_sha256", JStr (ap_environment_sha256 p));
        ("grader_id", JStr (ap_grader_id p)); ("harness_commit", JStr (ap_harness_commit p));
        ("original_repeats", JInt (ap_original_repeats p));
        ("reference_candidate", CandidateIdentity_json (ap_reference_candidate p));
        ("public_mutant_candidate", CandidateIdentity_json (ap_public_mutant_candidate p));
        ("alternative_candidates", JArr (map CandidateIdentity_json (ap_alternative_candidates p)));
        ("negative_controls", JArr (map PlannedNegativeControl_json (ap_negative_controls p)))].

Record AdmissionAttempt := {
  aa_role : AdmissionRole;
  aa_control_id : option string;
  aa_evidence : EvaluationEvidence;
  aa_grade : Grade;
  aa_manifest : ReplayManifest;
  aa_anchor : ReplayAnchor
}.

(** [AdmissionAttempt.control_identity_matches_role] *)
Definition control_identity_matches_role (a : AdmissionAttempt) : result string unit :=
  raise "negative-control attempts require control_id"
    when bool_decide (aa_role a = NEGATIVE_CONTROL) && is_none (aa_control_id a) ;;
  raise "only negative-control attempts may carry control_id"
    when differ (aa_role a) NEGATIVE_CONTROL && negb (is_none (aa_control_id a)) ;;
  Ok tt.

Definition validate_AdmissionAttempt (a : AdmissionAttempt) : result string unit :=
  check_field "control_id" (opt_ok is_stable_id (aa_control_id a)) ;;
  let* _ := validate_EvaluationEvidence (aa_evidence a) in
  let* _ := validate_Grade (aa_grade a) in
  let* _ := validate_ReplayManifest (aa_manifest a) in
  check_field "anchor" (ReplayAnchor_ok (aa_anchor a)) ;;
  control_identity_matches_role a.

Definition AdmissionAttempt_json (a : AdmissionAttempt) : json :=
  JObj [("schema_version", JStr "bpe.admission-attempt.v1"); ("role", JStr (AdmissionRole_value (aa_role a)));
        ("control_id", jopt JStr (aa_control_id a)); ("evidence", EvaluationEvidence_json (aa_evidence a));
        ("grade", Grade_json (aa_grade a)); ("manifest", ReplayManifest_json (aa_manifest a));
        ("anchor", ReplayAnchor_json (aa_anchor a))].

Record AdmissionReplayDigest := {
  ad_role : AdmissionRole;
  ad_control_id : option string;
  ad_request_id : string;
  ad_candidate_sha256 : string;
  ad_evidence_sha256 : string;
  ad_grade_sha256 : string;
  ad_replay_manifest_sha256 : string
}.

Definition validate_AdmissionReplayDigest (d : AdmissionReplayDigest) : result string unit :=
  check_field "control_id" (opt_ok is_stable_id (ad_control_id d)) ;;
  check_field "request_id" (is_stable_id (ad_request_id d)) ;;
  check_field "candidate_sha256" (is_sha256 (ad_candidate_sha256 d)) ;;
  check_field "evidence_sha256" (is_sha256 (ad_evidence_sha256 d)) ;;
  check_field "grade_sha256" (is_sha256 (ad_grade_sha256 d)) ;;
  check_field "replay_manifest_sha256" (is_sha256 (ad_replay_manifest_sha256 d)) ;;
  Ok tt.

(** The literal fields of a report ([phase], [status], [authoritative],
    [fresh_snapshot_instances_verified]) are constants of the class. *)
Record AdmissionReport := {
  ar_plan_sha256 : string;
  ar_task_id : string;
  ar_task_version : string;
  ar_public_task_sha256 : string;
  ar_private_grader_sha256 : string;
  ar_task_bundle_sha256 : string;
  ar_scoring_contract_sha256 : string;
  ar_reward_policy_id : string;
  ar_reward_policy_sha256 : string;
  ar_environment_id : string;
  ar_environment_sha256 : string;
  ar_grader_id : string;
  ar_harness_commit : string;
  ar_reference_behavior_sha256 : string;
  ar_attempt_set_sha256 : string;
  ar_replays : list AdmissionReplayDigest
}.

Definition validate_AdmissionReport (r : AdmissionReport) : result string unit :=
  check_field "plan_sha256" (is_sha256 (ar_plan_sha256 r)) ;;
  check_field "task_id" (is_stable_id (ar_task_id r)) ;;
  check_field "task_version" (is_stable_id (ar_task_version r)) ;;
  check_field "public_task_sha256" (is_sha256 (ar_public_task_sha256 r)) ;;
  check_field "private_grader_sha256" (is_sha256 (ar_private_grader_sha256 r)) ;;
  check_field "task_bundle_sha256" (is_sha256 (ar_task_bundle_sha256 r)) ;;
  check_field "scoring_contract_sha256" (is_sha256 (ar_scoring_contract_sha256 r)) ;;
  check_field "reward_policy_id" (is_stable_id (ar_reward_policy_id r)) ;;
  check_field "reward_policy_sha256" (is_sha256 (ar_reward_policy_sha256 r)) ;;
  check_field "environment_id" (is_stable_id (ar_environment_id r)) ;;
  check_field "environment_sha256" (is_sha256 (ar_environment_sha256 r)) ;;
  check_field "grader_id" (is_sha256 (ar_grader_id r)) ;;
  check_field "harness_commit" (is_commit (ar_harness_commit r)) ;;
  check_field "reference_behavior_sha256" (is_sha256 (ar_reference_behavior_sha256 r)) ;;
  check_field "attempt_set_sha256" (is_sha256 (ar_attempt_set_sha256 r)) ;;
  check_field "replays" (nonempty (ar_replays r)) ;;
  let* _ := for_each validate_AdmissionReplayDigest (ar_replays r) in
  Ok tt.

(** ** Operations *)
(** [_frozen_bundle] *)
Definition frozen_bundle (b : TaskBundle) : result string TaskBundle :=
  let public := tb_public b in
  let private := tb_private b in
  let* _ := validate_PublicTask public in
  let* _ := validate_PrivateGrader private in
  raise "public and private task identities differ"
    when differ (pt_task_id public) (pg_task_id private) || differ (pt_version public) (pg_task_version private) ;;
  raise "repair task admission requires mutation metadata"
    when bool_decide (pt_family public = repair) && (is_none (pg_root_cause private) || is_none (pg_mutation private)) ;;
  raise "generation task cannot carry repair mutation metadata"
    when bool_decide (pt_family public = generation)
         && (negb (is_none (pg_root_cause private)) || negb (is_none (pg_mutation private))) ;;
  let* public_sha256 := sha256_json (PublicTask_json public) in
  let* private_sha256 := sha256_json (PrivateGrader_json private) in
  let* bundle_sha256 := sha256_json (JObj [("schema_version", JStr "bpe.task-bundle.v1");
                                           ("public_sha256", JStr public_sha256);
                                           ("private_sha256", JStr private_sha256)]) in
  raise "task bundle metadata does not match its content digests"
    when differ public_sha256 (tb_public_sha256 b) || differ private_sha256 (tb_private_sha256 b)
         || differ bundle_sha256 (tb_bundle_sha256 b) ;;
  Ok {| tb_public := public; tb_private := private; tb_public_sha256 := public_sha256;
        tb_private_sha256 := private_sha256; tb_bundle_sha256 := bundle_sha256 |}.

(** [_candidate_identity] *)
Definition candidate_identity (f : FileRef) : CandidateIdentity :=
  {| ci_sha256 := file_sha256 f; ci_size_bytes := file_size_bytes f |}.

(** The identity of the candidate an attempt ran. *)
Definition ran (a : AdmissionAttempt) : CandidateIdentity :=
  {| ci_sha256 := art_sha256 (req_candidate (ev_request (aa_evidence a)));
     ci_size_bytes := art_size_bytes (req_candidate (ev_request (aa_evidence a))) |}.

(** [_candidate_matches] *)
Definition candidate_matches (a : AdmissionAttempt) (expected : CandidateIdentity) : bool :=
  bool_decide ((ci_sha256 (ran a), ci_size_bytes (ran a)) = (ci_sha256 expected, ci_size_bytes expected)).

(** [_model_artifact], of the JSON image of the model. *)
Definition model_artifact (image : json) : result string ArtifactRef :=
  let* raw := canonical_json_bytes image in
  let r := {| art_sha256 := sha256_bytes raw; art_size_bytes := nbytes raw; art_media_type := "application/json" |} in
  raise "artifact reference" when negb (ArtifactRef_ok r) ;; Ok r.

(** [_stage_behavior_projection]; validated evidence has the stage. *)
Definition stage_behavior_projection (e : EvaluationEvidence) (stage : Stage) : json :=
  match list_find (fun s => st_stage s = stage) (ev_stages e) with
  | Some (_, s) =>
      JObj [("stage", JStr (Stage_value (st_stage s))); ("outcome", JStr (Outcome_value (st_outcome s)));
            ("reason_code", JStr (st_reason_code s)); ("exit_code", jopt JInt (st_exit_code s));
            ("facts", JObj (st_facts s)); ("artifacts", jdict ArtifactRef_json (st_artifacts s));
            ("checks", JArr (map (fun c =>
               JObj [("check_id", JStr (chk_check_id c)); ("outcome", JStr (Outcome_value (chk_outcome c)));
                     ("required", JBool (chk_required c)); ("weight", JFloat (chk_weight c));
                     ("reason_code", JStr (chk_reason_code c)); ("facts", JObj (chk_facts c));
                     ("artifacts", jdict ArtifactRef_json (chk_artifacts c))]) (st_checks s)))]
  | None => JNull
  end.

(** [_behavior_projection] *)
Definition behavior_projection (e : EvaluationEvidence) : json :=
  JObj [("functional", stage_behavior_projection e FUNCTIONAL); ("semantics", stage_behavior_projection e SEMANTICS)].

(** [_validate_plan] *)
Definition validate_admission_plan (plan : AdmissionPlan) (b : TaskBundle) (c : ScoringContract) (p : RewardPolicy) :
    result string unit :=
  let public := tb_public b in
  let private := tb_private b in
  match pt_family public, pt_starter_source public with
  | repair, Some starter =>
      raise "admission plan does not bind the task bundle"
        when differ (ap_task_id plan, ap_task_version plan, ap_task_bundle_sha256 plan)
               (pt_task_id public, pt_version public, tb_bundle_sha256 b) ;;
      let* contract_sha256 := sha256_json (ScoringContract_json c) in
      let* policy_sha256 := sha256_json (RewardPolicy_json p) in
      raise "admission plan does not bind the contract and reward policy"
        when differ (ap_scoring_contract_sha256 plan) contract_sha256
             || differ (ap_reward_policy_id plan) (rp_policy_id p)
             || differ (ap_reward_policy_sha256 plan) policy_sha256 ;;
      raise "admission plan uses the wrong task environment"
        when differ (ap_environment_id plan) (pt_environment_id public) ;;
      raise "admission plan has the wrong reference candidate"
        when differ (ap_reference_candidate plan) (candidate_identity (pg_reference_source private)) ;;
      raise "admission plan has the wrong public mutant candidate"
        when differ (ap_public_mutant_candidate plan) (candidate_identity starter) ;;
      raise "admission plan must contain every declared alternative"
        when negb (same_set (ap_alternative_candidates plan) (candidate_identity <$> pg_valid_alternatives private)) ;;
      let expected_controls :=
        dict_of ((fun k => (nc_control_id k, (candidate_identity (nc_source k), nc_expected_first_failure k)))
                   <$> pg_negative_controls private) in
      let planned_controls :=
        dict_of ((fun k => (pn_control_id k, (pn_candidate k, pn_expected_first_failure k)))
                   <$> ap_negative_controls plan) in
      raise "admission plan does not exactly match declared negative controls"
        when negb (dict_eqb planned_controls expected_controls) ;;
      raise "Phase 0 negative controls must target functional or semantic behavior"
        when existsb (fun kv => negb (bool_decide (kv.2.2 ∈ BEHAVIOR_STAGES))) expected_controls ;;
      Ok tt
  | _, _ => Err "generation-family dynamic admission is not implemented"
  end.

(** One attempt of [_validate_shared_identity]; the digests of the contract and the
    policy are computed once. *)
Definition validate_attempt_identity (plan : AdmissionPlan) (b : TaskBundle) (c : ScoringContract) (p : RewardPolicy)
    (contract_sha256 policy_sha256 : string) (a : AdmissionAttempt) : result string unit :=
  let e := aa_evidence a in
  let r := ev_request e in
  raise "dynamic admission requires microVM-shaped evidence"
    when differ (ev_origin e) ORIGIN_MICROVM || differ (env_isolation (ev_environment e)) ISO_MICROVM ;;
  raise "admission evidence does not match the task bundle"
    when differ (req_task_id r, req_task_version r, req_task_bundle_sha256 r)
           (pt_task_id (tb_public b), pt_version (tb_public b), tb_bundle_sha256 b) ;;
  let* environment_sha256 := sha256_json (EnvironmentFingerprint_json (ev_environment e)) in
  raise "admission evidence does not match the frozen worker identity"
    when differ (req_environment_id r) (ap_environment_id plan)
         || differ environment_sha256 (ap_environment_sha256 plan)
         || differ (ev_grader_id e) (ap_grader_id plan) || differ (ev_harness_commit e) (ap_harness_commit plan) ;;
  let* expected_grade := score_evidence e c p in
  raise "admission grade is not the deterministic score of evidence"
    when negb (Grade_eqb (aa_grade a) expected_grade) ;;
  let m := aa_manifest a in
  let* manifest_sha256 := sha256_json (ReplayManifest_json m) in
  let* evidence_sha256 := sha256_json (EvaluationEvidence_json e) in
  let* grade_sha256 := sha256_json (Grade_json (aa_grade a)) in
  let* evidence_ref := model_artifact (EvaluationEvidence_json e) in
  let* grade_ref := model_artifact (Grade_json (aa_grade a)) in
  let* contract_ref := model_artifact (ScoringContract_json c) in
  let* policy_ref := model_artifact (RewardPolicy_json p) in
  raise "admission replay manifest and anchor do not bind exact graded inputs"
    when differ (ra_manifest_sha256 (aa_anchor a)) manifest_sha256
         || differ (ra_evidence_sha256 (aa_anchor a)) evidence_sha256
         || differ (ra_grade_sha256 (aa_anchor a)) grade_sha256
         || differ (ra_contract_sha256 (aa_anchor a)) contract_sha256
         || differ (ra_policy_sha256 (aa_anchor a)) policy_sha256
         || differ (rm_evidence m) evidence_ref || differ (rm_grade m) grade_ref
         || differ (rm_contract m) contract_ref || differ (rm_policy m) policy_ref
         || differ (dict_get (rm_artifacts m) "candidate.c") (Some (req_candidate r))
         || negb (forallb (fun x => bool_decide (x ∈ (rm_artifacts m).*2)) (evidence_artifact_refs e)) ;;
  Ok tt.

(** [_validate_shared_identity] *)
Definition validate_shared_identity (attempts : list AdmissionAttempt) (plan : AdmissionPlan) (b : TaskBundle)
    (c : ScoringContract) (p : RewardPolicy) : result string unit :=
  let* contract_sha256 := sha256_json (ScoringContract_json c) in
  let* policy_sha256 := sha256_json (RewardPolicy_json p) in
  for_each (validate_attempt_identity plan b c p contract_sha256 policy_sha256) attempts.

(** [by_role[role]] *)
Definition by_role (attempts : list AdmissionAttempt) (r : AdmissionRole) : list AdmissionAttempt :=
  filter (fun a => aa_role a = r) attempts.

Definition ROLES : list AdmissionRole := [ORIGINAL; REVERT; ALTERNATIVE; PUBLIC_MUTANT; NEGATIVE_CONTROL].

Definition expected_count (plan : AdmissionPlan) (r : AdmissionRole) : Z :=
  match r with
  | ORIGINAL => ap_original_repeats plan
  | REVERT => 1
  | ALTERNATIVE => Z.of_nat (length (ap_alternative_candidates plan))
  | PUBLIC_MUTANT => 1
  | NEGATIVE_CONTROL => Z.of_nat (length (ap_negative_controls plan))
  end.

(** [_require_pass] *)
Definition require_pass (a : AdmissionAttempt) : result string unit :=
  raise "must pass every strict scoring stage" when differ (gr_strict_success (aa_grade a)) (Some true) ;; Ok tt.

Definition outcome_is (outcomes : list (Stage * Outcome)) (s : Stage) (o : Outcome) : bool :=
  bool_decide (dict_get outcomes s = Some o).

Definition check_reference (plan : AdmissionPlan) (a : AdmissionAttempt) : result string unit :=
  raise "original and revert runs must use the reference candidate"
    when negb (candidate_matches a (ap_reference_candidate plan)) ;;
  require_pass a.

(** The loop over alternative runs. *)
Fixpoint check_alternatives (planned : list CandidateIdentity) (attempts : list AdmissionAttempt)
    (seen : list CandidateIdentity) : result string (list CandidateIdentity) :=
  match attempts with
  | [] => Ok seen
  | a :: attempts =>
      raise "alternative run uses an undeclared candidate" when negb (bool_decide (ran a ∈ planned)) ;;
      raise "each declared alternative must appear exactly once" when bool_decide (ran a ∈ seen) ;;
      let* _ := require_pass a in
      check_alternatives planned attempts (ran a :: seen)
  end.

Definition check_mutant (plan : AdmissionPlan) (a : AdmissionAttempt) : result string unit :=
  raise "public-mutant run uses the wrong candidate" when negb (candidate_matches a (ap_public_mutant_candidate plan)) ;;
  let outcomes := stage_outcomes_of (ev_stages (aa_evidence a)) in
  raise "public mutant must pass ingest, compile, and object policy, then fail verifier"
    when differ (gr_first_failure (aa_grade a)) (Some VERIFIER)
         || existsb (fun s => negb (outcome_is outcomes s PASS)) [INGEST; COMPILE; OBJECT_POLICY]
         || negb (outcome_is outcomes VERIFIER FAIL) ;;
  Ok tt.

(** [prior_stages[:target_index]] *)
Definition prior_stages (target : Stage) : list Stage :=
  take (default 0%nat (fst <$> list_find (fun s => s = target) STAGE_ORDER))
    (filter (fun s => s <> target) STAGE_ORDER).

Definition check_control (planned : list (string * PlannedNegativeControl)) (a : AdmissionAttempt) : result string unit :=
  match aa_control_id a ≫= dict_get planned with
  | None => Err "KeyError"
  | Some control =>
      raise "negative control uses the wrong candidate" when negb (candidate_matches a (pn_candidate control)) ;;
      let outcomes := stage_outcomes_of (ev_stages (aa_evidence a)) in
      let target := pn_expected_first_failure control in
      raise "negative control did not reach and fail"
        when negb (forallb (fun s => outcome_is outcomes s PASS) (prior_stages target))
             || negb (outcome_is outcomes target FAIL) || negb (gr_comparable (aa_grade a))
             || differ (gr_strict_success (aa_grade a)) (Some false)
             || differ (gr_first_failure (aa_grade a)) (Some target) ;;
      Ok tt
  end.

(** The checks of the negative controls: each planned control once, and as planned. *)
Definition check_controls (plan : AdmissionPlan) (supplied : list AdmissionAttempt) : result string unit :=
  let planned := dict_of ((fun k => (pn_control_id k, k)) <$> ap_negative_controls plan) in
  raise "negative-control attempt is missing its control ID" when existsb (fun a => is_none (aa_control_id a)) supplied ;;
  let ids := omap aa_control_id supplied in
  raise "negative-control set differs from plan" when negb (same_set ids planned.*1) ;;
  raise "negative controls must appear exactly once" when negb (bool_decide (NoDup ids)) ;;
  for_each (check_control planned) supplied.

Definition behavior_sha256 (a : AdmissionAttempt) : result string string :=
  sha256_json (behavior_projection (aa_evidence a)).

(** The reference behaviour: one digest for the repeats, and the revert has it too. *)
Definition check_behavior (originals reverts : list AdmissionAttempt) : result string string :=
  let* digests := map_result behavior_sha256 originals in
  match remove_dups digests with
  | [reference] =>
      let* revert_digests := map_result behavior_sha256 reverts in
      raise "revert behavior differs from the reference projection"
        when existsb (fun d => differ d reference) revert_digests ;;
      Ok reference
  | _ => Err "repeated reference runs produced nondeterministic behavior"
  end.

(** [_validate_roles] *)
Definition validate_roles (attempts : list AdmissionAttempt) (plan : AdmissionPlan) : result string string :=
  raise "attempt role matrix differs from plan"
    when existsb (fun r => negb (Z.of_nat (length (by_role attempts r)) =? expected_count plan r)) ROLES ;;
  let* _ := for_each (check_reference plan) (by_role attempts ORIGINAL ++ by_role attempts REVERT)%list in
  let planned_alternatives := ap_alternative_candidates plan in
  let* seen := check_alternatives planned_alternatives (by_role attempts ALTERNATIVE) [] in
  raise "every declared alternative must be executed" when negb (same_set seen planned_alternatives) ;;
  match by_role attempts PUBLIC_MUTANT with
  | [] => Err "IndexError"
  | mutant :: _ =>
      let* _ := check_mutant plan mutant in
      let* _ := check_controls plan (by_role attempts NEGATIVE_CONTROL) in
      check_behavior (by_role attempts ORIGINAL) (by_role attempts REVERT)
  end.

(** The sort key of the report, compared as a tuple of strings. *)
Definition attempt_key (a : AdmissionAttempt) : list string :=
  [AdmissionRole_value (aa_role a); default "" (aa_control_id a);
   art_sha256 (req_candidate (ev_request (aa_evidence a))); req_request_id (ev_request (aa_evidence a))].

Fixpoint key_ltb (a b : list string) : bool :=
  match a, b with
  | [], _ :: _ => true
  | _, [] => false
  | x :: a, y :: b => if bool_decide (x = y) then key_ltb a b else String.ltb x y
  end.

Definition ordered_attempts (attempts : list AdmissionAttempt) : list AdmissionAttempt :=
  sort_by (fun a b => key_ltb (attempt_key a) (attempt_key b)) attempts.

Definition replay_digest (a : AdmissionAttempt) : result string AdmissionReplayDigest :=
  let* evidence_sha256 := sha256_json (EvaluationEvidence_json (aa_evidence a)) in
  let* grade_sha256 := sha256_json (Grade_json (aa_grade a)) in
  construct validate_AdmissionReplayDigest
    {| ad_role := aa_role a; ad_control_id := aa_control_id a; ad_request_id := req_request_id (ev_request (aa_evidence a));
       ad_candidate_sha256 := art_sha256 (req_candidate (ev_request (aa_evidence a)));
       ad_evidence_sha256 := evidence_sha256; ad_grade_sha256 := grade_sha256;
       ad_replay_manifest_sha256 := ra_manifest_sha256 (aa_anchor a) |}.

(** The checks of [admit_task] on the set of attempts. *)
Definition check_independent (attempts : list AdmissionAttempt) : result string unit :=
  raise "dynamic admission requires role-labelled attempts" when bool_decide (length attempts = 0%nat) ;;
  raise "admission attempts must have distinct request IDs"
    when negb (bool_decide (NoDup ((fun a => req_request_id (ev_request (aa_evidence a))) <$> attempts))) ;;
  raise "admission attempts must have distinct replay manifest IDs"
    when negb (bool_decide (NoDup ((fun a => ra_manifest_sha256 (aa_anchor a)) <$> attempts))) ;;
  raise "admission attempts must be distinct episodes"
    when negb (bool_decide (NoDup ((fun a => req_episode_id (ev_request (aa_evidence a))) <$> attempts))) ;;
  raise "admission attempts must be independent turn-zero runs"
    when existsb (fun a => differ (req_attempt_index (ev_request (aa_evidence a))) 0
                           || negb (is_none (req_parent_request_id (ev_request (aa_evidence a))))) attempts ;;
  Ok tt.

(** [admit_task] *)
Definition admit_task (bundle : TaskBundle) (contract : ScoringContract) (policy : RewardPolicy) (plan : AdmissionPlan)
    (attempts : list AdmissionAttempt) : result string AdmissionReport :=
  let* bundle := frozen_bundle bundle in
  let* _ := validate_ScoringContract contract in
  let* _ := validate_RewardPolicy policy in
  let* _ := validate_AdmissionPlan plan in
  let* derived := build_scoring_contract bundle in
  raise "scoring contract is not exactly derived from the task" when negb (ScoringContract_eqb contract derived) ;;
  let* _ := validate_admission_plan plan bundle contract policy in
  let* _ := for_each validate_AdmissionAttempt attempts in
  let* _ := check_independent attempts in
  let* _ := validate_shared_identity attempts plan bundle contract policy in
  let* reference_behavior_sha256 := validate_roles attempts plan in
  let ordered := ordered_attempts attempts in
  let* replays := map_result replay_digest ordered in
  let* plan_sha256 := sha256_json (AdmissionPlan_json plan) in
  let* contract_sha256 := sha256_json (ScoringContract_json contract) in
  let* policy_sha256 := sha256_json (RewardPolicy_json policy) in
  let* attempt_set_sha256 := sha256_json (JArr (map AdmissionAttempt_json ordered)) in
  construct validate_AdmissionReport
    {| ar_plan_sha256 := plan_sha256; ar_task_id := pt_task_id (tb_public bundle);
       ar_task_version := pt_version (tb_public bundle); ar_public_task_sha256 := tb_public_sha256 bundle;
       ar_private_grader_sha256 := tb_private_sha256 bundle; ar_task_bundle_sha256 := tb_bundle_sha256 bundle;
       ar_scoring_contract_sha256 := contract_sha256; ar_reward_policy_id := rp_policy_id policy;
       ar_reward_policy_sha256 := policy_sha256; ar_environment_id := ap_environment_id plan;
       ar_environment_sha256 := ap_environment_sha256 plan; ar_grader_id := ap_grader_id plan;
       ar_harness_commit := ap_harness_commit plan; ar_reference_behavior_sha256 := reference_behavior_sha256;
       ar_attempt_set_sha256 := attempt_set_sha256; ar_replays := replays |}.

End Admission.
