(* ===== verification/AdmissionFacts.v ===== *)
(** * Guarantees of dynamic admission

    An admitted task behaved as it promises, on every row of its declared matrix; the
    verdict and the report do not depend on the order in which the runs are supplied;
    and the replay bundles that verify against the admitted anchors hold exactly the
    evidence that was admitted. *)
From Stdlib Require Import ZArith String Ascii Lia.
From stdpp Require Import base tactics list strings sorting pretty.
From S2P Require Import Prelude Floats Sha256 Json JsonFacts Models ModelFacts Grading Samples WorkerFacts Job Replay ReplayFacts Admission.
Local Open Scope string_scope.
Local Open Scope Z_scope.

Module AdmissionFacts.
Import Sha256 Json JsonFacts Models Grading Job Replay ReplayFacts Admission.

Lemma differ_eq {A} `{EqDecision A} (a b : A) : differ a b = false -> a = b.
Proof. unfold differ. rewrite negb_false_iff. apply bool_decide_eq_true. Qed.

Lemma existsb_none {A} (f : A -> bool) l x : existsb f l = false -> x ∈ l -> f x = false.
Proof.
  intros H Hx. destruct (f x) eqn:E; [|done]. rewrite <-H. symmetry. apply existsb_exists. exists x.
  by rewrite <-list_elem_of_In.
Qed.

(** [_frozen_bundle] returns the bundle it was given. *)
Lemma frozen_bundle_same b b' : frozen_bundle b = Ok b' -> b' = b /\ validate_PrivateGrader (tb_private b) = Ok tt.
Proof.
  unfold frozen_bundle. intros H. apply bind_ok in H as ([] & _ & H). apply bind_ok in H as ([] & Hp & H).
  do 3 apply raise_ok in H as [_ H]. do 3 apply bind_ok in H as (? & _ & H). apply raise_ok in H as [E H].
  rewrite !orb_false_iff in E. destruct E as [[->%differ_eq ->%differ_eq] ->%differ_eq].
  injection H as <-. split; [by destruct b|done].
Qed.

Lemma candidate_matches_ran a c : candidate_matches a c = true <-> ran a = c.
Proof.
  unfold candidate_matches. rewrite bool_decide_eq_true. destruct (ran a), c; cbn. naive_solver.
Qed.

Lemma by_role_elem attempts r a : a ∈ by_role attempts r <-> aa_role a = r /\ a ∈ attempts.
Proof. unfold by_role. by rewrite list_elem_of_filter. Qed.

(** ** What the rows establish *)
Lemma require_pass_ok a : require_pass a = Ok tt -> gr_strict_success (aa_grade a) = Some true.
Proof. unfold require_pass. by intros [H%differ_eq _]%raise_ok. Qed.

Lemma check_reference_ok plan a :
  check_reference plan a = Ok tt -> ran a = ap_reference_candidate plan /\ gr_strict_success (aa_grade a) = Some true.
Proof.
  unfold check_reference. intros [H%negb_false_iff Hp]%raise_ok.
  by rewrite candidate_matches_ran in H; apply require_pass_ok in Hp.
Qed.

(** The runs of the alternatives: each planned candidate at most once, all passing. *)
Lemma check_alternatives_ok planned attempts seen seen' :
  NoDup seen -> check_alternatives planned attempts seen = Ok seen' ->
  Forall (fun a => ran a ∈ planned /\ gr_strict_success (aa_grade a) = Some true) attempts
  /\ NoDup seen' /\ seen' = (rev (ran <$> attempts) ++ seen)%list.
Proof.
  revert seen. induction attempts as [|a attempts IH]; intros seen Hs; cbn [check_alternatives].
  { intros [= <-]. by split_and!; [constructor| |]. }
  intros (H1 & (H2 & (u & H3 & H)%bind_ok)%raise_ok)%raise_ok. destruct u. bool_prop.
  apply IH in H as (F & N & ->); [|by apply NoDup_cons].
  split_and!; [|done|cbn; by rewrite <-app_assoc]. constructor; [|done]. split; [done|by apply require_pass_ok].
Qed.

Lemma unique_filter {A} (P : A -> Prop) `{forall x, Decision (P x)} (l : list A) a :
  NoDup l -> a ∈ l -> P a -> (forall b, b ∈ l -> P b -> b = a) -> filter P l = [a].
Proof.
  intros Hn Ha HP Hu. induction l as [|x l IH]; [by apply not_elem_of_nil in Ha|].
  apply NoDup_cons in Hn as [Hx Hn]. rewrite filter_cons. apply elem_of_cons in Ha as [->|Ha].
  - rewrite decide_True by done. f_equal. destruct (filter P l) as [|y k] eqn:E; [done|].
    assert (y ∈ filter P l) as [Hy Hyl]%list_elem_of_filter by (rewrite E; by left).
    rewrite (Hu y) in Hyl; [done|by right|done].
  - rewrite decide_False; [apply IH; [done|done|intros b Hb; apply Hu; by right]|].
    intros Hp. apply Hx. by rewrite (Hu x ltac:(by left) Hp).
Qed.

Lemma NoDup_key_inj {A K} (key : A -> K) l a b : NoDup (key <$> l) -> b ∈ l -> a ∈ l -> key b = key a -> b = a.
Proof.
  intros Hn [i Hi]%list_elem_of_lookup [j Hj]%list_elem_of_lookup E.
  assert (i = j) as <-; [|congruence].
  eapply NoDup_lookup; [exact Hn|by rewrite list_lookup_fmap, Hi|by rewrite list_lookup_fmap, Hj; cbn; rewrite E].
Qed.

Lemma filter_unique_key {A K} (key : A -> K) (P : A -> Prop) `{forall x, Decision (P x)} (l : list A) a :
  NoDup (key <$> l) -> a ∈ l -> P a -> (forall b, b ∈ l -> P b -> key b = key a) -> filter P l = [a].
Proof.
  intros Hn Ha HP Hu. apply unique_filter; [by eapply NoDup_fmap_1|done|done|].
  intros b Hb HPb. by apply (NoDup_key_inj _ _ _ _ Hn), Hu.
Qed.
(** The negative controls: one run per planned control, as planned. *)
Record control_run (candidate : CandidateIdentity) (target : Stage) (a : AdmissionAttempt) : Prop := {
  cr_candidate : ran a = candidate;
  cr_prior s : s ∈ prior_stages target -> dict_get (stage_outcomes_of (ev_stages (aa_evidence a))) s = Some PASS;
  cr_target : dict_get (stage_outcomes_of (ev_stages (aa_evidence a))) target = Some FAIL;
  cr_comparable : gr_comparable (aa_grade a) = true;
  cr_failed : gr_strict_success (aa_grade a) = Some false;
  cr_first : gr_first_failure (aa_grade a) = Some target
}.

Lemma check_control_ok planned a :
  check_control planned a = Ok tt ->
  exists id k, aa_control_id a = Some id /\ dict_get planned id = Some k
    /\ control_run (pn_candidate k) (pn_expected_first_failure k) a.
Proof.
  unfold check_control, outcome_is. destruct (aa_control_id a) as [id|]; cbn [mbind option_bind]; [|done].
  destruct (dict_get planned id) as [k|] eqn:Ek; [|done].
  intros (H1%negb_false_iff & (H2 & _)%raise_ok)%raise_ok. exists id, k. split_and!; [done|done|].
  rewrite !orb_false_iff in H2. destruct H2 as ((((P & T) & C%negb_false_iff) & S%differ_eq) & F%differ_eq).
  apply negb_false_iff in P, T. rewrite candidate_matches_ran in H1. rewrite bool_decide_eq_true in T.
  rewrite forallb_forall in P. split; try done. intros s Hs%list_elem_of_In. apply P in Hs. by bool_prop.
Qed.

Lemma omap_all {A B} (f : A -> option B) l :
  existsb (fun a => is_none (f a)) l = false -> Some <$> omap f l = f <$> l.
Proof.
  induction l as [|a l IH]; cbn; [done|]. destruct (f a) eqn:E; cbn; [|done]. intros H. f_equal. by apply IH.
Qed.

Lemma check_controls_ok plan supplied :
  NoDup (pn_control_id <$> ap_negative_controls plan) -> check_controls plan supplied = Ok tt ->
  aa_control_id <$> supplied ≡ₚ Some <$> (pn_control_id <$> ap_negative_controls plan)
  /\ forall a k, a ∈ supplied -> k ∈ ap_negative_controls plan -> aa_control_id a = Some (pn_control_id k) ->
       control_run (pn_candidate k) (pn_expected_first_failure k) a.
Proof.
  intros Hn. unfold check_controls. intros (H1 & H)%raise_ok. apply raise_ok in H as (H2%negb_false_iff & H).
  apply raise_ok in H as (H3 & H%for_each_ok). bool_prop. rewrite <-(omap_all _ _ H1).
  rewrite dict_of_id in H, H2 by by rewrite <-list_fmap_compose. rewrite WorkerFacts.same_set_spec in H2. split.
  - apply fmap_Permutation, NoDup_Permutation; [done|done|]. intros x. rewrite H2. by rewrite <-list_fmap_compose.
  - intros a k Ha Hk E. rewrite Forall_forall in H. apply H in Ha as (id & k' & E' & Hd & Hr)%check_control_ok.
    assert (k' = k) as ->; [|done]. rewrite E in E'. injection E' as <-.
    apply dict_get_In, list_elem_of_fmap in Hd as (x & [= Eid ->] & Hx). by apply (NoDup_key_inj pn_control_id _ _ _ Hn).
Qed.

Record mutant_run (candidate : CandidateIdentity) (a : AdmissionAttempt) : Prop := {
  mr_candidate : ran a = candidate;
  mr_prior s : s ∈ [INGEST; COMPILE; OBJECT_POLICY] ->
    dict_get (stage_outcomes_of (ev_stages (aa_evidence a))) s = Some PASS;
  mr_verifier : dict_get (stage_outcomes_of (ev_stages (aa_evidence a))) VERIFIER = Some FAIL;
  mr_first : gr_first_failure (aa_grade a) = Some VERIFIER
}.

Lemma check_mutant_ok plan a : check_mutant plan a = Ok tt -> mutant_run (ap_public_mutant_candidate plan) a.
Proof.
  unfold check_mutant, outcome_is. intros (H1%negb_false_iff & (H2 & _)%raise_ok)%raise_ok.
  rewrite !orb_false_iff in H2. destruct H2 as ((F%differ_eq & P) & V%negb_false_iff).
  rewrite candidate_matches_ran in H1. rewrite bool_decide_eq_true in V. split; try done.
  intros s Hs. apply (existsb_none _ _ _ P) in Hs. by bool_prop.
Qed.

Lemma remove_dups_single {A} `{EqDecision A} (l : list A) x y : remove_dups l = [x] -> y ∈ l -> y = x.
Proof. intros H Hy. apply elem_of_remove_dups in Hy. rewrite H in Hy. by apply list_elem_of_singleton in Hy. Qed.

Lemma check_behavior_ok originals reverts d a :
  check_behavior originals reverts = Ok d -> a ∈ (originals ++ reverts)%list -> behavior_sha256 a = Ok d.
Proof.
  unfold check_behavior. intros (ds & H1 & H)%bind_ok. destruct (remove_dups ds) as [|x [|]] eqn:E; try done.
  apply bind_ok in H as (rs & H2 & H). apply raise_ok in H as (H3 & [= ->]).
  apply map_result_ok in H1, H2. intros [Ha|Ha]%elem_of_app; apply list_elem_of_lookup in Ha as [i Hi].
  - destruct (Forall2_lookup_l _ _ _ _ _ H1 Hi) as (y & Hy & Hd). rewrite Hd. f_equal.
    eapply remove_dups_single; [exact E|by eapply list_elem_of_lookup_2].
  - destruct (Forall2_lookup_l _ _ _ _ _ H2 Hi) as (y & Hy & Hd). rewrite Hd. f_equal.
    apply differ_eq, (existsb_none _ _ _ H3). by eapply list_elem_of_lookup_2.
Qed.

(** ** The matrix *)
Lemma role_counts plan attempts r :
  existsb (fun r => negb (Z.of_nat (length (by_role attempts r)) =? expected_count plan r)) ROLES = false ->
  Z.of_nat (length (by_role attempts r)) = expected_count plan r.
Proof.
  intros H. apply (existsb_none _ _ r) in H; [by apply Z.eqb_eq, negb_false_iff|].
  apply list_elem_of_In. by destruct r; cbn; tauto.
Qed.

Lemma roles_partition attempts :
  length attempts = (length (by_role attempts ORIGINAL) + length (by_role attempts REVERT)
    + length (by_role attempts ALTERNATIVE) + length (by_role attempts PUBLIC_MUTANT)
    + length (by_role attempts NEGATIVE_CONTROL))%nat.
Proof.
  unfold by_role. induction attempts as [|a l IH]; [done|]. rewrite !filter_cons.
  destruct (aa_role a) eqn:E; repeat (case_decide; try congruence); cbn [length]; lia.
Qed.

(** The matrix a plan asks for. *)
Record matrix_ok (plan : AdmissionPlan) (attempts : list AdmissionAttempt) (behavior : string) : Prop := {
  mo_originals : Z.of_nat (length (by_role attempts ORIGINAL)) = ap_original_repeats plan;
  mo_revert : exists a, by_role attempts REVERT = [a];
  mo_reference a : a ∈ (by_role attempts ORIGINAL ++ by_role attempts REVERT)%list ->
    ran a = ap_reference_candidate plan /\ gr_strict_success (aa_grade a) = Some true /\ behavior_sha256 a = Ok behavior;
  mo_alternatives : ran <$> by_role attempts ALTERNATIVE ≡ₚ ap_alternative_candidates plan;
  mo_alternative a : a ∈ by_role attempts ALTERNATIVE -> gr_strict_success (aa_grade a) = Some true;
  mo_mutant : exists a, by_role attempts PUBLIC_MUTANT = [a] /\ mutant_run (ap_public_mutant_candidate plan) a;
  mo_controls : aa_control_id <$> by_role attempts NEGATIVE_CONTROL ≡ₚ Some <$> (pn_control_id <$> ap_negative_controls plan);
  mo_control a k : a ∈ by_role attempts NEGATIVE_CONTROL -> k ∈ ap_negative_controls plan ->
    aa_control_id a = Some (pn_control_id k) -> control_run (pn_candidate k) (pn_expected_first_failure k) a
}.

(** The candidates and the control identifiers of a plan are distinct. *)
Definition plan_unique (plan : AdmissionPlan) : Prop :=
  NoDup (ap_alternative_candidates plan) /\ NoDup (pn_control_id <$> ap_negative_controls plan)
  /\ 2 <= ap_original_repeats plan.

Lemma length_one {A} (l : list A) : Z.of_nat (length l) = 1 -> exists a, l = [a].
Proof. destruct l as [|a [|]]; cbn; [lia|eauto|lia]. Qed.

Lemma validate_roles_ok plan attempts d :
  plan_unique plan -> validate_roles attempts plan = Ok d -> matrix_ok plan attempts d.
Proof.
  intros (Hna & Hn & _). unfold validate_roles. intros (Hc & H)%raise_ok. apply bind_ok in H as ([] & Href%for_each_ok & H).
  apply bind_ok in H as (seen & Halt & H). apply raise_ok in H as (Hsame%negb_false_iff & H).
  destruct (by_role attempts PUBLIC_MUTANT) as [|mutant rest] eqn:Em; [done|].
  apply bind_ok in H as ([] & Hm%check_mutant_ok & H). apply bind_ok in H as ([] & Hk & Hb).
  apply check_alternatives_ok in Halt as (Falt & Nalt & ->); [|constructor]. rewrite app_nil_r in *.
  assert (NoDup (ran <$> by_role attempts ALTERNATIVE)) as Hkeys by by rewrite <-(Permutation_rev (ran <$> _)) in Nalt.
  rewrite WorkerFacts.same_set_spec in Hsame. rewrite Forall_forall in Href, Falt.
  split; [by apply (role_counts plan attempts ORIGINAL)|by apply length_one, (role_counts plan attempts REVERT)| | | | | |].
  - intros a Ha. pose proof (Href _ Ha) as [? ?]%check_reference_ok. by pose proof (check_behavior_ok _ _ _ _ Hb Ha).
  - apply NoDup_Permutation; [done|done|]. intros x. by rewrite <-Hsame, <-(Permutation_rev (ran <$> _)).
  - intros a Ha. by apply Falt.
  - exists mutant. split; [|done]. pose proof (role_counts plan attempts PUBLIC_MUTANT Hc) as [a Ha]%length_one. congruence.
  - apply check_controls_ok in Hk; [|done]. apply Hk.
  - intros a k Ha Hin E. apply check_controls_ok in Hk as [_ Hk]; [|done]. by apply Hk.
Qed.

(** ** Admission *)
Definition reference_run (b : TaskBundle) (a : AdmissionAttempt) : Prop :=
  ran a = candidate_identity (pg_reference_source (tb_private b)) /\ gr_strict_success (aa_grade a) = Some true.

(** Everything [admit_task] has checked when it returns a report. *)
Record admit_checked (b : TaskBundle) (c : ScoringContract) (p : RewardPolicy) (plan : AdmissionPlan)
    (attempts : list AdmissionAttempt) (report : AdmissionReport) : Prop := {
  ac_private : validate_PrivateGrader (tb_private b) = Ok tt;
  ac_plan : validate_AdmissionPlan plan = Ok tt;
  ac_contract : exists derived, build_scoring_contract b = Ok derived /\ ScoringContract_eqb c derived = true;
  ac_bound : validate_admission_plan plan b c p = Ok tt;
  ac_valid : Forall (fun a => validate_AdmissionAttempt a = Ok tt) attempts;
  ac_independent : check_independent attempts = Ok tt;
  ac_identity : validate_shared_identity attempts plan b c p = Ok tt;
  ac_roles : validate_roles attempts plan = Ok (ar_reference_behavior_sha256 report);
  ac_replays : map_result replay_digest (ordered_attempts attempts) = Ok (ar_replays report)
}.

Lemma admit_task_inv b c p plan attempts report :
  admit_task b c p plan attempts = Ok report -> admit_checked b c p plan attempts report.
Proof.
  unfold admit_task. intros H. apply bind_ok in H as (b' & [-> Hp]%frozen_bundle_same & H).
  apply bind_ok in H as ([] & _ & H). apply bind_ok in H as ([] & _ & H). apply bind_ok in H as ([] & Hplan & H).
  apply bind_ok in H as (d & Hd & H). apply raise_ok in H as [He%negb_false_iff H].
  apply bind_ok in H as ([] & Hb & H). apply bind_ok in H as ([] & Hv%for_each_ok & H).
  apply bind_ok in H as ([] & Hi & H). apply bind_ok in H as ([] & Hs & H).
  apply bind_ok in H as (r & Hr & H). apply bind_ok in H as (ds & Hds & H).
  do 4 apply bind_ok in H as (? & _ & H). apply construct_ok in H as [_ ->]. split; cbn; eauto.
Qed.

Lemma validated_plan_unique plan : validate_AdmissionPlan plan = Ok tt -> plan_unique plan.
Proof.
  unfold validate_AdmissionPlan, role_matrix_is_unique. intros H. do 10 apply field_ok in H as [_ H].
  apply field_ok in H as [H1 H]. do 4 apply field_ok in H as [_ H]. apply raise_ok in H as [H2 H].
  apply raise_ok in H as [H3 _]. bool_prop. split_and!; [done|done|lia].
Qed.

Lemma grader_control_ids g : validate_PrivateGrader g = Ok tt -> NoDup (nc_control_id <$> pg_negative_controls g).
Proof.
  unfold validate_PrivateGrader. intros H. repeat first [apply field_ok in H as [_ H]|apply bind_ok in H as (? & _ & H)].
  unfold control_ids_must_be_unique in H. apply raise_ok in H as [H%negb_false_iff _]. by rewrite <-unique_NoDup.
Qed.

(** What binds the plan to the task. *)
Lemma plan_binds_task plan b c p :
  validate_admission_plan plan b c p = Ok tt -> validate_PrivateGrader (tb_private b) = Ok tt ->
  validate_AdmissionPlan plan = Ok tt ->
  ap_reference_candidate plan = candidate_identity (pg_reference_source (tb_private b))
  /\ (exists starter, pt_starter_source (tb_public b) = Some starter
        /\ ap_public_mutant_candidate plan = candidate_identity starter)
  /\ (forall f, f ∈ pg_valid_alternatives (tb_private b) -> candidate_identity f ∈ ap_alternative_candidates plan)
  /\ (forall k, k ∈ pg_negative_controls (tb_private b) -> nc_expected_first_failure k ∈ BEHAVIOR_STAGES
        /\ exists q, q ∈ ap_negative_controls plan /\ pn_control_id q = nc_control_id k
             /\ pn_candidate q = candidate_identity (nc_source k)
             /\ pn_expected_first_failure q = nc_expected_first_failure k).
Proof.
  intros H Hg%grader_control_ids (_ & Hp & _)%validated_plan_unique. unfold validate_admission_plan in H.
  destruct (pt_family (tb_public b)); [|by destruct (pt_starter_source (tb_public b))].
  destruct (pt_starter_source (tb_public b)) as [starter|]; [|done].
  apply raise_ok in H as [_ H]. do 2 apply bind_ok in H as (? & _ & H). do 2 apply raise_ok in H as [_ H].
  apply raise_ok in H as [H1%differ_eq H]. apply raise_ok in H as [H2%differ_eq H].
  apply raise_ok in H as [H3%negb_false_iff H]. apply raise_ok in H as [H4%negb_false_iff H].
  apply raise_ok in H as [H5 _]. rewrite !dict_of_id in H4 by by rewrite <-list_fmap_compose.
  rewrite dict_of_id in H5 by by rewrite <-list_fmap_compose.
  rewrite dict_eqb_spec in H4. rewrite WorkerFacts.same_set_spec in H3. split_and!; [done|eauto| |].
  - intros f Hf. apply H3, list_elem_of_fmap. by exists f.
  - intros k Hk. split.
    + apply (existsb_none _ _ (nc_control_id k, (candidate_identity (nc_source k), nc_expected_first_failure k))) in H5;
        [cbn in H5; by bool_prop|]. apply list_elem_of_fmap. by exists k.
    + assert (dict_get ((fun q => (pn_control_id q, (pn_candidate q, pn_expected_first_failure q)))
        <$> ap_negative_controls plan) (nc_control_id k) = Some (candidate_identity (nc_source k), nc_expected_first_failure k)) as Hq.
      { rewrite H4. apply dict_get_Some; [by rewrite <-list_fmap_compose|]. apply list_elem_of_fmap. by exists k. }
      apply dict_get_In, list_elem_of_fmap in Hq as (q & [= E1 E2 E3] & Hq). by exists q.
Qed.

Lemma attempts_scored attempts plan b c p a :
  validate_shared_identity attempts plan b c p = Ok tt -> a ∈ attempts ->
  exists g, score_evidence (aa_evidence a) c p = Ok g /\ Grade_eqb (aa_grade a) g = true.
Proof.
  unfold validate_shared_identity. intros H Ha. do 2 apply bind_ok in H as (? & _ & H).
  apply for_each_ok in H. rewrite Forall_forall in H. apply H in Ha. unfold validate_attempt_identity in Ha.
  do 2 apply raise_ok in Ha as [_ Ha]. apply bind_ok in Ha as (? & _ & Ha). apply raise_ok in Ha as [_ Ha].
  apply bind_ok in Ha as (g & Hg & Ha). apply raise_ok in Ha as [He%negb_false_iff _]. eauto.
Qed.

Lemma same_digest_same_bytes v1 v2 d :
  sha256_json v1 = Ok d -> sha256_json v2 = Ok d ->
  exists b1 b2, canonical_json_bytes v1 = Ok b1 /\ canonical_json_bytes v2 = Ok b2 /\ (b1 = b2 \/ collision b1 b2).
Proof.
  unfold sha256_json. intros (b1 & H1 & [= <-])%bind_ok (b2 & H2 & [= E])%bind_ok. exists b1, b2.
  split_and!; [done|done|]. destruct (decide (b1 = b2)); [by left|right]. by split.
Qed.

(** C17. A task is admitted only when the whole declared matrix behaved: every run is
    scored by the contract derived from the task; the reference source passed at least
    twice and once more after reverting, each time with the same canonical behaviour
    (or a SHA-256 collision); every valid alternative of the task has exactly one run,
    and it passed; the starter source has exactly one run, which reached the verifier
    and was rejected there; every negative control of the task has exactly one run,
    which passed all stages before the one the control targets and failed there; and
    there is no other run. *)
Theorem admitted_task_behaves b c p plan attempts :
  match admit_task b c p plan attempts with
  | Err _ => True
  | Ok _ =>
    (exists derived, build_scoring_contract b = Ok derived /\ ScoringContract_eqb c derived = true)
    /\ (forall a, a ∈ attempts -> exists g, score_evidence (aa_evidence a) c p = Ok g /\ Grade_eqb (aa_grade a) g = true)
    /\ (2 <= length (by_role attempts ORIGINAL) /\ length (by_role attempts REVERT) = 1)%nat
    /\ (forall a, a ∈ (by_role attempts ORIGINAL ++ by_role attempts REVERT)%list -> reference_run b a)
    /\ (forall a1 a2, a1 ∈ (by_role attempts ORIGINAL ++ by_role attempts REVERT)%list ->
          a2 ∈ (by_role attempts ORIGINAL ++ by_role attempts REVERT)%list ->
          exists b1 b2, canonical_json_bytes (behavior_projection (aa_evidence a1)) = Ok b1
            /\ canonical_json_bytes (behavior_projection (aa_evidence a2)) = Ok b2 /\ (b1 = b2 \/ collision b1 b2))
    /\ (forall f, f ∈ pg_valid_alternatives (tb_private b) ->
          exists a, filter (fun a => ran a = candidate_identity f) (by_role attempts ALTERNATIVE) = [a]
            /\ gr_strict_success (aa_grade a) = Some true)
    /\ (exists starter a, pt_starter_source (tb_public b) = Some starter /\ by_role attempts PUBLIC_MUTANT = [a]
          /\ mutant_run (candidate_identity starter) a)
    /\ (forall k, k ∈ pg_negative_controls (tb_private b) ->
          exists a, filter (fun a => aa_control_id a = Some (nc_control_id k)) (by_role attempts NEGATIVE_CONTROL) = [a]
            /\ control_run (candidate_identity (nc_source k)) (nc_expected_first_failure k) a
            /\ nc_expected_first_failure k ∈ BEHAVIOR_STAGES)
    /\ Z.of_nat (length attempts) = ap_original_repeats plan + 2 + Z.of_nat (length (ap_alternative_candidates plan))
                                    + Z.of_nat (length (ap_negative_controls plan))
  end.
Proof.
  destruct (admit_task b c p plan attempts) as [report|] eqn:H; [|done].
  apply admit_task_inv in H as [Hg Hp Hc Hb _ _ Hs Hr _].
  destruct (plan_binds_task _ _ _ _ Hb Hg Hp) as (Bref & (starter & Est & Bmut) & Balt & Bctl).
  apply validated_plan_unique in Hp as Hu. destruct Hu as (Hna & Hni & Hrep). apply validate_roles_ok in Hr; [|done].
  destruct Hr as [Mo [r Mr] Mref Maps Malt (m & Mm & Hmut) Mcps Mctl].
  pose proof (roles_partition attempts) as Hlen. rewrite Mr, Mm in Hlen. cbn [length] in Hlen.
  pose proof (Permutation_length Maps) as L1. pose proof (Permutation_length Mcps) as L2.
  rewrite !length_fmap in *.
  split_and!; [done|intros a; by apply (attempts_scored _ _ _ _ _ _ Hs)|lia|by rewrite Mr| | | | | |lia].
  - intros a (H1 & H2 & _)%Mref. split; congruence.
  - intros a1 a2 (_ & _ & D1)%Mref (_ & _ & D2)%Mref. by eapply same_digest_same_bytes.
  - intros f Hf%Balt. rewrite <-Maps in Hf. apply list_elem_of_fmap in Hf as (a & Er & Ha). exists a. split; [|by apply Malt].
    apply (filter_unique_key ran); [by rewrite Maps|exact Ha|done|]. intros x _ ->. by rewrite Er.
  - exists starter, m. by rewrite <-Bmut.
  - intros k (Hst & q & Hq & E1 & Ec & E2)%Bctl.
    assert (Some (pn_control_id q) ∈ aa_control_id <$> by_role attempts NEGATIVE_CONTROL) as (a & Eid & Ha)%list_elem_of_fmap.
    { rewrite Mcps. by do 2 apply list_elem_of_fmap_2. }
    exists a. rewrite <-E1, <-Ec, <-E2 in *. split_and!; [|by apply Mctl|exact Hst].
    apply (filter_unique_key aa_control_id); [|exact Ha|done|intros x _ ->; by rewrite Eid].
    rewrite Mcps. apply NoDup_fmap_2; [by intros ? ? [=]|done].
Qed.

(** ** The order of the runs does not matter *)
Lemma key_ltb_irrefl k : key_ltb k k = false.
Proof. induction k as [|x k IH]; cbn; [done|]. by rewrite bool_decide_true. Qed.

Lemma key_ltb_trans a b c : key_ltb a b = true -> key_ltb b c = true -> key_ltb a c = true.
Proof.
  revert b c. induction a as [|x a IH]; intros [|y b] [|z c]; cbn; try done.
  repeat case_bool_decide; subst; try done; eauto using string_ltb_trans.
  intros L1 L2. pose proof (string_ltb_trans _ _ _ L1 L2) as L. by rewrite string_ltb_irrefl in L.
Qed.

Lemma key_ltb_total a b : key_ltb a b = false -> a = b \/ key_ltb b a = true.
Proof.
  revert b. induction a as [|x a IH]; intros [|y b]; cbn; try (by auto).
  repeat case_bool_decide; subst; try done.
  - intros [->|]%IH; auto.
  - intros [->|]%string_ltb_total; auto.
Qed.

(** Sorting by a key is sorting the keys. *)
Lemma sort_by_keys {A K} (key : A -> K) (ltb : K -> K -> bool) l :
  key <$> sort_by (fun a b => ltb (key a) (key b)) l = sort_by ltb (key <$> l).
Proof.
  induction l as [|x l IH]; cbn; [done|]. rewrite <-IH. generalize (sort_by (fun a b => ltb (key a) (key b)) l).
  intros k. induction k as [|y k IHk]; cbn; [done|]. destruct (ltb (key y) (key x)); cbn; [by f_equal|done].
Qed.

Lemma sorted_keys_unique (a b : list (list string)) :
  NoDup a -> a ≡ₚ b -> sort_by key_ltb a = sort_by key_ltb b.
Proof.
  intros Ha Hp. assert (NoDup b) as Hb by by rewrite <-Hp.
  eapply (StronglySorted_unique_strong (fun x y => key_ltb x y = true)).
  - intros x y _ _ H1 H2. pose proof (key_ltb_trans _ _ _ H1 H2) as H. by rewrite key_ltb_irrefl in H.
  - apply sort_by_sorted; [exact key_ltb_trans|exact key_ltb_total|done].
  - apply sort_by_sorted; [exact key_ltb_trans|exact key_ltb_total|done].
  - by rewrite !sort_by_perm.
Qed.

Lemma same_keys_same_list {A K} (key : A -> K) l1 l2 :
  NoDup (key <$> l1) -> l1 ≡ₚ l2 -> key <$> l1 = key <$> l2 -> l1 = l2.
Proof.
  intros Hn Hp Hk. apply list_eq. intros i. pose proof (f_equal (lookup i) Hk) as Hi. rewrite !list_lookup_fmap in Hi.
  destruct (l1 !! i) as [x|] eqn:E1, (l2 !! i) as [y|] eqn:E2; cbn in Hi; try done. injection Hi as Hi. f_equal.
  apply (NoDup_key_inj key l1); [done| | |done]; [by eapply list_elem_of_lookup_2|].
  rewrite Hp. by eapply list_elem_of_lookup_2.
Qed.

Lemma ordered_perm l1 l2 : NoDup (attempt_key <$> l1) -> l1 ≡ₚ l2 -> ordered_attempts l1 = ordered_attempts l2.
Proof.
  intros Hn Hp. apply (same_keys_same_list attempt_key).
  - unfold ordered_attempts. rewrite sort_by_keys. by rewrite sort_by_perm.
  - unfold ordered_attempts. by rewrite !sort_by_perm.
  - unfold ordered_attempts. rewrite !sort_by_keys. apply sorted_keys_unique; [done|by rewrite Hp].
Qed.

Lemma for_each_perm {A} (f : A -> result string unit) l1 l2 : l1 ≡ₚ l2 -> for_each f l1 = Ok tt -> for_each f l2 = Ok tt.
Proof. rewrite !for_each_ok. by intros ->. Qed.

Lemma existsb_perm {A} (f : A -> bool) l1 l2 : l1 ≡ₚ l2 -> existsb f l1 = existsb f l2.
Proof. induction 1 as [|x l1 l2 _ IH|x y l|l1 l2 l3 _ IH1 _ IH2]; cbn; [done|by rewrite IH| |congruence].
  by destruct (f x), (f y). Qed.

Lemma by_role_perm l1 l2 r : l1 ≡ₚ l2 -> by_role l1 r ≡ₚ by_role l2 r.
Proof. unfold by_role. by intros ->. Qed.

Lemma check_independent_perm l1 l2 : l1 ≡ₚ l2 -> check_independent l1 = check_independent l2.
Proof.
  intros Hp. unfold check_independent. rewrite (existsb_perm _ l1 l2 Hp).
  assert (forall {B} `{EqDecision B} (f : AdmissionAttempt -> B), bool_decide (NoDup (f <$> l1)) = bool_decide (NoDup (f <$> l2))) as Hb.
  { intros B ? f. apply bool_decide_ext. by rewrite Hp. }
  by rewrite !Hb, (Permutation_length Hp).
Qed.

Lemma check_alternatives_complete planned l seen :
  Forall (fun a => ran a ∈ planned /\ gr_strict_success (aa_grade a) = Some true) l -> NoDup (ran <$> l) ->
  (forall a, a ∈ l -> ran a ∉ seen) -> check_alternatives planned l seen = Ok (rev (ran <$> l) ++ seen)%list.
Proof.
  revert seen. induction l as [|a l IH]; intros seen Hf Hn Hs; cbn; [done|].
  apply Forall_cons in Hf as [[H1 H2] Hf]. apply NoDup_cons in Hn as [Ha Hn].
  rewrite bool_decide_true by done. cbn. rewrite bool_decide_false by (apply Hs; by left).
  unfold require_pass, differ. rewrite H2. cbn. rewrite bool_decide_true by done. cbn.
  rewrite IH, <-app_assoc; [done|done|done|]. intros x Hx. apply not_elem_of_cons. split; [|by apply Hs; right].
  intros E. apply Ha. rewrite <-E. by apply list_elem_of_fmap_2.
Qed.

Lemma same_set_perm {A} `{EqDecision A} (a b c : list A) : a ≡ₚ b -> same_set a c = same_set b c.
Proof.
  intros Hp. apply eq_bool_prop_intro. rewrite !Is_true_true, !WorkerFacts.same_set_spec. by setoid_rewrite Hp.
Qed.

Lemma check_controls_perm plan l1 l2 : l1 ≡ₚ l2 -> check_controls plan l1 = Ok tt -> check_controls plan l2 = Ok tt.
Proof.
  intros Hp. unfold check_controls. rewrite (existsb_perm _ l1 l2 Hp). 
  assert (omap aa_control_id l1 ≡ₚ omap aa_control_id l2) as Ho by by rewrite Hp.
  rewrite (same_set_perm _ _ _ Ho), (bool_decide_ext _ (NoDup (omap aa_control_id l2))) by by rewrite Ho.
  intros H. apply raise_ok in H as [-> H]. apply raise_ok in H as [-> H]. apply raise_ok in H as [-> H].
  by apply (for_each_perm _ _ _ Hp).
Qed.

Lemma map_result_const {A B} (f : A -> result string B) d l :
  Forall (fun a => f a = Ok d) l -> map_result f l = Ok (replicate (length l) d).
Proof. induction 1 as [|a l Ha _ IH]; cbn; [done|]. by rewrite Ha; cbn; rewrite IH. Qed.

Lemma remove_dups_replicate {A} `{EqDecision A} n (d : A) : remove_dups (replicate (S n) d) = [d].
Proof.
  induction n as [|n IH]; [done|].
  change (remove_dups (replicate (S (S n)) d)) with
    (if decide_rel (∈) d (replicate (S n) d) then remove_dups (replicate (S n) d) else d :: remove_dups (replicate (S n) d)).
  destruct (decide_rel _ _ _) as [_|Hin]; [exact IH|]. exfalso. apply Hin. by left.
Qed.

Lemma check_behavior_complete originals reverts d :
  originals <> [] -> Forall (fun a => behavior_sha256 a = Ok d) (originals ++ reverts)%list ->
  check_behavior originals reverts = Ok d.
Proof.
  intros Hne [Ho Hr]%Forall_app. unfold check_behavior. rewrite (map_result_const _ d _ Ho). cbn [bind_result].
  destruct originals as [|o os]; [done|]. cbn [length]. rewrite remove_dups_replicate, (map_result_const _ d _ Hr).
  cbn [bind_result]. clear. induction (length reverts) as [|n IH]; cbn; [done|].
  unfold differ. by rewrite bool_decide_true.
Qed.

Lemma validate_roles_perm plan l1 l2 d : l1 ≡ₚ l2 -> validate_roles l1 plan = Ok d -> validate_roles l2 plan = Ok d.
Proof.
  intros Hp. pose proof (fun r => by_role_perm l1 l2 r Hp) as Hr. unfold validate_roles.
  intros H. apply raise_ok in H as [Hc H].
  assert (existsb (fun r => negb (Z.of_nat (length (by_role l2 r)) =? expected_count plan r)) ROLES = false) as ->.
  { rewrite <-Hc. cbn. by rewrite !(Permutation_length (Hr _)). }
  apply bind_ok in H as ([] & Href & H).
  rewrite (for_each_perm _ _ (by_role l2 ORIGINAL ++ by_role l2 REVERT)%list (Permutation_app (Hr ORIGINAL) (Hr REVERT)) Href).
  cbn [bind_result]. apply bind_ok in H as (seen & Ha & H). apply check_alternatives_ok in Ha as (Fa & Na & ->); [|constructor].
  rewrite app_nil_r in *. rewrite <-(Permutation_rev (ran <$> _)) in Na.
  rewrite check_alternatives_complete; [|by rewrite <-(Hr ALTERNATIVE)|by rewrite <-(Hr ALTERNATIVE)|by intros; apply not_elem_of_nil].
  cbn [bind_result]. rewrite app_nil_r.
  rewrite (same_set_perm (rev (ran <$> by_role l2 ALTERNATIVE)) (rev (ran <$> by_role l1 ALTERNATIVE)))
    by by rewrite <-!Permutation_rev, (Hr ALTERNATIVE).
  apply raise_ok in H as [-> H]. destruct (by_role l1 PUBLIC_MUTANT) as [|m ms] eqn:Em; [done|].
  assert (ms = []) as ->.
  { apply (role_counts _ _ PUBLIC_MUTANT) in Hc. rewrite Em in Hc. cbn in Hc. destruct ms; [done|cbn in Hc; lia]. }
  pose proof (Hr PUBLIC_MUTANT) as Hm. rewrite Em in Hm. apply Permutation_length_1_inv in Hm as ->.
  apply bind_ok in H as ([] & -> & H). cbn [bind_result]. apply bind_ok in H as ([] & Hk & Hb).
  rewrite (check_controls_perm _ _ _ (Hr NEGATIVE_CONTROL) Hk). cbn [bind_result].
  apply check_behavior_complete.
  - intros E. pose proof (Hr ORIGINAL) as Ho. rewrite E in Ho. apply Permutation_nil_r in Ho. rewrite Ho in Hb. done.
  - rewrite <-(Hr ORIGINAL), <-(Hr REVERT). apply Forall_forall. intros a. by apply check_behavior_ok.
Qed.

Lemma distinct_keys attempts : check_independent attempts = Ok tt -> NoDup (attempt_key <$> attempts).
Proof.
  unfold check_independent. intros H. apply raise_ok in H as [_ H]. apply raise_ok in H as [H _]. bool_prop.
  eapply (NoDup_fmap_1 (fun k => nth 3 k "")). by rewrite <-list_fmap_compose.
Qed.

Lemma admit_task_perm b c p plan attempts1 attempts2 report :
  attempts1 ≡ₚ attempts2 ->
  admit_task b c p plan attempts1 = Ok report -> admit_task b c p plan attempts2 = Ok report.
Proof.
  intros Hp H. pose proof (admit_task_inv _ _ _ _ _ _ H) as [_ _ _ _ Hv Hi Hs Hr _].
  rewrite <-H. unfold admit_task.
  destruct (frozen_bundle b) as [b'|] eqn:Eb; cbn [bind_result]; [|done].
  apply frozen_bundle_same in Eb as [-> _].
  assert (for_each validate_AdmissionAttempt attempts2 = Ok tt) as -> by by rewrite for_each_ok, <-Hp.
  rewrite <-(check_independent_perm _ _ Hp), <-(ordered_perm _ _ (distinct_keys _ Hi) Hp).
  assert (validate_shared_identity attempts2 plan b c p = Ok tt) as ->.
  { unfold validate_shared_identity in *. do 2 apply bind_ok in Hs as (? & -> & Hs). cbn [bind_result].
    by apply (for_each_perm _ _ _ Hp). }
  assert (for_each validate_AdmissionAttempt attempts1 = Ok tt) as -> by by apply for_each_ok.
  by rewrite (validate_roles_perm _ _ _ _ Hp Hr), Hr, Hs.
Qed.

(** C18. The outcome of admission is a function of the set of runs: supplied in any
    other order, the same runs are admitted with the same report, byte for byte, or
    not admitted either. *)
Theorem admission_order_irrelevant b c p plan attempts1 attempts2 report :
  attempts1 ≡ₚ attempts2 ->
  admit_task b c p plan attempts1 = Ok report <-> admit_task b c p plan attempts2 = Ok report.
Proof. intros Hp. split; apply admit_task_perm; [done|by symmetry]. Qed.

(** ** The role checks decide the matrix *)
Lemma differ_refl {A} `{EqDecision A} (a : A) : differ a a = false.
Proof. unfold differ. by rewrite bool_decide_true. Qed.

Lemma existsb_all_false {A} (f : A -> bool) l : (forall x, x ∈ l -> f x = false) -> existsb f l = false.
Proof.
  intros H. destruct (existsb f l) eqn:E; [|done]. apply existsb_exists in E as (x & Hx%list_elem_of_In & Hf).
  by rewrite H in Hf.
Qed.

Lemma same_set_permutation {A} `{EqDecision A} (a b : list A) : a ≡ₚ b -> same_set a b = true.
Proof. intros Hp. apply WorkerFacts.same_set_spec. by intros x; rewrite Hp. Qed.

Lemma check_reference_complete plan a :
  ran a = ap_reference_candidate plan -> gr_strict_success (aa_grade a) = Some true -> check_reference plan a = Ok tt.
Proof.
  intros H1 H2. unfold check_reference, require_pass. apply candidate_matches_ran in H1 as ->. by rewrite H2, differ_refl.
Qed.

Lemma check_mutant_complete plan a : mutant_run (ap_public_mutant_candidate plan) a -> check_mutant plan a = Ok tt.
Proof.
  intros [H1 H2 H3 H4]. unfold check_mutant, outcome_is. apply candidate_matches_ran in H1 as ->. cbn [negb].
  rewrite H3, H4, differ_refl, existsb_all_false; [by rewrite bool_decide_true|].
  intros s Hs. by rewrite (H2 s Hs), bool_decide_true.
Qed.

Lemma check_control_complete planned a id k :
  aa_control_id a = Some id -> dict_get planned id = Some k ->
  control_run (pn_candidate k) (pn_expected_first_failure k) a -> check_control planned a = Ok tt.
Proof.
  intros Hi Hk [H1 H2 H3 H4 H5 H6]. unfold check_control, outcome_is. rewrite Hi. cbn [mbind option_bind].
  rewrite Hk. apply candidate_matches_ran in H1 as ->. cbn [negb]. rewrite H3, H4, H5, H6, !differ_refl, bool_decide_true by done.
  assert (forallb (fun s => bool_decide (dict_get (stage_outcomes_of (ev_stages (aa_evidence a))) s = Some PASS))
            (prior_stages (pn_expected_first_failure k)) = true) as ->; [|done].
  apply forallb_forall. intros s Hs%list_elem_of_In. by rewrite (H2 s Hs), bool_decide_true.
Qed.

Lemma check_controls_complete plan supplied :
  NoDup (pn_control_id <$> ap_negative_controls plan) ->
  aa_control_id <$> supplied ≡ₚ Some <$> (pn_control_id <$> ap_negative_controls plan) ->
  (forall a k, a ∈ supplied -> k ∈ ap_negative_controls plan -> aa_control_id a = Some (pn_control_id k) ->
     control_run (pn_candidate k) (pn_expected_first_failure k) a) ->
  check_controls plan supplied = Ok tt.
Proof.
  intros Hn Hp Hr. unfold check_controls. rewrite dict_of_id by by rewrite <-list_fmap_compose.
  assert (forall a, a ∈ supplied -> exists k, k ∈ ap_negative_controls plan /\ aa_control_id a = Some (pn_control_id k)) as Hk.
  { intros a Ha. apply (list_elem_of_fmap_2 aa_control_id) in Ha. rewrite Hp in Ha.
    apply list_elem_of_fmap in Ha as (? & -> & (k & -> & Hk)%list_elem_of_fmap). eauto. }
  assert (existsb (fun a => is_none (aa_control_id a)) supplied = false) as He.
  { apply existsb_all_false. intros a (k & _ & ->)%Hk. done. }
  rewrite He. rewrite <-(omap_all _ _ He) in Hp. apply (Permutation_map (default "")) in Hp.
  assert (forall l : list string, map (default "") (Some <$> l) = l) as Hid.
  { intros l. induction l as [|x l IH]; cbn; [done|by f_equal]. }
  rewrite !Hid in Hp. rewrite same_set_permutation by by rewrite Hp, <-list_fmap_compose.
  cbn [negb]. rewrite bool_decide_true by by rewrite Hp. cbn [negb]. apply for_each_ok, Forall_forall. intros a Ha.
  destruct (Hk a Ha) as (k & Hin & E). eapply check_control_complete; [exact E| |by apply Hr].
  apply dict_get_Some; [by rewrite <-list_fmap_compose|]. apply list_elem_of_fmap. by exists k.
Qed.

Lemma validate_roles_complete plan attempts d :
  plan_unique plan -> matrix_ok plan attempts d -> validate_roles attempts plan = Ok d.
Proof.
  intros (Hna & Hni & Hrep) [Mo [r Mr] Mref Maps Malt (m & Mm & Hmut) Mcps Mctl]. unfold validate_roles.
  pose proof (Permutation_length Maps) as L1. pose proof (Permutation_length Mcps) as L2. rewrite !length_fmap in *.
  rewrite existsb_all_false.
  2: { intros [] _; apply negb_false_iff, Z.eqb_eq; cbn [expected_count]; rewrite ?Mr, ?Mm; cbn [length]; lia. }
  assert (for_each (check_reference plan) (by_role attempts ORIGINAL ++ by_role attempts REVERT)%list = Ok tt) as ->.
  { apply for_each_ok, Forall_forall. intros a (H1 & H2 & _)%Mref. by apply check_reference_complete. }
  cbn [bind_result]. rewrite check_alternatives_complete; [|apply Forall_forall|by rewrite Maps|by intros; apply not_elem_of_nil].
  2: { intros a Ha. split; [rewrite <-Maps; by apply list_elem_of_fmap_2|by apply Malt]. }
  cbn [bind_result]. rewrite app_nil_r, same_set_permutation by by rewrite <-Permutation_rev. cbn [negb].
  rewrite Mm, check_mutant_complete by done. cbn [bind_result]. rewrite check_controls_complete by done. cbn [bind_result].
  apply check_behavior_complete; [intros E; rewrite E in Mo; cbn in Mo; lia|].
  apply Forall_forall. intros a (_ & _ & H)%Mref. done.
Qed.

(** C16. The role checks accept exactly the matrix of the plan: the planned number of
    reference runs and one reverted run, all passing with one behaviour digest, which
    is the one returned; exactly one passing run per planned alternative; one mutant
    run that the verifier rejects; and exactly one run per planned control, failing
    first at its target after passing everything before it. *)
Theorem role_matrix_exact plan attempts d :
  validate_AdmissionPlan plan = Ok tt -> validate_roles attempts plan = Ok d <-> matrix_ok plan attempts d.
Proof.
  intros H%validated_plan_unique. split; [by apply validate_roles_ok|by apply validate_roles_complete].
Qed.











(** ** A matrix that is accepted *)
Definition sample_identity (label : string) : CandidateIdentity :=
  {| ci_sha256 := Samples.digest label; ci_size_bytes := nbytes label |}.

Definition sample_plan : AdmissionPlan := {|
  ap_task_id := "task-1"; ap_task_version := "v1"; ap_task_bundle_sha256 := Samples.digest "bundle";
  ap_scoring_contract_sha256 := Samples.digest "contract"; ap_reward_policy_id := "reward-v1";
  ap_reward_policy_sha256 := Samples.digest "policy"; ap_environment_id := "env-1";
  ap_environment_sha256 := Samples.digest "environment"; ap_grader_id := Samples.digest "grader";
  ap_harness_commit := Samples.harness_commit; ap_original_repeats := 2;
  ap_reference_candidate := sample_identity "reference"; ap_public_mutant_candidate := sample_identity "starter";
  ap_alternative_candidates := [sample_identity "other"];
  ap_negative_controls := [{| pn_control_id := "n1"; pn_candidate := sample_identity "no-op";
                              pn_expected_first_failure := FUNCTIONAL |}] |}.

(** A run of [label]'s source that stops at a stage with the given outcomes. *)
Definition sample_attempt (role : AdmissionRole) (control : option string) (label : string) (stages : list StageEvidence)
    (stop : option Stage) : AdmissionAttempt :=
  let request := Samples.request in
  let candidate := {| art_sha256 := Samples.digest label; art_size_bytes := nbytes label; art_media_type := "text/x-c" |} in
  {| aa_role := role; aa_control_id := control;
     aa_evidence := {| ev_origin := ORIGIN_MICROVM;
       ev_request := {|
         req_request_id := req_request_id request; req_experiment_id := req_experiment_id request;
         req_experiment_manifest_sha256 := req_experiment_manifest_sha256 request; req_model_id := req_model_id request;
         req_model_artifact_sha256 := req_model_artifact_sha256 request; req_checkpoint_id := req_checkpoint_id request;
         req_checkpoint_artifact_sha256 := req_checkpoint_artifact_sha256 request;
         req_sampling_config_sha256 := req_sampling_config_sha256 request; req_episode_id := req_episode_id request;
         req_suite_id := req_suite_id request; req_suite_manifest_sha256 := req_suite_manifest_sha256 request;
         req_task_id := req_task_id request; req_task_version := req_task_version request;
         req_task_bundle_sha256 := req_task_bundle_sha256 request; req_candidate := candidate;
         req_environment_id := req_environment_id request; req_training_seed := req_training_seed request;
         req_sample_index := req_sample_index request; req_generation_seed := req_generation_seed request;
         req_attempt_index := req_attempt_index request; req_diagnostic_condition := req_diagnostic_condition request;
         req_parent_request_id := req_parent_request_id request |};
       ev_environment := Samples.environment; ev_harness_commit := Samples.harness_commit;
       ev_grader_id := Samples.digest "grader"; ev_stages := stages; ev_observation_artifacts := [] |};
     aa_grade := {| gr_policy_id := "reward-v1"; gr_grader_id := Samples.digest "grader"; gr_task_id := "task-1";
       gr_candidate_sha256 := art_sha256 candidate; gr_evidence_sha256 := Samples.digest "e";
       gr_contract_sha256 := Samples.digest "contract"; gr_comparable := true; gr_strict_success := Some (is_none stop);
       gr_benchmark_score := Some fone; gr_training_reward := Some fone; gr_first_failure := stop;
       gr_failure_reason := None; gr_stage_outcomes := stage_outcomes_of stages |};
     aa_manifest := {| rm_evidence := candidate; rm_contract := candidate; rm_grade := candidate; rm_events := candidate;
       rm_policy := candidate; rm_artifacts := [("candidate.c", candidate)] |};
     aa_anchor := {| ra_manifest_sha256 := Samples.digest (label ++ "m"); ra_evidence_sha256 := Samples.digest "e";
       ra_grade_sha256 := Samples.digest "g"; ra_contract_sha256 := Samples.digest "contract";
       ra_policy_sha256 := Samples.digest "policy" |} |}.

Definition sample_matrix : list AdmissionAttempt :=
  [sample_attempt NEGATIVE_CONTROL (Some "n1") "no-op" Samples.functional_failure_stages (Some FUNCTIONAL);
   sample_attempt ORIGINAL None "reference" Samples.success_stages None;
   sample_attempt ALTERNATIVE None "other" Samples.success_stages None;
   sample_attempt PUBLIC_MUTANT None "starter" Samples.verifier_failure_stages (Some VERIFIER);
   sample_attempt ORIGINAL None "reference" Samples.success_stages None;
   sample_attempt REVERT None "reference" Samples.success_stages None].

Lemma sample_matrix_computes :
  is_ok (validate_AdmissionPlan sample_plan) && is_ok (validate_roles sample_matrix sample_plan) = true.
Proof. vm_compute. reflexivity. Qed.

Lemma role_matrix_exact_witness : exists d, matrix_ok sample_plan sample_matrix d.
Proof.
  destruct (andb_prop _ _ sample_matrix_computes) as [Hp Hr]. apply is_ok_unit in Hp. apply is_ok_inv in Hr as [d Hr].
  exists d. exact (proj1 (role_matrix_exact sample_plan sample_matrix d Hp) Hr).
Defined.

Lemma admission_order_irrelevant_witness :
  sample_matrix ≡ₚ rev sample_matrix
  /\ forall b c report, admit_task b c Samples.reward_v1 sample_plan sample_matrix = Ok report
       <-> admit_task b c Samples.reward_v1 sample_plan (rev sample_matrix) = Ok report.
Proof.
  split; [apply Permutation_rev|]. intros b c report. apply admission_order_irrelevant. apply Permutation_rev.
Defined.







End AdmissionFacts.
