(* ===== verification/Repository.v ===== *)
(** * Repository identities ([normalize_repository_identity] of [src/bpe/corpus.py])

    The Unicode tables and the URL library of Python are a parameter ([TextOps]): what
    is modelled is what the code does with them.  A [str] is the string of its UTF-8
    bytes, so the structural characters of a locator are single bytes. *)
From Stdlib Require Import ZArith String Ascii Lia.
From stdpp Require Import base tactics list strings.
From S2P Require Import Prelude Json JsonFacts Models ModelFacts.
Local Open Scope string_scope.
Local Open Scope Z_scope.

Module Repository.
Import Json JsonFacts Models ModelFacts.

Record SplitUrl := { url_scheme : string; url_hostname : option string; url_path : string }.

(** [unicodedata.normalize("NFKC", _)], [str.casefold], [str.strip],
    [urllib.parse.urlsplit], which may raise, and [urllib.parse.unquote]. *)
Record TextOps := {
  nfkc : string -> string;
  casefold : string -> string;
  strip : string -> string;
  urlsplit : string -> result string SplitUrl;
  unquote : string -> string
}.

(** ** Strings *)
Definition char_in (cs : list ascii) (c : ascii) : bool := bool_decide (c ∈ cs).
Definition contains_char (c : ascii) (s : string) : bool := existsb (Ascii.eqb c) (String.list_ascii_of_string s).
Definition is_control (c : ascii) : bool := (nat_of_ascii c <? 32)%nat.

(** [s.split(c, 1)]: the text before the first [c], and the text after it. *)
Fixpoint split_first (c : ascii) (s : string) : string * option string :=
  match s with
  | EmptyString => ("", None)
  | String d s => if Ascii.eqb c d then ("", Some s) else let '(a, b) := split_first c s in (String d a, b)
  end.

Definition before (c : ascii) (s : string) : string := (split_first c s).1.

Definition ends_with_str (suffix s : string) : bool :=
  (String.length suffix <=? String.length s)%nat
  && bool_decide (String.substring (String.length s - String.length suffix) (String.length suffix) s = suffix).
Definition drop_end (n : nat) (s : string) : string := String.substring 0 (String.length s - n) s.
Definition remove_prefix (p s : string) : string :=
  if String.prefix p s then String.substring (String.length p) (String.length s - String.length p) s else s.
Fixpoint contains (p s : string) : bool :=
  String.prefix p s || match s with EmptyString => false | String _ s => contains p s end.

(** ** [_non_placeholder_text] *)
Definition non_placeholder_text (T : TextOps) (value : string) : result string string :=
  let stripped := strip T value in
  raise "cannot be empty" when bool_decide (stripped = "") ;;
  raise "cannot use a placeholder value"
    when bool_decide (casefold T stripped ∈ ["n/a"; "none"; "tbd"; "unknown"; "unspecified"]) ;;
  Ok stripped.

(** [normalize_host] *)
Definition normalize_host (T : TextOps) (value : string) : result string string :=
  let normalized := casefold T value in
  let normalized := if ends_with_str "." normalized then drop_end 1 normalized else normalized in
  raise "repository hostname has an invalid terminal dot"
    when bool_decide (normalized = "") || ends_with_str "." normalized ;;
  Ok (remove_prefix "www." normalized).

(** [re.fullmatch(r"(?:[^@/:]+@)?([^/:]+):(.+)", raw)]: the first colon ends the host,
    and a user name before it is dropped when something is left. *)
Definition match_scp (raw : string) : option (string * string) :=
  match split_first ":" raw with
  | (head, Some path) =>
      if contains_char "/" head || bool_decide (head = "") || bool_decide (path = "") then None
      else
        match split_first "@" head with
        | (user, Some host) => if bool_decide (user = "") || bool_decide (host = "") then Some (head, path) else Some (host, path)
        | (_, None) => Some (head, path)
        end
  | (_, None) => None
  end.

(** [^[a-z0-9][a-z0-9._-]{0,127}$] and [[a-z0-9.-]+] *)
Definition is_lower_alnum (c : ascii) : bool :=
  let n := nat_of_ascii c in ((97 <=? n) && (n <=? 122) || (48 <=? n) && (n <=? 57))%nat.
Definition is_repository_segment (s : string) : bool :=
  match s with
  | EmptyString => false
  | String c rest =>
      is_lower_alnum c && str_forall (fun c => is_lower_alnum c || char_in ["."; "_"; "-"]%char c) rest
      && (String.length rest <=? 127)%nat
  end.
Definition is_hostname (s : string) : bool :=
  bool_decide (s <> "") && str_forall (fun c => is_lower_alnum c || char_in ["."; "-"]%char c) s.

(** [while part.endswith(".git"): part = part[:-4]]; every turn removes four bytes. *)
Fixpoint drop_git (fuel : nat) (part : string) : string :=
  match fuel with
  | O => part
  | S fuel => if ends_with_str ".git" part then drop_git fuel (drop_end 4 part) else part
  end.

Definition map_last (f : string -> string) (parts : list string) : list string :=
  match last parts with Some p => (take (length parts - 1) parts ++ [f p])%list | None => [] end.

(** The host and the path of a locator. *)
Definition locate (T : TextOps) (raw : string) : result string (string * string) :=
  if contains "://" raw then
    let* parsed := urlsplit T raw in
    raise "repository URL uses an unsupported scheme"
      when negb (bool_decide (casefold T (url_scheme parsed) ∈ ["git"; "http"; "https"; "ssh"])) ;;
    match url_hostname parsed with
    | None | Some EmptyString => Err "repository URL requires a hostname"
    | Some hostname =>
        let* host := normalize_host T hostname in
        Ok (host, unquote T (url_path parsed))
    end
  else
    match match_scp raw with
    | Some (hostname, path) =>
        let* host := normalize_host T hostname in
        Ok (host, unquote T path)
    | None => Ok ("", unquote T (before "?" (before "#" raw)))
    end.

(** The GitHub service names stand for [github.com]. *)
Definition canonical_host (host : string) (parts : list string) : result string (string * list string) :=
  if bool_decide (host ∈ ["codeload.github.com"; "raw.github.com"; "raw.githubusercontent.com"]) then
    raise "GitHub content URL lacks an owner/repository identity" when (length parts <? 2)%nat ;;
    Ok ("github.com", take 2 parts)
  else if bool_decide (host = "api.github.com") then
    raise "GitHub API URL is not a repository identity"
      when (length parts <? 3)%nat || negb (bool_decide (head parts = Some "repos")) ;;
    Ok ("github.com", take 2 (drop 1 parts))
  else
    raise "unsupported GitHub service URL for repository provenance"
      when ends_with_str ".github.com" host || ends_with_str ".githubusercontent.com" host ;;
    Ok (host, parts).

(** [normalize_repository_identity]; splitting on ["/"] and dropping empty components
    also strips the slashes. *)
Definition normalize_repository_identity (T : TextOps) (repository : string) : result string string :=
  let* text := non_placeholder_text T repository in
  let raw := nfkc T text in
  raise "repository identities cannot contain controls or backslashes"
    when existsb is_control (String.list_ascii_of_string raw) || contains_char "\" raw ;;
  let* located := locate T raw in
  let '(host, repository_path) := located in
  let parts := casefold T <$> filter (fun p => p <> "") (split_slash repository_path) in
  raise "repository identity has no path components" when bool_decide (parts = []) ;;
  let host := if bool_decide (host = "") && (length parts =? 2)%nat then "github.com" else host in
  let* canonical := canonical_host host parts in
  let '(host, parts) := canonical in
  let parts := map_last (fun p => drop_git (String.length p) p) parts in
  raise "repository identity has an empty repository name" when bool_decide (last parts = Some "") ;;
  raise "GitHub repository identities must be exactly owner/repository"
    when bool_decide (host = "github.com") && negb (length parts =? 2)%nat ;;
  raise "repository identity contains a non-ASCII or invalid component"
    when negb (forallb is_repository_segment parts) ;;
  raise "repository hostname is invalid" when bool_decide (host <> "") && negb (is_hostname host) ;;
  Ok (if bool_decide (host = "") then String.concat "/" parts else String.concat "/" (host :: parts)).

(** [normalize_repository_family]: [identity.rsplit("/", 1)[-1]] *)
Definition normalize_repository_family (T : TextOps) (repository : string) : result string string :=
  let* identity := normalize_repository_identity T repository in
  Ok (default "" (last (split_slash identity))).


(** ** What an accepted identity looks like *)
(** One unit of fuel per byte is enough to drop every suffix. *)
Lemma drop_git_done fuel p : (String.length p <= fuel)%nat -> ends_with_str ".git" (drop_git fuel p) = false.
Proof.
  revert p. induction fuel as [|fuel IH]; intros p Hp; cbn [drop_git].
  - destruct p; [done|cbn in Hp; lia].
  - destruct (ends_with_str ".git" p) eqn:E; [|done]. apply IH. unfold drop_end.
    unfold ends_with_str in E. apply andb_true_iff in E as [E _]. apply Nat.leb_le in E. cbn in E.
    rewrite substring_length; lia.
Qed.

Lemma str_forall_weaken (q q' : ascii -> bool) s : (forall c, q c = true -> q' c = true) ->
  str_forall q s = true -> str_forall q' s = true.
Proof. intros Hq. induction s as [|c s IH]; cbn; [done|]. intros [Hc Hs]%andb_true_iff. rewrite Hq by done. auto. Qed.

Lemma lower_alnum_no_slash c cs : char_in cs "/" = false -> is_lower_alnum c || char_in cs c = true ->
  negb (code c =? 47) = true.
Proof.
  intros Hcs H. apply negb_true_iff, Z.eqb_neq. intros E.
  assert (c = "/"%char) as -> 
    by (unfold code in E; rewrite <-(ascii_N_embedding c); replace (N_of_ascii c) with 47%N by lia; reflexivity).
  change (is_lower_alnum "/") with false in H. cbn [orb] in H. congruence.
Qed.

Lemma segment_no_slash s : is_repository_segment s = true -> no_slash s.
Proof.
  destruct s as [|c s]; [done|]. cbn [is_repository_segment]. intros [[Hc Hs]%andb_true_iff _]%andb_true_iff.
  unfold no_slash. cbn [str_forall]. apply andb_true_iff. split.
  - apply (lower_alnum_no_slash c []); [done|]. by rewrite Hc.
  - eapply str_forall_weaken; [|exact Hs]. intros d. by apply lower_alnum_no_slash.
Qed.

Lemma hostname_no_slash s : is_hostname s = true -> no_slash s.
Proof.
  intros [_ H]%andb_true_iff. eapply str_forall_weaken; [|exact H]. intros d. by apply lower_alnum_no_slash.
Qed.

(** The service names of GitHub never survive. *)
Definition service_free (host : string) : bool :=
  negb (ends_with_str ".github.com" host) && negb (ends_with_str ".githubusercontent.com" host).

Lemma canonical_host_inv host parts host' parts' : canonical_host host parts = Ok (host', parts') -> parts <> [] ->
  service_free host' = true /\ parts' <> [].
Proof.
  unfold canonical_host. intros H Hp. case_bool_decide; [|case_bool_decide].
  - apply raise_ok in H as [Hl E]. injection E as <- <-. by destruct parts.
  - apply raise_ok in H as [Hl E]. injection E as <- <-. by destruct parts as [|? [|? ?]].
  - apply raise_ok in H as [H E]. injection E as <- <-. apply orb_false_iff in H as [Hg Hu]. unfold service_free.
    by rewrite Hg, Hu.
Qed.

Lemma map_last_last f parts : last (map_last f parts) = f <$> last parts.
Proof. unfold map_last. destruct (last parts); [|done]. by rewrite last_snoc. Qed.

Lemma identity_form T repository identity : normalize_repository_identity T repository = Ok identity ->
  exists host parts name,
    split_slash identity = (host ++ parts)%list
    /\ (host = [] \/ exists h, host = [h] /\ is_hostname h = true /\ service_free h = true
          /\ (h = "github.com" -> length parts = 2%nat))
    /\ Forall (fun p => is_repository_segment p = true) parts
    /\ last parts = Some name /\ ends_with_str ".git" name = false
    /\ normalize_repository_family T repository = Ok name.
Proof.
  intros H. unfold normalize_repository_family. rewrite H. cbn [bind_result]. unfold normalize_repository_identity in H.
  apply bind_ok in H as (text & _ & H). apply raise_ok in H as [_ H]. apply bind_ok in H as ([host0 path] & _ & H).
  apply raise_ok in H as [Hne%bool_decide_eq_false H]. apply bind_ok in H as ([host parts0] & Hc & H).
  set (parts := map_last (fun p => drop_git (String.length p) p) parts0) in H.
  apply raise_ok in H as [_ H]. apply raise_ok in H as [Hgh H]. apply raise_ok in H as [Hseg H].
  apply raise_ok in H as [Hhost H]. apply ok_inj in H as <-. apply canonical_host_inv in Hc as [Hc Hne0]; [|exact Hne].
  apply negb_false_iff in Hseg. rewrite forallb_forall in Hseg.
  assert (Hlast : exists name, last parts = Some name /\ ends_with_str ".git" name = false).
  { unfold parts. rewrite map_last_last. destruct (last parts0) as [p|] eqn:E; [|by apply last_None in E].
    eexists. split; [reflexivity|]. by apply drop_git_done. }
  destruct Hlast as (name & Hl & Hgit).
  assert (Hp : Forall (fun p => is_repository_segment p = true) parts)
    by (apply Forall_forall; intros p Hp; by apply Hseg, list_elem_of_In).
  assert (Hns : Forall no_slash parts) by (eapply Forall_impl; [exact Hp|]; apply segment_no_slash).
  assert (Hne2 : parts <> []) by by intros ->.
  assert (Hd : forall hs, last (hs ++ parts)%list = Some name)
    by (intros hs; by rewrite last_app, Hl).
  destruct (bool_decide (host = "")) eqn:Eh.
  - exists [], parts, name. rewrite split_slash_concat by done. split_and!; try done; [by left|]. by rewrite Hl.
  - apply andb_false_iff in Hhost as [Hhost|Hhost]; [apply bool_decide_eq_false in Hhost, Eh; by destruct Hhost|].
    apply negb_false_iff in Hhost. exists [host], parts, name.
    rewrite split_slash_concat by (done || by constructor; [apply hostname_no_slash|]).
    split_and!; try done; [|change (host :: parts) with ([host] ++ parts)%list; by rewrite Hd]. right. exists host. split_and!; try done.
    intros ->. apply andb_false_iff in Hgh as [Hgh|Hgh]; [by apply bool_decide_eq_false in Hgh|].
    by apply negb_false_iff, Nat.eqb_eq in Hgh.
Qed.

Lemma family_segment T repository family :
  normalize_repository_family T repository = Ok family -> is_repository_segment family = true.
Proof.
  intros H. pose proof H as H'. apply bind_ok in H' as (identity & Hi & _).
  apply identity_form in Hi as (host & parts & name & _ & _ & Hp & Hl & _ & E). rewrite E in H. apply ok_inj in H as ->.
  rewrite Forall_forall in Hp. apply Hp. apply last_Some in Hl as [l ->]. apply elem_of_app. right. left.
Qed.

(** An accepted repository identity is in canonical form: after an optional host it
    is a path of lower-case ASCII segments, on [github.com] exactly an owner and a name;
    the host is never a service name of GitHub; the last segment, which is what
    [normalize_repository_family] returns, carries no [.git] suffix. *)
Theorem repository_identity_canonical T repository :
  match normalize_repository_identity T repository with
  | Ok identity =>
      exists host parts name,
        split_slash identity = (host ++ parts)%list
        /\ (host = [] \/ exists h, host = [h] /\ is_hostname h = true /\ service_free h = true
              /\ (h = "github.com" -> length parts = 2%nat))
        /\ Forall (fun p => is_repository_segment p = true) parts
        /\ last parts = Some name /\ ends_with_str ".git" name = false
        /\ normalize_repository_family T repository = Ok name
  | Err _ => True
  end.
Proof. destruct (normalize_repository_identity T repository) eqn:H; [|done]. by apply identity_form. Qed.

(** ** A concrete text library *)
(** On ASCII text: lower-casing, and URLs of a scheme, a host and a path. *)
Definition ascii_lower (c : ascii) : ascii :=
  let n := nat_of_ascii c in if ((65 <=? n) && (n <=? 90))%nat then ascii_of_nat (n + 32) else c.
Fixpoint lower (s : string) : string :=
  match s with EmptyString => EmptyString | String c s => String (ascii_lower c) (lower s) end.
Definition ascii_split_url (s : string) : result string SplitUrl :=
  let '(scheme, rest) := split_first ":" s in
  let rest := remove_prefix "//" (default "" rest) in
  let '(host, path) := split_first "/" rest in
  Ok {| url_scheme := scheme; url_hostname := Some host; url_path := default "" path |}.
Definition ascii_text : TextOps :=
  {| nfkc := id; casefold := lower; strip := id; urlsplit := ascii_split_url; unquote := id |}.

(** Four spellings of one repository, and a service URL that names none. *)
Example spellings_agree :
  (normalize_repository_identity ascii_text <$>
     ["Foo/Bar.git"; "git@github.com:foo/bar"; "https://www.GitHub.com/foo/bar.git.git";
      "https://raw.githubusercontent.com/foo/bar/main/x.c"])
  = replicate 4 (Ok "github.com/foo/bar")
  /\ normalize_repository_identity ascii_text "https://gist.github.com/foo/bar"
     = Err "unsupported GitHub service URL for repository provenance".
Proof. by vm_compute. Qed.

End Repository.
