(* ===== verification/Lexer.v ===== *)
(** * The C tokenizer of the contamination audit ([tokenize_c] of [src/bpe/corpus.py])

    Comment stripping and the token pattern.  A [str] is the list of its characters,
    each the string of its UTF-8 bytes.  The alternatives of the pattern never have to
    give back what they matched, so each is a function to the length of its match.  The
    table of Unicode decimal digits, which [\d] consults, is a parameter. *)
From Stdlib Require Import ZArith String Ascii Lia.
From stdpp Require Import base tactics list strings.
From S2P Require Import Prelude Json Models Text Submission.
Local Open Scope string_scope.
Local Open Scope Z_scope.

Module Lexer.
Import Json Models Text Submission.

(** ** Characters *)
Definition continues (c : ascii) : bool := (128 <=? code c) && (code c <=? 191).

(** The characters of a text: a byte that does not continue one starts one. *)
Fixpoint chars (s : string) : list string :=
  match s with
  | EmptyString => []
  | String c s =>
      match chars s with
      | (String d _ as w) :: ws => if continues d then String c w :: ws else String c "" :: w :: ws
      | ws => String c "" :: ws
      end
  end.

Definition join (l : list string) : string := String.concat "" l.

Definition one_of (s : string) (w : string) : bool := bool_decide (w ∈ chars s).
Definition newline : string := String "010" "".
Definition return_ : string := String "013" "".
Definition backslash : string := "\".
Definition dquote : string := String "034" "".
Definition squote : string := "'".

(** ** [_strip_c_comments] *)
(** [source.replace("\\\r\n", "").replace("\\\n", "")] *)
Fixpoint splice_crlf (l : list string) : list string :=
  match l with
  | a :: ((b :: c :: rest) as tl) =>
      if bool_decide ((a, b, c) = (backslash, return_, newline)) then splice_crlf rest else a :: splice_crlf tl
  | a :: tl => a :: splice_crlf tl
  | [] => []
  end.
Fixpoint splice_lf (l : list string) : list string :=
  match l with
  | a :: ((b :: rest) as tl) =>
      if bool_decide ((a, b) = (backslash, newline)) then splice_lf rest else a :: splice_lf tl
  | [a] => [a]
  | [] => []
  end.

(** Where the loop stands: in code, in a literal closed by [q], in a line comment or in a
    block comment. *)
Inductive mode := Code | Quoted (q : string) | LineComment | BlockComment.

Definition emit (w : string) (r : result string (list string)) : result string (list string) :=
  let* l := r in Ok (w :: l).

Fixpoint strip_c (m : mode) (l : list string) : result string (list string) :=
  match m, l with
  | Code, [] => Ok []
  | Quoted _, [] => Err "unterminated C string or character literal"
  | LineComment, [] => Ok [" "]
  | BlockComment, [] => Err "unterminated C block comment"
  | Quoted q, c :: tl =>
      if bool_decide (c = backslash) then
        match tl with
        | d :: rest => emit c (emit d (strip_c m rest))
        | [] => emit c (strip_c m tl)
        end
      else if bool_decide (c = q) then emit c (strip_c Code tl) else emit c (strip_c m tl)
  | LineComment, c :: tl => if bool_decide (c = newline) then emit c (strip_c Code tl) else strip_c m tl
  | BlockComment, c :: tl =>
      match tl with
      | d :: rest => if bool_decide ((c, d) = ("*", "/")) then emit " " (strip_c Code rest) else strip_c m tl
      | [] => strip_c m tl
      end
  | Code, c :: tl =>
      if bool_decide (c = dquote) || bool_decide (c = squote) then emit c (strip_c (Quoted c) tl)
      else
        match tl with
        | d :: rest =>
            if bool_decide ((c, d) = ("/", "/")) then strip_c LineComment rest
            else if bool_decide ((c, d) = ("/", "*")) then strip_c BlockComment rest
            else emit c (strip_c Code tl)
        | [] => emit c (strip_c Code tl)
        end
  end.

Definition strip_c_comments (source : list string) : result string (list string) :=
  strip_c Code (splice_lf (splice_crlf source)).

(** ** [_C_TOKEN] *)
Section Pattern.
(** Characters beyond ASCII that [\d] matches. *)
Context (decimal : string -> bool).

Definition digit (w : string) : bool := one_of "0123456789" w || decimal w.
Definition hex_digit (w : string) : bool := one_of "0123456789ABCDEFabcdef" w.
Definition ident_start (w : string) : bool := one_of "ABCDEFGHIJKLMNOPQRSTUVWXYZabcdefghijklmnopqrstuvwxyz_" w.
Definition ident_char (w : string) : bool := ident_start w || one_of "0123456789" w.

(** The length of the longest run of a class. *)
Fixpoint run (p : string -> bool) (l : list string) : nat :=
  match l with w :: l => if p w then S (run p l) else 0%nat | [] => 0%nat end.

Fixpoint starts (p l : list string) : bool :=
  match p, l with
  | [], _ => true
  | a :: p, b :: l => bool_decide (a = b) && starts p l
  | _, [] => false
  end.

(** [(?:\\.|[^q\\])*q]: the rest of a literal, with its closing quote. *)
Fixpoint literal_rest (q : string) (l : list string) : option nat :=
  match l with
  | [] => None
  | c :: tl =>
      if bool_decide (c = backslash) then
        match tl with
        | d :: rest => if bool_decide (d = newline) then None else (fun n => S (S n)) <$> literal_rest q rest
        | [] => None
        end
      else if bool_decide (c = q) then Some 1%nat else S <$> literal_rest q tl
  end.

Definition match_literal (prefixes : list string) (q : string) (l : list string) : option nat :=
  first_some (fun p =>
      let p := (chars p ++ [q])%list in
      if starts p l then (fun n => (length p + n)%nat) <$> literal_rest q (drop (length p) l) else None) prefixes.

Definition match_identifier (l : list string) : option nat :=
  match l with w :: tl => if ident_start w then Some (S (run ident_char tl)) else None | [] => None end.

(** [0[xX][0-9A-Fa-f]+|0[bB][01]+] *)
Definition match_radix (l : list string) : option nat :=
  match l with
  | z :: x :: tl =>
      if bool_decide (z = "0") then
        let n := if one_of "xX" x then run hex_digit tl else if one_of "bB" x then run (one_of "01") tl else 0%nat in
        if (n =? 0)%nat then None else Some (2 + n)%nat
      else None
  | _ => None
  end.

(** [\d+\.\d*|\.\d+|\d+] *)
Definition match_mantissa (l : list string) : option nat :=
  let n := run digit l in
  match drop n l with
  | "." :: tl =>
      let m := run digit tl in
      if (n =? 0)%nat && (m =? 0)%nat then None else Some (n + 1 + m)%nat
  | _ => if (n =? 0)%nat then None else Some n
  end.

(** [(?:[eEpP][+-]?\d+)?] *)
Definition exponent (l : list string) : nat :=
  match l with
  | e :: tl =>
      if one_of "eEpP" e then
        let sign := match tl with s :: _ => if one_of "+-" s then 1%nat else 0%nat | [] => 0%nat end in
        let n := run digit (drop sign tl) in
        if (n =? 0)%nat then 0%nat else (1 + sign + n)%nat
      else 0%nat
  | [] => 0%nat
  end.

Definition match_number (l : list string) : option nat :=
  let base := match match_radix l with
              | Some n => Some n
              | None => (fun n => (n + exponent (drop n l))%nat) <$> match_mantissa l
              end in
  (fun n => (n + run (one_of "uUlLfF") (drop n l))%nat) <$> base.

Definition OPERATORS : list string :=
  [">>="; "<<="; "..."; "->"; "++"; "--"; "&&"; "||"; "<="; ">="; "=="; "!="; "<<"; ">>"; "+="; "-="; "*="; "/=";
   "%="; "&="; "|="; "^="; "##"].
Definition match_operator (l : list string) : option nat :=
  first_some (fun op => if starts (chars op) l then Some (length (chars op)) else None) OPERATORS.

(** [[^\s]] *)
Definition match_visible (l : list string) : option nat :=
  match l with w :: _ => if is_white w then None else Some 1%nat | [] => None end.

Definition match_token (l : list string) : option nat :=
  first_some (fun f => f l)
    [match_literal ["u8"; "u"; "U"; "L"; ""] dquote; match_literal ["u"; "U"; "L"; ""] squote; match_identifier;
     match_number; match_operator; match_visible].

(** [_C_TOKEN.finditer]; every turn consumes a character. *)
Fixpoint find_tokens (fuel : nat) (l : list string) : list string :=
  match fuel, l with
  | S fuel, _ :: tl =>
      match match_token l with
      | Some n => join (take n l) :: find_tokens fuel (drop n l)
      | None => find_tokens fuel tl
      end
  | _, _ => []
  end.

Definition BYTE_ORDER_MARK : string := String "239" (String "187" (String "191" "")).

(** [tokenize_c] *)
Definition tokenize_c (content : string) : result string (list string) :=
  match decode_utf8 content with
  | None => Err "C source is not valid UTF-8"
  | Some source =>
      let source := match chars source with w :: tl => if bool_decide (w = BYTE_ORDER_MARK) then tl else w :: tl | [] => [] end in
      let* normalized := strip_c_comments source in
      Ok (find_tokens (length normalized) normalized)
  end.
End Pattern.

(** ** Guarantees *)
(** A text cut into pieces that the token pattern matches where they stand, with nothing
    but white space between them. *)
Inductive covers (decimal : string -> bool) : list string -> list (list string) -> Prop :=
| covers_end : covers decimal [] []
| covers_white w l ps : is_white w = true -> covers decimal l ps -> covers decimal (w :: l) ps
| covers_piece p l ps : p <> [] -> match_token decimal (p ++ l)%list = Some (length p) -> covers decimal l ps ->
    covers decimal (p ++ l)%list (p :: ps).

Lemma mantissa_positive decimal l n : match_mantissa decimal l = Some n -> (1 <= n)%nat.
Proof.
  unfold match_mantissa. intros H. repeat case_match; try done; simplify_eq; try lia;
    match goal with E : (_ =? 0)%nat = false |- _ => apply Nat.eqb_neq in E end; lia.
Qed.

Lemma token_positive decimal l n : match_token decimal l = Some n -> (1 <= n)%nat.
Proof.
  assert (Hlit : forall ps q, match_literal ps q l = Some n -> (1 <= n)%nat).
  { intros ps q (p & _ & H)%first_some_elem. cbv zeta in H. destruct (starts _ _); [|done].
    apply fmap_Some in H as (m & _ & ->). rewrite length_app. cbn. lia. }
  intros (f & Hf & E)%first_some_elem. repeat (apply elem_of_cons in Hf as [->|Hf]).
  - by eapply Hlit.
  - by eapply Hlit.
  - unfold match_identifier in E. repeat case_match; simplify_eq; lia.
  - unfold match_number in E. apply fmap_Some in E as (m & Em & ->).
    enough (1 <= m)%nat by lia. destruct (match_radix l) as [k|] eqn:Er.
    + injection Em as <-. unfold match_radix in Er. repeat case_match; simplify_eq; lia.
    + apply fmap_Some in Em as (k & Ek%mantissa_positive & ->). lia.
  - unfold match_operator in E. apply first_some_elem in E as (op & Hop & E). destruct (starts _ _); [|done].
    injection E as <-. clear Hlit. revert op Hop. apply Forall_forall. apply (bool_decide_unpack _). by vm_compute.
  - unfold match_visible in E. repeat case_match; simplify_eq; lia.
  - by apply not_elem_of_nil in Hf.
Qed.

(** A match lies within the text. *)
Lemma run_bounded p l : (run p l <= length l)%nat.
Proof. induction l as [|w l IH]; cbn; [done|]. destruct (p w); cbn; lia. Qed.

Lemma starts_bounded p l : starts p l = true -> (length p <= length l)%nat.
Proof. revert l. induction p as [|a p IH]; intros [|b l]; cbn; try lia; try done. intros [_ H%IH]%andb_true_iff. lia. Qed.

Lemma literal_bounded q l n : literal_rest q l = Some n -> (n <= length l)%nat.
Proof.
  remember (length l) as k eqn:Ek. revert l n Ek. induction k as [k IH] using (well_founded_induction lt_wf).
  intros [|c tl] n -> H; cbn [literal_rest] in H; [done|]. case_bool_decide.
  - destruct tl as [|d rest]; [done|]. case_bool_decide; [done|]. apply fmap_Some in H as (m & Hm & ->).
    apply (IH (length rest) ltac:(cbn; lia) _ _ eq_refl) in Hm. cbn. lia.
  - case_bool_decide; [injection H as <-; cbn; lia|]. apply fmap_Some in H as (m & Hm & ->).
    apply (IH (length tl) ltac:(cbn; lia) _ _ eq_refl) in Hm. cbn. lia.
Qed.

Lemma exponent_bounded decimal l : (exponent decimal l <= length l)%nat.
Proof.
  unfold exponent. destruct l as [|e tl]; [done|]. destruct (one_of _ e); [|lia].
  set (sign := match tl with s :: _ => _ | [] => _ end).
  assert (Hs : (sign <= length tl)%nat) by (subst sign; destruct tl; [done|]; cbn; case_match; lia).
  pose proof (run_bounded (digit decimal) (drop sign tl)) as Hr. rewrite length_drop in Hr. case_match; cbn; lia.
Qed.

Lemma mantissa_bounded decimal l n : match_mantissa decimal l = Some n -> (n <= length l)%nat.
Proof.
  unfold match_mantissa. pose proof (run_bounded (digit decimal) l) as Hr. set (k := run (digit decimal) l) in *.
  assert (Hn : forall (b : bool), (if b then None else Some k) = Some n -> (n <= length l)%nat) by (intros []; [done|]; intros [= <-]; done).
  assert (Hd : forall d tl, drop k l = d :: tl -> (k + 1 + length tl <= length l)%nat)
    by (intros d tl E%(f_equal length); rewrite length_drop in E; cbn in E; lia).
  destruct (drop k l) as [|d tl]; [apply Hn|]. specialize (Hd d tl eq_refl). pose proof (run_bounded (digit decimal) tl).
  intros H'. repeat case_match; simplify_eq; try lia.
Qed.

Lemma token_bounded decimal l n : match_token decimal l = Some n -> (n <= length l)%nat.
Proof.
  assert (Hlit : forall ps q, match_literal ps q l = Some n -> (n <= length l)%nat).
  { intros ps q (p & _ & H)%first_some_elem. cbv zeta in H. destruct (starts _ l) eqn:Es; [|done].
    apply starts_bounded in Es. apply fmap_Some in H as (m & Hm%literal_bounded & ->). rewrite length_drop in Hm. lia. }
  intros (f & Hf & E)%first_some_elem. repeat (apply elem_of_cons in Hf as [->|Hf]).
  - by eapply Hlit.
  - by eapply Hlit.
  - unfold match_identifier in E. destruct l as [|w tl]; [done|]. destruct (ident_start w); [|done]. injection E as <-.
    pose proof (run_bounded ident_char tl). cbn. lia.
  - unfold match_number in E. apply fmap_Some in E as (m & Em & ->).
    enough (m <= length l)%nat as Hm.
    { pose proof (run_bounded (one_of "uUlLfF") (drop m l)) as Hr. rewrite length_drop in Hr. lia. }
    destruct (match_radix l) as [k|] eqn:Er.
    + injection Em as <-. unfold match_radix in Er. destruct l as [|z [|x tl]]; try done. case_bool_decide; [|done].
      pose proof (run_bounded hex_digit tl). pose proof (run_bounded (one_of "01") tl).
      repeat case_match; simplify_eq; cbn; lia.
    + apply fmap_Some in Em as (k & Ek%mantissa_bounded & ->).
      pose proof (exponent_bounded decimal (drop k l)) as He. rewrite length_drop in He. lia.
  - unfold match_operator in E. apply first_some_elem in E as (op & Hop & E). destruct (starts _ _) eqn:Es; [|done].
    injection E as <-. by apply starts_bounded in Es.
  - unfold match_visible in E. destruct l; [done|]. repeat case_match; simplify_eq; cbn; lia.
  - by apply not_elem_of_nil in Hf.
Qed.

(** What no alternative matches is white space. *)
Lemma no_token_white decimal w l : match_token decimal (w :: l) = None -> is_white w = true.
Proof.
  destruct (is_white w) eqn:Ew; [done|]. assert (Hv : match_visible (w :: l) = Some 1%nat) by (cbn; by rewrite Ew).
  unfold match_token. cbn [first_some]. rewrite Hv. by repeat case_match.
Qed.

Lemma find_tokens_covers decimal fuel l : (length l <= fuel)%nat ->
  exists ps, covers decimal l ps /\ find_tokens decimal fuel l = join <$> ps.
Proof.
  revert l. induction fuel as [|fuel IH]; intros l Hl.
  { destruct l; [|cbn in Hl; lia]. exists []. split; [constructor|done]. }
  destruct l as [|w l]; [exists []; split; [constructor|done]|]. cbn [find_tokens].
  destruct (match_token decimal (w :: l)) as [n|] eqn:E.
  - pose proof (token_positive _ _ _ E) as Hn.
    destruct (IH (drop n (w :: l))) as (ps & Hps & Et); [rewrite length_drop; cbn in *; lia|].
    exists (take n (w :: l) :: ps). rewrite Et. split; [|done]. pose proof (token_bounded _ _ _ E) as Hb.
    rewrite <-(take_drop n (w :: l)) at 1.
    constructor; [by destruct n; [lia|]| |done]. by rewrite take_drop, length_take, Nat.min_l by lia.
  - destruct (IH l) as (ps & Hps & Et); [cbn in Hl; lia|]. exists ps. split; [|done].
    constructor; [by eapply no_token_white|done].
Qed.

(** ** Stripped text *)
Definition blank (w : option string) : Prop := w = Some " " \/ w = Some newline.

Lemma emit_ok w r out : emit w r = Ok out -> exists o, r = Ok o /\ out = w :: o.
Proof. unfold emit. destruct r as [o|]; [|done]. intros [= <-]. eauto. Qed.

Lemma code_char c o : bool_decide (c = dquote) || bool_decide (c = squote) = false ->
  (c = "/" -> head o <> Some "/" /\ head o <> Some "*") -> strip_c Code o = Ok o -> strip_c Code (c :: o) = Ok (c :: o).
Proof.
  intros Hq Hs Ho. cbn [strip_c]. rewrite Hq. destruct o as [|d rest]; [done|].
  rewrite !bool_decide_eq_false_2; [by rewrite Ho|..]; intros [= -> ->]; by destruct Hs.
Qed.

(** What stripping leaves holds no comment: stripping it again changes nothing. *)
Lemma strip_stable m l out : strip_c m l = Ok out ->
  match m with
  | Code => strip_c Code out = Ok out /\ (head out = head l \/ blank (head out))
  | Quoted q => strip_c (Quoted q) out = Ok out
  | LineComment | BlockComment => strip_c Code out = Ok out /\ blank (head out)
  end.
Proof.
  remember (length l) as n eqn:En. revert m l out En.
  induction n as [n IH] using (well_founded_induction lt_wf). intros m l out -> H.
  assert (Hb : forall w o, blank (Some w) -> strip_c Code o = Ok o -> strip_c Code (w :: o) = Ok (w :: o))
    by (intros w o [[= ->]|[= ->]] Ho; apply code_char; done).
  destruct m as [|q| |], l as [|c tl]; cbn [strip_c] in H; try (injection H as <-; by (split; [|(left; done) || (right; done)])); try done.
  - destruct (bool_decide (c = dquote) || bool_decide (c = squote)) eqn:Eq.
    { apply emit_ok in H as (o & H & ->). apply (IH (length tl) ltac:(cbn; lia) (Quoted c) _ _ eq_refl) in H.
      cbn [strip_c]. rewrite Eq, H. split; [done|by left]. }
    destruct tl as [|d rest]; [injection H as <-; split; [by apply code_char|by left]|].
    case_bool_decide as E1; [destruct (IH (length rest) ltac:(cbn; lia) LineComment _ _ eq_refl H); by split; [|right]|].
    case_bool_decide as E2; [destruct (IH (length rest) ltac:(cbn; lia) BlockComment _ _ eq_refl H); by split; [|right]|].
    apply emit_ok in H as (o & H & ->).
    destruct (IH (length (d :: rest)) ltac:(cbn; lia) Code _ _ eq_refl H) as [Ho Hh]. split; [|by left].
    apply code_char; [done| |done]. intros ->. cbn in Hh. destruct Hh as [->|[->| ->]]; split; naive_solver.
  - destruct (bool_decide (c = backslash)) eqn:E1.
    { destruct tl as [|d rest]; [done|]. apply emit_ok in H as (o' & H & ->). apply emit_ok in H as (o & H & ->).
      apply (IH (length rest) ltac:(cbn; lia) (Quoted q) _ _ eq_refl) in H. cbn [strip_c]. by rewrite E1, H. }
    destruct (bool_decide (c = q)) eqn:E2; apply emit_ok in H as (o & H & ->); cbn [strip_c]; rewrite E1, E2.
    + apply (IH (length tl) ltac:(cbn; lia) Code _ _ eq_refl) in H as [H _]. by rewrite H.
    + apply (IH (length tl) ltac:(cbn; lia) (Quoted q) _ _ eq_refl) in H. by rewrite H.
  - case_bool_decide as E; [subst c|by apply (IH (length tl) ltac:(cbn; lia) LineComment _ _ eq_refl) in H].
    apply emit_ok in H as (o & H & ->). apply (IH (length tl) ltac:(cbn; lia) Code _ _ eq_refl) in H as [H _].
    split; [apply Hb; [by right|done]|by right].
  - destruct tl as [|d rest]; [done|].
    case_bool_decide as E; [|by apply (IH (length (d :: rest)) ltac:(cbn; lia) BlockComment _ _ eq_refl) in H].
    apply emit_ok in H as (o & H & ->). apply (IH (length rest) ltac:(cbn; lia) Code _ _ eq_refl) in H as [H _].
    split; [apply Hb; [by left|done]|by left].
Qed.

(** ** Removing line splices and comments, specified without the loops *)
Fixpoint occurs (sep l : list string) : bool :=
  starts sep l || match l with _ :: tl => occurs sep tl | [] => false end.

(** [out] is what is left of [l] when its occurrences of [sep] are taken out, once. *)
Definition removes (sep l out : list string) : Prop :=
  exists first others, l = (first ++ concat (app sep <$> others))%list /\ Forall (fun p => occurs sep p = false) (first :: others)
    /\ out = (first ++ concat others)%list.

Lemma starts_app p l k : starts p l = true -> starts p (l ++ k)%list = true.
Proof. revert l. induction p as [|a p IH]; intros [|b l]; cbn; try done. rewrite !andb_true_iff. intros [-> ?]. eauto. Qed.

Lemma removes_nil sep : sep <> [] -> removes sep [] [].
Proof. intros H. exists [], []. split_and!; try done. constructor; [|constructor]. by destruct sep. Qed.

Lemma removes_sep sep l out : sep <> [] -> removes sep l out -> removes sep (sep ++ l)%list out.
Proof.
  intros H (first & others & -> & Hf & ->). exists [], (first :: others). split_and!; try done.
  - cbn. by rewrite app_assoc.
  - constructor; [|done]. by destruct sep.
Qed.

Lemma removes_cons sep a l out : starts sep (a :: l) = false -> removes sep l out -> removes sep (a :: l) (a :: out).
Proof.
  intros H (first & others & -> & Hf & ->). exists (a :: first), others. split_and!; try done.
  apply Forall_cons in Hf as [Hf Ho]. constructor; [|done]. cbn [occurs]. rewrite Hf, orb_false_r.
  destruct (starts sep (a :: first)) eqn:E; [|done]. apply (starts_app _ _ (concat (app sep <$> others))) in E.
  cbn in *. congruence.
Qed.

Lemma splice_crlf_removes l : removes [backslash; return_; newline] l (splice_crlf l).
Proof.
  remember (length l) as n eqn:En. revert l En. induction n as [n IH] using (well_founded_induction lt_wf). intros l ->.
  assert (IH' : forall k, (length k < length l)%nat -> removes [backslash; return_; newline] k (splice_crlf k)) by eauto. clear IH.
  destruct l as [|a [|b [|c rest]]]; cbn [splice_crlf].
  - by apply removes_nil.
  - apply removes_cons; [cbn; by rewrite andb_false_r|]. by apply removes_nil.
  - apply removes_cons; [cbn; by rewrite !andb_false_r|]. apply (IH' [b]). cbn. lia.
  - case_bool_decide as E.
    + injection E as -> -> ->. apply (removes_sep [backslash; return_; newline]); [done|]. apply IH'. cbn. lia.
    + apply removes_cons; [|apply (IH' (b :: c :: rest)); cbn; lia]. cbn.
      repeat case_bool_decide; subst; done.
Qed.

Lemma splice_lf_removes l : removes [backslash; newline] l (splice_lf l).
Proof.
  remember (length l) as n eqn:En. revert l En. induction n as [n IH] using (well_founded_induction lt_wf). intros l ->.
  assert (IH' : forall k, (length k < length l)%nat -> removes [backslash; newline] k (splice_lf k)) by eauto. clear IH.
  destruct l as [|a [|b rest]]; cbn [splice_lf].
  - by apply removes_nil.
  - apply removes_cons; [cbn; by rewrite andb_false_r|]. by apply removes_nil.
  - case_bool_decide as E.
    + injection E as -> ->. apply (removes_sep [backslash; newline]); [done|]. apply IH'. cbn. lia.
    + apply removes_cons; [|apply (IH' (b :: rest)); cbn; lia]. cbn.
      repeat case_bool_decide; subst; done.
Qed.

Definition quote (q : string) : Prop := q = dquote \/ q = squote.

(** The inside of a literal closed by [q]. *)
Inductive literal_body (q : string) : list string -> Prop :=
| body_end : literal_body q []
| body_escape d l : literal_body q l -> literal_body q (backslash :: d :: l)
| body_char c l : c <> q -> c <> backslash -> literal_body q l -> literal_body q (c :: l).

(** [out] is the text [l] with each comment replaced by a blank and everything else as it
    was; a comment does not start inside a literal. *)
Inductive uncommented : list string -> list string -> Prop :=
| un_end : uncommented [] []
| un_char c l out : ~ quote c -> ~ (c = "/" /\ (head l = Some "/" \/ head l = Some "*")) -> uncommented l out ->
    uncommented (c :: l) (c :: out)
| un_literal q body l out : quote q -> literal_body q body -> uncommented l out ->
    uncommented (q :: body ++ q :: l)%list (q :: body ++ q :: out)%list
| un_line text l out : newline ∉ text -> uncommented l out ->
    uncommented ("/" :: "/" :: text ++ newline :: l)%list (newline :: out)
| un_last_line text : newline ∉ text -> uncommented ("/" :: "/" :: text) [" "]
| un_block text l out : occurs ["*"; "/"] text = false -> uncommented l out ->
    uncommented ("/" :: "*" :: text ++ "*" :: "/" :: l)%list (" " :: out).

Lemma quote_iff c : bool_decide (c = dquote) || bool_decide (c = squote) = true <-> quote c.
Proof. rewrite orb_true_iff, !bool_decide_eq_true. done. Qed.

(** What the loop returns from each of its modes. *)
Lemma strip_sound m l out : strip_c m l = Ok out ->
  match m with
  | Code => uncommented l out
  | Quoted q => quote q -> exists body l' out', literal_body q body /\ l = (body ++ q :: l')%list
                  /\ out = (body ++ q :: out')%list /\ uncommented l' out'
  | LineComment => (exists text l' out', (newline ∉ text) /\ l = (text ++ newline :: l')%list /\ out = newline :: out'
                      /\ uncommented l' out') \/ ((newline ∉ l) /\ out = [" "])
  | BlockComment => exists text l' out', occurs ["*"; "/"] text = false /\ l = (text ++ "*" :: "/" :: l')%list
                      /\ out = " " :: out' /\ uncommented l' out'
  end.
Proof.
  remember (length l) as n eqn:En. revert m l out En.
  induction n as [n IH] using (well_founded_induction lt_wf). intros m l out -> H.
  destruct m as [|q| |], l as [|c tl]; cbn [strip_c] in H; try done.
  - injection H as <-. constructor.
  - destruct (bool_decide (c = dquote) || bool_decide (c = squote)) eqn:Eq.
    { apply quote_iff in Eq. apply emit_ok in H as (o & H & ->).
      destruct (IH (length tl) ltac:(cbn; lia) (Quoted c) _ _ eq_refl H Eq) as (body & l' & o' & Hb & -> & -> & Hu).
      by constructor. }
    assert (Hq : ~ quote c) by (by rewrite <-quote_iff, Eq).
    destruct tl as [|d rest].
    { injection H as <-. constructor; [done| |constructor]. by intros [_ [|]]. }
    case_bool_decide as E1.
    { injection E1 as -> ->. destruct (IH (length rest) ltac:(cbn; lia) LineComment _ _ eq_refl H)
        as [(text & l' & o' & Ht & -> & -> & Hu)|[Ht ->]]; by constructor. }
    case_bool_decide as E2.
    { injection E2 as -> ->. destruct (IH (length rest) ltac:(cbn; lia) BlockComment _ _ eq_refl H)
        as (text & l' & o' & Ht & -> & -> & Hu); by constructor. }
    apply emit_ok in H as (o & H & ->). constructor; [done| |].
    + intros [-> [[= ->]|[= ->]]]; done.
    + exact (IH (length (d :: rest)) ltac:(cbn; lia) Code _ _ eq_refl H).
  - intros Hq. case_bool_decide as E1.
    { subst c. destruct tl as [|d rest]; [done|]. apply emit_ok in H as (o' & H & ->). apply emit_ok in H as (o & H & ->).
      destruct (IH (length rest) ltac:(cbn; lia) (Quoted q) _ _ eq_refl H Hq) as (body & l' & o' & Hb & -> & -> & Hu).
      exists (backslash :: d :: body), l', o'. split_and!; try done. by constructor. }
    case_bool_decide as E2; apply emit_ok in H as (o & H & ->).
    + subst c. exists [], tl, o. split_and!; try done; [constructor|].
      exact (IH (length tl) ltac:(cbn; lia) Code _ _ eq_refl H).
    + destruct (IH (length tl) ltac:(cbn; lia) (Quoted q) _ _ eq_refl H Hq) as (body & l' & o' & Hb & -> & -> & Hu).
      exists (c :: body), l', o'. split_and!; try done. by constructor.
  - injection H as <-. right. split; [by intros ?%elem_of_nil|done].
  - case_bool_decide as E.
    + subst c. apply emit_ok in H as (o & H & ->). left. exists [], tl, o. split_and!; try done; [by intros ?%elem_of_nil|].
      exact (IH (length tl) ltac:(cbn; lia) Code _ _ eq_refl H).
    + destruct (IH (length tl) ltac:(cbn; lia) LineComment _ _ eq_refl H) as [(text & l' & o' & Ht & -> & -> & Hu)|[Ht ->]].
      * left. exists (c :: text), l', o'. split_and!; try done. by intros [<-|?]%elem_of_cons.
      * right. split; [by intros [<-|?]%elem_of_cons|done].
  - destruct tl as [|d rest]; [done|]. case_bool_decide as E.
    + injection E as -> ->. apply emit_ok in H as (o & H & ->). exists [], rest, o. split_and!; try done.
      exact (IH (length rest) ltac:(cbn; lia) Code _ _ eq_refl H).
    + destruct (IH (length (d :: rest)) ltac:(cbn; lia) BlockComment _ _ eq_refl H) as (text & l' & o' & Ht & Hl & -> & Hu).
      exists (c :: text), l', o'. split_and!; try done; [|by rewrite Hl]. cbn [occurs]. rewrite Ht, orb_false_r. cbn.
      destruct text as [|x text]; [by rewrite andb_false_r|]. injection Hl as -> _. cbn.
      repeat case_bool_decide; subst; done.
Qed.

Lemma strip_literal q body l out : quote q -> literal_body q body -> strip_c Code l = Ok out ->
  strip_c (Quoted q) (body ++ q :: l)%list = Ok (body ++ q :: out)%list.
Proof.
  intros Hq Hb Hl. induction Hb as [|d body _ IH|c body Hc Hc' _ IH]; cbn [app strip_c].
  - rewrite (bool_decide_eq_false_2 (q = backslash)), bool_decide_eq_true_2, Hl by (try done; by destruct Hq as [->| ->]). done.
  - rewrite bool_decide_eq_true_2 by done. by rewrite IH.
  - rewrite !bool_decide_eq_false_2 by done. by rewrite IH.
Qed.

Lemma strip_line text l : newline ∉ text -> strip_c LineComment (text ++ newline :: l)%list = emit newline (strip_c Code l).
Proof.
  induction text as [|c text IH]; intros H; cbn [app strip_c]; [by rewrite bool_decide_eq_true_2|].
  apply not_elem_of_cons in H as [Hc H]. rewrite bool_decide_eq_false_2 by congruence. by apply IH.
Qed.

Lemma strip_last_line text : newline ∉ text -> strip_c LineComment text = Ok [" "].
Proof.
  induction text as [|c text IH]; intros H; cbn [strip_c]; [done|].
  apply not_elem_of_cons in H as [Hc H]. rewrite bool_decide_eq_false_2 by congruence. by apply IH.
Qed.

Lemma strip_block text l : occurs ["*"; "/"] text = false ->
  strip_c BlockComment (text ++ "*" :: "/" :: l)%list = emit " " (strip_c Code l).
Proof.
  induction text as [|c text IH]; intros H; [done|]. cbn [occurs] in H. apply orb_false_iff in H as [H Ho]. cbn [app strip_c].
  assert (Hs : exists d rest, (text ++ "*" :: "/" :: l)%list = d :: rest /\ (c, d) <> ("*", "/")).
  { destruct text as [|d text]; do 2 eexists; (split; [reflexivity|]); [by intros [= _]|]. intros [= -> ->]. done. }
  destruct Hs as (d & rest & E & Hne). specialize (IH Ho). rewrite E in IH |- *. by rewrite bool_decide_eq_false_2.
Qed.

(** The loop computes exactly this relation. *)
Lemma strip_uncommented l out : strip_c Code l = Ok out <-> uncommented l out.
Proof.
  split; [apply (strip_sound Code)|]. induction 1 as [|c l out Hq Hs _ IH|q body l out Hq Hb _ IH|text l out Ht _ IH|text Ht|text l out Ht _ IH].
  - done.
  - cbn [strip_c]. replace (bool_decide _ || bool_decide _) with false by (symmetry; apply not_true_iff_false; by rewrite quote_iff).
    destruct l as [|d rest]; [by rewrite IH|]. rewrite !bool_decide_eq_false_2; [by rewrite IH|..];
      intros [= -> ->]; apply Hs; split; auto.
  - cbn [strip_c]. rewrite (proj2 (quote_iff q) Hq). by rewrite (strip_literal q body l out).
  - change (strip_c LineComment (text ++ newline :: l)%list = Ok (newline :: out)). by rewrite strip_line, IH.
  - exact (strip_last_line text Ht).
  - change (strip_c BlockComment (text ++ "*" :: "/" :: l)%list = Ok (" " :: out)). by rewrite strip_block, IH.
Qed.

(** The text that is tokenized: without its byte order mark. *)
Definition text_of (content : string) : option (list string) :=
  (fun source => match chars source with
                 | w :: tl => if bool_decide (w = BYTE_ORDER_MARK) then tl else w :: tl
                 | [] => []
                 end) <$> decode_utf8 content.

(** [spliced] is [source] with the line splices taken out, those before CR LF first. *)
Definition splices (source spliced : list string) : Prop :=
  exists folded, removes [backslash; return_; newline] source folded /\ removes [backslash; newline] folded spliced.

(** C28. The tokens of a source are its text.  [tokenize_c] succeeds exactly when the
    source is UTF-8 and, after one pass that takes out every backslash before CR LF and a
    second that takes out every backslash before LF, its literals and block comments are
    closed.  The normalized text is then the spliced text with every comment, and nothing
    else, replaced by one blank, and no comment is left in it; the tokens are consecutive
    non-empty pieces of it, each the match of the token pattern where it stands, with
    nothing but white space between, before and after them: the scan reaches the end and
    never skips a visible character. *)
Theorem tokens_are_the_text decimal content :
  match tokenize_c decimal content with
  | Ok tokens =>
      exists source spliced normalized pieces,
        text_of content = Some source /\ splices source spliced /\ uncommented spliced normalized
        /\ uncommented normalized normalized /\ covers decimal normalized pieces /\ tokens = join <$> pieces
  | Err _ =>
      text_of content = None
      \/ exists source spliced, text_of content = Some source /\ splices source spliced
           /\ forall normalized, ~ uncommented spliced normalized
  end.
Proof.
  unfold tokenize_c, text_of. destruct (decode_utf8 content) as [source|]; [|by left]. cbn [fmap option_fmap option_map].
  set (text := match chars source with [] => [] | _ :: _ => _ end).
  assert (Hs : splices text (splice_lf (splice_crlf text))).
  { exists (splice_crlf text). split; [apply splice_crlf_removes|apply splice_lf_removes]. }
  unfold strip_c_comments. destruct (strip_c Code (splice_lf (splice_crlf text))) as [normalized|e] eqn:E; cbn [bind_result].
  - destruct (find_tokens_covers decimal (length normalized) normalized (le_n _)) as (ps & Hps & Et).
    exists text, (splice_lf (splice_crlf text)), normalized, ps. split_and!; try done; [by apply strip_uncommented|].
    apply strip_uncommented. by destruct (strip_stable _ _ _ E).
  - right. exists text, (splice_lf (splice_crlf text)). split_and!; try done.
    intros normalized H%strip_uncommented. congruence.
Qed.

(** One pass of splicing can leave a new splice behind. *)
Example splice_once : splice_lf [backslash; backslash; newline; newline] = [backslash; newline].
Proof. reflexivity. Qed.

Example tokens_of_a_line : tokenize_c (fun _ => false)
  "int x_1 = 0x1Ful /* c */ + .5e-3f; a>>=b->c; s = L'\'' // end"
  = Ok ["int"; "x_1"; "="; "0x1Ful"; "+"; ".5e-3f"; ";"; "a"; ">>="; "b"; "->"; "c"; ";"; "s"; "="; "L'\''"].
Proof. by vm_compute. Qed.

End Lexer.
