(* ===== verification/Corpus.v ===== *)
(** * The contamination audit ([src/bpe/corpus.py])

    Manifests, policies, the fingerprints of scanned sources and [audit_corpus], the
    blocking static gate between a training corpus and a frozen benchmark.  Loading
    files is outside: a [LoadedCorpus] is a manifest with the contents of its sources.
    Messages are complete, since issues are sorted by them; the [repr] of an identifier
    is the identifier in single quotes, as none needs an escape. *)
From Stdlib Require Import ZArith QArith Qround String Ascii Lia.
From stdpp Require Import base tactics list strings.
From S2P Require Import Prelude Floats Sha256 Json Models Stats Job Admission Repository Lexer.
Local Open Scope string_scope.
Local Open Scope Z_scope.

Module Corpus.
Import Sha256 Json Models Stats Job Repository Lexer.

Definition MAX_FUZZY_COMPARISONS : Z := 1000000.
Definition DEFAULT_SOURCE_MAX_BYTES : Z := 16 * 1024 * 1024.
Definition HARD_DENIED_TRAINING_FAMILIES : list string := ["bpftime"; "cilium"; "xdp-tools"].
Definition EVALUATION_SPLITS : list string := ["development"; "calibration"; "validation"; "sealed_eval"; "benchmark"].
Definition CORPUS_SPLITS : list string := "train" :: EVALUATION_SPLITS.

(** ** Provenance and sources *)
(** [_normalized_relative_path] *)
Definition normalized_relative_path (value : string) : result string string :=
  raise "paths must be non-empty strings of at most 1024 characters" when negb (len_between 1 1024 value) ;;
  raise "paths cannot contain backslashes, NULs, or control characters"
    when contains_char "\" value || existsb is_control (String.list_ascii_of_string value) ;;
  raise "paths must be normalized and relative"
    when starts_with_slash value || existsb (fun p => bool_decide (p ∈ [""; "."; ".."])) (relative_parts value) ;;
  raise "paths must use normalized relative POSIX syntax"
    when negb (bool_decide (relative_str value = value)) || starts_with_slash value || contains "//" value ;;
  Ok value.

Record CorpusProvenance := {
  cp_repository : string;
  cp_commit : string;
  cp_source_path : string;
  cp_license : string
}.

(** What constructing a [CorpusProvenance] returns: the repository and the license are
    stripped. *)
Definition validate_CorpusProvenance (T : TextOps) (p : CorpusProvenance) : result string CorpusProvenance :=
  check_field "repository" (len_between 1 1024 (cp_repository p)) ;;
  let* repository := non_placeholder_text T (cp_repository p) in
  let* _ := normalize_repository_identity T repository in
  check_field "commit" (is_commit (cp_commit p)) ;;
  raise "provenance commit cannot be an all-zero sentinel"
    when bool_decide (cp_commit p = String.concat "" (replicate 40 "0")) ;;
  let* source_path := normalized_relative_path (cp_source_path p) in
  check_field "license" (len_between 1 256 (cp_license p)) ;;
  let* license := non_placeholder_text T (cp_license p) in
  Ok {| cp_repository := repository; cp_commit := cp_commit p; cp_source_path := source_path; cp_license := license |}.

Record CorpusSource := {
  cs_source_id : string;
  cs_path : string;
  cs_sha256 : string;
  cs_size_bytes : Z;
  cs_split : string;
  cs_contamination_group : string;
  cs_lineage_group : string;
  cs_clone_group : string;
  cs_provenance : CorpusProvenance
}.
#[export] Instance CorpusProvenance_eq_dec : EqDecision CorpusProvenance.
Proof. solve_decision. Defined.
#[export] Instance CorpusSource_eq_dec : EqDecision CorpusSource.
Proof. solve_decision. Defined.

Definition validate_CorpusSource (T : TextOps) (s : CorpusSource) : result string CorpusSource :=
  check_field "source_id" (is_stable_id (cs_source_id s)) ;;
  let* path := normalized_relative_path (cs_path s) in
  check_field "sha256" (is_sha256 (cs_sha256 s)) ;;
  check_field "size_bytes" ((0 <=? cs_size_bytes s) && (cs_size_bytes s <=? DEFAULT_SOURCE_MAX_BYTES)) ;;
  check_field "split" (bool_decide (cs_split s ∈ CORPUS_SPLITS)) ;;
  check_field "contamination_group" (is_stable_id (cs_contamination_group s)) ;;
  check_field "lineage_group" (is_stable_id (cs_lineage_group s)) ;;
  check_field "clone_group" (is_stable_id (cs_clone_group s)) ;;
  let* provenance := validate_CorpusProvenance T (cs_provenance s) in
  Ok {| cs_source_id := cs_source_id s; cs_path := path; cs_sha256 := cs_sha256 s; cs_size_bytes := cs_size_bytes s;
        cs_split := cs_split s; cs_contamination_group := cs_contamination_group s;
        cs_lineage_group := cs_lineage_group s; cs_clone_group := cs_clone_group s; cs_provenance := provenance |}.

(** ** Manifests *)
Record CorpusManifest := {
  cm_manifest_kind : string;
  cm_corpus_id : string;
  cm_sources : list CorpusSource
}.

(** [CorpusManifest.identities_and_splits_are_valid] *)
Definition identities_and_splits_are_valid (m : CorpusManifest) : result string unit :=
  raise "corpus source IDs must be unique" when negb (unique (cs_source_id <$> cm_sources m)) ;;
  raise "corpus source paths must be unique" when negb (unique (cs_path <$> cm_sources m)) ;;
  if bool_decide (cm_manifest_kind m = "benchmark") then
    raise "benchmark manifests may contain only benchmark-split sources"
      when existsb (fun s => differ (cs_split s) "benchmark") (cm_sources m) ;; Ok tt
  else
    raise "candidate corpus manifests cannot contain benchmark-split sources"
      when existsb (fun s => bool_decide (cs_split s = "benchmark")) (cm_sources m) ;; Ok tt.

Definition validate_CorpusManifest (T : TextOps) (m : CorpusManifest) : result string CorpusManifest :=
  check_field "manifest_kind" (bool_decide (cm_manifest_kind m ∈ ["corpus"; "benchmark"])) ;;
  check_field "corpus_id" (is_stable_id (cm_corpus_id m)) ;;
  check_field "sources" (count_between 1 100000 (cm_sources m)) ;;
  let* sources := map_result (validate_CorpusSource T) (cm_sources m) in
  let m := {| cm_manifest_kind := cm_manifest_kind m; cm_corpus_id := cm_corpus_id m; cm_sources := sources |} in
  let* _ := identities_and_splits_are_valid m in
  Ok m.

Definition CorpusProvenance_json (p : CorpusProvenance) : json :=
  JObj [("repository", JStr (cp_repository p)); ("commit", JStr (cp_commit p)); ("source_path", JStr (cp_source_path p));
        ("license", JStr (cp_license p))].
Definition CorpusSource_json (s : CorpusSource) : json :=
  JObj [("source_id", JStr (cs_source_id s)); ("path", JStr (cs_path s)); ("sha256", JStr (cs_sha256 s));
        ("size_bytes", JInt (cs_size_bytes s)); ("language", JStr "c"); ("split", JStr (cs_split s));
        ("contamination_group", JStr (cs_contamination_group s)); ("lineage_group", JStr (cs_lineage_group s));
        ("clone_group", JStr (cs_clone_group s)); ("provenance", CorpusProvenance_json (cs_provenance s))].
Definition CorpusManifest_json (m : CorpusManifest) : json :=
  JObj [("schema_version", JStr "bpe.corpus-manifest.v1"); ("manifest_kind", JStr (cm_manifest_kind m));
        ("corpus_id", JStr (cm_corpus_id m)); ("tree_mode", JStr "closed");
        ("sources", JArr (map CorpusSource_json (cm_sources m)))].

(** ** Policies *)
Record CorpusAuditPolicy := {
  co_policy_id : string;
  co_ngram_size : Z;
  co_minimum_tokens : Z;
  co_jaccard_threshold : float64;
  co_containment_threshold : float64;
  co_training_splits : list string;
  co_evaluation_splits : list string;
  co_denied_training_repository_families : list string
}.
Definition DETECTOR_VERSION : string := "bpe.corpus-static-audit.v1".
(** The literals [0.95] and [0.99]. *)
Definition F_0_95 : float64 := of_Q (95 # 100).
Definition F_0_99 : float64 := of_Q (99 # 100).
Definition threshold_ok (hi x : float64) : bool := is_float64 x && is_finite x && fltb fzero x && fleb x hi.

(** [CorpusAuditPolicy.policy_cannot_weaken_hard_boundaries] *)
Definition policy_cannot_weaken_hard_boundaries (T : TextOps) (p : CorpusAuditPolicy) : result string unit :=
  raise "the static audit training split is fixed to 'train'" when negb (same_set (co_training_splits p) ["train"]) ;;
  raise "the static audit evaluation-like split set is fixed"
    when negb (same_set (co_evaluation_splits p) EVALUATION_SPLITS) ;;
  raise "denied repository families must be unique" when negb (unique (co_denied_training_repository_families p)) ;;
  let* normalized := map_result (normalize_repository_family T) (co_denied_training_repository_families p) in
  raise "the hard training repository denylist cannot be weakened"
    when negb (forallb (fun f => bool_decide (f ∈ normalized)) HARD_DENIED_TRAINING_FAMILIES) ;;
  raise "minimum token gate cannot be smaller than the n-gram size" when co_minimum_tokens p <? co_ngram_size p ;;
  Ok tt.

Definition validate_CorpusAuditPolicy (T : TextOps) (p : CorpusAuditPolicy) : result string unit :=
  check_field "policy_id" (is_stable_id (co_policy_id p)) ;;
  check_field "ngram_size" ((3 <=? co_ngram_size p) && (co_ngram_size p <=? 7)) ;;
  check_field "minimum_tokens" ((16 <=? co_minimum_tokens p) && (co_minimum_tokens p <=? 4096)) ;;
  check_field "jaccard_threshold" (threshold_ok F_0_95 (co_jaccard_threshold p)) ;;
  check_field "containment_threshold" (threshold_ok F_0_99 (co_containment_threshold p)) ;;
  check_field "training_splits" (forallb (fun s => bool_decide (s ∈ CORPUS_SPLITS)) (co_training_splits p)) ;;
  check_field "evaluation_splits" (forallb (fun s => bool_decide (s ∈ CORPUS_SPLITS)) (co_evaluation_splits p)) ;;
  policy_cannot_weaken_hard_boundaries T p.

Definition CorpusAuditPolicy_json (p : CorpusAuditPolicy) : json :=
  JObj [("schema_version", JStr "bpe.corpus-audit-policy.v1"); ("policy_id", JStr (co_policy_id p));
        ("detector_version", JStr DETECTOR_VERSION); ("tokenizer_version", JStr "bpe.c-tokenizer.v1");
        ("ngram_version", JStr "bpe.c-token-ngram.v1"); ("ngram_size", JInt (co_ngram_size p));
        ("minimum_tokens", JInt (co_minimum_tokens p)); ("jaccard_threshold", JFloat (co_jaccard_threshold p));
        ("containment_threshold", JFloat (co_containment_threshold p));
        ("training_splits", JArr (map JStr (co_training_splits p)));
        ("evaluation_splits", JArr (map JStr (co_evaluation_splits p)));
        ("denied_training_repository_families", JArr (map JStr (co_denied_training_repository_families p)))].

(** ** Reports *)
Inductive IssueKind := hit | skip | error.
Definition IssueKind_value (k : IssueKind) : string :=
  match k with hit => "hit" | skip => "skip" | error => "error" end.

Record CorpusAuditIssue := {
  is_kind : IssueKind;
  is_code : string;
  is_message : string;
  is_source_refs : list string;
  is_jaccard : option float64;
  is_containment : option float64
}.
(** [^[A-Z][A-Z0-9_]{2,63}$] *)
Definition is_upper (c : ascii) : bool := (65 <=? code c) && (code c <=? 90).
Definition is_issue_code (s : string) : bool :=
  match s with
  | String c rest => is_upper c && str_forall (fun c => is_upper c || is_digit c || Ascii.eqb c "_") rest
                     && (2 <=? String.length rest)%nat && (String.length rest <=? 63)%nat
  | EmptyString => false
  end.
Definition unit_float (x : float64) : bool := float_between fzero fone x.
Definition validate_CorpusAuditIssue (i : CorpusAuditIssue) : result string unit :=
  check_field "code" (is_issue_code (is_code i)) ;;
  check_field "message" (len_between 1 4096 (is_message i)) ;;
  check_field "source_refs" (forallb (len_between 1 512) (is_source_refs i)) ;;
  check_field "jaccard" (opt_ok unit_float (is_jaccard i)) ;;
  check_field "containment" (opt_ok unit_float (is_containment i)) ;;
  Ok tt.
Definition CorpusAuditIssue_json (i : CorpusAuditIssue) : json :=
  JObj [("severity", JStr "error"); ("kind", JStr (IssueKind_value (is_kind i))); ("code", JStr (is_code i));
        ("message", JStr (is_message i)); ("source_refs", JArr (map JStr (is_source_refs i)));
        ("jaccard", jopt JFloat (is_jaccard i)); ("containment", jopt JFloat (is_containment i))].

Record CorpusFingerprint := {
  fp_corpus_id : string;
  fp_source_id : string;
  fp_token_count : Z;
  fp_unique_ngram_count : Z;
  fp_token_sha256 : string;
  fp_ngram_sha256 : string
}.
Definition validate_CorpusFingerprint (f : CorpusFingerprint) : result string unit :=
  check_field "corpus_id" (is_stable_id (fp_corpus_id f)) ;;
  check_field "source_id" (is_stable_id (fp_source_id f)) ;;
  check_field "token_count" (0 <=? fp_token_count f) ;;
  check_field "unique_ngram_count" (0 <=? fp_unique_ngram_count f) ;;
  check_field "token_sha256" (is_sha256 (fp_token_sha256 f)) ;;
  check_field "ngram_sha256" (is_sha256 (fp_ngram_sha256 f)) ;;
  Ok tt.
Definition CorpusFingerprint_json (f : CorpusFingerprint) : json :=
  JObj [("corpus_id", JStr (fp_corpus_id f)); ("source_id", JStr (fp_source_id f)); ("token_count", JInt (fp_token_count f));
        ("unique_ngram_count", JInt (fp_unique_ngram_count f)); ("token_sha256", JStr (fp_token_sha256 f));
        ("ngram_sha256", JStr (fp_ngram_sha256 f))].

Record CorpusSimilarity := {
  sm_training_corpus_id : string;
  sm_training_source_id : string;
  sm_evaluation_corpus_id : string;
  sm_evaluation_source_id : string;
  sm_training_ngram_count : Z;
  sm_evaluation_ngram_count : Z;
  sm_shared_ngram_count : Z;
  sm_jaccard : float64;
  sm_containment : float64;
  sm_blocking : bool
}.
Definition validate_CorpusSimilarity (s : CorpusSimilarity) : result string unit :=
  check_field "training_corpus_id" (is_stable_id (sm_training_corpus_id s)) ;;
  check_field "training_source_id" (is_stable_id (sm_training_source_id s)) ;;
  check_field "evaluation_corpus_id" (is_stable_id (sm_evaluation_corpus_id s)) ;;
  check_field "evaluation_source_id" (is_stable_id (sm_evaluation_source_id s)) ;;
  check_field "training_ngram_count" (1 <=? sm_training_ngram_count s) ;;
  check_field "evaluation_ngram_count" (1 <=? sm_evaluation_ngram_count s) ;;
  check_field "shared_ngram_count" (0 <=? sm_shared_ngram_count s) ;;
  check_field "jaccard" (unit_float (sm_jaccard s)) ;;
  check_field "containment" (unit_float (sm_containment s)) ;;
  Ok tt.
Definition CorpusSimilarity_json (s : CorpusSimilarity) : json :=
  JObj [("training_corpus_id", JStr (sm_training_corpus_id s)); ("training_source_id", JStr (sm_training_source_id s));
        ("evaluation_corpus_id", JStr (sm_evaluation_corpus_id s));
        ("evaluation_source_id", JStr (sm_evaluation_source_id s));
        ("training_ngram_count", JInt (sm_training_ngram_count s));
        ("evaluation_ngram_count", JInt (sm_evaluation_ngram_count s));
        ("shared_ngram_count", JInt (sm_shared_ngram_count s)); ("jaccard", JFloat (sm_jaccard s));
        ("containment", JFloat (sm_containment s)); ("blocking", JBool (sm_blocking s))].

Record CorpusAuditReport := {
  cr_corpus_id : string;
  cr_corpus_manifest_sha256 : string;
  cr_benchmark_corpus_id : string;
  cr_benchmark_manifest_sha256 : string;
  cr_policy_id : string;
  cr_policy_sha256 : string;
  cr_audit_inputs_sha256 : string;
  cr_total_source_count : Z;
  cr_scanned_source_count : Z;
  cr_fuzzy_eligible_source_count : Z;
  cr_expected_comparison_count : Z;
  cr_evaluated_comparison_count : Z;
  cr_fingerprints : list CorpusFingerprint;
  cr_comparisons : list CorpusSimilarity;
  cr_issues : list CorpusAuditIssue;
  cr_static_audit_passed : bool
}.

Definition zlen {A} (l : list A) : Z := Z.of_nat (length l).

(** The state in which a report may say that the audit passed. *)
Definition report_complete (r : CorpusAuditReport) : bool :=
  bool_decide (length (cr_issues r) = 0%nat) && (2 <=? cr_total_source_count r) && (1 <=? cr_expected_comparison_count r)
  && (cr_scanned_source_count r =? cr_total_source_count r)
  && (cr_fuzzy_eligible_source_count r =? cr_total_source_count r)
  && (cr_evaluated_comparison_count r =? cr_expected_comparison_count r)
  && negb (existsb sm_blocking (cr_comparisons r)).

(** [CorpusAuditReport.pass_flag_is_fail_closed] *)
Definition pass_flag_is_fail_closed (r : CorpusAuditReport) : result string unit :=
  raise "scanned source count does not match fingerprints"
    when negb (cr_scanned_source_count r =? zlen (cr_fingerprints r)) ;;
  raise "comparison count does not match reported comparisons"
    when negb (cr_evaluated_comparison_count r =? zlen (cr_comparisons r)) ;;
  raise "scanned source count exceeds the frozen source count"
    when cr_total_source_count r <? cr_scanned_source_count r ;;
  raise "fuzzy-eligible source count exceeds scanned sources"
    when cr_scanned_source_count r <? cr_fuzzy_eligible_source_count r ;;
  raise "evaluated comparison count exceeds the frozen matrix"
    when cr_expected_comparison_count r <? cr_evaluated_comparison_count r ;;
  raise "fingerprint source identities must be unique"
    when negb (unique ((fun f => (fp_corpus_id f, fp_source_id f)) <$> cr_fingerprints r)) ;;
  raise "static audit pass flag does not match fail-closed report state"
    when negb (eqb (cr_static_audit_passed r) (report_complete r)) ;;
  Ok tt.

Definition validate_CorpusAuditReport (r : CorpusAuditReport) : result string unit :=
  check_field "corpus_id" (is_stable_id (cr_corpus_id r)) ;;
  check_field "corpus_manifest_sha256" (is_sha256 (cr_corpus_manifest_sha256 r)) ;;
  check_field "benchmark_corpus_id" (is_stable_id (cr_benchmark_corpus_id r)) ;;
  check_field "benchmark_manifest_sha256" (is_sha256 (cr_benchmark_manifest_sha256 r)) ;;
  check_field "policy_id" (is_stable_id (cr_policy_id r)) ;;
  check_field "policy_sha256" (is_sha256 (cr_policy_sha256 r)) ;;
  check_field "audit_inputs_sha256" (is_sha256 (cr_audit_inputs_sha256 r)) ;;
  check_field "total_source_count" (0 <=? cr_total_source_count r) ;;
  check_field "scanned_source_count" (0 <=? cr_scanned_source_count r) ;;
  check_field "fuzzy_eligible_source_count" (0 <=? cr_fuzzy_eligible_source_count r) ;;
  check_field "expected_comparison_count" (0 <=? cr_expected_comparison_count r) ;;
  check_field "evaluated_comparison_count" (0 <=? cr_evaluated_comparison_count r) ;;
  let* _ := for_each validate_CorpusFingerprint (cr_fingerprints r) in
  let* _ := for_each validate_CorpusSimilarity (cr_comparisons r) in
  let* _ := for_each validate_CorpusAuditIssue (cr_issues r) in
  pass_flag_is_fail_closed r.

Definition CorpusAuditReport_json (r : CorpusAuditReport) : json :=
  JObj [("schema_version", JStr "bpe.corpus-audit-report.v1"); ("detector_version", JStr DETECTOR_VERSION);
        ("corpus_id", JStr (cr_corpus_id r)); ("corpus_manifest_sha256", JStr (cr_corpus_manifest_sha256 r));
        ("benchmark_corpus_id", JStr (cr_benchmark_corpus_id r));
        ("benchmark_manifest_sha256", JStr (cr_benchmark_manifest_sha256 r)); ("policy_id", JStr (cr_policy_id r));
        ("policy_sha256", JStr (cr_policy_sha256 r)); ("audit_inputs_sha256", JStr (cr_audit_inputs_sha256 r));
        ("total_source_count", JInt (cr_total_source_count r)); ("scanned_source_count", JInt (cr_scanned_source_count r));
        ("fuzzy_eligible_source_count", JInt (cr_fuzzy_eligible_source_count r));
        ("expected_comparison_count", JInt (cr_expected_comparison_count r));
        ("evaluated_comparison_count", JInt (cr_evaluated_comparison_count r));
        ("fingerprints", JArr (map CorpusFingerprint_json (cr_fingerprints r)));
        ("comparisons", JArr (map CorpusSimilarity_json (cr_comparisons r)));
        ("issues", JArr (map CorpusAuditIssue_json (cr_issues r)));
        ("static_audit_passed", JBool (cr_static_audit_passed r))].

(** [corpus_audit_report_sha256] *)
Definition corpus_audit_report_sha256 (r : CorpusAuditReport) : result string string :=
  let* _ := validate_CorpusAuditReport r in
  sha256_json (CorpusAuditReport_json r).

(** ** Fingerprints *)
Definition byte_char (b : byte) : ascii := ascii_of_N (Byte.to_N b).
(** [len(encoded).to_bytes(8, "big")] *)
Definition be8 (n : Z) : string := String.string_of_list_ascii (byte_char <$> be_bytes 8 n).

(** What [_sequence_digest] hashes. *)
Definition encode_token (t : string) : string := be8 (Z.of_nat (String.length t)) ++ t.
Definition encode_tokens (tokens : list string) : string := join (encode_token <$> tokens).
Definition sequence_digest (tokens : list string) : string := sha256_bytes (encode_tokens tokens).

(** [_token_ngrams]: a set of tuples. *)
Definition windows {A} (size : nat) (l : list A) : list (list A) :=
  (fun i => take size (drop i l)) <$> seq 0 (length l - size + 1).
Definition token_ngrams (tokens : list string) (size : Z) : list (list string) :=
  if zlen tokens <? size then [] else remove_dups (windows (Z.to_nat size) tokens).

(** [_ngram_digest] *)
Definition ngram_digest (ngrams : list (list string)) : string :=
  sha256_bytes (join ((fun g => encode_tokens g ++ String "255" "") <$> sort_by Admission.key_ltb ngrams)).

(** [_source_ref] *)
Definition source_ref (corpus_id source_id : string) : string := corpus_id ++ ":" ++ source_id.

(** ** Loaded corpora *)
Record LoadedCorpusSource := { ls_source : CorpusSource; ls_content : string }.
Record LoadedCorpus := { lc_manifest : CorpusManifest; lc_sources : list LoadedCorpusSource }.

(** The loop of [_validate_loaded] over the sources of the manifest. *)
Definition validate_loaded_source (by_id : list (string * LoadedCorpusSource)) (s : CorpusSource) :
    result string LoadedCorpusSource :=
  match dict_get by_id (cs_source_id s) with
  | None => Err "KeyError"
  | Some item =>
      raise "loaded source metadata changed" when differ (ls_source item) s ;;
      raise "loaded source content changed"
        when differ (sha256_bytes (ls_content item), Z.of_nat (String.length (ls_content item)))
               (cs_sha256 s, cs_size_bytes s) ;;
      Ok item
  end.

(** [_validate_loaded] *)
Definition validate_loaded (T : TextOps) (loaded : LoadedCorpus) : result string LoadedCorpus :=
  let* manifest := validate_CorpusManifest T (lc_manifest loaded) in
  let by_id := dict_of ((fun item => (cs_source_id (ls_source item), item)) <$> lc_sources loaded) in
  raise "loaded corpus sources do not exactly match the manifest"
    when negb (length by_id =? length (lc_sources loaded))%nat
         || negb (same_set by_id.*1 (cs_source_id <$> cm_sources manifest)) ;;
  let* ordered := map_result (validate_loaded_source by_id) (cm_sources manifest) in
  Ok {| lc_manifest := manifest; lc_sources := ordered |}.

(** ** Issues *)
Definition issue (kind : IssueKind) (code_ message : string) (refs : list string) : CorpusAuditIssue :=
  {| is_kind := kind; is_code := code_; is_message := message; is_source_refs := refs; is_jaccard := None;
     is_containment := None |}.
Definition quoted (s : string) : string := "'" ++ s ++ "'".
Definition sorted_refs (refs : list string) : list string := sort_by String.ltb refs.

(** An item is a corpus identifier with a source of it. *)
Definition item_ref (i : string * CorpusSource) : string := source_ref i.1 (cs_source_id i.2).
Definition key_order {V} (a b : string * V) : bool := String.ltb a.1 b.1.

(** The groups with more than one member, in the order of their keys. *)
Definition duplicate_issues (key : CorpusSource -> string) (code_ : string) (message : string -> string)
    (items : list (string * CorpusSource)) : list CorpusAuditIssue :=
  (fun g => issue hit code_ (message g.1) (sorted_refs (item_ref <$> g.2)))
    <$> filter (fun g => (1 < length g.2)%nat) (sort_by key_order (group_by (fun i => key i.2) items)).

(** The keys that occur on both sides. *)
Definition crossing {A} (key : A -> string) (training evaluation : list A) : list string :=
  sort_by String.ltb (remove_dups (filter (fun k => k ∈ key <$> evaluation) (key <$> training))).
Definition refs_of {A} (key ref : A -> string) (l : list A) (k : string) : list string :=
  ref <$> filter (fun x => key x = k) l.

(** [_group_cross_split_issues] *)
Definition group_cross_split_issues (attribute : string) (key : CorpusSource -> string) (code_ : string)
    (training evaluation : list (string * CorpusSource)) : list CorpusAuditIssue :=
  (fun g => issue hit code_ (attribute ++ " " ++ quoted g ++ " crosses train and evaluation-like splits")
              (sorted_refs (refs_of (fun i => key i.2) item_ref training g
                            ++ refs_of (fun i => key i.2) item_ref evaluation g)%list))
    <$> crossing (fun i => key i.2) training evaluation.

(** ** Scanning *)
Record Scan := {
  sn_corpus_id : string;
  sn_loaded : LoadedCorpusSource;
  sn_tokens : list string;
  sn_ngrams : list (list string);
  sn_fingerprint : CorpusFingerprint
}.
Definition sn_source (s : Scan) : CorpusSource := ls_source (sn_loaded s).
Definition pair_key_ltb (a b : string * string) : bool :=
  String.ltb a.1 b.1 || (bool_decide (a.1 = b.1) && String.ltb a.2 b.2).
Definition loaded_key (i : string * LoadedCorpusSource) : string * string := (i.1, cs_source_id (ls_source i.2)).
Definition scan_key (s : Scan) : string * string := (sn_corpus_id s, cs_source_id (sn_source s)).
Definition sort_scans (scans : list Scan) : list Scan := sort_by (fun a b => pair_key_ltb (scan_key a) (scan_key b)) scans.

(** The body of the scanning loop; [decimal] is the table behind [\d]. *)
Definition scan_source (decimal : string -> bool) (policy : CorpusAuditPolicy) (i : string * LoadedCorpusSource) :
    result string Scan :=
  let* tokens := tokenize_c decimal (ls_content i.2) in
  let ngrams := token_ngrams tokens (co_ngram_size policy) in
  Ok {| sn_corpus_id := i.1; sn_loaded := i.2; sn_tokens := tokens; sn_ngrams := ngrams;
        sn_fingerprint :=
          {| fp_corpus_id := i.1; fp_source_id := cs_source_id (ls_source i.2); fp_token_count := zlen tokens;
             fp_unique_ngram_count := zlen ngrams; fp_token_sha256 := sequence_digest tokens;
             fp_ngram_sha256 := ngram_digest ngrams |} |}.

Definition too_short (policy : CorpusAuditPolicy) (s : Scan) : bool := zlen (sn_tokens s) <? co_minimum_tokens policy.

Definition scan_issues (decimal : string -> bool) (policy : CorpusAuditPolicy) (i : string * LoadedCorpusSource) :
    list CorpusAuditIssue :=
  let reference := source_ref i.1 (cs_source_id (ls_source i.2)) in
  match scan_source decimal policy i with
  | Err e => [issue error "SOURCE_TOKENIZATION_ERROR" ("cannot tokenize " ++ reference ++ ": " ++ e) [reference]]
  | Ok s =>
      if too_short policy s then
        [issue skip "INSUFFICIENT_TOKENS_FOR_FUZZY_SCAN"
           (reference ++ " has " ++ string_of_Z (zlen (sn_tokens s)) ++ " tokens; the frozen minimum is "
            ++ string_of_Z (co_minimum_tokens policy)) [reference]]
      else []
  end.

Definition scan_all (decimal : string -> bool) (policy : CorpusAuditPolicy) (items : list (string * LoadedCorpusSource)) :
    list Scan :=
  omap (fun i => match scan_source decimal policy i with Ok s => Some s | Err _ => None end) items.

(** Sources that differ in their bytes and not in their tokens. *)
Definition normalized_duplicate_issues (scans : list Scan) : list CorpusAuditIssue :=
  (fun g => issue hit "NORMALIZED_TOKEN_DUPLICATE"
              ("comment/format-insensitive token fingerprint " ++ g.1 ++ " occurs more than once")
              (sorted_refs ((fun s => source_ref (sn_corpus_id s) (cs_source_id (sn_source s))) <$> g.2)))
    <$> filter (fun g => (1 < length g.2)%nat /\ (1 < length (remove_dups ((fun s => cs_sha256 (sn_source s)) <$> g.2)))%nat)
          (sort_by key_order (group_by (fun s => fp_token_sha256 (sn_fingerprint s)) scans)).

(** ** Comparisons *)
(** [f"{x:.6f}"] of a float that is not negative. *)
Definition fixed6 (x : float64) : string :=
  let n := nearest_even (fq x * 1000000) in
  let d := string_of_Z (n mod 1000000) in
  string_of_Z (n / 1000000) ++ "." ++ join (replicate (6 - String.length d) "0") ++ d.

Definition shared_ngrams (a b : list (list string)) : list (list string) := filter (fun g => g ∈ b) a.

(** One training source against one evaluation source. *)
Definition compare_scans (policy : CorpusAuditPolicy) (t e : Scan) : result string (CorpusSimilarity * list CorpusAuditIssue) :=
  let shared := zlen (shared_ngrams (sn_ngrams t) (sn_ngrams e)) in
  let* jaccard := itruediv shared (zlen (remove_dups (sn_ngrams t ++ sn_ngrams e)%list)) in
  let* containment := itruediv shared (Z.min (zlen (sn_ngrams t)) (zlen (sn_ngrams e))) in
  let same_digest := bool_decide (cs_sha256 (sn_source t) = cs_sha256 (sn_source e)) in
  let same_tokens := bool_decide (fp_token_sha256 (sn_fingerprint t) = fp_token_sha256 (sn_fingerprint e)) in
  let fuzzy_hit := fleb (co_jaccard_threshold policy) jaccard || fleb (co_containment_threshold policy) containment in
  Ok ({| sm_training_corpus_id := sn_corpus_id t; sm_training_source_id := cs_source_id (sn_source t);
         sm_evaluation_corpus_id := sn_corpus_id e; sm_evaluation_source_id := cs_source_id (sn_source e);
         sm_training_ngram_count := zlen (sn_ngrams t); sm_evaluation_ngram_count := zlen (sn_ngrams e);
         sm_shared_ngram_count := shared; sm_jaccard := jaccard; sm_containment := containment;
         sm_blocking := same_digest || same_tokens || fuzzy_hit |},
      if fuzzy_hit && negb same_digest && negb same_tokens then
        [{| is_kind := hit; is_code := "FUZZY_EVALUATION_CONTAMINATION";
            is_message := "token n-gram similarity meets a frozen blocking threshold: Jaccard=" ++ fixed6 jaccard
                          ++ ", containment=" ++ fixed6 containment;
            is_source_refs := [source_ref (sn_corpus_id t) (cs_source_id (sn_source t));
                               source_ref (sn_corpus_id e) (cs_source_id (sn_source e))];
            is_jaccard := Some jaccard; is_containment := Some containment |}]
      else []).

Definition compare_all (policy : CorpusAuditPolicy) (training evaluation : list Scan) :
    result string (list (CorpusSimilarity * list CorpusAuditIssue)) :=
  map_result (fun te => compare_scans policy te.1 te.2)
    (flat_map (fun t => pair t <$> sort_scans evaluation) (sort_scans training)).

(** The scans of one side that can be compared. *)
Definition eligible_scans (policy : CorpusAuditPolicy) (scans : list Scan) (items : list (string * CorpusSource)) : list Scan :=
  omap (fun i => match list_find (fun s => scan_key s = (i.1, cs_source_id i.2)) scans with
                 | Some (_, s) => if too_short policy s then None else Some s
                 | None => None
                 end) items.

(** ** [audit_corpus] *)
Definition combined (corpus benchmark : LoadedCorpus) : list (string * LoadedCorpusSource) :=
  ((pair (cm_corpus_id (lc_manifest corpus)) <$> lc_sources corpus)
   ++ (pair (cm_corpus_id (lc_manifest benchmark)) <$> lc_sources benchmark))%list.
Definition as_source (i : string * LoadedCorpusSource) : string * CorpusSource := (i.1, ls_source i.2).

(** The families of items: each with its reference. *)
Definition item_family (T : TextOps) (i : string * CorpusSource) : result string (string * string) :=
  let* family := normalize_repository_family T (cp_repository (cs_provenance i.2)) in
  Ok (family, item_ref i).

(** The issues about training repositories. *)
Definition family_issues (denied : list string) (training evaluation : list (string * string)) : list CorpusAuditIssue :=
  (((fun fr => issue hit "TRAINING_REPOSITORY_DENIED"
                 ("training source belongs to hard-denied repository family " ++ quoted fr.1)%string [fr.2])
      <$> filter (fun fr => fr.1 ∈ denied) training)
   ++ ((fun f => issue hit "CROSS_SPLIT_REPOSITORY_FAMILY"
                   ("repository family " ++ quoted f ++ " crosses train and evaluation-like splits")%string
                   (sorted_refs (refs_of fst snd training f ++ refs_of fst snd evaluation f)%list))
         <$> crossing fst training evaluation))%list.

Definition structural_issues (training evaluation items : list (string * CorpusSource)) : list CorpusAuditIssue :=
  (duplicate_issues cs_source_id "DUPLICATE_SOURCE_ID"
     (fun k => "source ID " ++ quoted k ++ " is duplicated across frozen manifests")%string items
   ++ duplicate_issues cs_sha256 "EXACT_DIGEST_DUPLICATE"
        (fun k => "exact source digest " ++ k ++ " occurs more than once")%string items
   ++ (if bool_decide (length training = 0%nat)
       then [issue error "NO_TRAINING_SOURCES" "candidate corpus contains no training-split sources" []] else [])
   ++ (if MAX_FUZZY_COMPARISONS <? zlen training * zlen evaluation
       then [issue error "FUZZY_COMPARISON_BUDGET_EXCEEDED"
               ("the frozen comparison matrix requires " ++ string_of_Z (zlen training * zlen evaluation)
                ++ " pairs; the detector safety limit is " ++ string_of_Z MAX_FUZZY_COMPARISONS)%string []] else [])
   ++ group_cross_split_issues "contamination_group" cs_contamination_group "CROSS_SPLIT_CONTAMINATION_GROUP"
        training evaluation
   ++ group_cross_split_issues "lineage_group" cs_lineage_group "CROSS_SPLIT_LINEAGE_GROUP" training evaluation
   ++ group_cross_split_issues "clone_group" cs_clone_group "CROSS_SPLIT_CLONE_GROUP" training evaluation)%list.

Definition issue_ltb (a b : CorpusAuditIssue) : bool :=
  if bool_decide (is_code a = is_code b) then
    if bool_decide (is_source_refs a = is_source_refs b) then String.ltb (is_message a) (is_message b)
    else Admission.key_ltb (is_source_refs a) (is_source_refs b)
  else String.ltb (is_code a) (is_code b).

(** Inputs the audit accepts, with their digests. *)
Definition audit_inputs (T : TextOps) (corpus benchmark : LoadedCorpus) (policy : CorpusAuditPolicy) :
    result string (LoadedCorpus * LoadedCorpus * (string * string * string * string)) :=
  let* corpus := validate_loaded T corpus in
  let* benchmark := validate_loaded T benchmark in
  let* _ := validate_CorpusAuditPolicy T policy in
  raise "the candidate input must use manifest_kind='corpus'" when differ (cm_manifest_kind (lc_manifest corpus)) "corpus" ;;
  raise "the comparison input must use manifest_kind='benchmark'"
    when differ (cm_manifest_kind (lc_manifest benchmark)) "benchmark" ;;
  raise "candidate and benchmark corpus IDs must differ"
    when bool_decide (cm_corpus_id (lc_manifest corpus) = cm_corpus_id (lc_manifest benchmark)) ;;
  let* corpus_digest := sha256_json (CorpusManifest_json (lc_manifest corpus)) in
  let* benchmark_digest := sha256_json (CorpusManifest_json (lc_manifest benchmark)) in
  let* policy_digest := sha256_json (CorpusAuditPolicy_json policy) in
  let* inputs_digest := sha256_json (JObj [("schema_version", JStr "bpe.corpus-audit-inputs.v1");
                                           ("detector_version", JStr DETECTOR_VERSION);
                                           ("corpus_manifest_sha256", JStr corpus_digest);
                                           ("benchmark_manifest_sha256", JStr benchmark_digest);
                                           ("policy_sha256", JStr policy_digest)]) in
  Ok (corpus, benchmark, (corpus_digest, benchmark_digest, policy_digest, inputs_digest)).

Definition audit_corpus (decimal : string -> bool) (T : TextOps) (corpus benchmark : LoadedCorpus)
    (policy : CorpusAuditPolicy) : result string CorpusAuditReport :=
  let* inputs := audit_inputs T corpus benchmark policy in
  let '(corpus, benchmark, (corpus_digest, benchmark_digest, policy_digest, inputs_digest)) := inputs in
  let combined_loaded := combined corpus benchmark in
  let combined_sources := as_source <$> combined_loaded in
  let training := filter (fun i => cs_split i.2 ∈ co_training_splits policy) combined_sources in
  let evaluation := filter (fun i => cs_split i.2 ∈ co_evaluation_splits policy) combined_sources in
  let expected_comparison_count := zlen training * zlen evaluation in
  let budget_exceeded := MAX_FUZZY_COMPARISONS <? expected_comparison_count in
  let* denied := map_result (normalize_repository_family T) (co_denied_training_repository_families policy) in
  let* training_families := map_result (item_family T) training in
  let* evaluation_families := map_result (item_family T) evaluation in
  let ordered := sort_by (fun a b => pair_key_ltb (loaded_key a) (loaded_key b)) combined_loaded in
  let scans := scan_all decimal policy ordered in
  let training_scans := if budget_exceeded then [] else eligible_scans policy scans training in
  let evaluation_scans := if budget_exceeded then [] else eligible_scans policy scans evaluation in
  let* compared := compare_all policy training_scans evaluation_scans in
  let comparisons := compared.*1 in
  let issues :=
    (structural_issues training evaluation combined_sources
     ++ family_issues denied training_families evaluation_families
     ++ flat_map (scan_issues decimal policy) ordered
     ++ normalized_duplicate_issues scans
     ++ List.concat compared.*2)%list in
  let eligible_count := zlen (filter (fun s => too_short policy s = false) scans) in
  let fingerprints := sn_fingerprint <$> sort_scans scans in
  let sorted_issues := sort_by issue_ltb issues in
  let complete := bool_decide (length sorted_issues = 0%nat) && (zlen fingerprints =? zlen combined_sources)
                  && (eligible_count =? zlen combined_sources) && (zlen comparisons =? expected_comparison_count)
                  && negb (existsb sm_blocking comparisons) in
  construct validate_CorpusAuditReport
    {| cr_corpus_id := cm_corpus_id (lc_manifest corpus); cr_corpus_manifest_sha256 := corpus_digest;
       cr_benchmark_corpus_id := cm_corpus_id (lc_manifest benchmark); cr_benchmark_manifest_sha256 := benchmark_digest;
       cr_policy_id := co_policy_id policy; cr_policy_sha256 := policy_digest; cr_audit_inputs_sha256 := inputs_digest;
       cr_total_source_count := zlen combined_sources; cr_scanned_source_count := zlen fingerprints;
       cr_fuzzy_eligible_source_count := eligible_count; cr_expected_comparison_count := expected_comparison_count;
       cr_evaluated_comparison_count := zlen comparisons; cr_fingerprints := fingerprints; cr_comparisons := comparisons;
       cr_issues := sorted_issues; cr_static_audit_passed := complete |}.
End Corpus.
