(* ===== verification/CorpusFacts.v ===== *)
(** * Guarantees of the contamination audit *)
From Stdlib Require Import ZArith QArith Qabs Lqa String Ascii Lia.
From stdpp Require Import base tactics list strings sorting sets.
From S2P Require Import Prelude Floats Sha256 Json JsonFacts Models ModelFacts Grading Stats Aggregate WorkerFacts Job Sql Admission AdmissionFacts Text Repository Lexer Corpus.
Local Open Scope string_scope.
Local Open Scope Z_scope.

Module CorpusFacts.
Import Sha256 Json Models ModelFacts Stats WorkerFacts Job AdmissionFacts Repository Lexer Corpus.

(** ** Groups *)
Lemma list_empty {A} (l : list A) : (forall x, x ∈ l -> False) <-> l = [].
Proof. split; [|by intros -> x ?%not_elem_of_nil]. destruct l as [|x l]; [done|]. intros H. destruct (H x). left. Qed.

Lemma filter_empty {A} (P : A -> Prop) `{!forall x, Decision (P x)} (l : list A) :
  filter P l = [] <-> forall x, x ∈ l -> ~ P x.
Proof.
  rewrite <-list_empty. split.
  - intros E x Hx HP. apply (E x). by rewrite list_elem_of_filter.
  - intros E x. rewrite list_elem_of_filter. intros [HP Hx]. by apply (E x).
Qed.

Lemma fmap_empty {A B} (f : A -> B) (l : list A) : f <$> l = [] <-> l = [].
Proof. by destruct l. Qed.

Lemma sort_by_empty {A} (lt : A -> A -> bool) l : sort_by lt l = [] <-> l = [].
Proof. rewrite <-!length_zero_iff_nil, sort_by_length. done. Qed.

Lemma group_by_keys {K A} `{EqDecision K} (key : A -> K) l : NoDup (group_by key l).*1.
Proof.
  induction l as [|x l IH] using rev_ind; [by constructor|]. rewrite Aggregate.group_by_snoc. by apply dict_set_NoDup.
Qed.

Lemma group_by_elem {K A} `{EqDecision K} (key : A -> K) l k g :
  (k, g) ∈ group_by key l <-> g = filter (fun x => key x = k) l /\ g <> [].
Proof.
  destruct (Aggregate.group_by_get key l k) as [Eg En]. split.
  - intros Hin. apply dict_get_Some in Hin; [|apply group_by_keys]. rewrite Hin in Eg. cbn in Eg. split; [done|].
    intros ->. rewrite <-Eg in En. destruct En as [_ En]. rewrite En in Hin by done. done.
  - intros [-> Hne]. apply dict_get_In. destruct (dict_get _ k) as [g|]; cbn in Eg; [by subst|].
    by destruct Hne; apply En.
Qed.

Lemma NoDup_by_key {K A} `{EqDecision K} (key : A -> K) l :
  NoDup (key <$> l) <-> forall k, (length (filter (fun x => key x = k) l) <= 1)%nat.
Proof.
  induction l as [|x l IH]; cbn [fmap list_fmap]; [split; [intros _ k; cbn; lia|constructor]|].
  rewrite NoDup_cons, IH. split.
  - intros [Hx Hl] k. rewrite filter_cons. case_decide as E; [|apply Hl]. subst k. cbn.
    replace (filter (fun y => key y = key x) l) with (@nil A); [done|]. symmetry. apply filter_empty.
    intros y Hy Ey. apply Hx. rewrite <-Ey. by apply list_elem_of_fmap_2.
  - intros H. split.
    + intros (y & Ey & Hy)%list_elem_of_fmap. specialize (H (key x)). rewrite filter_cons, decide_True in H by done.
      cbn in H. assert (Hz : filter (fun z => key z = key x) l = []) by (apply length_zero_iff_nil; lia).
      rewrite filter_empty in Hz. by apply (Hz y).
    + intros k. specialize (H k). rewrite filter_cons in H. case_decide; cbn in H; lia.
Qed.

Lemma no_duplicate_issues key code_ message items :
  duplicate_issues key code_ message items = [] <-> NoDup ((fun i => key i.2) <$> items).
Proof.
  unfold duplicate_issues. rewrite fmap_empty, filter_empty, NoDup_by_key. split.
  - intros H k. destruct (decide (filter (fun x => key x.2 = k) items = [])) as [->|Hne]; [cbn; lia|].
    apply Nat.nlt_ge. apply (H (k, filter (fun x => key x.2 = k) items)). rewrite sort_by_elem.
    by rewrite group_by_elem.
  - intros H [k g]. rewrite sort_by_elem, group_by_elem. intros [-> _]. cbn. specialize (H k). lia.
Qed.

Lemma no_crossing {A} (key : A -> string) (training evaluation : list A) :
  crossing key training evaluation = [] <-> forall t e, t ∈ training -> e ∈ evaluation -> key t <> key e.
Proof.
  unfold crossing. rewrite sort_by_empty. rewrite <-list_empty. setoid_rewrite elem_of_remove_dups. split.
  - intros H t e Ht He E. apply (H (key t)). rewrite list_elem_of_filter. split; [|by apply list_elem_of_fmap_2].
    rewrite E. by apply list_elem_of_fmap_2.
  - intros H k. rewrite list_elem_of_filter, !list_elem_of_fmap. intros ((e & Ee & He) & (t & Et & Ht)).
    apply (H t e Ht He). congruence.
Qed.

Lemma remove_dups_le_one {A} `{EqDecision A} (l : list A) :
  (length (remove_dups l) <= 1)%nat <-> forall x y, x ∈ l -> y ∈ l -> x = y.
Proof.
  split.
  - intros H x y Hx Hy. rewrite <-elem_of_remove_dups in Hx, Hy.
    destruct (remove_dups l) as [|a [|b r]]; cbn in H; [by apply not_elem_of_nil in Hx| |lia].
    apply list_elem_of_singleton in Hx, Hy. congruence.
  - intros H. pose proof (NoDup_remove_dups l) as Hn.
    assert (Hr : forall x y, x ∈ remove_dups l -> y ∈ remove_dups l -> x = y)
      by (intros x y; rewrite !elem_of_remove_dups; apply H).
    destruct (remove_dups l) as [|a [|b r]]; cbn; [lia..|]. exfalso.
    apply NoDup_cons in Hn as [Ha _]. apply Ha. rewrite (Hr a b); [|left|right; left]. left.
Qed.

Lemma no_normalized_duplicates scans :
  normalized_duplicate_issues scans = []
  <-> forall s s', s ∈ scans -> s' ∈ scans ->
        fp_token_sha256 (sn_fingerprint s) = fp_token_sha256 (sn_fingerprint s') ->
        cs_sha256 (sn_source s) = cs_sha256 (sn_source s').
Proof.
  unfold normalized_duplicate_issues. rewrite fmap_empty, filter_empty. split.
  - intros H s s' Hs Hs' E. set (g := filter (fun x => fp_token_sha256 (sn_fingerprint x) = fp_token_sha256 (sn_fingerprint s')) scans).
    assert (Hin : forall x, x ∈ g <-> fp_token_sha256 (sn_fingerprint x) = fp_token_sha256 (sn_fingerprint s') /\ x ∈ scans)
      by (intros x; unfold g; by rewrite list_elem_of_filter).
    assert (Hsg : s ∈ g) by by apply Hin. assert (Hsg' : s' ∈ g) by by apply Hin.
    assert (Hle : (length (remove_dups ((fun s => cs_sha256 (sn_source s)) <$> g)) <= 1)%nat).
    { apply Nat.nlt_ge. intros Hlt. apply (H (fp_token_sha256 (sn_fingerprint s'), g)).
      - rewrite sort_by_elem, group_by_elem. split; [done|]. intros Eg. rewrite Eg in Hsg. by apply not_elem_of_nil in Hsg.
      - cbn. split; [|done]. pose proof (remove_dups_length_le ((fun s => cs_sha256 (sn_source s)) <$> g)) as Hl.
        rewrite length_fmap in Hl. lia. }
    rewrite remove_dups_le_one in Hle.
    apply Hle; [exact (list_elem_of_fmap_2 (fun s => cs_sha256 (sn_source s)) _ _ Hsg)|
                exact (list_elem_of_fmap_2 (fun s => cs_sha256 (sn_source s)) _ _ Hsg')].
  - intros H [k g]. rewrite sort_by_elem, group_by_elem. cbn. intros [-> _] [_ Hlt].
    apply Nat.lt_nge in Hlt. apply Hlt, remove_dups_le_one.
    intros x y (s & -> & Hs)%list_elem_of_fmap (s' & -> & Hs')%list_elem_of_fmap.
    rewrite list_elem_of_filter in Hs, Hs'. destruct Hs as [<- Hs], Hs' as [E Hs']. by apply H.
Qed.

Lemma no_family_issues denied training evaluation :
  family_issues denied training evaluation = []
  <-> (forall f, f ∈ training -> f.1 ∉ denied)
      /\ forall t e, t ∈ training -> e ∈ evaluation -> t.1 <> e.1.
Proof.
  unfold family_issues. rewrite app_nil, !fmap_empty, filter_empty, no_crossing. done.
Qed.

Lemma no_structural_issues training evaluation items :
  structural_issues training evaluation items = []
  <-> NoDup ((fun i => cs_source_id i.2) <$> items) /\ NoDup ((fun i => cs_sha256 i.2) <$> items)
      /\ training <> [] /\ zlen training * zlen evaluation <= MAX_FUZZY_COMPARISONS
      /\ forall t e, t ∈ training -> e ∈ evaluation ->
           cs_contamination_group t.2 <> cs_contamination_group e.2
           /\ cs_lineage_group t.2 <> cs_lineage_group e.2 /\ cs_clone_group t.2 <> cs_clone_group e.2.
Proof.
  unfold structural_issues, group_cross_split_issues.
  rewrite !app_nil, !no_duplicate_issues, !fmap_empty, !no_crossing.
  assert (Ht : (if bool_decide (length training = 0%nat)
                then [issue error "NO_TRAINING_SOURCES" "candidate corpus contains no training-split sources" []] else []) = []
               <-> training <> []).
  { destruct training; [by rewrite bool_decide_eq_true_2|]. by rewrite bool_decide_eq_false_2. }
  rewrite Ht. destruct (Z.ltb_spec MAX_FUZZY_COMPARISONS (zlen training * zlen evaluation)); naive_solver lia.
Qed.

Lemma no_scan_issues decimal policy i :
  scan_issues decimal policy i = [] <-> exists s, scan_source decimal policy i = Ok s /\ too_short policy s = false.
Proof.
  unfold scan_issues. destruct (scan_source decimal policy i) as [s|]; [|split; [done|by intros (? & ? & _)]].
  destruct (too_short policy s) eqn:E; (split; [try done|]).
  - intros (s' & [= <-] & E'). congruence.
  - intros _. by exists s.
  - done.
Qed.

(** ** Scans *)
Definition scanned (decimal : string -> bool) (policy : CorpusAuditPolicy) (i : string * LoadedCorpusSource) (s : Scan) : Prop :=
  scan_source decimal policy i = Ok s /\ too_short policy s = false.

Lemma scan_source_inv decimal policy i s : scan_source decimal policy i = Ok s ->
  tokenize_c decimal (ls_content i.2) = Ok (sn_tokens s) /\ sn_corpus_id s = i.1 /\ sn_loaded s = i.2
  /\ sn_ngrams s = token_ngrams (sn_tokens s) (co_ngram_size policy)
  /\ fp_token_sha256 (sn_fingerprint s) = sequence_digest (sn_tokens s).
Proof.
  unfold scan_source. intros H. apply bind_ok in H as (tokens & Ht & H). injection H as <-. done.
Qed.

Lemma scanned_key decimal policy i s : scan_source decimal policy i = Ok s -> scan_key s = loaded_key i.
Proof. intros (_ & E1 & E2 & _)%scan_source_inv. unfold scan_key, loaded_key, sn_source. by rewrite E1, E2. Qed.

Lemma scan_all_sub decimal policy items s : s ∈ scan_all decimal policy items ->
  exists i, i ∈ items /\ scan_source decimal policy i = Ok s.
Proof.
  unfold scan_all. rewrite list_elem_of_omap. intros (i & Hi & E). exists i. split; [done|].
  by destruct (scan_source decimal policy i); [injection E as ->|].
Qed.

Lemma scan_all_ok decimal policy items : (forall i, i ∈ items -> exists s, scanned decimal policy i s) ->
  Forall2 (scanned decimal policy) items (scan_all decimal policy items).
Proof.
  induction items as [|i items IH]; intros H; [constructor|]. destruct (H i ltac:(left)) as (s & Hs & Ht).
  unfold scan_all. cbn [omap list_omap]. rewrite Hs. constructor; [done|]. apply IH. intros j Hj. apply H. by right.
Qed.

Lemma scan_keys_NoDup decimal policy items : NoDup (loaded_key <$> items) -> NoDup (scan_key <$> scan_all decimal policy items).
Proof.
  induction items as [|i items IH]; cbn; [constructor|]. intros [Hi Hn]%NoDup_cons.
  unfold scan_all. cbn [omap list_omap]. destruct (scan_source decimal policy i) as [s|] eqn:E; [|by apply IH].
  cbn. constructor; [|by apply IH]. intros (s' & Es & Hs')%list_elem_of_fmap. apply Hi.
  apply scan_all_sub in Hs' as (j & Hj & Ej). rewrite <-(scanned_key _ _ _ _ E), Es, (scanned_key _ _ _ _ Ej).
  by apply list_elem_of_fmap_2.
Qed.

Lemma eligible_ok decimal policy items scans sub : Forall2 (scanned decimal policy) items scans ->
  NoDup (scan_key <$> scans) -> (forall i, i ∈ sub -> i ∈ items) ->
  Forall2 (scanned decimal policy) sub (eligible_scans policy scans (as_source <$> sub)).
Proof.
  intros HF Hn. induction sub as [|i sub IH]; intros Hsub; [constructor|].
  assert (Hi : i ∈ items) by (apply Hsub; left).
  apply list_elem_of_lookup in Hi as [k Hk]. destruct (Forall2_lookup_l _ _ _ _ _ HF Hk) as (s & Hs & Hsc).
  apply list_elem_of_lookup_2 in Hs. destruct Hsc as [Es Et].
  unfold eligible_scans. cbn [fmap list_fmap omap list_omap].
  assert (Ek : scan_key s = ((as_source i).1, cs_source_id (as_source i).2)) by exact (scanned_key _ _ _ _ Es).
  destruct (list_find (fun s0 => scan_key s0 = ((as_source i).1, cs_source_id (as_source i).2)) scans) as [[n s']|] eqn:Ef.
  - apply list_find_Some in Ef as (Hn' & Ek' & _). apply list_elem_of_lookup_2 in Hn'.
    assert (s' = s) as ->. { apply (NoDup_key_inj scan_key scans); [done..|]. congruence. }
    rewrite Et. constructor; [done|]. apply IH. intros j Hj. apply Hsub. by right.
  - exfalso. destruct (list_find_elem_of (fun s0 => scan_key s0 = ((as_source i).1, cs_source_id (as_source i).2)) scans s Hs Ek).
    congruence.
Qed.

(** ** Comparisons *)
(** The similarity of two token sequences is below both thresholds. *)
Definition dissimilar (policy : CorpusAuditPolicy) (a b : list string) : Prop :=
  let A := token_ngrams a (co_ngram_size policy) in
  let B := token_ngrams b (co_ngram_size policy) in
  exists jaccard containment,
    itruediv (zlen (shared_ngrams A B)) (zlen (remove_dups (A ++ B)%list)) = Ok jaccard
    /\ itruediv (zlen (shared_ngrams A B)) (Z.min (zlen A) (zlen B)) = Ok containment
    /\ fleb (co_jaccard_threshold policy) jaccard = false
    /\ fleb (co_containment_threshold policy) containment = false.

Definition unlike (policy : CorpusAuditPolicy) (t e : Scan) : Prop :=
  cs_sha256 (sn_source t) <> cs_sha256 (sn_source e)
  /\ fp_token_sha256 (sn_fingerprint t) <> fp_token_sha256 (sn_fingerprint e)
  /\ dissimilar policy (sn_tokens t) (sn_tokens e).

Lemma compare_scans_inv decimal policy i j t e c : scan_source decimal policy i = Ok t -> scan_source decimal policy j = Ok e ->
  compare_scans policy t e = Ok c ->
  (sm_blocking c.1 = false <-> unlike policy t e) /\ (sm_blocking c.1 = false -> c.2 = []).
Proof.
  intros (_ & _ & _ & Nt & _)%scan_source_inv (_ & _ & _ & Ne & _)%scan_source_inv H.
  unfold compare_scans in H. apply bind_ok in H as (jac & Hj & H). apply bind_ok in H as (con & Hc & H). injection H as <-.
  cbn [fst snd sm_blocking]. unfold unlike, dissimilar. rewrite <-Nt, <-Ne. rewrite !orb_false_iff, !bool_decide_eq_false.
  split; [split|].
  - intros [[H1 H2] [H3 H4]]. split; [done|]. split; [done|]. by exists jac, con.
  - intros (H1 & H2 & jac' & con' & Hj' & Hc' & H3 & H4). rewrite Hj in Hj'. rewrite Hc in Hc'.
    injection Hj' as <-. injection Hc' as <-. done.
  - intros [[H1 H2] [H3 H4]]. by rewrite H3, H4.
Qed.

Lemma product_elem {A B} (l : list A) (k : list B) x y : (x, y) ∈ flat_map (fun a => pair a <$> k) l <-> x ∈ l /\ y ∈ k.
Proof.
  rewrite list_elem_of_In, in_flat_map. split.
  - intros (a & Ha & Hin). apply list_elem_of_In, list_elem_of_fmap in Hin as (b & [= -> ->] & Hb).
    by rewrite <-list_elem_of_In in Ha.
  - intros [Hx Hy]. exists x. rewrite <-!list_elem_of_In. split; [done|]. by apply list_elem_of_fmap_2.
Qed.

Lemma product_length {A B} (l : list A) (k : list B) : length (flat_map (fun a => pair a <$> k) l) = (length l * length k)%nat.
Proof. induction l as [|a l IH]; cbn; [done|]. by rewrite length_app, length_fmap, IH. Qed.

Lemma concat_empty {A} (l : list (list A)) : List.concat l = [] <-> forall x, x ∈ l -> x = [].
Proof.
  induction l as [|a l IH]; cbn; [split; [by intros _ x ?%not_elem_of_nil|done]|]. rewrite app_nil, IH.
  split; [intros [-> H] x [->|Hx]%elem_of_cons; auto|]. intros H. split; [apply H; left|]. intros x Hx. apply H. by right.
Qed.

Lemma compared_unlike decimal policy itemsT itemsE scansT scansE compared :
  Forall2 (scanned decimal policy) itemsT scansT -> Forall2 (scanned decimal policy) itemsE scansE ->
  compare_all policy scansT scansE = Ok compared ->
  zlen compared.*1 = zlen itemsT * zlen itemsE
  /\ (existsb sm_blocking compared.*1 = false <-> forall t e, t ∈ scansT -> e ∈ scansE -> unlike policy t e)
  /\ (existsb sm_blocking compared.*1 = false -> List.concat compared.*2 = []).
Proof.
  intros FT FE H%map_result_ok. pose proof (Forall2_length _ _ _ H) as Hl.
  pose proof (Forall2_length _ _ _ FT). pose proof (Forall2_length _ _ _ FE).
  rewrite product_length in Hl. unfold sort_scans in Hl. rewrite !sort_by_length in Hl.
  assert (Hpair : forall t e, (t, e) ∈ flat_map (fun t => pair t <$> sort_scans scansE) (sort_scans scansT)
            <-> t ∈ scansT /\ e ∈ scansE).
  { intros t e. rewrite product_elem. unfold sort_scans. by rewrite !sort_by_elem. }
  assert (Hinv : forall t e c, t ∈ scansT -> e ∈ scansE -> compare_scans policy t e = Ok c ->
            (sm_blocking c.1 = false <-> unlike policy t e) /\ (sm_blocking c.1 = false -> c.2 = [])).
  { intros t e c Ht He. destruct (forall2_right _ _ _ _ FT Ht) as (i & _ & Hi & _).
    destruct (forall2_right _ _ _ _ FE He) as (j & _ & Hj & _). by apply (compare_scans_inv decimal policy i j). }
  split; [unfold zlen; rewrite length_fmap; lia|]. rewrite existsb_false. split; [split|].
  - intros Hb t e Ht He. destruct (forall2_left _ _ _ (t, e) H) as (c & Hc & Ec); [by apply Hpair|].
    apply (Hinv t e c Ht He Ec), Hb. by apply list_elem_of_fmap_2.
  - intros Hu s (c & -> & Hc)%list_elem_of_fmap. destruct (forall2_right _ _ _ _ H Hc) as ([t e] & Hte & Ec).
    apply Hpair in Hte as [Ht He]. by apply (Hinv t e c Ht He Ec), Hu.
  - intros Hb. apply concat_empty. intros s (c & -> & Hc)%list_elem_of_fmap.
    destruct (forall2_right _ _ _ _ H Hc) as ([t e] & Hte & Ec). apply Hpair in Hte as [Ht He].
    apply (Hinv t e c Ht He Ec), Hb. by apply list_elem_of_fmap_2.
Qed.

(** ** Clean inputs *)
Definition in_split (splits : list string) (i : string * LoadedCorpusSource) : Prop := cs_split (ls_source i.2) ∈ splits.
#[export] Instance in_split_dec splits i : Decision (in_split splits i) := decide (cs_split (ls_source i.2) ∈ splits).
Definition family_of (T : TextOps) (i : string * LoadedCorpusSource) : result string string :=
  normalize_repository_family T (cp_repository (cs_provenance (ls_source i.2))).
Definition tokens_of (decimal : string -> bool) (i : string * LoadedCorpusSource) : result string (list string) :=
  tokenize_c decimal (ls_content i.2).
Definition digest_of (i : string * LoadedCorpusSource) : string := cs_sha256 (ls_source i.2).

(** What a passing audit certifies of the combined sources. *)
Record clean (decimal : string -> bool) (T : TextOps) (policy : CorpusAuditPolicy)
    (items : list (string * LoadedCorpusSource)) : Prop := {
  cl_ids : NoDup ((fun i => cs_source_id (ls_source i.2)) <$> items);
  cl_digests : NoDup (digest_of <$> items);
  cl_training : exists t, t ∈ items /\ in_split (co_training_splits policy) t;
  cl_budget : zlen (filter (in_split (co_training_splits policy)) items)
              * zlen (filter (in_split (co_evaluation_splits policy)) items) <= MAX_FUZZY_COMPARISONS;
  cl_denied t d : t ∈ items -> in_split (co_training_splits policy) t ->
    d ∈ co_denied_training_repository_families policy -> family_of T t <> normalize_repository_family T d;
  cl_tokens i : i ∈ items -> exists tokens, tokens_of decimal i = Ok tokens /\ co_minimum_tokens policy <= zlen tokens;
  cl_distinct i j a b : i ∈ items -> j ∈ items -> tokens_of decimal i = Ok a -> tokens_of decimal j = Ok b ->
    sequence_digest a = sequence_digest b -> digest_of i = digest_of j;
  cl_pairs t e : t ∈ items -> in_split (co_training_splits policy) t ->
    e ∈ items -> in_split (co_evaluation_splits policy) e ->
    cs_contamination_group (ls_source t.2) <> cs_contamination_group (ls_source e.2)
    /\ cs_lineage_group (ls_source t.2) <> cs_lineage_group (ls_source e.2)
    /\ cs_clone_group (ls_source t.2) <> cs_clone_group (ls_source e.2)
    /\ family_of T t <> family_of T e
    /\ forall a b, tokens_of decimal t = Ok a -> tokens_of decimal e = Ok b -> dissimilar policy a b
}.

Lemma filter_as_source splits (items : list (string * LoadedCorpusSource)) :
  filter (fun i => cs_split i.2 ∈ splits) (as_source <$> items) = as_source <$> filter (in_split splits) items.
Proof.
  induction items as [|i items IH]; [done|]. cbn [fmap list_fmap]. rewrite !filter_cons.
  destruct (decide (cs_split (as_source i).2 ∈ splits)) as [H|H], (decide (in_split splits i)) as [H'|H']; try done;
    cbn [fmap list_fmap]; by rewrite IH.
Qed.

Lemma scanned_iff decimal policy i :
  (exists s, scanned decimal policy i s)
  <-> exists tokens, tokens_of decimal i = Ok tokens /\ co_minimum_tokens policy <= zlen tokens.
Proof.
  unfold scanned, scan_source, tokens_of. destruct (tokenize_c decimal (ls_content i.2)) as [tokens|]; cbn.
  - split.
    + intros (s & [= <-] & H). exists tokens. unfold too_short in H. cbn in H. split; [done|lia].
    + intros (tokens' & [= <-] & H). eexists. split; [reflexivity|]. unfold too_short. cbn. lia.
  - split; [by intros (? & ? & _)|by intros (? & ? & _)].
Qed.

Lemma families_inv T (items : list (string * LoadedCorpusSource)) tf : map_result (item_family T) (as_source <$> items) = Ok tf ->
  (forall f, f ∈ tf.*1 <-> exists i, i ∈ items /\ family_of T i = Ok f) /\ forall i, i ∈ items -> exists f, family_of T i = Ok f.
Proof.
  intros H%map_result_ok.
  assert (Hf : forall i p, item_family T (as_source i) = Ok p -> family_of T i = Ok p.1).
  { intros i p E. unfold item_family in E. apply bind_ok in E as (f & Ef & E). injection E as <-. exact Ef. }
  assert (HF : Forall2 (fun i p => family_of T i = Ok p.1) items tf).
  { clear -H Hf. remember (as_source <$> items) as k eqn:Ek. revert items Ek.
    induction H as [|x p xs ps E H IH]; intros [|i items] Ek; try done.
    injection Ek as -> ->. constructor; [by apply Hf|by apply IH]. }
  split.
  - intros f. rewrite list_elem_of_fmap. split.
    + intros (p & -> & Hp). destruct (forall2_right _ _ _ _ HF Hp) as (i & Hi & E). eauto.
    + intros (i & Hi & E). destruct (forall2_left _ _ _ _ HF Hi) as (p & Hp & E'). exists p. split; [congruence|done].
  - intros i Hi. destruct (forall2_left _ _ _ _ HF Hi) as (p & _ & E). eauto.
Qed.

Section Verdict.
Context (decimal : string -> bool) (T : TextOps) (policy : CorpusAuditPolicy) (items : list (string * LoadedCorpusSource)).
Context (Hkeys : NoDup (loaded_key <$> items)).
Context (Hsplit : forall i, in_split (co_training_splits policy) i -> in_split (co_evaluation_splits policy) i -> False).

Let train := filter (in_split (co_training_splits policy)) items.
Let eval := filter (in_split (co_evaluation_splits policy)) items.
Let ordered := sort_by (fun a b => pair_key_ltb (loaded_key a) (loaded_key b)) items.
Let scans := scan_all decimal policy ordered.

Lemma ordered_elem i : i ∈ ordered <-> i ∈ items.
Proof. apply sort_by_elem. Qed.

Lemma scans_NoDup : NoDup (scan_key <$> scans).
Proof. apply scan_keys_NoDup. unfold ordered. by rewrite (sort_by_perm _ items). Qed.

Lemma side_elem splits i : i ∈ filter (in_split splits) items <-> i ∈ items /\ in_split splits i.
Proof. rewrite list_elem_of_filter. tauto. Qed.

Definition all_scanned : Prop := forall i, i ∈ items -> exists s, scanned decimal policy i s.

Lemma all_scanned_iff : flat_map (scan_issues decimal policy) ordered = [] <-> all_scanned.
Proof.
  rewrite flat_map_concat_map, concat_empty. split.
  - intros H i Hi. apply no_scan_issues, H, list_elem_of_In, in_map, list_elem_of_In, ordered_elem, Hi.
  - intros H x Hx. apply list_elem_of_In, in_map_iff in Hx as (i & <- & Hi). apply no_scan_issues, H.
    by apply ordered_elem, list_elem_of_In.
Qed.

Lemma scans_ok : all_scanned -> Forall2 (scanned decimal policy) ordered scans.
Proof. intros H. apply scan_all_ok. intros i Hi. apply H. by apply ordered_elem. Qed.

Lemma side_ok splits : all_scanned ->
  Forall2 (scanned decimal policy) (filter (in_split splits) items)
    (eligible_scans policy scans (as_source <$> filter (in_split splits) items)).
Proof.
  intros H. apply (eligible_ok _ _ ordered); [by apply scans_ok|apply scans_NoDup|].
  intros i Hi. by apply ordered_elem, (side_elem splits i).
Qed.

(** Pairs of scans against pairs of items. *)
Lemma pairs_iff : all_scanned -> NoDup (digest_of <$> items) ->
  (forall s s', s ∈ scans -> s' ∈ scans -> fp_token_sha256 (sn_fingerprint s) = fp_token_sha256 (sn_fingerprint s') ->
     cs_sha256 (sn_source s) = cs_sha256 (sn_source s')) ->
  (forall t e, t ∈ eligible_scans policy scans (as_source <$> train) -> e ∈ eligible_scans policy scans (as_source <$> eval) ->
     unlike policy t e)
  <-> forall t e a b, t ∈ train -> e ∈ eval -> tokens_of decimal t = Ok a -> tokens_of decimal e = Ok b -> dissimilar policy a b.
Proof.
  intros Ha Hd Hn. pose proof (side_ok (co_training_splits policy) Ha) as FT. pose proof (side_ok (co_evaluation_splits policy) Ha) as FE.
  pose proof (scans_ok Ha) as FA. fold train in FT. fold eval in FE.
  assert (Htok : forall i s a, scanned decimal policy i s -> tokens_of decimal i = Ok a -> sn_tokens s = a).
  { intros i s a [E _] Et. apply scan_source_inv in E as (E & _). unfold tokens_of in Et. congruence. }
  split.
  - intros H t e a b Ht He Ea Eb. destruct (forall2_left _ _ _ _ FT Ht) as (st & Hst & St).
    destruct (forall2_left _ _ _ _ FE He) as (se & Hse & Se). destruct (H st se Hst Hse) as (_ & _ & H').
    by rewrite (Htok t st a St Ea), (Htok e se b Se Eb) in H'.
  - intros H st se Hst Hse. destruct (forall2_right _ _ _ _ FT Hst) as (t & Ht & St).
    destruct (forall2_right _ _ _ _ FE Hse) as (e & He & Se).
    pose proof St as [Est _]. pose proof Se as [Ese _]. pose proof (scan_source_inv _ _ _ _ Est) as (Et & _ & Lt & _ & Ft).
    pose proof (scan_source_inv _ _ _ _ Ese) as (Ee & _ & Le & _ & Fe).
    apply side_elem in Ht as [Ht Pt], He as [He Pe].
    assert (Hne : cs_sha256 (sn_source st) <> cs_sha256 (sn_source se)).
    { unfold sn_source. rewrite Lt, Le. intros E. apply (Hsplit t); [done|].
      by rewrite <-(NoDup_key_inj digest_of items t e Hd He Ht (eq_sym E)). }
    split; [done|]. split.
    + intros E. apply Hne.
      destruct (forall2_left _ _ _ t FA) as (st' & Hst' & Est'); [by apply ordered_elem|].
      destruct (forall2_left _ _ _ e FA) as (se' & Hse' & Ese'); [by apply ordered_elem|].
      destruct Est' as [Est' _], Ese' as [Ese' _]. rewrite Est in Est'. rewrite Ese in Ese'.
      injection Est' as <-. injection Ese' as <-. by apply Hn.
    + apply (H t e); [by apply side_elem|by apply side_elem|exact Et|exact Ee].
Qed.

(** The verdict, as the conditions the code tests. *)
Definition passes (denied : list string) (tf ef : list (string * string)) (compared : list (CorpusSimilarity * list CorpusAuditIssue)) : Prop :=
  (structural_issues (as_source <$> train) (as_source <$> eval) (as_source <$> items)
   ++ family_issues denied tf ef ++ flat_map (scan_issues decimal policy) ordered
   ++ normalized_duplicate_issues scans ++ List.concat compared.*2)%list = []
  /\ zlen scans = zlen items /\ zlen (filter (fun s => too_short policy s = false) scans) = zlen items
  /\ zlen compared.*1 = zlen train * zlen eval /\ existsb sm_blocking compared.*1 = false.

Definition within_budget : Prop := zlen train * zlen eval <= MAX_FUZZY_COMPARISONS.

Lemma families_iff denied tf ef :
  map_result (normalize_repository_family T) (co_denied_training_repository_families policy) = Ok denied ->
  map_result (item_family T) (as_source <$> train) = Ok tf -> map_result (item_family T) (as_source <$> eval) = Ok ef ->
  family_issues denied tf ef = []
  <-> (forall t d, t ∈ train -> d ∈ co_denied_training_repository_families policy ->
         family_of T t <> normalize_repository_family T d)
      /\ forall t e, t ∈ train -> e ∈ eval -> family_of T t <> family_of T e.
Proof.
  intros Hd%map_result_ok [Ht Ht']%families_inv [He He']%families_inv. rewrite no_family_issues.
  assert (Hdn : forall f, f ∈ denied <-> exists d, d ∈ co_denied_training_repository_families policy /\ normalize_repository_family T d = Ok f).
  { intros f. split; [intros Hf; by apply (forall2_right _ _ _ _ Hd)|]. intros (d & Hin & E).
    destruct (forall2_left _ _ _ _ Hd Hin) as (f' & Hf' & E'). rewrite E in E'. by injection E' as ->. }
  assert (Hp : forall (l : list (string * string)) p, p ∈ l -> p.1 ∈ l.*1) by (intros l p; apply list_elem_of_fmap_2).
  split.
  - intros [H1 H2]. split.
    + intros t d Hin Hdd E. destruct (Ht' t Hin) as (f & Ef).
      assert (Hf : f ∈ tf.*1) by (apply Ht; eauto). apply list_elem_of_fmap in Hf as (p & -> & Hpp).
      apply (H1 p Hpp), Hdn. exists d. by rewrite <-E.
    + intros t e Hin Hie E. destruct (Ht' t Hin) as (f & Ef).
      assert (Hf : f ∈ tf.*1) by (apply Ht; eauto). assert (Hg : f ∈ ef.*1) by (apply He; exists e; by rewrite <-E).
      apply list_elem_of_fmap in Hf as (p & -> & Hpp), Hg as (q & Eq & Hq). by apply (H2 p q Hpp Hq).
  - intros [H1 H2]. split.
    + intros p Hpp (d & Hdd & Ed)%Hdn. destruct (proj1 (Ht p.1) (Hp _ _ Hpp)) as (t & Hin & E).
      apply (H1 t d Hin Hdd). congruence.
    + intros p q Hpp Hq E. destruct (proj1 (Ht p.1) (Hp _ _ Hpp)) as (t & Hin & E1).
      destruct (proj1 (He q.1) (Hp _ _ Hq)) as (e & Hie & E2). apply (H2 t e Hin Hie). congruence.
Qed.

Lemma distinct_iff : all_scanned ->
  normalized_duplicate_issues scans = []
  <-> forall i j a b, i ∈ items -> j ∈ items -> tokens_of decimal i = Ok a -> tokens_of decimal j = Ok b ->
        sequence_digest a = sequence_digest b -> digest_of i = digest_of j.
Proof.
  intros Ha%scans_ok. rewrite no_normalized_duplicates. split.
  - intros H i j a b Hi Hj Ea Eb E. rewrite <-ordered_elem in Hi, Hj.
    destruct (forall2_left _ _ _ _ Ha Hi) as (s & Hs & [Es _]), (forall2_left _ _ _ _ Ha Hj) as (s' & Hs' & [Es' _]).
    pose proof (scan_source_inv _ _ _ _ Es) as (T1 & _ & L1 & _ & F1). pose proof (scan_source_inv _ _ _ _ Es') as (T2 & _ & L2 & _ & F2).
    unfold tokens_of in Ea, Eb. specialize (H s s' Hs Hs'). unfold sn_source in H. rewrite F1, F2, L1, L2 in H.
    unfold digest_of. apply H. congruence.
  - intros H s s' Hs Hs' E.
    destruct (forall2_right _ _ _ _ Ha Hs) as (i & Hi & [Es _]), (forall2_right _ _ _ _ Ha Hs') as (j & Hj & [Es' _]).
    rewrite ordered_elem in Hi, Hj.
    pose proof (scan_source_inv _ _ _ _ Es) as (T1 & _ & L1 & _ & F1). pose proof (scan_source_inv _ _ _ _ Es') as (T2 & _ & L2 & _ & F2).
    unfold sn_source. rewrite L1, L2. apply (H i j _ _ Hi Hj T1 T2). congruence.
Qed.

Lemma structural_iff :
  structural_issues (as_source <$> train) (as_source <$> eval) (as_source <$> items) = []
  <-> NoDup ((fun i => cs_source_id (ls_source i.2)) <$> items) /\ NoDup (digest_of <$> items)
      /\ train <> [] /\ within_budget
      /\ forall t e, t ∈ train -> e ∈ eval ->
           cs_contamination_group (ls_source t.2) <> cs_contamination_group (ls_source e.2)
           /\ cs_lineage_group (ls_source t.2) <> cs_lineage_group (ls_source e.2)
           /\ cs_clone_group (ls_source t.2) <> cs_clone_group (ls_source e.2).
Proof.
  rewrite no_structural_issues, <-!list_fmap_compose, fmap_empty. unfold within_budget, zlen. rewrite !length_fmap.
  repeat apply and_iff_compat_l. split.
  - intros H t e Ht He. apply (H (as_source t) (as_source e)); by apply list_elem_of_fmap_2.
  - intros H t e (t' & -> & Ht)%list_elem_of_fmap (e' & -> & He)%list_elem_of_fmap. by apply H.
Qed.

Lemma counts_ok : all_scanned ->
  zlen scans = zlen items /\ zlen (filter (fun s => too_short policy s = false) scans) = zlen items.
Proof.
  intros Ha%scans_ok. pose proof (Forall2_length _ _ _ Ha) as Hl. unfold ordered in Hl at 1. rewrite sort_by_length in Hl.
  unfold zlen. rewrite Hl. split; [done|]. do 2 f_equal.
  assert (H : forall s, s ∈ scans -> too_short policy s = false) by (intros s Hs; by destruct (forall2_right _ _ _ _ Ha Hs) as (i & _ & _ & ?)).
  clear -H. induction scans as [|s l IH]; [done|]. rewrite filter_cons, decide_True by (apply H; left).
  f_equal. apply IH. intros s' Hs'. apply H. by right.
Qed.

Lemma verdict denied tf ef compared :
  map_result (normalize_repository_family T) (co_denied_training_repository_families policy) = Ok denied ->
  map_result (item_family T) (as_source <$> train) = Ok tf -> map_result (item_family T) (as_source <$> eval) = Ok ef ->
  (within_budget -> compare_all policy (eligible_scans policy scans (as_source <$> train))
                      (eligible_scans policy scans (as_source <$> eval)) = Ok compared) ->
  passes denied tf ef compared <-> clean decimal T policy items.
Proof.
  intros Hd Ht He Hc. unfold passes. rewrite !app_nil, (families_iff _ _ _ Hd Ht He), all_scanned_iff, structural_iff.
  assert (Hmem : forall splits i, i ∈ filter (in_split splits) items <-> i ∈ items /\ in_split splits i) by apply side_elem.
  assert (Hsc : (forall i, i ∈ items -> exists tokens, tokens_of decimal i = Ok tokens /\ co_minimum_tokens policy <= zlen tokens) <-> all_scanned)
    by (unfold all_scanned; by setoid_rewrite scanned_iff).
  split.
  - intros (((Hi & Hdg & Hne & Hb & Hg) & (Hf1 & Hf2) & Ha & Hnd & _) & _ & _ & _ & Hbl).
    pose proof (Hc Hb) as Hcmp. destruct (compared_unlike _ _ _ _ _ _ _ (side_ok _ Ha) (side_ok _ Ha) Hcmp) as (_ & Hu & _).
    pose proof (proj1 (pairs_iff Ha Hdg (proj1 (no_normalized_duplicates _) Hnd)) (proj1 Hu Hbl)) as Hpr.
    rewrite distinct_iff in Hnd by done. pose proof (proj2 Hsc Ha) as Htk. split; try done.
    + destruct train as [|t l] eqn:E; [done|]. exists t. apply Hmem. fold train. rewrite E. left.
    + intros t d Hti Hts Hdd. apply Hf1; [|done]. by apply Hmem.
    + intros t e Hti Hts Hei Hes. assert (t ∈ train) by by apply Hmem. assert (e ∈ eval) by by apply Hmem.
      destruct (Hg t e) as (? & ? & ?); [done..|]. split_and!; auto. intros a b. by apply Hpr.
  - intros [Hi Hdg (t0 & Ht0 & Hs0) Hb Hdn Htk Hds Hp]. pose proof (proj1 Hsc Htk) as Ha. clear Htk.
    destruct (counts_ok Ha) as [Hn1 Hn2].
    assert (Hcmp := Hc Hb). destruct (compared_unlike _ _ _ _ _ _ _ (side_ok _ Ha) (side_ok _ Ha) Hcmp) as (Hl & Hu & Hi2).
    assert (Hnd : normalized_duplicate_issues scans = []) by by apply distinct_iff.
    assert (Hbl : existsb sm_blocking compared.*1 = false).
    { apply Hu, pairs_iff; [done|done|by apply no_normalized_duplicates|].
      intros t e a b [? ?]%Hmem [? ?]%Hmem. by apply (Hp t e). }
    split; [|done]. split; [|split; [|split; [done|split; [done|by apply Hi2]]]].
    + split; [done|]. split; [done|]. split; [|split; [done|]].
      * intros E. assert (Hin : t0 ∈ train) by by apply Hmem. rewrite E in Hin. by apply not_elem_of_nil in Hin.
      * intros t e [? ?]%Hmem [? ?]%Hmem. destruct (Hp t e) as (? & ? & ? & _); done.
    + split; [intros t d [? ?]%Hmem; by apply Hdn|]. intros t e [? ?]%Hmem [? ?]%Hmem. by apply (Hp t e).
Qed.
End Verdict.

(** ** Lengths *)
Lemma str_len_bound s : 0 <= str_len s <= Z.of_nat (String.length s).
Proof. induction s as [|c s IH]; cbn [str_len String.length]; [lia|]. case_match; lia. Qed.

(** A text that starts with an ASCII character and has at most [n] bytes. *)
Definition text_within (n : Z) (s : string) : Prop :=
  Z.of_nat (String.length s) <= n /\ match s with String c _ => (128 <=? code c) = false | EmptyString => False end.

Lemma text_len n hi s : text_within n s -> n <= hi -> len_between 1 hi s = true.
Proof.
  intros [Hl Hc] Hn. unfold len_between. apply andb_true_iff. pose proof (str_len_bound s).
  destruct s as [|c s]; [done|]. split; [|lia]. cbn [str_len]. rewrite Hc. cbn. pose proof (str_len_bound s). lia.
Qed.

Lemma append_len a b : Z.of_nat (String.length (a ++ b)) = Z.of_nat (String.length a) + Z.of_nat (String.length b).
Proof. rewrite JsonFacts.JsonFacts.str_length_app. lia. Qed.

Lemma text_append n m a b : text_within n a -> Z.of_nat (String.length b) <= m -> text_within (n + m) (a ++ b).
Proof. intros [Hl Hc] Hb. split; [rewrite append_len; lia|]. by destruct a. Qed.

Lemma stable_id_text s : is_stable_id s = true -> text_within 128 s.
Proof.
  destruct s as [|c s]; [done|]. cbn [is_stable_id]. intros [[Hc _]%andb_true_iff Hl%Nat.leb_le]%andb_true_iff.
  split; [cbn [String.length]; lia|]. unfold is_alnum, is_digit in Hc. apply Z.leb_gt.
  repeat (apply orb_true_iff in Hc as [Hc|Hc]); apply andb_true_iff in Hc as [_ Hc]; apply Z.leb_le in Hc; lia.
Qed.

Lemma sha256_length s : is_sha256 s = true -> String.length s = 64%nat.
Proof. intros [H _]%andb_true_iff. by apply Nat.eqb_eq in H. Qed.

Lemma digits_length fuel z acc : (String.length (digits_of fuel z acc) <= fuel + String.length acc)%nat.
Proof.
  revert z acc. induction fuel as [|fuel IH]; intros z acc; cbn [digits_of]; [lia|].
  case_match; [cbn; lia|]. rewrite IH. cbn. lia.
Qed.

Lemma string_of_Z_length z : 0 <= z < 2 ^ 40 -> Z.of_nat (String.length (string_of_Z z)) <= 41.
Proof.
  intros Hz. unfold string_of_Z. rewrite append_len. pose proof (digits_length (S (Z.to_nat (Z.log2 (Z.abs z)))) (Z.abs z) "").
  assert (Hl : Z.log2 (Z.abs z) < 40).
  { rewrite Z.abs_eq by lia. destruct (Z.eq_dec z 0) as [->|]; [cbn; lia|]. apply Z.log2_lt_pow2; lia. }
  destruct (Z.ltb_spec z 0); [lia|]. cbn [String.length] in *. lia.
Qed.

Lemma join_zeros n : String.length (join (replicate n "0")) = n.
Proof.
  unfold join. induction n as [|n IH]; [done|]. destruct n as [|n]; [done|]. cbn [replicate] in *.
  change (String.concat "" ("0" :: "0" :: replicate n "0")) with ("0" ++ "" ++ String.concat "" ("0" :: replicate n "0")).
  rewrite !JsonFacts.JsonFacts.str_length_app, IH. done.
Qed.

Lemma fixed6_length x : (0 <= fq x <= 1)%Q -> Z.of_nat (String.length (fixed6 x)) <= 89.
Proof.
  intros [H0 H1]. unfold fixed6. set (n := nearest_even (fq x * 1000000)).
  assert (Hn : 0 <= n <= 1000000).
  { rewrite <-(nearest_even_Z 0) at 1. rewrite <-(nearest_even_Z 1000000). unfold n.
    split; apply nearest_even_le; [change (inject_Z 0) with 0%Q|change (inject_Z 1000000) with 1000000%Q]; lra. }
  pose proof (string_of_Z_length (n / 1000000) ltac:(split; [apply Z.div_pos; lia|apply Z.div_lt_upper_bound; lia])).
  pose proof (string_of_Z_length (n mod 1000000) ltac:(pose proof (Z.mod_pos_bound n 1000000); lia)).
  rewrite !append_len, join_zeros. cbn [String.length]. lia.
Qed.

Lemma tokenize_error decimal content e : tokenize_c decimal content = Err e -> Z.of_nat (String.length e) <= 64.
Proof.
  assert (Hs : forall m l e, strip_c m l = Err e -> Z.of_nat (String.length e) <= 64).
  { assert (He : forall w r e', emit w r = Err e' -> r = Err e')
      by (intros w r e'; unfold emit; destruct r; [done|]; by intros [= ->]).
    intros m l. remember (length l) as n eqn:En. revert m l En.
    induction n as [n IH] using (well_founded_induction lt_wf). intros m l -> e'.
    destruct m, l as [|c [|d rest]]; cbn [strip_c]; repeat case_match; intros Hx; repeat apply He in Hx; try done;
      try (by injection Hx as <-); by eapply IH; [|reflexivity|exact Hx]; cbn; lia. }
  unfold tokenize_c. destruct (Text.Text.decode_utf8 content); [|intros [= <-]; cbn; lia].
  intros H. destruct (strip_c_comments _) eqn:E; [done|]. injection H as <-. by eapply Hs.
Qed.

(** ** Accepted inputs *)
Record source_ok (T : TextOps) (s : CorpusSource) : Prop := {
  so_id : is_stable_id (cs_source_id s) = true;
  so_digest : is_sha256 (cs_sha256 s) = true;
  so_groups : is_stable_id (cs_contamination_group s) = true /\ is_stable_id (cs_lineage_group s) = true
              /\ is_stable_id (cs_clone_group s) = true;
  so_family : exists f, normalize_repository_family T (cp_repository (cs_provenance s)) = Ok f
}.

Lemma source_validated T s s' : validate_CorpusSource T s = Ok s' -> source_ok T s'.
Proof.
  intros H. unfold validate_CorpusSource in H. peel H. apply ok_inj in H as <-.
  match goal with E : validate_CorpusProvenance _ _ = Ok _ |- _ => rename E into Hp end.
  unfold validate_CorpusProvenance in Hp. peel Hp. apply ok_inj in Hp as <-.
  match goal with E : normalize_repository_identity _ _ = Ok _ |- _ => rename E into Hn end.
  split; cbn; [done|done|done|]. unfold normalize_repository_family. rewrite Hn. cbn. eauto.
Qed.

Record manifest_ok (T : TextOps) (m : CorpusManifest) : Prop := {
  mo_id : is_stable_id (cm_corpus_id m) = true;
  mo_count : 1 <= zlen (cm_sources m) <= 100000;
  mo_sources : Forall (source_ok T) (cm_sources m);
  mo_unique : NoDup (cs_source_id <$> cm_sources m);
  mo_benchmark : cm_manifest_kind m = "benchmark" -> forall s, s ∈ cm_sources m -> cs_split s = "benchmark"
}.

Lemma manifest_validated T m m' : validate_CorpusManifest T m = Ok m' -> manifest_ok T m'.
Proof.
  intros H. unfold validate_CorpusManifest in H. peel H. apply ok_inj in H as <-.
  match goal with E : map_result _ _ = Ok _ |- _ => rename E into Hs end.
  match goal with E : count_between _ _ _ = true |- _ => rename E into Hc end.
  match goal with E : identities_and_splits_are_valid _ = Ok _ |- _ => rename E into Hi end.
  unfold count_between in Hc. apply andb_true_iff in Hc as [Hc1%Z.leb_le Hc2%Z.leb_le].
  pose proof (map_result_length _ _ _ Hs) as Hl. apply map_result_ok in Hs.
  unfold identities_and_splits_are_valid in Hi. cbn [cm_sources cm_manifest_kind] in Hi.
  apply raise_ok in Hi as [Hu%negb_false_iff%unique_NoDup Hi]. apply raise_ok in Hi as [_ Hi].
  split; cbn [cm_corpus_id cm_sources cm_manifest_kind]; [done|unfold zlen; lia| |done|].
  - apply Forall_forall. intros s Hin. destruct (forall2_right _ _ _ _ Hs Hin) as (s0 & _ & Ev). by eapply source_validated.
  - intros Hk. rewrite bool_decide_eq_true_2 in Hi by done. apply raise_ok in Hi as [Hi _]. intros s Hin.
    pose proof (existsb_none _ _ _ Hi Hin) as Hd. unfold differ in Hd. by apply bool_decide_neg_false in Hd.
Qed.

Lemma loaded_validated T l l' : validate_loaded T l = Ok l' ->
  manifest_ok T (lc_manifest l') /\ ls_source <$> lc_sources l' = cm_sources (lc_manifest l').
Proof.
  intros H. unfold validate_loaded in H. apply bind_ok in H as (m & Hm & H). apply raise_ok in H as [_ H].
  apply bind_ok in H as (o & Ho%map_result_ok & H). apply ok_inj in H as <-. cbn. split; [by eapply manifest_validated|].
  induction Ho as [|s i ss is_ E Ho IH]; [done|]. cbn. rewrite IH. f_equal. unfold validate_loaded_source in E.
  destruct (dict_get _ _) as [item|]; [|done]. apply raise_ok in E as [E0 E]. apply raise_ok in E as [_ E].
  apply ok_inj in E as <-. unfold differ in E0. by apply bool_decide_neg_false in E0.
Qed.

Record policy_ok (T : TextOps) (p : CorpusAuditPolicy) : Prop := {
  po_id : is_stable_id (co_policy_id p) = true;
  po_sizes : 3 <= co_ngram_size p <= co_minimum_tokens p /\ co_minimum_tokens p <= 4096;
  po_denied : exists l, map_result (normalize_repository_family T) (co_denied_training_repository_families p) = Ok l;
  po_training s : s ∈ co_training_splits p <-> s = "train";
  po_evaluation s : s ∈ co_evaluation_splits p <-> s ∈ EVALUATION_SPLITS
}.

Lemma policy_validated T p : validate_CorpusAuditPolicy T p = Ok tt -> policy_ok T p.
Proof.
  intros H. unfold validate_CorpusAuditPolicy in H.
  apply field_ok in H as [Hid H]. apply field_ok in H as [Hn H]. apply field_ok in H as [Hm H].
  do 4 (apply field_ok in H as [_ H]). unfold policy_cannot_weaken_hard_boundaries in H.
  apply raise_ok in H as [Ht%negb_false_iff H]. apply raise_ok in H as [He%negb_false_iff H].
  apply raise_ok in H as [_ H]. apply bind_ok in H as (l & Hl & H). apply raise_ok in H as [_ H].
  apply raise_ok in H as [Hs _]. apply andb_true_iff in Hn as [Hn1 Hn2], Hm as [Hm1 Hm2].
  split; [done|lia|eauto| |].
  - intros s. rewrite (proj1 (same_set_spec _ _) Ht s). by rewrite list_elem_of_singleton.
  - by apply same_set_spec.
Qed.

Record inputs_ok (T : TextOps) (policy : CorpusAuditPolicy) (c b : LoadedCorpus) : Prop := {
  in_ids : is_stable_id (cm_corpus_id (lc_manifest c)) = true /\ is_stable_id (cm_corpus_id (lc_manifest b)) = true;
  in_policy : policy_ok T policy;
  in_items i : i ∈ combined c b -> is_stable_id i.1 = true /\ source_ok T (ls_source i.2);
  in_keys : NoDup (loaded_key <$> combined c b);
  in_count : 2 <= zlen (combined c b) <= 200000;
  in_benchmark : exists e, e ∈ combined c b /\ in_split (co_evaluation_splits policy) e
}.

Lemma side_items T m l i : manifest_ok T m -> ls_source <$> l = cm_sources m -> i ∈ pair (cm_corpus_id m) <$> l ->
  is_stable_id i.1 = true /\ source_ok T (ls_source i.2) /\ ls_source i.2 ∈ cm_sources m.
Proof.
  intros Hm El (s & -> & Hs)%list_elem_of_fmap. cbn. assert (Hin : ls_source s ∈ cm_sources m)
    by (rewrite <-El; by apply list_elem_of_fmap_2).
  split_and!; [by apply (mo_id T)| |done]. pose proof (mo_sources _ _ Hm) as HF. rewrite Forall_forall in HF. by apply HF.
Qed.

Lemma side_keys id (l : list LoadedCorpusSource) :
  NoDup (cs_source_id <$> (ls_source <$> l)) -> NoDup (loaded_key <$> (pair id <$> l)).
Proof.
  rewrite <-!list_fmap_compose. intros H.
  assert (E : loaded_key ∘ pair id <$> l = pair id <$> (cs_source_id ∘ ls_source <$> l)) by by rewrite <-list_fmap_compose.
  rewrite E. apply NoDup_fmap_2; [|exact H]. by intros ?? [= ->].
Qed.

Lemma inputs_accepted T corpus benchmark policy c b digests :
  audit_inputs T corpus benchmark policy = Ok (c, b, digests) ->
  inputs_ok T policy c b /\ is_sha256 digests.1.1.1 = true /\ is_sha256 digests.1.1.2 = true
  /\ is_sha256 digests.1.2 = true /\ is_sha256 digests.2 = true.
Proof.
  intros H. unfold audit_inputs in H. apply bind_ok in H as (c' & [Mc Ec]%loaded_validated & H).
  apply bind_ok in H as (b' & [Mb Eb]%loaded_validated & H). apply bind_ok in H as ([] & Hp%policy_validated & H).
  apply raise_ok in H as [_ H]. apply raise_ok in H as [Hk H]. apply raise_ok in H as [Hne%bool_decide_eq_false H].
  do 4 (let d := fresh "d" in let E := fresh "E" in apply bind_ok in H as (d & E%sha256_json_is_sha256 & H)).
  apply ok_inj in H. injection H as <- <- <-. split; [|done]. unfold differ in Hk. apply bool_decide_neg_false in Hk.
  assert (Lc : length (lc_sources c') = length (cm_sources (lc_manifest c'))) by by rewrite <-Ec, length_fmap.
  assert (Lb : length (lc_sources b') = length (cm_sources (lc_manifest b'))) by by rewrite <-Eb, length_fmap.
  pose proof (mo_count _ _ Mc) as Cc. pose proof (mo_count _ _ Mb) as Cb. unfold zlen in Cc, Cb.
  split; [split; by eapply mo_id|done| | | |].
  - unfold combined. intros i [Hi|Hi]%elem_of_app.
    + by destruct (side_items T _ _ _ Mc Ec Hi) as (? & ? & _).
    + by destruct (side_items T _ _ _ Mb Eb Hi) as (? & ? & _).
  - unfold combined. rewrite fmap_app. apply NoDup_app. split_and!.
    + apply side_keys. rewrite Ec. by eapply mo_unique.
    + rewrite <-!list_fmap_compose. intros k (x & -> & _)%list_elem_of_fmap (y & Ey & _)%list_elem_of_fmap.
      injection Ey as Ey _. by apply Hne.
    + apply side_keys. rewrite Eb. by eapply mo_unique.
  - unfold combined, zlen. rewrite length_app, !length_fmap. lia.
  - destruct (lc_sources b') as [|e l] eqn:El; [cbn in Lb; lia|]. exists (cm_corpus_id (lc_manifest b'), e).
    split; [unfold combined; apply elem_of_app; right; rewrite El; left|]. unfold in_split. cbn.
    rewrite (po_evaluation _ _ Hp), (mo_benchmark _ _ Mb Hk (ls_source e)); [apply (bool_decide_unpack _); by vm_compute|].
    rewrite <-Eb. left.
Qed.

(** ** Comparisons are defined *)
Lemma unit_ratio n d : 0 <= n <= d -> 0 < d -> exists x, itruediv n d = Ok x /\ unit_float x = true.
Proof.
  intros Hn Hd. destruct d as [|p|p]; [lia| |lia]. destruct (itruediv_unit n p) as (E & Hf & Hv); [lia|].
  eexists. split; [exact E|]. assert (Hq : (0 <= fq (of_Q (n # p)) <= 1)%Q).
  { rewrite Hv. apply round64_near_one. assert (0 <= n # p <= 1)%Q by (split; unfold Qle; cbn; lia).
    assert (0 <= pow2 (-54))%Q by by vm_compute. lra. }
  apply Grading.float_between_intro; [|done|by vm_compute|by vm_compute|].
  - apply wf_is_float64; [apply of_Q_wf|]. rewrite Qabs_pos by lra. apply (Qle_trans _ 1); [lra|]. by vm_compute.
  - assert (fq fzero == 0)%Q by by vm_compute. assert (fq fone == 1)%Q by by vm_compute. lra.
Qed.

Lemma unit_value x : unit_float x = true -> (0 <= fq x <= 1)%Q.
Proof.
  intros H. apply Grading.float_between_inv in H as (_ & _ & H); [|by vm_compute..].
  assert (fq fzero == 0)%Q by by vm_compute. assert (fq fone == 1)%Q by by vm_compute. lra.
Qed.

Lemma sub_length {A} (l k : list A) : NoDup l -> (forall x, x ∈ l -> x ∈ k) -> (length l <= length k)%nat.
Proof. intros Hn Hs. by apply submseteq_length, NoDup_submseteq. Qed.

Lemma shared_bounds (A B : list (list string)) : NoDup A -> A <> [] -> B <> [] ->
  0 <= zlen (shared_ngrams A B) <= zlen (remove_dups (A ++ B)%list)
  /\ zlen (shared_ngrams A B) <= Z.min (zlen A) (zlen B)
  /\ 0 < zlen (remove_dups (A ++ B)%list) /\ 0 < zlen A /\ 0 < zlen B.
Proof.
  intros HA HnA HnB. assert (Hs : NoDup (shared_ngrams A B)) by by apply NoDup_filter.
  assert (HsA : forall g, g ∈ shared_ngrams A B -> g ∈ A /\ g ∈ B)
    by (intros g; unfold shared_ngrams; rewrite list_elem_of_filter; tauto).
  pose proof (sub_length _ A Hs (fun g H => proj1 (HsA g H))). pose proof (sub_length _ B Hs (fun g H => proj2 (HsA g H))).
  pose proof (sub_length A (remove_dups (A ++ B)%list) HA ltac:(intros g Hg; apply elem_of_remove_dups, elem_of_app; by left)).
  assert (0 < length A)%nat by (destruct A; [done|cbn; lia]). assert (0 < length B)%nat by (destruct B; [done|cbn; lia]).
  unfold zlen. lia.
Qed.

Lemma ngrams_nonempty tokens n : 0 <= n <= zlen tokens -> NoDup (token_ngrams tokens n) /\ token_ngrams tokens n <> [].
Proof.
  intros Hn. unfold token_ngrams. rewrite (proj2 (Z.ltb_ge _ _)) by lia. split; [apply NoDup_remove_dups|].
  unfold windows. rewrite Nat.add_comm. cbn [seq fmap list_fmap Nat.add].
  intros E. set (w := take (Z.to_nat n) (drop 0 tokens)) in E.
  assert (Hw : w ∈ remove_dups (w :: ((fun i => take (Z.to_nat n) (drop i tokens)) <$> seq 1 (length tokens - Z.to_nat n))))
    by (apply elem_of_remove_dups; left).
  rewrite E in Hw. by apply not_elem_of_nil in Hw.
Qed.


(** ** Issues are well formed *)
Lemma issue_valid kind code_ message refs n : is_issue_code code_ = true -> text_within n message -> n <= 4096 ->
  (forall r, r ∈ refs -> text_within 257 r) -> validate_CorpusAuditIssue (issue kind code_ message refs) = Ok tt.
Proof.
  intros Hc Hm Hn Hr. unfold validate_CorpusAuditIssue, issue. cbn [is_code is_message is_source_refs is_jaccard is_containment].
  rewrite Hc, (text_len _ _ _ Hm Hn). cbn. rewrite (proj2 (forallb_forall _ _)); [done|].
  intros r Hin%list_elem_of_In. by apply (text_len 257 512), Z.leb_le; [apply Hr|].
Qed.

Lemma ref_text a b : is_stable_id a = true -> is_stable_id b = true -> text_within 257 (source_ref a b).
Proof.
  intros Ha%stable_id_text [Hb _]%stable_id_text. unfold source_ref. apply (text_append 128 129); [done|].
  rewrite append_len. change (String.length ":") with 1%nat. lia.
Qed.

Lemma quoted_length s n : Z.of_nat (String.length s) <= n -> Z.of_nat (String.length (quoted s)) <= n + 2.
Proof. intros H. unfold quoted. rewrite !append_len. cbn [String.length]. lia. Qed.

Lemma sorted_refs_text refs : (forall r, r ∈ refs -> text_within 257 r) -> forall r, r ∈ sorted_refs refs -> text_within 257 r.
Proof. intros H r. unfold sorted_refs. rewrite sort_by_elem. apply H. Qed.

Abbreviation valid_issues l := (forall x, x ∈ l -> validate_CorpusAuditIssue x = Ok tt).

Lemma valid_app l k : valid_issues l -> valid_issues k -> valid_issues (l ++ k)%list.
Proof. intros Hl Hk x [Hx|Hx]%elem_of_app; auto. Qed.

Lemma duplicate_valid key code_ message items n : is_issue_code code_ = true ->
  (forall i, i ∈ items -> text_within n (message (key i.2)) /\ text_within 257 (item_ref i)) -> n <= 4096 ->
  valid_issues (duplicate_issues key code_ message items).
Proof.
  intros Hc Hi Hn x (g & -> & Hg)%list_elem_of_fmap. rewrite list_elem_of_filter, sort_by_elem in Hg.
  destruct Hg as [_ Hg], g as [k g]. rewrite group_by_elem in Hg. destruct Hg as [-> Hne].
  destruct (filter (fun i => key i.2 = k) items) as [|i0 l] eqn:E; [done|]. cbn [fst snd]. rewrite <-E.
  assert (H0 : i0 ∈ filter (fun i => key i.2 = k) items) by (rewrite E; left). rewrite list_elem_of_filter in H0.
  destruct H0 as [<- H0]. apply (issue_valid _ _ _ _ n); [done|exact (proj1 (Hi i0 H0))|done|]. apply sorted_refs_text.
  intros r (i & -> & Hin)%list_elem_of_fmap. rewrite list_elem_of_filter in Hin. apply Hi, Hin.
Qed.

Lemma crossing_valid {A} (key ref : A -> string) code_ (message : string -> string) training evaluation n :
  is_issue_code code_ = true -> n <= 4096 ->
  (forall x, x ∈ training \/ x ∈ evaluation -> text_within n (message (key x)) /\ text_within 257 (ref x)) ->
  valid_issues ((fun k => issue hit code_ (message k)
                   (sorted_refs (refs_of key ref training k ++ refs_of key ref evaluation k)%list))
                <$> crossing key training evaluation).
Proof.
  intros Hc Hn H x (k & -> & Hk)%list_elem_of_fmap. unfold crossing in Hk.
  rewrite sort_by_elem, elem_of_remove_dups, list_elem_of_filter in Hk. destruct Hk as [_ (t & -> & Ht)%list_elem_of_fmap].
  apply (issue_valid _ _ _ _ n); [done|exact (proj1 (H t (or_introl Ht)))|done|]. apply sorted_refs_text. unfold refs_of.
  intros r [Hr|Hr]%elem_of_app; apply list_elem_of_fmap in Hr as (y & -> & Hy); rewrite list_elem_of_filter in Hy; apply H; tauto.
Qed.

Definition item_ok (T : TextOps) (i : string * CorpusSource) : Prop := is_stable_id i.1 = true /\ source_ok T i.2.

Lemma item_ref_text T i : item_ok T i -> text_within 257 (item_ref i).
Proof. intros [H1 H2]. apply ref_text; [done|by eapply so_id]. Qed.

(** A message opens with a constant text. *)
Lemma message_text opening rest n : text_within 1000 opening -> Z.of_nat (String.length rest) <= n ->
  text_within (1000 + n) (opening ++ rest).
Proof. apply text_append. Qed.
Ltac opening := apply message_text; [split; [by apply Z.leb_le|done]|].

Lemma quoted_then s n rest m : Z.of_nat (String.length s) <= n -> Z.of_nat (String.length rest) <= m ->
  Z.of_nat (String.length (quoted s ++ rest)) <= n + 2 + m.
Proof. intros Hs%quoted_length Hr. rewrite append_len. lia. Qed.

Lemma stable_quoted_message opening id rest : text_within 1000 opening -> is_stable_id id = true ->
  Z.of_nat (String.length rest) <= 1000 -> text_within 3000 (opening ++ quoted id ++ rest).
Proof.
  intros Ho [Hi _]%stable_id_text Hr. pose proof (quoted_then _ _ _ _ Hi Hr).
  destruct (message_text opening (quoted id ++ rest) 2000) as [Hl Hc]; [done|lia|]. by split.
Qed.

Lemma group_valid T attribute key code_ training evaluation : is_issue_code code_ = true -> text_within 990 attribute ->
  (forall i, i ∈ training \/ i ∈ evaluation -> item_ok T i /\ is_stable_id (key i.2) = true) ->
  valid_issues (group_cross_split_issues attribute key code_ training evaluation).
Proof.
  intros Hc Ha Hi. unfold group_cross_split_issues.
  apply (crossing_valid _ item_ref _ (fun g => attribute ++ " " ++ quoted g ++ " crosses train and evaluation-like splits") _ _ 3000);
    [done|lia|]. intros i Hin. destruct (Hi i Hin) as [Hok [Hk _]%stable_id_text]. split; [|by eapply item_ref_text].
  destruct (text_append 990 2000 attribute (" " ++ quoted (key i.2) ++ " crosses train and evaluation-like splits")) as [Hl Hf];
    [done| |split; [lia|done]].
  rewrite append_len. pose proof (quoted_then _ _ " crosses train and evaluation-like splits" 100 Hk ltac:(by apply Z.leb_le)).
  change (String.length " ") with 1%nat. lia.
Qed.

Lemma structural_valid T training evaluation items : (forall i, i ∈ items -> item_ok T i) ->
  (forall i, i ∈ training \/ i ∈ evaluation -> i ∈ items) -> 0 <= zlen training * zlen evaluation < 2 ^ 40 ->
  valid_issues (structural_issues training evaluation items).
Proof.
  intros Hi Hsub Hb. unfold structural_issues. repeat apply valid_app.
  - apply (duplicate_valid _ _ _ _ 3000); [done| |lia]. intros i Hin. split; [|eapply item_ref_text, Hi, Hin].
    apply stable_quoted_message; [split; [by apply Z.leb_le|done]|eapply so_id, Hi, Hin|by apply Z.leb_le].
  - apply (duplicate_valid _ _ _ _ (1000 + 1000)); [done| |lia]. intros i Hin. split; [|eapply item_ref_text, Hi, Hin].
    opening. rewrite append_len, sha256_length by (eapply so_digest, Hi, Hin). by apply Z.leb_le.
  - case_bool_decide; [|by intros x ?%not_elem_of_nil]. intros x ->%list_elem_of_singleton. by vm_compute.
  - destruct (MAX_FUZZY_COMPARISONS <? zlen training * zlen evaluation); [|by intros x ?%not_elem_of_nil].
    intros x ->%list_elem_of_singleton. apply (issue_valid _ _ _ _ (1000 + 1000)); [done| |lia|by intros r ?%not_elem_of_nil].
    opening. pose proof (string_of_Z_length _ Hb). rewrite append_len.
    change (String.length (" pairs; the detector safety limit is " ++ string_of_Z MAX_FUZZY_COMPARISONS)) with 44%nat. lia.
  - apply (group_valid T); [done|split; [by apply Z.leb_le|done]|]. intros i Hin%Hsub%Hi. split; [done|apply (so_groups T), Hin].
  - apply (group_valid T); [done|split; [by apply Z.leb_le|done]|]. intros i Hin%Hsub%Hi. split; [done|apply (so_groups T), Hin].
  - apply (group_valid T); [done|split; [by apply Z.leb_le|done]|]. intros i Hin%Hsub%Hi. split; [done|apply (so_groups T), Hin].
Qed.

Lemma segment_text s : is_repository_segment s = true -> Z.of_nat (String.length s) <= 128.
Proof. destruct s as [|c s]; [done|]. cbn [is_repository_segment]. intros [_ H%Nat.leb_le]%andb_true_iff. cbn [String.length]. lia. Qed.

Lemma item_families T items l : (forall i, i ∈ items -> item_ok T i) -> map_result (item_family T) items = Ok l ->
  forall p, p ∈ l -> Z.of_nat (String.length p.1) <= 128 /\ text_within 257 p.2.
Proof.
  intros Hi H%map_result_ok p Hp. destruct (forall2_right _ _ _ _ H Hp) as (i & Hin & E).
  apply bind_ok in E as (f & Ef & E). apply ok_inj in E as <-. cbn.
  split; [by eapply segment_text, family_segment|eapply item_ref_text, Hi, Hin].
Qed.

Lemma family_valid denied tf ef :
  (forall p, p ∈ tf \/ p ∈ ef -> Z.of_nat (String.length p.1) <= 128 /\ text_within 257 p.2) ->
  valid_issues (family_issues denied tf ef).
Proof.
  intros H. unfold family_issues. apply valid_app.
  - intros x (p & -> & Hp)%list_elem_of_fmap. rewrite list_elem_of_filter in Hp. destruct Hp as [_ Hp].
    destruct (H p (or_introl Hp)) as [Hl Hr]. apply (issue_valid _ _ _ _ (1000 + 130)); [done| |lia|].
    + opening. by apply (quoted_length _ 128).
    + by intros r ->%list_elem_of_singleton.
  - apply (crossing_valid fst snd _ (fun f => "repository family " ++ quoted f ++ " crosses train and evaluation-like splits") _ _ (1000 + 230));
      [done|lia|]. intros p [Hl Hr]%H. split; [|done]. opening.
    apply (quoted_then _ 128 _ 100); [done|by apply Z.leb_le].
Qed.

(** Scans of accepted items. *)
Record scan_ok (policy : CorpusAuditPolicy) (s : Scan) : Prop := {
  sk_ids : is_stable_id (sn_corpus_id s) = true /\ is_stable_id (cs_source_id (sn_source s)) = true;
  sk_fingerprint : validate_CorpusFingerprint (sn_fingerprint s) = Ok tt;
  sk_names : (fp_corpus_id (sn_fingerprint s), fp_source_id (sn_fingerprint s)) = scan_key s;
  sk_ngrams : sn_ngrams s = token_ngrams (sn_tokens s) (co_ngram_size policy)
}.

Lemma scan_accepted T decimal policy i s : item_ok T (as_source i) -> scan_source decimal policy i = Ok s -> scan_ok policy s.
Proof.
  intros [H1 H2] H. unfold scan_source in H. apply bind_ok in H as (tokens & _ & H). apply ok_inj in H as <-.
  pose proof (so_id _ _ H2) as H3. split; try done. unfold validate_CorpusFingerprint. cbn. cbn in H1, H3. rewrite H1, H3.
  unfold zlen. rewrite !(proj2 (Z.leb_le _ _)) by lia. unfold sequence_digest, ngram_digest. by rewrite !is_sha256_bytes.
Qed.

Lemma scan_ref_text policy s : scan_ok policy s -> text_within 257 (source_ref (sn_corpus_id s) (cs_source_id (sn_source s))).
Proof. intros [[H1 H2] _ _ _]. by apply ref_text. Qed.

Lemma scan_issues_valid T decimal policy i : item_ok T (as_source i) -> co_minimum_tokens policy <= 4096 ->
  valid_issues (scan_issues decimal policy i).
Proof.
  intros Hi Hm. assert (Hr : text_within 257 (source_ref i.1 (cs_source_id (ls_source i.2)))) by exact (item_ref_text T (as_source i) Hi).
  assert (Hrefs : forall r, r ∈ [source_ref i.1 (cs_source_id (ls_source i.2))] -> text_within 257 r)
    by by intros r ->%list_elem_of_singleton.
  unfold scan_issues. destruct (scan_source decimal policy i) as [s|e] eqn:E.
  - unfold too_short. destruct (Z.ltb_spec (zlen (sn_tokens s)) (co_minimum_tokens policy)) as [Hs|];
      [|by intros x ?%not_elem_of_nil].
    intros x ->%list_elem_of_singleton. apply (issue_valid _ _ _ _ (257 + 1000)); [done| |lia|done]. apply text_append; [done|].
    pose proof (string_of_Z_length (zlen (sn_tokens s)) ltac:(unfold zlen in *; lia)).
    pose proof (string_of_Z_length (co_minimum_tokens policy) ltac:(unfold zlen in *; lia)).
    rewrite !append_len. cbn [String.length]. lia.
  - intros x ->%list_elem_of_singleton. apply (issue_valid _ _ _ _ (1000 + 1000)); [done| |lia|done]. opening.
    unfold scan_source in E. destruct (tokenize_c decimal (ls_content i.2)) eqn:Et; [done|]. injection E as <-.
    apply tokenize_error in Et. destruct Hr as [Hr _]. rewrite !append_len. cbn [String.length]. lia.
Qed.

Lemma normalized_valid policy scans : (forall s, s ∈ scans -> scan_ok policy s) -> valid_issues (normalized_duplicate_issues scans).
Proof.
  intros Hs x (g & -> & Hg)%list_elem_of_fmap. rewrite list_elem_of_filter, sort_by_elem in Hg.
  destruct Hg as [_ Hg], g as [k g]. rewrite group_by_elem in Hg. destruct Hg as [-> Hne]. cbn [fst snd].
  destruct (filter (fun s => fp_token_sha256 (sn_fingerprint s) = k) scans) as [|s0 l] eqn:E; [done|]. rewrite <-E.
  assert (H0 : s0 ∈ filter (fun s => fp_token_sha256 (sn_fingerprint s) = k) scans) by (rewrite E; left).
  rewrite list_elem_of_filter in H0. destruct H0 as [<- H0].
  apply (issue_valid _ _ _ _ (1000 + 1000)); [done| |lia|].
  - opening. pose proof (sk_fingerprint _ _ (Hs s0 H0)) as Hf. unfold validate_CorpusFingerprint in Hf. 
    do 4 (apply field_ok in Hf as [_ Hf]). apply field_ok in Hf as [Hf _]. rewrite append_len, sha256_length by done. by apply Z.leb_le.
  - apply sorted_refs_text. intros r (s & -> & Hin)%list_elem_of_fmap. rewrite list_elem_of_filter in Hin.
    eapply scan_ref_text, Hs, Hin.
Qed.

Lemma compare_total policy t e : 0 <= co_ngram_size policy <= co_minimum_tokens policy -> scan_ok policy t -> scan_ok policy e ->
  too_short policy t = false -> too_short policy e = false ->
  exists c, compare_scans policy t e = Ok c /\ validate_CorpusSimilarity c.1 = Ok tt /\ valid_issues c.2.
Proof.
  unfold too_short. intros Hn Ht He Lt%Z.ltb_ge Le%Z.ltb_ge.
  destruct (ngrams_nonempty (sn_tokens t) (co_ngram_size policy)) as [Dt Nt]; [lia|].
  destruct (ngrams_nonempty (sn_tokens e) (co_ngram_size policy)) as [_ Ne]; [lia|].
  rewrite <-(sk_ngrams _ _ Ht) in Dt, Nt. rewrite <-(sk_ngrams _ _ He) in Ne.
  destruct (shared_bounds _ _ Dt Nt Ne) as (B1 & B2 & B3 & B4 & B5). unfold compare_scans.
  destruct (unit_ratio _ _ B1 B3) as (jaccard & -> & Uj). cbn [bind_result].
  destruct (unit_ratio (zlen (shared_ngrams (sn_ngrams t) (sn_ngrams e))) (Z.min (zlen (sn_ngrams t)) (zlen (sn_ngrams e))))
    as (containment & -> & Uc); [lia..|]. cbn [bind_result].
  eexists. split; [reflexivity|]. cbn [fst snd]. pose proof (sk_ids _ _ Ht) as [It1 It2]. pose proof (sk_ids _ _ He) as [Ie1 Ie2].
  split.
  - unfold validate_CorpusSimilarity. cbn [sm_training_corpus_id sm_training_source_id sm_evaluation_corpus_id
      sm_evaluation_source_id sm_training_ngram_count sm_evaluation_ngram_count sm_shared_ngram_count sm_jaccard sm_containment].
    rewrite It1, It2, Ie1, Ie2, Uj, Uc, !(proj2 (Z.leb_le _ _)) by lia. done.
  - destruct (_ && _ && _); [|by intros x ?%not_elem_of_nil]. intros x ->%list_elem_of_singleton.
    unfold validate_CorpusAuditIssue. cbn [is_code is_message is_source_refs is_jaccard is_containment opt_ok forallb].
    rewrite (text_len 257 512 _ (scan_ref_text _ _ Ht)), (text_len 257 512 _ (scan_ref_text _ _ He)), Uj, Uc by lia.
    rewrite (text_len (1000 + 1000) 4096); [done| |lia]. opening.
    pose proof (fixed6_length _ (unit_value _ Uj)). pose proof (fixed6_length _ (unit_value _ Uc)).
    rewrite !append_len. cbn [String.length]. lia.
Qed.

Lemma eligible_sub policy scans items s : s ∈ eligible_scans policy scans items -> s ∈ scans /\ too_short policy s = false.
Proof.
  unfold eligible_scans. rewrite list_elem_of_omap. intros (i & _ & E).
  destruct (list_find _ _) as [[n s']|] eqn:Ef; [|done]. destruct (too_short policy s') eqn:Et; [done|]. injection E as <-.
  apply list_find_Some in Ef as (Hn & _ & _). split; [by eapply list_elem_of_lookup_2|done].
Qed.

Lemma omap_length {A B} (f : A -> option B) l : (length (omap f l) <= length l)%nat.
Proof. induction l as [|x l IH]; cbn; [lia|]. destruct (f x); cbn; lia. Qed.

Lemma eligible_length policy scans items : (length (eligible_scans policy scans items) <= length items)%nat.
Proof. apply omap_length. Qed.

Lemma filter_le {A} (P : A -> Prop) `{!forall x, Decision (P x)} (l : list A) : (length (filter P l) <= length l)%nat.
Proof. apply length_filter. Qed.

Lemma compare_all_total policy ts es : 0 <= co_ngram_size policy <= co_minimum_tokens policy ->
  (forall s, s ∈ ts \/ s ∈ es -> scan_ok policy s /\ too_short policy s = false) ->
  exists compared, compare_all policy ts es = Ok compared /\ length compared = (length ts * length es)%nat
    /\ (forall x, x ∈ compared.*1 -> validate_CorpusSimilarity x = Ok tt) /\ valid_issues (List.concat compared.*2).
Proof.
  intros Hn Hs. unfold compare_all.
  destruct (map_result_total (fun te => compare_scans policy te.1 te.2)
    (fun _ c => validate_CorpusSimilarity c.1 = Ok tt /\ valid_issues c.2)
    (flat_map (fun t => pair t <$> sort_scans es) (sort_scans ts))) as (compared & E & HF).
  - intros [t e] Hte. apply product_elem in Hte as [Ht He]. unfold sort_scans in Ht, He. rewrite sort_by_elem in Ht, He.
    destruct (Hs t (or_introl Ht)), (Hs e (or_intror He)). by apply compare_total.
  - exists compared. split; [done|]. split.
    + rewrite (map_result_length _ _ _ E), product_length. unfold sort_scans. by rewrite !sort_by_length.
    + split; [intros x (c & -> & Hc)%list_elem_of_fmap; by destruct (forall2_right _ _ _ _ HF Hc) as (? & _ & ? & _)|].
      intros x Hx%list_elem_of_In. apply in_concat in Hx as (l & Hl & Hx). apply list_elem_of_In in Hl, Hx.
      apply list_elem_of_fmap in Hl as (c & -> & Hc). destruct (forall2_right _ _ _ _ HF Hc) as (? & _ & _ & Hv). by apply Hv.
Qed.

(** ** The report *)
Definition report_shape (r : CorpusAuditReport) : Prop :=
  is_stable_id (cr_corpus_id r) = true /\ is_sha256 (cr_corpus_manifest_sha256 r) = true
  /\ is_stable_id (cr_benchmark_corpus_id r) = true /\ is_sha256 (cr_benchmark_manifest_sha256 r) = true
  /\ is_stable_id (cr_policy_id r) = true /\ is_sha256 (cr_policy_sha256 r) = true
  /\ is_sha256 (cr_audit_inputs_sha256 r) = true.

Lemma report_valid r : report_shape r ->
  0 <= cr_fuzzy_eligible_source_count r <= cr_scanned_source_count r -> cr_scanned_source_count r <= cr_total_source_count r ->
  0 <= cr_evaluated_comparison_count r <= cr_expected_comparison_count r ->
  cr_scanned_source_count r = zlen (cr_fingerprints r) -> cr_evaluated_comparison_count r = zlen (cr_comparisons r) ->
  (forall f, f ∈ cr_fingerprints r -> validate_CorpusFingerprint f = Ok tt) ->
  (forall s, s ∈ cr_comparisons r -> validate_CorpusSimilarity s = Ok tt) -> valid_issues (cr_issues r) ->
  NoDup ((fun f => (fp_corpus_id f, fp_source_id f)) <$> cr_fingerprints r) ->
  (cr_static_audit_passed r = true <-> report_complete r = true) ->
  validate_CorpusAuditReport r = Ok tt.
Proof.
  intros (S1 & S2 & S3 & S4 & S5 & S6 & S7) He Hs Hc Ef Ec Vf Vc Vi Hn Hp. unfold validate_CorpusAuditReport.
  rewrite S1, S2, S3, S4, S5, S6, S7. rewrite !(proj2 (Z.leb_le _ _)) by lia.
  rewrite (proj2 (for_each_ok _ _) (proj2 (Forall_forall _ _) Vf)), (proj2 (for_each_ok _ _) (proj2 (Forall_forall _ _) Vc)),
    (proj2 (for_each_ok _ _) (proj2 (Forall_forall _ _) Vi)). cbn [bind_result].
  unfold pass_flag_is_fail_closed. rewrite <-Ef, <-Ec, !Z.eqb_refl, !(proj2 (Z.ltb_ge _ _)) by lia.
  rewrite (proj2 (unique_NoDup _) Hn). cbn [negb].
  replace (cr_static_audit_passed r) with (report_complete r) by (apply eq_bool_prop_intro; rewrite !Is_true_true; tauto).
  by rewrite eqb_reflx.
Qed.

Lemma flag_agrees r (P : Prop) :
  bool_decide (length (cr_issues r) = 0%nat) && (cr_scanned_source_count r =? cr_total_source_count r)
  && (cr_fuzzy_eligible_source_count r =? cr_total_source_count r)
  && (cr_evaluated_comparison_count r =? cr_expected_comparison_count r) && negb (existsb sm_blocking (cr_comparisons r)) = true
  <-> P ->
  2 <= cr_total_source_count r -> (P -> 1 <= cr_expected_comparison_count r) -> P <-> report_complete r = true.
Proof.
  unfold report_complete. rewrite !andb_true_iff, !Z.leb_le. intros HP H2 H1. split; [|tauto]. intros Hp. specialize (H1 Hp). tauto.
Qed.

Lemma item_accepted T policy c b i : inputs_ok T policy c b -> i ∈ combined c b -> item_ok T (as_source i).
Proof. intros H Hi. exact (in_items _ _ _ _ H i Hi). Qed.

Lemma families_total T (items : list (string * LoadedCorpusSource)) : (forall i, i ∈ items -> item_ok T (as_source i)) ->
  exists l, map_result (item_family T) (as_source <$> items) = Ok l.
Proof.
  intros H. destruct (map_result_total (item_family T) (fun _ _ => True) (as_source <$> items)) as (l & E & _); [|eauto].
  intros x (i & -> & Hi)%list_elem_of_fmap. destruct (so_family _ _ (proj2 (H i Hi))) as (f & Hf).
  unfold item_family. rewrite Hf. cbn. eauto.
Qed.

Lemma splits_disjoint T policy i : policy_ok T policy -> in_split (co_training_splits policy) i ->
  in_split (co_evaluation_splits policy) i -> False.
Proof.
  intros Hp Ht He. unfold in_split in *. rewrite (po_training _ _ Hp) in Ht. rewrite (po_evaluation _ _ Hp), Ht in He.
  revert He. by apply (bool_decide_unpack _).
Qed.

Section Audit.
Context (decimal : string -> bool) (T : TextOps) (policy : CorpusAuditPolicy) (c b : LoadedCorpus).
Context (Hok : inputs_ok T policy c b).
Let items := combined c b.
Let train := filter (in_split (co_training_splits policy)) items.
Let eval := filter (in_split (co_evaluation_splits policy)) items.
Let ordered := sort_by (fun a b => pair_key_ltb (loaded_key a) (loaded_key b)) items.
Let scans := scan_all decimal policy ordered.
Let over := MAX_FUZZY_COMPARISONS <? zlen (as_source <$> train) * zlen (as_source <$> eval).
Let tscans := if over then [] else eligible_scans policy scans (as_source <$> train).
Let escans := if over then [] else eligible_scans policy scans (as_source <$> eval).

Lemma scans_accepted s : s ∈ scans -> scan_ok policy s.
Proof.
  intros (i & Hi & E)%scan_all_sub. unfold ordered in Hi. rewrite sort_by_elem in Hi.
  eapply scan_accepted; [|exact E]. by eapply item_accepted.
Qed.

Lemma sides_accepted s : s ∈ tscans \/ s ∈ escans -> scan_ok policy s /\ too_short policy s = false.
Proof.
  unfold tscans, escans. destruct over; [by intros [?%not_elem_of_nil|?%not_elem_of_nil]|].
  intros [[Hs Ht]%eligible_sub|[Hs Ht]%eligible_sub]; (split; [by apply scans_accepted|done]).
Qed.

Lemma side_accepted splits i : i ∈ as_source <$> filter (in_split splits) items -> i ∈ as_source <$> items /\ item_ok T i.
Proof.
  intros (j & -> & Hj)%list_elem_of_fmap. rewrite list_elem_of_filter in Hj. destruct Hj as [_ Hj].
  split; [by apply list_elem_of_fmap_2|by eapply item_accepted].
Qed.

Lemma count_bounds : 2 <= zlen items /\ zlen scans <= zlen items
  /\ 0 <= zlen (as_source <$> train) * zlen (as_source <$> eval) < 2 ^ 40
  /\ Z.of_nat (length tscans * length escans) <= zlen (as_source <$> train) * zlen (as_source <$> eval).
Proof.
  pose proof (in_count _ _ _ _ Hok) as Hc. fold items in Hc.
  pose proof (filter_le (in_split (co_training_splits policy)) items) as Lt. fold train in Lt.
  pose proof (filter_le (in_split (co_evaluation_splits policy)) items) as Le. fold eval in Le.
  assert (Ls : (length scans <= length items)%nat)
    by (unfold scans, scan_all; rewrite omap_length; unfold ordered; by rewrite sort_by_length).
  assert (Lx : (length tscans <= length train /\ length escans <= length eval)%nat).
  { unfold tscans, escans. destruct over; [cbn; lia|]. pose proof (eligible_length policy scans (as_source <$> train)) as L1.
    pose proof (eligible_length policy scans (as_source <$> eval)) as L2. rewrite length_fmap in L1, L2. done. }
  unfold zlen in *. rewrite !length_fmap. split; [lia|]. split; [lia|]. split; nia.
Qed.

Lemma evaluated_nonempty : eval <> [].
Proof.
  destruct (in_benchmark _ _ _ _ Hok) as (e & He & Hs). intros E.
  assert (Hin : e ∈ eval) by by apply side_elem. rewrite E in Hin. by apply not_elem_of_nil in Hin.
Qed.

Lemma issues_valid denied tf ef compared : map_result (item_family T) (as_source <$> train) = Ok tf ->
  map_result (item_family T) (as_source <$> eval) = Ok ef -> compare_all policy tscans escans = Ok compared ->
  valid_issues (List.concat compared.*2) ->
  valid_issues (structural_issues (as_source <$> train) (as_source <$> eval) (as_source <$> items)
     ++ family_issues denied tf ef ++ flat_map (scan_issues decimal policy) ordered
     ++ normalized_duplicate_issues scans ++ List.concat compared.*2)%list.
Proof.
  intros Ht He Hc Hv. destruct count_bounds as (_ & _ & Hb & _).
  apply valid_app; [|apply valid_app; [|apply valid_app; [|apply valid_app]]].
  - apply (structural_valid T); [|by intros i [[? _]%side_accepted|[? _]%side_accepted]|done].
    intros i (j & -> & Hj)%list_elem_of_fmap. by eapply item_accepted.
  - apply family_valid. intros p [Hp|Hp]; [eapply (item_families T _ tf)|eapply (item_families T _ ef)]; try done;
      by intros i [_ Hi]%side_accepted.
  - intros x Hx%list_elem_of_In. apply in_flat_map in Hx as (i & Hi & Hx). apply list_elem_of_In in Hi, Hx.
    unfold ordered in Hi. rewrite sort_by_elem in Hi. eapply scan_issues_valid; [by eapply item_accepted| |exact Hx].
    by apply (po_sizes T), (in_policy _ _ _ _ Hok).
  - apply (normalized_valid policy), scans_accepted.
  - done.
Qed.

(** The flag the code computes, against the conditions and against the report's own check. *)
Lemma complete_iff denied tf ef compared fingerprints issues : zlen fingerprints = zlen scans ->
  (issues = [] <-> (structural_issues (as_source <$> train) (as_source <$> eval) (as_source <$> items)
     ++ family_issues denied tf ef ++ flat_map (scan_issues decimal policy) ordered
     ++ normalized_duplicate_issues scans ++ List.concat compared.*2)%list = []) ->
  bool_decide (length (issues : list CorpusAuditIssue) = 0%nat) && (zlen (fingerprints : list CorpusFingerprint) =? zlen (as_source <$> items))
  && (zlen (filter (fun s => too_short policy s = false) scans) =? zlen (as_source <$> items))
  && (zlen compared.*1 =? zlen (as_source <$> train) * zlen (as_source <$> eval))
  && negb (existsb sm_blocking compared.*1) = true
  <-> passes decimal policy items denied tf ef compared.
Proof.
  intros Hf Hi. unfold passes. rewrite !andb_true_iff, !Z.eqb_eq, negb_true_iff, bool_decide_eq_true, length_zero_iff_nil, Hi, Hf.
  unfold zlen. rewrite !length_fmap. tauto.
Qed.

Lemma within_budget_iff : over = false <-> within_budget policy items.
Proof. unfold over, within_budget, zlen. rewrite !length_fmap. apply Z.ltb_ge. Qed.

Lemma training_nonempty : clean decimal T policy items -> 1 <= zlen (as_source <$> train) * zlen (as_source <$> eval).
Proof.
  intros [_ _ (t & Ht & Hs) _ _ _ _ _]. assert (Hin : t ∈ train) by by apply side_elem.
  pose proof evaluated_nonempty. unfold zlen. rewrite !length_fmap.
  destruct train; [by apply not_elem_of_nil in Hin|]. destruct eval; [done|]. cbn [length]. nia.
Qed.

Lemma fingerprints_unique : NoDup ((fun f => (fp_corpus_id f, fp_source_id f)) <$> (sn_fingerprint <$> sort_scans scans)).
Proof.
  rewrite <-list_fmap_compose.
  assert (E : (fun f => (fp_corpus_id f, fp_source_id f)) ∘ sn_fingerprint <$> sort_scans scans = scan_key <$> sort_scans scans).
  { apply list_fmap_ext. intros i s Hs%list_elem_of_lookup_2. unfold sort_scans in Hs. rewrite sort_by_elem in Hs.
    exact (sk_names _ _ (scans_accepted s Hs)). }
  rewrite E. unfold sort_scans. rewrite (sort_by_perm _ scans). apply scans_NoDup, (in_keys _ _ _ _ Hok).
Qed.

Lemma audit_report_exact corpus benchmark digests : audit_inputs T corpus benchmark policy = Ok (c, b, digests) ->
  is_sha256 digests.1.1.1 = true /\ is_sha256 digests.1.1.2 = true /\ is_sha256 digests.1.2 = true /\ is_sha256 digests.2 = true ->
  exists report, audit_corpus decimal T corpus benchmark policy = Ok report
    /\ (cr_static_audit_passed report = true <-> clean decimal T policy items).
Proof.
  intros Hi (D1 & D2 & D3 & D4). destruct digests as [[[d1 d2] d3] d4]. cbn in D1, D2, D3, D4.
  pose proof (in_policy _ _ _ _ Hok) as Hpol. destruct (po_denied _ _ Hpol) as (denied & Hd).
  destruct (families_total T train) as (tf & Htf); [intros i [Hin _]%side_elem; by eapply item_accepted|].
  destruct (families_total T eval) as (ef & Hef); [intros i [Hin _]%side_elem; by eapply item_accepted|].
  destruct (compare_all_total policy tscans escans) as (compared & Hc & Hl & Vs & Vi);
    [pose proof (po_sizes _ _ Hpol); lia|apply sides_accepted|].
  destruct count_bounds as (B1 & B2 & B3 & B4).
  assert (Hpass : passes decimal policy items denied tf ef compared <-> clean decimal T policy items).
  { apply verdict; [apply (in_keys _ _ _ _ Hok)|intros i; by eapply splits_disjoint|done..|].
    intros Ho%within_budget_iff. unfold tscans, escans in Hc. rewrite Ho in Hc. exact Hc. }
  unfold audit_corpus. rewrite Hi. cbn [bind_result]. rewrite !filter_as_source. fold items. fold train eval.
  rewrite Hd, Htf, Hef. cbn [bind_result]. fold ordered. fold scans. fold over. fold tscans escans. rewrite Hc. cbn [bind_result].
  assert (Lf : zlen (sn_fingerprint <$> sort_scans scans) = zlen scans)
    by (unfold zlen, sort_scans; by rewrite length_fmap, sort_by_length).
  eexists. split; [apply construct_ok; split; [|reflexivity]|].
  - apply report_valid; cbn [cr_fuzzy_eligible_source_count cr_scanned_source_count cr_total_source_count
      cr_evaluated_comparison_count cr_expected_comparison_count cr_fingerprints cr_comparisons cr_issues cr_static_audit_passed].
    + destruct (in_ids _ _ _ _ Hok). pose proof (po_id _ _ Hpol). done.
    + unfold zlen in Lf |- *. rewrite Lf. pose proof (filter_le (fun s => too_short policy s = false) scans). lia.
    + rewrite Lf. unfold zlen in B2 |- *. by rewrite length_fmap.
    + rewrite <-Hl in B4. split; [unfold zlen; lia|]. unfold zlen at 1. by rewrite length_fmap.
    + done.
    + done.
    + intros f (s & -> & Hs)%list_elem_of_fmap. unfold sort_scans in Hs. rewrite sort_by_elem in Hs.
      by eapply sk_fingerprint, scans_accepted.
    + done.
    + intros x. rewrite sort_by_elem. by apply issues_valid.
    + apply fingerprints_unique.
    + rewrite (complete_iff denied tf ef compared _ _ Lf (sort_by_empty _ _)), Hpass. apply flag_agrees.
      * rewrite <-Hpass. exact (complete_iff denied tf ef compared _ _ Lf (sort_by_empty _ _)).
      * cbn. unfold zlen in B1 |- *. by rewrite length_fmap.
      * exact training_nonempty.
  - cbn [cr_static_audit_passed]. rewrite <-Hpass. apply complete_iff; [done|apply sort_by_empty].
Qed.
End Audit.

(** C27. The audit decides contamination exactly.  On inputs it accepts (two manifests
    with the contents their digests promise, and a policy that keeps the hard
    boundaries), [audit_corpus] always returns a report, never an exception, and the
    report passes if and only if the inputs are clean: source identifiers and contents
    are pairwise distinct, some source is for training, the comparison matrix is within
    the detector's limit, no training source is of a denied repository family, every
    source tokenizes to enough tokens, no two sources have the same tokens, and no
    training source shares a group or a repository family with an evaluation source or
    comes within a threshold of its token n-grams.  On inputs it does not accept, it
    raises. *)
Theorem audit_decides_exactly decimal T corpus benchmark policy :
  match audit_inputs T corpus benchmark policy with
  | Ok (corpus', benchmark', _) =>
      exists report, audit_corpus decimal T corpus benchmark policy = Ok report
        /\ (cr_static_audit_passed report = true <-> clean decimal T policy (combined corpus' benchmark'))
  | Err e => audit_corpus decimal T corpus benchmark policy = Err e
  end.
Proof.
  destruct (audit_inputs T corpus benchmark policy) as [[[c b] digests]|e] eqn:H.
  - destruct (inputs_accepted _ _ _ _ _ _ _ H) as [Hok Hd]. exact (audit_report_exact _ _ _ _ _ Hok _ _ _ H Hd).
  - unfold audit_corpus. by rewrite H.
Qed.

End CorpusFacts.
