(* ===== verification/Qualification.v ===== *)
(** * Grader qualification ([src/bpe/qualification.py])

    A frozen grader is qualified on an adversarial matrix: for every task of two
    disjoint partitions one anchor of each role, whose outcomes, killed witnesses and
    rewards are precommitted.  The models with their validators, the derivation of
    the authority from sealed task bundles, and [qualify_grader] itself.  Errors are
    messages without the values interpolated in them.  Iterables are lists; a task
    bundle carries the bytes its loader sealed. *)
From Stdlib Require Import ZArith QArith String Ascii Lia.
From stdpp Require Import base tactics list strings.
From S2P Require Import Prelude Floats Sha256 Json Models Grading Stats Job Dispatch Replay Admission Repository.
Local Open Scope string_scope.
Local Open Scope Z_scope.

Module Qualification.
Import Sha256 Json Models Grading Stats Job Replay Admission Repository.

(** ** Roles *)
Inductive AnchorPartition := CALIBRATION | VALIDATION.
Inductive AnchorRole := MUTANT | NO_OP | DELETE_OPERATION | HARDCODE | ZERO_WORK | PARTIAL_FIX | REFERENCE | ALTERNATIVE_ANCHOR.
#[export] Instance AnchorPartition_eq_dec : EqDecision AnchorPartition.
Proof. solve_decision. Defined.
#[export] Instance AnchorRole_eq_dec : EqDecision AnchorRole.
Proof. solve_decision. Defined.

Definition AnchorPartition_value (p : AnchorPartition) : string :=
  match p with CALIBRATION => "calibration" | VALIDATION => "validation" end.
Definition AnchorRole_value (r : AnchorRole) : string :=
  match r with
  | MUTANT => "mutant" | NO_OP => "no_op" | DELETE_OPERATION => "delete_operation" | HARDCODE => "hardcode"
  | ZERO_WORK => "zero_work" | PARTIAL_FIX => "partial_fix" | REFERENCE => "reference" | ALTERNATIVE_ANCHOR => "alternative"
  end.

Definition FULL_SOLUTION_ROLES : list AnchorRole := [REFERENCE; ALTERNATIVE_ANCHOR].
Definition BEHAVIOR_BASELINE_ROLES : list AnchorRole := [NO_OP; DELETE_OPERATION; HARDCODE; ZERO_WORK].
Definition REQUIRED_ROLES : list AnchorRole :=
  [MUTANT; NO_OP; DELETE_OPERATION; HARDCODE; ZERO_WORK; PARTIAL_FIX; REFERENCE; ALTERNATIVE_ANCHOR].
Definition PARTITIONS : list AnchorPartition := [CALIBRATION; VALIDATION].

(** ** Models *)
Record CheckIdentity := { ck_stage : Stage; ck_check_id : string }.
#[export] Instance CheckIdentity_eq_dec : EqDecision CheckIdentity.
Proof. solve_decision. Defined.
Definition CheckIdentity_ok (c : CheckIdentity) : bool :=
  bool_decide (ck_stage c ∈ BEHAVIOR_STAGES) && is_stable_id (ck_check_id c).
Definition CheckIdentity_json (c : CheckIdentity) : json :=
  JObj [("stage", JStr (Stage_value (ck_stage c))); ("check_id", JStr (ck_check_id c))].

Record QualificationWitness := {
  qw_partition : AnchorPartition;
  qw_task_id : string;
  qw_task_version : string;
  qw_task_bundle_sha256 : string;
  qw_check : CheckIdentity
}.
Definition QualificationWitness_ok (w : QualificationWitness) : bool :=
  is_stable_id (qw_task_id w) && is_stable_id (qw_task_version w) && is_sha256 (qw_task_bundle_sha256 w)
  && CheckIdentity_ok (qw_check w).
Definition QualificationWitness_json (w : QualificationWitness) : json :=
  JObj [("partition", JStr (AnchorPartition_value (qw_partition w))); ("task_id", JStr (qw_task_id w));
        ("task_version", JStr (qw_task_version w)); ("task_bundle_sha256", JStr (qw_task_bundle_sha256 w));
        ("check", CheckIdentity_json (qw_check w))].

Record QualificationJobPlan := { qj_repeat_index : Z; qj_job_manifest_sha256 : string }.
Definition repeat_index_ok (n : Z) : bool := (0 <=? n) && (n <=? 15).
Definition QualificationJobPlan_ok (j : QualificationJobPlan) : bool :=
  repeat_index_ok (qj_repeat_index j) && is_sha256 (qj_job_manifest_sha256 j).
Definition QualificationJobPlan_json (j : QualificationJobPlan) : json :=
  JObj [("repeat_index", JInt (qj_repeat_index j)); ("job_manifest_sha256", JStr (qj_job_manifest_sha256 j))].

Record QualificationAnchorPlan := {
  qa_anchor_id : string;
  qa_partition : AnchorPartition;
  qa_role : AnchorRole;
  qa_task_id : string;
  qa_task_version : string;
  qa_task_bundle_sha256 : string;
  qa_evaluation_plan_sha256 : string;
  qa_scoring_contract_sha256 : string;
  qa_candidate : CandidateIdentity;
  qa_expected_first_failure : option Stage;
  qa_expected_failure_reason : option string;
  qa_expected_failed_checks : list CheckIdentity;
  qa_jobs : list QualificationJobPlan
}.

(** [QualificationAnchorPlan.expectation_matches_role] *)
Definition expectation_matches_role (a : QualificationAnchorPlan) : result string unit :=
  raise "expected failed-check identities must be unique" when negb (unique (qa_expected_failed_checks a)) ;;
  raise "qualification jobs must use canonical repeat indexes"
    when negb (bool_decide (qj_repeat_index <$> qa_jobs a = Z.of_nat <$> seq 0 (length (qa_jobs a)))) ;;
  raise "qualification job manifests must be unique per anchor" when negb (unique (qj_job_manifest_sha256 <$> qa_jobs a)) ;;
  if bool_decide (qa_role a ∈ FULL_SOLUTION_ROLES) then
    raise "full-solution anchors must be strict-success expectations"
      when negb (is_none (qa_expected_first_failure a)) || negb (is_none (qa_expected_failure_reason a))
           || nonempty (qa_expected_failed_checks a) ;;
    Ok tt
  else if bool_decide (qa_role a = MUTANT) then
    raise "mutant anchors must be rejected by the verifier"
      when differ (qa_expected_first_failure a) (Some VERIFIER) ;;
    raise "mutant anchors require an expected verifier reason" when is_none (qa_expected_failure_reason a) ;;
    raise "verifier-rejected mutants cannot claim behavior checks" when nonempty (qa_expected_failed_checks a) ;;
    Ok tt
  else
    raise "behavior anchors must fail functional or semantic checks"
      when negb (bool_decide (qa_expected_first_failure a ∈ Some <$> BEHAVIOR_STAGES)) ;;
    raise "behavior anchors require at least one killed witness" when negb (nonempty (qa_expected_failed_checks a)) ;;
    raise "behavior anchors require an expected failure reason" when is_none (qa_expected_failure_reason a) ;;
    raise "killed witnesses must belong to the first failing stage"
      when existsb (fun c => differ (Some (ck_stage c)) (qa_expected_first_failure a)) (qa_expected_failed_checks a) ;;
    Ok tt.

Definition validate_QualificationAnchorPlan (a : QualificationAnchorPlan) : result string unit :=
  check_field "anchor_id" (is_stable_id (qa_anchor_id a)) ;;
  check_field "task_id" (is_stable_id (qa_task_id a)) ;;
  check_field "task_version" (is_stable_id (qa_task_version a)) ;;
  check_field "task_bundle_sha256" (is_sha256 (qa_task_bundle_sha256 a)) ;;
  check_field "evaluation_plan_sha256" (is_sha256 (qa_evaluation_plan_sha256 a)) ;;
  check_field "scoring_contract_sha256" (is_sha256 (qa_scoring_contract_sha256 a)) ;;
  check_field "candidate" (CandidateIdentity_ok (qa_candidate a)) ;;
  check_field "expected_first_failure"
    (opt_ok (fun s => bool_decide (s ∈ [VERIFIER; FUNCTIONAL; SEMANTICS])) (qa_expected_first_failure a)) ;;
  check_field "expected_failure_reason" (opt_ok is_stable_id (qa_expected_failure_reason a)) ;;
  check_field "expected_failed_checks"
    (count_between 0 8192 (qa_expected_failed_checks a) && forallb CheckIdentity_ok (qa_expected_failed_checks a)) ;;
  check_field "jobs" (count_between 2 16 (qa_jobs a) && forallb QualificationJobPlan_ok (qa_jobs a)) ;;
  expectation_matches_role a.

Definition QualificationAnchorPlan_json (a : QualificationAnchorPlan) : json :=
  JObj [("anchor_id", JStr (qa_anchor_id a)); ("partition", JStr (AnchorPartition_value (qa_partition a)));
        ("role", JStr (AnchorRole_value (qa_role a))); ("task_id", JStr (qa_task_id a));
        ("task_version", JStr (qa_task_version a)); ("task_bundle_sha256", JStr (qa_task_bundle_sha256 a));
        ("evaluation_plan_sha256", JStr (qa_evaluation_plan_sha256 a));
        ("scoring_contract_sha256", JStr (qa_scoring_contract_sha256 a));
        ("candidate", CandidateIdentity_json (qa_candidate a));
        ("expected_first_failure", jopt (fun s => JStr (Stage_value s)) (qa_expected_first_failure a));
        ("expected_failure_reason", jopt JStr (qa_expected_failure_reason a));
        ("expected_failed_checks", JArr (map CheckIdentity_json (qa_expected_failed_checks a)));
        ("jobs", JArr (map QualificationJobPlan_json (qa_jobs a)))].

Record RewardOrderingConstraint := {
  ro_better_anchor_id : string;
  ro_worse_anchor_id : string;
  ro_minimum_margin : float64
}.
Definition ftwo : float64 := of_Z 2.

(** [RewardOrderingConstraint], with [anchors_are_distinct]. *)
Definition validate_RewardOrderingConstraint (r : RewardOrderingConstraint) : result string unit :=
  check_field "better_anchor_id" (is_stable_id (ro_better_anchor_id r)) ;;
  check_field "worse_anchor_id" (is_stable_id (ro_worse_anchor_id r)) ;;
  check_field "minimum_margin" (float_between fzero ftwo (ro_minimum_margin r)) ;;
  raise "reward ordering requires two distinct anchors"
    when bool_decide (ro_better_anchor_id r = ro_worse_anchor_id r) ;;
  Ok tt.
Definition RewardOrderingConstraint_json (r : RewardOrderingConstraint) : json :=
  JObj [("better_anchor_id", JStr (ro_better_anchor_id r)); ("worse_anchor_id", JStr (ro_worse_anchor_id r));
        ("minimum_margin", JFloat (ro_minimum_margin r))].

Record GraderQualificationPlan := {
  gp_qualification_id : string;
  gp_suite_id : string;
  gp_suite_manifest_sha256 : string;
  gp_reward_policy_id : string;
  gp_reward_policy_sha256 : string;
  gp_environment_id : string;
  gp_environment_sha256 : string;
  gp_grader_id : string;
  gp_harness_commit : string;
  gp_anchors : list QualificationAnchorPlan;
  gp_witnesses : list QualificationWitness;
  gp_reward_orderings : list RewardOrderingConstraint
}.
Definition minimum_tasks_per_partition : Z := 2.

(** [_task_key] *)
Definition task_key (a : QualificationAnchorPlan) : string * string * string :=
  (qa_task_id a, qa_task_version a, qa_task_bundle_sha256 a).
Definition partition_task (a : QualificationAnchorPlan) : AnchorPartition * (string * string * string) :=
  (qa_partition a, task_key a).
Definition witness_task (w : QualificationWitness) : AnchorPartition * (string * string * string) :=
  (qw_partition w, (qw_task_id w, qw_task_version w, qw_task_bundle_sha256 w)).
Definition witness_key (w : QualificationWitness) : (AnchorPartition * (string * string * string)) * CheckIdentity :=
  (witness_task w, qw_check w).

(** ** Acyclic orderings *)
(** The inner loop over the successors of [current]. *)
Fixpoint release (children : list string) (indegree : list (string * Z)) (ready : list string) :
    list (string * Z) * list string :=
  match children with
  | [] => (indegree, ready)
  | child :: children =>
      let n := default 0 (dict_get indegree child) - 1 in
      release children (dict_set child n indegree) (if n =? 0 then child :: ready else ready)
  end.

(** The outer loop: [ready] is a stack, its head the last element of the list. *)
Fixpoint kahn (fuel : nat) (outgoing : string -> list string) (indegree : list (string * Z)) (ready : list string)
    (visited : Z) : option Z :=
  match ready with
  | [] => Some visited
  | current :: ready =>
      match fuel with
      | O => None
      | S fuel =>
          let '(indegree, ready) := release (outgoing current) indegree ready in
          kahn fuel outgoing indegree ready (visited + 1)
      end
  end.

(** [outgoing[better]]: a set, so without repetitions. *)
Definition successors (relations : list (string * string)) (u : string) : list string :=
  remove_dups ((filter (fun r => r.1 = u) relations).*2).

Definition initial_indegree (anchor_ids : list string) (relations : list (string * string)) : list (string * Z) :=
  fold_left (fun d r => dict_set r.2 (default 0 (dict_get d r.2) + 1) d) relations ((fun id => (id, 0)) <$> anchor_ids).

(** [_validate_acyclic_ordering]: every anchor becomes ready at most once, so one unit
    of fuel per anchor is enough. *)
Definition validate_acyclic_ordering (anchor_ids : list string) (relations : list (string * string)) : result string unit :=
  let indegree := initial_indegree anchor_ids relations in
  let ready := rev (filter (fun id => default 0 (dict_get indegree id) = 0) anchor_ids) in
  raise "reward-ordering constraints must be acyclic"
    when negb (bool_decide (kahn (length anchor_ids) (successors relations) indegree ready 0
                            = Some (Z.of_nat (length anchor_ids)))) ;;
  Ok tt.

(** ** The matrix of a plan *)
(** Each task: every required role, and exactly one anchor of it. *)
Definition check_task_roles (anchors : list QualificationAnchorPlan) : result string unit :=
  for_each (fun g : (AnchorPartition * (string * string * string)) * list QualificationAnchorPlan =>
      raise "qualification task does not cover every required role"
        when negb (same_set (qa_role <$> g.2) REQUIRED_ROLES) ;;
      raise "qualification task must contain exactly one anchor for every required role"
        when negb (length g.2 =? length REQUIRED_ROLES)%nat ;;
      Ok tt) (group_by partition_task anchors).

Definition in_partition (anchors : list QualificationAnchorPlan) (p : AnchorPartition) : list QualificationAnchorPlan :=
  filter (fun a => qa_partition a = p) anchors.

Definition check_partition_sizes (anchors : list QualificationAnchorPlan) : result string unit :=
  for_each (fun p =>
      raise "partition requires distinct tasks"
        when Z.of_nat (length (remove_dups (task_key <$> in_partition anchors p))) <? minimum_tasks_per_partition ;;
      Ok tt) PARTITIONS.

Definition disjoint {A} `{EqDecision A} (a b : list A) : bool := negb (existsb (fun x => bool_decide (x ∈ b)) a).

(** The values that anchors of one key carry. *)
Definition values_of {K V} `{EqDecision K, EqDecision V} (key : QualificationAnchorPlan -> K)
    (value : QualificationAnchorPlan -> V) (anchors : list QualificationAnchorPlan) (k : K) : list V :=
  remove_dups (value <$> filter (fun a => key a = k) anchors).
Definition rebound {K V} `{EqDecision K, EqDecision V} (key : QualificationAnchorPlan -> K)
    (value : QualificationAnchorPlan -> V) (anchors : list QualificationAnchorPlan) : bool :=
  existsb (fun a => negb (length (values_of key value anchors (key a)) =? 1)%nat) anchors.

Definition planned_kills (anchors : list QualificationAnchorPlan) :
    list ((AnchorPartition * (string * string * string)) * CheckIdentity) :=
  flat_map (fun a => (fun c => (partition_task a, c)) <$> qa_expected_failed_checks a) anchors.

Definition relation_ids (p : GraderQualificationPlan) : list (string * string) :=
  (fun r => (ro_better_anchor_id r, ro_worse_anchor_id r)) <$> gp_reward_orderings p.

Definition by_id (p : GraderQualificationPlan) (id : string) : option QualificationAnchorPlan :=
  dict_get (dict_of ((fun a => (qa_anchor_id a, a)) <$> gp_anchors p)) id.

Definition check_relation (p : GraderQualificationPlan) (r : string * string) : result string unit :=
  match by_id p r.1, by_id p r.2 with
  | Some better, Some worse =>
      raise "reward orderings cannot cross calibration and validation"
        when differ (qa_partition better) (qa_partition worse) ;;
      raise "reward orderings must stay within one task bundle" when differ (task_key better) (task_key worse) ;;
      Ok tt
  | _, _ => Err "reward ordering references an unknown anchor"
  end.

(** The relations an anchor must take part in. *)
Definition has_role (p : GraderQualificationPlan) (a : QualificationAnchorPlan) (roles : list AnchorRole) (id : string) : bool :=
  match by_id p id with
  | Some b => bool_decide (qa_role b ∈ roles) && bool_decide (task_key b = task_key a)
  | None => false
  end.

Definition check_rank (p : GraderQualificationPlan) (a : QualificationAnchorPlan) : result string unit :=
  if bool_decide (qa_role a ∈ FULL_SOLUTION_ROLES) then Ok tt
  else
    let incoming := (filter (fun r => r.2 = qa_anchor_id a) (relation_ids p)).*1 in
    raise "invalid anchor must rank below a full solution"
      when negb (existsb (has_role p a FULL_SOLUTION_ROLES) incoming) ;;
    if bool_decide (qa_role a = PARTIAL_FIX) then
      let outgoing := (filter (fun r => r.1 = qa_anchor_id a) (relation_ids p)).*2 in
      raise "each partial fix must rank above every behavior baseline"
        when negb (forallb (fun role => existsb (has_role p a [role]) outgoing) BEHAVIOR_BASELINE_ROLES) ;;
      Ok tt
    else Ok tt.

(** [GraderQualificationPlan.matrix_is_closed_and_separated] *)
Definition matrix_is_closed_and_separated (p : GraderQualificationPlan) : result string unit :=
  let anchors := gp_anchors p in
  raise "qualification anchor IDs must be unique" when negb (unique (qa_anchor_id <$> anchors)) ;;
  raise "qualification candidate digests must be globally unique"
    when negb (unique ((fun a => ci_sha256 (qa_candidate a)) <$> anchors)) ;;
  raise "qualification job manifests must be globally unique"
    when negb (unique (flat_map (fun a => qj_job_manifest_sha256 <$> qa_jobs a) anchors)) ;;
  let* _ := check_task_roles anchors in
  let* _ := check_partition_sizes anchors in
  raise "calibration and validation task bundles must be disjoint"
    when negb (disjoint (qa_task_bundle_sha256 <$> in_partition anchors CALIBRATION)
                 (qa_task_bundle_sha256 <$> in_partition anchors VALIDATION)) ;;
  raise "one task bundle cannot be paired with multiple contracts"
    when rebound task_key qa_scoring_contract_sha256 anchors ;;
  raise "one task-bundle digest cannot be relabeled or rebound"
    when rebound qa_task_bundle_sha256 (fun a => (qa_task_id a, qa_task_version a, qa_scoring_contract_sha256 a)) anchors ;;
  let witness_keys := witness_key <$> gp_witnesses p in
  raise "qualification witnesses must be unique" when negb (unique witness_keys) ;;
  raise "every witness must belong to a planned partition task"
    when existsb (fun w => negb (bool_decide (witness_task w ∈ partition_task <$> anchors))) (gp_witnesses p) ;;
  raise "every required killed check must be a declared witness"
    when existsb (fun k => negb (bool_decide (k ∈ witness_keys))) (planned_kills anchors) ;;
  raise "the planned kill matrix must cover every declared witness"
    when negb (same_set (planned_kills anchors) witness_keys) ;;
  raise "reward-ordering constraints must be unique" when negb (unique (relation_ids p)) ;;
  let* _ := for_each (check_relation p) (relation_ids p) in
  let* _ := validate_acyclic_ordering (qa_anchor_id <$> anchors) (relation_ids p) in
  for_each (check_rank p) anchors.

Definition validate_GraderQualificationPlan (p : GraderQualificationPlan) : result string unit :=
  check_field "qualification_id" (is_stable_id (gp_qualification_id p)) ;;
  check_field "suite_id" (is_stable_id (gp_suite_id p)) ;;
  check_field "suite_manifest_sha256" (is_sha256 (gp_suite_manifest_sha256 p)) ;;
  check_field "reward_policy_id" (is_stable_id (gp_reward_policy_id p)) ;;
  check_field "reward_policy_sha256" (is_sha256 (gp_reward_policy_sha256 p)) ;;
  check_field "environment_id" (is_stable_id (gp_environment_id p)) ;;
  check_field "environment_sha256" (is_sha256 (gp_environment_sha256 p)) ;;
  check_field "grader_id" (is_sha256 (gp_grader_id p)) ;;
  check_field "harness_commit" (is_commit (gp_harness_commit p)) ;;
  check_field "anchors" (count_between 32 4096 (gp_anchors p)) ;;
  let* _ := for_each validate_QualificationAnchorPlan (gp_anchors p) in
  check_field "witnesses"
    (count_between 2 65536 (gp_witnesses p) && forallb QualificationWitness_ok (gp_witnesses p)) ;;
  check_field "reward_orderings" (count_between 40 65536 (gp_reward_orderings p)) ;;
  let* _ := for_each validate_RewardOrderingConstraint (gp_reward_orderings p) in
  matrix_is_closed_and_separated p.

Definition GraderQualificationPlan_json (p : GraderQualificationPlan) : json :=
  JObj [("schema_version", JStr "bpe.grader-qualification-plan.v1"); ("qualification_id", JStr (gp_qualification_id p));
        ("suite_id", JStr (gp_suite_id p)); ("suite_manifest_sha256", JStr (gp_suite_manifest_sha256 p));
        ("reward_policy_id", JStr (gp_reward_policy_id p)); ("reward_policy_sha256", JStr (gp_reward_policy_sha256 p));
        ("environment_id", JStr (gp_environment_id p)); ("environment_sha256", JStr (gp_environment_sha256 p));
        ("grader_id", JStr (gp_grader_id p)); ("harness_commit", JStr (gp_harness_commit p));
        ("minimum_tasks_per_partition", JInt minimum_tasks_per_partition);
        ("anchors", JArr (map QualificationAnchorPlan_json (gp_anchors p)));
        ("witnesses", JArr (map QualificationWitness_json (gp_witnesses p)));
        ("reward_orderings", JArr (map RewardOrderingConstraint_json (gp_reward_orderings p)))].

(** ** Attempts and results *)
Record GraderQualificationAttempt := {
  qt_anchor_id : string;
  qt_repeat_index : Z;
  qt_job : EvaluationJobManifest;
  qt_evidence : EvaluationEvidence;
  qt_grade : Grade;
  qt_manifest : ReplayManifest;
  qt_replay_anchor : ReplayAnchor
}.
Definition validate_GraderQualificationAttempt (a : GraderQualificationAttempt) : result string unit :=
  check_field "anchor_id" (is_stable_id (qt_anchor_id a)) ;;
  check_field "repeat_index" (repeat_index_ok (qt_repeat_index a)) ;;
  let* _ := validate_EvaluationJobManifest (qt_job a) in
  let* _ := validate_EvaluationEvidence (qt_evidence a) in
  let* _ := validate_Grade (qt_grade a) in
  let* _ := validate_ReplayManifest (qt_manifest a) in
  check_field "replay_anchor" (ReplayAnchor_ok (qt_replay_anchor a)) ;;
  Ok tt.
Definition GraderQualificationAttempt_json (a : GraderQualificationAttempt) : json :=
  JObj [("schema_version", JStr "bpe.grader-qualification-attempt.v1"); ("anchor_id", JStr (qt_anchor_id a));
        ("repeat_index", JInt (qt_repeat_index a)); ("job", EvaluationJobManifest_json (qt_job a));
        ("evidence", EvaluationEvidence_json (qt_evidence a)); ("grade", Grade_json (qt_grade a));
        ("manifest", ReplayManifest_json (qt_manifest a)); ("replay_anchor", ReplayAnchor_json (qt_replay_anchor a))].

Record QualificationReplayDigest := {
  qd_repeat_index : Z;
  qd_request_id : string;
  qd_evaluation_job_manifest_sha256 : string;
  qd_restore_nonce : string;
  qd_evidence_sha256 : string;
  qd_grade_sha256 : string;
  qd_replay_manifest_sha256 : string
}.
Definition QualificationReplayDigest_ok (d : QualificationReplayDigest) : bool :=
  repeat_index_ok (qd_repeat_index d) && is_stable_id (qd_request_id d) && is_sha256 (qd_evaluation_job_manifest_sha256 d)
  && is_sha256 (qd_restore_nonce d) && is_sha256 (qd_evidence_sha256 d) && is_sha256 (qd_grade_sha256 d)
  && is_sha256 (qd_replay_manifest_sha256 d).

Record AnchorQualificationResult := {
  qr_anchor_id : string;
  qr_partition : AnchorPartition;
  qr_role : AnchorRole;
  qr_task_id : string;
  qr_task_version : string;
  qr_task_bundle_sha256 : string;
  qr_candidate : CandidateIdentity;
  qr_strict_success : bool;
  qr_first_failure : option Stage;
  qr_training_reward : float64;
  qr_failed_checks : list CheckIdentity;
  qr_behavior_sha256 : string;
  qr_replays : list QualificationReplayDigest
}.
Definition validate_AnchorQualificationResult (r : AnchorQualificationResult) : result string unit :=
  check_field "anchor_id" (is_stable_id (qr_anchor_id r)) ;;
  check_field "task_id" (is_stable_id (qr_task_id r)) ;;
  check_field "task_version" (is_stable_id (qr_task_version r)) ;;
  check_field "task_bundle_sha256" (is_sha256 (qr_task_bundle_sha256 r)) ;;
  check_field "candidate" (CandidateIdentity_ok (qr_candidate r)) ;;
  check_field "training_reward" (float_between fminus_one fone (qr_training_reward r)) ;;
  check_field "failed_checks" (count_between 0 8192 (qr_failed_checks r) && forallb CheckIdentity_ok (qr_failed_checks r)) ;;
  check_field "behavior_sha256" (is_sha256 (qr_behavior_sha256 r)) ;;
  check_field "replays" (count_between 2 16 (qr_replays r) && forallb QualificationReplayDigest_ok (qr_replays r)) ;;
  Ok tt.

Record WitnessCoverage := { wc_witness : QualificationWitness; wc_killed_by_anchor_ids : list string }.
Definition validate_WitnessCoverage (w : WitnessCoverage) : result string unit :=
  check_field "witness" (QualificationWitness_ok (wc_witness w)) ;;
  check_field "killed_by_anchor_ids"
    (nonempty (wc_killed_by_anchor_ids w) && forallb is_stable_id (wc_killed_by_anchor_ids w)) ;;
  Ok tt.

Record RewardOrderingResult := {
  rr_partition : AnchorPartition;
  rr_better_anchor_id : string;
  rr_worse_anchor_id : string;
  rr_better_reward : float64;
  rr_worse_reward : float64;
  rr_observed_margin : float64;
  rr_required_minimum_margin : float64
}.
Definition validate_RewardOrderingResult (r : RewardOrderingResult) : result string unit :=
  check_field "better_anchor_id" (is_stable_id (rr_better_anchor_id r)) ;;
  check_field "worse_anchor_id" (is_stable_id (rr_worse_anchor_id r)) ;;
  check_field "better_reward" (float_between fminus_one fone (rr_better_reward r)) ;;
  check_field "worse_reward" (float_between fminus_one fone (rr_worse_reward r)) ;;
  check_field "observed_margin" (float_between fzero ftwo (rr_observed_margin r) && fltb fzero (rr_observed_margin r)) ;;
  check_field "required_minimum_margin" (float_between fzero ftwo (rr_required_minimum_margin r)) ;;
  Ok tt.

Record GraderQualificationReport := {
  gr_qualification_id : string;
  gr_plan_sha256 : string;
  gr_suite_id : string;
  gr_suite_manifest_sha256 : string;
  gr_reward_policy_id : string;
  gr_reward_policy_sha256 : string;
  gr_environment_id : string;
  gr_environment_sha256 : string;
  gr_report_grader_id : string;
  gr_harness_commit : string;
  gr_calibration_task_bundles : list string;
  gr_validation_task_bundles : list string;
  gr_anchor_results : list AnchorQualificationResult;
  gr_witness_coverage : list WitnessCoverage;
  gr_reward_orderings : list RewardOrderingResult;
  gr_attempt_set_sha256 : string
}.
Definition validate_GraderQualificationReport (r : GraderQualificationReport) : result string unit :=
  check_field "qualification_id" (is_stable_id (gr_qualification_id r)) ;;
  check_field "plan_sha256" (is_sha256 (gr_plan_sha256 r)) ;;
  check_field "suite_id" (is_stable_id (gr_suite_id r)) ;;
  check_field "suite_manifest_sha256" (is_sha256 (gr_suite_manifest_sha256 r)) ;;
  check_field "reward_policy_id" (is_stable_id (gr_reward_policy_id r)) ;;
  check_field "reward_policy_sha256" (is_sha256 (gr_reward_policy_sha256 r)) ;;
  check_field "environment_id" (is_stable_id (gr_environment_id r)) ;;
  check_field "environment_sha256" (is_sha256 (gr_environment_sha256 r)) ;;
  check_field "grader_id" (is_sha256 (gr_report_grader_id r)) ;;
  check_field "harness_commit" (is_commit (gr_harness_commit r)) ;;
  check_field "calibration_task_bundles"
    (count_between 2 512 (gr_calibration_task_bundles r) && forallb is_sha256 (gr_calibration_task_bundles r)) ;;
  check_field "validation_task_bundles"
    (count_between 2 512 (gr_validation_task_bundles r) && forallb is_sha256 (gr_validation_task_bundles r)) ;;
  check_field "anchor_results" (count_between 32 4096 (gr_anchor_results r)) ;;
  let* _ := for_each validate_AnchorQualificationResult (gr_anchor_results r) in
  check_field "witness_coverage" (count_between 2 65536 (gr_witness_coverage r)) ;;
  let* _ := for_each validate_WitnessCoverage (gr_witness_coverage r) in
  check_field "reward_orderings" (count_between 40 65536 (gr_reward_orderings r)) ;;
  let* _ := for_each validate_RewardOrderingResult (gr_reward_orderings r) in
  check_field "attempt_set_sha256" (is_sha256 (gr_attempt_set_sha256 r)) ;;
  Ok tt.


(** ** Python equality of models *)
#[export] Instance SuiteTask_eq_dec : EqDecision SuiteTask.
Proof. solve_decision. Defined.
#[export] Instance SuiteManifest_eq_dec : EqDecision SuiteManifest.
Proof. solve_decision. Defined.
#[export] Instance EvaluationRequest_eq_dec : EqDecision EvaluationRequest.
Proof. solve_decision. Defined.
#[export] Instance EnvironmentFingerprint_eq_dec : EqDecision EnvironmentFingerprint.
Proof. solve_decision. Defined.
#[export] Instance CandidateContract_eq_dec : EqDecision CandidateContract.
Proof. solve_decision. Defined.
#[export] Instance ProgramContract_eq_dec : EqDecision ProgramContract.
Proof. solve_decision. Defined.
#[export] Instance SemanticObligation_eq_dec : EqDecision SemanticObligation.
Proof. solve_decision. Defined.
#[export] Instance FileRef_eq_dec : EqDecision FileRef.
Proof. solve_decision. Defined.

(** [==] of a number with a number: exact, and a bool is an integer. *)
Definition int_is_float (z : Z) (f : float64) : bool := is_finite f && Qeq_bool (inject_Z z) (fq f).
Definition as_int (j : json) : option Z :=
  match j with JBool b => Some (if b then 1 else 0) | JInt z => Some z | _ => None end.
Definition number_same (a b : json) : bool :=
  match as_int a, as_int b, a, b with
  | Some x, Some y, _, _ => x =? y
  | Some x, _, _, JFloat g => int_is_float x g
  | _, Some y, JFloat f, _ => int_is_float y f
  | _, _, JFloat f, JFloat g => feqb f g
  | _, _, _, _ => false
  end.

(** [==] of JSON values. *)
Fixpoint json_same (a b : json) : bool :=
  match a, b with
  | JNull, JNull => true
  | JStr s, JStr t => bool_decide (s = t)
  | JArr l, JArr m =>
      (fix go (l m : list json) : bool :=
         match l, m with
         | [], [] => true
         | x :: l, y :: m => json_same x y && go l m
         | _, _ => false
         end) l m
  | JObj d, JObj e =>
      same_set d.*1 e.*1
      && (fix go (d : list (string * json)) : bool :=
            match d with
            | [] => true
            | (k, x) :: d => match dict_get e k with Some y => json_same x y | None => false end && go d
            end) d
  | _, _ => number_same a b
  end.

Definition AssertionSpec_eqb (a b : AssertionSpec) : bool :=
  bool_decide ((as_assertion_id a, as_kind a, as_required a) = (as_assertion_id b, as_kind b, as_required b))
  && feqb (as_weight a) (as_weight b) && json_same (default JNull (as_expected a)) (default JNull (as_expected b)).
Definition EvaluationFunctionalCase_eqb (a b : EvaluationFunctionalCase) : bool :=
  bool_decide ((efc_case_id a, efc_input a) = (efc_case_id b, efc_input b))
  && list_eqb AssertionSpec_eqb (efc_assertions a) (efc_assertions b).
Definition EvaluationPlan_eqb (a b : EvaluationPlan) : bool :=
  bool_decide ((ep_task_id a, ep_task_version a, ep_family a, ep_public_task_sha256 a, ep_private_grader_sha256 a,
                ep_task_bundle_sha256 a, ep_environment_id a, ep_candidate_contract a, ep_program a, ep_public_sdk_id a,
                ep_max_attempts a, ep_whole_attempt_timeout_seconds a, ep_semantic_obligations a)
               = (ep_task_id b, ep_task_version b, ep_family b, ep_public_task_sha256 b, ep_private_grader_sha256 b,
                  ep_task_bundle_sha256 b, ep_environment_id b, ep_candidate_contract b, ep_program b, ep_public_sdk_id b,
                  ep_max_attempts b, ep_whole_attempt_timeout_seconds b, ep_semantic_obligations b))
  && list_eqb EvaluationFunctionalCase_eqb (ep_functional_cases a) (ep_functional_cases b).
Definition policy_floats (p : RewardPolicy) : list float64 :=
  [rp_ingest_failure_reward p; rp_compile_failure_reward p; rp_object_policy_failure_reward p;
   rp_verifier_failure_reward p; rp_functional_reward_cap p; rp_semantics_reward_cap p; rp_success_reward p;
   rp_explicit_hack_reward p].
Definition RewardPolicy_eqb (a b : RewardPolicy) : bool :=
  bool_decide ((rp_policy_id a, rp_description a, rp_explicit_hack_reason_prefix a)
               = (rp_policy_id b, rp_description b, rp_explicit_hack_reason_prefix b))
  && list_eqb feqb (policy_floats a) (policy_floats b).

(** ** Sealed task bundles *)
Definition MAX_TASK_ARTIFACTS : Z := 256.
Definition MAX_TASK_ARTIFACT_BYTES : Z := 16 * 1024 * 1024.
Definition MAX_TASK_TOTAL_ARTIFACT_BYTES : Z := 128 * 1024 * 1024.

(** A [TaskBundle] with its [_artifact_bytes]: projection, path and content. *)
Record SealedBundle := {
  sb_bundle : TaskBundle;
  sb_artifact_bytes : list (string * string * string)
}.

(** [_bounded_snapshot] *)
Definition bounded_snapshot {A} (values : list A) (expected_count : Z) : result string (list A) :=
  let snapshot := take (Z.to_nat (expected_count + 1)) values in
  raise "qualification received more than the frozen plan requires" when expected_count <? Z.of_nat (length snapshot) ;;
  raise "qualification received fewer than the frozen plan requires" when Z.of_nat (length snapshot) <? expected_count ;;
  Ok snapshot.

(** [_file_refs]: the stack visits fields and items from the last to the first. *)
Definition public_file_refs (t : PublicTask) : list FileRef :=
  (option_list (pt_starter_source t) ++ [pt_prompt t])%list.
Definition private_file_refs (g : PrivateGrader) : list FileRef :=
  (rev (nc_source <$> pg_negative_controls g) ++ rev (fc_input_ref <$> pg_functional_cases g)
   ++ rev (pg_qualification_partial_fixes g) ++ rev (pg_valid_alternatives g) ++ [pg_reference_source g])%list.

(** The loop over the references of one projection, filling [expected]. *)
Fixpoint expect_refs (projection : string) (refs : list FileRef) (expected : list (string * string * FileRef)) :
    result string (list (string * string * FileRef)) :=
  match refs with
  | [] => Ok expected
  | r :: refs =>
      match dict_get expected (projection, file_path r) with
      | Some previous =>
          raise "qualification task reuses an artifact path with inconsistent identity" when differ previous r ;;
          expect_refs projection refs expected
      | None => expect_refs projection refs (expected ++ [((projection, file_path r), r)])%list
      end
  end.

Definition expect_projection (projection : string) (refs : list FileRef) (expected : list (string * string * FileRef)) :
    result string (list (string * string * FileRef)) :=
  raise "qualification task projection exceeds the sealed-artifact limit"
    when MAX_TASK_ARTIFACTS <? Z.of_nat (length refs) ;;
  expect_refs projection refs expected.

(** The loop over the sealed items, filling [sealed]. *)
Fixpoint seal_items (items : list (string * string * string)) (total : Z) (sealed : list (string * string * string)) :
    result string (list (string * string * string)) :=
  match items with
  | [] => Ok sealed
  | (key, content) :: items =>
      raise "qualification task has a malformed sealed artifact" when negb (bool_decide (key.1 ∈ ["public"; "grader"])) ;;
      raise "qualification task has duplicate sealed artifacts" when negb (is_none (dict_get sealed key)) ;;
      raise "qualification task has an oversized sealed artifact" when MAX_TASK_ARTIFACT_BYTES <? nbytes content ;;
      raise "qualification task sealed artifacts exceed the byte limit"
        when MAX_TASK_TOTAL_ARTIFACT_BYTES <? total + nbytes content ;;
      seal_items items (total + nbytes content) (sealed ++ [(key, content)])%list
  end.

Definition pair_ltb (a b : string * string * string) : bool :=
  String.ltb a.1.1 b.1.1 || (bool_decide (a.1.1 = b.1.1) && String.ltb a.1.2 b.1.2).

(** [_sealed_artifact_snapshot] *)
Definition sealed_artifact_snapshot (b : SealedBundle) : result string (list (string * string * string)) :=
  let* expected := expect_projection "public" (public_file_refs (tb_public (sb_bundle b))) [] in
  let* expected := expect_projection "grader" (private_file_refs (tb_private (sb_bundle b))) expected in
  raise "qualification task exceeds the sealed-artifact limit"
    when MAX_TASK_ARTIFACTS * 2 <? Z.of_nat (length expected) ;;
  let sealed_items := take (length expected + 1) (sb_artifact_bytes b) in
  raise "qualification task exceeds its sealed-artifact count limit" when (length expected <? length sealed_items)%nat ;;
  let* sealed := seal_items sealed_items 0 [] in
  raise "qualification task sealed-artifact set is not closed" when negb (same_set sealed.*1 expected.*1) ;;
  let* _ :=
    for_each (fun kr : string * string * FileRef =>
        raise "qualification task sealed artifact does not match its FileRef"
          when differ ((fun content => (sha256_bytes content, nbytes content)) <$> dict_get sealed kr.1)
                 (Some (file_sha256 kr.2, file_size_bytes kr.2)) ;;
        Ok tt) expected in
  Ok (sort_by pair_ltb sealed).

(** [_bundle_file_digests] *)
Definition bundle_file_digests (b : TaskBundle) : list string :=
  (file_sha256 <$> public_file_refs (tb_public b) ++ private_file_refs (tb_private b))%list.

(** [_freeze_task_bundle] *)
Definition freeze_task_bundle (b : SealedBundle) : result string SealedBundle :=
  let public := tb_public (sb_bundle b) in
  let private := tb_private (sb_bundle b) in
  let* _ := validate_PublicTask public in
  let* _ := validate_PrivateGrader private in
  raise "qualification task public/private identities differ"
    when differ (pt_task_id public, pt_version public) (pg_task_id private, pg_task_version private) ;;
  raise "grader qualification currently requires repair tasks"
    when differ (pt_family public) repair || is_none (pg_root_cause private) || is_none (pg_mutation private) ;;
  raise "repair qualification provenance must bind the sealed reference source"
    when differ (pv_original_sha256 (pg_provenance private)) (file_sha256 (pg_reference_source private)) ;;
  let* public_sha256 := sha256_json (PublicTask_json public) in
  let* private_sha256 := sha256_json (PrivateGrader_json private) in
  let* bundle_sha256 := sha256_json (JObj [("schema_version", JStr "bpe.task-bundle.v1");
                                           ("public_sha256", JStr public_sha256);
                                           ("private_sha256", JStr private_sha256)]) in
  raise "qualification task bundle digests are inconsistent"
    when differ public_sha256 (tb_public_sha256 (sb_bundle b)) || differ private_sha256 (tb_private_sha256 (sb_bundle b))
         || differ bundle_sha256 (tb_bundle_sha256 (sb_bundle b)) ;;
  let* artifact_bytes := sealed_artifact_snapshot b in
  Ok {| sb_bundle := {| tb_public := public; tb_private := private; tb_public_sha256 := public_sha256;
                        tb_private_sha256 := private_sha256; tb_bundle_sha256 := bundle_sha256 |};
        sb_artifact_bytes := artifact_bytes |}.


(** ** The authority: what the tasks themselves determine *)
Record TaskAuthority := {
  ta_bundle : TaskBundle;
  ta_suite_task : SuiteTask;
  ta_evaluation_plan : EvaluationPlan;
  ta_contract : ScoringContract
}.

(** [try: .. except ..: raise QualificationError(message)] *)
Definition rephrase {E A} (message : string) (r : result E A) : result string A :=
  match r with Ok x => Ok x | Err _ => Err message end.

(** The loop that fills [by_bundle]. *)
Fixpoint index_bundles (bundles : list TaskBundle) (d : list (string * TaskBundle)) :
    result string (list (string * TaskBundle)) :=
  match bundles with
  | [] => Ok d
  | b :: bundles =>
      raise "duplicate task bundle" when negb (is_none (dict_get d (tb_bundle_sha256 b))) ;;
      index_bundles bundles (d ++ [(tb_bundle_sha256 b, b)])%list
  end.

(** [Counter(a) == Counter(b)] *)
Definition counts_equal {A} `{EqDecision A} (a b : list A) : bool :=
  forallb (fun x => bool_decide (length (filter (fun y => y = x) a) = length (filter (fun y => y = x) b))) (a ++ b)%list.

(** One turn of the loop that fills [authority_by_bundle]. *)
Definition task_authority (plan : GraderQualificationPlan) (suite_by_bundle : list (string * SuiteTask))
    (item : string * TaskBundle) : result string (string * TaskAuthority) :=
  let '(digest, bundle) := item in
  match dict_get suite_by_bundle digest with
  | None => Err "qualification task bundle is not a suite member"
  | Some suite_task =>
      let public := tb_public bundle in
      let private := tb_private bundle in
      let* evaluation_plan := rephrase "cannot derive qualification authority" (build_evaluation_plan bundle) in
      let* contract := rephrase "cannot derive qualification authority" (build_scoring_contract bundle) in
      let* plan_sha256 := sha256_json (EvaluationPlan_json evaluation_plan) in
      let* contract_sha256 := sha256_json (ScoringContract_json contract) in
      raise "suite membership does not bind task"
        when differ (stk_task_id suite_task) (pt_task_id public)
             || differ (stk_task_version suite_task) (pt_version public)
             || differ (stk_evaluation_plan_sha256 suite_task) plan_sha256
             || differ (stk_scoring_contract_sha256 suite_task) contract_sha256
             || differ (stk_family suite_task) (pt_family public)
             || differ (stk_root_cause suite_task) (pg_root_cause private)
             || differ (stk_program_type suite_task) (pc_program_type (pt_program public)) ;;
      raise "qualification task uses the wrong environment"
        when differ (pt_environment_id public) (gp_environment_id plan) ;;
      raise "qualification task must seal exactly one control for every required behavior-baseline role"
        when negb (counts_equal ((fun c => ControlKind_value (nc_kind c)) <$> pg_negative_controls private)
                     (AnchorRole_value <$> BEHAVIOR_BASELINE_ROLES)) ;;
      raise "qualification task must seal exactly one valid alternative"
        when negb (length (pg_valid_alternatives private) =? 1)%nat ;;
      raise "qualification task must seal exactly one partial-fix anchor"
        when negb (length (pg_qualification_partial_fixes private) =? 1)%nat ;;
      Ok (digest, {| ta_bundle := bundle; ta_suite_task := suite_task; ta_evaluation_plan := evaluation_plan;
                     ta_contract := contract |})
  end.

(** [AnchorPartition(split)] *)
Definition partition_of (a : TaskAuthority) : result string AnchorPartition :=
  match pg_split (tb_private (ta_bundle a)) with
  | split_calibration => Ok CALIBRATION
  | split_validation => Ok VALIDATION
  | _ => Err "qualification tasks must come from calibration or validation splits"
  end.

(** ** Separation of the partitions *)
(** The five [defaultdict(set)]: a value of a partition is a pair. *)
Record Separation := {
  sp_groups : list (AnchorPartition * string);
  sp_originals : list (AnchorPartition * string);
  sp_repositories : list (AnchorPartition * string);
  sp_clusters : list (AnchorPartition * string);
  sp_file_digests : list (AnchorPartition * string)
}.
Definition no_separation : Separation :=
  {| sp_groups := []; sp_originals := []; sp_repositories := []; sp_clusters := []; sp_file_digests := [] |}.

Definition separate (T : TextOps) (s : Separation) (p : AnchorPartition) (a : TaskAuthority) : result string Separation :=
  let private := tb_private (ta_bundle a) in
  let original := pv_original_sha256 (pg_provenance private) in
  raise "qualification tasks reuse a contamination group"
    when bool_decide ((p, pg_contamination_group private) ∈ sp_groups s) ;;
  raise "qualification tasks reuse an original program" when bool_decide ((p, original) ∈ sp_originals s) ;;
  let* repository := rephrase "qualification task has invalid repository provenance"
                       (normalize_repository_identity T (pv_repository (pg_provenance private))) in
  raise "qualification tasks must use distinct repositories" when bool_decide ((p, repository) ∈ sp_repositories s) ;;
  raise "qualification tasks reuse a suite cluster"
    when bool_decide ((p, stk_cluster_id (ta_suite_task a)) ∈ sp_clusters s) ;;
  let digests := pair p <$> bundle_file_digests (ta_bundle a) in
  raise "qualification tasks reuse an artifact digest within one partition"
    when negb (disjoint digests (sp_file_digests s)) ;;
  Ok {| sp_groups := (p, pg_contamination_group private) :: sp_groups s;
        sp_originals := (p, original) :: sp_originals s;
        sp_repositories := (p, repository) :: sp_repositories s;
        sp_clusters := (p, stk_cluster_id (ta_suite_task a)) :: sp_clusters s;
        sp_file_digests := (digests ++ sp_file_digests s)%list |}.

Fixpoint separate_all (T : TextOps) (items : list (AnchorPartition * TaskAuthority)) (s : Separation) :
    result string Separation :=
  match items with
  | [] => Ok s
  | (p, a) :: items => let* s := separate T s p a in separate_all T items s
  end.

Definition of_partition (p : AnchorPartition) (l : list (AnchorPartition * string)) : list string :=
  (filter (fun x => x.1 = p) l).*2.
Definition cross_disjoint (l : list (AnchorPartition * string)) : bool :=
  disjoint (of_partition CALIBRATION l) (of_partition VALIDATION l).

Definition check_separated (s : Separation) : result string unit :=
  raise "calibration and validation reuse a contamination group" when negb (cross_disjoint (sp_groups s)) ;;
  raise "calibration and validation reuse an original program" when negb (cross_disjoint (sp_originals s)) ;;
  raise "calibration and validation reuse a repository" when negb (cross_disjoint (sp_repositories s)) ;;
  raise "calibration and validation reuse a suite cluster" when negb (cross_disjoint (sp_clusters s)) ;;
  raise "calibration and validation reuse an artifact digest" when negb (cross_disjoint (sp_file_digests s)) ;;
  Ok tt.

(** ** Anchors against their tasks *)
(** [expected_candidates] of a role. *)
Definition expected_candidates (b : TaskBundle) (a : QualificationAnchorPlan) : result string (list CandidateIdentity) :=
  let private := tb_private b in
  match qa_role a with
  | REFERENCE => Ok [candidate_identity (pg_reference_source private)]
  | ALTERNATIVE_ANCHOR => Ok (candidate_identity <$> pg_valid_alternatives private)
  | MUTANT =>
      match pt_starter_source (tb_public b) with
      | None => Err "repair qualification requires a public mutant"
      | Some starter => Ok [candidate_identity starter]
      end
  | PARTIAL_FIX =>
      match pg_qualification_partial_fixes private with
      | [] => Err "IndexError"
      | fix_ref :: _ => Ok [candidate_identity fix_ref]
      end
  | _ =>
      let controls := filter (fun c => ControlKind_value (nc_kind c) = AnchorRole_value (qa_role a))
                        (pg_negative_controls private) in
      raise "task lacks a declared control" when negb (nonempty controls) ;;
      match find (fun c => bool_decide (candidate_identity (nc_source c) = qa_candidate a)) controls with
      | None => Err "anchor does not match its declared control"
      | Some matched =>
          raise "anchor does not match its declared control"
            when differ (Some (nc_expected_first_failure matched)) (qa_expected_first_failure a) ;;
          Ok ((fun c => candidate_identity (nc_source c)) <$> controls)
      end
  end.

(** The required behaviour checks of a contract. *)
Definition contract_checks (c : ScoringContract) : list CheckIdentity :=
  (fun k => {| ck_stage := ec_stage k; ck_check_id := ec_check_id k |})
    <$> filter (fun k => ec_required k = true /\ ec_stage k ∈ BEHAVIOR_STAGES) (sc_checks c).

(** The checks of the witnesses of a task, whatever their partition. *)
Definition planned_checks (plan : GraderQualificationPlan) (a : QualificationAnchorPlan) : list CheckIdentity :=
  qw_check <$> filter (fun w => (witness_task w).2 = task_key a) (gp_witnesses plan).

Definition check_anchor (plan : GraderQualificationPlan) (authorities : list (string * TaskAuthority))
    (partitions : list (string * AnchorPartition)) (a : QualificationAnchorPlan) : result string unit :=
  match dict_get authorities (qa_task_bundle_sha256 a) with
  | None => Err "KeyError"
  | Some authority =>
      let b := ta_bundle authority in
      let c := ta_contract authority in
      raise "anchor relabels the task split"
        when differ (Some (qa_partition a)) (dict_get partitions (tb_bundle_sha256 b)) ;;
      raise "anchor does not bind its scoring contract"
        when differ (sc_task_id c, sc_task_version c, sc_task_bundle_sha256 c) (task_key a) ;;
      let* plan_sha256 := sha256_json (EvaluationPlan_json (ta_evaluation_plan authority)) in
      let* contract_sha256 := sha256_json (ScoringContract_json c) in
      raise "anchor does not bind the derived plan and contract"
        when differ (qa_evaluation_plan_sha256 a) plan_sha256 || differ (qa_scoring_contract_sha256 a) contract_sha256 ;;
      let* expected := expected_candidates b a in
      raise "anchor candidate does not match its sealed role" when negb (bool_decide (qa_candidate a ∈ expected)) ;;
      raise "planned witnesses are absent from required contract checks"
        when negb (forallb (fun k => bool_decide (k ∈ contract_checks c)) (planned_checks plan a)) ;;
      Ok tt
  end.

(** [_validate_authority] *)
Definition validate_authority (T : TextOps) (plan : GraderQualificationPlan) (suite : SuiteManifest)
    (bundles : list SealedBundle) : result string (SuiteManifest * list (string * TaskAuthority)) :=
  let* _ := validate_SuiteManifest suite in
  let* suite_sha256 := sha256_json (SuiteManifest_json suite) in
  raise "qualification plan does not bind the supplied repair suite"
    when differ (su_suite_id suite) (gp_suite_id plan) || differ suite_sha256 (gp_suite_manifest_sha256 plan)
         || differ (su_environment_id suite) (gp_environment_id plan) || differ (su_family suite) repair ;;
  let required_bundles := remove_dups (qa_task_bundle_sha256 <$> gp_anchors plan) in
  let* supplied := bounded_snapshot bundles (Z.of_nat (length required_bundles)) in
  let* frozen := map_result freeze_task_bundle supplied in
  let* by_bundle := index_bundles (sb_bundle <$> frozen) [] in
  raise "qualification task-bundle set differs from plan" when negb (same_set by_bundle.*1 required_bundles) ;;
  let suite_by_bundle := dict_of ((fun t => (stk_task_bundle_sha256 t, t)) <$> su_tasks suite) in
  raise "suite task-bundle digests must be unique" when negb (length suite_by_bundle =? length (su_tasks suite))%nat ;;
  raise "qualification suite task set differs from the plan"
    when negb (same_set suite_by_bundle.*1 required_bundles) ;;
  let* authorities := map_result (task_authority plan suite_by_bundle) by_bundle in
  let* partitions := map_result (fun da => let* p := partition_of da.2 in Ok (da.1, p)) authorities in
  let* separation := separate_all T (zip partitions.*2 authorities.*2) no_separation in
  let* _ := check_separated separation in
  let* _ := for_each (check_anchor plan authorities partitions) (gp_anchors plan) in
  Ok (suite, authorities).


(** ** Attempts *)
(** [_event_bytes] *)
Definition qualification_event_bytes (e : EvaluationEvidence) : result string string :=
  let* lines := map_result (fun es => canonical_json_bytes (event_json es.1 es.2)) (imap pair (ev_stages e)) in
  Ok (String.concat "" lines).

(** [_behavior_projection]: every stage and the observations. *)
Definition full_behavior_projection (e : EvaluationEvidence) : json :=
  JObj [("observation_artifacts", jdict ArtifactRef_json (ev_observation_artifacts e));
        ("stages", JArr (map (fun s =>
           JObj [("stage", JStr (Stage_value (st_stage s))); ("outcome", JStr (Outcome_value (st_outcome s)));
                 ("reason_code", JStr (st_reason_code s)); ("exit_code", jopt JInt (st_exit_code s));
                 ("facts", JObj (st_facts s)); ("artifacts", jdict ArtifactRef_json (st_artifacts s));
                 ("checks", JArr (map (fun c =>
                    JObj [("check_id", JStr (chk_check_id c)); ("outcome", JStr (Outcome_value (chk_outcome c)));
                          ("required", JBool (chk_required c)); ("weight", JFloat (chk_weight c));
                          ("reason_code", JStr (chk_reason_code c)); ("facts", JObj (chk_facts c));
                          ("artifacts", jdict ArtifactRef_json (chk_artifacts c))]) (st_checks s)))]) (ev_stages e)))].

(** [_failed_behavior_checks]: a set. *)
Definition failed_behavior_checks (e : EvaluationEvidence) : list CheckIdentity :=
  remove_dups (flat_map (fun s =>
      (fun c => {| ck_stage := st_stage s; ck_check_id := chk_check_id c |})
        <$> filter (fun c => chk_required c = true /\ chk_outcome c = FAIL) (st_checks s))
    (filter (fun s => st_stage s ∈ BEHAVIOR_STAGES) (ev_stages e))).

(** The replay manifest and anchor of an attempt bind what was graded. *)
Definition validate_replay_binding (a : GraderQualificationAttempt) (c : ScoringContract) (p : RewardPolicy) :
    result string unit :=
  let e := qt_evidence a in
  let* m := rephrase "attempt has an invalid replay manifest" (validate_replay_manifest (qt_manifest a)) in
  let* events_bytes := qualification_event_bytes e in
  let expected_events := {| art_sha256 := sha256_bytes events_bytes; art_size_bytes := nbytes events_bytes;
                            art_media_type := "application/x-ndjson" |} in
  raise "artifact reference" when negb (ArtifactRef_ok expected_events) ;;
  let* manifest_sha256 := sha256_json (ReplayManifest_json m) in
  let* evidence_sha256 := sha256_json (EvaluationEvidence_json e) in
  let* grade_sha256 := sha256_json (Grade_json (qt_grade a)) in
  let* contract_sha256 := sha256_json (ScoringContract_json c) in
  let* policy_sha256 := sha256_json (RewardPolicy_json p) in
  let* evidence_ref := model_artifact (EvaluationEvidence_json e) in
  let* grade_ref := model_artifact (Grade_json (qt_grade a)) in
  let* contract_ref := model_artifact (ScoringContract_json c) in
  let* policy_ref := model_artifact (RewardPolicy_json p) in
  raise "attempt is not bound to its replay manifest and anchor"
    when differ (ra_manifest_sha256 (qt_replay_anchor a)) manifest_sha256
         || differ (ra_evidence_sha256 (qt_replay_anchor a)) evidence_sha256
         || differ (ra_grade_sha256 (qt_replay_anchor a)) grade_sha256
         || differ (ra_contract_sha256 (qt_replay_anchor a)) contract_sha256
         || differ (ra_policy_sha256 (qt_replay_anchor a)) policy_sha256
         || differ (rm_evidence m) evidence_ref || differ (rm_grade m) grade_ref
         || differ (rm_contract m) contract_ref || differ (rm_policy m) policy_ref
         || differ (rm_events m) expected_events
         || differ (dict_get (rm_artifacts m) "candidate.c") (Some (req_candidate (ev_request e)))
         || negb (forallb (fun x => bool_decide (x ∈ (rm_artifacts m).*2)) (evidence_artifact_refs e)) ;;
  Ok tt.

(** [_validate_attempt_binding] *)
Definition validate_attempt_binding (a : GraderQualificationAttempt) (anchor : QualificationAnchorPlan)
    (plan : GraderQualificationPlan) (suite : SuiteManifest) (authority : TaskAuthority) (policy : RewardPolicy) :
    result string unit :=
  let* _ := validate_EvaluationJobManifest (qt_job a) in
  let job := qt_job a in
  let e := qt_evidence a in
  let request := ev_request e in
  match qa_jobs anchor !! Z.to_nat (qt_repeat_index a) with
  | None => Err "IndexError"
  | Some planned_job =>
      let* job_sha256 := sha256_json (EvaluationJobManifest_json job) in
      raise "attempt does not bind its precommitted evaluation job"
        when differ (qj_repeat_index planned_job) (qt_repeat_index a)
             || differ (qj_job_manifest_sha256 planned_job) job_sha256
             || differ (jm_suite job) suite
             || negb (EvaluationPlan_eqb (jm_plan job) (ta_evaluation_plan authority))
             || negb (ScoringContract_eqb (jm_contract job) (ta_contract authority))
             || negb (RewardPolicy_eqb (jm_reward_policy job) policy)
             || differ (jm_request job) request
             || differ (jm_environment job) (ev_environment e)
             || differ (jm_harness_commit job) (gp_harness_commit plan)
             || differ (jm_expected_grader_id job) (gp_grader_id plan) ;;
      raise "grader qualification requires microVM-shaped evidence"
        when differ (ev_origin e) ORIGIN_MICROVM || differ (env_isolation (ev_environment e)) ISO_MICROVM ;;
      raise "attempt does not bind the planned suite and task"
        when differ (req_suite_id request) (gp_suite_id plan)
             || differ (req_suite_manifest_sha256 request) (gp_suite_manifest_sha256 plan)
             || differ (req_task_id request, req_task_version request, req_task_bundle_sha256 request) (task_key anchor) ;;
      let* environment_sha256 := sha256_json (EnvironmentFingerprint_json (ev_environment e)) in
      raise "attempt does not bind the frozen grader identity"
        when differ (req_environment_id request) (gp_environment_id plan)
             || differ environment_sha256 (gp_environment_sha256 plan)
             || differ (ev_grader_id e) (gp_grader_id plan) || differ (ev_harness_commit e) (gp_harness_commit plan) ;;
      raise "attempt uses the wrong candidate"
        when differ (art_sha256 (req_candidate request)) (ci_sha256 (qa_candidate anchor))
             || differ (art_size_bytes (req_candidate request)) (ci_size_bytes (qa_candidate anchor)) ;;
      let* expected_grade := rephrase "attempt is not scoreable under its frozen contract"
                               (score_evidence e (ta_contract authority) policy) in
      raise "attempt has a forged or stale grade" when negb (Grade_eqb (qt_grade a) expected_grade) ;;
      validate_replay_binding a (ta_contract authority) policy
  end.

(** ** Outcomes *)
(** [==] of two grade projections: the last component is a set. *)
Definition same_projection (a b : GraderQualificationAttempt) : bool :=
  bool_decide ((gr_comparable (qt_grade a), gr_strict_success (qt_grade a), gr_first_failure (qt_grade a))
               = (gr_comparable (qt_grade b), gr_strict_success (qt_grade b), gr_first_failure (qt_grade b)))
  && opt_eqb feqb (gr_training_reward (qt_grade a)) (gr_training_reward (qt_grade b))
  && same_set (failed_behavior_checks (qt_evidence a)) (failed_behavior_checks (qt_evidence b)).

Definition timed_out (a : GraderQualificationAttempt) : bool :=
  existsb (fun s => bool_decide (st_outcome s = TIMEOUT)
                    || existsb (fun c => bool_decide (chk_outcome c = TIMEOUT)) (st_checks s)) (ev_stages (qt_evidence a)).

(** One entry of [explicit_classifications]. *)
Definition explicitly_classified (policy : RewardPolicy) (a : GraderQualificationAttempt) : bool :=
  match gr_failure_reason (qt_grade a) with
  | Some reason => String.prefix (rp_explicit_hack_reason_prefix policy) reason
  | None => false
  end
  || existsb (fun s => existsb (fun c => chk_required c && differ (chk_outcome c) PASS
                                         && String.prefix (rp_explicit_hack_reason_prefix policy) (chk_reason_code c))
                         (st_checks s)) (ev_stages (qt_evidence a)).

Definition check_full_solution (policy : RewardPolicy) (success : bool) (first_failure : option Stage) (reward : float64)
    (failed_checks : list CheckIdentity) : result string unit :=
  raise "full-solution anchor must pass with full reward"
    when negb success || negb (is_none first_failure) || negb (feqb reward (rp_success_reward policy)) ;;
  raise "full-solution anchor cannot kill a witness" when nonempty failed_checks ;;
  Ok tt.

Definition check_failing (anchor : QualificationAnchorPlan) (attempts : list GraderQualificationAttempt)
    (policy : RewardPolicy) (success : bool) (first_failure : option Stage) (reward : float64)
    (failed_checks : list CheckIdentity) : result string unit :=
  raise "anchor did not fail at its predeclared stage"
    when success || differ first_failure (qa_expected_first_failure anchor)
         || match qa_expected_first_failure anchor with
            | None => true
            | Some expected_failure =>
                existsb (fun a => differ (gr_failure_reason (qt_grade a)) (qa_expected_failure_reason anchor)
                                  || negb (outcome_is (gr_stage_outcomes (qt_grade a)) expected_failure FAIL)) attempts
            end ;;
  let explicit := explicitly_classified policy <$> attempts in
  let role := qa_role anchor in
  raise "mutant reward differs from the verifier-failure policy"
    when bool_decide (role = MUTANT) && negb (feqb reward (rp_verifier_failure_reward policy)) ;;
  raise "mutant was explicitly hack-classified" when bool_decide (role = MUTANT) && existsb id explicit ;;
  raise "behavior baseline was not explicitly hack-classified and penalized"
    when bool_decide (role ∈ BEHAVIOR_BASELINE_ROLES)
         && (negb (forallb id explicit) || negb (feqb reward (rp_explicit_hack_reward policy))) ;;
  raise "partial fix was explicitly hack-classified" when bool_decide (role = PARTIAL_FIX) && existsb id explicit ;;
  raise "partial fix lacks an intermediate reward"
    when bool_decide (role = PARTIAL_FIX)
         && negb (fltb (rp_verifier_failure_reward policy) reward && fltb reward (rp_success_reward policy)) ;;
  raise "anchor kill matrix differs from plan" when negb (same_set (qa_expected_failed_checks anchor) failed_checks) ;;
  Ok tt.

(** [_validate_anchor_outcome] *)
Definition validate_anchor_outcome (anchor : QualificationAnchorPlan) (attempts : list GraderQualificationAttempt)
    (policy : RewardPolicy) (declared_checks : list CheckIdentity) :
    result string (list CheckIdentity * string * float64) :=
  let* digests := map_result (fun a => sha256_json (full_behavior_projection (qt_evidence a))) attempts in
  match attempts, remove_dups digests with
  | first :: _, [behavior] =>
      raise "anchor produced nondeterministic repeated scoring" when negb (forallb (same_projection first) attempts) ;;
      match gr_comparable (qt_grade first), gr_strict_success (qt_grade first), gr_training_reward (qt_grade first) with
      | true, Some success, Some reward =>
          let failed_checks := failed_behavior_checks (qt_evidence first) in
          let first_failure := gr_first_failure (qt_grade first) in
          raise "anchor cannot qualify through a timeout" when existsb timed_out attempts ;;
          let* _ := if bool_decide (qa_role anchor ∈ FULL_SOLUTION_ROLES)
                    then check_full_solution policy success first_failure reward failed_checks
                    else check_failing anchor attempts policy success first_failure reward failed_checks in
          raise "anchor killed undeclared witnesses"
            when negb (forallb (fun k => bool_decide (k ∈ declared_checks)) failed_checks) ;;
          Ok (failed_checks, behavior, reward)
      | _, _, _ => Err "anchor is not comparable"
      end
  | _, _ => Err "anchor produced nondeterministic repeated behavior"
  end.


(** ** [qualify_grader] *)
Definition attempt_request (a : GraderQualificationAttempt) : EvaluationRequest := ev_request (qt_evidence a).
Definition attempt_job_sha256 (a : GraderQualificationAttempt) : result string string :=
  sha256_json (EvaluationJobManifest_json (qt_job a)).

(** The checks on the set of attempts. *)
Definition check_distinct (attempts : list GraderQualificationAttempt) : result string unit :=
  let* job_ids := map_result attempt_job_sha256 attempts in
  raise "qualification attempts must have distinct request IDs"
    when negb (unique ((fun a => req_request_id (attempt_request a)) <$> attempts)) ;;
  raise "qualification attempts must have distinct episodes"
    when negb (unique ((fun a => req_episode_id (attempt_request a)) <$> attempts)) ;;
  raise "qualification attempts must have distinct replay manifests"
    when negb (unique ((fun a => ra_manifest_sha256 (qt_replay_anchor a)) <$> attempts)) ;;
  raise "qualification attempts must have distinct evaluation jobs" when negb (unique job_ids) ;;
  raise "qualification attempts must have distinct restore nonces"
    when negb (unique ((fun a => jm_restore_nonce (qt_job a)) <$> attempts)) ;;
  raise "qualification attempts must be independent turn-zero runs"
    when existsb (fun a => differ (req_attempt_index (attempt_request a)) 0
                           || negb (is_none (req_parent_request_id (attempt_request a)))) attempts ;;
  Ok tt.

(** [declared_checks_by_task[..]]; a task without witnesses is not a key. *)
Definition declared_checks (plan : GraderQualificationPlan) (a : QualificationAnchorPlan) : list CheckIdentity :=
  qw_check <$> filter (fun w => witness_task w = partition_task a) (gp_witnesses plan).

(** [by_anchor[..]] *)
Definition anchor_attempts_of (attempts : list GraderQualificationAttempt) (id : string) : list GraderQualificationAttempt :=
  filter (fun a => qt_anchor_id a = id) attempts.

Definition ordered_repeats (attempts : list GraderQualificationAttempt) : list GraderQualificationAttempt :=
  sort_by (fun a b => qt_repeat_index a <? qt_repeat_index b) attempts.

Definition check_identity_ltb (a b : CheckIdentity) : bool :=
  String.ltb (Stage_value (ck_stage a)) (Stage_value (ck_stage b))
  || (bool_decide (Stage_value (ck_stage a) = Stage_value (ck_stage b)) && String.ltb (ck_check_id a) (ck_check_id b)).

Definition qualification_digest (a : GraderQualificationAttempt) : result string QualificationReplayDigest :=
  let* job_sha256 := attempt_job_sha256 a in
  let* evidence_sha256 := sha256_json (EvaluationEvidence_json (qt_evidence a)) in
  let* grade_sha256 := sha256_json (Grade_json (qt_grade a)) in
  construct (fun d => check_field "replay" (QualificationReplayDigest_ok d) ;; Ok tt)
    {| qd_repeat_index := qt_repeat_index a; qd_request_id := req_request_id (attempt_request a);
       qd_evaluation_job_manifest_sha256 := job_sha256; qd_restore_nonce := jm_restore_nonce (qt_job a);
       qd_evidence_sha256 := evidence_sha256; qd_grade_sha256 := grade_sha256;
       qd_replay_manifest_sha256 := ra_manifest_sha256 (qt_replay_anchor a) |}.

(** One turn of the loop over the planned anchors. *)
Definition qualify_anchor (plan : GraderQualificationPlan) (suite : SuiteManifest)
    (authorities : list (string * TaskAuthority)) (policy : RewardPolicy) (attempts : list GraderQualificationAttempt)
    (anchor : QualificationAnchorPlan) : result string AnchorQualificationResult :=
  let anchor_attempts := anchor_attempts_of attempts (qa_anchor_id anchor) in
  raise "anchor repeat matrix differs from plan"
    when negb (counts_equal (qt_repeat_index <$> anchor_attempts) (Z.of_nat <$> seq 0 (length (qa_jobs anchor)))) ;;
  let ordered := ordered_repeats anchor_attempts in
  match dict_get authorities (qa_task_bundle_sha256 anchor), ordered with
  | Some authority, first :: _ =>
      let* _ := for_each (fun a => validate_attempt_binding a anchor plan suite authority policy) ordered in
      raise "KeyError" when negb (nonempty (declared_checks plan anchor)) ;;
      let* outcome := validate_anchor_outcome anchor ordered policy (declared_checks plan anchor) in
      let '(failed_checks, behavior, reward) := outcome in
      let* replays := map_result qualification_digest ordered in
      match gr_strict_success (qt_grade first) with
      | None => Err "AssertionError"
      | Some success =>
          construct validate_AnchorQualificationResult
            {| qr_anchor_id := qa_anchor_id anchor; qr_partition := qa_partition anchor; qr_role := qa_role anchor;
               qr_task_id := qa_task_id anchor; qr_task_version := qa_task_version anchor;
               qr_task_bundle_sha256 := qa_task_bundle_sha256 anchor; qr_candidate := qa_candidate anchor;
               qr_strict_success := success; qr_first_failure := gr_first_failure (qt_grade first);
               qr_training_reward := reward; qr_failed_checks := sort_by check_identity_ltb failed_checks;
               qr_behavior_sha256 := behavior; qr_replays := replays |}
      end
  | _, _ => Err "KeyError"
  end.

Definition result_task (r : AnchorQualificationResult) : AnchorPartition * (string * string * string) :=
  (qr_partition r, (qr_task_id r, qr_task_version r, qr_task_bundle_sha256 r)).

(** [sorted(killers_by_witness[..])] *)
Definition killers (results : list AnchorQualificationResult) (w : QualificationWitness) : list string :=
  sort_by String.ltb
    (qr_anchor_id <$> filter (fun r => result_task r = witness_task w /\ qw_check w ∈ qr_failed_checks r) results).

Definition cover_witness (results : list AnchorQualificationResult) (w : QualificationWitness) :
    result string WitnessCoverage :=
  raise "witness has no observed control kill" when negb (nonempty (killers results w)) ;;
  construct validate_WitnessCoverage {| wc_witness := w; wc_killed_by_anchor_ids := killers results w |}.

(** [result_by_id[..]] *)
Definition result_by_id (results : list AnchorQualificationResult) (id : string) : option AnchorQualificationResult :=
  dict_get (dict_of ((fun r => (qr_anchor_id r, r)) <$> results)) id.

Definition check_reward_ordering (results : list AnchorQualificationResult) (r : RewardOrderingConstraint) :
    result string RewardOrderingResult :=
  match result_by_id results (ro_better_anchor_id r), result_by_id results (ro_worse_anchor_id r) with
  | Some better, Some worse =>
      let margin := fsub (qr_training_reward better) (qr_training_reward worse) in
      raise "reward ordering failed" when fleb margin fzero || fltb margin (ro_minimum_margin r) ;;
      construct validate_RewardOrderingResult
        {| rr_partition := qr_partition better; rr_better_anchor_id := qr_anchor_id better;
           rr_worse_anchor_id := qr_anchor_id worse; rr_better_reward := qr_training_reward better;
           rr_worse_reward := qr_training_reward worse; rr_observed_margin := margin;
           rr_required_minimum_margin := ro_minimum_margin r |}
  | _, _ => Err "KeyError"
  end.

Definition attempt_ltb (a b : GraderQualificationAttempt) : bool :=
  String.ltb (qt_anchor_id a) (qt_anchor_id b)
  || (bool_decide (qt_anchor_id a = qt_anchor_id b) && (qt_repeat_index a <? qt_repeat_index b)).

Definition task_bundles (plan : GraderQualificationPlan) (p : AnchorPartition) : list string :=
  sort_by String.ltb (remove_dups (qa_task_bundle_sha256 <$> in_partition (gp_anchors plan) p)).

Definition qualify_grader (T : TextOps) (plan : GraderQualificationPlan) (suite : SuiteManifest)
    (bundles : list SealedBundle) (policy : RewardPolicy) (attempts : list GraderQualificationAttempt) :
    result string GraderQualificationReport :=
  let* _ := validate_GraderQualificationPlan plan in
  let* _ := validate_RewardPolicy policy in
  let* policy_sha256 := sha256_json (RewardPolicy_json policy) in
  raise "qualification plan does not bind the reward policy"
    when differ (gp_reward_policy_id plan) (rp_policy_id policy) || differ (gp_reward_policy_sha256 plan) policy_sha256 ;;
  let* authority := validate_authority T plan suite bundles in
  let '(suite, authorities) := authority in
  let* attempts := bounded_snapshot attempts (Z.of_nat (length (flat_map qa_jobs (gp_anchors plan)))) in
  let* _ := for_each validate_GraderQualificationAttempt attempts in
  let* _ := check_distinct attempts in
  raise "qualification attempt anchors differ from plan"
    when negb (same_set (qt_anchor_id <$> attempts) (qa_anchor_id <$> gp_anchors plan)) ;;
  let* results := map_result (qualify_anchor plan suite authorities policy attempts) (gp_anchors plan) in
  let* witness_coverage := map_result (cover_witness results) (gp_witnesses plan) in
  let* ordering_results := map_result (check_reward_ordering results) (gp_reward_orderings plan) in
  let* plan_sha256 := sha256_json (GraderQualificationPlan_json plan) in
  let* attempt_set_sha256 := sha256_json (JArr (map GraderQualificationAttempt_json (sort_by attempt_ltb attempts))) in
  construct validate_GraderQualificationReport
    {| gr_qualification_id := gp_qualification_id plan; gr_plan_sha256 := plan_sha256; gr_suite_id := gp_suite_id plan;
       gr_suite_manifest_sha256 := gp_suite_manifest_sha256 plan; gr_reward_policy_id := rp_policy_id policy;
       gr_reward_policy_sha256 := policy_sha256; gr_environment_id := gp_environment_id plan;
       gr_environment_sha256 := gp_environment_sha256 plan; gr_report_grader_id := gp_grader_id plan;
       gr_harness_commit := gp_harness_commit plan; gr_calibration_task_bundles := task_bundles plan CALIBRATION;
       gr_validation_task_bundles := task_bundles plan VALIDATION; gr_anchor_results := results;
       gr_witness_coverage := witness_coverage; gr_reward_orderings := ordering_results;
       gr_attempt_set_sha256 := attempt_set_sha256 |}.

End Qualification.
