(* ===== verification/QualificationFacts.v ===== *)
(** * Guarantees of grader qualification

    Reward orderings are decided exactly; a qualified grader ranks every task, kills
    exactly what was planned, from exactly the precommitted attempts; the tasks behind
    it are sealed, and share nothing with each other. *)
From Stdlib Require Import ZArith QArith Qabs Lqa String Ascii Lia.
From stdpp Require Import base tactics list strings sorting gmap sets.
From S2P Require Import Prelude Floats FloatRange Sha256 Json Models Grading Stats Aggregate WorkerFacts Job Replay Admission AdmissionFacts Repository Qualification.
Local Open Scope string_scope.
Local Open Scope Z_scope.

Module QualificationFacts.
Import Sha256 Json Models Grading Stats WorkerFacts Job Replay Admission AdmissionFacts Repository Qualification.

(** ** Acyclic orderings *)
(** The number of relations into [x] whose source is not processed. *)
Definition pending (rels : list (string * string)) (V : list string) (x : string) : nat :=
  length (filter (fun r => r.2 = x /\ r.1 ∉ V) rels).

Lemma pending_zero rels V x : pending rels V x = 0%nat <-> forall r, r ∈ rels -> r.2 = x -> r.1 ∈ V.
Proof.
  unfold pending. rewrite length_zero_iff_nil. split.
  - intros E r Hr Hx. destruct (decide (r.1 ∈ V)); [done|].
    assert (Hf : r ∈ filter (fun r => r.2 = x /\ r.1 ∉ V) rels) by by rewrite list_elem_of_filter.
    rewrite E in Hf. by apply not_elem_of_nil in Hf.
  - intros H. destruct (filter _ rels) as [|r l] eqn:E; [done|].
    assert (Hf : r ∈ filter (fun r => r.2 = x /\ r.1 ∉ V) rels) by (rewrite E; left).
    rewrite list_elem_of_filter in Hf. destruct Hf as ((Hx & Hn) & Hr). by destruct Hn; apply H.
Qed.

Lemma pending_step rels V c x : NoDup rels -> c ∉ V ->
  pending rels V x = (pending rels (c :: V) x + if decide ((c, x) ∈ rels) then 1 else 0)%nat.
Proof.
  intros Hn Hc. unfold pending. induction rels as [|[a b] rels IH]; [done|].
  apply NoDup_cons in Hn as [Hr Hn]. specialize (IH Hn). rewrite !filter_cons. cbn [fst snd].
  destruct (decide ((c, x) ∈ (a, b) :: rels)) as [Hin|Hin], (decide ((c, x) ∈ rels)) as [Hin'|Hin'];
    rewrite ?elem_of_cons in Hin; repeat case_decide; cbn [length]; rewrite ?elem_of_cons in *; try lia;
    exfalso; naive_solver.
Qed.

Lemma filter_agree {A} (P Q : A -> Prop) `{!forall x, Decision (P x), !forall x, Decision (Q x)} (l : list A) :
  (forall x, x ∈ l -> P x <-> Q x) -> filter P l = filter Q l.
Proof.
  induction l as [|x l IH]; intros Hl; [done|]. rewrite !filter_cons, IH by (intros y Hy; apply Hl; by right).
  pose proof (Hl x ltac:(left)). repeat case_decide; naive_solver.
Qed.

Lemma release_spec children d ready : NoDup children ->
  (forall x, dict_get (release children d ready).1 x
     = if decide (x ∈ children) then Some (default 0 (dict_get d x) - 1) else dict_get d x)
  /\ (release children d ready).2 ≡ₚ (filter (fun c => default 0 (dict_get d c) - 1 = 0) children ++ ready)%list.
Proof.
  revert d ready. induction children as [|c children IH]; intros d ready Hn; [done|].
  apply NoDup_cons in Hn as [Hc Hn]. cbn [release].
  set (n := default 0 (dict_get d c) - 1).
  destruct (IH (dict_set c n d) (if n =? 0 then c :: ready else ready) Hn) as [IHd IHr]. split.
  - intros x. rewrite IHd, !dict_get_set. repeat case_decide; subst; rewrite ?elem_of_cons in *; naive_solver.
  - rewrite IHr, filter_cons.
    assert (E : filter (fun c0 => default 0 (dict_get (dict_set c n d) c0) - 1 = 0) children
                = filter (fun c0 => default 0 (dict_get d c0) - 1 = 0) children).
    { apply filter_agree. intros y Hy. rewrite dict_get_set. case_decide; [by subst|done]. }
    rewrite E. fold n. destruct (Z.eqb_spec n 0); case_decide; try done. by rewrite <-Permutation_middle.
Qed.

Lemma successors_spec rels u x : x ∈ successors rels u <-> (u, x) ∈ rels.
Proof.
  unfold successors. rewrite elem_of_remove_dups, list_elem_of_fmap. split.
  - intros ([a b] & -> & Hr). rewrite list_elem_of_filter in Hr. destruct Hr as [Ha Hr]. cbn in *. by subst.
  - intros H. exists (u, x). by rewrite list_elem_of_filter.
Qed.

Section Kahn.
Context (ids : list string) (rels : list (string * string)).
Context (Hids : NoDup ids) (Hrels : NoDup rels) (Hends : forall r, r ∈ rels -> r.1 ∈ ids /\ r.2 ∈ ids).

(** The state of the loop when [V] is processed. *)
Record kahn_state (V : list string) (d : list (string * Z)) (ready : list string) : Prop := {
  ks_nodup : NoDup (V ++ ready)%list;
  ks_in x : x ∈ (V ++ ready)%list -> x ∈ ids;
  ks_degree x : x ∈ ids -> dict_get d x = Some (Z.of_nat (pending rels V x));
  ks_ready x : x ∈ ids -> pending rels V x = 0%nat <-> x ∈ (V ++ ready)%list;
  ks_rank : exists rank : string -> nat, (forall x, x ∈ V -> (rank x < length V)%nat)
    /\ forall r, r ∈ rels -> r.2 ∈ V -> r.1 ∈ V /\ (rank r.1 < rank r.2)%nat
}.

Lemma kahn_state_ranked V d c ready : kahn_state V d (c :: ready) ->
  exists rank : string -> nat, (forall x, x ∈ c :: V -> (rank x < length (c :: V))%nat)
    /\ forall r, r ∈ rels -> r.2 ∈ c :: V -> r.1 ∈ c :: V /\ (rank r.1 < rank r.2)%nat.
Proof.
  intros [Hn Hin Hd Hr (rank & Hlt & Hrank)].
  assert (HcV : c ∉ V) by (apply NoDup_app in Hn; set_solver).
  assert (H0 : pending rels V c = 0%nat) by (apply Hr; [apply Hin|]; set_solver).
  rewrite pending_zero in H0. exists (fun x => if decide (x = c) then length V else rank x). split.
  - intros x [->|Hx]%elem_of_cons; cbn [length]; case_decide; try lia; try done. specialize (Hlt x Hx). lia.
  - intros r Hrr [E|Hx]%elem_of_cons.
    + pose proof (H0 r Hrr E) as Hv. split; [by right|]. rewrite E.
      destruct (decide (r.1 = c)) as [Ec|]; [by rewrite Ec in Hv|]. destruct (decide (c = c)); [by apply Hlt|done].
    + destruct (Hrank r Hrr Hx) as [Hv Hl]. split; [by right|].
      destruct (decide (r.1 = c)) as [Ec|]; [by rewrite Ec in Hv|].
      destruct (decide (r.2 = c)) as [Ec|]; [by rewrite Ec in Hx|done].
Qed.

Lemma kahn_step V d c ready : kahn_state V d (c :: ready) ->
  kahn_state (c :: V) (release (successors rels c) d ready).1 (release (successors rels c) d ready).2.
Proof.
  intros Hs. pose proof (kahn_state_ranked _ _ _ _ Hs) as Hrank. destruct Hs as [Hn Hin Hd Hr _].
  destruct (release_spec (successors rels c) d ready (NoDup_remove_dups _)) as [Ed Er].
  assert (HcV : (c ∉ V) /\ (c ∉ ready) /\ NoDup V /\ NoDup ready /\ forall x, x ∈ V -> x ∉ ready).
  { apply NoDup_app in Hn as (? & HV & Hcr). apply NoDup_cons in Hcr as [? ?]. set_solver. }
  destruct HcV as (HcV & Hcr & HnV & Hnr & Hdis).
  assert (Hnew : forall x, x ∈ filter (fun y => default 0 (dict_get d y) - 1 = 0) (successors rels c)
                 <-> (c, x) ∈ rels /\ pending rels (c :: V) x = 0%nat).
  { intros x. rewrite list_elem_of_filter, successors_spec. split; intros [H1 H2].
    - split; [done|]. destruct (Hends _ H2) as [_ Hx]. rewrite (Hd x Hx) in H1. cbn in H1.
      rewrite (pending_step rels V c x Hrels HcV) in H1. case_decide; [lia|done].
    - split; [|done]. destruct (Hends _ H1) as [_ Hx]. rewrite (Hd x Hx). cbn.
      rewrite (pending_step rels V c x Hrels HcV). case_decide; [lia|done]. }
  assert (Hold : forall x, (c, x) ∈ rels -> x ∉ (V ++ c :: ready)%list).
  { intros x Hx Hv. destruct (Hends _ Hx) as [_ Hi]. cbn in Hi. apply (Hr x Hi) in Hv.
    rewrite (pending_step rels V c x Hrels HcV) in Hv. case_decide; [lia|done]. }
  split.
  - rewrite Er. cbn. apply NoDup_cons. split.
    + rewrite !elem_of_app, Hnew. intros [H|[[H _]|H]]; [done| |done]. apply (Hold c H). set_solver.
    + apply NoDup_app. split; [done|]. split.
      * intros x Hx. rewrite elem_of_app, Hnew. intros [[H _]|H]; [apply (Hold x H); set_solver|by apply (Hdis x)].
      * apply NoDup_app. split; [apply NoDup_filter, NoDup_remove_dups|]. split; [|done].
        intros x. rewrite Hnew. intros [H _] Hx. apply (Hold x H). set_solver.
  - intros x. rewrite Er. cbn. rewrite elem_of_cons, !elem_of_app, Hnew. intros [->|[H|[[H _]|H]]].
    + apply Hin. set_solver. + apply Hin. set_solver. + by apply (Hends _ H). + apply Hin. set_solver.
  - intros x Hx. rewrite Ed, (Hd x Hx), (pending_step rels V c x Hrels HcV).
    pose proof (successors_spec rels c x) as Hsc.
    destruct (decide ((c, x) ∈ rels)) as [Hcx|Hcx], (decide (x ∈ successors rels c)) as [Hx'|Hx'];
      [|by destruct Hx'; apply Hsc|by destruct Hcx; apply Hsc|]; cbn; f_equal; lia.
  - intros x Hx. rewrite Er. cbn. rewrite elem_of_cons, !elem_of_app, Hnew.
    pose proof (Hr x Hx) as Hq. rewrite (pending_step rels V c x Hrels HcV), elem_of_app, elem_of_cons in Hq.
    destruct (decide ((c, x) ∈ rels)) as [Hcx|Hcx].
    + pose proof (Hold x Hcx). set_solver.
    + rewrite Nat.add_0_r in Hq. naive_solver.
  - exact Hrank.
Qed.

Lemma kahn_runs fuel V d ready : kahn_state V d ready -> (length ids <= fuel + length V)%nat ->
  exists V' d', kahn fuel (successors rels) d ready (Z.of_nat (length V)) = Some (Z.of_nat (length V'))
             /\ kahn_state V' d' [].
Proof.
  revert V d ready. induction fuel as [|fuel IH]; intros V d ready Hs Hf.
  - destruct ready as [|c ready]; [by exists V, d|]. exfalso.
    pose proof (submseteq_length _ _ (NoDup_submseteq _ _ (ks_nodup _ _ _ Hs) (ks_in _ _ _ Hs))) as H.
    rewrite length_app in H. cbn in H. lia.
  - destruct ready as [|c ready]; [by exists V, d|]. apply kahn_step in Hs. cbn [kahn].
    destruct (release (successors rels c) d ready) as [d' ready'] eqn:E. cbn in Hs.
    destruct (IH _ _ _ Hs) as (V' & d'' & HV & Hs'); [cbn; lia|]. exists V', d''. split; [|done].
    rewrite <-HV. f_equal. cbn [length]. lia.
Qed.
End Kahn.

Lemma initial_degree_get ids rels x : x ∈ ids ->
  dict_get (initial_indegree ids rels) x = Some (Z.of_nat (pending rels [] x)).
Proof.
  intros Hx. unfold initial_indegree.
  assert (H0 : dict_get ((fun id => (id, 0)) <$> ids) x = Some 0).
  { induction ids as [|y ids IH]; [by apply not_elem_of_nil in Hx|]. cbn. case_decide; [done|].
    apply IH. by apply elem_of_cons in Hx as [->|]. }
  assert (H : forall d n, dict_get d x = Some n ->
    dict_get (fold_left (fun d r => dict_set r.2 (default 0 (dict_get d r.2) + 1) d) rels d) x
    = Some (n + Z.of_nat (pending rels [] x))).
  { clear. unfold pending. induction rels as [|r rels IH]; intros d n Hd; cbn [fold_left].
    - rewrite Hd. f_equal. cbn. lia.
    - rewrite filter_cons. destruct (decide (r.2 = x)) as [E|E].
      + rewrite (IH _ (n + 1)) by (rewrite dict_get_set, E, Hd; by destruct (decide (x = x))).
        destruct (decide _) as [_|Hn]; [cbn [length]; f_equal; lia|]. by destruct Hn; split; [|apply not_elem_of_nil].
      + rewrite (IH _ n) by (rewrite dict_get_set; case_decide; congruence).
        destruct (decide _) as [[Hn _]|_]; done. }
  rewrite (H _ 0 H0). f_equal.
Qed.

Lemma kahn_starts ids rels : NoDup ids ->
  kahn_state ids rels [] (initial_indegree ids rels)
    (rev (filter (fun id => default 0 (dict_get (initial_indegree ids rels) id) = 0) ids)).
Proof.
  intros Hn.
  assert (Hr : forall x, x ∈ rev (filter (fun id => default 0 (dict_get (initial_indegree ids rels) id) = 0) ids)
    <-> x ∈ ids /\ pending rels [] x = 0%nat).
  { intros x. rewrite <-Permutation_rev, list_elem_of_filter. split.
    - intros [H Hx]. rewrite initial_degree_get in H by done. cbn in H. split; [done|lia].
    - intros [Hx H]. rewrite initial_degree_get by done. cbn. split; [lia|done]. }
  split; cbn [app].
  - rewrite <-Permutation_rev. by apply NoDup_filter.
  - intros x Hx. by apply Hr.
  - intros x. apply initial_degree_get.
  - intros x Hx. rewrite Hr. naive_solver.
  - exists (fun _ => 0%nat). split; intros ? ?; [by apply not_elem_of_nil in H|].
    intros H1. by apply not_elem_of_nil in H1.
Qed.

Lemma ranked_all_processed ids rels V d (rank : string -> nat) :
  kahn_state ids rels V d [] -> (forall r, r ∈ rels -> r.1 ∈ ids /\ r.2 ∈ ids) ->
  (forall r, r ∈ rels -> (rank r.1 < rank r.2)%nat) -> forall x, x ∈ ids -> x ∈ V.
Proof.
  intros Hs Hends Hrank x. remember (rank x) as n eqn:En. revert x En.
  induction n as [n IH] using (well_founded_induction lt_wf). intros x -> Hx.
  rewrite <-(app_nil_r V). apply (ks_ready _ _ _ _ _ Hs x Hx). apply pending_zero. intros r Hr <-.
  apply (IH (rank r.1)); [by apply Hrank|done|by apply Hends].
Qed.

(** C24. Reward orderings are accepted exactly when the anchors can be ranked: the loop
    over the ready anchors always ends within one turn per anchor, and it has visited
    every anchor if and only if some assignment of ranks increases along every
    relation, that is, if and only if the relations have no cycle. *)
Theorem orderings_accepted_iff_rankable ids rels : NoDup ids -> NoDup rels -> (forall r, r ∈ rels -> r.1 ∈ ids /\ r.2 ∈ ids) ->
  validate_acyclic_ordering ids rels = Ok tt
  <-> exists rank : string -> nat, forall r, r ∈ rels -> (rank r.1 < rank r.2)%nat.
Proof.
  intros Hids Hrels Hends. unfold validate_acyclic_ordering.
  destruct (kahn_runs ids rels Hids Hrels Hends (length ids) [] _ _ (kahn_starts ids rels Hids)) as (V & d & E & Hs); [lia|].
  cbn [length] in E. change (Z.of_nat 0) with 0 in E. rewrite E.
  pose proof (ks_nodup _ _ _ _ _ Hs) as HV. rewrite app_nil_r in HV.
  assert (Hin : forall x, x ∈ V -> x ∈ ids) by (intros x Hx; apply (ks_in _ _ _ _ _ Hs); by rewrite app_nil_r). split.
  - case_bool_decide as El; [|done]. injection El as El. intros _. destruct (ks_rank _ _ _ _ _ Hs) as (rank & _ & Hrank). exists rank. intros r Hr.
    apply Hrank; [done|]. assert (Hp : V ≡ₚ ids) by (apply submseteq_length_Permutation; [by apply NoDup_submseteq|lia]).
    rewrite Hp. by apply Hends.
  - intros [rank Hrank]. rewrite bool_decide_eq_true_2; [done|]. do 2 f_equal.
    apply Nat.le_antisymm; apply submseteq_length, NoDup_submseteq; try done.
    by eapply ranked_all_processed.
Qed.

Lemma orderings_accepted_iff_rankable_witness :
  NoDup ["best"; "good"; "bad"] /\ NoDup [("best", "good"); ("good", "bad")]
  /\ (validate_acyclic_ordering ["best"; "good"; "bad"] [("best", "good"); ("good", "bad")] = Ok tt
      <-> exists rank : string -> nat, forall r, r ∈ [("best", "good"); ("good", "bad")] -> (rank r.1 < rank r.2)%nat).
Proof.
  assert (H1 : NoDup ["best"; "good"; "bad"]) by (apply (bool_decide_unpack _); vm_compute; exact I).
  assert (H2 : NoDup [("best", "good"); ("good", "bad")]) by (apply (bool_decide_unpack _); vm_compute; exact I).
  split; [exact H1|]. split; [exact H2|]. apply orderings_accepted_iff_rankable; [exact H1|exact H2|].
  apply Forall_forall, (bool_decide_unpack _). vm_compute. exact I.
Defined.

(** ** Outcomes of one anchor *)
(** What the role of an anchor demands of its result. *)
Definition behaved (policy : RewardPolicy) (a : QualificationAnchorPlan) (r : AnchorQualificationResult) : Prop :=
  qr_anchor_id r = qa_anchor_id a /\ result_task r = partition_task a /\ qr_role r = qa_role a
  /\ qr_candidate r = qa_candidate a
  /\ match qa_role a with
     | REFERENCE | ALTERNATIVE_ANCHOR =>
         qr_strict_success r = true /\ qr_first_failure r = None /\ qr_failed_checks r = []
         /\ feqb (qr_training_reward r) (rp_success_reward policy) = true
     | MUTANT =>
         qr_strict_success r = false /\ qr_first_failure r = Some VERIFIER /\ qr_failed_checks r = []
         /\ feqb (qr_training_reward r) (rp_verifier_failure_reward policy) = true
     | PARTIAL_FIX =>
         qr_strict_success r = false /\ qr_first_failure r = qa_expected_first_failure a
         /\ (forall k, k ∈ qr_failed_checks r <-> k ∈ qa_expected_failed_checks a)
         /\ fltb (rp_verifier_failure_reward policy) (qr_training_reward r) = true
         /\ fltb (qr_training_reward r) (rp_success_reward policy) = true
     | _ =>
         qr_strict_success r = false /\ qr_first_failure r = qa_expected_first_failure a
         /\ (forall k, k ∈ qr_failed_checks r <-> k ∈ qa_expected_failed_checks a)
         /\ feqb (qr_training_reward r) (rp_explicit_hack_reward policy) = true
     end.

Record anchor_outcome (anchor : QualificationAnchorPlan) (attempts : list GraderQualificationAttempt)
    (policy : RewardPolicy) (declared failed : list CheckIdentity) (reward : float64)
    (first : GraderQualificationAttempt) (success : bool) : Prop := {
  oc_first : head attempts = Some first;
  oc_success : gr_strict_success (qt_grade first) = Some success;
  oc_reward : gr_training_reward (qt_grade first) = Some reward;
  oc_failed : failed = failed_behavior_checks (qt_evidence first);
  oc_same a : a ∈ attempts -> same_projection first a = true;
  oc_time a : a ∈ attempts -> timed_out a = false;
  oc_role : (if bool_decide (qa_role anchor ∈ FULL_SOLUTION_ROLES)
             then check_full_solution policy success (gr_first_failure (qt_grade first)) reward failed
             else check_failing anchor attempts policy success (gr_first_failure (qt_grade first)) reward failed) = Ok tt;
  oc_declared k : k ∈ failed -> k ∈ declared
}.

Lemma forallb_elem {A} (f : A -> bool) l x : forallb f l = true -> x ∈ l -> f x = true.
Proof. rewrite list_elem_of_In. intros H Hx. by apply (proj1 (forallb_forall f l) H). Qed.

Lemma validate_anchor_outcome_inv anchor attempts policy declared failed behavior reward :
  validate_anchor_outcome anchor attempts policy declared = Ok (failed, behavior, reward) ->
  exists first success, anchor_outcome anchor attempts policy declared failed reward first success.
Proof.
  unfold validate_anchor_outcome. intros H. apply bind_ok in H as (digests & _ & H).
  destruct attempts as [|first rest]; [done|]. destruct (remove_dups digests) as [|d [|? ?]]; try done.
  apply raise_ok in H as [Hs%negb_false_iff H].
  destruct (gr_comparable _); [|done]. destruct (gr_strict_success _) as [success|] eqn:Es; [|done].
  destruct (gr_training_reward _) as [rw|] eqn:Er; [|done]. apply raise_ok in H as [Ht H].
  apply bind_ok in H as ([] & Hr & H). apply raise_ok in H as [Hd%negb_false_iff H]. injection H as <- <- <-.
  exists first, success. split; try done.
  - intros a. by apply forallb_elem.
  - intros a. by apply existsb_none.
  - intros k Hk. apply (forallb_elem _ _ k) in Hd; [|done]. by apply bool_decide_eq_true in Hd.
Qed.

Lemma anchor_expectation a : validate_QualificationAnchorPlan a = Ok tt -> expectation_matches_role a = Ok tt.
Proof. unfold validate_QualificationAnchorPlan. intros H. peel H. exact H. Qed.

Lemma nonempty_false {A} (l : list A) : nonempty l = false -> l = [].
Proof. by destruct l. Qed.

Record anchor_qualified (plan : GraderQualificationPlan) (suite : SuiteManifest)
    (authorities : list (string * TaskAuthority)) (policy : RewardPolicy) (attempts : list GraderQualificationAttempt)
    (anchor : QualificationAnchorPlan) (r : AnchorQualificationResult) (authority : TaskAuthority)
    (first : GraderQualificationAttempt) (failed : list CheckIdentity) : Prop := {
  aq_ids : qr_anchor_id r = qa_anchor_id anchor /\ result_task r = partition_task anchor
           /\ qr_role r = qa_role anchor /\ qr_candidate r = qa_candidate anchor;
  aq_repeats : counts_equal (qt_repeat_index <$> anchor_attempts_of attempts (qa_anchor_id anchor))
                 (Z.of_nat <$> seq 0 (length (qa_jobs anchor))) = true;
  aq_authority : dict_get authorities (qa_task_bundle_sha256 anchor) = Some authority;
  aq_bound a : a ∈ anchor_attempts_of attempts (qa_anchor_id anchor) ->
    validate_attempt_binding a anchor plan suite authority policy = Ok tt;
  aq_outcome : anchor_outcome anchor (ordered_repeats (anchor_attempts_of attempts (qa_anchor_id anchor))) policy
                 (declared_checks plan anchor) failed (qr_training_reward r) first (qr_strict_success r);
  aq_first_failure : qr_first_failure r = gr_first_failure (qt_grade first);
  aq_failed : qr_failed_checks r = sort_by check_identity_ltb failed;
  aq_reward : float_between fminus_one fone (qr_training_reward r) = true
}.

Lemma qualify_anchor_inv plan suite authorities policy attempts anchor r :
  qualify_anchor plan suite authorities policy attempts anchor = Ok r ->
  exists authority first failed, anchor_qualified plan suite authorities policy attempts anchor r authority first failed.
Proof.
  unfold qualify_anchor. intros H. apply raise_ok in H as [Hc%negb_false_iff H].
  destruct (dict_get authorities _) as [authority|] eqn:Ea; [|done].
  destruct (ordered_repeats _) as [|first rest] eqn:Eo; [done|].
  apply bind_ok in H as ([] & Hb%for_each_ok & H). apply raise_ok in H as [_ H].
  apply bind_ok in H as ([[failed behavior] reward] & Hout & H). apply bind_ok in H as (replays & _ & H).
  destruct (gr_strict_success (qt_grade first)) as [success|] eqn:Es; [|done].
  apply construct_ok in H as [Hv ->].
  pose proof Hout as (first' & success' & Ho)%validate_anchor_outcome_inv.
  pose proof (oc_first _ _ _ _ _ _ _ _ Ho) as Hf. injection Hf as <-.
  pose proof (oc_success _ _ _ _ _ _ _ _ Ho) as Hs. rewrite Es in Hs. injection Hs as <-.
  exists authority, first, failed. split; cbn; try done.
  - intros a Hi. rewrite Forall_forall in Hb. apply Hb. rewrite <-Eo. unfold ordered_repeats. by rewrite sort_by_elem.
  - by rewrite Eo.
  - unfold validate_AnchorQualificationResult in Hv. peel Hv. done.
Qed.

Lemma list_eq_nil {A} (l : list A) : (forall x, x ∉ l) -> l = [].
Proof. destruct l as [|x l]; [done|]. intros H. destruct (H x). left. Qed.

Lemma check_full_inv policy success ff reward failed : check_full_solution policy success ff reward failed = Ok tt ->
  success = true /\ ff = None /\ failed = [] /\ feqb reward (rp_success_reward policy) = true.
Proof.
  unfold check_full_solution. intros H. peel H. bool_prop. split_and!; try done; [by destruct ff|].
  by apply nonempty_false.
Qed.

Lemma check_failing_inv anchor attempts policy success ff reward failed :
  check_failing anchor attempts policy success ff reward failed = Ok tt ->
  success = false /\ ff = qa_expected_first_failure anchor
  /\ (forall k, k ∈ failed <-> k ∈ qa_expected_failed_checks anchor)
  /\ (qa_role anchor = MUTANT -> feqb reward (rp_verifier_failure_reward policy) = true)
  /\ (qa_role anchor ∈ BEHAVIOR_BASELINE_ROLES -> feqb reward (rp_explicit_hack_reward policy) = true)
  /\ (qa_role anchor = PARTIAL_FIX ->
      fltb (rp_verifier_failure_reward policy) reward = true /\ fltb reward (rp_success_reward policy) = true).
Proof.
  unfold check_failing. intros H. peel H.
  apply orb_false_iff in E as [[-> E]%orb_false_iff _]. apply differ_eq in E as ->.
  apply negb_false_iff in E5. rewrite same_set_spec in E5. split; [done|]. split; [done|].
  split; [intros k; symmetry; apply E5|]. split_and!.
  - intros Hr. rewrite bool_decide_eq_true_2 in E0 by done. by apply negb_false_iff in E0.
  - intros Hr. rewrite bool_decide_eq_true_2 in E2 by done. cbn in E2. bool_prop. done.
  - intros Hr. rewrite bool_decide_eq_true_2 in E4 by done. by apply negb_false_iff, andb_true_iff in E4.
Qed.

Lemma mutant_expectation a : expectation_matches_role a = Ok tt -> qa_role a = MUTANT ->
  qa_expected_first_failure a = Some VERIFIER /\ qa_expected_failed_checks a = [].
Proof.
  unfold expectation_matches_role. intros H Hr. peel H. rewrite Hr in H.
  rewrite bool_decide_eq_false_2 in H by set_solver. rewrite bool_decide_eq_true_2 in H by done. peel H.
  split; [by apply differ_eq|by apply nonempty_false].
Qed.

Lemma anchor_behaved plan suite authorities policy attempts anchor r authority first failed :
  validate_QualificationAnchorPlan anchor = Ok tt ->
  anchor_qualified plan suite authorities policy attempts anchor r authority first failed -> behaved policy anchor r.
Proof.
  intros Hv%anchor_expectation [Hid _ _ _ Ho Hff Hfc _]. destruct Hid as (? & ? & ? & ?). split_and!; try done.
  pose proof (oc_role _ _ _ _ _ _ _ _ Ho) as Hr. rewrite <-Hff in Hr.
  pose proof (fun k => sort_by_elem check_identity_ltb failed k) as Hmem. rewrite <-Hfc in Hmem.
  case_bool_decide as Hfull.
  - apply check_full_inv in Hr as (? & ? & -> & ?). cbn in Hfc. rewrite Hfc.
    destruct (qa_role anchor); try done; set_solver.
  - apply check_failing_inv in Hr as (? & ? & Hk & Hm & Hb & Hp).
    assert (Hk' : forall k, k ∈ qr_failed_checks r <-> k ∈ qa_expected_failed_checks anchor)
      by (intros k; by rewrite Hmem).
    pose proof (mutant_expectation anchor Hv) as He.
    destruct (qa_role anchor); try (by destruct Hfull; apply (bool_decide_unpack _); vm_compute);
      try (split; [done|]; split; [done|]; split; [done|]; apply Hb, (bool_decide_unpack _); by vm_compute).
    + destruct (He eq_refl) as [He1 He2]. split; [done|]. split; [congruence|]. split; [|by apply Hm].
      apply list_eq_nil. intros k. rewrite Hk', He2. apply not_elem_of_nil.
    + split; [done|]. split; [done|]. split; [done|]. by apply Hp.
Qed.

(** ** The plan *)
Record plan_checked (p : GraderQualificationPlan) : Prop := {
  pk_anchors a : a ∈ gp_anchors p -> validate_QualificationAnchorPlan a = Ok tt;
  pk_ids : NoDup (qa_anchor_id <$> gp_anchors p);
  pk_jobs : NoDup (flat_map (fun a => qj_job_manifest_sha256 <$> qa_jobs a) (gp_anchors p));
  pk_roles : check_task_roles (gp_anchors p) = Ok tt;
  pk_witness_task w : w ∈ gp_witnesses p -> witness_task w ∈ partition_task <$> gp_anchors p;
  pk_kills k : k ∈ planned_kills (gp_anchors p) <-> k ∈ witness_key <$> gp_witnesses p;
  pk_relation r : r ∈ relation_ids p -> check_relation p r = Ok tt;
  pk_rank a : a ∈ gp_anchors p -> check_rank p a = Ok tt;
  pk_acyclic : validate_acyclic_ordering (qa_anchor_id <$> gp_anchors p) (relation_ids p) = Ok tt;
  pk_relations : NoDup (relation_ids p)
}.

Lemma for_each_elem {E A} (f : A -> result E unit) l x : for_each f l = Ok tt -> x ∈ l -> f x = Ok tt.
Proof. rewrite for_each_ok, Forall_forall. auto. Qed.

Lemma NoDup_sub_length {A} (l k : list A) : NoDup l -> (forall x, x ∈ l -> x ∈ k) -> (length k <= length l)%nat -> NoDup k.
Proof.
  intros Hl Hs Hle. assert (Hp : l ≡ₚ k) by (apply submseteq_length_Permutation; [by apply NoDup_submseteq|lia]).
  by rewrite <-Hp.
Qed.

Lemma matrix_inv p : matrix_is_closed_and_separated p = Ok tt ->
  (forall a, a ∈ gp_anchors p -> validate_QualificationAnchorPlan a = Ok tt) -> plan_checked p.
Proof.
  unfold matrix_is_closed_and_separated. intros H Ha. peel H.
  apply negb_false_iff, unique_NoDup in E, E1, E11. apply negb_false_iff in E10. split; try done.
  - intros w Hw. apply (existsb_none _ _ w) in E8; [|done]. by apply bool_decide_neg_false in E8.
  - intros k. rewrite same_set_spec in E10. apply E10.
  - intros r Hr. by apply (for_each_elem _ _ r E12).
  - intros a. by apply for_each_elem.
Qed.

Lemma validated_plan p : validate_GraderQualificationPlan p = Ok tt -> plan_checked p.
Proof.
  unfold validate_GraderQualificationPlan. intros H. do 10 apply field_ok in H as [_ H].
  apply bind_ok in H as ([] & Ha & H). do 2 apply field_ok in H as [_ H]. apply bind_ok in H as ([] & _ & H).
  apply matrix_inv; [done|]. intros a. by apply for_each_elem.
Qed.

Lemma one_anchor_per_role anchors a b : check_task_roles anchors = Ok tt -> a ∈ anchors -> b ∈ anchors ->
  partition_task a = partition_task b -> qa_role a = qa_role b -> a = b.
Proof.
  unfold check_task_roles. intros H Ha Hb Et Er. set (g := filter (fun x => partition_task x = partition_task b) anchors).
  assert (Hg : (partition_task b, g) ∈ group_by partition_task anchors).
  { apply dict_get_In. destruct (Aggregate.group_by_get partition_task anchors (partition_task b)) as [E _]. fold g in E.
    destruct (dict_get _ _) as [g'|]; cbn in E; [by subst|]. exfalso.
    assert (Hin : b ∈ g) by by apply list_elem_of_filter. rewrite <-E in Hin. by apply not_elem_of_nil in Hin. }
  apply (for_each_elem _ _ _ H) in Hg. cbn [snd] in Hg. peel Hg. apply negb_false_iff in E, E0.
  rewrite same_set_spec in E. apply Nat.eqb_eq in E0.
  assert (Hn : NoDup (qa_role <$> g)).
  { apply (NoDup_sub_length REQUIRED_ROLES); [apply (bool_decide_unpack _); by vm_compute| |].
    - intros r Hr. by apply E.
    - rewrite length_fmap. lia. }
  apply (NoDup_key_inj qa_role g); [done|by apply list_elem_of_filter|by apply list_elem_of_filter|done].
Qed.

(** ** The whole qualification *)
Record qualification_checked (T : TextOps) (plan : GraderQualificationPlan) (suite : SuiteManifest)
    (bundles : list SealedBundle) (policy : RewardPolicy) (attempts : list GraderQualificationAttempt)
    (report : GraderQualificationReport) (authorities : list (string * TaskAuthority)) : Prop := {
  qk_plan : plan_checked plan;
  qk_policy : validate_RewardPolicy policy = Ok tt;
  qk_authority : validate_authority T plan suite bundles = Ok (suite, authorities);
  qk_count : length attempts = length (flat_map qa_jobs (gp_anchors plan));
  qk_valid a : a ∈ attempts -> validate_GraderQualificationAttempt a = Ok tt;
  qk_distinct : check_distinct attempts = Ok tt;
  qk_anchors id : id ∈ qt_anchor_id <$> attempts <-> id ∈ qa_anchor_id <$> gp_anchors plan;
  qk_results : Forall2 (fun a r => qualify_anchor plan suite authorities policy attempts a = Ok r)
                 (gp_anchors plan) (gr_anchor_results report);
  qk_coverage : Forall2 (fun w c => cover_witness (gr_anchor_results report) w = Ok c)
                  (gp_witnesses plan) (gr_witness_coverage report);
  qk_orderings : Forall2 (fun o r => check_reward_ordering (gr_anchor_results report) o = Ok r)
                   (gp_reward_orderings plan) (gr_reward_orderings report)
}.

Lemma bounded_snapshot_inv {A} (values : list A) n l : bounded_snapshot values (Z.of_nat n) = Ok l ->
  l = values /\ length values = n.
Proof.
  unfold bounded_snapshot. intros H. peel H. injection H as <-. bool_prop.
  rewrite length_take in *. assert (length values = n) by lia. split; [|done]. apply take_ge. lia.
Qed.

Lemma qualify_grader_inv T plan suite bundles policy attempts report :
  qualify_grader T plan suite bundles policy attempts = Ok report ->
  exists authorities, qualification_checked T plan suite bundles policy attempts report authorities.
Proof.
  unfold qualify_grader. intros H. apply bind_ok in H as ([] & Hp%validated_plan & H).
  apply bind_ok in H as ([] & Hpol & H). apply bind_ok in H as (ps & _ & H). apply raise_ok in H as [_ H].
  apply bind_ok in H as ([suite' authorities] & Ha & H).
  assert (suite' = suite) as ->.
  { clear -Ha. unfold validate_authority in Ha. peel Ha. by injection Ha. }
  apply bind_ok in H as (l & [-> Hn]%bounded_snapshot_inv & H). apply bind_ok in H as ([] & Hv & H).
  apply bind_ok in H as ([] & Hd & H). apply raise_ok in H as [Hs%negb_false_iff H].
  apply bind_ok in H as (results & Hr%map_result_ok & H). apply bind_ok in H as (cov & Hc%map_result_ok & H).
  apply bind_ok in H as (ords & Ho%map_result_ok & H). do 2 apply bind_ok in H as (? & _ & H).
  apply construct_ok in H as [_ ->]. exists authorities. split; try done.
  - intros a. by apply for_each_elem.
  - rewrite same_set_spec in Hs. exact Hs.
Qed.

Lemma margin_strict x y : in_range (-1) 1 x -> in_range (-1) 1 y -> fleb (fsub x y) fzero = false -> (fq y < fq x)%Q.
Proof.
  intros [_ Fx Rx] [_ Fy Ry] Hm. apply Qnot_le_lt. intros Hle.
  assert (Hb : (Qabs (fq x - fq y) <= pow2 1000)%Q).
  { pose proof pow2_1000_big. apply Qabs_case; intros _; lra. }
  destruct (fsub_value x y Fx Fy Hb) as [Hf Hv].
  assert (fleb (fsub x y) fzero = true); [|congruence]. apply fleb_value; [done..|].
  change (fq fzero) with (0 * 1)%Q. rewrite Hv.
  apply Qle_trans with (round64 0); [apply round64_le; lra|]. rewrite round64_zero; lra.
Qed.

Section Report.
Context T plan suite bundles policy attempts report authorities
  (Hq : qualification_checked T plan suite bundles policy attempts report authorities).

Lemma result_of_anchor a : a ∈ gp_anchors plan ->
  exists r authority first failed, r ∈ gr_anchor_results report
    /\ anchor_qualified plan suite authorities policy attempts a r authority first failed.
Proof.
  intros Ha. destruct (forall2_left _ _ _ _ (qk_results _ _ _ _ _ _ _ _ Hq) Ha) as (r & Hr & E).
  apply qualify_anchor_inv in E as (authority & first & failed & E). eauto 6.
Qed.

Lemma anchor_of_result r : r ∈ gr_anchor_results report ->
  exists a authority first failed, a ∈ gp_anchors plan
    /\ anchor_qualified plan suite authorities policy attempts a r authority first failed.
Proof.
  intros Hr. destruct (forall2_right _ _ _ _ (qk_results _ _ _ _ _ _ _ _ Hq) Hr) as (a & Ha & E).
  apply qualify_anchor_inv in E as (authority & first & failed & E). eauto 6.
Qed.

Lemma result_ids : qr_anchor_id <$> gr_anchor_results report = qa_anchor_id <$> gp_anchors plan.
Proof.
  pose proof (qk_results _ _ _ _ _ _ _ _ Hq) as H. induction H as [|a r la lr E H IH]; [done|]. cbn.
  apply qualify_anchor_inv in E as (? & ? & ? & E). destruct (aq_ids _ _ _ _ _ _ _ _ _ _ E) as [-> _]. by rewrite IH.
Qed.

Lemma result_by_id_inv id r : result_by_id (gr_anchor_results report) id = Some r ->
  r ∈ gr_anchor_results report /\ qr_anchor_id r = id.
Proof. apply Aggregate.dict_of_keyed. Qed.

Lemma same_id_same_result r r' : r ∈ gr_anchor_results report -> r' ∈ gr_anchor_results report ->
  qr_anchor_id r = qr_anchor_id r' -> r = r'.
Proof.
  intros Hr Hr' E. apply (NoDup_key_inj qr_anchor_id (gr_anchor_results report)); try done. rewrite result_ids.
  apply (pk_ids _ (qk_plan _ _ _ _ _ _ _ _ Hq)).
Qed.

Lemma rewards_range r : r ∈ gr_anchor_results report -> in_range (-1) 1 (qr_training_reward r).
Proof.
  intros (a & authority & first & failed & _ & E)%anchor_of_result.
  apply float_between_signed, (aq_reward _ _ _ _ _ _ _ _ _ _ E).
Qed.

Lemma ordering_strict better worse : (better, worse) ∈ relation_ids plan ->
  exists b w, b ∈ gr_anchor_results report /\ w ∈ gr_anchor_results report
    /\ qr_anchor_id b = better /\ qr_anchor_id w = worse
    /\ (fq (qr_training_reward w) < fq (qr_training_reward b))%Q.
Proof.
  unfold relation_ids. intros (o & [= -> ->] & Ho)%list_elem_of_fmap.
  destruct (forall2_left _ _ _ _ (qk_orderings _ _ _ _ _ _ _ _ Hq) Ho) as (res & _ & E).
  unfold check_reward_ordering in E. destruct (result_by_id _ (ro_better_anchor_id o)) as [b|] eqn:Eb; [|done].
  destruct (result_by_id _ (ro_worse_anchor_id o)) as [w|] eqn:Ew; [|done].
  apply result_by_id_inv in Eb as [Hb Eb], Ew as [Hw Ew]. apply raise_ok in E as [E _].
  exists b, w. split_and!; try done. apply orb_false_iff in E as [E _].
  apply margin_strict; [by apply rewards_range..|done].
Qed.
End Report.

Lemma Forall2_impl_in {A B} (P Q : A -> B -> Prop) l k :
  (forall x y, x ∈ l -> P x y -> Q x y) -> Forall2 P l k -> Forall2 Q l k.
Proof.
  intros Himp H. induction H as [|x y l k Hxy H IH]; constructor; [apply Himp; [left|done]|].
  apply IH. intros a b Ha. apply Himp. by right.
Qed.

(** A full solution outranks what is not one; a partial fix outranks the baselines. *)
Definition outranks (better worse : AnchorRole) : bool :=
  (bool_decide (better ∈ FULL_SOLUTION_ROLES) && negb (bool_decide (worse ∈ FULL_SOLUTION_ROLES)))
  || (bool_decide (better = PARTIAL_FIX) && bool_decide (worse ∈ BEHAVIOR_BASELINE_ROLES)).

Lemma by_id_inv p id a : by_id p id = Some a -> a ∈ gp_anchors p /\ qa_anchor_id a = id.
Proof. apply Aggregate.dict_of_keyed. Qed.

Lemma has_role_inv p a roles id : has_role p a roles id = true ->
  exists b, b ∈ gp_anchors p /\ qa_anchor_id b = id /\ qa_role b ∈ roles /\ by_id p id = Some b.
Proof.
  unfold has_role. destruct (by_id p id) as [b|] eqn:E; [|done]. intros [H _]%andb_true_iff.
  apply bool_decide_eq_true in H. apply by_id_inv in E as E'. exists b. naive_solver.
Qed.

Lemma relation_same_task p b w : plan_checked p -> (qa_anchor_id b, qa_anchor_id w) ∈ relation_ids p ->
  b ∈ gp_anchors p -> w ∈ gp_anchors p -> partition_task b = partition_task w.
Proof.
  intros Hp Hr Hb Hw. apply (pk_relation _ Hp) in Hr. unfold check_relation in Hr. cbn [fst snd] in Hr.
  destruct (by_id p (qa_anchor_id b)) as [b'|] eqn:Eb; [|done].
  destruct (by_id p (qa_anchor_id w)) as [w'|] eqn:Ew; [|done]. peel Hr.
  apply by_id_inv in Eb as [Hb' Eb], Ew as [Hw' Ew]. pose proof (pk_ids _ Hp) as Hn.
  apply (NoDup_key_inj _ _ _ _ Hn) in Eb as ->; [|done..]. apply (NoDup_key_inj _ _ _ _ Hn) in Ew as ->; [|done..].
  apply differ_eq in E, E0. unfold partition_task. congruence.
Qed.

(** The relations [check_rank] asks for. *)
Lemma below_full_solution p a : plan_checked p -> a ∈ gp_anchors p -> qa_role a ∉ FULL_SOLUTION_ROLES ->
  exists b, b ∈ gp_anchors p /\ qa_role b ∈ FULL_SOLUTION_ROLES /\ (qa_anchor_id b, qa_anchor_id a) ∈ relation_ids p.
Proof.
  intros Hp Ha Hr. pose proof (pk_rank _ Hp a Ha) as H. unfold check_rank in H.
  rewrite bool_decide_eq_false_2 in H by done. apply raise_ok in H as [H _].
  apply negb_false_iff, existsb_exists in H as (id & Hin & Hh).
  apply has_role_inv in Hh as (b & Hb & <- & Hrole & _). exists b. split_and!; try done.
  rewrite <-list_elem_of_In, list_elem_of_fmap in Hin. destruct Hin as ([u v] & E & Hin).
  rewrite list_elem_of_filter in Hin. destruct Hin as [Ev Hin]. cbn in *. by subst.
Qed.

Lemma above_baselines p a role : plan_checked p -> a ∈ gp_anchors p -> qa_role a = PARTIAL_FIX ->
  role ∈ BEHAVIOR_BASELINE_ROLES ->
  exists w, w ∈ gp_anchors p /\ qa_role w = role /\ (qa_anchor_id a, qa_anchor_id w) ∈ relation_ids p.
Proof.
  intros Hp Ha Hr Hrole. pose proof (pk_rank _ Hp a Ha) as H. unfold check_rank in H. rewrite Hr in H.
  rewrite bool_decide_eq_false_2 in H by (apply (bool_decide_unpack _); by vm_compute).
  apply raise_ok in H as [_ H]. rewrite bool_decide_eq_true_2 in H by done. apply raise_ok in H as [H _].
  apply negb_false_iff in H. apply (forallb_elem _ _ role H), existsb_exists in Hrole as (id & Hin & Hh).
  apply has_role_inv in Hh as (w & Hw & <- & Hrw & _). exists w. split_and!; [done|set_solver|].
  rewrite <-list_elem_of_In, list_elem_of_fmap in Hin. destruct Hin as ([u v] & E & Hin).
  rewrite list_elem_of_filter in Hin. destruct Hin as [Ev Hin]. cbn in *. by subst.
Qed.

Section Ladder.
Context T plan suite bundles policy attempts report authorities
  (Hq : qualification_checked T plan suite bundles policy attempts report authorities).

Lemma results_behaved : Forall2 (behaved policy) (gp_anchors plan) (gr_anchor_results report).
Proof.
  eapply Forall2_impl_in; [|exact (qk_results _ _ _ _ _ _ _ _ Hq)]. intros a r Ha (authority & first & failed & E)%qualify_anchor_inv.
  eapply anchor_behaved; [|exact E]. by apply (pk_anchors _ (qk_plan _ _ _ _ _ _ _ _ Hq)).
Qed.

Lemma full_reward a r : behaved policy a r -> qa_role a ∈ FULL_SOLUTION_ROLES -> r ∈ gr_anchor_results report ->
  (fq (qr_training_reward r) == fq (rp_success_reward policy))%Q.
Proof.
  intros (_ & _ & _ & _ & Hb) Hr Hin. pose proof (rewards_range _ _ _ _ _ _ _ _ Hq r Hin) as [_ Hf _].
  destruct (vp_success _ (validate_RewardPolicy_ok _ (qk_policy _ _ _ _ _ _ _ _ Hq))) as [_ Hs _].
  apply feqb_value; [done..|]. unfold FULL_SOLUTION_ROLES in Hr. rewrite !elem_of_cons, elem_of_nil in Hr.
  destruct Hr as [E|[E|[]]]; rewrite E in Hb; apply Hb.
Qed.

(** Results of two anchors that an ordering relates. *)
Lemma related_rewards a b r r' : (qa_anchor_id a, qa_anchor_id b) ∈ relation_ids plan ->
  behaved policy a r -> behaved policy b r' -> r ∈ gr_anchor_results report -> r' ∈ gr_anchor_results report ->
  (fq (qr_training_reward r') < fq (qr_training_reward r))%Q.
Proof.
  intros Hrel [Ea _] [Eb _] Hr Hr'.
  destruct (ordering_strict _ _ _ _ _ _ _ _ Hq _ _ Hrel) as (x & y & Hx & Hy & Ex & Ey & Hlt).
  rewrite <-Ea in Ex. rewrite <-Eb in Ey. apply (same_id_same_result _ _ _ _ _ _ _ _ Hq) in Ex as ->; [|done..].
  by apply (same_id_same_result _ _ _ _ _ _ _ _ Hq) in Ey as ->.
Qed.

Lemma ladder r r' : r ∈ gr_anchor_results report -> r' ∈ gr_anchor_results report ->
  result_task r = result_task r' -> outranks (qr_role r) (qr_role r') = true ->
  (fq (qr_training_reward r') < fq (qr_training_reward r))%Q.
Proof.
  intros Hr Hr' Et Ho. pose proof results_behaved as Hall. pose proof (qk_plan _ _ _ _ _ _ _ _ Hq) as Hp.
  destruct (forall2_right _ _ _ _ Hall Hr) as (a & Ha & Hb). destruct (forall2_right _ _ _ _ Hall Hr') as (a' & Ha' & Hb').
  pose proof Hb as (_ & Et1 & Er & _). pose proof Hb' as (_ & Et2 & Er' & _). rewrite Er, Er' in Ho.
  apply orb_true_iff in Ho as [[H1%bool_decide_eq_true H2]%andb_true_iff|[H1%bool_decide_eq_true H2%bool_decide_eq_true]%andb_true_iff].
  - apply negb_true_iff, bool_decide_eq_false in H2. rewrite (full_reward a r Hb H1 Hr).
    destruct (below_full_solution plan a' Hp Ha' H2) as (b & Hb0 & Hbr & Hrel).
    destruct (forall2_left _ _ _ _ Hall Hb0) as (rb & Hrb & Hbb).
    rewrite <-(full_reward b rb Hbb Hbr Hrb). by apply (related_rewards b a').
  - destruct (above_baselines plan a (qa_role a') Hp Ha H1 H2) as (w & Hw & Hwr & Hrel).
    assert (w = a') as ->; [|by apply (related_rewards a a')].
    apply (one_anchor_per_role _ _ _ (pk_roles _ Hp)); try done.
    rewrite <-(relation_same_task plan a w Hp Hrel Ha Hw). congruence.
Qed.
End Ladder.

(** C20. A qualified grader ranks every task correctly.  When [qualify_grader] returns a
    report, every anchor of the plan behaved as its role demands (full solutions pass
    with the full reward and kill nothing, mutants are rejected by the verifier with
    the verifier reward, baselines get the hack reward, partial fixes lie strictly
    between), and within each task the rewards form a strict ladder: every full
    solution is paid more than everything else, and the partial fix more than every
    behavior baseline. *)
Theorem qualified_rewards_ladder T plan suite bundles policy attempts :
  match qualify_grader T plan suite bundles policy attempts with
  | Ok report =>
      Forall2 (behaved policy) (gp_anchors plan) (gr_anchor_results report)
      /\ forall r r', r ∈ gr_anchor_results report -> r' ∈ gr_anchor_results report ->
           result_task r = result_task r' -> outranks (qr_role r) (qr_role r') = true ->
           (fq (qr_training_reward r') < fq (qr_training_reward r))%Q
  | Err _ => True
  end.
Proof.
  destruct (qualify_grader _ _ _ _ _ _) as [report|] eqn:E; [|done].
  apply qualify_grader_inv in E as (authorities & Hq). split; [by eapply results_behaved|].
  intros r r'. by eapply ladder.
Qed.

(** ** Separation of tasks *)
Definition repository_of (T : TextOps) (a : TaskAuthority) : result string string :=
  normalize_repository_identity T (pv_repository (pg_provenance (tb_private (ta_bundle a)))).
Definition group_of (a : TaskAuthority) : string := pg_contamination_group (tb_private (ta_bundle a)).
Definition original_of (a : TaskAuthority) : string := pv_original_sha256 (pg_provenance (tb_private (ta_bundle a))).
Definition cluster_of (a : TaskAuthority) : string := stk_cluster_id (ta_suite_task a).

(** Two tasks have nothing in common. *)
Record apart (T : TextOps) (a b : TaskAuthority) : Prop := {
  ap_group : group_of a <> group_of b;
  ap_original : original_of a <> original_of b;
  ap_cluster : cluster_of a <> cluster_of b;
  ap_repository : exists r r', repository_of T a = Ok r /\ repository_of T b = Ok r' /\ r <> r';
  ap_files d : d ∈ bundle_file_digests (ta_bundle a) -> d ∈ bundle_file_digests (ta_bundle b) -> False
}.

Lemma apart_sym T a b : apart T a b -> apart T b a.
Proof. intros [? ? ? (r & r' & ? & ? & ?) Hd]. split; try congruence; [exists r', r; auto|]. eauto. Qed.

Record covered (T : TextOps) (s : Separation) (p : AnchorPartition) (a : TaskAuthority) : Prop := {
  cv_group : (p, group_of a) ∈ sp_groups s;
  cv_original : (p, original_of a) ∈ sp_originals s;
  cv_cluster : (p, cluster_of a) ∈ sp_clusters s;
  cv_repository : exists r, repository_of T a = Ok r /\ (p, r) ∈ sp_repositories s;
  cv_files d : d ∈ bundle_file_digests (ta_bundle a) -> (p, d) ∈ sp_file_digests s
}.

Lemma disjoint_spec {A} `{EqDecision A} (a b : list A) : disjoint a b = true <-> forall x, x ∈ a -> x ∈ b -> False.
Proof.
  unfold disjoint. rewrite negb_true_iff. split.
  - intros H x Ha Hb. apply (existsb_none _ _ x) in H; [|done]. by apply bool_decide_eq_false in H.
  - intros H. destruct (existsb _ a) eqn:E; [|done]. apply existsb_exists in E as (x & Hx & Hb).
    apply bool_decide_eq_true in Hb. destruct (H x); [by apply list_elem_of_In|done].
Qed.

Lemma cross_disjoint_spec l p p' x : cross_disjoint l = true -> p <> p' -> (p, x) ∈ l -> (p', x) ∈ l -> False.
Proof.
  unfold cross_disjoint. rewrite disjoint_spec. intros H Hp Hx Hx'.
  assert (Hin : forall q, (q, x) ∈ l -> x ∈ of_partition q l).
  { intros q Hl. unfold of_partition. rewrite list_elem_of_fmap. exists (q, x). by rewrite list_elem_of_filter. }
  apply (H x); destruct p, p'; try done; by apply Hin.
Qed.

(** Processing a task: it is apart from what the partition has, and covered after. *)
Lemma separate_step T s p a s' : separate T s p a = Ok s' ->
  covered T s' p a /\ (forall q b, covered T s q b -> covered T s' q b) /\ (forall b, covered T s p b -> apart T b a).
Proof.
  unfold separate. intros H. apply raise_ok in H as [Hg%bool_decide_eq_false H].
  apply raise_ok in H as [Ho%bool_decide_eq_false H]. apply bind_ok in H as (repo & Hr & H).
  assert (Hrepo : repository_of T a = Ok repo) by (unfold repository_of; by destruct (normalize_repository_identity _ _); [injection Hr as ->|]).
  apply raise_ok in H as [Hrp%bool_decide_eq_false H]. apply raise_ok in H as [Hc%bool_decide_eq_false H].
  apply raise_ok in H as [Hd H]. injection H as <-. apply negb_false_iff in Hd. rewrite disjoint_spec in Hd. split_and!.
  - split; cbn; try by left.
    + exists repo. split; [done|by left].
    + intros d Hx. apply elem_of_app. left. by apply list_elem_of_fmap_2.
  - intros q b [? ? ? (r & ? & ?) ?]. split; cbn; try by right.
    + exists r. split; [done|by right].
    + intros d Hx. apply elem_of_app. right. auto.
  - intros b [Bg Bo Bc (r & Br & Bi) Bf]. split.
    + intros E. apply Hg. fold (group_of a). by rewrite <-E.
    + intros E. apply Ho. fold (original_of a). by rewrite <-E.
    + intros E. apply Hc. fold (cluster_of a). by rewrite <-E.
    + exists r, repo. split_and!; try done. by intros ->.
    + intros d Hb Ha. apply (Hd (p, d)); [by apply list_elem_of_fmap_2|auto].
Qed.

Lemma separate_all_spec T items s s' : separate_all T items s = Ok s' ->
  (forall q b, covered T s q b \/ (q, b) ∈ items -> covered T s' q b)
  /\ (forall p a l1 l2, items = l1 ++ (p, a) :: l2 -> forall b, covered T s p b \/ (p, b) ∈ l1 -> apart T b a)%list.
Proof.
  revert s. induction items as [|[p a] items IH]; intros s; cbn [separate_all].
  - intros [= <-]. split; [intros q b [?|[]%not_elem_of_nil]; done|]. intros p a l1 l2 E. by destruct l1.
  - intros H. apply bind_ok in H as (s1 & H1 & H). apply separate_step in H1 as (Hc & Hm & Ha).
    destruct (IH _ H) as [IHc IHa]. split.
    + intros q b [Hb|[[= -> ->]|Hb]%elem_of_cons]; apply IHc; auto.
    + intros q b l1 l2 E c Hcov. destruct l1 as [|x l1].
      * injection E as <- <- _. destruct Hcov as [?|[]%not_elem_of_nil]. auto.
      * injection E as <- E. apply (IHa q b l1 l2 E). destruct Hcov as [?|[[= -> ->]|?]%elem_of_cons]; auto.
Qed.

Lemma separated_cross T s p p' a b : check_separated s = Ok tt -> covered T s p a -> covered T s p' b -> p <> p' ->
  apart T a b.
Proof.
  unfold check_separated. intros H [Ag Ao Ac (r & Ar & Ai) Af] [Bg Bo Bc (r' & Br & Bi) Bf] Hp. peel H.
  apply negb_false_iff in E, E0, E1, E2, E3. split.
  - intros Eq. rewrite Eq in Ag. by apply (cross_disjoint_spec _ p p' _ E Hp Ag).
  - intros Eq. rewrite Eq in Ao. by apply (cross_disjoint_spec _ p p' _ E0 Hp Ao).
  - intros Eq. rewrite Eq in Ac. by apply (cross_disjoint_spec _ p p' _ E2 Hp Ac).
  - exists r, r'. split_and!; try done. intros ->. by apply (cross_disjoint_spec _ p p' _ E1 Hp Ai).
  - intros d Ha Hb. by apply (cross_disjoint_spec _ p p' d E3 Hp (Af d Ha)), Bf.
Qed.

(** Any two different positions of the processed list are apart. *)
Lemma separated_apart T items s i j p q a b : separate_all T items no_separation = Ok s -> check_separated s = Ok tt ->
  items !! i = Some (p, a) -> items !! j = Some (q, b) -> (i < j)%nat -> apart T a b.
Proof.
  intros H Hs Hi Hj Hij. destruct (separate_all_spec _ _ _ _ H) as [Hc Ha].
  assert (Ca : covered T s p a) by (apply Hc; right; by eapply list_elem_of_lookup_2).
  assert (Cb : covered T s q b) by (apply Hc; right; by eapply list_elem_of_lookup_2).
  destruct (decide (p = q)) as [->|Hp]; [|by eapply separated_cross].
  apply (Ha q b (take j items) (drop (S j) items)); [by rewrite take_drop_middle|]. right.
  apply list_elem_of_lookup. exists i. by rewrite lookup_take_lt.
Qed.

Lemma index_bundles_inv bs d d' : index_bundles bs d = Ok d' -> NoDup d.*1 ->
  d' = (d ++ ((fun b => (tb_bundle_sha256 b, b)) <$> bs))%list /\ NoDup d'.*1.
Proof.
  revert d. induction bs as [|b bs IH]; intros d; cbn [index_bundles].
  - intros [= <-] Hn. by rewrite app_nil_r.
  - intros H Hn. apply raise_ok in H as [Hf H]. destruct (dict_get d (tb_bundle_sha256 b)) eqn:E; [done|].
    destruct (IH _ H) as [-> Hn'].
    + rewrite fmap_app. cbn. apply NoDup_app. split; [done|]. split; [|by apply NoDup_singleton].
      intros x Hx ->%list_elem_of_singleton. by apply dict_get_None in E.
    + split; [by rewrite <-app_assoc|done].
Qed.

Lemma task_authority_inv plan sbb item da : task_authority plan sbb item = Ok da ->
  da.1 = item.1 /\ ta_bundle da.2 = item.2 /\ build_scoring_contract item.2 = Ok (ta_contract da.2).
Proof.
  destruct item as [digest bundle]. unfold task_authority. destruct (dict_get sbb digest) as [t|]; [|done].
  intros H. apply bind_ok in H as (ep & _ & H). apply bind_ok in H as (c & Hc & H). peel H. injection H as <-. cbn.
  split; [reflexivity|]. split; [reflexivity|]. destruct (build_scoring_contract bundle) as [c'|]; [|discriminate Hc].
  by injection Hc as ->.
Qed.

Record authority_checked (T : TextOps) (plan : GraderQualificationPlan) (suite : SuiteManifest)
    (bundles : list SealedBundle) (authorities : list (string * TaskAuthority)) (frozen : list SealedBundle)
    (partitions : list (string * AnchorPartition)) (s : Separation) : Prop := {
  ak_frozen : Forall2 (fun b f => freeze_task_bundle b = Ok f) bundles frozen;
  ak_keys : NoDup authorities.*1;
  ak_bundles : (fun da => (da.1, ta_bundle da.2)) <$> authorities
               = (fun f => (tb_bundle_sha256 (sb_bundle f), sb_bundle f)) <$> frozen;
  ak_contract d a : (d, a) ∈ authorities -> build_scoring_contract (ta_bundle a) = Ok (ta_contract a);
  ak_partitions : Forall2 (fun da dp => partition_of da.2 = Ok dp.2 /\ dp.1 = da.1) authorities partitions;
  ak_separate : separate_all T (zip partitions.*2 authorities.*2) no_separation = Ok s;
  ak_separated : check_separated s = Ok tt;
  ak_anchors a : a ∈ gp_anchors plan -> check_anchor plan authorities partitions a = Ok tt
}.

Lemma validate_authority_inv T plan suite bundles suite' authorities :
  validate_authority T plan suite bundles = Ok (suite', authorities) ->
  exists frozen partitions s, authority_checked T plan suite bundles authorities frozen partitions s.
Proof.
  unfold validate_authority. intros H. apply bind_ok in H as ([] & _ & H). apply bind_ok in H as (ss & _ & H).
  apply raise_ok in H as [_ H]. apply bind_ok in H as (sup & [-> _]%bounded_snapshot_inv & H).
  apply bind_ok in H as (frozen & Hf%map_result_ok & H). apply bind_ok in H as (by_bundle & Hi & H).
  apply index_bundles_inv in Hi as [-> Hn]; [|by constructor]. do 3 apply raise_ok in H as [_ H].
  apply bind_ok in H as (auths & Ha%map_result_ok & H). apply bind_ok in H as (parts & Hp%map_result_ok & H).
  apply bind_ok in H as (s & Hs & H). apply bind_ok in H as ([] & Hc & H). apply bind_ok in H as ([] & Hk & H).
  injection H as <- <-. cbn [app] in Ha, Hn.
  assert (Hb : (fun da => (da.1, ta_bundle da.2)) <$> auths = (fun b => (tb_bundle_sha256 b, b)) <$> (sb_bundle <$> frozen)).
  { clear -Ha. induction Ha as [|x da l k E H IH]; [done|]. apply task_authority_inv in E as (E1 & E2 & _).
    rewrite fmap_cons, IH, E1, E2. by destruct x. }
  exists frozen, parts, s. split; [exact Hf|..|exact Hs|exact Hc|].
  - replace auths.*1 with ((fun b => (tb_bundle_sha256 b, b)) <$> (sb_bundle <$> frozen)).*1; [done|].
    rewrite <-Hb, <-list_fmap_compose. done.
  - rewrite Hb, <-list_fmap_compose. done.
  - intros d a Hin. destruct (forall2_right _ _ _ _ Ha Hin) as (x & _ & (_ & E1 & E2)%task_authority_inv).
    cbn in E1, E2. congruence.
  - eapply Forall2_impl; [exact Hp|]. intros da dp E. cbn in E. peel E. by injection E as <-.
  - intros a Hin. by apply (for_each_elem _ _ a Hk).
Qed.

Lemma zip_lookup {A B C} (pa : list (B * C)) (aa : list (B * A)) i d a :
  length pa = length aa -> aa !! i = Some (d, a) -> exists p, zip pa.*2 aa.*2 !! i = Some (p, a).
Proof.
  intros Hl Hi. assert (Hp : is_Some (pa !! i)) by (apply lookup_lt_is_Some; rewrite Hl; by eapply lookup_lt_Some).
  destruct Hp as [[d' p] Hp]. exists p. apply lookup_zip_Some. rewrite !list_lookup_fmap, Hp, Hi. done.
Qed.

(** C23. The tasks of a qualification share nothing, and no anchor is relabelled.  When the
    authority of a plan is accepted, any two different tasks, whether in one partition
    or across calibration and validation, have different contamination groups,
    originals, suite clusters and normalized repositories, and no file in common; and
    every planned anchor is labelled with the split of its sealed task and names one of
    the candidates that the task seals for its role. *)
Theorem qualified_tasks_share_nothing T plan suite bundles :
  match validate_authority T plan suite bundles with
  | Ok (_, authorities) =>
      (forall d d' a b, (d, a) ∈ authorities -> (d', b) ∈ authorities -> d <> d' -> apart T a b)
      /\ forall x, x ∈ gp_anchors plan -> exists a candidates,
           dict_get authorities (qa_task_bundle_sha256 x) = Some a
           /\ partition_of a = Ok (qa_partition x)
           /\ expected_candidates (ta_bundle a) x = Ok candidates /\ qa_candidate x ∈ candidates
  | Err _ => True
  end.
Proof.
  destruct (validate_authority T plan suite bundles) as [[suite' authorities]|] eqn:E; [|done].
  apply validate_authority_inv in E as (frozen & partitions & s & H). split.
  - intros d d' a b Ha Hb Hne. pose proof (Forall2_length _ _ _ (ak_partitions _ _ _ _ _ _ _ _ H)) as Hl.
    apply list_elem_of_lookup in Ha as [i Hi], Hb as [j Hj].
    destruct (zip_lookup partitions authorities i d a) as [p Hp]; [done..|].
    destruct (zip_lookup partitions authorities j d' b) as [q Hq]; [done..|].
    pose proof (fun i j p q a b => separated_apart T _ s i j p q a b (ak_separate _ _ _ _ _ _ _ _ H) (ak_separated _ _ _ _ _ _ _ _ H)) as Hap.
    destruct (lt_eq_lt_dec i j) as [[Hlt| ->]|Hlt]; [by eapply Hap|congruence|by eapply apart_sym, Hap].
  - intros x Hx. pose proof (ak_anchors _ _ _ _ _ _ _ _ H x Hx) as Hc. unfold check_anchor in Hc.
    destruct (dict_get authorities _) as [a|] eqn:Ea; [|done]. apply raise_ok in Hc as [Hp%differ_eq Hc].
    apply raise_ok in Hc as [_ Hc]. do 2 apply bind_ok in Hc as (? & _ & Hc). apply raise_ok in Hc as [_ Hc].
    apply bind_ok in Hc as (cs & Hcs & Hc). apply raise_ok in Hc as [Hin%bool_decide_neg_false _].
    exists a, cs. split_and!; try done. apply dict_get_In in Ea.
    assert (Ek : tb_bundle_sha256 (ta_bundle a) = qa_task_bundle_sha256 x).
    { assert (Hm : (qa_task_bundle_sha256 x, ta_bundle a) ∈ (fun da => (da.1, ta_bundle da.2)) <$> authorities)
        by (apply list_elem_of_fmap; by exists (qa_task_bundle_sha256 x, a)).
      rewrite (ak_bundles _ _ _ _ _ _ _ _ H) in Hm. apply list_elem_of_fmap in Hm as (f & [= -> ->] & _). done. }
    rewrite Ek in Hp. symmetry in Hp. apply dict_get_In in Hp.
    destruct (forall2_right _ _ _ _ (ak_partitions _ _ _ _ _ _ _ _ H) Hp) as ([d a'] & Ha' & Hpart & E). cbn in *.
    pose proof (NoDup_key_inj fst authorities (d, a') (qa_task_bundle_sha256 x, a) (ak_keys _ _ _ _ _ _ _ _ H) Ea Ha' E) as Eq.
    injection Eq as _ ->. exact Hpart.
Qed.

(** ** Attempts *)
Lemma counts_equal_perm {A} `{EqDecision A} (a b : list A) : counts_equal a b = true -> a ≡ₚ b.
Proof.
  intros H. assert (Hc : forall x, length (filter (fun y => y = x) a) = length (filter (fun y => y = x) b)).
  { intros x. destruct (decide (x ∈ (a ++ b)%list)) as [Hx|Hx].
    - apply (forallb_elem _ _ x H) in Hx. by apply bool_decide_eq_true in Hx.
    - assert (Hz : forall l, x ∉ l -> filter (fun y => y = x) l = []).
      { intros l Hl. apply list_eq_nil. intros y. rewrite list_elem_of_filter. intros [-> Hy]. done. }
      rewrite elem_of_app in Hx. rewrite !Hz by tauto. done. }
  clear H. revert b Hc. induction a as [|x a IH]; intros b Hc.
  - destruct b as [|y b]; [done|]. specialize (Hc y). rewrite filter_cons in Hc. by destruct (decide (y = y)).
  - assert (Hx : x ∈ b).
    { specialize (Hc x). rewrite filter_cons in Hc. destruct (decide (x = x)); [|done]. cbn in Hc.
      destruct (filter (fun y => y = x) b) as [|z l] eqn:E; [done|].
      assert (Hz : z ∈ filter (fun y => y = x) b) by (rewrite E; left). by apply list_elem_of_filter in Hz as [-> ?]. }
    apply elem_of_Permutation in Hx as [b' Hb']. rewrite Hb'. f_equiv. apply IH. intros z. specialize (Hc z).
    rewrite Hb' in Hc. rewrite !filter_cons in Hc. case_decide; cbn in Hc; lia.
Qed.

Lemma partition_perm {A K} `{EqDecision K} (key : A -> K) ks l : NoDup ks -> (forall x, x ∈ l -> key x ∈ ks) ->
  l ≡ₚ flat_map (fun k => filter (fun x => key x = k) l) ks.
Proof.
  intros Hn. induction l as [|x l IH]; intros Hk.
  { clear. induction ks as [|k ks IHk]; [done|]. exact IHk. }
 
  rewrite IH at 1 by (intros y Hy; apply Hk; by right). pose proof (Hk x ltac:(left)) as Hx. clear IH Hk.
  induction ks as [|k ks IHk]; [by apply not_elem_of_nil in Hx|]. apply NoDup_cons in Hn as [Hk Hn]. cbn [flat_map].
  rewrite filter_cons. destruct (decide (key x = k)) as [E|E].
  - rewrite <-app_comm_cons. f_equiv. f_equiv. apply reflexive_eq. rewrite !flat_map_concat_map. f_equal. apply map_ext_in.
    intros k' Hk'%list_elem_of_In. cbn beta. rewrite filter_cons. case_decide as E'; [|done]. by subst.
  - apply elem_of_cons in Hx as [?|Hx]; [done|]. rewrite <-(IHk Hn Hx). apply Permutation_middle.
Qed.

Definition attempt_slot (a : GraderQualificationAttempt) : string * Z := (qt_anchor_id a, qt_repeat_index a).
Definition planned_slots (a : QualificationAnchorPlan) : list (string * Z) :=
  (fun j => (qa_anchor_id a, qj_repeat_index j)) <$> qa_jobs a.

(** What the binding of an attempt establishes. *)
Record attempt_bound (anchor : QualificationAnchorPlan) (contract : ScoringContract) (policy : RewardPolicy)
    (a : GraderQualificationAttempt) : Prop := {
  ab_job : exists job, qa_jobs anchor !! Z.to_nat (qt_repeat_index a) = Some job
             /\ qj_repeat_index job = qt_repeat_index a
             /\ sha256_json (EvaluationJobManifest_json (qt_job a)) = Ok (qj_job_manifest_sha256 job);
  ab_request : jm_request (qt_job a) = ev_request (qt_evidence a);
  ab_candidate : art_sha256 (req_candidate (ev_request (qt_evidence a))) = ci_sha256 (qa_candidate anchor)
                 /\ art_size_bytes (req_candidate (ev_request (qt_evidence a))) = ci_size_bytes (qa_candidate anchor);
  ab_grade : exists grade, score_evidence (qt_evidence a) contract policy = Ok grade
               /\ Grade_eqb (qt_grade a) grade = true;
  ab_replay : validate_replay_binding a contract policy = Ok tt
}.

Lemma rephrase_ok {E A} m (r : result E A) x : rephrase m r = Ok x -> r = Ok x.
Proof. destruct r; [|done]. by intros [= ->]. Qed.

Lemma validate_attempt_binding_inv a anchor plan suite authority policy :
  validate_attempt_binding a anchor plan suite authority policy = Ok tt ->
  attempt_bound anchor (ta_contract authority) policy a.
Proof.
  unfold validate_attempt_binding. intros H. apply bind_ok in H as ([] & _ & H).
  destruct (qa_jobs anchor !! _) as [job|] eqn:Ej; [|discriminate H]. apply bind_ok in H as (js & Hj & H).
  apply raise_ok in H as [H1 H]. do 2 apply raise_ok in H as [_ H]. apply bind_ok in H as (es & _ & H).
  apply raise_ok in H as [_ H]. apply raise_ok in H as [H2 H]. apply bind_ok in H as (g & Hg%rephrase_ok & H).
  apply raise_ok in H as [H3%negb_false_iff H].
  repeat (apply orb_false_iff in H1 as [H1 ?]). apply orb_false_iff in H2 as [H2a%differ_eq H2b%differ_eq].
  apply differ_eq in H1. rename select (differ (qj_job_manifest_sha256 _) _ = false) into Hd. apply differ_eq in Hd.
  rename select (differ (jm_request _) _ = false) into Hq. apply differ_eq in Hq.
  split; [exists job; split; [exact Ej|]; split; [exact H1|by rewrite Hd]|exact Hq|by split|by exists g|exact H].
Qed.

Lemma attempts_fill_plan T plan suite bundles policy attempts report authorities :
  qualification_checked T plan suite bundles policy attempts report authorities ->
  attempt_slot <$> attempts ≡ₚ flat_map planned_slots (gp_anchors plan).
Proof.
  intros Hq. pose proof (qk_plan _ _ _ _ _ _ _ _ Hq) as Hp.
  rewrite (partition_perm qt_anchor_id (qa_anchor_id <$> gp_anchors plan) attempts) at 1.
  - pose proof (qk_results _ _ _ _ _ _ _ _ Hq) as Hr. pose proof (pk_anchors _ Hp) as Hv. clear Hp Hq.
    induction Hr as [|x r xs rs (authority & first & failed & E)%qualify_anchor_inv Hr IH]; [done|].
    cbn [fmap list_fmap flat_map]. rewrite fmap_app, IH by (intros y Hy; apply Hv; by right). f_equiv.
    pose proof (aq_repeats _ _ _ _ _ _ _ _ _ _ E) as Hc%counts_equal_perm.
    pose proof (anchor_expectation x (Hv x ltac:(left))) as He. unfold expectation_matches_role in He.
    apply raise_ok in He as [_ He]. apply raise_ok in He as [Hi%bool_decide_neg_false _]. rewrite <-Hi in Hc.
    transitivity (pair (qa_anchor_id x) <$> (qt_repeat_index <$> anchor_attempts_of attempts (qa_anchor_id x))).
    + apply reflexive_eq. rewrite <-list_fmap_compose. apply list_fmap_ext. intros i a Ha%list_elem_of_lookup_2.
      unfold anchor_attempts_of in Ha. rewrite list_elem_of_filter in Ha. unfold attempt_slot. cbn. by destruct Ha as [-> _].
    + rewrite Hc. unfold planned_slots. by rewrite <-list_fmap_compose.
  - apply (pk_ids _ Hp).
  - intros a Ha. apply (qk_anchors _ _ _ _ _ _ _ _ Hq). by apply list_elem_of_fmap_2.
Qed.

Lemma attempt_has_anchor T plan suite bundles policy attempts report authorities a :
  qualification_checked T plan suite bundles policy attempts report authorities -> a ∈ attempts ->
  exists anchor r authority first failed, anchor ∈ gp_anchors plan /\ qa_anchor_id anchor = qt_anchor_id a
    /\ a ∈ anchor_attempts_of attempts (qa_anchor_id anchor)
    /\ anchor_qualified plan suite authorities policy attempts anchor r authority first failed.
Proof.
  intros Hq Ha. assert (Hin : qt_anchor_id a ∈ qa_anchor_id <$> gp_anchors plan)
    by (apply (qk_anchors _ _ _ _ _ _ _ _ Hq); by apply list_elem_of_fmap_2).
  apply list_elem_of_fmap in Hin as (anchor & E & Hin).
  destruct (result_of_anchor _ _ _ _ _ _ _ _ Hq anchor Hin) as (r & authority & first & failed & _ & Haq).
  exists anchor, r, authority, first, failed. split_and!; try done. unfold anchor_attempts_of. by rewrite list_elem_of_filter.
Qed.

(** C22. Exactly the precommitted attempts count.  When a grader qualifies, the supplied
    attempts fill the slots of the plan, anchor by anchor and repeat by repeat, each
    exactly once; and every attempt ran the job whose digest the plan committed to, on
    the candidate of its anchor, and carries the grade that the grader itself computes
    from its evidence under the contract the anchor commits to. *)
Theorem qualified_attempts_precommitted T plan suite bundles policy attempts :
  match qualify_grader T plan suite bundles policy attempts with
  | Ok _ =>
      attempt_slot <$> attempts ≡ₚ flat_map planned_slots (gp_anchors plan)
      /\ forall a, a ∈ attempts -> exists anchor contract, anchor ∈ gp_anchors plan
           /\ qa_anchor_id anchor = qt_anchor_id a
           /\ sha256_json (ScoringContract_json contract) = Ok (qa_scoring_contract_sha256 anchor)
           /\ attempt_bound anchor contract policy a
  | Err _ => True
  end.
Proof.
  destruct (qualify_grader _ _ _ _ _ _) as [report|] eqn:E; [|done].
  apply qualify_grader_inv in E as (authorities & Hq). split; [by eapply attempts_fill_plan|].
  intros a Ha. destruct (attempt_has_anchor _ _ _ _ _ _ _ _ a Hq Ha)
    as (anchor & r & authority & first & failed & Hin & Eid & Hof & Haq).
  exists anchor, (ta_contract authority). split; [exact Hin|]. split; [exact Eid|]. split.
  - destruct (validate_authority_inv _ _ _ _ _ _ (qk_authority _ _ _ _ _ _ _ _ Hq)) as (frozen & parts & s & Hv).
    pose proof (ak_anchors _ _ _ _ _ _ _ _ Hv anchor Hin) as Hc. unfold check_anchor in Hc.
    rewrite (aq_authority _ _ _ _ _ _ _ _ _ _ Haq) in Hc. do 2 apply raise_ok in Hc as [_ Hc].
    apply bind_ok in Hc as (x & _ & Hc). apply bind_ok in Hc as (y & Hy & Hc). apply raise_ok in Hc as [Hd _].
    apply orb_false_iff in Hd as [_ Hd%differ_eq]. by rewrite Hd.
  - by eapply validate_attempt_binding_inv, aq_bound.
Qed.

(** ** The kill matrix *)
Lemma full_expectation a : expectation_matches_role a = Ok tt -> qa_role a ∈ FULL_SOLUTION_ROLES ->
  qa_expected_failed_checks a = [].
Proof.
  unfold expectation_matches_role. intros H Hr. do 3 apply raise_ok in H as [_ H].
  rewrite bool_decide_eq_true_2 in H by done. apply raise_ok in H as [H _].
  apply orb_false_iff in H as [_ H]. by apply nonempty_false.
Qed.

Lemma failed_as_planned plan suite authorities policy attempts anchor r authority first failed k :
  validate_QualificationAnchorPlan anchor = Ok tt ->
  anchor_qualified plan suite authorities policy attempts anchor r authority first failed ->
  (k ∈ qr_failed_checks r <-> k ∈ qa_expected_failed_checks anchor)
  /\ (k ∈ failed <-> k ∈ qa_expected_failed_checks anchor).
Proof.
  intros Hv%anchor_expectation H. rewrite (aq_failed _ _ _ _ _ _ _ _ _ _ H), sort_by_elem.
  assert (Hk : k ∈ failed <-> k ∈ qa_expected_failed_checks anchor); [|done].
  pose proof (oc_role _ _ _ _ _ _ _ _ (aq_outcome _ _ _ _ _ _ _ _ _ _ H)) as Hr. case_bool_decide as Hfull.
  - apply check_full_inv in Hr as (_ & _ & -> & _). by rewrite (full_expectation anchor Hv Hfull).
  - apply check_failing_inv in Hr as (_ & _ & Hf & _). apply Hf.
Qed.

Lemma attempt_failed plan suite authorities policy attempts anchor r authority first failed a k :
  anchor_qualified plan suite authorities policy attempts anchor r authority first failed ->
  a ∈ anchor_attempts_of attempts (qa_anchor_id anchor) -> k ∈ failed_behavior_checks (qt_evidence a) <-> k ∈ failed.
Proof.
  intros H Ha. pose proof (aq_outcome _ _ _ _ _ _ _ _ _ _ H) as Ho. rewrite (oc_failed _ _ _ _ _ _ _ _ Ho).
  assert (Hs : same_projection first a = true)
    by (apply (oc_same _ _ _ _ _ _ _ _ Ho); unfold ordered_repeats; by rewrite sort_by_elem).
  unfold same_projection in Hs. apply andb_true_iff in Hs as [_ Hs]. rewrite same_set_spec in Hs. symmetry. apply Hs.
Qed.

Lemma killers_planned T plan suite bundles policy attempts report authorities w id :
  qualification_checked T plan suite bundles policy attempts report authorities ->
  id ∈ killers (gr_anchor_results report) w
  <-> exists anchor, anchor ∈ gp_anchors plan /\ qa_anchor_id anchor = id /\ partition_task anchor = witness_task w
        /\ qw_check w ∈ qa_expected_failed_checks anchor.
Proof.
  intros Hq. pose proof (pk_anchors _ (qk_plan _ _ _ _ _ _ _ _ Hq)) as Hv.
  unfold killers. rewrite sort_by_elem, list_elem_of_fmap. split.
  - intros (r & -> & Hr). rewrite list_elem_of_filter in Hr. destruct Hr as ((Et & Hk) & Hr).
    destruct (anchor_of_result _ _ _ _ _ _ _ _ Hq r Hr) as (anchor & au & first & failed & Ha & H).
    destruct (aq_ids _ _ _ _ _ _ _ _ _ _ H) as (-> & Et' & _). exists anchor. split_and!; try done; [congruence|].
    destruct (failed_as_planned _ _ _ _ _ _ _ _ _ _ (qw_check w) (Hv anchor Ha) H) as [Hf _]. by apply Hf.
  - intros (anchor & Ha & <- & Et & Hk).
    destruct (result_of_anchor _ _ _ _ _ _ _ _ Hq anchor Ha) as (r & au & first & failed & Hr & H).
    destruct (aq_ids _ _ _ _ _ _ _ _ _ _ H) as (Eid & Et' & _). exists r. split; [done|].
    rewrite list_elem_of_filter. split_and!; [congruence| |done].
    destruct (failed_as_planned _ _ _ _ _ _ _ _ _ _ (qw_check w) (Hv anchor Ha) H) as [Hf _]. by apply Hf.
Qed.

(** C21. The observed kills are exactly the planned ones.  When a grader qualifies, every
    single attempt fails precisely the behavior checks its anchor predeclared, the
    report covers the declared witnesses in order, and for each of them names exactly
    the anchors of its task that were planned to kill it, of which there is at least
    one. *)
Theorem qualified_kill_matrix_exact T plan suite bundles policy attempts :
  match qualify_grader T plan suite bundles policy attempts with
  | Ok report =>
      (forall a, a ∈ attempts -> exists anchor, anchor ∈ gp_anchors plan /\ qa_anchor_id anchor = qt_anchor_id a
         /\ forall k, k ∈ failed_behavior_checks (qt_evidence a) <-> k ∈ qa_expected_failed_checks anchor)
      /\ wc_witness <$> gr_witness_coverage report = gp_witnesses plan
      /\ forall c, c ∈ gr_witness_coverage report ->
           wc_killed_by_anchor_ids c <> []
           /\ forall id, id ∈ wc_killed_by_anchor_ids c
                <-> exists anchor, anchor ∈ gp_anchors plan /\ qa_anchor_id anchor = id
                      /\ partition_task anchor = witness_task (wc_witness c)
                      /\ qw_check (wc_witness c) ∈ qa_expected_failed_checks anchor
  | Err _ => True
  end.
Proof.
  destruct (qualify_grader _ _ _ _ _ _) as [report|] eqn:E; [|done].
  apply qualify_grader_inv in E as (authorities & Hq).
  assert (Hcov : forall w c, cover_witness (gr_anchor_results report) w = Ok c ->
    wc_witness c = w /\ wc_killed_by_anchor_ids c = killers (gr_anchor_results report) w
    /\ wc_killed_by_anchor_ids c <> []).
  { intros w c H. unfold cover_witness in H. apply raise_ok in H as [Hn%negb_false_iff H].
    apply construct_ok in H as [_ ->]. cbn. split_and!; try done. by destruct (killers _ w). }
  split_and!.
  - intros a Ha. destruct (attempt_has_anchor _ _ _ _ _ _ _ _ a Hq Ha)
      as (anchor & r & authority & first & failed & Hin & Eid & Hof & H).
    exists anchor. split; [done|]. split; [done|]. intros k. rewrite (attempt_failed _ _ _ _ _ _ _ _ _ _ _ k H Hof).
    eapply proj2, failed_as_planned; [|exact H]. by apply (pk_anchors _ (qk_plan _ _ _ _ _ _ _ _ Hq)).
  - pose proof (qk_coverage _ _ _ _ _ _ _ _ Hq) as H. induction H as [|w c ws cs E H IH]; [done|].
    destruct (Hcov w c E) as [<- _]. cbn. by rewrite IH.
  - intros c Hc. destruct (forall2_right _ _ _ _ (qk_coverage _ _ _ _ _ _ _ _ Hq) Hc) as (w & _ & E).
    destruct (Hcov w c E) as (-> & Ek & Hne). split; [done|]. intros id. rewrite Ek. by eapply killers_planned.
Qed.

(** ** Sealed bundles *)
(** The references of a bundle, with the projection they belong to. *)
Definition bundle_refs (b : TaskBundle) : list (string * FileRef) :=
  ((pair "public" <$> public_file_refs (tb_public b)) ++ (pair "grader" <$> private_file_refs (tb_private b)))%list.
Definition ref_key (x : string * FileRef) : string * string := (x.1, file_path x.2).

Lemma dict_get_snoc {K V} `{EqDecision K} (d : list (K * V)) k v k' : dict_get d k = None ->
  dict_get (d ++ [(k, v)])%list k' = if decide (k' = k) then Some v else dict_get d k'.
Proof.
  induction d as [|[j w] d IH]; cbn; [done|]. destruct (decide (k = j)) as [E|E]; [done|]. intros Hd. rewrite IH by done.
  destruct (decide (k' = j)), (decide (k' = k)); congruence.
Qed.

Lemma expect_refs_spec projection refs d d' : expect_refs projection refs d = Ok d' ->
  (forall k v, dict_get d k = Some v -> dict_get d' k = Some v)
  /\ (forall r, r ∈ refs -> dict_get d' (projection, file_path r) = Some r)
  /\ (forall k, k ∈ d'.*1 <-> k ∈ d.*1 \/ k ∈ (fun r => (projection, file_path r)) <$> refs).
Proof.
  revert d. induction refs as [|r refs IH]; intros d; cbn [expect_refs].
  - intros [= <-]. split_and!; [done|by intros r []%not_elem_of_nil|]. intros k. cbn. rewrite elem_of_nil. tauto.
  - destruct (dict_get d (projection, file_path r)) as [q|] eqn:E.
    + intros H. apply raise_ok in H as [->%differ_eq H]. destruct (IH _ H) as (Hm & Hr & Hk). split_and!; [done| |].
      * intros r' [->|Hr']%elem_of_cons; auto.
      * intros k. rewrite Hk. cbn. rewrite elem_of_cons. apply dict_get_In in E.
        assert (Hd : (projection, file_path r) ∈ d.*1) by (apply list_elem_of_fmap; by exists ((projection, file_path r), r)).
        naive_solver.
    + intros H. destruct (IH _ H) as (Hm & Hr & Hk). split_and!.
      * intros k v Hv. apply Hm. rewrite dict_get_snoc by done. case_decide; [congruence|done].
      * intros r' [->|Hr']%elem_of_cons; [|auto]. apply Hm. rewrite dict_get_snoc by done. by case_decide.
      * intros k. rewrite Hk, fmap_app, elem_of_app. cbn. rewrite !elem_of_cons, elem_of_nil. tauto.
Qed.

Lemma seal_items_spec items total sealed sealed' : seal_items items total sealed = Ok sealed' -> NoDup sealed.*1 ->
  sealed' = (sealed ++ items)%list /\ NoDup sealed'.*1.
Proof.
  revert total sealed. induction items as [|[key content] items IH]; intros total sealed; cbn [seal_items].
  - intros [= <-]. by rewrite app_nil_r.
  - intros H Hn. apply raise_ok in H as [_ H]. apply raise_ok in H as [Hf H]. do 2 apply raise_ok in H as [_ H].
    destruct (dict_get sealed key) eqn:E; [done|]. destruct (IH _ _ H) as [-> Hn'].
    + rewrite fmap_app. cbn. apply NoDup_app. split; [done|]. split; [|by apply NoDup_singleton].
      intros x Hx ->%list_elem_of_singleton. by apply dict_get_None in E.
    + split; [by rewrite <-app_assoc|done].
Qed.

Lemma sealed_snapshot_inv b artifacts : sealed_artifact_snapshot b = Ok artifacts ->
  artifacts ≡ₚ sb_artifact_bytes b /\ NoDup (sb_artifact_bytes b).*1
  /\ (forall k, k ∈ (sb_artifact_bytes b).*1 <-> k ∈ ref_key <$> bundle_refs (sb_bundle b))
  /\ forall x, x ∈ bundle_refs (sb_bundle b) -> exists content,
       (ref_key x, content) ∈ artifacts /\ sha256_bytes content = file_sha256 x.2 /\ nbytes content = file_size_bytes x.2.
Proof.
  unfold sealed_artifact_snapshot. intros H. apply bind_ok in H as (e1 & H1 & H). apply bind_ok in H as (e2 & H2 & H).
  apply raise_ok in H as [_ H]. apply raise_ok in H as [Hl H]. apply bind_ok in H as (sealed & Hs & H).
  apply raise_ok in H as [Hk%negb_false_iff H]. apply bind_ok in H as ([] & Hc & H). injection H as <-.
  apply seal_items_spec in Hs as [-> Hn]; [|by constructor]. cbn [app] in *.
  rewrite take_ge in * by (apply Nat.ltb_ge in Hl; rewrite length_take in Hl; lia).
  unfold expect_projection in H1, H2. apply raise_ok in H1 as [_ H1], H2 as [_ H2].
  apply expect_refs_spec in H1 as (_ & R1 & K1), H2 as (M2 & R2 & K2). rewrite same_set_spec in Hk.
  assert (Hrefs : forall x, x ∈ bundle_refs (sb_bundle b) -> (ref_key x, x.2) ∈ e2).
  { intros x Hx. apply dict_get_In. unfold bundle_refs in Hx. rewrite elem_of_app, !list_elem_of_fmap in Hx.
    destruct Hx as [(r & -> & Hr)|(r & -> & Hr)]; [by apply M2, R1|by apply R2]. }
  split; [apply sort_by_perm|]. split; [done|]. split.
  - intros k. rewrite Hk, K2, K1. unfold bundle_refs. rewrite fmap_app, elem_of_app, <-!list_fmap_compose. cbn.
    rewrite elem_of_nil. naive_solver.
  - intros x Hx. apply Hrefs, (for_each_elem _ _ _ Hc) in Hx. apply raise_ok in Hx as [Hx%differ_eq _].
    cbn [fst snd] in Hx. destruct (dict_get _ (ref_key x)) as [content|] eqn:E; [|done]. injection Hx as E1 E2.
    exists content. split; [|done]. rewrite sort_by_elem. by apply dict_get_In.
Qed.

(** A frozen task bundle is closed over its content.  When a supplied bundle is
    frozen, its documents are the supplied ones and their digests are recomputed; the
    sealed artifacts are one per file reference of the two projections, nothing is
    missing, extra or duplicated, and each has exactly the digest and the size of every
    reference to it. *)
Theorem frozen_bundle_sealed b :
  match freeze_task_bundle b with
  | Ok f =>
      sb_bundle f = sb_bundle b /\ sha256_json (PublicTask_json (tb_public (sb_bundle f))) = Ok (tb_public_sha256 (sb_bundle f))
      /\ sha256_json (PrivateGrader_json (tb_private (sb_bundle f))) = Ok (tb_private_sha256 (sb_bundle f))
      /\ sb_artifact_bytes f ≡ₚ sb_artifact_bytes b /\ NoDup (sb_artifact_bytes f).*1
      /\ (forall k, k ∈ (sb_artifact_bytes f).*1 <-> k ∈ ref_key <$> bundle_refs (sb_bundle f))
      /\ forall x, x ∈ bundle_refs (sb_bundle f) -> exists content,
           (ref_key x, content) ∈ sb_artifact_bytes f
           /\ sha256_bytes content = file_sha256 x.2 /\ nbytes content = file_size_bytes x.2
  | Err _ => True
  end.
Proof.
  destruct (freeze_task_bundle b) as [f|] eqn:E; [|done]. unfold freeze_task_bundle in E.
  do 2 apply bind_ok in E as ([] & _ & E). do 3 apply raise_ok in E as [_ E].
  apply bind_ok in E as (ps & Hps & E). apply bind_ok in E as (gs & Hgs & E). apply bind_ok in E as (bs & Hbs & E).
  apply raise_ok in E as [Hd E]. apply bind_ok in E as (artifacts & Ha & E). injection E as <-. cbn [sb_bundle sb_artifact_bytes].
  apply sealed_snapshot_inv in Ha as (Hp & Hn & Hk & Hc).
  apply orb_false_iff in Hd as [[H1%differ_eq H2%differ_eq]%orb_false_iff H3%differ_eq].
  assert (Eb : {| tb_public := tb_public (sb_bundle b); tb_private := tb_private (sb_bundle b); tb_public_sha256 := ps;
                  tb_private_sha256 := gs; tb_bundle_sha256 := bs |} = sb_bundle b)
    by (destruct (sb_bundle b); cbn in *; by subst).
  rewrite Eb. split; [reflexivity|]. rewrite <-H1, <-H2. split; [exact Hps|]. split; [exact Hgs|].
  split; [exact Hp|]. split; [by rewrite Hp|]. split; [|exact Hc]. intros k. by rewrite Hp.
Qed.

End QualificationFacts.
