(* ===== verification/NativeEvidence.v ===== *)
(** * Evidence of native qualification ([src/bpe/inert_native_qualification.py])

    The replay contract of an unsigned report: who ran which commit in which container,
    the sealed launcher, and five cases whose raw socket records are replayed through the
    transcript parser of [NativeProtocol].  A field whose type is a [Literal] with one
    value is a constant of the JSON image and not a field of the record.  The digests of
    the outer seccomp contract and of the case set are computed, as in the source. *)
From Stdlib Require Import ZArith String Ascii Lia.
From stdpp Require Import base tactics list strings.
From S2P Require Import Prelude Sha256 Json Models Submission NativeProtocol Job Dispatch Artifact Admission Repository Lexer.
Local Open Scope string_scope.
Local Open Scope Z_scope.

Module NativeEvidence.
Import Sha256 Json Models NativeProtocol Job Repository.
Import Dispatch(nul, within, ZERO_SHA256) Artifact(PreflightReceipt, FIXED_SECCOMP_POLICY_ID, FIXED_SECCOMP_POLICY_SHA256,
  MAX_LAUNCHER_ARTIFACT_BYTES, REQUIRED_EXEC_SEALS, SEALED_EXECUTABLE_MODE).

(** ** Constants *)
Definition domain (label : string) : string := "BPE" ++ nul ++ label ++ nul ++ "v1" ++ nul.
Definition NATIVE_QUALIFICATION_DOMAIN : string := domain "linux-inert-launcher-native-qualification".
Definition NATIVE_QUALIFICATION_CASE_SET_DOMAIN : string := domain "linux-inert-launcher-native-case-set".
Definition NATIVE_QUALIFICATION_SOURCE_MANIFEST_DOMAIN : string := domain "linux-inert-launcher-native-source-manifest".
Definition NATIVE_QUALIFICATION_INVOCATION_DOMAIN : string := domain "linux-inert-launcher-native-invocation".
Definition NATIVE_QUALIFICATION_TRANSCRIPT_DOMAIN : string := domain "linux-inert-launcher-native-transcript".
Definition NATIVE_QUALIFICATION_CONTEXT_DOMAIN : string := domain "linux-inert-launcher-native-context".
Definition NATIVE_QUALIFICATION_RUNTIME_DEPENDENCY_DOMAIN : string := domain "linux-inert-launcher-native-runtime-dependencies".
Definition NATIVE_QUALIFICATION_OUTER_SECCOMP_DOMAIN : string := domain "linux-inert-launcher-native-outer-seccomp".

Definition NATIVE_QUALIFICATION_CASE_SET_ID : string := "bpe.linux-inert-launcher-native-case-set.v1".
Definition NATIVE_QUALIFICATION_PARSER_ID : string := "bpe.inert-native-transcript-parser.v1".
Definition NATIVE_QUALIFICATION_LAUNCHER_PROTOCOL_ID : string := "bpe.clone3-inert-launcher-protocol.v1".
Definition MAX_NATIVE_QUALIFICATION_REPORT_BYTES : Z := 128 * 1024.
Definition MAX_NATIVE_QUALIFICATION_PROVENANCE_BYTES : Z := 64 * 1024.
Definition MAX_NATIVE_QUALIFICATION_TRACKED_TREE_MANIFEST_BYTES : Z := 128 * 1024.
Definition MAX_NATIVE_QUALIFICATION_TRACKED_TREE_TOTAL_BYTES : Z := 1024 * 1024 * 1024.
Definition MAX_NATIVE_QUALIFICATION_SOURCE_FILE_BYTES : Z := 4 * 1024 * 1024.
Definition MAX_NATIVE_QUALIFICATION_SOURCE_TOTAL_BYTES : Z := 16 * 1024 * 1024.
Definition MAX_NATIVE_QUALIFICATION_RUNTIME_DISTRIBUTIONS : Z := 512.
Definition MAX_NATIVE_QUALIFICATION_RUNTIME_FILES : Z := 100000.
Definition MAX_NATIVE_QUALIFICATION_RUNTIME_TOTAL_BYTES : Z := 1024 * 1024 * 1024.
Definition MAX_NATIVE_QUALIFICATION_BUILT_WHEEL_BYTES : Z := 64 * 1024 * 1024.
Definition NATIVE_QUALIFICATION_BPE_DISTRIBUTION_VERSION : string := "0.1.0".
Definition NATIVE_QUALIFICATION_BUILT_WHEEL_PATH : string :=
  "/dist/bpe-" ++ NATIVE_QUALIFICATION_BPE_DISTRIBUTION_VERSION ++ "-py3-none-any.whl".

Definition NATIVE_QUALIFICATION_BPE_SOURCE_PATHS : list string :=
  ["src/bpe/__init__.py"; "src/bpe/admission.py"; "src/bpe/aggregate.py"; "src/bpe/canonical.py"; "src/bpe/capabilities.py";
   "src/bpe/cgroup.py"; "src/bpe/cli.py"; "src/bpe/corpus.py"; "src/bpe/data/corpus-audit-v1.json";
   "src/bpe/data/reward-v1.json"; "src/bpe/dispatch.py"; "src/bpe/grading.py"; "src/bpe/identity.py";
   "src/bpe/inert_artifact.py"; "src/bpe/inert_fixture.py"; "src/bpe/inert_launch.py"; "src/bpe/inert_native_protocol.py";
   "src/bpe/inert_native_qualification.py"; "src/bpe/inert_orchestration.py"; "src/bpe/ingress.py"; "src/bpe/job.py";
   "src/bpe/models.py"; "src/bpe/oracle.py"; "src/bpe/qualification.py"; "src/bpe/replay.py"; "src/bpe/schemas.py";
   "src/bpe/submission.py"; "src/bpe/task.py"; "src/bpe/worker_cli.py"; "src/bpe/worker_protocol.py"].

Definition PROBE_PATH : string := "tests/integration/inert_fixture_launcher_native_probe.py".
Definition LAUNCHER_SOURCE_PATH : string := "worker/linux/inert_fixture_launcher/launcher.c".
Definition WORKFLOW_PATH : string := ".github/workflows/native-qualification.yml".
Definition UPSTREAM_WORKFLOW_PATH : string := ".github/workflows/ci.yml".

Definition NATIVE_QUALIFICATION_SOURCE_PATHS : list string :=
  ([WORKFLOW_PATH; UPSTREAM_WORKFLOW_PATH; "scripts/validate_repository_projection.py"; PROBE_PATH;
    "tests/integration/cgroup_v2_native_probe.py"; "pyproject.toml"; "README.md"; "LICENSE"; LAUNCHER_SOURCE_PATH;
    "worker/linux/inert_fixture_launcher/protocol.h"; "schemas/linux-inert-launcher-native-qualification-report-v1.json";
    "uv.lock"; "worker/linux/inert_fixture_launcher/Makefile"; "worker/linux/inert_fixture_launcher/descriptor_scan_test.c";
    "worker/linux/inert_fixture_launcher/protocol_golden_test.c"; "worker/linux/inert_fixture_launcher/seccomp_filter.h";
    "worker/linux/inert_fixture_launcher/seccomp_policy.h"; "worker/linux/inert_fixture_launcher/seccomp_policy_digest.h";
    "worker/linux/inert_fixture_launcher/seccomp_policy_dump.c"; "worker/linux/inert_fixture_launcher/wire.h";
    "scripts/export_schemas.py"] ++ NATIVE_QUALIFICATION_BPE_SOURCE_PATHS)%list.

Definition NATIVE_QUALIFICATION_FAULT_PROFILE_ID : string := "bpe.native-qualification.pidfd-send-signal-eperm.v1".
Definition NATIVE_QUALIFICATION_OUTER_SECCOMP_INSTRUCTIONS : list (Z * Z * Z * Z) :=
  [(0x20, 0, 0, 4); (0x15, 1, 0, 0xC000003E); (0x06, 0, 0, 0x80000000); (0x20, 0, 0, 0); (0x35, 0, 1, 0x40000000);
   (0x06, 0, 0, 0x80000000); (0x15, 0, 1, 424); (0x06, 0, 0, 0x00050001); (0x06, 0, 0, 0x7FFF0000)].

(** [Struct(">HBBI").pack], and the bytes as a string. *)
Definition pack_instruction (i : Z * Z * Z * Z) : list byte :=
  let '(code_, jump_true, jump_false, value) := i in
  (be_bytes 2 code_ ++ be_bytes 1 jump_true ++ be_bytes 1 jump_false ++ be_bytes 4 value)%list.
Definition byte_char (b : byte) : ascii := ascii_of_N (Byte.to_N b).
Definition raw_string (bs : list byte) : string := String.string_of_list_ascii (byte_char <$> bs).
Definition NATIVE_QUALIFICATION_OUTER_SECCOMP_INSTRUCTION_BYTES : list byte :=
  List.concat (pack_instruction <$> NATIVE_QUALIFICATION_OUTER_SECCOMP_INSTRUCTIONS).
Definition NATIVE_QUALIFICATION_OUTER_SECCOMP_CONTRACT_SHA256 : string :=
  sha256_bytes (NATIVE_QUALIFICATION_OUTER_SECCOMP_DOMAIN ++ NATIVE_QUALIFICATION_FAULT_PROFILE_ID ++ nul
                ++ raw_string NATIVE_QUALIFICATION_OUTER_SECCOMP_INSTRUCTION_BYTES).

(** [sha256_bytes(domain + canonical_json_bytes(value))] *)
Definition domain_digest (prefix : string) (value : json) : result string string :=
  let* bytes := canonical_json_bytes value in
  Ok (sha256_bytes (prefix ++ bytes)).

Definition bounded_text (s : string) : bool := len_between 1 512 s.
Definition pid_ok (z : Z) : bool := within 1 LINUX_MAX_PID z.

(** ** The upstream run and the context *)
Record NativeQualificationUpstreamWorkflowRun := {
  up_workflow_id : Z;
  up_run_id : Z;
  up_run_attempt : Z;
  up_head_sha : string
}.
Definition validate_UpstreamWorkflowRun (u : NativeQualificationUpstreamWorkflowRun) : result string unit :=
  check_field "workflow_id" (1 <=? up_workflow_id u) ;;
  check_field "run_id" (1 <=? up_run_id u) ;;
  check_field "run_attempt" (within 1 1000 (up_run_attempt u)) ;;
  check_field "head_sha" (is_commit (up_head_sha u)) ;;
  Ok tt.
Definition UpstreamWorkflowRun_json (u : NativeQualificationUpstreamWorkflowRun) : json :=
  JObj [("workflow_name", JStr "CI"); ("workflow_id", JInt (up_workflow_id u)); ("workflow_path", JStr UPSTREAM_WORKFLOW_PATH);
        ("run_id", JInt (up_run_id u)); ("run_attempt", JInt (up_run_attempt u)); ("event", JStr "push");
        ("head_branch", JStr "main"); ("head_repository_full_name", JStr "synechism/bpe");
        ("head_sha", JStr (up_head_sha u)); ("conclusion", JStr "success")].

Definition COMPLETENESS_METHOD : string := "recursive-lstat-exact-wheel-projection-v1".

Record NativeQualificationContextBinding := {
  cb_git_commit : string;
  cb_source_manifest_sha256 : string;
  cb_tracked_tree_content_manifest_sha256 : string;
  cb_built_wheel_sha256 : string;
  cb_runtime_dependency_manifest_sha256 : string;
  cb_runtime_root_tree_sha256 : string;
  cb_runtime_root_total_bytes : Z;
  cb_launcher_sha256 : string;
  cb_workflow_sha256 : string;
  cb_github_sha : string;
  cb_github_run_id : Z;
  cb_github_run_attempt : Z;
  cb_upstream_workflow_run : NativeQualificationUpstreamWorkflowRun;
  cb_container_invocation_sha256 : string
}.

(** [controller_and_upstream_commit_are_exact] *)
Definition commits_agree (git_commit github_sha : string) (u : NativeQualificationUpstreamWorkflowRun) : bool :=
  bool_decide (git_commit = github_sha) && bool_decide (github_sha = up_head_sha u).

Definition validate_ContextBinding (b : NativeQualificationContextBinding) : result string unit :=
  check_field "git_commit" (is_commit (cb_git_commit b)) ;;
  check_field "source_manifest_sha256" (is_sha256 (cb_source_manifest_sha256 b)) ;;
  check_field "tracked_tree_content_manifest_sha256" (is_sha256 (cb_tracked_tree_content_manifest_sha256 b)) ;;
  check_field "built_wheel_sha256" (is_sha256 (cb_built_wheel_sha256 b)) ;;
  check_field "runtime_dependency_manifest_sha256" (is_sha256 (cb_runtime_dependency_manifest_sha256 b)) ;;
  check_field "runtime_root_tree_sha256" (is_sha256 (cb_runtime_root_tree_sha256 b)) ;;
  check_field "runtime_root_total_bytes"
    (within 1 MAX_NATIVE_QUALIFICATION_RUNTIME_TOTAL_BYTES (cb_runtime_root_total_bytes b)) ;;
  check_field "launcher_sha256" (is_sha256 (cb_launcher_sha256 b)) ;;
  check_field "workflow_sha256" (is_sha256 (cb_workflow_sha256 b)) ;;
  check_field "github_sha" (is_commit (cb_github_sha b)) ;;
  check_field "github_run_id" (1 <=? cb_github_run_id b) ;;
  check_field "github_run_attempt" (within 1 1000 (cb_github_run_attempt b)) ;;
  let* _ := validate_UpstreamWorkflowRun (cb_upstream_workflow_run b) in
  check_field "container_invocation_sha256" (is_sha256 (cb_container_invocation_sha256 b)) ;;
  raise "native qualification controller and upstream commits differ"
    when negb (commits_agree (cb_git_commit b) (cb_github_sha b) (cb_upstream_workflow_run b)) ;;
  Ok tt.
Definition ContextBinding_json (b : NativeQualificationContextBinding) : json :=
  JObj [("git_commit", JStr (cb_git_commit b)); ("source_manifest_sha256", JStr (cb_source_manifest_sha256 b));
        ("tracked_tree_content_manifest_sha256", JStr (cb_tracked_tree_content_manifest_sha256 b));
        ("tracked_tree_matches_git_commit", JBool true); ("built_wheel_sha256", JStr (cb_built_wheel_sha256 b));
        ("runtime_dependency_manifest_sha256", JStr (cb_runtime_dependency_manifest_sha256 b));
        ("runtime_root_tree_sha256", JStr (cb_runtime_root_tree_sha256 b));
        ("runtime_root_total_bytes", JInt (cb_runtime_root_total_bytes b));
        ("runtime_root_tree_completeness_method", JStr COMPLETENESS_METHOD);
        ("launcher_sha256", JStr (cb_launcher_sha256 b)); ("workflow_sha256", JStr (cb_workflow_sha256 b));
        ("github_repository", JStr "synechism/bpe"); ("github_sha", JStr (cb_github_sha b));
        ("github_run_id", JInt (cb_github_run_id b)); ("github_run_attempt", JInt (cb_github_run_attempt b));
        ("github_job", JStr "native-qualification"); ("github_event", JStr "workflow_run");
        ("github_ref", JStr "refs/heads/main"); ("github_actor_category", JStr "unverified");
        ("upstream_workflow_run", UpstreamWorkflowRun_json (cb_upstream_workflow_run b));
        ("container_invocation_sha256", JStr (cb_container_invocation_sha256 b))].

(** [native_qualification_context_sha256] *)
Definition native_qualification_context_sha256 (b : NativeQualificationContextBinding) : result string string :=
  match validate_ContextBinding b with
  | Err _ => Err "native qualification context binding is invalid"
  | Ok _ => domain_digest NATIVE_QUALIFICATION_CONTEXT_DOMAIN (ContextBinding_json b)
  end.

(** ** Sources *)
Record NativeQualificationSourceFile := { sf_path : string; sf_sha256 : string; sf_size_bytes : Z }.
Definition validate_SourceFile (f : NativeQualificationSourceFile) : result string unit :=
  check_field "path" (len_between 1 256 (sf_path f)) ;;
  check_field "sha256" (is_sha256 (sf_sha256 f)) ;;
  check_field "size_bytes" (within 1 MAX_NATIVE_QUALIFICATION_SOURCE_FILE_BYTES (sf_size_bytes f)) ;;
  Ok tt.
Definition SourceFile_json (f : NativeQualificationSourceFile) : json :=
  JObj [("path", JStr (sf_path f)); ("sha256", JStr (sf_sha256 f)); ("size_bytes", JInt (sf_size_bytes f))].

Record NativeQualificationSourceManifest := { nm_manifest_sha256 : string; nm_files : list NativeQualificationSourceFile }.
(** The dump of a manifest without its digest. *)
Definition SourceManifest_fields (files : list NativeQualificationSourceFile) : list (string * json) :=
  [("schema_version", JStr "bpe.linux-inert-launcher-native-source-manifest.v1"); ("files", JArr (SourceFile_json <$> files))].

(** [paths_and_digest_are_exact] *)
Definition paths_and_digest_are_exact (m : NativeQualificationSourceManifest) : result string unit :=
  raise "native qualification source manifest has the wrong file set"
    when differ (sf_path <$> nm_files m) NATIVE_QUALIFICATION_SOURCE_PATHS ;;
  let* expected := domain_digest NATIVE_QUALIFICATION_SOURCE_MANIFEST_DOMAIN (JObj (SourceManifest_fields (nm_files m))) in
  raise "native qualification source manifest digest is inconsistent" when differ (nm_manifest_sha256 m) expected ;;
  Ok tt.
Definition validate_SourceManifest (m : NativeQualificationSourceManifest) : result string unit :=
  check_field "manifest_sha256" (is_sha256 (nm_manifest_sha256 m)) ;;
  check_field "files" (length (nm_files m) =? length NATIVE_QUALIFICATION_SOURCE_PATHS)%nat ;;
  let* _ := for_each validate_SourceFile (nm_files m) in
  paths_and_digest_are_exact m.
Definition SourceManifest_json (m : NativeQualificationSourceManifest) : json :=
  JObj (("manifest_sha256", JStr (nm_manifest_sha256 m)) :: SourceManifest_fields (nm_files m)).

(** [build_inert_native_qualification_source_manifest] *)
Definition build_inert_native_qualification_source_manifest (file_evidence : list (string * Z)) :
    result string NativeQualificationSourceManifest :=
  let built :=
    raise "native qualification source evidence has the wrong shape"
      when negb (length file_evidence =? length NATIVE_QUALIFICATION_SOURCE_PATHS)%nat ;;
    let files := zip_with (fun path e => {| sf_path := path; sf_sha256 := e.1; sf_size_bytes := e.2 |})
                   NATIVE_QUALIFICATION_SOURCE_PATHS file_evidence in
    let* digest := domain_digest NATIVE_QUALIFICATION_SOURCE_MANIFEST_DOMAIN (JObj (SourceManifest_fields files)) in
    construct validate_SourceManifest {| nm_manifest_sha256 := digest; nm_files := files |} in
  match built with
  | Ok m => Ok m
  | Err _ => Err "native qualification source manifest could not be built"
  end.

Definition files_by_path (m : NativeQualificationSourceManifest) : list (string * NativeQualificationSourceFile) :=
  dict_of ((fun f => (sf_path f, f)) <$> nm_files m).
Definition lookup_file (m : NativeQualificationSourceManifest) (path : string) : result string NativeQualificationSourceFile :=
  match dict_get (files_by_path m) path with Some f => Ok f | None => Err "KeyError" end.

(** [native_qualification_commit_bpe_tree_manifest_sha256] *)
Definition native_qualification_commit_bpe_tree_manifest_sha256 (m : NativeQualificationSourceManifest) : result string string :=
  let* _ := validate_SourceManifest m in
  let* files := map_result (fun path =>
      let* f := lookup_file m path in
      Ok (JObj [("path", JStr (remove_prefix "src/" path)); ("sha256", JStr (sf_sha256 f));
                ("size_bytes", JInt (sf_size_bytes f))])) NATIVE_QUALIFICATION_BPE_SOURCE_PATHS in
  sha256_json (JObj [("schema_version", JStr "bpe.python-installed-tree-content-manifest.v1"); ("files", JArr files)]).

Record NativeQualificationSourceRun := {
  sr_git_commit : string;
  sr_github_context_file_sha256 : string;
  sr_github_context_file_size_bytes : Z;
  sr_source_manifest : NativeQualificationSourceManifest;
  sr_source_manifest_total_bytes : Z;
  sr_tracked_tree_content_manifest_sha256 : string;
  sr_tracked_tree_manifest_file_size_bytes : Z;
  sr_tracked_tree_total_bytes : Z;
  sr_commit_bpe_tree_manifest_sha256 : string;
  sr_built_wheel_bpe_tree_manifest_sha256 : string;
  sr_built_wheel_size_bytes : Z;
  sr_probe_source_size_bytes : Z;
  sr_workflow_sha256 : string;
  sr_github_sha : string;
  sr_github_run_id : Z;
  sr_github_run_attempt : Z;
  sr_upstream_workflow_run : NativeQualificationUpstreamWorkflowRun;
  sr_built_wheel_sha256 : string
}.

Definition file_at (m : NativeQualificationSourceManifest) (i : nat) : result string NativeQualificationSourceFile :=
  match nm_files m !! i with Some f => Ok f | None => Err "IndexError" end.

(** [workflow_binding_is_exact] *)
Definition workflow_binding_is_exact (s : NativeQualificationSourceRun) : result string unit :=
  let m := sr_source_manifest s in
  let* probe := lookup_file m PROBE_PATH in
  raise "native qualification source byte totals are inconsistent"
    when (sr_tracked_tree_total_bytes s <? sr_source_manifest_total_bytes s)
         || negb (sr_source_manifest_total_bytes s =? zsum (sf_size_bytes <$> nm_files m))
         || negb (sr_probe_source_size_bytes s =? sf_size_bytes probe) ;;
  let* commit_tree := native_qualification_commit_bpe_tree_manifest_sha256 m in
  raise "native qualification committed BPE tree is inconsistent"
    when differ (sr_commit_bpe_tree_manifest_sha256 s) commit_tree ;;
  let* workflow := file_at m 0 in
  raise "native qualification workflow binding is inconsistent"
    when differ (sf_path workflow) WORKFLOW_PATH || differ (sf_sha256 workflow) (sr_workflow_sha256 s) ;;
  let* upstream := file_at m 1 in
  raise "native qualification upstream workflow binding is inconsistent"
    when differ (sf_path upstream) UPSTREAM_WORKFLOW_PATH ;;
  raise "native qualification controller and upstream commits differ"
    when negb (commits_agree (sr_git_commit s) (sr_github_sha s) (sr_upstream_workflow_run s)) ;;
  Ok tt.

Definition validate_SourceRun (s : NativeQualificationSourceRun) : result string unit :=
  check_field "git_commit" (is_commit (sr_git_commit s)) ;;
  check_field "github_context_file_sha256" (is_sha256 (sr_github_context_file_sha256 s)) ;;
  check_field "github_context_file_size_bytes"
    (within 1 MAX_NATIVE_QUALIFICATION_PROVENANCE_BYTES (sr_github_context_file_size_bytes s)) ;;
  let* _ := validate_SourceManifest (sr_source_manifest s) in
  check_field "source_manifest_total_bytes"
    (within 1 MAX_NATIVE_QUALIFICATION_SOURCE_TOTAL_BYTES (sr_source_manifest_total_bytes s)) ;;
  check_field "tracked_tree_content_manifest_sha256" (is_sha256 (sr_tracked_tree_content_manifest_sha256 s)) ;;
  check_field "tracked_tree_manifest_file_size_bytes"
    (within 1 MAX_NATIVE_QUALIFICATION_TRACKED_TREE_MANIFEST_BYTES (sr_tracked_tree_manifest_file_size_bytes s)) ;;
  check_field "tracked_tree_total_bytes"
    (within 1 MAX_NATIVE_QUALIFICATION_TRACKED_TREE_TOTAL_BYTES (sr_tracked_tree_total_bytes s)) ;;
  check_field "commit_bpe_tree_manifest_sha256" (is_sha256 (sr_commit_bpe_tree_manifest_sha256 s)) ;;
  check_field "built_wheel_bpe_tree_manifest_sha256" (is_sha256 (sr_built_wheel_bpe_tree_manifest_sha256 s)) ;;
  check_field "built_wheel_size_bytes"
    (within 1 MAX_NATIVE_QUALIFICATION_BUILT_WHEEL_BYTES (sr_built_wheel_size_bytes s)) ;;
  check_field "probe_source_size_bytes"
    (within 1 MAX_NATIVE_QUALIFICATION_SOURCE_FILE_BYTES (sr_probe_source_size_bytes s)) ;;
  check_field "workflow_sha256" (is_sha256 (sr_workflow_sha256 s)) ;;
  check_field "github_sha" (is_commit (sr_github_sha s)) ;;
  check_field "github_run_id" (1 <=? sr_github_run_id s) ;;
  check_field "github_run_attempt" (within 1 1000 (sr_github_run_attempt s)) ;;
  let* _ := validate_UpstreamWorkflowRun (sr_upstream_workflow_run s) in
  check_field "built_wheel_sha256" (is_sha256 (sr_built_wheel_sha256 s)) ;;
  workflow_binding_is_exact s.

Definition SourceRun_json (s : NativeQualificationSourceRun) : json :=
  JObj [("repository", JStr "github.com/synechism/bpe"); ("git_commit", JStr (sr_git_commit s));
        ("github_context_file_sha256", JStr (sr_github_context_file_sha256 s));
        ("github_context_file_size_bytes", JInt (sr_github_context_file_size_bytes s));
        ("source_manifest", SourceManifest_json (sr_source_manifest s));
        ("source_manifest_total_bytes", JInt (sr_source_manifest_total_bytes s));
        ("tracked_tree_manifest_method", JStr "git-commit-blob-canonical-content-manifest-v1");
        ("tracked_tree_content_manifest_sha256", JStr (sr_tracked_tree_content_manifest_sha256 s));
        ("tracked_tree_manifest_file_size_bytes", JInt (sr_tracked_tree_manifest_file_size_bytes s));
        ("tracked_tree_total_bytes", JInt (sr_tracked_tree_total_bytes s)); ("tracked_tree_matches_git_commit", JBool true);
        ("commit_bpe_tree_manifest_method", JStr "git-src-bpe-to-installed-bpe-tree-content-manifest-v1");
        ("commit_bpe_tree_manifest_sha256", JStr (sr_commit_bpe_tree_manifest_sha256 s));
        ("built_wheel_bpe_tree_manifest_method", JStr "closed-wheel-bpe-tree-content-manifest-v1");
        ("built_wheel_bpe_tree_manifest_sha256", JStr (sr_built_wheel_bpe_tree_manifest_sha256 s));
        ("built_wheel_size_bytes", JInt (sr_built_wheel_size_bytes s));
        ("probe_source_size_bytes", JInt (sr_probe_source_size_bytes s)); ("workflow_path", JStr WORKFLOW_PATH);
        ("workflow_sha256", JStr (sr_workflow_sha256 s)); ("github_repository", JStr "synechism/bpe");
        ("github_sha", JStr (sr_github_sha s)); ("github_run_id", JInt (sr_github_run_id s));
        ("github_run_attempt", JInt (sr_github_run_attempt s)); ("github_job", JStr "native-qualification");
        ("github_event", JStr "workflow_run"); ("github_ref", JStr "refs/heads/main");
        ("github_actor_category", JStr "unverified");
        ("upstream_workflow_run", UpstreamWorkflowRun_json (sr_upstream_workflow_run s));
        ("context_source", JStr "github-actions-workflow-run-environment-v1"); ("ci_context_authenticated", JBool false);
        ("built_wheel_sha256", JStr (sr_built_wheel_sha256 s))].

(** ** The host *)
Record NativeQualificationNamespaceIdentity := { ns_device : Z; ns_inode : Z }.
Definition namespace_ok (n : NativeQualificationNamespaceIdentity) : bool := (0 <=? ns_device n) && (1 <=? ns_inode n).
Definition NamespaceIdentity_json (n : NativeQualificationNamespaceIdentity) : json :=
  JObj [("device", JInt (ns_device n)); ("inode", JInt (ns_inode n))].

Record NativeQualificationHost := {
  nh_kernel_release : string;
  nh_kernel_version : string;
  nh_proc_version_sha256 : string;
  nh_boot_id_sha256 : string;
  nh_pid_namespace : NativeQualificationNamespaceIdentity;
  nh_mount_namespace : NativeQualificationNamespaceIdentity;
  nh_user_namespace : NativeQualificationNamespaceIdentity;
  nh_cgroup_namespace : NativeQualificationNamespaceIdentity
}.
Definition validate_Host (h : NativeQualificationHost) : result string unit :=
  check_field "kernel_release" (len_between 1 256 (nh_kernel_release h)) ;;
  check_field "kernel_version" (len_between 1 1024 (nh_kernel_version h)) ;;
  check_field "proc_version_sha256" (is_sha256 (nh_proc_version_sha256 h)) ;;
  check_field "boot_id_sha256" (is_sha256 (nh_boot_id_sha256 h)) ;;
  check_field "pid_namespace" (namespace_ok (nh_pid_namespace h)) ;;
  check_field "mount_namespace" (namespace_ok (nh_mount_namespace h)) ;;
  check_field "user_namespace" (namespace_ok (nh_user_namespace h)) ;;
  check_field "cgroup_namespace" (namespace_ok (nh_cgroup_namespace h)) ;;
  Ok tt.
Definition Host_json (h : NativeQualificationHost) : json :=
  JObj [("runner_architecture", JStr "x86_64"); ("docker_server_architecture", JStr "x86_64");
        ("container_architecture", JStr "x86_64"); ("emulation_detected", JBool false);
        ("kernel_release", JStr (nh_kernel_release h)); ("kernel_version", JStr (nh_kernel_version h));
        ("proc_version_sha256", JStr (nh_proc_version_sha256 h)); ("boot_id_sha256", JStr (nh_boot_id_sha256 h));
        ("base_page_size_bytes", JInt 4096); ("cgroup_v2_filesystem_magic", JInt 0x63677270);
        ("pid_namespace", NamespaceIdentity_json (nh_pid_namespace h));
        ("mount_namespace", NamespaceIdentity_json (nh_mount_namespace h));
        ("user_namespace", NamespaceIdentity_json (nh_user_namespace h));
        ("cgroup_namespace", NamespaceIdentity_json (nh_cgroup_namespace h))].

(** ** Mounts and the invocation *)
Inductive MountPurpose :=
| provenance_context | tracked_tree_manifest | built_wheel | probe | launcher | dependency_tree | source_tree
| qualification_output.
#[export] Instance MountPurpose_eq_dec : EqDecision MountPurpose.
Proof. solve_decision. Defined.
Definition MountPurpose_value (p : MountPurpose) : string :=
  match p with
  | provenance_context => "provenance-context" | tracked_tree_manifest => "tracked-tree-manifest"
  | built_wheel => "built-wheel" | probe => "probe" | launcher => "launcher" | dependency_tree => "dependency-tree"
  | source_tree => "source-tree" | qualification_output => "qualification-output"
  end.
Definition MOUNT_PURPOSES : list MountPurpose :=
  [provenance_context; tracked_tree_manifest; built_wheel; probe; launcher; dependency_tree; source_tree; qualification_output].

(** The contract of a mount: its path, whether it is a directory, whether it is read-only, its mode. *)
Definition MOUNT_CONTRACTS (p : MountPurpose) : string * string * bool * Z :=
  match p with
  | provenance_context => ("/qualification-provenance/context.json", "file", true, 0x124)
  | tracked_tree_manifest => ("/qualification-provenance/tracked-tree-content-manifest.json", "file", true, 0x124)
  | built_wheel => (NATIVE_QUALIFICATION_BUILT_WHEEL_PATH, "file", true, 0x124)
  | probe => ("/probe.py", "file", true, 0x124)
  | launcher => ("/launcher", "file", true, 0x16D)
  | dependency_tree => ("/dependencies", "directory", true, 0x16D)
  | source_tree => ("/qualification-source", "directory", true, 0x16D)
  | qualification_output => ("/qualification-output", "directory", false, 0x1C0)
  end.

Record NativeQualificationMountBinding := {
  mb_purpose : MountPurpose;
  mb_target_path : string;
  mb_target_kind : string;
  mb_source_sha256 : option string;
  mb_source_size_bytes : option Z;
  mb_readonly : bool;
  mb_target_mode : Z
}.

(** [fixed_mount_contract_is_exact] *)
Definition fixed_mount_contract_is_exact (m : NativeQualificationMountBinding) : result string unit :=
  raise "native qualification mount contract is inconsistent"
    when differ (mb_target_path m, mb_target_kind m, mb_readonly m, mb_target_mode m) (MOUNT_CONTRACTS (mb_purpose m)) ;;
  if bool_decide (mb_purpose m = qualification_output) then
    raise "native qualification output mount has source evidence"
      when differ (mb_source_sha256 m) None || differ (mb_source_size_bytes m) None ;; Ok tt
  else
    raise "native qualification input mount lacks source evidence"
      when bool_decide (mb_source_sha256 m = None) || bool_decide (mb_source_size_bytes m = None) ;; Ok tt.
Definition validate_MountBinding (m : NativeQualificationMountBinding) : result string unit :=
  check_field "target_path" (len_between 1 256 (mb_target_path m)) ;;
  check_field "target_kind" (bool_decide (mb_target_kind m ∈ ["file"; "directory"])) ;;
  check_field "source_sha256" (opt_ok is_sha256 (mb_source_sha256 m)) ;;
  check_field "source_size_bytes" (opt_ok (within 0 MAX_NATIVE_QUALIFICATION_RUNTIME_TOTAL_BYTES) (mb_source_size_bytes m)) ;;
  check_field "target_mode" (within 0 0xFFF (mb_target_mode m)) ;;
  fixed_mount_contract_is_exact m.
Definition MountBinding_json (m : NativeQualificationMountBinding) : json :=
  JObj [("purpose", JStr (MountPurpose_value (mb_purpose m))); ("target_path", JStr (mb_target_path m));
        ("target_kind", JStr (mb_target_kind m)); ("source_sha256", jopt JStr (mb_source_sha256 m));
        ("source_size_bytes", jopt JInt (mb_source_size_bytes m)); ("readonly", JBool (mb_readonly m));
        ("target_mode", JInt (mb_target_mode m))].

Record NativeQualificationContainerInvocation := {
  iv_invocation_sha256 : string;
  iv_image_reference : string;
  iv_image_manifest_sha256 : string;
  iv_image_platform_sha256 : string;
  iv_image_config_sha256 : string;
  iv_mount_bindings : list NativeQualificationMountBinding
}.

(** [^[^@\s]+@sha256:[0-9a-f]{64}$], with the white space of the pattern engine: the
    information separators are not white there. *)
Definition pattern_white (w : string) : bool :=
  Submission.Submission.is_white w
  && negb (bool_decide (w ∈ [String "028" ""; String "029" ""; String "030" ""; String "031" ""])).
Definition is_image_reference (s : string) : bool :=
  match split_first "@" s with
  | (name, Some rest) =>
      negb (bool_decide (name = "")) && negb (existsb pattern_white (Lexer.Lexer.chars name))
      && String.prefix "sha256:" rest && is_hex 64 (remove_prefix "sha256:" rest)
  | (_, None) => false
  end.

(** The dump of an invocation without its digest. *)
Definition Invocation_fields (i : NativeQualificationContainerInvocation) : list (string * json) :=
  [("schema_version", JStr "bpe.linux-inert-launcher-native-invocation.v1"); ("image_reference", JStr (iv_image_reference i));
   ("image_manifest_sha256", JStr (iv_image_manifest_sha256 i)); ("image_platform_sha256", JStr (iv_image_platform_sha256 i));
   ("image_config_sha256", JStr (iv_image_config_sha256 i)); ("platform", JStr "linux/amd64");
   ("command_contract", JStr "python-no-site-pid1-sealed-fd-exec-v1"); ("privileged_configured", JBool true);
   ("pid_namespace_mode", JStr "container-default-private"); ("mount_namespace_mode", JStr "container-default-private");
   ("user_namespace_mode", JStr "daemon-default-recorded-only"); ("cgroup_namespace_mode", JStr "private");
   ("network_mode", JStr "none"); ("mount_bindings", JArr (MountBinding_json <$> iv_mount_bindings i));
   ("distribution_mount_readonly", JBool true); ("launcher_mount_readonly", JBool true); ("probe_mount_readonly", JBool true);
   ("dependencies_mount_readonly", JBool true); ("qualification_output_mount", JStr "dedicated-readwrite-output-v1");
   ("qualification_output_mount_readwrite", JBool true)].
Definition Invocation_json (i : NativeQualificationContainerInvocation) : json :=
  JObj (("invocation_sha256", JStr (iv_invocation_sha256 i)) :: Invocation_fields i).

(** [image_and_invocation_digest_are_exact] *)
Definition image_and_invocation_digest_are_exact (i : NativeQualificationContainerInvocation) : result string unit :=
  raise "native qualification image reference digest is inconsistent"
    when negb (ends_with_str (iv_image_manifest_sha256 i) (iv_image_reference i)) ;;
  let* expected := domain_digest NATIVE_QUALIFICATION_INVOCATION_DOMAIN (JObj (Invocation_fields i)) in
  raise "native qualification invocation digest is inconsistent" when differ (iv_invocation_sha256 i) expected ;;
  raise "native qualification invocation has the wrong mount set"
    when differ (mb_purpose <$> iv_mount_bindings i) MOUNT_PURPOSES ;;
  Ok tt.
Definition validate_Invocation (i : NativeQualificationContainerInvocation) : result string unit :=
  check_field "invocation_sha256" (is_sha256 (iv_invocation_sha256 i)) ;;
  check_field "image_reference" (is_image_reference (iv_image_reference i) && (str_len (iv_image_reference i) <=? 512)) ;;
  check_field "image_manifest_sha256" (is_sha256 (iv_image_manifest_sha256 i)) ;;
  check_field "image_platform_sha256" (is_sha256 (iv_image_platform_sha256 i)) ;;
  check_field "image_config_sha256" (is_sha256 (iv_image_config_sha256 i)) ;;
  check_field "mount_bindings" (length (iv_mount_bindings i) =? length MOUNT_PURPOSES)%nat ;;
  let* _ := for_each validate_MountBinding (iv_mount_bindings i) in
  image_and_invocation_digest_are_exact i.

(** ** Runtime distributions *)
Record NativeQualificationRuntimeDistribution := {
  rd_root : string;
  rd_normalized_name : string;
  rd_version : string;
  rd_aggregate_scope : string;
  rd_file_count : Z;
  rd_total_bytes : Z;
  rd_aggregate_tree_sha256 : string
}.
#[export] Instance RuntimeDistribution_eq_dec : EqDecision NativeQualificationRuntimeDistribution.
Proof. solve_decision. Defined.

(** [^[a-z0-9]+(?:-[a-z0-9]+)*$]: alphanumeric words with single dashes between them. *)
Fixpoint dashed_words (inside : bool) (s : string) : bool :=
  match s with
  | EmptyString => inside
  | String c s => if Ascii.eqb c "-" then inside && dashed_words false s else is_lower_alnum c && dashed_words true s
  end.
Definition validate_RuntimeDistribution (d : NativeQualificationRuntimeDistribution) : result string unit :=
  check_field "root" (bool_decide (rd_root d ∈ ["runtime"; "dependencies"])) ;;
  check_field "normalized_name" (dashed_words false (rd_normalized_name d) && len_between 1 128 (rd_normalized_name d)) ;;
  check_field "version" (len_between 1 128 (rd_version d)) ;;
  check_field "aggregate_scope" (bool_decide (rd_aggregate_scope d ∈ ["package-tree"; "distribution-files"])) ;;
  check_field "file_count" (within 1 MAX_NATIVE_QUALIFICATION_RUNTIME_FILES (rd_file_count d)) ;;
  check_field "total_bytes" (within 1 MAX_NATIVE_QUALIFICATION_RUNTIME_TOTAL_BYTES (rd_total_bytes d)) ;;
  check_field "aggregate_tree_sha256" (is_sha256 (rd_aggregate_tree_sha256 d)) ;;
  Ok tt.
Definition RuntimeDistribution_json (d : NativeQualificationRuntimeDistribution) : json :=
  JObj [("root", JStr (rd_root d)); ("normalized_name", JStr (rd_normalized_name d)); ("version", JStr (rd_version d));
        ("aggregate_scope", JStr (rd_aggregate_scope d)); ("file_count", JInt (rd_file_count d));
        ("total_bytes", JInt (rd_total_bytes d)); ("aggregate_tree_sha256", JStr (rd_aggregate_tree_sha256 d))].

Definition distribution_identity (d : NativeQualificationRuntimeDistribution) : list string :=
  [rd_root d; rd_normalized_name d; rd_version d].
(** Sorted and without duplicates. *)
Definition canonical_order (l : list NativeQualificationRuntimeDistribution) : bool :=
  let identities := distribution_identity <$> l in
  bool_decide (identities = sort_by Admission.key_ltb identities) && unique identities.

(** [native_qualification_runtime_dependency_manifest_sha256] *)
Definition native_qualification_runtime_dependency_manifest_sha256 (l : list NativeQualificationRuntimeDistribution) :
    result string string :=
  raise "native qualification runtime distributions have the wrong shape"
    when negb (count_between 1 MAX_NATIVE_QUALIFICATION_RUNTIME_DISTRIBUTIONS l) ;;
  match for_each validate_RuntimeDistribution l with
  | Err _ => Err "native qualification runtime distributions are invalid"
  | Ok _ =>
      raise "native qualification runtime distributions are not canonical" when negb (canonical_order l) ;;
      domain_digest NATIVE_QUALIFICATION_RUNTIME_DEPENDENCY_DOMAIN
        (JObj [("schema_version", JStr "bpe.linux-inert-launcher-native-runtime-dependencies.v1");
               ("distributions", JArr (RuntimeDistribution_json <$> l))])
  end.

(** ** The container *)
Record NativeQualificationContainer := {
  ct_invocation : NativeQualificationContainerInvocation;
  ct_docker_server_version : string;
  ct_runtime_name : string;
  ct_runtime_version : string;
  ct_runtime_id : string;
  ct_runtime_dependency_manifest_sha256 : string;
  ct_runtime_distributions : list NativeQualificationRuntimeDistribution;
  ct_dependency_root_tree_sha256 : string;
  ct_dependency_root_total_bytes : Z;
  ct_runtime_distribution_wheel_sha256 : string;
  ct_runtime_bpe_tree_manifest_sha256 : string;
  ct_runtime_root_tree_sha256 : string;
  ct_runtime_root_total_bytes : Z;
  ct_runtime_probe_source_sha256 : string;
  ct_runtime_lockfile_sha256 : string;
  ct_observed_invocation_sha256 : string;
  ct_outer_seccomp_instruction_contract_sha256 : string
}.

Definition is_bpe (d : NativeQualificationRuntimeDistribution) : Prop := rd_root d = "runtime" /\ rd_normalized_name d = "bpe".
#[export] Instance is_bpe_dec d : Decision (is_bpe d).
Proof. unfold is_bpe. apply _. Defined.
Definition bpe_distributions (c : NativeQualificationContainer) : list NativeQualificationRuntimeDistribution :=
  filter is_bpe (ct_runtime_distributions c).
Definition rooted (root : string) (c : NativeQualificationContainer) : list NativeQualificationRuntimeDistribution :=
  filter (fun d => rd_root d = root) (ct_runtime_distributions c).

(** [fault_profile_is_exact] *)
Definition fault_profile_is_exact (c : NativeQualificationContainer) : result string unit :=
  let l := ct_runtime_distributions c in
  raise "native qualification runtime distribution summary exceeds its work bound"
    when (MAX_NATIVE_QUALIFICATION_RUNTIME_FILES <? zsum (rd_file_count <$> l))
         || (MAX_NATIVE_QUALIFICATION_RUNTIME_TOTAL_BYTES <? zsum (rd_total_bytes <$> l)) ;;
  raise "native qualification container binding is inconsistent"
    when differ (ct_outer_seccomp_instruction_contract_sha256 c) NATIVE_QUALIFICATION_OUTER_SECCOMP_CONTRACT_SHA256
         || differ (ct_observed_invocation_sha256 c) (iv_invocation_sha256 (ct_invocation c))
         || negb (canonical_order l) ;;
  let* dependencies := native_qualification_runtime_dependency_manifest_sha256 l in
  raise "native qualification container binding is inconsistent"
    when differ dependencies (ct_runtime_dependency_manifest_sha256 c) ;;
  raise "native qualification runtime BPE tree is inconsistent"
    when match bpe_distributions c with
         | [d] => differ (rd_version d) NATIVE_QUALIFICATION_BPE_DISTRIBUTION_VERSION
                  || differ (rd_aggregate_scope d) "package-tree"
                  || differ (rd_aggregate_tree_sha256 d) (ct_runtime_bpe_tree_manifest_sha256 c)
         | _ => true
         end ;;
  raise "native qualification whole runtime tree is inconsistent"
    when bool_decide (ct_runtime_root_tree_sha256 c = ct_runtime_bpe_tree_manifest_sha256 c)
         || (ct_runtime_root_total_bytes c <=? zsum (rd_total_bytes <$> rooted "runtime" c)) ;;
  raise "native qualification dependency-root total is inconsistent"
    when bool_decide (length (rooted "dependencies" c) = 0%nat)
         || negb (zsum (rd_total_bytes <$> rooted "dependencies" c) =? ct_dependency_root_total_bytes c) ;;
  raise "native qualification dependency scope is inconsistent"
    when existsb (fun d => differ (rd_aggregate_scope d) "distribution-files")
           (filter (fun d => d ∉ bpe_distributions c) l) ;;
  Ok tt.

Definition validate_Container (c : NativeQualificationContainer) : result string unit :=
  let* _ := validate_Invocation (ct_invocation c) in
  check_field "docker_server_version" (bounded_text (ct_docker_server_version c)) ;;
  check_field "runtime_name" (bounded_text (ct_runtime_name c)) ;;
  check_field "runtime_version" (bounded_text (ct_runtime_version c)) ;;
  check_field "runtime_id" (bounded_text (ct_runtime_id c)) ;;
  check_field "runtime_dependency_manifest_sha256" (is_sha256 (ct_runtime_dependency_manifest_sha256 c)) ;;
  check_field "runtime_distributions"
    (count_between 1 MAX_NATIVE_QUALIFICATION_RUNTIME_DISTRIBUTIONS (ct_runtime_distributions c)) ;;
  let* _ := for_each validate_RuntimeDistribution (ct_runtime_distributions c) in
  check_field "dependency_root_tree_sha256" (is_sha256 (ct_dependency_root_tree_sha256 c)) ;;
  check_field "dependency_root_total_bytes"
    (within 1 MAX_NATIVE_QUALIFICATION_RUNTIME_TOTAL_BYTES (ct_dependency_root_total_bytes c)) ;;
  check_field "runtime_distribution_wheel_sha256" (is_sha256 (ct_runtime_distribution_wheel_sha256 c)) ;;
  check_field "runtime_bpe_tree_manifest_sha256" (is_sha256 (ct_runtime_bpe_tree_manifest_sha256 c)) ;;
  check_field "runtime_root_tree_sha256" (is_sha256 (ct_runtime_root_tree_sha256 c)) ;;
  check_field "runtime_root_total_bytes"
    (within 1 MAX_NATIVE_QUALIFICATION_RUNTIME_TOTAL_BYTES (ct_runtime_root_total_bytes c)) ;;
  check_field "runtime_probe_source_sha256" (is_sha256 (ct_runtime_probe_source_sha256 c)) ;;
  check_field "runtime_lockfile_sha256" (is_sha256 (ct_runtime_lockfile_sha256 c)) ;;
  check_field "observed_invocation_sha256" (is_sha256 (ct_observed_invocation_sha256 c)) ;;
  check_field "outer_seccomp_instruction_contract_sha256" (is_sha256 (ct_outer_seccomp_instruction_contract_sha256 c)) ;;
  fault_profile_is_exact c.

Definition Container_json (c : NativeQualificationContainer) : json :=
  JObj [("invocation", Invocation_json (ct_invocation c)); ("docker_server_version", JStr (ct_docker_server_version c));
        ("runtime_name", JStr (ct_runtime_name c)); ("runtime_version", JStr (ct_runtime_version c));
        ("runtime_id", JStr (ct_runtime_id c));
        ("runtime_dependency_manifest_method", JStr "python-distribution-summary-tree-digest-v1");
        ("runtime_dependency_manifest_sha256", JStr (ct_runtime_dependency_manifest_sha256 c));
        ("runtime_distributions", JArr (RuntimeDistribution_json <$> ct_runtime_distributions c));
        ("dependency_root_tree_manifest_method", JStr "canonical-relative-path-content-manifest-v1");
        ("dependency_root_tree_sha256", JStr (ct_dependency_root_tree_sha256 c));
        ("dependency_root_total_bytes", JInt (ct_dependency_root_total_bytes c));
        ("runtime_distribution_wheel_sha256", JStr (ct_runtime_distribution_wheel_sha256 c));
        ("runtime_bpe_tree_manifest_method", JStr "installed-bpe-tree-content-manifest-v1");
        ("runtime_bpe_tree_manifest_sha256", JStr (ct_runtime_bpe_tree_manifest_sha256 c));
        ("runtime_bpe_tree_matches_built_wheel", JBool true);
        ("runtime_root_tree_manifest_method", JStr "canonical-relative-path-content-manifest-v1");
        ("runtime_root_tree_completeness_method", JStr COMPLETENESS_METHOD);
        ("runtime_root_tree_sha256", JStr (ct_runtime_root_tree_sha256 c));
        ("runtime_root_total_bytes", JInt (ct_runtime_root_total_bytes c));
        ("runtime_probe_source_sha256", JStr (ct_runtime_probe_source_sha256 c));
        ("runtime_lockfile_sha256", JStr (ct_runtime_lockfile_sha256 c));
        ("observed_invocation_sha256", JStr (ct_observed_invocation_sha256 c)); ("pid_one_observed", JBool true);
        ("effective_uid_zero_observed", JBool true); ("privileged_observed", JBool true);
        ("pid_namespace_private_observed", JBool true); ("mount_namespace_private_observed", JBool true);
        ("user_namespace_identity_recorded", JBool true); ("user_namespace_private_qualified", JBool false);
        ("cgroup_namespace_private_observed", JBool true); ("network_namespace_isolated_observed", JBool true);
        ("single_threaded_before_fork", JBool true); ("cgroup_root_initially_only_pid_one", JBool true);
        ("fault_profile_id", JStr NATIVE_QUALIFICATION_FAULT_PROFILE_ID);
        ("outer_seccomp_instruction_contract_sha256", JStr (ct_outer_seccomp_instruction_contract_sha256 c))].

(** ** The launcher *)
Inductive CaseName := success | extra_fd | inbound | peer_close | emergency_cgroup_kill.
#[export] Instance CaseName_eq_dec : EqDecision CaseName.
Proof. solve_decision. Defined.
Definition CaseName_value (c : CaseName) : string :=
  match c with
  | success => "success" | extra_fd => "extra-fd" | inbound => "inbound" | peer_close => "peer-close"
  | emergency_cgroup_kill => "emergency-cgroup-kill"
  end.
Definition NATIVE_QUALIFICATION_CASES : list CaseName := [success; extra_fd; inbound; peer_close; emergency_cgroup_kill].

Record NativeQualificationBuildTools := {
  bt_compiler_identity : string;
  bt_linker_identity : string;
  bt_libc_identity : string;
  bt_binutils_identity : string
}.
Definition build_tools_ok (t : NativeQualificationBuildTools) : bool :=
  bounded_text (bt_compiler_identity t) && bounded_text (bt_linker_identity t) && bounded_text (bt_libc_identity t)
  && bounded_text (bt_binutils_identity t).
Definition BuildTools_json (t : NativeQualificationBuildTools) : json :=
  JObj [("compiler_identity", JStr (bt_compiler_identity t)); ("linker_identity", JStr (bt_linker_identity t));
        ("libc_identity", JStr (bt_libc_identity t)); ("binutils_identity", JStr (bt_binutils_identity t))].

Record NativeQualificationArtifactDuplicate := {
  ad_case_name : CaseName;
  ad_duplicate_sha256 : string;
  ad_duplicate_size_bytes : Z;
  ad_duplicate_device : Z;
  ad_duplicate_inode : Z;
  ad_duplicate_mode : Z
}.
Definition validate_ArtifactDuplicate (d : NativeQualificationArtifactDuplicate) : result string unit :=
  check_field "duplicate_sha256" (is_sha256 (ad_duplicate_sha256 d)) ;;
  check_field "duplicate_size_bytes" (within 64 MAX_LAUNCHER_ARTIFACT_BYTES (ad_duplicate_size_bytes d)) ;;
  check_field "duplicate_device" (0 <=? ad_duplicate_device d) ;;
  check_field "duplicate_inode" (1 <=? ad_duplicate_inode d) ;;
  check_field "duplicate_mode" (within 0 0xFFFF (ad_duplicate_mode d)) ;;
  Ok tt.
Definition ArtifactDuplicate_json (d : NativeQualificationArtifactDuplicate) : json :=
  JObj [("case_name", JStr (CaseName_value (ad_case_name d))); ("duplicate_sha256", JStr (ad_duplicate_sha256 d));
        ("duplicate_size_bytes", JInt (ad_duplicate_size_bytes d)); ("duplicate_device", JInt (ad_duplicate_device d));
        ("duplicate_inode", JInt (ad_duplicate_inode d)); ("duplicate_mode", JInt (ad_duplicate_mode d));
        ("duplicate_nlink", JInt 0); ("duplicate_seals", JInt 63); ("duplicate_readonly_verified", JBool true);
        ("duplicate_cloexec_verified", JBool true); ("duplicate_identity_verified", JBool true);
        ("executed_from_duplicate", JBool true)].

Record NativeQualificationArtifact := {
  na_launcher_artifact_id : string;
  na_launcher_sha256 : string;
  na_launcher_source_sha256 : string;
  na_launcher_size_bytes : Z;
  na_launcher_build_id_sha1 : string;
  na_build_tools : NativeQualificationBuildTools;
  na_seccomp_policy_sha256 : string;
  na_preflight_receipt : PreflightReceipt;
  na_preflight_id : string;
  na_sealed_copy_sha256 : string;
  na_case_duplicates : list NativeQualificationArtifactDuplicate
}.
(** [seccomp_policy_id] and [sealed_copy_seals] are literals. *)
Definition SECCOMP_POLICY_ID : string := "bpe.inert-fixture-launcher-seccomp.v1".
Definition SEALED_COPY_SEALS : Z := 63.

(** [artifact_bindings_are_exact] *)
Definition artifact_bindings_are_exact (a : NativeQualificationArtifact) : result string unit :=
  let receipt := na_preflight_receipt a in
  raise "native qualification artifact and preflight receipt differ"
    when differ (na_launcher_artifact_id a) (Artifact.pf_launcher_artifact_id receipt)
         || differ (na_launcher_sha256 a) (Artifact.pf_launcher_artifact_sha256 receipt)
         || negb (na_launcher_size_bytes a =? Artifact.pf_sealed_copy_size_bytes receipt)
         || differ SECCOMP_POLICY_ID FIXED_SECCOMP_POLICY_ID
         || differ SECCOMP_POLICY_ID (Artifact.pf_launcher_seccomp_policy_id receipt)
         || differ (na_seccomp_policy_sha256 a) FIXED_SECCOMP_POLICY_SHA256
         || differ (na_seccomp_policy_sha256 a) (Artifact.pf_launcher_seccomp_policy_sha256 receipt)
         || differ (na_preflight_id a) (Artifact.pf_preflight_id receipt)
         || differ (na_sealed_copy_sha256 a) (Artifact.pf_sealed_copy_sha256 receipt)
         || differ (na_sealed_copy_sha256 a) (na_launcher_sha256 a)
         || negb (SEALED_COPY_SEALS =? REQUIRED_EXEC_SEALS)
         || negb (SEALED_COPY_SEALS =? Artifact.pf_sealed_copy_seals receipt) ;;
  raise "native qualification artifact duplicates have the wrong cases"
    when differ (ad_case_name <$> na_case_duplicates a) NATIVE_QUALIFICATION_CASES ;;
  raise "native qualification case duplicate differs from artifact"
    when existsb (fun d => differ (ad_duplicate_sha256 d) (na_launcher_sha256 a)
                           || negb (ad_duplicate_size_bytes d =? na_launcher_size_bytes a)
                           || negb (ad_duplicate_mode d =? SEALED_EXECUTABLE_MODE)) (na_case_duplicates a) ;;
  raise "native qualification case duplicates changed sealed identity"
    when negb (length (remove_dups ((fun d => (ad_duplicate_device d, ad_duplicate_inode d)) <$> na_case_duplicates a)) =? 1)%nat ;;
  Ok tt.

Definition validate_Artifact (a : NativeQualificationArtifact) : result string unit :=
  check_field "launcher_artifact_id" (is_stable_id (na_launcher_artifact_id a)) ;;
  check_field "launcher_sha256" (is_sha256 (na_launcher_sha256 a)) ;;
  check_field "launcher_source_sha256" (is_sha256 (na_launcher_source_sha256 a)) ;;
  check_field "launcher_size_bytes" (within 64 MAX_LAUNCHER_ARTIFACT_BYTES (na_launcher_size_bytes a)) ;;
  check_field "launcher_build_id_sha1" (is_hex 40 (na_launcher_build_id_sha1 a)) ;;
  check_field "build_tools" (build_tools_ok (na_build_tools a)) ;;
  check_field "seccomp_policy_sha256" (is_sha256 (na_seccomp_policy_sha256 a)) ;;
  let* _ := Artifact.validate_PreflightReceipt (na_preflight_receipt a) in
  check_field "preflight_id" (is_sha256 (na_preflight_id a)) ;;
  check_field "sealed_copy_sha256" (is_sha256 (na_sealed_copy_sha256 a)) ;;
  check_field "case_duplicates" (length (na_case_duplicates a) =? length NATIVE_QUALIFICATION_CASES)%nat ;;
  let* _ := for_each validate_ArtifactDuplicate (na_case_duplicates a) in
  artifact_bindings_are_exact a.
Definition PreflightReceipt_json (r : PreflightReceipt) : json :=
  JObj (("preflight_id", JStr (Artifact.pf_preflight_id r)) :: Artifact.PreflightReceipt_fields r).
Definition Artifact_json (a : NativeQualificationArtifact) : json :=
  JObj [("launcher_artifact_id", JStr (na_launcher_artifact_id a)); ("launcher_sha256", JStr (na_launcher_sha256 a));
        ("launcher_source_sha256", JStr (na_launcher_source_sha256 a)); ("launcher_size_bytes", JInt (na_launcher_size_bytes a));
        ("launcher_build_id_sha1", JStr (na_launcher_build_id_sha1 a)); ("build_tools", BuildTools_json (na_build_tools a));
        ("seccomp_policy_id", JStr SECCOMP_POLICY_ID); ("seccomp_policy_sha256", JStr (na_seccomp_policy_sha256 a));
        ("preflight_receipt", PreflightReceipt_json (na_preflight_receipt a)); ("preflight_id", JStr (na_preflight_id a));
        ("sealed_copy_sha256", JStr (na_sealed_copy_sha256 a)); ("sealed_copy_seals", JInt SEALED_COPY_SEALS);
        ("sealed_copy_readonly_verified", JBool true); ("sealed_copy_cloexec_verified", JBool true);
        ("sealed_copy_identity_verified", JBool true); ("source_artifact_unchanged_after_preflight", JBool true);
        ("case_duplicates", JArr (ArtifactDuplicate_json <$> na_case_duplicates a))].

(** ** Cases *)
Record NativeQualificationInjection := {
  ij_contract_id : string;
  ij_unexpected_inherited_descriptor : option Z;
  ij_prequeued_control_payload_hex : option string;
  ij_control_peer_closed_before_exec : bool;
  ij_outer_seccomp_fault_profile_id : option string
}.
#[export] Instance Injection_eq_dec : EqDecision NativeQualificationInjection.
Proof. solve_decision. Defined.
Definition validate_Injection (i : NativeQualificationInjection) : result string unit :=
  check_field "contract_id" (is_stable_id (ij_contract_id i)) ;;
  check_field "unexpected_inherited_descriptor" (opt_ok (Z.eqb 257) (ij_unexpected_inherited_descriptor i)) ;;
  check_field "prequeued_control_payload_hex" (opt_ok (String.eqb "78") (ij_prequeued_control_payload_hex i)) ;;
  check_field "outer_seccomp_fault_profile_id"
    (opt_ok (String.eqb NATIVE_QUALIFICATION_FAULT_PROFILE_ID) (ij_outer_seccomp_fault_profile_id i)) ;;
  Ok tt.
Definition Injection_json (i : NativeQualificationInjection) : json :=
  JObj [("contract_id", JStr (ij_contract_id i));
        ("unexpected_inherited_descriptor", jopt JInt (ij_unexpected_inherited_descriptor i));
        ("prequeued_control_payload_hex", jopt JStr (ij_prequeued_control_payload_hex i));
        ("control_peer_closed_before_exec", JBool (ij_control_peer_closed_before_exec i));
        ("outer_seccomp_fault_profile_id", jopt JStr (ij_outer_seccomp_fault_profile_id i))].

(** [_INJECTION_CONTRACTS] *)
Definition INJECTION_CONTRACTS (c : CaseName) : NativeQualificationInjection :=
  let contract id fd hex closed fault :=
    {| ij_contract_id := id; ij_unexpected_inherited_descriptor := fd; ij_prequeued_control_payload_hex := hex;
       ij_control_peer_closed_before_exec := closed; ij_outer_seccomp_fault_profile_id := fault |} in
  match c with
  | success => contract "bpe.native-qualification.injection.none.v1" None None false None
  | extra_fd => contract "bpe.native-qualification.injection.descriptor-257.v1" (Some 257) None false None
  | inbound => contract "bpe.native-qualification.injection.control-byte-78.v1" None (Some "78") false None
  | peer_close => contract "bpe.native-qualification.injection.peer-close-before-exec.v1" None None true None
  | emergency_cgroup_kill =>
      contract "bpe.native-qualification.injection.pidfd-eperm.v1" None None false (Some NATIVE_QUALIFICATION_FAULT_PROFILE_ID)
  end.

(** A record carries its payload; that it was neither truncated nor ancillary is literal. *)
Record NativeQualificationSocketRecord := { nr_payload_hex : string }.
Definition SocketRecord_ok (r : NativeQualificationSocketRecord) : bool := is_hex 128 (nr_payload_hex r).
Definition SocketRecord_json (r : NativeQualificationSocketRecord) : json :=
  JObj [("payload_hex", JStr (nr_payload_hex r)); ("message_truncated", JBool false); ("control_truncated", JBool false);
        ("ancillary_present", JBool false)].

(** [bytes.hex] and [bytes.fromhex] *)
Definition nibble (n : N) : ascii := ascii_of_N (if (n <? 10)%N then n + 48 else n + 87)%N.
Fixpoint hex_of (bs : list byte) : string :=
  match bs with
  | [] => ""
  | b :: bs => String (nibble (Byte.to_N b / 16)) (String (nibble (Byte.to_N b mod 16)) (hex_of bs))
  end.
Definition nibble_value (c : ascii) : N := let n := N_of_ascii c in if (n <? 58)%N then (n - 48)%N else (n - 87)%N.
Fixpoint bytes_fromhex (s : string) : result string (list byte) :=
  match s with
  | EmptyString => Ok []
  | String a (String b s) =>
      raise "ValueError" when negb (is_lower_hex a && is_lower_hex b) ;;
      match Byte.of_N (16 * nibble_value a + nibble_value b) with
      | Some x => let* bs := bytes_fromhex s in Ok (x :: bs)
      | None => Err "ValueError"
      end
  | String _ EmptyString => Err "ValueError"
  end.
(** [to_native_record] *)
Definition to_native_record (r : NativeQualificationSocketRecord) : result string InertNativeSocketRecord :=
  let* bytes := bytes_fromhex (nr_payload_hex r) in
  Ok {| payload := bytes; message_truncated := false; control_truncated := false; ancillary_present := false |}.

(** The names of the protocol's enumerations, in lower case. *)
Definition frame_name (t : NativeFrameType) : string :=
  match t with
  | HELLO => "hello" | FT_CHILD_READY => "child_ready" | CHILD_SIGNALED => "child_signaled"
  | CHILD_OBSERVED => "child_observed" | FINAL => "final" | ERROR => "error"
  end.
Definition stage_name (s : NativeStage) : string :=
  match s with
  | STARTUP => "startup" | DESCRIPTOR_VALIDATION => "descriptor_validation" | CGROUP_VALIDATION => "cgroup_validation"
  | FIXTURE_SETUP => "fixture_setup" | CLONE3 => "clone3" | CHILD_READY => "child_ready" | PIDFD_SIGNAL => "pidfd_signal"
  | CGROUP_KILL => "cgroup_kill" | CHILD_OBSERVATION => "child_observation" | CHILD_REAP => "child_reap"
  | CLEANUP => "cleanup" | PROTOCOL => "protocol"
  end.
Definition reason_name (r : NativeReason) : string :=
  match r with
  | NONE => "none" | BAD_ARGC => "bad_argc" | BAD_ARGV => "bad_argv" | NONEMPTY_ENVIRONMENT => "nonempty_environment"
  | BAD_DESCRIPTOR_LAYOUT => "bad_descriptor_layout" | BAD_STDIO => "bad_stdio" | BAD_CONTROL_SOCKET => "bad_control_socket"
  | BAD_CGROUP_DESCRIPTOR => "bad_cgroup_descriptor" | CGROUP_NOT_EMPTY => "cgroup_not_empty"
  | PROTOCOL_INPUT => "protocol_input" | PEER_CLOSED => "peer_closed" | RESOURCE_EXHAUSTED => "resource_exhausted"
  | CLONE3_UNAVAILABLE => "clone3_unavailable" | CLONE3_REJECTED => "clone3_rejected"
  | PIDFD_UNAVAILABLE => "pidfd_unavailable" | CHILD_SETUP_FAILED => "child_setup_failed"
  | PIDFD_SIGNAL_FAILED => "pidfd_signal_failed" | CGROUP_KILL_FAILED => "cgroup_kill_failed"
  | CHILD_OBSERVATION_FAILED => "child_observation_failed" | CHILD_REAP_FAILED => "child_reap_failed"
  | TIMEOUT => "timeout" | CLEANUP_INCOMPLETE => "cleanup_incomplete" | IO_FAILURE => "io_failure" | INTERNAL => "internal"
  end.
(** [NativeQualificationFrameName], [NativeQualificationStageName], [NativeQualificationReasonName] *)
Definition FRAME_NAMES : list string := ["hello"; "child_ready"; "child_signaled"; "child_observed"; "final"; "error"].
Definition STAGE_NAMES : list string :=
  ["startup"; "descriptor_validation"; "cgroup_validation"; "fixture_setup"; "clone3"; "child_ready"; "pidfd_signal";
   "cgroup_kill"; "child_observation"; "child_reap"; "cleanup"; "protocol"].
Definition REASON_NAMES : list string :=
  ["bad_argc"; "bad_argv"; "nonempty_environment"; "bad_descriptor_layout"; "bad_stdio"; "bad_control_socket";
   "bad_cgroup_descriptor"; "cgroup_not_empty"; "protocol_input"; "peer_closed"; "resource_exhausted"; "clone3_unavailable";
   "clone3_rejected"; "pidfd_unavailable"; "child_setup_failed"; "pidfd_signal_failed"; "cgroup_kill_failed";
   "child_observation_failed"; "child_reap_failed"; "timeout"; "cleanup_incomplete"; "io_failure"; "internal"].

Record NativeQualificationTranscriptProjection := {
  pj_succeeded : bool;
  pj_frame_types : list string;
  pj_launcher_exit_code : Z;
  pj_launcher_pid : Z;
  pj_child_pid : option Z;
  pj_achieved_result_mask : Z;
  pj_elapsed_ns : option Z;
  pj_failure_stage : option string;
  pj_failure_reason : option string;
  pj_failure_errno : option Z
}.
#[export] Instance Projection_eq_dec : EqDecision NativeQualificationTranscriptProjection.
Proof. solve_decision. Defined.

Definition absent {A} (o : option A) : bool := match o with None => true | Some _ => false end.

(** [success_and_failure_shapes_are_disjoint] *)
Definition success_and_failure_shapes_are_disjoint (p : NativeQualificationTranscriptProjection) : result string unit :=
  if pj_succeeded p then
    raise "successful native projection contains failure fields"
      when absent (pj_elapsed_ns p) || negb (absent (pj_failure_stage p)) || negb (absent (pj_failure_reason p))
           || negb (absent (pj_failure_errno p)) ;; Ok tt
  else
    raise "failed native projection is incomplete"
      when negb (absent (pj_elapsed_ns p)) || absent (pj_failure_stage p) || absent (pj_failure_reason p)
           || absent (pj_failure_errno p) ;; Ok tt.
Definition validate_Projection (p : NativeQualificationTranscriptProjection) : result string unit :=
  check_field "frame_types" (count_between 1 5 (pj_frame_types p)
                             && forallb (fun n => bool_decide (n ∈ FRAME_NAMES)) (pj_frame_types p)) ;;
  check_field "launcher_exit_code" (within 0 255 (pj_launcher_exit_code p)) ;;
  check_field "launcher_pid" (pid_ok (pj_launcher_pid p)) ;;
  check_field "child_pid" (opt_ok pid_ok (pj_child_pid p)) ;;
  check_field "achieved_result_mask" (within 0 ACHIEVED_RESULT_MASK (pj_achieved_result_mask p)) ;;
  check_field "elapsed_ns" (opt_ok (within 1 45000000000) (pj_elapsed_ns p)) ;;
  check_field "failure_stage" (opt_ok (fun n => bool_decide (n ∈ STAGE_NAMES)) (pj_failure_stage p)) ;;
  check_field "failure_reason" (opt_ok (fun n => bool_decide (n ∈ REASON_NAMES)) (pj_failure_reason p)) ;;
  check_field "failure_errno" (opt_ok (within 0 PROTOCOL_MAX_ERRNO) (pj_failure_errno p)) ;;
  success_and_failure_shapes_are_disjoint p.
Definition Projection_json (p : NativeQualificationTranscriptProjection) : json :=
  JObj [("succeeded", JBool (pj_succeeded p)); ("frame_types", JArr (JStr <$> pj_frame_types p));
        ("launcher_exit_code", JInt (pj_launcher_exit_code p)); ("launcher_pid", JInt (pj_launcher_pid p));
        ("child_pid", jopt JInt (pj_child_pid p)); ("achieved_result_mask", JInt (pj_achieved_result_mask p));
        ("elapsed_ns", jopt JInt (pj_elapsed_ns p)); ("failure_stage", jopt JStr (pj_failure_stage p));
        ("failure_reason", jopt JStr (pj_failure_reason p)); ("failure_errno", jopt JInt (pj_failure_errno p))].

(** [_projection_for] *)
Definition project (t : InertNativeTranscript) : NativeQualificationTranscriptProjection :=
  {| pj_succeeded := succeeded t; pj_frame_types := frame_name ∘ frame_type <$> frames t;
     pj_launcher_exit_code := NativeExitCode_value (launcher_exit_code t); pj_launcher_pid := launcher_pid t;
     pj_child_pid := child_pid t; pj_achieved_result_mask := achieved_result_mask t; pj_elapsed_ns := elapsed_ns t;
     pj_failure_stage := stage_name <$> failure_stage t; pj_failure_reason := reason_name <$> failure_reason t;
     pj_failure_errno := failure_errno t |}.
Definition projection_for (t : InertNativeTranscript) : result string NativeQualificationTranscriptProjection :=
  construct validate_Projection (project t).

(** The cleanup of a case: what the probe observed. *)
Record NativeQualificationCaseCleanup := {
  cu_launcher_waited_exact : bool;
  cu_no_reparented_child_observed : bool;
  cu_leaf_cgroup_procs_empty : bool;
  cu_leaf_populated_zero : bool;
  cu_leaf_removed : bool;
  cu_evaluator_fallback_cleanup_used : bool
}.
Definition CLEAN : NativeQualificationCaseCleanup :=
  {| cu_launcher_waited_exact := true; cu_no_reparented_child_observed := true; cu_leaf_cgroup_procs_empty := true;
     cu_leaf_populated_zero := true; cu_leaf_removed := true; cu_evaluator_fallback_cleanup_used := false |}.
Definition validate_CaseCleanup (c : NativeQualificationCaseCleanup) : result string unit :=
  raise "native qualification case cleanup is incomplete"
    when negb (cu_launcher_waited_exact c && cu_no_reparented_child_observed c && cu_leaf_cgroup_procs_empty c
               && cu_leaf_populated_zero c && cu_leaf_removed c) ;;
  raise "qualified case required evaluator fallback cleanup" when cu_evaluator_fallback_cleanup_used c ;;
  Ok tt.
Definition CaseCleanup_json (c : NativeQualificationCaseCleanup) : json :=
  JObj [("cleanup_method", JStr "exact-wait-empty-rmdir-v1"); ("launcher_waited_exact", JBool (cu_launcher_waited_exact c));
        ("no_reparented_child_observed", JBool (cu_no_reparented_child_observed c));
        ("leaf_cgroup_procs_empty", JBool (cu_leaf_cgroup_procs_empty c));
        ("leaf_populated_zero", JBool (cu_leaf_populated_zero c)); ("leaf_removed", JBool (cu_leaf_removed c));
        ("evaluator_fallback_cleanup_used", JBool (cu_evaluator_fallback_cleanup_used c))].

(** [_REJECTION_CATEGORIES] and [_CASE_SET_EXPECTATIONS] *)
Definition REJECTION_CATEGORIES (c : CaseName) : option string :=
  match c with inbound => Some "empty_transcript" | peer_close => Some "eof_not_observed" | _ => None end.
Definition accepted_expectation (code_ : NativeExitCode) (frame_types : list string) (succeeded_ : bool) (mask : Z)
    (more : list (string * json)) : json :=
  JObj ([("returncode", JInt (NativeExitCode_value code_)); ("eof_observed", JBool true); ("parser_outcome", JStr "accepted");
         ("frame_types", JArr (JStr <$> frame_types)); ("succeeded", JBool succeeded_); ("achieved_result_mask", JInt mask)]
        ++ more)%list.
Definition rejected_expectation (code_ : NativeExitCode) (eof : bool) (category : string) : json :=
  JObj [("returncode", JInt (NativeExitCode_value code_)); ("eof_observed", JBool eof); ("parser_outcome", JStr "rejected");
        ("parser_rejection", JStr category); ("record_count", JInt 0)].
Definition failure_fields (stage_ reason_ : string) (errno : Z) : list (string * json) :=
  [("failure_stage", JStr stage_); ("failure_reason", JStr reason_); ("failure_errno", JInt errno)].
Definition SUCCESS_FRAMES : list string := ["hello"; "child_ready"; "child_signaled"; "child_observed"; "final"].
Definition CASE_SET_EXPECTATIONS (c : CaseName) : json :=
  match c with
  | success => accepted_expectation EXIT_OK SUCCESS_FRAMES true 0x1FF []
  | extra_fd =>
      accepted_expectation EXIT_STARTUP ["error"] false 0 (failure_fields "descriptor_validation" "bad_descriptor_layout" 0)
  | inbound => rejected_expectation EXIT_STARTUP true "empty_transcript"
  | peer_close => rejected_expectation EXIT_PROTOCOL false "eof_not_observed"
  | emergency_cgroup_kill =>
      accepted_expectation EXIT_KERNEL ["hello"; "child_ready"; "error"] false 0x1C3
        (failure_fields "pidfd_signal" "pidfd_signal_failed" 1
         ++ [("cleanup_evidence_scope", JStr "outcome-under-trusted-kernel-assumptions")])%list
  end.
Definition NATIVE_QUALIFICATION_CASE_SET_SHA256 : result string string :=
  domain_digest NATIVE_QUALIFICATION_CASE_SET_DOMAIN
    (JObj [("case_set_id", JStr NATIVE_QUALIFICATION_CASE_SET_ID); ("parser_contract_id", JStr NATIVE_QUALIFICATION_PARSER_ID);
           ("launcher_protocol_id", JStr NATIVE_QUALIFICATION_LAUNCHER_PROTOCOL_ID);
           ("outer_seccomp_instruction_contract_sha256", JStr NATIVE_QUALIFICATION_OUTER_SECCOMP_CONTRACT_SHA256);
           ("cases", JArr ((fun c => JObj [("case_name", JStr (CaseName_value c));
                                           ("injection", Injection_json (INJECTION_CONTRACTS c));
                                           ("expected", CASE_SET_EXPECTATIONS c)]) <$> NATIVE_QUALIFICATION_CASES));
           ("cleanup_contract", CaseCleanup_json CLEAN)]).

Inductive ParserOutcome := accepted | rejected.
#[export] Instance ParserOutcome_eq_dec : EqDecision ParserOutcome.
Proof. solve_decision. Defined.
Definition ParserOutcome_value (o : ParserOutcome) : string := match o with accepted => "accepted" | rejected => "rejected" end.

Record NativeQualificationCase := {
  nc_case_name : CaseName;
  nc_injection : NativeQualificationInjection;
  nc_launcher_pid : Z;
  nc_returncode : Z;
  nc_eof_observed : bool;
  nc_records : list NativeQualificationSocketRecord;
  nc_transcript_sha256 : string;
  nc_parser_outcome : ParserOutcome;
  nc_parser_projection : option NativeQualificationTranscriptProjection;
  nc_parser_rejection : option string;
  nc_cleanup : NativeQualificationCaseCleanup
}.

(** [_transcript_preimage] *)
Definition transcript_preimage (name : CaseName) (injection : NativeQualificationInjection) (pid returncode : Z) (eof : bool)
    (records : list NativeQualificationSocketRecord) : list (string * json) :=
  [("case_name", JStr (CaseName_value name)); ("injection", Injection_json injection); ("launcher_pid", JInt pid);
   ("returncode", JInt returncode); ("eof_observed", JBool eof); ("records", JArr (SocketRecord_json <$> records))].
Definition case_preimage (c : NativeQualificationCase) : list (string * json) :=
  transcript_preimage (nc_case_name c) (nc_injection c) (nc_launcher_pid c) (nc_returncode c) (nc_eof_observed c) (nc_records c).

(** The rejection a case must show: its category, exit code and whether the socket ended. *)
Definition expected_rejection (name : CaseName) : option (string * Z * bool) :=
  match name with
  | inbound => Some ("empty_transcript", NativeExitCode_value EXIT_STARTUP, true)
  | peer_close => Some ("eof_not_observed", NativeExitCode_value EXIT_PROTOCOL, false)
  | _ => None
  end.
(** The fixed result of the case whose transcript the parser accepts. *)
Definition fixed_result (name : CaseName) (p : NativeQualificationTranscriptProjection) : bool :=
  match name with
  | success =>
      pj_succeeded p && bool_decide (pj_frame_types p = SUCCESS_FRAMES)
      && (pj_launcher_exit_code p =? NativeExitCode_value EXIT_OK) && negb (absent (pj_child_pid p))
      && (pj_achieved_result_mask p =? ACHIEVED_RESULT_MASK) && (ACHIEVED_RESULT_MASK =? 0x1FF)
      && negb (absent (pj_elapsed_ns p))
  | extra_fd =>
      negb (pj_succeeded p) && bool_decide (pj_frame_types p = ["error"])
      && (pj_launcher_exit_code p =? NativeExitCode_value EXIT_STARTUP) && absent (pj_child_pid p)
      && (pj_achieved_result_mask p =? 0) && bool_decide (pj_failure_stage p = Some "descriptor_validation")
      && bool_decide (pj_failure_reason p = Some "bad_descriptor_layout") && bool_decide (pj_failure_errno p = Some 0)
  | _ =>
      bool_decide (name = emergency_cgroup_kill) && negb (pj_succeeded p)
      && bool_decide (pj_frame_types p = ["hello"; "child_ready"; "error"])
      && (pj_launcher_exit_code p =? NativeExitCode_value EXIT_KERNEL) && negb (absent (pj_child_pid p))
      && (pj_achieved_result_mask p =? 0x1C3) && bool_decide (pj_failure_stage p = Some "pidfd_signal")
      && bool_decide (pj_failure_reason p = Some "pidfd_signal_failed") && bool_decide (pj_failure_errno p = Some 1)
  end.

(** [injection_digest_and_replay_are_exact] *)
Definition injection_digest_and_replay_are_exact (c : NativeQualificationCase) : result string unit :=
  raise "native qualification case injection is inconsistent"
    when differ (nc_injection c) (INJECTION_CONTRACTS (nc_case_name c)) ;;
  let* expected_digest := domain_digest NATIVE_QUALIFICATION_TRANSCRIPT_DOMAIN (JObj (case_preimage c)) in
  raise "native qualification transcript digest is inconsistent" when differ (nc_transcript_sha256 c) expected_digest ;;
  let* records := map_result to_native_record (nc_records c) in
  match parse_inert_native_transcript records (nc_returncode c) (nc_eof_observed c) (nc_launcher_pid c) with
  | Err _ =>
      raise "native qualification parser rejection is inconsistent"
        when match expected_rejection (nc_case_name c) with
             | None => true
             | Some (category, code_, eof) =>
                 differ (nc_parser_outcome c) rejected || differ (nc_parser_projection c) None
                 || differ (nc_parser_rejection c) (Some category) || negb (nc_returncode c =? code_)
                 || negb (eqb (nc_eof_observed c) eof) || negb (length (nc_records c) =? 0)%nat
             end ;;
      Ok tt
  | Ok transcript =>
      let* projection := projection_for transcript in
      raise "native qualification parser projection is inconsistent"
        when bool_decide (nc_case_name c ∈ [inbound; peer_close]) || differ (nc_parser_outcome c) accepted
             || differ (nc_parser_rejection c) None || differ (nc_parser_projection c) (Some projection) ;;
      raise "native qualification case result is not the fixed result" when negb (fixed_result (nc_case_name c) projection) ;;
      Ok tt
  end.

Definition validate_Case (c : NativeQualificationCase) : result string unit :=
  let* _ := validate_Injection (nc_injection c) in
  check_field "launcher_pid" (pid_ok (nc_launcher_pid c)) ;;
  check_field "returncode" (within 0 255 (nc_returncode c)) ;;
  check_field "records" ((Z.of_nat (length (nc_records c)) <=? PROTOCOL_MAX_FRAMES) && forallb SocketRecord_ok (nc_records c)) ;;
  check_field "transcript_sha256" (is_sha256 (nc_transcript_sha256 c)) ;;
  let* _ := match nc_parser_projection c with Some p => validate_Projection p | None => Ok tt end in
  check_field "parser_rejection"
    (opt_ok (fun r => bool_decide (r ∈ ["empty_transcript"; "eof_not_observed"])) (nc_parser_rejection c)) ;;
  let* _ := validate_CaseCleanup (nc_cleanup c) in
  injection_digest_and_replay_are_exact c.
Definition Case_json (c : NativeQualificationCase) : json :=
  JObj (case_preimage c
        ++ [("transcript_sha256", JStr (nc_transcript_sha256 c)); ("parser_outcome", JStr (ParserOutcome_value (nc_parser_outcome c)));
            ("parser_projection", jopt Projection_json (nc_parser_projection c));
            ("parser_rejection", jopt JStr (nc_parser_rejection c)); ("cleanup", CaseCleanup_json (nc_cleanup c))])%list.

(** [build_inert_native_qualification_case] *)
Definition case_record (r : InertNativeSocketRecord) : result string NativeQualificationSocketRecord :=
  raise "qualified native records cannot be truncated or ancillary"
    when message_truncated r || control_truncated r || ancillary_present r ;;
  let record := {| nr_payload_hex := hex_of (payload r) |} in
  check_field "payload_hex" (SocketRecord_ok record) ;;
  Ok record.
Definition build_case (name : CaseName) (launcher_pid_ returncode : Z) (eof_observed : bool)
    (records : list InertNativeSocketRecord) (cleanup : NativeQualificationCaseCleanup) : result string NativeQualificationCase :=
  let* native_records := map_result case_record records in
  let injection := INJECTION_CONTRACTS name in
  let* _ := validate_Injection injection in
  let* replay :=
    match parse_inert_native_transcript records returncode eof_observed launcher_pid_ with
    | Err _ => Ok (rejected, None, REJECTION_CATEGORIES name)
    | Ok transcript => let* projection := projection_for transcript in Ok (accepted, Some projection, None)
    end in
  let '(outcome, projection, rejection) := replay in
  let* digest := domain_digest NATIVE_QUALIFICATION_TRANSCRIPT_DOMAIN
                   (JObj (transcript_preimage name injection launcher_pid_ returncode eof_observed native_records)) in
  construct validate_Case
    {| nc_case_name := name; nc_injection := injection; nc_launcher_pid := launcher_pid_; nc_returncode := returncode;
       nc_eof_observed := eof_observed; nc_records := native_records; nc_transcript_sha256 := digest;
       nc_parser_outcome := outcome; nc_parser_projection := projection; nc_parser_rejection := rejection;
       nc_cleanup := cleanup |}.
Definition build_inert_native_qualification_case (name : CaseName) (launcher_pid_ returncode : Z) (eof_observed : bool)
    (records : list InertNativeSocketRecord) (cleanup : NativeQualificationCaseCleanup) : result string NativeQualificationCase :=
  match build_case name launcher_pid_ returncode eof_observed records cleanup with
  | Ok c => Ok c
  | Err _ => Err "native qualification case could not be built"
  end.

(** [replay_inert_native_qualification_case] *)
Definition replay_inert_native_qualification_case (c : NativeQualificationCase) :
    result string (option NativeQualificationTranscriptProjection) :=
  match validate_Case c with
  | Ok _ => Ok (nc_parser_projection c)
  | Err _ => Err "native qualification case failed strict replay validation"
  end.

(** ** Reports *)
(** [NativeQualificationFinalization]: every claim is literal. *)
Definition Finalization_json : json :=
  JObj [("probe_restored_to_cgroup_namespace_root", JBool true); ("manager_cgroup_empty", JBool true);
        ("manager_cgroup_removed", JBool true); ("every_launcher_duplicate_closed", JBool true);
        ("retained_artifact_closed", JBool true); ("source_artifact_descriptor_closed", JBool true)].

(** What [native_qualification_github_context_bytes] encodes. *)
Definition github_context_json (s : NativeQualificationSourceRun) (h : NativeQualificationHost)
    (c : NativeQualificationContainer) (a : NativeQualificationArtifact) : json :=
  let upstream := sr_upstream_workflow_run s in
  let invocation := ct_invocation c in
  let tools := na_build_tools a in
  JObj [("git_commit", JStr (sr_git_commit s)); ("github_sha", JStr (sr_github_sha s));
        ("github_run_id", JInt (sr_github_run_id s)); ("github_run_attempt", JInt (sr_github_run_attempt s));
        ("github_repository", JStr "synechism/bpe"); ("github_job", JStr "native-qualification");
        ("github_event", JStr "workflow_run"); ("github_ref", JStr "refs/heads/main");
        ("github_actor_category", JStr "unverified"); ("upstream_workflow_name", JStr "CI");
        ("upstream_workflow_id", JInt (up_workflow_id upstream)); ("upstream_workflow_path", JStr UPSTREAM_WORKFLOW_PATH);
        ("upstream_run_id", JInt (up_run_id upstream)); ("upstream_run_attempt", JInt (up_run_attempt upstream));
        ("upstream_event", JStr "push"); ("upstream_head_branch", JStr "main");
        ("upstream_head_repository_full_name", JStr "synechism/bpe"); ("upstream_head_sha", JStr (up_head_sha upstream));
        ("upstream_conclusion", JStr "success"); ("built_wheel_sha256", JStr (sr_built_wheel_sha256 s));
        ("runner_architecture", JStr "x86_64"); ("docker_server_architecture", JStr "x86_64");
        ("docker_server_version", JStr (ct_docker_server_version c)); ("image_reference", JStr (iv_image_reference invocation));
        ("image_manifest_sha256", JStr (iv_image_manifest_sha256 invocation));
        ("image_platform_sha256", JStr (iv_image_platform_sha256 invocation));
        ("image_config_sha256", JStr (iv_image_config_sha256 invocation)); ("runtime_name", JStr (ct_runtime_name c));
        ("runtime_version", JStr (ct_runtime_version c)); ("runtime_id", JStr (ct_runtime_id c));
        ("compiler_identity", JStr (bt_compiler_identity tools)); ("linker_identity", JStr (bt_linker_identity tools));
        ("libc_identity", JStr (bt_libc_identity tools)); ("binutils_identity", JStr (bt_binutils_identity tools));
        ("launcher_build_id_sha1", JStr (na_launcher_build_id_sha1 a))].
Definition native_qualification_github_context_bytes (s : NativeQualificationSourceRun) (h : NativeQualificationHost)
    (c : NativeQualificationContainer) (a : NativeQualificationArtifact) : result string string :=
  canonical_json_bytes (github_context_json s h c a).

Record NativeQualificationReport := {
  nq_qualification_id : string;
  nq_qualification_nonce : string;
  nq_case_set_sha256 : string;
  nq_context_sha256 : string;
  nq_source_run : NativeQualificationSourceRun;
  nq_host : NativeQualificationHost;
  nq_container : NativeQualificationContainer;
  nq_artifact : NativeQualificationArtifact;
  nq_cases : list NativeQualificationCase
}.

(** The dump of a report without its identity. *)
Definition Report_fields (r : NativeQualificationReport) : list (string * json) :=
  [("schema_version", JStr "bpe.linux-inert-launcher-native-qualification-report.v1");
   ("status", JStr "native_probe_passed_unsigned"); ("qualification_nonce", JStr (nq_qualification_nonce r));
   ("qualification_nonce_method", JStr "secrets-token-bytes-256-bit-v1");
   ("qualification_nonce_purpose", JStr "run-correlation-only"); ("parser_contract_id", JStr NATIVE_QUALIFICATION_PARSER_ID);
   ("case_set_id", JStr NATIVE_QUALIFICATION_CASE_SET_ID); ("case_set_sha256", JStr (nq_case_set_sha256 r));
   ("context_sha256", JStr (nq_context_sha256 r)); ("source_run", SourceRun_json (nq_source_run r));
   ("host", Host_json (nq_host r)); ("container", Container_json (nq_container r)); ("artifact", Artifact_json (nq_artifact r));
   ("cases", JArr (Case_json <$> nq_cases r)); ("finalization", Finalization_json);
   ("preflight_before_process_creation_verified", JBool true); ("launcher_execution_started", JBool true);
   ("fixture_execution_started", JBool true); ("launcher_process_count", JInt 5); ("fixture_child_process_count", JInt 2);
   ("execution_scope", JStr "evaluator-only-native-qualification"); ("production_launch_admission_used", JBool false);
   ("production_launch_attempts_consumed", JInt 0); ("authenticity", JStr "unsigned"); ("durable", JBool false);
   ("sigstore_attested", JBool false); ("worm_archived", JBool false); ("provenance_authenticated", JBool false);
   ("externally_anchored", JBool false); ("freshness_authenticated", JBool false); ("authoritative", JBool false);
   ("execution_authorized", JBool false); ("fixture_child_exec_performed", JBool false);
   ("candidate_bytes_accessed", JBool false); ("evaluation_job_bytes_accessed", JBool false);
   ("resource_pressure_qualified", JBool false); ("descendant_tree_cleanup_qualified", JBool false);
   ("filesystem_isolation_qualified", JBool false); ("network_isolation_qualified", JBool false);
   ("signed_deadlines_qualified", JBool false); ("signed_output_limits_qualified", JBool false);
   ("production_orchestration_qualified", JBool false); ("official_grading_qualified", JBool false)].
Definition Report_json (r : NativeQualificationReport) : json :=
  JObj (("qualification_id", JStr (nq_qualification_id r)) :: Report_fields r).

(** [inert_native_qualification_id] *)
Definition inert_native_qualification_id (fields : list (string * json)) : result string string :=
  raise "native qualification identity input contains its own digest" when bool_decide ("qualification_id" ∈ fields.*1) ;;
  domain_digest NATIVE_QUALIFICATION_DOMAIN (JObj fields).

(** The source evidence each mount must carry. *)
Definition expected_mount_source (r : NativeQualificationReport) (probe_digest : string) (p : MountPurpose) :
    option string * option Z :=
  let s := nq_source_run r in
  match p with
  | provenance_context => (Some (sr_github_context_file_sha256 s), Some (sr_github_context_file_size_bytes s))
  | tracked_tree_manifest =>
      (Some (sr_tracked_tree_content_manifest_sha256 s), Some (sr_tracked_tree_manifest_file_size_bytes s))
  | built_wheel => (Some (sr_built_wheel_sha256 s), Some (sr_built_wheel_size_bytes s))
  | probe => (Some probe_digest, Some (sr_probe_source_size_bytes s))
  | launcher => (Some (na_launcher_sha256 (nq_artifact r)), Some (na_launcher_size_bytes (nq_artifact r)))
  | dependency_tree =>
      (Some (ct_dependency_root_tree_sha256 (nq_container r)), Some (ct_dependency_root_total_bytes (nq_container r)))
  | source_tree => (Some (nm_manifest_sha256 (sr_source_manifest s)), Some (sr_source_manifest_total_bytes s))
  | qualification_output => (None, None)
  end.
(** [any(mount_bindings[purpose] ... != expected ...)] over every purpose. *)
Definition check_mounts (r : NativeQualificationReport) (probe_digest : string) : result string unit :=
  let bindings := dict_of ((fun m => (mb_purpose m, m)) <$> iv_mount_bindings (ct_invocation (nq_container r))) in
  for_each (fun p =>
      match dict_get bindings p with
      | None => Err "KeyError"
      | Some m =>
          raise "native qualification invocation mounts are not cross-bound"
            when differ (mb_source_sha256 m, mb_source_size_bytes m) (expected_mount_source r probe_digest p) ;;
          Ok tt
      end) MOUNT_PURPOSES.

Definition context_binding (r : NativeQualificationReport) : NativeQualificationContextBinding :=
  let s := nq_source_run r in
  let c := nq_container r in
  {| cb_git_commit := sr_git_commit s; cb_source_manifest_sha256 := nm_manifest_sha256 (sr_source_manifest s);
     cb_tracked_tree_content_manifest_sha256 := sr_tracked_tree_content_manifest_sha256 s;
     cb_built_wheel_sha256 := sr_built_wheel_sha256 s;
     cb_runtime_dependency_manifest_sha256 := ct_runtime_dependency_manifest_sha256 c;
     cb_runtime_root_tree_sha256 := ct_runtime_root_tree_sha256 c; cb_runtime_root_total_bytes := ct_runtime_root_total_bytes c;
     cb_launcher_sha256 := na_launcher_sha256 (nq_artifact r); cb_workflow_sha256 := sr_workflow_sha256 s;
     cb_github_sha := sr_github_sha s; cb_github_run_id := sr_github_run_id s; cb_github_run_attempt := sr_github_run_attempt s;
     cb_upstream_workflow_run := sr_upstream_workflow_run s;
     cb_container_invocation_sha256 := iv_invocation_sha256 (ct_invocation c) |}.

(** Whether the runtime that executed is the committed source: the guards between the
    digests of the container, of the source run and of the artifact. *)
Definition runtime_matches_source (r : NativeQualificationReport) (probe_file lockfile launcher_source : NativeQualificationSourceFile)
    (bpe : NativeQualificationRuntimeDistribution) : bool :=
  let s := nq_source_run r in
  let c := nq_container r in
  let committed := filter (fun f => sf_path f ∈ NATIVE_QUALIFICATION_BPE_SOURCE_PATHS) (nm_files (sr_source_manifest s)) in
  bool_decide (ct_runtime_distribution_wheel_sha256 c = sr_built_wheel_sha256 s)
  && bool_decide (sr_built_wheel_bpe_tree_manifest_sha256 s = sr_commit_bpe_tree_manifest_sha256 s)
  && bool_decide (ct_runtime_bpe_tree_manifest_sha256 c = sr_built_wheel_bpe_tree_manifest_sha256 s)
  && (rd_file_count bpe =? Z.of_nat (length committed)) && (rd_total_bytes bpe =? zsum (sf_size_bytes <$> committed))
  && bool_decide (ct_runtime_probe_source_sha256 c = sf_sha256 probe_file)
  && bool_decide (ct_runtime_lockfile_sha256 c = sf_sha256 lockfile)
  && bool_decide (na_launcher_source_sha256 (nq_artifact r) = sf_sha256 launcher_source).

(** [identity_case_set_and_artifact_are_exact]; the identifiers of the parser, of the case
    set and of the launcher protocol are literals and agree. *)
Definition identity_case_set_and_artifact_are_exact (r : NativeQualificationReport) : result string unit :=
  let s := nq_source_run r in
  let m := sr_source_manifest s in
  raise "native qualification nonce cannot be an all-zero placeholder"
    when bool_decide (nq_qualification_nonce r = ZERO_SHA256) ;;
  let* case_set := NATIVE_QUALIFICATION_CASE_SET_SHA256 in
  raise "native qualification case-set identity is inconsistent" when differ (nq_case_set_sha256 r) case_set ;;
  raise "native qualification cases have the wrong order or membership"
    when differ (nc_case_name <$> nq_cases r) NATIVE_QUALIFICATION_CASES ;;
  raise "native qualification artifact duplicates differ from cases"
    when differ (ad_case_name <$> na_case_duplicates (nq_artifact r)) (nc_case_name <$> nq_cases r) ;;
  match bpe_distributions (nq_container r) with
  | [] => Err "StopIteration"
  | bpe :: _ =>
      let* probe_file := lookup_file m PROBE_PATH in
      let* lockfile := lookup_file m "uv.lock" in
      let* launcher_source := lookup_file m LAUNCHER_SOURCE_PATH in
      raise "native qualification runtime and source evidence differ"
        when negb (runtime_matches_source r probe_file lockfile launcher_source bpe) ;;
      let* provenance := native_qualification_github_context_bytes s (nq_host r) (nq_container r) (nq_artifact r) in
      raise "native qualification canonical provenance binding is inconsistent"
        when differ (sr_github_context_file_sha256 s) (sha256_bytes provenance)
             || negb (sr_github_context_file_size_bytes s =? Z.of_nat (String.length provenance)) ;;
      let* _ := check_mounts r (sf_sha256 probe_file) in
      let* expected_context := native_qualification_context_sha256 (context_binding r) in
      raise "native qualification context digest is inconsistent" when differ (nq_context_sha256 r) expected_context ;;
      let* expected := inert_native_qualification_id (Report_fields r) in
      raise "native qualification identity is inconsistent" when differ (nq_qualification_id r) expected ;;
      let* bytes := canonical_json_bytes (Report_json r) in
      raise "native qualification report exceeds the fixed byte boundary"
        when MAX_NATIVE_QUALIFICATION_REPORT_BYTES <? Z.of_nat (String.length bytes) ;;
      Ok tt
  end.

Definition validate_Report (r : NativeQualificationReport) : result string unit :=
  check_field "qualification_id" (is_sha256 (nq_qualification_id r)) ;;
  check_field "qualification_nonce" (is_sha256 (nq_qualification_nonce r)) ;;
  check_field "case_set_sha256" (is_sha256 (nq_case_set_sha256 r)) ;;
  check_field "context_sha256" (is_sha256 (nq_context_sha256 r)) ;;
  let* _ := validate_SourceRun (nq_source_run r) in
  let* _ := validate_Host (nq_host r) in
  let* _ := validate_Container (nq_container r) in
  let* _ := validate_Artifact (nq_artifact r) in
  check_field "cases" (length (nq_cases r) =? length NATIVE_QUALIFICATION_CASES)%nat ;;
  let* _ := for_each validate_Case (nq_cases r) in
  identity_case_set_and_artifact_are_exact r.

(** [validate_inert_native_qualification_report] *)
Definition validate_inert_native_qualification_report (r : NativeQualificationReport) : result string NativeQualificationReport :=
  match validate_Report r with
  | Ok _ => Ok r
  | Err _ => Err "native qualification report failed strict replay validation"
  end.
(** [canonical_inert_native_qualification_report_bytes] *)
Definition canonical_inert_native_qualification_report_bytes (r : NativeQualificationReport) : result string string :=
  let* r := validate_inert_native_qualification_report r in
  canonical_json_bytes (Report_json r).

(** [validate_inert_native_qualification_report_bytes]; [read] is the validation library
    reading a parsed object into the fields of a report. *)
Definition validate_inert_native_qualification_report_bytes (read : json -> result string NativeQualificationReport)
    (raw : string) : result string NativeQualificationReport :=
  raise "native qualification report bytes exceed the fixed boundary"
    when negb (within 1 MAX_NATIVE_QUALIFICATION_REPORT_BYTES (Z.of_nat (String.length raw))) ;;
  let checked :=
    let* parsed := strict_json_loads raw in
    match parsed with
    | JObj _ =>
        let* r := read parsed in
        let* r := validate_inert_native_qualification_report r in
        let* bytes := canonical_json_bytes (Report_json r) in
        raise "native qualification report bytes are not canonical" when differ raw bytes ;;
        Ok r
    | _ => Err "native qualification report must be a JSON object"
    end in
  match checked with
  | Ok r => Ok r
  | Err _ => Err "native qualification report bytes failed strict replay validation"
  end.
End NativeEvidence.
