(* ===== verification/NativeEvidenceFacts.v ===== *)
(** * Guarantees of native qualification evidence

    A qualification case is the fixed run of its name, frame by frame, and a report that
    validates certifies the launcher, the source and the runtime of its five cases. *)
From Stdlib Require Import ZArith String Ascii Lia.
From stdpp Require Import base tactics list strings relations.
From S2P Require Import Prelude Sha256 Json JsonFacts Models ModelFacts Text WorkerFacts NativeProtocol Job Sql Dispatch Artifact AdmissionFacts Repository NativeEvidence.
Local Open Scope string_scope.
Local Open Scope Z_scope.

Module NativeEvidenceFacts.
Import Sha256 Json Models ModelFacts WorkerFacts NativeProtocol Job AdmissionFacts NativeEvidence.

(** ** Hexadecimal payloads *)
Lemma nibble_hex n : (n < 16)%N -> is_lower_hex (nibble n) = true /\ nibble_value (nibble n) = n.
Proof.
  intros H. assert (Hn : In n (List.map N.of_nat (seq 0 16)))
    by (apply in_map_iff; exists (N.to_nat n); split; [lia|]; apply in_seq; lia).
  assert (Ha : forallb (fun n => is_lower_hex (nibble n) && (nibble_value (nibble n) =? n)%N) (List.map N.of_nat (seq 0 16)) = true)
    by reflexivity.
  rewrite forallb_forall in Ha. specialize (Ha n Hn). apply andb_true_iff in Ha as [Ha Hv%N.eqb_eq]. done.
Qed.

Lemma hex_roundtrip bs : bytes_fromhex (hex_of bs) = Ok bs.
Proof.
  induction bs as [|b bs IH]; [done|]. cbn [hex_of bytes_fromhex].
  pose proof (Byte.to_N_bounded b) as Hb.
  destruct (nibble_hex (Byte.to_N b / 16)) as [H1 V1]; [apply N.Div0.div_lt_upper_bound; lia|].
  destruct (nibble_hex (Byte.to_N b mod 16)) as [H2 V2]; [apply N.mod_lt; lia|].
  rewrite H1, H2, V1, V2. cbn [andb negb]. rewrite <-N.Div0.div_mod, Byte.of_to_N, IH. done.
Qed.

Lemma hex_shape bs : is_hex (2 * length bs) (hex_of bs) = true.
Proof.
  unfold is_hex. apply andb_true_iff. split.
  - apply Nat.eqb_eq. induction bs as [|b bs IH]; [done|]. cbn [hex_of String.length length]. rewrite IH. lia.
  - induction bs as [|b bs IH]; [done|]. cbn [hex_of str_forall]. pose proof (Byte.to_N_bounded b).
    destruct (nibble_hex (Byte.to_N b / 16)) as [-> _]; [apply N.Div0.div_lt_upper_bound; lia|].
    destruct (nibble_hex (Byte.to_N b mod 16)) as [-> _]; [apply N.mod_lt; lia|]. exact IH.
Qed.

Lemma case_record_ok r n : case_record r = Ok n ->
  to_native_record n = Ok r /\ SocketRecord_ok n = true.
Proof.
  unfold case_record. intros H. apply raise_ok in H as [Hf H]. apply field_ok in H as [Hok H]. apply ok_inj in H as <-.
  split; [|done]. unfold to_native_record. cbn [nr_payload_hex]. rewrite hex_roundtrip. cbn [bind_result].
  destruct r as [p [] [] []]; cbn in Hf; done.
Qed.

Lemma case_records_ok rs ns : map_result case_record rs = Ok ns ->
  map_result to_native_record ns = Ok rs /\ forallb SocketRecord_ok ns = true /\ length ns = length rs.
Proof.
  intros H. pose proof (map_result_length _ _ _ H) as Hl. apply map_result_ok in H. split; [|split; [|done]].
  - apply map_result_ok, Forall2_flip. eapply Forall2_impl; [exact H|]. by intros r n [? _]%case_record_ok.
  - apply forallb_forall. intros n Hn%list_elem_of_In. destruct (forall2_right _ _ _ _ H Hn) as (r & _ & E).
    by apply case_record_ok in E as [_ E].
Qed.

Lemma clean_records_hex fs : exists ns, map_result case_record (clean_record <$> fs) = Ok ns.
Proof.
  destruct (map_result_total case_record (fun _ _ => True) (clean_record <$> fs)) as (ns & E & _); [|eauto].
  intros r (f & -> & _)%list_elem_of_fmap. exists {| nr_payload_hex := hex_of (encode_frame f) |}. split; [|done].
  pose proof (hex_shape (encode_frame f)) as Hh. rewrite length_encode_frame in Hh. change (2 * 64)%nat with 128%nat in Hh.
  unfold case_record, SocketRecord_ok. cbn [clean_record payload message_truncated control_truncated ancillary_present orb nr_payload_hex].
  by rewrite Hh.
Qed.

(** ** The frames a launcher has emitted are determined by their number *)
Definition script (pid c ns : Z) : list InertNativeFrame :=
  [success_frame HELLO STARTUP 0 pid 0; success_frame FT_CHILD_READY CHILD_READY 1 c REQUIRED_CLONE_FLAGS;
   success_frame CHILD_SIGNALED PIDFD_SIGNAL 2 CLD_STOPPED SIGSTOP;
   success_frame CHILD_OBSERVED CHILD_OBSERVATION 3 CLD_KILLED SIGKILL;
   success_frame FINAL CLEANUP 4 ACHIEVED_RESULT_MASK ns].


Lemma reaches_script pid s : launcher_reaches pid s ->
  exists c ns, emitted s = take (length (emitted s)) (script pid c ns)
    /\ ((2 <= length (emitted s))%nat -> announced_child s = Some c /\ valid_pid c /\ c <> pid)
    /\ ((5 <= length (emitted s))%nat -> 0 < ns).
Proof.
  unfold launcher_reaches. revert s. refine (rtc_ind_r _ _ _ _).
  - exists 0, 0. cbn. split; [done|]. split; lia.
  - intros s1 s2 _ H23 (c & ns & He & Hc & _).
    inversion H23 as [fs ch Hl Hp|fs ch c' Hl Hp Hne|fs ch Hl|fs ch Hl|fs ch ns' Hl Hns]; subst; cbn [emitted announced_child] in *;
      rewrite length_app, Hl in *; cbn in He |- *; rewrite He.
    + exists c, ns. split; [done|]. split; lia.
    + exists c', ns. split; [done|]. split; [done|lia].
    + exists c, ns. split; [done|]. split; [|lia]. intros _. apply Hc. lia.
    + exists c, ns. split; [done|]. split; [|lia]. intros _. apply Hc. lia.
    + exists c, ns'. split; [done|]. split; [|lia]. intros _. apply Hc. lia.
Qed.

(** A launcher can emit any beginning of its script. *)
Lemma script_reached pid c ns n : valid_pid pid -> valid_pid c -> c <> pid -> 0 < ns < 2 ^ 64 -> (n <= 5)%nat ->
  launcher_reaches pid (Build_launcher_state (take n (script pid c ns)) (if (n <? 2)%nat then None else Some c)).
Proof.
  intros Hp Hc Hne Hns Hn. unfold launcher_reaches. induction n as [|n IH]; [apply rtc_refl|].
  eapply rtc_r; [apply IH; lia|].
  destruct n as [|[|[|[|[|n]]]]]; [..|lia]; cbn.
  - by apply (emit_hello pid []).
  - by apply (emit_ready pid [_]).
  - by apply (emit_signaled pid [_; _]).
  - by apply (emit_observed pid [_; _; _]).
  - by apply (emit_final pid [_; _; _; _]).
Qed.

(** ** The fixed results, as frames on the socket *)
Definition error_frame (n : Z) (g : NativeStage) (r : NativeReason) (errno mask : Z) : InertNativeFrame :=
  {| frame_type := ERROR; sequence := n; status := FAILED; stage := g; reason := r; system_errno := errno; value0 := mask;
     value1 := 0 |}.

(** What the launcher must have sent in a case. *)
Definition case_frames (name : CaseName) (pid : Z) (fs : list InertNativeFrame) : Prop :=
  match name with
  | success => exists c ns, valid_pid c /\ c <> pid /\ 1 <= ns <= 45000000000 /\ fs = script pid c ns
  | extra_fd => fs = [error_frame 0 DESCRIPTOR_VALIDATION BAD_DESCRIPTOR_LAYOUT 0 0]
  | inbound | peer_close => fs = []
  | emergency_cgroup_kill =>
      exists c, valid_pid c /\ c <> pid
        /\ fs = (take 2 (script pid c 1) ++ [error_frame 2 PIDFD_SIGNAL PIDFD_SIGNAL_FAILED 1 0x1C3])%list
  end.
Definition case_exit (name : CaseName) : NativeExitCode :=
  match name with
  | success => EXIT_OK | extra_fd | inbound => EXIT_STARTUP | peer_close => EXIT_PROTOCOL
  | emergency_cgroup_kill => EXIT_KERNEL
  end.
Definition case_eof (name : CaseName) : bool := bool_decide (name <> peer_close).

Lemma projection_elapsed t : validate_Projection (project t) = Ok tt -> forall ns, elapsed_ns t = Some ns -> 1 <= ns <= 45000000000.
Proof.
  intros H ns E. unfold validate_Projection in H. do 5 (apply field_ok in H as [_ H]). apply field_ok in H as [H _].
  unfold project in H. cbn [pj_elapsed_ns] in H. rewrite E in H. cbn in H. unfold Dispatch.Dispatch.within in H. lia.
Qed.

(** The frames before the error frame number one less. *)
Lemma error_prefix s f (names : list string) : frame_name ∘ frame_type <$> (emitted s ++ [f])%list = names ->
  length (emitted s) = (length names - 1)%nat.
Proof. intros <-. rewrite length_fmap, length_app. cbn. lia. Qed.

Lemma error_frame_eq f n code g r e m : error_admissible n f code -> sequence f = n ->
  stage f = g -> reason f = r -> system_errno f = e -> value0 f = m -> f = error_frame n g r e m.
Proof. intros (H1 & H2 & H3 & _) <- <- <- <- <-. destruct f. cbn in *. by subst. Qed.

Lemma stage_name_inj s s' : stage_name s = stage_name s' -> s = s'.
Proof. by destruct s, s'. Qed.
Lemma reason_name_inj r r' : reason_name r = reason_name r' -> r = r'.
Proof. by destruct r, r'. Qed.

Lemma failure_result pid s f code exit_ stage_ reason_ e names m :
  let p := project (error_transcript pid s f code) in
  error_admissible (Z.of_nat (length (emitted s))) f code -> sequence f = Z.of_nat (length (emitted s)) ->
  pj_frame_types p = names -> pj_launcher_exit_code p = NativeExitCode_value exit_ -> pj_achieved_result_mask p = m ->
  pj_failure_stage p = Some (stage_name stage_) -> pj_failure_reason p = Some (reason_name reason_) ->
  pj_failure_errno p = Some e ->
  NativeExitCode_value code = NativeExitCode_value exit_ /\ length (emitted s) = (length names - 1)%nat
  /\ f = error_frame (Z.of_nat (length names - 1)) stage_ reason_ e m.
Proof.
  intros p Ha Hq Ht Hc Hm Hs Hr He. cbn in Hc, Hm, Hs, Hr, He. apply error_prefix in Ht as Hl. split; [done|]. split; [done|].
  rewrite <-Hl. injection Hs as Hs. injection Hr as Hr. injection He as He.
  eapply error_frame_eq; [exact Ha|done|by apply stage_name_inj|by apply reason_name_inj|done|done].
Qed.

Lemma run_of_case name pid rc fs t : ValidRun pid rc fs t -> validate_Projection (project t) = Ok tt ->
  fixed_result name (project t) = true ->
  rc = NativeExitCode_value (case_exit name) /\ case_eof name = true /\ case_frames name pid fs.
Proof.
  intros HV Hp Hf. destruct HV as [s fin Hr Hl Hlast ->|s f code Hr Hl Hw Hq Ha ->].
  - destruct name; cbn [fixed_result project pj_succeeded success_transcript succeeded negb andb] in Hf; try (by rewrite ?andb_false_r in Hf).
    destruct (reaches_script _ _ Hr) as (c & ns & He & Hc & Hns). rewrite Hl in He, Hc, Hns. cbn in He.
    destruct Hc as (_ & Hc & Hne); [lia|]. split; [done|]. split; [done|]. exists c, ns. split; [done|]. split; [done|].
    split; [|done]. apply (projection_elapsed _ Hp). rewrite He in Hlast. cbn in Hlast. injection Hlast as <-. done.
  - destruct (reaches_script _ _ Hr) as (c & ns & He & Hc & _).
    destruct name; cbn [fixed_result] in Hf; rewrite !andb_true_iff, ?Z.eqb_eq, ?bool_decide_eq_true, ?negb_true_iff in Hf.
    + by destruct Hf as ((((((? & _) & _) & _) & _) & _) & _).
    + destruct Hf as (((((((_ & Ht) & Hx) & _) & Hm) & Hs) & Hre) & Her).
      destruct (failure_result _ _ _ _ EXIT_STARTUP DESCRIPTOR_VALIDATION BAD_DESCRIPTOR_LAYOUT _ _ _ Ha Hq Ht Hx Hm Hs Hre Her)
        as (E1 & E2 & ->). cbn in E2. rewrite E2 in He. cbn in He. rewrite He. done.
    + by destruct Hf as ((((((((? & _) & _) & _) & _) & _) & _) & _) & _).
    + by destruct Hf as ((((((((? & _) & _) & _) & _) & _) & _) & _) & _).
    + destruct Hf as ((((((((_ & _) & Ht) & Hx) & _) & Hm) & Hs) & Hre) & Her).
      destruct (failure_result _ _ _ _ EXIT_KERNEL PIDFD_SIGNAL PIDFD_SIGNAL_FAILED _ _ _ Ha Hq Ht Hx Hm Hs Hre Her)
        as (E1 & E2 & ->). cbn in E2. rewrite E2 in He, Hc. destruct Hc as (_ & Hc & Hne); [lia|].
      split; [done|]. split; [done|]. exists c. split; [done|]. split; [done|]. by rewrite He.
Qed.

Lemma within_true lo hi z : lo <= z <= hi -> Dispatch.Dispatch.within lo hi z = true.
Proof. intros H. unfold Dispatch.Dispatch.within. lia. Qed.

Lemma pid_ok_iff p : pid_ok p = true <-> valid_pid p.
Proof. unfold pid_ok, valid_pid, Dispatch.Dispatch.within. lia. Qed.

Lemma reaches_none pid : launcher_reaches pid (Build_launcher_state [] None).
Proof. apply rtc_refl. Qed.

Lemma run_with_error pid s n g r e m code : launcher_reaches pid s -> length (emitted s) = n -> (n < 5)%nat ->
  wf_frame (error_frame (Z.of_nat n) g r e m) -> error_admissible (Z.of_nat n) (error_frame (Z.of_nat n) g r e m) code ->
  ValidRun pid (NativeExitCode_value code) (emitted s ++ [error_frame (Z.of_nat n) g r e m])
    (error_transcript pid s (error_frame (Z.of_nat n) g r e m) code).
Proof. intros Hr Hl Hn Hw Ha. apply run_error; subst n; done. Qed.

(** The projection of a concrete transcript, field by field. *)
Ltac projection_tac :=
  unfold validate_Projection, project, success_transcript, error_transcript;
  cbn [pj_frame_types pj_launcher_exit_code pj_launcher_pid pj_child_pid pj_achieved_result_mask pj_elapsed_ns
    pj_failure_stage pj_failure_reason pj_failure_errno opt_ok frames emitted launcher_exit_code launcher_pid child_pid
    announced_child achieved_result_mask elapsed_ns value0 value1 success_frame error_frame failure_stage failure_reason
    failure_errno].

Lemma descriptor_error : error_admissible 0 (error_frame 0 DESCRIPTOR_VALIDATION BAD_DESCRIPTOR_LAYOUT 0 0) EXIT_STARTUP.
Proof.
  split; [done|]. split; [done|]. split; [done|]. split; [exists [0]; split; [done|left]|]. split; [|done].
  unfold errno_admissible. cbn [reason stage value0 system_errno error_frame]. split; [done|]. split; [|done].
  intros [H|H]; [done|]. revert H. apply (bool_decide_unpack _). by vm_compute.
Qed.

Lemma signal_error : error_admissible 2 (error_frame 2 PIDFD_SIGNAL PIDFD_SIGNAL_FAILED 1 0x1C3) EXIT_KERNEL.
Proof.
  split; [done|]. split; [done|]. split; [done|]. split; [exists [0x1C3]; split; [done|left]|]. split; [|done].
  unfold errno_admissible. cbn [reason stage value0 system_errno error_frame]. split; [|done].
  intros [H|H]; exfalso; revert H; apply (bool_decide_unpack _); by vm_compute.
Qed.

Lemma case_of_run name pid fs : valid_pid pid -> case_frames name pid fs -> case_eof name = true -> name <> inbound ->
  exists t, ValidRun pid (NativeExitCode_value (case_exit name)) fs t /\ validate_Projection (project t) = Ok tt
    /\ fixed_result name (project t) = true.
Proof.
  intros Hp Hf He Hi. pose proof (proj2 (pid_ok_iff _) Hp) as Hpk. destruct name; try done; cbn [case_frames] in Hf.
  - destruct Hf as (c & ns & Hc & Hne & Hns & ->). pose proof (proj2 (pid_ok_iff _) Hc) as Hck.
    pose proof (script_reached pid c ns 5 Hp Hc Hne ltac:(lia) ltac:(lia)) as Hr. cbn in Hr.
    eexists. split; [by eapply (run_success pid 0 _ _ Hr)|]. split; [|done].
    projection_tac. rewrite Hpk, Hck, (within_true 1 45000000000 ns) by lia. done.
  - subst fs. eexists. split; [|split].
    + apply (run_with_error pid (Build_launcher_state [] None) 0 _ _ _ _ EXIT_STARTUP); [apply reaches_none|done|lia| |].
      * by split_and!.
      * apply descriptor_error.
    + projection_tac. by rewrite Hpk.
    + done.
  - destruct Hf as (c & Hc & Hne & ->). pose proof (proj2 (pid_ok_iff _) Hc) as Hck.
    pose proof (script_reached pid c 1 2 Hp Hc Hne ltac:(lia) ltac:(lia)) as Hr. cbn in Hr.
    eexists. split; [|split].
    + eapply (run_with_error pid _ 2 _ _ _ _ EXIT_KERNEL Hr); [done|lia| |].
      * by split_and!.
      * apply signal_error.
    + projection_tac. by rewrite Hpk, Hck.
    + done.
Qed.

(** ** Cases *)
Lemma cleanup_validated c : validate_CaseCleanup c = Ok tt <-> c = CLEAN.
Proof. destruct c as [[] [] [] [] [] []]; cbn; split; done. Qed.

(** What a case records: the run, and what the parser makes of it. *)
Definition case_run (name : CaseName) (pid rc : Z) (eof : bool) (records : list InertNativeSocketRecord) : Prop :=
  valid_pid pid /\ eof = case_eof name /\ rc = NativeExitCode_value (case_exit name)
  /\ exists fs, records = clean_record <$> fs /\ case_frames name pid fs.

Lemma rejected_run name pid category code_ eof : valid_pid pid -> expected_rejection name = Some (category, code_, eof) ->
  case_run name pid code_ eof [] /\ REJECTION_CATEGORIES name = Some category
  /\ exists e, parse_inert_native_transcript [] code_ eof pid = Err e.
Proof.
  intros Hp E. pose proof (proj2 (pid_ok_iff _) Hp) as Hpk. unfold pid_ok, Dispatch.Dispatch.within in Hpk.
  assert (Hr : forall rc eof', case_eof name = eof' -> rc = NativeExitCode_value (case_exit name) -> case_frames name pid [] ->
            case_run name pid rc eof' []) by (intros rc eof' <- -> Hf; split_and!; try done; by exists []).
  destruct name; try discriminate E; injection E as <- <- <-; (split; [by apply Hr|]); (split; [done|]);
    unfold parse_inert_native_transcript; cbn [negb]; rewrite ?Hpk; cbn; eauto.
Qed.

Lemma case_replay_sound c : pid_ok (nc_launcher_pid c) = true -> injection_digest_and_replay_are_exact c = Ok tt ->
  exists records, map_result to_native_record (nc_records c) = Ok records
    /\ case_run (nc_case_name c) (nc_launcher_pid c) (nc_returncode c) (nc_eof_observed c) records
    /\ nc_parser_projection c
       = match parse_inert_native_transcript records (nc_returncode c) (nc_eof_observed c) (nc_launcher_pid c) with
         | Ok t => Some (project t) | Err _ => None end.
Proof.
  intros Hp%pid_ok_iff H. unfold injection_digest_and_replay_are_exact in H.
  apply raise_ok in H as [_ H]. apply bind_ok in H as (d & _ & H). apply raise_ok in H as [_ H].
  apply bind_ok in H as (records & Hr & H). exists records. split; [done|].
  destruct (parse_inert_native_transcript records _ _ _) as [t|e] eqn:Ht.
  - apply bind_ok in H as (p & Hpj & H). apply raise_ok in H as [Hx H]. apply raise_ok in H as [Hf%negb_false_iff _].
    apply construct_ok in Hpj as [Hv ->]. rewrite !orb_false_iff in Hx. destruct Hx as [[[_ _] _] Hx].
    unfold differ in Hx. apply bool_decide_neg_false in Hx. split; [|done].
    apply parse_characterisation in Ht as (-> & _ & fs & -> & HV).
    destruct (run_of_case _ _ _ _ _ HV Hv Hf) as (-> & He & Hfr). split_and!; try done. by exists fs.
  - apply raise_ok in H as [Hx _]. destruct (expected_rejection (nc_case_name c)) as [[[category code_] eof]|] eqn:E; [|done].
    unfold differ in Hx. rewrite !orb_false_iff, !negb_false_iff in Hx. destruct Hx as [[[[[_ Hpn] _] Hc] He] Hl].
    apply bool_decide_eq_true in Hpn. apply Z.eqb_eq in Hc. apply eqb_prop in He. apply Nat.eqb_eq, length_zero_iff_nil in Hl.
    split; [|done]. rewrite Hl in Hr. apply ok_inj in Hr as <-. rewrite Hc, He. by eapply rejected_run.
Qed.

Lemma case_validated c : validate_Case c = Ok tt ->
  nc_cleanup c = CLEAN
  /\ exists records, map_result to_native_record (nc_records c) = Ok records
    /\ case_run (nc_case_name c) (nc_launcher_pid c) (nc_returncode c) (nc_eof_observed c) records
    /\ nc_parser_projection c
       = match parse_inert_native_transcript records (nc_returncode c) (nc_eof_observed c) (nc_launcher_pid c) with
         | Ok t => Some (project t) | Err _ => None end.
Proof.
  intros H. unfold validate_Case in H. apply bind_ok in H as (? & _ & H). apply field_ok in H as [Hp H].
  do 3 (apply field_ok in H as [_ H]). apply bind_ok in H as (? & _ & H). apply field_ok in H as [_ H].
  apply bind_ok in H as ([] & Hc & H). split; [by apply cleanup_validated|by apply case_replay_sound].
Qed.

(** ** Digests of cases *)
Lemma plain_encodes v : text_only (Text.Text.utf8_ok false) v = true -> exists b, canonical_json_bytes v = Ok b.
Proof.
  intros (t & Ht & Hu)%dumps_utf8. unfold canonical_json_bytes. rewrite Ht. cbn [bind_result].
  rewrite (strict_no_surrogate _ Hu). eauto.
Qed.

Lemma domain_digest_total prefix v : text_only (Text.Text.utf8_ok false) v = true ->
  exists d, domain_digest prefix v = Ok d /\ is_sha256 d = true.
Proof. intros (b & Hb)%plain_encodes. unfold domain_digest. rewrite Hb. eexists. split; [reflexivity|apply is_sha256_bytes]. Qed.

Lemma small_int z : 0 <= z < 2 ^ 64 -> int_convertible z = true.
Proof.
  intros H. unfold int_convertible. assert (Hl : Z.log2 (Z.abs z) < 14000); [|by rewrite (proj2 (Z.ltb_lt _ _) Hl)].
  rewrite Z.abs_eq by lia. destruct (Z.eq_dec z 0) as [->|]; [done|].
  assert (Z.log2 z < 64) by (apply Z.log2_lt_pow2; lia). lia.
Qed.

Lemma hex_text n s : is_hex n s = true -> Text.Text.utf8_ok false s = true.
Proof.
  intros [_ H]%andb_true_iff. apply Text.Text.ascii_utf8. induction s as [|c s IH]; [done|]. cbn in H |- *.
  apply andb_true_iff in H as [Hc H]. rewrite (IH H), andb_true_r. unfold Text.Text.is_ascii.
  unfold is_lower_hex, is_digit in Hc. apply Z.ltb_lt. apply orb_true_iff in Hc as [Hc|Hc]; lia.
Qed.

Lemma preimage_digest name pid rc eof ns : valid_pid pid -> 0 <= rc <= 255 -> forallb SocketRecord_ok ns = true ->
  exists d, domain_digest NATIVE_QUALIFICATION_TRANSCRIPT_DOMAIN
    (JObj (transcript_preimage name (INJECTION_CONTRACTS name) pid rc eof ns)) = Ok d /\ is_sha256 d = true.
Proof.
  intros Hp Hr Hn. apply domain_digest_total. unfold transcript_preimage. cbn [text_only forallb fst snd].
  assert (Hpid : int_convertible pid = true) by (apply small_int; unfold valid_pid in Hp; change LINUX_MAX_PID with 4194303 in Hp; lia).
  assert (Hrc : int_convertible rc = true) by (apply small_int; lia).
  assert (Hns : forallb (text_only (Text.Text.utf8_ok false)) (SocketRecord_json <$> ns) = true).
  { rewrite forallb_forall in Hn |- *. intros v Hv%list_elem_of_In. apply list_elem_of_fmap in Hv as (r & -> & Hin).
    apply list_elem_of_In, Hn, hex_text in Hin. unfold SocketRecord_json. cbn [text_only forallb fst snd]. by rewrite Hin. }
  rewrite Hpid, Hrc, Hns. by destruct name.
Qed.

Lemma case_frames_length name pid fs : case_frames name pid fs -> (length fs <= 5)%nat.
Proof. destruct name; cbn [case_frames]; [intros (c & ns & _ & _ & _ & ->)|intros ->..|intros (c & _ & _ & ->)]; cbn; lia. Qed.

(** What the parser makes of the run of a case, and what the case then records. *)
Lemma case_replay name pid rc eof records : case_run name pid rc eof records ->
  match parse_inert_native_transcript records rc eof pid with
  | Ok t => expected_rejection name = None /\ (name ∉ [inbound; peer_close]) /\ validate_Projection (project t) = Ok tt
            /\ fixed_result name (project t) = true
  | Err _ => exists category, expected_rejection name = Some (category, rc, eof) /\ REJECTION_CATEGORIES name = Some category
             /\ records = []
  end.
Proof.
  intros (Hp & -> & -> & fs & -> & Hf).
  assert (Hn : name <> inbound -> name <> peer_close -> expected_rejection name = None /\ case_eof name = true /\ (name ∉ [inbound; peer_close]))
    by (destruct name; try done; intros _ _; split_and!; try done; apply (bool_decide_unpack _); by vm_compute).
  destruct (expected_rejection name) as [[[category code_] eof]|] eqn:E.
  - assert (fs = [] /\ code_ = NativeExitCode_value (case_exit name) /\ eof = case_eof name) as (-> & -> & ->)
      by (destruct name; try discriminate E; injection E as <- <- <-; done).
    destruct (rejected_run _ _ _ _ _ Hp E) as (_ & Hr & e & Hpe). cbn [fmap list_fmap]. rewrite Hpe. eauto.
  - destruct Hn as (_ & He & Hout); [by intros ->..|].
    destruct (case_of_run name pid fs Hp Hf He) as (t & HV & Hv & Hx); [by intros ->|].
    by rewrite He, (proj2 (parse_characterisation _ _ _ _ t)) by eauto.
Qed.

Lemma case_built name pid rc eof records : case_run name pid rc eof records ->
  exists c, build_case name pid rc eof records CLEAN = Ok c.
Proof.
  intros Hrun. pose proof (case_replay _ _ _ _ _ Hrun) as Hpar. destruct Hrun as (Hp & He & Hrc & fs & Hfs & Hf).
  pose proof (proj2 (pid_ok_iff _) Hp) as Hpk.
  destruct (clean_records_hex fs) as (ns & Hns). rewrite <-Hfs in Hns. destruct (case_records_ok _ _ Hns) as (Hback & Hok & Hlen).
  assert (Hr255 : 0 <= rc <= 255) by (rewrite Hrc; destruct name; cbn; lia).
  destruct (preimage_digest name pid rc eof ns Hp Hr255 Hok) as (d & Hd & Hsha).
  assert (Hinj : validate_Injection (INJECTION_CONTRACTS name) = Ok tt) by (destruct name; by vm_compute).
  assert (Hlen8 : (Z.of_nat (length ns) <=? PROTOCOL_MAX_FRAMES) = true).
  { apply case_frames_length in Hf. rewrite Hlen, Hfs, length_fmap. unfold PROTOCOL_MAX_FRAMES. lia. }
  unfold build_case. rewrite Hns. cbn [bind_result]. rewrite Hinj. cbn [bind_result].
  destruct (parse_inert_native_transcript records rc eof pid) as [t|e] eqn:Ht.
  - destruct Hpar as (Hnone & Hout & Hv & Hx). unfold projection_for at 1. rewrite (proj2 (construct_ok _ _ _) (conj Hv eq_refl)).
    cbn [bind_result]. rewrite Hd. cbn [bind_result]. eexists. apply construct_ok. split; [|reflexivity].
    unfold validate_Case, injection_digest_and_replay_are_exact, case_preimage.
    cbn [nc_injection nc_launcher_pid nc_returncode nc_records nc_transcript_sha256 nc_parser_projection nc_parser_rejection nc_cleanup
      nc_case_name nc_eof_observed nc_parser_outcome opt_ok].
    rewrite Hinj, Hpk, (within_true 0 255 rc Hr255), Hlen8, Hok, Hsha, Hv. cbn [bind_result andb].
    rewrite (proj2 (cleanup_validated CLEAN) eq_refl). cbn [bind_result]. unfold differ. rewrite !bool_decide_eq_true_2 by done.
    cbn [negb]. rewrite Hd. cbn [bind_result]. rewrite bool_decide_eq_true_2 by done. cbn [negb]. rewrite Hback. cbn [bind_result].
    rewrite Ht. unfold projection_for. rewrite (proj2 (construct_ok _ _ _) (conj Hv eq_refl)). cbn [bind_result].
    rewrite bool_decide_eq_false_2 by done. rewrite !bool_decide_eq_true_2 by done. cbn [negb orb]. by rewrite Hx.
  - destruct Hpar as (category & Hrej & Hcat & Hnil). cbn [bind_result]. rewrite Hd. cbn [bind_result]. eexists.
    apply construct_ok. split; [|reflexivity].
    unfold validate_Case, injection_digest_and_replay_are_exact, case_preimage.
    cbn [nc_injection nc_launcher_pid nc_returncode nc_records nc_transcript_sha256 nc_parser_projection nc_parser_rejection nc_cleanup
      nc_case_name nc_eof_observed nc_parser_outcome opt_ok].
    rewrite Hinj, Hpk, (within_true 0 255 rc Hr255), Hlen8, Hok, Hsha, Hcat. cbn [bind_result andb opt_ok].
    assert (Hcat' : bool_decide (category ∈ ["empty_transcript"; "eof_not_observed"]) = true)
      by (destruct name; try discriminate Hcat; injection Hcat as <-; by vm_compute).
    rewrite Hcat', (proj2 (cleanup_validated CLEAN) eq_refl). cbn [bind_result]. unfold differ. rewrite !bool_decide_eq_true_2 by done.
    cbn [negb]. rewrite Hd. cbn [bind_result]. rewrite bool_decide_eq_true_2 by done. cbn [negb]. rewrite Hback. cbn [bind_result].
    rewrite Ht, Hrej, !bool_decide_eq_true_2, Z.eqb_refl, eqb_reflx by done. rewrite Hnil in Hlen. by destruct ns.
Qed.

Lemma build_case_inv name pid rc eof records cleanup c : build_case name pid rc eof records cleanup = Ok c ->
  validate_Case c = Ok tt /\ nc_case_name c = name /\ nc_launcher_pid c = pid /\ nc_returncode c = rc /\ nc_eof_observed c = eof
  /\ nc_cleanup c = cleanup /\ map_result to_native_record (nc_records c) = Ok records.
Proof.
  intros H. unfold build_case in H. apply bind_ok in H as (ns & [Hns _]%case_records_ok & H). apply bind_ok in H as (? & _ & H).
  apply bind_ok in H as ([[outcome projection] rejection] & _ & H). apply bind_ok in H as (d & _ & H).
  apply construct_ok in H as [Hv ->]. done.
Qed.

(** C25. A qualification case is exactly the fixed run of its name.  From the records read
    on the control socket, [build_inert_native_qualification_case] builds a case if and
    only if the probe's cleanup was complete and the launcher, with a possible pid, left
    exactly the exit code, the end of file and, byte for byte, the frames of that case:
    the whole script with another pid for the child and at most 45 seconds for [success],
    one descriptor error for [extra-fd], nothing for [inbound] and [peer-close], and for
    [emergency-cgroup-kill] the two opening frames and the failed signal with its mask.
    Every case that is built replays: it keeps what was observed, its record gives back the
    socket records and its stored projection is the one of the transcript. *)
Theorem qualified_case_exact name pid rc eof records cleanup :
  ((exists c, build_inert_native_qualification_case name pid rc eof records cleanup = Ok c)
   <-> cleanup = CLEAN /\ case_run name pid rc eof records)
  /\ forall c, build_inert_native_qualification_case name pid rc eof records cleanup = Ok c ->
       (nc_case_name c, nc_launcher_pid c, nc_returncode c, nc_eof_observed c) = (name, pid, rc, eof)
       /\ map_result to_native_record (nc_records c) = Ok records
       /\ replay_inert_native_qualification_case c
          = Ok match parse_inert_native_transcript records rc eof pid with Ok t => Some (project t) | Err _ => None end.
Proof.
  assert (Hinv : forall c, build_inert_native_qualification_case name pid rc eof records cleanup = Ok c ->
    build_case name pid rc eof records cleanup = Ok c).
  { intros c. unfold build_inert_native_qualification_case. by destruct (build_case _ _ _ _ _ _). }
  split; [split|].
  - intros (c & (Hv & <- & <- & <- & <- & <- & Hr)%Hinv%build_case_inv).
    apply case_validated in Hv as (Hc & records' & Hr' & Hrun & _). rewrite Hr in Hr'. by apply ok_inj in Hr' as <-.
  - intros [-> Hrun]. destruct (case_built _ _ _ _ _ Hrun) as (c & E). exists c.
    unfold build_inert_native_qualification_case. by rewrite E.
  - intros c (Hv & <- & <- & <- & <- & _ & Hr)%Hinv%build_case_inv. split_and!; try done.
    unfold replay_inert_native_qualification_case. rewrite Hv. f_equal.
    apply case_validated in Hv as (_ & records' & Hr' & _ & Hp). rewrite Hr in Hr'. apply ok_inj in Hr' as <-. exact Hp.
Qed.

(** ** Reports *)
Lemma for_each_in {E A} (f : A -> result E unit) l : for_each f l = Ok tt -> forall x, x ∈ l -> f x = Ok tt.
Proof. rewrite for_each_ok, Forall_forall. done. Qed.

Lemma mounts_bound r probe_digest : mb_purpose <$> iv_mount_bindings (ct_invocation (nq_container r)) = MOUNT_PURPOSES ->
  check_mounts r probe_digest = Ok tt -> forall m, m ∈ iv_mount_bindings (ct_invocation (nq_container r)) ->
  (mb_source_sha256 m, mb_source_size_bytes m) = expected_mount_source r probe_digest (mb_purpose m).
Proof.
  intros Hp Hc m Hm. set (l := iv_mount_bindings _) in *.
  assert (Hn : NoDup ((fun m => (mb_purpose m, m)) <$> l).*1).
  { rewrite <-list_fmap_compose. change (fst ∘ _) with mb_purpose. rewrite Hp. apply (bool_decide_unpack _). by vm_compute. }
  assert (Hin : mb_purpose m ∈ MOUNT_PURPOSES) by (rewrite <-Hp; by apply list_elem_of_fmap_2).
  pose proof (for_each_in _ _ Hc _ Hin) as H. cbv beta in H. rewrite (dict_of_id _ Hn) in H.
  rewrite (proj2 (dict_get_Some _ (mb_purpose m) m Hn)) in H; [|by apply (list_elem_of_fmap_2 (fun m => (mb_purpose m, m)))].
  apply raise_ok in H as [H _]. unfold differ in H. by apply bool_decide_neg_false in H.
Qed.

(** What a report certifies. *)
Record report_facts (r : NativeQualificationReport) : Prop := {
  (** the five cases, in order, each the fixed run of its name *)
  rf_names : nc_case_name <$> nq_cases r = NATIVE_QUALIFICATION_CASES;
  rf_cases c : c ∈ nq_cases r -> nc_cleanup c = CLEAN
    /\ exists records, map_result to_native_record (nc_records c) = Ok records
         /\ case_run (nc_case_name c) (nc_launcher_pid c) (nc_returncode c) (nc_eof_observed c) records;
  (** all executed from one sealed copy of the preflighted launcher *)
  rf_artifact : Artifact.validate_PreflightReceipt (na_preflight_receipt (nq_artifact r)) = Ok tt
    /\ na_launcher_sha256 (nq_artifact r) = Artifact.pf_sealed_copy_sha256 (na_preflight_receipt (nq_artifact r));
  rf_duplicates d : d ∈ na_case_duplicates (nq_artifact r) ->
    ad_duplicate_sha256 d = na_launcher_sha256 (nq_artifact r) /\ ad_duplicate_size_bytes d = na_launcher_size_bytes (nq_artifact r)
    /\ ad_duplicate_mode d = Artifact.SEALED_EXECUTABLE_MODE;
  rf_inode d d' : d ∈ na_case_duplicates (nq_artifact r) -> d' ∈ na_case_duplicates (nq_artifact r) ->
    (ad_duplicate_device d, ad_duplicate_inode d) = (ad_duplicate_device d', ad_duplicate_inode d');
  (** by the installed wheel, whose tree is the tree of the commit *)
  rf_tree : native_qualification_commit_bpe_tree_manifest_sha256 (sr_source_manifest (nq_source_run r))
            = Ok (ct_runtime_bpe_tree_manifest_sha256 (nq_container r));
  rf_wheel : ct_runtime_distribution_wheel_sha256 (nq_container r) = sr_built_wheel_sha256 (nq_source_run r);
  rf_commit : sr_git_commit (nq_source_run r) = up_head_sha (sr_upstream_workflow_run (nq_source_run r));
  (** with every mount bound to the evidence of the report *)
  rf_mounts : exists probe_file, lookup_file (sr_source_manifest (nq_source_run r)) PROBE_PATH = Ok probe_file
    /\ forall m, m ∈ iv_mount_bindings (ct_invocation (nq_container r)) ->
         (mb_target_path m, mb_target_kind m, mb_readonly m, mb_target_mode m) = MOUNT_CONTRACTS (mb_purpose m)
         /\ (mb_source_sha256 m, mb_source_size_bytes m) = expected_mount_source r (sf_sha256 probe_file) (mb_purpose m);
  (** and the identity covers all of it *)
  rf_id : domain_digest NATIVE_QUALIFICATION_DOMAIN (JObj (Report_fields r)) = Ok (nq_qualification_id r)
}.

Lemma artifact_validated a : validate_Artifact a = Ok tt ->
  Artifact.validate_PreflightReceipt (na_preflight_receipt a) = Ok tt
  /\ na_launcher_sha256 a = Artifact.pf_sealed_copy_sha256 (na_preflight_receipt a)
  /\ (forall d, d ∈ na_case_duplicates a -> ad_duplicate_sha256 d = na_launcher_sha256 a
        /\ ad_duplicate_size_bytes d = na_launcher_size_bytes a /\ ad_duplicate_mode d = Artifact.SEALED_EXECUTABLE_MODE)
  /\ forall d d', d ∈ na_case_duplicates a -> d' ∈ na_case_duplicates a ->
       (ad_duplicate_device d, ad_duplicate_inode d) = (ad_duplicate_device d', ad_duplicate_inode d').
Proof.
  intros H. unfold validate_Artifact in H. do 7 (apply field_ok in H as [_ H]). apply bind_ok in H as ([] & Hp & H).
  do 3 (apply field_ok in H as [_ H]). apply bind_ok in H as (? & _ & H). unfold artifact_bindings_are_exact in H.
  apply raise_ok in H as [Hb H]. apply raise_ok in H as [_ H]. apply raise_ok in H as [Hd H]. apply raise_ok in H as [Hi _].
  unfold differ in Hb, Hd. rewrite !orb_false_iff, !negb_false_iff, !bool_decide_eq_true in Hb.
  destruct Hb as [[[[_ Hs] Hl] _] _]. split; [done|]. split; [congruence|]. split.
  - intros d Hin. pose proof (existsb_none _ _ _ Hd Hin) as Hx. cbv beta in Hx.
    rewrite !orb_false_iff, !negb_false_iff, bool_decide_eq_true, !Z.eqb_eq in Hx. tauto.
  - intros d d' Hin Hin'. apply negb_false_iff, Nat.eqb_eq in Hi.
    set (f := fun d => (ad_duplicate_device d, ad_duplicate_inode d)) in *.
    assert (Hf : forall e, e ∈ na_case_duplicates a -> f e ∈ remove_dups (f <$> na_case_duplicates a))
      by (intros e He; apply elem_of_remove_dups; by apply list_elem_of_fmap_2).
    destruct (remove_dups _) as [|y [|z l]]; try discriminate Hi.
    pose proof (Hf d Hin) as E%list_elem_of_singleton. pose proof (Hf d' Hin') as E'%list_elem_of_singleton. unfold f in *. congruence.
Qed.

Lemma source_run_validated s : validate_SourceRun s = Ok tt ->
  native_qualification_commit_bpe_tree_manifest_sha256 (sr_source_manifest s) = Ok (sr_commit_bpe_tree_manifest_sha256 s)
  /\ sr_git_commit s = up_head_sha (sr_upstream_workflow_run s).
Proof.
  intros H. unfold validate_SourceRun in H. do 3 (apply field_ok in H as [_ H]). apply bind_ok in H as (? & _ & H).
  do 12 (apply field_ok in H as [_ H]). apply bind_ok in H as (? & _ & H). apply field_ok in H as [_ H].
  unfold workflow_binding_is_exact in H. apply bind_ok in H as (? & _ & H). apply raise_ok in H as [_ H].
  apply bind_ok in H as (tree & Ht & H). apply raise_ok in H as [Hd H]. apply bind_ok in H as (? & _ & H).
  apply raise_ok in H as [_ H]. apply bind_ok in H as (? & _ & H). apply raise_ok in H as [_ H]. apply raise_ok in H as [Hc _].
  unfold differ in Hd. apply bool_decide_neg_false in Hd. split; [by rewrite Ht, Hd|].
  apply negb_false_iff, andb_true_iff in Hc as [H1%bool_decide_eq_true H2%bool_decide_eq_true]. congruence.
Qed.

Lemma container_validated c : validate_Container c = Ok tt ->
  mb_purpose <$> iv_mount_bindings (ct_invocation c) = MOUNT_PURPOSES
  /\ forall m, m ∈ iv_mount_bindings (ct_invocation c) ->
       (mb_target_path m, mb_target_kind m, mb_readonly m, mb_target_mode m) = MOUNT_CONTRACTS (mb_purpose m).
Proof.
  intros H. unfold validate_Container in H. apply bind_ok in H as ([] & H & _). unfold validate_Invocation in H.
  do 6 (apply field_ok in H as [_ H]). apply bind_ok in H as ([] & Hm & H). unfold image_and_invocation_digest_are_exact in H.
  apply raise_ok in H as [_ H]. apply bind_ok in H as (? & _ & H). apply raise_ok in H as [_ H]. apply raise_ok in H as [Hp _].
  unfold differ in Hp. apply bool_decide_neg_false in Hp. split; [done|]. intros m Hin.
  pose proof (for_each_in _ _ Hm m Hin) as Hv. unfold validate_MountBinding in Hv. do 5 (apply field_ok in Hv as [_ Hv]).
  unfold fixed_mount_contract_is_exact in Hv. apply raise_ok in Hv as [Hv _]. unfold differ in Hv. by apply bool_decide_neg_false in Hv.
Qed.

Lemma runtime_source_agree r p l s b : runtime_matches_source r p l s b = true ->
  ct_runtime_distribution_wheel_sha256 (nq_container r) = sr_built_wheel_sha256 (nq_source_run r)
  /\ ct_runtime_bpe_tree_manifest_sha256 (nq_container r) = sr_commit_bpe_tree_manifest_sha256 (nq_source_run r).
Proof. unfold runtime_matches_source. rewrite !andb_true_iff, !bool_decide_eq_true. intros H. split; [tauto|]. intuition congruence. Qed.

Lemma report_validated r : validate_Report r = Ok tt -> report_facts r.
Proof.
  intros H. unfold validate_Report in H. do 4 (apply field_ok in H as [_ H]). apply bind_ok in H as ([] & Hs & H).
  apply bind_ok in H as (? & _ & H). apply bind_ok in H as ([] & Hc & H). apply bind_ok in H as ([] & Ha & H).
  apply field_ok in H as [_ H]. apply bind_ok in H as ([] & Hcs & H). unfold identity_case_set_and_artifact_are_exact in H.
  apply raise_ok in H as [_ H]. apply bind_ok in H as (? & _ & H). apply raise_ok in H as [_ H]. apply raise_ok in H as [Hn H].
  apply raise_ok in H as [_ H]. destruct (bpe_distributions (nq_container r)) as [|bpe l]; [done|].
  apply bind_ok in H as (probe_file & Hpf & H). apply bind_ok in H as (lock & _ & H). apply bind_ok in H as (src & _ & H).
  apply raise_ok in H as [Hm%negb_false_iff H]. apply bind_ok in H as (? & _ & H). apply raise_ok in H as [_ H].
  apply bind_ok in H as ([] & Hmt & H). apply bind_ok in H as (? & _ & H). apply raise_ok in H as [_ H].
  apply bind_ok in H as (id & Hid & H). apply raise_ok in H as [Hd _].
  destruct (artifact_validated _ Ha) as (A1 & A2 & A3 & A4). destruct (source_run_validated _ Hs) as [S1 S2].
  destruct (container_validated _ Hc) as [C1 C2]. destruct (runtime_source_agree _ _ _ _ _ Hm) as [R1 R2].
  unfold differ in Hn, Hd. apply bool_decide_neg_false in Hn, Hd. split; try done.
  - intros c Hin. pose proof (for_each_in _ _ Hcs c Hin) as (Hcl & records & Hr & Hrun & _)%case_validated. eauto.
  - by rewrite R2.
  - exists probe_file. split; [done|]. intros m Hin. split; [by apply C2|by apply mounts_bound].
  - unfold inert_native_qualification_id in Hid. apply raise_ok in Hid as [_ Hid]. by rewrite Hid, Hd.
Qed.

(** C26. A report that validates certifies the whole run.  Its five cases are, in order,
    the fixed runs of their names with complete cleanups; all were executed from one
    sealed copy, the same file, of the launcher of a valid preflight receipt; the runtime
    is the built wheel, whose package tree is the tree of the commit that continuous
    integration ran; every mount has its fixed contract and the evidence of the report;
    and the identity is the digest of every field.  Validation changes nothing. *)
Theorem native_report_sound r :
  match validate_inert_native_qualification_report r with
  | Ok r' => r' = r /\ report_facts r
  | Err _ => True
  end.
Proof.
  unfold validate_inert_native_qualification_report. destruct (validate_Report r) as [[]|] eqn:H; [|done].
  split; [done|by apply report_validated].
Qed.
End NativeEvidenceFacts.
